(* ===== verification/_CoqProject ===== *)
-Q . S2P
Prelude.v
Mem.v
KHeap.v
Alloc.v
Dll.v
Blocks.v
PhysMem.v
KvmHeap.v
Paging.v
AddrSpace.v
Strings.v
Time.v
DataStructs.v
Errors.v
Storage.v
Fat.v
FatDir.v
Ext2.v
Ext2Read.v
Ext2Dir.v
Ext2Disk.v
Iso9660.v
Devfs.v
Vfs.v
Elf.v
Sched.v
Groups.v
Signals.v
Vga.v
Streams.v
Tty.v
TtyLine.v
Keyboard.v
SysFiles.v
SysTable.v
Process.v
ProcMem.v
ProcInit.v
SysProc.v
Ports.v
Pci.v
Ata.v
Boot.v
VideoMode.v
CpuTables.v
Faults.v
Loader.v
Context.v
Prdt.v
