(* ===== verification/Prelude.v ===== *)
(** * A verification of the VK kernel

    VK is a small monolithic kernel for 32-bit PCs.  At boot [ckernel.c] sets up
    the processor tables, the memory managers, the drives and the file systems,
    the terminals and the scheduler, and starts the first process; from then on
    the kernel runs on interrupts and system calls.  This library models its
    parts as executable functions translated from the C and assembly sources
    and proves what they compute.  File names below are relative to [src/].

    ** How code is modelled

    - Integers are [Z]; an operation that can leave the range of its C type is
      followed by [u8], [u16], [u32], [u64] or [s32] (this file).
    - Code with effects is a function in the monad [M S A] (this file) over the
      state [S] of its component: [Ok a s] when it returns, [Fatal] when it
      calls [fatal_kernel_error], [Fault] when it follows a pointer to nothing
      or writes outside of a buffer, [NoFuel] when the bound of a loop was too
      small.  The theorems that say that a call returns give the bound.
    - Byte memory is a function from addresses to bytes (Mem.v).  Linked
      structures are stores from addresses to records; a list node that is not
      in the store cannot be read.
    - What a component needs of another is a class: [Allocator] (Alloc.v, the
      heap), [Queue] (DataStructs.v), [Block] (Blocks.v, address ranges),
      [Ata], [BlockDevice] and [ExactDevice] (Storage.v, drives), [Threads]
      (Streams.v) and [Tasks] (Tty.v) for what terminals use of processes, and
      the records [fs_ops] (Vfs.v, file systems) and [dev_ops] (Devfs.v).  The
      component that offers it gives the instance where its state allows, and a
      small executable one serves the examples.
    - Every theorem with hypotheses has a witness, a concrete state where they
      hold.  Small lemmas about concrete states show where the code does not do
      what it is meant to.

    ** Files

    - Prelude.v: this file.  Mem.v: byte memory, [memcpy], [memset].
    - KHeap.v (memory/kheap.c): the heap as a tiling of memory by blocks,
      refined to the list of its blocks; [kmalloc], [kfree], [krealloc] and
      [kheap_expand] on every branch; live blocks never overlap.  Alloc.v: what
      the other components rely on.
    - Dll.v, Blocks.v, PhysMem.v (memory/physical.c), KvmHeap.v
      (memory/kvmheap.c): the maps of physical and kernel virtual memory as
      doubly linked lists of ranges; ranges handed out never overlap and
      releasing gives them back.
    - Paging.v (memory/paging.c, memory/kpageheap.c): page directories and
      tables; mapping, unmapping and the queries agree with the translation
      that the processor does.  AddrSpace.v ([copy_adress_space] of
      memory/paging.c): user memory as physical memory seen through the page
      tables, and its copy for a new process.
    - Strings.v (util/lib.c, util/util.h), Time.v (time/time.c), DataStructs.v
      (util/data_structs.c), Errors.v (error/error.h), Vga.v
      (video/vga_text.c and the kernel's messages).
    - Storage.v (storage/): requests of any length cut into commands of the
      drive; what is written is read back.
    - Fat.v, FatDir.v (filesystem/fat32.c); Ext2.v, Ext2Read.v, Ext2Dir.v,
      Ext2Disk.v (filesystem/ext2.c); Iso9660.v (filesystem/iso_9660.c);
      Devfs.v (filesystem/devfs.c); Vfs.v (filesystem/vfs.c): the disk file
      systems down to the sectors, the device directory, and the paths, mount
      points and open files above them.
    - Elf.v (tasking/processes/elf.c, [load_executable] of
      tasking/processes/process.c): checking and loading executables, and the
      stack that a program starts with.
    - Streams.v (io/stream.c), Tty.v, TtyLine.v (io/ttys.c), Keyboard.v
      (devices/keyboard.c, [keyboard_interrupt] of cpu/isrs.c): streams with
      waiting threads, terminals, line editing, keys.
    - Sched.v (sync/mutex.c, sync/mutex.s, tasking/processes/threads.c,
      tasking/scheduler/scheduler.c), Groups.v (tasking/processes/groups.c),
      Signals.v (tasking/processes/signal.c, [schedule] of
      tasking/scheduler/scheduler.s): mutexes exclude, sleepers wake on time,
      the clock tick is fair, signals are queued and delivered.
    - Process.v (tasking/processes/process.c, [free_thread_memory] of
      threads.c): the process table, creation, [fork], loading, exit, the first
      processes, over the scheduler, the groups, the page tables and the virtual
      file system.  ProcMem.v: the program break and what exit leaves behind.
      ProcInit.v: the initialisation of processes, groups and scheduler.
    - SysFiles.v (the system calls on files of tasking/processes/syscalls.c,
      tasking/processes/external_structures.h): the descriptor table of a
      process with its growth, paths, buffers, and the answers in registers.
      SysTable.v: what holds of every sequence of those calls.  SysProc.v: the
      system calls on processes, and the table of system calls with its entry in
      cpu/isr.s.
    - Ports.v (system.h, internal/pic.c): input and output ports; the hardware
      is a function from the history of port accesses to the value that a read
      returns.  Pci.v (internal/pci.c): the configuration space and the scan of
      the buses.  Ata.v (storage/ata/ata_common.c, atapi.c, the wait of
      ata_pio.c): what a drive sees of a command, and the detection of drives.
      Prdt.v (the end of [ata_identify_drive]): the table for transfers, over the
      maps of physical and virtual memory and the page tables.
      VideoMode.v (video/video.c): the registers of the text mode.
    - CpuTables.v (cpu/gdt.c, cpu/idt.c, cpu/cpu.c): segments, gates and
      features, read back as the processor reads them.  Faults.v (cpu/isrs.c):
      exceptions and interrupt lines.  Boot.v (args.c, ckernel.c): the command
      line, the mode of the kernel and the root drive, and [kmain] over a record of
      the operations that it calls.
    - Loader.v (loader.s, [finish_paging] of memory/paging.c): the first page tables
      and the call of [kmain].  Context.v (cpu/isr.s,
      tasking/scheduler/scheduler.s, the registers saved in
      tasking/scheduler/scheduler.c): registers, stack and frames instruction by
      instruction; a call of C code in between is any change that the calling
      convention allows.

    ** What the theorems show

    Safety: memory that is handed out by the three allocators is disjoint and
    stays so (KHeap, PhysMem, KvmHeap); a copied address space has the same
    contents and shares nothing with the original (AddrSpace); a mutex has one holder (Sched); the
    cursor and every write of the screen stay inside of it (Vga).  Functional
    behaviour and refinement: the heap is a first-fit allocator (KHeap), page
    tables are a map from pages to frames (Paging), files are the bytes of
    their clusters or blocks (Fat, Ext2Read), names are found in directories
    (Ext2Dir, FatDir, Iso9660), paths lead where their names lead (Vfs),
    executables are placed as their headers say (Elf), a terminal returns the
    line as it was edited (TtyLine), [open] takes the lowest free number and
    [read] and [readdir] fill the buffer of the caller and no more (SysTable), a
    forked process is a copy of its parent (Process), the break grows by mapped
    memory (ProcMem), [wait] returns the dead child (SysProc), the string, time and list routines compute
    what they are named after, every interrupt reaches its handler (CpuTables),
    a fault maps memory for a write to user space and stops the kernel otherwise
    (Faults), every device on a reachable bus is found (Pci), the root drive is
    the one that the boot arguments mean (Boot), the loader maps the first 4 MiB at
    3 GiB and nothing else (Loader).  Round trips: sectors (Storage), inodes (Ext2Disk), directory
    entries (FatDir), devices (Devfs), numbers (Strings), descriptors
    (SysTable), commands in the registers of a drive (Ata), the registers of an
    interrupted program (Context).  Invariants: a stream is first in, first out and leaves no
    reader asleep (Streams); the descriptor table of a process has open
    descriptors only, counted as the instances they have (SysTable); every entry
    of the process table is a process with that number (Process).  Termination
    and liveness: the search of groups ends, the scan of the PCI buses ends, reading a file ends, sleepers wake, every ready process
    gets the processor.

    ** Fuel

    Loops that are not structural take a number of iterations.  Loops over
    linked lists need one more than the length of the list, loops over strings
    one more than their length, [alignup] and [aligndown] the alignment, the
    heap one more than the number of its blocks, sector loops the number of
    sectors, a read of a terminal one for each time it has to wait, the scan of
    PCI buses the depth of the bus tree, which is at most 256; each theorem
    states the bound it needs.

    ** Not modelled

    - The instructions that load the processor tables, [invlpg] and [cpuid]: they
      are the processor's.
    - In the detection of drives the transfer table (Prdt) and the reading of
      partitions (Storage) are parameters.
    - The messages that are printed on the way, except for the printing itself
      (Vga).
    - Concurrency inside a component: each call is one step; interrupts come
      between calls.  Mutexes that protect a component against itself (screen,
      caches, drives) are left out of its model. *)

From stdpp Require Export base list gmap strings.
From Stdlib Require Export ZArith Lia.

#[global] Open Scope Z_scope.

(** * Machine integers

    Every C integer is a [Z]; an operation of the source that can leave the
    range of its type is followed by the wrap of that type. *)

Definition u8 (z : Z) : Z := z mod 256.
Definition u16 (z : Z) : Z := z mod 65536.
Definition u32 (z : Z) : Z := z mod 4294967296.
Definition u64 (z : Z) : Z := z mod 18446744073709551616.

(** Two's complement reading of a byte and of a 32-bit word. *)
Definition s8 (z : Z) : Z := let b := u8 z in if b <? 128 then b else b - 256.
Definition s32 (z : Z) : Z := let w := u32 z in if w <? 2147483648 then w else w - 4294967296.

Definition U8_MAX : Z := 255.
Definition U16_MAX : Z := 65535.
Definition U32_MAX : Z := 4294967295.

(** Value ranges of the unsigned types. *)
Definition is_u8 (z : Z) : Prop := 0 <= z < 256.
Definition is_u16 (z : Z) : Prop := 0 <= z < 65536.
Definition is_u32 (z : Z) : Prop := 0 <= z < 4294967296.

(** * The kernel monad

    [Ok a s]: the call returned [a] in state [s].  [Fatal msg]: the code called
    [fatal_kernel_error], which disables interrupts, prints and halts the
    processor, so nothing after it runs.  [Fault]: the code followed a pointer
    to a structure that is not there (null, freed or never allocated).
    [NoFuel]: the bound given to a loop was used up; the theorems give bounds
    with which this does not happen. *)

Inductive res (S A : Type) : Type :=
| Ok (a : A) (s : S)
| Fatal (msg : string)
| Fault
| NoFuel.
Arguments Ok {S A} a s.
Arguments Fatal {S A} msg.
Arguments Fault {S A}.
Arguments NoFuel {S A}.

Definition M (S A : Type) : Type := S -> res S A.

Definition ret {S A} (a : A) : M S A := fun s => Ok a s.
Definition bind {S A B} (c : M S A) (k : A -> M S B) : M S B :=
  fun s => match c s with
           | Ok a s' => k a s'
           | Fatal e => Fatal e
           | Fault => Fault
           | NoFuel => NoFuel
           end.
Definition fatal_kernel_error {S A} (msg : string) : M S A := fun _ => Fatal msg.
Definition fault {S A} : M S A := fun _ => Fault.
Definition nofuel {S A} : M S A := fun _ => NoFuel.
Definition get {S} : M S S := fun s => Ok s s.
Definition put {S} (s : S) : M S unit := fun _ => Ok tt s.
Definition gets {S A} (f : S -> A) : M S A := fun s => Ok (f s) s.
Definition modify {S} (f : S -> S) : M S unit := fun s => Ok tt (f s).

Declare Scope kernel_scope.
Delimit Scope kernel_scope with kernel.
Notation "x <- c ;; k" := (bind c (fun x => k))
  (at level 100, c at next level, right associativity) : kernel_scope.
Notation "c ;;; k" := (bind c (fun _ => k))
  (at level 100, right associativity) : kernel_scope.
Open Scope kernel_scope.

(** What a call returned, when it returned. *)
Definition value_of {S A} (r : res S A) : option A :=
  match r with Ok a _ => Some a | _ => None end.
Definition state_of {S A} (r : res S A) : option S :=
  match r with Ok _ s => Some s | _ => None end.

(** * alignup and aligndown (util/util.h)

    The macros are loops, [while(i % a) i++] and [while(i % a) i--], over a
    [u32].  At most [a - 1] iterations run when [a] divides the range, so [a]
    iterations are enough fuel. *)

Fixpoint alignup_loop (fuel : nat) (i a : Z) : Z :=
  match fuel with
  | O => i
  | S n => if i mod a =? 0 then i else alignup_loop n (u32 (i + 1)) a
  end.
Definition alignup (i a : Z) : Z := alignup_loop (Z.to_nat a) i a.

Fixpoint aligndown_loop (fuel : nat) (i a : Z) : Z :=
  match fuel with
  | O => i
  | S n => if i mod a =? 0 then i else aligndown_loop n (u32 (i - 1)) a
  end.
Definition aligndown (i a : Z) : Z := aligndown_loop (Z.to_nat a) i a.

(** * Lemmas and automation shared by the components *)

Create HintDb kernel.
Create Rewrite HintDb kernel_wrap.

Lemma u8_range z : is_u8 (u8 z).
Proof. unfold is_u8, u8. apply Z.mod_pos_bound. lia. Qed.
Lemma u16_range z : is_u16 (u16 z).
Proof. unfold is_u16, u16. apply Z.mod_pos_bound. lia. Qed.
Lemma u32_range z : is_u32 (u32 z).
Proof. unfold is_u32, u32. apply Z.mod_pos_bound. lia. Qed.
#[export] Hint Resolve u8_range u16_range u32_range : kernel.

Lemma u8_id z : 0 <= z < 256 -> u8 z = z.
Proof. intros. unfold u8. by apply Z.mod_small. Qed.
Lemma u16_id z : 0 <= z < 65536 -> u16 z = z.
Proof. intros. unfold u16. by apply Z.mod_small. Qed.
Lemma u32_id z : 0 <= z < 4294967296 -> u32 z = z.
Proof. intros. unfold u32. by apply Z.mod_small. Qed.
Lemma u64_id z : 0 <= z < 18446744073709551616 -> u64 z = z.
Proof. intros. unfold u64. by apply Z.mod_small. Qed.
#[export] Hint Rewrite u8_id u16_id u32_id u64_id using lia : kernel_wrap.

(** Removes the wraps that the context shows to be harmless. *)
Ltac unwrap := repeat first
  [ rewrite u32_id in * by lia | rewrite u16_id in * by lia
  | rewrite u8_id in * by lia | rewrite u64_id in * by lia ].

(** Turns boolean comparisons in the hypotheses and the goal into
    propositions, case splitting on the tests of the goal. *)
Ltac zify_bool := repeat match goal with
  | H : (_ =? _) = true |- _ => apply Z.eqb_eq in H
  | H : (_ =? _) = false |- _ => apply Z.eqb_neq in H
  | H : (_ <? _) = true |- _ => apply Z.ltb_lt in H
  | H : (_ <? _) = false |- _ => apply Z.ltb_ge in H
  | H : (_ <=? _) = true |- _ => apply Z.leb_le in H
  | H : (_ <=? _) = false |- _ => apply Z.leb_gt in H
  | H : (_ && _)%bool = true |- _ => apply andb_prop in H; destruct H
  | H : negb _ = true |- _ => apply negb_true_iff in H
  | H : negb _ = false |- _ => apply negb_false_iff in H
  end.
Ltac case_bool := match goal with
  | |- context [if ?b then _ else _] => destruct b eqn:?
  end; zify_bool.

(** Decides one comparison of the goal by arithmetic. *)
Ltac dec_true t := replace t with true by (symmetry; first
  [apply Z.eqb_eq | apply Z.ltb_lt | apply Z.leb_le]; lia).
Ltac dec_false t := replace t with false by (symmetry; first
  [apply Z.eqb_neq | apply Z.ltb_ge | apply Z.leb_gt]; lia).

(** Linear arithmetic with division and modulo by constants. *)
Ltac dlia := Z.div_mod_to_equations; lia.

(** Signed 32-bit values. *)
Lemma s32_id z : -2147483648 <= z < 2147483648 -> s32 z = z.
Proof. intros. unfold s32, u32. case_bool; dlia. Qed.
Lemma u32_s32 z : u32 (s32 z) = u32 z.
Proof. unfold s32, u32. case_bool; dlia. Qed.
Lemma s32_u32_eq a b : u32 a = u32 b -> s32 a = s32 b.
Proof. intros He. unfold s32. by rewrite He. Qed.
Lemma s32_add_idemp a b : s32 (s32 a + b) = s32 (a + b).
Proof.
  apply s32_u32_eq. pose proof (u32_s32 a) as Ha. unfold u32 in *.
  by rewrite <- Z.add_mod_idemp_l, Ha, Z.add_mod_idemp_l by lia.
Qed.

(** Runs the monad one step. *)
Ltac mstep := unfold bind, ret, get, put, gets, modify, fatal_kernel_error, fault, nofuel; cbn.

Lemma bind_ok {S A B} (c : M S A) (k : A -> M S B) s a s' :
  c s = Ok a s' -> bind c k s = k a s'.
Proof. intros H. unfold bind. by rewrite H. Qed.

Lemma bind_inv {S A B} (c : M S A) (k : A -> M S B) s b s'' :
  bind c k s = Ok b s'' -> exists a s', c s = Ok a s' /\ k a s' = Ok b s''.
Proof. unfold bind. destruct (c s) eqn:E; intros; try discriminate. eauto. Qed.

Lemma bind_assoc {S A B C} (c : M S A) (f : A -> M S B) (g : B -> M S C) s :
  bind (bind c f) g s = bind c (fun a => bind (f a) g) s.
Proof. unfold bind. by destruct (c s). Qed.

(** ** Bits *)

Lemma bits_high x k n : 0 <= x < 2 ^ k -> 0 <= k <= n -> Z.testbit x n = false.
Proof.
  intros Hx Hk. destruct (decide (x = 0)) as [-> |]; [apply Z.bits_0|].
  apply Z.bits_above_log2; [lia|]. apply Z.log2_lt_pow2; [lia|].
  apply Z.lt_le_trans with (2 ^ k); [lia|]. apply Z.pow_le_mono_r; lia.
Qed.
Lemma land_low_0 x f n : 0 <= n -> x mod 2 ^ n = 0 -> 0 <= f < 2 ^ n -> Z.land x f = 0.
Proof.
  intros Hn Hx Hf. apply Z.bits_inj'. intros i Hi. rewrite Z.land_spec, Z.bits_0. destruct (decide (i < n)).
  - by rewrite <- (Z.mod_pow2_bits_low x n i), Hx, Z.bits_0 by lia.
  - rewrite (bits_high f n) by lia. apply andb_false_r.
Qed.
Lemma lor_low x f n : 0 <= n -> x mod 2 ^ n = 0 -> 0 <= f < 2 ^ n -> Z.lor x f = x + f.
Proof. intros Hn Hx Hf. pose proof (land_low_0 x f n Hn Hx Hf). pose proof (Z.add_lor_land x f). lia. Qed.

(** A test of one bit by a mask. *)
Lemma land_mask_bit x m k : 0 <= k -> m = 2 ^ k -> (Z.land x m =? 0) = negb (Z.testbit x k).
Proof.
  intros Hk ->. destruct (Z.testbit x k) eqn:E; cbn [negb].
  - apply Z.eqb_neq. intros E0. assert (Z.testbit (Z.land x (2 ^ k)) k = false) as E1 by (rewrite E0; apply Z.bits_0).
    rewrite Z.land_spec, E, Z.pow2_bits_true in E1 by lia. discriminate E1.
  - apply Z.eqb_eq, Z.bits_inj'. intros i Hi. rewrite Z.land_spec, Z.bits_0.
    destruct (Z.eq_dec i k) as [->|Hn]; [by rewrite E|]. by rewrite Z.pow2_bits_false, andb_false_r by lia.
Qed.

(** A field of [n] bits at bit [a]. *)
Lemma land_field x a n : 0 <= a -> 0 <= n -> Z.shiftr (Z.land x (Z.shiftl (Z.ones n) a)) a = (x / 2 ^ a) mod 2 ^ n.
Proof.
  intros Ha Hn. rewrite Z.shiftr_land, Z.shiftr_shiftl_l by lia. replace (a - a) with 0 by lia. rewrite Z.shiftl_0_r, Z.land_ones, Z.shiftr_div_pow2 by lia. done.
Qed.

(** ** Rounding *)

Definition round_up (i a : Z) : Z := a * ((i + a - 1) / a).

Lemma round_up_spec i a : 0 < a -> i <= round_up i a < i + a /\ round_up i a mod a = 0.
Proof.
  intros. unfold round_up. split.
  - pose proof (Z.div_mod (i + a - 1) a ltac:(lia)).
    pose proof (Z.mod_pos_bound (i + a - 1) a ltac:(lia)). lia.
  - rewrite Z.mul_comm. apply Z.mod_mul. lia.
Qed.

Lemma round_up_unique i a r : 0 < a -> i <= r < i + a -> r mod a = 0 -> round_up i a = r.
Proof.
  intros Ha Hr Hm. pose proof (round_up_spec i a Ha) as [Hb Hz].
  apply Z.mod_divide in Hm as [k ->]; [|lia].
  apply Z.mod_divide in Hz as [k' Hk']; [|lia]. rewrite Hk' in Hb |- *.
  destruct (Z.lt_trichotomy k k') as [?|[->|?]]; [|done|]; exfalso.
  - assert (k * a + a <= k' * a) by nia. lia.
  - assert (k' * a + a <= k * a) by nia. lia.
Qed.

Lemma alignup_loop_spec fuel i a : 0 < a -> 0 <= i -> round_up i a < 4294967296 ->
  round_up i a - i < Z.of_nat fuel -> alignup_loop fuel i a = round_up i a.
Proof.
  intros Ha. revert i. induction fuel as [|n IH]; intros i Hi Hb Hf.
  { pose proof (round_up_spec i a Ha). lia. }
  cbn [alignup_loop]. pose proof (round_up_spec i a Ha) as [Hr Hm].
  destruct (i mod a =? 0) eqn:E; zify_bool.
  { symmetry. apply round_up_unique; [lia|lia|exact E]. }
  assert (i <> round_up i a) by (intros Heq; rewrite <- Heq in Hm; lia).
  assert (round_up (i + 1) a = round_up i a) as Heq
    by (apply round_up_unique; [lia|lia|exact Hm]).
  rewrite u32_id by lia. rewrite IH; lia.
Qed.

(** When the rounded value fits in 32 bits, the [alignup] loop rounds up. *)
Lemma alignup_eq i a : 0 < a -> 0 <= i -> round_up i a < 4294967296 -> alignup i a = round_up i a.
Proof.
  intros. unfold alignup. pose proof (round_up_spec i a ltac:(lia)).
  apply alignup_loop_spec; lia.
Qed.

Lemma alignup_spec i a : 0 < a -> 0 <= i -> i + a <= 4294967296 ->
  i <= alignup i a < i + a /\ alignup i a mod a = 0.
Proof.
  intros. pose proof (round_up_spec i a ltac:(lia)).
  rewrite alignup_eq by lia. lia.
Qed.

Lemma aligndown_loop_spec fuel i a : 0 < a -> is_u32 i ->
  i mod a < Z.of_nat fuel -> aligndown_loop fuel i a = i - i mod a.
Proof.
  intros Ha. revert i. induction fuel as [|n IH]; intros i Hi Hf.
  { pose proof (Z.mod_pos_bound i a Ha). lia. }
  cbn [aligndown_loop]. destruct (i mod a =? 0) eqn:E; zify_bool; [lia|].
  unfold is_u32 in *. pose proof (Z.mod_pos_bound i a Ha).
  pose proof (Z.div_mod i a ltac:(lia)).
  assert (i <> 0) by (intros ->; rewrite Z.mod_0_l in E; lia).
  assert ((i - 1) mod a = i mod a - 1) as Hm.
  { symmetry. apply (Z.mod_unique_pos _ _ (i / a)); lia. }
  rewrite u32_id by lia. rewrite IH by lia. lia.
Qed.

(** The [aligndown] loop rounds down. *)
Lemma aligndown_eq i a : 0 < a -> is_u32 i -> aligndown i a = i - i mod a.
Proof.
  intros. pose proof (Z.mod_pos_bound i a ltac:(lia)).
  apply aligndown_loop_spec; unfold is_u32 in *; try lia.
Qed.
