(* ===== verification/Mem.v ===== *)
(** Byte-addressed memory.

    The kernel runs in one flat address space in which all of kernel memory is
    mapped, so memory is a total function from addresses to bytes.  The block
    headers of [memory/kheap.c], the page tables of [memory/paging.c], the
    buffers of [util/data_structs.c] and the strings of [util/lib.c] live in
    it.  [memcpy] and [memset] are the two memory routines of [util/lib.c],
    written there as [rep movsb] and [rep stosb]. *)

From S2P Require Import Prelude.

Definition mem : Type := Z -> Z.

Definition load8 (m : mem) (a : Z) : Z := u8 (m a).
Definition load16 (m : mem) (a : Z) : Z := load8 m a + 256 * load8 m (a + 1).
Definition load32 (m : mem) (a : Z) : Z :=
  load8 m a + 256 * load8 m (a + 1) + 65536 * load8 m (a + 2) + 16777216 * load8 m (a + 3).

Definition load64 (m : mem) (a : Z) : Z := load32 m a + 4294967296 * load32 m (a + 4).

Definition store8 (m : mem) (a v : Z) : mem := fun x => if x =? a then u8 v else m x.
Definition store16 (m : mem) (a v : Z) : mem := store8 (store8 m a v) (a + 1) (v / 256).
Definition store32 (m : mem) (a v : Z) : mem :=
  store8 (store8 (store8 (store8 m a v) (a + 1) (v / 256)) (a + 2) (v / 65536)) (a + 3) (v / 16777216).

(** [cld; rep movsb]: one byte at a time, upwards. *)
Fixpoint rep_movsb (n : nat) (dest src : Z) (m : mem) : mem :=
  match n with
  | O => m
  | S n' => rep_movsb n' (dest + 1) (src + 1) (store8 m dest (load8 m src))
  end.
Definition memcpy (m : mem) (dest src n : Z) : mem := rep_movsb (Z.to_nat n) dest src m.

(** [cld; rep stosb], in closed form so that large clears stay executable;
    [memset_rep_stosb] relates it to the byte loop. *)
Definition memset (m : mem) (dest c n : Z) : mem :=
  fun x => if (dest <=? x) && (x <? dest + n) then u8 c else m x.
Fixpoint rep_stosb (n : nat) (dest c : Z) (m : mem) : mem :=
  match n with
  | O => m
  | S n' => rep_stosb n' (dest + 1) c (store8 m dest c)
  end.

(** The [n] bytes at [a]. *)
Fixpoint bytes_at (m : mem) (a : Z) (n : nat) : list Z :=
  match n with
  | O => []
  | S n' => load8 m a :: bytes_at m (a + 1) n'
  end.

(** Memory holding the given bytes from address [a] on, zero elsewhere. *)
Definition mem_of (a : Z) (bs : list Z) : mem :=
  fun x => if (a <=? x) then nth (Z.to_nat (x - a)) bs 0 else 0.

(** [m'] differs from [m] only in [lo, hi). *)
Definition same_outside (m m' : mem) (lo hi : Z) : Prop :=
  forall x, ~ (lo <= x < hi) -> m' x = m x.

(** * Loads and stores *)

Lemma load8_range m a : is_u8 (load8 m a).
Proof. apply u8_range. Qed.
Lemma load16_range m a : is_u16 (load16 m a).
Proof.
  unfold is_u16, load16. pose proof (load8_range m a). pose proof (load8_range m (a + 1)).
  unfold is_u8 in *. lia.
Qed.
Lemma load32_range m a : is_u32 (load32 m a).
Proof.
  unfold is_u32, load32. pose proof (load8_range m a). pose proof (load8_range m (a + 1)).
  pose proof (load8_range m (a + 2)). pose proof (load8_range m (a + 3)). unfold is_u8 in *. lia.
Qed.
#[export] Hint Resolve load8_range load16_range load32_range : kernel.

Lemma load8_ext m m' a : m' a = m a -> load8 m' a = load8 m a.
Proof. unfold load8. congruence. Qed.
Lemma load16_ext m m' a : (forall x, a <= x < a + 2 -> m' x = m x) -> load16 m' a = load16 m a.
Proof. intros H. unfold load16. rewrite !(load8_ext m m') by (apply H; lia). done. Qed.
Lemma load32_ext m m' a : (forall x, a <= x < a + 4 -> m' x = m x) -> load32 m' a = load32 m a.
Proof. intros H. unfold load32. rewrite !(load8_ext m m') by (apply H; lia). done. Qed.

Lemma store8_other m a v x : x <> a -> store8 m a v x = m x.
Proof. intros. unfold store8. by dec_false (x =? a). Qed.
Lemma store8_same m a v : store8 m a v a = u8 v.
Proof. unfold store8. by rewrite Z.eqb_refl. Qed.
Lemma store16_other m a v x : ~ (a <= x < a + 2) -> store16 m a v x = m x.
Proof. intros. unfold store16. rewrite !store8_other by lia. done. Qed.
Lemma store32_other m a v x : ~ (a <= x < a + 4) -> store32 m a v x = m x.
Proof. intros. unfold store32. rewrite !store8_other by lia. done. Qed.
#[export] Hint Rewrite store8_other store16_other store32_other using lia : kernel_wrap.

Lemma load8_store8 m a v : load8 (store8 m a v) a = u8 v.
Proof. unfold load8. rewrite store8_same. unfold u8. apply Z.mod_mod. lia. Qed.
Lemma load8_store8_other m a v b : b <> a -> load8 (store8 m a v) b = load8 m b.
Proof. intros. by apply load8_ext, store8_other. Qed.

Lemma load16_store16 m a v : load16 (store16 m a v) a = u16 v.
Proof.
  unfold load16, store16.
  rewrite load8_store8_other, !load8_store8 by lia. unfold u8, u16. dlia.
Qed.
Lemma load32_store32 m a v : load32 (store32 m a v) a = u32 v.
Proof.
  unfold load32, store32.
  repeat first [rewrite load8_store8 | rewrite load8_store8_other by lia].
  unfold u8, u32. dlia.
Qed.

Lemma load16_store_far m a v b : b + 2 <= a \/ a + 4 <= b -> load16 (store32 m a v) b = load16 m b.
Proof. intros. apply load16_ext. intros. apply store32_other. lia. Qed.
Lemma load16_store16_far m a v b : b + 2 <= a \/ a + 2 <= b -> load16 (store16 m a v) b = load16 m b.
Proof. intros. apply load16_ext. intros. apply store16_other. lia. Qed.
Lemma load32_store32_far m a v b : b + 4 <= a \/ a + 4 <= b -> load32 (store32 m a v) b = load32 m b.
Proof. intros. apply load32_ext. intros. apply store32_other. lia. Qed.
Lemma load32_store16_far m a v b : b + 4 <= a \/ a + 2 <= b -> load32 (store16 m a v) b = load32 m b.
Proof. intros. apply load32_ext. intros. apply store16_other. lia. Qed.

(** Rewrites a load past the stores before it; the distances are left to
    [lia]. *)
Ltac load_store := repeat first
  [ rewrite load32_store32 | rewrite load16_store16 | rewrite load8_store8
  | rewrite load32_store32_far by lia | rewrite load32_store16_far by lia
  | rewrite load16_store16_far by lia | rewrite load16_store_far by lia
  | rewrite load8_store8_other by lia ].

(** * memset *)

Lemma memset_inside m d c n x : d <= x < d + n -> memset m d c n x = u8 c.
Proof. intros. unfold memset. dec_true (d <=? x). by dec_true (x <? d + n). Qed.
Lemma memset_outside m d c n x : ~ (d <= x < d + n) -> memset m d c n x = m x.
Proof. intros. unfold memset. destruct (d <=? x) eqn:?, (x <? d + n) eqn:?; zify_bool; cbn; try done; lia. Qed.

Lemma rep_stosb_pointwise n d c m x :
  rep_stosb n d c m x = if (d <=? x) && (x <? d + Z.of_nat n) then u8 c else m x.
Proof.
  revert d m. induction n as [|n IH]; intros d m; cbn [rep_stosb].
  { destruct (d <=? x) eqn:?, (x <? d + Z.of_nat 0) eqn:?; zify_bool; cbn; try done; lia. }
  rewrite IH. unfold store8.
  destruct (d + 1 <=? x) eqn:?, (x <? d + 1 + Z.of_nat n) eqn:?, (d <=? x) eqn:?,
    (x <? d + Z.of_nat (S n)) eqn:?, (x =? d) eqn:?; zify_bool; cbn; try done; lia.
Qed.

(** The closed form of [memset] is what the byte loop computes. *)
Lemma memset_rep_stosb m d c n x : 0 <= n -> memset m d c n x = rep_stosb (Z.to_nat n) d c m x.
Proof. intros. rewrite rep_stosb_pointwise. unfold memset. by rewrite Z2Nat.id by lia. Qed.

(** * memcpy *)

Lemma rep_movsb_outside n d s m x : ~ (d <= x < d + Z.of_nat n) -> rep_movsb n d s m x = m x.
Proof.
  revert d s m. induction n as [|n IH]; intros d s m Hx; [done|]. cbn [rep_movsb].
  rewrite IH by lia. apply store8_other. lia.
Qed.

Lemma memcpy_outside m d s n x : ~ (d <= x < d + n) -> memcpy m d s n x = m x.
Proof. intros. unfold memcpy. apply rep_movsb_outside. lia. Qed.

Lemma rep_movsb_inside n d s m k : d <= s \/ s + Z.of_nat n <= d -> 0 <= k < Z.of_nat n ->
  load8 (rep_movsb n d s m) (d + k) = load8 m (s + k).
Proof.
  revert d s m k. induction n as [|n IH]; intros d s m k Hd Hk; [lia|]. cbn [rep_movsb].
  destruct (decide (k = 0)) as [->|].
  - rewrite (load8_ext (store8 m d (load8 m s))) by (apply rep_movsb_outside; lia).
    rewrite Z.add_0_r, load8_store8, Z.add_0_r. apply u8_id, load8_range.
  - replace (d + k) with (d + 1 + (k - 1)) by lia. rewrite IH by lia.
    replace (s + 1 + (k - 1)) with (s + k) by lia. rewrite load8_store8_other by lia. done.
Qed.

(** A copy to a lower address or to a disjoint area moves the bytes. *)
Lemma memcpy_inside m d s n k : d <= s \/ s + n <= d -> 0 <= k < n ->
  load8 (memcpy m d s n) (d + k) = load8 m (s + k).
Proof. intros. unfold memcpy. apply rep_movsb_inside; lia. Qed.

Lemma memcpy_load32 m d s n k : d <= s \/ s + n <= d -> 0 <= k -> k + 4 <= n ->
  load32 (memcpy m d s n) (d + k) = load32 m (s + k).
Proof.
  intros. unfold load32. rewrite <- !Z.add_assoc.
  rewrite !memcpy_inside by lia. done.
Qed.

(** A copy to a higher overlapping address repeats the bytes between the two
    pointers instead of moving the area. *)
Lemma memcpy_overlap_up m d s n k : s < d -> 0 <= k < n ->
  load8 (memcpy m d s n) (d + k) = load8 m (s + k mod (d - s)).
Proof.
  intros Hd Hk. unfold memcpy. rewrite <- (Z2Nat.id n) in Hk by lia.
  set (c := Z.to_nat n) in *. clearbody c. clear n.
  cut (forall c m k0, 0 <= k < Z.of_nat c + k0 -> 0 <= k0 ->
    (forall j, 0 <= j < k0 + (d - s) -> load8 m (s + j) = load8 m (s + j mod (d - s))) ->
    load8 (rep_movsb c (d + k0) (s + k0) m) (d + k) = load8 m (s + k mod (d - s))).
  { intros Hgen. specialize (Hgen c m 0). rewrite !Z.add_0_r in Hgen. apply Hgen; [lia..|].
    intros j Hj. by rewrite Z.mod_small by lia. }
  clear c m Hk. induction c as [|c IH]; intros m k0 Hk Hk0 Hper.
  - cbn [rep_movsb]. specialize (Hper (k + (d - s)) ltac:(lia)).
    replace (s + (k + (d - s))) with (d + k) in Hper by lia. rewrite Hper.
    replace (k + (d - s)) with (k + 1 * (d - s)) by lia. by rewrite Z.mod_add by lia.
  - cbn [rep_movsb]. rewrite <- !Z.add_assoc.
    pose proof (Z.mod_pos_bound k (d - s) ltac:(lia)).
    rewrite IH; [apply load8_store8_other; lia|lia|lia|].
    intros j Hj. pose proof (Z.mod_pos_bound j (d - s) ltac:(lia)).
    rewrite (load8_store8_other _ _ _ (s + j mod (d - s))) by lia.
    destruct (decide (s + j = d + k0)) as [E|E].
    + rewrite E, load8_store8, (u8_id (load8 _ _)) by apply load8_range.
      rewrite Hper by lia. f_equal. f_equal.
      replace j with (k0 + 1 * (d - s)) by lia. by rewrite Z.mod_add by lia.
    + rewrite load8_store8_other by lia. apply Hper. lia.
Qed.

(** * Byte strings in memory *)

Lemma length_bytes_at m a n : length (bytes_at m a n) = n.
Proof. revert a. induction n; intros; cbn; congruence. Qed.

Lemma bytes_at_ext m m' a n : (forall x, a <= x < a + Z.of_nat n -> m' x = m x) ->
  bytes_at m' a n = bytes_at m a n.
Proof.
  revert a. induction n as [|n IH]; intros a H; [done|]. cbn.
  rewrite (load8_ext m m') by (apply H; lia). rewrite IH; [done|]. intros. apply H. lia.
Qed.

Lemma bytes_at_app m a n k : bytes_at m a (n + k) = bytes_at m a n ++ bytes_at m (a + Z.of_nat n) k.
Proof.
  revert a. induction n as [|n IH]; intros a.
  - cbn. by rewrite Z.add_0_r.
  - cbn -[Z.of_nat]. rewrite IH. by replace (a + Z.of_nat (S n)) with (a + 1 + Z.of_nat n) by lia.
Qed.

Lemma bytes_at_lookup m a n i : (i < n)%nat -> bytes_at m a n !! i = Some (load8 m (a + Z.of_nat i)).
Proof.
  revert a i. induction n as [|n IH]; intros a i Hi; [lia|].
  destruct i as [|i]; cbn -[Z.of_nat]; [by rewrite Z.add_0_r|].
  rewrite IH by lia. do 2 f_equal. lia.
Qed.

Lemma bytes_at_eq m m' a b n : (forall k, 0 <= k < Z.of_nat n -> load8 m' (b + k) = load8 m (a + k)) ->
  bytes_at m' b n = bytes_at m a n.
Proof.
  intros H. apply list_eq. intros i. destruct (decide (i < n)%nat).
  - rewrite !bytes_at_lookup by lia. f_equal. apply H. lia.
  - rewrite !lookup_ge_None_2 by (rewrite length_bytes_at; lia). done.
Qed.

(** [memcpy] copies byte strings. *)
Lemma memcpy_bytes m d s n : d <= s \/ s + Z.of_nat n <= d ->
  bytes_at (memcpy m d s (Z.of_nat n)) d n = bytes_at m s n.
Proof. intros. apply bytes_at_eq. intros. by apply memcpy_inside. Qed.

(** Memories with the same bytes. *)
Lemma load16_bytes m m' a : (forall x, a <= x < a + 2 -> load8 m' x = load8 m x) -> load16 m' a = load16 m a.
Proof. intros Hx. unfold load16. by rewrite !Hx by lia. Qed.
Lemma load32_bytes m m' a : (forall x, a <= x < a + 4 -> load8 m' x = load8 m x) -> load32 m' a = load32 m a.
Proof. intros Hx. unfold load32. by rewrite !Hx by lia. Qed.

(** A structure read from the disk has the bytes that are there. *)
Lemma load8_mem_of c a n x : 0 <= x < Z.of_nat n -> load8 (mem_of 0 (bytes_at c a n)) x = load8 c (a + x).
Proof.
  intros Hx. unfold load8 at 1, mem_of. dec_true (0 <=? x). rewrite (nth_lookup_Some _ _ _ (load8 c (a + x))).
  - apply u8_id, load8_range.
  - rewrite bytes_at_lookup by lia. do 2 f_equal. lia.
Qed.
Lemma mem_of_bytes m n x : 0 <= x < Z.of_nat n -> load8 (mem_of 0 (bytes_at m 0 n)) x = load8 m x.
Proof. intros. rewrite load8_mem_of by done. f_equal. Qed.
