(* ===== verification/KHeap.v ===== *)
(** The kernel heap ([memory/kheap.c]).

    The heap is an area of byte memory tiled by blocks, each an 8-byte packed
    header [{u32 size; u16 magic; u16 status}] and its payload.  [kmalloc],
    [kfree], [krealloc], [merge_free_blocks] and [kheap_expand] work on that
    memory as the C code does.  The abstract heap is the list of its blocks;
    [heap_rep] relates the two and the refinement lemmas show that the C code
    computes first fit, release and full coalescing of that list. *)

From S2P Require Import Prelude Mem.

Definition BLOCK_HEADER_MAGIC : Z := 177.
Definition sizeof_block_header : Z := 8.
Definition KHEAP_BASE_SIZE : Z := 4194304.
Definition KHEAP_PHYS_START : Z := 8388608.
Definition KHEAP_BASE_START : Z := 3229614080.
Definition FREE_KVM_START : Z := 3766484992.
Definition KERNEL_VIRTUAL_BASE : Z := 3221225472.
Definition UNKNOWN_BLOCK_ERRMSG : string := "Unknown block in kernel heap".

(** The state: byte memory and the moving end of the heap. *)
Record kheap : Type := mk_kheap { hmem : mem; KHEAP_BASE_END : Z }.
Definition upd_mem (f : mem -> mem) : M kheap unit :=
  modify (fun h => mk_kheap (f (hmem h)) (KHEAP_BASE_END h)).

(** Fields of a [block_header_t] at address [a]. *)
Definition hdr_size (m : mem) (a : Z) : Z := load32 m a.
Definition hdr_magic (m : mem) (a : Z) : Z := load16 m (a + 4).
Definition hdr_status (m : mem) (a : Z) : Z := load16 m (a + 6).

(** Bound on the iterations of a walk over the heap: every block takes at
    least its header. *)
Definition heap_fuel (h : kheap) : nat :=
  Z.to_nat ((KHEAP_BASE_END h - KHEAP_BASE_START) / 8 + 1).

(** [kheap_install]; the two page tables are linker symbols. *)
Fixpoint fill_heap_table (n : nat) (i table : Z) (m : mem) : mem :=
  match n with
  | O => m
  | S n' => fill_heap_table n' (i + 1) table
              (store32 m (table + 4 * i) (Z.lor (u32 (i * 4096 + KHEAP_PHYS_START)) 3))
  end.
#[global] Arguments fill_heap_table : simpl never.
Definition kheap_install (kheap_page_table kernel_page_directory : Z) : M kheap unit :=
  let pd_index := Z.shiftr KHEAP_BASE_START 22 in
  upd_mem (fill_heap_table 1024 0 kheap_page_table) ;;;
  upd_mem (fun m => store32 m (kernel_page_directory + 4 * pd_index)
                      (Z.lor (u32 (kheap_page_table - KERNEL_VIRTUAL_BASE)) 3)) ;;;
  upd_mem (fun m => memset m KHEAP_BASE_START 0 KHEAP_BASE_SIZE) ;;;
  let base_block := KHEAP_BASE_START in
  upd_mem (fun m => store16 m (base_block + 4) BLOCK_HEADER_MAGIC) ;;;
  h <- get ;;
  upd_mem (fun m => store32 m base_block (u32 (KHEAP_BASE_END h - (base_block + sizeof_block_header)))) ;;;
  upd_mem (fun m => store16 m (base_block + 6) 0).

(** The block at [i] fits: split it when what is left holds more than a
    header, mark it reserved and return its payload. *)
Definition take_block (i size : Z) : M kheap Z :=
  h <- get ;;
  let oldSize := hdr_size (hmem h) i in
  (if sizeof_block_header <? u32 (oldSize - size) then
     upd_mem (fun m => store32 m i size) ;;;
     h1 <- get ;;
     let newblock := u32 (i + sizeof_block_header + hdr_size (hmem h1) i) in
     upd_mem (fun m => store16 m (newblock + 4) BLOCK_HEADER_MAGIC) ;;;
     upd_mem (fun m => store32 m newblock (u32 (oldSize - size - sizeof_block_header))) ;;;
     upd_mem (fun m => store16 m (newblock + 6) 0)
   else ret tt) ;;;
  upd_mem (fun m => store16 m (i + 6) 1) ;;;
  ret (u32 (i + sizeof_block_header)).

#[global] Arguments take_block : simpl never.

(** The block walk of [kmalloc]: first fit, splitting large blocks.  [None]
    means that the walk reached the end of the heap. *)
Fixpoint kmalloc_scan (fuel : nat) (size i : Z) : M kheap (option Z) :=
  match fuel with
  | O => nofuel
  | S n =>
    h <- get ;;
    let m := hmem h in
    if i <? KHEAP_BASE_END h then
      if negb (hdr_magic m i =? BLOCK_HEADER_MAGIC) then fatal_kernel_error UNKNOWN_BLOCK_ERRMSG
      else if (hdr_status m i =? 0) && (size <=? hdr_size m i) then
        p <- take_block i size ;; ret (Some p)
      else kmalloc_scan n size (u32 (i + (hdr_size m i + sizeof_block_header)))
    else ret None
  end.

(** The inner loop of [merge_free_blocks], [while(!next_block->status)]; the
    result tells whether the function returned from inside the loop. *)
Fixpoint merge_inner (fuel : nat) (current_block next_block : Z) : M kheap bool :=
  match fuel with
  | O => nofuel
  | S n =>
    h <- get ;;
    if negb (hdr_status (hmem h) next_block =? 0) then ret false
    else if KHEAP_BASE_END h <=? next_block then ret true
    else if negb (hdr_magic (hmem h) next_block =? BLOCK_HEADER_MAGIC) then
      fatal_kernel_error UNKNOWN_BLOCK_ERRMSG
    else
      upd_mem (fun m => store32 m current_block
        (u32 (hdr_size m current_block + (hdr_size m next_block + sizeof_block_header)))) ;;;
      h1 <- get ;;
      let next' := u32 (next_block + (hdr_size (hmem h1) next_block + sizeof_block_header)) in
      if KHEAP_BASE_END h1 <=? next' then ret true
      else merge_inner n current_block next'
  end.

(** The outer loop of [merge_free_blocks]. *)
Fixpoint merge_outer (fuel : nat) (current_block : Z) : M kheap unit :=
  match fuel with
  | O => nofuel
  | S n =>
    h <- get ;;
    let m := hmem h in
    if current_block <? KHEAP_BASE_END h then
      if negb (hdr_magic m current_block =? BLOCK_HEADER_MAGIC) then
        fatal_kernel_error UNKNOWN_BLOCK_ERRMSG
      else if negb (hdr_status m current_block =? 0) then
        merge_outer n (u32 (current_block + (hdr_size m current_block + sizeof_block_header)))
      else
        let next_block := u32 (current_block + hdr_size m current_block + sizeof_block_header) in
        if KHEAP_BASE_END h <=? next_block then ret tt
        else
          returned <- merge_inner n current_block next_block ;;
          if (returned : bool) then ret tt
          else
            h1 <- get ;;
            merge_outer n (u32 (current_block
              + (hdr_size (hmem h1) current_block + sizeof_block_header)))
    else ret tt
  end.

Definition merge_free_blocks : M kheap unit :=
  h <- get ;; merge_outer (heap_fuel h) KHEAP_BASE_START.

Definition kfree (pointer : Z) : M kheap unit :=
  let blockHeader := u32 (pointer - sizeof_block_header) in
  h <- get ;;
  if negb (hdr_magic (hmem h) blockHeader =? BLOCK_HEADER_MAGIC) then
    fatal_kernel_error UNKNOWN_BLOCK_ERRMSG
  else
    upd_mem (fun m => store16 m (blockHeader + 6) 0) ;;;
    merge_free_blocks.

Definition kheap_get_size (ptr : Z) : M kheap Z :=
  let blockHeader := u32 (ptr - sizeof_block_header) in
  h <- get ;;
  if negb (hdr_magic (hmem h) blockHeader =? BLOCK_HEADER_MAGIC) then
    fatal_kernel_error UNKNOWN_BLOCK_ERRMSG
  else ret (hdr_size (hmem h) blockHeader).

(** Growing the heap.  [map_heap] stands for the [map_memory] calls of
    [kheap_expand] on the kernel page directory and on every process
    directory: [memory/paging.c] allocates its own descriptors on this very
    heap, so the heap only relies on what [HeapMapper] states. *)
Section Expand.
Context (map_heap : M kheap unit).

Definition kheap_expand : M kheap unit :=
  h <- get ;;
  if FREE_KVM_START <=? KHEAP_BASE_END h then fatal_kernel_error "Kernel heap full ! How ?"
  else
    map_heap ;;;
    h1 <- get ;;
    let base_block := KHEAP_BASE_END h1 in
    upd_mem (fun m => store16 m (base_block + 4) BLOCK_HEADER_MAGIC) ;;;
    upd_mem (fun m => store32 m base_block (4194304 - sizeof_block_header)) ;;;
    upd_mem (fun m => store16 m (base_block + 6) 0) ;;;
    modify (fun h => mk_kheap (hmem h) (u32 (KHEAP_BASE_END h + 4194304))) ;;;
    merge_free_blocks.

(** [fuel] bounds the number of expansions of one call. *)
Fixpoint kmalloc (fuel : nat) (size : Z) : M kheap Z :=
  match fuel with
  | O => nofuel
  | S n =>
    let size := alignup size 4 in
    h <- get ;;
    r <- kmalloc_scan (heap_fuel h) size KHEAP_BASE_START ;;
    match r with
    | Some p => ret p
    | None => kheap_expand ;;; kmalloc n size
    end
  end.

Definition krealloc (fuel : nat) (pointer newsize : Z) : M kheap Z :=
  let blockHeader := u32 (pointer - sizeof_block_header) in
  h <- get ;;
  if newsize <? hdr_size (hmem h) blockHeader then fatal_kernel_error "Reallocating less space ?!"
  else
    np <- kmalloc fuel newsize ;;
    upd_mem (fun m => memcpy m np pointer (hdr_size m blockHeader)) ;;;
    kfree pointer ;;;
    ret np.
End Expand.
#[global] Arguments kheap_expand : simpl never.
#[global] Arguments kfree : simpl never.
#[global] Arguments merge_free_blocks : simpl never.

(** * The abstract heap: the list of blocks *)

Record blk : Type := mk_blk { bsize : Z; bused : bool }.

Definition status_of (b : blk) : Z := if bused b then 1 else 0.
Definition hdr_at (m : mem) (a : Z) (b : blk) : Prop :=
  hdr_magic m a = BLOCK_HEADER_MAGIC /\ hdr_size m a = bsize b /\ hdr_status m a = status_of b.

(** The blocks [bs] tile [a, e) in memory [m]. *)
Fixpoint heap_at (m : mem) (a : Z) (bs : list blk) (e : Z) : Prop :=
  match bs with
  | [] => a = e
  | b :: r => hdr_at m a b /\ 0 <= bsize b /\ bsize b mod 4 = 0 /\ heap_at m (a + 8 + bsize b) r e
  end.

(** The heap holds the blocks [bs] and ends where 32-bit addresses still do
    not wrap. *)
Definition heap_rep (h : kheap) (bs : list blk) : Prop :=
  heap_at (hmem h) KHEAP_BASE_START bs (KHEAP_BASE_END h) /\ KHEAP_BASE_END h <= 4294967280.

(** Abstract operations: first fit, release of the block with payload at
    [p], coalescing of neighbouring free blocks. *)
Definition split_block (size : Z) (b : blk) : list blk :=
  if 8 <? bsize b - size then [mk_blk size true; mk_blk (bsize b - size - 8) false]
  else [mk_blk (bsize b) true].
Fixpoint first_fit (size a : Z) (bs : list blk) : option (list blk * Z) :=
  match bs with
  | [] => None
  | b :: r =>
    if negb (bused b) && (size <=? bsize b) then Some (split_block size b ++ r, a + 8)
    else match first_fit size (a + 8 + bsize b) r with
         | Some (r', p) => Some (b :: r', p)
         | None => None
         end
  end.
Fixpoint release (p a : Z) (bs : list blk) : list blk :=
  match bs with
  | [] => []
  | b :: r => if a + 8 =? p then mk_blk (bsize b) false :: r
              else b :: release p (a + 8 + bsize b) r
  end.
Definition absorb (b : blk) (r : list blk) : list blk :=
  if bused b then b :: r
  else match r with
       | c :: r' => if bused c then b :: r else mk_blk (bsize b + (bsize c + 8)) false :: r'
       | [] => [b]
       end.
Definition coalesce (bs : list blk) : list blk := foldr absorb [] bs.
#[global] Arguments coalesce : simpl never.

(** Payload areas of the blocks in use, as (address, size). *)
Fixpoint live_blocks (a : Z) (bs : list blk) : list (Z * Z) :=
  match bs with
  | [] => []
  | b :: r => (if bused b then [(a + 8, bsize b)] else []) ++ live_blocks (a + 8 + bsize b) r
  end.

(** No two neighbours are free. *)
Fixpoint coalesced (bs : list blk) : Prop :=
  match bs with
  | b :: (c :: _) as r => (bused b = false -> bused c = true) /\ coalesced r
  | _ => True
  end.

(** [x] lies in the payload of a block in use. *)
Definition in_live (a : Z) (bs : list blk) (x : Z) : Prop :=
  exists p n, (p, n) ∈ live_blocks a bs /\ p <= x < p + n.

(** [m'] keeps every byte outside [a, e) and every payload byte of [bs]. *)
Definition keeps (m m' : mem) (a : Z) (bs : list blk) (e : Z) : Prop :=
  forall x, x < a \/ e <= x \/ in_live a bs x -> m' x = m x.

(** * Lemmas *)

Lemma hdr_at_ext m m' a b : (forall x, a <= x < a + 8 -> m' x = m x) -> hdr_at m a b -> hdr_at m' a b.
Proof.
  intros Hx. unfold hdr_at, hdr_magic, hdr_size, hdr_status.
  rewrite (load16_ext m m' (a + 4)), (load32_ext m m' a), (load16_ext m m' (a + 6))
    by (intros; apply Hx; lia). done.
Qed.

Lemma heap_at_ext m m' a bs e : (forall x, a <= x < e -> m' x = m x) -> heap_at m a bs e -> heap_at m' a bs e.
Proof.
  revert a. induction bs as [|b r IH]; intros a Hx; [done|]. cbn.
  intros (Hh & Hs & Hm & Hr).
  assert (a + 8 + bsize b <= e) as Hle.
  { clear -Hr. revert Hr. generalize (a + 8 + bsize b) as c.
    induction r as [|b' r IH]; cbn; intros c; [lia|]. intros (? & ? & ? & Hr).
    specialize (IH _ Hr). lia. }
  split_and!; [|done|done|].
  - eapply hdr_at_ext; [|done]. intros. apply Hx. lia.
  - apply IH; [|done]. intros. apply Hx. lia.
Qed.

Lemma heap_at_bounds m a bs e : heap_at m a bs e -> a + 8 * Z.of_nat (length bs) <= e.
Proof.
  revert a. induction bs as [|b r IH]; intros a; cbn -[Z.mul Z.of_nat]; [lia|].
  intros (_ & ? & _ & Hr). specialize (IH _ Hr). lia.
Qed.

Lemma heap_at_app m a bs1 bs2 e : heap_at m a (bs1 ++ bs2) e <->
  exists c, heap_at m a bs1 c /\ heap_at m c bs2 e.
Proof.
  revert a. induction bs1 as [|b r IH]; intros a; cbn.
  - split; [eauto|]. by intros (c & -> & ?).
  - rewrite IH. split.
    + intros (? & ? & ? & c & ? & ?). exists c. tauto.
    + intros (c & (? & ? & ? & ?) & ?). repeat (split; [done|]). eauto.
Qed.

Lemma live_in_bounds m a bs e p n : heap_at m a bs e -> (p, n) ∈ live_blocks a bs ->
  a + 8 <= p /\ 0 <= n /\ p + n <= e.
Proof.
  revert a. induction bs as [|b r IH]; intros a; cbn; [set_solver|].
  intros (_ & Hs & _ & Hr) Hin. pose proof (heap_at_bounds _ _ _ _ Hr).
  apply elem_of_app in Hin as [Hin|Hin].
  - destruct (bused b); [|set_solver]. apply list_elem_of_singleton in Hin as [= -> ->]. lia.
  - specialize (IH _ Hr Hin). lia.
Qed.

Lemma in_live_bounds m a bs e x : heap_at m a bs e -> in_live a bs x -> a + 8 <= x < e.
Proof. intros H (p & n & Hin & ?). pose proof (live_in_bounds _ _ _ _ _ _ H Hin). lia. Qed.

Lemma in_live_cons a b r x : in_live a (b :: r) x <->
  (bused b = true /\ a + 8 <= x < a + 8 + bsize b) \/ in_live (a + 8 + bsize b) r x.
Proof.
  unfold in_live. cbn. split.
  - intros (p & n & Hin & ?). apply elem_of_app in Hin as [Hin|Hin]; [|by eauto].
    destruct (bused b); [|set_solver]. apply list_elem_of_singleton in Hin as [= -> ->]. auto.
  - intros [[Hu Hx]|(p & n & Hin & Hx)].
    + exists (a + 8), (bsize b). rewrite Hu. split; [|lia]. apply elem_of_app. left. by left.
    + exists p, n. split; [|lia]. apply elem_of_app. by right.
Qed.

Lemma heap_fuel_enough h bs a : heap_at (hmem h) a bs (KHEAP_BASE_END h) ->
  KHEAP_BASE_START <= a -> (length bs < heap_fuel h)%nat.
Proof. intros H Ha. pose proof (heap_at_bounds _ _ _ _ H). unfold heap_fuel. dlia. Qed.

Lemma hdr_status_of m a b : hdr_at m a b -> (hdr_status m a =? 0) = negb (bused b).
Proof. intros (_ & _ & ->). unfold status_of. by destruct (bused b). Qed.
Lemma hdr_magic_of m a b : hdr_at m a b -> (hdr_magic m a =? BLOCK_HEADER_MAGIC) = true.
Proof. intros (-> & _). by apply Z.eqb_refl. Qed.
Lemma hdr_size_of m a b : hdr_at m a b -> hdr_size m a = bsize b.
Proof. by intros (_ & -> & _). Qed.

(** Proves [hdr_at] of a memory built by header stores. *)
Ltac hdr_solve := unfold hdr_at, hdr_magic, hdr_size, hdr_status, status_of, BLOCK_HEADER_MAGIC,
  sizeof_block_header in *; cbn [bsize bused hmem KHEAP_BASE_END] in *; load_store; unwrap;
  split_and?; try lia; try done.
(** Proves that a byte is not touched by header stores. *)
Ltac frame_solve := cbn [hmem KHEAP_BASE_END];
  repeat first [rewrite store16_other by lia | rewrite store32_other by lia]; done.

Lemma take_block_refines h a b r size : heap_at (hmem h) a (b :: r) (KHEAP_BASE_END h) ->
  KHEAP_BASE_END h <= 4294967280 -> 0 <= a ->
  bused b = false -> 0 <= size <= bsize b -> size mod 4 = 0 -> exists m',
    take_block a size h = Ok (a + 8) (mk_kheap m' (KHEAP_BASE_END h)) /\
    heap_at m' a (split_block size b ++ r) (KHEAP_BASE_END h) /\
    keeps (hmem h) m' a (b :: r) (KHEAP_BASE_END h).
Proof.
  destruct h as [m e]; cbn [hmem KHEAP_BASE_END].
  intros (Hh & Hs & Hm & Hr) He Ha Hu Hsz Hmod. pose proof (heap_at_bounds _ _ _ _ Hr).
  unfold take_block, split_block, sizeof_block_header. mstep. rewrite (hdr_size_of _ _ _ Hh).
  rewrite (u32_id (bsize b - size)) by lia.
  destruct (8 <? bsize b - size) eqn:Hsplit; zify_bool.
  - eexists. split_and!.
    + unfold hdr_size. cbn [hmem KHEAP_BASE_END]. rewrite load32_store32, (u32_id size), !u32_id by lia. reflexivity.
    + split_and!; try (cbn; lia).
      * hdr_solve.
      * split_and!; [hdr_solve|cbn; lia|cbn; dlia|].
        eapply heap_at_ext; [|replace (a + 8 + _ + 8 + _) with (a + 8 + bsize b) by (cbn; lia); done].
        cbn; intros. frame_solve.
    + intros x Hx. rewrite in_live_cons, Hu in Hx.
      assert (~ (a <= x < a + 8 + bsize b)).
      { destruct Hx as [?|[?|[[? _]|Hl]]]; [lia|lia|done|].
        pose proof (in_live_bounds _ _ _ _ _ Hr Hl). lia. }
      frame_solve.
  - eexists. split_and!.
    + rewrite u32_id by lia. reflexivity.
    + split_and!; cbn; try done.
      * destruct Hh as (? & ? & _). hdr_solve.
      * eapply heap_at_ext; [|done]. intros. frame_solve.
    + intros x Hx. rewrite in_live_cons, Hu in Hx.
      assert (~ (a <= x < a + 8)).
      { destruct Hx as [?|[?|[[? _]|Hl]]]; [lia|lia|done|].
        pose proof (in_live_bounds _ _ _ _ _ Hr Hl). lia. }
      frame_solve.
Qed.

Lemma keeps_refl m a bs e : keeps m m a bs e.
Proof. by intros x _. Qed.
Lemma keeps_cons m m' a b r e : 0 <= bsize b -> keeps m m' (a + 8 + bsize b) r e -> keeps m m' a (b :: r) e.
Proof.
  intros Hs H x Hx. apply H. rewrite in_live_cons in Hx.
  destruct Hx as [?|[?|[[_ ?]|?]]]; [left; lia|by right; left|left; lia|by right; right].
Qed.
Lemma hdr_at_keeps m m' a b r e : 0 <= bsize b -> keeps m m' (a + 8 + bsize b) r e ->
  hdr_at m a b -> hdr_at m' a b.
Proof. intros ? H. apply hdr_at_ext. intros x ?. apply H. left. lia. Qed.
#[export] Hint Resolve keeps_refl keeps_cons hdr_at_keeps : kernel.

(** The walk of [kmalloc] computes first fit. *)
Lemma kmalloc_scan_refines fuel size a bs h :
  heap_at (hmem h) a bs (KHEAP_BASE_END h) -> KHEAP_BASE_END h <= 4294967280 -> 0 <= a ->
  0 <= size -> size mod 4 = 0 -> (length bs < fuel)%nat ->
  match first_fit size a bs with
  | None => kmalloc_scan fuel size a h = Ok None h
  | Some (bs', p) => exists m',
      kmalloc_scan fuel size a h = Ok (Some p) (mk_kheap m' (KHEAP_BASE_END h)) /\
      heap_at m' a bs' (KHEAP_BASE_END h) /\ keeps (hmem h) m' a bs (KHEAP_BASE_END h)
  end.
Proof.
  intros Hb He Ha Hsz Hmod. revert a Hb Ha fuel.
  induction bs as [|b r IH]; intros a Hb Ha [|fuel] Hf; cbn in Hf; try lia.
  { cbn in *. subst. mstep. by rewrite Z.ltb_irrefl. }
  pose proof Hb as (Hh & Hs & Hm & Hr). pose proof (heap_at_bounds _ _ _ _ Hr).
  cbn [first_fit kmalloc_scan]. mstep. dec_true (a <? KHEAP_BASE_END h).
  rewrite (hdr_magic_of _ _ _ Hh), (hdr_status_of _ _ _ Hh), (hdr_size_of _ _ _ Hh). cbn [negb].
  destruct (negb (bused b) && (size <=? bsize b)) eqn:Hfit.
  - zify_bool. destruct (take_block_refines h a b r size) as (m' & Hrun & Hrep & Hk); try done; try lia.
    exists m'. by rewrite Hrun.
  - rewrite u32_id by (unfold sizeof_block_header; lia). unfold sizeof_block_header.
    replace (a + (bsize b + 8)) with (a + 8 + bsize b) by lia.
    specialize (IH _ Hr ltac:(lia) fuel ltac:(lia)).
    destruct (first_fit size (a + 8 + bsize b) r) as [[r' p]|]; [|done].
    destruct IH as (m' & Hrun & Hrep & Hk). exists m'. rewrite Hrun.
    split_and!; eauto with kernel. cbn. split_and!; eauto with kernel.
Qed.

(** Leading free blocks of [r] merged into a free block of [sz] bytes. *)
Fixpoint absorb_run (sz : Z) (r : list blk) : Z * list blk :=
  match r with
  | c :: r' => if bused c then (sz, r) else absorb_run (sz + (bsize c + 8)) r'
  | [] => (sz, [])
  end.

Lemma absorb_run_add x y r : absorb_run (x + y) r = (x + (absorb_run y r).1, (absorb_run y r).2).
Proof.
  revert y. induction r as [|c r IH]; intros y; cbn; [done|]. destruct (bused c); [done|].
  rewrite <- Z.add_assoc. apply IH.
Qed.
Lemma absorb_run_length sz r : (length (absorb_run sz r).2 <= length r)%nat.
Proof. revert sz. induction r as [|c r IH]; intros; cbn; [lia|]. destruct (bused c); cbn; [lia|]. specialize (IH (sz + (bsize c + 8))). lia. Qed.

Lemma coalesce_used b r : bused b = true -> coalesce (b :: r) = b :: coalesce r.
Proof. intros H. unfold coalesce. cbn. unfold absorb at 1. by rewrite H. Qed.

Lemma coalesce_free sz r : coalesce (mk_blk sz false :: r) =
  mk_blk (absorb_run sz r).1 false :: coalesce (absorb_run sz r).2.
Proof.
  revert sz. induction r as [|c r IH]; intros sz; [done|].
  destruct (bused c) eqn:Hc.
  - cbn [absorb_run]. rewrite Hc. cbn [fst snd].
    change (coalesce (mk_blk sz false :: c :: r)) with (absorb (mk_blk sz false) (coalesce (c :: r))).
    rewrite coalesce_used by done. unfold absorb. cbn. by rewrite Hc.
  - cbn [absorb_run]. rewrite Hc.
    change (coalesce (mk_blk sz false :: c :: r)) with (absorb (mk_blk sz false) (coalesce (c :: r))).
    destruct c as [cs []]; [done|]. rewrite IH. unfold absorb. cbn [bused bsize].
    replace (sz + (cs + 8)) with (sz + 8 + cs) by lia. rewrite absorb_run_add. cbn [fst snd].
    do 2 f_equal. lia.
Qed.

Lemma live_absorb_run a sz r : live_blocks a (mk_blk (absorb_run sz r).1 false :: (absorb_run sz r).2) =
  live_blocks a (mk_blk sz false :: r).
Proof.
  revert sz. induction r as [|c r IH]; intros sz; [done|]. cbn [absorb_run].
  destruct (bused c) eqn:Hc; [done|]. rewrite IH. cbn. rewrite Hc. cbn. f_equal. lia.
Qed.

Lemma merge_inner_refines fuel h cur sz r :
  heap_at (hmem h) cur (mk_blk sz false :: r) (KHEAP_BASE_END h) -> r <> [] ->
  KHEAP_BASE_END h <= 4294967280 -> 0 <= cur -> (length r <= fuel)%nat ->
  exists m', merge_inner fuel cur (cur + 8 + sz) h =
      Ok (match (absorb_run sz r).2 with [] => true | _ => false end) (mk_kheap m' (KHEAP_BASE_END h)) /\
    heap_at m' cur (mk_blk (absorb_run sz r).1 false :: (absorb_run sz r).2) (KHEAP_BASE_END h) /\
    keeps (hmem h) m' cur (mk_blk sz false :: r) (KHEAP_BASE_END h).
Proof.
  destruct h as [m e]; cbn [hmem KHEAP_BASE_END]. revert m sz r.
  induction fuel as [|fuel IH]; intros m sz r Hb Hne He Hcur Hf.
  { destruct r; [done|]. cbn in Hf. lia. }
  destruct r as [|c r]; [done|]. pose proof Hb as (Hh & Hs & Hmod & Hc & Hcs & Hcmod & Hr).
  cbn [bsize] in *. pose proof (heap_at_bounds _ _ _ _ Hr). cbn [length] in Hf.
  cbn [merge_inner absorb_run]. mstep. rewrite (hdr_status_of _ _ _ Hc), (hdr_magic_of _ _ _ Hc).
  destruct (bused c) eqn:Hu; cbn [negb].
  { exists m. split; [done|split; [exact Hb|apply keeps_refl]]. }
  dec_false (e <=? cur + 8 + sz). cbn [hmem KHEAP_BASE_END].
  rewrite (hdr_size_of _ _ _ Hh), (hdr_size_of _ _ _ Hc).
  cbn [bsize]. unfold hdr_size, sizeof_block_header. rewrite load32_store32_far by lia.
  fold (hdr_size m (cur + 8 + sz)). rewrite (hdr_size_of _ _ _ Hc), !u32_id by lia.
  set (sz' := sz + (bsize c + 8)).
  replace (cur + 8 + sz + (bsize c + 8)) with (cur + 8 + sz') by (unfold sz'; lia).
  set (m1 := store32 m cur sz').
  assert (heap_at m1 cur (mk_blk sz' false :: r) e) as Hb1.
  { cbn [heap_at bsize]. split_and!.
    - destruct Hh as (? & ? & ?). unfold m1, sz' in *. hdr_solve.
    - unfold sz'. lia.
    - unfold sz'. dlia.
    - replace (cur + 8 + sz') with (cur + 8 + sz + 8 + bsize c) by (unfold sz'; lia).
      eapply heap_at_ext; [|done]. intros. unfold m1. frame_solve. }
  assert (keeps m m1 cur (mk_blk sz false :: c :: r) e) as Hk1.
  { intros x Hx. rewrite !in_live_cons in Hx. cbn [bused bsize] in Hx. rewrite Hu in Hx.
    assert (~ (cur <= x < cur + 4)); [|unfold m1; frame_solve].
    destruct Hx as [?|[?|[[? _]|[[? _]|Hl]]]]; [lia|lia|done|done|].
    pose proof (in_live_bounds _ _ _ _ _ Hr Hl). lia. }
  destruct r as [|c' r].
  { cbn [heap_at] in Hb1. destruct Hb1 as (Hb1 & Hb2 & Hb3 & Hb4). cbn [bsize] in Hb4.
    rewrite Hb4, Z.leb_refl. exists m1. split; [done|split; [by split_and!|exact Hk1]]. }
  assert (cur + 8 + sz' < e).
  { destruct Hb1 as (_ & _ & _ & Hb1). pose proof (heap_at_bounds _ _ _ _ Hb1) as Hx.
    cbn [length bsize] in Hx. lia. }
  dec_false (e <=? cur + 8 + sz').
  destruct (IH m1 sz' (c' :: r)) as (m' & Hrun & Hrep & Hk); try done; [cbn in *; lia|].
  exists m'. split; [exact Hrun|split; [exact Hrep|]].
  intros x Hx. rewrite <- Hk1 by done. apply Hk.
  destruct Hx as [?|[?|Hx]]; [by left|by right; left|right; right].
  rewrite !in_live_cons in *. cbn [bused bsize] in *. rewrite Hu in Hx.
  replace (cur + 8 + sz + 8 + bsize c) with (cur + 8 + sz') in Hx by (unfold sz'; lia).
  destruct Hx as [[? _]|[[? _]|?]]; [done|done|by right].
Qed.

(** [merge_free_blocks] coalesces. *)
Lemma merge_outer_refines fuel h cur bs :
  heap_at (hmem h) cur bs (KHEAP_BASE_END h) -> KHEAP_BASE_END h <= 4294967280 -> 0 <= cur ->
  (length bs < fuel)%nat ->
  exists m', merge_outer fuel cur h = Ok tt (mk_kheap m' (KHEAP_BASE_END h)) /\
    heap_at m' cur (coalesce bs) (KHEAP_BASE_END h) /\ keeps (hmem h) m' cur bs (KHEAP_BASE_END h).
Proof.
  destruct h as [m e]; cbn [hmem KHEAP_BASE_END]. revert m cur bs.
  induction fuel as [|fuel IH]; intros m cur bs Hb He Hcur Hf; [lia|].
  destruct bs as [|b r].
  { cbn in Hb. subst. exists m. cbn [merge_outer]. mstep. rewrite Z.ltb_irrefl.
    split; [done|split; [done|apply keeps_refl]]. }
  pose proof Hb as (Hh & Hs & Hmod & Hr). pose proof (heap_at_bounds _ _ _ _ Hr). cbn [length] in Hf.
  cbn [merge_outer]. mstep. dec_true (cur <? e).
  rewrite (hdr_magic_of _ _ _ Hh), (hdr_status_of _ _ _ Hh), (hdr_size_of _ _ _ Hh). cbn [negb].
  unfold sizeof_block_header. rewrite !(u32_id (cur + _)) by lia. rewrite u32_id by lia.
  replace (cur + bsize b + 8) with (cur + 8 + bsize b) by lia.
  destruct (bused b) eqn:Hu; cbn [negb].
  { replace (cur + (bsize b + 8)) with (cur + 8 + bsize b) by lia.
    destruct (IH m _ _ Hr He ltac:(lia) ltac:(lia)) as (m' & Hrun & Hrep & Hk).
    exists m'. rewrite Hrun, coalesce_used by done. split; [done|]. cbn. split_and!; eauto with kernel. }
  destruct b as [sz []]; [done|]. cbn [bsize] in *.
  destruct r as [|c r].
  { cbn in Hr. rewrite Hr, Z.leb_refl. exists m. split; [done|]. split; [exact Hb|eauto with kernel]. }
  cbn [length] in *. dec_false (e <=? cur + 8 + sz).
  destruct (merge_inner_refines fuel (mk_kheap m e) cur sz (c :: r)) as (m1 & Hrun & Hrep & Hk);
    [exact Hb|done|done|done|cbn; lia|]. cbn [hmem KHEAP_BASE_END] in *.
  rewrite Hrun, coalesce_free. pose proof (live_absorb_run cur sz (c :: r)) as Hlive.
  pose proof (absorb_run_length sz (c :: r)) as Hlen. cbn [length] in Hlen.
  set (sz' := (absorb_run sz (c :: r)).1) in *. set (r' := (absorb_run sz (c :: r)).2) in *.
  clearbody sz' r'. pose proof Hrep as (Hh' & Hs' & Hmod' & Hr'). cbn [bsize] in *.
  pose proof (heap_at_bounds _ _ _ _ Hr').
  destruct r' as [|c' r'].
  { exists m1. split; [done|]. split; [exact Hrep|exact Hk]. }
  cbn [hmem KHEAP_BASE_END]. rewrite (hdr_size_of _ _ _ Hh').
  cbn [bsize length] in *. rewrite u32_id by lia.
  replace (cur + (sz' + 8)) with (cur + 8 + sz') by lia.
  destruct (IH m1 _ _ Hr' He ltac:(lia) ltac:(cbn; lia)) as (m' & Hrun2 & Hrep2 & Hk2).
  exists m'. rewrite Hrun2. split; [done|].
  pose proof (keeps_cons m1 m' cur (mk_blk sz' false) (c' :: r') e Hs' Hk2) as Hk2'.
  split; [cbn; split_and!; eauto with kernel|].
  intros x Hx. rewrite <- Hk by done. apply Hk2'.
  unfold in_live in *. rewrite Hlive in *. exact Hx.
Qed.

(** ** Facts about the block list *)

Definition span (bs : list blk) : Z := foldr (fun b n => 8 + bsize b + n) 0 bs.

Lemma heap_at_span m a bs e : heap_at m a bs e -> e = a + span bs.
Proof.
  revert a. induction bs as [|b r IH]; intros a; cbn; [lia|].
  intros (_ & _ & _ & Hr). specialize (IH _ Hr). fold (span r). lia.
Qed.

Lemma live_split a bs p n : (p, n) ∈ live_blocks a bs ->
  exists bs1 bs2, bs = bs1 ++ mk_blk n true :: bs2 /\ p = a + span bs1 + 8.
Proof.
  revert a. induction bs as [|b r IH]; intros a; cbn; [by intros ?%not_elem_of_nil|].
  rewrite elem_of_app. intros [Hin|Hin].
  - destruct b as [bs u], u; [|by apply not_elem_of_nil in Hin].
    apply list_elem_of_singleton in Hin as [= -> ->]. exists [], r. cbn. split; [done|lia].
  - destruct (IH _ Hin) as (bs1 & bs2 & -> & ->). exists (b :: bs1), bs2.
    split; [done|]. cbn. fold (span bs1). lia.
Qed.

Lemma live_app a bs1 bs2 : live_blocks a (bs1 ++ bs2) = live_blocks a bs1 ++ live_blocks (a + span bs1) bs2.
Proof.
  revert a. induction bs1 as [|b r IH]; intros a; cbn; [by rewrite Z.add_0_r|].
  rewrite IH, app_assoc. fold (span r). do 2 f_equal. lia.
Qed.

Lemma release_app m a bs1 b bs2 e : heap_at m a (bs1 ++ b :: bs2) e ->
  release (a + span bs1 + 8) a (bs1 ++ b :: bs2) = bs1 ++ mk_blk (bsize b) false :: bs2.
Proof.
  revert a. induction bs1 as [|c r IH]; intros a; cbn.
  - intros _. by dec_true (a + 8 =? a + 0 + 8).
  - fold (span r). intros (_ & Hs & _ & Hr). pose proof (heap_at_app m (a + 8 + bsize c) r (b :: bs2) e) as Happ.
    destruct (proj1 Happ Hr) as (x & Hx & _). pose proof (heap_at_span _ _ _ _ Hx).
    pose proof (heap_at_bounds _ _ _ _ Hx).
    dec_false (a + 8 =? a + (8 + bsize c + span r) + 8). f_equal. rewrite <- (IH _ Hr). f_equal. lia.
Qed.

Lemma live_coalesce a bs : live_blocks a (coalesce bs) = live_blocks a bs.
Proof.
  revert a. induction bs as [|[sz u] r IH]; intros a; [done|].
  destruct u; [rewrite coalesce_used by done; cbn; by rewrite IH|].
  change (coalesce (mk_blk sz false :: r)) with (absorb (mk_blk sz false) (coalesce r)).
  cbn. rewrite <- IH. destruct (coalesce r) as [|[cs []] r']; [done|done|].
  cbn. f_equal. lia.
Qed.

(** Coalescing leaves no two free neighbours. *)
Lemma coalesce_coalesced bs : coalesced (coalesce bs).
Proof.
  induction bs as [|[sz u] r IH]; [done|].
  change (coalesce (mk_blk sz u :: r)) with (absorb (mk_blk sz u) (coalesce r)).
  revert IH. generalize (coalesce r) as l. intros l IH. destruct u, l as [|[cs cu] l]; cbn; try done.
  destruct cu; cbn; [done|]. destruct l as [|d l]; [done|]. cbn in *. destruct IH. by split; [auto|].
Qed.

Lemma coalesced_app_inv b bs : coalesced (b :: bs) -> coalesced bs.
Proof. destruct bs; cbn; tauto. Qed.

Lemma first_fit_coalesced size a bs bs' p : coalesced bs -> first_fit size a bs = Some (bs', p) -> coalesced bs'.
Proof.
  revert a bs'. induction bs as [|b r IH]; intros a bs' Hc; cbn [first_fit]; [done|].
  destruct (negb (bused b) && (size <=? bsize b)) eqn:Hfit.
  - intros [= <- <-]. zify_bool. unfold split_block. case_bool; cbn.
    + split; [done|]. destruct r as [|c r]; [done|]. destruct Hc as [Hbc ?]. split; [auto|done].
    + destruct r as [|c r]; [done|]. destruct Hc. by split.
  - destruct (first_fit size (a + 8 + bsize b) r) as [[r' q]|] eqn:Hr; [|done]. intros [= <- <-].
    specialize (IH _ _ (coalesced_app_inv _ _ Hc) Hr). destruct r' as [|c' r']; [done|].
    split; [|done]. destruct r as [|c r]; [done|]. destruct Hc as [Hbc _]. intros Hu. specialize (Hbc Hu).
    cbn [first_fit] in Hr. rewrite Hbc in Hr. cbn in Hr.
    destruct (first_fit size (a + 8 + bsize b + 8 + bsize c) r) as [[? ?]|]; [|done].
    by injection Hr as <- <- <-.
Qed.

(** What first fit hands out: a block of at least [size] bytes that no block
    in use overlaps; all other blocks in use stay as they were. *)
Lemma first_fit_fresh m a bs e size bs' p : heap_at m a bs e -> first_fit size a bs = Some (bs', p) ->
  exists n, size <= n /\ a + 8 <= p /\ p + n <= e /\
    (forall q k, (q, k) ∈ live_blocks a bs' <-> (q, k) = (p, n) \/ (q, k) ∈ live_blocks a bs) /\
    (forall q k, (q, k) ∈ live_blocks a bs -> p + n <= q - 8 \/ q + k <= p - 8).
Proof.
  revert a bs'. induction bs as [|b r IH]; intros a bs' Hb; cbn [first_fit]; [done|].
  pose proof Hb as (Hh & Hs & Hmod & Hr). pose proof (heap_at_bounds _ _ _ _ Hr).
  destruct (negb (bused b) && (size <=? bsize b)) eqn:Hfit.
  - intros [= <- <-]. zify_bool. exists (if 8 <? bsize b - size then size else bsize b).
    assert (forall q k, (q, k) ∈ live_blocks (a + 8 + bsize b) r -> a + 8 + bsize b + 8 <= q) as Hq.
    { intros q k Hin. pose proof (live_in_bounds _ _ _ _ _ _ Hr Hin). lia. }
    cbn [live_blocks]. rewrite H0. unfold split_block. case_bool; cbn; split_and!; try lia.
    + intros q k. replace (a + 8 + size + 8 + (bsize b - size - 8)) with (a + 8 + bsize b) by lia.
      apply elem_of_cons.
    + intros q k Hin. specialize (Hq _ _ Hin). lia.
    + intros q k. apply elem_of_cons.
    + intros q k Hin. specialize (Hq _ _ Hin). lia.
  - destruct (first_fit size (a + 8 + bsize b) r) as [[r' q]|] eqn:Hf; [|done]. intros [= <- <-].
    destruct (IH _ _ Hr Hf) as (n & Hn & Hp & He & Hlive & Hdis). exists n.
    split_and!; [lia|lia|lia| |]; cbn [live_blocks]; intros q' k.
    + rewrite !elem_of_app, Hlive. tauto.
    + rewrite elem_of_app. intros [Hin|Hin]; [|by apply Hdis].
      destruct (bused b); [|by apply not_elem_of_nil in Hin].
      apply list_elem_of_singleton in Hin as [= -> ->]. lia.
Qed.

Lemma live_aligned m a bs e p n : heap_at m a bs e -> a mod 4 = 0 -> (p, n) ∈ live_blocks a bs ->
  p mod 4 = 0 /\ n mod 4 = 0.
Proof.
  revert a. induction bs as [|b r IH]; intros a; cbn [live_blocks heap_at]; [by intros _ _ ?%not_elem_of_nil|].
  intros (_ & Hs & Hm & Hr) Ha Hin. apply elem_of_app in Hin as [Hin|Hin].
  - destruct (bused b); [|by apply not_elem_of_nil in Hin].
    apply list_elem_of_singleton in Hin as [= -> ->]. split; dlia.
  - apply (IH _ Hr); [dlia|done].
Qed.

Lemma heap_rep_bounds h bs : heap_rep h bs -> KHEAP_BASE_START <= KHEAP_BASE_END h <= 4294967280.
Proof. intros [Hb He]. pose proof (heap_at_bounds _ _ _ _ Hb). lia. Qed.

(** Writes confined to blocks in use leave the heap structure alone. *)
Lemma heap_at_user_write m m' a bs e : (forall x, a <= x -> ~ in_live a bs x -> m' x = m x) ->
  heap_at m a bs e -> heap_at m' a bs e.
Proof.
  revert a. induction bs as [|b r IH]; intros a Hx; [done|].
  intros (Hh & Hs & Hm & Hr). cbn. split_and!; [|done|done|].
  - eapply hdr_at_ext; [|done]. intros y Hy. apply Hx; [lia|]. rewrite in_live_cons.
    intros [[_ ?]|Hl]; [lia|]. pose proof (in_live_bounds _ _ _ _ _ Hr Hl). lia.
  - apply IH; [|done]. intros x ? Hl. apply Hx; [lia|]. rewrite in_live_cons.
    intros [[_ ?]|?]; [lia|done].
Qed.

(** ** kfree *)

Lemma kfree_ok h bs p n : heap_rep h bs -> (p, n) ∈ live_blocks KHEAP_BASE_START bs ->
  exists h', kfree p h = Ok tt h' /\
    heap_rep h' (coalesce (release p KHEAP_BASE_START bs)) /\
    KHEAP_BASE_END h' = KHEAP_BASE_END h /\
    keeps (hmem h) (hmem h') KHEAP_BASE_START (release p KHEAP_BASE_START bs) (KHEAP_BASE_END h).
Proof.
  intros [Hb He] Hin. destruct (live_split _ _ _ _ Hin) as (bs1 & bs2 & -> & ->).
  pose proof Hb as Hb'. apply heap_at_app in Hb' as (c & Hb1 & Hb2).
  pose proof (heap_at_span _ _ _ _ Hb1) as Hc. cbn [heap_at bsize] in Hb2. destruct Hb2 as (Hh & Hs & Hm & Hr).
  pose proof (heap_at_bounds _ _ _ _ Hb1). pose proof (heap_at_bounds _ _ _ _ Hr).
  assert (KHEAP_BASE_START = 3229614080) as HS by done.
  rewrite (release_app _ _ _ _ _ _ Hb). rewrite <- Hc. cbn [bsize].
  unfold kfree, merge_free_blocks, sizeof_block_header.
  rewrite (u32_id (c + 8 - 8)) by lia. replace (c + 8 - 8) with c by lia. mstep.
  rewrite (hdr_magic_of _ _ _ Hh). cbn [negb].
  set (m1 := store16 (hmem h) (c + 6) 0). set (bs' := bs1 ++ mk_blk n false :: bs2).
  assert (heap_at m1 KHEAP_BASE_START bs' (KHEAP_BASE_END h)) as Hb'.
  { apply heap_at_app. exists c. split.
    - eapply heap_at_ext; [|done]. intros. unfold m1. frame_solve.
    - cbn [heap_at bsize]. split_and!; [|done|done|].
      + destruct Hh as (? & ? & ?). unfold m1. hdr_solve.
      + eapply heap_at_ext; [|done]. intros. unfold m1. frame_solve. }
  destruct (merge_outer_refines (heap_fuel (mk_kheap m1 (KHEAP_BASE_END h))) (mk_kheap m1 (KHEAP_BASE_END h))
              KHEAP_BASE_START bs' Hb' He ltac:(lia)) as (m' & Hrun & Hrep & Hk).
  { by eapply heap_fuel_enough. }
  exists (mk_kheap m' (KHEAP_BASE_END h)). split; [exact Hrun|]. split; [by split|]. split; [done|].
  intros x Hx. rewrite <- (store16_other (hmem h) (c + 6) 0).
  { by apply Hk. }
  destruct Hx as [?|[?|(q & k & Hq & ?)]]; [lia|lia|]. unfold bs' in Hq. rewrite live_app, elem_of_app in Hq.
  destruct Hq as [Hq|Hq]; [pose proof (live_in_bounds _ _ _ _ _ _ Hb1 Hq); lia|].
  cbn in Hq. rewrite <- Hc in Hq. pose proof (live_in_bounds _ _ _ _ _ _ Hr Hq). lia.
Qed.

(** Releasing a block removes exactly that block from those in use. *)
Lemma live_release m a bs e p n : heap_at m a bs e -> (p, n) ∈ live_blocks a bs ->
  forall q k, (q, k) ∈ live_blocks a (release p a bs) <-> (q, k) ∈ live_blocks a bs /\ q <> p.
Proof.
  intros Hb Hin q k. destruct (live_split _ _ _ _ Hin) as (bs1 & bs2 & -> & ->).
  rewrite (release_app _ _ _ _ _ _ Hb). apply heap_at_app in Hb as (c & Hb1 & Hb2).
  pose proof (heap_at_span _ _ _ _ Hb1) as Hc. cbn [heap_at bsize] in Hb2. destruct Hb2 as (Hh & Hs & Hm & Hr).
  rewrite !live_app, !elem_of_app. cbn [live_blocks bused bsize]. rewrite <- Hc. cbn [app].
  rewrite elem_of_cons. split.
  - intros [Hq|Hq].
    + pose proof (live_in_bounds _ _ _ _ _ _ Hb1 Hq). split; [auto|lia].
    + pose proof (live_in_bounds _ _ _ _ _ _ Hr Hq). split; [auto|lia].
  - intros [[Hq|[[= ->]|Hq]] ?]; auto. lia.
Qed.

(** ** kmalloc *)

(** What the heap relies on when it grows: mapping the new area, which may
    itself allocate, keeps the heap well formed and every block in use. *)
Class HeapMapper (map_heap : M kheap unit) : Prop := {
  map_heap_ok : forall h bs, heap_rep h bs -> coalesced bs -> KHEAP_BASE_END h < FREE_KVM_START ->
    exists h' bs', map_heap h = Ok tt h' /\ heap_rep h' bs' /\ coalesced bs' /\
      KHEAP_BASE_END h' = KHEAP_BASE_END h /\
      (forall q k, (q, k) ∈ live_blocks KHEAP_BASE_START bs -> (q, k) ∈ live_blocks KHEAP_BASE_START bs') /\
      (forall x, in_live KHEAP_BASE_START bs x -> hmem h' x = hmem h x) }.

#[export] Instance ret_mapper : HeapMapper (ret tt).
Proof. constructor. intros h bs Hr Hc _. exists h, bs. by split_and!. Qed.

(** A heap whose free neighbours are merged: the state between calls. *)
Definition heap_ok (h : kheap) (bs : list blk) : Prop := heap_rep h bs /\ coalesced bs.

Lemma heap_at_nonneg m a bs e : heap_at m a bs e -> Forall (fun b => 0 <= bsize b) bs.
Proof.
  revert a. induction bs as [|b r IH]; intros a; cbn; [constructor|].
  intros (_ & ? & _ & Hr). constructor; eauto.
Qed.

(** Coalescing keeps the room of a free block at the end. *)
Lemma coalesce_last_free bs n : Forall (fun b => 0 <= bsize b) bs ->
  exists b, b ∈ coalesce (bs ++ [mk_blk n false]) /\ bused b = false /\ n <= bsize b.
Proof.
  induction 1 as [|[sz []] r Hs Hr IH].
  - exists (mk_blk n false). split; [by left|done].
  - destruct IH as (b & Hin & ?). exists b. rewrite <- app_comm_cons, coalesce_used by done.
    split; [by right|done].
  - destruct IH as (b & Hin & Hu & Hb).
    change (coalesce (_ ++ _)) with (absorb (mk_blk sz false) (coalesce (r ++ [mk_blk n false]))).
    destruct (coalesce (r ++ [mk_blk n false])) as [|c l]; [by apply not_elem_of_nil in Hin|].
    apply elem_of_cons in Hin as [->|Hin]; cbn in *.
    + rewrite Hu. eexists. split; [by left|]. cbn. split; [done|lia].
    + destruct (bused c); exists b; (split; [|done]); [by do 2 right|by right].
Qed.

Lemma kheap_expand_ok map_heap `{!HeapMapper map_heap} h bs : heap_ok h bs ->
  KHEAP_BASE_END h < FREE_KVM_START ->
  exists h' bs', kheap_expand map_heap h = Ok tt h' /\ heap_ok h' bs' /\
    (exists b, b ∈ bs' /\ bused b = false /\ 4194296 <= bsize b) /\
    (forall q k, (q, k) ∈ live_blocks KHEAP_BASE_START bs -> (q, k) ∈ live_blocks KHEAP_BASE_START bs') /\
    (forall x, in_live KHEAP_BASE_START bs x -> hmem h' x = hmem h x).
Proof.
  intros [Hrep Hc] Hend. assert (FREE_KVM_START = 3766484992) as HF by done.
  destruct (map_heap_ok h bs Hrep Hc Hend) as (h1 & bs1 & Hmap & [Hb1 He1] & Hc1 & HE & Hlive & Hkeep).
  unfold kheap_expand, merge_free_blocks, sizeof_block_header. mstep.
  dec_false (FREE_KVM_START <=? KHEAP_BASE_END h). rewrite Hmap. rewrite u32_id by (pose proof (heap_rep_bounds _ _ Hrep); unfold KHEAP_BASE_START in *; lia).
  set (e := KHEAP_BASE_END h1) in *. set (nb := mk_blk 4194296 false).
  set (m1 := store16 (store32 (store16 (hmem h1) (e + 4) BLOCK_HEADER_MAGIC) e _) (e + 6) 0).
  assert (heap_at m1 KHEAP_BASE_START (bs1 ++ [nb]) (e + 4194304)) as Hb.
  { apply heap_at_app. exists e. split.
    - eapply heap_at_ext; [|exact Hb1]. intros. unfold m1. frame_solve.
    - cbn [heap_at bsize nb]. split_and!; [unfold m1, nb; hdr_solve|cbn; lia|done|cbn; lia]. }
  assert (e + 4194304 <= 4294967280) as He by lia.
  destruct (merge_outer_refines (heap_fuel (mk_kheap m1 (e + 4194304))) (mk_kheap m1 (e + 4194304))
    KHEAP_BASE_START (bs1 ++ [nb]) Hb He ltac:(unfold KHEAP_BASE_START; lia)) as (m' & Hrun & Hr & Hk).
  { eapply heap_fuel_enough; [exact Hb|lia]. }
  exists (mk_kheap m' (e + 4194304)), (coalesce (bs1 ++ [nb])). split; [exact Hrun|].
  split; [split; [by split|apply coalesce_coalesced]|]. split_and!.
  - apply coalesce_last_free. by eapply heap_at_nonneg.
  - intros q k Hq. rewrite live_coalesce, live_app, elem_of_app. left. auto.
  - intros x Hx. rewrite <- Hkeep by done. cbn [hmem].
    assert (in_live KHEAP_BASE_START bs1 x) as Hx1.
    { destruct Hx as (q & k & Hq & ?). exists q, k. auto. }
    pose proof (in_live_bounds _ _ _ _ _ Hb1 Hx1).
    rewrite <- (store16_other (hmem h1) (e + 4) BLOCK_HEADER_MAGIC) by lia.
    rewrite <- (store32_other (store16 _ _ _) e (4194304 - 8)) by lia.
    rewrite <- (store16_other (store32 _ _ _) (e + 6) 0) by lia.
    apply Hk. right. right. destruct Hx1 as (q & k & Hq & ?). exists q, k.
    rewrite live_app, elem_of_app. auto.
Qed.

Lemma first_fit_some size a bs b : b ∈ bs -> bused b = false -> size <= bsize b ->
  is_Some (first_fit size a bs).
Proof.
  intros Hin Hu Hs. revert a. induction Hin as [c r|b c r Hin IH]; intros a; cbn [first_fit].
  - rewrite Hu. dec_true (size <=? bsize c). cbn. eauto.
  - destruct (negb (bused c) && (size <=? bsize c)); [eauto|].
    destruct (IH Hu Hs (a + 8 + bsize c)) as [[r' p] ->]. eauto.
Qed.

(** Result of a successful [kmalloc]: the block list after it, the block
    handed out, and what stays untouched. *)
Definition malloc_post (h : kheap) (bs : list blk) (size p : Z) (h' : kheap) (bs' : list blk) : Prop :=
  heap_ok h' bs' /\ (forall x, in_live KHEAP_BASE_START bs x -> hmem h' x = hmem h x) /\
  exists n, size <= n /\ (p, n) ∈ live_blocks KHEAP_BASE_START bs' /\ p mod 4 = 0 /\
    KHEAP_BASE_START + 8 <= p /\ p + n <= KHEAP_BASE_END h' /\
    forall q k, (q, k) ∈ live_blocks KHEAP_BASE_START bs ->
      (q, k) ∈ live_blocks KHEAP_BASE_START bs' /\ (p + n <= q - 8 \/ q + k <= p - 8).

Lemma kmalloc_hit map_heap fuel h bs size bs' p : heap_ok h bs -> 0 <= size <= 4294967292 ->
  first_fit (alignup size 4) KHEAP_BASE_START bs = Some (bs', p) ->
  exists h', kmalloc map_heap (S fuel) size h = Ok p h' /\ malloc_post h bs size p h' bs' /\
    KHEAP_BASE_END h' = KHEAP_BASE_END h.
Proof.
  intros [[Hb He] Hc] Hs Hff. pose proof (alignup_spec size 4 ltac:(lia) ltac:(lia) ltac:(lia)) as [Hal Hm].
  pose proof (heap_fuel_enough h bs KHEAP_BASE_START Hb ltac:(lia)) as Hfuel.
  pose proof (kmalloc_scan_refines (heap_fuel h) (alignup size 4) KHEAP_BASE_START bs h Hb He
    ltac:(unfold KHEAP_BASE_START; lia) ltac:(lia) Hm Hfuel) as Hscan.
  rewrite Hff in Hscan. destruct Hscan as (m' & Hrun & Hb' & Hk).
  exists (mk_kheap m' (KHEAP_BASE_END h)). split; [cbn [kmalloc]; mstep; by rewrite Hrun|].
  split; [|done]. destruct (first_fit_fresh _ _ _ _ _ _ _ Hb Hff) as (n & Hn & Hp & Hpe & Hl & Hd).
  split; [split; [by split|by eapply first_fit_coalesced]|].
  split; [intros x Hx; apply Hk; auto|].
  assert ((p, n) ∈ live_blocks KHEAP_BASE_START bs') as Hin by (apply Hl; auto).
  exists n. split_and!; try done; [lia| |].
  - by apply (live_aligned m' KHEAP_BASE_START bs' (KHEAP_BASE_END h) p n).
  - intros q k Hq. split; [apply Hl; auto|auto].
Qed.

Lemma kmalloc_grow map_heap `{!HeapMapper map_heap} fuel h bs size : heap_ok h bs -> 0 <= size <= 4194296 ->
  KHEAP_BASE_END h < FREE_KVM_START -> first_fit (alignup size 4) KHEAP_BASE_START bs = None ->
  exists p h' bs', kmalloc map_heap (S (S fuel)) size h = Ok p h' /\ malloc_post h bs size p h' bs'.
Proof.
  intros Hok Hs Hend Hff. pose proof (alignup_spec size 4 ltac:(lia) ltac:(lia) ltac:(lia)) as [Hal Hm].
  assert (alignup size 4 <= 4194296) as Hal2 by (revert Hal Hm; generalize (alignup size 4); intros; dlia).
  destruct Hok as [[Hb He] Hc] eqn:?. pose proof (heap_fuel_enough h bs KHEAP_BASE_START Hb ltac:(lia)) as Hfuel.
  pose proof (kmalloc_scan_refines (heap_fuel h) (alignup size 4) KHEAP_BASE_START bs h Hb He
    ltac:(unfold KHEAP_BASE_START; lia) ltac:(lia) Hm Hfuel) as Hscan. rewrite Hff in Hscan.
  destruct (kheap_expand_ok map_heap h bs ltac:(by split) Hend) as (h1 & bs1 & Hexp & Hok1 & (b & Hbin & Hbu & Hbs) & Hl1 & Hk1).
  destruct (first_fit_some (alignup (alignup size 4) 4) KHEAP_BASE_START bs1 b Hbin Hbu) as [[bs' p] Hff1].
  { pose proof (alignup_spec (alignup size 4) 4 ltac:(lia) ltac:(lia) ltac:(lia)) as [? ?].
    revert H H0. generalize (alignup (alignup size 4) 4). intros. dlia. }
  destruct (kmalloc_hit map_heap fuel h1 bs1 (alignup size 4) bs' p Hok1 ltac:(lia) Hff1)
    as (h' & Hrun & (Hok' & Hk' & n & Hn & Hin & Hp4 & Hps & Hpe & Hd) & _).
  exists p, h', bs'. split.
  { cbn [kmalloc]. mstep. rewrite Hscan, Hexp. exact Hrun. }
  split; [done|]. split.
  { intros x Hx. rewrite <- Hk1 by done. apply Hk'.
    destruct Hx as (q & k & Hq & ?). exists q, k. auto. }
  exists n. split_and!; try done; [lia|]. intros q k Hq. apply Hd. auto.
Qed.

Lemma kmalloc_ok (map_heap : M kheap unit) (Hmap : HeapMapper map_heap) h bs size :
  heap_ok h bs -> 0 <= size <= 4194296 -> KHEAP_BASE_END h < FREE_KVM_START ->
  exists p h' bs', kmalloc map_heap 2 size h = Ok p h' /\ malloc_post h bs size p h' bs'.
Proof.
  intros Hok Hs Hend. destruct (first_fit (alignup size 4) KHEAP_BASE_START bs) as [[bs' p]|] eqn:Hff.
  - destruct (kmalloc_hit map_heap 1 h bs size bs' p Hok ltac:(lia) Hff) as (h' & ? & ? & _). eauto.
  - by apply kmalloc_grow.
Qed.

Lemma kfree_spec h bs p n : heap_ok h bs -> (p, n) ∈ live_blocks KHEAP_BASE_START bs ->
  exists h' bs', kfree p h = Ok tt h' /\ heap_ok h' bs' /\ KHEAP_BASE_END h' = KHEAP_BASE_END h /\
    (forall q k, (q, k) ∈ live_blocks KHEAP_BASE_START bs' <->
                 (q, k) ∈ live_blocks KHEAP_BASE_START bs /\ q <> p) /\
    (forall x, in_live KHEAP_BASE_START bs' x -> hmem h' x = hmem h x).
Proof.
  intros [Hrep Hc] Hin. destruct (kfree_ok h bs p n Hrep Hin) as (h' & Hrun & Hrep' & HE & Hk).
  exists h', (coalesce (release p KHEAP_BASE_START bs)). split_and!; try done.
  - split; [done|apply coalesce_coalesced].
  - intros q k. rewrite live_coalesce. destruct Hrep as [Hb _]. by eapply live_release.
  - intros x (q & k & Hq & ?). rewrite live_coalesce in Hq. apply Hk. right. right. by exists q, k.
Qed.

(** ** Properties *)

(** A small heap: 64 bytes, one free block. *)
Definition demo_heap : kheap :=
  mk_kheap (store16 (store32 (store16 (fun _ => 0) (KHEAP_BASE_START + 4) BLOCK_HEADER_MAGIC)
             KHEAP_BASE_START 56) (KHEAP_BASE_START + 6) 0) (KHEAP_BASE_START + 64).
Lemma demo_heap_ok : heap_ok demo_heap [mk_blk 56 false].
Proof. repeat split; vm_compute; congruence. Defined.
(** The same heap with the block in use. *)
Definition demo_used : kheap :=
  mk_kheap (store16 (hmem demo_heap) (KHEAP_BASE_START + 6) 1) (KHEAP_BASE_START + 64).
Lemma demo_used_ok : heap_ok demo_used [mk_blk 56 true].
Proof. repeat split; vm_compute; congruence. Defined.


(** C3: on a well-formed heap with a fitting free block, [kmalloc] is first
    fit on the block list: it returns the address first fit gives and leaves
    exactly the block list first fit leaves, in the same heap. *)
Theorem kmalloc_refines_first_fit (map_heap : M kheap unit) fuel h bs size bs' p :
  heap_ok h bs -> 0 <= size <= 4294967292 ->
  first_fit (alignup size 4) KHEAP_BASE_START bs = Some (bs', p) ->
  exists h', kmalloc map_heap (S fuel) size h = Ok p h' /\ heap_ok h' bs' /\
    KHEAP_BASE_END h' = KHEAP_BASE_END h.
Proof.
  intros Hok Hs Hff.
  destruct (kmalloc_hit map_heap fuel h bs size bs' p Hok Hs Hff) as (h' & ? & [? _] & ?). eauto.
Qed.
Lemma kmalloc_refines_first_fit_witness : exists h',
  kmalloc (ret tt) 1 10 demo_heap = Ok (KHEAP_BASE_START + 8) h' /\
  heap_ok h' [mk_blk 12 true; mk_blk 36 false] /\ KHEAP_BASE_END h' = KHEAP_BASE_START + 64.
Proof.
  apply (kmalloc_refines_first_fit (ret tt) 0 demo_heap [mk_blk 56 false] 10); [apply demo_heap_ok|lia|done].
Defined.

(** [kfree] of a block in use returns; the block is no longer in use, all
    others are, with their contents, and free neighbours are merged. *)
Lemma kfree_correct h bs p n : heap_ok h bs -> (p, n) ∈ live_blocks KHEAP_BASE_START bs ->
  exists h' bs', kfree p h = Ok tt h' /\ heap_ok h' bs' /\ KHEAP_BASE_END h' = KHEAP_BASE_END h /\
    (forall q k, (q, k) ∈ live_blocks KHEAP_BASE_START bs' <->
                 (q, k) ∈ live_blocks KHEAP_BASE_START bs /\ q <> p) /\
    (forall x, in_live KHEAP_BASE_START bs' x -> hmem h' x = hmem h x).
Proof. apply kfree_spec. Qed.
Lemma kfree_correct_witness : exists h' bs',
  kfree (KHEAP_BASE_START + 8) demo_used = Ok tt h' /\ heap_ok h' bs' /\
  KHEAP_BASE_END h' = KHEAP_BASE_START + 64 /\
  (forall q k, (q, k) ∈ live_blocks KHEAP_BASE_START bs' <->
     (q, k) ∈ live_blocks KHEAP_BASE_START [mk_blk 56 true] /\ q <> KHEAP_BASE_START + 8) /\
  (forall x, in_live KHEAP_BASE_START bs' x -> hmem h' x = hmem demo_used x).
Proof. apply (kfree_correct demo_used [mk_blk 56 true] (KHEAP_BASE_START + 8) 56); [apply demo_used_ok|by left]. Defined.

(** A [kmalloc] request within 3 bytes of 4 GiB wraps to 0 when it is
    rounded up to a multiple of 4, so it is served like a request of 0 bytes. *)
Lemma kmalloc_request_wraps (map_heap : M kheap unit) fuel size h :
  4294967292 < size < 4294967296 -> kmalloc map_heap fuel size h = kmalloc map_heap fuel 0 h.
Proof.
  intros Hs. destruct fuel as [|fuel]; [done|].
  assert (size = 4294967293 \/ size = 4294967294 \/ size = 4294967295) as [-> | [-> | ->]] by lia; reflexivity.
Qed.
Lemma kmalloc_request_wraps_witness :
  kmalloc (ret tt) 1 4294967295 demo_heap = kmalloc (ret tt) 1 0 demo_heap.
Proof. apply (kmalloc_request_wraps (ret tt) 1 4294967295 demo_heap). lia. Defined.

Lemma live_at_header m a bs e p n : heap_at m a bs e -> (p, n) ∈ live_blocks a bs -> hdr_size m (p - 8) = n.
Proof.
  intros Hb Hin. destruct (live_split _ _ _ _ Hin) as (bs1 & bs2 & -> & ->).
  apply heap_at_app in Hb as (c & Hb1 & Hb2). pose proof (heap_at_span _ _ _ _ Hb1) as Hc.
  cbn [heap_at] in Hb2. destruct Hb2 as (Hh & _). rewrite <- Hc.
  replace (c + 8 - 8) with c by lia. by rewrite (hdr_size_of _ _ _ Hh).
Qed.

(** The copy of [krealloc] stays inside the block just handed out. *)
Lemma realloc_copy_ok h bs p n np k : heap_ok h bs ->
  (np, k) ∈ live_blocks KHEAP_BASE_START bs -> 0 <= n <= k ->
  heap_ok (mk_kheap (memcpy (hmem h) np p n) (KHEAP_BASE_END h)) bs.
Proof.
  intros [[Hb He] Hc] Hin Hn. split; [|done]. split; [|done]. cbn.
  eapply heap_at_user_write; [|exact Hb]. intros x _ Hx. apply memcpy_outside.
  intros Hr. apply Hx. exists np, k. split; [done|lia].
Qed.

(** [krealloc] of a block in use to a size that is not smaller returns a
    block of the new size with the old contents at its start; the old block is
    released and every other block in use stays, with its contents. *)
Lemma krealloc_correct (map_heap : M kheap unit) (Hmap : HeapMapper map_heap) h bs p n newsize :
  heap_ok h bs -> (p, n) ∈ live_blocks KHEAP_BASE_START bs -> n <= newsize <= 4194296 ->
  KHEAP_BASE_END h < FREE_KVM_START ->
  exists np h' bs' k, krealloc map_heap 2 p newsize h = Ok np h' /\ heap_ok h' bs' /\
    newsize <= k /\ (np, k) ∈ live_blocks KHEAP_BASE_START bs' /\
    bytes_at (hmem h') np (Z.to_nat n) = bytes_at (hmem h) p (Z.to_nat n) /\
    (forall j, (p, j) ∉ live_blocks KHEAP_BASE_START bs') /\
    forall q j, (q, j) ∈ live_blocks KHEAP_BASE_START bs -> q <> p ->
      (q, j) ∈ live_blocks KHEAP_BASE_START bs' /\
      bytes_at (hmem h') q (Z.to_nat j) = bytes_at (hmem h) q (Z.to_nat j).
Proof.
  intros Hok Hin Hs Hend. pose proof Hok as [[Hb He] Hc].
  pose proof (live_in_bounds _ _ _ _ _ _ Hb Hin) as Hpb.
  assert (KHEAP_BASE_START = 3229614080) as HS by done.
  pose proof (live_at_header _ _ _ _ _ _ Hb Hin) as Hsz.
  destruct (kmalloc_ok map_heap Hmap h bs newsize Hok ltac:(lia) Hend)
    as (np & h1 & bs1 & Hrun & Hok1 & Hk1 & k & Hk & Hnp & Hal & Hlo & Hhi & Hold).
  destruct (Hold _ _ Hin) as [Hin1 Hdis]. pose proof Hok1 as [[Hb1 He1] _].
  pose proof (live_at_header _ _ _ _ _ _ Hb1 Hin1) as Hsz1.
  pose proof (realloc_copy_ok h1 bs1 p n np k Hok1 Hnp ltac:(lia)) as Hok2.
  destruct (kfree_spec _ bs1 p n Hok2 Hin1) as (h' & bs' & Hfree & Hok' & HE & Hl' & Hk').
  exists np, h', bs', k. split.
  { unfold krealloc, sizeof_block_header. rewrite u32_id by lia.
    rewrite (bind_ok get _ h h h eq_refl). dec_false (newsize <? hdr_size (hmem h) (p - 8)).
    rewrite (bind_ok _ _ _ _ _ Hrun), (bind_ok (upd_mem _) _ _ tt _ eq_refl), Hsz1.
    by rewrite (bind_ok _ _ _ _ _ Hfree). }
  assert ((np, k) ∈ live_blocks KHEAP_BASE_START bs') as Hnp' by (apply Hl'; split; [done|lia]).
  split_and!; try done.
  - apply bytes_at_eq. intros j Hj. rewrite (load8_ext (memcpy (hmem h1) np p n)).
    + rewrite memcpy_inside by lia. apply load8_ext, Hk1. exists p, n. split; [done|lia].
    + apply Hk'. exists np, k. split; [done|lia].
  - intros j Hj. apply Hl' in Hj as [_ ?]. done.
  - intros q j Hq Hne. destruct (Hold _ _ Hq) as [Hq1 Hdq].
    assert ((q, j) ∈ live_blocks KHEAP_BASE_START bs') as Hq' by (by apply Hl').
    pose proof (live_in_bounds _ _ _ _ _ _ Hb Hq). split; [done|].
    apply bytes_at_ext. intros x Hx.
    rewrite Hk' by (exists q, j; split; [done|lia]). cbn. rewrite memcpy_outside by lia.
    apply Hk1. exists q, j. split; [done|lia].
Qed.
Lemma krealloc_correct_witness : exists np h' bs' k,
  krealloc (ret tt) 2 (KHEAP_BASE_START + 8) 100 demo_used = Ok np h' /\ heap_ok h' bs' /\
    100 <= k /\ (np, k) ∈ live_blocks KHEAP_BASE_START bs' /\
    bytes_at (hmem h') np (Z.to_nat 56) = bytes_at (hmem demo_used) (KHEAP_BASE_START + 8) (Z.to_nat 56) /\
    (forall j, (KHEAP_BASE_START + 8, j) ∉ live_blocks KHEAP_BASE_START bs') /\
    forall q j, (q, j) ∈ live_blocks KHEAP_BASE_START [mk_blk 56 true] -> q <> KHEAP_BASE_START + 8 ->
      (q, j) ∈ live_blocks KHEAP_BASE_START bs' /\
      bytes_at (hmem h') q (Z.to_nat j) = bytes_at (hmem demo_used) q (Z.to_nat j).
Proof.
  apply (krealloc_correct (ret tt) ret_mapper demo_used [mk_blk 56 true] (KHEAP_BASE_START + 8) 56 100);
    [apply demo_used_ok|by left|lia|done].
Defined.

Lemma live_apart m a bs e p n q k : heap_at m a bs e ->
  (p, n) ∈ live_blocks a bs -> (q, k) ∈ live_blocks a bs ->
  (p = q /\ n = k) \/ p + n <= q - 8 \/ q + k <= p - 8.
Proof.
  revert a. induction bs as [|b r IH]; intros a; cbn [live_blocks heap_at]; [by intros _ ?%not_elem_of_nil|].
  intros (_ & Hs & _ & Hr). rewrite !elem_of_app. intros Hp Hq.
  assert (forall x y, (x, y) ∈ (if bused b then [(a + 8, bsize b)] else []) -> x = a + 8 /\ y = bsize b) as Hhd.
  { intros x y. destruct (bused b); [|by intros ?%not_elem_of_nil]. by intros [= -> ->]%list_elem_of_singleton. }
  destruct Hp as [Hp|Hp], Hq as [Hq|Hq].
  - apply Hhd in Hp as [-> ->]. apply Hhd in Hq as [-> ->]. auto.
  - apply Hhd in Hp as [-> ->]. pose proof (live_in_bounds _ _ _ _ _ _ Hr Hq). lia.
  - apply Hhd in Hq as [-> ->]. pose proof (live_in_bounds _ _ _ _ _ _ Hr Hp). lia.
  - by apply (IH (a + 8 + bsize b)).
Qed.

(** [kheap_install] leaves one free block over the whole area. *)
Lemma kheap_install_ok table directory h : KHEAP_BASE_END h = KHEAP_BASE_START + KHEAP_BASE_SIZE ->
  exists h', kheap_install table directory h = Ok tt h' /\
    KHEAP_BASE_END h' = KHEAP_BASE_END h /\ heap_ok h' [mk_blk (KHEAP_BASE_SIZE - 8) false].
Proof.
  destruct h as [m e]; cbn [KHEAP_BASE_END]. intros ->. unfold kheap_install. mstep. eexists.
  split; [reflexivity|]. split; [done|]. split; [|done]. split; [|done].
  cbn [heap_at bsize hmem KHEAP_BASE_END].
  set (m1 := memset _ _ _ _). clearbody m1. change (u32 _) with (KHEAP_BASE_SIZE - 8).
  split_and!; [|done|done|done]. unfold KHEAP_BASE_SIZE. hdr_solve.
Qed.

(** ** The heap under any sequence of calls *)

(** A client of the heap owns the pointers it received and has not freed; it
    writes only to bytes it owns.  [owned] maps a pointer to the size asked. *)
Inductive heap_step (map_heap : M kheap unit) : kheap * gmap Z Z -> kheap * gmap Z Z -> Prop :=
| step_malloc h owned size p h' : 0 <= size <= 4194296 -> KHEAP_BASE_END h < FREE_KVM_START ->
    kmalloc map_heap 2 size h = Ok p h' -> heap_step map_heap (h, owned) (h', <[p := size]> owned)
| step_free h owned p n h' : owned !! p = Some n -> kfree p h = Ok tt h' ->
    heap_step map_heap (h, owned) (h', delete p owned)
| step_write h owned p n x v : owned !! p = Some n -> p <= x < p + n ->
    heap_step map_heap (h, owned) (mk_kheap (store8 (hmem h) x v) (KHEAP_BASE_END h), owned).

Definition owned_ok (s : kheap * gmap Z Z) : Prop :=
  exists bs, heap_ok s.1 bs /\
    forall p n, s.2 !! p = Some n -> exists k, n <= k /\ (p, k) ∈ live_blocks KHEAP_BASE_START bs.

Lemma heap_step_ok map_heap `{!HeapMapper map_heap} s s' : heap_step map_heap s s' -> owned_ok s -> owned_ok s'.
Proof.
  intros Hstep (bs & Hok & Hown). destruct Hstep as [h owned size p h' Hs He Hrun|h owned p n h' Hp Hrun|h owned p n x v Hp Hx].
  - destruct (kmalloc_ok map_heap _ h bs size Hok Hs He) as (p' & h2 & bs' & Hrun' & Hok' & _ & k & Hk & Hin & _ & _ & _ & Hold).
    rewrite Hrun in Hrun'. injection Hrun' as <- <-. exists bs'. split; [done|].
    intros q n. cbn. rewrite lookup_insert. case_decide as Heq; [intros [= <-]; subst; eauto|].
    intros Hq. destruct (Hown q n Hq) as (j & ? & Hj). exists j. split; [done|]. by apply Hold.
  - destruct (Hown p n Hp) as (k & _ & Hin).
    destruct (kfree_spec h bs p k Hok Hin) as (h2 & bs' & Hrun' & Hok' & _ & Hl & _).
    rewrite Hrun in Hrun'. injection Hrun' as <-. exists bs'. split; [done|].
    intros q j. cbn. rewrite lookup_delete. case_decide; [done|]. intros Hq.
    destruct (Hown q j Hq) as (i & ? & Hi). exists i. split; [done|]. by apply Hl.
  - exists bs. split; [|done]. destruct Hok as [[Hb He] Hc]. split; [|done]. split; [|done]. cbn in *.
    destruct (Hown p n Hp) as (k & ? & Hin). eapply heap_at_user_write; [|exact Hb].
    intros y _ Hy. apply store8_other. intros ->. apply Hy. exists p, k. split; [done|lia].
Qed.

Definition installed : kheap :=
  match kheap_install 0 4096 (mk_kheap (fun _ => 0) (KHEAP_BASE_START + KHEAP_BASE_SIZE)) with
  | Ok _ h => h | _ => demo_heap end.
Lemma installed_ok : heap_ok installed [mk_blk (KHEAP_BASE_SIZE - 8) false].
Proof.
  destruct (kheap_install_ok 0 4096 (mk_kheap (fun _ => 0) (KHEAP_BASE_START + KHEAP_BASE_SIZE)) eq_refl)
    as (h & Hrun & _ & Hok). unfold installed. by rewrite Hrun.
Qed.

(** The error paths of the heap: a pointer without the header magic
    halts [kfree] and [kheap_get_size]; [krealloc] to a smaller size halts;
    when nothing fits and the heap has reached the kernel virtual memory area,
    [kmalloc] halts. *)
Lemma kheap_error_paths (map_heap : M kheap unit) fuel h p :
  (hdr_magic (hmem h) (u32 (p - 8)) <> BLOCK_HEADER_MAGIC ->
     kfree p h = Fatal UNKNOWN_BLOCK_ERRMSG /\ kheap_get_size p h = Fatal UNKNOWN_BLOCK_ERRMSG) /\
  (forall newsize, newsize < hdr_size (hmem h) (u32 (p - 8)) ->
     krealloc map_heap fuel p newsize h = Fatal "Reallocating less space ?!") /\
  (forall bs size, heap_ok h bs -> 0 <= size <= 4294967292 -> FREE_KVM_START <= KHEAP_BASE_END h ->
     first_fit (alignup size 4) KHEAP_BASE_START bs = None ->
     kmalloc map_heap (S fuel) size h = Fatal "Kernel heap full ! How ?").
Proof.
  split_and!.
  - intros Hm. apply Z.eqb_neq in Hm. unfold kfree, kheap_get_size, sizeof_block_header. mstep. by rewrite Hm.
  - intros newsize Hn. unfold krealloc, sizeof_block_header. rewrite (bind_ok get _ h h h eq_refl).
    by dec_true (newsize <? hdr_size (hmem h) (u32 (p - 8))).
  - intros bs size [[Hb He] Hc] Hs Hend Hff.
    pose proof (alignup_spec size 4 ltac:(lia) ltac:(lia) ltac:(lia)) as [Hal Hm].
    pose proof (kmalloc_scan_refines (heap_fuel h) (alignup size 4) KHEAP_BASE_START bs h Hb He
      ltac:(unfold KHEAP_BASE_START; lia) ltac:(lia) Hm) as Hscan.
    rewrite Hff in Hscan. cbn [kmalloc]. mstep.
    rewrite Hscan by (by eapply heap_fuel_enough).
    unfold kheap_expand. mstep. by dec_true (FREE_KVM_START <=? KHEAP_BASE_END h).
Qed.
Lemma kheap_error_paths_witness :
  kfree 16 (mk_kheap (fun _ => 0) KHEAP_BASE_START) = Fatal UNKNOWN_BLOCK_ERRMSG /\
  krealloc (ret tt) 1 (KHEAP_BASE_START + 8) 10 demo_used = Fatal "Reallocating less space ?!" /\
  kmalloc (ret tt) 1 10 (mk_kheap (store16 (store32 (store16 (fun _ => 0) (KHEAP_BASE_START + 4) BLOCK_HEADER_MAGIC)
     KHEAP_BASE_START 536870904) (KHEAP_BASE_START + 6) 1) FREE_KVM_START) = Fatal "Kernel heap full ! How ?".
Proof.
  split; [|split].
  - apply (kheap_error_paths (ret tt) 1 (mk_kheap (fun _ => 0) KHEAP_BASE_START) 16). vm_compute. congruence.
  - apply (kheap_error_paths (ret tt) 1 demo_used (KHEAP_BASE_START + 8)). reflexivity.
  - apply (kheap_error_paths (ret tt) 0 _ 0) with (bs := [mk_blk 536870904 true]); [|lia|done|done].
    repeat split; vm_compute; congruence.
Defined.
