(* ===== verification/Alloc.v ===== *)
(** What the kernel heap promises to the components that allocate their list
    nodes on it.

    The linked structures of the kernel ([p_block_t], [vm_block_t], mount
    points, wait lists, ...) are typed stores from addresses to records; they
    only need [kmalloc] to return a non-null address that is not in use and
    [kfree] to give it back.  [Allocator] states that contract.
    [kheap_allocator] discharges it with the heap of [memory/kheap.c]; the
    bump allocator is a small executable instance for concrete runs. *)

From S2P Require Import Prelude Mem KHeap.

Class Allocator (H : Type) : Type := {
  malloc : Z -> M H Z;
  free : Z -> M H unit;
  a_ok : H -> Prop;
  a_room : H -> Z -> Prop;
  a_live : H -> Z -> Prop;
  malloc_law : forall h n, a_ok h -> a_room h n -> exists p h', malloc n h = Ok p h' /\ a_ok h' /\
    p <> 0 /\ ~ a_live h p /\ (forall q, a_live h' q <-> q = p \/ a_live h q);
  free_law : forall h p, a_ok h -> a_live h p -> exists h', free p h = Ok tt h' /\ a_ok h' /\
    (forall q, a_live h' q <-> a_live h q /\ q <> p) }.

(** ** A bump allocator *)

Record bump : Type := mk_bump { bump_next : Z; bump_live : gset Z }.

Definition bump_malloc (n : Z) : M bump Z :=
  fun h => Ok (bump_next h) (mk_bump (bump_next h + Z.max 1 n) ({[ bump_next h ]} ∪ bump_live h)).
Definition bump_free (p : Z) : M bump unit :=
  fun h => Ok tt (mk_bump (bump_next h) (bump_live h ∖ {[ p ]})).

#[export, program] Instance bump_allocator : Allocator bump := {
  malloc := bump_malloc;
  free := bump_free;
  a_ok h := 0 < bump_next h /\ forall q, q ∈ bump_live h -> q < bump_next h;
  a_room _ _ := True;
  a_live h p := p ∈ bump_live h }.
Next Obligation.
  intros [next live] n [Hpos Hlt] _. cbn in *. eexists _, _. split; [reflexivity|]. cbn.
  split_and!; [lia| |lia| |set_solver].
  - intros q Hq. apply elem_of_union in Hq as [->%elem_of_singleton|Hq]; [lia|]. specialize (Hlt q Hq). lia.
  - intros Hin. specialize (Hlt _ Hin). lia.
Qed.
Next Obligation.
  intros [next live] p [Hpos Hlt] _. cbn in *. eexists. split; [reflexivity|]. cbn.
  split_and!; [lia|set_solver|set_solver].
Qed.

Lemma bump_has_room n (h : bump) : a_ok h -> a_room h n.
Proof. done. Qed.

(** ** The kernel heap *)

(** Well-formed heaps of a growing kernel: below the limit address. *)
Definition kheap_live (h : kheap) (p : Z) : Prop :=
  exists bs n, heap_ok h bs /\ (p, n) ∈ live_blocks KHEAP_BASE_START bs.

(** The block list a heap holds is unique. *)
Lemma heap_at_unique m a bs bs' e : heap_at m a bs e -> heap_at m a bs' e -> bs = bs'.
Proof.
  revert a bs'. induction bs as [|b r IH]; intros a [|b' r'] H H'; [done| | |].
  - cbn [heap_at] in H, H'. subst. destruct H' as (_ & ? & _ & Hr). pose proof (heap_at_bounds _ _ _ _ Hr). lia.
  - cbn [heap_at] in H, H'. subst. destruct H as (_ & ? & _ & Hr). pose proof (heap_at_bounds _ _ _ _ Hr). lia.
  - destruct H as ((_ & Hs & Hu) & _ & _ & Hr), H' as ((_ & Hs' & Hu') & _ & _ & Hr').
    assert (b = b') as <-.
    { destruct b as [s u], b' as [s' u']. cbn in *. unfold status_of in *.
      assert (s = s') as <- by congruence. destruct u, u'; cbn in *; congruence. }
    f_equal. by eapply IH.
Qed.

Lemma kheap_live_iff h bs p : heap_ok h bs ->
  kheap_live h p <-> exists n, (p, n) ∈ live_blocks KHEAP_BASE_START bs.
Proof.
  intros Hok. split; [|intros [n ?]; by exists bs, n].
  intros (bs' & n & Hok' & Hin). exists n. destruct Hok as [[Hb _] _], Hok' as [[Hb' _] _].
  by rewrite (heap_at_unique _ _ _ _ _ Hb Hb').
Qed.

#[export, program] Instance kheap_allocator : Allocator kheap := {
  malloc := kmalloc (ret tt) 2;
  free := kfree;
  a_ok h := exists bs, heap_ok h bs;
  a_room h n := exists bs, heap_ok h bs /\ 0 <= n <= 4194296 /\
    is_Some (first_fit (alignup n 4) KHEAP_BASE_START bs);
  a_live := kheap_live }.
Next Obligation.
  intros h n [bs Hok] (bs' & Hok' & Hn & [[bs2 p] Hff]).
  assert (bs' = bs) as -> by (destruct Hok as [[Hb _] _], Hok' as [[Hb' _] _]; by eapply heap_at_unique).
  destruct (kmalloc_hit (ret tt) 1 h bs n bs2 p Hok ltac:(lia) Hff) as (h' & Hrun & (Hok2 & _ & k & _ & Hin & _ & Hlo & _ & Hold) & _).
  exists p, h'. split; [done|]. split; [eauto|]. split; [unfold KHEAP_BASE_START in *; lia|].
  destruct Hok as [[Hb He] Hc]. destruct (first_fit_fresh _ _ _ _ _ _ _ Hb Hff) as (j & _ & _ & _ & Hl & Hd).
  assert (heap_ok h bs) as Hok by done. split.
  - rewrite (kheap_live_iff h bs) by done. intros [i Hi].
    pose proof (live_in_bounds _ _ _ _ _ _ Hb Hi). specialize (Hd _ _ Hi).
    assert (0 <= j); [|lia]. destruct Hok2 as [[Hb2 _] _].
    pose proof (live_in_bounds _ _ _ _ _ _ Hb2 (proj2 (Hl p j) (or_introl eq_refl))). lia.
  - intros q. rewrite (kheap_live_iff h' bs2), (kheap_live_iff h bs) by done. split.
    + intros [i Hi]. apply Hl in Hi as [[= -> ->]|Hi]; eauto.
    + intros [->|[i Hi]]; [exists j|exists i]; apply Hl; auto.
Qed.
Next Obligation.
  intros h p [bs Hok] Hlive. apply (kheap_live_iff h bs) in Hlive as [n Hin]; [|done].
  destruct (kfree_spec h bs p n Hok Hin) as (h' & bs' & Hrun & Hok' & _ & Hl & _).
  exists h'. split; [done|]. split; [eauto|]. intros q.
  rewrite (kheap_live_iff h' bs'), (kheap_live_iff h bs) by done. split.
  - intros [i Hi]. apply Hl in Hi as [? ?]. eauto.
  - intros [[i Hi] ?]. exists i. by apply Hl.
Qed.
