(* ===== verification/Dll.v ===== *)
(** Doubly linked block lists on the kernel heap.

    [memory/physical.c] and [memory/kvmheap.c] keep their blocks in doubly
    linked lists of nodes allocated with [kmalloc].  The nodes are a typed
    store from addresses to records; an access to an address that holds no
    node is a [Fault].  This file has the store operations, the two merge
    loops that both components contain, and their meaning on the list of
    payloads. *)

From S2P Require Import Prelude Mem KHeap Alloc.

(** What the payloads of the two lists have in common: an address range that
    is free, in use, or fixed (never reserved nor released). *)
Class Block (A : Type) : Type := {
  b_base : A -> Z;
  b_size : A -> Z;
  b_free : A -> bool;
  b_fixed : A -> bool;
  b_grow : A -> Z -> A;
  b_grow_base v n : b_base (b_grow v n) = b_base v;
  b_grow_size v n : b_size (b_grow v n) = u32 (b_size v + n);
  b_grow_free v n : b_free (b_grow v n) = b_free v;
  b_grow_fixed v n : b_fixed (b_grow v n) = b_fixed v;
  b_free_fixed v : b_free v = true -> b_fixed v = false }.

(** A list node: the payload fields and the two links. *)
Record dnode (A : Type) : Type := mk_node { val : A; next : Z; prev : Z }.
Arguments mk_node {A} _ _ _.
Arguments val {A} _.
Arguments next {A} _.
Arguments prev {A} _.

(** State: the global pointer to the first node, the nodes, the heap. *)
Record lstate (A H : Type) : Type := mk_lstate { first : Z; nodes : gmap Z (dnode A); heap : H }.
Arguments mk_lstate {A H} _ _ _.
Arguments first {A H} _.
Arguments nodes {A H} _.
Arguments heap {A H} _.

Section Store.
Context {A H : Type} `{Allocator H} `{Block A}.

Definition ld (p : Z) : M (lstate A H) (dnode A) :=
  fun s => match nodes s !! p with Some n => Ok n s | None => Fault end.
Definition st (p : Z) (f : dnode A -> dnode A) : M (lstate A H) unit :=
  fun s => match nodes s !! p with
           | Some n => Ok tt (mk_lstate (first s) (<[p := f n]> (nodes s)) (heap s))
           | None => Fault
           end.
Definition set_val (v : A) (n : dnode A) : dnode A := mk_node v (next n) (prev n).
Definition set_next (q : Z) (n : dnode A) : dnode A := mk_node (val n) q (prev n).
Definition set_prev (q : Z) (n : dnode A) : dnode A := mk_node (val n) (next n) q.

(** [kmalloc] of a node whose fields are then all assigned, and [kfree]. *)
Definition new_node (bytes : Z) (n : dnode A) : M (lstate A H) Z :=
  fun s => match malloc bytes (heap s) with
           | Ok p h => Ok p (mk_lstate (first s) (<[p := n]> (nodes s)) h)
           | Fatal e => Fatal e
           | Fault => Fault
           | NoFuel => NoFuel
           end.
Definition del_node (p : Z) : M (lstate A H) unit :=
  fun s => match free p (heap s) with
           | Ok _ h => Ok tt (mk_lstate (first s) (delete p (nodes s)) h)
           | Fatal e => Fatal e
           | Fault => Fault
           | NoFuel => NoFuel
           end.

(** Bound on a walk along [next] or [prev] of a list without cycle. *)
Definition list_fuel (s : lstate A H) : nat := S (size (nodes s)).

(** [a->size += b->size; a->next = b->next; if(a->next) a->next->prev = a;
    kfree(b);], the body of both merge loops. *)
Definition fuse (a b : Z) : M (lstate A H) unit :=
  ab <- ld a ;;
  bb <- ld b ;;
  st a (set_val (b_grow (val ab) (b_size (val bb)))) ;;;
  st a (set_next (next bb)) ;;;
  ab' <- ld a ;;
  (if negb (next ab' =? 0) then st (next ab') (set_prev a) else ret tt) ;;;
  del_node b.

(** [m = curr->prev; while(m && free(m)) {fuse m curr; curr = m; m = m->prev;}],
    returning the last [curr]. *)
Fixpoint merge_before (fuel : nat) (curr m : Z) : M (lstate A H) Z :=
  match fuel with
  | O => nofuel
  | S n =>
    if m =? 0 then ret curr else
    mb <- ld m ;;
    if negb (b_free (val mb)) then ret curr else
    fuse m curr ;;;
    mb' <- ld m ;;
    merge_before n m (prev mb')
  end.

(** [m = curr->next; while(m && free(m)) {fuse curr m; m = curr->next;}]. *)
Fixpoint merge_after (fuel : nat) (curr m : Z) : M (lstate A H) unit :=
  match fuel with
  | O => nofuel
  | S n =>
    if m =? 0 then ret tt else
    mb <- ld m ;;
    if negb (b_free (val mb)) then ret tt else
    fuse curr m ;;;
    cb <- ld curr ;;
    merge_after n curr (next cb)
  end.

(** The tail of both releases: [curr] is merged with the free blocks before
    and after it. *)
Definition merge_around (curr : Z) : M (lstate A H) unit :=
  s <- get ;;
  cb <- ld curr ;;
  curr' <- merge_before (list_fuel s) curr (prev cb) ;;
  cb' <- ld curr' ;;
  merge_after (list_fuel s) curr' (next cb').

(** [newblock] gets the payload [v2] and is linked after [curr], whose payload
    becomes [v1]: the split of both reservations. *)
Definition split_block (bytes curr : Z) (v1 v2 : A) : M (lstate A H) unit :=
  cb <- ld curr ;;
  newblock <- new_node bytes (mk_node v2 (next cb) curr) ;;
  (if negb (next cb =? 0) then st (next cb) (set_prev newblock) else ret tt) ;;;
  st curr (set_val v1) ;;;
  st curr (set_next newblock).

(** ** The list in the store *)

Definition head_addr (l : list (Z * A)) (nxt : Z) : Z :=
  match l with [] => nxt | (a, _) :: _ => a end.
Definition last_addr (prv : Z) (l : list (Z * A)) : Z :=
  match last l with None => prv | Some (a, _) => a end.

(** The nodes of [l] are linked, after [prv] and before [nxt].  The back link
    of a fixed block is not relied upon: the code follows it only from blocks
    that are released, and [reserve_specific] leaves one wrong. *)
Fixpoint dll (ns : gmap Z (dnode A)) (prv : Z) (l : list (Z * A)) (nxt : Z) : Prop :=
  match l with
  | [] => True
  | (a, v) :: r => (exists q, ns !! a = Some (mk_node v (head_addr r nxt) q) /\ (b_fixed v = false -> q = prv)) /\
      dll ns a r nxt
  end.

(** The state holds the payloads [l.*2] at the distinct, live, non-null
    addresses [l.*1]. *)
Definition lrep (s : lstate A H) (l : list (Z * A)) : Prop :=
  first s = head_addr l 0 /\ dll (nodes s) 0 l 0 /\ NoDup l.*1 /\
  Forall (fun a => a <> 0) l.*1 /\ a_ok (heap s) /\ Forall (a_live (heap s)) l.*1.

(** Merging on payload lists: into the free blocks before (nearest first),
    and of the free blocks after. *)
Fixpoint absorb_left (before : list (Z * A)) (c : Z * A) : list (Z * A) * (Z * A) :=
  match before with
  | m :: r => if b_free m.2 then absorb_left r (m.1, b_grow m.2 (b_size c.2)) else (before, c)
  | [] => ([], c)
  end.
Fixpoint absorb_right (v : A) (after : list (Z * A)) : A * list (Z * A) :=
  match after with
  | m :: r => if b_free m.2 then absorb_right (b_grow v (b_size m.2)) r else (v, after)
  | [] => (v, [])
  end.

(** ** Lemmas *)

Lemma dll_ext ns ns' prv l nxt : (forall a, a ∈ l.*1 -> ns' !! a = ns !! a) ->
  dll ns prv l nxt -> dll ns' prv l nxt.
Proof.
  revert prv. induction l as [|[a v] r IH]; intros prv Hx; [done|]. cbn. intros [(q & Ha & Hq) Hr].
  split; [exists q; rewrite Hx by (by left); done|]. apply IH; [|done]. intros. apply Hx. by right.
Qed.

Lemma last_addr_cons prv a v r : last_addr prv ((a, v) :: r) = last_addr a r.
Proof. unfold last_addr. destruct r as [|x r]; [done|]. rewrite last_cons_cons. by destruct (last (x :: r)) as [[]|] eqn:E; [|apply last_None in E]. Qed.
Lemma last_addr_snoc prv l a v : last_addr prv (l ++ [(a, v)]) = a.
Proof. unfold last_addr. by rewrite last_snoc. Qed.
Lemma head_addr_app l1 l2 nxt : head_addr (l1 ++ l2) nxt = head_addr l1 (head_addr l2 nxt).
Proof. by destruct l1 as [|[]]. Qed.

Lemma dll_app ns prv l1 l2 nxt : dll ns prv (l1 ++ l2) nxt <->
  dll ns prv l1 (head_addr l2 nxt) /\ dll ns (last_addr prv l1) l2 nxt.
Proof.
  revert prv. induction l1 as [|[a v] r IH]; intros prv; cbn -[last_addr]; [tauto|].
  rewrite IH, head_addr_app, last_addr_cons. tauto.
Qed.

Lemma dll_in_dom ns prv l nxt a : dll ns prv l nxt -> a ∈ l.*1 -> a ∈ dom ns.
Proof.
  revert prv. induction l as [|[b v] r IH]; intros prv; cbn; [by intros _ ?%not_elem_of_nil|].
  intros [(q & Hb & _) Hr] [-> |Hin]%elem_of_cons; [by eapply elem_of_dom_2|eauto].
Qed.

Lemma list_fuel_enough s l : lrep s l -> (length l < list_fuel s)%nat.
Proof.
  intros (_ & Hd & Hnd & _). unfold list_fuel. rewrite <- (length_fmap fst), <- size_dom.
  rewrite <- (size_list_to_set (C := gset Z)) by done.
  apply Nat.lt_succ_r, subseteq_size. intros a. rewrite elem_of_list_to_set. by eapply dll_in_dom.
Qed.

(** Addresses of a list around one node are different. *)
Lemma NoDup_app_ne (l1 : list (Z * A)) c v l2 : NoDup (l1 ++ (c, v) :: l2).*1 ->
  (c ∉ l1.*1) /\ (c ∉ l2.*1) /\ (forall x, (x ∈ l1.*1) -> x ∉ l2.*1).
Proof.
  rewrite fmap_app, fmap_cons. cbn. intros Hnd. apply NoDup_app in Hnd as (_ & Hd & [Hc _]%NoDup_cons).
  split; [|split; [done|]].
  - intros Hin. apply (Hd c Hin). by left.
  - intros x Hx Hx2. apply (Hd x Hx). by right.
Qed.

Lemma dll_middle ns l1 c v l2 : dll ns 0 (l1 ++ (c, v) :: l2) 0 <->
  dll ns 0 l1 c /\
  (exists q, ns !! c = Some (mk_node v (head_addr l2 0) q) /\ (b_fixed v = false -> q = last_addr 0 l1)) /\
  dll ns c l2 0.
Proof. rewrite dll_app. cbn -[last_addr]. tauto. Qed.

Lemma lrep_lookup s l1 c v l2 : lrep s (l1 ++ (c, v) :: l2) -> exists q,
  nodes s !! c = Some (mk_node v (head_addr l2 0) q) /\ (b_fixed v = false -> q = last_addr 0 l1).
Proof. intros (_ & Hd & _). by apply dll_middle in Hd as (_ & ? & _). Qed.

Lemma ld_lrep s l1 c v l2 : lrep s (l1 ++ (c, v) :: l2) -> exists q,
  ld c s = Ok (mk_node v (head_addr l2 0) q) s /\ (b_fixed v = false -> q = last_addr 0 l1).
Proof.
  intros Hr. destruct (lrep_lookup _ _ _ _ _ Hr) as (q & Hq & ?). exists q. split; [|done].
  unfold ld. by rewrite Hq.
Qed.

Lemma st_ok p f s n : nodes s !! p = Some n ->
  st p f s = Ok tt (mk_lstate (first s) (<[p := f n]> (nodes s)) (heap s)).
Proof. intros E. unfold st. by rewrite E. Qed.
Lemma ld_ok p s n : nodes s !! p = Some n -> ld p s = Ok n s.
Proof. intros E. unfold ld. by rewrite E. Qed.

Lemma lrep_nonzero s l a : lrep s l -> a ∈ l.*1 -> a <> 0.
Proof. intros (_ & _ & _ & Hz & _) Hin. rewrite Forall_forall in Hz. by apply Hz. Qed.

(** Replacing one payload. *)
Lemma lrep_set_val s l1 c v l2 v' : lrep s (l1 ++ (c, v) :: l2) -> (b_fixed v' = false -> b_fixed v = false) ->
  exists s', st c (set_val v') s = Ok tt s' /\ lrep s' (l1 ++ (c, v') :: l2) /\ heap s' = heap s.
Proof.
  intros Hr Hfix. destruct (lrep_lookup _ _ _ _ _ Hr) as (q & Hc & Hq). rewrite (st_ok _ _ _ _ Hc).
  eexists. split; [reflexivity|]. split; [|done]. destruct Hr as (Hf & Hd & Hnd & Hz & Hok & Hlv).
  pose proof (NoDup_app_ne _ _ _ _ Hnd) as (Hn1 & Hn2 & _).
  assert ((l1 ++ (c, v') :: l2).*1 = (l1 ++ (c, v) :: l2).*1) as He by (by rewrite !fmap_app).
  unfold lrep. rewrite He. split; [cbn; rewrite Hf, !head_addr_app; done|]. split; [|done]. cbn [nodes].
  apply dll_middle in Hd as (D1 & _ & D2). apply dll_middle. split; [|split].
  - eapply dll_ext; [|exact D1]. intros a Ha. rewrite lookup_insert_ne; [done|]. by intros ->.
  - exists q. rewrite lookup_insert_eq. auto.
  - eapply dll_ext; [|exact D2]. intros a Ha. rewrite lookup_insert_ne; [done|]. by intros ->.
Qed.

(** Setting the back link of the node that follows, when there is one. *)
Lemma set_prev_next s q l2 p : dll (nodes s) q l2 0 -> NoDup l2.*1 -> Forall (fun a => a <> 0) l2.*1 ->
  exists ns', (if negb (head_addr l2 0 =? 0) then st (head_addr l2 0) (set_prev p) else ret tt) s =
      Ok tt (mk_lstate (first s) ns' (heap s)) /\ dll ns' p l2 0 /\
    forall a, a ∉ l2.*1 -> ns' !! a = nodes s !! a.
Proof.
  intros Hd Hnd Hz. destruct l2 as [|[a v] r]; cbn [head_addr fmap list_fmap] in *.
  - exists (nodes s). split; [by destruct s|done].
  - apply Forall_cons in Hz as [Hza Hz]. apply NoDup_cons in Hnd as [Hna Hnd]. destruct Hd as [(q' & Ha & _) Hr]. cbn [fst] in *.
    dec_false (a =? 0). cbn [negb]. rewrite (st_ok _ _ _ _ Ha). eexists. split; [reflexivity|].
    split; [split; [exists p; by rewrite lookup_insert_eq|]|].
    + eapply dll_ext; [|exact Hr]. intros x Hx. rewrite lookup_insert_ne; [done|]. by intros ->.
    + intros x Hx. rewrite lookup_insert_ne; [done|]. intros ->. apply Hx. by left.
Qed.

Lemma del_node_ok s p : a_ok (heap s) -> a_live (heap s) p ->
  exists h, del_node p s = Ok tt (mk_lstate (first s) (delete p (nodes s)) h) /\ a_ok h /\
    forall q, a_live h q <-> a_live (heap s) q /\ q <> p.
Proof.
  intros Hok Hl. destruct (free_law (heap s) p Hok Hl) as (h & Hrun & ? & ?).
  exists h. unfold del_node. by rewrite Hrun.
Qed.

(** [fuse] removes the second of two neighbours and adds its size to the
    first. *)
Lemma fuse_ok s l1 a va b vb l2 : lrep s (l1 ++ (a, va) :: (b, vb) :: l2) ->
  exists s', fuse a b s = Ok tt s' /\ lrep s' (l1 ++ (a, b_grow va (b_size vb)) :: l2) /\
    forall q, a_live (heap s') q <-> a_live (heap s) q /\ q <> b.
Proof.
  intros Hr. pose proof Hr as (Hf & Hd & Hnd & Hz & Hok & Hlv).
  pose proof (NoDup_app_ne _ _ _ _ Hnd) as (Na1 & Na2 & N12).
  assert (l1 ++ (a, va) :: (b, vb) :: l2 = (l1 ++ [(a, va)]) ++ (b, vb) :: l2) as Hsplit by (by rewrite <- app_assoc).
  pose proof Hnd as Hnd'. rewrite Hsplit in Hnd'.
  pose proof (NoDup_app_ne _ _ _ _ Hnd') as (Nb1 & Nb2 & _).
  apply dll_middle in Hd as (D1 & (qa & Da & Hqa) & (qb & Db & _) & D2). cbn [head_addr] in *.
  assert (a <> b) as Hab by (intros ->; apply Na2; by left).
  assert (NoDup l2.*1 /\ Forall (fun x => x <> 0) l2.*1) as [Hnd2 Hz2].
  { rewrite fmap_app, !fmap_cons in Hnd, Hz. apply Forall_app in Hz as [_ Hz]. inversion Hz as [|? ? _ Hz']. inversion Hz'.
    apply NoDup_app in Hnd as (_ & _ & Hn). by do 2 apply NoDup_cons in Hn as [_ Hn]. }
  unfold fuse. rewrite (bind_ok _ _ _ _ _ (ld_ok _ _ _ Da)), (bind_ok _ _ _ _ _ (ld_ok _ _ _ Db)).
  rewrite (bind_ok _ _ _ _ _ (st_ok _ _ _ _ Da)). cbn [val next prev].
  erewrite (bind_ok (st a _)) by (apply st_ok; cbn; by rewrite lookup_insert_eq).
  erewrite (bind_ok (ld a)) by (apply ld_ok; cbn; by rewrite lookup_insert_eq).
  cbn [set_val set_next val next prev first heap nodes]. rewrite insert_insert_eq.
  set (s1 := mk_lstate _ _ _).
  destruct (set_prev_next s1 b l2 a) as (ns' & Hrun & D2' & Hsame); [|done..|].
  { eapply dll_ext; [|exact D2]. intros x Hx. cbn. rewrite lookup_insert_ne; [done|]. intros ->. apply Na2. by right. }
  rewrite (bind_ok _ _ _ _ _ Hrun). cbn [first heap s1].
  destruct (del_node_ok (mk_lstate (first s) ns' (heap s)) b) as (h & Hdel & Hok' & Hlv'); [done| |].
  { cbn. rewrite Forall_forall in Hlv. apply Hlv. rewrite fmap_app. set_solver. }
  eexists. split; [exact Hdel|]. split; [|done]. cbn [first nodes heap] in *.
  assert (l1.*1 ++ a :: l2.*1 `sublist_of` (l1 ++ (a, va) :: (b, vb) :: l2).*1) as Hsub.
  { rewrite fmap_app. cbn. apply sublist_app; [done|]. by apply sublist_skip, sublist_cons. }
  assert ((l1 ++ (a, b_grow va (b_size vb)) :: l2).*1 = l1.*1 ++ a :: l2.*1) as He by (by rewrite fmap_app).
  unfold lrep. rewrite He. cbn [first nodes heap]. split; [rewrite Hf, !head_addr_app; done|].
  split; [|split; [exact (sublist_NoDup _ _ Hnd Hsub)|split; [|split; [done|]]]].
  - apply dll_middle. split; [|split].
    + eapply dll_ext; [|exact D1]. intros x Hx.
      assert (x ∉ l2.*1) by (intros Hx2; apply (N12 x Hx); by right).
      assert (x <> a) by (by intros ->). assert (x <> b) by (intros ->; apply Nb1; rewrite fmap_app; set_solver).
      rewrite lookup_delete_ne, Hsame by done. cbn. by rewrite lookup_insert_ne by done.
    + exists qa. rewrite lookup_delete_ne, Hsame by (try done; intros ?; apply Na2; by right). cbn. rewrite lookup_insert_eq, b_grow_fixed. auto.
    + eapply dll_ext; [|exact D2']. intros x Hx. rewrite lookup_delete_ne; [done|]. by intros ->.
  - rewrite Forall_forall in Hz. apply Forall_forall. intros x Hx. eapply Hz, elem_of_sublist; eauto.
  - apply Forall_forall. intros x Hx. apply Hlv'. split.
    + rewrite Forall_forall in Hlv. eapply Hlv, elem_of_sublist; eauto.
    + intros ->. rewrite elem_of_app, elem_of_cons in Hx. destruct Hx as [Hx|[Hx|Hx]]; [|congruence|done].
      apply Nb1. rewrite fmap_app. set_solver.
Qed.

(** The merge loops compute [absorb_left] and [absorb_right]. *)
Lemma merge_before_ok fuel s before c v l2 : lrep s (rev before ++ (c, v) :: l2) ->
  (length before < fuel)%nat ->
  exists s', merge_before fuel c (last_addr 0 (rev before)) s = Ok (absorb_left before (c, v)).2.1 s' /\
    lrep s' (rev (absorb_left before (c, v)).1 ++ (absorb_left before (c, v)).2 :: l2).
Proof.
  revert s before c v. induction fuel as [|n IH]; intros s before c v Hr Hlen; [lia|].
  destruct before as [|[m vm] r]; cbn [merge_before absorb_left rev] in *; [by exists s|].
  rewrite last_addr_snoc. rewrite <- app_assoc in Hr. cbn in Hlen, Hr.
  assert (m <> 0) by (apply (lrep_nonzero _ _ _ Hr); rewrite fmap_app; set_solver).
  destruct (ld_lrep _ _ _ _ _ Hr) as (q & Hld & _).
  dec_false (m =? 0). rewrite (bind_ok _ _ _ _ _ Hld). cbn [val fst snd].
  destruct (b_free vm) eqn:Hfree; cbn [negb].
  - destruct (fuse_ok _ _ _ _ _ _ _ Hr) as (s1 & Hrun & Hr1 & _).
    destruct (ld_lrep _ _ _ _ _ Hr1) as (q1 & Hld1 & Hq1).
    rewrite (bind_ok _ _ _ _ _ Hrun), (bind_ok _ _ _ _ _ Hld1). cbn [prev]. rewrite Hq1 by (rewrite b_grow_fixed; by apply b_free_fixed).
    apply IH; [done|lia].
  - exists s. split; [done|]. cbn. by rewrite <- app_assoc.
Qed.

Lemma merge_after_ok fuel s l1 c v after : lrep s (l1 ++ (c, v) :: after) -> (length after < fuel)%nat ->
  exists s', merge_after fuel c (head_addr after 0) s = Ok tt s' /\
    lrep s' (l1 ++ (c, (absorb_right v after).1) :: (absorb_right v after).2).
Proof.
  revert s v after. induction fuel as [|n IH]; intros s v after Hr Hlen; [lia|].
  destruct after as [|[m vm] r]; cbn [merge_after absorb_right head_addr length] in *; [by exists s|].
  assert (m <> 0) by (apply (lrep_nonzero _ _ _ Hr); rewrite fmap_app; set_solver).
  assert (lrep s ((l1 ++ [(c, v)]) ++ (m, vm) :: r)) as Hr' by (by rewrite <- app_assoc).
  destruct (ld_lrep _ _ _ _ _ Hr') as (q & Hld & _).
  dec_false (m =? 0). rewrite (bind_ok _ _ _ _ _ Hld). cbn [val fst snd].
  destruct (b_free vm) eqn:Hfree; cbn [negb]; [|by exists s].
  destruct (fuse_ok _ _ _ _ _ _ _ Hr) as (s1 & Hrun & Hr1 & _).
  destruct (ld_lrep _ _ _ _ _ Hr1) as (q1 & Hld1 & _).
  rewrite (bind_ok _ _ _ _ _ Hrun), (bind_ok _ _ _ _ _ Hld1). apply IH; [done|lia].
Qed.

(** The block list after [merge_around] of the node between [l1] and [l2]. *)
Definition merged (l1 : list (Z * A)) (c : Z * A) (l2 : list (Z * A)) : list (Z * A) :=
  let '(b, (c', v')) := absorb_left (rev l1) c in
  rev b ++ (c', (absorb_right v' l2).1) :: (absorb_right v' l2).2.

Lemma merge_around_ok s l1 c v l2 : lrep s (l1 ++ (c, v) :: l2) -> b_fixed v = false ->
  exists s', merge_around c s = Ok tt s' /\ lrep s' (merged l1 (c, v) l2).
Proof.
  intros Hr Hfix. pose proof (list_fuel_enough _ _ Hr) as Hfuel. rewrite length_app in Hfuel. cbn in Hfuel.
  destruct (ld_lrep _ _ _ _ _ Hr) as (q & Hld & Hq).
  unfold merge_around, merged. rewrite (bind_ok get _ s s s eq_refl), (bind_ok _ _ _ _ _ Hld).
  cbn [prev]. rewrite (Hq Hfix). rewrite <- (rev_involutive l1) in Hr.
  destruct (merge_before_ok (list_fuel s) s (rev l1) c v l2 Hr) as (s1 & Hrun & Hr1); [rewrite length_rev; lia|].
  rewrite rev_involutive in Hrun. rewrite (bind_ok _ _ _ _ _ Hrun).
  destruct (absorb_left (rev l1) (c, v)) as [b [c' v']]. cbn [fst snd] in *.
  destruct (ld_lrep _ _ _ _ _ Hr1) as (q1 & Hld1 & _).
  rewrite (bind_ok _ _ _ _ _ Hld1). apply merge_after_ok; [done|lia].
Qed.

(** [split_block] puts the new node right after the node it splits. *)
Lemma split_block_ok s l1 c v l2 bytes v1 v2 : lrep s (l1 ++ (c, v) :: l2) -> a_room (heap s) bytes ->
  (b_fixed v1 = false -> b_fixed v = false) ->
  exists p s', split_block bytes c v1 v2 s = Ok tt s' /\ lrep s' (l1 ++ (c, v1) :: (p, v2) :: l2) /\
    (p ∉ (l1 ++ (c, v) :: l2).*1).
Proof.
  intros Hr Hroom Hfix. pose proof Hr as (Hf & Hd & Hnd & Hz & Hok & Hlv).
  pose proof (NoDup_app_ne _ _ _ _ Hnd) as (Nc1 & Nc2 & N12).
  destruct (malloc_law (heap s) bytes Hok Hroom) as (p & h & Hrun & Hok' & Hp & Hfresh & Hlv').
  assert (p ∉ (l1 ++ (c, v) :: l2).*1) as Hnin by (rewrite Forall_forall in Hlv; auto).
  assert ((p ∉ l1.*1) /\ p <> c /\ (p ∉ l2.*1)) as (Np1 & Npc & Np2)
    by (rewrite fmap_app in Hnin; cbn in Hnin; set_solver).
  destruct (ld_lrep _ _ _ _ _ Hr) as (q & Hld & Hq).
  unfold split_block. rewrite (bind_ok _ _ _ _ _ Hld). cbn [next].
  set (s1 := mk_lstate (first s) (<[p := mk_node v2 (head_addr l2 0) c]> (nodes s)) h).
  assert (new_node bytes (mk_node v2 (head_addr l2 0) c) s = Ok p s1) as Hnew by (unfold new_node; by rewrite Hrun).
  rewrite (bind_ok _ _ _ _ _ Hnew). apply dll_middle in Hd as (D1 & (q' & Dc & _) & D2).
  assert (q' = q) as -> by (unfold ld in Hld; rewrite Dc in Hld; congruence).
  assert (NoDup l2.*1 /\ Forall (fun x => x <> 0) l2.*1) as [Hnd2 Hz2].
  { rewrite fmap_app, fmap_cons in Hnd, Hz. apply Forall_app in Hz as [_ Hz]. inversion Hz.
    apply NoDup_app in Hnd as (_ & _ & [_ Hn]%NoDup_cons). done. }
  destruct (set_prev_next s1 c l2 p) as (ns' & Hset & D2' & Hsame); [|done..|].
  { eapply dll_ext; [|exact D2]. intros x Hx. cbn. rewrite lookup_insert_ne; [done|]. by intros ->. }
  rewrite (bind_ok _ _ _ _ _ Hset).
  assert (ns' !! c = Some (mk_node v (head_addr l2 0) q)) as Hc'
    by (rewrite Hsame by done; cbn; by rewrite lookup_insert_ne).
  erewrite (bind_ok (st c _)) by (by apply st_ok).
  erewrite st_ok by (cbn; by rewrite lookup_insert_eq). eexists p, _. split; [reflexivity|].
  split; [|done]. cbn [first heap nodes set_val set_next val next prev s1]. rewrite insert_insert_eq.
  assert ((l1 ++ (c, v1) :: (p, v2) :: l2).*1 ≡ₚ p :: (l1 ++ (c, v) :: l2).*1) as He.
  { rewrite !fmap_app. cbn. rewrite (Permutation_middle l1.*1). apply Permutation_app_head. constructor. }
  unfold lrep. rewrite He. cbn [first heap nodes]. split; [rewrite Hf, !head_addr_app; done|].
  split; [|split; [by apply NoDup_cons|split; [by constructor|split; [done|]]]].
  - apply dll_middle. split; [|split; [exists q; rewrite lookup_insert_eq; auto|split]].
    + eapply dll_ext; [|exact D1]. intros x Hx. rewrite lookup_insert_ne, Hsame by (by (intros ->) || by apply N12).
      cbn. rewrite lookup_insert_ne; [done|]. by intros ->.
    + exists c. rewrite lookup_insert_ne, Hsame by done. cbn. by rewrite lookup_insert_eq.
    + eapply dll_ext; [|exact D2']. intros x Hx. rewrite lookup_insert_ne; [done|]. by intros ->.
  - apply Forall_cons. split; [apply Hlv'; by left|]. eapply Forall_impl; [exact Hlv|]. intros x Hx. apply Hlv'. by right.
Qed.
End Store.
