(* ===== verification/Blocks.v ===== *)
(** Lists of address ranges.

    The physical memory map ([p_block_t] of [memory/physical.c]) and the
    kernel virtual memory map ([vm_block_t] of [memory/kvmheap.c]) are both
    lists of ranges that are reserved by splitting the first free range that is
    large enough and released by fusing it with its free neighbours.  [Block]
    is what the two payload types have in common; the file has the invariant of
    such lists and shows that splitting and fusing keep it. *)

From S2P Require Import Prelude Mem KHeap Alloc Dll.

Section Blocks.
Context {A : Type} `{Block A}.

Definition b_end (v : A) : Z := b_base v + b_size v.

(** A range is inside 32 bits; one that can be reserved or released does not
    reach the last address. *)
Definition range_ok (v : A) : Prop :=
  is_u32 (b_base v) /\ is_u32 (b_size v) /\ b_end v <= 4294967296 /\
  (b_fixed v = false -> b_end v < 4294967296).

(** Neighbours touch, unless one of them is never reserved nor released. *)
Definition adj (u v : A) : Prop :=
  b_end u = b_base v \/ (b_end u <= b_base v /\ (b_fixed u = true \/ b_fixed v = true)).

(** The list is sorted by address, without overlap. *)
Fixpoint tiled (l : list (Z * A)) : Prop :=
  match l with
  | [] => True
  | x :: r => range_ok x.2 /\ match r with [] => True | y :: _ => adj x.2 y.2 end /\ tiled r
  end.

(** Blocks in use, and the addresses that free blocks cover. *)
Definition used_blocks (l : list (Z * A)) : list (Z * A) := List.filter (fun e => negb (b_free e.2)) l.
Definition free_at (l : list (Z * A)) (x : Z) : Prop :=
  exists e, (e ∈ l) /\ b_free e.2 = true /\ b_base e.2 <= x < b_end e.2.

(** One fusion of two free neighbours. *)
Inductive fuse_step : list (Z * A) -> list (Z * A) -> Prop :=
| fuse_neighbours l1 a u b v l2 : b_free u = true -> b_free v = true ->
    fuse_step (l1 ++ (a, u) :: (b, v) :: l2) (l1 ++ (a, b_grow u (b_size v)) :: l2).

Lemma tiled_app_inv l1 l2 : tiled (l1 ++ l2) -> tiled l1 /\ tiled l2.
Proof.
  induction l1 as [|x r IH]; [done|]. cbn. intros (Hx & Hadj & Hr). destruct (IH Hr) as [? ?].
  split; [|done]. split; [done|]. split; [|done]. by destruct r.
Qed.

(** Two blocks of a tiled list, in list order, do not overlap. *)
Lemma tiled_ordered l1 x l2 y : tiled (l1 ++ x :: l2) -> (y ∈ l2) -> b_end x.2 <= b_base y.2.
Proof.
  intros [_ Ht]%tiled_app_inv. revert x Ht. induction l2 as [|z r IH]; intros x (Hx & Hadj & Ht) Hin.
  { by apply not_elem_of_nil in Hin. }
  assert (b_end x.2 <= b_base z.2) by (destruct Hadj as [?|[? _]]; lia).
  apply elem_of_cons in Hin as [-> |Hin]; [done|]. specialize (IH z Ht Hin).
  destruct Ht as ((? & [? ?] & _) & _). unfold b_end in *. lia.
Qed.

Lemma tiled_range l e : tiled l -> (e ∈ l) -> range_ok e.2.
Proof.
  induction l as [|x r IH]; [by intros _ ?%not_elem_of_nil|]. intros (Hx & _ & Hr) [-> |Hin]%elem_of_cons; auto.
Qed.

(** Replacing a stretch of blocks by one with the same ends. *)
Lemma tiled_replace l1 m m' l2 :
  tiled (l1 ++ m ++ l2) -> tiled m' ->
  (forall z, match m with [] => False | x :: _ => adj z x.2 end -> match m' with [] => False | x :: _ => adj z x.2 end) ->
  (forall z, match last m with None => False | Some x => adj x.2 z end -> match last m' with None => False | Some x => adj x.2 z end) ->
  m <> [] -> m' <> [] -> tiled (l1 ++ m' ++ l2).
Proof.
  intros Ht Hm' Hfst Hlst Hm Hm'0. induction l1 as [|x r IH]; cbn [app] in *.
  - clear Hfst. destruct l2 as [|y l2]; [by rewrite app_nil_r|].
    assert (tiled (y :: l2) /\ match last m with None => False | Some x => adj x.2 y.2 end) as [Hl2 Hj].
    { clear - Ht Hm. induction m as [|x m IH]; [done|]. destruct Ht as (_ & Hadj & Ht). destruct m as [|z m].
      - cbn in *. done.
      - rewrite last_cons_cons. by apply IH. }
    apply Hlst in Hj. clear - Hl2 Hj Hm' Hm'0. induction m' as [|x m IH]; [done|].
    destruct Hm' as (Hx & Hadj & Hm). destruct m as [|z m].
    + cbn in *. done.
    + rewrite last_cons_cons in Hj. cbn [app] in *. split; [done|]. split; [done|]. by apply IH.
  - destruct Ht as (Hx & Hadj & Ht). split; [done|]. split; [|by apply IH].
    destruct r as [|z r]; [|done]. cbn [app] in *. specialize (Hfst x.2).
    destruct m, m'; cbn in *; try done. by apply Hfst.
Qed.

(** Two free neighbours touch, and the fused block spans both. *)
Lemma free_neighbours_touch l1 a u b v l2 : tiled (l1 ++ (a, u) :: (b, v) :: l2) ->
  b_free u = true -> b_free v = true ->
  range_ok u /\ range_ok v /\ b_end u = b_base v /\ range_ok (b_grow u (b_size v)) /\
  b_end (b_grow u (b_size v)) = b_end v.
Proof.
  intros Ht Hu Hv. apply tiled_app_inv in Ht as [_ Ht].
  apply (tiled_app_inv [(a, u); (b, v)]) in Ht as [(Hru & Hadj & Hrv & _) _]. cbn in *.
  pose proof (b_free_fixed u Hu) as Fu. pose proof (b_free_fixed v Hv) as Fv.
  pose proof Hru as (? & ? & ? & Hue). pose proof Hrv as (? & ? & ? & Hve). specialize (Hue Fu). specialize (Hve Fv).
  assert (b_end u = b_base v) as Hj by (destruct Hadj as [?|[_ [?|?]]]; congruence).
  assert (b_size (b_grow u (b_size v)) = b_size u + b_size v) as Hsz.
  { rewrite b_grow_size. unfold is_u32, b_end in *. by rewrite u32_id by lia. }
  unfold range_ok, b_end, is_u32 in *. rewrite Hsz, b_grow_base, b_grow_fixed.
  split; [done|]. split; [done|]. lia.
Qed.

Lemma tiled_fuse l1 l2 : fuse_step l1 l2 -> tiled l1 -> tiled l2.
Proof.
  intros Hs. destruct Hs as [l1 a u b v l2 Hu Hv]. intros Ht.
  destruct (free_neighbours_touch _ _ _ _ _ _ Ht Hu Hv) as (_ & _ & _ & Hr & Hend).
  pose proof (b_free_fixed u Hu) as Fu. pose proof (b_free_fixed v Hv) as Fv.
  apply (tiled_replace l1 [(a, u); (b, v)] [(a, b_grow u (b_size v))]); [done|done| | |done|done].
  - intros z. cbn. unfold adj. by rewrite b_grow_base, b_grow_fixed.
  - intros z. cbn. unfold adj. rewrite Hend, b_grow_fixed. by rewrite Fu, Fv.
Qed.

Lemma used_fuse l1 l2 : fuse_step l1 l2 -> used_blocks l2 = used_blocks l1.
Proof.
  intros Hs. destruct Hs as [l1 a u b v l2 Hu Hv]. unfold used_blocks. rewrite !List.filter_app. cbn.
  rewrite b_grow_free, Hu, Hv. done.
Qed.

Lemma free_at_cons e l x : free_at (e :: l) x <-> (b_free e.2 = true /\ b_base e.2 <= x < b_end e.2) \/ free_at l x.
Proof.
  unfold free_at. split.
  - intros (f & [-> |Hin]%elem_of_cons & ?); eauto.
  - intros [?|(f & ? & ?)]; [exists e|exists f]; rewrite elem_of_cons; auto.
Qed.
Lemma free_at_app l1 l2 x : free_at (l1 ++ l2) x <-> free_at l1 x \/ free_at l2 x.
Proof. unfold free_at. setoid_rewrite elem_of_app. naive_solver. Qed.

Lemma free_fuse l1 l2 x : fuse_step l1 l2 -> tiled l1 -> free_at l2 x <-> free_at l1 x.
Proof.
  intros Hs. destruct Hs as [l1 a u b v l2 Hu Hv]. intros Ht.
  destruct (free_neighbours_touch _ _ _ _ _ _ Ht Hu Hv) as (? & ? & Hj & _ & Hend).
  rewrite !free_at_app, !free_at_cons. cbn [snd]. rewrite b_grow_free, Hu, Hv, Hend, b_grow_base.
  unfold range_ok, b_end, is_u32 in *. naive_solver lia.
Qed.

Lemma tiled_fuses l1 l2 : rtc fuse_step l1 l2 -> tiled l1 ->
  tiled l2 /\ used_blocks l2 = used_blocks l1 /\ forall x, free_at l2 x <-> free_at l1 x.
Proof.
  intros Hs. induction Hs as [l|l1 l2 l3 H12 _ IH]; intros Ht; [done|].
  destruct (IH (tiled_fuse _ _ H12 Ht)) as (? & Hu & Hf). split; [done|]. split.
  - rewrite Hu. by apply used_fuse.
  - intros x. rewrite Hf. by apply free_fuse.
Qed.

(** [merge_around] fuses free neighbours only. *)
Lemma merged_fuses l1 c l2 : b_free c.2 = true ->
  rtc fuse_step (l1 ++ c :: l2) (merged l1 c l2).
Proof.
  rewrite <- (rev_involutive l1) at 1. unfold merged. generalize (rev l1) as before. intros before. revert c.
  induction before as [|m r IH]; intros [c v] Hc; cbn [absorb_left rev app].
  - revert v Hc. induction l2 as [|[m vm] r IH]; intros v Hc; cbn [absorb_right fst snd]; [apply rtc_refl|].
    destruct (b_free vm) eqn:Hm; [|apply rtc_refl]. cbn in Hc.
    eapply rtc_l; [apply (fuse_neighbours []); done|]. apply IH. cbn. by rewrite b_grow_free.
  - destruct m as [m vm]. cbn [fst snd]. destruct (b_free vm) eqn:Hm.
    + rewrite <- app_assoc. eapply rtc_l; [apply (fuse_neighbours (rev r)); done|].
      apply IH. cbn. by rewrite b_grow_free.
    + clear IH. cbn [rev]. revert v Hc. induction l2 as [|[m2 vm2] r2 IH2]; intros v Hc; cbn [absorb_right fst snd]; [apply rtc_refl|].
      destruct (b_free vm2) eqn:Hm2; [|apply rtc_refl]. cbn in Hc.
      eapply rtc_l; [apply (fuse_neighbours (rev r ++ [(m, vm)])); done|]. apply IH2. cbn. by rewrite b_grow_free.
Qed.

(** ** Splitting *)

(** [v1] and [v2] are the two parts of [v]. *)
Definition halves (v v1 v2 : A) : Prop :=
  b_base v1 = b_base v /\ b_end v1 = b_base v2 /\ b_end v2 = b_end v /\
  0 <= b_size v1 /\ 0 <= b_size v2.

Lemma tiled_split l1 c v l2 p v1 v2 : tiled (l1 ++ (c, v) :: l2) ->
  b_fixed v = false -> b_fixed v2 = false -> halves v v1 v2 ->
  tiled (l1 ++ (c, v1) :: (p, v2) :: l2).
Proof.
  intros Ht Fv F2 (H1 & H2 & H3 & Hs1 & Hs2).
  assert (range_ok v) as Hr by (apply (tiled_range _ (c, v) Ht); rewrite elem_of_app, elem_of_cons; auto).
  destruct Hr as (? & ? & ? & Hlt). specialize (Hlt Fv).
  apply (tiled_replace l1 [(c, v)] [(c, v1); (p, v2)]); [done| | | |done|done].
  - cbn. unfold range_ok, adj, b_end, is_u32 in *. rewrite F2.
    split; [lia|]. split; [left; lia|]. lia.
  - intros z. cbn. unfold adj. rewrite H1, Fv. intros [?|[? [?|?]]]; auto; done.
  - intros z. cbn. unfold adj. rewrite H3, Fv, F2. done.
Qed.

Lemma used_blocks_app l1 l2 : used_blocks (l1 ++ l2) = used_blocks l1 ++ used_blocks l2.
Proof. apply List.filter_app. Qed.
Lemma used_blocks_cons e l : used_blocks (e :: l) = (if b_free e.2 then [] else [e]) ++ used_blocks l.
Proof. unfold used_blocks. cbn. by destruct (b_free e.2). Qed.
Lemma elem_of_used_blocks e l : (e ∈ used_blocks l) <-> (e ∈ l) /\ b_free e.2 = false.
Proof. unfold used_blocks. rewrite !list_elem_of_In, List.filter_In. by rewrite negb_true_iff. Qed.

(** The ranges that blocks in use cover are disjoint. *)
Lemma tiled_disjoint l e f : tiled l -> (e ∈ l) -> (f ∈ l) -> e = f \/ b_end e.2 <= b_base f.2 \/ b_end f.2 <= b_base e.2.
Proof.
  intros Ht He Hf. apply list_elem_of_split in He as (l1 & l2 & ->).
  apply elem_of_app in Hf as [Hf|[-> |Hf]%elem_of_cons]; [|by left|].
  - right; right. apply list_elem_of_split in Hf as (l3 & l4 & ->). rewrite <- app_assoc in Ht. cbn in Ht.
    apply (tiled_ordered _ _ _ _ Ht). rewrite elem_of_app, elem_of_cons. auto.
  - right; left. by apply (tiled_ordered _ _ _ _ Ht).
Qed.

(** ** First fit *)

(** The first block that satisfies a test, with what is before and after. *)
Fixpoint find_block (test : A -> bool) (l : list (Z * A)) : option (list (Z * A) * (Z * A) * list (Z * A)) :=
  match l with
  | [] => None
  | x :: r => if test x.2 then Some ([], x, r)
              else match find_block test r with
                   | Some (l1, c, l2) => Some (x :: l1, c, l2)
                   | None => None
                   end
  end.

Lemma find_block_spec test l : match find_block test l with
  | Some (l1, c, l2) => l = l1 ++ c :: l2 /\ test c.2 = true /\ Forall (fun e => test e.2 = false) l1
  | None => Forall (fun e => test e.2 = false) l
  end.
Proof.
  induction l as [|x r IH]; cbn; [constructor|]. destruct (test x.2) eqn:E; [auto|].
  destruct (find_block test r) as [[[l1 c] l2]|].
  - destruct IH as (-> & ? & ?). auto.
  - by constructor.
Qed.

Lemma find_block_app test l1 c l2 : Forall (fun e => test e.2 = false) l1 -> test c.2 = true ->
  find_block test (l1 ++ c :: l2) = Some (l1, c, l2).
Proof.
  intros Hl Hc. induction Hl as [|x r Hx _ IH]; cbn; [by rewrite Hc|]. by rewrite Hx, IH.
Qed.

(** The address of the block found, null when there is none. *)
Definition found (r : option (list (Z * A) * (Z * A) * list (Z * A))) : Z :=
  match r with Some (_, c, _) => c.1 | None => 0 end.
End Blocks.

(** * Walking the linked list *)

Section Walk.
Context {A H : Type} `{Allocator H} `{Block A}.

(** [while(curr) {if(test) return curr; curr = curr->next;}] *)
Fixpoint find_node (test : A -> bool) (fuel : nat) (curr : Z) : M (lstate A H) Z :=
  match fuel with
  | O => nofuel
  | S n => if curr =? 0 then ret 0 else
           cb <- ld curr ;;
           if test (val cb) then ret curr else find_node test n (next cb)
  end.

Lemma find_node_loop test fuel s l1 l2 : lrep s (l1 ++ l2) -> (length l2 < fuel)%nat ->
  find_node test fuel (head_addr l2 0) s = Ok (found (find_block test l2)) s.
Proof.
  revert l1 l2. induction fuel as [|n IH]; intros l1 l2 Hr Hlen; [lia|].
  destruct l2 as [|[c v] r]; cbn [find_node head_addr find_block]; [done|].
  assert (c <> 0) by (apply (lrep_nonzero _ _ _ Hr); rewrite fmap_app; set_solver).
  destruct (ld_lrep _ _ _ _ _ Hr) as (q & Hld & _).
  dec_false (c =? 0). rewrite (bind_ok _ _ _ _ _ Hld). cbn [val next snd].
  destruct (test v) eqn:E; [done|]. cbn in Hlen. rewrite (IH (l1 ++ [(c, v)])) by (rewrite <- ?app_assoc; (done || lia)).
  by destruct (find_block test r) as [[[? ?] ?]|].
Qed.

(** The walk from the first node finds the first block that passes the test. *)
Lemma find_node_ok test s l : lrep s l ->
  find_node test (list_fuel s) (first s) s = Ok (found (find_block test l)) s.
Proof.
  intros Hr. pose proof Hr as (-> & _). apply (find_node_loop test _ s []); [done|]. by apply list_fuel_enough.
Qed.
End Walk.
