(* ===== verification/PhysMem.v ===== *)
(** Physical memory (memory/physical.c).

    The list of [p_block_t] is built from the memory map that the boot loader
    passes, then reserved first fit and released with merging.  The nodes are
    on the kernel heap, seen through [Allocator]. *)

From S2P Require Import Prelude Mem KHeap Alloc Dll Blocks.

Definition PHYS_FREE_BLOCK_TYPE : Z := 1.
Definition PHYS_HARD_BLOCK_TYPE : Z := 2.
Definition PHYS_KERNEL_BLOCK_TYPE : Z := 10.
Definition PHYS_KERNELF_BLOCK_TYPE : Z := 11.
Definition PHYS_USER_BLOCK_TYPE : Z := 20.

(** [p_block_t] without its links. *)
Record p_block : Type := mk_p_block { base_addr : Z; p_size : Z; p_type : Z }.
Definition sizeof_p_block : Z := 20.

Definition releasable (b : p_block) : bool :=
  (p_type b =? PHYS_KERNELF_BLOCK_TYPE) || (p_type b =? PHYS_USER_BLOCK_TYPE).
Definition is_free (b : p_block) : bool := p_type b =? PHYS_FREE_BLOCK_TYPE.

#[export, program] Instance p_block_block : Block p_block := {
  b_base := base_addr;
  b_size := p_size;
  b_free := is_free;
  b_fixed v := negb (is_free v || releasable v);
  b_grow v n := mk_p_block (base_addr v) (u32 (p_size v + n)) (p_type v) }.
Next Obligation. done. Qed.
Next Obligation. done. Qed.
Next Obligation. done. Qed.
Next Obligation. done. Qed.
Next Obligation. intros v Hv. cbn in *. by rewrite Hv. Qed.

Section PhysMem.
Context {H : Type} `{Allocator H}.
Let K (T : Type) : Type := M (lstate p_block H) T.

(** [get_free_mem]: the sum, on a [u32], of the free blocks above 1 MiB. *)
Fixpoint get_free_mem_loop (fuel : nat) (curr tr : Z) : K Z :=
  match fuel with
  | O => nofuel
  | S n => if curr =? 0 then ret tr else
           cb <- ld curr ;;
           get_free_mem_loop n (next cb)
             (if (p_type (val cb) =? 1) && (1048576 <? base_addr (val cb)) then u32 (tr + p_size (val cb)) else tr)
  end.
Definition get_free_mem : K Z := s <- get ;; get_free_mem_loop (list_fuel s) (first s) 0.

(** The block [reserve_block] takes. *)
Definition reservable (size : Z) (b : p_block) : bool :=
  ((1048576 <=? base_addr b) && (p_type b =? PHYS_FREE_BLOCK_TYPE)) && negb (p_size b <? size).

Definition reserve_block (size type : Z) : K Z :=
  let size := alignup size 4096 in
  s <- get ;;
  curr <- find_node (reservable size) (list_fuel s) (first s) ;;
  if curr =? 0 then fatal_kernel_error "Trying to reserve more physical memory than available" else
  cb <- ld curr ;;
  let b := val cb in
  split_block sizeof_p_block curr (mk_p_block (base_addr b) size type)
    (mk_p_block (u32 (base_addr b + size)) (u32 (p_size b - size)) 1) ;;;
  cb' <- ld curr ;;
  ret (base_addr (val cb')).

(** The two cases of the loop of [reserve_specific]. *)
Definition starts_free (addr : Z) (b : p_block) : bool :=
  (base_addr b =? addr) && (p_type b =? PHYS_FREE_BLOCK_TYPE).
Definition strictly_inside (addr : Z) (b : p_block) : bool :=
  (base_addr b <? addr) && (addr <? u32 (base_addr b + p_size b)).

Definition RESERVE_SPECIFIC_ERRMSG : string := "Trying to reserve specific failed".

Definition reserve_start (curr addr size type : Z) : K Z :=
  cb <- ld curr ;;
  let b := val cb in
  if p_size b <? size then fatal_kernel_error RESERVE_SPECIFIC_ERRMSG else
  newblock <- new_node sizeof_p_block
    (mk_node (mk_p_block (u32 (base_addr b + size)) (u32 (p_size b - size)) PHYS_FREE_BLOCK_TYPE) (next cb) curr) ;;
  st (next cb) (set_prev newblock) ;;;
  st curr (set_val (mk_p_block (base_addr b) size type)) ;;;
  st curr (set_next newblock) ;;;
  ret (base_addr b).

Definition reserve_inside (curr addr size type : Z) : K Z :=
  cb <- ld curr ;;
  let b := val cb in
  if negb (p_type b =? PHYS_FREE_BLOCK_TYPE) then fatal_kernel_error RESERVE_SPECIFIC_ERRMSG else
  if p_size b <? size then fatal_kernel_error RESERVE_SPECIFIC_ERRMSG else
  let before_size := u32 (addr - size) in
  beforeblock <- new_node sizeof_p_block
    (mk_node (mk_p_block (base_addr b) before_size PHYS_FREE_BLOCK_TYPE) curr (prev cb)) ;;
  st (prev cb) (set_next beforeblock) ;;;
  st curr (set_prev beforeblock) ;;;
  st curr (set_val (mk_p_block addr (u32 (p_size b - before_size)) (p_type b))) ;;;
  cb' <- ld curr ;;
  let b' := val cb' in
  afterblock <- new_node sizeof_p_block
    (mk_node (mk_p_block (u32 (base_addr b' + size)) (u32 (p_size b' - size)) PHYS_FREE_BLOCK_TYPE) (next cb') curr) ;;
  st curr (set_next afterblock) ;;;
  st curr (set_val (mk_p_block addr size type)) ;;;
  ret addr.

Definition reserve_specific (addr size type : Z) : K Z :=
  s <- get ;;
  curr <- find_node (fun b => starts_free addr b || strictly_inside addr b) (list_fuel s) (first s) ;;
  if curr =? 0 then fatal_kernel_error RESERVE_SPECIFIC_ERRMSG else
  cb <- ld curr ;;
  if starts_free addr (val cb) then reserve_start curr addr size type else reserve_inside curr addr size type.

Definition free_block (base : Z) : K unit :=
  s <- get ;;
  curr <- find_node (fun b => base_addr b =? base) (list_fuel s) (first s) ;;
  if curr =? 0 then fatal_kernel_error "Trying to free an unknown block" else
  cb <- ld curr ;;
  let b := val cb in
  if negb (p_type b =? PHYS_KERNELF_BLOCK_TYPE) && negb (p_type b =? PHYS_USER_BLOCK_TYPE)
  then fatal_kernel_error "Trying to free a non-freeable block" else
  st curr (set_val (mk_p_block (base_addr b) (p_size b) PHYS_FREE_BLOCK_TYPE)) ;;;
  merge_around curr.

(** [get_block] returns the node. *)
Definition get_block (some_addr : Z) : K Z :=
  s <- get ;;
  curr <- find_node (strictly_inside some_addr) (list_fuel s) (first s) ;;
  if curr =? 0 then fatal_kernel_error "This address is not present in memory" else ret curr.

(** ** physmem_get

    [mmem] is the memory in which the boot loader put its map: packed entries
    [u32 size; u64 base_addr; u64 length; u32 type] ([memory_map_t]).
    [uninit] is what a new node holds before its fields are assigned. *)

Definition sizeof_memory_map : Z := 24.
Definition mmap_size (m : mem) (e : Z) : Z := load32 m e.
Definition mmap_base_addr (m : mem) (e : Z) : Z := load64 m (e + 4).
Definition mmap_len (m : mem) (e : Z) : Z := load64 m (e + 12).
Definition mmap_type (m : mem) (e : Z) : Z := load32 m (e + 20).

(** The payload an entry becomes. *)
Definition block_of_entry (m : mem) (e : Z) : p_block :=
  mk_p_block (u32 (mmap_base_addr m e))
    (if mmap_len m e <? U32_MAX then u32 (mmap_len m e) else U32_MAX - 1) (mmap_type m e).

Context (uninit : dnode p_block).

(** One round of the loop per unit of fuel; returns [detected_memory] and
    [detected_memory_below32]. *)
Fixpoint physmem_get_loop (fuel : nat) (m : mem) (mmap_length mmap i current_block prev detected below32 : Z) : K (Z * Z) :=
  match fuel with
  | O => nofuel
  | S n =>
    if negb (i <? mmap_length) then ret (detected, below32) else
    s <- get ;;
    (if first s =? 0 then put (mk_lstate current_block (nodes s) (heap s)) else ret tt) ;;;
    let detected := u64 (detected + mmap_len m mmap) in
    let i' := u32 (i + sizeof_memory_map) in
    let next_mmap := u32 (mmap + mmap_size m mmap + 4) in
    if mmap_base_addr m mmap <? U32_MAX then
      let b := block_of_entry m mmap in
      st current_block (set_val b) ;;;
      st current_block (set_prev prev) ;;;
      let below32 := u32 (below32 + p_size b) in
      if i' <? mmap_length then
        newblock <- new_node sizeof_p_block uninit ;;
        st current_block (set_next newblock) ;;;
        physmem_get_loop n m mmap_length next_mmap i' newblock current_block detected below32
      else physmem_get_loop n m mmap_length mmap i' current_block prev detected below32
    else if i' <? mmap_length then physmem_get_loop n m mmap_length next_mmap i' current_block prev detected below32
    else physmem_get_loop n m mmap_length mmap i' current_block prev detected below32
  end.

Definition physmem_get (m : mem) (mmap_length mmap_addr : Z) : K (Z * Z) :=
  let mmap := u32 (mmap_addr + KERNEL_VIRTUAL_BASE) in
  current_block <- new_node sizeof_p_block uninit ;;
  s <- get ;;
  put (mk_lstate current_block (nodes s) (heap s)) ;;;
  d <- physmem_get_loop (S (Z.to_nat (mmap_length / sizeof_memory_map + 1))) m mmap_length mmap 0 current_block 0 0 0 ;;
  reserve_specific 1048576 3145728 PHYS_KERNEL_BLOCK_TYPE ;;;
  reserve_specific KHEAP_PHYS_START KHEAP_BASE_SIZE PHYS_KERNEL_BLOCK_TYPE ;;;
  ret d.

(** ** Behaviour on the block list *)

Lemma p_range (l : list (Z * p_block)) l1 c b l2 : tiled l -> l = l1 ++ (c, b) :: l2 ->
  is_u32 (base_addr b) /\ is_u32 (p_size b) /\ (b_fixed b = false -> base_addr b + p_size b < 4294967296).
Proof.
  intros Ht ->. assert (range_ok b) as (? & ? & _ & ?); [|done].
  apply (tiled_range _ (c, b) Ht). rewrite elem_of_app, elem_of_cons. auto.
Qed.

(** [reserve_block] splits the first free block above 1 MiB that is large
    enough. *)
Lemma reserve_block_ok s l size type l1 c b l2 : lrep s l -> tiled l ->
  0 <= size <= 4294963200 -> a_room (heap s) sizeof_p_block ->
  find_block (reservable (alignup size 4096)) l = Some (l1, (c, b), l2) ->
  exists p s' n, reserve_block size type s = Ok (base_addr b) s' /\ n = alignup size 4096 /\ n <= p_size b /\
    1048576 <= base_addr b /\ is_free b = true /\ l = l1 ++ (c, b) :: l2 /\
    let l' := l1 ++ (c, mk_p_block (base_addr b) n type) :: (p, mk_p_block (base_addr b + n) (p_size b - n) 1) :: l2 in
    lrep s' l' /\ tiled l'.
Proof.
  intros Hr Ht Hs Hroom Hfind. pose proof (find_block_spec (reservable (alignup size 4096)) l) as Hspec.
  rewrite Hfind in Hspec. destruct Hspec as (-> & Htest & _). unfold reservable in Htest. cbn [snd] in Htest.
  zify_bool. assert (is_free b = true) as Hfree by (by apply Z.eqb_eq).
  assert (b_fixed b = false) as Hfix by (by apply b_free_fixed).
  pose proof (alignup_spec size 4096 ltac:(lia) ltac:(lia) ltac:(lia)) as [Hal _]. set (n := alignup size 4096) in *.
  destruct (p_range _ _ _ _ _ Ht eq_refl) as (Hb & Hsz & Hend). specialize (Hend Hfix). unfold is_u32 in *.
  destruct (split_block_ok s l1 c b l2 sizeof_p_block (mk_p_block (base_addr b) n type)
    (mk_p_block (base_addr b + n) (p_size b - n) 1) Hr Hroom) as (p & s' & Hrun & Hr' & Hp); [by intros _|].
  exists p, s', n. split.
  { unfold reserve_block. rewrite (bind_ok get _ s s s eq_refl). fold n.
    rewrite (bind_ok _ _ _ _ _ (find_node_ok _ _ _ Hr)), Hfind. cbn [found fst].
    assert (c <> 0) by (apply (lrep_nonzero _ _ _ Hr); rewrite fmap_app; set_solver). dec_false (c =? 0).
    destruct (ld_lrep _ _ _ _ _ Hr) as (q & Hld & _). rewrite (bind_ok _ _ _ _ _ Hld). cbn [val].
    rewrite !u32_id by lia. rewrite (bind_ok _ _ _ _ _ Hrun).
    destruct (ld_lrep _ _ _ _ _ Hr') as (q' & Hld' & _). by rewrite (bind_ok _ _ _ _ _ Hld'). }
  do 5 (split; [done||lia|]). split; [done|]. eapply tiled_split; [exact Ht|done|done|].
  unfold halves, b_end. cbn. lia.
Qed.

Lemma reserve_block_none s l size type : lrep s l -> find_block (reservable (alignup size 4096)) l = None ->
  reserve_block size type s = Fatal "Trying to reserve more physical memory than available".
Proof.
  intros Hr Hfind. unfold reserve_block. rewrite (bind_ok get _ s s s eq_refl).
  by rewrite (bind_ok _ _ _ _ _ (find_node_ok _ _ _ Hr)), Hfind.
Qed.

(** [free_block] of the first block at an address. *)
Lemma free_block_ok s l base l1 c b l2 : lrep s l -> tiled l ->
  find_block (fun b => base_addr b =? base) l = Some (l1, (c, b), l2) -> releasable b = true ->
  exists s' l', free_block base s = Ok tt s' /\ lrep s' l' /\ tiled l' /\
    used_blocks l' = used_blocks (l1 ++ l2) /\
    (forall x, free_at l' x <-> free_at l x \/ base <= x < base + p_size b).
Proof.
  intros Hr Ht Hfind Hrel. pose proof (find_block_spec (fun b => base_addr b =? base) l) as Hspec.
  rewrite Hfind in Hspec. destruct Hspec as (-> & Htest & _). cbn in Htest. zify_bool.
  set (b' := mk_p_block (base_addr b) (p_size b) PHYS_FREE_BLOCK_TYPE).
  assert (b_fixed b = false) as Hfix by (cbn; rewrite Hrel; by destruct (is_free b)).
  assert (b_free b = false) as Hnf.
  { cbn. unfold is_free, releasable in *. destruct (Z.eqb_spec (p_type b) PHYS_FREE_BLOCK_TYPE) as [E|]; [|done].
    by rewrite E in Hrel. }
  destruct (lrep_set_val s l1 c b l2 b' Hr ltac:(done)) as (s1 & Hst & Hr1 & _).
  destruct (merge_around_ok s1 l1 c b' l2 Hr1 eq_refl) as (s2 & Hrun & Hr2).
  assert (tiled (l1 ++ (c, b') :: l2)) as Ht'.
  { apply (tiled_replace l1 [(c, b)] [(c, b')]); [done| | | |done|done].
    - cbn. split; [|done]. destruct (tiled_range _ (c, b) Ht ltac:(set_solver)) as (? & ? & ? & Hlt).
      split; [done|]. split; [done|]. split; [done|]. intros _. by apply Hlt.
    - intros z. cbn [snd]. unfold adj. rewrite Hfix. change (b_fixed b') with false. done.
    - intros z. cbn [last snd]. unfold adj. rewrite Hfix. change (b_fixed b') with false. done. }
  assert (b_free b' = true) as Hfree' by done.
  destruct (tiled_fuses _ _ (merged_fuses l1 (c, b') l2 Hfree') Ht') as (Ht2 & Hu & Hf).
  exists s2, (merged l1 (c, b') l2). split; [|split; [done|split; [done|split]]].
  - unfold free_block. rewrite (bind_ok get _ s s s eq_refl).
    rewrite (bind_ok _ _ _ _ _ (find_node_ok _ _ _ Hr)), Hfind. cbn [found fst].
    assert (c <> 0) by (apply (lrep_nonzero _ _ _ Hr); rewrite fmap_app; set_solver). dec_false (c =? 0).
    destruct (ld_lrep _ _ _ _ _ Hr) as (q & Hld & _). rewrite (bind_ok _ _ _ _ _ Hld). cbn [val].
    unfold releasable in Hrel. rewrite <- negb_orb, Hrel. cbn [negb]. by rewrite (bind_ok _ _ _ _ _ Hst).
  - rewrite Hu, !used_blocks_app, used_blocks_cons. done.
  - intros x. rewrite Hf, !free_at_app, !free_at_cons. cbn [snd]. rewrite Hnf. unfold b_end. cbn. naive_solver lia.
Qed.

(** A [free_block] that returns found a releasable block. *)
Lemma free_block_inv s l base s' : lrep s l -> free_block base s = Ok tt s' ->
  exists l1 c b l2, find_block (fun b => base_addr b =? base) l = Some (l1, (c, b), l2) /\ releasable b = true.
Proof.
  intros Hr. unfold free_block. rewrite (bind_ok get _ s s s eq_refl).
  rewrite (bind_ok _ _ _ _ _ (find_node_ok _ _ _ Hr)).
  pose proof (find_block_spec (fun b => base_addr b =? base) l) as Hspec.
  destruct (find_block _ l) as [[[l1 [c b]] l2]|]; [|done]. destruct Hspec as (-> & _). cbn [found fst].
  assert (c <> 0) by (apply (lrep_nonzero _ _ _ Hr); rewrite fmap_app; set_solver). dec_false (c =? 0).
  destruct (ld_lrep _ _ _ _ _ Hr) as (q & Hld & _). rewrite (bind_ok _ _ _ _ _ Hld). cbn [val].
  rewrite <- negb_orb. fold (releasable b). destruct (releasable b) eqn:Hrel; [|done]. intros _. eauto 10.
Qed.

Lemma free_block_other s l base l1 c b l2 : lrep s l ->
  find_block (fun b => base_addr b =? base) l = Some (l1, (c, b), l2) -> releasable b = false ->
  free_block base s = Fatal "Trying to free a non-freeable block".
Proof.
  intros Hr Hfind Hb. unfold free_block. rewrite (bind_ok get _ s s s eq_refl).
  rewrite (bind_ok _ _ _ _ _ (find_node_ok _ _ _ Hr)), Hfind. cbn [found fst].
  pose proof (find_block_spec (fun b => base_addr b =? base) l) as Hspec. rewrite Hfind in Hspec. destruct Hspec as (-> & _).
  assert (c <> 0) by (apply (lrep_nonzero _ _ _ Hr); rewrite fmap_app; set_solver). dec_false (c =? 0).
  destruct (ld_lrep _ _ _ _ _ Hr) as (q & Hld & _). rewrite (bind_ok _ _ _ _ _ Hld). cbn [val].
  rewrite <- negb_orb. fold (releasable b). by rewrite Hb.
Qed.

Lemma reserve_block_inv s l size type a s' : lrep s l -> reserve_block size type s = Ok a s' ->
  exists l1 c b l2, find_block (reservable (alignup size 4096)) l = Some (l1, (c, b), l2).
Proof.
  intros Hr Hrun. destruct (find_block _ l) as [[[l1 [c b]] l2]|] eqn:Hfind; [eauto|].
  rewrite (reserve_block_none _ _ _ _ Hr Hfind) in Hrun. done.
Qed.

(** ** Any sequence of reservations and releases *)

(** [owned] maps the addresses that were reserved and not yet released to the
    sizes asked for. *)
Inductive phys_step : lstate p_block H * gmap Z Z -> lstate p_block H * gmap Z Z -> Prop :=
| phys_reserve s owned size type a s' : 0 < size <= 4294963200 ->
    type = PHYS_KERNELF_BLOCK_TYPE \/ type = PHYS_USER_BLOCK_TYPE -> a_room (heap s) sizeof_p_block ->
    reserve_block size type s = Ok a s' -> phys_step (s, owned) (s', <[a := size]> owned)
| phys_release s owned a n s' : owned !! a = Some n -> free_block a s = Ok tt s' ->
    phys_step (s, owned) (s', delete a owned).

Definition fixed_blocks (l : list (Z * p_block)) : list (Z * p_block) := List.filter (fun e => b_fixed e.2) l.

Definition phys_inv (fixed : list (Z * p_block)) (st : lstate p_block H * gmap Z Z) : Prop :=
  exists l, lrep st.1 l /\ tiled l /\ (forall e, e ∈ fixed -> e ∈ l) /\
    (forall a n, st.2 !! a = Some n -> exists c b, ((c, b) ∈ l) /\ releasable b = true /\
       base_addr b = a /\ n <= p_size b /\ 1048576 <= a) /\
    (forall c b, (c, b) ∈ l -> releasable b = true -> 0 < p_size b /\ is_Some (st.2 !! base_addr b)).

Lemma releasable_used (b : p_block) : releasable b = true -> b_free b = false.
Proof.
  cbn. unfold is_free, releasable. destruct (Z.eqb_spec (p_type b) PHYS_FREE_BLOCK_TYPE) as [-> |]; done.
Qed.
Lemma fixed_used (b : p_block) : b_fixed b = true -> b_free b = false.
Proof. intros Hb. destruct (b_free b) eqn:E; [|done]. apply b_free_fixed in E. congruence. Qed.

Lemma phys_reserve_inv fixed s owned size type a s' : Forall (fun e => b_fixed e.2 = true) fixed ->
  0 < size <= 4294963200 -> releasable (mk_p_block 0 0 type) = true -> a_room (heap s) sizeof_p_block ->
  reserve_block size type s = Ok a s' -> phys_inv fixed (s, owned) -> phys_inv fixed (s', <[a := size]> owned).
Proof.
  intros Hfx Hs Hty Hroom Hrun (l & Hr & Ht & Hfix & Hown & Hrel). cbn [fst snd] in *.
  destruct (reserve_block_inv _ _ _ _ _ _ Hr Hrun) as (l1 & c & b & l2 & Hfind).
  destruct (reserve_block_ok _ _ size type _ _ _ _ Hr Ht ltac:(lia) Hroom Hfind)
    as (p & s2 & n & Hrun' & Hn & Hnb & Hbase & Hfree & -> & Hr' & Ht').
  rewrite Hrun in Hrun'. injection Hrun' as -> <-.
  pose proof (alignup_spec size 4096 ltac:(lia) ltac:(lia) ltac:(lia)) as [Hal _]. rewrite <- Hn in Hal.
  set (l' := l1 ++ (c, mk_p_block (base_addr b) n type) :: _) in *.
  assert (forall e, e ∈ l1 ++ (c, b) :: l2 -> b_free e.2 = false -> e ∈ l') as Hkeep.
  { intros e He Hu. subst l'. rewrite elem_of_app, elem_of_cons in He.
    destruct He as [?|[-> |?]]; [set_solver|cbn in Hu; congruence|set_solver]. }
  exists l'. cbn [fst snd]. split; [done|]. split; [done|]. split; [|split].
  - intros e He. apply Hkeep; [by apply Hfix|]. apply fixed_used. rewrite Forall_forall in Hfx. by apply Hfx.
  - intros a k. rewrite lookup_insert. case_decide as Heq.
    + intros [= <-]. exists c, (mk_p_block (base_addr b) n type). cbn. repeat split; [set_solver|done|lia..].
    + intros Ha. destruct (Hown a k Ha) as (c' & b' & Hin & Hrl & ?). exists c', b'. split; [|done].
      apply Hkeep; [done|]. by apply releasable_used.
  - intros c' b' Hin Hrl. unfold l' in Hin. rewrite elem_of_app, !elem_of_cons in Hin.
    assert ((c', b') ∈ l1 ++ (c, b) :: l2 -> 0 < p_size b' /\ is_Some (<[base_addr b:=size]> owned !! base_addr b')) as Hold.
    { intros Hin'. destruct (Hrel _ _ Hin' Hrl) as [? ?]. split; [done|]. rewrite lookup_insert. case_decide; [done|done]. }
    destruct Hin as [?|[[= -> ->]|[[= -> ->]|?]]]; [apply Hold; set_solver| |done|apply Hold; set_solver].
    cbn. split; [lia|]. rewrite lookup_insert_eq. done.
Qed.

Lemma phys_release_inv fixed s owned a n s' : Forall (fun e => b_fixed e.2 = true) fixed ->
  owned !! a = Some n -> free_block a s = Ok tt s' ->
  phys_inv fixed (s, owned) -> phys_inv fixed (s', delete a owned).
Proof.
  intros Hfx Ha Hrun (l & Hr & Ht & Hfix & Hown & Hrel). cbn [fst snd] in *.
  destruct (free_block_inv _ _ _ _ Hr Hrun) as (l1 & c & b & l2 & Hfind & Hb).
  destruct (free_block_ok _ _ _ _ _ _ _ Hr Ht Hfind Hb) as (s2 & l' & Hrun' & Hr' & Ht' & Hu & _).
  rewrite Hrun in Hrun'. injection Hrun' as <-.
  pose proof (find_block_spec (fun b => base_addr b =? a) l) as Hspec. rewrite Hfind in Hspec.
  destruct Hspec as (-> & Hba & _). cbn in Hba. zify_bool.
  assert (forall e, e ∈ l1 ++ (c, b) :: l2 -> b_free e.2 = false -> e <> (c, b) -> e ∈ l') as Hkeep.
  { intros e He Hue Hne. assert (e ∈ used_blocks l') as [? _]%elem_of_used_blocks; [|done].
    rewrite Hu, elem_of_used_blocks. split; [|done]. rewrite elem_of_app, elem_of_cons in He. set_solver. }
  exists l'. cbn [fst snd]. split; [done|]. split; [done|]. split; [|split].
  - intros e He. rewrite Forall_forall in Hfx. specialize (Hfx e He). apply Hkeep; [by apply Hfix|by apply fixed_used|].
    intros ->. cbn in Hfx. rewrite Hb, orb_true_r in Hfx. done.
  - intros a' k. rewrite lookup_delete. case_decide as Heq; [done|]. intros Ha'.
    destruct (Hown a' k Ha') as (c' & b' & Hin & Hrl & Hbase & ?). exists c', b'. split; [|done].
    apply Hkeep; [done|by apply releasable_used|]. intros [= -> ->]. congruence.
  - intros c' b' Hin Hrl. assert ((c', b') ∈ used_blocks l') as Hin2
      by (apply elem_of_used_blocks; split; [done|by apply releasable_used]).
    rewrite Hu in Hin2. apply elem_of_used_blocks in Hin2 as [Hin2 _].
    assert ((c', b') ∈ l1 ++ (c, b) :: l2) as Hin3 by (rewrite elem_of_app in *; set_solver).
    destruct (Hrel _ _ Hin3 Hrl) as [Hpos Hsome]. split; [done|].
    rewrite lookup_delete_ne; [done|]. intros Heq.
    destruct (Hrel c b ltac:(set_solver) Hb) as [Hpos' _].
    destruct (tiled_disjoint _ (c', b') (c, b) Ht Hin3 ltac:(set_solver)) as [[= -> ->]|Hd].
    + destruct Hr as (_ & _ & Hnd & _). apply NoDup_app_ne in Hnd as (N1 & N2 & _).
      rewrite elem_of_app in Hin2. destruct Hin2 as [Hi|Hi]; [apply N1|apply N2]; by apply (list_elem_of_fmap_2 fst) in Hi.
    + unfold b_end in Hd. cbn in Hd. lia.
Qed.


(** The free addresses after the start of a free block is taken. *)
Lemma split_free_at (l1 : list (Z * p_block)) c b l2 p n type : tiled (l1 ++ (c, b) :: l2) -> NoDup (l1 ++ (c, b) :: l2).*1 ->
  is_free b = true -> type <> PHYS_FREE_BLOCK_TYPE -> 0 <= n <= p_size b ->
  let l' := l1 ++ (c, mk_p_block (base_addr b) n type) :: (p, mk_p_block (base_addr b + n) (p_size b - n) 1) :: l2 in
  (forall x, base_addr b <= x < base_addr b + n -> free_at (l1 ++ (c, b) :: l2) x) /\
  (forall x, free_at l' x <-> free_at (l1 ++ (c, b) :: l2) x /\ ~ (base_addr b <= x < base_addr b + n)).
Proof.
  intros Ht Hnd Hfree Hty Hnb l'.
  assert (b_free (mk_p_block (base_addr b) n type) = false) as Hu by (cbn; unfold is_free; cbn; by apply Z.eqb_neq).
  assert (forall x, free_at (l1 ++ l2) x -> ~ (base_addr b <= x < base_addr b + p_size b)) as Hdis.
  { intros x (e & He & Hfe & Hx). assert (e ∈ l1 ++ (c, b) :: l2) as He' by (rewrite elem_of_app in *; set_solver).
    destruct (tiled_disjoint _ e (c, b) Ht He' ltac:(set_solver)) as [-> |Hd].
    - apply NoDup_app_ne in Hnd as (N1 & N2 & _).
      rewrite elem_of_app in He. exfalso. destruct He as [Hi|Hi]; [apply N1|apply N2]; by apply (list_elem_of_fmap_2 fst) in Hi.
    - unfold b_end in *. cbn in *. lia. }
  unfold l'. split; intros x; rewrite ?free_at_app, ?free_at_cons; cbn [snd]; unfold b_end; cbn [b_free b_base b_size p_block_block].
  - intros Hx. right; left. cbn. split; [done|lia].
  - specialize (Hdis x). rewrite free_at_app in Hdis. cbn [b_free p_block_block] in Hu. rewrite Hu, Hfree. cbn.
    change (is_free (mk_p_block (base_addr b + n) (p_size b - n) 1)) with true.
    split; [intros [?|[[? _]|[[_ ?]|?]]]|intros [[?|[[_ ?]|?]] ?]]; auto; try done; try (split; [|lia]); auto.
    + split; [|intros ?; apply Hdis; auto; lia]. auto.
    + right; left. split; [done|lia].
    + split; [|intros ?; apply Hdis; auto; lia]. auto.
    + right; right; left. split; [done|lia].
Qed.

(** C23: [reserve_block] rounds the size up to pages, takes the start of the
    first free block above 1 MiB that is large enough, gives it the type asked
    for, leaves the rest free and every other block as it was; exactly the
    addresses handed out stop being free.  It halts when no block is large
    enough. *)
Theorem reserve_block_correct s l size type : lrep s l -> tiled l ->
  0 <= size <= 4294963200 -> a_room (heap s) sizeof_p_block -> type <> PHYS_FREE_BLOCK_TYPE ->
  let n := alignup size 4096 in
  size <= n < size + 4096 /\ n mod 4096 = 0 /\
  match find_block (reservable n) l with
  | Some (l1, (c, b), l2) => exists p s' l', reserve_block size type s = Ok (base_addr b) s' /\
      l' = l1 ++ (c, mk_p_block (base_addr b) n type) :: (p, mk_p_block (base_addr b + n) (p_size b - n) 1) :: l2 /\
      lrep s' l' /\ tiled l' /\ (forall x, base_addr b <= x < base_addr b + n -> free_at l x) /\
      (forall x, free_at l' x <-> free_at l x /\ ~ (base_addr b <= x < base_addr b + n))
  | None => reserve_block size type s = Fatal "Trying to reserve more physical memory than available"
  end.
Proof.
  intros Hr Ht Hs Hroom Hty n. pose proof (alignup_spec size 4096 ltac:(lia) ltac:(lia) ltac:(lia)) as [Hal Hmod].
  split; [done|]. split; [done|]. destruct (find_block (reservable n) l) as [[[l1 [c b]] l2]|] eqn:Hfind.
  2: { by apply (reserve_block_none _ l). }
  destruct (reserve_block_ok _ _ size type _ _ _ _ Hr Ht Hs Hroom Hfind)
    as (p & s' & n' & Hrun & -> & Hnb & Hbase & Hfree & -> & Hr' & Ht'). fold n in Hr', Ht', Hnb.
  exists p, s'. eexists. split; [done|]. split; [done|]. split; [done|]. split; [done|].
  apply split_free_at; [done|apply Hr|done|done|lia].
Qed.

(** [free_block] looks at the first block that starts at the address: a
    reserved one is taken out of the blocks in use, the free addresses grow by
    exactly its range, and the list stays in address order; any other block and
    an address where no block starts halt the kernel. *)
Lemma free_block_correct s l base : lrep s l -> tiled l ->
  match find_block (fun b => base_addr b =? base) l with
  | Some (l1, (c, b), l2) =>
      if releasable b then exists s' l', free_block base s = Ok tt s' /\ lrep s' l' /\ tiled l' /\
        used_blocks l' = used_blocks (l1 ++ l2) /\
        (forall x, free_at l' x <-> free_at l x \/ base <= x < base + p_size b)
      else free_block base s = Fatal "Trying to free a non-freeable block"
  | None => free_block base s = Fatal "Trying to free an unknown block"
  end.
Proof.
  intros Hr Ht. destruct (find_block _ l) as [[[l1 [c b]] l2]|] eqn:Hfind.
  - destruct (releasable b) eqn:Hb; [by eapply free_block_ok|]. by eapply free_block_other.
  - unfold free_block. rewrite (bind_ok get _ s s s eq_refl).
    by rewrite (bind_ok _ _ _ _ _ (find_node_ok _ _ _ Hr)), Hfind.
Qed.

(** A reservation that fits a free block exactly leaves an empty free
    block in front of the next one, with the address of the next one; the
    release of that next block then halts the kernel. *)
Lemma exact_fit_blocks_release s l1 c b d u l2 size type : lrep s (l1 ++ (c, b) :: (d, u) :: l2) ->
  tiled (l1 ++ (c, b) :: (d, u) :: l2) -> 0 < size <= 4294963200 -> a_room (heap s) sizeof_p_block ->
  find_block (reservable (alignup size 4096)) (l1 ++ (c, b) :: (d, u) :: l2) = Some (l1, (c, b), (d, u) :: l2) ->
  p_size b = alignup size 4096 -> base_addr u = base_addr b + p_size b -> releasable u = true ->
  exists s', reserve_block size type s = Ok (base_addr b) s' /\
    free_block (base_addr u) s' = Fatal "Trying to free a non-freeable block".
Proof.
  intros Hr Ht Hs Hroom Hfind Hb Hu Hrel.
  pose proof (alignup_spec size 4096 ltac:(lia) ltac:(lia) ltac:(lia)) as [Hal _].
  destruct (reserve_block_ok _ _ size type _ _ _ _ Hr Ht ltac:(lia) Hroom Hfind)
    as (p & s' & n & Hrun & -> & _ & _ & _ & _ & Hr' & _).
  exists s'. split; [done|].
  apply (free_block_other s' _ _ (l1 ++ [(c, mk_p_block (base_addr b) (alignup size 4096) type)]) p
    (mk_p_block (base_addr b + alignup size 4096) (p_size b - alignup size 4096) 1) ((d, u) :: l2) Hr'); [|done].
  rewrite (cons_middle (c, _)), app_assoc. apply find_block_app; [|cbn; apply Z.eqb_eq; lia].
  apply Forall_app. split; [|repeat constructor; cbn; apply Z.eqb_neq; lia].
  apply Forall_forall. intros e He. apply Z.eqb_neq.
  apply list_elem_of_split in He as (x & y & ->). rewrite <- app_assoc in Ht.
  pose proof (tiled_ordered x e _ (c, b) Ht ltac:(set_solver)) as Hord.
  destruct (tiled_range _ e Ht ltac:(set_solver)) as (_ & Hse & _). unfold b_end, is_u32 in *. cbn in *. lia.
Qed.

(** [get_free_mem] adds up the free blocks above 1 MiB. *)
Fixpoint free_total (l : list (Z * p_block)) : Z :=
  match l with
  | [] => 0
  | (_, b) :: r => (if is_free b && (1048576 <? base_addr b) then p_size b else 0) + free_total r
  end.

Lemma get_free_mem_loop_ok fuel s l1 l2 tr : lrep s (l1 ++ l2) -> (length l2 < fuel)%nat -> is_u32 tr ->
  get_free_mem_loop fuel (head_addr l2 0) tr s = Ok (u32 (tr + free_total l2)) s.
Proof.
  revert l1 l2 tr. induction fuel as [|n IH]; intros l1 l2 tr Hr Hlen Htr; [lia|].
  destruct l2 as [|[c b] r]; cbn [get_free_mem_loop head_addr free_total].
  { cbn. rewrite Z.add_0_r. by rewrite u32_id by done. }
  assert (c <> 0) by (apply (lrep_nonzero _ _ _ Hr); rewrite fmap_app; set_solver). dec_false (c =? 0).
  destruct (ld_lrep _ _ _ _ _ Hr) as (q & Hld & _). rewrite (bind_ok _ _ _ _ _ Hld). cbn [val next].
  assert (lrep s ((l1 ++ [(c, b)]) ++ r)) as Hr' by (by rewrite <- app_assoc). cbn in Hlen.
  change (p_type b =? 1) with (is_free b). destruct (is_free b && (1048576 <? base_addr b)).
  - rewrite (IH _ r _ Hr') by (lia || apply u32_range). f_equal. unfold u32. rewrite Z.add_mod_idemp_l by lia. f_equal. lia.
  - by rewrite (IH _ r _ Hr') by (lia || done).
Qed.

Lemma get_free_mem_ok s l : lrep s l -> get_free_mem s = Ok (u32 (free_total l)) s.
Proof.
  intros Hr. unfold get_free_mem. rewrite (bind_ok get _ s s s eq_refl). pose proof Hr as (-> & _).
  apply (get_free_mem_loop_ok _ s [] l 0 Hr); [by apply list_fuel_enough|unfold is_u32; lia].
Qed.


(** ** The list at boot *)

(** The boot loader's map at [a]: entries (base, length, type), each with
    [size] 20, all below 4 GiB. *)
Fixpoint mmap_at (m : mem) (a : Z) (es : list (Z * Z * Z)) : Prop :=
  match es with
  | [] => True
  | (base, len, ty) :: r =>
      mmap_size m a = 20 /\ mmap_base_addr m a = base /\ mmap_len m a = len /\ mmap_type m a = ty /\
      0 <= base < U32_MAX /\ 0 <= len < U32_MAX /\ mmap_at m (a + 24) r
  end.
Definition block_of (e : Z * Z * Z) : p_block := let '(base, len, ty) := e in mk_p_block base len ty.

(** The list while it is built: [cur] is the node allocated but not filled. *)
Definition building (s : lstate p_block H) (l : list (Z * p_block)) (cur : Z) : Prop :=
  first s = head_addr l cur /\ dll (nodes s) 0 l cur /\ nodes s !! cur = Some uninit /\
  NoDup (cur :: l.*1) /\ Forall (fun a => a <> 0) (cur :: l.*1) /\ a_ok (heap s) /\
  Forall (a_live (heap s)) (cur :: l.*1).

Context (Huninit : next uninit = 0).
Context (Hroom : forall h, a_ok h -> a_room h sizeof_p_block).

(** Filling [cur]: it joins the list, its [next] still what the node held. *)
Lemma fill_current s l cur b : building s l cur ->
  exists s', (st cur (set_val b) ;;; st cur (set_prev (last_addr 0 l))) s = Ok tt s' /\
    first s' = first s /\ heap s' = heap s /\ lrep s' (l ++ [(cur, b)]) /\
    nodes s' !! cur = Some (mk_node b 0 (last_addr 0 l)).
Proof.
  intros (Hf & Hd & Hc & [Hn Hnd]%NoDup_cons & [Hz Hzs]%Forall_cons & Hok & [Hl Hls]%Forall_cons).
  erewrite bind_ok by (by apply st_ok). erewrite st_ok by (cbn; by rewrite lookup_insert_eq).
  cbn. rewrite insert_insert_eq. eexists. split; [reflexivity|].
  unfold set_prev, set_val; cbn [first heap nodes val next prev]. rewrite Huninit.
  split; [done|]. split; [done|]. split; [|by rewrite lookup_insert_eq].
  unfold lrep. cbn [first nodes heap]. rewrite fmap_app, head_addr_app. cbn.
  assert (l.*1 ++ [cur] ≡ₚ cur :: l.*1) as He by (by rewrite Permutation_app_comm).
  split; [done|]. split; [|split; [rewrite He; by constructor|split; [rewrite He; by constructor|split; [done|rewrite He; by constructor]]]].
  apply (dll_middle _ l cur b []). split; [|split; [exists (last_addr 0 l); by rewrite lookup_insert_eq|done]].
  eapply dll_ext; [|exact Hd]. intros x Hx. rewrite lookup_insert_ne; [done|]. by intros ->.
Qed.

(** Allocating and linking the next node. *)
Lemma link_next s l cur b : lrep s (l ++ [(cur, b)]) ->
  nodes s !! cur = Some (mk_node b 0 (last_addr 0 l)) ->
  exists p s1 s', new_node sizeof_p_block uninit s = Ok p s1 /\ st cur (set_next p) s1 = Ok tt s' /\
    building s' (l ++ [(cur, b)]) p /\ first s' = first s.
Proof.
  intros (Hf & Hd & Hnd & Hz & Hok & Hlv) Hc.
  destruct (malloc_law (heap s) sizeof_p_block Hok (Hroom _ Hok)) as (p & h & Hrun & Hok' & Hp & Hfresh & Hlv').
  assert (p ∉ (l ++ [(cur, b)]).*1) as Hnin by (rewrite Forall_forall in Hlv; auto).
  assert (p <> cur) by (intros ->; apply Hnin; rewrite fmap_app; set_solver).
  assert ((p ∉ l.*1) /\ (cur ∉ l.*1)) as [Np Nc].
  { rewrite fmap_app in *. cbn in *. apply NoDup_app in Hnd as (_ & Hd' & _). set_solver. }
  exists p. unfold new_node. rewrite Hrun. do 2 eexists. split; [reflexivity|].
  erewrite st_ok by (cbn; by rewrite lookup_insert_ne). split; [reflexivity|]. unfold set_next; cbn [val next prev].
  split; [|done]. unfold building. cbn [first nodes heap]. split; [rewrite Hf, !head_addr_app; done|].
  split; [|split; [by rewrite lookup_insert_ne, lookup_insert_eq|]].
  - rewrite dll_app in *. destruct Hd as [D1 _]. split; [|split; [exists (last_addr 0 l); by rewrite lookup_insert_eq|done]].
    eapply dll_ext; [|exact D1]. intros x Hx. rewrite !lookup_insert_ne; [done|..]; by intros ->.
  - split; [by apply NoDup_cons|]. split; [by constructor|]. split; [done|].
    apply Forall_cons. split; [apply Hlv'; by left|]. eapply Forall_impl; [exact Hlv|]. intros x Hx. apply Hlv'. by right.
Qed.

Lemma building_first s l cur : building s l cur -> first s <> 0.
Proof.
  intros (-> & _ & _ & _ & [Hc Hz]%Forall_cons & _). destruct l as [|[a v] r]; [done|].
  cbn in *. by apply Forall_cons in Hz as [? _].
Qed.

Lemma physmem_get_loop_ok es : forall fuel m mmap i len s l cur d d32, es <> [] ->
  building s l cur -> mmap_at m mmap es -> 0 <= mmap -> mmap + 24 * Z.of_nat (length es) < 4294967296 ->
  len = i + 24 * Z.of_nat (length es) -> 0 <= i -> len < 4294967296 -> (length es < fuel)%nat ->
  exists r s' l', physmem_get_loop fuel m len mmap i cur (last_addr 0 l) d d32 s = Ok r s' /\
    lrep s' (l ++ l') /\ l'.*2 = block_of <$> es /\
    r = (foldl (fun d e => u64 (d + e.1.2)) d es, foldl (fun d e => u32 (d + e.1.2)) d32 es).
Proof.
  induction es as [|[[base ln] ty] r IH]; intros fuel m mmap i len s l cur d d32 Hne Hb Hm Ha Hw Hlen Hi Hl Hfuel; [done|].
  destruct fuel as [|fuel]; [lia|]. cbn [length] in *. destruct Hm as (Hsz & Hbase & Hln & Hty & Hb1 & Hb2 & Hm).
  cbn [physmem_get_loop]. dec_true (i <? len). cbn [negb]. rewrite (bind_ok get _ s s s eq_refl).
  pose proof (building_first _ _ _ Hb). dec_false (first s =? 0). rewrite (bind_ok (ret tt) _ s tt s eq_refl).
  rewrite Hbase, Hsz. dec_true (base <? U32_MAX).
  assert (block_of_entry m mmap = mk_p_block base ln ty) as ->.
  { unfold block_of_entry. rewrite Hbase, Hln, Hty. dec_true (ln <? U32_MAX). unfold U32_MAX in *. by rewrite !u32_id by lia. }
  destruct (fill_current s l cur (mk_p_block base ln ty) Hb) as (s1 & Hfill & Hf1 & Hh1 & Hr1 & Hc1).
  rewrite <- bind_assoc, (bind_ok _ _ _ _ _ Hfill). unfold sizeof_memory_map. rewrite (u32_id (i + 24)) by lia.
  destruct r as [|e r].
  - cbn [length] in *. dec_false (i + 24 <? len). destruct fuel as [|fuel]; [lia|]. cbn [physmem_get_loop].
    dec_false (i + 24 <? len). do 2 eexists. exists [(cur, mk_p_block base ln ty)]. cbn. by rewrite Hln.
  - cbn [length] in *. dec_true (i + 24 <? len).
    destruct (link_next _ _ _ _ Hr1 Hc1) as (p & s2 & s3 & Hnew & Hset & Hb3 & _).
    rewrite (bind_ok _ _ _ _ _ Hnew), (bind_ok _ _ _ _ _ Hset), u32_id by lia.
    destruct (IH fuel m (mmap + 20 + 4) (i + 24) len s3 (l ++ [(cur, mk_p_block base ln ty)]) p
      (u64 (d + mmap_len m mmap)) (u32 (d32 + p_size (mk_p_block base ln ty)))) as (x & s' & l' & Hrun & Hr' & Hl' & Hx);
      [done|done|by replace (mmap + 20 + 4) with (mmap + 24) by lia|lia..|].
    rewrite last_addr_snoc in Hrun. exists x, s', ((cur, mk_p_block base ln ty) :: l').
    split; [exact Hrun|]. split; [by rewrite <- app_assoc in Hr'|]. cbn. by rewrite Hl', Hx, Hln.
Qed.

(** [reserve_specific] of the start of a block that is not the last. *)
Lemma reserve_start_ok s l1 c b d v l2 addr size type : lrep s (l1 ++ (c, b) :: (d, v) :: l2) ->
  is_free b = true -> size <= p_size b ->
  exists p s', reserve_start c addr size type s = Ok (base_addr b) s' /\
    lrep s' (l1 ++ (c, mk_p_block (base_addr b) size type) ::
      (p, mk_p_block (u32 (base_addr b + size)) (u32 (p_size b - size)) 1) :: (d, v) :: l2).
Proof.
  intros Hr Hfree Hsz. pose proof Hr as (_ & _ & _ & _ & Hok & _).
  destruct (split_block_ok s l1 c b ((d, v) :: l2) sizeof_p_block (mk_p_block (base_addr b) size type)
    (mk_p_block (u32 (base_addr b + size)) (u32 (p_size b - size)) 1) Hr (Hroom _ Hok)) as (p & s' & Hrun & Hr' & _).
  { intros _. by apply (b_free_fixed b). }
  exists p, s'. split; [|done]. destruct (ld_lrep _ _ _ _ _ Hr) as (q & Hld & _).
  assert (d <> 0) by (apply (lrep_nonzero _ _ _ Hr); rewrite fmap_app; set_solver).
  unfold reserve_start. rewrite (bind_ok _ _ _ _ _ Hld). cbn [val next head_addr].
  dec_false (p_size b <? size). revert Hrun. unfold split_block. rewrite (bind_ok _ _ _ _ _ Hld).
  cbn [val next head_addr]. dec_false (d =? 0). cbn [negb]. intros Hrun.
  apply bind_inv in Hrun as (p' & s1 & Hs1 & Hrun). apply bind_inv in Hrun as ([] & s2 & Hs2 & Hrun).
  apply bind_inv in Hrun as ([] & s3 & Hs3 & Hs4).
  by rewrite (bind_ok _ _ _ _ _ Hs1), (bind_ok _ _ _ _ _ Hs2), (bind_ok _ _ _ _ _ Hs3), (bind_ok _ _ _ _ _ Hs4).
Qed.

(** [reserve_specific] inside a block that has a predecessor and, after it,
    only blocks whose back link is not used.  The block before gets the size
    [addr - size]. *)
Lemma reserve_inside_ok s l0 a ba c b l2 addr size type : lrep s (l0 ++ (a, ba) :: (c, b) :: l2) ->
  is_free b = true -> size <= p_size b -> b_fixed (mk_p_block addr size type) = true ->
  match l2 with [] => True | (_, v) :: _ => b_fixed v = true end ->
  let before := u32 (addr - size) in
  exists p q s', reserve_inside c addr size type s = Ok addr s' /\
    lrep s' (l0 ++ (a, ba) :: (p, mk_p_block (base_addr b) before 1) :: (c, mk_p_block addr size type) ::
      (q, mk_p_block (u32 (addr + size)) (u32 (u32 (p_size b - before) - size)) 1) :: l2).
Proof.
  intros Hr Hfree Hsz Hty Hl2 before. pose proof Hr as (Hf & Hd & Hnd & Hz & Hok & Hlv).
  assert (b_fixed b = false) as Hfix by (by apply b_free_fixed).
  pose proof Hr as Hrc. rewrite (cons_middle (a, ba) l0), app_assoc in Hrc.
  destruct (ld_lrep _ _ _ _ _ Hrc) as (q0 & Hld & Hq0). rewrite last_addr_snoc in Hq0. rewrite Hq0 in Hld by done.
  destruct (lrep_lookup _ _ _ _ _ Hrc) as (q1 & Hc & Hq1). rewrite last_addr_snoc in Hq1. rewrite Hq1 in Hc by done.
  destruct (lrep_lookup _ _ _ _ _ Hr) as (qa & Ha & Hqa). cbn [head_addr] in Ha.
  destruct (malloc_law (heap s) sizeof_p_block Hok (Hroom _ Hok)) as (p & h & Hm1 & Hok1 & Hp & Hfr1 & Hlv1).
  destruct (malloc_law h sizeof_p_block Hok1 (Hroom _ Hok1)) as (q & h2 & Hm2 & Hok2 & Hq & Hfr2 & Hlv2).
  assert (p ∉ (l0 ++ (a, ba) :: (c, b) :: l2).*1) as Np by (rewrite Forall_forall in Hlv; auto).
  assert (q <> p /\ (q ∉ (l0 ++ (a, ba) :: (c, b) :: l2).*1)) as [Nqp Nq].
  { rewrite Forall_forall in Hlv. split; [intros ->|intros Hin]; apply Hfr2, Hlv1; auto. }
  pose proof (NoDup_app_ne _ _ _ _ Hnd) as (Na0 & Na2 & N02).
  pose proof Hnd as Hnd2. rewrite (cons_middle (a, ba) l0), app_assoc in Hnd2.
  pose proof (NoDup_app_ne _ _ _ _ Hnd2) as (Nc0 & Nc2 & _).
  rewrite fmap_app in Np, Nq, Nc0. cbn in Np, Nq, Nc0, Na2.
  assert (a <> c /\ p <> a /\ p <> c /\ q <> a /\ q <> c) as (Hac & Hpa & Hpc & Hqa' & Hqc) by set_solver.
  unfold reserve_inside. rewrite (bind_ok _ _ _ _ _ Hld). cbn [val next prev].
  change (p_type b =? PHYS_FREE_BLOCK_TYPE) with (is_free b). rewrite Hfree. cbn [negb].
  dec_false (p_size b <? size). fold before.
  erewrite (bind_ok (new_node _ _)) by (unfold new_node; by rewrite Hm1).
  erewrite (bind_ok (st a _)) by (apply st_ok; cbn; rewrite lookup_insert_ne by done; exact Ha).
  erewrite (bind_ok (st c _)) by (apply st_ok; cbn; rewrite !lookup_insert_ne by done; exact Hc).
  erewrite (bind_ok (st c _)) by (apply st_ok; cbn; by rewrite lookup_insert_eq).
  erewrite (bind_ok (ld c)) by (apply ld_ok; cbn; by rewrite lookup_insert_eq).
  cbn [first heap nodes]. unfold set_val, set_next, set_prev. cbn [val next prev base_addr p_size].
  erewrite (bind_ok (new_node _ _)) by (unfold new_node; cbn [heap]; by rewrite Hm2).
  cbn [first heap nodes].
  erewrite (bind_ok (st c _)) by (apply st_ok; cbn; rewrite lookup_insert_ne by done; by rewrite lookup_insert_eq).
  erewrite (bind_ok (st c _)) by (apply st_ok; cbn; by rewrite lookup_insert_eq).
  eexists p, q, _. split; [reflexivity|]. unfold set_val. cbn [first heap nodes val next prev].
  rewrite insert_insert_eq. set (ns := <[c := _]> _).
  assert (forall x, x <> c -> x <> q -> x <> a -> x <> p -> ns !! x = nodes s !! x) as Hother.
  { intros x ? ? ? ?. subst ns. rewrite !lookup_insert_ne by done. done. }
  apply dll_middle in Hd as (D0 & _ & _ & D2). cbn [head_addr] in D2.
  assert (forall x, x ∈ l2.*1 -> x <> c /\ x <> q /\ x <> a /\ x <> p) as Hl2ne
    by (clear - Np Nq Nc2 Na2; intros x Hx; repeat split; intros ->; set_solver).
  assert (forall x, x ∈ l0.*1 -> x <> c /\ x <> q /\ x <> a /\ x <> p) as Hl0ne
    by (clear - Np Nq Nc0 Na0; intros x Hx; repeat split; intros ->; set_solver).
  assert (dll ns q l2 0) as D2'.
  { destruct l2 as [|[x v] r]; [done|]. destruct D2 as [(z & Hx & _) D2]. split.
    - exists z. split; [|congruence]. destruct (Hl2ne x) as (? & ? & ? & ?); [by left|]. by rewrite Hother.
    - eapply dll_ext; [|exact D2]. intros y Hy. destruct (Hl2ne y) as (? & ? & ? & ?); [by right|]. by apply Hother. }
  assert ((l0 ++ (a, ba) :: (p, mk_p_block (base_addr b) before 1) :: (c, mk_p_block addr size type) ::
      (q, mk_p_block (u32 (addr + size)) (u32 (u32 (p_size b - before) - size)) 1) :: l2).*1
     ≡ₚ q :: p :: (l0 ++ (a, ba) :: (c, b) :: l2).*1) as He by (rewrite !fmap_app; cbn; solve_Permutation).
  unfold lrep. cbn [first nodes heap]. split; [rewrite Hf, !head_addr_app; done|].
  split; [|split; [|split; [rewrite He; by repeat constructor|split; [done|]]]].
  - apply dll_middle. split; [|split; [|split; [|split; [|split; [|done]]]]].
    + eapply dll_ext; [|exact D0]. intros x Hx. destruct (Hl0ne x Hx) as (? & ? & ? & ?). by apply Hother.
    + exists qa. subst ns. rewrite !lookup_insert_ne, lookup_insert_eq by done. auto.
    + exists a. subst ns. cbn [head_addr]. rewrite !lookup_insert_ne, lookup_insert_eq by done. auto.
    + exists p. subst ns. rewrite lookup_insert_eq. auto.
    + exists c. subst ns. rewrite !lookup_insert_ne, lookup_insert_eq by done. auto.
  - rewrite He, fmap_app. cbn. rewrite fmap_app in Hnd. cbn in Hnd. rewrite !NoDup_cons, elem_of_cons. tauto.
  - rewrite He, !Forall_cons. rewrite !Hlv2, !Hlv1. split; [auto|]. split; [auto|].
    eapply Forall_impl; [exact Hlv|]. intros x Hx. apply Hlv2. right. apply Hlv1. auto.
Qed.

Lemma tiled_payloads (l l' : list (Z * p_block)) : l.*2 = l'.*2 -> tiled l -> tiled l'.
Proof.
  revert l'. induction l as [|[a v] r IH]; intros [|[a' v'] r']; try done. cbn. intros [= <- Hr] (Hv & Hadj & Ht).
  split; [done|]. split; [|by apply IH]. destruct r as [|[? ?] ?], r' as [|[? ?] ?]; try done. cbn in *. congruence.
Qed.

(** Blocks that end at or below [addr] are passed by [reserve_specific]. *)
Lemma below_not_found (addr : Z) (l : list (Z * p_block)) :
  Forall (fun e => base_addr e.2 < addr /\ base_addr e.2 + p_size e.2 <= addr /\ range_ok e.2) l -> addr < 4294967296 ->
  Forall (fun e => starts_free addr e.2 || strictly_inside addr e.2 = false) l.
Proof.
  intros Hl Ha. eapply Forall_impl; [exact Hl|]. intros [a b] (Hb & He & (? & ? & _)). cbn in *.
  unfold starts_free, strictly_inside, is_u32 in *. dec_false (base_addr b =? addr). rewrite u32_id by lia.
  dec_false (addr <? base_addr b + p_size b). by rewrite andb_false_r.
Qed.

Lemma reserve_specific_found s l addr size type l1 c b l2 : lrep s l -> l = l1 ++ (c, b) :: l2 ->
  Forall (fun e => starts_free addr e.2 || strictly_inside addr e.2 = false) l1 ->
  starts_free addr b || strictly_inside addr b = true ->
  reserve_specific addr size type s =
    (if starts_free addr b then reserve_start c addr size type else reserve_inside c addr size type) s.
Proof.
  intros Hr -> Hl1 Hb. unfold reserve_specific. rewrite (bind_ok get _ s s s eq_refl).
  rewrite (bind_ok _ _ _ _ _ (find_node_ok _ _ _ Hr)), find_block_app by done. cbn [found fst].
  assert (c <> 0) by (apply (lrep_nonzero _ _ _ Hr); rewrite fmap_app; set_solver). dec_false (c =? 0).
  destruct (ld_lrep _ _ _ _ _ Hr) as (q & Hld & _). by rewrite (bind_ok _ _ _ _ _ Hld).
Qed.

(** The two kernel areas are cut out of the free block at 1 MiB. *)
Lemma reserve_kernel_areas s l la c L d v lb : lrep s l -> tiled l ->
  l = la ++ (c, mk_p_block 1048576 L 1) :: (d, v) :: lb -> Forall (fun e => base_addr e.2 < 1048576) la ->
  11534336 <= L -> b_fixed v = true ->
  exists s1 s' p q l', reserve_specific 1048576 3145728 PHYS_KERNEL_BLOCK_TYPE s = Ok 1048576 s1 /\
    reserve_specific KHEAP_PHYS_START KHEAP_BASE_SIZE PHYS_KERNEL_BLOCK_TYPE s1 = Ok KHEAP_PHYS_START s' /\
    lrep s' l' /\ tiled l' /\
    l' = la ++ (c, mk_p_block 1048576 3145728 10) :: (p, mk_p_block 4194304 4194304 1) ::
      ((q : Z * Z).1, mk_p_block 8388608 4194304 10) :: (q.2, mk_p_block 12582912 (L - 11534336) 1) :: (d, v) :: lb.
Proof.
  intros Hr Ht -> Hla HL Hv.
  assert (range_ok (mk_p_block 1048576 L 1)) as (_ & HLr & _ & HL2)
    by (apply (tiled_range _ (c, mk_p_block 1048576 L 1) Ht); set_solver).
  specialize (HL2 eq_refl). cbn in HLr. unfold is_u32, b_end in *. cbn in HL2.
  assert (Forall (fun e => base_addr e.2 + p_size e.2 <= 1048576 /\ range_ok e.2) la) as Hla2.
  { apply Forall_forall. intros e He. split; [|apply (tiled_range _ e Ht); set_solver].
    apply list_elem_of_split in He as (x & y & ->). rewrite <- app_assoc in Ht.
    apply (tiled_ordered x e _ (c, mk_p_block 1048576 L 1) Ht). set_solver. }
  assert (forall addr, 1048576 <= addr < 4294967296 ->
    Forall (fun e => starts_free addr e.2 || strictly_inside addr e.2 = false) la) as Hpass.
  { intros addr Haddr. apply below_not_found; [|lia]. rewrite Forall_forall in *. intros e He.
    specialize (Hla e He). specialize (Hla2 e He) as [? ?]. cbn in *. split; [lia|]. split; [lia|done]. }
  destruct (reserve_start_ok s la c _ d v lb 1048576 3145728 PHYS_KERNEL_BLOCK_TYPE Hr eq_refl) as (p & s1 & Hrun1 & Hr1);
    [cbn; lia|]. cbn [base_addr p_size] in *.
  change (u32 (1048576 + 3145728)) with 4194304 in Hr1. rewrite (u32_id (L - 3145728)) in Hr1 by lia.
  destruct (reserve_inside_ok s1 la c _ p _ ((d, v) :: lb) 8388608 4194304 PHYS_KERNEL_BLOCK_TYPE Hr1 eq_refl)
    as (p2 & q & s' & Hrun2 & Hr2); [cbn; lia|done|done|]. cbn [base_addr p_size] in *.
  change (u32 (8388608 - 4194304)) with 4194304 in Hr2. change (u32 (8388608 + 4194304)) with 12582912 in Hr2.
  rewrite (u32_id (L - 3145728 - 4194304)), (u32_id (L - 3145728 - 4194304 - 4194304)) in Hr2 by lia.
  replace (L - 3145728 - 4194304 - 4194304) with (L - 11534336) in Hr2 by lia.
  exists s1, s', p2, (p, q). eexists. split; [|split; [|split; [exact Hr2|split; [|done]]]].
  - rewrite (reserve_specific_found _ _ _ _ _ _ _ _ _ Hr eq_refl); [done|apply Hpass; lia|done].
  - rewrite (reserve_specific_found s1 _ KHEAP_PHYS_START KHEAP_BASE_SIZE _
      (la ++ [(c, mk_p_block 1048576 3145728 PHYS_KERNEL_BLOCK_TYPE)]) p (mk_p_block 4194304 (L - 3145728) 1) ((d, v) :: lb) Hr1).
    + assert (starts_free KHEAP_PHYS_START (mk_p_block 4194304 (L - 3145728) 1) = false) as -> by done. done.
    + by rewrite <- app_assoc.
    + apply Forall_app. split; [apply Hpass; unfold KHEAP_PHYS_START; lia|]. by repeat constructor.
    + unfold strictly_inside, KHEAP_PHYS_START. cbn [base_addr p_size].
      rewrite u32_id by lia. dec_true (8388608 <? 4194304 + (L - 3145728)). done.
  - apply (tiled_replace la [(c, mk_p_block 1048576 L 1)] [(c, mk_p_block 1048576 3145728 10); (p2, mk_p_block 4194304 4194304 1);
      (p, mk_p_block 8388608 4194304 10); (q, mk_p_block 12582912 (L - 11534336) 1)]); [done| | | |done|done].
    + cbn. unfold range_ok, adj, b_end, is_u32. cbn. repeat split; try lia; auto.
    + intros z. cbn. unfold adj, b_end. cbn. intros [?|[? [?|?]]]; auto; done.
    + intros z. cbn. unfold adj, b_end. cbn. replace (12582912 + (L - 11534336)) with (1048576 + L) by lia. done.
Qed.

(** [physmem_get] on a boot map below 4 GiB, whose free area at 1 MiB is
    large enough and is followed by an area the kernel never touches, returns
    the sums of the lengths and builds the list of the map's areas in address
    order, with the kernel image and the kernel heap cut out of the area at
    1 MiB as kernel blocks. *)
Lemma physmem_get_correct s m addr es pre L mid post :
  es = pre ++ (1048576, L, 1) :: mid :: post ->
  a_ok (heap s) -> nodes s = ∅ ->
  mmap_at m (addr + KERNEL_VIRTUAL_BASE) es -> 0 <= addr ->
  addr + KERNEL_VIRTUAL_BASE + 24 * Z.of_nat (length es) < 4294967296 ->
  tiled ((fun e => (0, block_of e)) <$> es) -> Forall (fun e => e.1.1 < 1048576) pre ->
  11534336 <= L -> b_fixed (block_of mid) = true ->
  exists s' l, physmem_get m (24 * Z.of_nat (length es)) addr s =
      Ok (foldl (fun d e => u64 (d + e.1.2)) 0 es, foldl (fun d e => u32 (d + e.1.2)) 0 es) s' /\
    lrep s' l /\ tiled l /\
    l.*2 = (block_of <$> pre) ++ [mk_p_block 1048576 3145728 PHYS_KERNEL_BLOCK_TYPE;
      mk_p_block 4194304 4194304 PHYS_FREE_BLOCK_TYPE;
      mk_p_block KHEAP_PHYS_START KHEAP_BASE_SIZE PHYS_KERNEL_BLOCK_TYPE;
      mk_p_block 12582912 (L - 11534336) PHYS_FREE_BLOCK_TYPE] ++ (block_of <$> mid :: post).
Proof.
  intros Hes Hok Hns Hm Ha Hw Ht Hpre HL Hmid. unfold KERNEL_VIRTUAL_BASE in *.
  destruct (malloc_law (heap s) sizeof_p_block Hok (Hroom _ Hok)) as (cur & h & Hrun & Hok' & Hc & _ & Hlv).
  set (s0 := mk_lstate cur (<[cur := uninit]> ∅) h : lstate p_block H).
  assert (building s0 [] cur) as Hb.
  { unfold building. cbn. rewrite lookup_insert_eq. split_and!; try done.
    - apply NoDup_singleton.
    - by constructor.
    - constructor; [apply Hlv; by left|constructor]. }
  assert (es <> []) as Hne by (rewrite Hes; by destruct pre).
  destruct (physmem_get_loop_ok es (S (Z.to_nat (24 * Z.of_nat (length es) / sizeof_memory_map + 1))) m
    (addr + 3221225472) 0 (24 * Z.of_nat (length es)) s0 [] cur 0 0) as (r & s1 & l & Hloop & Hr1 & Hl & ->);
    [done|done|done|lia..| |].
  { unfold sizeof_memory_map. rewrite Z.mul_comm, Z.div_mul by lia. lia. }
  cbn [app] in Hr1. assert (tiled l) as Htl.
  { eapply tiled_payloads; [|exact Ht]. rewrite Hl, <- list_fmap_compose. done. }
  rewrite Hes, fmap_app in Hl. apply fmap_app_inv in Hl as (la & l2 & Hla & Hl2 & ->).
  destruct l2 as [|[c b] [|[d v] lb]]; try done. cbn in Hl2. injection Hl2 as Hb0 Hv Hlb. subst b v.
  destruct (reserve_kernel_areas s1 _ la c L d _ lb Hr1 Htl eq_refl) as (s2 & s3 & p & q & l' & Hrs1 & Hrs2 & Hr3 & Ht3 & Hl3);
    [|done|done|].
  { rewrite Forall_forall in Hpre. apply Forall_forall. intros [x bx] Hx. apply (list_elem_of_fmap_2 snd) in Hx. rewrite <- Hla in Hx.
    apply list_elem_of_fmap in Hx as ([[eb el] et] & Heq & He). cbn in *. subst bx. apply (Hpre _ He). }
  exists s3, l'. split; [|split; [done|split; [done|]]].
  - unfold physmem_get. rewrite u32_id by (unfold KERNEL_VIRTUAL_BASE; lia).
    erewrite (bind_ok (new_node _ _)) by (unfold new_node; by rewrite Hrun). rewrite Hns.
    erewrite (bind_ok get) by reflexivity. erewrite (bind_ok (put _)) by reflexivity. cbn [nodes heap].
    unfold KERNEL_VIRTUAL_BASE. change (last_addr 0 []) with 0 in Hloop.
    by rewrite (bind_ok _ _ _ _ _ Hloop), (bind_ok _ _ _ _ _ Hrs1), (bind_ok _ _ _ _ _ Hrs2).
  - rewrite Hl3, fmap_app, <- Hla. cbn. by rewrite Hlb.
Qed.
End PhysMem.

(** ** A concrete machine *)

Definition le32 (v : Z) : list Z := [u8 v; u8 (v / 256); u8 (v / 65536); u8 (v / 16777216)].
Definition entry_bytes (e : Z * Z * Z) : list Z :=
  let '(base, len, ty) := e in le32 20 ++ le32 base ++ le32 (base / 4294967296) ++ le32 len ++ le32 (len / 4294967296) ++ le32 ty.
Definition demo_map : list (Z * Z * Z) :=
  [(0, 654336, 1); (654336, 1024, 2); (983040, 65536, 2); (1048576, 133038080, 1); (134086656, 131072, 2); (4294705152, 262144, 2)].
Definition demo_map_mem : mem := mem_of 3221262336 (concat (entry_bytes <$> demo_map)).
Definition no_blocks : lstate p_block bump := mk_lstate 0 ∅ (mk_bump 16 ∅).
Definition zero_node : dnode p_block := mk_node (mk_p_block 0 0 0) 0 0.

Lemma physmem_get_correct_witness : exists s' l,
  physmem_get zero_node demo_map_mem 144 36864 no_blocks = Ok (134152192, 134152192) s' /\
  lrep s' l /\ tiled l.
Proof.
  destruct (physmem_get_correct zero_node eq_refl (bump_has_room _) no_blocks demo_map_mem 36864 demo_map
    [(0, 654336, 1); (654336, 1024, 2); (983040, 65536, 2)] 133038080 (134086656, 131072, 2) [(4294705152, 262144, 2)])
    as (s' & l & Hrun & Hr & Ht & _).
  - reflexivity.
  - vm_compute. split; [done|]. intros q Hq. exfalso. by apply (not_elem_of_empty (C := gset Z) q).
  - reflexivity.
  - cbn [demo_map mmap_at]. repeat (split; [vm_compute; (done || congruence)|]). exact I.
  - lia.
  - vm_compute. done.
  - cbn. unfold range_ok, adj, b_end, is_u32. cbn. repeat split; try lia; auto; intros; try done; lia.
  - by repeat constructor.
  - lia.
  - reflexivity.
  - assert (foldl (fun d e => u64 (d + e.1.2)) 0 demo_map = 134152192) as E1 by (vm_compute; reflexivity).
    assert (foldl (fun d e => u32 (d + e.1.2)) 0 demo_map = 134152192) as E2 by (vm_compute; reflexivity).
    rewrite E1, E2 in Hrun. exists s', l. split; [exact Hrun|]. split; [exact Hr|exact Ht].
Defined.

(** Four pages from 1 MiB: one taken, two free, one taken, then hardware. *)
Definition demo_blocks : list (Z * p_block) :=
  [(16, mk_p_block 1048576 4096 20); (40, mk_p_block 1052672 8192 1); (64, mk_p_block 1060864 4096 20);
   (88, mk_p_block 1064960 4096 2)].
Definition demo_phys : lstate p_block bump :=
  mk_lstate 16 (<[16 := mk_node (mk_p_block 1048576 4096 20) 40 0]> (<[40 := mk_node (mk_p_block 1052672 8192 1) 64 16]>
    (<[64 := mk_node (mk_p_block 1060864 4096 20) 88 40]> {[ 88 := mk_node (mk_p_block 1064960 4096 2) 0 64 ]})))
    (mk_bump 112 {[ 16; 40; 64; 88 ]}).
Lemma demo_phys_ok : lrep demo_phys demo_blocks /\ tiled demo_blocks.
Proof.
  split.
  - unfold lrep, demo_phys, demo_blocks. cbn [first nodes heap]. split; [done|]. split.
    + cbn [dll]. repeat (split; [eexists; split; [reflexivity|done]|]). done.
    + cbn. split; [repeat (apply NoDup_cons; split; [set_solver|]); apply NoDup_nil_2|].
      split; [repeat constructor; done|]. split; [split; [lia|set_solver by lia]|]. repeat constructor; set_solver.
  - cbn. unfold range_ok, adj, b_end, is_u32. cbn. repeat split; try lia; auto.
Qed.

Lemma reserve_block_correct_witness : exists p s' l', reserve_block 4097 20 demo_phys = Ok 1052672 s' /\
  l' = [(16, mk_p_block 1048576 4096 20); (40, mk_p_block 1052672 8192 20); (p, mk_p_block 1060864 0 1);
        (64, mk_p_block 1060864 4096 20); (88, mk_p_block 1064960 4096 2)] /\ lrep s' l' /\ tiled l'.
Proof.
  destruct demo_phys_ok as [Hr Ht].
  pose proof (reserve_block_correct demo_phys demo_blocks 4097 20 Hr Ht ltac:(lia) I ltac:(done)) as (_ & _ & Hres).
  assert (alignup 4097 4096 = 8192) as Hn by (vm_compute; reflexivity). rewrite Hn in Hres.
  destruct Hres as (p & s' & l' & Hrun & Hl & Hr' & Ht' & _). exists p, s', l'.
  split; [exact Hrun|]. split; [exact Hl|]. split; [exact Hr'|exact Ht'].

Defined.

Lemma free_block_correct_witness : exists s' l', free_block 1060864 demo_phys = Ok tt s' /\ lrep s' l' /\ tiled l' /\
  used_blocks l' = [(16, mk_p_block 1048576 4096 20); (88, mk_p_block 1064960 4096 2)] /\
  (forall x, free_at l' x <-> free_at demo_blocks x \/ 1060864 <= x < 1060864 + 4096).
Proof. destruct demo_phys_ok as [Hr Ht]. exact (free_block_correct demo_phys demo_blocks 1060864 Hr Ht). Defined.

Lemma exact_fit_blocks_release_witness : exists s', reserve_block 8192 20 demo_phys = Ok 1052672 s' /\
  free_block 1060864 s' = Fatal "Trying to free a non-freeable block".
Proof.
  destruct demo_phys_ok as [Hr Ht].
  apply (exact_fit_blocks_release demo_phys [(16, mk_p_block 1048576 4096 20)] 40 (mk_p_block 1052672 8192 1)
    64 (mk_p_block 1060864 4096 20) [(88, mk_p_block 1064960 4096 2)] 8192 20 Hr Ht); [lia|exact I|vm_compute; reflexivity..].
Defined.

(** Two reservations from a list with one free area. *)
Definition demo_phys0 : lstate p_block bump :=
  mk_lstate 16 {[ 16 := mk_node (mk_p_block 1048576 65536 1) 0 0 ]} (mk_bump 40 {[ 16 ]}).
Definition run_state {A} (c : M (lstate p_block bump) A) (s : lstate p_block bump) : lstate p_block bump :=
  match c s with Ok _ s' => s' | _ => s end.
Definition demo_grants : gmap Z Z := <[1052672 := 5000]> (<[1048576 := 100]> ∅).
