(* ===== verification/KvmHeap.v ===== *)
(** Kernel virtual memory (memory/kvmheap.c).

    The addresses above [FREE_KVM_START] are handed out in pages from a list of
    [vm_block_t], with the same list operations as physical memory but a
    status flag instead of a type and no check on release. *)

From S2P Require Import Prelude Mem KHeap Alloc Dll Blocks.

(** [vm_block_t] without its links. *)
Record vm_block : Type := mk_vm_block { vaddr : Z; v_size : Z; status : Z }.
Definition sizeof_vm_block : Z := 20.

#[export, program] Instance vm_block_block : Block vm_block := {
  b_base := vaddr;
  b_size := v_size;
  b_free v := status v =? 0;
  b_fixed _ := false;
  b_grow v n := mk_vm_block (vaddr v) (u32 (v_size v + n)) (status v) }.
Next Obligation. done. Qed.
Next Obligation. done. Qed.
Next Obligation. done. Qed.
Next Obligation. done. Qed.
Next Obligation. done. Qed.

Section KvmHeap.
Context {H : Type} `{Allocator H}.
Let K (T : Type) : Type := M (lstate vm_block H) T.

Definition kvmheap_install : K unit :=
  b <- new_node sizeof_vm_block (mk_node (mk_vm_block FREE_KVM_START (4294967295 - FREE_KVM_START) 0) 0 0) ;;
  s <- get ;;
  put (mk_lstate b (nodes s) (heap s)).

(** Not skipped by [if((curr->status) | (curr->size < size))]. *)
Definition kvm_reservable (size : Z) (b : vm_block) : bool :=
  Z.lor (status b) (if v_size b <? size then 1 else 0) =? 0.

Definition kvm_reserve_block (size : Z) : K Z :=
  let size := alignup size 4096 in
  s <- get ;;
  curr <- find_node (kvm_reservable size) (list_fuel s) (first s) ;;
  if curr =? 0 then fatal_kernel_error "Trying to reserve more virtual memory than available" else
  cb <- ld curr ;;
  let b := val cb in
  split_block sizeof_vm_block curr (mk_vm_block (vaddr b) size 1)
    (mk_vm_block (u32 (vaddr b + size)) (u32 (v_size b - size)) 0) ;;;
  cb' <- ld curr ;;
  ret (vaddr (val cb')).

Definition kvm_free_block (base : Z) : K unit :=
  s <- get ;;
  curr <- find_node (fun b => vaddr b =? base) (list_fuel s) (first s) ;;
  if curr =? 0 then fatal_kernel_error "Trying to free an unknown block" else
  cb <- ld curr ;;
  let b := val cb in
  st curr (set_val (mk_vm_block (vaddr b) (v_size b) 0)) ;;;
  merge_around curr.

(** ** Behaviour on the block list *)

Lemma kvm_reservable_spec n b : kvm_reservable n b = true <-> status b = 0 /\ n <= v_size b.
Proof.
  unfold kvm_reservable. rewrite Z.eqb_eq, Z.lor_eq_0_iff. destruct (v_size b <? n) eqn:?; zify_bool; lia.
Qed.

Lemma kvm_reserve_block_ok s l size l1 c b l2 : lrep s l -> tiled l ->
  0 <= size <= 4294963200 -> a_room (heap s) sizeof_vm_block ->
  find_block (kvm_reservable (alignup size 4096)) l = Some (l1, (c, b), l2) ->
  exists p s' n, kvm_reserve_block size s = Ok (vaddr b) s' /\ n = alignup size 4096 /\ n <= v_size b /\
    status b = 0 /\ l = l1 ++ (c, b) :: l2 /\
    let l' := l1 ++ (c, mk_vm_block (vaddr b) n 1) :: (p, mk_vm_block (vaddr b + n) (v_size b - n) 0) :: l2 in
    lrep s' l' /\ tiled l'.
Proof.
  intros Hr Ht Hs Hroom Hfind. pose proof (find_block_spec (kvm_reservable (alignup size 4096)) l) as Hspec.
  rewrite Hfind in Hspec. destruct Hspec as (-> & [Hst Hfit]%kvm_reservable_spec & _). cbn [snd] in *.
  pose proof (alignup_spec size 4096 ltac:(lia) ltac:(lia) ltac:(lia)) as [Hal _]. set (n := alignup size 4096) in *.
  destruct (tiled_range _ (c, b) Ht ltac:(set_solver)) as (Hb & Hsz & _ & Hend). specialize (Hend eq_refl).
  unfold b_end, is_u32 in *. cbn in Hb, Hsz, Hend.
  destruct (split_block_ok s l1 c b l2 sizeof_vm_block (mk_vm_block (vaddr b) n 1)
    (mk_vm_block (vaddr b + n) (v_size b - n) 0) Hr Hroom) as (p & s' & Hrun & Hr' & _); [done|].
  exists p, s', n. split.
  { unfold kvm_reserve_block. rewrite (bind_ok get _ s s s eq_refl). fold n.
    rewrite (bind_ok _ _ _ _ _ (find_node_ok _ _ _ Hr)), Hfind. cbn [found fst].
    assert (c <> 0) by (apply (lrep_nonzero _ _ _ Hr); rewrite fmap_app; set_solver). dec_false (c =? 0).
    destruct (ld_lrep _ _ _ _ _ Hr) as (q & Hld & _). rewrite (bind_ok _ _ _ _ _ Hld). cbn [val].
    rewrite !u32_id by lia. rewrite (bind_ok _ _ _ _ _ Hrun).
    destruct (ld_lrep _ _ _ _ _ Hr') as (q' & Hld' & _). by rewrite (bind_ok _ _ _ _ _ Hld'). }
  do 4 (split; [done||lia|]). split; [done|]. eapply tiled_split; [exact Ht|done|done|].
  unfold halves, b_end. cbn. lia.
Qed.

Lemma kvm_reserve_block_none s l size : lrep s l -> find_block (kvm_reservable (alignup size 4096)) l = None ->
  kvm_reserve_block size s = Fatal "Trying to reserve more virtual memory than available".
Proof.
  intros Hr Hfind. unfold kvm_reserve_block. rewrite (bind_ok get _ s s s eq_refl).
  by rewrite (bind_ok _ _ _ _ _ (find_node_ok _ _ _ Hr)), Hfind.
Qed.

(** [kvm_free_block] of the first block at an address, whatever its status. *)
Lemma kvm_free_block_ok s l base l1 c b l2 : lrep s l -> tiled l ->
  find_block (fun b => vaddr b =? base) l = Some (l1, (c, b), l2) ->
  exists s' l', kvm_free_block base s = Ok tt s' /\ lrep s' l' /\
    rtc fuse_step (l1 ++ (c, mk_vm_block base (v_size b) 0) :: l2) l' /\ tiled l' /\
    used_blocks l' = used_blocks (l1 ++ l2) /\
    (forall x, free_at l' x <-> free_at l x \/ base <= x < base + v_size b).
Proof.
  intros Hr Ht Hfind. pose proof (find_block_spec (fun b => vaddr b =? base) l) as Hspec.
  rewrite Hfind in Hspec. destruct Hspec as (-> & Htest & _). cbn in Htest. zify_bool. subst base.
  set (b' := mk_vm_block (vaddr b) (v_size b) 0).
  destruct (lrep_set_val s l1 c b l2 b' Hr ltac:(done)) as (s1 & Hst & Hr1 & _).
  destruct (merge_around_ok s1 l1 c b' l2 Hr1 eq_refl) as (s2 & Hrun & Hr2).
  assert (tiled (l1 ++ (c, b') :: l2)) as Ht'.
  { apply (tiled_replace l1 [(c, b)] [(c, b')]); [done| |done|done|done|done].
    cbn. split; [|done]. by apply (tiled_range _ (c, b) Ht ltac:(set_solver)). }
  assert (b_free b' = true) as Hfree' by done.
  destruct (tiled_fuses _ _ (merged_fuses l1 (c, b') l2 Hfree') Ht') as (Ht2 & Hu & Hf).
  exists s2, (merged l1 (c, b') l2). split; [|split; [done|split; [by apply merged_fuses|split; [done|split]]]].
  - unfold kvm_free_block. rewrite (bind_ok get _ s s s eq_refl).
    rewrite (bind_ok _ _ _ _ _ (find_node_ok _ _ _ Hr)), Hfind. cbn [found fst].
    assert (c <> 0) by (apply (lrep_nonzero _ _ _ Hr); rewrite fmap_app; set_solver). dec_false (c =? 0).
    destruct (ld_lrep _ _ _ _ _ Hr) as (q & Hld & _). rewrite (bind_ok _ _ _ _ _ Hld). cbn [val].
    by rewrite (bind_ok _ _ _ _ _ Hst).
  - rewrite Hu, !used_blocks_app, used_blocks_cons. done.
  - intros x. rewrite Hf, !free_at_app, !free_at_cons. cbn [snd]. unfold b_end. cbn. naive_solver lia.
Qed.

(** Page alignment of every block. *)
Definition paged (l : list (Z * vm_block)) : Prop := Forall (fun e => vaddr e.2 mod 4096 = 0) l.

Lemma paged_fuses l1 l2 : rtc fuse_step l1 l2 -> paged l1 -> paged l2.
Proof.
  induction 1 as [|l1 l2 l3 H12 _ IH]; [done|]. intros Hp. apply IH. destruct H12. unfold paged in *.
  rewrite Forall_app, !Forall_cons in *. cbn in *. tauto.
Qed.

(** ** Any sequence of reservations and releases *)

Inductive kvm_step : lstate vm_block H * gmap Z Z -> lstate vm_block H * gmap Z Z -> Prop :=
| kvm_step_reserve s owned size a s' : 0 < size <= 4294963200 -> a_room (heap s) sizeof_vm_block ->
    kvm_reserve_block size s = Ok a s' -> kvm_step (s, owned) (s', <[a := size]> owned)
| kvm_step_release s owned a n s' : owned !! a = Some n -> kvm_free_block a s = Ok tt s' ->
    kvm_step (s, owned) (s', delete a owned).

Definition kvm_inv (st : lstate vm_block H * gmap Z Z) : Prop :=
  exists l, lrep st.1 l /\ tiled l /\ paged l /\ Forall (fun e => FREE_KVM_START <= vaddr e.2) l /\
    forall a n, st.2 !! a = Some n -> exists c b, ((c, b) ∈ l) /\ status b <> 0 /\ vaddr b = a /\ n <= v_size b.

Lemma low_fuses lo l1 l2 : rtc fuse_step l1 l2 -> Forall (fun e : Z * vm_block => lo <= vaddr e.2) l1 ->
  Forall (fun e : Z * vm_block => lo <= vaddr e.2) l2.
Proof.
  induction 1 as [|l1 l2 l3 H12 _ IH]; [done|]. intros Hp. apply IH. destruct H12.
  rewrite Forall_app, !Forall_cons in *. cbn in *. tauto.
Qed.

Lemma kvm_reserve_inv s owned size a s' : 0 < size <= 4294963200 -> a_room (heap s) sizeof_vm_block ->
  kvm_reserve_block size s = Ok a s' -> kvm_inv (s, owned) -> kvm_inv (s', <[a := size]> owned).
Proof.
  intros Hs Hroom Hrun (l & Hr & Ht & Hp & Hlow & Hown). cbn [fst snd] in *.
  destruct (find_block (kvm_reservable (alignup size 4096)) l) as [[[l1 [c b]] l2]|] eqn:Hfind.
  2: { rewrite (kvm_reserve_block_none _ _ _ Hr Hfind) in Hrun. done. }
  destruct (kvm_reserve_block_ok _ _ size _ _ _ _ Hr Ht ltac:(lia) Hroom Hfind)
    as (p & s2 & n & Hrun' & Hn & Hnb & Hst & -> & Hr' & Ht').
  rewrite Hrun in Hrun'. injection Hrun' as -> <-.
  pose proof (alignup_spec size 4096 ltac:(lia) ltac:(lia) ltac:(lia)) as [Hal Hmod]. rewrite <- Hn in Hal, Hmod.
  eexists. cbn [fst snd]. split; [exact Hr'|]. split; [exact Ht'|].
  unfold paged in *. rewrite !Forall_app, !Forall_cons in *. cbn [snd vaddr] in *.
  split; [|split].
  - destruct Hp as (? & Hb & ?). split_and!; try done. rewrite Z.add_mod, Hb, Hmod by lia. done.
  - destruct Hlow as (? & ? & ?). split_and!; try done. lia.
  - intros a k. rewrite lookup_insert. case_decide as Heq.
    + intros [= <-]. exists c, (mk_vm_block (vaddr b) n 1). cbn. repeat split; [set_solver|done|done|lia].
    + intros Ha. destruct (Hown a k Ha) as (c' & b' & Hin & Hst' & ?). exists c', b'. split; [|done].
      rewrite elem_of_app, elem_of_cons in Hin. destruct Hin as [?|[[= -> ->]|?]]; [set_solver|done|set_solver].
Qed.

Lemma kvm_release_inv s owned a n s' : owned !! a = Some n -> kvm_free_block a s = Ok tt s' ->
  kvm_inv (s, owned) -> kvm_inv (s', delete a owned).
Proof.
  intros Ha Hrun (l & Hr & Ht & Hp & Hlow & Hown). cbn [fst snd] in *.
  destruct (find_block (fun b => vaddr b =? a) l) as [[[l1 [c b]] l2]|] eqn:Hfind.
  2: { destruct (Hown a n Ha) as (c & b & Hin & _ & Hv & _).
       pose proof (find_block_spec (fun b => vaddr b =? a) l) as Hspec. rewrite Hfind, Forall_forall in Hspec.
       specialize (Hspec _ Hin). cbn in Hspec. zify_bool. done. }
  destruct (kvm_free_block_ok _ _ _ _ _ _ _ Hr Ht Hfind) as (s2 & l' & Hrun' & Hr' & Hfs & Ht' & Hu & _).
  rewrite Hrun in Hrun'. injection Hrun' as <-.
  pose proof (find_block_spec (fun b => vaddr b =? a) l) as Hspec. rewrite Hfind in Hspec.
  destruct Hspec as (-> & Hba & _). cbn in Hba. zify_bool. subst a.
  exists l'. cbn [fst snd]. split; [done|]. split; [done|]. split; [|split].
  - eapply paged_fuses; [exact Hfs|]. unfold paged in *. rewrite Forall_app, Forall_cons in *. done.
  - eapply low_fuses; [exact Hfs|]. rewrite Forall_app, Forall_cons in *. done.
  - intros a' k. rewrite lookup_delete. case_decide as Heq; [done|]. intros Ha'.
    destruct (Hown a' k Ha') as (c' & b' & Hin & Hst & Hv & Hk). exists c', b'. split; [|done].
    assert ((c', b') ∈ used_blocks l') as [? _]%elem_of_used_blocks; [|done].
    rewrite Hu, elem_of_used_blocks. split; [|by apply Z.eqb_neq].
    rewrite elem_of_app, elem_of_cons in Hin. rewrite elem_of_app.
    destruct Hin as [?|[[= -> ->]|?]]; [by left|congruence|by right].
Qed.

Lemma kvmheap_install_ok s : a_ok (heap s) -> a_room (heap s) sizeof_vm_block ->
  exists s' p, kvmheap_install s = Ok tt s' /\ nodes s' !! p = Some (mk_node (mk_vm_block FREE_KVM_START 528482303 0) 0 0) /\
    lrep s' [(p, mk_vm_block FREE_KVM_START 528482303 0)].
Proof.
  intros Hok Hroom. destruct (malloc_law (heap s) sizeof_vm_block Hok Hroom) as (p & h & Hrun & Hok' & Hp & _ & Hlv).
  unfold kvmheap_install. erewrite (bind_ok (new_node _ _)) by (unfold new_node; by rewrite Hrun).
  eexists _, p. split; [reflexivity|]. cbn [nodes]. split; [by rewrite lookup_insert_eq|].
  unfold lrep. cbn. rewrite lookup_insert_eq. split; [done|]. split; [split; [by eexists|done]|].
  split; [apply NoDup_singleton|]. split; [by constructor|]. split; [done|]. constructor; [apply Hlv; by left|constructor].
Qed.

(** After [kvmheap_install], no sequence of reservations and releases
    hands out kernel virtual addresses twice: what two holders own is disjoint,
    starts on a page boundary, lies above [FREE_KVM_START] and inside 32 bits. *)
Lemma kvm_never_overlaps s0 s1 s owned : a_ok (heap s0) -> a_room (heap s0) sizeof_vm_block ->
  kvmheap_install s0 = Ok tt s1 -> rtc kvm_step (s1, ∅) (s, owned) ->
  forall p n, owned !! p = Some n -> FREE_KVM_START <= p /\ p mod 4096 = 0 /\ p + n < 4294967296 /\
    (forall q k, owned !! q = Some k -> p <> q -> p + n <= q \/ q + k <= p).
Proof.
  intros Hok Hroom Hinst Hsteps p n Hp.
  assert (kvm_inv (s, owned)) as (l & Hr & Ht & Hpg & Hlow & Hown).
  { eapply (rtc_ind_l (fun st => kvm_inv st -> kvm_inv (s, owned))); [done| |exact Hsteps|].
    - intros st1 st2 Hstep _ IH Hinv. apply IH. destruct Hstep.
      + by eapply kvm_reserve_inv.
      + by eapply kvm_release_inv.
    - destruct (kvmheap_install_ok s0 Hok Hroom) as (s' & q & Hrun & _ & Hr). rewrite Hinst in Hrun. injection Hrun as <-.
      eexists. split; [exact Hr|]. cbn. unfold range_ok, b_end, is_u32, FREE_KVM_START. cbn. split; [repeat split; lia|].
      split; [by repeat constructor|]. split; [by repeat constructor|]. intros a k. by rewrite lookup_empty. }
  cbn [fst snd] in *. destruct (Hown p n Hp) as (c & b & Hin & Hst & Hbase & Hn).
  destruct (tiled_range _ _ Ht Hin) as (_ & _ & _ & Hend). specialize (Hend eq_refl). unfold b_end in Hend. cbn in Hend.
  unfold paged in Hpg. rewrite Forall_forall in Hpg, Hlow. specialize (Hpg _ Hin). specialize (Hlow _ Hin). cbn in Hpg, Hlow.
  subst p. split; [done|]. split; [done|]. split; [lia|].
  intros q k Hq Hne. destruct (Hown q k Hq) as (c' & b' & Hin' & _ & Hbase' & Hk).
  destruct (tiled_disjoint _ _ _ Ht Hin Hin') as [[= -> ->]|Hd]; [congruence|]. unfold b_end in Hd. cbn in Hd. lia.
Qed.

(** A reservation that fits a free block exactly leaves an empty free
    block with the address of the next one; [kvm_free_block] of that next
    block then returns without releasing it. *)
Lemma kvm_exact_fit_leaks s l1 c b d u l2 size : lrep s (l1 ++ (c, b) :: (d, u) :: l2) ->
  tiled (l1 ++ (c, b) :: (d, u) :: l2) -> 0 < size <= 4294963200 -> a_room (heap s) sizeof_vm_block ->
  find_block (kvm_reservable (alignup size 4096)) (l1 ++ (c, b) :: (d, u) :: l2) = Some (l1, (c, b), (d, u) :: l2) ->
  v_size b = alignup size 4096 -> vaddr u = vaddr b + v_size b -> status u <> 0 ->
  exists s' s'' l'', kvm_reserve_block size s = Ok (vaddr b) s' /\ kvm_free_block (vaddr u) s' = Ok tt s'' /\
    lrep s'' l'' /\ ((d, u) ∈ l'').
Proof.
  intros Hr Ht Hs Hroom Hfind Hb Hu Hst.
  pose proof (alignup_spec size 4096 ltac:(lia) ltac:(lia) ltac:(lia)) as [Hal _].
  destruct (kvm_reserve_block_ok _ _ size _ _ _ _ Hr Ht ltac:(lia) Hroom Hfind)
    as (p & s' & n & Hrun & -> & _ & _ & _ & Hr' & Ht').
  destruct (kvm_free_block_ok s' _ (vaddr u) (l1 ++ [(c, mk_vm_block (vaddr b) (alignup size 4096) 1)]) p
    (mk_vm_block (vaddr b + alignup size 4096) (v_size b - alignup size 4096) 0) ((d, u) :: l2) Hr' Ht')
    as (s'' & l'' & Hrun2 & Hr'' & _ & _ & Hused & _).
  - rewrite (cons_middle (c, _)), app_assoc. apply find_block_app; [|cbn; apply Z.eqb_eq; lia].
    apply Forall_app. split; [|repeat constructor; cbn; apply Z.eqb_neq; lia].
    apply Forall_forall. intros e He. apply Z.eqb_neq.
    apply list_elem_of_split in He as (x & y & ->). rewrite <- app_assoc in Ht.
    pose proof (tiled_ordered x e _ (c, b) Ht ltac:(set_solver)) as Hord.
    destruct (tiled_range _ e Ht ltac:(set_solver)) as (_ & Hse & _). unfold b_end, is_u32 in *. cbn in *. lia.
  - exists s', s'', l''. split; [done|]. split; [done|]. split; [done|].
    assert ((d, u) ∈ used_blocks l'') as [? _]%elem_of_used_blocks; [|done].
    rewrite Hused, elem_of_used_blocks. split; [rewrite elem_of_app; right; by left|by apply Z.eqb_neq].
Qed.
End KvmHeap.

Definition kvm_empty : lstate vm_block bump := mk_lstate 0 ∅ (mk_bump 16 ∅).
Definition kvm_run {A} (c : M (lstate vm_block bump) A) (s : lstate vm_block bump) : lstate vm_block bump :=
  match c s with Ok _ s' => s' | _ => s end.

Definition kvm_grants : gmap Z Z := <[3766489088 := 5000]> (<[3766484992 := 100]> ∅).
Lemma kvm_never_overlaps_witness : kvm_grants !! 3766489088 = Some 5000 /\ forall p n, kvm_grants !! p = Some n ->
    FREE_KVM_START <= p /\ p mod 4096 = 0 /\ p + n < 4294967296 /\
    (forall q k, kvm_grants !! q = Some k -> p <> q -> p + n <= q \/ q + k <= p).
Proof.
  split; [reflexivity|]. set (s1 := kvm_run kvmheap_install kvm_empty).
  set (s2 := kvm_run (kvm_reserve_block 5000) (kvm_run (kvm_reserve_block 100) s1)). apply (kvm_never_overlaps kvm_empty s1 s2).
  - split; [done|]. intros q Hq. exfalso. by apply (not_elem_of_empty (C := gset Z) q).
  - exact I.
  - reflexivity.
  - eapply rtc_l; [apply (kvm_step_reserve s1 ∅ 100 3766484992 (kvm_run (kvm_reserve_block 100) s1)); [lia|exact I|vm_compute; reflexivity]|].
    eapply rtc_l; [apply (kvm_step_reserve _ _ 5000 3766489088 s2); [lia|exact I|vm_compute; reflexivity]|]. apply rtc_refl.
Defined.

(** One page free between two pages in use. *)
Definition kvm_demo_blocks : list (Z * vm_block) :=
  [(16, mk_vm_block 3766484992 4096 1); (40, mk_vm_block 3766489088 4096 0); (64, mk_vm_block 3766493184 4096 1)].
Definition kvm_demo : lstate vm_block bump :=
  mk_lstate 16 (<[16 := mk_node (mk_vm_block 3766484992 4096 1) 40 0]> (<[40 := mk_node (mk_vm_block 3766489088 4096 0) 64 16]>
    {[ 64 := mk_node (mk_vm_block 3766493184 4096 1) 0 40 ]})) (mk_bump 88 {[ 16; 40; 64 ]}).

Lemma kvm_exact_fit_leaks_witness : exists s' s'' l'', kvm_reserve_block 4096 kvm_demo = Ok 3766489088 s' /\
  kvm_free_block 3766493184 s' = Ok tt s'' /\ lrep s'' l'' /\ ((64, mk_vm_block 3766493184 4096 1) ∈ l'').
Proof.
  apply (kvm_exact_fit_leaks kvm_demo [(16, mk_vm_block 3766484992 4096 1)] 40 (mk_vm_block 3766489088 4096 0)
    64 (mk_vm_block 3766493184 4096 1) [] 4096).
  - unfold lrep, kvm_demo. cbn [first nodes heap app]. split; [done|]. split.
    + cbn [dll]. repeat (split; [eexists; split; [reflexivity|done]|]). done.
    + cbn. split; [repeat (apply NoDup_cons; split; [set_solver|]); apply NoDup_nil_2|].
      split; [repeat constructor; done|]. split; [split; [lia|set_solver by lia]|]. repeat constructor; set_solver.
  - cbn. unfold range_ok, adj, b_end, is_u32. cbn. repeat split; try lia; auto.
  - lia.
  - exact I.
  - vm_compute; reflexivity.
  - vm_compute; reflexivity.
  - reflexivity.
  - done.
Defined.
