(* ===== verification/Paging.v ===== *)
(** Page tables (memory/kpageheap.c and memory/paging.c).

    Page directories and page tables are 32-bit arrays in byte memory.  The
    first megabytes of physical memory are mapped at [KERNEL_VIRTUAL_BASE], so
    the page table at physical address [p] is read and written at
    [p + KERNEL_VIRTUAL_BASE].  [kernel_page_directory] and
    [kpheap_page_table] are the link addresses of the two static arrays. *)

From S2P Require Import Prelude Mem KHeap Alloc Dll Blocks PhysMem.

Definition KPHEAP_BLOCK_SIZE : Z := 4096.
Definition KPHEAP_BLOCK_FREE : Z := 0.
Definition KPHEAP_BLOCK_USED : Z := 1.
Definition KPHEAP_VIRT_BASE : Z := 3225419776.
Definition PD_BIT_4KB_PAGE : Z := 128.
Definition PD_ADDRESS_MASK : Z := 4294963200.

Record pgstate (H : Type) : Type := mk_pg {
  pmem : mem;
  kpheap_blocks : list Z;
  cpu_pse : bool;
  current_page_directory : Z;
  phys : lstate p_block H }.
Arguments mk_pg {H} _ _ _ _ _.
Arguments pmem {H} _.
Arguments kpheap_blocks {H} _.
Arguments cpu_pse {H} _.
Arguments current_page_directory {H} _.
Arguments phys {H} _.

Section Paging.
Context {H : Type} `{Allocator H}.
Let K (T : Type) : Type := M (pgstate H) T.
Context (kernel_page_directory kpheap_page_table : Z).

Definition rd32 (a : Z) : K Z := gets (fun s => load32 (pmem s) a).
Definition upd_pmem (f : mem -> mem) : K unit :=
  modify (fun s => mk_pg (f (pmem s)) (kpheap_blocks s) (cpu_pse s) (current_page_directory s) (phys s)).
Definition wr32 (a v : Z) : K unit := upd_pmem (fun m => store32 m a v).
Definition set_block (i v : Z) : K unit := fun s =>
  if (0 <=? i) && (i <? 1024)
  then Ok tt (mk_pg (pmem s) (<[Z.to_nat i := v]> (kpheap_blocks s)) (cpu_pse s) (current_page_directory s) (phys s))
  else Fault.
Definition lift_phys {T} (c : M (lstate p_block H) T) : K T := fun s =>
  match c (phys s) with
  | Ok a p => Ok a (mk_pg (pmem s) (kpheap_blocks s) (cpu_pse s) (current_page_directory s) p)
  | Fatal e => Fatal e
  | Fault => Fault
  | NoFuel => NoFuel
  end.

(** ** The page heap *)

(** [t[i] = (i*0x1000 + base) | 3] for the next [n] values of [i]. *)
Fixpoint fill_table (n : nat) (t i base : Z) (m : mem) : mem :=
  match n with
  | O => m
  | S n' => fill_table n' t (i + 1) base (store32 m (t + 4 * i) (Z.lor (u32 (i * 4096 + base)) 3))
  end.

Definition install_page_heap : K unit :=
  KPHEAP_PHYS_BASE <- lift_phys (reserve_specific 4194304 4194304 10) ;;
  let pd_index := Z.shiftr KPHEAP_VIRT_BASE 22 in
  upd_pmem (fill_table 1024 kpheap_page_table 0 KPHEAP_PHYS_BASE) ;;;
  wr32 (kernel_page_directory + 4 * pd_index) (Z.lor (u32 (kpheap_page_table - KERNEL_VIRTUAL_BASE)) 3).

(** The first index from [i] on whose block is free. *)
Fixpoint first_free_block (bs : list Z) (i : Z) : option Z :=
  match bs with
  | [] => None
  | b :: r => if b =? KPHEAP_BLOCK_FREE then Some i else first_free_block r (i + 1)
  end.

Definition pt_alloc : K Z :=
  s <- get ;;
  match first_free_block (kpheap_blocks s) 0 with
  | Some i =>
      set_block i KPHEAP_BLOCK_USED ;;;
      upd_pmem (fun m => memset m (KPHEAP_VIRT_BASE + KPHEAP_BLOCK_SIZE * i) 0 KPHEAP_BLOCK_SIZE) ;;;
      ret (KPHEAP_VIRT_BASE + KPHEAP_BLOCK_SIZE * i)
  | None => fatal_kernel_error "Page heap is full. How did you do this ?"
  end.

Definition pt_free (pt : Z) : K unit :=
  let index := u32 (pt - KPHEAP_VIRT_BASE) / KPHEAP_BLOCK_SIZE in
  set_block index KPHEAP_BLOCK_FREE.

(** ** Page directories *)

(** [mov cr3]: the address space in use. *)
Definition pd_switch (pd : Z) : K unit :=
  modify (fun s => mk_pg (pmem s) (kpheap_blocks s) (cpu_pse s) pd (phys s)).

Fixpoint copy_entries (n : nat) (dst src i : Z) (m : mem) : mem :=
  match n with
  | O => m
  | S n' => copy_entries n' dst src (i + 1) (store32 m (dst + 4 * i) (load32 m (src + 4 * i)))
  end.
Definition get_kernel_pd_clone : K Z :=
  tr <- pt_alloc ;;
  let i := Z.shiftr KERNEL_VIRTUAL_BASE 22 in
  upd_pmem (copy_entries (Z.to_nat (1024 - i)) tr kernel_page_directory i) ;;;
  ret tr.

(** [page << 24 >> 31 == 1]: the entry is a 4 MiB page. *)
Definition is_4mib (e : Z) : bool := Z.shiftr (u32 (Z.shiftl e 24)) 31 =? 1.
(** [page >> 12 << 12] *)
Definition frame (e : Z) : Z := u32 (Z.shiftl (Z.shiftr e 12) 12).
Definition pd_index_of (virt_addr : Z) : Z := Z.shiftr virt_addr 22.
Definition pt_index_of (virt_addr : Z) : Z := Z.land (Z.shiftr virt_addr 12) 1023.

Definition map_page (phys_addr virt_addr page_directory : Z) : K unit :=
  if negb (phys_addr mod 4096 =? 0) then fatal_kernel_error "Trying to map a non-aligned physical address" else
  if negb (virt_addr mod 4096 =? 0) then fatal_kernel_error "Trying to map physical to non-aligned virtual address" else
  let kernel := page_directory =? kernel_page_directory in
  let pd_index := pd_index_of virt_addr in
  let pt_index := pt_index_of virt_addr in
  page_table <- rd32 (page_directory + 4 * pd_index) ;;
  page_table <-
    (if page_table =? 0 then
       pt <- pt_alloc ;;
       let page_table := u32 (pt - KERNEL_VIRTUAL_BASE) in
       upd_pmem (fun m => memset m (u32 (page_table + KERNEL_VIRTUAL_BASE)) 0 4096) ;;;
       wr32 (page_directory + 4 * pd_index) (Z.lor page_table (if kernel then 259 else 7)) ;;;
       ret page_table
     else if is_4mib page_table then
       fatal_kernel_error "Trying to map physical to an already mapped page table"
     else ret (frame page_table)) ;;
  let page := u32 (page_table + pt_index * 4 + KERNEL_VIRTUAL_BASE) in
  e <- rd32 page ;;
  if negb (e =? 0) then fatal_kernel_error "Trying to map physical to an already mapped virtual address" else
  wr32 page (Z.lor phys_addr (if kernel then 259 else 7)).

(** [page_table[i] = phys_addr | f; phys_addr += 0x1000] *)
Fixpoint fill_big (n : nat) (page_table i phys_addr f : Z) (m : mem) : mem :=
  match n with
  | O => m
  | S n' => fill_big n' page_table (i + 1) (u32 (phys_addr + 4096)) f (store32 m (page_table + 4 * i) (Z.lor phys_addr f))
  end.

Definition map_page_table (phys_addr virt_addr page_directory : Z) : K unit :=
  if negb (phys_addr mod 4194304 =? 0) then fatal_kernel_error "Trying to map a non-aligned physical address" else
  if negb (virt_addr mod 4194304 =? 0) then fatal_kernel_error "Trying to map physical to non-aligned virtual address" else
  let kernel := page_directory =? kernel_page_directory in
  let pd_index := pd_index_of virt_addr in
  page_table <- rd32 (page_directory + 4 * pd_index) ;;
  if negb (page_table =? 0) then fatal_kernel_error "Trying to map a page table to an already mapped page table" else
  pse <- gets cpu_pse ;;
  if pse : bool then
    wr32 (page_directory + 4 * pd_index) (Z.lor phys_addr (if kernel then 387 else 135))
  else
    pt <- pt_alloc ;;
    let page_table := u32 (pt - KERNEL_VIRTUAL_BASE) in
    wr32 (page_directory + 4 * pd_index) (Z.lor page_table (if kernel then 259 else 7)) ;;;
    upd_pmem (fill_big 1024 page_table 0 phys_addr (if kernel then 3 else 7)).

Definition unmap_page (virt_addr page_directory : Z) : K unit :=
  if negb (virt_addr mod 4096 =? 0) then fatal_kernel_error "Trying to unmap a non-aligned virtual address" else
  page_table <- rd32 (page_directory + 4 * pd_index_of virt_addr) ;;
  if page_table =? 0 then ret tt else
  if is_4mib page_table then fatal_kernel_error "Trying to unmap page, but page table is mapped" else
  let page := u32 (frame page_table + pt_index_of virt_addr * 4 + KERNEL_VIRTUAL_BASE) in
  e <- rd32 page ;;
  if e =? 0 then fatal_kernel_error "Trying to unmap a non-mapped virtual address" else
  wr32 page 0.

(** [page_table + KERNEL_VIRTUAL_BASE] is arithmetic on a [u32*]: the offset
    is scaled by 4. *)
Definition unmap_page_table (virt_addr page_directory : Z) : K unit :=
  if negb (virt_addr mod 4194304 =? 0) then fatal_kernel_error "Trying to unmap a non-aligned virtual address" else
  let pd_index := pd_index_of virt_addr in
  page_table <- rd32 (page_directory + 4 * pd_index) ;;
  if page_table =? 0 then fatal_kernel_error "Trying to unmap an unmapped page table" else
  pse <- gets cpu_pse ;;
  if pse : bool then wr32 (page_directory + 4 * pd_index) 0
  else pt_free (u32 (page_table + 4 * KERNEL_VIRTUAL_BASE)) ;;; wr32 (page_directory + 4 * pd_index) 0.

Definition get_physical (virt_addr page_directory : Z) : K Z :=
  page_table <- rd32 (page_directory + 4 * pd_index_of virt_addr) ;;
  if page_table =? 0 then ret 0 else
  if is_4mib page_table then
    e <- rd32 page_table ;; ret (u32 (frame e + virt_addr mod 4194304))
  else
    page <- rd32 (u32 (frame page_table + pt_index_of virt_addr * 4 + KERNEL_VIRTUAL_BASE)) ;;
    if negb (page =? 0) then ret (u32 (frame page + virt_addr mod 4096)) else ret 0.

Definition is_mapped (virt_addr page_directory : Z) : K bool :=
  page_table <- rd32 (page_directory + 4 * pd_index_of virt_addr) ;;
  if page_table =? 0 then ret false else
  if negb (Z.land page_table PD_BIT_4KB_PAGE =? 0) then ret true else
  page <- rd32 (u32 (Z.land page_table PD_ADDRESS_MASK + pt_index_of virt_addr * 4 + KERNEL_VIRTUAL_BASE)) ;;
  ret (negb (page =? 0)).

(** ** Ranges

    The five range operations share their two loops: 4 MiB steps while more
    than 4 MiB is left and the range starts on a 4 MiB boundary, then pages.
    A range has fewer than 2^10 big steps and 2^20 pages. *)

Fixpoint big_loop (big : Z -> K unit) (fuel : nat) (size add : Z) : K (Z * Z) :=
  match fuel with
  | O => nofuel
  | S n => if 4194304 <? size then big add ;;; big_loop big n (u32 (size - 4194304)) (u32 (add + 4194304))
           else ret (size, add)
  end.
Fixpoint page_loop (small : Z -> K unit) (fuel : nat) (size add : Z) : K unit :=
  match fuel with
  | O => nofuel
  | S n => if negb (size =? 0) then small add ;;; page_loop small n (u32 (size - 4096)) (u32 (add + 4096)) else ret tt
  end.
Definition for_range (size virt_addr : Z) (big small : Z -> K unit) : K unit :=
  sa <- (if (virt_addr mod 4194304 =? 0) && (4194304 <? size)
         then big_loop big (S (Z.to_nat (size / 4194304))) size 0 else ret (size, 0)) ;;
  page_loop small (S (Z.to_nat (sa.1 / 4096))) sa.1 sa.2.

(** [aligndown(virt_addr, 4096); size += bvaddr - virt_addr; alignup(size, 4096)] *)
Definition range_start (virt_addr : Z) : Z := aligndown virt_addr 4096.
Definition range_size (size virt_addr : Z) : Z := alignup (u32 (size + u32 (virt_addr - range_start virt_addr))) 4096.

Definition map_flexible (size physical virt_addr page_directory : Z) : K unit :=
  let v := range_start virt_addr in
  for_range (range_size size virt_addr) v
    (fun add => map_page_table (u32 (physical + add)) (u32 (v + add)) page_directory)
    (fun add => map_page (u32 (physical + add)) (u32 (v + add)) page_directory).

Definition unmap_flexible (size virt_addr page_directory : Z) : K unit :=
  let v := range_start virt_addr in
  for_range (range_size size virt_addr) v
    (fun add => unmap_page_table (u32 (v + add)) page_directory)
    (fun add => unmap_page (u32 (v + add)) page_directory).

Definition block_type (page_directory : Z) : Z :=
  if page_directory =? kernel_page_directory then PHYS_KERNELF_BLOCK_TYPE else PHYS_USER_BLOCK_TYPE.

Definition map_memory (size virt_addr page_directory : Z) : K unit :=
  let v := range_start virt_addr in
  let size := range_size size virt_addr in
  phys_addr <- lift_phys (reserve_block size (block_type page_directory)) ;;
  for_range size v
    (fun add => map_page_table (u32 (phys_addr + add)) (u32 (v + add)) page_directory)
    (fun add => map_page (u32 (phys_addr + add)) (u32 (v + add)) page_directory).

Definition map_memory_if_not_mapped (size virt_addr page_directory : Z) : K unit :=
  let v := range_start virt_addr in
  let size := range_size size virt_addr in
  phys_addr <- lift_phys (reserve_block size (block_type page_directory)) ;;
  for_range size v
    (fun add => b <- is_mapped (u32 (v + add)) page_directory ;;
                if negb b then map_page_table (u32 (phys_addr + add)) (u32 (v + add)) page_directory else ret tt)
    (fun add => b <- is_mapped (u32 (v + add)) page_directory ;;
                if negb b then map_page (u32 (phys_addr + add)) (u32 (v + add)) page_directory else ret tt).

Definition unmap_memory_if_mapped (size virt_addr page_directory : Z) : K unit :=
  let v := range_start virt_addr in
  for_range (range_size size virt_addr) v
    (fun add => b <- is_mapped (u32 (v + add)) page_directory ;;
                if b : bool then unmap_page_table (u32 (v + add)) page_directory else ret tt)
    (fun add => b <- is_mapped (u32 (v + add)) page_directory ;;
                if b : bool then unmap_page (u32 (v + add)) page_directory else ret tt).

(** ** Entries as arithmetic *)

Lemma frame_eq e : is_u32 e -> frame e = e - e mod 4096.
Proof.
  unfold is_u32, frame. intros He. rewrite Z.shiftr_div_pow2, Z.shiftl_mul_pow2 by lia.
  change (2 ^ 12) with 4096. rewrite u32_id by dlia. dlia.
Qed.
Lemma is_4mib_eq e : is_u32 e -> is_4mib e = ((e / 128) mod 2 =? 1).
Proof.
  unfold is_u32, is_4mib, u32. intros He. rewrite Z.shiftr_div_pow2, Z.shiftl_mul_pow2 by lia.
  change (2 ^ 24) with 16777216. change (2 ^ 31) with 2147483648. f_equal. dlia.
Qed.
Lemma land_4mib e : is_u32 e -> (Z.land e PD_BIT_4KB_PAGE =? 0) = negb (is_4mib e).
Proof.
  intros He. rewrite is_4mib_eq by done. unfold PD_BIT_4KB_PAGE. change 128 with (2 ^ 7).
  pose proof (Z.land_ones (Z.shiftr e 7) 1 ltac:(lia)) as Hl. rewrite Z.shiftr_div_pow2 in Hl by lia.
  change (Z.ones 1) with 1 in Hl. change (2 ^ 1) with 2 in Hl. rewrite <- Hl. clear Hl.
  assert (Z.land e (2 ^ 7) = Z.shiftl (Z.land (e / 2 ^ 7) 1) 7) as ->.
  { rewrite <- Z.shiftr_div_pow2 by lia. apply Z.bits_inj'. intros n Hn.
    rewrite Z.land_spec, Z.pow2_bits_eqb by lia. destruct (decide (n = 7)) as [-> |Hne].
    - rewrite Z.shiftl_spec, Z.land_spec, Z.shiftr_spec by lia. done.
    - dec_false (7 =? n). rewrite andb_false_r. symmetry. rewrite Z.shiftl_spec by lia.
      destruct (decide (n < 7)); [apply Z.testbit_neg_r; lia|].
      rewrite Z.land_spec. change 1 with (2 ^ 0). rewrite Z.pow2_bits_eqb by lia. dec_false (0 =? n - 7). apply andb_false_r. }
  pose proof (Z.land_ones (e / 2 ^ 7) 1 ltac:(lia)) as Hl. change (Z.ones 1) with 1 in Hl. rewrite Hl.
  rewrite Z.shiftl_mul_pow2 by lia. pose proof (Z.mod_pos_bound (e / 2 ^ 7) (2 ^ 1) ltac:(lia)).
  destruct (Z.eqb_spec ((e / 2 ^ 7) mod 2 ^ 1) 1) as [-> |]; [done|].
  replace ((e / 2 ^ 7) mod 2 ^ 1) with 0 by lia. done.
Qed.
Lemma land_mask e : is_u32 e -> Z.land e PD_ADDRESS_MASK = frame e.
Proof.
  intros He. assert (Z.shiftl (Z.shiftr e 12) 12 = e - e mod 4096) as Hf.
  { rewrite Z.shiftr_div_pow2, Z.shiftl_mul_pow2 by lia. change (2 ^ 12) with 4096. dlia. }
  rewrite frame_eq by done. rewrite <- Hf. change PD_ADDRESS_MASK with (Z.shiftl (Z.ones 20) 12).
  apply Z.bits_inj'. intros n Hn. rewrite Z.land_spec, !Z.shiftl_spec by lia.
  destruct (decide (n < 12)). { rewrite !(Z.testbit_neg_r _ (n - 12)) by lia. apply andb_false_r. }
  rewrite Z.shiftr_spec by lia. replace (n - 12 + 12) with n by lia.
  destruct (decide (n < 32)).
  - rewrite Z.ones_spec_low by lia. apply andb_true_r.
  - rewrite Z.ones_spec_high by lia. rewrite andb_false_r. symmetry. apply (bits_high e 32); unfold is_u32 in *; lia.
Qed.
Lemma lor_flags x f : x mod 4096 = 0 -> 0 <= f < 4096 -> Z.lor x f = x + f.
Proof. intros. by apply (lor_low x f 12). Qed.
Lemma pd_index_eq v : pd_index_of v = v / 4194304.
Proof. unfold pd_index_of. by rewrite Z.shiftr_div_pow2 by lia. Qed.
Lemma pt_index_eq v : pt_index_of v = (v / 4096) mod 1024.
Proof.
  unfold pt_index_of. change 1023 with (Z.ones 10). rewrite Z.land_ones, Z.shiftr_div_pow2 by lia. done.
Qed.

(** ** Page directories as maps from pages to entries *)

Definition table_of (e : Z) : Z := frame e + KERNEL_VIRTUAL_BASE.
Definition pde (m : mem) (pd i : Z) : Z := load32 m (pd + 4 * i).
Definition is_table (e : Z) : Prop := e <> 0 /\ is_4mib e = false.
Definition heap_page (k : Z) : Z := KPHEAP_VIRT_BASE + 4096 * k.

(** The entry that governs an address: 0 when it is not mapped. *)
Definition entry (m : mem) (pd v : Z) : Z :=
  let e := pde m pd (v / 4194304) in
  if e =? 0 then 0 else if is_4mib e then e else load32 m (table_of e + 4 * ((v / 4096) mod 1024)).

(** A page of the page heap is in use. *)
Definition in_use (blocks : list Z) (p : Z) : Prop :=
  forall k, 0 <= k < 1024 -> p = heap_page k -> blocks !! Z.to_nat k <> Some KPHEAP_BLOCK_FREE.

(** The directory and its tables are different pages: pages of the page heap in
    use, or pages of the kernel elsewhere. *)
Record tables_ok (m : mem) (blocks : list Z) (pd : Z) : Prop := {
  ok_pd : 0 <= pd /\ pd + 4096 <= 4294967296 /\ pd mod 4096 = 0;
  ok_len : length blocks = 1024%nat;
  ok_pd_used : in_use blocks pd;
  ok_table : forall i, 0 <= i < 1024 -> is_table (pde m pd i) ->
    table_of (pde m pd i) + 4096 <= 4294967296 /\ in_use blocks (table_of (pde m pd i)) /\ table_of (pde m pd i) <> pd;
  ok_inj : forall i j, 0 <= i < 1024 -> 0 <= j < 1024 -> i <> j ->
    is_table (pde m pd i) -> is_table (pde m pd j) -> table_of (pde m pd i) <> table_of (pde m pd j) }.

Lemma tables_ok_ext m m' blocks pd : (forall i, 0 <= i < 1024 -> pde m' pd i = pde m pd i) ->
  tables_ok m blocks pd -> tables_ok m' blocks pd.
Proof.
  intros He [P1 P2 P3 P4 P5]. split; try done.
  - intros i Hi. rewrite He by done. by apply P4.
  - intros i j Hi Hj. rewrite !He by done. by apply P5.
Qed.

(** Words of different pages do not meet. *)
Lemma pages_apart p q i j : p mod 4096 = 0 -> q mod 4096 = 0 -> p <> q -> 0 <= i < 1024 -> 0 <= j < 1024 ->
  p + 4 * i + 4 <= q + 4 * j \/ q + 4 * j + 4 <= p + 4 * i.
Proof.
  intros Hp Hq Hne Hi Hj. apply Z.mod_divide in Hp as [a ->]; [|lia]. apply Z.mod_divide in Hq as [b ->]; [|lia].
  assert (a <= b - 1 \/ b <= a - 1) by (destruct (Z.lt_trichotomy a b) as [?|[->|?]]; lia). lia.
Qed.
Lemma table_aligned m pd i : table_of (pde m pd i) mod 4096 = 0 /\ KERNEL_VIRTUAL_BASE <= table_of (pde m pd i).
Proof.
  unfold table_of, pde. pose proof (load32_range m (pd + 4 * i)) as He. rewrite frame_eq by done. unfold is_u32, KERNEL_VIRTUAL_BASE in *. dlia.
Qed.
Lemma heap_page_aligned k : heap_page k mod 4096 = 0.
Proof. unfold heap_page, KPHEAP_VIRT_BASE. dlia. Qed.

Lemma same_page v v' : v' / 4096 = v / 4096 <-> v' / 4194304 = v / 4194304 /\ (v' / 4096) mod 1024 = (v / 4096) mod 1024.
Proof.
  change 4194304 with (4096 * 1024). rewrite <- !Z.div_div by lia.
  pose proof (Z.div_mod (v / 4096) 1024 ltac:(lia)). pose proof (Z.div_mod (v' / 4096) 1024 ltac:(lia)).
  split; [intros ->; auto|]. intros [Ha Hb]. lia.
Qed.
Lemma v_index v : is_u32 v -> 0 <= v / 4194304 < 1024 /\ 0 <= (v / 4096) mod 1024 < 1024.
Proof. unfold is_u32. intros. split; [dlia|apply Z.mod_pos_bound; lia]. Qed.

(** Writing the entry of one page changes the map at that page only. *)
Lemma write_pte m blocks pd v x : tables_ok m blocks pd -> is_u32 v -> is_table (pde m pd (v / 4194304)) ->
  let m' := store32 m (table_of (pde m pd (v / 4194304)) + 4 * ((v / 4096) mod 1024)) x in
  tables_ok m' blocks pd /\
  forall v', is_u32 v' -> entry m' pd v' = if v' / 4096 =? v / 4096 then u32 x else entry m pd v'.
Proof.
  intros Hok Hv Ht m'. destruct (v_index v Hv) as [Hi Hj]. pose proof (ok_pd _ _ _ Hok) as (_ & _ & Hal).
  destruct (ok_table _ _ _ Hok _ Hi Ht) as (_ & _ & Hne).
  assert (forall i, 0 <= i < 1024 -> pde m' pd i = pde m pd i) as Hpde.
  { intros i Hi'. unfold m', pde at 1. apply load32_store32_far.
    apply pages_apart; [done|apply table_aligned|congruence|done|done]. }
  split; [by eapply tables_ok_ext|]. intros v' Hv'. destruct (v_index v' Hv') as [Hi' Hj'].
  unfold entry. rewrite Hpde by done. set (e' := pde m pd (v' / 4194304)) in *.
  destruct (Z.eqb_spec (v' / 4096) (v / 4096)) as [Heq|Hneq].
  - apply same_page in Heq as [Heq1 Heq2]. unfold e'. rewrite Heq1, Heq2. destruct Ht as [Ht1 Ht2].
    apply Z.eqb_neq in Ht1. rewrite Ht1, Ht2. unfold m'. apply load32_store32.
  - destruct (e' =? 0) eqn:E0; [done|]. destruct (is_4mib e') eqn:E4; [done|]. zify_bool.
    assert (is_table e') as Ht' by done. unfold m'. apply load32_store32_far.
    destruct (decide (v' / 4194304 = v / 4194304)) as [Hs|Hs].
    + unfold e'. rewrite Hs.
      assert ((v' / 4096) mod 1024 <> (v / 4096) mod 1024) by (intros ?; apply Hneq; by apply same_page). lia.
    + apply pages_apart; [apply table_aligned..| |done|done]. exact (ok_inj _ _ _ Hok _ _ Hi' Hi Hs Ht' Ht).
Qed.

Lemma first_free_block_spec bs i0 : match first_free_block bs i0 with
  | Some i => i0 <= i < i0 + Z.of_nat (length bs) /\ bs !! Z.to_nat (i - i0) = Some KPHEAP_BLOCK_FREE
  | None => KPHEAP_BLOCK_FREE ∉ bs
  end.
Proof.
  revert i0. induction bs as [|b r IH]; intros i0; cbn [first_free_block length]; [apply not_elem_of_nil|].
  destruct (Z.eqb_spec b KPHEAP_BLOCK_FREE) as [-> |Hb].
  - rewrite Z.sub_diag. split; [lia|done].
  - specialize (IH (i0 + 1)). destruct (first_free_block r (i0 + 1)) as [i|].
    + destruct IH as [? Hl]. split; [lia|]. by replace (Z.to_nat (i - i0)) with (S (Z.to_nat (i - (i0 + 1)))) by lia.
    + rewrite not_elem_of_cons. split; [congruence|done].
Qed.

(** A new table: the page [k] of the page heap, cleared and entered at [i]. *)
Lemma new_table m blocks pd i k f : tables_ok m blocks pd -> 0 <= i < 1024 -> pde m pd i = 0 ->
  0 <= k < 1024 -> blocks !! Z.to_nat k = Some KPHEAP_BLOCK_FREE -> f = 259 \/ f = 7 ->
  let e := heap_page k - KERNEL_VIRTUAL_BASE + f in
  let m' := store32 (memset (memset m (heap_page k) 0 4096) (heap_page k) 0 4096) (pd + 4 * i) e in
  tables_ok m' (<[Z.to_nat k := KPHEAP_BLOCK_USED]> blocks) pd /\ pde m' pd i = e /\ is_table e /\
  table_of e = heap_page k /\ forall v, is_u32 v -> entry m' pd v = entry m pd v.
Proof.
  intros Hok Hi Hpi Hk Hfree Hf e m'. pose proof (ok_pd _ _ _ Hok) as (Hp1 & Hp2 & Hal).
  assert (pd <> heap_page k) as Hne by (intros Heq; apply (ok_pd_used _ _ _ Hok k Hk Heq); done).
  assert (is_u32 e) as He by (unfold e, heap_page, is_u32, KPHEAP_VIRT_BASE, KERNEL_VIRTUAL_BASE; lia).
  assert (table_of e = heap_page k) as Htab.
  { unfold table_of. rewrite frame_eq by done. unfold e, heap_page, KPHEAP_VIRT_BASE, KERNEL_VIRTUAL_BASE. dlia. }
  assert (is_table e) as Hist.
  { split; [unfold e, heap_page, KPHEAP_VIRT_BASE, KERNEL_VIRTUAL_BASE; lia|]. rewrite is_4mib_eq by done.
    apply Z.eqb_neq. unfold e, heap_page, KPHEAP_VIRT_BASE, KERNEL_VIRTUAL_BASE. destruct Hf as [-> | ->]; dlia. }
  assert (pde m' pd i = e) as Hei by (unfold pde, m'; rewrite load32_store32; by apply u32_id).
  assert (forall a, a mod 4096 = 0 -> a <> heap_page k -> forall j, 0 <= j < 1024 -> (a = pd -> j <> i) ->
    load32 m' (a + 4 * j) = load32 m (a + 4 * j)) as Hsame.
  { intros a Ha Hak j Hj Hpd. unfold m'. rewrite load32_store32_far.
    - apply load32_ext. intros x Hx. assert (~ (heap_page k <= x < heap_page k + 4096)) as Hout.
      { pose proof (heap_page_aligned k). pose proof (pages_apart a (heap_page k) j 0 Ha ltac:(done) Hak Hj ltac:(lia)).
        pose proof (pages_apart a (heap_page k) j 1023 Ha ltac:(done) Hak Hj ltac:(lia)).
        apply Z.mod_divide in Ha as [y ->]; [|lia]. unfold heap_page, KPHEAP_VIRT_BASE in *. lia. }
      rewrite !memset_outside by done. done.
    - destruct (decide (a = pd)) as [-> |]; [specialize (Hpd eq_refl); lia|]. by apply pages_apart. }
  assert (forall j, 0 <= j < 1024 -> j <> i -> pde m' pd j = pde m pd j) as Hpde.
  { intros j Hj Hji. apply Hsame; [done|done|done|by intros _]. }
  assert (forall j, 0 <= j < 1024 -> j <> i -> is_table (pde m pd j) -> table_of (pde m pd j) <> heap_page k) as Hold.
  { intros j Hj _ Hjt Heq. destruct (ok_table _ _ _ Hok _ Hj Hjt) as (_ & Hus & _). by apply (Hus k Hk Heq). }
  split; [|split; [done|split; [done|split; [done|]]]].
  - split; [done| | | |].
    + rewrite length_insert. apply (ok_len _ _ _ Hok).
    + intros k' Hk' Heq. rewrite list_lookup_insert_ne by (intros Hkk; apply Hne; rewrite Heq; f_equal; lia).
      by apply (ok_pd_used _ _ _ Hok).
    + intros j Hj Hjt. destruct (decide (j = i)) as [-> |Hji].
      * rewrite Hei, Htab. split; [unfold heap_page, KPHEAP_VIRT_BASE; lia|]. split; [|done]. intros k' Hk' Heq.
        assert (k' = k) as -> by (unfold heap_page in Heq; lia).
        rewrite list_lookup_insert_eq by (rewrite (ok_len _ _ _ Hok); lia). done.
      * rewrite Hpde in Hjt |- * by done. destruct (ok_table _ _ _ Hok _ Hj Hjt) as (? & Hus & ?).
        split; [done|]. split; [|done]. specialize (Hold j Hj Hji Hjt). intros k' Hk' Heq.
        rewrite list_lookup_insert_ne; [by apply Hus|]. intros Hkk. apply Hold. rewrite Heq. f_equal. lia.
    + intros j j' Hj Hj' Hjj Hjt Hjt'. destruct (decide (j = i)) as [-> |Hji]; [|destruct (decide (j' = i)) as [-> |Hji']].
      * rewrite Hei, Htab. rewrite Hpde in Hjt' |- * by (done || congruence). symmetry. apply Hold; [done|congruence|done].
      * rewrite Hei, Htab. rewrite Hpde in Hjt |- * by done. by apply Hold.
      * rewrite Hpde in Hjt by done. rewrite Hpde in Hjt' by done. rewrite !Hpde by done. by apply (ok_inj _ _ _ Hok).
  - intros v Hv. destruct (v_index v Hv) as [Hiv Hjv]. unfold entry. destruct (decide (v / 4194304 = i)) as [Hvi|Hvi].
    + rewrite Hvi, Hei, Hpi. destruct Hist as [Hn0 H4]. apply Z.eqb_neq in Hn0. rewrite Hn0, H4, Htab. cbn.
      unfold m'. rewrite load32_store32_far by (apply pages_apart; (apply heap_page_aligned || done || congruence)).
      unfold load32, load8. rewrite !memset_inside by lia. done.
    + rewrite Hpde by done. set (ev := pde m pd (v / 4194304)). destruct (ev =? 0) eqn:E0; [done|].
      destruct (is_4mib ev) eqn:E4; [done|]. zify_bool. assert (is_table ev) as Hevt by done.
      destruct (ok_table _ _ _ Hok _ Hiv Hevt) as (_ & _ & Hkpd).
      apply Hsame; [apply table_aligned|by apply Hold|done|intros Heq; by destruct (Hkpd Heq)].
Qed.

(** What the processor makes of an address: the frame of its page, or of its
    4 MiB page, and the offset. *)
Definition translate (m : mem) (pd v : Z) : option Z :=
  let e := pde m pd (v / 4194304) in
  if e =? 0 then None
  else if is_4mib e then Some (e - e mod 4194304 + v mod 4194304)
  else let p := load32 m (table_of e + 4 * ((v / 4096) mod 1024)) in
       if p =? 0 then None else Some (p - p mod 4096 + v mod 4096).

Definition space_ok (s : pgstate H) (pd : Z) : Prop := tables_ok (pmem s) (kpheap_blocks s) pd.
Definition free_count (bs : list Z) : Z := Z.of_nat (length (List.filter (fun b => b =? KPHEAP_BLOCK_FREE) bs)).

(** The memory that mapping in a range of [pd] can change: the directory, its
    tables for the range, and pages of the page heap that are free. *)
Definition in_page (p x : Z) : Prop := p <= x < p + 4096.
Definition reach (s : pgstate H) (pd lo n x : Z) : Prop :=
  in_page pd x \/
  (exists i, 0 <= i < 1024 /\ lo / 4194304 <= i <= (lo + n - 1) / 4194304 /\ is_table (pde (pmem s) pd i) /\
    in_page (table_of (pde (pmem s) pd i)) x) \/
  (exists k, 0 <= k < 1024 /\ kpheap_blocks s !! Z.to_nat k = Some KPHEAP_BLOCK_FREE /\ in_page (heap_page k) x).
(** Nothing else has changed, and new tables were free pages. *)
Record extended (s s' : pgstate H) (pd lo n : Z) : Prop := {
  ex_current : current_page_directory s' = current_page_directory s;
  ex_blocks : forall k, kpheap_blocks s' !! k = Some KPHEAP_BLOCK_FREE -> kpheap_blocks s !! k = Some KPHEAP_BLOCK_FREE;
  ex_tables : forall i, 0 <= i < 1024 -> is_table (pde (pmem s') pd i) -> pde (pmem s') pd i = pde (pmem s) pd i \/
    exists k, 0 <= k < 1024 /\ kpheap_blocks s !! Z.to_nat k = Some KPHEAP_BLOCK_FREE /\ table_of (pde (pmem s') pd i) = heap_page k;
  ex_frame : forall x, ~ reach s pd lo n x -> pmem s' x = pmem s x }.

Lemma extended_refl s pd lo n : extended s s pd lo n.
Proof. split; auto. Qed.
Lemma extended_reach s s' pd lo n lo' n' x : extended s s' pd lo n -> reach s' pd lo' n' x -> reach s pd lo' n' x.
Proof.
  intros [_ Hb Ht _] [Hx|[(i & Hi & Hr & Hit & Hx)|(k & Hk & Hf & Hx)]]; [by left| |right; right; eauto].
  destruct (Ht i Hi Hit) as [He|(k & Hk & Hf & He)].
  - right; left. exists i. rewrite He in Hit, Hx. done.
  - right; right. exists k. rewrite He in Hx. done.
Qed.
Lemma reach_mono s pd lo n lo' n' x : lo' <= lo -> lo + n <= lo' + n' -> reach s pd lo n x -> reach s pd lo' n' x.
Proof.
  intros Hl Hn [Hx|[(i & Hi & Hr & Hit & Hx)|?]]; [by left| |by right; right]. right; left. exists i.
  pose proof (Z.div_le_mono lo' lo 4194304 ltac:(lia) Hl). pose proof (Z.div_le_mono (lo + n - 1) (lo' + n' - 1) 4194304 ltac:(lia) ltac:(lia)).
  split; [done|]. split; [lia|done].
Qed.
Lemma extended_trans s s1 s2 pd lo n lo1 n1 lo2 n2 : lo <= lo1 -> lo1 + n1 <= lo + n -> lo <= lo2 -> lo2 + n2 <= lo + n ->
  extended s s1 pd lo1 n1 -> extended s1 s2 pd lo2 n2 -> extended s s2 pd lo n.
Proof.
  intros H1 H2 H3 H4 Ha Hb. split.
  - rewrite (ex_current _ _ _ _ _ Hb). apply Ha.
  - intros k Hk. by apply (ex_blocks _ _ _ _ _ Ha), (ex_blocks _ _ _ _ _ Hb).
  - intros i Hi Ht. destruct (ex_tables _ _ _ _ _ Hb i Hi Ht) as [He|(k & Hk & Hf & He)].
    + rewrite He in Ht |- *. by apply (ex_tables _ _ _ _ _ Ha).
    + right. exists k. split; [done|]. split; [by apply (ex_blocks _ _ _ _ _ Ha)|done].
  - intros x Hx. rewrite (ex_frame _ _ _ _ _ Hb), (ex_frame _ _ _ _ _ Ha); [done| |].
    + intros Hr. apply Hx. by apply (reach_mono _ _ lo1 n1).
    + intros Hr. apply Hx. apply (reach_mono _ _ lo2 n2); [done|done|]. by apply (extended_reach _ _ _ _ _ _ _ _ Ha).
Qed.

(** [s'] is [s] with the [n] addresses from [lo] mapped to those from [ph]. *)
Record mapped (s s' : pgstate H) (pd lo n ph : Z) : Prop := {
  mp_ok : space_ok s' pd;
  mp_phys : phys s' = phys s;
  mp_pse : cpu_pse s' = cpu_pse s;
  mp_translate : forall v, is_u32 v -> translate (pmem s') pd v =
    if (lo <=? v) && (v <? lo + n) then Some (ph + (v - lo)) else translate (pmem s) pd v;
  mp_pde : forall i, 0 <= i < 1024 -> (i + 1) * 4194304 <= lo \/ lo + n <= i * 4194304 ->
    pde (pmem s') pd i = pde (pmem s) pd i;
  mp_keep : forall i, 0 <= i < 1024 -> pde (pmem s) pd i <> 0 -> pde (pmem s') pd i <> 0;
  mp_extended : extended s s' pd lo n }.

Lemma translate_entry m pd v : translate m pd v = None <-> entry m pd v = 0.
Proof.
  unfold translate, entry. destruct (Z.eqb_spec (pde m pd (v / 4194304)) 0); [done|].
  destruct (is_4mib _); [split; [done|congruence]|]. destruct (Z.eqb_spec (load32 m (table_of (pde m pd (v / 4194304)) + 4 * ((v / 4096) mod 1024))) 0); [done|].
  split; [done|congruence].
Qed.

(** On addresses that share the page, the entry decides the translation. *)
Lemma translate_of_entry m pd v : translate m pd v =
  if entry m pd v =? 0 then None
  else if is_4mib (pde m pd (v / 4194304)) then Some (entry m pd v - entry m pd v mod 4194304 + v mod 4194304)
  else Some (entry m pd v - entry m pd v mod 4096 + v mod 4096).
Proof.
  unfold translate, entry. destruct (Z.eqb_spec (pde m pd (v / 4194304)) 0) as [E|E]; [done|]. apply Z.eqb_neq in E.
  destruct (is_4mib _); [by rewrite E|done].
Qed.

Lemma free_count_insert bs k : bs !! k = Some KPHEAP_BLOCK_FREE ->
  free_count bs = free_count (<[k := KPHEAP_BLOCK_USED]> bs) + 1.
Proof.
  revert k. induction bs as [|b r IH]; intros [|k]; cbn [lookup list_lookup]; try done.
  - intros [= ->]. unfold free_count. cbn. lia.
  - intros Hk. specialize (IH k Hk). change (<[S k := KPHEAP_BLOCK_USED]> (b :: r)) with (b :: <[k := KPHEAP_BLOCK_USED]> r).
    unfold free_count in *. cbn [List.filter]. destruct (b =? KPHEAP_BLOCK_FREE); cbn [length]; lia.
Qed.
Lemma free_count_pos bs : 0 < free_count bs <-> KPHEAP_BLOCK_FREE ∈ bs.
Proof.
  unfold free_count. induction bs as [|b r IH]; cbn.
  - split; [lia|by intros ?%not_elem_of_nil].
  - rewrite elem_of_cons. destruct (Z.eqb_spec b KPHEAP_BLOCK_FREE) as [-> |]; cbn [length]; [split; [auto|lia]|].
    rewrite IH. split; [auto|intros [?|?]; [congruence|done]].
Qed.

Definition dir_flags (pd : Z) : Z := if pd =? kernel_page_directory then 259 else 7.

Lemma pt_alloc_ok s : length (kpheap_blocks s) = 1024%nat -> KPHEAP_BLOCK_FREE ∈ kpheap_blocks s ->
  exists k, 0 <= k < 1024 /\ kpheap_blocks s !! Z.to_nat k = Some KPHEAP_BLOCK_FREE /\
    pt_alloc s = Ok (heap_page k) (mk_pg (memset (pmem s) (heap_page k) 0 4096)
      (<[Z.to_nat k := KPHEAP_BLOCK_USED]> (kpheap_blocks s)) (cpu_pse s) (current_page_directory s) (phys s)).
Proof.
  intros Hlen Hin. unfold pt_alloc. rewrite (bind_ok get _ s s s eq_refl).
  pose proof (first_free_block_spec (kpheap_blocks s) 0) as Hf. destruct (first_free_block _ 0) as [k|]; [|done].
  rewrite Z.sub_0_r in Hf. destruct Hf as [Hk Hl]. rewrite Hlen in Hk. exists k. split; [lia|]. split; [done|].
  unfold set_block. mstep. dec_true (0 <=? k). dec_true (k <? 1024). done.
Qed.

(** The part of [map_page] that finds or makes the page table. *)
Lemma map_page_table_part s pd v : space_ok s pd -> is_u32 v ->
  is_4mib (pde (pmem s) pd (v / 4194304)) = false ->
  pde (pmem s) pd (v / 4194304) <> 0 \/ KPHEAP_BLOCK_FREE ∈ kpheap_blocks s ->
  exists s', space_ok s' pd /\ phys s' = phys s /\ cpu_pse s' = cpu_pse s /\
    is_table (pde (pmem s') pd (v / 4194304)) /\
    (forall v', is_u32 v' -> entry (pmem s') pd v' = entry (pmem s) pd v') /\
    (forall i, 0 <= i < 1024 -> i <> v / 4194304 -> pde (pmem s') pd i = pde (pmem s) pd i) /\
    extended s s' pd v 4096 /\
    free_count (kpheap_blocks s) = free_count (kpheap_blocks s') + (if pde (pmem s) pd (v / 4194304) =? 0 then 1 else 0) /\
    forall ph, ph mod 4096 = 0 -> v mod 4096 = 0 -> map_page ph v pd s =
      (let page := table_of (pde (pmem s') pd (v / 4194304)) + 4 * ((v / 4096) mod 1024) in
       if negb (entry (pmem s') pd v =? 0) then Fatal "Trying to map physical to an already mapped virtual address"
       else wr32 page (Z.lor ph (dir_flags pd)) s').
Proof.
  intros Hok Hv H4 Hroom. destruct (v_index v Hv) as [Hi Hj]. set (e := pde (pmem s) pd (v / 4194304)) in *.
  pose proof (load32_range (pmem s) (pd + 4 * (v / 4194304))) as Hur. fold (pde (pmem s) pd (v / 4194304)) in Hur. fold e in Hur.
  assert (forall s1 t page_table, is_table (pde (pmem s1) pd (v / 4194304)) -> space_ok s1 pd ->
    t = table_of (pde (pmem s1) pd (v / 4194304)) -> page_table = t - KERNEL_VIRTUAL_BASE ->
    u32 (page_table + pt_index_of v * 4 + KERNEL_VIRTUAL_BASE) = t + 4 * ((v / 4096) mod 1024) /\
    load32 (pmem s1) (t + 4 * ((v / 4096) mod 1024)) = entry (pmem s1) pd v) as Hpage.
  { intros s1 t pt [Hn Hb] Hok1 -> ->. rewrite pt_index_eq. split.
    - destruct (ok_table _ _ _ Hok1 _ Hi (conj Hn Hb)) as (Hend & _).
      pose proof (table_aligned (pmem s1) pd (v / 4194304)) as [_ Hge]. unfold KERNEL_VIRTUAL_BASE in *. rewrite u32_id; lia.
    - unfold entry. apply Z.eqb_neq in Hn. by rewrite Hn, Hb. }
  destruct (Z.eqb_spec e 0) as [E0|E0].
  - destruct Hroom as [?|Hroom]; [done|].
    destruct (pt_alloc_ok s (ok_len _ _ _ Hok) Hroom) as (k & Hk & Hfree & Hrun).
    assert (dir_flags pd = 259 \/ dir_flags pd = 7) as Hfl by (unfold dir_flags; case_bool; auto).
    destruct (new_table (pmem s) (kpheap_blocks s) pd (v / 4194304) k (dir_flags pd) Hok Hi E0 Hk Hfree Hfl)
      as (Hok' & Hpde' & Hist & Htab & Hent).
    set (e' := heap_page k - KERNEL_VIRTUAL_BASE + dir_flags pd) in *.
    set (m' := store32 _ _ _) in *.
    exists (mk_pg m' (<[Z.to_nat k := KPHEAP_BLOCK_USED]> (kpheap_blocks s)) (cpu_pse s) (current_page_directory s) (phys s)).
    unfold space_ok. cbn [pmem kpheap_blocks phys cpu_pse].
    split; [done|]. split; [done|]. split; [done|]. split; [by rewrite Hpde'|]. split; [done|].
    assert (forall i, 0 <= i < 1024 -> i <> v / 4194304 -> pde m' pd i = pde (pmem s) pd i) as Hpo.
    { intros i Hi' Hne. unfold pde, m'. rewrite load32_store32_far by lia. apply load32_ext. intros x Hx.
      assert (~ (heap_page k <= x < heap_page k + 4096)); [|by rewrite !memset_outside by done].
      pose proof (ok_pd _ _ _ Hok) as (? & ? & Hal). assert (pd <> heap_page k) as Hnk by (intros Heq; by apply (ok_pd_used _ _ _ Hok k Hk Heq)).
      pose proof (pages_apart pd (heap_page k) i 0 Hal (heap_page_aligned k) Hnk Hi' ltac:(lia)).
      pose proof (pages_apart pd (heap_page k) i 1023 Hal (heap_page_aligned k) Hnk Hi' ltac:(lia)).
      apply Z.mod_divide in Hal as [y ->]; [|lia]. unfold heap_page, KPHEAP_VIRT_BASE in *. lia. }
    split; [exact Hpo|]. split; [|split].
    + split; cbn [pmem kpheap_blocks current_page_directory]; [done| | |].
      * intros j Hj2. destruct (decide (j = Z.to_nat k)) as [-> |Hjk]; [done|]. by rewrite list_lookup_insert_ne in Hj2.
      * intros i Hi' Ht. destruct (decide (i = v / 4194304)) as [-> |Hne]; [|left; by apply Hpo].
        right. exists k. by rewrite Hpde'.
      * intros x Hx. unfold m'. rewrite store32_other.
        -- rewrite !memset_outside; [done|..]; intros Hin; apply Hx; right; right; by exists k.
        -- intros Hin. apply Hx. left. unfold in_page. lia.
    + by apply free_count_insert.
    + intros ph Hph Hvm. unfold map_page. rewrite Hph, Hvm. cbn [negb Z.eqb].
      assert (rd32 (pd + 4 * pd_index_of v) s = Ok e s) as Hrd by (unfold rd32, gets; by rewrite pd_index_eq).
      rewrite (bind_ok _ _ _ _ _ Hrd), E0. cbn [Z.eqb]. rewrite bind_assoc, (bind_ok _ _ _ _ _ Hrun).
      assert (u32 (heap_page k - KERNEL_VIRTUAL_BASE) = heap_page k - KERNEL_VIRTUAL_BASE) as Hu
        by (apply u32_id; unfold heap_page, KPHEAP_VIRT_BASE, KERNEL_VIRTUAL_BASE; lia).
      assert (u32 (heap_page k - KERNEL_VIRTUAL_BASE + KERNEL_VIRTUAL_BASE) = heap_page k) as Hu2
        by (rewrite u32_id; unfold heap_page, KPHEAP_VIRT_BASE, KERNEL_VIRTUAL_BASE; lia).
      cbv zeta. rewrite Hu, Hu2. change (if pd =? kernel_page_directory then 259 else 7) with (dir_flags pd).
      rewrite (lor_flags (heap_page k - KERNEL_VIRTUAL_BASE)) by (first [unfold heap_page, KPHEAP_VIRT_BASE, KERNEL_VIRTUAL_BASE; dlia | lia]).
      set (s1 := mk_pg m' _ _ _ _) in *.
      destruct (Hpage s1 (heap_page k) (heap_page k - KERNEL_VIRTUAL_BASE)) as [Hp1 Hp2];
        [by unfold s1; cbn; rewrite Hpde'|exact Hok'|unfold s1; cbn; by rewrite Hpde'|done|].
      rewrite bind_assoc. erewrite (bind_ok (upd_pmem _)) by reflexivity.
      rewrite bind_assoc. erewrite (bind_ok (wr32 _ _)) by reflexivity.
      rewrite pd_index_eq. erewrite (bind_ok (ret _)) by reflexivity. cbn [pmem kpheap_blocks cpu_pse current_page_directory phys].
      fold e' m' s1. rewrite Hp1. assert (rd32 (heap_page k + 4 * ((v / 4096) mod 1024)) s1 = Ok (entry m' pd v) s1) as Hrd2
        by (unfold rd32, gets; by rewrite Hp2).
      rewrite (bind_ok _ _ _ _ _ Hrd2). rewrite Hpde', Htab. by destruct (entry m' pd v =? 0).
  - exists s. split; [done|]. split; [done|]. split; [done|]. split; [done|]. split; [done|]. split; [done|].
    split; [apply extended_refl|]. split; [lia|]. intros ph Hph Hvm. unfold map_page. rewrite Hph, Hvm. cbn [negb Z.eqb].
    assert (rd32 (pd + 4 * pd_index_of v) s = Ok e s) as Hrd by (unfold rd32, gets; by rewrite pd_index_eq).
    rewrite (bind_ok _ _ _ _ _ Hrd). apply Z.eqb_neq in E0 as E0'. rewrite E0', H4. rewrite (bind_ok (ret _) _ s _ s eq_refl).
    destruct (Hpage s (table_of e) (frame e)) as [Hp1 Hp2]; [done|done|done|unfold table_of; lia|].
    rewrite Hp1. assert (rd32 (table_of e + 4 * ((v / 4096) mod 1024)) s = Ok (entry (pmem s) pd v) s) as Hrd2
      by (unfold rd32, gets; by rewrite Hp2).
    rewrite (bind_ok _ _ _ _ _ Hrd2). by destruct (entry (pmem s) pd v =? 0).
Qed.

Lemma dir_flags_cases pd : dir_flags pd = 259 \/ dir_flags pd = 7.
Proof. unfold dir_flags. case_bool; auto. Qed.

(** An unmapped page of a directory entry that is not a 4 MiB page. *)
Lemma unmapped_not_4mib m pd v : translate m pd v = None -> is_4mib (pde m pd (v / 4194304)) = false.
Proof.
  unfold translate. destruct (Z.eqb_spec (pde m pd (v / 4194304)) 0) as [-> |]; [done|]. by destruct (is_4mib _).
Qed.

(** [map_page] of a page that is not mapped, with a page table there or room
    for one. *)
Lemma map_page_ok s pd ph v : space_ok s pd -> is_u32 v -> 0 <= ph -> ph + 4096 <= 4294967296 ->
  ph mod 4096 = 0 -> v mod 4096 = 0 -> translate (pmem s) pd v = None ->
  pde (pmem s) pd (v / 4194304) <> 0 \/ KPHEAP_BLOCK_FREE ∈ kpheap_blocks s ->
  exists s', map_page ph v pd s = Ok tt s' /\ mapped s s' pd v 4096 ph /\
    pde (pmem s') pd (v / 4194304) <> 0 /\
    free_count (kpheap_blocks s) = free_count (kpheap_blocks s') + (if pde (pmem s) pd (v / 4194304) =? 0 then 1 else 0).
Proof.
  intros Hok Hv Hp1 Hp2 Hpm Hvm Hun Hroom. pose proof (unmapped_not_4mib _ _ _ Hun) as H4.
  destruct (map_page_table_part s pd v Hok Hv H4 Hroom) as (s1 & Hok1 & Hph1 & Hpse1 & Htab & Hent & Hpde & Hext & Hfc & Hrun).
  specialize (Hrun ph Hpm Hvm). apply translate_entry in Hun. rewrite Hent, Hun in Hrun by done. cbn in Hrun.
  pose proof (dir_flags_cases pd) as Hfl.
  destruct (write_pte (pmem s1) (kpheap_blocks s1) pd v (Z.lor ph (dir_flags pd)) Hok1 Hv Htab) as [Hok2 Hent2].
  set (m2 := store32 _ _ _) in *. eexists. split; [exact Hrun|]. cbn [pmem kpheap_blocks].
  assert (forall i, 0 <= i < 1024 -> pde m2 pd i = pde (pmem s1) pd i) as Hpde2.
  { intros i Hi. unfold m2, pde at 1. destruct (v_index v Hv) as [Hiv Hjv].
    destruct (ok_table _ _ _ Hok1 _ Hiv Htab) as (_ & _ & Hne). apply load32_store32_far.
    apply pages_apart; [apply (ok_pd _ _ _ Hok1)|apply table_aligned|congruence|done|done]. }
  destruct (v_index v Hv) as [Hiv _].
  split; [|split; [cbn; rewrite Hpde2 by done; apply Htab|done]].
  split; cbn [pmem kpheap_blocks phys cpu_pse]; [done|done|done| | | |].
  - intros v' Hv'. destruct (v_index v' Hv') as [Hiv' _]. rewrite !translate_of_entry, Hent2, Hpde2 by done.
    rewrite lor_flags, u32_id by lia.
    destruct (Z.eqb_spec (v' / 4096) (v / 4096)) as [Heq|Hne].
    + dec_false (ph + dir_flags pd =? 0). assert (v' / 4194304 = v / 4194304) as -> by (by apply same_page in Heq as [? _]).
      destruct Htab as [_ ->]. assert (v <= v' < v + 4096) by dlia. dec_true (v <=? v'). dec_true (v' <? v + 4096). cbn. f_equal.
      assert ((ph + dir_flags pd) mod 4096 = dir_flags pd) as ->; [|dlia].
      rewrite Z.add_mod, Hpm, Z.add_0_l, Z.mod_mod by lia. apply Z.mod_small. lia.
    + assert ((v <=? v') && (v' <? v + 4096) = false) as ->.
      { apply andb_false_iff. rewrite Z.leb_gt, Z.ltb_ge. apply Z.mod_divide in Hvm as [q Hq]; [|lia].
        destruct (decide (v' < v)); [by left|]. right. rewrite Hq, Z.div_mul in Hne by lia. rewrite Hq in *. dlia. }
      rewrite Hent by done. destruct (decide (v' / 4194304 = v / 4194304)) as [Hs|Hs]; [|by rewrite Hpde by done].
      rewrite Hs, H4. destruct Htab as [_ ->]. done.
  - intros i Hi Hout. rewrite Hpde2 by done. apply Hpde; [done|]. intros ->. dlia.
  - intros i Hi Hne. rewrite Hpde2 by done. destruct (decide (i = v / 4194304)) as [-> |]; [apply Htab|by rewrite Hpde by done].
  - eapply (extended_trans s s1 _ pd v 4096 v 4096 v 4096); [lia..|exact Hext|]. split; cbn [pmem kpheap_blocks current_page_directory]; [done|done| |].
    + intros i Hi _. left. by apply Hpde2.
    + intros x Hx. apply store32_other. intros Hin. apply Hx. right; left. exists (v / 4194304).
      destruct (v_index v Hv) as [_ Hjv]. split; [done|]. split; [dlia|]. split; [done|]. unfold in_page. lia.
Qed.

Lemma add_mod_0 a b n : 0 < n -> a mod n = 0 -> b mod n = 0 -> (a + b) mod n = 0.
Proof. intros Hn Ha Hb. rewrite Z.add_mod, Ha, Hb by lia. apply Z.mod_0_l. lia. Qed.

Lemma mapped_refl s pd lo ph : space_ok s pd -> mapped s s pd lo 0 ph.
Proof.
  intros. split; try done; [|apply extended_refl]. intros v _. rewrite Z.add_0_r.
  destruct (lo <=? v) eqn:?, (v <? lo) eqn:?; zify_bool; cbn; (done || lia).
Qed.
Lemma mapped_trans s s1 s2 pd lo n1 n2 ph : 0 <= n1 -> 0 <= n2 ->
  mapped s s1 pd lo n1 ph -> mapped s1 s2 pd (lo + n1) n2 (ph + n1) -> mapped s s2 pd lo (n1 + n2) ph.
Proof.
  intros Hn1 Hn2 [A1 A2 A3 A4 A5 A6 A7] [B1 B2 B3 B4 B5 B6 B7]. split; [done|congruence|congruence| | | |].
  - intros v Hv. rewrite B4, A4 by done.
    destruct (lo + n1 <=? v) eqn:?, (v <? lo + n1 + n2) eqn:?, (lo <=? v) eqn:?, (v <? lo + n1) eqn:?,
      (v <? lo + (n1 + n2)) eqn:?; zify_bool; cbn; try lia; try done. f_equal. lia.
  - intros i Hi Hout. rewrite B5, A5 by lia. done.
  - intros i Hi Hne. by apply B6, A6.
  - by apply (extended_trans s s1 s2 pd lo (n1 + n2) lo n1 (lo + n1) n2); [lia..|exact A7|].
Qed.

(** Page tables that mapping the pages from [v] to directory index [last] can
    ask for. *)
Definition tables_needed (m : mem) (pd v last : Z) : Z :=
  last - v / 4194304 + (if pde m pd (v / 4194304) =? 0 then 1 else 0).

Lemma map_pages_ok n : forall s pd ph v add, space_ok s pd -> 0 <= v -> 0 <= ph -> 0 <= add ->
  v mod 4096 = 0 -> ph mod 4096 = 0 -> add mod 4096 = 0 ->
  v + add + 4096 * Z.of_nat n <= 4294967296 -> ph + add + 4096 * Z.of_nat n <= 4294967296 ->
  4096 * Z.of_nat n < 4294967296 -> add + 4096 * Z.of_nat n < 4294967296 ->
  (forall v', v + add <= v' < v + add + 4096 * Z.of_nat n -> translate (pmem s) pd v' = None) ->
  (n <> O -> tables_needed (pmem s) pd (v + add) ((v + add + 4096 * Z.of_nat n - 1) / 4194304) <= free_count (kpheap_blocks s)) ->
  exists s', page_loop (fun add => map_page (u32 (ph + add)) (u32 (v + add)) pd) (S n) (4096 * Z.of_nat n) add s = Ok tt s' /\
    mapped s s' pd (v + add) (4096 * Z.of_nat n) (ph + add).
Proof.
  induction n as [|n IH]; intros s pd ph v add Hok Hv Hp Ha Hvm Hpm Ham Hve Hpe Hsz Hae Hun Hneed.
  { exists s. split; [done|]. by apply mapped_refl. }
  remember (S n) as n1 eqn:Hn1. cbn [page_loop]. dec_false (4096 * Z.of_nat n1 =? 0). cbn [negb].
  rewrite (u32_id (ph + add)), (u32_id (v + add)) by lia.
  assert (is_u32 (v + add)) as Hvu by (unfold is_u32; lia). specialize (Hneed ltac:(lia)).
  assert ((v + add) mod 4096 = 0 /\ (ph + add) mod 4096 = 0) as [Hvam Hpam]
    by (split; by apply add_mod_0).
  set (last := (v + add + 4096 * Z.of_nat n1 - 1) / 4194304) in *.
  assert ((v + add) / 4194304 <= last) as Hlast by (apply Z.div_le_mono; lia).
  destruct (map_page_ok s pd (ph + add) (v + add) Hok Hvu ltac:(lia) ltac:(lia) Hpam Hvam ltac:(apply Hun; lia))
    as (s1 & Hrun & Hmap & Hp0 & Hfc).
  { destruct (decide (pde (pmem s) pd ((v + add) / 4194304) = 0)) as [E|]; [right|by left].
    apply free_count_pos. unfold tables_needed in Hneed. rewrite E in Hneed. cbn in Hneed. lia. }
  rewrite (bind_ok _ _ _ _ _ Hrun). subst n1.
  rewrite (u32_id (4096 * Z.of_nat (S n) - 4096)), (u32_id (add + 4096)) by lia.
  replace (4096 * Z.of_nat (S n) - 4096) with (4096 * Z.of_nat n) by lia.
  destruct (IH s1 pd ph v (add + 4096)) as (s2 & Hrun2 & Hmap2);
    [apply Hmap|exact Hv|exact Hp|lia|exact Hvm|exact Hpm|by apply add_mod_0|lia..| | |].
  - intros v' Hv'. rewrite (mp_translate _ _ _ _ _ _ Hmap) by (unfold is_u32; lia).
    assert ((v + add <=? v') && (v' <? v + add + 4096) = false) as -> by (apply andb_false_iff; right; apply Z.ltb_ge; lia).
    apply Hun. lia.
  - intros Hn. replace (v + (add + 4096) + 4096 * Z.of_nat n - 1) with (v + add + 4096 * Z.of_nat (S n) - 1) by lia. fold last.
    unfold tables_needed in *. rewrite Z.add_assoc.
    destruct (decide ((v + add + 4096) / 4194304 = (v + add) / 4194304)) as [E|E].
    + rewrite E. apply Z.eqb_neq in Hp0. rewrite Hp0. lia.
    + assert ((v + add + 4096) / 4194304 = (v + add) / 4194304 + 1) as -> by dlia.
      destruct (pde (pmem s1) pd ((v + add) / 4194304 + 1) =? 0); lia.
  - exists s2. split; [exact Hrun2|]. replace (4096 * Z.of_nat (S n)) with (4096 + 4096 * Z.of_nat n) by lia.
    eapply mapped_trans; [lia|lia|exact Hmap|]. by rewrite <- !Z.add_assoc.
Qed.

(** [map_page_table] on a processor with 4 MiB pages. *)
Lemma map_page_table_ok s pd ph v : space_ok s pd -> cpu_pse s = true -> is_u32 v -> is_u32 ph ->
  ph mod 4194304 = 0 -> v mod 4194304 = 0 -> pde (pmem s) pd (v / 4194304) = 0 ->
  exists s', map_page_table ph v pd s = Ok tt s' /\ mapped s s' pd v 4194304 ph /\ kpheap_blocks s' = kpheap_blocks s.
Proof.
  intros Hok Hpse Hv Hp Hpm Hvm Hun. destruct (v_index v Hv) as [Hi _].
  set (e := ph + (if pd =? kernel_page_directory then 387 else 135)).
  assert (ph + 4194304 <= 4294967296) as Hpe by (unfold is_u32 in *; dlia).
  assert (0 < e < 4294967296 /\ (e / 128) mod 2 = 1 /\ e - e mod 4194304 = ph) as (He & Hbit & Hfr).
  { unfold is_u32 in Hp. apply Z.mod_divide in Hpm as [q Hq]; [|lia].
    assert (exists f, e = ph + f /\ 0 < f < 4194304 /\ exists g r, f = (2 * g + 1) * 128 + r /\ 0 <= r < 128) as (f & -> & Hf & g & r & Hg & Hr).
    { unfold e. destruct (pd =? kernel_page_directory); eexists; (split; [reflexivity|]); (split; [lia|]).
      - exists 1, 3. lia.
      - exists 0, 7. lia. }
    split; [lia|]. split.
    - assert ((ph + f) / 128 = 2 * (q * 16384 + g) + 1) as -> by (symmetry; apply (Z.div_unique_pos _ _ _ r); lia).
      rewrite Z.add_comm, Z.mul_comm, Z.mod_add by lia. done.
    - assert ((ph + f) mod 4194304 = f) as -> by (symmetry; apply (Z.mod_unique_pos _ _ q); lia). lia. }
  assert (is_4mib e = true) as H4 by (rewrite is_4mib_eq by (unfold is_u32; lia); by apply Z.eqb_eq).
  set (m' := store32 (pmem s) (pd + 4 * (v / 4194304)) e).
  assert (pde m' pd (v / 4194304) = e) as Hei by (unfold pde, m'; rewrite load32_store32; apply u32_id; lia).
  assert (forall i, i <> v / 4194304 -> pde m' pd i = pde (pmem s) pd i) as Hpde
    by (intros i Hne; unfold pde, m'; apply load32_store32_far; lia).
  exists (mk_pg m' (kpheap_blocks s) (cpu_pse s) (current_page_directory s) (phys s)). split; [|split; [|done]].
  { unfold map_page_table. rewrite Hpm, Hvm. cbn [negb Z.eqb].
    assert (rd32 (pd + 4 * pd_index_of v) s = Ok 0 s) as Hrd by (unfold rd32, gets; rewrite pd_index_eq; by unfold pde in Hun; rewrite Hun).
    assert (gets cpu_pse s = Ok true s) as Hps by (unfold gets; by rewrite Hpse).
    rewrite (bind_ok _ _ _ _ _ Hrd). cbn [negb Z.eqb]. rewrite (bind_ok _ _ _ _ _ Hps), pd_index_eq.
    rewrite lor_flags; [done| |case_bool; lia].
    apply Z.mod_divide in Hpm as [q ->]; [|lia]. replace (q * 4194304) with (q * 1024 * 4096) by lia. apply Z.mod_mul. lia. }
  assert (forall i, is_table (pde m' pd i) -> i <> v / 4194304) as Hnt.
  { intros i [_ Hb] ->. rewrite Hei in Hb. congruence. }
  assert (tables_ok m' (kpheap_blocks s) pd) as Hok'.
  { destruct Hok as [P1 P2 P3 P4 P5]. split; [done|done|done| |].
    - intros i Hi' Ht. pose proof (Hnt i Ht). rewrite Hpde in Ht |- * by done. by apply P4.
    - intros i j Hi' Hj' Hij Ht Ht'. pose proof (Hnt i Ht). pose proof (Hnt j Ht').
      rewrite Hpde in Ht by done. rewrite Hpde in Ht' by done. rewrite !Hpde by done. by apply P5. }
  split; cbn [pmem kpheap_blocks phys cpu_pse]; [done|done|done| | | |].
  - intros v' Hv'. destruct (v_index v' Hv') as [Hi' Hj']. destruct (decide (v' / 4194304 = v / 4194304)) as [Hs|Hs].
    + unfold translate. rewrite Hs, Hei, H4, Hfr. dec_false (e =? 0). assert (v <= v' < v + 4194304) by dlia.
      dec_true (v <=? v'). dec_true (v' <? v + 4194304). cbn. f_equal. dlia.
    + assert ((v <=? v') && (v' <? v + 4194304) = false) as ->.
      { apply andb_false_iff. rewrite Z.leb_gt, Z.ltb_ge. dlia. }
      unfold translate. rewrite Hpde by done. set (ev := pde (pmem s) pd (v' / 4194304)).
      destruct (ev =? 0) eqn:E0; [done|]. destruct (is_4mib ev) eqn:E4; [done|]. zify_bool.
      assert (is_table ev) as Ht by done. destruct (ok_table _ _ _ Hok _ Hi' Ht) as (_ & _ & Hne).
      unfold m'. rewrite load32_store32_far; [done|].
      apply pages_apart; [apply table_aligned|apply (ok_pd _ _ _ Hok)|done|done|done].
  - intros i Hi' Hout. apply Hpde. intros ->. dlia.
  - intros i Hi' Hne. destruct (decide (i = v / 4194304)) as [-> |]; [rewrite Hei; lia|by rewrite Hpde].
  - split; cbn [pmem kpheap_blocks current_page_directory]; [done|done| |].
    + intros i Hi' Ht. left. by apply Hpde, Hnt.
    + intros x Hx. apply store32_other. intros Hin. apply Hx. left. unfold in_page. lia.
Qed.

Lemma map_big_ok n : forall s pd ph v add, space_ok s pd -> cpu_pse s = true -> 0 <= v -> 0 <= ph -> 0 <= add ->
  v mod 4194304 = 0 -> ph mod 4194304 = 0 -> add mod 4194304 = 0 -> forall rest, 0 < rest <= 4194304 ->
  v + add + 4194304 * Z.of_nat n + rest <= 4294967296 -> ph + add + 4194304 * Z.of_nat n + rest <= 4294967296 ->
  add + 4194304 * Z.of_nat n + rest < 4294967296 ->
  (forall i, (v + add) / 4194304 <= i < (v + add) / 4194304 + Z.of_nat n -> pde (pmem s) pd i = 0) ->
  forall fuel, (n < fuel)%nat ->
  exists s', big_loop (fun add => map_page_table (u32 (ph + add)) (u32 (v + add)) pd) fuel
      (4194304 * Z.of_nat n + rest) add s = Ok (rest, add + 4194304 * Z.of_nat n) s' /\
    mapped s s' pd (v + add) (4194304 * Z.of_nat n) (ph + add) /\ kpheap_blocks s' = kpheap_blocks s.
Proof.
  induction n as [|n IH]; intros s pd ph v add Hok Hpse Hv Hp Ha Hvm Hpm Ham rest Hr Hve Hpe Hae Hun fuel Hfuel; (destruct fuel as [|fuel]; [lia|]).
  { exists s. cbn [big_loop]. dec_false (4194304 <? 4194304 * Z.of_nat 0 + rest). split; [|split; [by apply mapped_refl|done]].
    unfold ret. do 2 f_equal; lia. }
  remember (S n) as n1 eqn:Hn1. cbn [big_loop]. dec_true (4194304 <? 4194304 * Z.of_nat n1 + rest).
  rewrite (u32_id (ph + add)), (u32_id (v + add)) by lia.
  destruct (map_page_table_ok s pd (ph + add) (v + add) Hok Hpse) as (s1 & Hrun & Hmap & Hb);
    [unfold is_u32; lia|unfold is_u32; lia|by apply add_mod_0|by apply add_mod_0|apply Hun; lia|].
  rewrite (bind_ok _ _ _ _ _ Hrun). subst n1.
  rewrite (u32_id (4194304 * Z.of_nat (S n) + rest - 4194304)), (u32_id (add + 4194304)) by lia.
  replace (4194304 * Z.of_nat (S n) + rest - 4194304) with (4194304 * Z.of_nat n + rest) by lia.
  destruct (IH s1 pd ph v (add + 4194304)) with (rest := rest) (fuel := fuel) as (s2 & Hrun2 & Hmap2 & Hb2);
    [apply Hmap|by rewrite (mp_pse _ _ _ _ _ _ Hmap)|exact Hv|exact Hp|lia|exact Hvm|exact Hpm|by apply add_mod_0|lia..| | |].
  - intros i Hi. replace (v + (add + 4194304)) with (v + add + 1 * 4194304) in Hi by lia. rewrite Z.div_add in Hi by lia.
    assert (0 <= (v + add) / 4194304) by (apply Z.div_pos; lia).
    assert ((v + add) / 4194304 * 4194304 = v + add) by (pose proof (add_mod_0 v add 4194304 ltac:(lia) Hvm Ham); dlia).
    rewrite (mp_pde _ _ _ _ _ _ Hmap) by lia. apply Hun. lia.
  - lia.
  - exists s2. rewrite Hrun2. split; [do 2 f_equal; lia|]. split; [|congruence].
    replace (4194304 * Z.of_nat (S n)) with (4194304 + 4194304 * Z.of_nat n) by lia.
    eapply mapped_trans; [lia|lia|exact Hmap|]. by rewrite <- !Z.add_assoc.
Qed.

Lemma fill_big_outside n t i ph f m x : ~ (t + 4 * i <= x < t + 4 * (i + Z.of_nat n)) -> fill_big n t i ph f m x = m x.
Proof.
  revert i ph m. induction n as [|n IH]; intros i ph m Hx; [done|]. cbn [fill_big].
  rewrite IH by lia. apply store32_other. lia.
Qed.

(** ** Whole ranges *)

(** The first page and the number of bytes of the pages of a range. *)
Definition page_start (virt_addr : Z) : Z := virt_addr - virt_addr mod 4096.
Definition page_bytes (size virt_addr : Z) : Z := round_up (size + virt_addr mod 4096) 4096.

Lemma range_pages size virt : 0 < size -> is_u32 virt -> page_start virt + page_bytes size virt <= 4294967296 ->
  page_bytes size virt < 4294967296 ->
  range_start virt = page_start virt /\ range_size size virt = page_bytes size virt /\
  page_start virt mod 4096 = 0 /\ 0 <= page_start virt /\ 0 < page_bytes size virt /\ page_bytes size virt mod 4096 = 0.
Proof.
  intros Hs Hv He Hl. unfold range_start, range_size, page_start, page_bytes, range_start in *. unfold is_u32 in Hv.
  pose proof (Z.mod_pos_bound virt 4096 ltac:(lia)). pose proof (round_up_spec (size + virt mod 4096) 4096 ltac:(lia)).
  assert (aligndown virt 4096 = virt - virt mod 4096) as Hd by (apply aligndown_eq; [lia|exact Hv]). rewrite Hd.
  replace (virt - (virt - virt mod 4096)) with (virt mod 4096) by lia. rewrite (u32_id (virt mod 4096)) by lia.
  split; [done|]. rewrite u32_id by lia. rewrite alignup_eq by lia. split; [done|].
  split; [dlia|]. split; [dlia|]. lia.
Qed.

(** A range that is handled page by page. *)
Definition small_range (v n : Z) : Prop := v mod 4194304 <> 0 \/ n <= 4194304.

(** What mapping a range needs: nothing is mapped there, there are page tables
    for the pages, and for the 4 MiB steps a processor that has them, an aligned
    physical address and empty directory entries. *)
Record can_map (s : pgstate H) (pd v n ph : Z) : Prop := {
  cm_ok : space_ok s pd;
  cm_virt : 0 <= v /\ v mod 4096 = 0 /\ v + n <= 4294967296;
  cm_phys : 0 <= ph /\ ph mod 4096 = 0 /\ ph + n <= 4294967296;
  cm_size : 0 < n < 4294967296 /\ n mod 4096 = 0;
  cm_free : forall v', v <= v' < v + n -> translate (pmem s) pd v' = None;
  cm_tables : tables_needed (pmem s) pd (if decide (small_range v n) then v else v + (n - 1) / 4194304 * 4194304)
      ((v + n - 1) / 4194304) <= free_count (kpheap_blocks s);
  cm_big : ~ small_range v n -> cpu_pse s = true /\ ph mod 4194304 = 0 /\
    forall i, v / 4194304 <= i < v / 4194304 + (n - 1) / 4194304 -> pde (pmem s) pd i = 0 }.

Lemma map_range_ok s pd v n ph : can_map s pd v n ph ->
  exists s', for_range n v (fun add => map_page_table (u32 (ph + add)) (u32 (v + add)) pd)
      (fun add => map_page (u32 (ph + add)) (u32 (v + add)) pd) s = Ok tt s' /\ mapped s s' pd v n ph.
Proof.
  intros [Hok (Hv & Hvm & Hve) (Hp & Hpm & Hpe) [Hn Hnm] Hfree Htab Hbig]. unfold for_range.
  destruct (decide (small_range v n)) as [Hsm|Hsm].
  - assert ((v mod 4194304 =? 0) && (4194304 <? n) = false) as ->.
    { apply andb_false_iff. rewrite Z.eqb_neq, Z.ltb_ge. destruct Hsm; auto. }
    rewrite (bind_ok (ret (n, 0)) _ s _ s eq_refl). cbn [fst snd].
    apply Z.mod_divide in Hnm as [k Hk]; [|lia]. subst n. rewrite Z.div_mul by lia.
    destruct (map_pages_ok (Z.to_nat k) s pd ph v 0 Hok Hv Hp) as (s' & Hrun & Hmap); rewrite ?Z2Nat.id, ?Z.add_0_r in * by lia;
      try (first [done|lia]); [|intros _|].
    + intros v' Hv'. apply Hfree. lia.
    + by rewrite (Z.mul_comm 4096).
    + rewrite (Z.mul_comm 4096) in Hrun, Hmap. by exists s'.
  - destruct (Hbig Hsm) as (Hpse & Hpm4 & Hpde). unfold small_range in Hsm.
    assert (v mod 4194304 = 0 /\ 4194304 < n) as [Hvm4 Hn4] by (destruct (decide (v mod 4194304 = 0)); lia).
    rewrite Hvm4. dec_true (4194304 <? n). cbn [andb Z.eqb].
    set (q := (n - 1) / 4194304) in *. set (rest := n - q * 4194304).
    assert (0 < q /\ 0 < rest <= 4194304 /\ q <= n / 4194304) as (Hq & Hrest & Hqn) by (unfold rest, q; dlia).
    assert (rest mod 4096 = 0) as Hrm.
    { unfold rest. rewrite Zminus_mod, Hnm. replace (q * 4194304) with (q * 1024 * 4096) by lia. by rewrite Z.mod_mul by lia. }
    destruct (map_big_ok (Z.to_nat q) s pd ph v 0 Hok Hpse Hv Hp) with (rest := rest) (fuel := S (Z.to_nat (n / 4194304)))
      as (s1 & Hrun1 & Hmap1 & Hb1); rewrite ?Z2Nat.id, ?Z.add_0_r in * by lia; try (first [done|lia]).
    replace (4194304 * q + rest) with n in Hrun1 by (unfold rest; lia). rewrite Z.add_0_l in Hrun1.
    rewrite (bind_ok _ _ _ _ _ Hrun1). cbn [fst snd].
    apply Z.mod_divide in Hrm as [k Hk]; [|lia]. rewrite Hk, Z.div_mul by lia.
    destruct (map_pages_ok (Z.to_nat k) s1 pd ph v (4194304 * q)) as (s' & Hrun & Hmap);
      rewrite ?Z2Nat.id, ?(Z.mul_comm 4096 k), <- ?Hk by lia; [apply Hmap1|done|done|lia|done|done| |lia..| |intros _|].
    + replace (4194304 * q) with (q * 1024 * 4096) by lia. apply Z.mod_mul. lia.
    + intros v' Hv'. rewrite (mp_translate _ _ _ _ _ _ Hmap1) by (unfold is_u32; lia).
      dec_false (v' <? v + 4194304 * q). rewrite andb_false_r. apply Hfree. lia.
    + replace (v + 4194304 * q + rest - 1) with (v + n - 1) by (unfold rest; lia).
      unfold tables_needed in *. rewrite Hb1, (Z.mul_comm 4194304 q). rewrite (mp_pde _ _ _ _ _ _ Hmap1); [done| |].
      * rewrite Z.div_add by lia. assert (v / 4194304 * 4194304 = v) by dlia. unfold rest in *. lia.
      * right. rewrite Z.div_add by lia. assert (v / 4194304 * 4194304 = v) by dlia. lia.
    + rewrite Z2Nat.id, (Z.mul_comm 4096 k), <- Hk in Hrun, Hmap by lia. exists s'. split; [exact Hrun|].
      replace n with (4194304 * q + rest) by (unfold rest; lia). eapply mapped_trans; [lia|lia|exact Hmap1|exact Hmap].
Qed.

(** [map_flexible] maps the pages of a range: afterwards every address of
    those pages translates to the physical address at the same offset, every
    other address translates as before, and the page tables stay well formed.
    Ranges above 4 MiB that start on a 4 MiB boundary are covered too. *)
Lemma map_flexible_correct s size physical virt pd : 0 < size -> is_u32 virt ->
  page_bytes size virt < 4294967296 ->
  can_map s pd (page_start virt) (page_bytes size virt) physical ->
  exists s', map_flexible size physical virt pd s = Ok tt s' /\
    mapped s s' pd (page_start virt) (page_bytes size virt) physical.
Proof.
  intros Hs Hv Hl Hc. destruct (range_pages size virt Hs Hv) as (H1 & H2 & _); [apply Hc|done|].
  unfold map_flexible. cbv zeta. rewrite H1, H2. by apply map_range_ok.
Qed.

(** [map_memory] of pages that are not mapped. *)
Lemma map_memory_ok s size virt pd l l1 c b l2 : 0 < size -> is_u32 virt ->
  page_bytes size virt <= 4294963200 ->
  lrep (phys s) l -> tiled l -> a_room (heap (phys s)) sizeof_p_block ->
  find_block (reservable (page_bytes size virt)) l = Some (l1, (c, b), l2) ->
  can_map s pd (page_start virt) (page_bytes size virt) (base_addr b) ->
  exists s' p ph', map_memory size virt pd s = Ok tt s' /\
    mapped (mk_pg (pmem s) (kpheap_blocks s) (cpu_pse s) (current_page_directory s) ph') s' pd (page_start virt) (page_bytes size virt) (base_addr b) /\
    lrep (phys s') (l1 ++ (c, mk_p_block (base_addr b) (page_bytes size virt) (block_type pd)) ::
      (p, mk_p_block (base_addr b + page_bytes size virt) (p_size b - page_bytes size virt) 1) :: l2) /\
    tiled (l1 ++ (c, mk_p_block (base_addr b) (page_bytes size virt) (block_type pd)) ::
      (p, mk_p_block (base_addr b + page_bytes size virt) (p_size b - page_bytes size virt) 1) :: l2).
Proof.
  intros Hs Hv Hl Hr Ht Hroom Hfind Hc.
  destruct (range_pages size virt Hs Hv) as (H1 & H2 & _ & _ & Hpos & Hmod); [apply Hc|lia|].
  set (n := page_bytes size virt) in *.
  assert (alignup n 4096 = n) as Hal.
  { rewrite alignup_eq by (pose proof (round_up_spec n 4096); lia). by apply round_up_unique; lia. }
  rewrite <- Hal in Hfind.
  destruct (reserve_block_ok (phys s) l n (block_type pd) l1 c b l2 Hr Ht ltac:(lia) Hroom Hfind)
    as (p & ph' & n' & Hrun & Hn' & _ & _ & _ & _ & Hr' & Ht'). rewrite Hal in Hn'. subst n'.
  set (s1 := mk_pg (pmem s) (kpheap_blocks s) (cpu_pse s) (current_page_directory s) ph').
  assert (can_map s1 pd (page_start virt) n (base_addr b)) as Hc1 by (destruct Hc; by split).
  destruct (map_range_ok s1 pd _ _ _ Hc1) as (s' & Hrun' & HM).
  exists s', p, ph'. fold s1. split; [|split; [exact HM|rewrite (mp_phys _ _ _ _ _ _ HM); by split]].
  unfold map_memory. cbv zeta. rewrite H1, H2.
  assert (lift_phys (reserve_block n (block_type pd)) s = Ok (base_addr b) s1) as Hlift by (unfold lift_phys; by rewrite Hrun).
  by rewrite (bind_ok _ _ _ _ _ Hlift).
Qed.

(** [map_memory] of pages that are not mapped takes physical memory from
    the first free block that is large enough and maps exactly those pages to
    it. *)
Lemma map_memory_correct s size virt pd l l1 c b l2 : 0 < size -> is_u32 virt ->
  page_bytes size virt <= 4294963200 ->
  lrep (phys s) l -> tiled l -> a_room (heap (phys s)) sizeof_p_block ->
  find_block (reservable (page_bytes size virt)) l = Some (l1, (c, b), l2) ->
  can_map s pd (page_start virt) (page_bytes size virt) (base_addr b) ->
  exists s' p, map_memory size virt pd s = Ok tt s' /\
    (forall v, is_u32 v -> translate (pmem s') pd v =
       if (page_start virt <=? v) && (v <? page_start virt + page_bytes size virt)
       then Some (base_addr b + (v - page_start virt)) else translate (pmem s) pd v) /\
    space_ok s' pd /\
    lrep (phys s') (l1 ++ (c, mk_p_block (base_addr b) (page_bytes size virt) (block_type pd)) ::
      (p, mk_p_block (base_addr b + page_bytes size virt) (p_size b - page_bytes size virt) 1) :: l2).
Proof.
  intros Hs Hv Hl Hr Ht Hroom Hfind Hc.
  destruct (map_memory_ok s size virt pd l l1 c b l2 Hs Hv Hl Hr Ht Hroom Hfind Hc) as (s' & p & ph' & Hrun & HM & Hr' & _).
  exists s', p. split; [exact Hrun|]. split; [apply HM|]. split; [apply HM|exact Hr'].
Qed.

(** ** Queries and unmapping *)

Lemma is_mapped_ok s pd v : space_ok s pd -> is_u32 v ->
  is_mapped v pd s = Ok (match translate (pmem s) pd v with Some _ => true | None => false end) s.
Proof.
  intros Hok Hv. unfold is_mapped, rd32, translate. mstep. rewrite pd_index_eq.
  change (load32 (pmem s) (pd + 4 * (v / 4194304))) with (pde (pmem s) pd (v / 4194304)).
  set (e := pde (pmem s) pd (v / 4194304)). assert (is_u32 e) as He by apply load32_range.
  destruct (e =? 0) eqn:E; [done|]. rewrite land_4mib by done. rewrite negb_involutive.
  destruct (is_4mib e) eqn:E4; [done|]. cbn. zify_bool. destruct (v_index v Hv) as [Hi Hj].
  destruct (ok_table _ _ _ Hok _ Hi (conj E E4)) as (Hend & _). fold e in Hend.
  pose proof (table_aligned (pmem s) pd (v / 4194304)) as [_ Hge]. fold e in Hge. unfold KERNEL_VIRTUAL_BASE in Hge.
  rewrite land_mask, pt_index_eq by done. unfold table_of, KERNEL_VIRTUAL_BASE in *.
  rewrite u32_id by lia. replace (frame e + (v / 4096) mod 1024 * 4 + 3221225472) with
    (frame e + 3221225472 + 4 * ((v / 4096) mod 1024)) by lia. by destruct (_ =? 0).
Qed.

Lemma get_physical_ok s pd v : space_ok s pd -> is_u32 v -> is_4mib (pde (pmem s) pd (v / 4194304)) = false ->
  get_physical v pd s = Ok (match translate (pmem s) pd v with Some a => u32 a | None => 0 end) s.
Proof.
  intros Hok Hv H4. unfold get_physical, rd32, translate. mstep. rewrite pd_index_eq.
  change (load32 (pmem s) (pd + 4 * (v / 4194304))) with (pde (pmem s) pd (v / 4194304)).
  set (e := pde (pmem s) pd (v / 4194304)) in *. assert (is_u32 e) as He by apply load32_range.
  destruct (e =? 0) eqn:E; [done|]. rewrite H4. zify_bool. destruct (v_index v Hv) as [Hi Hj].
  destruct (ok_table _ _ _ Hok _ Hi (conj E H4)) as (Hend & _). fold e in Hend.
  pose proof (table_aligned (pmem s) pd (v / 4194304)) as [_ Hge]. fold e in Hge. unfold KERNEL_VIRTUAL_BASE in Hge.
  rewrite pt_index_eq. unfold table_of, KERNEL_VIRTUAL_BASE in *.
  rewrite (u32_id (frame e + _ + _)) by lia.
  replace (frame e + (v / 4096) mod 1024 * 4 + 3221225472) with
    (frame e + 3221225472 + 4 * ((v / 4096) mod 1024)) by lia.
  set (p := load32 _ _). assert (is_u32 p) by apply load32_range. destruct (p =? 0); cbn; [done|].
  by rewrite (frame_eq p).
Qed.

(** All addresses of a page are mapped, or none is. *)
Lemma translate_page m pd v w : v / 4096 = w / 4096 -> translate m pd v = None <-> translate m pd w = None.
Proof. intros [E1 E2]%same_page. rewrite !translate_entry. unfold entry. by rewrite E1, E2. Qed.
Lemma translate_pde m pd v : translate m pd v <> None -> pde m pd (v / 4194304) <> 0.
Proof. unfold translate. intros Ht E. apply Ht. by rewrite E. Qed.

(** [s'] is [s] with the pages of the range that were not mapped mapped to those
    from [ph]. *)
Record filled (s s' : pgstate H) (pd lo n ph : Z) : Prop := {
  fl_ok : space_ok s' pd;
  fl_phys : phys s' = phys s;
  fl_translate : forall v, is_u32 v -> translate (pmem s') pd v =
    match translate (pmem s) pd v with
    | Some a => Some a
    | None => if (lo <=? v) && (v <? lo + n) then Some (ph + (v - lo)) else None
    end }.
Lemma filled_step s s1 s2 pd lo n1 n2 ph : 0 <= n1 -> 0 <= n2 ->
  filled s s1 pd lo n1 ph -> filled s1 s2 pd (lo + n1) n2 (ph + n1) -> filled s s2 pd lo (n1 + n2) ph.
Proof.
  intros H1 H2 [A1 A2 A3] [B1 B2 B3]. split; [done|congruence|]. intros v Hv. rewrite B3, A3 by done.
  destruct (translate (pmem s) pd v); [done|].
  destruct (lo + n1 <=? v) eqn:?, (v <? lo + n1 + n2) eqn:?, (lo <=? v) eqn:?, (v <? lo + n1) eqn:?, (v <? lo + (n1 + n2)) eqn:?;
    zify_bool; cbn; try lia; try done. f_equal. lia.
Qed.

(** One page of [map_memory_if_not_mapped]. *)
Definition fill_page (ph v pd : Z) : K unit := b <- is_mapped v pd ;; if negb b then map_page ph v pd else ret tt.
Lemma fill_page_ok s pd ph v : space_ok s pd -> is_u32 v -> 0 <= ph -> ph + 4096 <= 4294967296 ->
  ph mod 4096 = 0 -> v mod 4096 = 0 -> pde (pmem s) pd (v / 4194304) <> 0 \/ KPHEAP_BLOCK_FREE ∈ kpheap_blocks s ->
  exists s', fill_page ph v pd s = Ok tt s' /\ filled s s' pd v 4096 ph /\ pde (pmem s') pd (v / 4194304) <> 0 /\
    free_count (kpheap_blocks s) - (if pde (pmem s) pd (v / 4194304) =? 0 then 1 else 0) <= free_count (kpheap_blocks s').
Proof.
  intros Hok Hv Hp He Hpm Hvm Hroom. unfold fill_page. rewrite (bind_ok _ _ _ _ _ (is_mapped_ok s pd v Hok Hv)).
  assert (forall v', v <= v' < v + 4096 -> v' / 4096 = v / 4096) as Hpg by (intros; dlia).
  destruct (translate (pmem s) pd v) as [a|] eqn:E; cbn [negb].
  - exists s. split; [done|]. split; [|split; [apply translate_pde; congruence|case_bool; lia]]. split; [done|done|]. intros v' Hv'.
    destruct (translate (pmem s) pd v') as [b|] eqn:E'; [done|]. destruct ((v <=? v') && (v' <? v + 4096)) eqn:Hr; [|done]. zify_bool.
    apply (translate_page _ _ v' v) in E'; [congruence|]. apply Hpg. lia.
  - destruct (map_page_ok s pd ph v Hok Hv Hp He Hpm Hvm E Hroom) as (s' & Hrun & HM & Hpde & Hfc). exists s'. split; [done|].
    split; [|split; [done|lia]]. split; [apply HM|apply HM|]. intros v' Hv'. rewrite (mp_translate _ _ _ _ _ _ HM) by done.
    destruct ((v <=? v') && (v' <? v + 4096)) eqn:Hr; [|by destruct (translate (pmem s) pd v')]. zify_bool.
    assert (translate (pmem s) pd v' = None) as -> by (apply (translate_page _ _ v' v); [apply Hpg; lia|done]). done.
Qed.

Lemma fill_pages_ok n : forall s pd ph v add, space_ok s pd -> 0 <= v -> 0 <= ph -> 0 <= add ->
  v mod 4096 = 0 -> ph mod 4096 = 0 -> add mod 4096 = 0 ->
  v + add + 4096 * Z.of_nat n <= 4294967296 -> ph + add + 4096 * Z.of_nat n <= 4294967296 ->
  4096 * Z.of_nat n < 4294967296 -> add + 4096 * Z.of_nat n < 4294967296 ->
  (n <> O -> tables_needed (pmem s) pd (v + add) ((v + add + 4096 * Z.of_nat n - 1) / 4194304) <= free_count (kpheap_blocks s)) ->
  exists s', page_loop (fun add => fill_page (u32 (ph + add)) (u32 (v + add)) pd) (S n) (4096 * Z.of_nat n) add s = Ok tt s' /\
    filled s s' pd (v + add) (4096 * Z.of_nat n) (ph + add).
Proof.
  induction n as [|n IH]; intros s pd ph v add Hok Hv Hp Ha Hvm Hpm Ham Hve Hpe Hsz Hae Hneed.
  { exists s. split; [done|]. split; [done|done|]. intros v' _. rewrite Z.mul_0_r, Z.add_0_r.
    destruct (translate _ _ v'); [done|]. destruct (v + add <=? v') eqn:?, (v' <? v + add) eqn:?; zify_bool; cbn; (done || lia). }
  remember (S n) as n1 eqn:Hn1. cbn [page_loop]. dec_false (4096 * Z.of_nat n1 =? 0). cbn [negb].
  rewrite (u32_id (ph + add)), (u32_id (v + add)) by lia.
  assert (is_u32 (v + add)) as Hvu by (unfold is_u32; lia). specialize (Hneed ltac:(lia)).
  assert ((v + add) mod 4096 = 0 /\ (ph + add) mod 4096 = 0) as [Hvam Hpam] by (split; by apply add_mod_0).
  set (last := (v + add + 4096 * Z.of_nat n1 - 1) / 4194304) in *.
  assert ((v + add) / 4194304 <= last) as Hlast by (apply Z.div_le_mono; lia).
  destruct (fill_page_ok s pd (ph + add) (v + add) Hok Hvu ltac:(lia) ltac:(lia) Hpam Hvam) as (s1 & Hrun & Hf & Hp0 & Hfc).
  { destruct (decide (pde (pmem s) pd ((v + add) / 4194304) = 0)) as [E|]; [right|by left].
    apply free_count_pos. unfold tables_needed in Hneed. rewrite E in Hneed. cbn in Hneed. lia. }
  rewrite (bind_ok _ _ _ _ _ Hrun). subst n1.
  rewrite (u32_id (4096 * Z.of_nat (S n) - 4096)), (u32_id (add + 4096)) by lia.
  replace (4096 * Z.of_nat (S n) - 4096) with (4096 * Z.of_nat n) by lia.
  destruct (IH s1 pd ph v (add + 4096)) as (s2 & Hrun2 & Hf2); [apply Hf|exact Hv|exact Hp|lia|exact Hvm|exact Hpm|by apply add_mod_0|lia..| |].
  - intros Hn. replace (v + (add + 4096) + 4096 * Z.of_nat n - 1) with (v + add + 4096 * Z.of_nat (S n) - 1) by lia. fold last.
    unfold tables_needed in *. rewrite Z.add_assoc.
    destruct (decide ((v + add + 4096) / 4194304 = (v + add) / 4194304)) as [E|E].
    + rewrite E. apply Z.eqb_neq in Hp0. rewrite Hp0. lia.
    + assert ((v + add + 4096) / 4194304 = (v + add) / 4194304 + 1) as -> by dlia.
      destruct (pde (pmem s1) pd ((v + add) / 4194304 + 1) =? 0); lia.
  - exists s2. split; [exact Hrun2|]. replace (4096 * Z.of_nat (S n)) with (4096 + 4096 * Z.of_nat n) by lia.
    eapply filled_step; [lia|lia|exact Hf|]. by rewrite <- !Z.add_assoc.
Qed.

(** [map_memory_if_not_mapped] of a range that is handled page by page. *)
Lemma map_if_not_mapped_ok s size virt pd l l1 c b l2 : 0 < size -> is_u32 virt -> space_ok s pd ->
  let v := page_start virt in let n := page_bytes size virt in
  n <= 4294963200 -> v + n <= 4294967296 -> small_range v n ->
  lrep (phys s) l -> tiled l -> a_room (heap (phys s)) sizeof_p_block ->
  find_block (reservable n) l = Some (l1, (c, b), l2) -> base_addr b mod 4096 = 0 ->
  tables_needed (pmem s) pd v ((v + n - 1) / 4194304) <= free_count (kpheap_blocks s) ->
  exists s' p ph', map_memory_if_not_mapped size virt pd s = Ok tt s' /\
    filled (mk_pg (pmem s) (kpheap_blocks s) (cpu_pse s) (current_page_directory s) ph') s' pd v n (base_addr b) /\
    lrep (phys s') (l1 ++ (c, mk_p_block (base_addr b) n (block_type pd)) ::
      (p, mk_p_block (base_addr b + n) (p_size b - n) 1) :: l2).
Proof.
  intros Hs Hv Hok v n Hn Hve Hsm Hr Ht Hroom Hfind Hbm Hneed.
  destruct (range_pages size virt Hs Hv Hve ltac:(lia)) as (H1 & H2 & Hvm & Hv0 & Hpos & Hmod). fold v n in H1, H2, Hvm, Hv0, Hpos, Hmod.
  assert (alignup n 4096 = n) as Hal by (rewrite alignup_eq by (pose proof (round_up_spec n 4096); lia); apply round_up_unique; lia).
  rewrite <- Hal in Hfind.
  destruct (reserve_block_ok (phys s) l n (block_type pd) l1 c b l2 Hr Ht ltac:(lia) Hroom Hfind)
    as (p & ph' & n' & Hrun & Hn' & Hnb & _ & Hfree & Hl & Hr' & _). rewrite Hal in Hn'. subst n'.
  destruct (p_range _ _ _ _ _ Ht Hl) as (Hb & _ & Hend). specialize (Hend (b_free_fixed b Hfree)). unfold is_u32 in Hb.
  set (s1 := mk_pg (pmem s) (kpheap_blocks s) (cpu_pse s) (current_page_directory s) ph').
  assert (n = 4096 * Z.of_nat (Z.to_nat (n / 4096))) as En by (rewrite Z2Nat.id by (apply Z.div_pos; lia); dlia).
  destruct (fill_pages_ok (Z.to_nat (n / 4096)) s1 pd (base_addr b) v 0) as (s' & Hrun' & HF); rewrite <- ?En, ?Z.add_0_r; try (first [done|lia]).
  rewrite <- En, !Z.add_0_r in HF. rewrite <- En in Hrun'. exists s', p, ph'. fold s1. split; [|split; [exact HF|by rewrite (fl_phys _ _ _ _ _ _ HF)]].
  unfold map_memory_if_not_mapped. cbv zeta. rewrite H1, H2.
  assert (lift_phys (reserve_block n (block_type pd)) s = Ok (base_addr b) s1) as Hlift by (unfold lift_phys; by rewrite Hrun).
  rewrite (bind_ok _ _ _ _ _ Hlift). unfold for_range.
  assert ((v mod 4194304 =? 0) && (4194304 <? n) = false) as -> by (apply andb_false_iff; rewrite Z.eqb_neq, Z.ltb_ge; destruct Hsm; auto).
  rewrite (bind_ok (ret (n, 0)) _ s1 _ s1 eq_refl). exact Hrun'.
Qed.


(** [unmap_page] of a mapped page removes that page from the translation
    and nothing else; it halts on a page of a present table that is not mapped,
    on a 4 MiB page and on an unaligned address, and does nothing when there is
    no page table. *)
Lemma unmap_page_correct s pd v : space_ok s pd -> is_u32 v ->
  if negb (v mod 4096 =? 0) then unmap_page v pd s = Fatal "Trying to unmap a non-aligned virtual address"
  else if pde (pmem s) pd (v / 4194304) =? 0 then unmap_page v pd s = Ok tt s
  else if is_4mib (pde (pmem s) pd (v / 4194304)) then unmap_page v pd s = Fatal "Trying to unmap page, but page table is mapped"
  else match translate (pmem s) pd v with
       | None => unmap_page v pd s = Fatal "Trying to unmap a non-mapped virtual address"
       | Some _ => exists s', unmap_page v pd s = Ok tt s' /\ space_ok s' pd /\
           (forall v', is_u32 v' -> translate (pmem s') pd v' =
              if v' / 4096 =? v / 4096 then None else translate (pmem s) pd v')
       end.
Proof.
  intros Hok Hv. destruct (v mod 4096 =? 0) eqn:Em; cbn [negb]; [|unfold unmap_page; by rewrite Em].
  assert (unmap_page v pd s = (if pde (pmem s) pd (v / 4194304) =? 0 then Ok tt s else
    if is_4mib (pde (pmem s) pd (v / 4194304)) then Fatal "Trying to unmap page, but page table is mapped" else
    let page := u32 (frame (pde (pmem s) pd (v / 4194304)) + pt_index_of v * 4 + KERNEL_VIRTUAL_BASE) in
    if load32 (pmem s) page =? 0 then Fatal "Trying to unmap a non-mapped virtual address" else wr32 page 0 s)) as ->.
  { unfold unmap_page, rd32. rewrite Em. mstep. rewrite pd_index_eq. unfold pde. repeat case_bool; done. }
  set (e := pde (pmem s) pd (v / 4194304)). destruct (Z.eqb_spec e 0) as [|E0]; [done|].
  destruct (is_4mib e) eqn:E4; [done|]. destruct (v_index v Hv) as [Hi Hj]. assert (is_table e) as Ht by done.
  destruct (ok_table _ _ _ Hok _ Hi Ht) as (Hend & _ & Hne). fold e in Hend, Hne.
  pose proof (table_aligned (pmem s) pd (v / 4194304)) as [Hta Hge]. fold e in Hge, Hta. unfold KERNEL_VIRTUAL_BASE in Hge.
  cbv zeta. rewrite pt_index_eq. replace (frame e + (v / 4096) mod 1024 * 4 + KERNEL_VIRTUAL_BASE) with
    (table_of e + 4 * ((v / 4096) mod 1024)) by (unfold table_of; lia).
  rewrite u32_id by lia.
  assert (entry (pmem s) pd v = load32 (pmem s) (table_of e + 4 * ((v / 4096) mod 1024))) as Hent.
  { unfold entry. fold e. apply Z.eqb_neq in E0. by rewrite E0, E4. }
  rewrite <- Hent. rewrite translate_of_entry. fold e. rewrite E4.
  destruct (entry (pmem s) pd v =? 0); [done|].
  destruct (write_pte (pmem s) (kpheap_blocks s) pd v 0 Hok Hv Ht) as [Hok' Hent']. fold e in Hok', Hent'.
  eexists. split; [reflexivity|]. split; [exact Hok'|]. intros v' Hv'. cbn [pmem]. rewrite !translate_of_entry, Hent' by done.
  destruct (Z.eqb_spec (v' / 4096) (v / 4096)); [done|]. set (m' := store32 _ _ _).
  assert (pde m' pd (v' / 4194304) = pde (pmem s) pd (v' / 4194304)) as ->; [|done].
  unfold m', pde at 1. apply load32_store32_far.
  apply pages_apart; [apply (ok_pd _ _ _ Hok)|exact Hta|congruence|apply v_index; done|done].
Qed.

(** On a processor without 4 MiB pages, [map_page_table] writes the page
    entries to the physical address of the new table instead of the address
    where the table is mapped: the call returns and none of the pages is
    mapped. *)
Lemma map_page_table_without_pse s pd ph v k : space_ok s pd -> cpu_pse s = false -> is_u32 v -> is_u32 ph ->
  ph mod 4194304 = 0 -> v mod 4194304 = 0 -> pde (pmem s) pd (v / 4194304) = 0 ->
  first_free_block (kpheap_blocks s) 0 = Some k -> KERNEL_VIRTUAL_BASE <= pd ->
  exists s', map_page_table ph v pd s = Ok tt s' /\
    forall v', is_u32 v' -> v' / 4194304 = v / 4194304 -> is_mapped v' pd s' = Ok false s'.
Proof.
  intros Hok Hpse Hv Hp Hpm Hvm Hun Hff Hkpd. destruct (v_index v Hv) as [Hi _].
  pose proof (first_free_block_spec (kpheap_blocks s) 0) as Hspec. rewrite Hff, Z.sub_0_r, (ok_len _ _ _ Hok) in Hspec.
  destruct Hspec as [Hk Hfree]. assert (0 <= k < 1024) as Hk' by lia.
  assert (pt_alloc s = Ok (heap_page k) (mk_pg (memset (pmem s) (heap_page k) 0 4096)
      (<[Z.to_nat k := KPHEAP_BLOCK_USED]> (kpheap_blocks s)) (cpu_pse s) (current_page_directory s) (phys s))) as Halloc.
  { unfold pt_alloc. rewrite (bind_ok get _ s s s eq_refl), Hff. unfold set_block. mstep.
    dec_true (0 <=? k). dec_true (k <? 1024). done. }
  destruct (new_table (pmem s) (kpheap_blocks s) pd (v / 4194304) k (dir_flags pd) Hok Hi Hun Hk' Hfree (dir_flags_cases pd))
    as (_ & _ & Hist & Htab & _). set (e := heap_page k - KERNEL_VIRTUAL_BASE + dir_flags pd) in *.
  assert (u32 (heap_page k - KERNEL_VIRTUAL_BASE) = heap_page k - KERNEL_VIRTUAL_BASE) as Hu
    by (apply u32_id; unfold heap_page, KPHEAP_VIRT_BASE, KERNEL_VIRTUAL_BASE; lia).
  set (m1 := store32 (memset (pmem s) (heap_page k) 0 4096) (pd + 4 * (v / 4194304)) e).
  set (m2 := fill_big 1024 (heap_page k - KERNEL_VIRTUAL_BASE) 0 ph (if pd =? kernel_page_directory then 3 else 7) m1).
  eexists. split.
  { unfold map_page_table. rewrite Hpm, Hvm. cbn [negb Z.eqb].
    assert (rd32 (pd + 4 * pd_index_of v) s = Ok 0 s) as Hrd by (unfold rd32, gets; rewrite pd_index_eq; by unfold pde in Hun; rewrite Hun).
    assert (gets cpu_pse s = Ok false s) as Hps by (unfold gets; by rewrite Hpse).
    rewrite (bind_ok _ _ _ _ _ Hrd). cbn [negb Z.eqb]. rewrite (bind_ok _ _ _ _ _ Hps), (bind_ok _ _ _ _ _ Halloc).
    cbv zeta. rewrite Hu, pd_index_eq. change (if pd =? kernel_page_directory then 259 else 7) with (dir_flags pd).
    rewrite (lor_flags (heap_page k - KERNEL_VIRTUAL_BASE)) by
      (first [unfold heap_page, KPHEAP_VIRT_BASE, KERNEL_VIRTUAL_BASE; dlia | pose proof (dir_flags_cases pd); lia]).
    erewrite (bind_ok (wr32 _ _)) by reflexivity. unfold upd_pmem, modify. cbn [pmem kpheap_blocks cpu_pse current_page_directory phys].
    fold e m1 m2. reflexivity. }
  assert (forall x, KERNEL_VIRTUAL_BASE <= x -> m2 x = m1 x) as Hhigh.
  { intros x Hx. apply fill_big_outside. unfold heap_page, KPHEAP_VIRT_BASE, KERNEL_VIRTUAL_BASE in *. lia. }
  clearbody m2. intros v' Hv' Hvv. destruct (v_index v' Hv') as [_ Hj']. unfold is_mapped, rd32. mstep. rewrite pd_index_eq, Hvv.
  assert (pd <> heap_page k) as Hnk by (intros Heq; by apply (ok_pd_used _ _ _ Hok k Hk' Heq)).
  assert (is_u32 e) as He by (unfold e, heap_page, is_u32, KPHEAP_VIRT_BASE, KERNEL_VIRTUAL_BASE; pose proof (dir_flags_cases pd); lia).
  assert (load32 m2 (pd + 4 * (v / 4194304)) = e) as ->.
  { rewrite (load32_ext m1) by (intros x Hx; apply Hhigh; lia). unfold m1. rewrite load32_store32. by apply u32_id. }
  destruct Hist as [Hn0 H4]. dec_false (e =? 0). rewrite land_4mib, H4 by done. cbn. rewrite land_mask, pt_index_eq by done.
  replace (frame e + (v' / 4096) mod 1024 * 4 + KERNEL_VIRTUAL_BASE) with (table_of e + 4 * ((v' / 4096) mod 1024)) by (unfold table_of; lia).
  rewrite Htab, u32_id by (unfold heap_page, KPHEAP_VIRT_BASE; lia).
  rewrite (load32_ext m1) by (intros x Hx; apply Hhigh; unfold heap_page, KPHEAP_VIRT_BASE, KERNEL_VIRTUAL_BASE in *; lia).
  unfold m1. rewrite load32_store32_far by
    (apply pages_apart; [apply heap_page_aligned|apply (ok_pd _ _ _ Hok)|congruence|done|done]).
  unfold load32, load8. rewrite !memset_inside by lia. done.
Qed.

(** [get_physical] of an address in a 4 MiB page reads memory at the value of
    the directory entry instead of using the entry. *)
Lemma get_physical_4mib s pd v : let e := pde (pmem s) pd (v / 4194304) in
  e <> 0 -> is_4mib e = true ->
  get_physical v pd s = Ok (u32 (frame (load32 (pmem s) e) + v mod 4194304)) s.
Proof.
  intros e He H4. unfold get_physical, rd32. mstep. rewrite pd_index_eq.
  change (load32 (pmem s) (pd + 4 * (v / 4194304))) with e. apply Z.eqb_neq in He. by rewrite He, H4.
Qed.

(** Without 4 MiB pages, [unmap_page_table] hands [pt_free] an address far
    outside the page heap. *)
Lemma unmap_page_table_without_pse s pd v : space_ok s pd -> cpu_pse s = false -> is_u32 v -> v mod 4194304 = 0 ->
  is_table (pde (pmem s) pd (v / 4194304)) -> table_of (pde (pmem s) pd (v / 4194304)) < KPHEAP_VIRT_BASE + 4194304 ->
  unmap_page_table v pd s = Fault.
Proof.
  intros Hok Hpse Hv Hvm Ht Hpg. destruct (v_index v Hv) as [Hi _]. pose proof Ht as [H0' H4].
  set (e := pde (pmem s) pd (v / 4194304)) in *.
  assert (is_u32 e) as He by apply load32_range. unfold unmap_page_table, rd32. rewrite Hvm. mstep.
  rewrite pd_index_eq. change (load32 (pmem s) (pd + 4 * (v / 4194304))) with e. dec_false (e =? 0). rewrite Hpse.
  unfold pt_free, set_block. unfold table_of in Hpg. rewrite frame_eq in Hpg by done.
  unfold KPHEAP_VIRT_BASE, KPHEAP_BLOCK_SIZE, KERNEL_VIRTUAL_BASE in *.
  assert (u32 (e + 4 * 3221225472) = e) as -> by (unfold u32; replace (e + 4 * 3221225472) with (e + 3 * 4294967296) by lia;
    rewrite Z.mod_add by lia; by apply Z.mod_small).
  pose proof He as [? ?].
  assert (u32 (e - 3225419776) = e - 3225419776 + 4294967296) as -> by (symmetry; apply (Z.mod_unique_pos _ _ (-1)); dlia).
  assert ((e - 3225419776 + 4294967296) / 4096 <? 1024 = false) as -> by (apply Z.ltb_ge; dlia).
  by rewrite andb_false_r.
Qed.
End Paging.

(** ** A concrete address space *)

(** An empty user directory in the first page of the page heap. *)
Definition demo_pd : Z := 3225419776.
Definition demo_kernel_pd : Z := 3222274048.
Definition demo_blocks_used : list Z := KPHEAP_BLOCK_USED :: replicate 1023 KPHEAP_BLOCK_FREE.
Definition demo_pg (pse : bool) : pgstate bump :=
  mk_pg (fun _ => 0) demo_blocks_used pse demo_kernel_pd demo_phys.

Lemma demo_pg_ok pse : space_ok (demo_pg pse) demo_pd.
Proof.
  split.
  - unfold demo_pd. split; [lia|]. split; [lia|]. reflexivity.
  - reflexivity.
  - intros k Hk Heq. unfold demo_pd, heap_page, KPHEAP_VIRT_BASE in Heq. assert (k = 0) as -> by lia. done.
  - intros i _ [Hn _]. done.
  - intros i j _ _ _ [Hn _]. done.
Qed.
Lemma demo_unmapped pse v : translate (pmem (demo_pg pse)) demo_pd v = None.
Proof. done. Qed.

Lemma demo_can_map pse ph n : 0 <= ph -> ph mod 4096 = 0 -> ph + n <= 4294967296 -> 0 < n <= 8192 -> n mod 4096 = 0 ->
  can_map (demo_pg pse) demo_pd 134512640 n ph.
Proof.
  intros Hp Hm Hpe Hn Hnm. split.
  - apply demo_pg_ok.
  - split; [lia|]. split; [reflexivity|lia].
  - done.
  - split; [lia|done].
  - intros v' _. apply demo_unmapped.
  - rewrite decide_True by (right; lia). unfold tables_needed. assert (free_count (kpheap_blocks (demo_pg pse)) = 1023) as -> by (vm_compute; reflexivity).
    change (pde (pmem (demo_pg pse)) demo_pd (134512640 / 4194304) =? 0) with true. dlia.
  - intros Hs. exfalso. apply Hs. right. lia.
Qed.

Lemma map_flexible_correct_witness : exists s', map_flexible demo_kernel_pd 5000 2097152 134512931 demo_pd (demo_pg true) = Ok tt s' /\
  mapped (demo_pg true) s' demo_pd 134512640 8192 2097152.
Proof.
  assert (page_start 134512931 = 134512640 /\ page_bytes 5000 134512931 = 8192) as [E1 E2] by (split; vm_compute; reflexivity).
  pose proof (map_flexible_correct demo_kernel_pd (demo_pg true) 5000 2097152 134512931 demo_pd) as Ht.
  rewrite E1, E2 in Ht. apply Ht; [lia|unfold is_u32; lia|lia|]. apply demo_can_map; [lia|reflexivity|lia|lia|reflexivity].
Defined.

Lemma map_memory_correct_witness : exists s' p, map_memory demo_kernel_pd 5000 134512931 demo_pd (demo_pg true) = Ok tt s' /\
  translate (pmem s') demo_pd 134512641 = Some 1052673 /\
  lrep (phys s') [(16, mk_p_block 1048576 4096 20); (40, mk_p_block 1052672 8192 20); (p, mk_p_block 1060864 0 1);
        (64, mk_p_block 1060864 4096 20); (88, mk_p_block 1064960 4096 2)].
Proof.
  assert (page_start 134512931 = 134512640 /\ page_bytes 5000 134512931 = 8192) as [E1 E2] by (split; vm_compute; reflexivity).
  pose proof (map_memory_correct demo_kernel_pd (demo_pg true) 5000 134512931 demo_pd demo_blocks
    [(16, mk_p_block 1048576 4096 20)] 40 (mk_p_block 1052672 8192 1) [(64, mk_p_block 1060864 4096 20); (88, mk_p_block 1064960 4096 2)]) as Ht.
  rewrite E1, E2 in Ht. destruct demo_phys_ok as [Hr Htl].
  destruct Ht as (s' & p & Hrun & Htr & _ & Hr'); [lia|unfold is_u32; lia|lia|exact Hr|exact Htl|exact I|vm_compute; reflexivity| |].
  - apply demo_can_map; cbn [base_addr]; [lia|reflexivity|lia|lia|reflexivity].
  - exists s', p. split; [exact Hrun|]. split; [|exact Hr']. rewrite Htr by (unfold is_u32; lia). reflexivity.
Defined.


(** The directory with one page table, its page 1, and one page mapped. *)
Definition demo_one : pgstate bump :=
  mk_pg (store32 (store32 (fun _ => 0) (demo_pd + 4 * 32) 4198407) (KPHEAP_VIRT_BASE + 4096 + 4 * 72) 2097159)
    (KPHEAP_BLOCK_USED :: KPHEAP_BLOCK_USED :: replicate 1022 KPHEAP_BLOCK_FREE) true demo_kernel_pd demo_phys.
Lemma demo_one_other i : 0 <= i < 1024 -> i <> 32 -> pde (pmem demo_one) demo_pd i = 0.
Proof.
  intros Hi Hne. unfold pde, demo_one, demo_pd, KPHEAP_VIRT_BASE. cbn [pmem]. by rewrite !load32_store32_far by lia.
Qed.
Lemma demo_one_ok : space_ok demo_one demo_pd.
Proof.
  split.
  - unfold demo_pd. split; [lia|]. split; [lia|]. reflexivity.
  - reflexivity.
  - intros k Hk Heq. unfold demo_pd, heap_page, KPHEAP_VIRT_BASE in Heq. assert (k = 0) as -> by lia. done.
  - intros i Hi Ht. destruct (decide (i = 32)) as [-> |]; [|destruct Ht as [Ht _]; rewrite demo_one_other in Ht by done; done].
    assert (table_of (pde (pmem demo_one) demo_pd 32) = 3225423872) as -> by (vm_compute; reflexivity). split; [lia|]. split; [|done].
    intros k Hk Heq. assert (k = 1) as -> by (unfold heap_page, KPHEAP_VIRT_BASE in Heq; lia). done.
  - intros i j Hi Hj Hne [Hti _] [Htj _]. exfalso. destruct (decide (i = 32)) as [-> |].
    + apply Htj. by apply demo_one_other.
    + apply Hti. by apply demo_one_other.
Qed.
Lemma unmap_page_correct_witness : exists s', unmap_page 134512640 demo_pd demo_one = Ok tt s' /\ space_ok s' demo_pd /\
  (forall v', is_u32 v' -> translate (pmem s') demo_pd v' =
     if v' / 4096 =? 134512640 / 4096 then None else translate (pmem demo_one) demo_pd v').
Proof. exact (unmap_page_correct demo_one demo_pd 134512640 demo_one_ok ltac:(unfold is_u32; lia)). Defined.

Lemma map_page_table_without_pse_witness : exists s', map_page_table demo_kernel_pd 8388608 134217728 demo_pd (demo_pg false) = Ok tt s' /\
  forall v', is_u32 v' -> v' / 4194304 = 134217728 / 4194304 -> is_mapped v' demo_pd s' = Ok false s'.
Proof.
  apply (map_page_table_without_pse demo_kernel_pd (demo_pg false) demo_pd 8388608 134217728 1 (demo_pg_ok false));
    [reflexivity|unfold is_u32; lia|unfold is_u32; lia|reflexivity..|unfold KERNEL_VIRTUAL_BASE, demo_pd; lia].
Defined.
