(* ===== verification/AddrSpace.v ===== *)
(** Copying an address space ([copy_adress_space] of memory/paging.c).

    The memory that processes see is physical memory, reached through the page
    tables: an access of a user address is translated with the directory in use,
    and faults when the address is not mapped.  The kernel buffer through which
    the bytes travel is allocated on the kernel heap; its contents, which nothing
    else sees, are a list of bytes. *)

From Stdlib Require Import FunctionalExtensionality.
From S2P Require Import Prelude Mem KHeap Alloc Dll Blocks PhysMem Paging.

Record aspace (H : Type) : Type := mk_as { pgs : pgstate H; ram : mem }.
Arguments mk_as {H} _ _.
Arguments pgs {H} _.
Arguments ram {H} _.

Definition set_heap_of {H} (h : H) (s : lstate p_block H) : lstate p_block H := mk_lstate (first s) (nodes s) h.
Definition set_phys {H} (p : lstate p_block H) (s : pgstate H) : pgstate H :=
  mk_pg (pmem s) (kpheap_blocks s) (cpu_pse s) (current_page_directory s) p.
Definition set_dir {H} (pd : Z) (s : pgstate H) : pgstate H := mk_pg (pmem s) (kpheap_blocks s) (cpu_pse s) pd (phys s).

(** The bytes [bs] at the addresses [ps]. *)
Fixpoint put_bytes (ps bs : list Z) (m : mem) : mem :=
  match ps, bs with
  | p :: ps', b :: bs' => put_bytes ps' bs' (store8 m p b)
  | _, _ => m
  end.

Section AddrSpace.
Context {H : Type} `{Allocator H} (kernel_page_directory : Z).
Let K (T : Type) : Type := M (aspace H) T.

Definition on_pgs {T} (c : M (pgstate H) T) : K T :=
  fun s => match c (pgs s) with
           | Ok a p => Ok a (mk_as p (ram s))
           | Fatal e => Fatal e | Fault => Fault | NoFuel => NoFuel
           end.
Definition on_kheap {T} (c : M H T) : K T :=
  on_pgs (lift_phys (fun p => match c (heap p) with
                              | Ok a h => Ok a (set_heap_of h p)
                              | Fatal e => Fatal e | Fault => Fault | NoFuel => NoFuel
                              end)).

(** The physical addresses of the [n] user addresses from [v] on. *)
Fixpoint frames (n : nat) (s : pgstate H) (v : Z) : option (list Z) :=
  match n with
  | O => Some []
  | S n' => match translate (pmem s) (current_page_directory s) v with
            | Some a => match frames n' s (v + 1) with Some r => Some (a :: r) | None => None end
            | None => None
            end
  end.
(** [memcpy] from and to user memory. *)
Definition user_read (v n : Z) : K (list Z) :=
  fun s => match frames (Z.to_nat n) (pgs s) v with Some ps => Ok (load8 (ram s) <$> ps) s | None => Fault end.
Definition user_write (v : Z) (bs : list Z) : K unit :=
  fun s => match frames (length bs) (pgs s) v with
           | Some ps => Ok tt (mk_as (pgs s) (put_bytes ps bs (ram s)))
           | None => Fault
           end.

(** One page, or one 4 MiB page: new memory in [tr], filled with the bytes of
    [pd]; returns the buffer. *)
Definition copy_range (n v pd tr cpd : Z) : K Z :=
  on_pgs (map_memory kernel_page_directory n v tr) ;;;
  kbuffer <- on_kheap (malloc n) ;;
  on_pgs (pd_switch pd) ;;;
  bs <- user_read v n ;;
  on_pgs (pd_switch tr) ;;;
  user_write v bs ;;;
  on_pgs (pd_switch cpd) ;;;
  ret kbuffer.

(** The loop over the page table [pt] of the directory entry [i]. *)
Fixpoint copy_pages (n : nat) (i j pt pd tr cpd : Z) : K unit :=
  match n with
  | O => ret tt
  | S n' =>
    e <- on_pgs (rd32 (pt + 4 * j)) ;;
    (if e =? 0 then ret tt else
       kbuffer <- copy_range 4096 (Z.shiftl i 22 + Z.shiftl j 12) pd tr cpd ;;
       on_kheap (free kbuffer)) ;;;
    copy_pages n' i (j + 1) pt pd tr cpd
  end.
(** The loop over the user part of the directory; the buffer for a 4 MiB page is
    not freed. *)
Fixpoint copy_directory (n : nat) (i pd tr cpd : Z) : K unit :=
  match n with
  | O => ret tt
  | S n' =>
    e <- on_pgs (rd32 (pd + 4 * i)) ;;
    (if e =? 0 then ret tt
     else if negb (Z.land e PD_BIT_4KB_PAGE =? 0) then copy_range 4194304 (Z.shiftl i 22) pd tr cpd ;;; ret tt
     else copy_pages 1024 i 0 (u32 (Z.land e PD_ADDRESS_MASK + KERNEL_VIRTUAL_BASE)) pd tr cpd) ;;;
    copy_directory n' (i + 1) pd tr cpd
  end.
Definition copy_adress_space (page_directory : Z) : K Z :=
  cpd <- on_pgs (gets current_page_directory) ;;
  tr <- on_pgs (get_kernel_pd_clone kernel_page_directory) ;;
  copy_directory (Z.to_nat (Z.shiftr KERNEL_VIRTUAL_BASE 22)) 0 page_directory tr cpd ;;;
  on_pgs (pd_switch cpd) ;;;
  ret tr.

(** ** Bytes *)

Lemma put_bytes_range base x : forall bs k m,
  put_bytes ((fun i => base + Z.of_nat i) <$> seq k (length bs)) bs m x =
  if (base + Z.of_nat k <=? x) && (x <? base + Z.of_nat (k + length bs))
  then u8 (bs !!! Z.to_nat (x - base - Z.of_nat k)) else m x.
Proof.
  induction bs as [|b bs IH]; intros k m; cbn [length seq fmap list_fmap put_bytes].
  - destruct (base + Z.of_nat k <=? x) eqn:?, (x <? base + Z.of_nat (k + 0)) eqn:?; zify_bool; cbn; (done || lia).
  - rewrite IH. destruct (Z.eq_dec x (base + Z.of_nat k)) as [-> |Hne].
    + dec_false (base + Z.of_nat (S k) <=? base + Z.of_nat k). cbn [andb]. rewrite store8_same.
      dec_true (base + Z.of_nat k <=? base + Z.of_nat k). dec_true (base + Z.of_nat k <? base + Z.of_nat (k + S (length bs))).
      cbn [andb]. by replace (Z.to_nat (base + Z.of_nat k - base - Z.of_nat k)) with O by lia.
    + replace (k + S (length bs))%nat with (S k + length bs)%nat by lia.
      destruct (x <? base + Z.of_nat (S k + length bs)) eqn:E1; [|by rewrite !andb_false_r, store8_other].
      rewrite !andb_true_r. destruct (base + Z.of_nat k <=? x) eqn:E2.
      * zify_bool. dec_true (base + Z.of_nat (S k) <=? x).
        by replace (Z.to_nat (x - base - Z.of_nat k)) with (S (Z.to_nat (x - base - Z.of_nat (S k)))) by lia.
      * zify_bool. dec_false (base + Z.of_nat (S k) <=? x). by apply store8_other.
Qed.

(** A range whose addresses are all translated. *)
Lemma frames_ok (s : pgstate H) (f : Z -> Z) : forall n v,
  (forall x, v <= x < v + Z.of_nat n -> translate (pmem s) (current_page_directory s) x = Some (f x)) ->
  frames n s v = Some ((fun i => f (v + Z.of_nat i)) <$> seq 0 n).
Proof.
  induction n as [|n IH]; intros v Hf; [done|]. cbn [frames seq fmap list_fmap]. rewrite Hf, IH by (first [lia|intros; apply Hf; lia]).
  rewrite <- fmap_S_seq, <- list_fmap_compose, Z.add_0_r. do 2 f_equal. apply list_fmap_ext. intros. cbn [compose]. f_equal. lia.
Qed.

(** ** The page tables of the user part *)

(** The directory and its tables below the kernel. *)
Definition user_pages (s : pgstate H) (pd x : Z) : Prop :=
  in_page pd x \/ exists i, 0 <= i < 768 /\ is_table (pde (pmem s) pd i) /\ in_page (table_of (pde (pmem s) pd i)) x.

Lemma pde_user m s pd i : (forall x, user_pages s pd x -> m x = pmem s x) -> 0 <= i < 1024 -> pde m pd i = pde (pmem s) pd i.
Proof. intros Hm Hi. apply load32_ext. intros x Hx. apply Hm. left. unfold in_page. lia. Qed.
Lemma pte_user m s pd i j : (forall x, user_pages s pd x -> m x = pmem s x) -> 0 <= i < 768 -> is_table (pde (pmem s) pd i) -> 0 <= j < 1024 ->
  load32 m (table_of (pde (pmem s) pd i) + 4 * j) = load32 (pmem s) (table_of (pde (pmem s) pd i) + 4 * j).
Proof. intros Hm Hi Ht Hj. apply load32_ext. intros x Hx. apply Hm. right. exists i. unfold in_page. split; [done|]. split; [done|lia]. Qed.

Lemma user_index v : 0 <= v < KERNEL_VIRTUAL_BASE -> 0 <= v / 4194304 < 768 /\ 0 <= (v / 4096) mod 1024 < 1024.
Proof. unfold KERNEL_VIRTUAL_BASE. intros. split; [dlia|apply Z.mod_pos_bound; lia]. Qed.
Lemma translate_user m s pd v : (forall x, user_pages s pd x -> m x = pmem s x) -> 0 <= v < KERNEL_VIRTUAL_BASE ->
  translate m pd v = translate (pmem s) pd v.
Proof.
  intros Hm Hv. destruct (user_index v Hv) as [Hi Hj]. unfold translate. rewrite (pde_user m s) by (done || lia).
  set (e := pde (pmem s) pd (v / 4194304)). destruct (Z.eqb_spec e 0) as [|Hne]; [done|]. destruct (is_4mib e) eqn:E4; [done|].
  unfold e. by rewrite (pte_user m s) by (done || lia).
Qed.

(** The two ways in which the kernel runs out of memory. *)
Definition out_of_memory {T A} (r : res T A) : Prop :=
  r = Fatal "Trying to reserve more physical memory than available" \/ r = Fatal "Page heap is full. How did you do this ?".
Lemma oom_bind {T A B} (c : M T A) (k : A -> M T B) s : out_of_memory (c s) -> out_of_memory (bind c k s).
Proof. unfold out_of_memory, bind. intros [-> | ->]; auto. Qed.
Lemma oom_pgs {T} (c : M (pgstate H) T) s : out_of_memory (c (pgs s)) -> out_of_memory (on_pgs c s).
Proof. unfold out_of_memory, on_pgs. intros [-> | ->]; auto. Qed.
Lemma on_pgs_ok {T} (c : M (pgstate H) T) s a p : c (pgs s) = Ok a p -> on_pgs c s = Ok a (mk_as p (ram s)).
Proof. unfold on_pgs. by intros ->. Qed.

(** Free blocks start at pages. *)
Definition page_blocks (l : list (Z * p_block)) : Prop := Forall (fun e => is_free e.2 = true -> base_addr e.2 mod 4096 = 0) l.

Lemma pt_alloc_full (s : pgstate H) : KPHEAP_BLOCK_FREE ∉ kpheap_blocks s -> pt_alloc s = Fatal "Page heap is full. How did you do this ?".
Proof.
  intros Hn. unfold pt_alloc. rewrite (bind_ok get _ s s s eq_refl). pose proof (first_free_block_spec (kpheap_blocks s) 0) as Hs.
  destruct (first_free_block (kpheap_blocks s) 0) as [i|]; [|done]. destruct Hs as [_ Hs]. apply list_elem_of_lookup_2 in Hs. done.
Qed.
Lemma map_page_full (s : pgstate H) pd ph v : ph mod 4096 = 0 -> v mod 4096 = 0 -> pde (pmem s) pd (v / 4194304) = 0 ->
  KPHEAP_BLOCK_FREE ∉ kpheap_blocks s -> map_page kernel_page_directory ph v pd s = Fatal "Page heap is full. How did you do this ?".
Proof.
  intros Hp Hv He Hn. unfold map_page. rewrite Hp, Hv. cbn [negb Z.eqb].
  assert (rd32 (pd + 4 * pd_index_of v) s = Ok 0 s) as Hrd by (unfold rd32, gets; rewrite pd_index_eq; unfold pde in He; by rewrite He).
  rewrite (bind_ok _ _ _ _ _ Hrd). cbn [Z.eqb]. rewrite bind_assoc. unfold bind at 1. by rewrite pt_alloc_full.
Qed.

(** A page or 4 MiB at an aligned address. *)
Definition step_size (n : Z) : Prop := n = 4096 \/ n = 4194304.
Lemma step_pages n v : step_size n -> 0 <= v -> v mod n = 0 -> page_start v = v /\ page_bytes n v = n /\ v mod 4096 = 0 /\
  (v + n - 1) / 4194304 = v / 4194304.
Proof.
  intros Hn Hv Hm. assert (v mod 4096 = 0) as Hp.
  { destruct Hn as [-> | ->]; [done|]. apply Z.mod_divide in Hm as [q ->]; [|lia]. replace (q * 4194304) with (q * 1024 * 4096) by lia. by apply Z.mod_mul. }
  unfold page_start, page_bytes. rewrite Hp. split; [lia|]. split; [|split; [done|]].
  - rewrite Z.add_0_r. destruct Hn as [-> | ->]; apply round_up_unique; lia || reflexivity.
  - destruct Hn as [-> | ->]; dlia.
Qed.

(** New memory for one step: the kernel is out of memory, or the step is mapped to
    a range that was free. *)
Record granted (l l' : list (Z * p_block)) (b n : Z) : Prop := {
  gr_tiled : tiled l';
  gr_pages : page_blocks l';
  gr_was : forall x, b <= x < b + n -> free_at l x;
  gr_now : forall x, free_at l' x <-> free_at l x /\ ~ (b <= x < b + n) }.

Lemma block_type_used pd : block_type kernel_page_directory pd <> PHYS_FREE_BLOCK_TYPE.
Proof. unfold block_type, PHYS_KERNELF_BLOCK_TYPE, PHYS_USER_BLOCK_TYPE, PHYS_FREE_BLOCK_TYPE. case_bool; lia. Qed.

Lemma map_memory_step (s : pgstate H) pd v n l : step_size n -> 0 <= v -> v mod n = 0 -> v + n <= KERNEL_VIRTUAL_BASE ->
  space_ok s pd -> lrep (phys s) l -> tiled l -> page_blocks l -> a_room (heap (phys s)) sizeof_p_block ->
  (forall v', v <= v' < v + n -> translate (pmem s) pd v' = None) ->
  out_of_memory (map_memory kernel_page_directory n v pd s) \/
  exists s' b l' ph, map_memory kernel_page_directory n v pd s = Ok tt s' /\ mapped (set_phys ph s) s' pd v n b /\
    lrep (phys s') l' /\ granted l l' b n.
Proof.
  intros Hn Hv Hm He Hok Hr Ht Hpg Hroom Hun. destruct (step_pages n v Hn Hv Hm) as (Es & Eb & Hvm & Hidx). unfold KERNEL_VIRTUAL_BASE in He.
  assert (0 < n <= 4194304 /\ n mod 4096 = 0) as [Hnn Hnm] by (destruct Hn as [-> | ->]; done). assert (is_u32 v) as Hvu by (unfold is_u32; lia).
  destruct (range_pages n v) as (R1 & R2 & _); rewrite ?Es, ?Eb; [lia|done|lia|lia|]. rewrite Es in R1. rewrite Eb in R2.
  assert (alignup n 4096 = n) as Hal.
  { rewrite alignup_eq by (pose proof (round_up_spec n 4096); lia). apply round_up_unique; lia. }
  destruct (find_block (reservable n) l) as [[[l1 [c b]] l2]|] eqn:Hfind.
  2: { left. left. unfold map_memory. cbv zeta. rewrite R1, R2. unfold bind at 1, lift_phys at 1. rewrite (reserve_block_none _ l); [done|done|by rewrite Hal]. }
  pose proof (find_block_spec (reservable n) l) as Hsp. rewrite Hfind in Hsp. destruct Hsp as (-> & Htest & _).
  unfold reservable in Htest. cbn [snd] in Htest. zify_bool. assert (is_free b = true) as Hfree by (by apply Z.eqb_eq).
  destruct (p_range _ _ _ _ _ Ht eq_refl) as (Hb & Hsz & Hend). specialize (Hend (b_free_fixed b Hfree)). unfold is_u32 in Hb, Hsz.
  assert (base_addr b mod 4096 = 0) as Hbm.
  { unfold page_blocks in Hpg. rewrite Forall_forall in Hpg. apply (Hpg (c, b)); [|done]. rewrite elem_of_app, elem_of_cons. auto. }
  destruct (decide (pde (pmem s) pd (v / 4194304) = 0 /\ KPHEAP_BLOCK_FREE ∉ kpheap_blocks s)) as [[Hp0 Hfull]|Htab].
  - left. right. rewrite <- Hal in Hfind.
    destruct (reserve_block_ok (phys s) _ n (block_type kernel_page_directory pd) l1 c b l2 Hr Ht ltac:(lia) Hroom Hfind) as (p & ph' & n' & Hrun & _).
    unfold map_memory. cbv zeta. rewrite R1, R2.
    assert (lift_phys (reserve_block n (block_type kernel_page_directory pd)) s = Ok (base_addr b) (set_phys ph' s)) as Hl by (unfold lift_phys; by rewrite Hrun).
    rewrite (bind_ok _ _ _ _ _ Hl). unfold for_range. dec_false (4194304 <? n). rewrite andb_false_r.
    rewrite (bind_ok (ret _) _ _ _ _ eq_refl). cbn [fst snd page_loop]. dec_false (n =? 0). cbn [negb]. unfold bind at 1.
    rewrite !Z.add_0_r, (u32_id v), (u32_id (base_addr b)) by lia. by rewrite map_page_full.
  - right. destruct (map_memory_ok kernel_page_directory s n v pd (l1 ++ (c, b) :: l2) l1 c b l2 ltac:(lia) Hvu) as (s' & p & ph' & Hrun & HM & Hr' & Ht');
      rewrite ?Es, ?Eb in *; [lia|exact Hr|exact Ht|exact Hroom|exact Hfind| |].
    + split; [done|lia|lia|lia|exact Hun| |intros Hs; exfalso; apply Hs; right; lia].
      rewrite decide_True by (right; lia). unfold tables_needed. rewrite Hidx.
      destruct (Z.eqb_spec (pde (pmem s) pd (v / 4194304)) 0) as [E0|]; [|unfold free_count; lia].
      assert (0 < free_count (kpheap_blocks s)); [|lia]. apply free_count_pos.
      destruct (decide (KPHEAP_BLOCK_FREE ∈ kpheap_blocks s)); [done|]. exfalso. by apply Htab.
    + eexists s', (base_addr b), _, ph'. split; [exact Hrun|]. split; [exact HM|]. split; [exact Hr'|].
      destruct (split_free_at l1 c b l2 p n (block_type kernel_page_directory pd) Ht) as [F1 F2]; [apply Hr|done|apply block_type_used|lia|].
      split; [exact Ht'| |exact F1|exact F2].
      unfold page_blocks in *. apply Forall_app in Hpg as [Hp1 Hp2]. apply Forall_cons in Hp2 as [_ Hp2].
      apply Forall_app. split; [done|]. apply Forall_cons. split; [by cbn|]. apply Forall_cons. split; [|done].
      intros _. cbn. by apply add_mod_0.
Qed.

(** ** The copy so far *)

Context (Hroom : forall h n, a_ok h -> a_room h n).

(** The user addresses below [k] of [pd] are copied to [tr]: the same addresses
    are mapped, each to a byte of its own that was free in [l0] and is not any
    more, with the same contents.  [pd] and all memory that was in use are as in [s0]. *)
Record copied (s0 : aspace H) (l0 : list (Z * p_block)) (pd tr k : Z) (s : aspace H) (l : list (Z * p_block)) : Prop := {
  cp_lrep : lrep (phys (pgs s)) l;
  cp_tiled : tiled l;
  cp_pages : page_blocks l;
  cp_space : space_ok (pgs s) tr;
  cp_current : current_page_directory (pgs s) = current_page_directory (pgs s0);
  cp_apart : forall x, user_pages (pgs s0) pd x -> ~ reach (pgs s) tr 0 KERNEL_VIRTUAL_BASE x;
  cp_same : forall x, user_pages (pgs s0) pd x -> pmem (pgs s) x = pmem (pgs s0) x;
  cp_free : forall a, free_at l a -> free_at l0 a;
  cp_ram : forall a, ~ free_at l0 a -> load8 (ram s) a = load8 (ram s0) a;
  cp_done : forall v, 0 <= v < k -> match translate (pmem (pgs s0)) pd v with
    | None => translate (pmem (pgs s)) tr v = None
    | Some a => exists a', translate (pmem (pgs s)) tr v = Some a' /\ free_at l0 a' /\ ~ free_at l a' /\
        load8 (ram s) a' = load8 (ram s0) a
    end;
  cp_inj : forall v v' a, 0 <= v < k -> 0 <= v' < k -> translate (pmem (pgs s)) tr v = Some a -> translate (pmem (pgs s)) tr v' = Some a -> v = v';
  cp_todo : forall v, k <= v < KERNEL_VIRTUAL_BASE -> translate (pmem (pgs s)) tr v = None;
  cp_kernel : forall i, 768 <= i < 1024 -> pde (pmem (pgs s)) tr i = pde (pmem (pgs s0)) kernel_page_directory i }.

Lemma lrep_heap (p : lstate p_block H) l h : lrep p l -> a_ok h -> (forall q, q ∈ l.*1 -> a_live (heap p) q -> a_live h q) -> lrep (set_heap_of h p) l.
Proof.
  intros (R1 & R2 & R3 & R4 & R5 & R6) Hok Hl. split; [done|]. split; [done|]. split; [done|]. split; [done|]. split; [done|].
  rewrite Forall_forall in R6 |- *. intros q Hq. by apply Hl, R6.
Qed.
Lemma kbuffer_ok (s : aspace H) l n : lrep (phys (pgs s)) l -> exists kb h,
  on_kheap (malloc n) s = Ok kb (mk_as (set_phys (set_heap_of h (phys (pgs s))) (pgs s)) (ram s)) /\
  lrep (set_heap_of h (phys (pgs s))) l /\ a_live h kb /\ kb ∉ l.*1.
Proof.
  intros Hr. pose proof Hr as (_ & _ & _ & _ & Hok & Hlive).
  destruct (malloc_law (heap (phys (pgs s))) n Hok (Hroom _ _ Hok)) as (kb & h & Hm & Hok' & _ & Hnew & Hl).
  exists kb, h. split; [|split; [|split]].
  - apply on_pgs_ok. unfold lift_phys. by rewrite Hm.
  - apply lrep_heap; [done|done|]. intros q _ Hq. apply Hl. by right.
  - apply Hl. by left.
  - intros Hin. rewrite Forall_forall in Hlive. by apply Hnew, Hlive.
Qed.
Lemma kbuffer_free (s : aspace H) l kb : lrep (phys (pgs s)) l -> a_live (heap (phys (pgs s))) kb -> kb ∉ l.*1 -> exists h,
  on_kheap (free kb) s = Ok tt (mk_as (set_phys (set_heap_of h (phys (pgs s))) (pgs s)) (ram s)) /\
  lrep (set_heap_of h (phys (pgs s))) l.
Proof.
  intros Hr Hlv Hnew. pose proof Hr as (_ & _ & _ & _ & Hok & _).
  destruct (free_law (heap (phys (pgs s))) kb Hok Hlv) as (h & Hm & Hok' & Hl). exists h. split.
  - apply on_pgs_ok. unfold lift_phys. by rewrite Hm.
  - apply lrep_heap; [done|done|]. intros q Hq Hql. apply Hl. split; [done|]. intros ->. done.
Qed.
(** Only the kernel heap changes. *)
Lemma copied_heap s0 l0 pd tr k s l h : copied s0 l0 pd tr k s l -> lrep (set_heap_of h (phys (pgs s))) l ->
  copied s0 l0 pd tr k (mk_as (set_phys (set_heap_of h (phys (pgs s))) (pgs s)) (ram s)) l.
Proof. intros [] Hr. by split. Qed.
(** Addresses that are not mapped. *)
Lemma copied_skip s0 l0 pd tr k n s l : copied s0 l0 pd tr k s l -> 0 <= n -> k + n <= KERNEL_VIRTUAL_BASE ->
  (forall v, k <= v < k + n -> translate (pmem (pgs s0)) pd v = None) -> copied s0 l0 pd tr (k + n) s l.
Proof.
  intros [] Hn He Hun. split; try done.
  - intros v Hv. destruct (decide (v < k)); [by apply cp_done0; lia|]. rewrite Hun by lia. apply cp_todo0. lia.
  - intros v v' a Hv Hv' Ha Ha'. destruct (decide (v < k)); [|rewrite cp_todo0 in Ha by lia; done].
    destruct (decide (v' < k)); [|rewrite cp_todo0 in Ha' by lia; done]. apply (cp_inj0 v v' a); (done || lia).
  - intros v Hv. apply cp_todo0. lia.
Qed.

(** A step whose bytes [m] are in place. *)
Lemma copied_step s0 l0 pd tr k n s l s1 ph b l' p m : copied s0 l0 pd tr k s l -> 0 < n -> 0 <= k -> k + n <= KERNEL_VIRTUAL_BASE ->
  mapped (set_phys ph (pgs s)) s1 tr k n b -> granted l l' b n -> lrep p l' ->
  (forall x, ~ (b <= x < b + n) -> load8 m x = load8 (ram s) x) ->
  (forall v, k <= v < k + n -> exists a, translate (pmem (pgs s0)) pd v = Some a /\ load8 m (b + (v - k)) = load8 (ram s0) a) ->
  copied s0 l0 pd tr (k + n) (mk_as (set_dir (current_page_directory (pgs s0)) (set_phys p s1)) m) l'.
Proof.
  intros Hc Hn Hk He HM [Gt Gp Gw Gn] Hr Hout Hin. pose proof (mp_extended _ _ _ _ _ _ HM) as Hext. unfold KERNEL_VIRTUAL_BASE in He.
  assert (forall a, free_at l' a -> free_at l a) as Hsub by (intros a Ha; by apply Gn in Ha as [? _]).
  assert (forall a, ~ free_at l a -> load8 m a = load8 (ram s) a) as Hkeep.
  { intros a Ha. apply Hout. intros Hx. by apply Ha, Gw. }
  assert (forall v, 0 <= v < 3221225472 -> translate (pmem s1) tr v = if (k <=? v) && (v <? k + n) then Some (b + (v - k)) else translate (pmem (pgs s)) tr v) as Htr.
  { intros v Hv. apply (mp_translate _ _ _ _ _ _ HM). unfold is_u32. lia. }
  destruct Hc. split; cbn [pgs ram set_dir set_phys pmem phys current_page_directory kpheap_blocks]; [done|done|done|apply HM|done| | | | | | | |].
  - intros x Hx Hre. apply (cp_apart0 x Hx). exact (extended_reach _ _ _ _ _ _ _ _ Hext Hre).
  - intros x Hx. rewrite <- (cp_same0 x Hx). apply (ex_frame _ _ _ _ _ Hext). intros Hre. apply (cp_apart0 x Hx).
    apply (reach_mono _ _ k n); [done|unfold KERNEL_VIRTUAL_BASE; lia|exact Hre].
  - intros a Ha. by apply cp_free0, Hsub.
  - intros a Ha. rewrite <- cp_ram0 by done. apply Hkeep. intros Hf. by apply Ha, cp_free0.
  - intros v Hv. destruct (decide (v < k)) as [Hlt|Hge].
    + specialize (cp_done0 v ltac:(lia)). rewrite Htr by lia. dec_false (k <=? v). cbn [andb].
      destruct (translate (pmem (pgs s0)) pd v) as [a|]; [|done]. destruct cp_done0 as (a' & Ha & Hf & Hnf & Hb).
      exists a'. split; [done|]. split; [done|]. split; [by intros ?%Hsub|]. by rewrite Hkeep.
    + destruct (Hin v ltac:(lia)) as (a & -> & Hb). exists (b + (v - k)). rewrite Htr by lia.
      dec_true (k <=? v). dec_true (v <? k + n). split; [done|]. split; [apply cp_free0, Gw; lia|].
      split; [|done]. intros Hf. apply Gn in Hf as [_ Hf]. lia.
  - assert (forall v a, 0 <= v < k + n -> translate (pmem s1) tr v = Some a ->
      if v <? k then translate (pmem (pgs s)) tr v = Some a /\ ~ free_at l a else a = b + (v - k)) as Hcase.
    { intros v a Hv. rewrite Htr by lia. destruct (Z.ltb_spec v k) as [Hlt|Hge].
      - dec_false (k <=? v). cbn [andb]. intros Ha. split; [done|]. specialize (cp_done0 v ltac:(lia)).
        destruct (translate (pmem (pgs s0)) pd v) as [a0|]; [|congruence]. destruct cp_done0 as (a' & Ha' & _ & Hnf & _). congruence.
      - dec_true (k <=? v). dec_true (v <? k + n). cbn [andb]. by intros [= <-]. }
    intros v v' a Hv Hv' Ha Ha'. apply Hcase in Ha, Ha'; [|lia..].
    destruct (Z.ltb_spec v k), (Z.ltb_spec v' k); [|destruct Ha as [_ []]; apply Gw; lia|destruct Ha' as [_ []]; apply Gw; lia|lia].
    apply (cp_inj0 v v' a); [lia|lia|apply Ha|apply Ha'].
  - intros v Hv. unfold KERNEL_VIRTUAL_BASE in Hv. rewrite Htr by lia. dec_false (v <? k + n). rewrite andb_false_r.
    apply cp_todo0. unfold KERNEL_VIRTUAL_BASE. lia.
  - intros i Hi. rewrite (mp_pde _ _ _ _ _ _ HM) by lia. by apply cp_kernel0.
Qed.

Lemma switch_ok pd (s : aspace H) : on_pgs (pd_switch pd) s = Ok tt (mk_as (set_dir pd (pgs s)) (ram s)).
Proof. done. Qed.
Lemma user_read_step (s : aspace H) v n f : 0 <= n ->
  (forall x, v <= x < v + n -> translate (pmem (pgs s)) (current_page_directory (pgs s)) x = Some (f x)) ->
  user_read v n s = Ok ((fun i => load8 (ram s) (f (v + Z.of_nat i))) <$> seq 0 (Z.to_nat n)) s.
Proof. intros Hn Hf. unfold user_read. rewrite (frames_ok _ f) by (by rewrite Z2Nat.id by lia). by rewrite <- list_fmap_compose. Qed.
Lemma user_write_step (s : aspace H) v n b bs : 0 <= n -> length bs = Z.to_nat n ->
  (forall x, v <= x < v + n -> translate (pmem (pgs s)) (current_page_directory (pgs s)) x = Some (b + (x - v))) ->
  user_write v bs s = Ok tt (mk_as (pgs s) (put_bytes ((fun i => b + Z.of_nat i) <$> seq 0 (length bs)) bs (ram s))).
Proof.
  intros Hn Hlen Hf. unfold user_write. rewrite (frames_ok _ (fun x => b + (x - v))) by (by rewrite Hlen, Z2Nat.id by lia).
  do 3 f_equal. apply list_fmap_ext. intros. f_equal. lia.
Qed.
Lemma copied_bytes (m : mem) (g : Z -> Z) b n k x : 0 <= n ->
  let bs := (fun i => g (k + Z.of_nat i)) <$> seq 0 (Z.to_nat n) in
  put_bytes ((fun i => b + Z.of_nat i) <$> seq 0 (length bs)) bs m x = if (b <=? x) && (x <? b + n) then u8 (g (k + (x - b))) else m x.
Proof.
  intros Hn bs. assert (length bs = Z.to_nat n) as Hlen by (unfold bs; rewrite length_fmap; apply length_seq).
  rewrite put_bytes_range, Hlen. replace (b + Z.of_nat 0) with b by lia. replace (b + Z.of_nat (0 + Z.to_nat n)) with (b + n) by lia.
  destruct ((b <=? x) && (x <? b + n)) eqn:E; [|done]. zify_bool. f_equal. apply list_lookup_total_correct.
  unfold bs. rewrite list_lookup_fmap, lookup_seq_lt by lia. cbn. do 2 f_equal. lia.
Qed.
(** The tables of [pd] are not touched by a step. *)
Lemma step_keeps s0 l0 pd tr k n s l s1 ph b x : copied s0 l0 pd tr k s l -> 0 <= k -> k + n <= KERNEL_VIRTUAL_BASE ->
  mapped (set_phys ph (pgs s)) s1 tr k n b -> user_pages (pgs s0) pd x -> pmem s1 x = pmem (pgs s0) x.
Proof.
  intros Hc Hk He HM Hx. rewrite <- (cp_same _ _ _ _ _ _ _ Hc x Hx). apply (ex_frame _ _ _ _ _ (mp_extended _ _ _ _ _ _ HM)).
  intros Hre. apply (cp_apart _ _ _ _ _ _ _ Hc x Hx). by apply (reach_mono _ _ k n).
Qed.

Lemma copy_range_ok s0 l0 pd tr k n s l : step_size n -> copied s0 l0 pd tr k s l -> 0 <= k -> k mod n = 0 -> k + n <= KERNEL_VIRTUAL_BASE ->
  (forall v, k <= v < k + n -> exists a, translate (pmem (pgs s0)) pd v = Some a /\ ~ free_at l0 a) ->
  out_of_memory (copy_range n k pd tr (current_page_directory (pgs s0)) s) \/
  exists kb s' l', copy_range n k pd tr (current_page_directory (pgs s0)) s = Ok kb s' /\
    copied s0 l0 pd tr (k + n) s' l' /\ a_live (heap (phys (pgs s'))) kb /\ kb ∉ l'.*1.
Proof.
  intros Hn Hc Hk Hkm He Hown. assert (0 < n) as Hn0 by (destruct Hn; lia).
  destruct (map_memory_step (pgs s) tr k n l Hn Hk Hkm He) as [Hoom|(s1 & b & l' & ph & Hrun & HM & Hr' & HG)];
    [apply Hc..|apply Hroom, (cp_lrep _ _ _ _ _ _ _ Hc)|intros v Hv; apply (cp_todo _ _ _ _ _ _ _ Hc); lia| |].
  { left. by apply oom_bind, oom_pgs. }
  right. unfold copy_range. rewrite (bind_ok _ _ _ _ _ (on_pgs_ok _ s _ _ Hrun)).
  destruct (kbuffer_ok (mk_as s1 (ram s)) l' n Hr') as (kb & h & Hm & Hrh & Hlv & Hnew). cbn [pgs ram] in Hm, Hrh.
  rewrite (bind_ok _ _ _ _ _ Hm), (bind_ok _ _ _ _ _ (switch_ok pd _)). cbn [pgs ram]. set (s2 := set_phys (set_heap_of h (phys s1)) s1).
  set (f := fun x => default 0 (translate (pmem (pgs s0)) pd x)).
  assert (forall x, k <= x < k + n -> translate (pmem (pgs s0)) pd x = Some (f x) /\ ~ free_at l0 (f x)) as Hf.
  { intros x Hx. unfold f. by destruct (Hown x Hx) as (a & -> & ?). }
  assert (forall x, k <= x < k + n -> translate (pmem s1) pd x = Some (f x)) as Hread.
  { intros x Hx. rewrite (translate_user _ (pgs s0)); [by apply Hf| |unfold KERNEL_VIRTUAL_BASE in *; lia].
    intros y Hy. by apply (step_keeps s0 l0 pd tr k n s l s1 ph b). }
  rewrite (bind_ok _ _ _ _ _ (user_read_step (mk_as (set_dir pd s2) (ram s)) k n f ltac:(lia) Hread)), (bind_ok _ _ _ _ _ (switch_ok tr _)). cbn [pgs ram].
  set (bs := (fun i => load8 (ram s) (f (k + Z.of_nat i))) <$> seq 0 (Z.to_nat n)).
  assert (length bs = Z.to_nat n) as Hlen by (unfold bs; rewrite length_fmap; apply length_seq).
  assert (forall x, k <= x < k + n -> translate (pmem s1) tr x = Some (b + (x - k))) as Hwrite.
  { intros x Hx. unfold KERNEL_VIRTUAL_BASE in He. rewrite (mp_translate _ _ _ _ _ _ HM) by (unfold is_u32; lia). dec_true (k <=? x). by dec_true (x <? k + n). }
  rewrite (bind_ok _ _ _ _ _ (user_write_step (mk_as (set_dir tr (set_dir pd s2)) (ram s)) k n b bs ltac:(lia) Hlen Hwrite)).
  rewrite (bind_ok _ _ _ _ _ (switch_ok _ _)). cbn [pgs ram]. set (m := put_bytes _ bs (ram s)).
  assert (forall x, m x = if (b <=? x) && (x <? b + n) then u8 (load8 (ram s) (f (k + (x - b)))) else ram s x) as Hmx
    by (intros x; apply (copied_bytes (ram s) (fun y => load8 (ram s) (f y))); lia). clearbody m.
  eexists kb, _, l'. split; [reflexivity|]. split; [|split; [exact Hlv|exact Hnew]].
  apply (copied_step s0 l0 pd tr k n s l s1 ph b l' (set_heap_of h (phys s1)) m Hc Hn0 Hk He HM HG Hrh).
  - intros x Hx. unfold load8. rewrite Hmx. assert ((b <=? x) && (x <? b + n) = false) as ->; [|done].
    apply andb_false_iff. rewrite Z.leb_gt, Z.ltb_ge. lia.
  - intros v Hv. destruct (Hf v Hv) as [Hv1 Hv2]. exists (f v). split; [done|]. unfold load8 at 1. rewrite Hmx.
    dec_true (b <=? b + (v - k)). dec_true (b + (v - k) <? b + n). cbn [andb].
    replace (k + (b + (v - k) - b)) with v by lia. rewrite (cp_ram _ _ _ _ _ _ _ Hc) by done. unfold load8, u8. by rewrite !Z.mod_mod by lia.
Qed.

(** ** The loops *)

(** The copy of [pd] from the state [s0] with the physical blocks [l0]. *)
Section Loops.
Context (s0 : aspace H) (l0 : list (Z * p_block)) (pd tr : Z).
Context (Hpd : space_ok (pgs s0) pd).
Context (Hown : forall v a, 0 <= v < KERNEL_VIRTUAL_BASE -> translate (pmem (pgs s0)) pd v = Some a -> ~ free_at l0 a).
Notation cpd := (current_page_directory (pgs s0)).

(** The run is out of memory, or it has copied up to [k]. *)
Definition reaches {T} (r : res (aspace H) T) (k : Z) : Prop :=
  out_of_memory r \/ exists a s' l', r = Ok a s' /\ copied s0 l0 pd tr k s' l'.
Lemma reaches_bind {A B} (c : M (aspace H) A) (g : A -> M (aspace H) B) s k k' : reaches (c s) k ->
  (forall a s' l', copied s0 l0 pd tr k s' l' -> reaches (g a s') k') -> reaches (bind c g s) k'.
Proof.
  intros [Ho|(a & s' & l' & Hr & Hc)] Hg; [left; by apply oom_bind|]. rewrite (bind_ok _ _ _ _ _ Hr). by apply (Hg a s' l').
Qed.

Lemma pages_index i j v : 0 <= i -> 0 <= j < 1024 -> i * 4194304 + j * 4096 <= v < i * 4194304 + j * 4096 + 4096 ->
  v / 4194304 = i /\ (v / 4096) mod 1024 = j.
Proof. intros Hi Hj Hv. assert (v / 4096 = i * 1024 + j) as -> by dlia. split; dlia. Qed.

Lemma copy_pages_ok n : forall i j s l, (n = Z.to_nat (1024 - j))%nat -> 0 <= i < 768 -> 0 <= j <= 1024 ->
  is_table (pde (pmem (pgs s0)) pd i) -> copied s0 l0 pd tr (i * 4194304 + j * 4096) s l ->
  reaches (copy_pages n i j (table_of (pde (pmem (pgs s0)) pd i)) pd tr cpd s) ((i + 1) * 4194304).
Proof.
  induction n as [|n IH]; intros i j s l Hn Hi Hj Ht Hc.
  { right. exists tt, s, l. split; [done|]. replace ((i + 1) * 4194304) with (i * 4194304 + j * 4096) by lia. done. }
  cbn [copy_pages]. set (e := load32 (pmem (pgs s0)) (table_of (pde (pmem (pgs s0)) pd i) + 4 * j)).
  assert (on_pgs (rd32 (table_of (pde (pmem (pgs s0)) pd i) + 4 * j)) s = Ok e s) as Hrd.
  { unfold on_pgs, rd32, gets. cbn. rewrite (pte_user _ (pgs s0)) by (first [done|lia|apply Hc]). by destruct s. }
  rewrite (bind_ok _ _ _ _ _ Hrd). set (k := i * 4194304 + j * 4096) in *.
  assert (k + 4096 = i * 4194304 + (j + 1) * 4096) as Ek by (unfold k; lia).
  assert (k + 4096 <= KERNEL_VIRTUAL_BASE) as Hend by (unfold k, KERNEL_VIRTUAL_BASE; lia).
  assert (forall v, k <= v < k + 4096 -> translate (pmem (pgs s0)) pd v = if e =? 0 then None else Some (e - e mod 4096 + v mod 4096)) as Htr.
  { intros v Hv. destruct (pages_index i j v) as [Ei Ej]; [lia|lia|done|]. unfold translate. rewrite Ei, Ej. destruct Ht as [Ht0 Ht4].
    apply Z.eqb_neq in Ht0. by rewrite Ht0, Ht4. }
  apply (reaches_bind _ _ _ (k + 4096)).
  - destruct (e =? 0) eqn:E.
    + right. exists tt, s, l. split; [done|]. apply copied_skip; [done|lia|done|exact Htr].
    + rewrite Z.shiftl_mul_pow2, Z.shiftl_mul_pow2 by lia. change (i * 2 ^ 22 + j * 2 ^ 12) with k.
      destruct (copy_range_ok s0 l0 pd tr k 4096 s l) as [Ho|(kb & s' & l' & Hrun & Hc' & Hlv & Hnew)]; [by left|done|lia|unfold k; dlia|done| |left; by apply oom_bind|].
      * intros v Hv. rewrite Htr by done. eexists. split; [done|]. apply (Hown v); [lia|by apply Htr].
      * rewrite (bind_ok _ _ _ _ _ Hrun). destruct (kbuffer_free s' l' kb) as (h & Hfr & Hrh); [apply Hc'|done|done|].
        right. rewrite Hfr. eexists tt, _, l'. split; [done|]. by apply copied_heap.
  - intros _ s' l' Hc'. apply (IH i (j + 1) s' l'); [lia|done|lia|done|by rewrite <- Ek].
Qed.

Lemma copy_directory_ok n : forall i s l, (n = Z.to_nat (768 - i))%nat -> 0 <= i <= 768 -> copied s0 l0 pd tr (i * 4194304) s l ->
  reaches (copy_directory n i pd tr cpd s) KERNEL_VIRTUAL_BASE.
Proof.
  induction n as [|n IH]; intros i s l Hn Hi Hc.
  { right. exists tt, s, l. split; [done|]. replace KERNEL_VIRTUAL_BASE with (i * 4194304) by (unfold KERNEL_VIRTUAL_BASE; lia). done. }
  cbn [copy_directory]. set (e := pde (pmem (pgs s0)) pd i).
  assert (on_pgs (rd32 (pd + 4 * i)) s = Ok e s) as Hrd.
  { unfold on_pgs, rd32, gets. cbn. change (load32 (pmem (pgs s)) (pd + 4 * i)) with (pde (pmem (pgs s)) pd i).
    rewrite (pde_user _ (pgs s0)) by (first [lia|apply Hc]). by destruct s. }
  rewrite (bind_ok _ _ _ _ _ Hrd). assert (is_u32 e) as Hu by apply load32_range.
  assert (forall v, i * 4194304 <= v < i * 4194304 + 4194304 -> v / 4194304 = i) as Hidx by (intros; dlia).
  assert (i * 4194304 + 4194304 <= KERNEL_VIRTUAL_BASE) as Hend by (unfold KERNEL_VIRTUAL_BASE; lia).
  apply (reaches_bind _ _ _ ((i + 1) * 4194304)).
  - replace ((i + 1) * 4194304) with (i * 4194304 + 4194304) by lia. rewrite land_4mib, negb_involutive by done.
    destruct (Z.eqb_spec e 0) as [E|E]; [|destruct (is_4mib e) eqn:E4].
    + right. exists tt, s, l. split; [done|]. apply copied_skip; [done|lia|done|]. intros v Hv. unfold translate. rewrite Hidx by done. fold e. by rewrite E.
    + rewrite Z.shiftl_mul_pow2 by lia. change (i * 2 ^ 22) with (i * 4194304).
      destruct (copy_range_ok s0 l0 pd tr (i * 4194304) 4194304 s l) as [Ho|(kb & s' & l' & Hrun & Hc' & _)];
        [by right|done|lia|by apply Z.mod_mul|done| |left; by apply oom_bind|].
      * intros v Hv. assert (translate (pmem (pgs s0)) pd v = Some (e - e mod 4194304 + v mod 4194304)) as Htr
          by (unfold translate; rewrite Hidx by done; fold e; apply Z.eqb_neq in E; by rewrite E, E4).
        eexists. split; [exact Htr|]. apply (Hown v); [lia|done].
      * right. rewrite (bind_ok _ _ _ _ _ Hrun). by exists tt, s', l'.
    + assert (is_table e) as Ht by done. destruct (ok_table _ _ _ Hpd i ltac:(lia) Ht) as (Hte & _). fold e in Hte.
      pose proof (table_aligned (pmem (pgs s0)) pd i) as [_ Hge]. fold e in Hge. rewrite land_mask by done.
      replace (u32 (frame e + KERNEL_VIRTUAL_BASE)) with (table_of e) by (unfold table_of, KERNEL_VIRTUAL_BASE in *; by rewrite u32_id by lia).
      replace (i * 4194304 + 4194304) with ((i + 1) * 4194304) by lia. apply (copy_pages_ok 1024 i 0 s l); [done|lia|lia|done|].
      by replace (i * 4194304 + 0 * 4096) with (i * 4194304) by lia.
  - intros _ s' l' Hc'. apply (IH (i + 1) s' l'); [lia|lia|done].
Qed.
End Loops.

(** ** The new directory *)

Lemma copy_entries_outside n dst src i m x : ~ (dst + 4 * i <= x < dst + 4 * (i + Z.of_nat n)) -> copy_entries n dst src i m x = m x.
Proof.
  revert i m. induction n as [|n IH]; intros i m Hx; [done|]. cbn [copy_entries]. rewrite IH by lia. apply store32_other. lia.
Qed.
Lemma copy_entries_ok n dst src i m j : (forall a, i <= a < i + Z.of_nat n -> dst + 4 * (i + Z.of_nat n) <= src + 4 * a \/ src + 4 * a + 4 <= dst + 4 * i) ->
  i <= j < i + Z.of_nat n -> load32 (copy_entries n dst src i m) (dst + 4 * j) = load32 m (src + 4 * j).
Proof.
  revert i m. induction n as [|n IH]; intros i m Hd Hj; [lia|]. cbn [copy_entries].
  destruct (decide (j = i)) as [-> |].
  - rewrite (load32_ext (store32 m (dst + 4 * i) (load32 m (src + 4 * i)))) by (intros x Hx; apply copy_entries_outside; lia).
    rewrite load32_store32. apply u32_id, load32_range.
  - rewrite IH by (first [lia|intros a Ha; specialize (Hd a ltac:(lia)); lia]). apply load32_store32_far. specialize (Hd j ltac:(lia)). lia.
Qed.

(** Pages of different addresses. *)
Lemma pages_disjoint p q x : p mod 4096 = 0 -> q mod 4096 = 0 -> p <> q -> in_page p x -> ~ in_page q x.
Proof. unfold in_page. intros Hp Hq Hne Hx Hy. apply Hne. dlia. Qed.
Lemma in_use_apart blocks p k x : in_use blocks p -> p mod 4096 = 0 -> 0 <= k < 1024 -> blocks !! Z.to_nat k = Some KPHEAP_BLOCK_FREE ->
  in_page p x -> ~ in_page (heap_page k) x.
Proof.
  intros Hu Hp Hk Hf. apply pages_disjoint; [done|apply heap_page_aligned|]. intros Heq. by apply (Hu k Hk Heq).
Qed.

Lemma clone_ok (s : pgstate H) : space_ok s kernel_page_directory ->
  out_of_memory (get_kernel_pd_clone kernel_page_directory s) \/
  exists k s', get_kernel_pd_clone kernel_page_directory s = Ok (heap_page k) s' /\ 0 <= k < 1024 /\
    kpheap_blocks s !! Z.to_nat k = Some KPHEAP_BLOCK_FREE /\ kpheap_blocks s' = <[Z.to_nat k := KPHEAP_BLOCK_USED]> (kpheap_blocks s) /\
    current_page_directory s' = current_page_directory s /\ phys s' = phys s /\
    (forall i, 0 <= i < 1024 -> pde (pmem s') (heap_page k) i = if i <? 768 then 0 else pde (pmem s) kernel_page_directory i) /\
    (forall x, ~ in_page (heap_page k) x -> pmem s' x = pmem s x).
Proof.
  intros Hk. destruct (decide (KPHEAP_BLOCK_FREE ∈ kpheap_blocks s)) as [Hin|Hfull].
  2: { left. right. unfold get_kernel_pd_clone, bind at 1. by rewrite pt_alloc_full. }
  right. destruct (pt_alloc_ok s (ok_len _ _ _ Hk) Hin) as (k & Hkr & Hfree & Hrun).
  unfold get_kernel_pd_clone. rewrite (bind_ok _ _ _ _ _ Hrun). exists k. eexists. split; [reflexivity|]. cbn [pmem kpheap_blocks current_page_directory phys].
  change (Z.shiftr KERNEL_VIRTUAL_BASE 22) with 768. change (Z.to_nat (1024 - 768)) with 256%nat.
  split; [done|]. split; [done|]. split; [done|]. split; [done|]. split; [done|].
  set (m0 := memset (pmem s) (heap_page k) 0 4096).
  assert (forall a, 0 <= a < 1024 -> heap_page k + 4096 <= kernel_page_directory + 4 * a \/ kernel_page_directory + 4 * a + 4 <= heap_page k) as Hap.
  { intros a Ha. pose proof (ok_pd _ _ _ Hk) as (_ & _ & Hal). pose proof (heap_page_aligned k) as Hka.
    assert (kernel_page_directory <> heap_page k) as Hne by (intros Heq; by apply (ok_pd_used _ _ _ Hk k Hkr Heq)). dlia. }
  split.
  - intros i Hi. unfold pde. destruct (Z.ltb_spec i 768) as [Hlt|Hge].
    + rewrite (load32_ext m0) by (intros x Hx; apply copy_entries_outside; lia). unfold load32, load8, m0. by rewrite !memset_inside by lia.
    + rewrite copy_entries_ok by (first [lia|intros a Ha; specialize (Hap a ltac:(lia)); lia]). apply load32_ext. intros x Hx.
      apply memset_outside. specialize (Hap i Hi). lia.
  - intros x Hx. unfold in_page in Hx. rewrite copy_entries_outside by lia. apply memset_outside. lia.
Qed.

(** A page in use stays in use. *)
Lemma in_use_insert blocks p k : in_use blocks p -> in_use (<[k := KPHEAP_BLOCK_USED]> blocks) p.
Proof.
  intros Hu j Hj Hp Hf. apply (Hu j Hj Hp). destruct (decide (k = Z.to_nat j)) as [-> |Hne]; [|by rewrite list_lookup_insert_ne in Hf].
  destruct (decide (Z.to_nat j < length blocks)%nat); [rewrite list_lookup_insert_eq in Hf by done; done|].
  rewrite list_insert_ge in Hf by lia. done.
Qed.

(** The clone of the kernel directory is the empty copy. *)
Lemma clone_copied (s : aspace H) l pd k s1 : space_ok (pgs s) pd -> space_ok (pgs s) kernel_page_directory ->
  lrep (phys (pgs s)) l -> tiled l -> page_blocks l -> 0 <= k < 1024 -> kpheap_blocks (pgs s) !! Z.to_nat k = Some KPHEAP_BLOCK_FREE ->
  kpheap_blocks s1 = <[Z.to_nat k := KPHEAP_BLOCK_USED]> (kpheap_blocks (pgs s)) ->
  current_page_directory s1 = current_page_directory (pgs s) -> phys s1 = phys (pgs s) ->
  (forall i, 0 <= i < 1024 -> pde (pmem s1) (heap_page k) i = if i <? 768 then 0 else pde (pmem (pgs s)) kernel_page_directory i) ->
  (forall x, ~ in_page (heap_page k) x -> pmem s1 x = pmem (pgs s) x) ->
  copied s l pd (heap_page k) 0 (mk_as s1 (ram s)) l.
Proof.
  intros Hpd Hkd Hr Ht Hpg Hk Hf Hb Hcur Hph Hent Hout.
  assert (forall i, 0 <= i < 1024 -> is_table (pde (pmem s1) (heap_page k) i) -> 768 <= i /\
    pde (pmem s1) (heap_page k) i = pde (pmem (pgs s)) kernel_page_directory i) as Htab.
  { intros i Hi [H0' _]. rewrite Hent in H0' |- * by done. destruct (Z.ltb_spec i 768); [done|]. split; [lia|done]. }
  assert (forall p x, in_use (kpheap_blocks (pgs s)) p -> p mod 4096 = 0 -> in_page p x -> ~ reach s1 (heap_page k) 0 KERNEL_VIRTUAL_BASE x) as Hnr.
  { intros p x Hu Hp Hx [Hx'|[(i & Hi & Hir & Hit & _)|(j & Hj & Hjf & Hx')]].
    - by apply (in_use_apart _ p k x Hu Hp Hk Hf Hx).
    - apply Htab in Hit as [? _]; [|done]. unfold KERNEL_VIRTUAL_BASE in Hir. dlia.
    - rewrite Hb in Hjf. destruct (decide (Z.to_nat k = Z.to_nat j)) as [He|Hne].
      + rewrite <- He, list_lookup_insert_eq in Hjf by (rewrite (ok_len _ _ _ Hpd); lia). done.
      + rewrite list_lookup_insert_ne in Hjf by done. by apply (in_use_apart _ p j x Hu Hp Hj Hjf Hx). }
  assert (forall x, user_pages (pgs s) pd x -> exists p, in_use (kpheap_blocks (pgs s)) p /\ p mod 4096 = 0 /\ in_page p x) as Hup.
  { intros x [Hx|(i & Hi & Hit & Hx)]; [exists pd|exists (table_of (pde (pmem (pgs s)) pd i))].
    - split; [apply Hpd|]. split; [apply Hpd|done].
    - destruct (ok_table _ _ _ Hpd i ltac:(lia) Hit) as (_ & Hu & _). split; [done|]. split; [apply table_aligned|done]. }
  split; cbn [pgs ram]; [by rewrite Hph|done|done| |done| | |done|done|intros; lia|intros; lia| |].
  - split.
    + unfold heap_page, KPHEAP_VIRT_BASE. split; [lia|]. split; [lia|dlia].
    + rewrite Hb, length_insert. apply Hpd.
    + intros j Hj Heq. assert (j = k) as -> by (unfold heap_page in Heq; lia). rewrite Hb, list_lookup_insert_eq by (rewrite (ok_len _ _ _ Hpd); lia). done.
    + intros i Hi Hit. destruct (Htab i Hi Hit) as [_ He]. rewrite He in Hit |- *. destruct (ok_table _ _ _ Hkd i Hi Hit) as (? & Hu & _).
      split; [done|]. split; [rewrite Hb; by apply in_use_insert|]. intros Heq. by apply (Hu k Hk Heq).
    + intros i j Hi Hj Hij Hit Hjt. destruct (Htab i Hi Hit) as [_ Ei], (Htab j Hj Hjt) as [_ Ej]. rewrite Ei in Hit |- *. rewrite Ej in Hjt |- *.
      by apply (ok_inj _ _ _ Hkd).
  - intros x Hx. destruct (Hup x Hx) as (p & Hu & Hp & Hpx). by apply (Hnr p).
  - intros x Hx. destruct (Hup x Hx) as (p & Hu & Hp & Hpx). apply Hout. by apply (in_use_apart _ p k x Hu Hp Hk Hf).
  - intros v Hv. destruct (user_index v Hv) as [Hi _]. unfold translate. rewrite Hent by lia. by dec_true (v / 4194304 <? 768).
  - intros i Hi. rewrite Hent by lia. by dec_false (i <? 768).
Qed.

Lemma copy_from_clone pd s tr s1 : get_kernel_pd_clone kernel_page_directory (pgs s) = Ok tr s1 ->
  copy_adress_space pd s = (copy_directory 768 0 pd tr (current_page_directory (pgs s)) ;;;
    on_pgs (pd_switch (current_page_directory (pgs s))) ;;; ret tr) (mk_as s1 (ram s)).
Proof.
  intros Hrun. unfold copy_adress_space. rewrite (bind_ok (on_pgs (gets current_page_directory)) _ s (current_page_directory (pgs s)) s) by (by destruct s).
  by rewrite (bind_ok _ _ _ _ _ (on_pgs_ok _ s _ _ Hrun)).
Qed.

(** [tr] is a copy of the user memory of [pd]: the same addresses are mapped, each
    to a byte that was free before, is not free any more and belongs to no other
    address, and holds the byte of the original.  The original translates as
    before and the memory that was in use is unchanged. *)
Record address_copy (s : aspace H) (l : list (Z * p_block)) (pd tr : Z) (s' : aspace H) (l' : list (Z * p_block)) : Prop := {
  ac_blocks : lrep (phys (pgs s')) l' /\ tiled l';
  ac_space : space_ok (pgs s') tr;
  ac_current : current_page_directory (pgs s') = current_page_directory (pgs s);
  ac_original : forall v, 0 <= v < KERNEL_VIRTUAL_BASE -> translate (pmem (pgs s')) pd v = translate (pmem (pgs s)) pd v;
  ac_copy : forall v, 0 <= v < KERNEL_VIRTUAL_BASE ->
    match translate (pmem (pgs s)) pd v with
    | None => translate (pmem (pgs s')) tr v = None
    | Some a => exists a', translate (pmem (pgs s')) tr v = Some a' /\ free_at l a' /\ ~ free_at l' a' /\
        load8 (ram s') a' = load8 (ram s) a
    end;
  ac_inj : forall v v' a, 0 <= v < KERNEL_VIRTUAL_BASE -> 0 <= v' < KERNEL_VIRTUAL_BASE ->
    translate (pmem (pgs s')) tr v = Some a -> translate (pmem (pgs s')) tr v' = Some a -> v = v';
  ac_used : forall a, ~ free_at l a -> load8 (ram s') a = load8 (ram s) a /\ ~ free_at l' a;
  ac_kernel : forall i, 768 <= i < 1024 -> pde (pmem (pgs s')) tr i = pde (pmem (pgs s)) kernel_page_directory i }.

(** The frames of the user addresses are in use. *)
Definition owns (s : aspace H) (l : list (Z * p_block)) (pd : Z) : Prop :=
  forall v a, 0 <= v < KERNEL_VIRTUAL_BASE -> translate (pmem (pgs s)) pd v = Some a -> ~ free_at l a.

Lemma copy_adress_space_ok s l pd : space_ok (pgs s) pd -> space_ok (pgs s) kernel_page_directory ->
  lrep (phys (pgs s)) l -> tiled l -> page_blocks l -> owns s l pd ->
  out_of_memory (copy_adress_space pd s) \/
  exists tr s' l', copy_adress_space pd s = Ok tr s' /\ address_copy s l pd tr s' l'.
Proof.
  intros Hpd Hkd Hr Ht Hpg Hown.
  destruct (clone_ok (pgs s) Hkd) as [Ho|(k & s1 & Hrun & Hk & Hf & Hb & Hcur & Hph & Hent & Hout)].
  { left. unfold copy_adress_space. rewrite (bind_ok (on_pgs (gets current_page_directory)) _ s (current_page_directory (pgs s)) s) by (by destruct s).
    by apply oom_bind, oom_pgs. }
  rewrite (copy_from_clone pd s _ s1 Hrun).
  pose proof (clone_copied s l pd k s1 Hpd Hkd Hr Ht Hpg Hk Hf Hb Hcur Hph Hent Hout) as Hc0.
  destruct (copy_directory_ok s l pd (heap_page k) Hpd Hown 768 0 (mk_as s1 (ram s)) l) as [Ho|(u & s2 & l2 & Hrun2 & Hc)]; [done|lia|done|left; by apply oom_bind|].
  right. rewrite (bind_ok _ _ _ _ _ Hrun2), (bind_ok _ _ _ _ _ (switch_ok _ s2)).
  eexists (heap_page k), _, l2. split; [reflexivity|]. destruct Hc. split; cbn [pgs ram set_dir pmem phys current_page_directory]; try done.
  - intros v Hv. by apply translate_user.
  - intros a Ha. split; [by apply cp_ram0|]. intros Hfa. by apply Ha, cp_free0.
Qed.

(** The memory that a process sees through the directory [pd] is [m]. *)
Definition sees (s : aspace H) (pd : Z) (m : mem) : Prop :=
  forall v a, 0 <= v < KERNEL_VIRTUAL_BASE -> translate (pmem (pgs s)) pd v = Some a -> load8 (ram s) a = load8 m v.


(** ** Contents do not matter to the page tables *)

(** The effect of the copy on the page tables alone. *)
Definition copy_tables (pd : Z) : M (pgstate H) Z :=
  fun s => match copy_adress_space pd (mk_as s (fun _ => 0)) with
           | Ok tr s' => Ok tr (pgs s')
           | Fatal e => Fatal e | Fault => Fault | NoFuel => NoFuel
           end.

(** Two computations on the same tables end alike, with values related by [P]. *)
Definition alike {T} (P : T -> T -> Prop) (c c' : K T) : Prop :=
  forall p r r', match c (mk_as p r), c' (mk_as p r') with
    | Ok a s, Ok a' s' => P a a' /\ pgs s = pgs s'
    | Fatal e, Fatal e' => e = e'
    | Fault, Fault | NoFuel, NoFuel => True
    | _, _ => False
    end.
Lemma alike_bind {A B} (P : A -> A -> Prop) (P' : B -> B -> Prop) c c' f f' : alike P c c' -> (forall a a', P a a' -> alike P' (f a) (f' a')) ->
  alike P' (bind c f) (bind c' f').
Proof.
  intros Hc Hf p r r'. specialize (Hc p r r'). unfold bind. destruct (c (mk_as p r)) as [a [p1 r1]| | |], (c' (mk_as p r')) as [a' [p1' r1']| | |]; try done.
  destruct Hc as [Ha Hp]. cbn in Hp. subst p1'. by apply Hf.
Qed.
Lemma alike_pgs {T} (c : M (pgstate H) T) : alike eq (on_pgs c) (on_pgs c).
Proof. intros p r r'. unfold on_pgs. cbn. by destruct (c p). Qed.
Lemma alike_ret {T} (a : T) : alike eq (ret a) (ret a).
Proof. by intros p r r'. Qed.
Lemma alike_read v n : alike (fun a a' => length a = length a') (user_read v n) (user_read v n).
Proof. intros p r r'. unfold user_read. cbn. destruct (frames _ p v); [|done]. by rewrite !length_fmap. Qed.
Lemma alike_write v bs bs' : length bs = length bs' -> alike eq (user_write v bs) (user_write v bs').
Proof. intros Hl p r r'. unfold user_write. cbn. rewrite Hl. by destruct (frames _ p v). Qed.
Lemma alike_range n v pd tr cpd : alike eq (copy_range n v pd tr cpd) (copy_range n v pd tr cpd).
Proof.
  unfold copy_range. do 2 (eapply alike_bind; [apply alike_pgs|]; intros ? ? <-). eapply alike_bind; [apply alike_pgs|]. intros _ _ _.
  eapply alike_bind; [apply alike_read|]. intros bs bs' Hl. eapply alike_bind; [apply alike_pgs|]. intros _ _ _.
  eapply alike_bind; [by apply alike_write|]. intros _ _ _. eapply alike_bind; [apply alike_pgs|]. intros _ _ _. apply alike_ret.
Qed.
Lemma alike_pages n : forall i j pt pd tr cpd, alike eq (copy_pages n i j pt pd tr cpd) (copy_pages n i j pt pd tr cpd).
Proof.
  induction n as [|n IH]; intros i j pt pd tr cpd; [apply alike_ret|]. cbn [copy_pages]. eapply alike_bind; [apply alike_pgs|]. intros e _ <-.
  eapply (alike_bind eq); [|intros _ _ _; apply IH]. destruct (e =? 0); [apply alike_ret|].
  eapply alike_bind; [apply alike_range|]. intros kb _ <-. apply alike_pgs.
Qed.
Lemma alike_directory n : forall i pd tr cpd, alike eq (copy_directory n i pd tr cpd) (copy_directory n i pd tr cpd).
Proof.
  induction n as [|n IH]; intros i pd tr cpd; [apply alike_ret|]. cbn [copy_directory]. eapply alike_bind; [apply alike_pgs|]. intros e _ <-.
  eapply (alike_bind eq); [|intros _ _ _; apply IH]. destruct (e =? 0); [apply alike_ret|]. destruct (negb _); [|apply alike_pages].
  eapply alike_bind; [apply alike_range|]. intros _ _ _. apply alike_ret.
Qed.
(** Whatever the memory holds, the copy changes the page tables in the same way. *)
Lemma copy_tables_any pd p r : match copy_adress_space pd (mk_as p r) with
  | Ok tr s => copy_tables pd p = Ok tr (pgs s)
  | Fatal e => copy_tables pd p = Fatal e | Fault => copy_tables pd p = Fault | NoFuel => copy_tables pd p = NoFuel
  end.
Proof.
  assert (alike eq (copy_adress_space pd) (copy_adress_space pd)) as Ha.
  { unfold copy_adress_space. do 2 (eapply alike_bind; [apply alike_pgs|]; intros ? ? <-). eapply alike_bind; [apply alike_directory|]. intros _ _ _.
    eapply alike_bind; [apply alike_pgs|]. intros _ _ _. apply alike_ret. }
  specialize (Ha p r (fun _ => 0)). unfold copy_tables.
  destruct (copy_adress_space pd (mk_as p r)), (copy_adress_space pd (mk_as p (fun _ => 0))); try done; [|congruence].
  destruct Ha as [-> Hp]. by rewrite Hp.
Qed.
End AddrSpace.

(** ** A concrete copy *)

(** One page at 134512640, with the byte 77 at its fourth place. *)
Definition demo_space : aspace bump := mk_as demo_one (store8 (fun _ => 0) 2097155 77).
Lemma demo_kernel_ok : space_ok demo_one demo_kernel_pd.
Proof.
  assert (forall i, 0 <= i < 1024 -> pde (pmem demo_one) demo_kernel_pd i = 0) as H0.
  { intros i Hi. unfold pde, demo_one, demo_kernel_pd, demo_pd, KPHEAP_VIRT_BASE. cbn [pmem]. by rewrite !load32_store32_far by lia. }
  split.
  - unfold demo_kernel_pd. split; [lia|]. split; [lia|]. reflexivity.
  - reflexivity.
  - intros k Hk Heq. unfold demo_kernel_pd, heap_page, KPHEAP_VIRT_BASE in Heq. lia.
  - intros i Hi [Hn _]. by rewrite H0 in Hn.
  - intros i j Hi Hj _ [Hn _]. by rewrite H0 in Hn.
Qed.
Lemma demo_translate v : 0 <= v < KERNEL_VIRTUAL_BASE ->
  translate (pmem demo_one) demo_pd v = if v / 4096 =? 32840 then Some (2097152 + v mod 4096) else None.
Proof.
  intros Hv. destruct (user_index v Hv) as [Hi Hj]. unfold translate. destruct (decide (v / 4194304 = 32)) as [E|E].
  - rewrite E. assert (pde (pmem demo_one) demo_pd 32 = 4198407) as -> by (vm_compute; reflexivity).
    change (4198407 =? 0) with false. change (is_4mib 4198407) with false. change (table_of 4198407) with 3225423872. cbv iota zeta.
    destruct (decide ((v / 4096) mod 1024 = 72)) as [Ej|Ej].
    + rewrite Ej. assert (load32 (pmem demo_one) (3225423872 + 4 * 72) = 2097159) as -> by (vm_compute; reflexivity).
      assert (v / 4096 = 32840) as -> by dlia. done.
    + assert (load32 (pmem demo_one) (3225423872 + 4 * ((v / 4096) mod 1024)) = 0) as ->.
      { unfold demo_one, demo_pd, KPHEAP_VIRT_BASE. cbn [pmem]. by rewrite !load32_store32_far by lia. }
      destruct (Z.eqb_spec (v / 4096) 32840) as [E1|]; [|done]. by rewrite E1 in Ej.
  - rewrite demo_one_other by lia. destruct (Z.eqb_spec (v / 4096) 32840); [|done]. dlia.
Qed.
Definition demo_user : mem := fun v => if v =? 134512643 then 77 else 0.
Lemma demo_space_seen : sees demo_space demo_pd demo_user.
Proof.
  intros v a Hv Ha. cbn [demo_space pgs ram] in *. rewrite demo_translate in Ha by done. destruct (Z.eqb_spec (v / 4096) 32840) as [E|]; [|done].
  injection Ha as <-. unfold load8, demo_user, store8. destruct (Z.eqb_spec v 134512643) as [-> |Hne]; [done|].
  destruct (Z.eqb_spec (2097152 + v mod 4096) 2097155); [|done]. dlia.
Qed.
Lemma demo_space_owned : owns demo_space demo_blocks demo_pd.
Proof.
  intros v a Hv Ha. cbn [demo_space pgs] in Ha. rewrite demo_translate in Ha by done. destruct (Z.eqb_spec (v / 4096) 32840) as [E|]; [|done]. injection Ha as <-.
  pose proof (Z.mod_pos_bound v 4096 ltac:(lia)).
  unfold demo_blocks. rewrite !free_at_cons. unfold b_end. cbn. intros [[_ ?]|[[_ ?]|[[_ ?]|[[_ ?]|(e & He & _)]]]]; [lia..|].
  by apply not_elem_of_nil in He.
Qed.

(** The kernel's part of the clone is empty too: the clone is a page of zeros. *)
Lemma copy_no_entries n dst src i m x : (forall y, dst + 4 * i <= y < dst + 4 * (i + Z.of_nat n) -> m y = 0) ->
  (forall y, src + 4 * i <= y < src + 4 * (i + Z.of_nat n) -> m y = 0) -> copy_entries n dst src i m x = m x.
Proof.
  revert i m. induction n as [|n IH]; intros i m Hd Hs; [done|]. cbn [copy_entries].
  assert (load32 m (src + 4 * i) = 0) as -> by (unfold load32, load8; rewrite !Hs by lia; done).
  assert (forall y, store32 m (dst + 4 * i) 0 y = m y) as He.
  { intros y. destruct (decide (dst + 4 * i <= y < dst + 4 * i + 4)) as [Hy|]; [|by rewrite store32_other by lia].
    unfold store32, store8. rewrite (Hd y) by lia. by repeat (destruct (y =? _); [done|]). }
  rewrite IH, He; [done|..]; intros y Hy; rewrite He; [apply Hd|apply Hs]; lia.
Qed.
Definition demo_clone : pgstate bump :=
  mk_pg (memset (pmem demo_one) 3225427968 0 4096) (<[2%nat := KPHEAP_BLOCK_USED]> (kpheap_blocks demo_one)) true demo_kernel_pd demo_phys.
Lemma demo_clone_ok : get_kernel_pd_clone demo_kernel_pd (pgs demo_space) = Ok 3225427968 demo_clone.
Proof.
  change (pgs demo_space) with demo_one. unfold demo_clone. rewrite <- (functional_extensionality (copy_entries 256 3225427968 demo_kernel_pd 768 (memset (pmem demo_one) 3225427968 0 4096)) _); [reflexivity|].
  intros x. apply copy_no_entries; intros y Hy.
  - by rewrite memset_inside by lia.
  - unfold demo_kernel_pd in Hy. rewrite memset_outside by lia. unfold demo_one, demo_pd, KPHEAP_VIRT_BASE. cbn [pmem]. by rewrite !store32_other by lia.
Qed.

Lemma demo_copies : value_of (copy_adress_space demo_kernel_pd demo_pd demo_space) = Some 3225427968.
Proof.
  pose proof (copy_from_clone demo_kernel_pd demo_pd demo_space 3225427968 demo_clone demo_clone_ok) as Hrun.
  apply (f_equal value_of) in Hrun. etransitivity; [exact Hrun|]. vm_compute. reflexivity.
Qed.

