(* ===== verification/Strings.v ===== *)
(** Strings and conversions (util/lib.c, util/util.h).

    Strings are bytes in memory ended by a zero.  The C loops run until they
    meet a byte; they take fuel, and [None] means the fuel was used up, which
    the lemmas exclude for a fuel above the length of the string.  [char] is
    signed on the target, [unsigned char] is not. *)

From S2P Require Import Prelude Mem.

(** ** Characters (util.h) *)

Definition isdigit (c : Z) : bool := (48 <=? c) && (c <=? 57).
Definition isalpha (c : Z) : bool := ((97 <=? c) && (c <=? 122)) || ((65 <=? c) && (c <=? 90)).
Definition isalnum (c : Z) : bool := isdigit c || isalpha c.
Definition isupper (c : Z) : bool := (65 <=? c) && (c <=? 90).
Definition islower (c : Z) : bool := (97 <=? c) && (c <=? 122).
Definition toLower (c : Z) : Z := if isupper c then u8 ((97 - 65) + c) else c.
Definition toUpper (c : Z) : Z := if islower c then u8 ((65 - 97) + c) else c.
Definition invCase (c : Z) : Z := if islower c then toUpper c else toLower c.

(** ** Strings (lib.c) *)

Fixpoint strlen_loop (fuel : nat) (m : mem) (str retval : Z) : option Z :=
  match fuel with
  | O => None
  | S n => if load8 m str =? 0 then Some retval else strlen_loop n m (str + 1) (u32 (retval + 1))
  end.
Definition strlen (fuel : nat) (m : mem) (str : Z) : option Z := strlen_loop fuel m str 0.

(** [while (( *dest++ = *src++));] *)
Fixpoint strcpy (fuel : nat) (m : mem) (dest src : Z) : option mem :=
  match fuel with
  | O => None
  | S n => let c := load8 m src in
           let m' := store8 m dest c in
           if c =? 0 then Some m' else strcpy n m' (dest + 1) (src + 1)
  end.

Definition strcat (fuel : nat) (m : mem) (dest src : Z) : option mem :=
  match strlen fuel m dest with Some l => strcpy fuel m (dest + l) src | None => None end.

(** [while ((i < n) && ( *dest++ = *src++)) i++; *(dest++) = 0;] *)
Fixpoint strncpy_loop (fuel : nat) (m : mem) (dest src i n : Z) : option mem :=
  match fuel with
  | O => None
  | S k => if i <? n then
             let c := load8 m src in
             let m' := store8 m dest c in
             if c =? 0 then Some (store8 m' (dest + 1) 0) else strncpy_loop k m' (dest + 1) (src + 1) (i + 1) n
           else Some (store8 m dest 0)
  end.
Definition strncpy (fuel : nat) (m : mem) (dest src n : Z) : option mem := strncpy_loop fuel m dest src 0 n.

(** [for(i = 0; i < n; i++) {if(!( *pos++ = *src++)) break;}] *)
Fixpoint strncat_loop (n : nat) (m : mem) (pos src : Z) : mem :=
  match n with
  | O => m
  | S k => let c := load8 m src in
           let m' := store8 m pos c in
           if c =? 0 then m' else strncat_loop k m' (pos + 1) (src + 1)
  end.
Definition strncat (fuel : nat) (m : mem) (dest src n : Z) : option mem :=
  match strlen fuel m dest with Some l => Some (strncat_loop (Z.to_nat n) m (dest + l) src) | None => None end.

(** The address found, 0 when there is none. *)
Fixpoint strchr (fuel : nat) (m : mem) (s c : Z) : option Z :=
  match fuel with
  | O => None
  | S n => let d := load8 m s in
           if d =? 0 then Some 0 else if s8 d =? s8 c then Some s else strchr n m (s + 1) c
  end.

(** [while(s != o) {s--; if( *s == c) return s;}] for [n = s - o]. *)
Fixpoint strrchr_loop (n : nat) (m : mem) (o c : Z) : Z :=
  match n with
  | O => 0
  | S k => let s := o + Z.of_nat k in if s8 (load8 m s) =? s8 c then s else strrchr_loop k m o c
  end.
Definition strrchr (fuel : nat) (m : mem) (s c : Z) : option Z :=
  match strlen fuel m s with Some l => Some (strrchr_loop (Z.to_nat l) m s c) | None => None end.

Fixpoint strcmp (fuel : nat) (m : mem) (s1 s2 : Z) : option Z :=
  match fuel with
  | O => None
  | S n => let c1 := s8 (load8 m s1) in
           let c2 := s8 (load8 m s2) in
           if negb (c1 =? 0) && (c1 =? c2) then strcmp n m (s1 + 1) (s2 + 1) else Some (u32 (c1 - c2))
  end.

(** [invCase] takes and returns an [unsigned char]; [*s2] is a [char]. *)
Fixpoint strcmpnc (fuel : nat) (m : mem) (s1 s2 : Z) : option Z :=
  match fuel with
  | O => None
  | S n => let c1 := s8 (load8 m s1) in
           let c2 := s8 (load8 m s2) in
           if negb (c1 =? 0) && ((c1 =? c2) || (invCase (u8 c1) =? c2)) then strcmpnc n m (s1 + 1) (s2 + 1)
           else Some (u32 (c1 - c2))
  end.

(** [strcfirst] compares bytes as [char], [strcfirstnc] also their other case. *)
Fixpoint strcfirst_loop (fuel : nat) (m : mem) (str0 str1 tr : Z) : option Z :=
  match fuel with
  | O => None
  | S n => let c0 := s8 (load8 m str0) in
           let c1 := s8 (load8 m str1) in
           if negb (c0 =? 0) && (c0 =? c1) then strcfirst_loop n m (str0 + 1) (str1 + 1) (u16 (tr + 1)) else Some tr
  end.
Definition strcfirst (fuel : nat) (m : mem) (str0 str1 : Z) : option Z := strcfirst_loop fuel m str0 str1 0.
Fixpoint strcfirstnc_loop (fuel : nat) (m : mem) (str0 str1 tr : Z) : option Z :=
  match fuel with
  | O => None
  | S n => let c0 := s8 (load8 m str0) in
           let c1 := s8 (load8 m str1) in
           if negb (c0 =? 0) && ((c0 =? c1) || (invCase (u8 c0) =? c1))
           then strcfirstnc_loop n m (str0 + 1) (str1 + 1) (u16 (tr + 1)) else Some tr
  end.
Definition strcfirstnc (fuel : nat) (m : mem) (str0 str1 : Z) : option Z := strcfirstnc_loop fuel m str0 str1 0.

(** [while( *(str+len) == ' ') { *(str+len) = 0; len--;}]; [len] is a [u32]
    and addresses wrap at 32 bits. *)
Fixpoint strtrim_loop (fuel : nat) (m : mem) (str len : Z) : option mem :=
  match fuel with
  | O => None
  | S n => let a := u32 (str + len) in
           if load8 m a =? 32 then strtrim_loop n (store8 m a 0) str (u32 (len - 1)) else Some m
  end.
Definition strtrim (fuel : nat) (m : mem) (str : Z) : option mem :=
  match strlen fuel m str with Some l => strtrim_loop fuel m str (u32 (l - 1)) | None => None end.

(** [toupper] and [tolower] in place. *)
Fixpoint map_string (f : Z -> Z) (fuel : nat) (m : mem) (s : Z) : option mem :=
  match fuel with
  | O => None
  | S n => let c := load8 m s in if c =? 0 then Some m else map_string f n (store8 m s (f c)) (s + 1)
  end.
Definition toupper (fuel : nat) (m : mem) (s : Z) : option mem := map_string toUpper fuel m s.
Definition tolower (fuel : nat) (m : mem) (s : Z) : option mem := map_string toLower fuel m s.

(** ** Conversions *)

(** [for(i=0, j=strlen(s)-1; i<j; i++, j--)]: [i] and [j] are [size_t]. *)
Fixpoint reverse_loop (fuel : nat) (m : mem) (s i j : Z) : option mem :=
  match fuel with
  | O => None
  | S n => if i <? j then
             let c := load8 m (s + i) in
             let m1 := store8 m (s + i) (load8 m (s + j)) in
             reverse_loop n (store8 m1 (s + j) c) s (i + 1) (u32 (j - 1))
           else Some m
  end.
Definition reverse (fuel : nat) (m : mem) (s : Z) : option mem :=
  match strlen fuel m s with Some l => reverse_loop fuel m s 0 (u32 (l - 1)) | None => None end.

(** [do {s[i++] = n % 10 + '0';} while ((n /= 10) > 0);], returning [i]. *)
Fixpoint utoa_loop (fuel : nat) (m : mem) (n s i : Z) : option (mem * Z) :=
  match fuel with
  | O => None
  | S k => let m' := store8 m (s + i) (n mod 10 + 48) in
           let n' := n / 10 in
           if 0 <? n' then utoa_loop k m' n' s (i + 1) else Some (m', i + 1)
  end.
Definition utoa (m : mem) (n s : Z) : option mem :=
  match utoa_loop 11 m n s 0 with
  | Some (m', i) => reverse 12 (store8 m' (s + i) 0) s
  | None => None
  end.
Definition itoa (m : mem) (n s : Z) : option mem :=
  if n <? 0 then utoa (store8 m s 45) (u32 (- n)) (s + 1) else utoa m (u32 n) s.

Definition hex_digit (x : Z) : Z := u8 (x + (if 9 <? x then 65 - 10 else 48)).
(** [while (cp > dest) {x = val & 0xF; val >>= 4; *--cp = digit;}] for
    [n = cp - dest]. *)
Fixpoint i2hex_loop (n : nat) (m : mem) (val dest : Z) : mem :=
  match n with
  | O => m
  | S k => i2hex_loop k (store8 m (dest + Z.of_nat k) (hex_digit (Z.land val 15))) (Z.shiftr val 4) dest
  end.
Definition i2hex_len (val : Z) : Z := if val <? U8_MAX then 2 else if val <? U16_MAX then 4 else 8.
Definition i2hex (m : mem) (val dest : Z) : mem :=
  store8 (i2hex_loop (Z.to_nat (i2hex_len val)) m val dest) (dest + i2hex_len val) 0.

(** The value and the index where the loop stopped; [num] wraps like [int]
    arithmetic does on the target. *)
Fixpoint atoiindex_loop (fuel : nat) (m : mem) (s i num : Z) (sign : bool) : option (Z * Z) :=
  match fuel with
  | O => None
  | S n => let c := load8 m (s + i) in
           let fin := Some (if sign then s32 (num * -1) else num, u32 i) in
           if c =? 0 then fin
           else if (48 <=? c) && (c <=? 57) then atoiindex_loop n m s (i + 1) (s32 (num * 10 + c - 48)) sign
           else if (load8 m s =? 45) && (i =? 0) then atoiindex_loop n m s (i + 1) num true
           else fin
  end.
Definition atoiindex (fuel : nat) (m : mem) (s : Z) : option (Z * Z) := atoiindex_loop fuel m s 0 0 false.
Definition atoi (fuel : nat) (m : mem) (s : Z) : option Z :=
  match atoiindex fuel m s with Some (v, _) => Some v | None => None end.

(** ** strsplit

    The pieces are fresh heap strings; the model returns their contents in
    order, and the size stored through [osize]. *)
Fixpoint count_sep (fuel : nat) (m : mem) (off regex size : Z) : option Z :=
  match fuel with
  | O => None
  | S n => match strchr fuel m off regex with
           | None => None
           | Some p => if p =? 0 then Some size else count_sep n m (p + 1) regex (size + 1)
           end
  end.
Fixpoint split_loop (fuel : nat) (m : mem) (str slen off regex : Z) : option (list (list Z)) :=
  match fuel with
  | O => None
  | S n =>
    let off := if s8 (load8 m off) =? s8 regex then off + 1 else off in
    match strchr fuel m off regex with
    | None => None
    | Some temp =>
      let len := if temp =? 0 then str + slen - off else temp - off in
      let piece := bytes_at m off (Z.to_nat len) in
      if temp =? 0 then Some [piece]
      else match split_loop n m str slen temp regex with Some r => Some (piece :: r) | None => None end
    end
  end.
Definition strsplit (fuel : nat) (m : mem) (str regex : Z) : option (list (list Z) * Z) :=
  match strlen fuel m str, count_sep fuel m str regex 0 with
  | Some slen, Some size =>
      match split_loop fuel m str slen str regex with Some l => Some (l, size + 1) | None => None end
  | _, _ => None
  end.

(** * Strings in memory *)

(** The string [cs] is at [a]. *)
Fixpoint cstr (m : mem) (a : Z) (cs : list Z) : Prop :=
  match cs with
  | [] => load8 m a = 0
  | c :: r => load8 m a = c /\ 0 < c < 256 /\ cstr m (a + 1) r
  end.
Notation zlen l := (Z.of_nat (length l)) (only parsing).

Lemma cstr_ext m m' a cs : (forall x, a <= x <= a + zlen cs -> load8 m' x = load8 m x) -> cstr m a cs -> cstr m' a cs.
Proof.
  revert a. induction cs as [|c r IH]; intros a Hx; cbn [cstr length] in *.
  - rewrite Hx by lia. done.
  - intros (Hc & ? & Hr). rewrite Hx by lia. split; [done|]. split; [done|]. apply IH; [|done]. intros. apply Hx. lia.
Qed.

Lemma cstr_app m a cs ds : cstr m a (cs ++ ds) <->
  (forall i c, cs !! i = Some c -> load8 m (a + Z.of_nat i) = c /\ 0 < c < 256) /\ cstr m (a + zlen cs) ds.
Proof.
  revert a. induction cs as [|c r IH]; intros a; cbn [cstr app length].
  - rewrite Z.add_0_r. split; [intros; split; [intros i c; by rewrite lookup_nil|done]|tauto].
  - rewrite IH. replace (a + 1 + zlen r) with (a + zlen (c :: r)) by (cbn [length]; lia).
    split.
    + intros (Hc & Hr & Hi & Hd). split; [|done]. intros [|i] d; cbn [lookup list_lookup].
      * intros [= <-]. rewrite Z.add_0_r. done.
      * intros Hl. replace (a + Z.of_nat (S i)) with (a + 1 + Z.of_nat i) by lia. by apply Hi.
    + intros [Hi Hd]. destruct (Hi 0%nat c eq_refl) as [H0 H1]. rewrite Z.add_0_r in H0. split; [done|]. split; [done|].
      split; [|done]. intros i d Hl. replace (a + 1 + Z.of_nat i) with (a + Z.of_nat (S i)) by lia. by apply Hi.
Qed.

Lemma cstr_chars m a cs i c : cstr m a cs -> cs !! i = Some c -> load8 m (a + Z.of_nat i) = c /\ 0 < c < 256.
Proof. intros Hc. rewrite <- (app_nil_r cs) in Hc. apply cstr_app in Hc as [Hc _]. apply Hc. Qed.
Lemma cstr_end m a cs : cstr m a cs -> load8 m (a + zlen cs) = 0.
Proof. intros Hc. rewrite <- (app_nil_r cs) in Hc. by apply cstr_app in Hc as [_ Hc]. Qed.
Lemma cstr_intro m a cs : (forall i c, cs !! i = Some c -> load8 m (a + Z.of_nat i) = c /\ 0 < c < 256) ->
  load8 m (a + zlen cs) = 0 -> cstr m a cs.
Proof. intros Hi He. rewrite <- (app_nil_r cs). by apply cstr_app. Qed.
Lemma cstr_Forall m a cs : cstr m a cs -> Forall (fun c => 0 < c < 256) cs.
Proof.
  revert a. induction cs as [|c r IH]; intros a; [constructor|]. cbn. intros (_ & ? & ?). constructor; [done|]. by eapply IH.
Qed.

Lemma strlen_loop_ok fuel m a cs r : cstr m a cs -> (length cs < fuel)%nat -> 0 <= r -> r + zlen cs < 4294967296 ->
  strlen_loop fuel m a r = Some (r + zlen cs).
Proof.
  revert a cs r. induction fuel as [|n IH]; intros a cs r Hc Hf Hr Hb; [lia|]. cbn [strlen_loop].
  destruct cs as [|c t]; cbn [cstr length] in *.
  - rewrite Hc. cbn. f_equal. lia.
  - destruct Hc as (-> & Hc & Ht). dec_false (c =? 0). rewrite u32_id by lia.
    rewrite (IH _ t) by (done || lia). f_equal. lia.
Qed.
(** [strlen] is the length. *)
Lemma strlen_ok fuel m a cs : cstr m a cs -> (length cs < fuel)%nat -> zlen cs < 4294967296 ->
  strlen fuel m a = Some (zlen cs).
Proof. intros. unfold strlen. by rewrite (strlen_loop_ok _ _ _ cs). Qed.

(** [strcpy] to a place that does not overlap the source. *)
Lemma strcpy_ok fuel m dest src cs : cstr m src cs -> (length cs < fuel)%nat ->
  dest + zlen cs < src \/ src + zlen cs < dest ->
  exists m', strcpy fuel m dest src = Some m' /\ cstr m' dest cs /\
    forall x, ~ (dest <= x <= dest + zlen cs) -> m' x = m x.
Proof.
  revert m dest src cs. induction fuel as [|n IH]; intros m dest src cs Hc Hf Hd; [lia|]. cbn [strcpy].
  destruct cs as [|c t]; cbn [cstr length] in *.
  - rewrite Hc. cbn. eexists. split; [reflexivity|]. split; [by rewrite load8_store8|].
    intros x Hx. apply store8_other. lia.
  - destruct Hc as (-> & Hc & Ht). dec_false (c =? 0).
    destruct (IH (store8 m dest c) (dest + 1) (src + 1) t) as (m' & Hrun & Hc' & Hout); [|lia|lia|].
    { eapply cstr_ext; [|exact Ht]. intros x Hx. apply load8_store8_other. lia. }
    exists m'. split; [done|]. split.
    + split; [|done]. rewrite (load8_ext (store8 m dest c)) by (apply Hout; lia). rewrite load8_store8. apply u8_id. lia.
    + intros x Hx. rewrite Hout by lia. apply store8_other. lia.
Qed.

(** [strcat] appends a string that lies apart from the result: afterwards
    the destination holds the two strings in a row and every byte outside the
    appended part and its end is as before. *)
Lemma strcat_correct fuel m dest src ds ss : cstr m dest ds -> cstr m src ss ->
  (length ds < fuel)%nat -> (length ss < fuel)%nat -> zlen ds < 4294967296 ->
  dest + zlen ds + zlen ss < src \/ src + zlen ss < dest ->
  exists m', strcat fuel m dest src = Some m' /\ cstr m' dest (ds ++ ss) /\
    forall x, ~ (dest + zlen ds <= x <= dest + zlen ds + zlen ss) -> m' x = m x.
Proof.
  intros Hd Hs Hf1 Hf2 Hb Hdis. unfold strcat. rewrite (strlen_ok _ _ _ ds) by done.
  destruct (strcpy_ok fuel m (dest + zlen ds) src ss Hs Hf2) as (m' & Hrun & Hc & Hout); [lia|].
  exists m'. split; [done|]. split; [|done]. apply cstr_app. split; [|done].
  intros i c Hi. destruct (cstr_chars _ _ _ _ _ Hd Hi) as [Hl ?]. split; [|done]. rewrite <- Hl. apply load8_ext, Hout.
  apply lookup_lt_Some in Hi. lia.
Qed.
Lemma strcat_correct_witness :
  exists m', strcat 10 (mem_of 100 [104; 105; 0; 0; 0; 0; 33; 63; 0]) 100 106 = Some m' /\ cstr m' 100 [104; 105; 33; 63].
Proof.
  destruct (strcat_correct 10 (mem_of 100 [104; 105; 0; 0; 0; 0; 33; 63; 0]) 100 106 [104; 105] [33; 63])
    as (m' & Hrun & Hc & _); try (cbn; lia); [repeat split; vm_compute; congruence..|]. by exists m'.
Defined.

(** The value of [strcmp]: equal strings give 0, others the difference of the
    first characters that differ, the end counting as 0. *)
Fixpoint strcmp_spec (cs ds : list Z) : Z :=
  match cs, ds with
  | [], [] => 0
  | c :: _, [] => s8 c
  | [], d :: _ => - s8 d
  | c :: cs', d :: ds' => if c =? d then strcmp_spec cs' ds' else s8 c - s8 d
  end.

Lemma s8_inj c d : 0 <= c < 256 -> 0 <= d < 256 -> (s8 c =? s8 d) = (c =? d).
Proof.
  intros. unfold s8. rewrite !u8_id by lia. apply eq_true_iff_eq. rewrite !Z.eqb_eq.
  destruct (c <? 128) eqn:?, (d <? 128) eqn:?; zify_bool; lia.
Qed.
Lemma s8_zero c : 0 <= c < 256 -> (s8 c =? 0) = (c =? 0).
Proof. intros. change 0 with (s8 0) at 1. apply s8_inj; lia. Qed.

(** [strcmp] returns 0 exactly on equal strings and otherwise the
    difference of the first characters that differ, taken as signed characters
    and cast to [u32]. *)
Lemma strcmp_correct fuel m a b cs ds : cstr m a cs -> cstr m b ds -> (length cs < fuel)%nat ->
  strcmp fuel m a b = Some (u32 (strcmp_spec cs ds)) /\ (strcmp fuel m a b = Some 0 <-> cs = ds).
Proof.
  intros Hc Hd Hf.
  assert (strcmp fuel m a b = Some (u32 (strcmp_spec cs ds))) as Hrun.
  { revert a b cs ds Hc Hd Hf. induction fuel as [|n IH]; intros a b cs ds Hc Hd Hf; [lia|]. cbn [strcmp].
    destruct cs as [|c cs], ds as [|d ds]; cbn [cstr length strcmp_spec] in *.
    - rewrite Hc, Hd. done.
    - destruct Hd as (-> & Hd & _). rewrite Hc. cbn. f_equal.
    - destruct Hc as (-> & Hc & _). rewrite Hd. change (s8 0) with 0. rewrite !s8_zero by lia. dec_false (c =? 0).
      cbn [negb andb]. by rewrite Z.sub_0_r.
    - destruct Hc as (-> & Hc & Hcr), Hd as (-> & Hd & Hdr). rewrite s8_zero, s8_inj by lia. dec_false (c =? 0).
      cbn [negb andb]. destruct (c =? d); [apply IH; (done || lia)|done]. }
  split; [done|]. rewrite Hrun. apply cstr_Forall in Hc, Hd. clear Hf Hrun. split.
  - intros [= H0]. revert ds Hd H0. induction Hc as [|c cs Hc Hcs IH]; intros ds Hd H0; destruct Hd as [|d ds Hd Hds]; cbn in H0.
    + done.
    + exfalso. assert (- s8 d <> 0 /\ -128 <= - s8 d <= 128) as [? ?].
      { unfold s8. rewrite u8_id by lia. case_bool; lia. }
      unfold u32 in H0. dlia.
    + exfalso. assert (s8 c <> 0 /\ -128 <= s8 c <= 128) as [? ?].
      { unfold s8. rewrite u8_id by lia. case_bool; lia. }
      unfold u32 in H0. dlia.
    + destruct (Z.eqb_spec c d) as [-> |Hne]; [f_equal; by apply IH|]. exfalso.
      assert (s8 c - s8 d <> 0 /\ -256 <= s8 c - s8 d <= 256) as [? ?].
      { pose proof (s8_inj c d ltac:(lia) ltac:(lia)) as Hs. apply Z.eqb_neq in Hne as Hne'. rewrite Hne' in Hs. zify_bool.
        split; [lia|]. unfold s8. rewrite !u8_id by lia. repeat case_bool; lia. }
      unfold u32 in H0. dlia.
  - intros <-. clear Hd. f_equal. induction cs as [|c cs IH]; [done|]. cbn. rewrite Z.eqb_refl. apply IH. by inversion Hc.
Qed.
Lemma strcmp_correct_witness : strcmp 10 (mem_of 100 [97; 98; 0; 97; 99; 0]) 100 103 = Some 4294967295 /\
  (strcmp 10 (mem_of 100 [97; 98; 0; 97; 99; 0]) 100 103 = Some 0 <-> [97; 98] = [97; 99]).
Proof. apply (strcmp_correct 10 _ 100 103 [97; 98] [97; 99]); [repeat split; vm_compute; congruence..|cbn; lia]. Defined.

(** * Numbers *)

(** The digits of [n], the last one first. *)
Fixpoint rdigits (fuel : nat) (n : Z) : list Z :=
  match fuel with
  | O => []
  | S k => (n mod 10 + 48) :: (if 0 <? n / 10 then rdigits k (n / 10) else [])
  end.
Fixpoint rvalue (ds : list Z) : Z := match ds with [] => 0 | d :: r => (d - 48) + 10 * rvalue r end.

Lemma rdigits_value fuel n : 0 <= n < 10 ^ Z.of_nat fuel -> (0 < fuel)%nat -> rvalue (rdigits fuel n) = n.
Proof.
  revert n. induction fuel as [|k IH]; intros n Hn Hf; [lia|]. cbn [rdigits rvalue].
  rewrite Nat2Z.inj_succ, Z.pow_succ_r in Hn by lia. destruct (0 <? n / 10) eqn:E; zify_bool.
  - assert (0 < k)%nat by (destruct k; [cbn in Hn; dlia|lia]). rewrite IH by (try done; dlia). dlia.
  - cbn. dlia.
Qed.
Lemma rdigits_chars fuel n : 0 <= n -> Forall (fun c => 48 <= c <= 57) (rdigits fuel n).
Proof.
  revert n. induction fuel as [|k IH]; intros n Hn; cbn; [constructor|]. constructor; [dlia|].
  case_bool; [apply IH; dlia|constructor].
Qed.
Lemma rdigits_rev_chars fuel n : 0 <= n -> Forall (fun c => 48 <= c <= 57) (rev (rdigits fuel n)).
Proof. intros Hn. apply Forall_rev. by apply rdigits_chars. Qed.
Lemma rdigits_length fuel n : (length (rdigits fuel n) <= fuel)%nat.
Proof. revert n. induction fuel as [|k IH]; intros n; cbn; [done|]. case_bool; cbn [length]; [specialize (IH (n / 10))|]; lia. Qed.
Lemma rdigits_nonempty fuel n : (0 < fuel)%nat -> (0 < length (rdigits fuel n))%nat.
Proof. destruct fuel; cbn; lia. Qed.

Lemma utoa_loop_ok fuel m n s i : 0 <= n < 10 ^ Z.of_nat fuel -> (0 < fuel)%nat ->
  exists m', utoa_loop fuel m n s i = Some (m', i + zlen (rdigits fuel n)) /\
    (forall k c, rdigits fuel n !! k = Some c -> load8 m' (s + i + Z.of_nat k) = c) /\
    forall x, ~ (s + i <= x < s + i + zlen (rdigits fuel n)) -> m' x = m x.
Proof.
  revert m n i. induction fuel as [|k IH]; intros m n i Hn Hf; [lia|]. cbn [utoa_loop rdigits].
  rewrite Nat2Z.inj_succ, Z.pow_succ_r in Hn by lia. destruct (0 <? n / 10) eqn:E; zify_bool.
  - assert (0 < k)%nat by (destruct k; [cbn in Hn; dlia|lia]).
    destruct (IH (store8 m (s + i) (n mod 10 + 48)) (n / 10) (i + 1)) as (m' & Hrun & Hd & Hout); [dlia|done|].
    exists m'. cbn [length]. split; [rewrite Hrun; do 2 f_equal; lia|]. split.
    + intros [|j] c; cbn [lookup list_lookup].
      * intros [= <-]. rewrite Z.add_0_r, (load8_ext (store8 m (s + i) (n mod 10 + 48))) by (apply Hout; lia).
        rewrite load8_store8. apply u8_id. dlia.
      * intros Hj. specialize (Hd j c Hj). by replace (s + i + Z.of_nat (S j)) with (s + (i + 1) + Z.of_nat j) by lia.
    + intros x Hx. rewrite Hout by lia. apply store8_other. lia.
  - eexists. split; [reflexivity|]. cbn [length]. split.
    + intros [|j] c; cbn [lookup list_lookup]; [|done]. intros [= <-]. rewrite Z.add_0_r, load8_store8. apply u8_id. dlia.
    + intros x Hx. apply store8_other. lia.
Qed.

Lemma reverse_loop_ok fuel m s i j : 0 <= i -> i <= j + 1 -> j < 4294967296 -> j - i < 2 * Z.of_nat fuel - 1 ->
  exists m', reverse_loop fuel m s i j = Some m' /\
    (forall k, i <= k <= j -> load8 m' (s + k) = load8 m (s + (i + j - k))) /\
    forall x, ~ (s + i <= x <= s + j) -> m' x = m x.
Proof.
  revert m i j. induction fuel as [|n IH]; intros m i j Hi Hij Hj Hf; [lia|]. cbn [reverse_loop].
  destruct (i <? j) eqn:E; zify_bool.
  - rewrite u32_id by lia. set (m1 := store8 (store8 m (s + i) (load8 m (s + j))) (s + j) (load8 m (s + i))).
    destruct (IH m1 (i + 1) (j - 1)) as (m' & Hrun & Hin & Hout); [lia..|].
    exists m'. split; [done|]. split.
    + intros k Hk. destruct (decide (k = i)) as [-> |]; [|destruct (decide (k = j)) as [-> |]].
      * rewrite (load8_ext m1) by (apply Hout; lia). unfold m1. rewrite load8_store8_other, load8_store8 by lia.
        rewrite u8_id by apply load8_range. do 2 f_equal. lia.
      * rewrite (load8_ext m1) by (apply Hout; lia). unfold m1. rewrite load8_store8.
        rewrite u8_id by apply load8_range. do 2 f_equal. lia.
      * rewrite Hin by lia. unfold m1. rewrite !load8_store8_other by lia. do 2 f_equal. lia.
    + intros x Hx. rewrite Hout by lia. unfold m1. rewrite !store8_other by lia. done.
  - exists m. split; [done|]. split; [|done]. intros k Hk. do 2 f_equal. lia.
Qed.

(** [reverse] reverses a string that is not empty. *)
Lemma reverse_ok fuel m s cs : cstr m s cs -> cs <> [] -> (length cs < fuel)%nat -> zlen cs < 4294967296 ->
  exists m', reverse fuel m s = Some m' /\ cstr m' s (rev cs) /\ forall x, ~ (s <= x < s + zlen cs) -> m' x = m x.
Proof.
  intros Hc Hne Hf Hb. unfold reverse. rewrite (strlen_ok _ _ _ cs) by done.
  assert (0 < zlen cs) by (destruct cs; cbn [length]; [done|lia]). rewrite u32_id by lia.
  destruct (reverse_loop_ok fuel m s 0 (zlen cs - 1)) as (m' & Hrun & Hin & Hout); [lia..|].
  exists m'. split; [done|]. split; [|intros x Hx; apply Hout; lia]. apply cstr_intro.
  - intros i c Hi. pose proof (lookup_lt_Some _ _ _ Hi) as Hlt. rewrite length_rev in Hlt.
    rewrite Hin by lia. rewrite rev_alt in Hi.
    assert (cs !! (length cs - S i)%nat = Some c) as Hi2 by (rewrite <- Hi; symmetry; exact (reverse_lookup cs i Hlt)).
    destruct (cstr_chars m s cs (length cs - S i) c Hc Hi2) as [Hl ?]. split; [|done]. rewrite <- Hl. do 2 f_equal. lia.
  - rewrite length_rev. rewrite (load8_ext m m') by (apply Hout; lia). by apply cstr_end.
Qed.

(** [utoa] writes the decimal digits. *)
Lemma utoa_ok m n s : 0 <= n < 4294967296 ->
  exists m', utoa m n s = Some m' /\ cstr m' s (rev (rdigits 11 n)) /\
    forall x, ~ (s <= x <= s + 11) -> m' x = m x.
Proof.
  intros Hn. unfold utoa. destruct (utoa_loop_ok 11 m n s 0) as (m1 & -> & Hd & Hout); [cbn; lia|lia|].
  pose proof (rdigits_length 11 n). pose proof (rdigits_nonempty 11 n ltac:(lia)).
  set (ds := rdigits 11 n) in *. rewrite Z.add_0_l. set (m2 := store8 m1 (s + zlen ds) 0).
  assert (cstr m2 s ds) as Hc.
  { apply cstr_intro.
    - intros i c Hi. pose proof (lookup_lt_Some _ _ _ Hi). unfold m2. rewrite load8_store8_other by lia.
      specialize (Hd i c Hi). rewrite Z.add_0_r in Hd. split; [done|].
      assert (Forall (fun c => 48 <= c <= 57) ds) as Hch by (apply rdigits_chars; lia).
      rewrite Forall_lookup in Hch. specialize (Hch i c Hi). lia.
    - unfold m2. by rewrite load8_store8. }
  destruct (reverse_ok 12 m2 s ds Hc) as (m' & Hrun & Hc' & Hout'); [destruct ds; cbn in *; (done || lia)|lia|lia|].
  exists m'. split; [done|]. split; [done|]. intros x Hx. rewrite Hout' by lia. unfold m2. rewrite store8_other by lia.
  apply Hout. lia.
Qed.

(** Value of a digit string read from the left. *)
Definition dvalue (num : Z) (cs : list Z) : Z := foldl (fun v c => s32 (v * 10 + c - 48)) num cs.

Lemma atoiindex_loop_ok fuel m s i num sign cs : cstr m (s + i) cs -> Forall (fun c => 48 <= c <= 57) cs ->
  (length cs < fuel)%nat ->
  atoiindex_loop fuel m s i num sign =
    Some (if sign then s32 (dvalue num cs * -1) else dvalue num cs, u32 (i + zlen cs)).
Proof.
  revert i num cs. induction fuel as [|n IH]; intros i num cs Hc Hd Hf; [lia|]. cbn [atoiindex_loop].
  destruct cs as [|c r]; cbn [cstr length] in *.
  - rewrite Hc. cbn. by rewrite Z.add_0_r.
  - destruct Hc as (-> & _ & Hr). apply Forall_cons in Hd as [Hc Hd]. dec_false (c =? 0).
    dec_true (48 <=? c). dec_true (c <=? 57). cbn [andb].
    rewrite (IH (i + 1) _ r) by (try done; try lia; by rewrite Z.add_assoc). cbn [dvalue foldl]. do 2 f_equal. f_equal. lia.
Qed.

Lemma atoiindex_minus fuel m s : load8 m s = 45 -> atoiindex (S fuel) m s = atoiindex_loop fuel m s 1 0 true.
Proof. intros Hm. unfold atoiindex. cbn [atoiindex_loop]. by rewrite Z.add_0_r, Hm. Qed.

(** Reading the digits back, modulo the wrap of [int]. *)
Lemma dvalue_rdigits num cs : u32 (dvalue num (rev cs)) = u32 (num * 10 ^ zlen cs + rvalue cs).
Proof.
  revert num. induction cs as [|c r IH]; intros num; cbn [rev length rvalue].
  { unfold dvalue. cbn. f_equal. lia. }
  unfold dvalue in *. rewrite foldl_snoc, u32_s32. specialize (IH num).
  rewrite Nat2Z.inj_succ, Z.pow_succ_r by lia. unfold u32 in *.
  rewrite <- (Zminus_mod_idemp_l (_ + _)), <- Z.add_mod_idemp_l, <- Z.mul_mod_idemp_l, IH by lia.
  rewrite Z.mul_mod_idemp_l, Z.add_mod_idemp_l, Zminus_mod_idemp_l by lia. f_equal. ring.
Qed.

(** C39: [itoa] writes a string from which [atoi] reads the number back, for
    every 32-bit number, negative ones included, and touches only the 13 bytes
    of the buffer. *)
Theorem itoa_atoi_roundtrip m n s : -2147483648 <= n < 2147483648 ->
  exists m', itoa m n s = Some m' /\ atoi 14 m' s = Some n /\ forall x, ~ (s <= x <= s + 12) -> m' x = m x.
Proof.
  intros Hn. unfold itoa. destruct (n <? 0) eqn:E; zify_bool.
  - rewrite u32_id by lia. destruct (utoa_ok (store8 m s 45) (- n) (s + 1)) as (m' & Hrun & Hc & Hout); [lia|].
    exists m'. split; [done|]. split; [|intros x Hx; rewrite Hout by lia; apply store8_other; lia].
    assert (load8 m' s = 45) as H45 by (rewrite (load8_ext (store8 m s 45)) by (apply Hout; lia); by rewrite load8_store8).
    unfold atoi. rewrite (atoiindex_minus 13 m' s H45). pose proof (rdigits_length 11 (- n)).
    rewrite (atoiindex_loop_ok 13 m' s 1 0 true _ Hc (rdigits_rev_chars 11 (- n) ltac:(lia))) by (rewrite length_rev; lia).
    f_equal. pose proof (dvalue_rdigits 0 (rdigits 11 (- n))) as Hv. rewrite rdigits_value in Hv by (cbn; lia).
    assert (s32 (dvalue 0 (rev (rdigits 11 (- n))) * -1) = s32 n) as ->; [|unfold s32, u32; case_bool; dlia].
    apply s32_u32_eq. unfold u32 in *. rewrite <- Z.mul_mod_idemp_l, Hv, Z.mul_mod_idemp_l by lia. f_equal. lia.
  - rewrite u32_id by lia. destruct (utoa_ok m n s) as (m' & Hrun & Hc & Hout); [lia|].
    exists m'. split; [done|]. split; [|intros x Hx; apply Hout; lia].
    unfold atoi, atoiindex. pose proof (rdigits_length 11 n).
    rewrite <- (Z.add_0_r s) in Hc.
    rewrite (atoiindex_loop_ok 14 m' s 0 0 false _ Hc (rdigits_rev_chars 11 n ltac:(lia))) by (rewrite length_rev; lia).
    f_equal. pose proof (dvalue_rdigits 0 (rdigits 11 n)) as Hv. rewrite rdigits_value in Hv by (cbn; lia).
    assert (exists z, dvalue 0 (rev (rdigits 11 n)) = s32 z) as [z Hz].
    { unfold dvalue. destruct (rdigits 11 n) as [|d r] eqn:Er; [by exists 0|]. cbn [rev]. rewrite foldl_snoc. by eexists. }
    assert (s32 z = s32 n) as Hzn by (apply s32_u32_eq; rewrite <- (u32_s32 z), <- Hz, Hv; f_equal; lia).
    rewrite Hz, Hzn. unfold s32, u32. case_bool; dlia.
Qed.
Lemma itoa_atoi_roundtrip_witness : exists m', itoa (fun _ => 0) (-2147483648) 100 = Some m' /\
  atoi 14 m' 100 = Some (-2147483648) /\ forall x, ~ (100 <= x <= 100 + 12) -> m' x = (fun _ => 0) x.
Proof. apply (itoa_atoi_roundtrip (fun _ => 0) (-2147483648) 100). lia. Defined.

(** * Searching and splitting *)

Fixpoint index_of (c : Z) (cs : list Z) : option nat :=
  match cs with
  | [] => None
  | d :: r => if d =? c then Some O else match index_of c r with Some i => Some (S i) | None => None end
  end.

(** [strchr] finds the first occurrence. *)
Lemma strchr_ok fuel m a c cs : cstr m a cs -> 0 < c < 256 -> (length cs < fuel)%nat ->
  strchr fuel m a c = Some (match index_of c cs with Some i => a + Z.of_nat i | None => 0 end).
Proof.
  revert a cs. induction fuel as [|n IH]; intros a cs Hc Hr Hf; [lia|]. cbn [strchr].
  destruct cs as [|d r]; cbn [cstr length index_of] in *; [by rewrite Hc|].
  destruct Hc as (-> & Hd & Hc). dec_false (d =? 0). rewrite s8_inj by lia. destruct (d =? c).
  - by rewrite Z.add_0_r.
  - rewrite (IH (a + 1) r) by (done || lia). f_equal. destruct (index_of c r); [lia|done].
Qed.

(** [strrchr] finds the last occurrence. *)
Lemma strrchr_loop_ok n m a c cs : cstr m a cs -> 0 < c < 256 -> (n <= length cs)%nat ->
  (strrchr_loop n m a c = 0 /\ (forall i, (i < n)%nat -> cs !! i <> Some c)) \/
  exists i, strrchr_loop n m a c = a + Z.of_nat i /\ (i < n)%nat /\ cs !! i = Some c /\
    forall j, (i < j < n)%nat -> cs !! j <> Some c.
Proof.
  intros Hc Hr. induction n as [|n IH]; intros Hn; [left; split; [done|lia]|]. cbn [strrchr_loop].
  destruct (lookup_lt_is_Some_2 cs n ltac:(lia)) as [d Hd]. destruct (cstr_chars _ _ _ _ _ Hc Hd) as [-> Hdr].
  rewrite s8_inj by lia. destruct (Z.eqb_spec d c) as [-> |Hne].
  - right. exists n. split; [done|]. split; [lia|]. split; [done|]. lia.
  - destruct (IH ltac:(lia)) as [[H0 H1]|(i & H0 & H1 & H2 & H3)].
    + left. split; [done|]. intros i Hi. destruct (decide (i = n)) as [-> |]; [congruence|apply H1; lia].
    + right. exists i. split; [done|]. split; [lia|]. split; [done|]. intros j Hj.
      destruct (decide (j = n)) as [-> |]; [congruence|apply H3; lia].
Qed.

(** The pieces between the separators. *)
Fixpoint split_spec (c : Z) (cs : list Z) : list (list Z) :=
  match cs with
  | [] => [[]]
  | d :: r => if d =? c then [] :: split_spec c r
              else match split_spec c r with [] => [[d]] | p :: ps => (d :: p) :: ps end
  end.

Lemma split_index c cs : split_spec c cs =
  match index_of c cs with Some i => take i cs :: split_spec c (drop (S i) cs) | None => [cs] end.
Proof.
  induction cs as [|d r IH]; [done|]. cbn [split_spec index_of]. destruct (d =? c); [done|]. rewrite IH.
  by destruct (index_of c r).
Qed.
Lemma index_of_split c cs i : index_of c cs = Some i -> cs = take i cs ++ c :: drop (S i) cs /\ (i < length cs)%nat.
Proof.
  revert i. induction cs as [|d r IH]; intros i; [done|]. cbn [index_of]. destruct (Z.eqb_spec d c) as [-> |].
  - intros [= <-]. cbn. split; [done|lia].
  - destruct (index_of c r) as [j|]; [|done]. intros [= <-]. destruct (IH j eq_refl) as [Heq ?]. cbn. split; [|lia].
    by rewrite <- Heq.
Qed.
Lemma cstr_drop m a cs i : cstr m a cs -> (i <= length cs)%nat -> cstr m (a + Z.of_nat i) (drop i cs).
Proof.
  intros Hc Hi. rewrite <- (take_drop i cs) in Hc. apply cstr_app in Hc as [_ Hc]. by rewrite length_take, Nat.min_l in Hc by done.
Qed.
Lemma cstr_bytes m a cs n : cstr m a cs -> (n <= length cs)%nat -> bytes_at m a n = take n cs.
Proof.
  intros Hc Hn. apply list_eq. intros i. destruct (decide (i < n)%nat) as [Hi|Hi].
  - rewrite bytes_at_lookup, lookup_take_lt by done. destruct (lookup_lt_is_Some_2 cs i ltac:(lia)) as [d Hd].
    rewrite Hd. f_equal. by apply (cstr_chars _ _ _ _ _ Hc).
  - rewrite !lookup_ge_None_2; [done|rewrite length_take; lia|rewrite length_bytes_at; lia].
Qed.

Lemma count_sep_ok fuel m a c cs size : cstr m a cs -> 0 < c < 256 -> 0 < a -> (length cs < fuel)%nat ->
  count_sep fuel m a c size = Some (size + zlen (split_spec c cs) - 1).
Proof.
  revert a cs size. induction fuel as [|n IH]; intros a cs size Hc Hr Ha Hf; [lia|]. cbn [count_sep].
  rewrite (strchr_ok _ _ _ _ cs), (split_index c cs) by done. destruct (index_of c cs) as [i|] eqn:E; cbn [length Z.eqb].
  - dec_false (a + Z.of_nat i =? 0). destruct (index_of_split _ _ _ E) as [_ Hi].
    pose proof (cstr_drop _ _ _ (S i) Hc ltac:(lia)) as Hd.
    replace (a + Z.of_nat i + 1) with (a + Z.of_nat (S i)) by lia.
    rewrite (IH _ _ _ Hd) by (try done; rewrite ?length_drop; lia). f_equal. lia.
  - f_equal. lia.
Qed.

(** The string after a separator at its front. *)
Definition skip_sep (c : Z) (cs : list Z) : list Z :=
  match cs with d :: r => if d =? c then r else cs | [] => [] end.

Lemma split_loop_ok fuel m str slen off c cs : cstr m off cs -> 0 < c < 256 -> 0 < off -> str + slen = off + zlen cs ->
  (length cs < fuel)%nat ->
  split_loop fuel m str slen off c = Some (split_spec c (skip_sep c cs)).
Proof.
  revert off cs. induction fuel as [|n IH]; intros off cs Hc Hr Ho Hs Hf; [lia|]. cbn [split_loop].
  set (off' := if _ =? _ then _ else _).
  assert (cstr m off' (skip_sep c cs) /\ 0 < off' /\ str + slen = off' + zlen (skip_sep c cs) /\
    (length (skip_sep c cs) <= length cs)%nat /\
    ((length (skip_sep c cs) < length cs)%nat \/ index_of c (skip_sep c cs) <> Some O)) as (Hc' & Ho' & Hs' & Hl' & Hl2).
  { subst off'. destruct cs as [|d r]; cbn [skip_sep cstr length] in *.
    - rewrite Hc, s8_inj by lia. dec_false (0 =? c). cbn. split; [done|]. split; [lia|]. split; [lia|]. split; [lia|]. by right.
    - destruct Hc as (Hd0 & Hd & Hc). rewrite Hd0, s8_inj by lia. destruct (d =? c) eqn:E; cbn [cstr length index_of].
      + split; [done|]. lia.
      + rewrite E. split; [done|]. split; [lia|]. split; [lia|]. split; [lia|]. right. by destruct (index_of c r). }
  clearbody off'. set (cs' := skip_sep c cs) in *. clearbody cs'.
  rewrite (strchr_ok _ _ _ _ cs'), (split_index c cs') by (done || lia).
  destruct (index_of c cs') as [i|] eqn:E.
  - dec_false (off' + Z.of_nat i =? 0). destruct (index_of_split _ _ _ E) as [Heq Hi].
    pose proof (cstr_drop _ _ _ i Hc' ltac:(lia)) as Hd.
    assert (drop i cs' = c :: drop (S i) cs') as Hdi by (apply drop_S; rewrite Heq at 1; rewrite lookup_app_r, length_take, Nat.min_l, Nat.sub_diag by (rewrite ?length_take; lia); done).
    assert (length cs' < length cs \/ i <> 0)%nat by (destruct Hl2 as [?|Hi0]; [by left|right; congruence]).
    rewrite (IH _ _ Hd) by (try done; rewrite ?length_drop; lia).
    rewrite Hdi. cbn [skip_sep]. rewrite Z.eqb_refl. do 2 f_equal.
    replace (Z.to_nat (off' + Z.of_nat i - off')) with i by lia. apply cstr_bytes; [done|lia].
  - cbn [Z.eqb]. do 2 f_equal. replace (Z.to_nat (str + slen - off')) with (length cs') by lia.
    rewrite (cstr_bytes _ _ cs') by done. by rewrite take_ge by lia.
Qed.

(** [strsplit] returns the pieces between the separators and their number,
    except when the string starts with a separator: then the first, empty piece
    is not in the array but is still counted. *)
Lemma strsplit_correct fuel m str c cs : cstr m str cs -> 0 < c < 256 -> 0 < str -> (length cs < fuel)%nat ->
  zlen cs < 4294967296 ->
  strsplit fuel m str c = Some (match cs with d :: r => if d =? c then split_spec c r else split_spec c cs | [] => [[]] end,
    zlen (split_spec c cs)).
Proof.
  intros Hc Hr Ha Hf Hl. unfold strsplit. rewrite (strlen_ok _ _ _ cs) by done.
  rewrite (count_sep_ok _ _ _ _ cs) by done. rewrite (split_loop_ok _ _ _ _ _ _ cs) by done.
  do 2 f_equal; [|lia]. destruct cs as [|d r]; [done|]. cbn [skip_sep]. by destruct (d =? c).
Qed.
Lemma strsplit_correct_witness :
  strsplit 10 (mem_of 100 [47; 97; 47; 98; 99; 0]) 100 47 = Some ([[97]; [98; 99]], 3).
Proof.
  apply (strsplit_correct 10 _ 100 47 [47; 97; 47; 98; 99]); [repeat split; vm_compute; congruence|lia|lia|cbn; lia|cbn; lia].
Defined.

(** [strcfirst] is the length of the common prefix, on 16 bits. *)
Fixpoint common_prefix (cs ds : list Z) : Z :=
  match cs, ds with c :: cs', d :: ds' => if c =? d then 1 + common_prefix cs' ds' else 0 | _, _ => 0 end.
Lemma common_prefix_range cs ds : 0 <= common_prefix cs ds <= zlen cs.
Proof. revert ds. induction cs as [|c cs IH]; intros [|d ds]; cbn; try lia. specialize (IH ds). case_bool; lia. Qed.
Lemma strcfirst_loop_ok fuel m a b cs ds tr : cstr m a cs -> cstr m b ds -> (length cs < fuel)%nat -> is_u16 tr ->
  strcfirst_loop fuel m a b tr = Some (u16 (tr + common_prefix cs ds)).
Proof.
  revert a b cs ds tr. induction fuel as [|n IH]; intros a b cs ds tr Hc Hd Hf Ht; [lia|]. cbn [strcfirst_loop].
  destruct cs as [|c cs], ds as [|d ds]; cbn [cstr length common_prefix] in *; rewrite ?Z.add_0_r, ?(u16_id tr) by done.
  - by rewrite Hc.
  - by rewrite Hc.
  - destruct Hc as (-> & Hc & _). rewrite Hd. change (s8 0) with 0. rewrite !s8_zero by lia. by dec_false (c =? 0).
  - destruct Hc as (-> & Hc & Hcr), Hd as (-> & Hd & Hdr). rewrite s8_zero, s8_inj by lia. dec_false (c =? 0).
    cbn [negb andb]. destruct (c =? d).
    + rewrite (IH _ _ cs ds) by (try done; try lia; apply u16_range). f_equal. unfold u16. rewrite Z.add_mod_idemp_l by lia. f_equal. lia.
    + by rewrite Z.add_0_r, u16_id.
Qed.
Lemma strcfirst_ok fuel m a b cs ds : cstr m a cs -> cstr m b ds -> (length cs < fuel)%nat ->
  strcfirst fuel m a b = Some (u16 (common_prefix cs ds)).
Proof. intros. unfold strcfirst. rewrite (strcfirst_loop_ok _ _ _ _ cs ds); (done || unfold is_u16; lia). Qed.

(** ** Copying and appending at most [n] characters *)

(** The bytes in front of a zero. *)
Fixpoint before_zero (l : list Z) : list Z :=
  match l with
  | [] => []
  | c :: r => if c =? 0 then [] else c :: before_zero r
  end.
Lemma before_zero_id n : Forall (fun c => 0 < c < 256) n -> before_zero n = n.
Proof. induction 1 as [|c r Hc Hr IH]; [done|]. cbn. dec_false (c =? 0). by rewrite IH. Qed.
Lemma strncpy_ok fuel : forall m dest src i n, 0 <= i <= n -> n - i < Z.of_nat fuel ->
  dest + (n - i) < src \/ src + (n - i) <= dest ->
  exists m', strncpy_loop fuel m dest src i n = Some m' /\ cstr m' dest (before_zero (bytes_at m src (Z.to_nat (n - i)))) /\
    forall x, ~ (dest <= x <= dest + (n - i)) -> m' x = m x.
Proof.
  induction fuel as [|k IH]; intros m dest src i n Hi Hf Hd; [lia|]. cbn [strncpy_loop]. destruct (Z.ltb_spec i n) as [Hlt|Hge].
  - replace (Z.to_nat (n - i)) with (S (Z.to_nat (n - (i + 1)))) by lia. cbn [bytes_at before_zero].
    destruct (Z.eqb_spec (load8 m src) 0) as [Hz|Hnz].
    + eexists. split; [reflexivity|]. rewrite Hz. split; [cbn [cstr]; rewrite load8_store8_other by lia; by rewrite load8_store8|].
      intros x Hx. rewrite !store8_other by lia. done.
    + destruct (IH (store8 m dest (load8 m src)) (dest + 1) (src + 1) (i + 1) n) as (m' & Hrun & Hc & Hout); [lia|lia|lia|].
      exists m'. split; [done|]. split.
      * cbn [cstr]. pose proof (load8_range m src) as Hr. unfold is_u8 in Hr. split; [|split; [lia|]].
        -- rewrite (load8_ext (store8 m dest (load8 m src))) by (apply Hout; lia). rewrite load8_store8. apply u8_id. lia.
        -- rewrite (bytes_at_eq (store8 m dest (load8 m src)) m (src + 1) (src + 1)) by (intros j Hj; symmetry; apply load8_store8_other; lia). exact Hc.
      * intros x Hx. rewrite Hout by lia. apply store8_other. lia.
  - replace (n - i) with 0 by lia. change (Z.to_nat 0) with 0%nat. cbn [bytes_at before_zero cstr]. eexists. split; [reflexivity|]. split; [by rewrite load8_store8|]. intros x Hx. apply store8_other. lia.
Qed.

(** [strncat] of all the characters of a string puts them at [pos] and writes no
    end. *)
Lemma strncat_loop_ok cs : forall m pos src, cstr m src cs -> pos + zlen cs <= src \/ src + zlen cs < pos ->
  let m' := strncat_loop (length cs) m pos src in
  (forall i c, cs !! i = Some c -> load8 m' (pos + Z.of_nat i) = c) /\ (forall x, ~ (pos <= x < pos + zlen cs) -> m' x = m x).
Proof.
  induction cs as [|c cs IH]; intros m pos src Hc Hd; cbn [length strncat_loop app cstr] in *; cbv zeta.
  { split; [intros i c; by rewrite lookup_nil|done]. }
  destruct Hc as (Hl & Hr & Hc). rewrite Hl. dec_false (c =? 0).
  destruct (IH (store8 m pos c) (pos + 1) (src + 1)) as [H1 H2]; [|lia|].
  { eapply cstr_ext; [|exact Hc]. intros x Hx. apply load8_store8_other. lia. }
  split.
  - intros [|i] d Hi; cbn in Hi.
    + injection Hi as <-. rewrite Z.add_0_r. rewrite (load8_ext (store8 m pos c)) by (apply H2; lia). rewrite load8_store8. apply u8_id. lia.
    + replace (pos + Z.of_nat (S i)) with (pos + 1 + Z.of_nat i) by lia. by apply H1.
  - intros x Hx. rewrite H2 by lia. apply store8_other. lia.
Qed.
