(* ===== verification/Time.v ===== *)
(** Time (time/time.c).

    [time_t] is a 32-bit signed number of seconds since 1970.  Years are
    offsets from 1900 on 8 bits.  The CMOS registers are a function from
    register numbers to bytes. *)

From S2P Require Import Prelude.

Definition monthdays : list Z := [31; 29; 31; 30; 31; 30; 31; 31; 30; 31; 30; 31].

Record cmos_time : Type := mk_cmos {
  seconds : Z; minutes : Z; hours : Z; weekday : Z; monthday : Z; month : Z; year : Z; century : Z }.

Definition CMOS_FLAG_BCD : Z := 2.
Definition CMOS_FLAG_12 : Z := 4.

(** [((x & 0xF0) >> 1) + ((x & 0xF0) >> 3) + (x & 0xf)] on a [u8]. *)
Definition bcd (x : Z) : Z := u8 (Z.shiftr (Z.land x 240) 1 + Z.shiftr (Z.land x 240) 3 + Z.land x 15).

(** Flags and time read from the registers; [flags] is [cmos_flags] before the
    call, whose [CMOS_FLAG_SET] bit is never set. *)
Definition cmos_flags_read (regs : Z -> Z) (flags : Z) : Z :=
  if negb (Z.land flags 1 =? 0) then flags else
  let b := regs 11 in
  let flags := if Z.land b 2 =? 0 then Z.lor flags CMOS_FLAG_12 else flags in
  if Z.land b 4 =? 0 then Z.lor flags CMOS_FLAG_BCD else flags.

Definition pm_hours (flags h : Z) : Z :=
  if negb (Z.land flags CMOS_FLAG_12 =? 0) && negb (Z.land h 128 =? 0)
  then let h := Z.land h 127 in if negb (h =? 12) then u8 (h + 12) else 0
  else h.

Definition get_cmos_time (regs : Z -> Z) (flags : Z) : cmos_time * Z :=
  let flags := cmos_flags_read regs flags in
  let conv x := if negb (Z.land flags CMOS_FLAG_BCD =? 0) then bcd x else x in
  (mk_cmos (conv (regs 0)) (conv (regs 2)) (pm_hours flags (conv (regs 4))) (conv (regs 6)) (conv (regs 7))
     (conv (regs 8)) (u8 (conv (regs 9) + 100)) (conv (regs 50)), flags).

(** The [switch] of [convert_to_std_time] falls through from the month to
    January; [m] is the month counted from 0. *)
Definition month_seconds (m year : Z) : Z :=
  let leap := (year mod 4 =? 0) && (negb (year mod 100 =? 0) || (year mod 400 =? 0)) in
  let case k d acc := if (k <=? m) && (m <=? 11) then s32 (acc + d * 86400) else acc in
  let t := case 11 30 0 in
  let t := case 10 31 t in
  let t := case 9 30 t in
  let t := case 8 31 t in
  let t := case 7 31 t in
  let t := case 6 30 t in
  let t := case 5 31 t in
  let t := case 4 30 t in
  let t := case 3 31 t in
  let t := case 2 28 t in
  let t := if leap then case 2 1 t else t in
  case 1 31 t.

(** [while (years > 1969) {...; years--;}] *)
Fixpoint years_loop (fuel : nat) (years tr : Z) : Z :=
  match fuel with
  | O => tr
  | S n =>
    if 1969 <? years then
      let tr := s32 (tr + 365 * 86400) in
      let tr := if years mod 4 =? 0 then
                  if years mod 100 =? 0 then (if years mod 400 =? 0 then s32 (tr + 86400) else tr)
                  else s32 (tr + 86400)
                else tr in
      years_loop n (years - 1) tr
    else tr
  end.

Definition convert_to_std_time (seconds minutes hours day month year : Z) : Z :=
  let tr := s32 (seconds + 60 * minutes + 3600 * hours + 86400 * (day - 1)) in
  let years := 1900 + year - 1 in
  let month := u8 (month - 1) in
  years_loop 256 years (s32 (tr + month_seconds month year)).

(** [while(time >= monthdays[*month]) {...}], over the months from [mo] on. *)
Fixpoint month_loop (days : list Z) (time mo : Z) : Z * Z :=
  match days with
  | [] => (time, mo)
  | d :: r => if d <=? time then month_loop r (time - d) (mo + 1) else (time, mo)
  end.

(** The fields (seconds, minutes, hour, day, month, year). *)
Definition convert_to_readable_time (time : Z) : Z * Z * Z * Z * Z * Z :=
  let seconds := u8 (Z.rem time 60) in
  let time := Z.quot time 60 in
  let minutes := u8 (Z.rem time 60) in
  let time := Z.quot time 60 in
  let hour := u8 (Z.rem time 24) in
  let time := Z.quot time 24 in
  let time := s32 (time + 25568) in
  let year := u8 (Z.shiftl (Z.quot time 1461) 2) in
  let time := Z.rem time 1461 in
  let '(year, time) :=
    if 365 <? time then (u8 (year + Z.quot (time - 1) 365), Z.rem (time - 1) 365) else (year, time) in
  let time := if negb (Z.land year 3 =? 0) && (59 <=? time) then time + 1 else time in
  let '(time, mo) := month_loop monthdays time 0 in
  (seconds, minutes, hour, u8 (time + 1), u8 (mo + 1), year).

Definition get_current_time_utc (regs : Z -> Z) (flags : Z) : Z :=
  let ct := (get_cmos_time regs flags).1 in
  convert_to_std_time (seconds ct) (minutes ct) (hours ct) (monthday ct) (month ct) (year ct).

(** * The calendar *)

Definition is_leap (y : Z) : bool := (y mod 4 =? 0) && (negb (y mod 100 =? 0) || (y mod 400 =? 0)).
Definition month_len (y m : Z) : Z :=
  if m =? 2 then (if is_leap y then 29 else 28) else nth (Z.to_nat (m - 1)) monthdays 0.
Definition year_len (y : Z) : Z := if is_leap y then 366 else 365.

(** Days from the first of January 1970 to the first of January of [y], and
    from there to the first of [m]. *)
Definition days_to_year (y : Z) : Z :=
  foldr Z.add 0 ((fun k => year_len (1970 + Z.of_nat k)) <$> seq 0 (Z.to_nat (y - 1970))).
Definition days_to_month (y m : Z) : Z :=
  foldr Z.add 0 ((fun k => month_len y (Z.of_nat k + 1)) <$> seq 0 (Z.to_nat (m - 1))).

(** Seconds since 1970 of a civil date and time. *)
Definition civil_time (s mi h d m y : Z) : Z :=
  86400 * (days_to_year y + days_to_month y m + (d - 1)) + 3600 * h + 60 * mi + s.
Definition valid_date (d m y : Z) : Prop := 1970 <= y /\ 1 <= m <= 12 /\ 1 <= d <= month_len y m.
Definition valid_time (s mi h : Z) : Prop := 0 <= s < 60 /\ 0 <= mi < 60 /\ 0 <= h < 24.

(** The error of [convert_to_std_time]: in 2000, from March on, the leap day is
    missing, because the test looks at the year less 1900. *)
Definition std_error (m y : Z) : Z := if (y =? 2000) && (3 <=? m) then 86400 else 0.

Lemma std_year_month y m : 70 <= y < 138 -> 1 <= m <= 12 ->
  month_seconds (m - 1) y = 86400 * days_to_month (1900 + y) m - std_error m (1900 + y) /\
  0 <= days_to_month (1900 + y) m <= 335 /\ 0 <= days_to_year (1900 + y) <= 24837.
Proof.
  intros Hy Hm.
  assert (forallb (fun k => forallb (fun j => let y := 70 + Z.of_nat k in let m := 1 + Z.of_nat j in
    (month_seconds (m - 1) y =? 86400 * days_to_month (1900 + y) m - std_error m (1900 + y)) &&
    (0 <=? days_to_month (1900 + y) m) && (days_to_month (1900 + y) m <=? 335) &&
    (0 <=? days_to_year (1900 + y)) && (days_to_year (1900 + y) <=? 24837)) (seq 0 12)) (seq 0 68) = true) as Hall
    by (vm_compute; reflexivity).
  rewrite forallb_forall in Hall. specialize (Hall (Z.to_nat (y - 70)) ltac:(apply in_seq; lia)).
  rewrite forallb_forall in Hall. specialize (Hall (Z.to_nat (m - 1)) ltac:(apply in_seq; lia)). cbv zeta in Hall.
  rewrite !Z2Nat.id in Hall by lia. replace (70 + (y - 70)) with y in Hall by lia. replace (1 + (m - 1)) with m in Hall by lia.
  zify_bool. lia.
Qed.

(** What the loop over the years adds. *)
Fixpoint years_sum (fuel : nat) (years : Z) : Z :=
  match fuel with
  | O => 0
  | S n => if 1969 <? years then 86400 * year_len years + years_sum n (years - 1) else 0
  end.
Lemma years_loop_sum fuel years t : years_loop fuel years (s32 t) = s32 (t + years_sum fuel years).
Proof.
  revert years t. induction fuel as [|n IH]; intros years t; cbn [years_loop years_sum]; [by rewrite Z.add_0_r|].
  destruct (1969 <? years); [|by rewrite Z.add_0_r]. unfold year_len, is_leap.
  destruct (years mod 4 =? 0) eqn:E4; cbn [andb]; [destruct (years mod 100 =? 0) eqn:E100; cbn [negb orb];
    [destruct (years mod 400 =? 0) eqn:E400|]|]; rewrite ?s32_add_idemp, IH, <- ?Z.add_assoc, ?s32_add_idemp; f_equal; lia.
Qed.
Lemma years_sum_days y : 70 <= y < 138 -> years_sum 256 (1900 + y - 1) = 86400 * days_to_year (1900 + y).
Proof.
  intros Hy. assert (forallb (fun k => years_sum 256 (1900 + (70 + Z.of_nat k) - 1) =? 86400 * days_to_year (1900 + (70 + Z.of_nat k)))
    (seq 0 68) = true) as Hall by (vm_compute; reflexivity).
  rewrite forallb_forall in Hall. specialize (Hall (Z.to_nat (y - 70)) ltac:(apply in_seq; lia)).
  rewrite !Z2Nat.id in Hall by lia. replace (70 + (y - 70)) with y in Hall by lia. by zify_bool.
Qed.

Lemma std_time_ok s mi h d m y : valid_time s mi h -> valid_date d m y -> y <= 2037 ->
  convert_to_std_time s mi h d m (y - 1900) = s32 (civil_time s mi h d m y - std_error m y).
Proof.
  intros (Hs & Hmi & Hh) (Hy & Hm & Hd) Hy2. unfold convert_to_std_time, civil_time.
  destruct (std_year_month (y - 1900) m) as (Hms & _); [lia|lia|]. replace (1900 + (y - 1900)) with y in * by lia.
  rewrite u8_id by lia. rewrite s32_add_idemp, years_loop_sum, Hms.
  pose proof (years_sum_days (y - 1900) ltac:(lia)) as Hys. replace (1900 + (y - 1900)) with y in Hys by lia. rewrite Hys.
  f_equal. lia.
Qed.

(** For every valid date from 1970 to 2037 whose time fits [time_t],
    [convert_to_std_time] is the number of seconds since 1970, except from
    March to December 2000, where it is a day short. *)
Lemma convert_to_std_time_correct s mi h d m y : valid_time s mi h -> valid_date d m y ->
  y <= 2037 -> civil_time s mi h d m y < 2147483648 ->
  convert_to_std_time s mi h d m (y - 1900) = civil_time s mi h d m y - (if (y =? 2000) && (3 <=? m) then 86400 else 0).
Proof.
  intros Ht Hd Hy Hc. rewrite std_time_ok by done. apply s32_id. fold (std_error m y).
  destruct Ht as (Hs & Hmi & Hh), Hd as (Hy' & Hm & Hd').
  destruct (std_year_month (y - 1900) m) as (_ & Hdm & Hdy); [lia|lia|]. replace (1900 + (y - 1900)) with y in * by lia.
  unfold civil_time in *. unfold std_error. case_bool; lia.
Qed.
Lemma convert_to_std_time_correct_witness : convert_to_std_time 0 0 12 29 2 (2000 - 1900) = 951825600 /\
  convert_to_std_time 0 0 0 1 3 (2000 - 1900) = 951868800 - 86400.
Proof.
  split; [refine (convert_to_std_time_correct 0 0 12 29 2 2000 _ _ _ _)|refine (convert_to_std_time_correct 0 0 0 1 3 2000 _ _ _ _)];
    repeat split; vm_compute; congruence.
Defined.

(** ** Reading a time *)

(** The date part of [convert_to_readable_time] for a day number. *)
Definition readable_date (day : Z) : Z * Z * Z :=
  let time := s32 (day + 25568) in
  let year := u8 (Z.shiftl (Z.quot time 1461) 2) in
  let time := Z.rem time 1461 in
  let '(year, time) :=
    if 365 <? time then (u8 (year + Z.quot (time - 1) 365), Z.rem (time - 1) 365) else (year, time) in
  let time := if negb (Z.land year 3 =? 0) && (59 <=? time) then time + 1 else time in
  let '(time, mo) := month_loop monthdays time 0 in
  (u8 (time + 1), u8 (mo + 1), year).

Definition date_ok (day : Z) : bool :=
  let '(d, m, y) := readable_date day in
  (1970 <=? 1900 + y) && (1900 + y <=? 2038) && (1 <=? m) && (m <=? 12) && (1 <=? d) && (d <=? month_len (1900 + y) m) &&
  (365 * (y - 70) + (y - 69) / 4 + days_to_month (1900 + y) m + (d - 1) =? day).

(** Until 2099 every fourth year is a leap year. *)
Lemma days_to_year_closed y : 1970 <= y <= 2038 -> days_to_year y = 365 * (y - 1970) + (y - 1969) / 4.
Proof.
  intros Hy. assert (forallb (fun k => days_to_year (1970 + Z.of_nat k) =? 365 * Z.of_nat k + (Z.of_nat k + 1) / 4) (seq 0 69) = true)
    as Hall by (vm_compute; reflexivity).
  rewrite forallb_forall in Hall. specialize (Hall (Z.to_nat (y - 1970)) ltac:(apply in_seq; lia)).
  rewrite !Z2Nat.id in Hall by lia. replace (1970 + (y - 1970)) with y in Hall by lia. zify_bool.
  rewrite Hall. do 2 f_equal. lia.
Qed.

Fixpoint dates_ok (n : nat) (day : Z) : bool :=
  match n with O => true | S k => date_ok day && dates_ok k (day + 1) end.
Lemma dates_ok_spec n day0 : dates_ok n day0 = true -> forall day, day0 <= day < day0 + Z.of_nat n -> date_ok day = true.
Proof.
  revert day0. induction n as [|n IH]; intros day0 Hd day Hr; [lia|]. cbn in Hd. apply andb_prop in Hd as [H0 H1].
  destruct (decide (day = day0)) as [-> |]; [done|]. apply (IH (day0 + 1)); [done|lia].
Qed.
Lemma all_dates_ok : dates_ok (Z.to_nat 24856) 0 = true.
Proof. vm_compute. reflexivity. Qed.

Lemma readable_split time : 0 <= time < 2147483648 ->
  convert_to_readable_time time = (time mod 60, (time / 60) mod 60, (time / 3600) mod 24,
    (readable_date (time / 86400)).1.1, (readable_date (time / 86400)).1.2, (readable_date (time / 86400)).2).
Proof.
  intros Ht. unfold convert_to_readable_time.
  assert (Z.quot time 60 = time / 60) as E1 by (apply Z.quot_div_nonneg; lia).
  assert (0 <= time / 60 /\ 0 <= time / 3600) as [P1 P2] by (split; apply Z.div_pos; lia).
  assert (Z.quot (time / 60) 60 = time / 3600) as E2 by (rewrite Z.quot_div_nonneg, Z.div_div by lia; done).
  assert (Z.quot (time / 3600) 24 = time / 86400) as E3 by (rewrite Z.quot_div_nonneg, Z.div_div by lia; done).
  cbv zeta. rewrite E1, E2, E3. rewrite (Z.rem_mod_nonneg time 60), (Z.rem_mod_nonneg (time / 60) 60), (Z.rem_mod_nonneg (time / 3600) 24) by lia.
  rewrite (u8_id (time mod 60)), (u8_id ((time / 60) mod 60)), (u8_id ((time / 3600) mod 24)) by
    (match goal with |- 0 <= ?a mod ?b < _ => pose proof (Z.mod_pos_bound a b ltac:(lia)); lia end).
  unfold readable_date. destruct (if 365 <? _ then _ else _) as [y t]. by destruct (month_loop _ _ _) as [t2 mo].
Qed.

(** [convert_to_readable_time] of every [time_t] from 1970 on gives a
    valid date and time of day whose number of seconds is that time. *)
Lemma convert_to_readable_time_correct time : 0 <= time < 2147483648 ->
  let '(s, mi, h, d, m, y) := convert_to_readable_time time in
  valid_time s mi h /\ valid_date d m (1900 + y) /\ civil_time s mi h d m (1900 + y) = time.
Proof.
  intros Ht. rewrite readable_split by done.
  pose proof (dates_ok_spec _ _ all_dates_ok (time / 86400)) as Hd.
  rewrite Z2Nat.id in Hd by lia. specialize (Hd ltac:(split; [apply Z.div_pos; lia|apply Z.div_lt_upper_bound; lia])).
  unfold date_ok in Hd. destruct (readable_date (time / 86400)) as [[d m] y]. cbn [fst snd].
  zify_bool. unfold valid_time, valid_date, civil_time.
  split; [repeat split; apply Z.mod_pos_bound; lia|]. split; [lia|].
  rewrite days_to_year_closed by lia. replace (1900 + y - 1970) with (y - 70) by lia.
  replace (1900 + y - 1969) with (y - 69) by lia. match goal with H : _ = time / 86400 |- _ => rewrite H end.
  assert (time / 3600 / 24 = time / 86400) as Q1 by (rewrite Z.div_div by lia; done).
  assert (time / 60 / 60 = time / 3600) as Q2 by (rewrite Z.div_div by lia; done).
  pose proof (Z.div_mod time 60 ltac:(lia)). pose proof (Z.div_mod (time / 60) 60 ltac:(lia)).
  pose proof (Z.div_mod (time / 3600) 24 ltac:(lia)). lia.
Qed.
Lemma convert_to_readable_time_correct_witness : convert_to_readable_time 2147483647 = (7, 14, 3, 19, 1, 138) /\
  civil_time 7 14 3 19 1 2038 = 2147483647.
Proof.
  split; [vm_compute; reflexivity|].
  exact (proj2 (proj2 (convert_to_readable_time_correct 2147483647 ltac:(lia)))).
Defined.

(** In 12 hour mode noon reads as 0 and midnight stays 12; with BCD registers
    the PM bit is lost before it is tested. *)
Lemma cmos_12h_hours : pm_hours CMOS_FLAG_12 (128 + 12) = 0 /\ pm_hours CMOS_FLAG_12 12 = 12 /\
  pm_hours (Z.lor CMOS_FLAG_12 CMOS_FLAG_BCD) (bcd (128 + 17)) = 91.
Proof. split; [|split]; reflexivity. Qed.
