(* ===== verification/DataStructs.v ===== *)
(** Queues, stacks and lists (util/data_structs.c).

    Queues and stacks keep their elements in a buffer of the kernel heap; the
    structs themselves are records that the operations take and return.
    [sizeof(void* )] is 4 and every offset in the code is added to a [void**],
    so it counts for four times as many bytes.  Linked lists are nodes and
    elements in a store, allocated through [Allocator]. *)

From S2P Require Import Prelude Mem KHeap Alloc.

(** ** Queues *)

Record queue : Type := mk_queue { front : Z; rear : Z; qsize : Z }.
Record stack : Type := mk_stack { sbuffer : Z; scount : Z; buffer_size : Z }.

(** [p + n] and [p - n] for a [void**]. *)
Definition padd (p n : Z) : Z := u32 (p + 4 * n).
Definition psub (p n : Z) : Z := u32 (p - 4 * n).

Section Buffers.
Context (map_heap : M kheap unit) (fuel : nat).

Definition queue_init (size : Z) : M kheap queue :=
  kmalloc map_heap fuel 12 ;;;
  front <- kmalloc map_heap fuel (u32 (size * 4)) ;;
  ret (mk_queue front (psub front 4) size).

Definition queue_add (q : queue) (element : Z) : M kheap queue :=
  q <- (if rear q =? padd (front q) (u32 (qsize q * 4)) then
          f <- krealloc map_heap fuel (front q) (u32 (qsize q * 4 * 2)) ;;
          ret (mk_queue f (rear q) (u32 (qsize q * 2)))
        else ret q) ;;
  let r := padd (rear q) 4 in
  upd_mem (fun m => store32 m r element) ;;;
  ret (mk_queue (front q) r (qsize q)).

Definition queue_take (q : queue) : M kheap (Z * queue) :=
  if rear q <? front q then ret (0, q) else
  h <- get ;;
  let tr := load32 (hmem h) (front q) in
  upd_mem (fun m => memcpy m (front q) (padd (front q) 4) (u32 (4 * (qsize q - 1)))) ;;;
  ret (tr, mk_queue (front q) (psub (rear q) 4) (qsize q)).

(** [for(i = 0; i < n; i++) if( *(base+sizeof(void* )*i) == element) break;] *)
Fixpoint find_element (n : nat) (m : mem) (base i element : Z) : Z :=
  match n with
  | O => i
  | S k => if load32 m (padd base (4 * i)) =? element then i else find_element k m base (i + 1) element
  end.

Definition queue_remove (q : queue) (element : Z) : M kheap queue :=
  if rear q <? front q then ret q else
  h <- get ;;
  let i := find_element (Z.to_nat (qsize q)) (hmem h) (front q) 0 element in
  upd_mem (fun m => memcpy m (front q) (padd (front q) (4 * i)) (u32 (4 * (qsize q - 1 - i)))) ;;;
  ret (mk_queue (front q) (psub (rear q) 4) (qsize q)).

(** ** Stacks: the accesses use [buffer_size] where the buffer is meant *)

Definition stack_init (size : Z) : M kheap stack :=
  kmalloc map_heap fuel 12 ;;;
  buffer <- kmalloc map_heap fuel (u32 (4 * size)) ;;
  ret (mk_stack buffer 0 size).

Definition stack_add (st : stack) (element : Z) : M kheap stack :=
  st <- (if buffer_size st <=? u32 (scount st * 4) then
           b <- krealloc map_heap fuel (sbuffer st) (u32 (u32 (buffer_size st * 2) * 4)) ;;
           ret (mk_stack b (scount st) (u32 (buffer_size st * 2)))
         else ret st) ;;
  upd_mem (fun m => store32 m (padd (buffer_size st) (scount st * 4)) element) ;;;
  ret (mk_stack (sbuffer st) (u32 (scount st + 1)) (buffer_size st)).

Definition stack_take (st : stack) : M kheap (Z * stack) :=
  if scount st =? 0 then ret (0, st) else
  h <- get ;;
  ret (load32 (hmem h) (padd (buffer_size st) ((scount st - 1) * 4)),
       mk_stack (sbuffer st) (scount st - 1) (buffer_size st)).

Definition stack_look (st : stack) (position : Z) : M kheap Z :=
  if scount st <=? position then ret 0 else
  h <- get ;; ret (load32 (hmem h) (padd (buffer_size st) (position * 4))).

Definition stack_remove (st : stack) (element : Z) : M kheap stack :=
  if scount st =? 0 then ret st else
  h <- get ;;
  let i := find_element (Z.to_nat (scount st)) (hmem h) (sbuffer st) 0 element in
  upd_mem (fun m => memcpy m (sbuffer st) (padd (sbuffer st) (4 * i)) (u32 (4 * (scount st - 1 - i)))) ;;;
  ret (mk_stack (sbuffer st) (scount st - 1) (buffer_size st)).

(** ** The queue as a list *)

(** The elements are 16 bytes apart. *)
Definition queue_at (m : mem) (q : queue) (xs : list Z) : Prop :=
  16 <= front q /\ 1 <= qsize q <= 1048576 /\ front q + 4 * qsize q + 16 <= 4294967296 /\
  rear q = front q + 16 * Z.of_nat (length xs) - 16 /\
  forall i x, xs !! i = Some x -> is_u32 x /\ load32 m (front q + 16 * Z.of_nat i) = x.

(** Elements that fit the buffer of [4 * qsize] bytes. *)
Definition capacity (q : queue) : Z := (qsize q - 1) / 4 + 1.

Lemma queue_add_run h q xs e : queue_at (hmem h) q xs -> Z.of_nat (length xs) <= capacity q ->
  queue_add q e h = Ok (mk_queue (front q) (front q + 16 * Z.of_nat (length xs)) (qsize q))
    (mk_kheap (store32 (hmem h) (front q + 16 * Z.of_nat (length xs)) e) (KHEAP_BASE_END h)).
Proof.
  intros (Hf & Hs & He & Hr & _) Hl. unfold capacity in Hl. unfold queue_add, padd. rewrite (u32_id (qsize q * 4)) by lia.
  assert (rear q =? u32 (front q + 4 * (qsize q * 4)) = false) as ->.
  { apply Z.eqb_neq. rewrite Hr. unfold u32. dlia. }
  rewrite (bind_ok (ret q) _ h q h eq_refl). rewrite Hr.
  replace (front q + 16 * Z.of_nat (length xs) - 16 + 4 * 4) with (front q + 16 * Z.of_nat (length xs)) by lia.
  rewrite u32_id by dlia. done.
Qed.

Lemma queue_add_ok h q xs e : queue_at (hmem h) q xs -> is_u32 e -> Z.of_nat (length xs) < capacity q ->
  exists q' h', queue_add q e h = Ok q' h' /\ qsize q' = qsize q /\
    queue_at (hmem h') q' (xs ++ [e]) /\ same_outside (hmem h) (hmem h') (front q) (front q + 4 * qsize q).
Proof.
  intros Hq Hee Hl. pose proof Hq as (Hf & Hs & He & Hr & Hx).
  rewrite (queue_add_run h q xs e Hq) by lia. unfold capacity in Hl.
  eexists _, _. split; [reflexivity|]. cbn [hmem]. split; [done|]. split; [|intros x Hxx; apply store32_other; dlia].
  unfold queue_at. cbn [front rear qsize]. rewrite length_app. cbn [length].
  split; [lia|]. split; [lia|]. split; [lia|]. split; [lia|]. intros i x Hi.
  apply lookup_app_Some in Hi as [Hi|[Hi1 Hi2]].
  - destruct (Hx i x Hi) as [? <-]. split; [done|]. apply lookup_lt_Some in Hi. apply load32_store32_far. lia.
  - apply list_lookup_singleton_Some in Hi2 as [Hi2 <-]. split; [done|].
    replace (Z.of_nat i) with (Z.of_nat (length xs)) by lia. rewrite load32_store32. by apply u32_id.
Qed.

Lemma queue_take_nil h q : queue_at (hmem h) q [] -> queue_take q h = Ok (0, q) h.
Proof.
  intros (Hf & Hs & He & Hr & Hx). unfold queue_take. cbn in Hr. dec_true (rear q <? front q). done.
Qed.

Lemma queue_take_ok h q x r : queue_at (hmem h) q (x :: r) -> Z.of_nat (length (x :: r)) <= capacity q ->
  exists q' h', queue_take q h = Ok (x, q') h' /\ qsize q' = qsize q /\
    queue_at (hmem h') q' r /\ same_outside (hmem h) (hmem h') (front q) (front q + 4 * qsize q).
Proof.
  intros (Hf & Hs & He & Hr & Hx). unfold queue_take.
  cbn [length] in *. dec_false (rear q <? front q). intros Hl. unfold capacity in Hl.
  rewrite (bind_ok get _ h h h eq_refl). cbv zeta. unfold padd, psub.
  rewrite (u32_id (front q + 4 * 4)), (u32_id (4 * (qsize q - 1))), (u32_id (rear q - 4 * 4)) by dlia.
  destruct (Hx O x eq_refl) as [_ Hx0]. rewrite Z.add_0_r in Hx0. rewrite Hx0.
  eexists _, _. split; [reflexivity|]. cbn [hmem]. split; [done|]. split.
  - unfold queue_at. cbn [front rear qsize]. split; [lia|]. split; [lia|]. split; [lia|]. split; [lia|].
    intros i y Hi. destruct (Hx (S i) y Hi) as [? <-]. split; [done|]. apply lookup_lt_Some in Hi.
    rewrite memcpy_load32 by dlia. f_equal. lia.
  - intros y Hy. apply memcpy_outside. lia.
Qed.

(** While it holds no more than a quarter of its size, the queue is first
    in first out and stays inside its buffer: [queue_add] appends,
    [queue_take] returns and removes the oldest element, and an empty queue
    gives 0. *)
Lemma queue_fifo h q xs : queue_at (hmem h) q xs ->
  (forall e, is_u32 e -> Z.of_nat (length xs) < capacity q -> exists q' h', queue_add q e h = Ok q' h' /\
     queue_at (hmem h') q' (xs ++ [e]) /\ same_outside (hmem h) (hmem h') (front q) (front q + 4 * qsize q)) /\
  match xs with
  | [] => queue_take q h = Ok (0, q) h
  | x :: r => Z.of_nat (length xs) <= capacity q -> exists q' h', queue_take q h = Ok (x, q') h' /\
      queue_at (hmem h') q' r /\ same_outside (hmem h) (hmem h') (front q) (front q + 4 * qsize q)
  end.
Proof.
  intros Hq. split.
  - intros e He Hl. destruct (queue_add_ok h q xs e Hq He Hl) as (q' & h' & ? & _ & ? & ?). by exists q', h'.
  - destruct xs as [|x r]; [by apply queue_take_nil|]. intros Hl.
    destruct (queue_take_ok h q x r Hq Hl) as (q' & h' & ? & _ & ? & ?). by exists q', h'.
Qed.

(** One element more than the capacity is written behind the buffer. *)
Lemma queue_add_overflows h q xs e : queue_at (hmem h) q xs -> Z.of_nat (length xs) = capacity q -> is_u32 e ->
  exists q' h', queue_add q e h = Ok q' h' /\ front q + 4 * qsize q <= front q + 16 * capacity q /\
    load32 (hmem h') (front q + 16 * capacity q) = e.
Proof.
  intros Hq Hl He. rewrite (queue_add_run h q xs e Hq) by lia. eexists _, _. split; [reflexivity|]. cbn [hmem]. split.
  - unfold capacity. dlia.
  - rewrite Hl, load32_store32. by apply u32_id.
Qed.

(** A stack never uses its buffer: elements go to the address that the buffer
    size happens to be. *)
Lemma stack_add_address h st e : u32 (scount st * 4) < buffer_size st ->
  stack_add st e h = Ok (mk_stack (sbuffer st) (u32 (scount st + 1)) (buffer_size st))
    (mk_kheap (store32 (hmem h) (u32 (buffer_size st + 16 * scount st)) e) (KHEAP_BASE_END h)).
Proof.
  intros Hc. unfold stack_add, padd. dec_false (buffer_size st <=? u32 (scount st * 4)).
  rewrite (bind_ok (ret st) _ h st h eq_refl). replace (4 * (scount st * 4)) with (16 * scount st) by lia. done.
Qed.

End Buffers.

(** Splits [queue_at] of a concrete queue down to its words. *)
Ltac queue_words := unfold queue_at; cbn [front rear qsize length]; do 4 (split; [lia|]).

(** [queue_remove] of an element removes those before it and keeps it. *)
Definition demo_queue3 : queue := mk_queue 1000 1032 12.
Definition demo_heap3 : kheap := mk_kheap (store32 (store32 (store32 (fun _ => 0) 1000 11) 1016 22) 1032 33) 0.
Lemma queue_remove_second :
  queue_remove demo_queue3 22 demo_heap3 =
    Ok (mk_queue 1000 1016 12) (mk_kheap (memcpy (hmem demo_heap3) 1000 1016 40) 0) /\
  queue_at (hmem demo_heap3) demo_queue3 [11; 22; 33] /\
  queue_at (memcpy (hmem demo_heap3) 1000 1016 40) (mk_queue 1000 1016 12) [22; 33].
Proof.
  split; [reflexivity|]. unfold demo_queue3. split.
  - queue_words; intros [|[|[|i]]] y; cbn [lookup list_lookup]; intros [= <-]; (split; [unfold is_u32; lia|vm_compute; reflexivity]).
  - queue_words; intros [|[|i]] y; cbn [lookup list_lookup]; intros [= <-]; (split; [unfold is_u32; lia|vm_compute; reflexivity]).
Qed.

Definition demo_queue_heap : kheap := mk_kheap (store32 (fun _ => 0) 1000 7) 0.
Lemma queue_fifo_witness :
  (exists q' h', queue_add (ret tt) 2 (mk_queue 1000 1000 12) 9 demo_queue_heap = Ok q' h' /\ queue_at (hmem h') q' [7; 9]) /\
  (exists q' h', queue_take (mk_queue 1000 1000 12) demo_queue_heap = Ok (7, q') h' /\ queue_at (hmem h') q' []).
Proof.
  destruct (queue_fifo (ret tt) 2 demo_queue_heap (mk_queue 1000 1000 12) [7]) as [Ha Ht].
  - queue_words; intros [|i] y; cbn; intros [= <-]; (split; [unfold is_u32; lia|vm_compute; reflexivity]).
  - split.
    + destruct (Ha 9) as (q' & h' & Hrun & Hq & _); [unfold is_u32; lia|reflexivity|]. by exists q', h'.
    + destruct Ht as (q' & h' & Hrun & Hq & _); [vm_compute; congruence|]. by exists q', h'.
Defined.

(** ** What a queue promises to its clients

    The scheduler keeps its ready processes and the runnable threads of each
    process in queues.  [Queue] is what it relies on: up to [q_cap] elements
    the queue is first in first out.  [queue_remove] has no law: see
    [queue_remove_second]. *)

Class Queue (Q : Type) : Type := {
  q_add : Z -> M Q unit;
  q_take : M Q Z;
  q_remove : Z -> M Q unit;
  q_is : Q -> list Z -> Prop;
  q_cap : Q -> Z;
  q_add_law : forall q xs e, q_is q xs -> is_u32 e -> Z.of_nat (length xs) < q_cap q ->
    exists q', q_add e q = Ok tt q' /\ q_is q' (xs ++ [e]) /\ q_cap q' = q_cap q;
  q_take_nil : forall q, q_is q [] -> q_take q = Ok 0 q;
  q_take_law : forall q x xs, q_is q (x :: xs) -> Z.of_nat (length (x :: xs)) <= q_cap q ->
    exists q', q_take q = Ok x q' /\ q_is q' xs /\ q_cap q' = q_cap q }.

(** A queue of [util/data_structs.c] with the memory that holds its buffer. *)
Definition with_queue {A} (f : queue -> M kheap (A * queue)) : M (queue * kheap) A :=
  fun s => match f s.1 s.2 with
           | Ok (a, q) h => Ok a (q, h)
           | Fatal e => Fatal e | Fault => Fault | NoFuel => NoFuel
           end.

#[export, program] Instance buffer_queue : Queue (queue * kheap) := {
  q_add e := with_queue (fun q => q' <- queue_add (ret tt) 2 q e ;; ret (tt, q'));
  q_take := with_queue queue_take;
  q_remove e := with_queue (fun q => q' <- queue_remove q e ;; ret (tt, q'));
  q_is s xs := queue_at (hmem s.2) s.1 xs;
  q_cap s := capacity s.1 }.
Next Obligation.
  intros [q h] xs e Hq He Hl. destruct (queue_add_ok (ret tt) 2 h q xs e Hq He Hl) as (q' & h' & Hrun & Hs & Hq' & _).
  exists (q', h'). unfold with_queue, bind. cbn [fst snd]. rewrite Hrun. unfold capacity. cbn. by rewrite Hs.
Qed.
Next Obligation.
  intros [q h] Hq. unfold with_queue. cbn [fst snd]. by rewrite (queue_take_nil h q Hq).
Qed.
Next Obligation.
  intros [q h] x xs Hq Hl. destruct (queue_take_ok h q x xs Hq Hl) as (q' & h' & Hrun & Hs & Hq' & _).
  exists (q', h'). unfold with_queue. cbn [fst snd]. rewrite Hrun. unfold capacity. cbn. by rewrite Hs.
Qed.

(** ** Linked lists *)

(** Nodes (element, next), the bytes of the elements, the heap. *)
Record lists (H : Type) : Type := mk_lists { entries : gmap Z (Z * Z); elements : gmap Z (list Z); lheap : H }.
Arguments mk_lists {H} _ _ _.
Arguments entries {H} _.
Arguments elements {H} _.
Arguments lheap {H} _.

Section Lists.
Context {H : Type} `{Allocator H}.

Definition ld_entry (p : Z) : M (lists H) (Z * Z) :=
  fun s => match entries s !! p with Some e => Ok e s | None => Fault end.
Definition lfree (p : Z) : M (lists H) unit :=
  fun s => match free p (lheap s) with
           | Ok _ h => Ok tt (mk_lists (delete p (entries s)) (delete p (elements s)) h)
           | Fatal e => Fatal e | Fault => Fault | NoFuel => NoFuel
           end.
Definition lalloc (n : Z) : M (lists H) Z :=
  fun s => match malloc n (lheap s) with
           | Ok p h => Ok p (mk_lists (entries s) (elements s) h)
           | Fatal e => Fatal e | Fault => Fault | NoFuel => NoFuel
           end.
Definition st_entry (p : Z) (e : Z * Z) : M (lists H) unit :=
  modify (fun s => mk_lists (<[p := e]> (entries s)) (elements s) (lheap s)).
Definition st_element (p : Z) (bs : list Z) : M (lists H) unit :=
  modify (fun s => mk_lists (entries s) (<[p := bs]> (elements s)) (lheap s)).

Fixpoint list_free_loop (elem : bool) (n : nat) (list : Z) : M (lists H) unit :=
  match n with
  | O => ret tt
  | S k =>
    e <- ld_entry list ;;
    (if elem && negb (e.1 =? 0) then lfree e.1 else ret tt) ;;;
    lfree list ;;;
    if e.2 =? 0 then ret tt else list_free_loop elem k e.2
  end.
Definition list_free (list list_size : Z) : M (lists H) unit :=
  (if (list_size =? 0) && negb (list =? 0) then lfree list else ret tt) ;;;
  list_free_loop true (Z.to_nat list_size) list.
Definition list_free_eonly (list list_size : Z) : M (lists H) unit :=
  list_free_loop false (Z.to_nat list_size) list.

(** [n] bounds the copies by [size]; returns [before] and the last
    [dest_list]. *)
Fixpoint list_copy_loop (n : nat) (dest_list src_list before element_size : Z) : M (lists H) (Z * Z) :=
  match n with
  | O => ret (before, dest_list)
  | S k =>
    if src_list =? 0 then ret (before, dest_list) else
    el <- lalloc element_size ;;
    e <- ld_entry src_list ;;
    s <- get ;;
    st_element el (take (Z.to_nat element_size) (default [] (elements s !! e.1))) ;;;
    nx <- lalloc 8 ;;
    st_entry dest_list (el, nx) ;;;
    list_copy_loop k nx e.2 dest_list element_size
  end.
Definition list_copy (dest_list src_list size element_size : Z) : M (lists H) unit :=
  bd <- list_copy_loop (Z.to_nat size) dest_list src_list 0 element_size ;;
  b <- ld_entry bd.1 ;;
  st_entry bd.1 (b.1, 0) ;;;
  lfree bd.2.

(** The nodes of [l], as (address, element), linked from [a]. *)
Fixpoint chain (es : gmap Z (Z * Z)) (a : Z) (l : list (Z * Z)) : Prop :=
  match l with
  | [] => a = 0
  | (p, e) :: r => a = p /\ p <> 0 /\ exists n, es !! p = Some (e, n) /\ chain es n r
  end.

Lemma chain_ext es es' a l : (forall p e, (p, e) ∈ l -> es' !! p = es !! p) -> chain es a l -> chain es' a l.
Proof.
  revert a. induction l as [|[p e] r IH]; intros a Hx; [done|]. cbn. intros (-> & Hp & n & Hn & Hr).
  split; [done|]. split; [done|]. exists n. split; [rewrite (Hx p e) by (by left); done|].
  apply IH; [|done]. intros q f Hq. apply (Hx q f). by right.
Qed.

Lemma lfree_ok s p : a_ok (lheap s) -> a_live (lheap s) p ->
  exists h, lfree p s = Ok tt (mk_lists (delete p (entries s)) (delete p (elements s)) h) /\ a_ok h /\
    forall q, a_live h q <-> a_live (lheap s) q /\ q <> p.
Proof.
  intros Hok Hl. destruct (free_law (lheap s) p Hok Hl) as (h & Hrun & ? & ?). exists h. unfold lfree. by rewrite Hrun.
Qed.

(** All the heap blocks of a list: its nodes and its elements. *)
Definition blocks_of (l : list (Z * Z)) : list Z := l.*1 ++ List.filter (fun e => negb (e =? 0)) l.*2.

Lemma list_free_loop_ok n s a l : chain (entries s) a l -> l <> [] -> a_ok (lheap s) ->
  NoDup (blocks_of l) -> Forall (a_live (lheap s)) (blocks_of l) -> (length l <= n)%nat ->
  exists s', list_free_loop true n a s = Ok tt s' /\ a_ok (lheap s') /\
    forall q, a_live (lheap s') q <-> a_live (lheap s) q /\ q ∉ blocks_of l.
Proof.
  revert s a l. induction n as [|n IH]; intros s a l Hc Hne Hok Hnd Hlv Hlen; [destruct l; cbn in *; [done|lia]|].
  destruct l as [|[p e] r]; [done|]. cbn in Hc. destruct Hc as (-> & Hp & nx & Hn & Hr). cbn [list_free_loop].
  assert (ld_entry p s = Ok (e, nx) s) as Hld by (unfold ld_entry; by rewrite Hn).
  rewrite (bind_ok _ _ _ _ _ Hld). cbn [fst snd andb].
  assert (exists s1, (if negb (e =? 0) then lfree e else ret tt) s = Ok tt s1 /\ a_ok (lheap s1) /\
    (forall q, a_live (lheap s1) q <-> a_live (lheap s) q /\ (e = 0 \/ q <> e)) /\
    (forall q, q <> e -> entries s1 !! q = entries s !! q)) as (s1 & Hrun1 & Hok1 & Hl1 & He1).
  { destruct (Z.eqb_spec e 0) as [-> |Hne0]; cbn [negb].
    - exists s. split; [done|]. split; [done|]. split; [tauto|done].
    - destruct (lfree_ok s e Hok) as (h & Hrun & Hok' & Hl').
      { rewrite Forall_forall in Hlv. apply Hlv. unfold blocks_of. cbn. apply Z.eqb_neq in Hne0. rewrite Hne0. cbn. set_solver. }
      eexists. split; [exact Hrun|]. cbn. split; [done|]. split.
      + intros q. rewrite Hl'. split; [tauto|]. intros [? [?|?]]; [done|tauto].
      + intros q Hq. by rewrite lookup_delete_ne. }
  rewrite (bind_ok _ _ _ _ _ Hrun1).
  assert (blocks_of ((p, e) :: r) ≡ₚ p :: (if e =? 0 then [] else [e]) ++ blocks_of r) as Hperm.
  { unfold blocks_of. cbn. destruct (e =? 0); cbn; [done|]. by rewrite <- Permutation_middle. }
  rewrite Hperm in Hnd, Hlv. apply NoDup_cons in Hnd as [Hpn Hnd]. apply NoDup_app in Hnd as (_ & Hen & Hnd).
  apply Forall_cons in Hlv as [Hlp Hlv]. apply Forall_app in Hlv as [Hle Hlv].
  assert (e = 0 \/ (p <> e /\ e ∉ blocks_of r)) as Hpe.
  { destruct (Z.eqb_spec e 0) as [|Hne0]; [by left|right]. split; [|apply Hen; by left]. intros ->. apply Hpn. by left. }
  destruct (lfree_ok s1 p Hok1) as (h2 & Hrun2 & Hok2 & Hl2); [apply Hl1; naive_solver|].
  rewrite (bind_ok _ _ _ _ _ Hrun2). set (s2 := mk_lists _ _ h2).
  assert (forall q, a_live h2 q <-> a_live (lheap s) q /\ q ∉ p :: (if e =? 0 then [] else [e])) as Hl3.
  { intros q. rewrite Hl2, Hl1, not_elem_of_cons. destruct (Z.eqb_spec e 0); [|rewrite not_elem_of_cons]; split; try tauto;
      intros ?; set_solver. }
  destruct r as [|x r].
  - cbn in Hr. subst nx. cbn [Z.eqb]. exists s2. split; [done|]. split; [done|]. intros q.
    specialize (Hl3 q). rewrite Hperm. change (lheap s2) with h2. cbn [blocks_of fmap list_fmap app List.filter]. by rewrite app_nil_r.
  - assert (nx <> 0) by (destruct x as [? ?]; cbn in Hr; destruct Hr as (-> & ? & _); done). dec_false (nx =? 0).
    destruct (IH s2 nx (x :: r)) as (s' & Hrun & Hok' & Hl').
    + eapply chain_ext; [|exact Hr]. intros q f Hq. cbn.
      assert (q ∈ blocks_of (x :: r)) as Hqb by (unfold blocks_of; apply elem_of_app; left; by apply (list_elem_of_fmap_2 fst) in Hq).
      assert (q <> p) by (intros ->; apply Hpn, elem_of_app; by right).
      rewrite lookup_delete_ne by done. destruct Hpe as [-> |[_ Hen']]; apply He1.
      * intros ->. destruct (Z.eqb_spec 0 0); [|done]. clear - Hr Hq. revert nx Hr.
        induction (x :: r) as [|[y z] l IHl]; intros nx Hr; [by apply not_elem_of_nil in Hq|]. cbn in Hr.
        destruct Hr as (-> & Hy & n & _ & Hr). apply elem_of_cons in Hq as [[= <- <-]|Hq]; [done|by eapply IHl].
      * intros ->. done.
    + done.
    + done.
    + done.
    + apply Forall_forall. intros q Hq. apply Hl3. rewrite Forall_forall in Hlv. split; [by apply Hlv|].
      apply not_elem_of_cons. split; [intros ->; apply Hpn, elem_of_app; by right|].
      destruct (e =? 0) eqn:E0; [apply not_elem_of_nil|]. intros ->%list_elem_of_singleton. zify_bool. tauto.
    + cbn in Hlen |- *. lia.
    + exists s'. split; [done|]. split; [done|]. intros q. specialize (Hl' q). specialize (Hl3 q). rewrite Hperm.
      change (lheap s2) with h2 in Hl'.
      rewrite app_comm_cons, not_elem_of_app. tauto.
Qed.

(** [list_free] of a list with its length releases every node and every
    element of the list, each once, and nothing else. *)
Lemma list_free_correct s a l : chain (entries s) a l -> l <> [] -> a_ok (lheap s) ->
  NoDup (blocks_of l) -> Forall (a_live (lheap s)) (blocks_of l) ->
  exists s', list_free a (Z.of_nat (length l)) s = Ok tt s' /\ a_ok (lheap s') /\
    forall q, a_live (lheap s') q <-> a_live (lheap s) q /\ q ∉ blocks_of l.
Proof.
  intros Hc Hne Hok Hnd Hlv. unfold list_free.
  assert (Z.of_nat (length l) =? 0 = false) as -> by (apply Z.eqb_neq; destruct l; cbn; [done|lia]). cbn [andb].
  rewrite (bind_ok (ret tt) _ s tt s eq_refl), Nat2Z.id. by apply list_free_loop_ok.
Qed.
End Lists.

Definition demo_lists : lists bump :=
  mk_lists (<[16 := (40, 24)]> {[ 24 := (0, 0) ]}) {[ 40 := [1; 2] ]} (mk_bump 50 {[ 16; 24; 40; 48 ]}).
Lemma list_free_correct_witness : exists s', list_free 16 2 demo_lists = Ok tt s' /\ a_ok (lheap s') /\
  forall q, a_live (lheap s') q <-> a_live (lheap demo_lists) q /\ q ∉ [16; 24; 40].
Proof.
  apply (list_free_correct demo_lists 16 [(16, 40); (24, 0)]).
  - cbn. split; [done|]. split; [done|]. exists 24. split; [reflexivity|]. split; [done|]. split; [done|]. by exists 0.
  - done.
  - split; [cbn; lia|]. cbn. set_solver by lia.
  - cbn. repeat (apply NoDup_cons; split; [set_solver|]). apply NoDup_nil_2.
  - cbn. repeat constructor; set_solver.
Defined.
