(* ===== verification/Errors.v ===== *)
(** The error numbers (error/error.h). *)

From S2P Require Import Prelude.

Definition ERROR_NONE : Z := 0.
Definition UNKNOWN_ERROR : Z := 1.
Definition ERROR_DISK_UNREACHABLE : Z := 2.
Definition ERROR_DISK_OUT : Z := 3.
Definition ERROR_DISK_BUSY : Z := 4.
Definition ERROR_DISK_INTERNAL : Z := 5.
Definition ERROR_FILE_NOT_FOUND : Z := 10.
Definition ERROR_FILE_SYSTEM_READ_ONLY : Z := 11.
Definition ERROR_FILE_IS_DIRECTORY : Z := 12.
Definition ERROR_FILE_IS_NOT_DIRECTORY : Z := 13.
Definition ERROR_FILE_NAME_ALREADY_EXISTS : Z := 14.
Definition ERROR_FILE_UNSUPPORTED_FILE_SYSTEM : Z := 15.
Definition ERROR_FILE_FS_INTERNAL : Z := 16.
Definition ERROR_FILE_OUT : Z := 17.
Definition ERROR_FILE_CORRUPTED_FS : Z := 18.
Definition ERROR_DIRECTORY_NOT_EMPTY : Z := 19.
Definition ERROR_EOF : Z := 20.
Definition ERROR_IS_NOT_ELF : Z := 21.
Definition ERROR_IS_64_BITS : Z := 22.
Definition ERROR_IS_NOT_EXECUTABLE : Z := 23.
Definition ERROR_WRONG_INSTRUCTION_SET : Z := 24.
Definition ERROR_INVALID_PID : Z := 25.
Definition ERROR_INVALID_SIGNAL : Z := 26.
Definition ERROR_IS_SESSION_LEADER : Z := 27.
Definition ERROR_IS_ANOTHER_SESSION : Z := 28.
Definition ERROR_HAS_NO_CHILD : Z := 29.
Definition ERROR_MUTEX_ALREADY_LOCKED : Z := 31.
Definition ERROR_MUTEX_OWNED_BY_OTHER : Z := 32.
Definition ERROR_INVALID_PTR : Z := 36.
Definition ERROR_PERMISSION : Z := 41.
Definition ERROR_NO_TTY : Z := 42.
Definition ERROR_NO_DEVICE : Z := 43.
Definition ERROR_IO : Z := 44.
