(* ===== verification/Storage.v ===== *)
(** Block devices (storage/block_devices.c, the transfer logic of
    storage/ata/ata_common.c and the flexible reads and writes of
    storage/ata/ata_pio.c and storage/ata/ata_dma.c).

    A request of any length is cut into commands that the controller can do at
    once, with two retries for each; a command transfers whole sectors, of
    which the requested bytes are a part.  What a drive does with a command,
    through its ports or through the DMA buffer, is the class [Ata]: the sectors
    it delivers or takes and the status it ends with.  [BlockDevice] is what
    the file systems rely on; [ata_block_device] discharges it.  The mutex of
    the drive and the wait for its interrupt are left out. *)

From S2P Require Import Prelude Errors Mem.

Definition ATA_DEVICE : Z := 1.
Definition ATA_FLAG_LBA48 : Z := 2.
Definition ATA_FLAG_ATAPI : Z := 4.
Definition BYTES_PER_SECTOR : Z := 512.
Definition ATAPI_SECTOR_SIZE : Z := 2048.

(** Words as bytes and back. *)
Definition le32 (v : Z) : list Z := [u8 v; u8 (v / 256); u8 (v / 65536); u8 (v / 16777216)].
Fixpoint words_of (n : nat) (bs : list Z) : list Z :=
  match n with
  | O => []
  | S k => (nth 0 bs 0 + 256 * nth 1 bs 0 + 65536 * nth 2 bs 0 + 16777216 * nth 3 bs 0) :: words_of k (drop 4 bs)
  end.

(** Stores a list of bytes. *)
Fixpoint store_bytes (m : mem) (a : Z) (bs : list Z) : mem :=
  match bs with
  | [] => m
  | b :: r => store_bytes (store8 m a b) (a + 1) r
  end.

Lemma le32_u8 v : Forall is_u8 (le32 v).
Proof. unfold le32. repeat (constructor; [apply u8_range|]). constructor. Qed.
Lemma words_of_le32 ws : Forall is_u32 ws -> words_of (length ws) (concat (map le32 ws)) = ws.
Proof.
  induction 1 as [|w ws Hw Hws IH]; [done|]. cbn [length words_of map concat app]. unfold le32. cbn [nth app drop skipn].
  f_equal; [|exact IH]. unfold is_u32, u8 in *.
  dlia.
Qed.

(** What a drive does: [hw_read sector scount] gives the status of the command
    and the bytes of the sectors, [hw_write sector bytes] the status.  [content]
    is what is on the medium, [working d] that commands succeed. *)
Class Ata (D : Type) : Type := {
  hw_read : Z -> Z -> D -> (Z * list Z) * D;
  hw_write : Z -> list Z -> D -> Z * D;
  content : D -> mem;
  working : D -> Prop;
  hw_read_law : forall d sector scount, working d -> 0 <= sector < 268435456 -> 0 < scount < 256 ->
    hw_read sector scount d = ((ERROR_NONE, bytes_at (content d) (sector * 512) (Z.to_nat (scount * 512))), d);
  hw_write_law : forall d sector bs, working d -> 0 <= sector < 268435456 -> (length bs mod 512 = 0)%nat ->
    exists d', hw_write sector bs d = (ERROR_NONE, d') /\ working d' /\
      content d' = store_bytes (content d) (sector * 512) bs }.

Section Ata.
Context {D : Type} `{Ata D}.

(** Kernel memory, the drive, and the DMA buffer behind its descriptor. *)
Record drv : Type := mk_drv { dmem : mem; hw : D; prdt : mem }.
Definition run_read (sector scount : Z) : M drv (Z * list Z) :=
  fun s => let r := hw_read sector scount (hw s) in Ok r.1 (mk_drv (dmem s) r.2 (prdt s)).
Definition run_write (sector : Z) (bs : list Z) : M drv Z :=
  fun s => let r := hw_write sector bs (hw s) in Ok r.1 (mk_drv (dmem s) r.2 (prdt s)).
Definition put_data (data : Z) (bs : list Z) : M drv unit :=
  modify (fun s => mk_drv (store_bytes (dmem s) data bs) (hw s) (prdt s)).

(** [count / bps], plus one for a rest. *)
Definition sector_count (bps count : Z) : Z := count / bps + (if count mod bps =? 0 then 0 else 1).

(** Whether the sector number can be sent. *)
Definition sector_ok (flags sector : Z) : bool :=
  if U32_MAX <? sector then negb (Z.land flags ATA_FLAG_LBA48 =? 0) && (Z.land sector 18446462598732840960 =? 0)
  else Z.land sector 4026531840 =? 0.

(** What the data port gives when no data is left. *)
Context (bus : Z).

(** The bytes [offset .. offset + count) of those delivered. *)
Definition pio_bytes (bs : list Z) (offset count : Z) : list Z :=
  map (fun j => nth (Z.to_nat (offset + j)) bs bus) (seqZ 0 count).

Definition ata_pio_read_flexible (flags sector offset data count : Z) : M drv Z :=
  if count =? 0 then ret ERROR_NONE else
  let scount := sector_count BYTES_PER_SECTOR count in
  if 255 <? scount then ret ERROR_DISK_INTERNAL else
  if negb (sector_ok flags sector) then ret ERROR_DISK_OUT else
  r <- run_read sector scount ;;
  if negb (r.1 =? ERROR_NONE) then ret r.1 else
  put_data data (pio_bytes r.2 offset count) ;;;
  ret ERROR_NONE.

Definition ata_dma_read_flexible (flags sector offset data count : Z) : M drv Z :=
  if count =? 0 then ret ERROR_NONE else
  let atapi := negb (Z.land flags ATA_FLAG_ATAPI =? 0) in
  let bps := if atapi then ATAPI_SECTOR_SIZE else BYTES_PER_SECTOR in
  let scount := sector_count bps count in
  if 127 <? scount then ret ERROR_DISK_INTERNAL else
  if (31 <? scount) && atapi then ret ERROR_DISK_INTERNAL else
  if (if atapi then negb (Z.land sector 4026531840 =? 0) else negb (sector_ok flags sector)) then ret ERROR_DISK_OUT else
  r <- run_read sector scount ;;
  modify (fun s => mk_drv (dmem s) (hw s) (store_bytes (prdt s) 0 r.2)) ;;;
  s <- get ;;
  put_data data (bytes_at (prdt s) offset (Z.to_nat count)) ;;;
  ret r.1.

(** The sector that is read for the end of a write: the count of whole bytes is
    added to a sector number. *)
Definition last_sector (sector count : Z) : Z := sector + count / 512 * 512.

(** What is read into a local buffer before a write: 512 bytes. *)
Definition cache_sector (read : Z -> Z -> Z -> Z -> M drv Z) (sector cached : Z) (needed : bool) : M drv unit :=
  if needed then read sector 0 cached BYTES_PER_SECTOR ;;; ret tt else ret tt.

(** [cached_f] and [cached_l] are the addresses of the local buffers. *)
Context (cached_f cached_l : Z).

(** The byte sent at place [j] of a write by programmed I/O. *)
Definition pio_out (m : mem) (sector offset data count j : Z) : Z :=
  if j <? offset then load8 m (cached_f + j)
  else if j <? offset + count then load8 m (data + (j - offset))
  else if (j =? offset + count) && ((offset + count) mod 2 =? 1) then 0
  else if last_sector sector count =? sector then load8 m (cached_f + j) else load8 m (cached_l + j).

Definition ata_pio_write_flexible (flags sector offset data count : Z) : M drv Z :=
  let scount := sector_count BYTES_PER_SECTOR count in
  cache_sector (ata_pio_read_flexible flags) sector cached_f (negb (Z.lor offset (count mod 512) =? 0)) ;;;
  cache_sector (ata_pio_read_flexible flags) (last_sector sector count) cached_l
    (negb (last_sector sector count =? sector) && negb (count mod 512 =? 0)) ;;;
  if negb (sector_ok flags sector) then ret ERROR_DISK_OUT else
  s <- get ;;
  run_write sector (map (pio_out (dmem s) sector offset data count) (seqZ 0 (scount * 512))).

Definition ata_dma_write_flexible (flags sector offset data count : Z) : M drv Z :=
  if count =? 0 then ret ERROR_NONE else
  let scount := sector_count BYTES_PER_SECTOR count in
  cache_sector (ata_dma_read_flexible flags) sector cached_f (negb (Z.lor offset (count mod 512) =? 0)) ;;;
  cache_sector (ata_dma_read_flexible flags) (last_sector sector count) cached_l
    (negb (last_sector sector count =? sector) && negb (count mod 512 =? 0)) ;;;
  modify (fun s => mk_drv (dmem s) (hw s) (store_bytes (prdt s) offset (bytes_at (dmem s) data (Z.to_nat count)))) ;;;
  if negb (sector_ok flags sector) then ret ERROR_DISK_OUT else
  s <- get ;;
  run_write sector (bytes_at (prdt s) 0 (Z.to_nat (scount * 512))).

(** A command, repeated at most twice with the length [again]. *)
Definition with_retries (read : Z -> Z -> Z -> Z -> M drv Z) (sector offset data count again : Z) : M drv Z :=
  err <- read sector offset data count ;;
  err <- (if err =? ERROR_NONE then ret err else read sector offset data again) ;;
  if err =? ERROR_NONE then ret err else read sector offset data again.

(** [while(count > max) ...] and the last command; [max] bytes are [step]
    sectors.  [narrow] is the cast of the sector number. *)
Fixpoint read_chunks (fuel : nat) (read : Z -> Z -> Z -> Z -> M drv Z) (narrow : Z -> Z) (max step : Z) (again : Z -> Z)
    (sector offset data count : Z) : M drv Z :=
  match fuel with
  | O => nofuel
  | S n =>
    if count <=? max then with_retries read (narrow sector) offset data count (again count) else
    err <- with_retries read (narrow sector) offset data max max ;;
    if negb (err =? ERROR_NONE) then ret err else
    read_chunks n read narrow max step again (sector + step) 0 (data + max) (count - max)
  end.

Definition ata_read_flexible (fuel : nat) (flags : Z) (scheduler_started : bool) (sector offset data count : Z) : M drv Z :=
  if negb (Z.land flags ATA_FLAG_ATAPI =? 0) then
    read_chunks fuel (ata_dma_read_flexible flags) u32 (31 * ATAPI_SECTOR_SIZE) 31 (fun _ => 31 * ATAPI_SECTOR_SIZE)
      (sector + offset / ATAPI_SECTOR_SIZE) (offset mod ATAPI_SECTOR_SIZE) data count
  else
    let sector := sector + offset / BYTES_PER_SECTOR in
    let offset := offset mod BYTES_PER_SECTOR in
    if negb scheduler_started || (count <=? 1024) then
      read_chunks fuel (ata_pio_read_flexible flags) (fun s => s) (255 * BYTES_PER_SECTOR) 255 (fun _ => 255 * BYTES_PER_SECTOR) sector offset data count
    else
      read_chunks fuel (ata_dma_read_flexible flags) u32 (127 * BYTES_PER_SECTOR) 127 (fun c => c) sector offset data count.

(** Writes are not repeated. *)
Fixpoint write_chunks (fuel : nat) (write : Z -> Z -> Z -> Z -> M drv Z) (narrow : Z -> Z) (max step : Z)
    (sector offset data count : Z) : M drv Z :=
  match fuel with
  | O => nofuel
  | S n =>
    if count <=? max then write (narrow sector) offset data count else
    err <- write (narrow sector) offset data max ;;
    if negb (err =? ERROR_NONE) then ret err else
    write_chunks n write narrow max step (sector + step) 0 (data + max) (count - max)
  end.

(** [while(offset > BYTES_PER_SECTOR) {offset -= BYTES_PER_SECTOR; sector++;}]:
    an offset of a whole sector stays. *)
Definition write_start (sector offset : Z) : Z * Z :=
  let k := if offset <=? BYTES_PER_SECTOR then 0 else (offset - 1) / BYTES_PER_SECTOR in
  (sector + k, offset - k * BYTES_PER_SECTOR).

Definition ata_write_flexible (fuel : nat) (flags : Z) (scheduler_started : bool) (sector offset data count : Z) : M drv Z :=
  if negb (Z.land flags ATA_FLAG_ATAPI =? 0) then ret ERROR_DISK_INTERNAL else
  let so := write_start sector offset in
  if negb scheduler_started then write_chunks fuel (ata_pio_write_flexible flags) (fun s => s) (255 * BYTES_PER_SECTOR) 255 so.1 so.2 data count
  else write_chunks fuel (ata_dma_write_flexible flags) u32 (127 * BYTES_PER_SECTOR) 127 so.1 so.2 data count.

(** The dispatch on the kind of device. *)
Definition block_read_flexible (fuel : nat) (device_type flags : Z) (started : bool) (sector offset data count : Z) : M drv Z :=
  if device_type =? ATA_DEVICE then ata_read_flexible fuel flags started sector offset data count else ret ERROR_DISK_INTERNAL.
Definition block_write_flexible (fuel : nat) (device_type flags : Z) (started : bool) (sector offset data count : Z) : M drv Z :=
  if device_type =? ATA_DEVICE then ata_write_flexible fuel flags started sector offset data count else ret ERROR_DISK_INTERNAL.

(** ** What is read *)

Lemma store_bytes_outside m a bs x : ~ (a <= x < a + Z.of_nat (length bs)) -> store_bytes m a bs x = m x.
Proof.
  revert m a. induction bs as [|b r IH]; intros m a Hx; [done|]. cbn [store_bytes length] in *.
  rewrite IH by lia. apply store8_other. lia.
Qed.
Lemma store_bytes_app m a bs cs : store_bytes m a (bs ++ cs) = store_bytes (store_bytes m a bs) (a + Z.of_nat (length bs)) cs.
Proof.
  revert m a. induction bs as [|b r IH]; intros m a; cbn [store_bytes app length].
  - by rewrite Z.add_0_r.
  - rewrite IH. f_equal. lia.
Qed.
Lemma store_bytes_same m a bs : Forall is_u8 bs -> bytes_at (store_bytes m a bs) a (length bs) = bs.
Proof.
  revert m a. induction bs as [|b r IH]; intros m a Hf; [done|]. apply Forall_cons in Hf as [Hb Hr].
  cbn [store_bytes length bytes_at]. f_equal.
  - unfold load8. rewrite store_bytes_outside by lia. rewrite store8_same. unfold is_u8 in Hb. by rewrite !u8_id by (rewrite ?u8_id; lia).
  - by apply IH.
Qed.
Lemma bytes_at_u8 m a n : Forall is_u8 (bytes_at m a n).
Proof. revert a. induction n as [|n IH]; intros a; cbn; constructor; auto with kernel. Qed.


Lemma sector_ok_28 flags sector : 0 <= sector < 268435456 -> sector_ok flags sector = true /\ Z.land sector 4026531840 = 0.
Proof.
  intros Hs. assert (Z.land sector 4026531840 = 0) as Hl.
  { change 4026531840 with (Z.shiftl 15 28). apply Z.bits_inj'. intros n Hn. rewrite Z.land_spec, Z.shiftl_spec, Z.bits_0 by lia.
    destruct (Z.lt_ge_cases n 28).
    - rewrite (Z.testbit_neg_r 15) by lia. apply andb_false_r.
    - replace sector with (sector mod 2 ^ 28) by (apply Z.mod_small; lia). by rewrite Z.mod_pow2_bits_high by lia. }
  unfold sector_ok, U32_MAX. dec_false (4294967295 <? sector). rewrite Hl. done.
Qed.

Lemma sector_count_spec count : 0 < count -> count <= sector_count 512 count * 512 < count + 512.
Proof. intros Hc. unfold sector_count. case_bool; dlia. Qed.

Lemma pio_bytes_ok m a n offset count : 0 <= offset -> 0 <= count -> offset + count <= Z.of_nat n ->
  pio_bytes (bytes_at m a n) offset count = bytes_at m (a + offset) (Z.to_nat count).
Proof.
  intros Ho Hc Hn. unfold pio_bytes. apply list_eq. intros i. destruct (decide (i < Z.to_nat count)%nat) as [Hi|Hi].
  - rewrite bytes_at_lookup by done. erewrite list_lookup_fmap_Some_2; [|apply lookup_seqZ; split; [reflexivity|lia]].
    f_equal. rewrite (nth_lookup_Some _ _ _ (load8 m (a + Z.of_nat (Z.to_nat (offset + (0 + Z.of_nat i)))))); [f_equal; lia|].
    apply bytes_at_lookup. lia.
  - rewrite !lookup_ge_None_2; [done|rewrite length_bytes_at; lia|rewrite length_map, length_seqZ; lia].
Qed.

(** A read command that works: the sectors it counts hold all the bytes. *)
Definition reads_well (read : Z -> Z -> Z -> Z -> M drv Z) (max : Z) : Prop :=
  forall s sector offset data count, working (hw s) -> 0 <= sector < 268435456 -> 0 <= offset -> 0 <= count <= max ->
    offset + count <= sector_count 512 count * 512 \/ count = 0 ->
    exists p, read sector offset data count s =
      Ok ERROR_NONE (mk_drv (store_bytes (dmem s) data (bytes_at (content (hw s)) (sector * 512 + offset) (Z.to_nat count))) (hw s) p).

Lemma pio_reads_well flags : reads_well (ata_pio_read_flexible flags) (255 * 512).
Proof.
  intros [m d p] sector offset data count Hw Hs Ho Hc Hfit. unfold ata_pio_read_flexible, BYTES_PER_SECTOR. cbn [hw dmem] in *.
  destruct (Z.eqb_spec count 0) as [-> |Hc0]; [by exists p|]. cbv zeta. destruct Hfit as [Hfit|]; [|lia].
  pose proof (sector_count_spec count ltac:(lia)). set (sc := sector_count 512 count) in *.
  dec_false (255 <? sc). destruct (sector_ok_28 flags sector Hs) as [-> _]. cbn [negb].
  unfold run_read, bind. cbn [hw dmem]. rewrite (hw_read_law d sector sc Hw Hs) by lia. cbn [fst snd ERROR_NONE Z.eqb negb].
  rewrite pio_bytes_ok by lia. by exists p.
Qed.

Lemma dma_reads_well flags : Z.land flags ATA_FLAG_ATAPI = 0 -> reads_well (ata_dma_read_flexible flags) (127 * 512).
Proof.
  intros Hfl [m d p] sector offset data count Hw Hs Ho Hc Hfit. unfold ata_dma_read_flexible, BYTES_PER_SECTOR. cbn [hw dmem] in *.
  rewrite Hfl. cbn [Z.eqb negb].
  destruct (Z.eqb_spec count 0) as [-> |Hc0]; [by exists p|]. cbv zeta. destruct Hfit as [Hfit|]; [|lia].
  pose proof (sector_count_spec count ltac:(lia)). set (sc := sector_count 512 count) in *.
  dec_false (127 <? sc). rewrite andb_false_r. destruct (sector_ok_28 flags sector Hs) as [-> _]. cbn [negb].
  unfold run_read, bind. cbn [hw dmem]. rewrite (hw_read_law d sector sc Hw Hs) by lia. eexists.
  unfold modify, get, put_data, ret. cbn [fst snd hw dmem prdt]. unfold modify. cbn [hw dmem prdt]. do 2 f_equal. f_equal.
  set (bs := bytes_at (content d) (sector * 512) (Z.to_nat (sc * 512))).
  assert (length bs = Z.to_nat (sc * 512)) as Hl by apply length_bytes_at.
  pose proof (store_bytes_same p 0 bs (bytes_at_u8 _ _ _)) as Hsame. rewrite Hl in Hsame.
  replace (Z.to_nat (sc * 512)) with (Z.to_nat offset + (Z.to_nat count + Z.to_nat (sc * 512 - offset - count)))%nat in Hsame by lia.
  assert (bs = bytes_at (content d) (sector * 512) (Z.to_nat offset + (Z.to_nat count + Z.to_nat (sc * 512 - offset - count)))) as Hbs
    by (subst bs; f_equal; lia).
  rewrite Hbs in Hsame. rewrite !bytes_at_app in Hsame. apply app_inj_1 in Hsame as [_ Hsame]; [|by rewrite !length_bytes_at].
  apply app_inj_1 in Hsame as [Hsame _]; [|by rewrite !length_bytes_at]. rewrite !Z2Nat.id in Hsame by lia.
  rewrite Z.add_0_l in Hsame. rewrite <- Hsame, Hbs, !bytes_at_app. by rewrite !Z2Nat.id by lia.
Qed.

Lemma with_retries_ok read max s sector offset data count again : reads_well read max -> working (hw s) ->
  0 <= sector < 268435456 -> 0 <= offset -> 0 <= count <= max -> offset + count <= sector_count 512 count * 512 \/ count = 0 ->
  exists p, with_retries read sector offset data count again s =
    Ok ERROR_NONE (mk_drv (store_bytes (dmem s) data (bytes_at (content (hw s)) (sector * 512 + offset) (Z.to_nat count))) (hw s) p).
Proof.
  intros Hr Hw Hs Ho Hc Hf. destruct (Hr s sector offset data count Hw Hs Ho Hc Hf) as [p Hrun]. exists p.
  unfold with_retries. rewrite (bind_ok _ _ _ _ _ Hrun). done.
Qed.

Lemma read_chunks_ok fuel read narrow step again s sector offset data count :
  reads_well read (step * 512) -> working (hw s) -> 0 < step -> (forall k, 0 <= k < 268435456 -> narrow k = k) ->
  0 <= sector -> sector + count / 512 + 1 < 268435456 -> 0 <= offset -> 0 <= count ->
  offset = 0 \/ (count <= step * 512 /\ offset + count <= sector_count 512 count * 512) ->
  (Z.to_nat (count / (step * 512)) < fuel)%nat ->
  exists p, read_chunks fuel read narrow (step * 512) step again sector offset data count s =
    Ok ERROR_NONE (mk_drv (store_bytes (dmem s) data (bytes_at (content (hw s)) (sector * 512 + offset) (Z.to_nat count))) (hw s) p).
Proof.
  intros Hr Hw Hst Hn. revert s sector offset data count Hw.
  induction fuel as [|n IH]; intros s sector offset data count Hw Hs Hb Ho Hc Hoc Hf; [lia|].
  cbn [read_chunks]. assert (0 <= count / 512) by (apply Z.div_pos; lia). rewrite (Hn sector) by lia.
  assert (offset + count <= sector_count 512 count * 512 \/ count = 0) as Hfit.
  { destruct Hoc as [-> |[_ ?]]; [|by left]. destruct (decide (count = 0)); [by right|left]. pose proof (sector_count_spec count). lia. }
  destruct (Z.leb_spec count (step * 512)) as [Hle|Hgt].
  - apply (with_retries_ok _ (step * 512)); (done || lia).
  - destruct Hoc as [-> |]; [|lia].
    destruct (with_retries_ok read (step * 512) s sector 0 data (step * 512) (step * 512) Hr Hw ltac:(lia) ltac:(lia) ltac:(lia)) as [p1 Hrun].
    { left. pose proof (sector_count_spec (step * 512)). lia. }
    rewrite (bind_ok _ _ _ _ _ Hrun). cbn [ERROR_NONE Z.eqb negb]. set (s1 := mk_drv _ _ _).
    destruct (IH s1 (sector + step) 0 (data + step * 512) (count - step * 512) Hw) as [p2 Hrun2]; [lia| |lia|lia|by left| |].
    + assert ((count - step * 512) / 512 = count / 512 - step) as Hd by dlia. lia.
    + assert ((count - step * 512) / (step * 512) = count / (step * 512) - 1) as Hd.
      { rewrite <- (Z.add_opp_r count), Z.opp_eq_mul_m1, Z.mul_comm, Z.div_add by lia. lia. }
      assert (1 <= count / (step * 512)) by (apply Z.div_le_lower_bound; lia). lia.
    + exists p2. rewrite Hrun2. subst s1. cbn [dmem hw]. do 2 f_equal.
      replace (Z.to_nat count) with (Z.to_nat (step * 512) + Z.to_nat (count - step * 512))%nat by lia.
      rewrite bytes_at_app, store_bytes_app, length_bytes_at, Z2Nat.id by lia.
      by replace ((sector + step) * 512 + 0) with (sector * 512 + 0 + step * 512) by lia.
Qed.

(** Whole sectors are written as they are. *)
Definition writes_well (write : Z -> Z -> Z -> Z -> M drv Z) (max : Z) : Prop :=
  forall s sector data count, working (hw s) -> 0 <= sector < 268435456 -> 0 < count <= max -> count mod 512 = 0 ->
    exists d' p, write sector 0 data count s = Ok ERROR_NONE (mk_drv (dmem s) d' p) /\ working d' /\
      content d' = store_bytes (content (hw s)) (sector * 512) (bytes_at (dmem s) data (Z.to_nat count)).

Lemma whole_sectors count : 0 < count -> count mod 512 = 0 -> sector_count 512 count * 512 = count.
Proof. intros Hc Hm. unfold sector_count. rewrite Hm. cbn [Z.eqb]. dlia. Qed.

Lemma pio_writes_well flags : writes_well (ata_pio_write_flexible flags) (255 * 512).
Proof.
  intros [m d p] sector data count Hw Hs Hc Hm. unfold ata_pio_write_flexible, BYTES_PER_SECTOR. cbn [hw dmem] in *.
  rewrite Hm, whole_sectors by lia. cbn [Z.lor Z.eqb negb]. rewrite andb_false_r. cbv zeta.
  unfold cache_sector. change (Z.lor 0 0 =? 0) with true. cbn [negb]. cbv iota. rewrite !(bind_ok (ret tt) _ _ tt _ eq_refl). destruct (sector_ok_28 flags sector Hs) as [-> _]. cbn [negb].
  assert (map (pio_out m sector 0 data count) (seqZ 0 count) = bytes_at m data (Z.to_nat count)) as Hout.
  { apply list_eq. intros i. destruct (decide (i < Z.to_nat count)%nat) as [Hi|Hi].
    - rewrite bytes_at_lookup by done. erewrite list_lookup_fmap_Some_2; [|apply lookup_seqZ; split; [reflexivity|lia]].
      unfold pio_out. dec_false (0 + Z.of_nat i <? 0). dec_true (0 + Z.of_nat i <? 0 + count). do 2 f_equal. lia.
    - rewrite !lookup_ge_None_2; [done|rewrite length_bytes_at; lia|rewrite length_map, length_seqZ; lia]. }
  destruct (hw_write_law d sector (bytes_at m data (Z.to_nat count)) Hw Hs) as (d' & Hrun & Hw' & Hc').
  { rewrite length_bytes_at. apply Nat2Z.inj. rewrite Nat2Z.inj_mod, Z2Nat.id by lia. done. }
  exists d', p. unfold run_write, bind, get. cbn [dmem hw prdt]. rewrite Hout, Hrun. done.
Qed.

Lemma dma_writes_well flags : writes_well (ata_dma_write_flexible flags) (127 * 512).
Proof.
  intros [m d p] sector data count Hw Hs Hc Hm. unfold ata_dma_write_flexible, BYTES_PER_SECTOR. cbn [hw dmem] in *.
  dec_false (count =? 0). rewrite Hm, whole_sectors by lia. cbn [Z.lor Z.eqb negb]. rewrite andb_false_r. cbv zeta.
  unfold cache_sector. change (Z.lor 0 0 =? 0) with true. cbn [negb]. cbv iota. rewrite !(bind_ok (ret tt) _ _ tt _ eq_refl). destruct (sector_ok_28 flags sector Hs) as [-> _]. cbn [negb].
  set (bs := bytes_at m data (Z.to_nat count)). assert (length bs = Z.to_nat count) as Hl by apply length_bytes_at.
  destruct (hw_write_law d sector bs Hw Hs) as (d' & Hrun & Hw' & Hc').
  { rewrite Hl. apply Nat2Z.inj. rewrite Nat2Z.inj_mod, Z2Nat.id by lia. done. }
  exists d', (store_bytes p 0 bs). unfold run_write, modify, bind, get. cbn [dmem hw prdt].
  pose proof (store_bytes_same p 0 bs (bytes_at_u8 _ _ _)) as Hsame. rewrite Hl in Hsame. fold bs. by rewrite Hsame, Hrun.
Qed.

Lemma write_chunks_ok fuel write narrow step s sector data count : writes_well write (step * 512) -> working (hw s) -> 0 < step ->
  (forall k, 0 <= k < 268435456 -> narrow k = k) -> 0 <= sector -> sector + count / 512 + 1 < 268435456 ->
  0 < count -> count mod 512 = 0 -> (Z.to_nat (count / (step * 512)) < fuel)%nat ->
  exists d' p, write_chunks fuel write narrow (step * 512) step sector 0 data count s = Ok ERROR_NONE (mk_drv (dmem s) d' p) /\
    working d' /\ content d' = store_bytes (content (hw s)) (sector * 512) (bytes_at (dmem s) data (Z.to_nat count)).
Proof.
  intros Hww Hwk Hst Hn. revert s sector data count Hwk. induction fuel as [|n IH]; intros s sector data count Hwk Hs Hb Hc Hm Hf; [lia|].
  cbn [write_chunks]. assert (0 <= count / 512) by (apply Z.div_pos; lia). rewrite (Hn sector) by lia.
  destruct (Z.leb_spec count (step * 512)) as [Hle|Hgt]; [apply Hww; (done || lia)|].
  destruct (Hww s sector data (step * 512) Hwk) as (d1 & p1 & Hrun & Hwk1 & Hc1); [lia|lia|by rewrite Z.mod_mul|].
  rewrite (bind_ok _ _ _ _ _ Hrun). cbn [ERROR_NONE Z.eqb negb].
  destruct (IH (mk_drv (dmem s) d1 p1) (sector + step) (data + step * 512) (count - step * 512) Hwk1) as (d2 & p2 & Hrun2 & Hwk2 & Hc2); [lia| |lia|dlia| |].
  - assert ((count - step * 512) / 512 = count / 512 - step) as Hd by dlia. lia.
  - assert ((count - step * 512) / (step * 512) = count / (step * 512) - 1) as Hd.
    { rewrite <- (Z.add_opp_r count), Z.opp_eq_mul_m1, Z.mul_comm, Z.div_add by lia. lia. }
    assert (1 <= count / (step * 512)) by (apply Z.div_le_lower_bound; lia). lia.
  - exists d2, p2. split; [exact Hrun2|]. split; [done|]. cbn [hw dmem] in Hc2. rewrite Hc2, Hc1.
    replace (Z.to_nat count) with (Z.to_nat (step * 512) + Z.to_nat (count - step * 512))%nat by lia.
    rewrite bytes_at_app, store_bytes_app, length_bytes_at, Z2Nat.id by lia. f_equal. lia.
Qed.

(** Reading and writing through a hard disk that works. *)
Lemma block_read_ok fuel flags started s sector offset data count : working (hw s) -> Z.land flags ATA_FLAG_ATAPI = 0 ->
  0 <= sector -> 0 <= offset -> 0 <= count -> sector + offset / 512 + count / 512 + 1 < 268435456 ->
  offset mod 512 = 0 \/ (count <= 65024 /\ offset mod 512 + count <= sector_count 512 count * 512) -> (Z.to_nat (count / 65024) < fuel)%nat ->
  exists p, block_read_flexible fuel ATA_DEVICE flags started sector offset data count s =
    Ok ERROR_NONE (mk_drv (store_bytes (dmem s) data (bytes_at (content (hw s)) (sector * 512 + offset) (Z.to_nat count))) (hw s) p).
Proof.
  intros Hw Hfl Hs Ho Hc Hb Hoc Hf. unfold block_read_flexible, ata_read_flexible, ATAPI_SECTOR_SIZE, BYTES_PER_SECTOR.
  cbn [ATA_DEVICE Z.eqb Pos.eqb]. rewrite Hfl. cbn [Z.eqb negb]. cbv zeta.
  assert (0 <= offset / 512 /\ 0 <= offset mod 512 < 512) as [Hq Hm] by dlia.
  replace (sector * 512 + offset) with ((sector + offset / 512) * 512 + offset mod 512) by dlia.
  destruct (negb started || (count <=? 1024)).
  - apply (read_chunks_ok fuel _ _ 255); [apply pio_reads_well|done|lia|done|lia|lia|lia|lia|lia|].
    assert (count / (255 * 512) <= count / 65024) by (apply Z.div_le_compat_l; lia). lia.
  - apply (read_chunks_ok fuel _ _ 127); [by apply dma_reads_well|done|lia|intros; apply u32_id; lia|lia|lia|lia|lia|lia|].
    change (127 * 512) with 65024. lia.
Qed.

Lemma block_write_ok fuel flags started s sector data count : working (hw s) -> Z.land flags ATA_FLAG_ATAPI = 0 -> 0 <= sector ->
  0 < count -> count mod 512 = 0 -> sector + count / 512 + 1 < 268435456 -> (Z.to_nat (count / 65024) < fuel)%nat ->
  exists d' p, block_write_flexible fuel ATA_DEVICE flags started sector 0 data count s = Ok ERROR_NONE (mk_drv (dmem s) d' p) /\
    working d' /\ content d' = store_bytes (content (hw s)) (sector * 512) (bytes_at (dmem s) data (Z.to_nat count)).
Proof.
  intros Hw Hfl Hs Hc Hm Hb Hf. unfold block_write_flexible, ata_write_flexible, BYTES_PER_SECTOR.
  cbn [ATA_DEVICE Z.eqb Pos.eqb]. rewrite Hfl. cbn [Z.eqb negb]. cbv zeta.
  change (write_start sector 0) with (sector + 0, 0). cbn [fst snd]. rewrite Z.add_0_r. destruct started; cbn [negb].
  - apply (write_chunks_ok fuel _ _ 127); [apply dma_writes_well|done|lia|intros; apply u32_id; lia|lia|lia|lia|done|].
    change (127 * 512) with 65024. lia.
  - apply (write_chunks_ok fuel _ _ 255); [apply pio_writes_well|done|lia|done|lia|lia|lia|done|].
    assert (count / (255 * 512) <= count / 65024) by (apply Z.div_le_compat_l; lia). lia.
Qed.
End Ata.

(** ** Partitions *)

Record partition_descriptor : Type := mk_partition { start_lba : Z; plength : Z; bootable : Z; system_id : Z }.

(** The entry [i] of the partition table of a boot record in memory. *)
Definition partition_entry (m : mem) (mbr i : Z) : partition_descriptor :=
  let e := mbr + 446 + 16 * i in
  if load8 m (e + 4) =? 0 then mk_partition 0 0 0 0
  else mk_partition (load32 m (e + 8)) (load32 m (e + 12)) (load8 m e) (load8 m (e + 4)).

(** The table and the number of partitions; [None] when the record could not
    be read or has no magic number.  The descriptor of an unused entry is
    not filled in apart from its [system_id]. *)
Definition ata_read_partitions {D} `{Ata D} (bus : Z) (flags mbr : Z) : M drv (option (list partition_descriptor * Z)) :=
  err <- ata_pio_read_flexible bus flags 0 0 mbr 512 ;;
  if negb (err =? ERROR_NONE) then ret None else
  s <- get ;;
  if negb (load16 (dmem s) (mbr + 510) =? 43605) then ret None else
  let ps := map (partition_entry (dmem s) mbr) [0; 1; 2; 3] in
  ret (Some (ps, Z.of_nat (length (List.filter (fun p => negb (system_id p =? 0)) ps)))).

(** ** Block devices, as the file systems see them *)

Class BlockDevice (D : Type) : Type := {
  bread : Z -> Z -> Z -> M D (Z * list Z);
  bwrite : Z -> Z -> list Z -> M D Z;
  bcontent : D -> mem;
  bworking : D -> Prop;
  bread_law : forall d sector offset count, bworking d -> 0 <= sector -> 0 <= offset -> 0 <= count ->
    sector + offset / 512 + count / 512 + 1 < 268435456 ->
    offset mod 512 = 0 \/ (count <= 65024 /\ offset mod 512 + count <= sector_count 512 count * 512) ->
    exists d', bread sector offset count d = Ok (ERROR_NONE, bytes_at (bcontent d) (sector * 512 + offset) (Z.to_nat count)) d' /\
      bworking d' /\ bcontent d' = bcontent d;
  bwrite_law : forall d sector bs, bworking d -> Forall is_u8 bs -> 0 <= sector -> (0 < length bs)%nat -> (length bs mod 512 = 0)%nat ->
    sector + Z.of_nat (length bs) / 512 + 1 < 268435456 ->
    exists d', bwrite sector 0 bs d = Ok ERROR_NONE d' /\ bworking d' /\ bcontent d' = store_bytes (bcontent d) (sector * 512) bs }.

(** A hard disk behind the driver, with the buffers at fixed addresses. *)
Section AtaBlock.
Context {D : Type} `{Ata D} (bus cached_f cached_l : Z) (started : bool).

Definition ata_bread (sector offset count : Z) : M drv (Z * list Z) :=
  err <- block_read_flexible bus (S (Z.to_nat (count / 65024))) ATA_DEVICE 0 started sector offset 0 count ;;
  s <- get ;;
  ret (err, bytes_at (dmem s) 0 (Z.to_nat count)).
Definition ata_bwrite (sector offset : Z) (bs : list Z) : M drv Z :=
  put_data 0 bs ;;;
  block_write_flexible bus cached_f cached_l (S (length bs)) ATA_DEVICE 0 started sector offset 0 (Z.of_nat (length bs)).

Program Definition ata_block_device : BlockDevice (@drv D) := {|
  bread := ata_bread; bwrite := ata_bwrite; bcontent s := content (hw s); bworking s := working (hw s) |}.
Next Obligation.
  intros s sector offset count Hw Hs Ho Hc Hb Hoc. unfold ata_bread.
  destruct (block_read_ok bus (S (Z.to_nat (count / 65024))) 0 started s sector offset 0 count Hw eq_refl Hs Ho Hc Hb Hoc ltac:(lia)) as [p Hrun].
  rewrite (bind_ok _ _ _ _ _ Hrun). exists (mk_drv (store_bytes (dmem s) 0 (bytes_at (content (hw s)) (sector * 512 + offset) (Z.to_nat count))) (hw s) p). split; [|done]. unfold get, bind, ret. cbn [dmem hw]. do 2 f_equal.
  set (bs := bytes_at (content (hw s)) _ _).
  assert (length bs = Z.to_nat count) as Hl by apply length_bytes_at. rewrite <- Hl. apply store_bytes_same, bytes_at_u8.
Qed.
Next Obligation.
  intros s sector bs Hw H8 Hs Hc Hm Hb. unfold ata_bwrite, put_data. rewrite (bind_ok (modify _) _ _ tt _ eq_refl).
  set (s1 := mk_drv _ _ _).
  destruct (block_write_ok bus cached_f cached_l (S (length bs)) 0 started s1 sector 0 (Z.of_nat (length bs)) Hw eq_refl Hs) as (d' & p & Hrun & Hw' & Hc');
    [lia|change 512 with (Z.of_nat 512); by rewrite <- Nat2Z.inj_mod, Hm|done| |].
  { assert (Z.of_nat (length bs) / 65024 <= Z.of_nat (length bs)) by (apply Z.div_le_upper_bound; lia). lia. }
  eexists. split; [exact Hrun|]. split; [done|]. cbn [hw]. rewrite Hc'. subst s1. cbn [hw dmem].
  by rewrite Nat2Z.id, store_bytes_same.
Qed.
End AtaBlock.

(** A disk in memory. *)
#[export, program] Instance ram_disk : BlockDevice mem := {
  bread sector offset count := fun d => Ok (ERROR_NONE, bytes_at d (sector * 512 + offset) (Z.to_nat count)) d;
  bwrite sector offset bs := fun d => Ok ERROR_NONE (store_bytes d (sector * 512 + offset) bs);
  bcontent d := d;
  bworking _ := True }.
Next Obligation. intros. by eexists. Qed.
Next Obligation. intros d sector bs _ _ _ _ _ _. exists (store_bytes d (sector * 512 + 0) bs). split; [reflexivity|]. split; [done|]. f_equal. lia. Qed.

(** A device on which writes of any length at any offset change exactly their
    bytes.  The inodes and descriptors of ext2 are written that way; the ATA
    driver does not do this ([partial_write_clobbers_tail]). *)
Class ExactDevice (D : Type) `{BlockDevice D} : Prop :=
  bwrite_exact d sector offset bs : bworking d -> Forall is_u8 bs -> 0 <= sector -> 0 <= offset ->
    sector + (offset + Z.of_nat (length bs)) / 512 + 1 < 268435456 ->
    exists d', bwrite sector offset bs d = Ok ERROR_NONE d' /\ bworking d' /\
      bcontent d' = store_bytes (bcontent d) (sector * 512 + offset) bs.
#[export] Instance ram_disk_exact : ExactDevice mem.
Proof. intros d sector offset bs _ _ _ _ _. by exists (store_bytes d (sector * 512 + offset) bs). Qed.

(** C25: what is written through the driver is read back.  On a working disk, a
    write of whole sectors succeeds and changes the medium in exactly that
    range, whatever the number of commands it takes, and a read of any part of
    the range that starts at a sector, through programmed I/O or DMA, stores
    those bytes at [data] and nothing else. *)
Theorem block_write_read {D} `{Ata D} bus cf cl (wst rst : bool) (s : @drv D) sector src count rsector data rcount :
  working (hw s) -> 0 <= sector -> 0 < count -> count mod 512 = 0 -> sector + count / 512 + 1 < 268435456 ->
  sector <= rsector -> 0 <= rcount -> rsector * 512 + rcount <= sector * 512 + count ->
  exists s' s'', block_write_flexible bus cf cl (S (Z.to_nat count)) ATA_DEVICE 0 wst sector 0 src count s = Ok ERROR_NONE s' /\
    (forall x, ~ (sector * 512 <= x < sector * 512 + count) -> content (hw s') x = content (hw s) x) /\ dmem s' = dmem s /\
    block_read_flexible bus (S (Z.to_nat rcount)) ATA_DEVICE 0 rst rsector 0 data rcount s' = Ok ERROR_NONE s'' /\
    bytes_at (dmem s'') data (Z.to_nat rcount) = bytes_at (dmem s) (src + (rsector - sector) * 512) (Z.to_nat rcount) /\
    same_outside (dmem s) (dmem s'') data (data + rcount).
Proof.
  intros Hw Hs Hc Hm Hb Hrs Hrc Hin.
  destruct (block_write_ok bus cf cl (S (Z.to_nat count)) 0 wst s sector src count Hw eq_refl Hs Hc Hm Hb) as (d' & p & Hrun & Hw' & Hc').
  { assert (count / 65024 <= count) by (apply Z.div_le_upper_bound; lia). lia. }
  destruct (block_read_ok bus (S (Z.to_nat rcount)) 0 rst (mk_drv (dmem s) d' p) rsector 0 data rcount Hw' eq_refl) as [p' Hrun'];
    [lia|lia|lia| |by left| |].
  { change (0 / 512) with 0. assert (rcount / 512 + (rsector - sector) <= count / 512) by dlia. lia. }
  { assert (rcount / 65024 <= rcount) by (apply Z.div_le_upper_bound; lia). lia. }
  eexists _, _. split; [exact Hrun|]. split.
  { intros x Hx. cbn [hw]. rewrite Hc'. apply store_bytes_outside. rewrite length_bytes_at. lia. }
  split; [done|]. split; [exact Hrun'|]. cbn [dmem hw]. set (bs := bytes_at (content d') _ _).
  assert (length bs = Z.to_nat rcount) as Hl by apply length_bytes_at. split.
  - rewrite <- Hl at 1. rewrite store_bytes_same by apply bytes_at_u8. subst bs. rewrite Z.add_0_r. rewrite Hc'.
    set (all := bytes_at (dmem s) src (Z.to_nat count)).
    pose proof (store_bytes_same (content (hw s)) (sector * 512) all (bytes_at_u8 _ _ _)) as Hsame.
    unfold all in Hsame at 2. rewrite length_bytes_at in Hsame.
    replace (Z.to_nat count) with (Z.to_nat ((rsector - sector) * 512) + (Z.to_nat rcount + Z.to_nat (count - (rsector - sector) * 512 - rcount)))%nat in Hsame by lia.
    assert (all = bytes_at (dmem s) src (Z.to_nat ((rsector - sector) * 512) + (Z.to_nat rcount + Z.to_nat (count - (rsector - sector) * 512 - rcount)))) as Ha
      by (subst all; f_equal; lia).
    rewrite Ha in Hsame at 2. rewrite !bytes_at_app in Hsame. apply app_inj_1 in Hsame as [_ Hsame]; [|by rewrite !length_bytes_at].
    apply app_inj_1 in Hsame as [Hsame _]; [|by rewrite !length_bytes_at]. rewrite !Z2Nat.id in Hsame by lia.
    rewrite <- Hsame. f_equal. lia.
  - intros x Hx. apply store_bytes_outside. lia.
Qed.

(** ** Concrete runs *)

(** A drive in memory whose reads fail as long as [failures] is positive. *)
Record ram_ata : Type := mk_ram_ata { medium : mem; failures : nat }.
Definition ram_read (sector scount : Z) (d : ram_ata) : (Z * list Z) * ram_ata :=
  match failures d with
  | O => ((ERROR_NONE, bytes_at (medium d) (sector * 512) (Z.to_nat (scount * 512))), d)
  | S n => ((ERROR_DISK_BUSY, []), mk_ram_ata (medium d) n)
  end.
Definition ram_write (sector : Z) (bs : list Z) (d : ram_ata) : Z * ram_ata :=
  (ERROR_NONE, mk_ram_ata (store_bytes (medium d) (sector * 512) bs) (failures d)).
#[export, program] Instance ram_ata_drive : Ata ram_ata := {
  hw_read := ram_read; hw_write := ram_write; content := medium; working d := failures d = O }.
Next Obligation. intros d sector scount Hw _ _. cbn in *. unfold ram_read. by rewrite Hw. Qed.
Next Obligation. intros d sector bs Hw _ _. by eexists. Qed.

Definition demo_drv (m d : mem) (n : nat) : @drv ram_ata := mk_drv m (mk_ram_ata d n) (fun _ => 0).
Definition numbered : mem := fun x => x / 256.

Lemma block_write_read_witness : exists s' s'',
  block_write_flexible 255 0 0 1025 ATA_DEVICE 0 true 7 0 5000 1024 (demo_drv numbered (fun _ => 0) 0) = Ok ERROR_NONE s' /\
  block_read_flexible 255 3 ATA_DEVICE 0 false 8 0 20000 2 s' = Ok ERROR_NONE s'' /\
  bytes_at (dmem s'') 20000 2 = bytes_at numbered 5512 2.
Proof.
  destruct (block_write_read 255 0 0 true false (demo_drv numbered (fun _ => 0) 0) 7 5000 1024 8 20000 2)
    as (s' & s'' & Hw & _ & _ & Hr & Hb & _); [reflexivity|lia|lia|reflexivity|vm_compute; reflexivity|lia|lia|lia|].
  exists s', s''. split; [exact Hw|]. split; [exact Hr|exact Hb].
Defined.

(** What a call returned and a byte of memory after it. *)
Definition read_result (r : res (@drv ram_ata) Z) (a : Z) : option (Z * Z) :=
  match r with Ok err s => Some (err, load8 (dmem s) a) | _ => None end.

(** A read across a sector boundary asks for too few sectors: the second byte
    is what an idle data port gives. *)
Lemma boundary_read_wrong :
  read_result (block_read_flexible 255 2 ATA_DEVICE 0 false 0 511 0 2 (demo_drv (fun _ => 0) numbered 0)) 1 = Some (ERROR_NONE, 255) /\
  load8 numbered 512 = 2.
Proof. split; vm_compute; reflexivity. Qed.

(** When the last command of a read fails once, it is repeated with the
    greatest length of a command: bytes are stored behind the buffer of 3. *)
Lemma retry_overruns_buffer : exists s',
  block_read_flexible 255 2 ATA_DEVICE 0 false 0 0 0 3 (demo_drv (fun _ => 0) (fun _ => 7) 1) = Ok ERROR_NONE s' /\ load8 (dmem s') 100 = 7.
Proof.
  destruct (pio_reads_well 255 0 (demo_drv (fun _ => 0) (fun _ => 7) 0) 0 0 0 130560) as [p Hp];
    [reflexivity|lia|lia|lia|left; vm_compute; discriminate|].
  eexists. split.
  - unfold block_read_flexible, ata_read_flexible. change (ATA_DEVICE =? ATA_DEVICE) with true.
    change (Z.land 0 ATA_FLAG_ATAPI =? 0) with true. cbn [negb orb]. cbv zeta. change (0 + 0 / BYTES_PER_SECTOR) with 0. change (0 mod BYTES_PER_SECTOR) with 0. cbn [read_chunks]. change (3 <=? 255 * BYTES_PER_SECTOR) with true. cbv iota. unfold with_retries.
    assert (ata_pio_read_flexible 255 0 0 0 0 3 (demo_drv (fun _ => 0) (fun _ => 7) 1) =
      Ok ERROR_DISK_BUSY (demo_drv (fun _ => 0) (fun _ => 7) 0)) as Hf by reflexivity.
    rewrite (bind_ok _ _ _ _ _ Hf). cbn [ERROR_DISK_BUSY ERROR_NONE Z.eqb]. rewrite (bind_ok _ _ _ _ _ Hp). reflexivity.
  - cbn [dmem demo_drv]. set (bs := bytes_at _ _ _). assert (length bs = Z.to_nat 130560) as Hl by apply length_bytes_at.
    assert (bs !! 100%nat = Some 7) as Hb by (subst bs; rewrite bytes_at_lookup by lia; done).
    assert (Forall is_u8 bs) as H8 by apply bytes_at_u8. clearbody bs.
    pose proof (store_bytes_same (fun _ => 0) 0 bs H8) as Hs. apply (f_equal (lookup 100%nat)) in Hs.
    rewrite bytes_at_lookup, Hb in Hs by (rewrite Hl; lia). by apply (inj Some) in Hs.
Qed.

(** The end of a write over a sector boundary is filled up from the wrong
    sector: byte 600 of the medium was 2 and is lost. *)
Lemma partial_write_clobbers_tail :
  match block_write_flexible 255 4000 4600 2 ATA_DEVICE 0 true 0 0 8000 520 (demo_drv (fun _ => 9) numbered 0) with
  | Ok err s => Some (err, load8 (medium (hw s)) 600)
  | _ => None
  end = Some (ERROR_NONE, 0) /\ load8 numbered 600 = 2.
Proof. split; vm_compute; reflexivity. Qed.
