(* ===== verification/Fat.v ===== *)
(** FAT32: the allocation table and the contents of files
    (filesystem/fat32.c).

    The volume is a block device used through [BlockDevice]; the table is
    cached in memory as an array of 32-bit entries.  An access outside the
    array is a [Fault].  Buffers are lists of bytes, lists of clusters are
    lists of cluster numbers; following the last node of such a list leads to
    a freed node, a [Fault] as well. *)

From S2P Require Import Prelude Errors Mem Storage.

Record bpb_t : Type := mk_bpb {
  bytes_per_sector : Z; sectors_per_cluster : Z; reserved_sectors : Z; fats_number : Z;
  fat_size : Z; root_directory_cluster : Z }.
Record fatfs (D : Type) : Type := mk_fatfs { fdrive : D; bpb : bpb_t; bpb_offset : Z; fat_table : list Z }.
Arguments mk_fatfs {D}. Arguments fdrive {D}. Arguments bpb {D}. Arguments bpb_offset {D}. Arguments fat_table {D}.

Definition CLUSTER_MASK : Z := 268435455.
Definition CLUSTER_END : Z := 268435448.

(** The bytes of the table. *)
Definition fat_bytes (t : list Z) : list Z := t ≫= le32.

Section Fat.
Context {D : Type} `{BlockDevice D}.

Definition on_drive {A} (op : M D A) : M (fatfs D) A :=
  fun s => match op (fdrive s) with
           | Ok a d => Ok a (mk_fatfs d (bpb s) (bpb_offset s) (fat_table s))
           | Fatal e => Fatal e | Fault => Fault | NoFuel => NoFuel
           end.
Definition fat_get (c : Z) : M (fatfs D) Z :=
  fun s => if Z.of_nat (length (fat_table s)) <=? c then Fault else
           match fat_table s !! Z.to_nat c with Some v => Ok v s | None => Fault end.
Definition fat_set (c v : Z) : M (fatfs D) unit :=
  fun s => if Z.of_nat (length (fat_table s)) <=? c then Fault else
           Ok tt (mk_fatfs (fdrive s) (bpb s) (bpb_offset s) (<[Z.to_nat c := v]> (fat_table s))).

(** [sectors_per_cluster * 512]. *)
Definition cluster_bytes (s : fatfs D) : Z := sectors_per_cluster (bpb s) * 512.

(** The sum is a [u32]; only the subtraction is wider. *)
Definition fat32fs_cluster_to_lba (s : fatfs D) (cluster : Z) : Z :=
  u64 (u32 (bpb_offset s + reserved_sectors (bpb s) + fats_number (bpb s) * fat_size (bpb s) +
            cluster * sectors_per_cluster (bpb s)) - 2 * sectors_per_cluster (bpb s)).

Fixpoint fat32fs_get_cluster_chain (fuel : nat) (cluster : Z) : M (fatfs D) (list Z) :=
  match fuel with
  | O => nofuel
  | S n =>
    v <- fat_get cluster ;;
    let cchain := Z.land v CLUSTER_MASK in
    if (cchain =? 0) || (CLUSTER_END <=? cchain) then ret [cluster]
    else r <- fat32fs_get_cluster_chain n cchain ;; ret (cluster :: r)
  end.

Definition fat32fs_write_fat : M (fatfs D) Z :=
  s <- get ;;
  on_drive (bwrite (u32 (bpb_offset s + reserved_sectors (bpb s))) 0
    (take (Z.to_nat (u32 (fat_size (bpb s) * bytes_per_sector (bpb s)))) (fat_bytes (fat_table s)))).

(** The table from the bytes read, three attempts. *)
Fixpoint read_attempts (n : nat) (sector count : Z) : M D (Z * list Z) :=
  r <- bread sector 0 count ;;
  match n with
  | O => ret r
  | S k => if r.1 =? ERROR_NONE then ret r else read_attempts k sector count
  end.
Definition fat32fs_read_fat : M (fatfs D) Z :=
  s <- get ;;
  let size := u32 (fat_size (bpb s) * bytes_per_sector (bpb s)) in
  r <- on_drive (read_attempts 2 (u32 (bpb_offset s + reserved_sectors (bpb s))) size) ;;
  if negb (r.1 =? ERROR_NONE) then ret r.1 else
  modify (fun s => mk_fatfs (fdrive s) (bpb s) (bpb_offset s) (words_of (Z.to_nat (size / 4)) r.2)) ;;;
  ret ERROR_NONE.

(** Frees the chain; the entry of the end mark itself is written at last. *)
Fixpoint free_chain_loop (fuel : nat) (cluster : Z) : M (fatfs D) Z :=
  match fuel with
  | O => nofuel
  | S n =>
    v <- fat_get cluster ;;
    let cchain := Z.land v CLUSTER_MASK in
    fat_set cluster 0 ;;;
    if (cchain =? 0) || (CLUSTER_END <=? cchain) then ret cchain else free_chain_loop n cchain
  end.
Definition fat32fs_free_cluster_chain (fuel : nat) (fcluster : Z) : M (fatfs D) unit :=
  c <- free_chain_loop fuel fcluster ;;
  fat_set c 0 ;;;
  fat32fs_write_fat ;;;
  ret tt.

(** The next free entry from [active] on. *)
Fixpoint next_free (fuel : nat) (active : Z) : M (fatfs D) Z :=
  match fuel with
  | O => nofuel
  | S n => v <- fat_get active ;; if Z.land v CLUSTER_MASK =? 0 then ret active else next_free n (active + 1)
  end.
Fixpoint gm_loop (fuel nbr : nat) (active last_free : Z) : M (fatfs D) Z :=
  match nbr with
  | O => ret last_free
  | S k =>
    a <- next_free fuel active ;;
    fat_set a (if last_free =? 0 then CLUSTER_MASK else last_free) ;;;
    gm_loop fuel k (a + 1) a
  end.
Definition fat32fs_gm_free_clusters (fuel : nat) (nbr : Z) : M (fatfs D) Z := gm_loop fuel (Z.to_nat nbr) 0 0.

(** ** Reading a file *)

(** [while(offset >= cluster) {clusbuffer = clusbuffer->next; ...}]. *)
Fixpoint skip_clusters (cs : list Z) (size offset : Z) : M (fatfs D) (list Z * Z) :=
  if offset <? size then ret (cs, offset) else
  match cs with
  | [] => fault
  | _ :: r => skip_clusters r size (offset - size)
  end.

Fixpoint read_loop (n : nat) (cs : list Z) (size offset count : Z) (buffer : list Z) : M (fatfs D) (Z * list Z) :=
  match n with
  | O => ret (ERROR_NONE, buffer)
  | S k =>
    if count <=? 0 then ret (ERROR_NONE, buffer) else
    match cs with
    | [] => fault
    | c :: r =>
      s <- get ;;
      let pos := fat32fs_cluster_to_lba s c in
      if size <=? count then
        x <- on_drive (bread pos (u32 offset) size) ;;
        if negb (x.1 =? ERROR_NONE) then ret (x.1, buffer) else
        read_loop k r size 0 (u32 (count - size)) (buffer ++ x.2)
      else
        x <- on_drive (bread pos (u32 offset) count) ;;
        if negb (x.1 =? ERROR_NONE) then ret (x.1, buffer) else ret (ERROR_NONE, buffer ++ x.2)
    end
  end.

(** [fspe->cluster] is [cluster], [fd->offset] is [offset]. *)
Definition fat32_read_file (fuel : nat) (cluster offset count : Z) : M (fatfs D) (Z * list Z) :=
  s <- get ;;
  let size := cluster_bytes s in
  if u64 (count + offset) <? size then on_drive (bread (fat32fs_cluster_to_lba s cluster) (u32 offset) count) else
  cs <- fat32fs_get_cluster_chain fuel cluster ;;
  co <- skip_clusters cs size offset ;;
  read_loop (length cs) co.1 size co.2 count [].

(** ** Writing a file *)

(** [while(x > size) {x -= size; n++;}]: the rest and the number of rounds. *)
Definition over (x size : Z) : Z * Z :=
  if x <=? size then (x, 0) else let k := (x - 1) / size in (x - k * size, k).

(** The clusters [i .. last]: the data of every cluster comes from the start
    of [buffer]. *)
Fixpoint write_clusters (n : nat) (cs : list Z) (size offset count : Z) (buffer : list Z) : M (fatfs D) unit :=
  match cs with
  | [] => fault
  | c :: r =>
    s <- get ;;
    on_drive (bwrite (fat32fs_cluster_to_lba s c) (u32 offset) (take (Z.to_nat (match n with O => count | _ => size end)) buffer)) ;;;
    match n with O => ret tt | S k => write_clusters k r size 0 count buffer end
  end.

(** Gives the new clusters of the file, if any; the file's length and directory
    entry are updated by the caller. *)
Definition fat32_write_data (fuel : nat) (cluster offset : Z) (buffer : list Z) : M (fatfs D) unit :=
  s <- get ;;
  let size := cluster_bytes s in
  cs <- fat32fs_get_cluster_chain fuel cluster ;;
  let fo := over offset size in
  let lo := over (Z.of_nat (length buffer)) size in
  let fclus := fo.2 in
  let lclus := fclus + lo.2 in
  cs <- (if Z.of_nat (length cs) <? lclus then
           fnc <- fat32fs_gm_free_clusters fuel (if lo.2 =? 0 then 1 else lo.2) ;;
           match last cs with
           | None => fault
           | Some l => fat_set l fnc ;;; fat32fs_write_fat ;;; ret (cs ++ [fnc])
           end
         else ret cs) ;;
  write_clusters (Z.to_nat lo.2) (drop (Z.to_nat fclus) cs) size fo.1 lo.1 buffer.

(** ** Chains of clusters *)

(** [cs] is the chain from its first cluster on. *)
Fixpoint fat_chain (t : list Z) (cs : list Z) : Prop :=
  match cs with
  | [] => False
  | [c] => 0 <= c /\ exists v, t !! Z.to_nat c = Some v /\ CLUSTER_END <= Z.land v CLUSTER_MASK
  | c :: (c' :: _) as r => 0 <= c /\ (exists v, t !! Z.to_nat c = Some v /\ Z.land v CLUSTER_MASK = c') /\
      0 < c' < CLUSTER_END /\ fat_chain t r
  end.

Lemma fat_get_ok s c v : 0 <= c -> fat_table s !! Z.to_nat c = Some v -> fat_get c s = Ok v s.
Proof.
  intros Hc Hv. unfold fat_get. pose proof (lookup_lt_Some _ _ _ Hv). dec_false (Z.of_nat (length (fat_table s)) <=? c). by rewrite Hv.
Qed.
Lemma fat_set_ok s c v w : 0 <= c -> fat_table s !! Z.to_nat c = Some w ->
  fat_set c v s = Ok tt (mk_fatfs (fdrive s) (bpb s) (bpb_offset s) (<[Z.to_nat c := v]> (fat_table s))).
Proof.
  intros Hc Hv. unfold fat_set. pose proof (lookup_lt_Some _ _ _ Hv). by dec_false (Z.of_nat (length (fat_table s)) <=? c).
Qed.

Lemma get_chain_ok fuel s c cs : fat_chain (fat_table s) (c :: cs) -> (length cs < fuel)%nat ->
  fat32fs_get_cluster_chain fuel c s = Ok (c :: cs) s.
Proof.
  revert c cs. induction fuel as [|n IH]; intros c cs Hc Hf; [lia|]. cbn [fat32fs_get_cluster_chain].
  destruct cs as [|c' r]; cbn [fat_chain] in Hc.
  - destruct Hc as (Hc0 & v & Hv & He). rewrite (bind_ok _ _ _ _ _ (fat_get_ok s c v Hc0 Hv)). cbv zeta.
    dec_true (CLUSTER_END <=? Z.land v CLUSTER_MASK). by rewrite orb_true_r.
  - destruct Hc as (Hc0 & (v & Hv & He) & Hc' & Hr). rewrite (bind_ok _ _ _ _ _ (fat_get_ok s c v Hc0 Hv)). cbv zeta. rewrite He.
    dec_false (c' =? 0). dec_false (CLUSTER_END <=? c'). cbn [orb].
    rewrite (bind_ok _ _ _ _ _ (IH c' r Hr ltac:(cbn in Hf; lia))). done.
Qed.

(** The contents of a cluster and of a chain of clusters on the medium. *)
Definition cluster_content (s : fatfs D) (c : Z) : list Z :=
  bytes_at (bcontent (fdrive s)) (fat32fs_cluster_to_lba s c * 512) (Z.to_nat (cluster_bytes s)).
Definition file_content (s : fatfs D) (cs : list Z) : list Z := concat (map (cluster_content s) cs).
Definition on_volume (s : fatfs D) (c : Z) : Prop :=
  fat32fs_cluster_to_lba s c + sectors_per_cluster (bpb s) + 1 < 268435456.

(** The same volume, seen after reading from it. *)
Definition same_volume (s s' : fatfs D) : Prop :=
  bpb s' = bpb s /\ bpb_offset s' = bpb_offset s /\ fat_table s' = fat_table s /\ bworking (fdrive s') /\
  bcontent (fdrive s') = bcontent (fdrive s).

Lemma lba_nonneg s c : 0 <= fat32fs_cluster_to_lba s c.
Proof. unfold fat32fs_cluster_to_lba, u64. apply Z.mod_pos_bound. lia. Qed.
Lemma same_volume_trans s1 s2 s3 : same_volume s1 s2 -> same_volume s2 s3 -> same_volume s1 s3.
Proof. unfold same_volume. intros (?&?&?&?&?) (?&?&?&?&?). repeat split; congruence || done. Qed.
Lemma same_volume_lba s s' c : same_volume s s' -> fat32fs_cluster_to_lba s' c = fat32fs_cluster_to_lba s c.
Proof. intros (Hb & Ho & _). unfold fat32fs_cluster_to_lba. by rewrite Hb, Ho. Qed.
Lemma same_volume_content s s' cs : same_volume s s' -> file_content s' cs = file_content s cs.
Proof.
  intros Hs. unfold file_content. induction cs as [|c r IH]; [done|]. cbn. rewrite IH. f_equal.
  unfold cluster_content, cluster_bytes. rewrite (same_volume_lba _ _ _ Hs). destruct Hs as (Hb & _ & _ & _ & Hc). by rewrite Hb, Hc.
Qed.
Lemma file_content_length s cs : 0 <= cluster_bytes s -> Z.of_nat (length (file_content s cs)) = Z.of_nat (length cs) * cluster_bytes s.
Proof.
  intros Hp. unfold file_content. induction cs as [|c r IH]; [done|]. cbn [map concat length]. rewrite length_app.
  unfold cluster_content at 1. rewrite length_bytes_at. lia.
Qed.

Lemma file_content_drop s cs k : 0 <= cluster_bytes s ->
  file_content s (drop k cs) = drop (Z.to_nat (Z.of_nat k * cluster_bytes s)) (file_content s cs).
Proof.
  intros Hp. revert cs. induction k as [|k IH]; intros cs; [by rewrite Z.mul_0_l|].
  destruct cs as [|c r]; [unfold file_content; cbn [drop map concat]; by rewrite drop_nil|]. cbn [drop]. rewrite IH. unfold file_content. cbn [map concat].
  assert (length (cluster_content s c) = Z.to_nat (cluster_bytes s)) as Hl by apply length_bytes_at.
  rewrite (drop_app_ge (cluster_content s c)) by lia. f_equal. lia.
Qed.

(** Reading from a cluster. *)
Lemma read_cluster s c offset count : bworking (fdrive s) -> on_volume s c -> 0 < sectors_per_cluster (bpb s) <= 128 ->
  0 <= offset -> 0 <= count -> offset + count <= cluster_bytes s ->
  offset mod 512 = 0 \/ (count <= 65024 /\ offset mod 512 + count <= sector_count 512 count * 512) ->
  exists s', on_drive (bread (fat32fs_cluster_to_lba s c) offset count) s =
      Ok (ERROR_NONE, take (Z.to_nat count) (drop (Z.to_nat offset) (cluster_content s c))) s' /\ same_volume s s'.
Proof.
  intros Hw Hv Hsp Ho Hc Hin Hoc. unfold on_volume, cluster_bytes in *. pose proof (lba_nonneg s c).
  destruct (bread_law (fdrive s) (fat32fs_cluster_to_lba s c) offset count Hw) as (d' & Hrun & Hw' & Hc'); [lia|lia|lia| |done|].
  { assert (offset / 512 + count / 512 <= sectors_per_cluster (bpb s)) by dlia. lia. }
  exists (mk_fatfs d' (bpb s) (bpb_offset s) (fat_table s)). split; [unfold on_drive; rewrite Hrun|by repeat split]. do 2 f_equal.
  unfold cluster_content, cluster_bytes.
  replace (Z.to_nat (sectors_per_cluster (bpb s) * 512)) with (Z.to_nat offset + (Z.to_nat count + Z.to_nat (sectors_per_cluster (bpb s) * 512 - offset - count)))%nat by lia.
  rewrite !bytes_at_app, drop_app_length' by (by rewrite length_bytes_at). rewrite take_app_length' by (by rewrite length_bytes_at).
  by rewrite Z2Nat.id.
Qed.

Lemma skip_clusters_ok s cs size k rest : 0 < size -> 0 <= rest < size -> (k <= length cs)%nat ->
  skip_clusters cs size (Z.of_nat k * size + rest) s = Ok (drop k cs, rest) s.
Proof.
  intros Hp Hr. revert k. induction cs as [|c r IH]; intros k Hk; cbn [skip_clusters].
  - destruct k as [|k]; [|cbn in Hk; lia]. cbn [Z.of_nat]. rewrite Z.mul_0_l, Z.add_0_l. dec_true (rest <? size). done.
  - destruct k as [|k]; [cbn [Z.of_nat]; rewrite Z.mul_0_l, Z.add_0_l; by dec_true (rest <? size)|].
    assert (Z.of_nat (S k) * size = Z.of_nat k * size + size) as He by lia. rewrite He.
    dec_false (Z.of_nat k * size + size + rest <? size).
    replace (Z.of_nat k * size + size + rest - size) with (Z.of_nat k * size + rest) by lia. apply IH. cbn in Hk. lia.
Qed.

Lemma read_loop_ok n s cs count buffer : bworking (fdrive s) -> 0 < sectors_per_cluster (bpb s) <= 128 ->
  Forall (on_volume s) cs -> 0 <= count < 4294967296 -> count <= Z.of_nat (length cs) * cluster_bytes s -> (length cs <= n)%nat ->
  exists s', read_loop n cs (cluster_bytes s) 0 count buffer s =
    Ok (ERROR_NONE, buffer ++ take (Z.to_nat count) (file_content s cs)) s' /\ same_volume s s'.
Proof.
  assert (forall s, bworking (fdrive s) -> same_volume s s) as Hrefl by (intros; repeat split; done).
  revert s cs count buffer. induction n as [|n IH]; intros s cs count buffer Hw Hsp Hv Hc Hl Hn.
  - destruct cs; [|cbn in Hn; lia]. cbn in Hl. assert (count = 0) as -> by lia. exists s. cbn. rewrite app_nil_r. auto.
  - cbn [read_loop]. destruct (Z.leb_spec count 0) as [Hz|Hpos].
    { assert (count = 0) as -> by lia. exists s. cbn. rewrite app_nil_r. auto. }
    destruct cs as [|c r]; [cbn in Hl; lia|]. apply Forall_cons in Hv as [Hvc Hvr].
    rewrite (bind_ok get _ s s s eq_refl). cbv zeta. change (u32 0) with 0.
    assert (cluster_bytes s = sectors_per_cluster (bpb s) * 512) as Hcb by done.
    destruct (Z.leb_spec (cluster_bytes s) count) as [Hge|Hlt].
    + destruct (read_cluster s c 0 (cluster_bytes s) Hw Hvc Hsp) as (s1 & Hrun & Hs1); [lia|lia|lia|by left|].
      rewrite (bind_ok _ _ _ _ _ Hrun). cbn [fst snd ERROR_NONE Z.eqb negb]. rewrite u32_id by lia.
      assert (cluster_bytes s1 = cluster_bytes s) as Hcb1 by (unfold cluster_bytes; by destruct Hs1 as (-> & _)).
      destruct (IH s1 r (count - cluster_bytes s) (buffer ++ take (Z.to_nat (cluster_bytes s)) (drop (Z.to_nat 0) (cluster_content s c))))
        as (s2 & Hrun2 & Hs2).
      * apply Hs1.
      * by destruct Hs1 as (-> & _).
      * eapply Forall_impl; [exact Hvr|]. intros x. unfold on_volume. rewrite (same_volume_lba _ _ _ Hs1). by destruct Hs1 as (-> & _).
      * lia.
      * rewrite Hcb1. cbn [length] in Hl. lia.
      * cbn in Hn. lia.
      * exists s2. split; [|by eapply same_volume_trans]. rewrite Hcb1 in Hrun2. rewrite Hrun2. do 2 f_equal.
        rewrite (same_volume_content _ _ _ Hs1), <- app_assoc. f_equal. rewrite drop_0. unfold file_content. cbn [map concat].
        rewrite take_app. rewrite (take_ge (cluster_content s c)) by (unfold cluster_content; rewrite length_bytes_at; lia).
        rewrite (take_ge (cluster_content s c)) by (unfold cluster_content; rewrite length_bytes_at; lia).
        f_equal. f_equal. unfold cluster_content. rewrite length_bytes_at. lia.
    + destruct (read_cluster s c 0 count Hw Hvc Hsp) as (s1 & Hrun & Hs1); [lia|lia|lia|by left|].
      rewrite (bind_ok _ _ _ _ _ Hrun). cbn [fst snd ERROR_NONE Z.eqb negb]. exists s1. split; [|done]. do 3 f_equal.
      rewrite drop_0. unfold file_content. cbn [map concat]. rewrite take_app_le; [done|].
      unfold cluster_content. rewrite length_bytes_at. lia.
Qed.

(** C32: reading a file gives its contents.  For a file whose clusters form the
    chain [c :: cs], a read that starts at a cluster boundary, or that lies
    inside the first cluster and that one command can do, returns exactly the
    bytes [offset .. offset + count) of the contents of the chain and changes
    nothing. *)
Theorem fat32_read_file_correct fuel s c cs offset count : bworking (fdrive s) -> fat_chain (fat_table s) (c :: cs) ->
  (length cs < fuel)%nat -> 0 < sectors_per_cluster (bpb s) <= 128 -> Forall (on_volume s) (c :: cs) ->
  0 <= offset -> 0 < count -> offset + count < 4294967296 -> offset + count <= Z.of_nat (length (c :: cs)) * cluster_bytes s ->
  offset mod cluster_bytes s = 0 \/
    (offset + count < cluster_bytes s /\ count <= 65024 /\ offset mod 512 + count <= sector_count 512 count * 512) ->
  exists s', fat32_read_file fuel c offset count s =
    Ok (ERROR_NONE, take (Z.to_nat count) (drop (Z.to_nat offset) (file_content s (c :: cs)))) s' /\ same_volume s s'.
Proof.
  intros Hw Hch Hf Hsp Hv Ho Hc Hb Hin Hal. unfold fat32_read_file. rewrite (bind_ok get _ s s s eq_refl). cbv zeta.
  assert (cluster_bytes s = sectors_per_cluster (bpb s) * 512) as Hcb by done.
  rewrite u64_id by lia. pose proof Hv as Hv'. apply Forall_cons in Hv' as [Hvc _].
  assert (length (cluster_content s c) = Z.to_nat (cluster_bytes s)) as Hlc by apply length_bytes_at.
  destruct (Z.ltb_spec (count + offset) (cluster_bytes s)) as [Hlt|Hge].
  - rewrite (u32_id offset) by lia. destruct (read_cluster s c offset count Hw Hvc Hsp) as (s' & Hrun & Hs'); [lia|lia|lia| |].
    { destruct Hal as [Hm|?]; [left|right; lia]. rewrite Z.mod_small in Hm by lia. by rewrite Hm. }
    exists s'. split; [|done]. rewrite Hrun. do 2 f_equal. unfold file_content. cbn [map concat].
    rewrite drop_app_le by lia. rewrite take_app_le; [done|]. rewrite length_drop. lia.
  - destruct Hal as [Hal|?]; [|lia]. rewrite (bind_ok _ _ _ _ _ (get_chain_ok fuel s c cs Hch Hf)).
    set (k := Z.to_nat (offset / cluster_bytes s)).
    assert (offset = Z.of_nat k * cluster_bytes s) as Hok.
    { subst k. rewrite Z2Nat.id by (apply Z.div_pos; lia). pose proof (Z.div_mod offset (cluster_bytes s) ltac:(lia)). lia. }
    assert (k <= length (c :: cs))%nat as Hkl by nia.
    pose proof (skip_clusters_ok s (c :: cs) (cluster_bytes s) k 0 ltac:(lia) ltac:(lia) Hkl) as Hskip.
    rewrite Z.add_0_r, <- Hok in Hskip. rewrite (bind_ok _ _ _ _ _ Hskip). cbn [fst snd].
    destruct (read_loop_ok (length (c :: cs)) s (drop k (c :: cs)) count [] Hw Hsp) as (s' & Hrun & Hs'); [|lia| |rewrite length_drop; lia|].
    { by apply Forall_drop. }
    { rewrite length_drop. rewrite Nat2Z.inj_sub by done. lia. }
    exists s'. split; [|done]. rewrite Hrun. do 3 f_equal. rewrite file_content_drop by lia. by rewrite <- Hok.
Qed.

(** ** Allocation of clusters *)

Definition is_free (v : Z) : bool := Z.land v CLUSTER_MASK =? 0.

(** The free entries of a part of the table that starts at [a]. *)
Fixpoint frees (a : nat) (l : list Z) : list nat :=
  match l with
  | [] => []
  | v :: r => if is_free v then a :: frees (S a) r else frees (S a) r
  end.

Lemma frees_length a l : (length (frees a l) <= length l)%nat.
Proof. revert a. induction l as [|v r IH]; intros a; cbn; [lia|]. destruct (is_free v); cbn; specialize (IH (S a)); lia. Qed.

Lemma frees_elem a l i : i ∈ frees a l -> (a <= i)%nat /\ exists v, l !! (i - a)%nat = Some v /\ is_free v = true.
Proof.
  revert a. induction l as [|v r IH]; intros a; cbn [frees]; [by intros ?%not_elem_of_nil|].
  assert (i ∈ frees (S a) r -> (a <= i)%nat /\ exists w, (v :: r) !! (i - a)%nat = Some w /\ is_free w = true) as Hr.
  { intros Hi. destruct (IH (S a) Hi) as (Hle & w & Hw & Hwf). split; [lia|]. exists w.
    replace (i - a)%nat with (S (i - S a)) by lia. done. }
  destruct (is_free v) eqn:Hv; [|exact Hr]. intros [-> |Hi]%elem_of_cons; [|by apply Hr].
  split; [lia|]. exists v. by rewrite Nat.sub_diag.
Qed.
Lemma frees_nodup a l : NoDup (frees a l).
Proof.
  revert a. induction l as [|v r IH]; intros a; cbn [frees]; [constructor|]. destruct (is_free v); [|apply IH].
  constructor; [|apply IH]. intros Hin. destruct (frees_elem (S a) r a Hin). lia.
Qed.

Lemma next_free_ok fuel s a l i r : drop a (fat_table s) = l -> frees a l = i :: r -> (length l < fuel)%nat ->
  next_free fuel (Z.of_nat a) s = Ok (Z.of_nat i) s /\ (a <= i)%nat /\ (exists v, fat_table s !! i = Some v /\ is_free v = true) /\
  frees (S i) (drop (S i) (fat_table s)) = r.
Proof.
  revert a l. induction fuel as [|n IH]; intros a l Hd Hfr Hf; [lia|]. destruct l as [|v l]; [done|]. cbn [next_free frees length] in *.
  assert (fat_table s !! a = Some v) as Hv.
  { replace a with (a + 0)%nat by lia. rewrite <- lookup_drop, Hd. done. }
  assert (drop (S a) (fat_table s) = l) as Hd'.
  { replace (S a) with (a + 1)%nat by lia. by rewrite <- drop_drop, Hd. }
  rewrite (bind_ok _ _ _ _ _ (fat_get_ok s (Z.of_nat a) v ltac:(lia) ltac:(by rewrite Nat2Z.id))).
  unfold is_free in *. destruct (Z.land v CLUSTER_MASK =? 0) eqn:Hz.
  - injection Hfr as <- <-. split; [done|]. split; [lia|]. split; [eauto|by rewrite Hd'].
  - replace (Z.of_nat a + 1) with (Z.of_nat (S a)) by lia. destruct (IH (S a) l Hd' Hfr ltac:(lia)) as (Hrun & Hle & Hrest).
    split; [done|]. split; [lia|done].
Qed.

Lemma fat_chain_ext t t' cs : (forall c, c ∈ cs -> t' !! Z.to_nat c = t !! Z.to_nat c) -> fat_chain t cs -> fat_chain t' cs.
Proof.
  induction cs as [|c r IH]; [done|]. intros Hx. destruct r as [|c' r]; cbn [fat_chain].
  - intros (Hc & v & Hv & He). split; [done|]. exists v. by rewrite Hx by (by left).
  - intros (Hc & (v & Hv & He) & Hr & Hch). split; [done|]. split; [exists v; by rewrite Hx by (by left)|]. split; [done|].
    apply IH; [|done]. intros x Hxx. apply Hx. by right.
Qed.

(** A cluster put in front of a chain. *)
Lemma fat_chain_cons t c cs : fat_chain t cs \/ cs = [] -> (c < length t)%nat -> Z.of_nat (length t) < CLUSTER_END ->
  (Z.of_nat c ∉ cs) -> Forall (fun x => 0 < x < Z.of_nat (length t)) cs ->
  fat_chain (<[c := match cs with [] => CLUSTER_MASK | x :: _ => x end]> t) (Z.of_nat c :: cs).
Proof.
  intros Hch Hc Hl Hin Hr. destruct cs as [|x r].
  - cbn [fat_chain]. split; [lia|]. eexists. split; [rewrite Nat2Z.id; by apply list_lookup_insert_eq|]. vm_compute. discriminate.
  - destruct Hch as [Hch|]; [|done]. apply Forall_cons in Hr as [Hx Hr]. apply not_elem_of_cons in Hin as [Hcx Hin].
    assert (fat_chain (<[c := x]> t) (x :: r)) as Hch'.
    { eapply fat_chain_ext; [|exact Hch]. intros y Hy. apply list_lookup_insert_ne. intros Hcy.
      apply elem_of_cons in Hy as [-> |Hy]; [lia|]. rewrite Forall_forall in Hr. specialize (Hr y Hy). cbn in Hr.
      apply Hin. by replace (Z.of_nat c) with y by lia. }
    cbn [fat_chain]. split; [lia|]. split; [|split; [lia|exact Hch']].
    exists x. split; [rewrite Nat2Z.id; by apply list_lookup_insert_eq|]. change CLUSTER_MASK with (Z.ones 28).
    rewrite Z.land_ones by lia. apply Z.mod_small. unfold CLUSTER_END in Hl. lia.
Qed.

(** The clusters taken are put in front of those of the chain so far. *)
Lemma gm_loop_ok fuel nbr s a cs : (forall v, fat_table s !! 0%nat = Some v -> is_free v = false) ->
  Z.of_nat (length (fat_table s)) < CLUSTER_END -> (length (fat_table s) < fuel)%nat ->
  fat_chain (fat_table s) cs \/ cs = [] -> Forall (fun x => 0 < x < Z.of_nat a) cs -> (a <= length (fat_table s))%nat ->
  (nbr <= length (frees a (drop a (fat_table s))))%nat ->
  exists s' cs', gm_loop fuel nbr (Z.of_nat a) (default 0 (head cs)) s = Ok (default 0 (head cs')) s' /\
    cs' = reverse (map Z.of_nat (take nbr (frees a (drop a (fat_table s))))) ++ cs /\
    (fat_chain (fat_table s') cs' \/ cs' = []) /\ length (fat_table s') = length (fat_table s) /\
    fdrive s' = fdrive s /\ bpb s' = bpb s /\ bpb_offset s' = bpb_offset s /\
    (forall i, i ∉ take nbr (frees a (drop a (fat_table s))) -> fat_table s' !! i = fat_table s !! i).
Proof.
  revert s a cs. induction nbr as [|n IH]; intros s a cs H0' Hl Hf Hch Hcs Ha Hn.
  - exists s, cs. cbn [gm_loop take]. split; [done|]. repeat (split; [done|]). done.
  - cbn [gm_loop]. destruct (frees a (drop a (fat_table s))) as [|i r] eqn:Hfr; [cbn in Hn; lia|].
    destruct (next_free_ok fuel s a _ i r eq_refl Hfr) as (Hrun & Hai & (v & Hv & Hvf) & Hr); [rewrite length_drop; lia|].
    rewrite (bind_ok _ _ _ _ _ Hrun). pose proof (lookup_lt_Some _ _ _ Hv) as Hil.
    assert (i <> 0%nat) as Hi0 by (intros ->; specialize (H0' v Hv); congruence).
    rewrite (bind_ok _ _ _ _ _ (fat_set_ok s (Z.of_nat i) _ v ltac:(lia) ltac:(by rewrite Nat2Z.id))). rewrite Nat2Z.id.
    set (t' := <[i := _]> (fat_table s)). set (s1 := mk_fatfs _ _ _ t').
    assert (t' = <[i := match cs with [] => CLUSTER_MASK | x :: _ => x end]> (fat_table s)) as Ht'.
    { subst t'. f_equal. destruct cs as [|x rr]; [done|]. cbn. apply Forall_cons in Hcs as [Hx _]. by dec_false (x =? 0). }
    assert (Z.of_nat i ∉ cs) as Hics by (intros Hin; rewrite Forall_forall in Hcs; specialize (Hcs _ Hin); cbn in Hcs; lia).
    assert (fat_chain t' (Z.of_nat i :: cs)) as Hch'.
    { rewrite Ht'. apply fat_chain_cons; [done|done|done|done|]. eapply Forall_impl; [exact Hcs|]. cbn. intros; lia. }
    assert (length t' = length (fat_table s)) as Hlt by apply length_insert.
    assert (drop (S i) t' = drop (S i) (fat_table s)) as Hdt by (subst t'; apply drop_insert_lt; lia).
    replace (Z.of_nat i + 1) with (Z.of_nat (S i)) by lia.
    destruct (IH s1 (S i) (Z.of_nat i :: cs)) as (s' & cs' & Hrun' & Hcs' & Hch2 & Hl' & Hd' & Hb' & Ho' & Hx').
    + intros w Hw. apply (H0' w). cbn in Hw. unfold t' in Hw. by rewrite list_lookup_insert_ne in Hw by done.
    + cbn. by rewrite Hlt.
    + cbn. by rewrite Hlt.
    + by left.
    + constructor; [lia|]. eapply Forall_impl; [exact Hcs|]. cbn. intros; lia.
    + cbn. rewrite Hlt. lia.
    + cbn [fat_table s1]. rewrite Hdt, Hr. cbn in Hn. lia.
    + cbn [fat_table s1] in *. rewrite Hdt, Hr in Hcs', Hx'. exists s', cs'. split; [exact Hrun'|].
      split; [rewrite Hcs'; cbn [take map]; by rewrite reverse_cons, <- app_assoc|].
      split; [done|]. split; [by rewrite Hl', Hlt|]. split; [done|]. split; [done|]. split; [done|].
      intros j Hj. cbn [take] in Hj. apply not_elem_of_cons in Hj as [Hji Hj]. rewrite Hx' by done.
      unfold t'. by apply list_lookup_insert_ne.
Qed.

(** C36: [fat32fs_gm_free_clusters] allocates.  With a reserved first entry and
    at least [nbr] free entries it returns the first cluster of a chain of
    exactly [nbr] different clusters, all of them free before, that ends with
    the end mark; the chain can be followed; no other entry changes. *)
Theorem gm_free_clusters_correct fuel s nbr : (forall v, fat_table s !! 0%nat = Some v -> is_free v = false) ->
  Z.of_nat (length (fat_table s)) < CLUSTER_END -> (length (fat_table s) < fuel)%nat ->
  0 < nbr <= Z.of_nat (length (frees 0 (fat_table s))) ->
  exists s' c cs, fat32fs_gm_free_clusters fuel nbr s = Ok c s' /\ Z.of_nat (length (c :: cs)) = nbr /\
    fat32fs_get_cluster_chain fuel c s' = Ok (c :: cs) s' /\ NoDup (c :: cs) /\
    (forall x, x ∈ c :: cs -> exists v, fat_table s !! Z.to_nat x = Some v /\ is_free v = true) /\
    (forall i, Z.of_nat i ∉ c :: cs -> fat_table s' !! i = fat_table s !! i) /\ fdrive s' = fdrive s.
Proof.
  intros Hz Hl Hf Hn. unfold fat32fs_gm_free_clusters.
  destruct (gm_loop_ok fuel (Z.to_nat nbr) s 0 [] Hz Hl Hf) as (s' & cs' & Hrun & Hcs & Hch & Hlen & Hd & _ & _ & Hx);
    [by right|constructor|lia|rewrite drop_0; lia|].
  rewrite drop_0, app_nil_r in *. set (fs := take (Z.to_nat nbr) (frees 0 (fat_table s))) in *.
  assert (length fs = Z.to_nat nbr) as Hfl by (subst fs; rewrite length_take; lia).
  assert (length cs' = Z.to_nat nbr) as Hcl by (rewrite Hcs, length_reverse, length_map; done).
  destruct cs' as [|c cs]; [cbn in Hcl; lia|]. exists s', c, cs. destruct Hch as [Hch|]; [|done].
  split; [exact Hrun|]. split; [lia|]. split; [apply get_chain_ok; [done|cbn in Hcl; pose proof (frees_length 0 (fat_table s)); lia]|].
  assert (forall x, x ∈ c :: cs <-> exists i, x = Z.of_nat i /\ i ∈ fs) as Hin.
  { intros x. rewrite Hcs, elem_of_reverse. apply list_elem_of_fmap. }
  split; [|split; [|split; [|done]]].
  - rewrite Hcs, reverse_Permutation. apply (NoDup_fmap_2 Z.of_nat).
    pose proof (frees_nodup 0 (fat_table s)) as Hn0. rewrite <- (take_drop (Z.to_nat nbr)) in Hn0. by apply NoDup_app in Hn0 as [? _].
  - intros x (i & -> & Hi)%Hin. rewrite Nat2Z.id.
    assert (i ∈ frees 0 (fat_table s)) as Hi' by (rewrite <- (take_drop (Z.to_nat nbr)); apply elem_of_app; by left).
    destruct (frees_elem _ _ _ Hi') as (_ & v & Hv & Hvf). rewrite Nat.sub_0_r in Hv. eauto.
  - intros i Hi. apply Hx. intros Hif. apply Hi, Hin. eauto.
Qed.

(** Without a free entry the search runs over the end of the table. *)
Lemma full_table_faults fuel s a : frees a (drop a (fat_table s)) = [] -> (length (fat_table s) - a < fuel)%nat -> (a <= length (fat_table s))%nat ->
  next_free fuel (Z.of_nat a) s = Fault.
Proof.
  revert a. induction fuel as [|n IH]; intros a Hfr Hf Ha; [lia|]. cbn [next_free].
  destruct (decide (a = length (fat_table s))) as [-> |Hne].
  - unfold fat_get, bind. by dec_true (Z.of_nat (length (fat_table s)) <=? Z.of_nat (length (fat_table s))).
  - destruct (lookup_lt_is_Some_2 (fat_table s) a) as [v Hv]; [lia|].
    rewrite (bind_ok _ _ _ _ _ (fat_get_ok s (Z.of_nat a) v ltac:(lia) ltac:(by rewrite Nat2Z.id))).
    rewrite (drop_S _ v) in Hfr by done. cbn [frees] in Hfr. unfold is_free in Hfr. destruct (Z.land v CLUSTER_MASK =? 0); [done|].
    replace (Z.of_nat a + 1) with (Z.of_nat (S a)) by lia. apply IH; [done|lia|lia].
Qed.

(** Freeing a chain writes to the entry of the end mark, far outside the
    table. *)
Lemma free_chain_loop_ok fuel s c cs : fat_chain (fat_table s) (c :: cs) -> NoDup (c :: cs) -> (length cs < fuel)%nat ->
  exists v s', free_chain_loop fuel c s = Ok v s' /\ CLUSTER_END <= v /\ length (fat_table s') = length (fat_table s).
Proof.
  revert s c cs. induction fuel as [|n IH]; intros s c cs Hch Hnd Hf; [lia|]. cbn [free_chain_loop].
  destruct cs as [|c' r]; cbn [fat_chain] in Hch.
  - destruct Hch as (Hc0 & v & Hv & He). rewrite (bind_ok _ _ _ _ _ (fat_get_ok s c v Hc0 Hv)). cbv zeta.
    rewrite (bind_ok _ _ _ _ _ (fat_set_ok s c 0 v Hc0 Hv)). dec_true (CLUSTER_END <=? Z.land v CLUSTER_MASK). rewrite orb_true_r.
    eexists _, _. split; [reflexivity|]. split; [done|]. cbn. apply length_insert.
  - destruct Hch as (Hc0 & (v & Hv & He) & Hc' & Hr). rewrite (bind_ok _ _ _ _ _ (fat_get_ok s c v Hc0 Hv)). cbv zeta. rewrite He.
    rewrite (bind_ok _ _ _ _ _ (fat_set_ok s c 0 v Hc0 Hv)). dec_false (c' =? 0). dec_false (CLUSTER_END <=? c'). cbn [orb].
    set (s1 := mk_fatfs _ _ _ _). apply NoDup_cons in Hnd as [Hnc Hnd].
    destruct (IH s1 c' r) as (w & s' & Hrun & Hw & Hl); [|done|cbn in Hf; lia|].
    + assert (forall x, x ∈ c' :: r -> 0 <= x) as Hpos.
      { clear - Hr. revert c' Hr. induction r as [|y r IH]; intros c' Hr x Hx.
        - cbn in Hr. apply list_elem_of_singleton in Hx as ->. by destruct Hr.
        - cbn [fat_chain] in Hr. destruct Hr as (? & _ & _ & Hr). apply elem_of_cons in Hx as [-> |Hx]; [done|by apply (IH y Hr)]. }
      eapply fat_chain_ext; [|exact Hr]. intros x Hx. apply list_lookup_insert_ne. intros Hxc. apply Hnc.
      specialize (Hpos x Hx). replace c with x by lia. done.
    + exists w, s'. split; [exact Hrun|]. split; [done|]. rewrite Hl. cbn. apply length_insert.
Qed.
Lemma free_cluster_chain_faults fuel s c cs : fat_chain (fat_table s) (c :: cs) -> NoDup (c :: cs) -> (length cs < fuel)%nat ->
  Z.of_nat (length (fat_table s)) <= CLUSTER_END -> fat32fs_free_cluster_chain fuel c s = Fault.
Proof.
  intros Hch Hnd Hf Hl. destruct (free_chain_loop_ok fuel s c cs Hch Hnd Hf) as (v & s' & Hrun & Hv & Hl').
  unfold fat32fs_free_cluster_chain. rewrite (bind_ok _ _ _ _ _ Hrun). unfold bind, fat_set.
  by dec_true (Z.of_nat (length (fat_table s')) <=? v).
Qed.
End Fat.

(** ** Concrete runs

    A volume of one sector per cluster, one sector reserved and one of table:
    cluster [c] is sector [c].  A file has the clusters 2 and 5. *)

Definition demo_bpb : bpb_t := mk_bpb 512 1 1 1 1 2.
Definition demo_fat : list Z := [268435448; 268435455; 5; 0; 0; 268435455; 0; 0].
Definition demo_medium : mem := fun x => x / 512.
Definition demo_volume : fatfs mem := mk_fatfs demo_medium demo_bpb 0 demo_fat.

Lemma demo_chain : fat_chain demo_fat [2; 5].
Proof.
  cbn [fat_chain]. split; [lia|]. split; [by eexists|]. split; [unfold CLUSTER_END; lia|]. split; [lia|].
  exists 268435455. split; [reflexivity|]. vm_compute. discriminate.
Qed.

Lemma fat32_read_file_correct_witness : exists s', fat32_read_file 3 2 512 3 demo_volume = Ok (ERROR_NONE, [5; 5; 5]) s' /\ same_volume demo_volume s'.
Proof.
  destruct (fat32_read_file_correct 3 demo_volume 2 [5] 512 3) as (s' & Hrun & Hs);
    [exact I|exact demo_chain|cbn; lia|cbn; lia|repeat constructor; vm_compute; reflexivity|lia|lia|lia|vm_compute; discriminate|left; reflexivity|].
  exists s'. split; [|exact Hs]. rewrite Hrun. f_equal.
Defined.

Lemma gm_free_clusters_correct_witness : exists s' c cs, fat32fs_gm_free_clusters 9 3 demo_volume = Ok c s' /\
  fat32fs_get_cluster_chain 9 c s' = Ok (c :: cs) s' /\ Z.of_nat (length (c :: cs)) = 3.
Proof.
  destruct (gm_free_clusters_correct 9 demo_volume 3) as (s' & c & cs & Hrun & Hl & Hch & _);
    [intros v [= <-]; reflexivity|vm_compute; reflexivity|cbn; lia|vm_compute; split; [reflexivity|discriminate]|].
  exists s', c, cs. split; [exact Hrun|]. split; [exact Hch|exact Hl].
Defined.

(** A write over two clusters puts the first 512 bytes into both. *)
Definition two_sectors : list Z := replicate 512 1 ++ replicate 512 2.
Lemma write_repeats_data :
  match fat32_write_data 9 2 0 two_sectors demo_volume with
  | Ok _ s => Some (load8 (fdrive s) (2 * 512), load8 (fdrive s) (5 * 512))
  | _ => None
  end = Some (1, 1).
Proof. vm_compute. reflexivity. Qed.

(** A read that does not start at a cluster boundary and goes over the end of a
    cluster gets bytes of the cluster behind it on the disk (3) instead of the
    next one of the file (5). *)
Lemma unaligned_read_wrong :
  match fat32_read_file 9 2 500 600 demo_volume with
  | Ok r _ => Some (r.1, nth 12 r.2 0)
  | _ => None
  end = Some (ERROR_NONE, 3).
Proof. vm_compute. reflexivity. Qed.

(** Appending at the end of the last cluster writes behind it on the disk. *)
Lemma append_at_cluster_end :
  match fat32_write_data 9 5 512 [7] demo_volume with
  | Ok _ s => Some (load8 (fdrive s) (6 * 512), fat_table s)
  | _ => None
  end = Some (7, demo_fat).
Proof. vm_compute. reflexivity. Qed.
