(* ===== verification/FatDir.v ===== *)
(** FAT32: directories (filesystem/fat32.c).

    A directory is read into a buffer of the kernel's memory at [dbuf]; entries
    are 32 bytes, a long name is spread over entries in front of the one of the
    file.  [lfnbuf] and [tbuf] are the buffers for a long and a short name,
    [dot] the address of the constant string of one dot.  The pointer into the
    buffer counts entries, so the clusters of a directory are placed 32 times
    their size apart; memory is flat, so what that overwrites or reads is what
    is there.  Nodes are the members of [fnodes], the cache lists them in
    order. *)

From S2P Require Import Prelude Errors Mem Strings Time Storage Fat.

Definition FILE_ATTR_DIR : Z := 1.
Definition FILE_ATTR_HIDDEN : Z := 2.
Definition FAT_ATTR_HIDDEN : Z := 2.
Definition FAT_ATTR_DIRECTORY : Z := 16.
Definition FAT_ATTR_LFN : Z := 15.
Definition FAT_NAME_MAX : Z := 13.

Record fnode : Type := mk_fnode {
  nlength : Z; nattributes : Z; hard_links : Z; creation_time : Z; last_access_time : Z; last_modification_time : Z;
  ncluster : Z; ndir_cluster : Z }.
Record fatsys (D : Type) : Type := mk_fatsys { vol : fatfs D; km : mem; fnodes : list fnode; inode_cache : list nat; inode_cache_size : Z }.
Arguments mk_fatsys {D}. Arguments vol {D}. Arguments km {D}. Arguments fnodes {D}. Arguments inode_cache {D}. Arguments inode_cache_size {D}.

(** ** Entries *)

(** The fields of the entry at address [e]. *)
Definition e_name0 (m : mem) (e : Z) : Z := load8 m e.
Definition e_attributes (m : mem) (e : Z) : Z := load8 m (e + 11).
Definition e_cluster (m : mem) (e : Z) : Z :=
  Z.land (Z.lor (Z.shiftl (load16 m (e + 20)) 16) (load16 m (e + 26))) CLUSTER_MASK.

(** The time and date words. *)
Definition fat_time (hours mins secs : Z) : Z := u16 (Z.lor (Z.lor (u16 (Z.shiftl hours 11)) (Z.shiftl mins 5)) (secs / 2)).
Definition fat_date (years months days : Z) : Z := u16 (Z.lor (Z.lor (u16 (Z.shiftl (years - 80) 9)) (Z.shiftl months 5)) days).
Definition time_fields (t : Z) : Z * Z * Z :=
  (u8 (Z.shiftr t 11), u8 (Z.shiftr (Z.land t 2047) 5), u8 (Z.land t 31 * 2)).
Definition date_fields (d : Z) : Z * Z * Z :=
  (u8 (Z.land d 31), u8 (Z.shiftr (Z.land d 511) 5), u8 (Z.shiftr d 9 + 80)).
Definition std_of (t d : Z) : Z :=
  let '(h, mi, s) := time_fields t in let '(dy, mo, y) := date_fields d in convert_to_std_time s mi h dy mo y.

(** A time as (time word, date word). *)
Definition fat_stamp (t : Z) : Z * Z :=
  let '(secs, mins, hours, days, months, years) := convert_to_readable_time t in
  (fat_time hours mins secs, fat_date years months days).

(** The 13 characters of a long name entry: five, six and two words. *)
Fixpoint copy_words (n : nat) (m : mem) (src dest : Z) : mem :=
  match n with
  | O => m
  | S k => copy_words k (store8 m dest (load16 m src)) (src + 2) (dest + 1)
  end.
Definition lfn_number (order : Z) : Z := if Z.land order 64 =? 64 then Z.lxor order 64 else order.

Section FatDir.
Context {D : Type} `{BlockDevice D}.
Context (sf fuel : nat) (dbuf lfnbuf tbuf dot now stale_dir : Z).

Definition lift_o {S A} (o : option A) : M S A := match o with Some a => ret a | None => nofuel end.
Definition on_vol {A} (op : M (fatfs D) A) : M (fatsys D) A :=
  fun s => match op (vol s) with
           | Ok a v => Ok a (mk_fatsys v (km s) (fnodes s) (inode_cache s) (inode_cache_size s))
           | Fatal e => Fatal e | Fault => Fault | NoFuel => NoFuel
           end.
Definition upd_km (f : mem -> mem) : M (fatsys D) unit :=
  modify (fun s => mk_fatsys (vol s) (f (km s)) (fnodes s) (inode_cache s) (inode_cache_size s)).
Definition set_km (o : option mem) : M (fatsys D) unit :=
  match o with Some m => upd_km (fun _ => m) | None => nofuel end.
Definition node (i : nat) : M (fatsys D) fnode :=
  fun s => match fnodes s !! i with Some x => Ok x s | None => Fault end.
Definition set_node (i : nat) (x : fnode) : M (fatsys D) unit :=
  modify (fun s => mk_fatsys (vol s) (km s) (<[i := x]> (fnodes s)) (inode_cache s) (inode_cache_size s)).

Definition entry (i : Z) : Z := dbuf + 32 * i.

(** All the clusters of a directory, read to where the code puts them; the
    number of entries that the buffer is meant for. *)
Fixpoint read_clusters (cs : list Z) (buffer : Z) : M (fatsys D) unit :=
  match cs with
  | [] => ret tt
  | c :: r =>
    s <- get ;;
    let size := cluster_bytes (vol s) in
    x <- on_vol (on_drive (bread (fat32fs_cluster_to_lba (vol s) c) 0 size)) ;;
    upd_km (fun m => store_bytes m buffer x.2) ;;;
    read_clusters r (buffer + 32 * size)
  end.
Definition read_dir (cluster : Z) : M (fatsys D) (list Z * Z) :=
  cs <- on_vol (fat32fs_get_cluster_chain fuel cluster) ;;
  read_clusters cs dbuf ;;;
  s <- get ;;
  ret (cs, Z.of_nat (length cs) * cluster_bytes (vol s) / 32).
Fixpoint write_dir (cs : list Z) (buffer : Z) : M (fatsys D) unit :=
  match cs with
  | [] => ret tt
  | c :: r =>
    s <- get ;;
    let size := cluster_bytes (vol s) in
    on_vol (on_drive (bwrite (fat32fs_cluster_to_lba (vol s) c) 0 (bytes_at (km s) buffer (Z.to_nat size)))) ;;;
    write_dir r (buffer + 32 * size)
  end.

(** Collects the characters of a long name entry; [first]: there is no name
    buffer yet. *)
Definition lfn_put (m : mem) (e : Z) (first : bool) : mem :=
  let nbr := lfn_number (load8 m e) in
  let m := if first then store8 m (lfnbuf + 13 * nbr) 0 else m in
  let off := lfnbuf + 13 * (nbr - 1) in
  copy_words 2 (copy_words 6 (copy_words 5 m (e + 1) off) (e + 14) (off + 5)) (e + 28) (off + 11).

(** The short name of an entry: up to 8 characters, trimmed if [trim], and the
    extension; the buffer is cleared before if [zero]. *)
Definition short_name (m : mem) (e : Z) (zero trim : bool) : option mem :=
  let m := if zero then memset m tbuf 0 13 else m in
  match strncpy sf m tbuf e 8 with
  | None => None
  | Some m =>
    match (if trim then strtrim sf m tbuf else Some m) with
    | None => None
    | Some m =>
      if negb trim || (negb (load8 m (e + 8) =? 32) && negb (load8 m (e + 8) =? 0)) then
        match strncat sf m tbuf dot 1 with Some m => strncat sf m tbuf (e + 8) 3 | None => None end
      else Some m
    end
  end.

(** ** Opening *)

Definition e_node (m : mem) (e dir_cluster : Z) : fnode :=
  mk_fnode (load32 m (e + 28))
    (Z.lor (if Z.land (e_attributes m e) FAT_ATTR_DIRECTORY =? 0 then 0 else FILE_ATTR_DIR)
           (if Z.land (e_attributes m e) FAT_ATTR_HIDDEN =? 0 then 0 else FILE_ATTR_HIDDEN))
    1 (std_of (load16 m (e + 14)) (load16 m (e + 16))) (std_of 0 (load16 m (e + 18)))
    (std_of (load16 m (e + 22)) (load16 m (e + 24))) (e_cluster m e) dir_cluster.

(** The cached node with a cluster; the walk is bounded by the counted size,
    and the pointer behind the last entry is not initialised. *)
Fixpoint find_cached (cache : list nat) (size c : Z) : M (fatsys D) (option nat) :=
  if size =? 0 then ret None else
  match cache with
  | [] => fault
  | i :: r => x <- node i ;; if ncluster x =? c then ret (Some i) else find_cached r (size - 1) c
  end.
Definition cache_node (x : fnode) : M (fatsys D) nat :=
  s <- get ;;
  let i := length (fnodes s) in
  if negb (Z.of_nat (length (inode_cache s)) =? inode_cache_size s) then fault else
  put (mk_fatsys (vol s) (km s) (fnodes s ++ [x]) (inode_cache s ++ [i]) (inode_cache_size s + 1)) ;;;
  ret i.
Definition fat32_dirent_normalize_cache (e dir_cluster : Z) : M (fatsys D) nat :=
  s <- get ;;
  o <- find_cached (inode_cache s) (inode_cache_size s) (e_cluster (km s) e) ;;
  match o with
  | Some i => ret i
  | None => cache_node (e_node (km s) e dir_cluster)
  end.

(** The loop over the entries; a long name that did not match is not
    forgotten. *)
Fixpoint open_scan (n : nat) (i : Z) (has_lfn : bool) (name cluster : Z) : M (fatsys D) (option nat) :=
  match n with
  | O => ret None
  | S k =>
    s <- get ;;
    let e := entry i in
    if e_name0 (km s) e =? 0 then ret None
    else if e_name0 (km s) e =? 229 then open_scan k (i + 1) has_lfn name cluster
    else if e_attributes (km s) e =? FAT_ATTR_LFN then
      upd_km (fun m => lfn_put m e (negb has_lfn)) ;;; open_scan k (i + 1) true name cluster
    else
      (if has_lfn then ret tt else set_km (short_name (km s) e true true)) ;;;
      s <- get ;;
      r <- lift_o (strcmpnc sf (km s) (if has_lfn then lfnbuf else tbuf) name) ;;
      if r =? 0 then x <- fat32_dirent_normalize_cache e cluster ;; ret (Some x)
      else open_scan k (i + 1) has_lfn name cluster
  end.
Definition fat32_open (dir : nat) (name : Z) : M (fatsys D) (option nat) :=
  d <- node dir ;;
  cn <- read_dir (ncluster d) ;;
  open_scan (Z.to_nat cn.2) 0 false name (ncluster d).

(** ** Listing *)

(** The directory entries made, as (first cluster, name), and whether the end
    mark was reached.  The name of an entry with a long name is that name,
    otherwise the short one. *)
Definition name_at (m : mem) (a : Z) : option (list Z) :=
  match strlen sf m a with Some l => Some (bytes_at m a (Z.to_nat l)) | None => None end.
Fixpoint list_scan (n : nat) (i : Z) (has_lfn : bool) : M (fatsys D) (bool * list (Z * list Z)) :=
  match n with
  | O => ret (false, [])
  | S k =>
    s <- get ;;
    let e := entry i in
    if e_name0 (km s) e =? 0 then ret (true, [])
    else if e_name0 (km s) e =? 229 then list_scan k (i + 1) has_lfn
    else if e_attributes (km s) e =? FAT_ATTR_LFN then
      upd_km (fun m => lfn_put m e (negb has_lfn)) ;;; list_scan k (i + 1) true
    else
      (if has_lfn then ret tt else set_km (short_name (km s) e false true)) ;;;
      s <- get ;;
      nm <- lift_o (name_at (km s) (if has_lfn then lfnbuf else tbuf)) ;;
      r <- list_scan k (i + 1) false ;;
      ret (r.1, (e_cluster (km s) e, nm) :: r.2)
  end.

(** Returns the error, the size of the list and the entries made.  The list
    gets one node for each, but no entry is put into a node; without an end
    mark the size is one too high. *)
Definition fat32_list_dir (dir : nat) : M (fatsys D) (Z * Z * list (Z * list Z)) :=
  d <- node dir ;;
  if negb (Z.land (nattributes d) FILE_ATTR_DIR =? FILE_ATTR_DIR) then ret (ERROR_FILE_IS_NOT_DIRECTORY, 0, []) else
  cn <- read_dir (ncluster d) ;;
  l <- list_scan (Z.to_nat cn.2) 0 false ;;
  ret (ERROR_NONE, Z.of_nat (length l.2) + (if l.1 then 0 else 1), l.2).

(** ** Updating and deleting entries *)

(** The entry, preceded by a long name, that has the cluster. *)
Fixpoint find_entry (n : nat) (i : Z) (has_lfn : bool) (cluster : Z) : M (fatsys D) (option Z) :=
  match n with
  | O => ret None
  | S k =>
    s <- get ;;
    let e := entry i in
    if e_name0 (km s) e =? 0 then ret None
    else if e_name0 (km s) e =? 229 then find_entry k (i + 1) has_lfn cluster
    else if e_attributes (km s) e =? FAT_ATTR_LFN then
      upd_km (fun m => lfn_put m e (negb has_lfn)) ;;; find_entry k (i + 1) true cluster
    else if has_lfn && (e_cluster (km s) e =? cluster) then ret (Some i)
    else find_entry k (i + 1) false cluster
  end.

(** Sets or clears an attribute bit. *)
Definition attr_bit (a bit : Z) (on : bool) : Z := if on then Z.lor a bit else Z.land a (255 - bit).
Definition store_stamps (m : mem) (e : Z) (x : fnode) : mem :=
  let c := fat_stamp (creation_time x) in
  let lm := fat_stamp (last_modification_time x) in
  let la := fat_stamp (last_access_time x) in
  store16 (store16 (store16 (store16 (store16 m (e + 14) c.1) (e + 16) c.2) (e + 22) lm.1) (e + 24) lm.2) (e + 18) la.2.
Definition update_entry (m : mem) (e : Z) (x : fnode) : mem :=
  let m := store32 m (e + 28) (nlength x) in
  let a := attr_bit (load8 m (e + 11)) FAT_ATTR_DIRECTORY (negb (Z.land (nattributes x) FILE_ATTR_DIR =? 0)) in
  let a := attr_bit a FAT_ATTR_HIDDEN (negb (Z.land (nattributes x) FILE_ATTR_HIDDEN =? 0)) in
  store_stamps (store8 m (e + 11) a) e x.

Definition fat32fs_update_dirent (file : nat) : M (fatsys D) Z :=
  x <- node file ;;
  cn <- read_dir (ndir_cluster x) ;;
  o <- find_entry (Z.to_nat cn.2) 0 false (ncluster x) ;;
  match o with
  | None => ret ERROR_FILE_NOT_FOUND
  | Some i =>
    let x := mk_fnode (nlength x) (nattributes x) (hard_links x) (creation_time x) now now (ncluster x) (ndir_cluster x) in
    set_node file x ;;;
    upd_km (fun m => update_entry m (entry i) x) ;;;
    write_dir cn.1 dbuf ;;;
    ret ERROR_NONE
  end.

(** Only the entry of the file is marked: the loop over the long name marks
    the same one again. *)
Definition fat32fs_delete_dirent (file dir : nat) : M (fatsys D) Z :=
  x <- node file ;;
  d <- node dir ;;
  cn <- read_dir (ncluster d) ;;
  o <- find_entry (Z.to_nat cn.2) 0 false (ncluster x) ;;
  match o with
  | None => ret ERROR_FILE_NOT_FOUND
  | Some i =>
    upd_km (fun m => store8 m (entry i) 229) ;;;
    write_dir cn.1 dbuf ;;;
    ret ERROR_NONE
  end.

(** ** Creating entries *)

(** The end of the directory, or a conflict of names ([None]). *)
Fixpoint create_scan (n : nat) (i : Z) (has_lfn : bool) (name : Z) : M (fatsys D) (option Z) :=
  match n with
  | O => ret (Some i)
  | S k =>
    s <- get ;;
    let e := entry i in
    if e_name0 (km s) e =? 0 then ret (Some i)
    else if e_name0 (km s) e =? 229 then create_scan k (i + 1) has_lfn name
    else if e_attributes (km s) e =? FAT_ATTR_LFN then
      upd_km (fun m => lfn_put m e (negb has_lfn)) ;;; create_scan k (i + 1) true name
    else
      r <- (if has_lfn then lift_o (strcmpnc sf (km s) lfnbuf name) else ret 1) ;;
      if r =? 0 then ret None else
      set_km (short_name (km s) e true false) ;;;
      s <- get ;;
      r <- lift_o (strcmpnc sf (km s) tbuf name) ;;
      if r =? 0 then ret None else create_scan k (i + 1) false name
  end.

(** The first 8 characters up to a dot in upper case, and three characters
    behind the last dot ([strrchr] gives 0 when there is none, and the bytes
    at 1, 2 and 3 are taken).  The tests for special characters look at the
    byte behind the one just copied, which is still 0, so no tail is ever
    generated. *)
Fixpoint old_name_loop (n : nat) (m : mem) (src dest : Z) : mem :=
  match n with
  | O => m
  | S k =>
    let c := toUpper (load8 m src) in
    if (c =? 0) || (c =? 46) then m else old_name_loop k (store8 m dest c) (src + 1) (dest + 1)
  end.
Fixpoint skip_dots (n : nat) (m : mem) (name : Z) : option Z :=
  match n with
  | O => None
  | S k => if load8 m name =? 46 then skip_dots k m (name + 1) else Some name
  end.
Definition fat32fs_get_old_name (m : mem) (oldname oldext name : Z) : option mem :=
  match skip_dots sf m name with
  | None => None
  | Some name' =>
    match strrchr sf m name' 46 with
    | None => None
    | Some ext =>
      let m := old_name_loop 8 m name oldname in
      Some (store8 (store8 (store8 m oldext (toUpper (load8 m (ext + 1)))) (oldext + 1) (toUpper (load8 m (ext + 2))))
              (oldext + 2) (toUpper (load8 m (ext + 3))))
    end
  end.

Fixpoint checksum_loop (n : nat) (m : mem) (a sum : Z) : Z :=
  match n with
  | O => sum
  | S k => checksum_loop k m (a + 1) (u8 ((if Z.land sum 1 =? 0 then 0 else 128) + Z.shiftr sum 1 + load8 m a))
  end.
Definition fat32fs_lfn_checksum (m : mem) (pFcbName : Z) : Z := checksum_loop 11 m pFcbName 0.

(** Words from the bytes of a name. *)
Fixpoint put_words (n : nat) (m : mem) (src dest : Z) : mem :=
  match n with
  | O => m
  | S k => put_words k (store16 m dest (load8 m src)) (src + 1) (dest + 2)
  end.

(** One entry of a long name: [j] counts from the one with the end of it. *)
Definition lfn_entry (m : mem) (i needed j name checksum : Z) : mem :=
  let e := entry (i + j) in
  let off := name + (needed - j - 1) * 13 in
  let m := store8 m e (if j =? 0 then Z.lor needed 64 else needed - j) in
  let m := store8 (store16 (store8 m (e + 11) FAT_ATTR_LFN) (e + 26) 0) (e + 13) checksum in
  put_words 2 (put_words 6 (put_words 5 m off (e + 1)) (off + 5) (e + 14)) (off + 11) (e + 28).
Fixpoint lfn_entries (n : nat) (m : mem) (i needed j name checksum : Z) : mem :=
  match n with
  | O => m
  | S k => lfn_entries k (lfn_entry m i needed j name checksum) i needed (j + 1) name checksum
  end.

Definition needed_lfns (name_len : Z) : Z := name_len / 13 + (if name_len mod 13 =? 0 then 0 else 1).

(** The entry of the file itself. *)
Definition file_entry (m : mem) (e name : Z) (x : fnode) : option mem :=
  let a := Z.lor (if Z.land (nattributes x) FILE_ATTR_HIDDEN =? 0 then 0 else FAT_ATTR_HIDDEN)
                 (if Z.land (nattributes x) FILE_ATTR_DIR =? 0 then 0 else FAT_ATTR_DIRECTORY) in
  match fat32fs_get_old_name (store8 m (e + 11) a) e (e + 8) name with
  | None => None
  | Some m =>
    let m := store32 m (e + 28) (nlength x) in
    let m := store16 (store16 m (e + 26) (u16 (ncluster x))) (e + 20) (u16 (Z.shiftr (ncluster x) 16)) in
    Some (store_stamps m e x)
  end.

Definition fat32fs_create_dirent (file : nat) (name : Z) (dir : nat) : M (fatsys D) Z :=
  x <- node file ;;
  if negb (hard_links x =? 0) then ret ERROR_FILE_FS_INTERNAL else
  d <- node dir ;;
  cn <- read_dir (ncluster d) ;;
  s <- get ;;
  len <- lift_o (strlen sf (km s) name) ;;
  let needed := needed_lfns len in
  o <- create_scan (Z.to_nat cn.2) 0 false name ;;
  match o with
  | None => ret ERROR_FILE_NAME_ALREADY_EXISTS
  | Some i =>
    cs <- (if i + needed <? cn.2 then ret cn.1 else
           match last cn.1 with
           | None => fault
           | Some l =>
             c <- on_vol (fat32fs_gm_free_clusters fuel 1) ;;
             on_vol (fat_set l c) ;;;
             ret (cn.1 ++ [c])
           end) ;;
    upd_km (fun m => store8 m (entry (i + needed + 1)) 0) ;;;
    let x := mk_fnode (nlength x) (nattributes x) (hard_links x) now now now (ncluster x) (ndir_cluster x) in
    s <- get ;;
    set_km (file_entry (km s) (entry (i + needed)) name x) ;;;
    upd_km (fun m => lfn_entries (Z.to_nat needed) m i needed 0 name (fat32fs_lfn_checksum m (entry (i + needed)))) ;;;
    write_dir cs dbuf ;;;
    on_vol fat32fs_write_fat ;;;
    set_node file (mk_fnode (nlength x) (nattributes x) (hard_links x + 1) now now now (ncluster x) (ndir_cluster x)) ;;;
    ret ERROR_NONE
  end.

(** ** Files *)

Definition fat32_write_file (file : nat) (offset : Z) (buffer : list Z) : M (fatsys D) Z :=
  x <- node file ;;
  on_vol (fat32_write_data fuel (ncluster x) offset buffer) ;;;
  (if nlength x <? u64 (Z.of_nat (length buffer) + offset) then
     set_node file (mk_fnode (u64 (Z.of_nat (length buffer) + offset)) (nattributes x) (hard_links x) (creation_time x)
       (last_access_time x) (last_modification_time x) (ncluster x) (ndir_cluster x)) ;;;
     fat32fs_update_dirent file ;;; ret tt
   else ret tt) ;;;
  ret ERROR_NONE.

(** The arguments of [fat32fs_create_dirent] are exchanged in the source. *)
Definition fat32_rename (src_file : nat) (src_file_name new_file_name : Z) (dir : nat) : M (fatsys D) Z :=
  e <- fat32fs_delete_dirent src_file dir ;;
  if negb (e =? ERROR_NONE) then ret e else
  e <- fat32fs_create_dirent dir new_file_name src_file ;;
  if negb (e =? ERROR_NONE) then fat32fs_create_dirent dir src_file_name src_file ;;; ret e else ret ERROR_NONE.

(** Takes the nodes with a cluster out of the cache; the first entry has no
    predecessor, and the size is not counted down. *)
Fixpoint uncache (first : bool) (cache : list nat) (size c : Z) : M (fatsys D) (list nat) :=
  if size =? 0 then ret cache else
  match cache with
  | [] => fault
  | i :: r =>
    x <- node i ;;
    if ncluster x =? c then (if first then fault else uncache false r (size - 1) c)
    else t <- uncache false r (size - 1) c ;; ret (i :: t)
  end.
Definition fat32_unlink (file_name : Z) (dir : nat) : M (fatsys D) Z :=
  o <- fat32_open dir file_name ;;
  match o with
  | None => fault
  | Some file =>
    x <- node file ;;
    e <- fat32fs_delete_dirent file dir ;;
    if negb (e =? ERROR_NONE) then ret e else
    on_vol (fat32fs_free_cluster_chain fuel (ncluster x)) ;;;
    s <- get ;;
    c <- uncache true (inode_cache s) (inode_cache_size s) (ncluster x) ;;
    modify (fun s => mk_fatsys (vol s) (km s) (fnodes s) c (inode_cache_size s)) ;;;
    ret ERROR_NONE
  end.

(** The times and [dir_cluster] of the new node are not set before the entry is
    made; [stale_dir] is what is in the latter. *)
Definition fat32_create_file (dir : nat) (name attributes : Z) : M (fatsys D) nat :=
  c <- on_vol (fat32fs_gm_free_clusters fuel 1) ;;
  i <- cache_node (mk_fnode 0 attributes 0 0 0 0 c stale_dir) ;;
  fat32fs_create_dirent i name dir ;;;
  ret i.

(** ** Mounting *)

Definition parse_bpb (m : mem) (a : Z) : bpb_t :=
  mk_bpb (load16 m (a + 11)) (load8 m (a + 13)) (load16 m (a + 14)) (load8 m (a + 16)) (load32 m (a + 36)) (load32 m (a + 44)).

(** [rdir] is the address of the local entry for the root directory, of which
    only the cluster is set. *)
Definition fat32fs_init (m : mem) (offset rdir : Z) : M D (option (fatsys D * nat)) :=
  r <- read_attempts 2 offset 90 ;;
  if negb (r.1 =? ERROR_NONE) then ret None else
  let b := mem_of 0 r.2 in
  if negb (bool_decide (bytes_at b 82 5 = [70; 65; 84; 51; 50])) then ret None else
  fun d =>
    match fat32fs_read_fat (mk_fatfs d (parse_bpb b 0) offset []) with
    | Ok e v =>
      if negb (e =? ERROR_NONE) then Ok None (fdrive v) else
      let root := root_directory_cluster (bpb v) in
      let m := store16 (store16 m (rdir + 26) (Z.land root 65535)) (rdir + 20) (Z.shiftr root 16) in
      match fat32_dirent_normalize_cache rdir 0 (mk_fatsys v m [] [] 0) with
      | Ok i s => Ok (Some (s, i)) (fdrive (vol s))
      | Fatal e => Fatal e | Fault => Fault | NoFuel => NoFuel
      end
    | Fatal e => Fatal e | Fault => Fault | NoFuel => NoFuel
    end.

(** ** Long names *)

(** The address of character [k] in a long name entry. *)
Definition slot (e k : Z) : Z := if k <? 5 then e + 1 + 2 * k else if k <? 11 then e + 14 + 2 * (k - 5) else e + 28 + 2 * (k - 11).

Lemma put_words_spec n m src dest : src + Z.of_nat n <= dest \/ dest + 2 * Z.of_nat n <= src ->
  (forall k, 0 <= k < Z.of_nat n -> load16 (put_words n m src dest) (dest + 2 * k) = load8 m (src + k)) /\
  same_outside m (put_words n m src dest) dest (dest + 2 * Z.of_nat n).
Proof.
  revert m src dest. induction n as [|n IH]; intros m src dest Hd; [split; [intros; lia|done]|]. cbn [put_words].
  destruct (IH (store16 m dest (load8 m src)) (src + 1) (dest + 2)) as [Hk Ho]; [lia|]. split.
  - intros k Hkr. destruct (decide (k = 0)) as [-> |].
    + rewrite !Z.add_0_r. rewrite (load16_ext (store16 m dest (load8 m src))) by (intros; apply Ho; lia).
      rewrite load16_store16. pose proof (load8_range m src) as Hr. unfold is_u8 in Hr. apply u16_id. lia.
    + replace (dest + 2 * k) with (dest + 2 + 2 * (k - 1)) by lia. rewrite Hk by lia.
      replace (src + 1 + (k - 1)) with (src + k) by lia. apply load8_ext, store16_other. lia.
  - intros x Hx. rewrite Ho by lia. apply store16_other. lia.
Qed.

Lemma copy_words_spec n m src dest : src + 2 * Z.of_nat n <= dest \/ dest + Z.of_nat n <= src ->
  (forall k, 0 <= k < Z.of_nat n -> load8 (copy_words n m src dest) (dest + k) = u8 (load16 m (src + 2 * k))) /\
  same_outside m (copy_words n m src dest) dest (dest + Z.of_nat n).
Proof.
  revert m src dest. induction n as [|n IH]; intros m src dest Hd; [split; [intros; lia|done]|]. cbn [copy_words].
  destruct (IH (store8 m dest (load16 m src)) (src + 2) (dest + 1)) as [Hk Ho]; [lia|]. split.
  - intros k Hkr. destruct (decide (k = 0)) as [-> |].
    + rewrite !Z.add_0_r. rewrite (load8_ext (store8 m dest (load16 m src))) by (apply Ho; lia). apply load8_store8.
    + replace (dest + k) with (dest + 1 + (k - 1)) by lia. rewrite Hk by lia.
      replace (src + 2 + 2 * (k - 1)) with (src + 2 * k) by lia. f_equal. apply load16_ext. intros. apply store8_other. lia.
  - intros x Hx. rewrite Ho by lia. apply store8_other. lia.
Qed.

(** What a long name entry holds after it was made from the 13 bytes at
    [off]. *)
Lemma lfn_entry_spec m i needed j name ck : let e := entry (i + j) in let off := name + (needed - j - 1) * 13 in
  off + 13 <= e \/ e + 32 <= off ->
  load8 (lfn_entry m i needed j name ck) e = u8 (if j =? 0 then Z.lor needed 64 else needed - j) /\
  load8 (lfn_entry m i needed j name ck) (e + 11) = FAT_ATTR_LFN /\
  (forall k, 0 <= k < 13 -> load16 (lfn_entry m i needed j name ck) (slot e k) = load8 m (off + k)) /\
  same_outside m (lfn_entry m i needed j name ck) e (e + 32).
Proof.
  intros e off Hd. unfold lfn_entry. fold e off. set (m0 := store8 m e _). set (m1 := store8 _ (e + 13) ck).
  assert (same_outside m m1 e (e + 32)) as H1 by (intros x Hx; subst m1 m0; autorewrite with kernel_wrap; done).
  assert (load8 m1 e = u8 (if j =? 0 then Z.lor needed 64 else needed - j)) as He.
  { subst m1. rewrite load8_store8_other by lia. rewrite (load8_ext m0) by (autorewrite with kernel_wrap; done). apply load8_store8. }
  assert (load8 m1 (e + 11) = FAT_ATTR_LFN) as Hat.
  { subst m1. rewrite load8_store8_other by lia. rewrite (load8_ext (store8 m0 (e + 11) FAT_ATTR_LFN)).
    - apply load8_store8.
    - apply store16_other. lia. }
  destruct (put_words_spec 5 m1 off (e + 1)) as [Ha Hao]; [lia|]. set (m2 := put_words 5 m1 off (e + 1)) in *.
  destruct (put_words_spec 6 m2 (off + 5) (e + 14)) as [Hb Hbo]; [lia|]. set (m3 := put_words 6 m2 (off + 5) (e + 14)) in *.
  destruct (put_words_spec 2 m3 (off + 11) (e + 28)) as [Hc Hco]; [lia|]. set (m4 := put_words 2 m3 (off + 11) (e + 28)) in *.
  cbn [Z.of_nat Pos.of_succ_nat Pos.succ] in *. clearbody m4 m3 m2 m1.
  assert (forall x, ~ (e <= x < e + 32) -> m3 x = m x /\ m2 x = m x) as Hout.
  { intros x Hx. rewrite Hbo, Hao, H1 by lia. done. }
  split; [|split; [|split]].
  - rewrite (load8_ext m1); [done|]. rewrite Hco, Hbo, Hao by lia. done.
  - rewrite (load8_ext m1); [done|]. rewrite Hco, Hbo, Hao by lia. done.
  - intros k Hk. unfold slot. destruct (Z.ltb_spec k 5); [|destruct (Z.ltb_spec k 11)].
    + rewrite <- (load8_ext m m1 (off + k)) by (apply H1; lia). rewrite <- Ha by lia. apply load16_ext.
      intros x Hx. rewrite Hco by lia. apply Hbo. lia.
    + transitivity (load8 m2 (off + 5 + (k - 5))).
      * rewrite <- Hb by lia. apply load16_ext. intros x Hx. apply Hco. lia.
      * replace (off + 5 + (k - 5)) with (off + k) by lia. apply load8_ext, Hout. lia.
    + rewrite Hc by lia. replace (off + 11 + (k - 11)) with (off + k) by lia. apply load8_ext, Hout. lia.
  - intros x Hx. rewrite Hco by lia. by apply Hout.
Qed.

(** The entries at [i + j ..] that carry the name at [name] in [m0]. *)
Definition lfn_at (m0 m : mem) (i needed j name : Z) : Prop := forall t, j <= t < needed ->
  load8 m (entry (i + t)) = u8 (if t =? 0 then Z.lor needed 64 else needed - t) /\
  load8 m (entry (i + t) + 11) = FAT_ATTR_LFN /\
  forall k, 0 <= k < 13 -> load16 m (slot (entry (i + t)) k) = load8 m0 (name + (needed - t - 1) * 13 + k).

Lemma slot_range e k : 0 <= k < 13 -> e <= slot e k /\ slot e k + 2 <= e + 32.
Proof. intros. unfold slot. repeat case_bool; lia. Qed.

Lemma lfn_at_ext m0 m m' i needed j name :
  (forall x, entry (i + j) <= x < entry (i + needed) -> m' x = m x) -> lfn_at m0 m i needed j name -> lfn_at m0 m' i needed j name.
Proof.
  intros Hx Hl t Ht. destruct (Hl t Ht) as (H1 & H2 & H3). unfold entry in *. split; [|split].
  - rewrite <- H1. apply load8_ext, Hx. lia.
  - rewrite <- H2. apply load8_ext, Hx. lia.
  - intros k Hk. rewrite <- H3 by done. apply load16_ext. intros x Hxr. apply Hx.
    pose proof (slot_range (dbuf + 32 * (i + t)) k Hk). lia.
Qed.

Lemma lfn_entries_spec n m i needed j name ck : Z.of_nat n + j = needed -> 0 <= j ->
  name + 13 * needed <= entry i \/ entry (i + needed) <= name ->
  let m' := lfn_entries n m i needed j name ck in
  lfn_at m m' i needed j name /\ same_outside m m' (entry (i + j)) (entry (i + needed)).
Proof.
  revert m j. induction n as [|n IH]; intros m j Hn Hj Hd; cbn [lfn_entries].
  { split; [intros t Ht; lia|done]. }
  destruct (lfn_entry_spec m i needed j name ck) as (H1 & H2 & H3 & H4); [unfold entry in *; lia|].
  set (m1 := lfn_entry m i needed j name ck) in *. clearbody m1.
  destruct (IH m1 (j + 1)) as [Hl Ho]; [lia|lia|done|]. set (m2 := lfn_entries n m1 i needed (j + 1) name ck) in *. clearbody m2.
  unfold entry in *. split.
  - intros t Ht. destruct (decide (t = j)) as [-> |Hne].
    + split; [|split].
      * rewrite <- H1. apply load8_ext, Ho. unfold entry. lia.
      * rewrite <- H2. apply load8_ext, Ho. unfold entry. lia.
      * intros k Hk. rewrite <- H3 by done. apply load16_ext. intros x Hx. apply Ho. unfold entry.
        pose proof (slot_range (dbuf + 32 * (i + j)) k Hk). lia.
    + destruct (Hl t ltac:(lia)) as (Ha & Hb & Hc). split; [done|]. split; [done|]. intros k Hk. rewrite Hc by done.
      apply load8_ext, H4. unfold entry. lia.
  - intros x Hx. rewrite Ho by (unfold entry; lia). apply H4. unfold entry. lia.
Qed.

Lemma lfn_put_spec m e first : let nbr := lfn_number (load8 m e) in let off := lfnbuf + 13 * (nbr - 1) in
  off + 14 <= e \/ e + 32 <= off ->
  (forall k, 0 <= k < 13 -> load8 (lfn_put m e first) (off + k) = u8 (load16 m (slot e k))) /\
  (first = true -> load8 (lfn_put m e first) (off + 13) = 0) /\
  (forall x, ~ (off <= x < off + 13) -> (first = true -> x <> off + 13) -> lfn_put m e first x = m x).
Proof.
  intros nbr off Hd. unfold lfn_put. fold nbr off. set (m1 := if first then _ else m).
  assert (forall x, (first = true -> x <> off + 13) -> m1 x = m x) as H1.
  { intros x Hx. subst m1. destruct first; [|done]. apply store8_other. specialize (Hx eq_refl). lia. }
  assert (first = true -> load8 m1 (off + 13) = 0) as Hz.
  { intros ->. subst m1. replace (off + 13) with (lfnbuf + 13 * nbr) by lia. apply load8_store8. }
  destruct (copy_words_spec 5 m1 (e + 1) off) as [Ha Hao]; [lia|]. set (m2 := copy_words 5 _ _ _) in *.
  destruct (copy_words_spec 6 m2 (e + 14) (off + 5)) as [Hb Hbo]; [lia|]. set (m3 := copy_words 6 _ _ _) in *.
  destruct (copy_words_spec 2 m3 (e + 28) (off + 11)) as [Hc Hco]; [lia|]. set (m4 := copy_words 2 _ _ _) in *.
  cbn [Z.of_nat Pos.of_succ_nat Pos.succ] in *. clearbody m4 m3 m2 m1.
  assert (forall x, e <= x < e + 32 -> m1 x = m x /\ m2 x = m x /\ m3 x = m x) as He.
  { intros x Hx. rewrite Hbo, Hao, H1 by lia. done. }
  split; [|split].
  - intros k Hk. unfold slot. destruct (Z.ltb_spec k 5); [|destruct (Z.ltb_spec k 11)].
    + transitivity (load8 m2 (off + k)); [apply load8_ext; rewrite Hco by lia; apply Hbo; lia|].
      rewrite Ha by lia. f_equal. apply load16_ext. intros x Hx. apply He. lia.
    + transitivity (load8 m3 (off + 5 + (k - 5))).
      * replace (off + 5 + (k - 5)) with (off + k) by lia. apply load8_ext, Hco. lia.
      * rewrite Hb by lia. f_equal. apply load16_ext. intros x Hx. apply He. lia.
    + replace (off + k) with (off + 11 + (k - 11)) by lia. rewrite Hc by lia. f_equal. apply load16_ext. intros x Hx. apply He. lia.
  - intros Hf. rewrite <- (Hz Hf). apply load8_ext. rewrite Hco, Hbo by lia. apply Hao. lia.
  - intros x Hx Hf. rewrite Hco, Hbo, Hao by lia. by apply H1.
Qed.

Lemma lfn_number_order needed t : 0 <= t < needed -> needed < 64 ->
  lfn_number (u8 (if t =? 0 then Z.lor needed 64 else needed - t)) = needed - t /\
  0 < u8 (if t =? 0 then Z.lor needed 64 else needed - t) < 128.
Proof.
  intros Ht Hn. destruct (Z.eqb_spec t 0) as [-> |Hne].
  - assert (Forall (fun z => lfn_number (u8 (Z.lor z 64)) = z - 0 /\ 0 < u8 (Z.lor z 64) < 128) (seqZ 1 63)) as Hall
      by (apply (bool_decide_unpack _); vm_compute; exact I).
    rewrite Forall_forall in Hall. apply Hall, elem_of_seqZ. lia.
  - rewrite u8_id by lia. split; [|lia].
    assert (Forall (fun z => lfn_number z = z) (seqZ 1 63)) as Hall
      by (apply (bool_decide_unpack _); vm_compute; exact I).
    rewrite Forall_forall in Hall. apply Hall, elem_of_seqZ. lia.
Qed.

(** The scan of [fat32_open] over the entries of a name copies it to the
    buffer; [t] of the entries are done. *)
Lemma open_scan_lfn n t m0 s i needed name cname cl k : Z.of_nat n + t = needed -> 0 <= t -> needed < 64 ->
  lfnbuf + 13 * needed < entry i \/ entry (i + needed) <= lfnbuf ->
  lfn_at m0 (km s) i needed t name ->
  (forall c, 13 * (needed - t) <= c < 13 * needed -> load8 (km s) (lfnbuf + c) = load8 m0 (name + c)) ->
  (0 < t -> load8 (km s) (lfnbuf + 13 * needed) = 0) ->
  exists m', open_scan (n + k) (i + t) (negb (t =? 0)) cname cl s =
             open_scan k (i + needed) (negb (needed =? 0)) cname cl (mk_fatsys (vol s) m' (fnodes s) (inode_cache s) (inode_cache_size s)) /\
    (forall c, 0 <= c < 13 * needed -> load8 m' (lfnbuf + c) = load8 m0 (name + c)) /\
    (0 < needed -> load8 m' (lfnbuf + 13 * needed) = 0) /\
    same_outside (km s) m' lfnbuf (lfnbuf + 13 * needed + 1).
Proof.
  revert t s. induction n as [|n IH]; intros t s Hn Ht Hm Hd Hl Hc Hz.
  { assert (t = needed) as -> by lia. exists (km s). destruct s. split; [done|]. split; [intros; apply Hc; lia|]. done. }
  destruct (Hl t ltac:(lia)) as (H1 & H2 & H3). pose proof (lfn_number_order needed t ltac:(lia) Hm) as [Hnum Hord].
  cbn [Nat.add open_scan]. unfold get at 1. cbn [bind]. unfold bind at 1. unfold e_name0, e_attributes. rewrite H2, H1.
  dec_false (u8 (if t =? 0 then Z.lor needed 64 else needed - t) =? 0).
  dec_false (u8 (if t =? 0 then Z.lor needed 64 else needed - t) =? 229).
  rewrite Z.eqb_refl. unfold upd_km, modify, bind. rewrite negb_involutive.
  destruct (lfn_put_spec (km s) (entry (i + t)) (t =? 0)) as (Hp1 & Hp2 & Hp3).
  { rewrite H1, Hnum. unfold entry in *. lia. }
  rewrite H1, Hnum in Hp1, Hp2, Hp3. set (m1 := lfn_put (km s) (entry (i + t)) (t =? 0)) in *. clearbody m1.
  destruct (IH (t + 1) (mk_fatsys (vol s) m1 (fnodes s) (inode_cache s) (inode_cache_size s))) as (m' & Hrun & Ha & Hb & Ho); try done; try lia; cbn [km].
  - apply (lfn_at_ext _ (km s)); [|intros t' Ht'; apply Hl; lia]. intros x Hx. unfold entry in *. apply Hp3; [lia|].
    intros Ht0. zify_bool. lia.
  - intros c Hcr. destruct (decide (c < 13 * (needed - t))) as [Hlt|Hge].
    + replace (lfnbuf + c) with (lfnbuf + 13 * (needed - t - 1) + (c - 13 * (needed - t - 1))) by lia.
      rewrite Hp1 by lia. rewrite H3 by lia. rewrite u8_id by apply load8_range. f_equal. lia.
    + rewrite <- Hc by lia. apply load8_ext, Hp3; [lia|]. intros Ht0. zify_bool. lia.
  - intros _. destruct (Z.eqb_spec t 0) as [-> |Hne].
    + rewrite <- (Hp2 eq_refl). f_equal. lia.
    + rewrite <- Hz by lia. apply load8_ext, Hp3; [lia|done].
  - exists m'. replace (t + 1 =? 0) with false in Hrun by (symmetry; apply Z.eqb_neq; lia). cbn [negb] in Hrun. replace (i + t + 1) with (i + (t + 1)) by lia. split; [exact Hrun|].
    split; [done|]. split; [done|]. intros x Hx. rewrite Ho by done. cbn [km]. apply Hp3; [lia|]. intros. lia.
Qed.
Lemma strcmpnc_refl f m a b cs : cstr m a cs -> cstr m b cs -> (length cs < f)%nat -> strcmpnc f m a b = Some 0.
Proof.
  revert a b f. induction cs as [|c cs IH]; intros a b f Ha Hb Hf; (destruct f as [|f]; [cbn in Hf; lia|]); cbn [strcmpnc cstr length] in *.
  - by rewrite Ha, Hb.
  - destruct Ha as (-> & Hc & Ha), Hb as (-> & _ & Hb). rewrite s8_zero, Z.eqb_refl by lia. dec_false (c =? 0). cbn. apply IH; (done || lia).
Qed.

Lemma needed_lfns_bounds len : 0 < len -> 13 * needed_lfns len - 13 < len <= 13 * needed_lfns len.
Proof. intros. unfold needed_lfns. case_bool; dlia. Qed.

(** The bytes that a long name of this length occupies in its buffer. *)
Definition lfn_room (cs : list Z) : Z := 13 * needed_lfns (Z.of_nat (length cs)) + 1.


(** Behind [fat32_unlink] the size of the cache is one too high, and the next
    search for a node that is not cached leaves the list. *)
Lemma short_cache_faults s cache c : Z.of_nat (length cache) < inode_cache_size s ->
  (forall i, i ∈ cache -> exists x, fnodes s !! i = Some x /\ ncluster x <> c) ->
  find_cached cache (inode_cache_size s) c s = Fault.
Proof.
  generalize (inode_cache_size s). induction cache as [|i r IH]; intros z Hz Hc; cbn [find_cached length] in *; dec_false (z =? 0).
  { done. }
  destruct (Hc i ltac:(left)) as (x & Hx & Hne). unfold node, bind. rewrite Hx. apply Z.eqb_neq in Hne. rewrite Hne.
  apply IH; [lia|]. intros j Hj. apply Hc. by right.
Qed.

(** [fat32_rename] gives the directory where the file is meant: since the node
    of a directory has a link, it has deleted the old entry and reports an
    internal error. *)
Lemma rename_always_fails src a b dir s s1 d :
  fat32fs_delete_dirent src dir s = Ok ERROR_NONE s1 -> fnodes s1 !! dir = Some d -> hard_links d <> 0 ->
  fat32_rename src a b dir s = Ok ERROR_FILE_FS_INTERNAL s1.
Proof.
  intros Hd Hn Hh. unfold fat32_rename. rewrite (bind_ok _ _ _ _ _ Hd). cbn [negb Z.eqb ERROR_NONE].
  assert (forall nm, fat32fs_create_dirent dir nm src s1 = Ok ERROR_FILE_FS_INTERNAL s1) as Hc.
  { intros nm. unfold fat32fs_create_dirent, node, bind. rewrite Hn. apply Z.eqb_neq in Hh. by rewrite Hh. }
  rewrite (bind_ok _ _ _ _ _ (Hc b)). cbn. by rewrite (bind_ok _ _ _ _ _ (Hc a)).
Qed.
End FatDir.

(** ** Times *)

(** The time and date words of an entry give back what was put into them,
    the seconds rounded down to an even number, for the years 1980 to 2107. *)
Lemma fat_time_roundtrip h mi s d mo y :
  0 <= h < 24 -> 0 <= mi < 60 -> 0 <= s < 60 -> 0 <= d < 32 -> 0 <= mo < 16 -> 80 <= y < 208 ->
  time_fields (fat_time h mi s) = (h, mi, s - s mod 2) /\ date_fields (fat_date y mo d) = (d, mo, y).
Proof.
  intros. unfold time_fields, fat_time, date_fields, fat_date. rewrite !Z.shiftl_mul_pow2, !Z.shiftr_div_pow2 by lia.
  change (2 ^ 11) with 2048. change (2 ^ 5) with 32. change (2 ^ 9) with 512.
  change 31 with (Z.ones 5). change 2047 with (Z.ones 11). change 511 with (Z.ones 9). rewrite !Z.land_ones by lia.
  rewrite (u16_id (h * 2048)), (u16_id ((y - 80) * 512)) by lia.
  rewrite (lor_low (h * 2048) (mi * 32) 11), (lor_low (h * 2048 + mi * 32) (s / 2) 5) by (change (2 ^ 11) with 2048; change (2 ^ 5) with 32; dlia).
  rewrite (lor_low ((y - 80) * 512) (mo * 32) 9), (lor_low ((y - 80) * 512 + mo * 32) d 5) by (change (2 ^ 9) with 512; change (2 ^ 5) with 32; dlia).
  change (2 ^ 11) with 2048. change (2 ^ 5) with 32. change (2 ^ 9) with 512. unfold u16, u8.
  split; f_equal; [f_equal| |f_equal|]; dlia.
Qed.


Lemma fat_time_roundtrip_witness :
  time_fields (fat_time 23 59 59) = (23, 59, 58) /\ date_fields (fat_date 118 12 31) = (31, 12, 118).
Proof. apply (fat_time_roundtrip 23 59 59 31 12 118); lia. Defined.

(** A name of 14 bytes, so two entries, and the entry of the file behind them. *)
Definition demo_name : list Z := [97; 98; 99; 100; 101; 102; 103; 104; 105; 106; 46; 116; 120; 116].
Definition demo_dir : fatsys mem :=
  mk_fatsys demo_volume (store8 (mem_of 100 (demo_name ++ [0])) (1000 + 64) 65) [] [] 0.

