(* ===== verification/Ext2.v ===== *)
(** ext2: volumes, bitmaps, inodes and their blocks (filesystem/ext2.c).

    The structures that are copied between disk and memory (superblock, block
    group descriptor, inode) are memories of their own, starting at address 0
    and read and written at the offsets of the packed C structures.  [emem] is
    the kernel's memory with the buffers of the callers.  Nodes are the members
    of [enodes], the cache lists them in order.  Only one thread uses the
    volume, so the mutex of the cache is never waited for and is left out.
    [behind] is the word behind the buffer of the triply indirect block and
    [stale] the content of the freed buffer of the singly indirect block: the
    code of the third level reads both. *)

From S2P Require Import Prelude Errors Mem Strings Storage.

Definition EXT2_ROFEATURE_SIZE_64 : Z := 2.
Definition sizeof_superblock : Z := 236.
Definition sizeof_bg_desc : Z := 32.
Definition sizeof_inode : Z := 128.
Definition EXT2_ATTR_DIR : Z := 1.

Record enode : Type := mk_enode {
  elength : Z; eattributes : Z; elinks : Z; ectime : Z; eatime : Z; emtime : Z; inode_nbr : Z; eptrs : list Z }.
Record ext2 (D : Type) : Type := mk_ext2 {
  edrive : D; emem : mem; superblock : mem; superblock_offset : Z; block_size : Z; blockgroup_count : Z;
  read_only : bool; enodes : list enode; ecache : list nat }.
Arguments mk_ext2 {D}. Arguments edrive {D}. Arguments emem {D}. Arguments superblock {D}. Arguments superblock_offset {D}.
Arguments block_size {D}. Arguments blockgroup_count {D}. Arguments read_only {D}. Arguments enodes {D}. Arguments ecache {D}.

(** ** Bitmaps *)

(** The first of the bits [j ..] of a byte that is not set, [n] bits. *)
Fixpoint zero_bit (n : nat) (b j : Z) : option Z :=
  match n with
  | O => None
  | S k => if Z.land b (Z.shiftl 1 j) =? 0 then Some j else zero_bit k b (j + 1)
  end.

(** Sets the first bit that is not set; [i] bytes are in front. *)
Fixpoint mark_zero_loop (bitmap : list Z) (i : Z) : list Z * Z :=
  match bitmap with
  | [] => ([], U32_MAX)
  | b :: r =>
    match zero_bit 8 b 0 with
    | Some j => (Z.lor b (u8 (Z.shiftl 1 j)) :: r, u32 (i * 8 + j))
    | None => let x := mark_zero_loop r (i + 1) in (b :: x.1, x.2)
    end
  end.
Definition ext2_bitmap_mark_first_zero_bit (bitmap : list Z) : list Z * Z := mark_zero_loop bitmap 0.

(** [*(bitmap+byte) &= (0 << inbit)]; [None]: the byte is not in the bitmap. *)
Definition ext2_bitmap_mark_bit_free (bitmap : list Z) (bit : Z) : option (list Z) :=
  let byte := Z.to_nat (bit / 8) in
  match bitmap !! byte with
  | Some b => Some (<[byte := Z.land b (Z.shiftl 0 (bit mod 8))]> bitmap)
  | None => None
  end.

(** ** Requests *)

Record request : Type := mk_request { rsector : Z; rcount : Z; roffset : Z; rbuffer : Z }.

(** [cap] places of the array are left; [None] is a write behind it. *)
Fixpoint ext2_queue_read (cap : nat) (requests : list request) (sector count offset buffer : Z) : option (list request) :=
  match cap with
  | O => None
  | S c =>
    match requests with
    | [] => Some [mk_request sector count offset buffer]
    | r :: rest =>
      if rsector r =? 0 then Some (mk_request sector count offset buffer :: rest)
      else if (rsector r =? u32 (sector - rcount r / BYTES_PER_SECTOR)) && (rbuffer r =? u32 (buffer - rcount r))
      then Some (mk_request (rsector r) (u32 (rcount r + count)) (roffset r) (rbuffer r) :: rest)
      else match ext2_queue_read c rest sector count offset buffer with Some l => Some (r :: l) | None => None end
    end
  end.

(** Sets the pointers of a node. *)
Definition set_ptrs (x : enode) (l : list Z) : enode :=
  mk_enode (elength x) (eattributes x) (elinks x) (ectime x) (eatime x) (emtime x) (inode_nbr x) l.

Section Ext2.
Context {D : Type} `{BlockDevice D}.
Context (behind : Z) (stale : list Z).

Definition set_drive (s : ext2 D) (d : D) : ext2 D :=
  mk_ext2 d (emem s) (superblock s) (superblock_offset s) (block_size s) (blockgroup_count s) (read_only s) (enodes s) (ecache s).
Definition set_emem (s : ext2 D) (m : mem) : ext2 D :=
  mk_ext2 (edrive s) m (superblock s) (superblock_offset s) (block_size s) (blockgroup_count s) (read_only s) (enodes s) (ecache s).
Definition set_super (s : ext2 D) (m : mem) : ext2 D :=
  mk_ext2 (edrive s) (emem s) m (superblock_offset s) (block_size s) (blockgroup_count s) (read_only s) (enodes s) (ecache s).
Definition set_nodes (s : ext2 D) (l : list enode) (c : list nat) : ext2 D :=
  mk_ext2 (edrive s) (emem s) (superblock s) (superblock_offset s) (block_size s) (blockgroup_count s) (read_only s) l c.

Definition on_disk {A} (op : M D A) : M (ext2 D) A :=
  fun s => match op (edrive s) with
           | Ok a d => Ok a (set_drive s d)
           | Fatal e => Fatal e | Fault => Fault | NoFuel => NoFuel
           end.
Definition enode_at (i : nat) : M (ext2 D) enode :=
  fun s => match enodes s !! i with Some x => Ok x s | None => Fault end.
Definition put_node (i : nat) (x : enode) : M (ext2 D) unit := modify (fun s => set_nodes s (<[i := x]> (enodes s)) (ecache s)).

(** Fields of the superblock. *)
Definition blocks_per_blockgroup (s : ext2 D) : Z := load32 (superblock s) 32.
Definition inodes_per_blockgroup (s : ext2 D) : Z := load32 (superblock s) 40.
Definition version_major (s : ext2 D) : Z := load32 (superblock s) 76.
Definition inode_size (s : ext2 D) : Z := if 1 <=? version_major s then load16 (superblock s) 88 else 128.
Definition size_64 (s : ext2 D) (attributes : Z) : bool :=
  (Z.land attributes EXT2_ATTR_DIR =? 0) && (1 <=? version_major s) && negb (Z.land (load32 (superblock s) 100) EXT2_ROFEATURE_SIZE_64 =? 0).

(** The sector of a block. *)
Definition block_sector (s : ext2 D) (block : Z) : Z := u32 (superblock_offset s + u32 (block * (block_size s / 512))).
Definition bg_table (s : ext2 D) : Z := block_sector s (if block_size s =? 1024 then 2 else 1).

Definition read_block (block : Z) : M (ext2 D) (Z * list Z) :=
  s <- get ;; on_disk (bread (block_sector s block) 0 (block_size s)).
Definition write_block (block : Z) (bs : list Z) : M (ext2 D) Z :=
  s <- get ;; on_disk (bwrite (block_sector s block) 0 bs).
Definition read_bg (i : Z) : M (ext2 D) (Z * mem) :=
  s <- get ;; x <- on_disk (bread (bg_table s) (u32 (i * sizeof_bg_desc)) sizeof_bg_desc) ;; ret (x.1, mem_of 0 x.2).
Definition write_bg (i : Z) (bg : mem) : M (ext2 D) Z :=
  s <- get ;; on_disk (bwrite (bg_table s) (u32 (i * sizeof_bg_desc)) (bytes_at bg 0 32)).
Definition write_super : M (ext2 D) Z :=
  s <- get ;; on_disk (bwrite (u32 (superblock_offset s + 2)) 0 (bytes_at (superblock s) 0 236)).

(** The words of a block and back. *)
Definition block_words (s : ext2 D) (bs : list Z) : list Z := words_of (Z.to_nat (block_size s / 4)) bs.
Definition word_bytes (ws : list Z) : list Z := concat (map le32 ws).
Definition zero_words (s : ext2 D) : list Z := replicate (Z.to_nat (block_size s / 4)) 0.

(** ** Allocation *)

(** The bitmap of a group is at offset [map] of its descriptor, the count of
    free ones at [free]; in the superblock it is at [sfree]. *)
Definition take_bit (i map free sfree : Z) : M (ext2 D) (option (mem * Z)) :=
  bg <- read_bg i ;;
  b <- read_block (load32 bg.2 map) ;;
  let x := ext2_bitmap_mark_first_zero_bit b.2 in
  if x.2 =? U32_MAX then ret None else
  write_block (load32 bg.2 map) x.1 ;;;
  write_bg i (store16 bg.2 free (load16 bg.2 free - 1)) ;;;
  modify (fun s => set_super s (store32 (superblock s) sfree (load32 (superblock s) sfree - 1))) ;;;
  write_super ;;;
  ret (Some (bg.2, x.2)).

(** The loop over the groups; [nbr] computes the result from the group, its
    descriptor and the bit. *)
Fixpoint alloc_loop (map free sfree : Z) (nbr : ext2 D -> Z -> mem -> Z -> Z) (n : nat) (i : Z) : M (ext2 D) Z :=
  match n with
  | O => ret 0
  | S k =>
    s <- get ;;
    o <- take_bit i map free sfree ;;
    match o with
    | None => alloc_loop map free sfree nbr k (i + 1)
    | Some (bg, bit) => ret (nbr s i bg bit)
    end
  end.
Definition block_nbr (s : ext2 D) (i : Z) (bg : mem) (bit : Z) : Z := u32 (i * blocks_per_blockgroup s + load32 bg 8 + bit).
Definition ext2_block_alloc : M (ext2 D) Z :=
  s <- get ;; alloc_loop 0 12 12 block_nbr (Z.to_nat (blockgroup_count s)) 0.
Definition inode_number (s : ext2 D) (i : Z) (_ : mem) (bit : Z) : Z := u32 (i * inodes_per_blockgroup s + bit + 1).
Definition ext2_inode_alloc : M (ext2 D) Z :=
  s <- get ;; alloc_loop 4 14 16 inode_number (Z.to_nat (blockgroup_count s)) 0.

(** Marks a bit of the bitmap at offset [map] of a group free. *)
Definition free_bit (group map bit : Z) : M (ext2 D) unit :=
  bg <- read_bg group ;;
  b <- read_block (load32 bg.2 map) ;;
  match ext2_bitmap_mark_bit_free b.2 bit with
  | None => fault
  | Some b' => write_block (load32 bg.2 map) b' ;;; ret tt
  end.
Definition ext2_block_free (block : Z) : M (ext2 D) unit :=
  s <- get ;;
  if blocks_per_blockgroup s =? 0 then fault else
  let group := block / blocks_per_blockgroup s in
  free_bit group 0 (u32 (block - group * blocks_per_blockgroup s)).

(** ** Inodes *)

(** The descriptor of the group of an inode and the offset in its table. *)
Definition locate (inode : Z) : M (ext2 D) (Z * Z * Z) :=
  s <- get ;;
  if inodes_per_blockgroup s =? 0 then fault else
  let group := u32 (inode - 1) / inodes_per_blockgroup s in
  let index := u32 (inode - 1) mod inodes_per_blockgroup s in
  bg <- read_bg group ;;
  ret (bg.1, block_sector s (load32 bg.2 8), u32 (index * inode_size s)).

(** The first node in the cache with this number. *)
Fixpoint cached (cache : list nat) (inode : Z) : M (ext2 D) (option nat) :=
  match cache with
  | [] => ret None
  | i :: r => x <- enode_at i ;; if inode_nbr x =? inode then ret (Some i) else cached r inode
  end.
Definition node_of (s : ext2 D) (inode : Z) (m : mem) : enode :=
  let attributes := if Z.shiftr (load16 m 0) 12 =? 4 then EXT2_ATTR_DIR else 0 in
  mk_enode (Z.lor (load32 m 4) (if size_64 s attributes then Z.shiftl (load32 m 108) 32 else 0)) attributes (load16 m 26)
    (s32 (load32 m 12)) (s32 (load32 m 8)) (s32 (load32 m 16)) inode (words_of 15 (bytes_at m 40 60)).
Definition ext2_std_inode_read (inode : Z) : M (ext2 D) (option nat) :=
  s <- get ;;
  c <- cached (ecache s) inode ;;
  match c with
  | Some i => ret (Some i)
  | None =>
    l <- locate inode ;;
    let '(err, sector, offset) := l in
    if negb (err =? ERROR_NONE) then ret None else
    x <- on_disk (bread sector offset sizeof_inode) ;;
    if negb (x.1 =? ERROR_NONE) then ret None else
    s <- get ;;
    let i := length (enodes s) in
    put (set_nodes s (enodes s ++ [node_of s inode (mem_of 0 x.2)]) (ecache s ++ [i])) ;;;
    ret (Some i)
  end.

(** The number of links is not written. *)
Definition inode_of (s : ext2 D) (x : enode) (m : mem) : mem :=
  let m := store16 m 0 (if Z.land (eattributes x) EXT2_ATTR_DIR =? 0 then 0 else 16384) in
  let m := store32 m 4 (Z.land (elength x) U32_MAX) in
  let m := if size_64 s (eattributes x) then store32 m 108 (u32 (Z.shiftr (elength x) 32)) else m in
  let m := store32 (store32 (store32 m 12 (u32 (ectime x))) 8 (u32 (eatime x))) 16 (u32 (emtime x)) in
  store_bytes m 40 (word_bytes (eptrs x)).
Definition ext2_std_inode_write (i : nat) : M (ext2 D) Z :=
  x <- enode_at i ;;
  l <- locate (inode_nbr x) ;;
  let '(err, sector, offset) := l in
  if negb (err =? ERROR_NONE) then ret err else
  y <- on_disk (bread sector offset sizeof_inode) ;;
  if negb (y.1 =? ERROR_NONE) then ret y.1 else
  s <- get ;;
  on_disk (bwrite sector offset (bytes_at (inode_of s x (mem_of 0 y.2)) 0 128)).

(** ** Reading content *)

(** The loop state: the blocks to skip in the pointers that follow, the offset
    in the first block, the bytes left, the place in the buffer, and the
    requests. *)
Record qstate : Type := mk_q { q_skip : nat; q_offset : Z; q_size : Z; q_loc : Z; q_reqs : list request }.
Inductive queued : Type :=
| Stop (err : Z)
| Send (reqs : list request)
| More (q : qstate)
| Overrun.

(** Queues the blocks of pointers given as (pointer tested, pointer used). *)
Fixpoint queue_ptrs (s : ext2 D) (cap : nat) (buffer : Z) (ptrs : list (Z * Z)) (q : qstate) : queued :=
  match ptrs with
  | [] => More q
  | (p, used) :: r =>
    if p =? 0 then Stop ERROR_FILE_CORRUPTED_FS else
    let bs := block_size s in
    match ext2_queue_read cap (q_reqs q) (block_sector s used) (if bs <=? q_size q then bs else q_size q) (q_offset q) (u32 (buffer + q_loc q)) with
    | None => Overrun
    | Some reqs =>
      let size := if bs <=? q_size q then q_size q - bs else 0 in
      if size =? 0 then Send reqs else queue_ptrs s cap buffer r (mk_q (q_skip q) 0 size (u32 (q_loc q + bs)) reqs)
    end
  end.

(** One run of the loop [for(;i<n;i++)] over the pointers of a block, and
    [i -= n] behind it. *)
Definition queue_group (s : ext2 D) (cap : nat) (buffer : Z) (ptrs : list (Z * Z)) (q : qstate) : queued :=
  match queue_ptrs s cap buffer (drop (q_skip q) ptrs) q with
  | More q' => More (mk_q (q_skip q - length ptrs) (q_offset q') (q_size q') (q_loc q') (q_reqs q'))
  | x => x
  end.
Definition twice (ps : list Z) : list (Z * Z) := map (fun p => (p, p)) ps.

(** A pointer to a block of pointers, whose loop [f] runs. *)
Definition with_pointers (p : Z) (f : list Z -> M (ext2 D) queued) : M (ext2 D) queued :=
  if p =? 0 then ret (Stop ERROR_FILE_CORRUPTED_FS) else
  x <- read_block p ;;
  if negb (x.1 =? ERROR_NONE) then ret (Stop x.1) else
  s <- get ;;
  f (block_words s x.2).

(** A loop over pointers to blocks of pointers. *)
Fixpoint queue_all (f : Z -> qstate -> M (ext2 D) queued) (ps : list Z) (q : qstate) : M (ext2 D) queued :=
  match ps with
  | [] => ret (More q)
  | p :: r => x <- f p q ;; match x with More q' => queue_all f r q' | _ => ret x end
  end.

Definition queue_single (cap : nat) (buffer p : Z) (q : qstate) : M (ext2 D) queued :=
  with_pointers p (fun ws => s <- get ;; ret (queue_group s cap buffer (twice ws) q)).
Definition queue_double (cap : nat) (buffer p : Z) (q : qstate) : M (ext2 D) queued :=
  with_pointers p (fun ws => queue_all (queue_single cap buffer) ws q).

(** The third level: the doubly indirect block is always the word [behind] the
    buffer, and the blocks queued are those of the freed buffer. *)
Definition queue_stale (cap : nat) (buffer p : Z) (q : qstate) : M (ext2 D) queued :=
  with_pointers p (fun ws => s <- get ;; ret (queue_group s cap buffer (combine ws stale) q)).
Definition queue_triple (cap : nat) (buffer p : Z) (q : qstate) : M (ext2 D) queued :=
  with_pointers p (fun ws =>
    queue_all (fun _ => fun q => with_pointers behind (fun ws => queue_all (queue_stale cap buffer) ws q)) ws q).

Definition andthen (c : M (ext2 D) queued) (k : qstate -> M (ext2 D) queued) : M (ext2 D) queued :=
  x <- c ;; match x with More q => k q | _ => ret x end.

(** The queued reads, each tried twice. *)
Fixpoint send_requests (n : nat) (reqs : list request) : M (ext2 D) Z :=
  match n, reqs with
  | S k, r :: rest =>
    if rsector r =? 0 then ret ERROR_NONE else
    x <- on_disk (bread (rsector r) (roffset r) (rcount r)) ;;
    modify (fun s => set_emem s (store_bytes (emem s) (rbuffer r) x.2)) ;;;
    x <- (if x.1 =? ERROR_NONE then ret x else
          x <- on_disk (bread (rsector r) (roffset r) (rcount r)) ;;
          modify (fun s => set_emem s (store_bytes (emem s) (rbuffer r) x.2)) ;;; ret x) ;;
    if negb (x.1 =? ERROR_NONE) then ret x.1 else send_requests k rest
  | _, _ => ret ERROR_NONE
  end.

Definition ext2_inode_read_content (i : nat) (offset size buffer : Z) : M (ext2 D) Z :=
  x <- enode_at i ;;
  if elength x <? u32 (size + offset) then ret ERROR_FILE_OUT else
  s <- get ;;
  let bs := block_size s in
  let cap := Z.to_nat (u32 (size + (if size mod bs =? 0 then 0 else bs)) / bs) in
  let ptr k := nth k (eptrs x) 0 in
  r <- andthen (andthen (andthen
    (ret (queue_group s cap buffer (twice (take 12 (eptrs x))) (mk_q (Z.to_nat (offset / bs)) (offset mod bs) size 0 [])))
    (queue_single cap buffer (ptr 12%nat)))
    (queue_double cap buffer (ptr 13%nat)))
    (queue_triple cap buffer (ptr 14%nat)) ;;
  match r with
  | Stop err => ret err
  | Overrun => fault
  | Send reqs => send_requests cap reqs
  | More q => send_requests cap (q_reqs q)
  end.

(** ** Writing content *)

Record wstate : Type := mk_w { w_skip : nat; w_offset : Z; w_size : Z; w_loc : Z }.
Inductive written : Type :=
| NoSpace
| Written
| Rest (w : wstate).

(** A block for a pointer that is 0; [None] when there is none left. *)
Definition block_for (p : Z) : M (ext2 D) (option Z) :=
  if p =? 0 then b <- ext2_block_alloc ;; ret (if b =? 0 then None else Some b) else ret (Some p).

(** One block of data at [used], and what is left. *)
Definition put_block (buffer used : Z) (w : wstate) : M (ext2 D) wstate :=
  s <- get ;;
  let bs := block_size s in
  let count := if bs <=? w_size w then bs else w_size w in
  on_disk (bwrite (block_sector s used) (w_offset w) (bytes_at (emem s) (u32 (buffer + w_loc w)) (Z.to_nat count))) ;;;
  ret (mk_w (w_skip w) 0 (if bs <=? w_size w then w_size w - bs else 0) (u32 (w_loc w + bs))).

(** The loop over pointers to data; the pointers are returned with the blocks
    that were added. *)
Fixpoint write_ptrs (buffer : Z) (ptrs : list Z) (w : wstate) : M (ext2 D) (list Z * written) :=
  match ptrs with
  | [] => ret ([], Rest w)
  | p :: r =>
    b <- block_for p ;;
    match b with
    | None => ret (ptrs, NoSpace)
    | Some p =>
      w <- put_block buffer p w ;;
      if w_size w =? 0 then ret (p :: r, Written) else
      x <- write_ptrs buffer r w ;;
      ret (p :: x.1, x.2)
    end
  end.
Definition write_group (buffer : Z) (ptrs : list Z) (w : wstate) : M (ext2 D) (list Z * written) :=
  x <- write_ptrs buffer (drop (w_skip w) ptrs) w ;;
  ret (take (w_skip w) ptrs ++ x.1,
       match x.2 with Rest w' => Rest (mk_w (w_skip w - length ptrs) (w_offset w') (w_size w') (w_loc w')) | o => o end).

(** The words of a block of pointers, of a new one zeros. *)
Definition pointers_of (fresh : bool) (p : Z) : M (ext2 D) (list Z) :=
  s <- get ;; if fresh then ret (zero_words s) else x <- read_block p ;; ret (block_words s x.2).

(** A block of pointers to data: nothing is written back when there is no space. *)
Definition write_single (buffer p : Z) (fresh : bool) (w : wstate) : M (ext2 D) written :=
  ws <- pointers_of fresh p ;;
  x <- write_group buffer ws w ;;
  match x.2 with
  | NoSpace => ret NoSpace
  | o => write_block p (word_bytes x.1) ;;; ret o
  end.

(** A loop over pointers to blocks of pointers; also the index where it
    stopped. *)
Fixpoint write_all (f : nat -> Z -> bool -> wstate -> M (ext2 D) written) (j : nat) (ps : list Z) (w : wstate)
  : M (ext2 D) (list Z * nat * written) :=
  match ps with
  | [] => ret ([], j, Rest w)
  | p :: r =>
    b <- block_for p ;;
    match b with
    | None => ret (ps, j, NoSpace)
    | Some p' =>
      o <- f j p' (p =? 0) w ;;
      match o with
      | Rest w' => x <- write_all f (S j) r w' ;; ret (p' :: x.1.1, x.1.2, x.2)
      | _ => ret (p' :: r, j, o)
      end
    end
  end.
Definition write_double (buffer p : Z) (fresh : bool) (w : wstate) : M (ext2 D) written :=
  ws <- pointers_of fresh p ;;
  x <- write_all (fun _ => write_single buffer) 0 ws w ;;
  match x.2 with
  | NoSpace => ret NoSpace
  | o => write_block p (word_bytes x.1.1) ;;; ret o
  end.

(** The third level.  A new block is put at place [j] of the block of pointers
    instead of at the place that is written. *)
Fixpoint write_stale (n : nat) (buffer : Z) (j i : nat) (sib : list Z) (w : wstate) : M (ext2 D) (list Z * written) :=
  match n with
  | O => ret (sib, Rest w)
  | S k =>
    sib <- (if nth i sib 0 =? 0 then b <- ext2_block_alloc ;; ret (if b =? 0 then None else Some (<[j := b]> sib)) else ret (Some sib)) ;;
    match sib with
    | None => ret ([], NoSpace)
    | Some sib =>
      w <- put_block buffer (nth i sib 0) w ;;
      if w_size w =? 0 then ret (sib, Written) else write_stale k buffer j (S i) sib w
    end
  end.
Definition write_single_stale (buffer : Z) (j : nat) (p : Z) (fresh : bool) (w : wstate) : M (ext2 D) written :=
  sib <- pointers_of fresh p ;;
  x <- write_stale (length sib - w_skip w) buffer j (w_skip w) sib w ;;
  match x.2 with
  | NoSpace => ret NoSpace
  | o => write_block p (word_bytes x.1) ;;;
         ret (match o with Rest w' => Rest (mk_w (w_skip w - length sib) (w_offset w') (w_size w') (w_loc w')) | _ => o end)
  end.

(** One turn of the outer loop, the word [behind] being used for the doubly
    indirect block; when it is 0 the new block becomes the triply indirect one
    of the node.  The doubly indirect block is written to the block in [tib] at
    the place where the inner loop stopped. *)
Definition write_dib (buffer : Z) (tib : list Z) (node : nat) (w : wstate) : M (ext2 D) written :=
  b <- block_for behind ;;
  match b with
  | None => ret NoSpace
  | Some b =>
    (if behind =? 0 then
       x <- enode_at node ;;
       put_node node (set_ptrs x (<[14%nat := b]> (eptrs x)))
     else ret tt) ;;;
    dib <- pointers_of (behind =? 0) behind ;;
    x <- write_all (write_single_stale buffer) 0 dib w ;;
    match x.2 with
    | NoSpace => ret NoSpace
    | Rest w' => write_block behind (word_bytes x.1.1) ;;; ret (Rest w')
    | Written => write_block (nth x.1.2 tib 0) (word_bytes x.1.1) ;;; ret Written
    end
  end.
Fixpoint write_dibs (n : nat) (buffer : Z) (tib : list Z) (node : nat) (w : wstate) : M (ext2 D) written :=
  match n with
  | O => ret (Rest w)
  | S k => o <- write_dib buffer tib node w ;; match o with Rest w' => write_dibs k buffer tib node w' | _ => ret o end
  end.

(** The pointer at place [k] of the node, to a block of pointers whose loop
    [f] runs; it is set when it was 0. *)
Definition write_level (node k : nat) (f : Z -> bool -> wstate -> M (ext2 D) written) (w : wstate) : M (ext2 D) written :=
  x <- enode_at node ;;
  let p := nth k (eptrs x) 0 in
  b <- block_for p ;;
  match b with
  | None => ret NoSpace
  | Some p' => put_node node (set_ptrs x (<[k := p']> (eptrs x))) ;;; f p' (p =? 0) w
  end.
Definition write_direct (node : nat) (buffer : Z) (w : wstate) : M (ext2 D) written :=
  x <- enode_at node ;;
  r <- write_group buffer (take 12 (eptrs x)) w ;;
  put_node node (set_ptrs x (r.1 ++ drop 12 (eptrs x))) ;;;
  ret r.2.
Definition write_triple (node : nat) (buffer p : Z) (fresh : bool) (w : wstate) : M (ext2 D) written :=
  tib <- pointers_of fresh p ;;
  o <- write_dibs (length tib) buffer tib node w ;;
  match o with
  | NoSpace => ret NoSpace
  | _ => x <- enode_at node ;; write_block (nth 14 (eptrs x) 0) (word_bytes tib) ;;; ret o
  end.
Definition wthen (c : M (ext2 D) written) (k : wstate -> M (ext2 D) written) : M (ext2 D) written :=
  x <- c ;; match x with Rest w => k w | _ => ret x end.

Definition ext2_inode_write_content (node : nat) (offset size buffer : Z) : M (ext2 D) Z :=
  s <- get ;;
  if read_only s then ret ERROR_FILE_SYSTEM_READ_ONLY else
  x <- enode_at node ;;
  let len := if elength x <? u32 (size + offset) then u32 (size + offset) else elength x in
  put_node node (mk_enode len (eattributes x) (elinks x) (ectime x) (eatime x) (emtime x) (inode_nbr x) (eptrs x)) ;;;
  if len <? offset then ret ERROR_FILE_OUT else
  let bs := block_size s in
  r <- wthen (wthen (wthen
    (write_direct node buffer (mk_w (Z.to_nat (offset / bs)) (offset mod bs) size 0))
    (write_level node 12 (write_single buffer)))
    (write_level node 13 (write_double buffer)))
    (write_level node 14 (write_triple node buffer)) ;;
  match r with
  | NoSpace => ret 1
  | _ => ext2_std_inode_write node
  end.

(** ** Freeing an inode *)

Inductive freed : Type :=
| Corrupt
| AllFreed
| Left (size : Z).

Definition less (s : ext2 D) (size : Z) : Z := if block_size s <=? size then size - block_size s else 0.

(** The loop over pointers to data; the size is tested before each block. *)
Fixpoint free_ptrs (ptrs : list Z) (size : Z) : M (ext2 D) freed :=
  match ptrs with
  | [] => ret (Left size)
  | p :: r =>
    if size =? 0 then ret AllFreed else
    if p =? 0 then ret Corrupt else
    ext2_block_free p ;;;
    s <- get ;;
    free_ptrs r (less s size)
  end.
Definition free_direct (x : enode) : M (ext2 D) freed :=
  r <- free_ptrs (take 12 (eptrs x)) (elength x) ;;
  ret (match r with Left size => if size =? 0 then AllFreed else r | _ => r end).
Definition free_pointers (p : Z) (f : list Z -> M (ext2 D) freed) : M (ext2 D) freed :=
  if p =? 0 then ret Corrupt else
  x <- read_block p ;;
  s <- get ;;
  r <- f (block_words s x.2) ;;
  match r with Corrupt => ret r | _ => ext2_block_free p ;;; ret r end.
Fixpoint free_all (f : Z -> Z -> M (ext2 D) freed) (ps : list Z) (size : Z) : M (ext2 D) freed :=
  match ps with
  | [] => ret (Left size)
  | p :: r => x <- f p size ;; match x with Left size' => free_all f r size' | _ => ret x end
  end.
Definition free_single (p size : Z) : M (ext2 D) freed := free_pointers p (fun ws => free_ptrs ws size).
Definition free_double (p size : Z) : M (ext2 D) freed := free_pointers p (fun ws => free_all free_single ws size).

(** The third level tests the size behind each block. *)
Fixpoint free_ptrs_late (ptrs : list Z) (size : Z) : M (ext2 D) freed :=
  match ptrs with
  | [] => ret (Left size)
  | p :: r =>
    if p =? 0 then ret Corrupt else
    ext2_block_free p ;;;
    s <- get ;;
    if less s size =? 0 then ret AllFreed else free_ptrs_late r (less s size)
  end.
Definition free_single_late (p size : Z) : M (ext2 D) freed := free_pointers p (fun ws => free_ptrs_late ws size).

(** The doubly indirect blocks are all taken from the word [behind], but those
    of [tib] are freed. *)
Fixpoint free_dibs (tib : list Z) (size : Z) : M (ext2 D) freed :=
  match tib with
  | [] => ret (Left size)
  | t :: r =>
    if behind =? 0 then ret Corrupt else
    x <- read_block behind ;;
    s <- get ;;
    o <- free_all free_single_late (block_words s x.2) size ;;
    match o with
    | Corrupt => ret o
    | AllFreed => ext2_block_free t ;;; ret o
    | Left size' => ext2_block_free t ;;; free_dibs r size'
    end
  end.
Definition free_triple (p size : Z) : M (ext2 D) freed := free_pointers p (fun ws => free_dibs ws size).

(** Takes the node out of the cache; the first one has no predecessor. *)
Fixpoint drop_cached (first : bool) (cache : list nat) (inode : Z) : M (ext2 D) (list nat) :=
  match cache with
  | [] => ret []
  | i :: r =>
    x <- enode_at i ;;
    if inode_nbr x =? inode then (if first then fault else ret r)
    else t <- drop_cached false r inode ;; ret (i :: t)
  end.
Definition fthen (c : M (ext2 D) freed) (k : Z -> M (ext2 D) freed) : M (ext2 D) freed :=
  x <- c ;; match x with Left size => k size | _ => ret x end.
Definition ext2_inode_free (node : nat) : M (ext2 D) unit :=
  x <- enode_at node ;;
  let ptr k := nth k (eptrs x) 0 in
  r <- fthen (fthen (fthen (free_direct x)
    (fun size => o <- free_single (ptr 12%nat) size ;; ret (match o with Left z => if z =? 0 then AllFreed else o | _ => o end)))
    (free_double (ptr 13%nat)))
    (free_triple (ptr 14%nat)) ;;
  match r with
  | Corrupt => ret tt
  | _ =>
    s <- get ;;
    if inodes_per_blockgroup s =? 0 then fault else
    let group := u32 (inode_nbr x - 1) / inodes_per_blockgroup s in
    free_bit group 4 (u32 (inode_nbr x - 1 - group * inodes_per_blockgroup s)) ;;;
    s <- get ;;
    c <- drop_cached true (ecache s) (inode_nbr x) ;;
    modify (fun s => set_nodes s (enodes s) c)
  end.
End Ext2.

(** ** Bitmaps: properties *)

(** Bit [k] of a bitmap. *)
Definition bit_of (bitmap : list Z) (k : Z) : bool := Z.testbit (nth (Z.to_nat (k / 8)) bitmap 0) (k mod 8).

Lemma land_bit b j : 0 <= j -> (Z.land b (Z.shiftl 1 j) =? 0) = negb (Z.testbit b j).
Proof. intros Hj. apply land_mask_bit; [done|apply Z.shiftl_1_l]. Qed.

Lemma zero_bit_spec n b j : 0 <= j ->
  match zero_bit n b j with
  | Some k => j <= k < j + Z.of_nat n /\ Z.testbit b k = false /\ forall i, j <= i < k -> Z.testbit b i = true
  | None => forall i, j <= i < j + Z.of_nat n -> Z.testbit b i = true
  end.
Proof.
  revert j. induction n as [|n IH]; intros j Hj; cbn [zero_bit]; [lia|]. rewrite land_bit by done.
  destruct (Z.testbit b j) eqn:E; cbn [negb].
  - specialize (IH (j + 1) ltac:(lia)). destruct (zero_bit n b (j + 1)) as [k|].
    + destruct IH as (Hk & Hf & Ht). split; [lia|]. split; [done|]. intros i Hi. destruct (decide (i = j)) as [-> |]; [done|apply Ht; lia].
    + intros i Hi. destruct (decide (i = j)) as [-> |]; [done|apply IH; lia].
  - split; [lia|]. split; [done|]. intros i Hi. lia.
Qed.

Lemma bit_of_head b r k : 0 <= k < 8 -> bit_of (b :: r) k = Z.testbit b k.
Proof. intros. unfold bit_of. by rewrite Z.div_small, Z.mod_small by lia. Qed.
Lemma bit_of_tail b r k : 8 <= k -> bit_of (b :: r) k = bit_of r (k - 8).
Proof.
  intros. unfold bit_of. replace (Z.to_nat (k / 8)) with (S (Z.to_nat ((k - 8) / 8))) by dlia.
  cbn [nth]. f_equal. dlia.
Qed.

Lemma set_bit b j i : 0 <= j < 8 -> 0 <= i -> Z.testbit (Z.lor b (u8 (Z.shiftl 1 j))) i = (i =? j) || Z.testbit b i.
Proof.
  intros Hj Hi. rewrite Z.shiftl_1_l. rewrite u8_id by (split; [apply Z.pow_nonneg; lia|]; change 256 with (2 ^ 8); apply Z.pow_lt_mono_r; lia).
  rewrite Z.lor_spec. destruct (Z.eqb_spec i j) as [-> |].
  - rewrite Z.pow2_bits_true by lia. apply orb_true_r.
  - rewrite Z.pow2_bits_false by lia. apply orb_false_r.
Qed.

Lemma mark_zero_spec bitmap i : 0 <= i -> (i + Z.of_nat (length bitmap)) * 8 <= U32_MAX ->
  let x := mark_zero_loop bitmap i in
  length x.1 = length bitmap /\
  ((x.2 = U32_MAX /\ x.1 = bitmap /\ forall k, 0 <= k < Z.of_nat (length bitmap) * 8 -> bit_of bitmap k = true) \/
   exists k, x.2 = i * 8 + k /\ 0 <= k < Z.of_nat (length bitmap) * 8 /\ bit_of bitmap k = false /\
     (forall j, 0 <= j < k -> bit_of bitmap j = true) /\
     forall j, 0 <= j < Z.of_nat (length bitmap) * 8 -> bit_of x.1 j = (j =? k) || bit_of bitmap j).
Proof.
  revert i. induction bitmap as [|b r IH]; intros i Hi Hb; cbn [mark_zero_loop length] in *.
  { split; [done|]. left. split; [done|]. split; [done|]. intros; lia. }
  pose proof (zero_bit_spec 8 b 0 ltac:(lia)) as Hz. destruct (zero_bit 8 b 0) as [k|].
  - destruct Hz as (Hk & Hf & Ht). cbn in Hk. unfold U32_MAX in Hb. cbn [fst snd length]. split; [done|]. right. exists k.
    rewrite u32_id by lia. split; [done|]. split; [lia|]. split; [by rewrite bit_of_head by lia|].
    split; [intros j Hj; rewrite bit_of_head by lia; apply Ht; lia|].
    intros j Hj. destruct (decide (j < 8)).
    + rewrite !bit_of_head by lia. apply set_bit; lia.
    + rewrite !bit_of_tail by lia. by dec_false (j =? k).
  - cbn in Hz. destruct (IH (i + 1) ltac:(lia) ltac:(lia)) as [Hlen Hc]. cbn [fst snd length]. split; [by rewrite Hlen|].
    destruct Hc as [(H2 & H1 & Hall)|(k & H2 & Hk & Hf & Ht & Hset)].
    + left. split; [done|]. split; [by rewrite H1|]. intros k Hk. destruct (decide (k < 8)).
      * rewrite bit_of_head by lia. apply Hz. lia.
      * rewrite bit_of_tail by lia. apply Hall. lia.
    + right. exists (k + 8). split; [rewrite H2; lia|]. split; [lia|]. split; [rewrite bit_of_tail by lia; rewrite <- Hf; f_equal; lia|].
      split.
      * intros j Hj. destruct (decide (j < 8)); [rewrite bit_of_head by lia; apply Hz; lia|rewrite bit_of_tail by lia; apply Ht; lia].
      * intros j Hj. destruct (decide (j < 8)); [rewrite !bit_of_head by lia; by dec_false (j =? k + 8)|].
        rewrite !bit_of_tail by lia. rewrite Hset by lia. f_equal. destruct (Z.eqb_spec (j - 8) k); destruct (Z.eqb_spec j (k + 8)); lia || done.
Qed.

(** [ext2_bitmap_mark_first_zero_bit] finds the first bit that is not set,
    sets it and changes no other bit; when all bits are set it changes nothing
    and reports that.  (Bitmaps of less than 512 MiB; a block has at most a few
    KiB.) *)
Lemma bitmap_first_zero_correct bitmap : Z.of_nat (length bitmap) * 8 <= U32_MAX ->
  let x := ext2_bitmap_mark_first_zero_bit bitmap in
  length x.1 = length bitmap /\
  ((x.2 = U32_MAX /\ x.1 = bitmap /\ forall k, 0 <= k < Z.of_nat (length bitmap) * 8 -> bit_of bitmap k = true) \/
   (0 <= x.2 < Z.of_nat (length bitmap) * 8 /\ bit_of bitmap x.2 = false /\
    (forall j, 0 <= j < x.2 -> bit_of bitmap j = true) /\
    forall j, 0 <= j < Z.of_nat (length bitmap) * 8 -> bit_of x.1 j = (j =? x.2) || bit_of bitmap j)).
Proof.
  intros Hb. destruct (mark_zero_spec bitmap 0 ltac:(lia) ltac:(lia)) as [Hl [Hc|(k & H2 & Hc)]]; (split; [done|]); [by left|right].
  unfold ext2_bitmap_mark_first_zero_bit. rewrite H2, Z.mul_0_l, Z.add_0_l. done.
Qed.
Lemma bitmap_first_zero_correct_witness :
  ext2_bitmap_mark_first_zero_bit [255; 251] = ([255; 255], 10) /\ bit_of [255; 255] 10 = (10 =? 10) || bit_of [255; 251] 10.
Proof.
  destruct (bitmap_first_zero_correct [255; 251] ltac:(cbn; unfold U32_MAX; lia)) as [_ [(Hf & _)|(_ & _ & _ & Hset)]].
  - exfalso. vm_compute in Hf. discriminate.
  - split; [vm_compute; reflexivity|]. apply (Hset 10). cbn. lia.
Defined.

(** Freeing one bit frees all eight of its byte. *)
Lemma bit_free_clears_byte bitmap bit bitmap' : ext2_bitmap_mark_bit_free bitmap bit = Some bitmap' -> 0 <= bit ->
  forall j, 0 <= j < 8 -> bit_of bitmap' (bit / 8 * 8 + j) = false.
Proof.
  unfold ext2_bitmap_mark_bit_free. destruct (bitmap !! Z.to_nat (bit / 8)) as [b|] eqn:E; [|done]. intros [= <-] Hb j Hj.
  unfold bit_of. rewrite Z.shiftl_0_l, Z.land_0_r. replace ((bit / 8 * 8 + j) / 8) with (bit / 8) by dlia.
  rewrite nth_lookup, list_lookup_insert_eq by (by eapply lookup_lt_Some). cbn. apply Z.bits_0.
Qed.
