(* ===== verification/Ext2Read.v ===== *)
(** ext2: what reading the content of a file returns (filesystem/ext2.c).

    The reference is the list of the blocks of a file, direct ones and those of
    the singly and doubly indirect blocks on the disk, and their bytes one
    after the other.  The queue of requests, merged where blocks are
    contiguous, is shown to stand for a piece of these bytes at every step. *)

From S2P Require Import Prelude Errors Mem Storage Ext2.

(** The requests [reqs] fill memory from [a] on with the bytes [bs] of the
    medium [c]. *)
Fixpoint planned (c : mem) (reqs : list request) (a : Z) (bs : list Z) : Prop :=
  match reqs with
  | [] => bs = []
  | r :: rest =>
    (rbuffer r = a /\ 0 < rsector r /\ 0 < rcount r /\ roffset r = 0 /\ rsector r + rcount r / 512 + 1 < 268435456) /\
    exists t, bs = bytes_at c (rsector r * 512) (Z.to_nat (rcount r)) ++ t /\ planned c rest (a + rcount r) t
  end.
Definition whole (reqs : list request) : Prop := Forall (fun r => rcount r mod 512 = 0) reqs.

Lemma planned_nil c reqs a : planned c reqs a [] -> reqs = [].
Proof.
  destruct reqs as [|r rest]; [done|]. intros [(_ & _ & Hc & _) (t & He & _)]. exfalso.
  apply (f_equal length) in He. rewrite length_app, length_bytes_at in He. cbn in He. lia.
Qed.

Lemma queue_read_ok c reqs : forall cap a bs sector count, planned c reqs a bs -> whole reqs ->
  0 < sector -> 0 < count -> sector + count / 512 + 1 < 268435456 -> (length reqs < cap)%nat ->
  0 <= a -> a + Z.of_nat (length bs) + count < 4294967296 ->
  exists reqs', ext2_queue_read cap reqs sector count 0 (a + Z.of_nat (length bs)) = Some reqs' /\
    planned c reqs' a (bs ++ bytes_at c (sector * 512) (Z.to_nat count)) /\ (length reqs' <= S (length reqs))%nat /\
    (count mod 512 = 0 -> whole reqs').
Proof.
  unfold whole. induction reqs as [|r rest IH]; intros cap a bs sector count Hp Hw Hs Hc Hb Hcap Ha Hlt;
    (destruct cap as [|cap]; [cbn in Hcap; lia|]); cbn [ext2_queue_read].
  { cbn in Hp. subst bs. cbn [length]. rewrite Z.add_0_r. eexists. split; [done|]. split; [|split; [done|intros; by repeat constructor]].
    cbn. split; [done|]. exists []. split; [|done]. by rewrite app_nil_r. }
  destruct Hp as [(Hrb & Hrs & Hrc & Hro & Hrm) (t & -> & Ht)]. inversion_clear Hw as [|? ? Hm Hwr].
  rewrite length_app, length_bytes_at in *. dec_false (rsector r =? 0).
  destruct ((rsector r =? u32 (sector - rcount r / BYTES_PER_SECTOR)) && (rbuffer r =? u32 (a + Z.of_nat (Z.to_nat (rcount r) + length t) - rcount r))) eqn:E.
  - rewrite (u32_id (rcount r + count)) by lia. zify_bool. unfold u32, BYTES_PER_SECTOR in *.
    rewrite (Z.mod_small (a + _ - _)) in * by lia.
    assert (t = []) as -> by (apply length_zero_iff_nil; lia).
    apply planned_nil in Ht as ->. assert (sector = rsector r + rcount r / 512) as -> by dlia.
    eexists. split; [done|]. split; [|split; [cbn; lia|]].
    + cbn. split; [split; [done|]; split; [done|]; split; [lia|]; split; [done|dlia]|]. exists []. split; [|done].
      rewrite !app_nil_r, Z2Nat.inj_add, bytes_at_app by lia. f_equal. f_equal. rewrite Z2Nat.id by lia. dlia.
    + intros Hcm. repeat constructor. cbn. dlia.
  - cbn [length] in Hcap. destruct (IH cap (a + rcount r) t sector count) as (l & Hrun & Hpl & Hlen & Hwl); try done; try lia.
    replace (a + Z.of_nat (Z.to_nat (rcount r) + length t)) with (a + rcount r + Z.of_nat (length t)) by lia. rewrite Hrun.
    eexists. split; [done|]. split; [|split; [cbn; lia|]].
    + cbn. split; [done|]. eexists. split; [by rewrite <- app_assoc|done].
    + intros Hcm. constructor; [done|by apply Hwl].
Qed.

Section Ext2Read.
Context {D : Type} `{BlockDevice D}.
Context (behind : Z) (stale : list Z).

(** [s'] differs from [s] in the state of the drive, not in what is on it. *)
Definition same_disk (s s' : ext2 D) : Prop :=
  s' = set_drive s (edrive s') /\ bcontent (edrive s') = bcontent (edrive s) /\ bworking (edrive s').

Lemma same_disk_trans s1 s2 s3 : same_disk s1 s2 -> same_disk s2 s3 -> same_disk s1 s3.
Proof. intros (E1 & C1 & _) (E2 & C2 & W2). split; [rewrite E2, E1; done|]. split; [congruence|done]. Qed.

Lemma read_ok s sector count : bworking (edrive s) -> 0 <= sector -> 0 <= count -> sector + count / 512 + 1 < 268435456 ->
  exists s', on_disk (bread sector 0 count) s = Ok (ERROR_NONE, bytes_at (bcontent (edrive s)) (sector * 512) (Z.to_nat count)) s' /\ same_disk s s'.
Proof.
  intros Hw Hs Hc Hb. destruct (bread_law (edrive s) sector 0 count) as (d' & Hrun & Hw' & Hc'); try done; try lia.
  { rewrite Zdiv_0_l. lia. }
  { by left. }
  exists (set_drive s d'). unfold on_disk. rewrite Hrun, Z.add_0_r. done.
Qed.

Lemma send_ok reqs : forall n s a bs, planned (bcontent (edrive s)) reqs a bs -> (length reqs <= n)%nat -> bworking (edrive s) ->
  exists s', send_requests n reqs s = Ok ERROR_NONE s' /\ same_disk (set_emem s (store_bytes (emem s) a bs)) s'.
Proof.
  induction reqs as [|r rest IH]; intros n s a bs Hp Hn Hw.
  { cbn in Hp. subst bs. exists s. split; [by destruct n|]. split; [by destruct s|done]. }
  destruct n as [|n]; [cbn in Hn; lia|]. destruct Hp as [(Hrb & Hrs & Hrc & Hro & Hrm) (t & -> & Ht)]. cbn [send_requests].
  dec_false (rsector r =? 0). rewrite Hro. destruct (read_ok s (rsector r) (rcount r) Hw ltac:(lia) ltac:(lia) Hrm) as (s1 & Hrun & Es & Hc & Hw1).
  rewrite (bind_ok _ _ _ _ _ Hrun). unfold modify at 1. unfold bind at 1. cbn [fst snd ERROR_NONE Z.eqb]. unfold ret at 1. unfold bind at 1. cbn [fst negb Z.eqb].
  set (s2 := set_emem s1 _). destruct (IH n s2 (a + rcount r) t) as (s' & Hrun' & Es' & Hc' & Hw').
  { subst s2. cbn. by rewrite Hc. }
  { cbn in Hn. lia. }
  { done. }
  exists s'. split; [exact Hrun'|]. split; [|split; [|done]].
  - rewrite Es'. subst s2. rewrite Es, Hrb. unfold set_drive, set_emem. cbn. f_equal.
    rewrite store_bytes_app, length_bytes_at. do 2 f_equal. lia.
  - rewrite Hc'. subst s2. cbn. by rewrite Hc.
Qed.

(** The bytes of a block, and that the driver can read it. *)
Definition block_bytes (s : ext2 D) (b : Z) : list Z :=
  bytes_at (bcontent (edrive s)) (block_sector s b * 512) (Z.to_nat (block_size s)).
Definition block_ok (s : ext2 D) (b : Z) : Prop :=
  b <> 0 /\ 0 < block_sector s b /\ block_sector s b + block_size s / 512 + 1 < 268435456.

(** The number of blocks for a number of bytes. *)
Definition blocks_for (s : ext2 D) (size : Z) : Z := (size + block_size s - 1) / block_size s.

(** What the queue is for: with the blocks [X] still to come, it ends with the
    requests for [F]. *)
Record queueing (s : ext2 D) (cap : nat) (buffer : Z) (F X : list Z) (q : qstate) : Prop := {
  qi_bs : 0 < block_size s;
  qi_sectors : block_size s mod 512 = 0;
  qi_data : exists bs, planned (bcontent (edrive s)) (q_reqs q) buffer bs /\ Z.of_nat (length bs) = q_loc q /\
    F = bs ++ take (Z.to_nat (q_size q)) (concat (map (block_bytes s) X));
  qi_whole : whole (q_reqs q);
  qi_offset : q_offset q = 0;
  qi_size : 0 < q_size q;
  qi_len : blocks_for s (q_size q) <= Z.of_nat (length X);
  qi_ok : Forall (block_ok s) (take (Z.to_nat (blocks_for s (q_size q))) X);
  qi_cap : Z.of_nat (length (q_reqs q)) + blocks_for s (q_size q) <= Z.of_nat cap;
  qi_room : 0 <= buffer /\ buffer + q_loc q + q_size q < 4294967296 }.

Lemma blocks_for_pos s size : 0 < block_size s -> 0 < size -> 0 < blocks_for s size.
Proof. intros. unfold blocks_for. apply Z.div_str_pos. lia. Qed.
Lemma blocks_for_less s size : 0 < block_size s -> blocks_for s (size - block_size s) = blocks_for s size - 1.
Proof.
  intros. unfold blocks_for. replace (size + block_size s - 1) with (size - block_size s + block_size s - 1 + 1 * block_size s) by lia.
  rewrite Z.div_add by lia. lia.
Qed.

Lemma bytes_at_take m a n k : (n <= k)%nat -> take n (bytes_at m a k) = bytes_at m a n.
Proof.
  intros. replace k with (n + (k - n))%nat by lia. rewrite bytes_at_app. rewrite take_app_le by (rewrite length_bytes_at; lia).
  apply take_ge. rewrite length_bytes_at. lia.
Qed.

Lemma queue_ptrs_ok s cap buffer F L R q : queueing s cap buffer F (L ++ R) q ->
  match queue_ptrs s cap buffer (twice L) q with
  | Send reqs => planned (bcontent (edrive s)) reqs buffer F /\ (length reqs <= cap)%nat
  | More q' => queueing s cap buffer F R q' /\ blocks_for s (q_size q') = blocks_for s (q_size q) - Z.of_nat (length L)
  | _ => False
  end.
Proof.
  revert q. induction L as [|p L IH]; intros q Hq; [split; [done|cbn; lia]|]. cbn [twice map queue_ptrs app] in *.
  destruct Hq as [Hbs Hsec (bs & Hp & Hl & HF) Hw Ho Hs Hlen Hok Hcap Hroom].
  pose proof (blocks_for_pos s (q_size q) Hbs Hs) as Hpos.
  replace (Z.to_nat (blocks_for s (q_size q))) with (S (Z.to_nat (blocks_for s (q_size q) - 1))) in Hok by lia.
  cbn [firstn] in Hok. apply Forall_cons in Hok as [(Hp0 & Hps & Hpm) Hok]. apply Z.eqb_neq in Hp0. rewrite Hp0, Ho.
  rewrite u32_id by lia. rewrite <- Hl. cbn [map concat] in HF.
  set (count := if block_size s <=? q_size q then block_size s else q_size q) in *.
  assert (0 < count <= block_size s /\ count <= q_size q) as Hcount by (subst count; case_bool; lia).
  destruct (queue_read_ok (bcontent (edrive s)) (q_reqs q) cap buffer bs (block_sector s p) count) as (reqs & -> & Hpl & Hrl & Hwl); try done; try lia.
  { pose proof (Z.div_le_mono count (block_size s) 512 ltac:(lia) ltac:(lia)). lia. }
  destruct (Z.leb_spec (block_size s) (q_size q)) as [Hle|Hgt].
  - subst count. destruct (Z.eqb_spec (q_size q - block_size s) 0) as [He|Hne].
    + split; [|lia]. rewrite HF. replace (q_size q) with (block_size s) by lia.
      rewrite take_app_le by (unfold block_bytes; rewrite length_bytes_at; lia). rewrite take_ge by (unfold block_bytes; rewrite length_bytes_at; lia). done.
    + assert (blocks_for s (q_size q - block_size s) = blocks_for s (q_size q) - 1) as Hbf by by apply blocks_for_less.
      specialize (IH (mk_q (q_skip q) 0 (q_size q - block_size s) (u32 (Z.of_nat (length bs) + block_size s)) reqs)).
      cbn [q_size] in IH. rewrite Hbf in IH. replace (blocks_for s (q_size q) - Z.of_nat (length (p :: L)))
        with (blocks_for s (q_size q) - 1 - Z.of_nat (length L)) by (cbn; lia).
      apply IH. split; cbn [q_reqs q_loc q_size q_offset q_skip]; rewrite ?Hbf; try done; try lia.
      * exists (bs ++ block_bytes s p). split; [done|]. rewrite u32_id by lia. split.
        { rewrite length_app. unfold block_bytes. rewrite length_bytes_at. lia. }
        rewrite HF, <- app_assoc. f_equal. rewrite take_app_ge by (unfold block_bytes; rewrite length_bytes_at; lia).
        unfold block_bytes at 2. rewrite length_bytes_at. do 2 f_equal. lia.
      * by apply Hwl.
      * cbn [length] in Hlen. lia.
      * rewrite u32_id by lia. lia.
  - subst count. rewrite Z.eqb_refl. split; [|lia]. rewrite HF.
    rewrite take_app_le by (unfold block_bytes; rewrite length_bytes_at; lia). unfold block_bytes. rewrite bytes_at_take by lia. done.
Qed.

(** The blocks from the start of the pointers to come to the last one needed. *)
Definition blocks_left (s : ext2 D) (q : qstate) : Z := Z.of_nat (q_skip q) + blocks_for s (q_size q).

Lemma queue_group_ok s cap buffer F G R q : queueing s cap buffer F (drop (q_skip q) (G ++ R)) q ->
  match queue_group s cap buffer (twice G) q with
  | Send reqs => planned (bcontent (edrive s)) reqs buffer F /\ (length reqs <= cap)%nat
  | More q' => queueing s cap buffer F (drop (q_skip q') R) q' /\ blocks_left s q' = blocks_left s q - Z.of_nat (length G)
  | _ => False
  end.
Proof.
  intros Hq. rewrite drop_app in Hq. apply queue_ptrs_ok in Hq. unfold queue_group.
  replace (drop (q_skip q) (twice G)) with (twice (drop (q_skip q) G)) by (unfold twice; symmetry; apply skipn_map).
  destruct (queue_ptrs s cap buffer (twice (drop (q_skip q) G)) q) as [| |q'|]; try done.
  destruct Hq as [[? ? ? ? ? ? ? ? ? ?] Hn]. unfold twice, blocks_left. rewrite length_map. rewrite length_drop in Hn.
  split; [by split|]. cbn. lia.
Qed.
(** The outcome of a level whose pointers stand in front of [R] and are [n]. *)
Definition outcome (s : ext2 D) (cap : nat) (buffer : Z) (F R : list Z) (n : Z) (q : qstate) (x : queued) : Prop :=
  match x with
  | Send reqs => planned (bcontent (edrive s)) reqs buffer F /\ (length reqs <= cap)%nat
  | More q' => queueing s cap buffer F (drop (q_skip q') R) q' /\ blocks_left s q' = blocks_left s q - n
  | _ => False
  end.

(** The pointers in a block of pointers. *)
Definition ind_words (s : ext2 D) (p : Z) : list Z := block_words s (block_bytes s p).
Lemma words_of_length n bs : length (words_of n bs) = n.
Proof. revert bs. induction n as [|n IH]; intros bs; [done|]. cbn. by rewrite IH. Qed.
Lemma ind_words_length s p : length (ind_words s p) = Z.to_nat (block_size s / 4).
Proof. apply words_of_length. Qed.

(** A drive in another state with the same content. *)
Lemma same_disk_block_bytes s s' : same_disk s s' -> block_bytes s' = block_bytes s.
Proof. intros (E & C & _). unfold block_bytes. rewrite C. by rewrite E. Qed.
Lemma same_disk_words s s' : same_disk s s' -> ind_words s' = ind_words s.
Proof. intros Hs. unfold ind_words, block_words. rewrite (same_disk_block_bytes _ _ Hs). destruct Hs as [E _]. by rewrite E. Qed.
Lemma same_disk_queueing s s' cap buffer F X q : same_disk s s' -> queueing s cap buffer F X q -> queueing s' cap buffer F X q.
Proof.
  intros Hs [? ? Hd ? ? ? ? Hok ? ?]. pose proof (same_disk_block_bytes _ _ Hs) as Hb. destruct Hs as (E & C & _).
  split; rewrite ?Hb, ?C; try (rewrite E; done); done.
Qed.
Lemma same_disk_outcome s s' cap buffer F R n q x : same_disk s s' -> outcome s' cap buffer F R n q x -> outcome s cap buffer F R n q x.
Proof.
  intros (E & C & W) Ho. destruct x as [| |q'|]; cbn in *; [done|by rewrite <- C| |done].
  destruct Ho as [Hq Hl]. split; [|rewrite E in Hl; exact Hl].
  destruct Hq as [? ? Hd ? ? ? ? Hok ? ?]. assert (block_bytes s' = block_bytes s) as Hb by (apply same_disk_block_bytes; done).
  rewrite Hb, C in Hd. rewrite E in *. by split.
Qed.

Lemma queue_group_same s s' cap buffer ps q : same_disk s s' -> queue_group s' cap buffer ps q = queue_group s cap buffer ps q.
Proof.
  intros [E _]. unfold queue_group. assert (forall l q, queue_ptrs s' cap buffer l q = queue_ptrs s cap buffer l q) as ->; [|done].
  assert (block_size s' = block_size s /\ forall u, block_sector s' u = block_sector s u) as [Hb Hu] by (by rewrite E).
  induction l as [|[p u] l IH]; intros q0; [done|]. cbn [queue_ptrs]. rewrite Hb, Hu.
  by repeat case_match.
Qed.

Lemma with_pointers_ok s p f : block_ok s p -> bworking (edrive s) -> 0 < block_size s ->
  exists s', with_pointers p f s = f (ind_words s p) s' /\ same_disk s s'.
Proof.
  intros (Hp & Hs & Hb) Hw Hbs. apply Z.eqb_neq in Hp. unfold with_pointers. rewrite Hp.
  destruct (read_ok s (block_sector s p) (block_size s) Hw ltac:(lia) ltac:(lia) Hb) as (s' & Hrun & Hsd).
  exists s'. split; [|done]. unfold read_block, get, bind in *. rewrite Hrun. cbn. destruct Hsd as [E _]. rewrite E at 1. done.
Qed.

Lemma queue_single_ok s cap buffer F R p q : block_ok s p -> bworking (edrive s) ->
  queueing s cap buffer F (drop (q_skip q) (ind_words s p ++ R)) q ->
  exists x s', queue_single cap buffer p q s = Ok x s' /\ same_disk s s' /\ outcome s cap buffer F R (block_size s / 4) q x.
Proof.
  intros Hp Hw Hq. pose proof (qi_bs _ _ _ _ _ _ Hq) as Hbs.
  destruct (with_pointers_ok s p (fun ws => s <- get ;; ret (queue_group s cap buffer (twice ws) q)) Hp Hw Hbs) as (s' & Hrun & Hs).
  exists (queue_group s cap buffer (twice (ind_words s p)) q), s'. split; [|split; [done|]].
  - unfold queue_single. rewrite Hrun. unfold bind, get, ret. by rewrite (queue_group_same s s').
  - apply queue_group_ok in Hq. rewrite ind_words_length, Z2Nat.id in Hq; [done|]. apply Z.div_pos; lia.
Qed.

Lemma queue_all_ok s cap buffer F R ps q : bworking (edrive s) ->
  (forall j p, ps !! j = Some p -> Z.of_nat j * (block_size s / 4) < blocks_left s q -> block_ok s p) ->
  queueing s cap buffer F (drop (q_skip q) (concat (map (ind_words s) ps) ++ R)) q ->
  exists x s', queue_all (queue_single cap buffer) ps q s = Ok x s' /\ same_disk s s' /\
    outcome s cap buffer F R (Z.of_nat (length ps) * (block_size s / 4)) q x.
Proof.
  revert s q. induction ps as [|p ps IH]; intros s q Hw Hp Hq; cbn [queue_all map concat app] in *.
  { exists (More q), s. split; [done|]. split; [by destruct s|]. cbn. split; [done|lia]. }
  rewrite <- app_assoc in Hq. pose proof (qi_bs _ _ _ _ _ _ Hq) as Hbs.
  pose proof (blocks_for_pos s (q_size q) Hbs (qi_size _ _ _ _ _ _ Hq)) as Hpos.
  destruct (queue_single_ok s cap buffer F _ p q (Hp 0%nat p eq_refl ltac:(unfold blocks_left; lia)) Hw Hq) as (x & s1 & Hrun & Hs & Ho).
  rewrite (bind_ok _ _ _ _ _ Hrun). destruct x as [| |q'|]; try (exists x || done).
  - eexists _, s1. split; [reflexivity|]. split; [done|]. exact Ho.
  - destruct Ho as [Hq' Hl]. destruct (IH s1 q') as (x & s2 & Hrun2 & Hs2 & Ho2).
    + apply Hs.
    + intros j p' Hj Hlt. assert (block_ok s p') as Hok.
      { apply (Hp (S j) p' Hj). destruct Hs as [E _]. rewrite E in Hlt. unfold blocks_left, blocks_for in *. cbn [block_size set_drive] in Hlt. lia. }
      destruct Hs as [E _]. by rewrite E.
    + rewrite (same_disk_words _ _ Hs). by apply (same_disk_queueing s s1).
    + exists x, s2. split; [done|]. split; [by eapply same_disk_trans|].
      apply (same_disk_outcome s s1 _ _ _ _ _ _ _ Hs) in Ho2. destruct Hs as [E _]. rewrite E in Ho2. cbn [block_size set_drive] in Ho2.
      destruct x as [| |q2|]; cbn in *; try done. destruct Ho2 as [? Hl2]. split; [done|]. lia.
Qed.
Lemma queue_double_ok s cap buffer F R p q : block_ok s p -> bworking (edrive s) ->
  (forall j d, ind_words s p !! j = Some d -> Z.of_nat j * (block_size s / 4) < blocks_left s q -> block_ok s d) ->
  queueing s cap buffer F (drop (q_skip q) (concat (map (ind_words s) (ind_words s p)) ++ R)) q ->
  exists x s', queue_double cap buffer p q s = Ok x s' /\ same_disk s s' /\
    outcome s cap buffer F R (block_size s / 4 * (block_size s / 4)) q x.
Proof.
  intros Hp Hw Hd Hq. pose proof (qi_bs _ _ _ _ _ _ Hq) as Hbs.
  destruct (with_pointers_ok s p (fun ws => queue_all (queue_single cap buffer) ws q) Hp Hw Hbs) as (s1 & Hrun & Hs).
  unfold queue_double. rewrite Hrun. pose proof Hs as (E & _ & Hw1).
  destruct (queue_all_ok s1 cap buffer F R (ind_words s p) q Hw1) as (x & s2 & Hrun2 & Hs2 & Ho).
  - rewrite E. exact Hd.
  - rewrite (same_disk_words _ _ Hs). by apply (same_disk_queueing s s1).
  - exists x, s2. split; [done|]. split; [by eapply same_disk_trans|].
    apply (same_disk_outcome s s1 _ _ _ _ _ _ _ Hs) in Ho. rewrite ind_words_length, Z2Nat.id in Ho by (apply Z.div_pos; lia).
    rewrite E in Ho. exact Ho.
Qed.

(** The blocks of a file and its bytes. *)
Definition file_blocks (s : ext2 D) (x : enode) : list Z :=
  take 12 (eptrs x) ++ ind_words s (nth 12 (eptrs x) 0) ++ concat (map (ind_words s) (ind_words s (nth 13 (eptrs x) 0))).
Definition file_bytes (s : ext2 D) (x : enode) : list Z := concat (map (block_bytes s) (file_blocks s x)).

(** The first [n] blocks from [first] on can be reached and read. *)
Record mapped_blocks (s : ext2 D) (x : enode) (first n : Z) : Prop := {
  mb_len : first + n <= Z.of_nat (length (file_blocks s x));
  mb_data : Forall (block_ok s) (take (Z.to_nat n) (drop (Z.to_nat first) (file_blocks s x)));
  mb_single : 12 < first + n -> block_ok s (nth 12 (eptrs x) 0);
  mb_double : 12 + block_size s / 4 < first + n -> block_ok s (nth 13 (eptrs x) 0);
  mb_words : forall j d, ind_words s (nth 13 (eptrs x) 0) !! j = Some d ->
    12 + (Z.of_nat j + 1) * (block_size s / 4) < first + n -> block_ok s d }.

Lemma drop_blocks s k l : drop (k * Z.to_nat (block_size s)) (concat (map (block_bytes s) l)) = concat (map (block_bytes s) (drop k l)).
Proof.
  revert l. induction k as [|k IH]; intros l; [done|]. destruct l as [|b l]; [cbn [map concat drop]; by rewrite drop_nil|].
  cbn [map concat drop]. assert (length (block_bytes s b) = Z.to_nat (block_size s)) as Hl by apply length_bytes_at.
  rewrite drop_app_ge by (rewrite Hl; lia). rewrite <- IH, Hl. f_equal. lia.
Qed.

Lemma andthen_ok c k (s : ext2 D) x s1 : c s = Ok x s1 ->
  andthen c k s = match x with More q => k q s1 | _ => Ok x s1 end.
Proof. intros Hc. unfold andthen. rewrite (bind_ok _ _ _ _ _ Hc). by destruct x. Qed.

(** The levels one after the other, up to the doubly indirect blocks. *)
Lemma queue_levels_ok s cap buffer F x q : bworking (edrive s) -> length (eptrs x) = 15%nat ->
  (12 < blocks_left s q -> block_ok s (nth 12 (eptrs x) 0)) ->
  (12 + block_size s / 4 < blocks_left s q -> block_ok s (nth 13 (eptrs x) 0)) ->
  (forall j d, ind_words s (nth 13 (eptrs x) 0) !! j = Some d ->
    12 + (Z.of_nat j + 1) * (block_size s / 4) < blocks_left s q -> block_ok s d) ->
  queueing s cap buffer F (drop (q_skip q) (file_blocks s x)) q ->
  exists reqs s', andthen (andthen (andthen (ret (queue_group s cap buffer (twice (take 12 (eptrs x))) q))
      (queue_single cap buffer (nth 12 (eptrs x) 0))) (queue_double cap buffer (nth 13 (eptrs x) 0)))
      (queue_triple behind stale cap buffer (nth 14 (eptrs x) 0)) s = Ok (Send reqs) s' /\
    same_disk s s' /\ planned (bcontent (edrive s)) reqs buffer F /\ (length reqs <= cap)%nat.
Proof.
  intros Hw Hl H1 H2 H3 Hq. pose proof (qi_bs _ _ _ _ _ _ Hq) as Hbs. unfold file_blocks in Hq.
  apply queue_group_ok in Hq. set (c1 := ret (queue_group s cap buffer (twice (take 12 (eptrs x))) q)).
  assert (c1 s = Ok (queue_group s cap buffer (twice (take 12 (eptrs x))) q) s) as Hc1 by done. clearbody c1.
  destruct (queue_group s cap buffer (twice (take 12 (eptrs x))) q) as [|reqs|q1|]; try done.
  { exists reqs, s. destruct Hq. split; [|by split; [destruct s|]]. by do 3 apply (andthen_ok _ _ _ (Send reqs)). }
  apply andthen_ok with (k := queue_single cap buffer (nth 12 (eptrs x) 0)) in Hc1.
  destruct Hq as [Hq1 Hl1]. rewrite length_take, Hl in Hl1. change (Z.of_nat (12 `min` 15)) with 12 in Hl1.
  pose proof (blocks_for_pos s _ Hbs (qi_size _ _ _ _ _ _ Hq1)) as Hp1.
  destruct (queue_single_ok s cap buffer F _ _ q1 (H1 ltac:(unfold blocks_left in *; lia)) Hw Hq1) as (x1 & s1 & Hrun1 & Hs1 & Ho1).
  rewrite Hrun1 in Hc1. destruct x1 as [|reqs|q2|]; try done.
  { exists reqs, s1. destruct Ho1. split; [|by split]. by do 2 apply (andthen_ok _ _ _ (Send reqs)). }
  apply andthen_ok with (k := queue_double cap buffer (nth 13 (eptrs x) 0)) in Hc1.
  destruct Ho1 as [Hq2 Hl2]. pose proof (blocks_for_pos s _ Hbs (qi_size _ _ _ _ _ _ Hq2)) as Hp2.
  rewrite <- (app_nil_r (concat _)) in Hq2. pose proof Hs1 as (E & C & Hw1).
  destruct (queue_double_ok s1 cap buffer F [] (nth 13 (eptrs x) 0) q2) as (x2 & s2 & Hrun2 & Hs2 & Ho2).
  - rewrite E. apply H2. unfold blocks_left in *. lia.
  - done.
  - rewrite (same_disk_words _ _ Hs1). intros j d Hj Hlt. rewrite E in *. apply (H3 j d Hj).
    unfold blocks_left, blocks_for in *. cbn [block_size set_drive] in Hlt. lia.
  - rewrite (same_disk_words _ _ Hs1). by apply (same_disk_queueing s s1).
  - rewrite Hrun2 in Hc1. apply (same_disk_outcome s s1 _ _ _ _ _ _ _ Hs1) in Ho2. destruct x2 as [|reqs|q3|]; try done.
    + exists reqs, s2. destruct Ho2. split; [by apply (andthen_ok _ _ _ (Send reqs))|]. split; [by eapply same_disk_trans|done].
    + destruct Ho2 as [Hq3 _]. exfalso. pose proof (qi_len _ _ _ _ _ _ Hq3) as Hn.
      pose proof (blocks_for_pos s _ Hbs (qi_size _ _ _ _ _ _ Hq3)). rewrite drop_nil in Hn. cbn in Hn. lia.
Qed.

(** Reading whole blocks: see [read_content_correct]. *)
Lemma read_content_correct_at s i x offset size buffer :
  bworking (edrive s) -> enodes s !! i = Some x -> length (eptrs x) = 15%nat ->
  0 < block_size s -> block_size s mod 512 = 0 ->
  0 <= offset -> offset mod block_size s = 0 -> 0 < size -> size + offset <= elength x ->
  size + offset + block_size s < 4294967296 -> 0 <= buffer -> buffer + size < 4294967296 ->
  mapped_blocks s x (offset / block_size s) (blocks_for s size) ->
  exists s', ext2_inode_read_content behind stale i offset size buffer s = Ok ERROR_NONE s' /\
    bytes_at (emem s') buffer (Z.to_nat size) = take (Z.to_nat size) (drop (Z.to_nat offset) (file_bytes s x)) /\
    same_outside (emem s) (emem s') buffer (buffer + size) /\
    bcontent (edrive s') = bcontent (edrive s).
Proof.
  intros Hw Hx Hl Hbs Hsec Ho Hom Hs Hin Hr32 Hb Hbr [Hlen Hdata H1 H2 H3].
  set (F := take (Z.to_nat size) (drop (Z.to_nat offset) (file_bytes s x))). set (first := offset / block_size s) in *.
  assert (offset = first * block_size s) as Hof by (subst first; pose proof (Z.div_mod offset (block_size s) ltac:(lia)); lia).
  assert (0 <= first) as Hf0 by (apply Z.div_pos; lia). pose proof (blocks_for_pos s size Hbs Hs) as Hn.
  assert (u32 (size + (if size mod block_size s =? 0 then 0 else block_size s)) / block_size s = blocks_for s size) as Hcap.
  { pose proof (Z.div_mod size (block_size s) ltac:(lia)). pose proof (Z.mod_pos_bound size (block_size s) Hbs).
    unfold blocks_for. destruct (Z.eqb_spec (size mod block_size s) 0) as [He|He]; rewrite u32_id by lia.
    - rewrite Z.add_0_r. apply Z.div_unique with (block_size s - 1); lia.
    - replace (size + block_size s) with (size + 1 * block_size s) at 1 by lia. rewrite Z.div_add by lia.
      apply Z.div_unique with (size mod block_size s - 1); lia. }
  assert (Z.of_nat (length F) = size) as HFl.
  { subst F. rewrite length_take, length_drop. unfold file_bytes.
    assert (forall l, length (concat (map (block_bytes s) l)) = (length l * Z.to_nat (block_size s))%nat) as Hcl.
    { induction l as [|b l IH]; [done|]. cbn. rewrite length_app, IH. unfold block_bytes at 1. rewrite length_bytes_at. lia. }
    rewrite Hcl. assert (size <= blocks_for s size * block_size s) as Hsb.
    { unfold blocks_for. pose proof (Z.div_mod (size + block_size s - 1) (block_size s) ltac:(lia)).
      pose proof (Z.mod_pos_bound (size + block_size s - 1) (block_size s) Hbs). lia. }
    assert ((first + blocks_for s size) * block_size s <= Z.of_nat (length (file_blocks s x)) * block_size s) by (apply Z.mul_le_mono_nonneg_r; lia).
    rewrite Nat2Z.inj_min, Nat2Z.inj_sub_max, Nat2Z.inj_mul, !Z2Nat.id by lia. lia. }
  assert (Forall is_u8 F) as HFu.
  { subst F. apply Forall_take, Forall_drop. unfold file_bytes. apply Forall_concat, Forall_map, Forall_true. intros b. apply bytes_at_u8. }
  destruct (queue_levels_ok s (Z.to_nat (blocks_for s size)) buffer F x (mk_q (Z.to_nat first) (offset mod block_size s) size 0 []))
    as (reqs & s1 & Hrun & Hs1 & Hpl & Hrl); unfold blocks_left; cbn [q_skip q_size]; rewrite ?Z2Nat.id by lia; try done.
  { split; cbn [q_skip q_size q_reqs q_loc q_offset length]; try done; try lia.
    - exists []. split; [done|]. split; [done|]. cbn [app]. subst F. f_equal. unfold file_bytes. rewrite <- drop_blocks. f_equal. nia.
    - by apply Forall_nil.
    - rewrite length_drop. lia. }
  pose proof Hs1 as (E & C & Hw1).
  destruct (send_ok reqs (Z.to_nat (blocks_for s size)) s1 buffer F) as (s' & Hsend & E' & C' & Hw'); [by rewrite C|done|done|].
  exists s'. split.
  - unfold ext2_inode_read_content, enode_at, bind at 1. rewrite Hx. rewrite u32_id by lia. dec_false (elength x <? size + offset).
    unfold get, bind at 1. rewrite Hcap.
    etransitivity; [apply (bind_ok _ _ _ _ _ Hrun)|exact Hsend].
  - assert (emem s' = store_bytes (emem s) buffer F) as -> by (rewrite E', E; done). split; [|split].
    + replace (Z.to_nat size) with (length F) by lia. by apply store_bytes_same.
    + intros a Ha. apply store_bytes_outside. lia.
    + rewrite C'. cbn. exact C.
Qed.

(** C26: reading whole blocks of a file returns its bytes.  On a working drive, when the
    read starts at a block and lies inside the file, and the blocks in question are
    mapped by the direct pointers, the singly or the doubly indirect block, then
    [ext2_inode_read_content] succeeds, leaves exactly the bytes of the file in
    the buffer, however the requests were merged, and changes neither other
    memory nor the disk. *)
Theorem read_content_correct s i x offset size buffer :
  bworking (edrive s) -> enodes s !! i = Some x -> length (eptrs x) = 15%nat ->
  0 < block_size s -> block_size s mod 512 = 0 ->
  0 <= offset -> offset mod block_size s = 0 -> 0 < size -> size + offset <= elength x ->
  size + offset + block_size s < 4294967296 -> 0 <= buffer -> buffer + size < 4294967296 ->
  mapped_blocks s x (offset / block_size s) (blocks_for s size) ->
  exists s', ext2_inode_read_content behind stale i offset size buffer s = Ok ERROR_NONE s' /\
    bytes_at (emem s') buffer (Z.to_nat size) = take (Z.to_nat size) (drop (Z.to_nat offset) (file_bytes s x)) /\
    same_outside (emem s) (emem s') buffer (buffer + size) /\
    bcontent (edrive s') = bcontent (edrive s).
Proof. apply read_content_correct_at. Qed.
(** Reading no bytes of a file that has a block queues a request into an array
    of no entries.  An empty directory is read that way when its first entries
    are made. *)
Lemma read_nothing_overruns s i x p ps buffer : enodes s !! i = Some x -> eptrs x = p :: ps -> p <> 0 -> 0 < block_size s -> 0 <= elength x ->
  ext2_inode_read_content behind stale i 0 0 buffer s = Fault.
Proof.
  intros Hx Hp Hp0 Hbs Hl. unfold ext2_inode_read_content, enode_at, bind at 1. rewrite Hx. change (u32 (0 + 0)) with 0. dec_false (elength x <? 0).
  unfold get, bind at 1. rewrite !Z.mod_0_l, !Zdiv_0_l by lia. rewrite Hp.
  unfold andthen, bind, ret. cbn. by destruct p.
Qed.
End Ext2Read.

(** ** Examples *)

(** A medium on which each byte is the number of its block, and a file of three
    blocks. *)
Definition demo_file : enode := mk_enode 3072 0 1 0 0 0 12 [5; 6; 9; 0; 0; 0; 0; 0; 0; 0; 0; 0; 0; 0; 0].
Definition demo_ext2 : ext2 mem := mk_ext2 (fun x => x / 1024) (fun _ => 0) (fun _ => 0) 0 1024 1 false [demo_file] [0%nat].

Lemma read_content_correct_witness : exists s', ext2_inode_read_content 0 [] 0 1024 1500 4096 demo_ext2 = Ok ERROR_NONE s' /\
  bytes_at (emem s') 4096 1500 = take 1500 (drop 1024 (file_bytes demo_ext2 demo_file)).
Proof.
  destruct (read_content_correct 0 [] demo_ext2 0 demo_file 1024 1500 4096) as (s' & Hrun & Hb & _); try (cbn; (reflexivity || exact I || lia)).
  - split.
    + unfold file_blocks. rewrite !length_app. change (length (take 12 (eptrs demo_file))) with 12%nat.
      change (1024 / block_size demo_ext2 + blocks_for demo_ext2 1500) with 3. lia.
    + cbn. repeat constructor; vm_compute; (discriminate || reflexivity).
    + vm_compute. discriminate.
    + vm_compute. discriminate.
    + intros j d _ Hlt. exfalso. change (block_size demo_ext2 / 4) with 256 in Hlt.
      change (1024 / block_size demo_ext2 + blocks_for demo_ext2 1500) with 3 in Hlt. lia.
  - exists s'. split; [exact Hrun|exact Hb].
Defined.

(** A read that starts inside a block takes the bytes behind that block on the
    disk, not those of the next block of the file: the last byte comes from
    block 7 instead of 9. *)
Lemma unaligned_read_content_wrong :
  match ext2_inode_read_content 0 [] 0 1536 1024 4096 demo_ext2 with
  | Ok e s => Some (e, load8 (emem s) 4096, load8 (emem s) 5119)
  | _ => None
  end = Some (ERROR_NONE, 6, 7).
Proof. vm_compute. reflexivity. Qed.
