(* ===== verification/Ext2Dir.v ===== *)
(** ext2: directories and files (filesystem/ext2.c).

    A directory is read into a buffer of the kernel's memory at [dbuf]; [tw] is
    the address of the entry that [ext2_create_dirent] builds (the C structure
    has no room for the name, which is copied behind it).  Entries are walked
    by the length of their names; the size that is stored in them is not used.
    [sf] bounds the loops over strings and directories. *)

From S2P Require Import Prelude Errors Mem Strings Storage Ext2 Ext2Read.

Section Ext2Dir.
Context {D : Type} `{BlockDevice D}.
Context (behind : Z) (stale : list Z) (sf : nat) (dbuf tw now dot dotdot : Z) (ino : list Z).

Definition d_inode (m : mem) (d : Z) : Z := load32 m d.
Definition d_name_len (m : mem) (d : Z) : Z := load8 m (d + 6).
Definition d_name (d : Z) : Z := d + 8.
Definition d_step (m : mem) (d : Z) : Z := 8 + alignup (d_name_len m d) 4.

Definition read_content := ext2_inode_read_content behind stale.
Definition write_content := ext2_inode_write_content behind.

Definition lift_opt {A} (o : option A) : M (ext2 D) A := match o with Some a => ret a | None => nofuel end.

(** ** Listing *)

(** The bytes in front of a zero. *)
Fixpoint until_zero (l : list Z) : list Z :=
  match l with
  | [] => []
  | c :: r => if c =? 0 then [] else c :: until_zero r
  end.

(** The entries as (inode, name_len, name). *)
Fixpoint list_loop (n : nat) (m : mem) (d length : Z) : list (Z * Z * list Z) :=
  match n with
  | O => []
  | S k =>
    if length =? 0 then [] else
    if d_inode m d =? 0 then [] else
    (d_inode m d, d_name_len m d, until_zero (bytes_at m (d_name d) (Z.to_nat (d_name_len m d)))) ::
    (if length <=? d_step m d then [] else list_loop k m (d + d_step m d) (length - d_step m d))
  end.
Definition ext2_list_dir (dir : nat) : M (ext2 D) (Z * list (Z * Z * list Z)) :=
  x <- enode_at dir ;;
  e <- read_content dir 0 (u32 (elength x)) dbuf ;;
  if negb (e =? ERROR_NONE) then ret (e, []) else
  s <- get ;;
  ret (ERROR_NONE, list_loop (S (Z.to_nat (elength x / 8))) (emem s) dbuf (elength x)).

(** ** Files *)

Definition ext2_read_file (file : nat) (offset count buffer : Z) : M (ext2 D) Z :=
  if U32_MAX <? count then ret ERROR_FILE_OUT else read_content file (u32 offset) (u32 count) buffer.
Definition ext2_write_file (file : nat) (offset count buffer : Z) : M (ext2 D) Z :=
  if U32_MAX <? count then ret ERROR_FILE_OUT else write_content file (u32 offset) (u32 count) buffer.

(** ** Opening *)

(** The entry whose name begins with the name. *)
Fixpoint find_loop (n : nat) (d length name name_len : Z) : M (ext2 D) (option Z) :=
  match n with
  | O => nofuel
  | S k =>
    if length =? 0 then ret None else
    s <- get ;;
    let m := emem s in
    c <- (if d_inode m d =? 0 then ret None else c <- lift_opt (strcfirst sf m (d_name d) name) ;; ret (Some c)) ;;
    if bool_decide (c = Some name_len) then ret (Some (d_inode m d)) else
    if length <? d_step m d then ret None else find_loop k (d + d_step m d) (length - d_step m d) name name_len
  end.
Definition read_again (c : M (ext2 D) Z) (e : Z) : M (ext2 D) Z := if e =? ERROR_NONE then ret e else c.
Definition ext2_open (dir : nat) (name : Z) : M (ext2 D) (option nat) :=
  x <- enode_at dir ;;
  s <- get ;;
  name_len <- lift_opt (strlen sf (emem s) name) ;;
  let read := read_content dir 0 (u32 (elength x)) dbuf in
  e <- read ;;
  e <- read_again read e ;;
  e <- read_again read e ;;
  if negb (e =? ERROR_NONE) then ret None else
  o <- find_loop (S (Z.to_nat (elength x / 8))) dbuf (elength x) name name_len ;;
  match o with
  | Some inode => ext2_std_inode_read inode
  | None => ret None
  end.

(** ** Entries *)

(** [Some offset]: an entry whose name begins with the name; [None] when an
    unused entry was met.  The length can wrap. *)
Fixpoint remove_loop (n : nat) (offset length name : Z) : M (ext2 D) (option (option (Z * Z))) :=
  match n with
  | O => nofuel
  | S k =>
    if length =? 0 then ret (Some None) else
    s <- get ;;
    let m := emem s in
    let d := dbuf + offset in
    if d_inode m d =? 0 then ret None else
    c <- lift_opt (strcfirst sf m name (d_name d)) ;;
    l <- lift_opt (strlen sf m name) ;;
    if c =? l then ret (Some (Some (offset, length)))
    else remove_loop k (u32 (offset + d_step m d)) (u64 (length - d_step m d)) name
  end.
Definition ext2_remove_dirent (name : Z) (dir : nat) : M (ext2 D) Z :=
  x <- enode_at dir ;;
  e <- read_content dir 0 (u32 (elength x)) dbuf ;;
  if negb (e =? ERROR_NONE) then ret e else
  o <- remove_loop sf 0 (elength x) name ;;
  match o with
  | None => ret ERROR_FILE_NOT_FOUND
  | Some r =>
    (match r with
     | None => ret tt
     | Some (offset, length) =>
       modify (fun s => let st := d_step (emem s) (dbuf + offset) in
         set_emem s (memcpy (emem s) (dbuf + offset) (dbuf + offset + st) (u32 (length - st))))
     end) ;;;
    write_content dir 0 (u32 (elength x)) dbuf
  end.

(** The place of the first unused entry or the end. *)
Fixpoint end_loop (n : nat) (m : mem) (offset length : Z) : option Z :=
  match n with
  | O => None
  | S k =>
    if length =? 0 then Some offset else
    if d_inode m (dbuf + offset) =? 0 then Some offset
    else end_loop k m (u32 (offset + d_step m (dbuf + offset))) (u64 (length - d_step m (dbuf + offset)))
  end.

(** The entry at [tw]; [size] is the length of the fixed part and the name, rounded up. *)
Definition make_dirent (m : mem) (inode name : Z) : option mem :=
  match strlen sf m name with
  | None => None
  | Some l =>
    match strcpy sf (store8 (store8 (store32 m tw inode) (tw + 6) (u8 l)) (tw + 7) 0) (tw + 8) name with
    | None => None
    | Some m' => Some (store16 m' (tw + 4) (alignup (8 + u8 l) 4))
    end
  end.
Definition ext2_create_dirent (inode name : Z) (dir : nat) : M (ext2 D) Z :=
  s <- get ;;
  m <- lift_opt (make_dirent (emem s) inode name) ;;
  modify (fun s => set_emem s m) ;;;
  x <- enode_at dir ;;
  e <- read_content dir 0 (u32 (elength x)) dbuf ;;
  if negb (e =? ERROR_NONE) then ret e else
  s <- get ;;
  offset <- lift_opt (end_loop sf (emem s) 0 (elength x)) ;;
  write_content dir offset (load16 (emem s) (tw + 4)) tw.

(** ** Links *)

Definition set_links (x : enode) (n : Z) : enode :=
  mk_enode (elength x) (eattributes x) n (ectime x) (eatime x) (emtime x) (inode_nbr x) (eptrs x).
Definition ext2_unlink (file_name : Z) (dir : nat) : M (ext2 D) Z :=
  o <- ext2_open dir file_name ;;
  match o with
  | None => ret ERROR_FILE_NOT_FOUND
  | Some file =>
    e <- ext2_remove_dirent file_name dir ;;
    if negb (e =? ERROR_NONE) then ret e else
    x <- enode_at file ;;
    let n := u32 (elinks x - 1) in
    put_node file (set_links x n) ;;;
    (if n =? 0 then ext2_inode_free behind file else ext2_std_inode_write file ;;; ret tt) ;;;
    ret ERROR_NONE
  end.
Definition ext2_link (src_file : nat) (file_name : Z) (dir : nat) : M (ext2 D) Z :=
  x <- enode_at src_file ;;
  e <- ext2_create_dirent (inode_nbr x) file_name dir ;;
  if negb (e =? ERROR_NONE) then ret e else
  x <- enode_at src_file ;;
  put_node src_file (set_links x (u32 (elinks x + 1))) ;;;
  ext2_std_inode_write src_file ;;;
  ret ERROR_NONE.

(** ** Creating files *)

(** The inode of a new file; the time of modification is not set and keeps the
    bytes of the stack, [ino]. *)
Definition new_inode (attributes block : Z) : mem :=
  let m := store16 (mem_of 0 ino) 0 (if Z.land attributes EXT2_ATTR_DIR =? 0 then 32768 else 16384) in
  let m := store16 (store16 m 2 0) 24 0 in
  let m := store32 (store32 (store32 m 8 (u32 now)) 12 (u32 now)) 20 0 in
  let m := store16 (store32 m 4 0) 26 1 in
  let m := store32 (store32 (store32 m 28 0) 32 0) 36 0 in
  let m := memset m 116 0 12 in
  let m := store_bytes m 40 (word_bytes (block :: replicate 14 0)) in
  store32 (store32 (store32 (store32 m 100 0) 104 0) 108 0) 112 0.
Definition ext2_create_file (dir : nat) (name attributes : Z) : M (ext2 D) (option nat) :=
  s <- get ;;
  if read_only s then ret None else
  inode <- ext2_inode_alloc ;;
  if inode =? 0 then ret None else
  block <- ext2_block_alloc ;;
  if block =? 0 then ret None else
  l <- locate inode ;;
  let '(err, sector, offset) := l in
  if negb (err =? ERROR_NONE) then ret None else
  e <- on_disk (bwrite sector offset (bytes_at (new_inode attributes block) 0 128)) ;;
  if negb (e =? ERROR_NONE) then ret None else
  e <- ext2_create_dirent inode name dir ;;
  if negb (e =? ERROR_NONE) then ret None else
  o <- ext2_std_inode_read inode ;;
  (if Z.land attributes EXT2_ATTR_DIR =? 0 then ret tt else
   match o with
   | None => fault
   | Some tr =>
     x <- enode_at dir ;;
     ext2_create_dirent inode dot tr ;;; ext2_create_dirent (inode_nbr x) dotdot tr ;;; ret tt
   end) ;;;
  ret o.
End Ext2Dir.

(** ** Mounting *)

Definition ext2_init {D} `{BlockDevice D} (m : mem) (start_offset : Z) : M D (option (ext2 D * option nat)) :=
  x <- bread (u32 (start_offset + 2)) 0 sizeof_superblock ;;
  let sb := mem_of 0 x.2 in
  if negb (load16 sb 56 =? 61267) || ((1 <=? load32 sb 76) && negb (Z.land 1 (load32 sb 96) =? 0)) then ret None else
  if load32 sb 32 =? 0 then fault else
  let n := u32 (load32 sb 4 - load32 sb 20) in
  let groups := n / load32 sb 32 + (if n mod load32 sb 32 =? 0 then 0 else 1) in
  fun d =>
    match ext2_std_inode_read 2 (mk_ext2 d m sb start_offset (u32 (Z.shiftl 1024 (load32 sb 24))) groups
            (negb (Z.land (load32 sb 100) 4 =? 0)) [] []) with
    | Ok o s => Ok (Some (s, o)) (edrive s)
    | Fatal e => Fatal e | Fault => Fault | NoFuel => NoFuel
    end.

(** ** Entries: printing and parsing *)

(** The bytes of an entry given as (inode, name, bytes up to the next one). *)
Definition dirent_bytes (e : Z * list Z * list Z) : list Z :=
  let '(inode, name, pad) := e in
  let len := Z.of_nat (length name) in
  le32 inode ++ [u8 (8 + alignup len 4); u8 ((8 + alignup len 4) / 256); u8 len; 0] ++ name ++ pad.
Definition dirent_ok (e : Z * list Z * list Z) : Prop :=
  let '(inode, name, pad) := e in
  is_u32 inode /\ inode <> 0 /\ Forall (fun c => 0 < c < 256) name /\ Z.of_nat (length name) < 256 /\
  Z.of_nat (length name) + Z.of_nat (length pad) = alignup (Z.of_nat (length name)) 4.

Lemma until_zero_name name : Forall (fun c => 0 < c < 256) name -> until_zero name = name.
Proof. induction 1 as [|c r Hc Hr IH]; [done|]. cbn. dec_false (c =? 0). by rewrite IH. Qed.

(** The first entry of a buffer. *)
Lemma parse_dirent m d inode name pad rest : dirent_ok (inode, name, pad) ->
  bytes_at m d (length (dirent_bytes (inode, name, pad) ++ rest)) = dirent_bytes (inode, name, pad) ++ rest ->
  d_inode m d = inode /\ d_name_len m d = Z.of_nat (length name) /\
  bytes_at m (d_name d) (Z.to_nat (d_name_len m d)) = name /\
  d_step m d = Z.of_nat (length (dirent_bytes (inode, name, pad))) /\ 8 <= d_step m d /\
  bytes_at m (d + d_step m d) (length rest) = rest.
Proof.
  intros (Hi & Hi0 & Hn & Hl & Hp) Hb. unfold dirent_bytes in Hb. cbn [le32 app length bytes_at] in Hb.
  injection Hb as B0 B1 B2 B3 B4 B5 B6 B7 Hb. rewrite <- app_assoc in Hb. rewrite !length_app in Hb.
  replace (d + 1 + 1 + 1 + 1 + 1 + 1 + 1 + 1) with (d + 8) in Hb by lia.
  rewrite !bytes_at_app in Hb. apply app_inj_1 in Hb as [Hname Hb]; [|by rewrite length_bytes_at].
  apply app_inj_1 in Hb as [Hpad Hrest]; [|by rewrite length_bytes_at].
  assert (d_name_len m d = Z.of_nat (length name)) as Hnl.
  { unfold d_name_len. replace (d + 6) with (d + 1 + 1 + 1 + 1 + 1 + 1) by lia. rewrite B6. apply u8_id. lia. }
  pose proof (alignup_spec (Z.of_nat (length name)) 4 ltac:(lia) ltac:(lia) ltac:(lia)) as [Hal _].
  assert (d_step m d = 8 + alignup (Z.of_nat (length name)) 4) as Hst by (unfold d_step; by rewrite Hnl).
  split; [|split; [done|]; split; [|split; [|split; [lia|]]]].
  - unfold d_inode, load32. replace (d + 2) with (d + 1 + 1) by lia. replace (d + 3) with (d + 1 + 1 + 1) by lia. rewrite B0, B1, B2, B3.
    unfold is_u32, u8 in *. dlia.
  - rewrite Hnl, Nat2Z.id. exact Hname.
  - rewrite Hst. unfold dirent_bytes. rewrite !length_app. cbn. lia.
  - rewrite Hst, <- Hp. rewrite <- Hrest at 2. f_equal. lia.
Qed.

Lemma list_loop_ok es : forall n m d, Forall dirent_ok es -> (length es <= n)%nat ->
  bytes_at m d (length (concat (map dirent_bytes es))) = concat (map dirent_bytes es) ->
  list_loop n m d (Z.of_nat (length (concat (map dirent_bytes es)))) = map (fun e => (e.1.1, Z.of_nat (length e.1.2), e.1.2)) es.
Proof.
  induction es as [|[[inode name] pad] es IH]; intros n m d Hok Hn Hb; (destruct n as [|n]; [try done; cbn in Hn; lia|]); [done|].
  apply Forall_cons in Hok as [He Hes]. cbn [map concat] in *. pose proof He as (Hi & Hi0 & Hname & Hl & _).
  destruct (parse_dirent m d inode name pad _ He Hb) as (P1 & P2 & P3 & P4 & P5 & P6).
  set (rest := concat (map dirent_bytes es)) in *. cbn [list_loop].
  rewrite length_app. rewrite P1, P3, P2. apply Z.eqb_neq in Hi0. rewrite Hi0.
  assert (Z.of_nat (length (dirent_bytes (inode, name, pad)) + length rest) = d_step m d + Z.of_nat (length rest)) as -> by lia.
  dec_false (d_step m d + Z.of_nat (length rest) =? 0). rewrite until_zero_name by done. f_equal.
  destruct (Z.leb_spec (d_step m d + Z.of_nat (length rest)) (d_step m d)) as [Hle|Hgt].
  - destruct es as [|[[i' n'] p'] es]; [done|]. exfalso. subst rest. cbn [map concat] in Hle. rewrite length_app in Hle. cbn in Hle. lia.
  - replace (d_step m d + Z.of_nat (length rest) - d_step m d) with (Z.of_nat (length rest)) by lia.
    apply IH; [done|cbn in Hn; lia|done].
Qed.

Lemma dirents_count es : (length es * 8 <= length (concat (map dirent_bytes es)))%nat.
Proof.
  induction es as [|[[i n] p] es IH]; [done|]. cbn [map concat length]. rewrite length_app. unfold dirent_bytes at 1. rewrite !length_app. cbn [le32 length]. lia.
Qed.

(** C29: a directory that consists of entries as [ext2_create_dirent] writes them
    is listed as exactly these entries: [ext2_list_dir] reads its blocks and
    returns the inode, the length and the characters of each name, in order. *)
Theorem list_dir_correct {D} `{BlockDevice D} behind stale dbuf (s : ext2 D) dir x es :
  bworking (edrive s) -> enodes s !! dir = Some x -> length (eptrs x) = 15%nat ->
  0 < block_size s -> block_size s mod 512 = 0 -> es <> [] -> Forall dirent_ok es ->
  elength x = Z.of_nat (length (concat (map dirent_bytes es))) -> elength x + block_size s < 4294967296 ->
  0 <= dbuf -> dbuf + elength x < 4294967296 -> mapped_blocks s x 0 (blocks_for s (elength x)) ->
  take (Z.to_nat (elength x)) (file_bytes s x) = concat (map dirent_bytes es) ->
  exists s', ext2_list_dir behind stale dbuf dir s =
    Ok (ERROR_NONE, map (fun e => (e.1.1, Z.of_nat (length e.1.2), e.1.2)) es) s' /\ bcontent (edrive s') = bcontent (edrive s).
Proof.
  intros Hw Hx Hl Hbs Hsec Hne Hok Hlen Hr Hb0 Hbr Hmap Hbytes.
  pose proof (dirents_count es) as Hcount. assert (0 < length es)%nat by (destruct es; [done|cbn; lia]).
  destruct (read_content_correct_at behind stale s dir x 0 (elength x) dbuf) as (s' & Hrun & Hmem & _ & Hc); try done; try lia.
  exists s'. split; [|done]. unfold ext2_list_dir, enode_at, bind at 1. rewrite Hx. unfold read_content. rewrite u32_id by lia.
  rewrite (bind_ok _ _ _ _ _ Hrun). cbn [negb Z.eqb ERROR_NONE]. unfold get, bind, ret. do 2 f_equal.
  rewrite drop_0, Hbytes in Hmem. rewrite Hlen. apply list_loop_ok; [done| |].
  - assert (Z.of_nat (length es) * 8 <= Z.of_nat (length (concat (map dirent_bytes es)))) by lia.
    assert (Z.of_nat (length es) <= Z.of_nat (length (concat (map dirent_bytes es))) / 8) by (apply Z.div_le_lower_bound; lia). lia.
  - by rewrite Hlen, Nat2Z.id in Hmem.
Qed.

(** ** Examples *)

(** A directory in block 5 with the entries "a" and "bc"; the names "a", "b"
    and "zz" are in the kernel's memory. *)
Definition demo_entries : list (Z * list Z * list Z) := [(11, [97], [0; 0; 0]); (12, [98; 99], [0; 0])].
Definition demo_dir : enode := mk_enode 24 EXT2_ATTR_DIR 1 0 0 0 2 [5; 0; 0; 0; 0; 0; 0; 0; 0; 0; 0; 0; 0; 0; 0].
Definition demo_volume : ext2 mem := mk_ext2
  (fun x => if x <? 5120 then mem_of 2048 [3; 0; 0; 0; 4; 0; 0; 0; 6; 0; 0; 0] x else mem_of 5120 (concat (map dirent_bytes demo_entries)) x)
  (mem_of 100 [97; 0; 98; 0; 122; 122; 0]) (mem_of 32 [0; 32; 0; 0; 0; 0; 0; 0; 16; 0; 0; 0]) 0 1024 1 false [demo_dir] [0%nat].

Lemma list_dir_correct_witness : exists s', ext2_list_dir 0 [] 4096 0 demo_volume =
  Ok (ERROR_NONE, [(11, 1, [97]); (12, 2, [98; 99])]) s' /\ bcontent (edrive s') = bcontent (edrive demo_volume).
Proof.
  apply (list_dir_correct 0 [] 4096 demo_volume 0 demo_dir demo_entries); try (cbn; (reflexivity || exact I || lia || discriminate)).
  - repeat constructor; vm_compute; congruence.
  - split.
    + unfold file_blocks. rewrite !length_app. change (length (take 12 (eptrs demo_dir))) with 12%nat.
      change (0 + blocks_for demo_volume (elength demo_dir)) with 1. lia.
    + cbn. repeat constructor; vm_compute; (discriminate || reflexivity).
    + vm_compute. discriminate.
    + vm_compute. discriminate.
    + intros j d _ Hlt. exfalso. change (block_size demo_volume / 4) with 256 in Hlt.
      change (0 + blocks_for demo_volume (elength demo_dir)) with 1 in Hlt. lia.
Defined.

(** Opening "b" finds "bc": a name matches every entry that begins with it. *)
Lemma open_matches_prefix :
  match (read_content 0 [] 0 0 24 4096 ;;; find_loop 10 10 4096 24 102 1) demo_volume with Ok o _ => Some o | _ => None end = Some (Some 12).
Proof. vm_compute. reflexivity. Qed.

(** Removing "a" leaves the bytes of the last entry where they were, so that
    "bc" is there twice. *)
Lemma remove_duplicates_last :
  match (ext2_remove_dirent 0 [] 10 4096 100 0 ;;; ext2_list_dir 0 [] 4096 0) demo_volume with Ok r _ => Some r | _ => None end =
  Some (ERROR_NONE, [(12, 2, [98; 99]); (12, 2, [98; 99])]).
Proof. vm_compute. reflexivity. Qed.

(** Removing a name that is not there succeeds when the entries fill the directory. *)
Lemma remove_missing_succeeds :
  match ext2_remove_dirent 0 [] 10 4096 104 0 demo_volume with Ok e _ => Some e | _ => None end = Some ERROR_NONE.
Proof. vm_compute. reflexivity. Qed.
