(* ===== verification/Ext2Disk.v ===== *)
(** ext2: what allocation and the writing of inodes leave on the disk
    (filesystem/ext2.c).

    Descriptors, inodes and the superblock are written in pieces of sectors;
    the theorems are about devices that do this exactly. *)

From S2P Require Import Prelude Errors Mem Storage Ext2 Ext2Read.

(** ** Copies of structures *)

Section Ext2Disk.
Context {D : Type} `{ExactDevice D}.

(** ** Inodes *)

(** What a node can hold so that an inode can store it. *)
Record node_ok (s : ext2 D) (x : enode) : Prop := {
  nk_attr : eattributes x = 0 \/ eattributes x = EXT2_ATTR_DIR;
  nk_len : 0 <= elength x < (if size_64 s (eattributes x) then 18446744073709551616 else 4294967296);
  nk_times : Forall (fun t => -2147483648 <= t < 2147483648) [ectime x; eatime x; emtime x];
  nk_ptrs : length (eptrs x) = 15%nat /\ Forall is_u32 (eptrs x) }.

Definition with_links (x : enode) (n : Z) : enode :=
  mk_enode (elength x) (eattributes x) n (ectime x) (eatime x) (emtime x) (inode_nbr x) (eptrs x).

Lemma word_bytes_length ws : length (word_bytes ws) = (4 * length ws)%nat.
Proof. unfold word_bytes. induction ws as [|w ws IH]; [done|]. cbn [map concat]. rewrite length_app, IH. cbn. lia. Qed.
Lemma word_bytes_u8 ws : Forall is_u8 (word_bytes ws).
Proof. unfold word_bytes. apply Forall_concat, Forall_map, Forall_true. intros w. apply le32_u8. Qed.

(** The fields of the inode made from a node. *)
Lemma inode_of_fields (s : ext2 D) x m : length (eptrs x) = 15%nat -> let m' := inode_of s x m in
  load16 m' 0 = (if Z.land (eattributes x) EXT2_ATTR_DIR =? 0 then 0 else 16384) /\
  load32 m' 4 = u32 (Z.land (elength x) U32_MAX) /\
  (size_64 s (eattributes x) = true -> load32 m' 108 = u32 (Z.shiftr (elength x) 32)) /\
  load32 m' 12 = u32 (ectime x) /\ load32 m' 8 = u32 (eatime x) /\ load32 m' 16 = u32 (emtime x) /\
  load16 m' 26 = load16 m 26 /\ bytes_at m' 40 60 = word_bytes (eptrs x).
Proof.
  intros Hl m'. unfold inode_of in m'. pose proof (word_bytes_length (eptrs x)) as Hwl. rewrite Hl in Hwl.
  set (m0 := store16 m 0 _) in m'. set (m1 := store32 m0 4 _) in m'. set (m2 := if size_64 s (eattributes x) then _ else m1) in m'.
  set (m3 := store32 (store32 (store32 m2 12 _) 8 _) 16 _) in m'.
  assert (forall a, a < 40 \/ 100 <= a -> m' a = m3 a) as H4 by (intros a Ha; apply store_bytes_outside; lia).
  assert (forall a, a < 108 \/ 112 <= a -> m2 a = m1 a) as H2.
  { intros a Ha. subst m2. destruct (size_64 s (eattributes x)); [|done]. apply store32_other. lia. }
  assert (forall a, a < 8 \/ 20 <= a -> m3 a = m2 a) as H3 by (intros a Ha; subst m3; rewrite !store32_other by lia; done).
  split; [|split; [|split; [|split; [|split; [|split; [|split]]]]]].
  - rewrite (load16_ext m0) by (intros a Ha; rewrite H4, H3, H2 by lia; subst m1; rewrite store32_other by lia; done).
    subst m0. rewrite load16_store16. case_bool; done.
  - rewrite (load32_ext m1) by (intros a Ha; rewrite H4, H3, H2 by lia; done). subst m1. by rewrite load32_store32.
  - intros H64. rewrite (load32_ext m2) by (intros a Ha; rewrite H4, H3 by lia; done). subst m2. rewrite H64, load32_store32.
    apply u32_id, u32_range.
  - rewrite (load32_ext m3) by (intros a Ha; apply H4; lia). subst m3. rewrite !load32_store32_far by lia. rewrite load32_store32. apply u32_id, u32_range.
  - rewrite (load32_ext m3) by (intros a Ha; apply H4; lia). subst m3. rewrite !load32_store32_far by lia. rewrite load32_store32. apply u32_id, u32_range.
  - rewrite (load32_ext m3) by (intros a Ha; apply H4; lia). subst m3. rewrite load32_store32. apply u32_id, u32_range.
  - apply load16_ext. intros a Ha. rewrite H4, H3, H2 by lia. subst m1 m0. rewrite store32_other, store16_other by lia. done.
  - change 60%nat with (4 * 15)%nat. rewrite <- Hl, <- word_bytes_length. apply store_bytes_same, word_bytes_u8.
Qed.

Lemma node_of_inode_of (s : ext2 D) x m : node_ok s x -> node_of s (inode_nbr x) (inode_of s x m) = with_links x (load16 m 26).
Proof.
  intros [Ha Hl Ht [Hpl Hp]]. destruct (inode_of_fields s x m Hpl) as (F0 & F4 & F108 & F12 & F8 & F16 & F26 & F40).
  set (m' := inode_of s x m) in *. clearbody m'. unfold node_of, with_links.
  assert ((if Z.shiftr (load16 m' 0) 12 =? 4 then EXT2_ATTR_DIR else 0) = eattributes x) as -> by (rewrite F0; destruct Ha as [-> | ->]; done).
  rewrite F4, F12, F8, F16, F26, F40. rewrite <- Hpl at 1. unfold word_bytes. rewrite words_of_le32 by done.
  rewrite !Forall_cons in Ht. destruct Ht as (Hc & Hat & Hmt & _).
  assert (forall t, -2147483648 <= t < 2147483648 -> s32 (u32 t) = t) as Hs32.
  { intros t Hr. rewrite <- (s32_id t) at 2 by done. apply s32_u32_eq. unfold u32. by rewrite Z.mod_mod. }
  rewrite !Hs32 by done. f_equal. change U32_MAX with (Z.ones 32). rewrite Z.land_ones by lia. change (2 ^ 32) with 4294967296.
  destruct (size_64 s (eattributes x)) eqn:E64.
  - rewrite F108 by done. unfold u32. rewrite Z.mod_mod by lia. rewrite Z.shiftr_div_pow2, Z.shiftl_mul_pow2, Z.lor_comm by lia.
    change (2 ^ 32) with 4294967296. rewrite (Z.mod_small (elength x / 4294967296)) by dlia.
    rewrite (lor_low _ _ 32) by (change (2 ^ 32) with 4294967296; dlia). dlia.
  - unfold u32. rewrite Z.mod_mod by lia. rewrite Z.lor_0_r. apply Z.mod_small. lia.
Qed.
Lemma node_of_bytes (s : ext2 D) n m : node_of s n (mem_of 0 (bytes_at m 0 128)) = node_of s n m.
Proof.
  unfold node_of. rewrite !(load16_bytes m (mem_of 0 (bytes_at m 0 128))) by (intros a Ha; apply mem_of_bytes; lia).
  rewrite !(load32_bytes m (mem_of 0 (bytes_at m 0 128))) by (intros a Ha; apply mem_of_bytes; lia).
  rewrite (bytes_at_eq m (mem_of 0 (bytes_at m 0 128)) 40 40 60) by (intros k Hk; apply mem_of_bytes; lia). done.
Qed.

(** Where the descriptor of a group and an inode are on the disk. *)
Definition bg_addr (s : ext2 D) (g : Z) : Z := bg_table s * 512 + u32 (g * sizeof_bg_desc).
Definition bg_at (s : ext2 D) (g : Z) : mem := mem_of 0 (bytes_at (bcontent (edrive s)) (bg_addr s g) 32).
Definition inode_group (s : ext2 D) (n : Z) : Z := u32 (n - 1) / inodes_per_blockgroup s.
Definition inode_sector (s : ext2 D) (n : Z) : Z := block_sector s (load32 (bg_at s (inode_group s n)) 8).
Definition inode_offset (s : ext2 D) (n : Z) : Z := u32 (u32 (n - 1) mod inodes_per_blockgroup s * inode_size s).
Definition inode_addr (s : ext2 D) (n : Z) : Z := inode_sector s n * 512 + inode_offset s n.

Lemma sector_nonneg (s : ext2 D) b : 0 <= block_sector s b.
Proof. apply u32_range. Qed.

(** Reading and writing pieces of sectors. *)
Lemma read_piece s sector offset count : bworking (edrive s) -> 0 <= sector -> 0 <= offset -> 0 < count <= 512 ->
  sector + offset / 512 + 2 < 268435456 -> offset mod 512 + count <= 512 ->
  exists s', on_disk (bread sector offset count) s =
    Ok (ERROR_NONE, bytes_at (bcontent (edrive s)) (sector * 512 + offset) (Z.to_nat count)) s' /\ same_disk s s'.
Proof.
  intros Hw Hs Ho Hc Hb Hm. destruct (bread_law (edrive s) sector offset count) as (d' & Hrun & Hw' & Hc'); try done; try lia.
  { assert (count / 512 <= 1) by dlia. lia. }
  { right. split; [lia|]. pose proof (sector_count_spec count ltac:(lia)). lia. }
  exists (set_drive s d'). unfold on_disk. by rewrite Hrun.
Qed.
Lemma write_piece s sector offset bs : bworking (edrive s) -> Forall is_u8 bs -> 0 <= sector -> 0 <= offset ->
  sector + (offset + Z.of_nat (length bs)) / 512 + 1 < 268435456 ->
  exists d', on_disk (bwrite sector offset bs) s = Ok ERROR_NONE (set_drive s d') /\ bworking d' /\
    bcontent d' = store_bytes (bcontent (edrive s)) (sector * 512 + offset) bs.
Proof.
  intros Hw Hu Hs Ho Hb. destruct (bwrite_exact (edrive s) sector offset bs) as (d' & Hrun & Hw' & Hc'); try done.
  exists d'. unfold on_disk. by rewrite Hrun.
Qed.

Lemma read_bg_ok s g : bworking (edrive s) -> bg_table s + u32 (g * sizeof_bg_desc) / 512 + 2 < 268435456 ->
  exists s', read_bg g s = Ok (ERROR_NONE, bg_at s g) s' /\ same_disk s s'.
Proof.
  intros Hw Hb. pose proof (u32_range (g * sizeof_bg_desc)) as Hr. unfold is_u32 in Hr.
  destruct (read_piece s (bg_table s) (u32 (g * sizeof_bg_desc)) sizeof_bg_desc Hw) as (s' & Hrun & Hs);
    [apply sector_nonneg|lia|unfold sizeof_bg_desc; lia|done|unfold sizeof_bg_desc, u32; dlia|].
  exists s'. split; [|done]. unfold read_bg, get, bind at 1. rewrite (bind_ok _ _ _ _ _ Hrun). done.
Qed.

Lemma locate_ok s n : bworking (edrive s) -> inodes_per_blockgroup s <> 0 ->
  bg_table s + u32 (inode_group s n * sizeof_bg_desc) / 512 + 2 < 268435456 ->
  exists s', locate n s = Ok (ERROR_NONE, inode_sector s n, inode_offset s n) s' /\ same_disk s s'.
Proof.
  intros Hw Hi Hb. destruct (read_bg_ok s (inode_group s n) Hw Hb) as (s' & Hrun & Hs). exists s'. split; [|done].
  unfold locate, get, bind at 1. apply Z.eqb_neq in Hi. rewrite Hi. fold (inode_group s n). rewrite (bind_ok _ _ _ _ _ Hrun). done.
Qed.

(** Inodes that can be read. *)
Record inode_readable (s : ext2 D) (n : Z) : Prop := {
  ir_groups : inodes_per_blockgroup s <> 0;
  ir_size : inode_size s mod 128 = 0;
  ir_table : bg_table s + u32 (inode_group s n * sizeof_bg_desc) / 512 + 2 < 268435456;
  ir_inode : inode_sector s n + inode_offset s n / 512 + 2 < 268435456 }.

Lemma inode_offset_ok s n : inode_size s mod 128 = 0 -> 0 <= inode_offset s n /\ inode_offset s n mod 512 + 128 <= 512.
Proof.
  intros Hsz. split; [apply u32_range|]. unfold inode_offset. set (k := _ mod inodes_per_blockgroup s).
  apply Z.mod_divide in Hsz as [z Hz]; [|lia]. rewrite Hz.
  unfold u32. replace (k * (z * 128)) with (128 * (k * z)) by lia. generalize (k * z). intros y. dlia.
Qed.

(** The bytes of an inode. *)
Definition inode_at (s : ext2 D) (n : Z) : mem := mem_of 0 (bytes_at (bcontent (edrive s)) (inode_addr s n) 128).
Lemma read_inode_ok s n : bworking (edrive s) -> inode_readable s n ->
  exists s1 s2, locate n s = Ok (ERROR_NONE, inode_sector s n, inode_offset s n) s1 /\ same_disk s s1 /\
    on_disk (bread (inode_sector s n) (inode_offset s n) sizeof_inode) s1 =
      Ok (ERROR_NONE, bytes_at (bcontent (edrive s)) (inode_addr s n) 128) s2 /\ same_disk s s2.
Proof.
  intros Hw [Hg Hsz Ht Hi]. destruct (locate_ok s n Hw Hg Ht) as (s1 & Hloc & Hs1). pose proof Hs1 as (E1 & C1 & W1).
  destruct (inode_offset_ok s n Hsz) as [Hof Hom].
  destruct (read_piece s1 (inode_sector s n) (inode_offset s n) sizeof_inode W1 (sector_nonneg _ _) Hof ltac:(unfold sizeof_inode; lia) Hi Hom)
    as (s2 & Hread & Hs2).
  exists s1, s2. split; [done|]. split; [done|]. split; [rewrite Hread, C1; done|]. by eapply same_disk_trans.
Qed.

Lemma std_inode_read_ok s n : bworking (edrive s) -> inode_readable s n -> ecache s = [] ->
  exists s', ext2_std_inode_read n s = Ok (Some (length (enodes s))) s' /\ enodes s' = enodes s ++ [node_of s n (inode_at s n)].
Proof.
  intros Hw Hr Hc. destruct (read_inode_ok s n Hw Hr) as (s1 & s2 & Hloc & _ & Hread & (E & _)).
  eexists. split.
  - unfold ext2_std_inode_read, get, bind at 1. rewrite Hc. cbn [cached]. unfold ret at 1, bind at 1. rewrite (bind_ok _ _ _ _ _ Hloc).
    cbn [negb Z.eqb ERROR_NONE]. rewrite (bind_ok _ _ _ _ _ Hread). cbn [fst snd negb Z.eqb ERROR_NONE].
    unfold get, put, ret, bind. rewrite E at 1. reflexivity.
  - cbn. by rewrite E.
Qed.

Lemma std_inode_write_ok s i x : bworking (edrive s) -> enodes s !! i = Some x -> inode_readable s (inode_nbr x) ->
  exists d, ext2_std_inode_write i s = Ok ERROR_NONE (set_drive s d) /\ bworking d /\
    bcontent d = store_bytes (bcontent (edrive s)) (inode_addr s (inode_nbr x)) (bytes_at (inode_of s x (inode_at s (inode_nbr x))) 0 128).
Proof.
  intros Hw Hx Hr. set (n := inode_nbr x) in *. destruct (read_inode_ok s n Hw Hr) as (s1 & s2 & Hloc & _ & Hread & (E & C & W)).
  destruct Hr as [_ Hsz _ Hi]. destruct (inode_offset_ok s n Hsz) as [Hof Hom].
  destruct (write_piece s2 (inode_sector s n) (inode_offset s n) (bytes_at (inode_of s x (inode_at s n)) 0 128) W) as (d & Hrun & Wd & Cd).
  { apply bytes_at_u8. } { apply sector_nonneg. } { done. } { rewrite length_bytes_at. dlia. }
  exists d. rewrite C in Cd. split; [|done]. unfold ext2_std_inode_write, enode_at, bind at 1. rewrite Hx. fold n.
  rewrite (bind_ok _ _ _ _ _ Hloc). cbn [negb Z.eqb ERROR_NONE]. rewrite (bind_ok _ _ _ _ _ Hread). cbn [fst snd negb Z.eqb ERROR_NONE].
  unfold get, bind. rewrite E in Hrun |- *. exact Hrun.
Qed.

(** ** Allocation *)

Lemma lor_u8 a b : is_u8 a -> is_u8 b -> is_u8 (Z.lor a b).
Proof.
  unfold is_u8. intros Ha Hb. assert (Z.lor a b = u8 (Z.lor a b)) as ->; [|apply u8_range].
  unfold u8. change 256 with (2 ^ 8). apply Z.bits_inj'. intros i Hi. destruct (decide (i < 8)).
  - by rewrite Z.mod_pow2_bits_low by lia.
  - rewrite Z.mod_pow2_bits_high, Z.lor_spec by lia. by rewrite (bits_high a 8), (bits_high b 8) by (change (2 ^ 8) with 256; lia).
Qed.
Lemma mark_zero_u8 l i : Forall is_u8 l -> Forall is_u8 (mark_zero_loop l i).1.
Proof.
  revert i. induction l as [|b l IH]; intros i Hl; [done|]. apply Forall_cons in Hl as [Hb Hl]. cbn [mark_zero_loop].
  destruct (zero_bit 8 b 0); cbn; constructor; try done; [apply lor_u8; [done|apply u8_range]|by apply IH].
Qed.

(** The bitmap of a group, its block being at offset [map] of the descriptor. *)
Definition bitmap_block (s : ext2 D) (g map : Z) : Z := load32 (bg_at s g) map.
Definition bitmap_at (s : ext2 D) (g map : Z) : list Z := block_bytes s (bitmap_block s g map).
Definition full (bitmap : list Z) : Prop := forall k, 0 <= k < Z.of_nat (length bitmap) * 8 -> bit_of bitmap k = true.
Definition readable_group (s : ext2 D) (map g : Z) : Prop :=
  bg_table s + u32 (g * sizeof_bg_desc) / 512 + 2 < 268435456 /\ block_ok s (bitmap_block s g map).

(** The places that an allocation in group [g] writes are apart. *)
Definition super_addr (s : ext2 D) : Z := u32 (superblock_offset s + 2) * 512.
Definition apart (a n b k : Z) : Prop := a + n <= b \/ b + k <= a.
Record alloc_layout (s : ext2 D) (g map : Z) : Prop := {
  al_bs : 0 < block_size s <= 268435456 /\ block_size s mod 512 = 0;
  al_super : u32 (superblock_offset s + 2) + 2 < 268435456;
  al_bitmap_bg : apart (block_sector s (bitmap_block s g map) * 512) (block_size s) (bg_addr s g) 32;
  al_bitmap_super : apart (block_sector s (bitmap_block s g map) * 512) (block_size s) (super_addr s) 236;
  al_bg_super : apart (bg_addr s g) 32 (super_addr s) 236 }.

Lemma read_bitmap_ok s g map : bworking (edrive s) -> 0 < block_size s -> readable_group s map g ->
  exists s1 s2, read_bg g s = Ok (ERROR_NONE, bg_at s g) s1 /\ same_disk s s1 /\
    read_block (load32 (bg_at s g) map) s1 = Ok (ERROR_NONE, bitmap_at s g map) s2 /\ same_disk s s2.
Proof.
  intros Hw Hbs [Ht (_ & Hs & Hb)]. destruct (read_bg_ok s g Hw Ht) as (s1 & Hrun & Hs1). pose proof Hs1 as (E & C & W).
  destruct (read_ok s1 (block_sector s (bitmap_block s g map)) (block_size s) W ltac:(lia) ltac:(lia) Hb) as (s2 & Hrun2 & Hs2).
  exists s1, s2. split; [done|]. split; [done|]. split; [|by eapply same_disk_trans].
  unfold read_block, get, bind. rewrite C in Hrun2. rewrite E in Hrun2 |- *. exact Hrun2.
Qed.

Lemma bitmap_length s g map : 0 < block_size s <= 268435456 -> Z.of_nat (length (bitmap_at s g map)) * 8 <= U32_MAX.
Proof. intros. unfold bitmap_at, block_bytes. rewrite length_bytes_at. unfold U32_MAX. lia. Qed.

(** A group without a free bit is left as it is. *)
Lemma take_bit_full s g map free sfree : bworking (edrive s) -> 0 < block_size s <= 268435456 -> readable_group s map g ->
  full (bitmap_at s g map) -> exists s', take_bit g map free sfree s = Ok None s' /\ same_disk s s'.
Proof.
  intros Hw Hbs Hr Hf. destruct (read_bitmap_ok s g map Hw ltac:(lia) Hr) as (s1 & s2 & Hbg & _ & Hbm & Hs2).
  exists s2. split; [|done]. unfold take_bit. rewrite (bind_ok _ _ _ _ _ Hbg). cbn [snd]. rewrite (bind_ok _ _ _ _ _ Hbm). cbn [snd].
  destruct (mark_zero_spec (bitmap_at s g map) 0 ltac:(lia) ltac:(pose proof (bitmap_length s g map Hbs); lia)) as [_ [(Hx & _)|(k & _ & Hk & Hb & _)]].
  - unfold ext2_bitmap_mark_first_zero_bit. by rewrite Hx.
  - exfalso. rewrite Hf in Hb by lia. done.
Qed.
(** What taking bit [bit] of group [g] does to the volume: the first bit that
    was clear is set in the bitmap on the disk, the count of the descriptor is
    one less, and only the bitmap, the descriptor and the superblock are
    written. *)
Record taken (s s' : ext2 D) (g map free bit : Z) : Prop := {
  tk_state : s' = set_super (set_drive s (edrive s')) (superblock s');
  tk_working : bworking (edrive s');
  tk_bit : 0 <= bit < block_size s * 8 /\ bit_of (bitmap_at s g map) bit = false /\
    forall j, 0 <= j < bit -> bit_of (bitmap_at s g map) j = true;
  tk_bitmap : forall j, 0 <= j < block_size s * 8 ->
    bit_of (block_bytes s' (bitmap_block s g map)) j = (j =? bit) || bit_of (bitmap_at s g map) j;
  tk_free : load16 (bg_at s' g) free = u16 (load16 (bg_at s g) free - 1);
  tk_outside : forall a, ~ (block_sector s (bitmap_block s g map) * 512 <= a < block_sector s (bitmap_block s g map) * 512 + block_size s) ->
    ~ (bg_addr s g <= a < bg_addr s g + 32) -> ~ (super_addr s <= a < super_addr s + 236) ->
    bcontent (edrive s') a = bcontent (edrive s) a }.

Lemma bytes_kept m a bs b k : apart b (Z.of_nat k) a (Z.of_nat (length bs)) -> bytes_at (store_bytes m a bs) b k = bytes_at m b k.
Proof. intros Hd. apply bytes_at_ext. intros x Hx. apply store_bytes_outside. unfold apart in Hd. lia. Qed.

Lemma take_bit_ok s g map free sfree : bworking (edrive s) -> readable_group s map g -> alloc_layout s g map ->
  0 <= free <= 30 -> ~ full (bitmap_at s g map) ->
  exists s' bit, take_bit g map free sfree s = Ok (Some (bg_at s g, bit)) s' /\ taken s s' g map free bit.
Proof.
  intros Hw Hr [[Hbs Hsec] Hsup Hbb Hbsu Hgs] Hfr Hnf. pose proof Hr as [Ht (_ & Hs & Hb)].
  destruct (read_bitmap_ok s g map Hw ltac:(lia) Hr) as (s1 & s2 & Hbg & _ & Hbm & Hs2). pose proof Hs2 as (E2 & C2 & W2).
  assert (length (bitmap_at s g map) = Z.to_nat (block_size s)) as Hlen by apply length_bytes_at.
  pose proof (bitmap_length s g map Hbs) as Hmax.
  pose proof (mark_zero_spec (bitmap_at s g map) 0 ltac:(lia) ltac:(lia)) as [Hnl Hc].
  pose proof (mark_zero_u8 (bitmap_at s g map) 0 (bytes_at_u8 _ _ _)) as Hnu.
  destruct Hc as [(_ & _ & Hall)|(bit & Hbit & Hbr & Hb0 & Hb1 & Hset)]; [done|]. rewrite Z.mul_0_l, Z.add_0_l in Hbit.
  set (x := mark_zero_loop (bitmap_at s g map) 0) in *. rewrite Hlen in *. rewrite Z2Nat.id in * by lia.
  (* the three writes *)
  destruct (write_piece s2 (block_sector s (bitmap_block s g map)) 0 x.1 W2 Hnu (sector_nonneg _ _) ltac:(lia)) as (d1 & Hw1 & W3 & C3).
  { rewrite Hnl, Z2Nat.id, Z.add_0_l by lia. lia. }
  set (bg' := store16 (bg_at s g) free (load16 (bg_at s g) free - 1)).
  destruct (write_piece (set_drive s d1) (bg_table s) (u32 (g * sizeof_bg_desc)) (bytes_at bg' 0 32) W3 (bytes_at_u8 _ _ _) (sector_nonneg _ _)
    ltac:(apply u32_range)) as (d2 & Hw2 & W4 & C4).
  { rewrite length_bytes_at. dlia. }
  set (sb' := store32 (superblock s) sfree (load32 (superblock s) sfree - 1)).
  destruct (write_piece (set_super (set_drive s d2) sb') (u32 (superblock_offset s + 2)) 0 (bytes_at sb' 0 236) W4 (bytes_at_u8 _ _ _)
    ltac:(apply u32_range) ltac:(lia)) as (d3 & Hw3 & W5 & C5).
  { rewrite length_bytes_at. change ((0 + Z.of_nat 236) / 512) with 0. lia. }
  cbn [edrive set_drive set_super] in C4, C5. rewrite C2, Z.add_0_r in C3. rewrite Z.add_0_r in C5. fold (bg_addr s g) in C4. fold (super_addr s) in C5.
  exists (set_super (set_drive s d3) sb'), bit. split.
  - unfold take_bit. rewrite (bind_ok _ _ _ _ _ Hbg). cbn [snd]. rewrite (bind_ok _ _ _ _ _ Hbm). cbn [snd].
    unfold ext2_bitmap_mark_first_zero_bit. fold x. rewrite Hbit. dec_false (bit =? U32_MAX).
    assert (write_block (load32 (bg_at s g) map) x.1 s2 = Ok ERROR_NONE (set_drive s d1)) as Hr1.
    { unfold write_block, get, bind. rewrite E2 in Hw1 |- *. exact Hw1. }
    rewrite (bind_ok _ _ _ _ _ Hr1).
    assert (write_bg g bg' (set_drive s d1) = Ok ERROR_NONE (set_drive s d2)) as Hr2 by exact Hw2.
    rewrite (bind_ok _ _ _ _ _ Hr2). unfold modify at 1. unfold bind at 1.
    assert (write_super (set_super (set_drive s d2) sb') = Ok ERROR_NONE (set_super (set_drive s d3) sb')) as Hr3 by exact Hw3.
    etransitivity; [apply (bind_ok _ _ _ _ _ Hr3)|]. done.
  - assert (bytes_at (bcontent d3) (block_sector s (bitmap_block s g map) * 512) (Z.to_nat (block_size s)) = x.1) as HB.
    { rewrite C5, bytes_kept by (rewrite length_bytes_at, Z2Nat.id by lia; exact Hbsu). rewrite C4, bytes_kept by (rewrite length_bytes_at, Z2Nat.id by lia; exact Hbb).
      rewrite C3, <- Hnl. by apply store_bytes_same. }
    assert (bytes_at (bcontent d3) (bg_addr s g) 32 = bytes_at bg' 0 32) as HG.
    { rewrite C5, bytes_kept by (rewrite length_bytes_at; exact Hgs). rewrite C4.
      pose proof (store_bytes_same (bcontent d1) (bg_addr s g) (bytes_at bg' 0 32) (bytes_at_u8 _ _ _)) as Hsame. by rewrite length_bytes_at in Hsame. }
    split; try done.
    + unfold block_bytes. cbn [edrive set_drive set_super block_size].
      change (block_sector (set_super (set_drive s d3) sb') (bitmap_block s g map)) with (block_sector s (bitmap_block s g map)). by rewrite HB.
    + unfold bg_at at 1. change (bg_addr (set_super (set_drive s d3) sb') g) with (bg_addr s g). cbn [edrive set_drive set_super]. rewrite HG.
      rewrite (load16_bytes bg') by (intros a Ha; apply mem_of_bytes; lia). apply load16_store16.
    + intros a Ha1 Ha2 Ha3. cbn [edrive set_drive set_super]. rewrite C5, store_bytes_outside by (rewrite length_bytes_at; lia).
      rewrite C4, store_bytes_outside by (rewrite length_bytes_at; lia). rewrite C3, store_bytes_outside by (rewrite Hnl; lia). done.
Qed.
Lemma same_disk_bg s s' : same_disk s s' -> bg_at s' = bg_at s.
Proof. intros (E & C & _). unfold bg_at. rewrite C. by rewrite E. Qed.
Lemma same_disk_bitmap s s' g map : same_disk s s' -> bitmap_at s' g map = bitmap_at s g map /\ bitmap_block s' g map = bitmap_block s g map.
Proof. intros Hs. unfold bitmap_at, bitmap_block. by rewrite (same_disk_bg _ _ Hs), (same_disk_block_bytes _ _ Hs). Qed.
Lemma same_disk_taken s s1 s' g map free bit : same_disk s s1 -> taken s1 s' g map free bit -> taken s s' g map free bit.
Proof.
  intros Hs [T1 T2 T3 T4 T5 T6]. destruct (same_disk_bitmap s s1 g map Hs) as [Hb1 Hb2].
  rewrite (same_disk_bg _ _ Hs) in T5. rewrite Hb1 in T3. rewrite Hb1, Hb2 in T4. rewrite Hb2 in T6. destruct Hs as (E & C & _).
  rewrite C in T6. rewrite E in T1, T3, T4, T6. by split.
Qed.

(** The groups up to the first one with a free bit. *)
Record first_free (s : ext2 D) (map i g : Z) : Prop := {
  ff_full : forall j, i <= j < g -> readable_group s map j /\ full (bitmap_at s j map);
  ff_group : readable_group s map g;
  ff_layout : alloc_layout s g map;
  ff_free : ~ full (bitmap_at s g map) }.
Lemma same_disk_first_free s s1 map i g : same_disk s s1 -> first_free s map i g -> first_free s1 map (i + 1) g.
Proof.
  intros Hs [F1 F2 F3 F4]. assert (forall j, readable_group s map j -> readable_group s1 map j) as Hr.
  { intros j. unfold readable_group. destruct (same_disk_bitmap s s1 j map Hs) as [_ ->]. destruct Hs as (E & _). by rewrite E. }
  destruct (same_disk_bitmap s s1 g map Hs) as [Hb1 Hb2]. split.
  - intros j Hj. destruct (same_disk_bitmap s s1 j map Hs) as [-> _]. destruct (F1 j ltac:(lia)). auto.
  - auto.
  - destruct F3 as [L1 L2 L3 L4 L5]. split; rewrite ?Hb2; destruct Hs as (E & _); rewrite E; done.
  - by rewrite Hb1.
Qed.

Lemma alloc_loop_ok map free sfree nbr n : forall s i g, (forall d, nbr (set_drive s d) = nbr s) ->
  bworking (edrive s) -> i <= g < i + Z.of_nat n -> 0 <= free <= 30 -> first_free s map i g ->
  exists s' bit, alloc_loop map free sfree nbr n i s = Ok (nbr s g (bg_at s g) bit) s' /\ taken s s' g map free bit.
Proof.
  induction n as [|n IH]; intros s i g Hnbr Hw Hi Hfr Hff; [lia|]. cbn [alloc_loop]. unfold get, bind at 1.
  pose proof Hff as [F1 F2 F3 F4]. destruct (decide (i = g)) as [-> |Hne].
  - destruct (take_bit_ok s g map free sfree Hw F2 F3 Hfr F4) as (s' & bit & Hrun & Ht).
    exists s', bit. split; [|done]. by rewrite (bind_ok _ _ _ _ _ Hrun).
  - destruct (F1 i ltac:(lia)) as [Hr Hf]. destruct F3 as [[Hbs _] _ _ _ _].
    destruct (take_bit_full s i map free sfree Hw Hbs Hr Hf) as (s1 & Hrun & Hs1). pose proof Hs1 as (E & _ & W).
    assert (nbr s1 = nbr s) as Hn1 by (by rewrite E).
    destruct (IH s1 (i + 1) g) as (s' & bit & Hrun' & Ht); [intros d; rewrite E at 1; cbn; rewrite Hn1; apply (Hnbr d)|done|lia|done|by eapply same_disk_first_free|].
    exists s', bit. split; [|by eapply same_disk_taken].
    rewrite (bind_ok _ _ _ _ _ Hrun), Hrun', Hn1. by rewrite (same_disk_bg _ _ Hs1).
Qed.


(** [ext2_inode_alloc] takes the first inode that is free in the bitmaps and
    returns its number, counted from 1 over all groups; bitmap, descriptor and
    superblock are updated as for a block. *)
Lemma inode_alloc_correct s g : bworking (edrive s) -> 0 <= g < blockgroup_count s -> first_free s 4 0 g ->
  exists s' bit, ext2_inode_alloc s = Ok (u32 (g * inodes_per_blockgroup s + bit + 1)) s' /\ taken s s' g 4 14 bit.
Proof.
  intros Hw Hg Hff. unfold ext2_inode_alloc, get, bind at 1.
  apply (alloc_loop_ok 4 14 16 inode_number (Z.to_nat (blockgroup_count s)) s 0 g); (done || lia).
Qed.
End Ext2Disk.

(** ** Examples *)

(** One group with blocks of 1 KiB: the descriptor in block 2, the bitmaps in
    blocks 3 and 4, the inode table from block 5 on; blocks 4 to 7 of the
    bitmap and inodes from 2 on are free. *)
Definition demo_medium : mem := fun x =>
  if x <? 3072 then mem_of 2048 [3; 0; 0; 0; 4; 0; 0; 0; 5; 0; 0; 0; 100; 0; 14; 0] x
  else if x =? 3072 then 15 else if x =? 3073 then 255 else if x =? 4096 then 1 else 0.
Definition demo_super : mem := mem_of 32 [0; 32; 0; 0; 0; 0; 0; 0; 16; 0; 0; 0].
Definition demo_node : enode := mk_enode 3072 0 7 1000 2000 (-5) 12 [20; 21; 22; 0; 0; 0; 0; 0; 0; 0; 0; 0; 0; 0; 0].
Definition demo_volume : ext2 mem := mk_ext2 demo_medium (fun _ => 0) demo_super 0 1024 1 false [demo_node] [0%nat].

Lemma demo_first_free map bit : (map = 0 /\ bit = 4) \/ (map = 4 /\ bit = 1) -> first_free demo_volume map 0 0.
Proof.
  intros Hm. split; [intros; lia| | |].
  - destruct Hm as [[-> _]|[-> _]]; repeat split; vm_compute; congruence.
  - destruct Hm as [[-> _]|[-> _]]; split; try (split; vm_compute; (reflexivity || intuition congruence)); try (vm_compute; reflexivity);
      try (right; vm_compute; congruence); try (left; vm_compute; congruence).
  - destruct Hm as [[-> _]|[-> _]]; intros Hf.
    + specialize (Hf 4 ltac:(unfold bitmap_at, block_bytes; rewrite length_bytes_at; cbn; lia)). vm_compute in Hf. discriminate.
    + specialize (Hf 1 ltac:(unfold bitmap_at, block_bytes; rewrite length_bytes_at; cbn; lia)). vm_compute in Hf. discriminate.
Qed.

Lemma inode_alloc_correct_witness : exists s' bit, ext2_inode_alloc demo_volume = Ok (u32 (0 * 16 + bit + 1)) s' /\
  taken demo_volume s' 0 4 14 bit.
Proof. apply (inode_alloc_correct demo_volume 0); [exact I|cbn; lia|apply (demo_first_free 4 1); right; split; reflexivity]. Defined.


(** Freeing the block that was allocated: bit 4 was set for block 9, and the
    byte of bit 9 is cleared. *)
Lemma block_free_other_bits :
  match ext2_block_alloc demo_volume with
  | Ok b s => match ext2_block_free b s with Ok _ s' => Some (b, load8 (edrive s') 3072, load8 (edrive s') 3073) | _ => None end
  | _ => None
  end = Some (9, 31, 0).
Proof. vm_compute. reflexivity. Qed.
