(* ===== verification/Iso9660.v ===== *)
(** ISO 9660 volumes (filesystem/iso_9660.c, filesystem/iso9660.h).

    A directory is read into the kernel's memory at [ibuf], the name of an
    entry is copied to [nbuf].  The fields of an entry are read at the offsets
    of the packed structure.  Nodes are the members of [inodes], the cache
    lists them in order; a file is known by the start of its extent.  [sf]
    bounds the loops over strings. *)

From S2P Require Import Prelude Errors Mem Strings Time Storage.

Definition ISO9660_FLAG_HIDDEN : Z := 1.
Definition ISO9660_FLAG_DIR : Z := 2.
Definition ISO_ATTR_DIR : Z := 1.
Definition ISO_ATTR_HIDDEN : Z := 2.
Definition sizeof_pvd : Z := 2048.
Definition root_directory_offset : Z := 156.

Record inode_t : Type := mk_inode { extent_start : Z; ilength : Z; iattributes : Z; icreated : Z }.
Record iso (D : Type) : Type := mk_iso { idrive : D; imem : mem; inodes : list inode_t; icache : list nat }.
Arguments mk_iso {D}. Arguments idrive {D}. Arguments imem {D}. Arguments inodes {D}. Arguments icache {D}.

(** ** Directory entries *)

Definition e_length (m : mem) (d : Z) : Z := load8 m d.
Definition e_extent (m : mem) (d : Z) : Z := load32 m (d + 2).
Definition e_size (m : mem) (d : Z) : Z := load32 m (d + 10).
Definition e_time (m : mem) (d : Z) : Z :=
  convert_to_std_time (load8 m (d + 23)) (load8 m (d + 22)) (load8 m (d + 21)) (load8 m (d + 20)) (load8 m (d + 19)) (load8 m (d + 18)).
Definition e_flags (m : mem) (d : Z) : Z := load8 m (d + 25).
Definition e_name_len (m : mem) (d : Z) : Z := load8 m (d + 32).
Definition e_name (d : Z) : Z := d + 33.

Definition node_of_entry (m : mem) (d : Z) : inode_t :=
  let a := if negb (Z.land (e_flags m d) ISO9660_FLAG_HIDDEN =? 0) then Z.lor 0 ISO_ATTR_HIDDEN else 0 in
  let a := if negb (Z.land (e_flags m d) ISO9660_FLAG_DIR =? 0) then Z.lor a ISO_ATTR_DIR else a in
  mk_inode (e_extent m d) (e_size m d) a (e_time m d).

Section Iso.
Context {D : Type} `{BlockDevice D} (sf : nat) (ibuf nbuf : Z).

Definition set_imem (m : mem) : M (iso D) unit := modify (fun s => mk_iso (idrive s) m (inodes s) (icache s)).
Definition inode_at (i : nat) : M (iso D) inode_t := fun s => match inodes s !! i with Some x => Ok x s | None => Fault end.
Definition ilift {A} (o : option A) : M (iso D) A := match o with Some a => ret a | None => nofuel end.

(** A read into the kernel's memory. *)
Definition iread (sector offset buffer count : Z) : M (iso D) Z :=
  fun s => match bread sector offset count (idrive s) with
           | Ok (e, bs) d => Ok e (mk_iso d (store_bytes (imem s) buffer bs) (inodes s) (icache s))
           | Fatal e => Fatal e | Fault => Fault | NoFuel => NoFuel
           end.

Fixpoint in_cache (nodes : list inode_t) (cache : list nat) (extent : Z) : option (option nat) :=
  match cache with
  | [] => Some None
  | i :: r =>
    match nodes !! i with
    | None => None
    | Some x => if extent_start x =? extent then Some (Some i) else in_cache nodes r extent
    end
  end.
Definition iso9660_dirent_normalize_cache (d : Z) : M (iso D) nat :=
  s <- get ;;
  match in_cache (inodes s) (icache s) (e_extent (imem s) d) with
  | None => fault
  | Some (Some i) => ret i
  | Some None =>
    let i := length (inodes s) in
    put (mk_iso (idrive s) (imem s) (inodes s ++ [node_of_entry (imem s) d]) (icache s ++ [i])) ;;;
    ret i
  end.

Definition iso9660_read_file (file : nat) (offset buffer count : Z) : M (iso D) Z :=
  x <- inode_at file ;; iread (extent_start x) (u32 offset) buffer count.

(** The name of an entry without its version and without a final dot. *)
Definition copy_name (d : Z) : M (iso D) unit :=
  s <- get ;;
  let len := e_name_len (imem s) d in
  m <- ilift (strncpy sf (imem s) nbuf (e_name d) len) ;;
  let m := if (2 <? len) && (load8 m (nbuf + len - 2) =? 59) then store8 m (nbuf + len - 2) 0 else m in
  m <- (if 1 <? len then
          l <- ilift (strlen sf m nbuf) ;;
          ret (if load8 m (nbuf + l - 1) =? 46 then store8 m (nbuf + l - 1) 0 else m)
        else ret m) ;;
  set_imem m.

Fixpoint open_loop (n : nat) (d length name : Z) : M (iso D) (option nat) :=
  match n with
  | O => nofuel
  | S k =>
    if length =? 0 then ret None else
    s <- get ;;
    if e_length (imem s) d =? 0 then open_loop k (u32 (d + 1)) (u32 (length - 1)) name else
    copy_name d ;;;
    s <- get ;;
    c <- ilift (strcmpnc sf (imem s) nbuf name) ;;
    if c =? 0 then i <- iso9660_dirent_normalize_cache d ;; ret (Some i) else
    s <- get ;;
    open_loop k (u32 (d + e_length (imem s) d)) (u32 (length - e_length (imem s) d)) name
  end.
Definition iso9660_open (dir : nat) (name : Z) : M (iso D) (option nat) :=
  x <- inode_at dir ;;
  let length := u32 (ilength x) in
  e <- iread (extent_start x) 0 ibuf length ;;
  if negb (e =? ERROR_NONE) then ret None else
  open_loop (S (Z.to_nat length)) ibuf length name.

(** The entry with the number [index] as (inode, name_len, name). *)
Definition listed (m : mem) (d : Z) (index : nat) : Z * Z * list Z :=
  match index with
  | O => (e_extent m d, 1, [46])
  | S O => (e_extent m d, 2, [46; 46])
  | _ => (e_extent m d, e_name_len m d, before_zero (bytes_at m (e_name d) (Z.to_nat (e_name_len m d))))
  end.
Fixpoint iso_list_loop (n : nat) (m : mem) (d length : Z) (index : nat) : option (list (Z * Z * list Z)) :=
  match n with
  | O => None
  | S k =>
    if length =? 0 then Some [] else
    if e_length m d =? 0 then iso_list_loop k m (u32 (d + 1)) (u32 (length - 1)) index else
    match iso_list_loop k m (u32 (d + e_length m d)) (u32 (length - e_length m d)) (S index) with
    | Some r => Some (listed m d index :: r)
    | None => None
    end
  end.
Definition iso9660_list_dir (dir : nat) : M (iso D) (Z * list (Z * Z * list Z)) :=
  x <- inode_at dir ;;
  let length := u32 (ilength x) in
  e <- iread (extent_start x) 0 ibuf length ;;
  if negb (e =? ERROR_NONE) then ret (e, []) else
  s <- get ;;
  r <- ilift (iso_list_loop (S (Z.to_nat length)) (imem s) ibuf length 0) ;;
  ret (ERROR_NONE, r).

(** The volume and its root directory; [pvd] is the address of the descriptor. *)
Definition iso9660fs_init (pvd : Z) (m : mem) : M D (iso D * nat) :=
  fun d =>
    match (iread 16 0 pvd sizeof_pvd ;;; iso9660_dirent_normalize_cache (pvd + root_directory_offset)) (mk_iso d m [] []) with
    | Ok i s => Ok (s, i) (idrive s)
    | Fatal e => Fatal e | Fault => Fault | NoFuel => NoFuel
    end.
End Iso.

(** ** Listing *)

(** A directory is a sequence of entries with zeros between them: an entry is
    its bytes, of which the first is their number; [None] is one zero. *)
Definition entry_ok (b : list Z) : Prop :=
  33 <= Z.of_nat (length b) < 256 /\ e_length (mem_of 0 b) 0 = Z.of_nat (length b) /\
  33 + e_name_len (mem_of 0 b) 0 <= Z.of_nat (length b).
Definition item_bytes (x : option (list Z)) : list Z := match x with Some b => b | None => [0] end.
Definition item_ok (x : option (list Z)) : Prop := match x with Some b => entry_ok b | None => True end.
Definition dir_bytes (xs : list (option (list Z))) : list Z := concat (map item_bytes xs).
Fixpoint list_spec (index : nat) (xs : list (option (list Z))) : list (Z * Z * list Z) :=
  match xs with
  | [] => []
  | None :: r => list_spec index r
  | Some b :: r => listed (mem_of 0 b) 0 index :: list_spec (S index) r
  end.

(** An entry in memory and its copy. *)
Lemma entry_byte m d b x : bytes_at m d (length b) = b -> 0 <= x < Z.of_nat (length b) -> load8 m (d + x) = load8 (mem_of 0 b) (0 + x).
Proof. intros Hb Hx. rewrite <- Hb. rewrite load8_mem_of by (rewrite ?Hb; lia). done. Qed.
Lemma entry_length m d b : bytes_at m d (length b) = b -> entry_ok b -> e_length m d = Z.of_nat (length b).
Proof. intros Hb (Hl & He & _). rewrite <- He. unfold e_length. rewrite <- (Z.add_0_r d). rewrite (entry_byte m d b) by (done || lia). done. Qed.
Lemma entry_name_len m d b : bytes_at m d (length b) = b -> entry_ok b -> e_name_len m d = e_name_len (mem_of 0 b) 0.
Proof. intros Hb (Hl & _). unfold e_name_len. by rewrite (entry_byte m d b) by (done || lia). Qed.
Lemma entry_word m d b x : bytes_at m d (length b) = b -> 0 <= x -> x + 4 <= Z.of_nat (length b) -> load32 m (d + x) = load32 (mem_of 0 b) (0 + x).
Proof. intros Hb H0 Hx. unfold load32. rewrite <- !Z.add_assoc. by rewrite !(entry_byte m d b) by (done || lia). Qed.
Lemma entry_name m d b : bytes_at m d (length b) = b -> entry_ok b ->
  bytes_at m (e_name d) (Z.to_nat (e_name_len m d)) = bytes_at (mem_of 0 b) (e_name 0) (Z.to_nat (e_name_len (mem_of 0 b) 0)).
Proof.
  intros Hb Hok. rewrite (entry_name_len m d b Hb Hok). destruct Hok as (Hl & _ & Hn). apply bytes_at_eq. intros k Hk. unfold e_name.
  rewrite <- !Z.add_assoc. apply (entry_byte m d b (33 + k) Hb). lia.
Qed.
Lemma entry_listed m d b index : bytes_at m d (length b) = b -> entry_ok b -> listed m d index = listed (mem_of 0 b) 0 index.
Proof.
  intros Hb Hok. unfold listed. rewrite (entry_name m d b Hb Hok), (entry_name_len m d b Hb Hok).
  assert (e_extent m d = e_extent (mem_of 0 b) 0) as -> by (unfold e_extent; apply (entry_word m d b 2 Hb); destruct Hok as [? _]; lia). done.
Qed.

Lemma iso_list_loop_ok xs : Forall item_ok xs -> forall n m d index, (length (dir_bytes xs) < n)%nat ->
  0 <= d -> d + Z.of_nat (length (dir_bytes xs)) < 4294967296 -> bytes_at m d (length (dir_bytes xs)) = dir_bytes xs ->
  iso_list_loop n m d (Z.of_nat (length (dir_bytes xs))) index = Some (list_spec index xs).
Proof.
  induction 1 as [|x xs Hx Hxs IH]; intros n m d index Hn Hd Hr Hb; (destruct n as [|n]; [lia|]); cbn [iso_list_loop]; [done|].
  change (dir_bytes (x :: xs)) with (item_bytes x ++ dir_bytes xs) in *. rewrite length_app in *. rewrite bytes_at_app in Hb.
  apply app_inj_1 in Hb as [Hb1 Hb2]; [|by rewrite length_bytes_at].
  destruct x as [b|]; cbn [item_bytes item_ok list_spec] in *.
  - pose proof Hx as (Hl & _). dec_false (Z.of_nat (length b + length (dir_bytes xs)) =? 0).
    rewrite (entry_length m d b) by done. dec_false (Z.of_nat (length b) =? 0). rewrite !u32_id by lia.
    replace (Z.of_nat (length b + length (dir_bytes xs)) - Z.of_nat (length b)) with (Z.of_nat (length (dir_bytes xs))) by lia.
    rewrite IH by (done || lia). by rewrite (entry_listed m d b).
  - change (length [0]) with 1%nat in *. dec_false (Z.of_nat (1 + length (dir_bytes xs)) =? 0).
    assert (e_length m d = 0) as -> by (cbn in Hb1; by injection Hb1). cbn [Z.eqb]. rewrite !u32_id by lia.
    replace (Z.of_nat (1 + length (dir_bytes xs)) - 1) with (Z.of_nat (length (dir_bytes xs))) by lia.
    change (Z.of_nat 1) with 1 in Hb2. apply IH; done || lia.
Qed.

(** A read of a whole extent. *)
Lemma iread_ok {D} `{BlockDevice D} (s : iso D) sector buffer count : bworking (idrive s) -> 0 <= sector -> 0 <= count -> sector + count / 512 + 1 < 268435456 ->
  exists d', iread sector 0 buffer count s = Ok ERROR_NONE (mk_iso d' (store_bytes (imem s) buffer (bytes_at (bcontent (idrive s)) (sector * 512) (Z.to_nat count))) (inodes s) (icache s)) /\
    bworking d' /\ bcontent d' = bcontent (idrive s).
Proof.
  intros Hw Hs Hc Hr. destruct (bread_law (idrive s) sector 0 count) as (d' & Hrun & Hw' & Hc'); [done|done|lia|done|by (change (0 / 512) with 0; lia)|by left|].
  exists d'. unfold iread. rewrite Hrun, Z.add_0_r. done.
Qed.

(** A directory is listed entry by entry in order: the first two as . and ..
    and the others by their names, with the extent of each as its inode; zeros
    between entries, as at the end of a sector, are skipped wherever they are. *)
Lemma iso_list_dir_correct {D} `{BlockDevice D} ibuf (s : iso D) dir x xs :
  bworking (idrive s) -> inodes s !! dir = Some x -> 0 <= extent_start x -> Forall item_ok xs ->
  ilength x = Z.of_nat (length (dir_bytes xs)) -> extent_start x + ilength x / 512 + 1 < 268435456 ->
  bytes_at (bcontent (idrive s)) (extent_start x * 512) (Z.to_nat (ilength x)) = dir_bytes xs ->
  0 <= ibuf -> ibuf + ilength x < 4294967296 ->
  exists s', iso9660_list_dir ibuf dir s = Ok (ERROR_NONE, list_spec 0 xs) s' /\ bcontent (idrive s') = bcontent (idrive s) /\ inodes s' = inodes s.
Proof.
  intros Hw Hx Hext Hok Hlen Hsec Hbytes Hb0 Hbr.
  destruct (iread_ok s (extent_start x) ibuf (ilength x)) as (d' & Hrun & Hw' & Hc); [done|done|lia|done|]. rewrite Hbytes in Hrun.
  exists (mk_iso d' (store_bytes (imem s) ibuf (dir_bytes xs)) (inodes s) (icache s)).
  split; [|split; [exact Hc|reflexivity]]. unfold iso9660_list_dir, inode_at, bind at 1. rewrite Hx. rewrite u32_id by lia.
  rewrite (bind_ok _ _ _ _ _ Hrun). cbn [negb Z.eqb ERROR_NONE]. unfold get, bind at 1.
  match goal with |- context [iso_list_loop ?n ?m _ _ _] => assert (iso_list_loop n m ibuf (ilength x) 0 = Some (list_spec 0 xs)) as -> end.
  { rewrite Hlen. apply iso_list_loop_ok; [done|lia|done|lia|]. cbn. apply store_bytes_same. rewrite <- Hbytes. apply bytes_at_u8. }
  reflexivity.
Qed.

(** ** Opening *)

(** The name without its version and without a final dot. *)
Definition strip_version (n : list Z) : list Z :=
  if (2 <? Z.of_nat (length n)) && (nth (length n - 2) n 0 =? 59) then take (length n - 2) n else n.
Definition strip_dot (n : list Z) : list Z := if default 0 (last n) =? 46 then removelast n else n.
Definition iso_name (n : list Z) : list Z := if 1 <? Z.of_nat (length n) then strip_dot (strip_version n) else before_zero n.

(** Equality up to the case of letters. *)
Fixpoint same_nc (cs ds : list Z) : bool :=
  match cs, ds with
  | [], [] => true
  | c :: cs', d :: ds' => ((c =? d) || (invCase c =? d)) && same_nc cs' ds'
  | _, _ => false
  end.

(** A string that is cut. *)
Lemma cstr_cut m a cs k : cstr m a cs -> (k <= length cs)%nat -> cstr (store8 m (a + Z.of_nat k) 0) a (take k cs).
Proof.
  revert a k. induction cs as [|c cs IH]; intros a k Hc Hk.
  - assert (k = 0)%nat as -> by (cbn in Hk; lia). cbn [take cstr]. rewrite Z.add_0_r. by rewrite load8_store8.
  - destruct Hc as (Hl & Hr & Hc). destruct k as [|k]; [cbn; rewrite Z.add_0_r; by rewrite load8_store8|]. cbn [take cstr].
    rewrite load8_store8_other by lia. split; [done|]. split; [done|].
    replace (a + Z.of_nat (S k)) with (a + 1 + Z.of_nat k) by lia. apply IH; [done|cbn in Hk; lia].
Qed.

Lemma invCase_range x : 0 <= x < 256 -> (invCase x = x \/ 0 < invCase x < 128) /\ (0 < x -> 0 < invCase x).
Proof.
  intros Hx. unfold invCase, toUpper, toLower, islower, isupper, u8.
  destruct (Z.leb_spec 97 x), (Z.leb_spec x 122), (Z.leb_spec 65 x), (Z.leb_spec x 90); cbn [andb]; dlia.
Qed.
Lemma strcmpnc_ok fuel : forall m a b cs ds, cstr m a cs -> cstr m b ds -> (length cs < fuel)%nat ->
  exists r, strcmpnc fuel m a b = Some r /\ (r =? 0) = same_nc cs ds.
Proof.
  assert (forall x y, 0 <= x < 256 -> 0 <= y < 256 -> x <> y -> (u32 (s8 x - s8 y) =? 0) = false) as Hdiff.
  { intros x y Hx Hy Hne. apply Z.eqb_neq. unfold u32, s8. rewrite !u8_id by lia. destruct (Z.ltb_spec x 128), (Z.ltb_spec y 128); intros Hz; dlia. }
  assert (forall x y, 0 <= x < 256 -> 0 <= y < 256 -> ((s8 x =? s8 y) || (invCase (u8 (s8 x)) =? s8 y)) = ((x =? y) || (invCase x =? y))) as Hcase.
  { intros x y Hx Hy. rewrite s8_inj by done. destruct (Z.eqb_spec x y) as [->|Hne]; [done|]. cbn [orb].
    assert (u8 (s8 x) = x) as -> by (unfold s8, u8; destruct (x mod 256 <? 128); dlia).
    destruct (invCase_range x Hx) as [Hi _]. unfold s8. rewrite u8_id by lia. destruct (Z.ltb_spec y 128) as [|Hge]; [done|].
    dec_false (invCase x =? y - 256). by dec_false (invCase x =? y). }
  induction fuel as [|k IH]; intros m a b cs ds Hc Hd Hf; [lia|]. cbn [strcmpnc].
  destruct cs as [|c cs], ds as [|d ds]; cbn [cstr same_nc length] in *.
  - rewrite Hc, Hd. by exists 0.
  - destruct Hd as (-> & Hd & _). rewrite Hc. change (s8 0) with 0. cbn [Z.eqb negb andb]. eexists. split; [done|]. by apply (Hdiff 0); lia.
  - destruct Hc as (-> & Hc & _). rewrite Hd. rewrite s8_zero by lia. dec_false (c =? 0). cbn [negb andb].
    rewrite Hcase by lia. dec_false (c =? 0). replace (invCase c =? 0) with false; [|].
    + eexists. split; [done|]. by apply Hdiff; lia.
    + symmetry. apply Z.eqb_neq. destruct (invCase_range c) as [_ Hi]; lia.
  - destruct Hc as (-> & Hc & Hcr), Hd as (-> & Hd & Hdr). rewrite s8_zero, Hcase by lia. dec_false (c =? 0). cbn [negb andb].
    destruct ((c =? d) || (invCase c =? d)) eqn:He; [by apply IH; [| |lia]|]. eexists. split; [done|].
    apply Hdiff; [lia|lia|]. intros ->. by rewrite Z.eqb_refl in He.
Qed.

Definition entry_name_of (b : list Z) : list Z := bytes_at (mem_of 0 b) (e_name 0) (Z.to_nat (e_name_len (mem_of 0 b) 0)).
(** Names have no zero, apart from the one that stands for the directory itself. *)
Definition name_fine (b : list Z) : Prop := Forall (fun c => 0 < c < 256) (entry_name_of b) \/ e_name_len (mem_of 0 b) 0 <= 1.
Definition item_fine (x : option (list Z)) : Prop := match x with Some b => entry_ok b /\ name_fine b | None => True end.

Lemma strip_version_nonempty n : (1 < length n)%nat -> strip_version n <> [] /\ (length (strip_version n) <= length n)%nat.
Proof.
  intros Hn. unfold strip_version. destruct (_ && _) eqn:He.
  - apply andb_true_iff in He as [H2%Z.ltb_lt _]. rewrite length_take. split; [|lia]. intros Hz. apply (f_equal length) in Hz. rewrite length_take in Hz. cbn in Hz. lia.
  - split; [|done]. by destruct n; [cbn in Hn; lia|].
Qed.
Lemma last_nth (n : list Z) : n <> [] -> default 0 (last n) = nth (length n - 1) n 0.
Proof.
  intros Hne. destruct (last n) as [c|] eqn:Hl; [|by apply last_None in Hl]. apply last_Some in Hl as [l ->].
  rewrite length_app. cbn. rewrite app_nth2 by lia. by replace (length l + 1 - 1 - length l)%nat with 0%nat by lia.
Qed.
Lemma removelast_take (n : list Z) : removelast n = take (length n - 1) n.
Proof. rewrite removelast_firstn_len. f_equal. lia. Qed.
Lemma cstr_nth m a cs k : cstr m a cs -> (k < length cs)%nat -> load8 m (a + Z.of_nat k) = nth k cs 0.
Proof.
  intros Hc Hk. destruct (lookup_lt_is_Some_2 cs k Hk) as [c Hl]. destruct (cstr_chars _ _ _ _ _ Hc Hl) as [-> _]. symmetry. by apply nth_lookup_Some.
Qed.

Lemma iso_name_length n : (length (iso_name n) <= length n)%nat.
Proof.
  unfold iso_name, strip_dot, strip_version. case_match; [|clear; induction n as [|c n IH]; [done|]; cbn; destruct (c =? 0); cbn; lia].
  repeat case_match; rewrite ?removelast_take, ?length_take; lia.
Qed.

(** The two cuts of a name, in memory. *)
Lemma cut_version m a n : cstr m a n -> (1 < length n)%nat ->
  exists m', (if (2 <? zlen n) && (load8 m (a + zlen n - 2) =? 59) then store8 m (a + zlen n - 2) 0 else m) = m' /\
    cstr m' a (strip_version n) /\ forall x, ~ (a <= x < a + zlen n) -> m' x = m x.
Proof.
  intros Hc Hn. replace (a + zlen n - 2) with (a + Z.of_nat (length n - 2)) by lia. rewrite (cstr_nth m a n (length n - 2) Hc) by lia.
  eexists. split; [reflexivity|]. unfold strip_version. destruct (_ && _) eqn:He; [|done]. split; [apply cstr_cut; [done|lia]|].
  intros x Hx. apply store8_other. lia.
Qed.
Lemma cut_dot m a n : cstr m a n -> n <> [] ->
  cstr (if load8 m (a + zlen n - 1) =? 46 then store8 m (a + zlen n - 1) 0 else m) a (strip_dot n) /\
  forall x, ~ (a <= x < a + zlen n) -> (if load8 m (a + zlen n - 1) =? 46 then store8 m (a + zlen n - 1) 0 else m) x = m x.
Proof.
  intros Hc Hne. assert (0 < length n)%nat as Hn by (destruct n; [done|cbn; lia]).
  replace (a + zlen n - 1) with (a + Z.of_nat (length n - 1)) by lia. rewrite (cstr_nth m a n (length n - 1) Hc) by lia.
  unfold strip_dot. rewrite last_nth by done. destruct (nth (length n - 1) n 0 =? 46); [|done]. split.
  - rewrite removelast_take. apply cstr_cut; [done|lia].
  - intros x Hx. apply store8_other. lia.
Qed.

Section IsoOpen.
Context {D : Type} `{BlockDevice D} (sf : nat) (ibuf nbuf : Z) (Hsf : (256 <= sf)%nat).

Definition with_mem (s : iso D) (m : mem) : iso D := mk_iso (idrive s) m (inodes s) (icache s).

Lemma copy_name_ok (s : iso D) d b : bytes_at (imem s) d (length b) = b -> entry_ok b -> name_fine b ->
  nbuf + 256 <= d \/ d + Z.of_nat (length b) <= nbuf ->
  exists m', copy_name sf nbuf d s = Ok tt (with_mem s m') /\ cstr m' nbuf (iso_name (entry_name_of b)) /\
    forall x, ~ (nbuf <= x < nbuf + 256) -> m' x = imem s x.
Proof.
  intros Hb Hok Hfine Hap. pose proof Hok as (Hl & _ & Hn). unfold copy_name, get, bind at 1. rewrite (entry_name_len _ _ _ Hb Hok).
  set (len := e_name_len (mem_of 0 b) 0) in *. assert (0 <= len < 256) as Hlen by (split; [apply load8_range|lia]).
  destruct (strncpy_ok sf (imem s) nbuf (e_name d) 0 len) as (m1 & Hrun & Hc & Hout); [lia|lia|unfold e_name; lia|].
  rewrite Z.sub_0_r in *. pose proof (entry_name _ _ _ Hb Hok) as Hnm. rewrite (entry_name_len _ _ _ Hb Hok) in Hnm. fold len in Hnm. rewrite Hnm in Hc.
  change (bytes_at _ _ _) with (entry_name_of b) in Hc. unfold strncpy, ilift. rewrite Hrun. unfold ret at 1, bind at 1.
  set (n := entry_name_of b) in *. assert (zlen n = len) as Hzl by (unfold n, entry_name_of; rewrite length_bytes_at; fold len; lia).
  unfold iso_name. destruct (Z.ltb_spec 1 (zlen n)) as [Hlong|Hshort].
  - assert (before_zero n = n) as Hbz by (destruct Hfine as [Hf|Hf]; [by apply before_zero_id|fold len in Hf; lia]). rewrite Hbz in Hc.
    destruct (cut_version m1 nbuf n Hc ltac:(lia)) as (m2 & Hm2 & Hc2 & Hout2). rewrite Hzl in Hm2. rewrite Hm2. dec_true (1 <? len).
    destruct (strip_version_nonempty n ltac:(lia)) as [Hne Hle].
    rewrite (strlen_ok sf m2 nbuf (strip_version n)) by (done || lia). unfold ret at 1, bind at 2.
    destruct (cut_dot m2 nbuf _ Hc2 Hne) as [Hc3 Hout3]. eexists. unfold set_imem, modify, bind, ret. split; [reflexivity|]. split; [exact Hc3|].
    intros x Hx. rewrite Hout3, Hout2, Hout by lia. done.
  - dec_false (2 <? len). dec_false (1 <? len). cbn [andb]. exists m1. split; [reflexivity|]. split; [done|]. intros x Hx. apply Hout. lia.
Qed.

(** The first entry with the name. *)
Fixpoint named_entry (nm : list Z) (xs : list (option (list Z))) : option (list Z) :=
  match xs with
  | [] => None
  | None :: r => named_entry nm r
  | Some b :: r => if same_nc (iso_name (entry_name_of b)) nm then Some b else named_entry nm r
  end.
(** What opening it does to the nodes: the cached node, or a new one. *)
Definition opened (s s' : iso D) (o : option (list Z)) (r : option nat) : Prop :=
  bcontent (idrive s') = bcontent (idrive s) /\
  match o with
  | None => r = None /\ inodes s' = inodes s /\ icache s' = icache s
  | Some b =>
    match in_cache (inodes s) (icache s) (e_extent (mem_of 0 b) 0) with
    | Some (Some i) => r = Some i /\ inodes s' = inodes s /\ icache s' = icache s
    | _ => r = Some (length (inodes s)) /\ inodes s' = inodes s ++ [node_of_entry (mem_of 0 b) 0] /\ icache s' = icache s ++ [length (inodes s)]
    end
  end.

Lemma entry_node m d b : bytes_at m d (length b) = b -> entry_ok b -> node_of_entry m d = node_of_entry (mem_of 0 b) 0.
Proof.
  intros Hb (Hl & _). unfold node_of_entry, e_flags, e_time, e_extent, e_size.
  rewrite !(entry_word m d b) by (done || lia). by rewrite !(entry_byte m d b) by (done || lia).
Qed.
Lemma normalize_ok (s : iso D) d b : bytes_at (imem s) d (length b) = b -> entry_ok b ->
  in_cache (inodes s) (icache s) (e_extent (mem_of 0 b) 0) <> None ->
  exists i s', iso9660_dirent_normalize_cache d s = Ok i s' /\ opened s s' (Some b) (Some i).
Proof.
  intros Hb Hok Hin. unfold iso9660_dirent_normalize_cache, get, bind at 1, opened.
  assert (e_extent (imem s) d = e_extent (mem_of 0 b) 0) as -> by (unfold e_extent; apply (entry_word _ d b 2 Hb); destruct Hok as [? _]; lia).
  destruct (in_cache _ _ _) as [[i|]|]; [|rewrite (entry_node _ _ _ Hb Hok)|done]; eexists _, _; by split_and!.
Qed.

Lemma open_loop_ok nm name xs : Forall item_fine xs -> zlen nm < 4294967296 -> (length nm < sf)%nat ->
  name + zlen nm < nbuf \/ nbuf + 256 <= name -> forall n (s : iso D) d, (length (dir_bytes xs) < n)%nat ->
  0 <= d -> d + Z.of_nat (length (dir_bytes xs)) < 4294967296 -> nbuf + 256 <= d \/ d + Z.of_nat (length (dir_bytes xs)) <= nbuf ->
  bytes_at (imem s) d (length (dir_bytes xs)) = dir_bytes xs -> cstr (imem s) name nm ->
  (forall b, Some b ∈ xs -> in_cache (inodes s) (icache s) (e_extent (mem_of 0 b) 0) <> None) ->
  exists r s', open_loop sf nbuf n d (Z.of_nat (length (dir_bytes xs))) name s = Ok r s' /\ opened s s' (named_entry nm xs) r.
Proof.
  intros Hxs Hnm Hnf Hap. induction Hxs as [|x xs Hx Hxs IH]; intros n s d Hn Hd Hr Hda Hb Hc Hin; (destruct n as [|n]; [lia|]); cbn [open_loop].
  { exists None, s. done. }
  change (dir_bytes (x :: xs)) with (item_bytes x ++ dir_bytes xs) in *. rewrite length_app in *. rewrite bytes_at_app in Hb.
  apply app_inj_1 in Hb as [Hb1 Hb2]; [|by rewrite length_bytes_at].
  destruct x as [b|]; cbn [item_bytes item_fine named_entry] in *.
  - destruct Hx as [Hok Hfine]. pose proof Hok as (Hl & _). dec_false (Z.of_nat (length b + length (dir_bytes xs)) =? 0).
    unfold get at 1, bind at 1. rewrite (entry_length _ d b) by done. dec_false (Z.of_nat (length b) =? 0).
    destruct (copy_name_ok s d b) as (m' & Hrun & Hname & Hout); [done|done|done|lia|]. rewrite (bind_ok _ _ _ _ _ Hrun).
    assert (forall a k, nbuf + 256 <= a \/ a + Z.of_nat k <= nbuf -> bytes_at m' a k = bytes_at (imem s) a k) as Hkeep.
    { intros a k Hk. apply bytes_at_ext. intros y Hy. apply Hout. lia. }
    assert (cstr m' name nm) as Hc' by (eapply cstr_ext; [|exact Hc]; intros y Hy; apply load8_ext, Hout; lia).
    assert (length (iso_name (entry_name_of b)) < sf)%nat as Hlen.
    { apply (Nat.le_lt_trans _ (length (entry_name_of b))); [apply iso_name_length|]. unfold entry_name_of. rewrite length_bytes_at. destruct Hok as (_ & _ & Hnl). lia. }
    destruct (strcmpnc_ok sf m' nbuf name _ nm Hname Hc' Hlen) as (r & Hcmp & Hsame).
    unfold get at 1, bind at 1. cbn [imem with_mem]. unfold ilift. rewrite Hcmp. unfold ret at 1, bind at 1. rewrite Hsame.
    assert (bytes_at (imem (with_mem s m')) d (length b) = b) as Hb1' by (cbn; rewrite Hkeep by lia; done).
    destruct (same_nc (iso_name (entry_name_of b)) nm).
    + destruct (normalize_ok (with_mem s m') d b Hb1' Hok) as (i & s' & Hrun' & Hop); [apply Hin; by left|].
      exists (Some i), s'. split; [by rewrite (bind_ok _ _ _ _ _ Hrun')|]. exact Hop.
    + unfold get at 1, bind at 1. rewrite (entry_length _ d b) by done. rewrite !u32_id by lia.
      replace (Z.of_nat (length b + length (dir_bytes xs)) - Z.of_nat (length b)) with (Z.of_nat (length (dir_bytes xs))) by lia.
      apply (IH n (with_mem s m')); try done; try lia; [cbn; rewrite Hkeep by lia; done|]. intros b' Hb'. apply Hin. by right.
  - change (length [0]) with 1%nat in *. dec_false (Z.of_nat (1 + length (dir_bytes xs)) =? 0). unfold get at 1, bind at 1.
    assert (e_length (imem s) d = 0) as -> by (cbn in Hb1; by injection Hb1). cbn [Z.eqb]. rewrite !u32_id by lia.
    replace (Z.of_nat (1 + length (dir_bytes xs)) - 1) with (Z.of_nat (length (dir_bytes xs))) by lia.
    change (Z.of_nat 1) with 1 in Hb2. apply IH; try done; try lia. intros b' Hb'. apply Hin. by right.
Qed.

End IsoOpen.

(** ** Examples *)

(** A directory of two sectors' worth of entries: itself, its parent, [A.;1], two
    zeros and [BIN]. *)
Definition demo_entry (extent size flags : Z) (name : list Z) : list Z :=
  [33 + zlen name; 0] ++ le32 extent ++ [0; 0; 0; 0] ++ le32 size ++ [0; 0; 0; 0] ++ [100; 1; 1; 0; 0; 0; 0] ++ [flags; 0; 0; 0; 0; 0; 0; zlen name] ++ name.
Definition demo_iso_dir : list (option (list Z)) :=
  [Some (demo_entry 20 154 2 [0]); Some (demo_entry 20 154 2 [1]); Some (demo_entry 30 5 0 [65; 46; 59; 49]); None; None; Some (demo_entry 40 10 2 [66; 73; 78])].
Definition demo_iso : iso mem :=
  mk_iso (mem_of 10240 (dir_bytes demo_iso_dir)) (mem_of 100 [97; 0]) [mk_inode 20 143 1 0] [0%nat].

Lemma demo_iso_fine : Forall item_fine demo_iso_dir.
Proof.
  assert (forall b, entry_ok b -> name_fine b -> item_fine (Some b)) as Hitem by done.
  repeat (apply Forall_cons; split); try exact I; try (apply Forall_nil_2); (apply Hitem; [by split_and!|]);
    first [right; vm_compute; discriminate|left; vm_compute; repeat constructor].
Qed.

Lemma iso_list_dir_correct_witness : exists s',
  iso9660_list_dir 4096 0 demo_iso = Ok (ERROR_NONE, [(20, 1, [46]); (20, 2, [46; 46]); (30, 4, [65; 46; 59; 49]); (40, 3, [66; 73; 78])]) s' /\
  bcontent (idrive s') = bcontent (idrive demo_iso) /\ inodes s' = inodes demo_iso.
Proof.
  apply (iso_list_dir_correct 4096 demo_iso 0 (mk_inode 20 143 1 0) demo_iso_dir); try (vm_compute; (reflexivity || exact I || discriminate)).
  apply (Forall_impl item_fine); [apply demo_iso_fine|]. intros [b|]; cbn; tauto.
Defined.


(** Files are known by the start of their extent: an empty file that shares it
    with another is opened as that one. *)
Definition demo_shared : iso mem :=
  mk_iso (mem_of 10240 (demo_entry 30 5 0 [65; 65] ++ demo_entry 30 0 0 [66; 66])) (mem_of 100 [97; 97; 0; 98; 98; 0]) [mk_inode 20 70 1 0] [0%nat].
Lemma empty_files_shared :
  match (iso9660_open 256 4096 8192 0 100 ;;; iso9660_open 256 4096 8192 0 103) demo_shared with
  | Ok (Some i) s => ilength <$> inodes s !! i = Some 5
  | _ => False
  end.
Proof. vm_compute. reflexivity. Qed.
