(* ===== verification/Devfs.v ===== *)
(** The device file system (filesystem/devfs.c, filesystem/devfs.h).

    Its one directory is an array of pairs of a node and a name; an entry
    without a node is unused.  Nodes are addresses, given by [kmalloc] (the
    argument [node]); what is behind them is [dnodes].  [krealloc] does not
    clear what it adds: the entries behind the old ones are [stale].  Names are
    the characters of C strings.  The devices are seen through [dev_ops]. *)

From S2P Require Import Prelude Errors.

Definition DEVFS_TYPE_DIRECTORY : Z := 1.
Definition DEVFS_TYPE_BLOCKDEV : Z := 2.
Definition DEVFS_TYPE_BLOCKDEV_PART : Z := 3.
Definition DEVFS_TYPE_TTY : Z := 4.
Definition DEVFS_TYPE_IOSTREAM : Z := 5.
Definition sizeof_devfs_dirent : Z := 8.
Definition DEVFS_DIR_SIZE_DEFAULT : Z := sizeof_devfs_dirent * 10.

Record devnode : Type := mk_devnode { device_struct : Z; device_type : Z; device_info : Z }.
Record devfs (W : Type) : Type := mk_devfs {
  dents : list (Z * list Z); dlength : Z; dnodes : gmap Z devnode; devices : W }.
Arguments mk_devfs {W}. Arguments dents {W}. Arguments dlength {W}. Arguments dnodes {W}. Arguments devices {W}.

Record dev_ops (W : Type) : Type := mk_dev_ops {
  blk_read : Z -> Z -> Z -> Z -> Z -> M W Z;
  blk_write : Z -> Z -> Z -> Z -> Z -> M W Z;
  part_start : Z -> Z -> W -> Z;
  terminal_read : Z -> Z -> Z -> M W Z;
  terminal_write : Z -> Z -> Z -> M W Z;
  stream_read : Z -> Z -> Z -> M W Z;
  stream_write : Z -> Z -> Z -> M W Z }.
Arguments blk_read {W}. Arguments blk_write {W}. Arguments part_start {W}. Arguments terminal_read {W}. Arguments terminal_write {W}.
Arguments stream_read {W}. Arguments stream_write {W}.

Definition devfs_init {W} (w : W) : devfs W := mk_devfs (replicate 10 (0, [])) DEVFS_DIR_SIZE_DEFAULT ∅ w.

Section Devfs.
Context {W : Type} (ops : dev_ops W).

(** How many entries the loops visit: one for each eight bytes begun. *)
Definition entries (s : devfs W) : nat := Z.to_nat ((dlength s + 7) / sizeof_devfs_dirent).

(** [None]: behind the end of the array. *)
Fixpoint devfs_find (n : nat) (l : list (Z * list Z)) (name : list Z) : option Z :=
  match n with
  | O => Some 0
  | S k =>
    match l with
    | [] => None
    | (node, nm) :: r => if node =? 0 then Some 0 else if bool_decide (nm = name) then Some node else devfs_find k r name
    end
  end.
(** [tty]: the node of the terminal of the current process. *)
Definition devfs_open (tty : Z) (name : list Z) : M (devfs W) Z :=
  if bool_decide (name = [116; 116; 121]) then ret tty else
  s <- get ;;
  match devfs_find (entries s) (dents s) name with
  | Some node => ret node
  | None => fault
  end.

Fixpoint devfs_list_loop (n : nat) (l : list (Z * list Z)) : option (list (Z * list Z)) :=
  match n with
  | O => Some []
  | S k =>
    match l with
    | [] => None
    | (node, nm) :: r =>
      if node =? 0 then Some [] else match devfs_list_loop k r with Some x => Some ((node, nm) :: x) | None => None end
    end
  end.
Definition devfs_list_dir : M (devfs W) (Z * list (Z * list Z)) :=
  s <- get ;;
  match devfs_list_loop (entries s) (dents s) with
  | Some r => ret (ERROR_NONE, r)
  | None => fault
  end.

Definition on_devices {A} (c : M W A) : M (devfs W) A :=
  fun s => match c (devices s) with
           | Ok a w => Ok a (mk_devfs (dents s) (dlength s) (dnodes s) w)
           | Fatal e => Fatal e | Fault => Fault | NoFuel => NoFuel
           end.
Definition devnode_at (node : Z) : M (devfs W) devnode := fun s => match dnodes s !! node with Some x => Ok x s | None => Fault end.

Definition devfs_read_file (node offset buffer count : Z) : M (devfs W) Z :=
  x <- devnode_at node ;;
  s <- get ;;
  let dev := device_struct x in
  if device_type x =? DEVFS_TYPE_BLOCKDEV then on_devices (blk_read ops dev 0 (u32 offset) buffer count)
  else if device_type x =? DEVFS_TYPE_BLOCKDEV_PART then
    on_devices (blk_read ops dev (part_start ops dev (device_info x) (devices s)) (u32 offset) buffer count)
  else if device_type x =? DEVFS_TYPE_TTY then on_devices (terminal_read ops dev buffer (u32 count))
  else if device_type x =? DEVFS_TYPE_IOSTREAM then on_devices (stream_read ops dev buffer (u32 count))
  else ret ERROR_FILE_FS_INTERNAL.
Definition devfs_write_file (node offset buffer count : Z) : M (devfs W) Z :=
  x <- devnode_at node ;;
  s <- get ;;
  let dev := device_struct x in
  if device_type x =? DEVFS_TYPE_BLOCKDEV then on_devices (blk_write ops dev 0 (u32 offset) buffer count)
  else if device_type x =? DEVFS_TYPE_BLOCKDEV_PART then
    on_devices (blk_write ops dev (part_start ops dev (device_info x) (devices s)) (u32 offset) buffer count)
  else if device_type x =? DEVFS_TYPE_TTY then on_devices (terminal_write ops dev buffer (u32 count))
  else if device_type x =? DEVFS_TYPE_IOSTREAM then on_devices (stream_write ops dev buffer (u32 count))
  else ret ERROR_FILE_FS_INTERNAL.

(** The first entry whose first byte is zero, [Some n] when there is none. *)
Fixpoint free_entry (n : nat) (l : list (Z * list Z)) : option nat :=
  match n with
  | O => Some O
  | S k =>
    match l with
    | [] => None
    | (node, _) :: r => if u8 node =? 0 then Some O else match free_entry k r with Some i => Some (S i) | None => None end
    end
  end.
Definition devfs_register_device (stale : list (Z * list Z)) (node : Z) (name : list Z) (device type info : Z) : M (devfs W) Z :=
  s <- get ;;
  let nodes := <[node := mk_devnode device type info]> (dnodes s) in
  match free_entry (entries s) (dents s) with
  | None => fault
  | Some i =>
    (if (i <? entries s)%nat then put (mk_devfs (<[i := (node, name)]> (dents s)) (dlength s) nodes (devices s))
     else put (mk_devfs (<[i := (node, name)]> (dents s ++ stale)) (u64 (dlength s * 2)) nodes (devices s))) ;;;
    ret node
  end.
End Devfs.

(** ** Registering and opening *)

Section DevfsOpen.
Context {W : Type}.

(** The directory holds [l]: used entries in front, cleared ones behind. *)
Definition holds (s : devfs W) (l : list (Z * list Z)) : Prop :=
  exists k, dents s = l ++ replicate k (0, []) /\ dlength s = 8 * Z.of_nat (length (dents s)) /\ (0 < length (dents s))%nat /\
    Forall (fun e => u8 e.1 <> 0) l.

Lemma u8_nonzero z : u8 z <> 0 -> z <> 0.
Proof. by intros Hz ->. Qed.
Lemma holds_entries s l : holds s l -> entries s = length (dents s).
Proof. intros (k & _ & Hl & _). unfold entries, sizeof_devfs_dirent. rewrite Hl. dlia. Qed.
Lemma free_entry_after l k n : Forall (fun e => u8 e.1 <> 0) l -> n = (length l + k)%nat -> free_entry n (l ++ replicate k (0, [])) = Some (length l).
Proof.
  intros Hl. revert n. induction Hl as [|[node nm] l Hne Hl IH]; intros n ->; [by destruct k|]. cbn [length Nat.add free_entry app].
  cbn in Hne. dec_false (u8 node =? 0). by rewrite IH.
Qed.
Lemma find_held l k n nm : Forall (fun e => u8 e.1 <> 0) l -> n = (length l + k)%nat ->
  forall node, (node, nm) ∈ l -> NoDup (snd <$> l) -> devfs_find n (l ++ replicate k (0, [])) nm = Some node.
Proof.
  intros Hl. revert n. induction Hl as [|[nd m] l Hne Hl IH]; intros n -> node Hin Hd; [by apply not_elem_of_nil in Hin|].
  cbn [length Nat.add devfs_find app fmap list_fmap snd] in *. cbn in Hne. apply u8_nonzero in Hne. dec_false (nd =? 0).
  apply NoDup_cons in Hd as [Hni Hd]. apply elem_of_cons in Hin as [[= <- <-]|Hin]; [by rewrite bool_decide_true|].
  rewrite bool_decide_false; [by apply IH|]. intros ->. apply Hni. by apply (list_elem_of_fmap_2' snd l (node, nm)).
Qed.
Lemma list_held l k n : Forall (fun e => u8 e.1 <> 0) l -> n = (length l + k)%nat -> devfs_list_loop n (l ++ replicate k (0, [])) = Some l.
Proof.
  intros Hl. revert n. induction Hl as [|[nd m] l Hne Hl IH]; intros n ->; [by destruct k|]. cbn [length Nat.add devfs_list_loop app].
  cbn in Hne. apply u8_nonzero in Hne. dec_false (nd =? 0). by rewrite IH.
Qed.

(** One device more. *)
Lemma register_holds s l node nm device type info : holds s l -> u8 node <> 0 -> dlength s < 4611686018427387904 ->
  exists s', devfs_register_device (replicate (length (dents s)) (0, [])) node nm device type info s = Ok node s' /\
    holds s' (l ++ [(node, nm)]) /\ dlength s' <= Z.max (dlength s) (16 * Z.of_nat (length l)).
Proof.
  intros Hh Hne Hsm. pose proof (holds_entries s l Hh) as Hen. destruct Hh as (k & Hd & Hl & Hpos & Hall).
  assert (length (dents s) = length l + k)%nat as Hlen by (rewrite Hd, length_app, length_replicate; lia).
  unfold devfs_register_device, get, bind at 1. rewrite Hen.
  assert (free_entry (length (dents s)) (dents s) = Some (length l)) as -> by (rewrite Hlen, Hd; by apply free_entry_after).
  assert (Forall (fun e : Z * list Z => u8 e.1 <> 0) (l ++ [(node, nm)])) as Hall'.
  { apply Forall_app. split; [done|]. by apply Forall_singleton. }
  assert (forall j, <[length l := (node, nm)]> (l ++ replicate (S j) (0, [])) = (l ++ [(node, nm)]) ++ replicate j (0, [])) as Hins.
  { intros j. rewrite insert_app_r_alt by done. rewrite Nat.sub_diag. by rewrite <- app_assoc. }
  destruct (Nat.ltb_spec (length l) (length (dents s))) as [Hlt|Hge]; eexists; (split; [reflexivity|]).
  - destruct k as [|j]; [lia|]. split; [|cbn; lia]. exists j. cbn [dents dlength]. rewrite length_insert. split; [|done]. rewrite Hd. apply Hins.
  - assert (k = 0)%nat as -> by lia. rewrite app_nil_r in Hd. split; [|cbn [dlength]; rewrite u64_id by lia; lia].
    destruct (length (dents s)) as [|j] eqn:Hj; [lia|]. exists j. cbn [dents dlength].
    rewrite u64_id by lia. rewrite length_insert, length_app, length_replicate, Hl, Hj. split; [rewrite Hd; apply Hins|]. split; [lia|]. split; [lia|done].
Qed.

(** Devices registered one after the other, each a node and a name; the memory
    that the directory gets when it grows is clear. *)
Fixpoint register_all (device type info : Z) (l : list (Z * list Z)) : M (devfs W) unit :=
  match l with
  | [] => ret tt
  | (node, nm) :: r =>
    s <- get ;;
    devfs_register_device (replicate (length (dents s)) (0, [])) node nm device type info ;;;
    register_all device type info r
  end.

Lemma register_all_holds device type info r : forall s l, holds s l -> Forall (fun e => u8 e.1 <> 0) r ->
  dlength s <= 80 + 16 * Z.of_nat (length l) -> Z.of_nat (length l + length r) < 100000000000000000 ->
  exists s', register_all device type info r s = Ok tt s' /\ holds s' (l ++ r).
Proof.
  induction r as [|[node nm] r IH]; intros s l Hh Hr Hlen Hsm; cbn [register_all].
  { exists s. by rewrite app_nil_r. }
  apply Forall_cons in Hr as [Hne Hr]. cbn [length] in Hsm.
  destruct (register_holds s l node nm device type info Hh Hne ltac:(lia)) as (s1 & Hrun & Hh1 & Hl1).
  unfold get, bind at 1. rewrite (bind_ok _ _ _ _ _ Hrun).
  destruct (IH s1 (l ++ [(node, nm)]) Hh1 Hr) as (s' & Hrest & Hh'); [rewrite length_app; cbn; lia..|].
  exists s'. split; [exact Hrest|]. by rewrite <- app_assoc in Hh'.
Qed.

(** Devices that were registered one after the other are listed in that order
    and each is opened by its name, however many there are and however often
    the directory has to grow; the addresses of their nodes have to end in a
    byte that is not zero. *)
Lemma registered_devices_open (w : W) device type info tty l :
  Forall (fun e => u8 e.1 <> 0) l -> NoDup (snd <$> l) -> Z.of_nat (length l) < 100000000000000000 ->
  exists s, register_all device type info l (devfs_init w) = Ok tt s /\ devfs_list_dir s = Ok (ERROR_NONE, l) s /\
    forall node nm, (node, nm) ∈ l -> nm <> [116; 116; 121] -> devfs_open tty nm s = Ok node s.
Proof.
  intros Hl Hd Hsm. destruct (register_all_holds device type info l (devfs_init w) []) as (s & Hrun & Hh); [|done|vm_compute; discriminate|cbn; lia|].
  { exists 10%nat. cbn. split_and!; (done || lia). }
  exists s. split; [done|]. cbn [app] in Hh. pose proof (holds_entries s l Hh) as Hen. destruct Hh as (k & Hde & _ & _ & _).
  assert (length (dents s) = length l + k)%nat as Hlen by (rewrite Hde, length_app, length_replicate; lia). split.
  - unfold devfs_list_dir, get, bind at 1. rewrite Hen, Hlen, Hde. by rewrite list_held.
  - intros node nm Hin Hne. unfold devfs_open. rewrite bool_decide_false by done. unfold get, bind at 1. rewrite Hen, Hlen, Hde.
    by rewrite (find_held l k _ nm Hl eq_refl node).
Qed.
End DevfsOpen.

Definition demo_devices : list (Z * list Z) := map (fun k => (1001 + 8 * k, [116; k])) (seqZ 1 12).
Lemma registered_devices_open_witness : exists s, register_all 5 DEVFS_TYPE_TTY 0 demo_devices (devfs_init tt) = Ok tt s /\
  devfs_list_dir s = Ok (ERROR_NONE, demo_devices) s /\ devfs_open 0 [116; 12] s = Ok 1097 s.
Proof.
  destruct (registered_devices_open tt 5 DEVFS_TYPE_TTY 0 0 demo_devices) as (s & Hrun & Hlist & Hopen).
  - repeat constructor; vm_compute; discriminate.
  - apply (bool_decide_unpack _). vm_compute. exact I.
  - vm_compute. reflexivity.
  - exists s. split; [exact Hrun|]. split; [exact Hlist|]. apply Hopen; [|discriminate].
    apply (bool_decide_unpack _). vm_compute. exact I.
Defined.

(** A node at an address that ends in a zero byte is taken for an unused entry and
    replaced by the next device. *)
Lemma zero_byte_replaced :
  match register_all 5 DEVFS_TYPE_TTY 0 [(4096, [97]); (1001, [98])] (devfs_init tt) with
  | Ok _ s => devfs_open 0 [97] s = Ok 0 s /\ devfs_open 0 [98] s = Ok 1001 s
  | _ => False
  end.
Proof. vm_compute. by split. Qed.
