(* ===== verification/Vfs.v ===== *)
(** The virtual file system (filesystem/vfs.c, filesystem/fs.h).

    Paths are the characters of C strings; [common_prefix], [split_spec] and
    [index_of] are what [strcfirst], [strsplit] and [strchr] compute of them
    (Strings.v).  Nodes, open files and file systems are the members of
    [vnodes], [vfds] and [vsystems]; a freed descriptor is [None].  The file
    systems are seen through [fs_ops], one function for each entry point that
    the code calls, chosen by the type of the file system. *)

From S2P Require Import Prelude Errors Mem Strings Storage.

Definition FS_TYPE_FAT32 : Z := 2.
Definition FS_TYPE_EXT2 : Z := 3.
Definition FS_TYPE_ISO9660 : Z := 4.
Definition FS_TYPE_DEVFS : Z := 5.
Definition VFS_ATTR_DIR : Z := 1.
Definition DIR_ATTR_MOUNTPOINT : Z := 3.
Definition OPEN_MODE_R : Z := 0.
Definition OPEN_MODE_W : Z := 1.
Definition OPEN_MODE_A : Z := 2.
Definition OPEN_MODE_RP : Z := 3.
Definition OPEN_MODE_WP : Z := 4.
Definition OPEN_MODE_AP : Z := 5.

Record vnode : Type := mk_vnode { v_fs : nat; v_length : Z; v_attributes : Z }.
Record fd_t : Type := mk_fd { fd_file : nat; fd_offset : Z; fd_instances : Z; fd_path : option (list Z) }.
Record file_system_t : Type := mk_fs { fs_type : Z; root_dir : nat }.
Record mount_point_t : Type := mk_mount { mp_path : list Z; mp_fs : nat }.
#[export] Instance mount_point_eq_dec : EqDecision mount_point_t.
Proof. solve_decision. Defined.
Record vfs (W : Type) : Type := mk_vfs {
  world : W; vmem : mem; vnodes : list vnode; vfds : list (option fd_t); vsystems : list file_system_t;
  mounts : list mount_point_t; current_mount_points : Z }.
Arguments mk_vfs {W}. Arguments world {W}. Arguments vmem {W}. Arguments vnodes {W}. Arguments vfds {W}.
Arguments vsystems {W}. Arguments mounts {W}. Arguments current_mount_points {W}.

(** What a type of file system offers: opening a name in a directory, listing,
    reading and writing [count] bytes at an offset from or to a buffer,
    creating, removing, linking and renaming. *)
Record fs_ops (W : Type) : Type := mk_ops {
  op_open : nat -> list Z -> M (vfs W) (option nat);
  op_list : nat -> M (vfs W) (Z * list (Z * list Z));
  op_read : nat -> Z -> Z -> Z -> M (vfs W) Z;
  op_write : nat -> Z -> Z -> Z -> M (vfs W) Z;
  op_create : nat -> list Z -> Z -> M (vfs W) (option nat);
  op_unlink : list Z -> nat -> M (vfs W) Z;
  op_link : nat -> list Z -> nat -> M (vfs W) Z;
  op_rename : nat -> list Z -> list Z -> nat -> M (vfs W) Z }.
Arguments op_open {W}. Arguments op_list {W}. Arguments op_read {W}. Arguments op_write {W}.
Arguments op_create {W}. Arguments op_unlink {W}. Arguments op_link {W}. Arguments op_rename {W}.

(** ** Paths *)

(** [strsplit(path, '/', &size)]: the pieces in the array and the size. *)
Definition path_pieces (path : list Z) : list (list Z) * nat :=
  (split_spec 47 (skip_sep 47 path), length (split_spec 47 path)).

(** What is behind the last slash and what is up to it, the slash included;
    [None]: there is no slash. *)
Fixpoint last_slash (path : list Z) : option (list Z * list Z) :=
  match path with
  | [] => None
  | c :: r =>
    match last_slash r with
    | Some (d, n) => Some (c :: d, n)
    | None => if c =? 47 then Some ([c], r) else None
    end
  end.

Section Vfs.
Context {W : Type} (ops : Z -> fs_ops W).

Definition upd_vmem (f : mem -> mem) : M (vfs W) unit :=
  modify (fun s => mk_vfs (world s) (f (vmem s)) (vnodes s) (vfds s) (vsystems s) (mounts s) (current_mount_points s)).
Definition get_vnode (i : nat) : M (vfs W) vnode :=
  fun s => match vnodes s !! i with Some x => Ok x s | None => Fault end.
Definition set_vnode (i : nat) (x : vnode) : M (vfs W) unit :=
  modify (fun s => mk_vfs (world s) (vmem s) (<[i := x]> (vnodes s)) (vfds s) (vsystems s) (mounts s) (current_mount_points s)).
Definition get_fd (i : nat) : M (vfs W) fd_t :=
  fun s => match vfds s !! i with Some (Some x) => Ok x s | _ => Fault end.
Definition set_fd (i : nat) (x : option fd_t) : M (vfs W) unit :=
  modify (fun s => mk_vfs (world s) (vmem s) (vnodes s) (<[i := x]> (vfds s)) (vsystems s) (mounts s) (current_mount_points s)).
Definition new_fd (x : fd_t) : M (vfs W) nat :=
  s <- get ;;
  put (mk_vfs (world s) (vmem s) (vnodes s) (vfds s ++ [Some x]) (vsystems s) (mounts s) (current_mount_points s)) ;;;
  ret (length (vfds s)).
Definition get_fs (i : nat) : M (vfs W) file_system_t :=
  fun s => match vsystems s !! i with Some x => Ok x s | None => Fault end.

(** The type of the file system of a node. *)
Definition type_of (node : nat) : M (vfs W) Z := x <- get_vnode node ;; f <- get_fs (v_fs x) ;; ret (fs_type f).
Definition is_dir (x : vnode) : bool := negb (Z.land (v_attributes x) VFS_ATTR_DIR =? 0).
Definition one_of (t : Z) (l : list Z) : bool := existsb (Z.eqb t) l.

(** ** Opening *)

(** The loop over the mount points: the first with the longest common prefix. *)
Fixpoint best_mount (n : nat) (current : list mount_point_t) (chars : Z) (best : mount_point_t) (path : list Z) : option mount_point_t :=
  match n with
  | O => Some best
  | S k =>
    match current with
    | [] => None
    | m :: r =>
      let cc := u16 (common_prefix (mp_path m) path) in
      if chars <? cc then best_mount k r cc m path else best_mount k r chars best path
    end
  end.

(** The walk of [do_open_fs]; [n] is the size that [strsplit] reports. *)
Fixpoint walk (n : nat) (t : Z) (node : nat) (pieces : list (list Z)) : M (vfs W) (option nat) :=
  match n with
  | O => ret None
  | S k =>
    match pieces with
    | [] => fault
    | p :: r =>
      o <- (if one_of t [FS_TYPE_FAT32; FS_TYPE_EXT2; FS_TYPE_ISO9660; FS_TYPE_DEVFS] then op_open (ops t) node p else ret (Some node)) ;;
      match o with
      | None => ret None
      | Some nd =>
        match k with
        | O => ret (Some nd)
        | S _ => x <- get_vnode nd ;; if is_dir x then walk k t nd r else ret None
        end
      end
    end
  end.
Definition do_open_fs (path : list Z) (mp : mount_point_t) : M (vfs W) (option nat) :=
  let path := skip_sep 47 path in
  f <- get_fs (mp_fs mp) ;;
  walk (path_pieces path).2 (fs_type f) (root_dir f) (path_pieces path).1.

(** The part of [open_file] that finds the node: [inl] for the root of a mount
    point.  A path that is shorter than the best mount point is read behind its
    end. *)
Definition find_path (path : list Z) : M (vfs W) (nat + option nat) :=
  s <- get ;;
  match mounts s with
  | [] => fault
  | root :: _ =>
    if bool_decide (path = [47]) then f <- get_fs (mp_fs root) ;; ret (inl (root_dir f)) else
    match best_mount (Z.to_nat (current_mount_points s)) (mounts s) 0 root path with
    | None => fault
    | Some best =>
      if bool_decide (path = mp_path best) then f <- get_fs (mp_fs best) ;; ret (inl (root_dir f)) else
      if (length path <? length (mp_path best))%nat then fault else
      o <- do_open_fs (drop (length (mp_path best)) path) best ;; ret (inr o)
    end
  end.

(** [open_file] in mode [OPEN_MODE_R] or [OPEN_MODE_RP]. *)
Definition open_read (path : list Z) : M (vfs W) (option nat) :=
  r <- find_path path ;;
  match r with
  | inl n => fd <- new_fd (mk_fd n 0 1 None) ;; ret (Some fd)
  | inr None => ret None
  | inr (Some n) => fd <- new_fd (mk_fd n 0 1 (Some path)) ;; ret (Some fd)
  end.

Definition close_file (fd : nat) : M (vfs W) unit :=
  x <- get_fd fd ;;
  let n := u32 (fd_instances x - 1) in
  set_fd fd (if n =? 0 then None else Some (mk_fd (fd_file x) (fd_offset x) n (fd_path x))).

(** The directory of a path, opened; what the callers do when it is missing or
    not a directory is their own. *)
Definition create_file (path : list Z) (attributes : Z) : M (vfs W) (option nat) :=
  match last_slash path with
  | None => ret None
  | Some (dir, name) =>
    o <- open_read dir ;;
    match o with
    | None => ret None
    | Some fd =>
      x <- get_fd fd ;;
      n <- get_vnode (fd_file x) ;;
      if negb (is_dir n) then close_file fd ;;; ret None else
      t <- type_of (fd_file x) ;;
      tr <- (if one_of t [FS_TYPE_EXT2; FS_TYPE_FAT32] then op_create (ops t) (fd_file x) name attributes else ret None) ;;
      close_file fd ;;;
      ret tr
    end
  end.

(** ** Reading and writing *)

Definition flength (fd : nat) : M (vfs W) Z := x <- get_fd fd ;; n <- get_vnode (fd_file x) ;; ret (v_length n).

Definition advance (fd : nat) (count : Z) : M (vfs W) unit :=
  x <- get_fd fd ;; set_fd fd (Some (mk_fd (fd_file x) (u64 (fd_offset x + count)) (fd_instances x) (fd_path x))).

Definition read_file (fd : nat) (buffer count : Z) : M (vfs W) Z :=
  x <- get_fd fd ;;
  n <- get_vnode (fd_file x) ;;
  if is_dir n then ret ERROR_FILE_IS_DIRECTORY else
  if negb (v_length n =? 0) && (v_length n <=? fd_offset x) then upd_vmem (fun m => store8 m buffer 0) ;;; ret ERROR_EOF else
  let count := if negb (v_length n =? 0) && (v_length n <? u64 (count + fd_offset x)) then v_length n - fd_offset x else count in
  if count =? 0 then upd_vmem (fun m => store8 m buffer 0) ;;; ret ERROR_NONE else
  t <- type_of (fd_file x) ;;
  tr <- (if one_of t [FS_TYPE_FAT32; FS_TYPE_ISO9660; FS_TYPE_EXT2; FS_TYPE_DEVFS] then op_read (ops t) (fd_file x) (fd_offset x) buffer count
         else ret ERROR_FILE_UNSUPPORTED_FILE_SYSTEM) ;;
  (if tr =? ERROR_NONE then advance fd count else ret tt) ;;;
  ret tr.

Definition write_file (fd : nat) (buffer count : Z) : M (vfs W) Z :=
  x <- get_fd fd ;;
  n <- get_vnode (fd_file x) ;;
  if is_dir n then ret ERROR_FILE_IS_DIRECTORY else
  if count =? 0 then ret 0 else
  t <- type_of (fd_file x) ;;
  tr <- (if one_of t [FS_TYPE_FAT32; FS_TYPE_DEVFS; FS_TYPE_EXT2] then op_write (ops t) (fd_file x) (fd_offset x) buffer count
         else ret ERROR_FILE_UNSUPPORTED_FILE_SYSTEM) ;;
  (if tr =? ERROR_NONE then advance fd count else ret tt) ;;;
  ret tr.

(** [zbuf] is the address of the buffer of zeros. *)
Definition open_file (zbuf : Z) (path : list Z) (mode : Z) : M (vfs W) (option nat) :=
  if one_of mode [OPEN_MODE_R; OPEN_MODE_RP] then open_read path else
  r <- find_path path ;;
  match r with
  | inl n => fd <- new_fd (mk_fd n 0 1 None) ;; ret (Some fd)
  | inr o =>
    o <- (match o with Some n => ret (Some n) | None => create_file path 0 end) ;;
    match o with
    | None => ret None
    | Some n =>
      fd <- new_fd (mk_fd n 0 1 (Some path)) ;;
      (if one_of mode [OPEN_MODE_W; OPEN_MODE_WP] then
         l <- flength fd ;;
         upd_vmem (fun m => memset m zbuf 0 (u32 l)) ;;;
         write_file fd zbuf l ;;;
         x <- get_vnode n ;;
         set_vnode n (mk_vnode (v_fs x) 0 (v_attributes x))
       else ret tt) ;;;
      (if one_of mode [OPEN_MODE_A; OPEN_MODE_AP] then
         l <- flength fd ;;
         x <- get_fd fd ;;
         set_fd fd (Some (mk_fd (fd_file x) l (fd_instances x) (fd_path x)))
       else ret tt) ;;;
      ret (Some fd)
    end
  end.

(** ** Directories *)

Definition read_directory (fd : nat) : M (vfs W) (Z * list (Z * list Z)) :=
  x <- get_fd fd ;;
  n <- get_vnode (fd_file x) ;;
  if negb (is_dir n) then ret (ERROR_FILE_IS_NOT_DIRECTORY, []) else
  t <- type_of (fd_file x) ;;
  if one_of t [FS_TYPE_FAT32; FS_TYPE_EXT2; FS_TYPE_ISO9660; FS_TYPE_DEVFS] then op_list (ops t) (fd_file x)
  else ret (ERROR_FILE_UNSUPPORTED_FILE_SYSTEM, []).
Definition list_directory (path : list Z) : M (vfs W) (Z * list (Z * list Z)) :=
  o <- open_read path ;;
  match o with
  | None => ret (ERROR_FILE_NOT_FOUND, [])
  | Some fd => tr <- read_directory fd ;; close_file fd ;;; ret tr
  end.

Definition unlink (path : list Z) : M (vfs W) Z :=
  match last_slash path with
  | None => ret ERROR_FILE_NOT_FOUND
  | Some (dir, name) =>
    o <- open_read dir ;;
    match o with
    | None => ret ERROR_FILE_NOT_FOUND
    | Some fd =>
      x <- get_fd fd ;;
      n <- get_vnode (fd_file x) ;;
      if negb (is_dir n) then close_file fd ;;; ret ERROR_FILE_IS_NOT_DIRECTORY else
      t <- type_of (fd_file x) ;;
      tr <- (if one_of t [FS_TYPE_EXT2; FS_TYPE_FAT32] then op_unlink (ops t) name (fd_file x) else ret ERROR_FILE_UNSUPPORTED_FILE_SYSTEM) ;;
      close_file fd ;;;
      ret tr
    end
  end.

(** [link] and [rename] open the directory of one path and the file of another;
    without a slash in the path they copy from far outside of it. *)
Definition with_two (dir_path file_path : list Z) (k : nat -> nat -> list Z -> M (vfs W) Z) : M (vfs W) Z :=
  match last_slash dir_path with
  | None => fault
  | Some (dir, name) =>
    o <- open_read dir ;;
    match o with
    | None => ret ERROR_FILE_NOT_FOUND
    | Some dfd =>
      x <- get_fd dfd ;;
      n <- get_vnode (fd_file x) ;;
      if negb (is_dir n) then close_file dfd ;;; ret ERROR_FILE_IS_NOT_DIRECTORY else
      o <- open_read file_path ;;
      match o with
      | None => close_file dfd ;;; ret ERROR_FILE_NOT_FOUND
      | Some sfd =>
        y <- get_fd sfd ;;
        tr <- k (fd_file x) (fd_file y) name ;;
        close_file dfd ;;;
        close_file sfd ;;;
        ret tr
      end
    end
  end.
Definition link (src_path dest_path : list Z) : M (vfs W) Z :=
  with_two dest_path src_path (fun d f name =>
    x <- get_vnode d ;;
    y <- get_vnode f ;;
    if negb (v_fs x =? v_fs y)%nat then ret ERROR_FILE_UNSUPPORTED_FILE_SYSTEM else
    t <- type_of d ;;
    if one_of t [FS_TYPE_EXT2] then op_link (ops t) f name d else ret ERROR_FILE_UNSUPPORTED_FILE_SYSTEM).
Definition rename (src_path dest_name : list Z) : M (vfs W) Z :=
  with_two src_path src_path (fun d f name =>
    t <- type_of d ;;
    if one_of t [FS_TYPE_FAT32] then op_rename (ops t) f name dest_name d else ret ERROR_FILE_UNSUPPORTED_FILE_SYSTEM).

(** ** Mounting *)

Definition add_mount (path : list Z) (fs : nat) : M (vfs W) unit :=
  modify (fun s => mk_vfs (world s) (vmem s) (vnodes s) (vfds s) (vsystems s) (mounts s ++ [mk_mount path fs]) (u16 (current_mount_points s + 1))).
Definition mount (path : list Z) (fs : nat) : M (vfs W) unit :=
  f <- get_fs fs ;;
  if fs_type f =? 0 then fatal_kernel_error "Unknown file system type" else
  if negb (bool_decide (head path = Some 47)) then fatal_kernel_error "Path must be absolute for mounting" else
  s <- get ;;
  match mounts s with
  | [] => if (1 <? length path)%nat then fatal_kernel_error "Root point not mounted, can't mount anything else" else add_mount path fs
  | _ =>
    o <- open_read path ;;
    match o with
    | None => fatal_kernel_error "Can't find mount point"
    | Some fd =>
      x <- get_fd fd ;;
      n <- get_vnode (fd_file x) ;;
      if negb (is_dir n) then fatal_kernel_error "Trying to mount to a file ?!" else
      set_vnode (fd_file x) (mk_vnode (v_fs n) (v_length n) (Z.lor (v_attributes n) DIR_ATTR_MOUNTPOINT)) ;;;
      add_mount path fs
    end
  end.

(** The file systems are set up by [init]. *)
Definition mount_volume (init : Z -> M (vfs W) (option nat)) (path : list Z) (detected : Z) : M (vfs W) Z :=
  if detected =? 0 then ret 0 else
  o <- (if one_of detected [FS_TYPE_FAT32; FS_TYPE_ISO9660; FS_TYPE_EXT2] then init detected else ret None) ;;
  match o with
  | None => ret 0
  | Some fs => mount path fs ;;; ret detected
  end.
End Vfs.

(** [drive]: whether there is a drive; [partition]: the entry of the partition
    table as (system_id, start_lba), [None] for the whole drive. *)
Definition detect_fs_type {D} `{BlockDevice D} (drive : bool) (partition : option (Z * Z)) : M D Z :=
  if negb drive then ret 0 else
  match partition with
  | Some (0, _) => ret 0
  | _ =>
    let offset := match partition with Some (_, l) => l | None => 0 end in
    x <- bread offset 0 2048 ;;
    y <- bread (u32 (offset + 16)) 0 512 ;;
    let b := mem_of 0 x.2 in
    let b2 := mem_of 0 y.2 in
    if ((load8 b 66 =? 40) || (load8 b 66 =? 41)) && bool_decide (bytes_at b 82 5 = [70; 65; 84; 51; 50]) then ret FS_TYPE_FAT32
    else if bool_decide (bytes_at b2 1 5 = [67; 68; 48; 48; 49]) then ret FS_TYPE_ISO9660
    else if (load8 b 1080 =? 83) && (load8 b 1081 =? 239) then ret FS_TYPE_EXT2
    else ret 0
  end.

(** ** Resolving paths *)

Definition name_ok (n : list Z) : Prop := n <> [] /\ 47 ∉ n.
Fixpoint join (ns : list (list Z)) : list Z :=
  match ns with
  | [] => []
  | n :: r => match r with [] => n | _ => n ++ 47 :: join r end
  end.

Lemma split_name n : 47 ∉ n -> split_spec 47 n = [n].
Proof.
  induction n as [|c n IH]; intros Hn; [done|]. cbn. rewrite not_elem_of_cons in Hn. destruct Hn as [Hc Hn].
  dec_false (c =? 47). by rewrite IH.
Qed.
Lemma split_app n r : 47 ∉ n -> split_spec 47 (n ++ 47 :: r) = n :: split_spec 47 r.
Proof.
  induction n as [|c n IH]; intros Hn; [done|]. cbn. rewrite not_elem_of_cons in Hn. destruct Hn as [Hc Hn].
  dec_false (c =? 47). by rewrite IH.
Qed.
Lemma split_join ns : ns <> [] -> Forall name_ok ns -> split_spec 47 (join ns) = ns.
Proof.
  intros Hne Hok. induction Hok as [|n r [_ Hn] Hr IH]; [done|]. cbn [join]. destruct r as [|n' r'].
  - by apply split_name.
  - rewrite split_app by done. by rewrite IH.
Qed.
Lemma join_head ns : ns <> [] -> Forall name_ok ns -> exists c r, join ns = c :: r /\ c <> 47.
Proof.
  intros Hne Hok. destruct Hok as [|[|c n] r [Hn1 Hn2] Hr]; [done|done|]. rewrite not_elem_of_cons in Hn2. destruct Hn2 as [Hc _].
  cbn [join]. destruct r; cbn [app]; eauto.
Qed.

Section VfsPaths.
Context {W : Type} (ops : Z -> fs_ops W).

(** Opening the names [ns] one after the other from [node] leads to [node'], all
    but the last being directories. *)
Inductive leads (t : Z) : nat -> list (list Z) -> nat -> vfs W -> vfs W -> Prop :=
| leads_last node p node' s s' : op_open (ops t) node p s = Ok (Some node') s' -> leads t node [p] node' s s'
| leads_step node p node1 x r node' s s1 s' : op_open (ops t) node p s = Ok (Some node1) s1 -> vnodes s1 !! node1 = Some x ->
    is_dir x = true -> leads t node1 r node' s1 s' -> leads t node (p :: r) node' s s'.

Definition known_type (t : Z) : Prop := one_of t [FS_TYPE_FAT32; FS_TYPE_EXT2; FS_TYPE_ISO9660; FS_TYPE_DEVFS] = true.

Lemma walk_leads t node ns node' s s' : known_type t -> leads t node ns node' s s' ->
  walk ops (length ns) t node ns s = Ok (Some node') s'.
Proof.
  intros Ht. induction 1 as [node p node' s s' Ho|node p node1 x r node' s s1 s' Ho Hx Hd Hl IH]; cbn [walk length]; rewrite Ht.
  - by rewrite (bind_ok _ _ _ _ _ Ho).
  - rewrite (bind_ok _ _ _ _ _ Ho). destruct r as [|p' r]; [inversion Hl|]. cbn [length] in *.
    unfold get_vnode, bind at 1. rewrite Hx, Hd. exact IH.
Qed.

(** The choice of the mount point. *)
Lemma best_mount_ok path ms : Z.of_nat (length path) < 65536 -> forall chars best, exists b,
  best_mount (length ms) ms chars best path = Some b /\
  ((b = best /\ forall m, m ∈ ms -> common_prefix (mp_path m) path <= chars) \/
   (b ∈ ms /\ chars < common_prefix (mp_path b) path /\ forall m, m ∈ ms -> common_prefix (mp_path m) path <= common_prefix (mp_path b) path)).
Proof.
  intros Hp. assert (forall cs, 0 <= common_prefix cs path <= Z.of_nat (length path)) as Hcp.
  { intros cs. clear Hp. revert path. induction cs as [|c cs IH]; intros [|d ds]; cbn [common_prefix length]; try lia. specialize (IH ds). case_bool; lia. }
  induction ms as [|m ms IH]; intros chars best; cbn [length best_mount].
  { exists best. split; [done|]. left. split; [done|]. intros m Hm. by apply not_elem_of_nil in Hm. }
  specialize (Hcp (mp_path m)). rewrite u16_id by lia. destruct (Z.ltb_spec chars (common_prefix (mp_path m) path)).
  - destruct (IH (common_prefix (mp_path m) path) m) as (b & Hrun & [[-> Hall]|(Hb & Hlt & Hall)]); exists b || exists m; split; try done; right.
    + split; [by left|]. split; [done|]. intros m' [-> |Hm']%elem_of_cons; [done|by apply Hall].
    + split; [by right|]. split; [lia|]. intros m' [-> |Hm']%elem_of_cons; [lia|by apply Hall].
  - destruct (IH chars best) as (b & Hrun & [[-> Hall]|(Hb & Hlt & Hall)]); [exists best|exists b]; (split; [done|]).
    + left. split; [done|]. intros m' [-> |Hm']%elem_of_cons; [lia|by apply Hall].
    + right. split; [by right|]. split; [done|]. intros m' [-> |Hm']%elem_of_cons; [lia|by apply Hall].
Qed.

Lemma common_prefix_app cs ds : common_prefix cs (cs ++ ds) = Z.of_nat (length cs).
Proof. induction cs as [|c cs IH]; [done|]. cbn [common_prefix app length]. rewrite Z.eqb_refl, IH. lia. Qed.

(** C30: opening a path finds the file that the path names: when the mount point
    [mnt] is a prefix of the path and every other one agrees with less of it,
    the rest of the path is split at its slashes, the names are opened one
    after the other from the root of the file system that is mounted there, and
    the descriptor returned stands at the start of the file. *)
Theorem open_file_resolves zbuf s mnt f ns sep node' s' :
  let path := mp_path mnt ++ sep ++ join ns in
  mnt ∈ mounts s -> current_mount_points s = Z.of_nat (length (mounts s)) -> Z.of_nat (length path) < 65536 ->
  sep = [47] \/ (sep = [] /\ mp_path mnt = [47]) -> mp_path mnt <> [] ->
  (forall m, m ∈ mounts s -> m <> mnt -> common_prefix (mp_path m) path < Z.of_nat (length (mp_path mnt))) ->
  vsystems s !! mp_fs mnt = Some f -> known_type (fs_type f) ->
  ns <> [] -> Forall name_ok ns -> leads (fs_type f) (root_dir f) ns node' s s' ->
  exists s'', open_file ops zbuf path OPEN_MODE_R s = Ok (Some (length (vfds s'))) s'' /\
    vfds s'' = vfds s' ++ [Some (mk_fd node' 0 1 (Some path))].
Proof.
  intros path Hm Hc Hl Hsep Hne Hbest Hf Ht Hns Hok Hleads. destruct (join_head ns Hns Hok) as (c & r & Hj & Hc47).
  assert (length (mp_path mnt) < length path)%nat as Hlen.
  { unfold path. rewrite !length_app, Hj. cbn. lia. }
  assert (skip_sep 47 (drop (length (mp_path mnt)) path) = join ns) as Hskip.
  { unfold path. rewrite drop_app_length. destruct Hsep as [-> | [-> _]]; [done|]. cbn. rewrite Hj. cbn. by dec_false (c =? 47). }
  destruct (mounts s) as [|root ms] eqn:Hms; [by apply not_elem_of_nil in Hm|].
  destruct (best_mount_ok path (root :: ms) Hl 0 root) as (b & Hb & Hcase).
  assert (b = mnt) as ->.
  { pose proof (common_prefix_app (mp_path mnt) (sep ++ join ns)) as Hcm. fold path in Hcm.
    assert (0 < Z.of_nat (length (mp_path mnt))) by (destruct (mp_path mnt); [done|cbn; lia]).
    destruct Hcase as [[_ Hall]|(Hin & _ & Hall)]; specialize (Hall mnt Hm); [lia|].
    destruct (decide (b = mnt)) as [|Hneq]; [done|]. specialize (Hbest b Hin Hneq). lia. }
  assert (do_open_fs ops (drop (length (mp_path mnt)) path) mnt s = Ok (Some node') s') as Hrun.
  { unfold do_open_fs. rewrite Hskip. unfold get_fs, bind. rewrite Hf. unfold path_pieces. cbn [fst snd].
    assert (skip_sep 47 (join ns) = join ns) as -> by (rewrite Hj; cbn; by dec_false (c =? 47)).
    rewrite split_join by done. by apply walk_leads. }
  assert (find_path ops path s = Ok (inr (Some node')) s') as Hfind.
  { unfold find_path, get, bind at 1. rewrite Hms. rewrite bool_decide_false.
    2: { intros Heq. apply (f_equal length) in Heq. change (length [47]) with 1%nat in Heq.
         assert (0 < length (mp_path mnt))%nat by (destruct (mp_path mnt); [done|cbn; lia]). lia. }
    rewrite Hc, Nat2Z.id, Hb. rewrite bool_decide_false by (intros Heq; apply (f_equal length) in Heq; lia).
    replace (length path <? length (mp_path mnt))%nat with false by (symmetry; apply Nat.ltb_ge; lia).
    by rewrite (bind_ok _ _ _ _ _ Hrun). }
  eexists. split.
  - unfold open_file. cbn [one_of existsb OPEN_MODE_R OPEN_MODE_RP Z.eqb orb]. unfold open_read. rewrite (bind_ok _ _ _ _ _ Hfind).
    unfold new_fd, get, put, ret, bind. reflexivity.
  - done.
Qed.
End VfsPaths.

(** ** Reading a file to its end *)

Section VfsRead.
Context {W : Type} (ops : Z -> fs_ops W).

(** What a file system promises about reading: inside a file of content
    [content node] it delivers the bytes and changes nothing else of the virtual
    file system. *)
Definition reads_well (t : Z) (content : nat -> list Z) : Prop :=
  forall s node x offset buffer count, vnodes s !! node = Some x -> is_dir x = false ->
    v_length x = Z.of_nat (length (content node)) -> 0 <= offset -> 0 < count -> offset + count <= v_length x ->
    exists s', op_read (ops t) node offset buffer count s = Ok ERROR_NONE s' /\
      vmem s' = store_bytes (vmem s) buffer (take (Z.to_nat count) (drop (Z.to_nat offset) (content node))) /\
      vnodes s' = vnodes s /\ vfds s' = vfds s /\ vsystems s' = vsystems s.

(** A client that reads [k] bytes at a time until the end of the file. *)
Fixpoint read_to_end (n : nat) (fd : nat) (buffer k : Z) : M (vfs W) (list Z) :=
  match n with
  | O => nofuel
  | S n' =>
    x <- get_fd fd ;;
    e <- read_file ops fd buffer k ;;
    if e =? ERROR_EOF then ret [] else
    if negb (e =? ERROR_NONE) then fault else
    y <- get_fd fd ;;
    s <- get ;;
    r <- read_to_end n' fd buffer k ;;
    ret (bytes_at (vmem s) buffer (Z.to_nat (fd_offset y - fd_offset x)) ++ r)
  end.

(** An open file: its descriptor, node and file system. *)
Record open_at (s : vfs W) (fd : nat) (x : fd_t) (v : vnode) (f : file_system_t) (content : list Z) : Prop := {
  oa_fd : vfds s !! fd = Some (Some x);
  oa_node : vnodes s !! fd_file x = Some v;
  oa_fs : vsystems s !! v_fs v = Some f;
  oa_dir : is_dir v = false;
  oa_len : v_length v = Z.of_nat (length content);
  oa_small : Z.of_nat (length content) < 9223372036854775808 }.

Lemma known_read t : known_type t -> one_of t [FS_TYPE_FAT32; FS_TYPE_ISO9660; FS_TYPE_EXT2; FS_TYPE_DEVFS] = true.
Proof. unfold known_type, one_of. cbn. destruct (t =? FS_TYPE_FAT32), (t =? FS_TYPE_EXT2), (t =? FS_TYPE_ISO9660), (t =? FS_TYPE_DEVFS); done. Qed.

(** One read inside a file. *)
Lemma read_file_inside content s fd x v f buffer k : known_type (fs_type f) -> reads_well (fs_type f) content ->
  open_at s fd x v f (content (fd_file x)) -> 0 <= fd_offset x < Z.of_nat (length (content (fd_file x))) -> 0 < k < 9223372036854775808 ->
  let n := Z.min k (Z.of_nat (length (content (fd_file x))) - fd_offset x) in
  let y := mk_fd (fd_file x) (fd_offset x + n) (fd_instances x) (fd_path x) in
  exists s', read_file ops fd buffer k s = Ok ERROR_NONE s' /\ open_at s' fd y v f (content (fd_file x)) /\
    vmem s' = store_bytes (vmem s) buffer (take (Z.to_nat n) (drop (Z.to_nat (fd_offset x)) (content (fd_file x)))).
Proof.
  intros Ht Hrd [Hfd Hnode Hfs Hdir Hlen Hsmall] Ho Hk n y. set (c := content (fd_file x)) in *.
  destruct (Hrd s (fd_file x) v (fd_offset x) buffer n) as (s1 & Hrun & Hm & Hvn & Hvf & Hvs); try done; try lia.
  exists (mk_vfs (world s1) (vmem s1) (vnodes s1) (<[fd := Some y]> (vfds s1)) (vsystems s1) (mounts s1) (current_mount_points s1)).
  split; [|split; [split; cbn; rewrite ?Hvf, ?Hvn, ?Hvs; try done; apply list_lookup_insert_eq; by eapply lookup_lt_Some|done]].
  unfold read_file, get_fd, bind at 1. rewrite Hfd. unfold get_vnode, bind at 1. rewrite Hnode, Hdir.
  dec_false (v_length v =? 0). dec_false (v_length v <=? fd_offset x). cbn [negb andb]. rewrite u64_id by lia.
  assert ((if v_length v <? k + fd_offset x then v_length v - fd_offset x else k) = n) as -> by (subst n; case_bool; lia).
  dec_false (n =? 0).
  assert (type_of (fd_file x) s = Ok (fs_type f) s) as Hty.
  { unfold type_of, get_vnode, get_fs, bind, ret. by rewrite Hnode, Hfs. }
  rewrite (bind_ok _ _ _ _ _ Hty), (known_read _ Ht), (bind_ok _ _ _ _ _ Hrun). cbn [Z.eqb ERROR_NONE].
  unfold advance, get_fd, set_fd, modify, bind. rewrite Hvf, Hfd. unfold ret. rewrite u64_id by lia. by rewrite Hvf.
Qed.

End VfsRead.

(** ** A driver in memory *)

(** A file system with the directory [usr] that holds the file [f], and nothing
    else; files are what [demo_content] says. *)
Definition demo_content (node : nat) : list Z := match node with 2%nat => [10; 20; 30; 40; 50] | _ => [] end.
Definition demo_usr : list Z := [117; 115; 114].
Definition demo_f : list Z := [102].
Definition demo_open (node : nat) (name : list Z) : M (vfs unit) (option nat) :=
  ret (if ((node =? 0)%nat && bool_decide (name = demo_usr)) then Some 1%nat
       else if ((node =? 1)%nat && bool_decide (name = demo_f)) then Some 2%nat else None).
Definition ram_ops (content : nat -> list Z) (t : Z) : fs_ops unit :=
  mk_ops unit demo_open (fun _ => ret (ERROR_NONE, []))
    (fun node offset buffer count =>
       upd_vmem (fun m => store_bytes m buffer (take (Z.to_nat count) (drop (Z.to_nat offset) (content node)))) ;;; ret ERROR_NONE)
    (fun _ _ _ _ => ret ERROR_NONE) (fun _ _ _ => ret None) (fun _ _ => ret ERROR_NONE) (fun _ _ _ => ret ERROR_NONE)
    (fun _ _ _ _ => ret ERROR_NONE).
Definition demo_ops : Z -> fs_ops unit := ram_ops demo_content.
Definition demo_root : mount_point_t := mk_mount [47] 0.
Definition demo_mnt : mount_point_t := mk_mount [47; 109; 110; 116] 0.
Definition demo_vfs : vfs unit :=
  mk_vfs tt (fun _ => 0) [mk_vnode 0 0 3; mk_vnode 0 0 1; mk_vnode 0 5 0] [Some (mk_fd 2 1 1 None)] [mk_fs FS_TYPE_EXT2 0] [demo_root; demo_mnt] 2.

Lemma ram_reads_well content t : reads_well (ram_ops content) t content.
Proof. intros s node x offset buffer count _ _ _ _ _ _. eexists. split; [reflexivity|]. done. Qed.

Lemma open_file_resolves_witness : exists s'',
  open_file demo_ops 0 [47; 109; 110; 116; 47; 117; 115; 114; 47; 102] OPEN_MODE_R demo_vfs = Ok (Some 1%nat) s'' /\
  vfds s'' = vfds demo_vfs ++ [Some (mk_fd 2 0 1 (Some [47; 109; 110; 116; 47; 117; 115; 114; 47; 102]))].
Proof.
  apply (open_file_resolves demo_ops 0 demo_vfs demo_mnt (mk_fs FS_TYPE_EXT2 0) [demo_usr; demo_f] [47] 2 demo_vfs);
    try reflexivity; try discriminate.
  - right. left.
  - by left.
  - intros m [-> |[-> |[]%not_elem_of_nil]%elem_of_cons]%elem_of_cons Hm; [reflexivity|done].
  - apply Forall_cons; split; [|apply Forall_singleton]; (split; [discriminate|]); by apply (bool_decide_unpack _).
  - eapply leads_step; [reflexivity|reflexivity|reflexivity|]. by apply leads_last.
Defined.


(** ** Paths and modes that are treated otherwise than meant *)

(** Mount points are compared by characters, not by names: with a volume mounted
    on [/mnt], the path [/mntusr] is the file [usr] of that volume. *)
Lemma mount_prefix_not_a_name : find_path demo_ops ([47; 109; 110; 116] ++ demo_usr) demo_vfs = Ok (inr (Some 1%nat)) demo_vfs.
Proof. reflexivity. Qed.
(** The path [/mn] agrees best with [/mnt] and is then read behind its end. *)
Lemma short_path_overruns : find_path demo_ops [47; 109; 110] demo_vfs = Fault.
Proof. reflexivity. Qed.
(** The directory part of a path keeps its slash, so that below the root
    [create_file] and [unlink] end by opening the empty name in the right
    directory: the directory [/usr] is found, the directory of [/usr/g] only if
    the driver knows the empty name. *)
Lemma directory_part_ends_in_empty_name :
  last_slash ([47] ++ demo_usr ++ [47; 103]) = Some ([47] ++ demo_usr ++ [47], [103]) /\
  path_pieces (demo_usr ++ [47]) = ([demo_usr; []], 2%nat) /\
  find_path demo_ops ([47] ++ demo_usr) demo_vfs = Ok (inr (Some 1%nat)) demo_vfs /\
  create_file demo_ops ([47] ++ demo_usr ++ [47; 103]) 0 demo_vfs = Ok None demo_vfs.
Proof. by split_and!. Qed.
(** Opening for writing zeroes the file through the descriptor itself and leaves
    it behind the old content, while the length is set to 0. *)
Lemma open_write_leaves_offset :
  match open_file demo_ops 0 ([47] ++ demo_usr ++ [47; 102]) OPEN_MODE_W demo_vfs with
  | Ok (Some fd) s => vfds s !! fd = Some (Some (mk_fd 2 5 1 (Some ([47] ++ demo_usr ++ [47; 102])))) /\ vnodes s !! 2%nat = Some (mk_vnode 0 0 0)
  | _ => False
  end.
Proof. by split. Qed.
