(* ===== verification/Elf.v ===== *)
(** Loading executables (tasking/processes/elf.c, [load_executable] of
    tasking/processes/process.c).

    The file is read through the virtual file system into the kernel's memory.
    The pages of the process that is set up are a second memory: while its page
    directory is switched to, addresses below [KERNEL_BASE] are its own and the
    others the kernel's.  [mapped] lists the calls of [map_memory] on its page
    directory as (address, size); Paging.v says what they do.  The fields of
    the headers are read at the offsets of the C structures.  Arguments and
    environment are lists of strings. *)

From S2P Require Import Prelude Errors Mem Strings Storage Vfs.

Definition KERNEL_BASE : Z := 3221225472.
Definition PROCESS_STACK_SIZE_DEFAULT : Z := 8192.
Definition sizeof_elf_header : Z := 52.
Definition sizeof_elf_program_header : Z := 32.

(** ** Headers *)

Definition eh_type (m : mem) (h : Z) : Z := load16 m (h + 16).
Definition eh_instruction_set (m : mem) (h : Z) : Z := load16 m (h + 18).
Definition eh_program_entry (m : mem) (h : Z) : Z := load32 m (h + 24).
Definition eh_program_header_table (m : mem) (h : Z) : Z := load32 m (h + 28).
Definition eh_ph_entry_nbr (m : mem) (h : Z) : Z := load16 m (h + 44).

Record elf_program_header_t : Type := mk_ph { segment_type : Z; p_offset : Z; p_vaddr : Z; p_filesz : Z; p_memsz : Z }.
Definition ph_at (m : mem) (p : Z) : elf_program_header_t :=
  mk_ph (load32 m p) (load32 m (p + 4)) (load32 m (p + 8)) (load32 m (p + 16)) (load32 m (p + 20)).

(** The verdict on a header. *)
Definition elf_verdict (m : mem) (h : Z) : Z :=
  if negb (load8 m h =? 127) || negb (load8 m (h + 1) =? 69) || negb (load8 m (h + 2) =? 76) || negb (load8 m (h + 3) =? 70) then ERROR_IS_NOT_ELF else
  if negb (load8 m (h + 4) =? 1) then ERROR_IS_64_BITS else
  if negb (eh_type m h =? 2) then ERROR_IS_NOT_EXECUTABLE else
  if negb (eh_instruction_set m h =? 0) && negb (eh_instruction_set m h =? 3) then ERROR_WRONG_INSTRUCTION_SET else
  ERROR_NONE.

Record loader (W : Type) : Type := mk_loader { lvfs : vfs W; umem : mem; mapped : list (Z * Z) }.
Arguments mk_loader {W}. Arguments lvfs {W}. Arguments umem {W}. Arguments mapped {W}.

(** What the process is set up with. *)
Record image : Type := mk_image {
  im_eip : Z; im_esp : Z; im_base_stack : Z; im_heap_addr : Z; im_heap_size : Z; im_data : list (Z * Z) }.

(** ** The stack of the process *)

(** The strings go below [sp]; the result has their addresses. *)
Fixpoint push_strings (m : mem) (sp : Z) (strs : list (list Z)) : mem * Z * list Z :=
  match strs with
  | [] => (m, sp, [])
  | str :: r =>
    let sp := u32 (sp - (Z.of_nat (length str) + 1)) in
    let '(m, sp', ps) := push_strings (store_bytes m sp (str ++ [0])) sp r in
    (m, sp', sp :: ps)
  end.
Definition push (m : mem) (sp v : Z) : mem * Z := let sp := u32 (sp - 4) in (store32 m sp v, sp).
(** From the last address to the first. *)
Fixpoint push_words (m : mem) (sp : Z) (ws : list Z) : mem * Z :=
  match ws with
  | [] => (m, sp)
  | w :: r => let '(m, sp) := push m sp w in push_words m sp r
  end.
Definition push_vector (m : mem) (sp : Z) (strs : list (list Z)) : mem * Z :=
  let '(m, sp, ps) := push_strings m sp strs in push_words m sp (0 :: list.reverse ps).
Definition build_stack (m : mem) (sp : Z) (argv env : list (list Z)) : mem * Z :=
  let '(m, argvaddr) := push_vector m sp argv in
  let '(m, envaddr) := push_vector m argvaddr env in
  let '(m, sp) := push_words m envaddr [argvaddr; Z.of_nat (length argv); envaddr; Z.of_nat (length env)] in
  (m, u32 (sp - 4)).

Section Elf.
Context {W : Type} (ops : Z -> fs_ops W).

Definition on_vfs {A} (c : M (vfs W) A) : M (loader W) A :=
  fun s => match c (lvfs s) with
           | Ok a v => Ok a (mk_loader v (umem s) (mapped s))
           | Fatal e => Fatal e | Fault => Fault | NoFuel => NoFuel
           end.
(** A change of memory while the page directory of the process is in use. *)
Definition in_space (f : mem -> mem) : M (loader W) unit :=
  modify (fun s =>
    let k := vmem (lvfs s) in
    let m := f (fun x => if x <? KERNEL_BASE then umem s x else k x) in
    let v := lvfs s in
    mk_loader (mk_vfs (world v) (fun x => if x <? KERNEL_BASE then k x else m x) (vnodes v) (vfds v) (vsystems v) (mounts v) (current_mount_points v))
              (fun x => if x <? KERNEL_BASE then m x else umem s x) (mapped s)).
Definition note_mapping (size vaddr : Z) : M (loader W) unit := modify (fun s => mk_loader (lvfs s) (umem s) (mapped s ++ [(vaddr, size)])).

Definition set_offset (fd : nat) (offset : Z) : M (vfs W) unit :=
  x <- get_fd fd ;; set_fd fd (Some (mk_fd (fd_file x) offset (fd_instances x) (fd_path x))).

(** [eh] is the address of the header. *)
Definition elf_check (eh : Z) (fd : nat) : M (vfs W) Z :=
  x <- get_fd fd ;;
  set_offset fd 0 ;;;
  let read := read_file ops fd eh sizeof_elf_header in
  e <- read ;;
  e <- (if e =? ERROR_NONE then ret e else read) ;;
  e <- (if e =? ERROR_NONE then ret e else read) ;;
  if negb (e =? ERROR_NONE) then ret e else
  set_offset fd (fd_offset x) ;;;
  s <- get ;;
  ret (elf_verdict (vmem s) eh).

(** One segment in the memory of the process. *)
Definition put_segment (buffer : Z) (ph : elf_program_header_t) (m : mem) : mem :=
  let m := memcpy m (p_vaddr ph) (u32 (buffer + p_offset ph)) (p_filesz ph) in
  memset m (u32 (p_vaddr ph + p_filesz ph)) 0 (u32 (p_memsz ph - p_filesz ph)).

(** The loop over the program headers, [n] of which are left; [None] when it
    gives up. *)
Fixpoint load_loop (n : nat) (i prg_h buffer len : Z) (data : list (Z * Z)) : M (loader W) (option (list (Z * Z))) :=
  match n with
  | O => ret (Some data)
  | S k =>
    if buffer + len <? u32 (prg_h + i) then ret None else
    s <- get ;;
    let ph := ph_at (vmem (lvfs s)) (prg_h + sizeof_elf_program_header * i) in
    if negb (segment_type ph =? 1) then load_loop k (i + 1) prg_h buffer len data else
    if p_memsz ph =? 0 then load_loop k (i + 1) prg_h buffer len data else
    note_mapping (p_memsz ph) (p_vaddr ph) ;;;
    in_space (put_segment buffer ph) ;;;
    load_loop k (i + 1) prg_h buffer len (data ++ [(p_vaddr ph, p_memsz ph)])
  end.
(** The entry point, 0 when it fails, and the segments. *)
Definition elf_load (buffer : Z) (fd : nat) : M (loader W) (Z * list (Z * Z)) :=
  x <- on_vfs (get_fd fd) ;;
  on_vfs (set_offset fd 0) ;;;
  len <- on_vfs (flength fd) ;;
  let read := on_vfs (read_file ops fd buffer len) in
  e <- read ;;
  (if e =? ERROR_NONE then ret tt else read ;;; read ;;; ret tt) ;;;
  if negb (e =? ERROR_NONE) then ret (0, []) else
  on_vfs (set_offset fd (fd_offset x)) ;;;
  s <- get ;;
  let m := vmem (lvfs s) in
  o <- load_loop (Z.to_nat (eh_ph_entry_nbr m buffer)) 0 (u32 (buffer + eh_program_header_table m buffer)) buffer len [] ;;
  match o with
  | None => ret (0, [])
  | Some data => s <- get ;; ret (eh_program_entry (vmem (lvfs s)) buffer, data)
  end.

Definition load_executable (eh buffer : Z) (fd : nat) (argv env : list (list Z)) : M (loader W) (Z * option image) :=
  e <- on_vfs (elf_check eh fd) ;;
  if negb (e =? ERROR_NONE) then ret (e, None) else
  r <- elf_load buffer fd ;;
  let '(code_offset, data) := r in
  if (code_offset =? 0) || (KERNEL_BASE <? code_offset) then ret (UNKNOWN_ERROR, None) else
  note_mapping PROCESS_STACK_SIZE_DEFAULT (KERNEL_BASE - PROCESS_STACK_SIZE_DEFAULT) ;;;
  s <- get ;;
  let sp := (build_stack (fun x => if x <? KERNEL_BASE then umem s x else vmem (lvfs s) x) KERNEL_BASE argv env).2 in
  in_space (fun m => (build_stack m KERNEL_BASE argv env).1) ;;;
  match last data with
  | None => fault
  | Some (vaddr, memsz) =>
    ret (ERROR_NONE, Some (mk_image code_offset sp (KERNEL_BASE - PROCESS_STACK_SIZE_DEFAULT) (u32 (vaddr + memsz)) 0 data))
  end.
End Elf.

(** ** The stack *)

Definition strings_size (strs : list (list Z)) : Z := Z.of_nat (length (concat (map (fun str => str ++ [0]) strs))).
Definition vector_size (strs : list (list Z)) : Z := strings_size strs + 4 * (Z.of_nat (length strs) + 1).
Definition string_ok (str : list Z) : Prop := Forall (fun c => 0 < c < 256) str.

(** An array of pointers to the strings and a null pointer at [a]; array and
    strings are below [hi]. *)
Record vector_in (m : mem) (a hi : Z) (strs : list (list Z)) : Prop := {
  vi_string : forall i str, strs !! i = Some str ->
    let p := load32 m (a + 4 * Z.of_nat i) in a <= p /\ p + Z.of_nat (length str) < hi /\ cstr m p str;
  vi_end : load32 m (a + 4 * Z.of_nat (length strs)) = 0;
  vi_fits : a + 4 * (Z.of_nat (length strs) + 1) <= hi }.

Lemma vector_in_ext m m' a hi strs : (forall x, a <= x < hi -> m' x = m x) -> vector_in m a hi strs -> vector_in m' a hi strs.
Proof.
  intros Hx [Hs He Hf]. split; [|rewrite <- He; apply load32_ext; intros; apply Hx; lia|done].
  intros i str Hi. pose proof (lookup_lt_Some _ _ _ Hi). rewrite (load32_ext m m') by (intros; apply Hx; lia).
  destruct (Hs i str Hi) as (H1 & H2 & H3). split; [done|]. split; [done|]. eapply cstr_ext; [|exact H3]. intros; apply load8_ext, Hx. lia.
Qed.

Lemma cstr_stored m a str : string_ok str -> cstr (store_bytes m a (str ++ [0])) a str.
Proof.
  intros Hok. assert (Forall is_u8 (str ++ [0])) as Hu8.
  { apply Forall_app. split; [|by apply Forall_singleton]. eapply Forall_impl; [exact Hok|]. intros c Hc. unfold is_u8. cbn in Hc. lia. }
  pose proof (store_bytes_same m a _ Hu8) as Hb.
  assert (forall i c, (str ++ [0]) !! i = Some c -> load8 (store_bytes m a (str ++ [0])) (a + Z.of_nat i) = c) as Hl.
  { intros i c Hi. pose proof (lookup_lt_Some _ _ _ Hi). rewrite <- Hb in Hi. rewrite bytes_at_lookup in Hi by done. by injection Hi. }
  apply cstr_intro.
  - intros i c Hi. split; [apply Hl; rewrite lookup_app_l by (by eapply lookup_lt_Some); done|]. unfold string_ok in Hok. rewrite Forall_lookup in Hok. by eapply Hok.
  - apply Hl. rewrite lookup_app_r by lia. by rewrite Nat.sub_diag.
Qed.

Lemma push_strings_ok strs : Forall string_ok strs -> forall m sp, strings_size strs <= sp <= 4294967295 ->
  exists m' ps, push_strings m sp strs = (m', sp - strings_size strs, ps) /\ length ps = length strs /\
    (forall i str, strs !! i = Some str -> exists p, ps !! i = Some p /\ sp - strings_size strs <= p /\ p + Z.of_nat (length str) < sp /\ cstr m' p str) /\
    (forall x, ~ (sp - strings_size strs <= x < sp) -> m' x = m x).
Proof.
  induction 1 as [|str strs Hok Hs IH]; intros m sp Hsz; cbn [push_strings].
  { exists m, []. split; [unfold strings_size; cbn; do 2 f_equal; lia|]. split; [done|]. split; [|done]. intros i str Hi. by rewrite lookup_nil in Hi. }
  assert (strings_size (str :: strs) = Z.of_nat (length str) + 1 + strings_size strs) as Htot.
  { unfold strings_size. cbn [map concat]. rewrite !length_app. cbn. lia. }
  rewrite Htot in *. assert (0 <= strings_size strs) by (unfold strings_size; lia). rewrite u32_id by lia.
  set (sp1 := sp - (Z.of_nat (length str) + 1)). destruct (IH (store_bytes m sp1 (str ++ [0])) sp1) as (m' & ps & Hrun & Hlen & Hptr & Hout); [lia|].
  rewrite Hrun. exists m', (sp1 :: ps). split; [do 2 f_equal; lia|]. split; [cbn; lia|]. split.
  - intros [|i] st Hi; cbn [lookup list_lookup] in *.
    + injection Hi as <-. exists sp1. split; [done|]. split; [lia|]. split; [lia|]. eapply cstr_ext; [|by apply (cstr_stored m)].
      intros x Hx. apply load8_ext, Hout. lia.
    + destruct (Hptr i st Hi) as (p & Hp & H1 & H2 & H3). exists p. split; [done|]. split; [lia|]. split; [lia|done].
  - intros x Hx. rewrite Hout by lia. apply store_bytes_outside. rewrite length_app. cbn. lia.
Qed.

Lemma push_words_ok ws : Forall is_u32 ws -> forall m sp, 4 * Z.of_nat (length ws) <= sp <= 4294967295 ->
  exists m', push_words m sp ws = (m', sp - 4 * Z.of_nat (length ws)) /\
    (forall i w, ws !! i = Some w -> load32 m' (sp - 4 * (Z.of_nat i + 1)) = w) /\
    (forall x, ~ (sp - 4 * Z.of_nat (length ws) <= x < sp) -> m' x = m x).
Proof.
  induction 1 as [|w ws Hw Hs IH]; intros m sp Hsz; cbn [push_words].
  { exists m. split; [f_equal; cbn; lia|]. split; [|done]. intros i w Hi. by rewrite lookup_nil in Hi. }
  cbn [length] in *. unfold push. rewrite u32_id by lia. destruct (IH (store32 m (sp - 4) w) (sp - 4)) as (m' & Hrun & Hat & Hout); [lia|].
  rewrite Hrun. exists m'. split; [f_equal; lia|]. split.
  - intros [|i] v Hi; cbn [lookup list_lookup] in *.
    + injection Hi as <-. replace (sp - 4 * (Z.of_nat 0 + 1)) with (sp - 4) by lia. rewrite (load32_ext (store32 m (sp - 4) w)) by (intros; apply Hout; lia).
      rewrite load32_store32. by apply u32_id.
    + specialize (Hat i v Hi). rewrite <- Hat. f_equal. lia.
  - intros x Hx. rewrite Hout by lia. apply store32_other. lia.
Qed.

Lemma push_vector_ok strs m sp : Forall string_ok strs -> vector_size strs <= sp <= 4294967295 ->
  exists m', push_vector m sp strs = (m', sp - vector_size strs) /\ vector_in m' (sp - vector_size strs) sp strs /\
    (forall x, ~ (sp - vector_size strs <= x < sp) -> m' x = m x).
Proof.
  intros Hok Hsz. unfold vector_size in *. assert (0 <= strings_size strs) by (unfold strings_size; lia).
  destruct (push_strings_ok strs Hok m sp) as (m1 & ps & Hrun & Hlen & Hptr & Hout); [lia|]. unfold push_vector. rewrite Hrun.
  set (sp1 := sp - strings_size strs) in *. set (n := length strs) in *.
  assert (length (0 :: list.reverse ps) = S n) as Hwl by (cbn; rewrite length_reverse; lia).
  destruct (push_words_ok (0 :: list.reverse ps)) with (m := m1) (sp := sp1) as (m2 & Hrun2 & Hat & Hout2).
  { apply Forall_cons. split; [by unfold is_u32|]. apply Forall_reverse, Forall_lookup. intros i p Hi.
    destruct (lookup_lt_is_Some_2 strs i) as [str Hstr]; [pose proof (lookup_lt_Some _ _ _ Hi); lia|].
    destruct (Hptr i str Hstr) as (p' & Hp' & H1 & H2 & _). unfold is_u32. assert (p' = p) as -> by congruence. lia. }
  { rewrite Hwl. lia. }
  rewrite Hwl in *. exists m2. split; [rewrite Hrun2; f_equal; lia|]. split; [split|].
  - intros i str Hi. pose proof (lookup_lt_Some _ _ _ Hi) as Hlt. destruct (Hptr i str Hi) as (p & Hp & H1 & H2 & H3).
    assert (load32 m2 (sp - (strings_size strs + 4 * (Z.of_nat n + 1)) + 4 * Z.of_nat i) = p) as ->.
    { rewrite <- (Hat (S (n - 1 - i)) p); [f_equal; lia|]. change ((0 :: list.reverse ps) !! S (n - 1 - i)) with (list.reverse ps !! (n - 1 - i)%nat). rewrite reverse_lookup by (rewrite Hlen; lia).
      rewrite <- Hp. f_equal. rewrite Hlen. lia. }
    split; [lia|]. split; [lia|]. eapply cstr_ext; [|exact H3]. intros x Hx. apply load8_ext, Hout2. lia.
  - rewrite <- (Hat 0%nat 0 eq_refl). f_equal. lia.
  - lia.
  - intros x Hx. rewrite Hout2, Hout by lia. done.
Qed.

Definition stack_size (argv env : list (list Z)) : Z := vector_size argv + vector_size env + 20.

(** The stack that a program starts with has its arguments and environment
    where the C library looks for them: the numbers and the addresses of the two
    arrays above the stack pointer, each array with a pointer to every string
    in order and a null pointer at its end, and the strings themselves intact;
    nothing below the stack pointer and above the stack changes. *)
Lemma build_stack_correct m argv env sp : Forall string_ok argv -> Forall string_ok env ->
  stack_size argv env <= sp <= 4294967295 -> Z.of_nat (length argv) + Z.of_nat (length env) < 1073741824 ->
  let r := build_stack m sp argv env in
  r.2 = sp - stack_size argv env /\
  load32 r.1 (r.2 + 4) = Z.of_nat (length env) /\ vector_in r.1 (load32 r.1 (r.2 + 8)) sp env /\
  load32 r.1 (r.2 + 12) = Z.of_nat (length argv) /\ vector_in r.1 (load32 r.1 (r.2 + 16)) sp argv /\
  (forall x, ~ (r.2 + 4 <= x < sp) -> r.1 x = m x).
Proof.
  intros Ha He Hsz Hn. unfold stack_size, build_stack in *.
  assert (forall strs, 0 < vector_size strs) as Hpos by (intros strs; unfold vector_size, strings_size; lia).
  pose proof (Hpos argv). pose proof (Hpos env).
  destruct (push_vector_ok argv m sp Ha) as (m1 & -> & Hv1 & Hout1); [lia|]. set (a := sp - vector_size argv) in *.
  destruct (push_vector_ok env m1 a He) as (m2 & -> & Hv2 & Hout2); [lia|]. set (e := a - vector_size env) in *.
  destruct (push_words_ok [a; Z.of_nat (length argv); e; Z.of_nat (length env)]) with (m := m2) (sp := e) as (m3 & -> & Hat & Hout3).
  { repeat (apply Forall_cons; split); try apply Forall_nil_2; unfold is_u32; lia. }
  { cbn. lia. }
  change (Z.of_nat (length [a; Z.of_nat (length argv); e; Z.of_nat (length env)])) with 4 in *. rewrite u32_id by lia. cbn [fst snd].
  pose proof (Hat 0%nat _ eq_refl) as A0. pose proof (Hat 1%nat _ eq_refl) as A1. pose proof (Hat 2%nat _ eq_refl) as A2. pose proof (Hat 3%nat _ eq_refl) as A3.
  replace (e - 4 * 4 - 4 + 4) with (e - 4 * (Z.of_nat 3 + 1)) by lia. replace (e - 4 * 4 - 4 + 8) with (e - 4 * (Z.of_nat 2 + 1)) by lia.
  replace (e - 4 * 4 - 4 + 12) with (e - 4 * (Z.of_nat 1 + 1)) by lia. replace (e - 4 * 4 - 4 + 16) with (e - 4 * (Z.of_nat 0 + 1)) by lia.
  rewrite A0, A1, A2, A3. split; [lia|]. split; [done|]. split; [|split; [done|split]].
  - assert (vector_in m3 e a env) as [Vs Ve Vf] by (eapply vector_in_ext; [|exact Hv2]; intros; apply Hout3; lia).
    split; [|done|lia]. intros i str Hi. destruct (Vs i str Hi) as (V1 & V2 & V3). split; [done|]. split; [lia|done].
  - eapply vector_in_ext; [|exact Hv1]. intros x Hx. rewrite Hout3, Hout2 by lia. done.
  - intros x Hx. rewrite Hout3, Hout2, Hout1 by lia. done.
Qed.

Definition demo_args : list (list Z) := [[108; 115]; [45; 108]].
Lemma build_stack_correct_witness : exists m sp, build_stack (fun _ => 7) 3221225472 demo_args [] = (m, sp) /\
  load32 m (sp + 12) = Z.of_nat (length demo_args) /\ vector_in m (load32 m (sp + 16)) 3221225472 demo_args.
Proof.
  destruct (build_stack_correct (fun _ => 7) demo_args [] 3221225472) as (_ & _ & _ & Hc & Hv & _).
  - repeat (apply Forall_cons; split); try apply Forall_nil_2; repeat (apply Forall_cons; split); try apply Forall_nil_2; lia.
  - apply Forall_nil_2.
  - vm_compute. split; discriminate.
  - vm_compute. reflexivity.
  - revert Hc Hv. destruct (build_stack (fun _ => 7) 3221225472 demo_args []) as [m sp]. intros Hc Hv. exists m, sp. split; [reflexivity|]. split; [exact Hc|exact Hv].
Defined.

(** The pages of the stack are 8192 bytes, whatever the arguments need: with more
    the program's own pages, or none, are written to. *)
Lemma long_arguments_leave_the_stack : (build_stack (fun _ => 0) 3221225472 (repeat [97; 98; 99] 1024) []).2 < 3221225472 - PROCESS_STACK_SIZE_DEFAULT.
Proof. vm_compute. reflexivity. Qed.

(** ** Segments *)

Section ElfLoad.
Context {W : Type} (ops : Z -> fs_ops W) (c : list Z) (buffer : Z).

Definition loadable (ph : elf_program_header_t) : bool := (segment_type ph =? 1) && negb (p_memsz ph =? 0).
(** The program headers from the number [i] on. *)
Definition headers (i : Z) (n : nat) : list elf_program_header_t :=
  map (fun j => ph_at (mem_of 0 c) (eh_program_header_table (mem_of 0 c) 0 + sizeof_elf_program_header * j)) (seqZ i (Z.of_nat n)).
(** The byte at [x] after a segment was put over memory. *)
Definition seg_byte (ph : elf_program_header_t) (old : Z -> Z) (x : Z) : Z :=
  if (p_vaddr ph <=? x) && (x <? p_vaddr ph + p_filesz ph) then load8 (mem_of 0 c) (p_offset ph + (x - p_vaddr ph))
  else if (p_vaddr ph + p_filesz ph <=? x) && (x <? p_vaddr ph + p_memsz ph) then 0 else old x.
Definition seg_image (phs : list elf_program_header_t) (old : Z -> Z) : Z -> Z := foldl (fun u ph => seg_byte ph u) old phs.

(** A segment inside of the file and of the user's addresses. *)
Record seg_ok (ph : elf_program_header_t) : Prop := {
  sk_vaddr : 0 <= p_vaddr ph; sk_offset : 0 <= p_offset ph; sk_filesz : 0 <= p_filesz ph;
  sk_fits : p_filesz ph <= p_memsz ph;
  sk_user : p_vaddr ph + p_memsz ph <= KERNEL_BASE;
  sk_file : p_offset ph + p_filesz ph <= Z.of_nat (length c) }.

Record buffered (s : loader W) : Prop := {
  bf_bytes : bytes_at (vmem (lvfs s)) buffer (length c) = c;
  bf_low : KERNEL_BASE <= buffer;
  bf_high : buffer + Z.of_nat (length c) < 4294967296 }.

Lemma seg_byte_ext ph u u' x : (forall y, y < KERNEL_BASE -> u' y = u y) -> x < KERNEL_BASE -> seg_byte ph u' x = seg_byte ph u x.
Proof. intros Hu Hx. unfold seg_byte. by rewrite Hu. Qed.
Lemma seg_image_ext phs : forall u u', (forall y, y < KERNEL_BASE -> u' y = u y) -> forall x, x < KERNEL_BASE -> seg_image phs u' x = seg_image phs u x.
Proof.
  induction phs as [|ph phs IH]; intros u u' Hu x Hx; cbn; [by apply Hu|]. apply IH; [|done]. intros y Hy. by apply seg_byte_ext.
Qed.
Lemma seg_image_outside phs u x : (forall ph, ph ∈ phs -> ~ (p_vaddr ph <= x < p_vaddr ph + p_memsz ph) /\ 0 <= p_filesz ph <= p_memsz ph) ->
  seg_image phs u x = u x.
Proof.
  revert u. induction phs as [|ph phs IH]; intros u Hout; [done|].
  change (seg_image (ph :: phs) u x) with (seg_image phs (seg_byte ph u) x). rewrite IH by (intros; apply Hout; by right).
  destruct (Hout ph) as [Hx Hf]; [by left|]. unfold seg_byte.
  destruct (Z.leb_spec (p_vaddr ph) x), (Z.ltb_spec x (p_vaddr ph + p_filesz ph)), (Z.leb_spec (p_vaddr ph + p_filesz ph) x), (Z.ltb_spec x (p_vaddr ph + p_memsz ph));
    cbn; (done || lia).
Qed.

(** One segment is put into the memory of the process; the kernel's stays. *)
Lemma put_segment_ok s ph : buffered s -> seg_ok ph ->
  exists s', in_space (put_segment buffer ph) s = Ok tt s' /\ mapped s' = mapped s /\
    (forall x, vmem (lvfs s') x = vmem (lvfs s) x) /\
    (forall x, x < KERNEL_BASE -> load8 (umem s') x = seg_byte ph (load8 (umem s)) x).
Proof.
  intros [Hb Hlo Hhi] [H1 H2 H3 H4 H5 H6]. unfold KERNEL_BASE in *. eexists. split; [reflexivity|]. split; [done|].
  set (m := fun x => if x <? KERNEL_BASE then umem s x else vmem (lvfs s) x).
  assert (forall x, put_segment buffer ph m x =
    if (p_vaddr ph + p_filesz ph <=? x) && (x <? p_vaddr ph + p_memsz ph) then 0 else memcpy m (p_vaddr ph) (buffer + p_offset ph) (p_filesz ph) x) as Hput.
  { intros x. unfold put_segment. rewrite !u32_id by lia.
    destruct (Z.leb_spec (p_vaddr ph + p_filesz ph) x), (Z.ltb_spec x (p_vaddr ph + p_memsz ph)); cbn [andb];
      (rewrite memset_inside by lia; done) || (rewrite memset_outside by lia; done). }
  split; intros x.
  - cbn. destruct (Z.ltb_spec x KERNEL_BASE) as [|Hx]; [done|]. unfold KERNEL_BASE in Hx.
    change (put_segment buffer ph m x = vmem (lvfs s) x). rewrite Hput. dec_false (x <? p_vaddr ph + p_memsz ph). rewrite andb_false_r.
    rewrite memcpy_outside by lia. unfold m, KERNEL_BASE. by dec_false (x <? 3221225472).
  - intros Hx. unfold load8 at 1. cbn. unfold KERNEL_BASE at 1. dec_true (x <? 3221225472). change (u8 (put_segment buffer ph m x) = seg_byte ph (load8 (umem s)) x).
    rewrite Hput. unfold seg_byte. destruct (Z.leb_spec (p_vaddr ph + p_filesz ph) x), (Z.ltb_spec x (p_vaddr ph + p_memsz ph)); cbn [andb].
    + dec_false (x <? p_vaddr ph + p_filesz ph). by rewrite andb_false_r.
    + dec_false (x <? p_vaddr ph + p_filesz ph). rewrite andb_false_r. rewrite memcpy_outside by lia. unfold m, KERNEL_BASE. by dec_true (x <? 3221225472).
    + dec_true (x <? p_vaddr ph + p_filesz ph). rewrite andb_true_r. destruct (Z.leb_spec (p_vaddr ph) x).
      * change (load8 (memcpy m (p_vaddr ph) (buffer + p_offset ph) (p_filesz ph)) x = load8 (mem_of 0 c) (p_offset ph + (x - p_vaddr ph))).
        replace x with (p_vaddr ph + (x - p_vaddr ph)) at 1 by lia. rewrite memcpy_inside by lia.
        rewrite <- Hb. rewrite load8_mem_of by (rewrite ?Hb; lia).
        replace (buffer + p_offset ph + (x - p_vaddr ph)) with (buffer + (p_offset ph + (x - p_vaddr ph))) by lia.
        unfold load8, m, KERNEL_BASE. by dec_false (buffer + (p_offset ph + (x - p_vaddr ph)) <? 3221225472).
      * rewrite memcpy_outside by lia. unfold m, KERNEL_BASE. by dec_true (x <? 3221225472).
    + lia.
Qed.

Definition place (ph : elf_program_header_t) : Z * Z := (p_vaddr ph, p_memsz ph).
Definition phoff : Z := eh_program_header_table (mem_of 0 c) 0.

Lemma buffered_keep s s' : buffered s -> (forall x, vmem (lvfs s') x = vmem (lvfs s) x) -> buffered s'.
Proof. intros [Hb Hlo Hhi] Hx. split; [|done|done]. rewrite <- Hb at 2. apply bytes_at_ext. intros. apply Hx. Qed.
Lemma buffered_byte s x : buffered s -> 0 <= x < Z.of_nat (length c) -> load8 (vmem (lvfs s)) (buffer + x) = load8 (mem_of 0 c) x.
Proof. intros [Hb _ _] Hx. rewrite <- Hb. by rewrite load8_mem_of by (rewrite ?Hb; lia). Qed.
Lemma buffered_word s x : buffered s -> 0 <= x -> x + 4 <= Z.of_nat (length c) -> load32 (vmem (lvfs s)) (buffer + x) = load32 (mem_of 0 c) x.
Proof. intros Hb H0 Hx. unfold load32. rewrite <- !Z.add_assoc. by rewrite !(buffered_byte s) by (done || lia). Qed.
Lemma buffered_ph s x : buffered s -> 0 <= x -> x + 32 <= Z.of_nat (length c) -> ph_at (vmem (lvfs s)) (buffer + x) = ph_at (mem_of 0 c) x.
Proof. intros Hb H0 Hx. unfold ph_at. rewrite <- !Z.add_assoc. by rewrite !(buffered_word s) by (done || lia). Qed.

Lemma headers_cons i n : headers i (S n) = ph_at (mem_of 0 c) (phoff + 32 * i) :: headers (i + 1) n.
Proof. unfold headers. rewrite seqZ_cons by lia. cbn [map]. replace (Z.pred (Z.of_nat (S n))) with (Z.of_nat n) by lia. by replace (Z.succ i) with (i + 1) by lia. Qed.

Lemma load_loop_ok n : forall i data s, buffered s -> 0 <= i -> phoff + 32 * (i + Z.of_nat n) <= Z.of_nat (length c) ->
  Forall (fun ph => loadable ph = true -> seg_ok ph) (headers i n) ->
  let segs := List.filter loadable (headers i n) in
  exists s', load_loop n i (buffer + phoff) buffer (Z.of_nat (length c)) data s = Ok (Some (data ++ map place segs)) s' /\
    mapped s' = mapped s ++ map place segs /\ (forall x, vmem (lvfs s') x = vmem (lvfs s) x) /\
    (forall x, x < KERNEL_BASE -> load8 (umem s') x = seg_image segs (load8 (umem s)) x).
Proof.
  assert (0 <= phoff) as Hp0 by apply load32_range.
  induction n as [|n IH]; intros i data s Hb Hi Hfit Hall; cbn [load_loop].
  { exists s. cbn. by rewrite !app_nil_r. }
  rewrite headers_cons in *. apply Forall_cons in Hall as [Hseg Hall]. pose proof Hb as [_ Hlo Hhi]. unfold KERNEL_BASE in Hlo.
  rewrite u32_id by lia. dec_false (buffer + Z.of_nat (length c) <? buffer + phoff + i). unfold get, bind at 1.
  replace (buffer + phoff + sizeof_elf_program_header * i) with (buffer + (phoff + 32 * i)) by (unfold sizeof_elf_program_header; lia).
  rewrite (buffered_ph s) by (done || lia). set (ph := ph_at (mem_of 0 c) (phoff + 32 * i)) in *. cbn [List.filter].
  destruct (IH (i + 1) data s Hb) as (s0 & IHs); [lia|lia|done|].
  destruct (loadable ph) eqn:Hld; unfold loadable in Hld;
    [apply andb_true_iff in Hld as [-> Hmz%negb_true_iff]; rewrite Hmz; cbn [negb]|
     destruct (segment_type ph =? 1); [destruct (p_memsz ph =? 0); [by exists s0|done]|by exists s0]].
  clear s0 IHs.
  set (s1 := mk_loader (lvfs s) (umem s) (mapped s ++ [place ph])).
  destruct (put_segment_ok s1 ph) as (s2 & Hput & Hm2 & Hk2 & Hu2); [by destruct Hb|by apply Hseg|].
  destruct (IH (i + 1) (data ++ [place ph]) s2) as (s' & Hrun & Hm & Hk & Hu); [by apply (buffered_keep s)|lia|lia|done|].
  exists s'. split; [|split; [|split]].
  - unfold note_mapping, modify, bind at 1. fold (place ph). fold s1. rewrite (bind_ok _ _ _ _ _ Hput). rewrite Hrun. by rewrite <- app_assoc.
  - rewrite Hm, Hm2. cbn. by rewrite <- app_assoc.
  - intros x. by rewrite Hk, Hk2.
  - intros x Hx. rewrite Hu by done. cbn [seg_image foldl]. by apply seg_image_ext.
Qed.

(** Segments do not overlap. *)
Definition apart_segs (segs : list elf_program_header_t) : Prop :=
  forall i j a b, i <> j -> segs !! i = Some a -> segs !! j = Some b ->
    p_vaddr a + p_memsz a <= p_vaddr b \/ p_vaddr b + p_memsz b <= p_vaddr a.

Lemma seg_image_here segs u ph x : apart_segs segs -> Forall seg_ok segs -> ph ∈ segs -> p_vaddr ph <= x < p_vaddr ph + p_memsz ph ->
  seg_image segs u x = if x <? p_vaddr ph + p_filesz ph then load8 (mem_of 0 c) (p_offset ph + (x - p_vaddr ph)) else 0.
Proof.
  intros Hap Hok Hin Hx. apply list_elem_of_lookup_1 in Hin as [i Hi]. pose proof (lookup_lt_Some _ _ _ Hi) as Hlt.
  rewrite <- (take_drop_middle segs i ph Hi). unfold seg_image. rewrite foldl_app. cbn [foldl].
  change (seg_image (drop (S i) segs) (seg_byte ph (seg_image (take i segs) u)) x = if x <? p_vaddr ph + p_filesz ph then load8 (mem_of 0 c) (p_offset ph + (x - p_vaddr ph)) else 0).
  rewrite seg_image_outside.
  - rewrite Forall_lookup in Hok. destruct (Hok i ph Hi). unfold seg_byte. dec_true (p_vaddr ph <=? x). dec_true (x <? p_vaddr ph + p_memsz ph). cbn [andb]. rewrite andb_true_r.
    destruct (Z.ltb_spec x (p_vaddr ph + p_filesz ph)); [done|]. by dec_true (p_vaddr ph + p_filesz ph <=? x).
  - intros b [j Hj]%list_elem_of_lookup_1. rewrite lookup_drop in Hj. rewrite Forall_lookup in Hok. destruct (Hok _ b Hj).
    destruct (Hap i (S i + j)%nat ph b ltac:(lia) Hi Hj); lia.
Qed.

Lemma set_offset_ok (s : vfs W) fd x v f content offset : open_at s fd x v f content -> exists s',
  set_offset fd offset s = Ok tt s' /\ open_at s' fd (mk_fd (fd_file x) offset (fd_instances x) (fd_path x)) v f content /\ vmem s' = vmem s.
Proof.
  intros [Hfd Hnode Hfs Hdir Hlen Hsmall]. unfold set_offset, get_fd, set_fd, modify, bind. rewrite Hfd. eexists. split; [reflexivity|]. split; [|done].
  split; cbn; try done. apply list_lookup_insert_eq. by eapply lookup_lt_Some.
Qed.

End ElfLoad.

(** ** Examples *)

(** An executable with one segment: four bytes of the file and four zeros. *)
Definition demo_elf_at (vaddr filesz memsz : Z) : list Z :=
  [127; 69; 76; 70; 1; 1; 1; 0; 0; 0; 0; 0; 0; 0; 0; 0; 2; 0; 3; 0] ++ le32 1 ++ le32 4096 ++ le32 52 ++ le32 0 ++ le32 0 ++
  [52; 0; 32; 0; 1; 0; 0; 0; 0; 0; 0; 0] ++
  le32 1 ++ le32 84 ++ le32 vaddr ++ le32 0 ++ le32 filesz ++ le32 memsz ++ le32 5 ++ le32 4096 ++ [11; 22; 33; 44].
Definition demo_elf : list Z := demo_elf_at 4096 4 8.
Definition elf_content (f : list Z) (node : nat) : list Z := match node with O => f | _ => [] end.
Definition demo_loader (f : list Z) : loader unit :=
  mk_loader (mk_vfs tt (fun _ => 0) [mk_vnode 0 (Z.of_nat (length f)) 0] [Some (mk_fd 0 17 1 None)] [mk_fs FS_TYPE_EXT2 0] [] 0) (fun _ => 9) [].


(** Addresses are not checked: a segment can be placed over the kernel. *)
Lemma kernel_segment_loaded :
  match elf_load (ram_ops (elf_content (demo_elf_at 3222274048 4 4))) 3221300000 0 (demo_loader (demo_elf_at 3222274048 4 4)) with
  | Ok _ s => load8 (vmem (lvfs s)) 3222274048 = 11
  | _ => False
  end.
Proof. vm_compute. reflexivity. Qed.
(** Sizes are not checked: when a segment has more bytes in the file than in
    memory, nearly everything behind it is cleared. *)
Lemma short_segment_clears :
  match elf_load (ram_ops (elf_content (demo_elf_at 4096 4 2))) 3221300000 0 (demo_loader (demo_elf_at 4096 4 2)) with
  | Ok _ s => load8 (umem s) 3000000000 = 0 /\ load8 (vmem (lvfs s)) 3221300000 = 0
  | _ => False
  end.
Proof. vm_compute. by split. Qed.
(** A check that cannot read the file loses the offset of the descriptor. *)
Definition failing_ops (t : Z) : fs_ops unit :=
  mk_ops unit (fun _ _ => ret None) (fun _ => ret (ERROR_NONE, [])) (fun _ _ _ _ => ret ERROR_DISK_INTERNAL) (fun _ _ _ _ => ret ERROR_NONE)
    (fun _ _ _ => ret None) (fun _ _ => ret ERROR_NONE) (fun _ _ _ => ret ERROR_NONE) (fun _ _ _ _ => ret ERROR_NONE).
Lemma failed_check_moves_offset :
  match elf_check failing_ops 4096 0 (lvfs (demo_loader demo_elf)) with
  | Ok e s => e = ERROR_DISK_INTERNAL /\ vfds s !! 0%nat = Some (Some (mk_fd 0 0 1 None))
  | _ => False
  end.
Proof. vm_compute. by split. Qed.
(** An executable without loadable segments: the list of segments is followed
    behind its end for the start of the heap. *)
Lemma no_segment_faults :
  load_executable (ram_ops (elf_content (demo_elf_at 4096 0 0))) 3221290000 3221300000 0 [] [] (demo_loader (demo_elf_at 4096 0 0)) = Fault.
Proof. vm_compute. reflexivity. Qed.
(** The whole of loading, with one argument. *)
Lemma demo_elf_loads :
  match load_executable (ram_ops (elf_content demo_elf)) 3221290000 3221300000 0 [[97]] [] (demo_loader demo_elf) with
  | Ok r s => r = (ERROR_NONE, Some (mk_image 4096 (3221225472 - 34) (3221225472 - 8192) 4104 0 [(4096, 8)])) /\
      bytes_at (umem s) 4096 9 = [11; 22; 33; 44; 0; 0; 0; 0; 9] /\ mapped s = [(4096, 8); (3221225472 - 8192, 8192)]
  | _ => False
  end.
Proof. vm_compute. split_and!; reflexivity. Qed.
