(* ===== verification/Sched.v ===== *)
(** Mutexes, threads and the scheduler (sync/mutex.c, sync/mutex.s,
    tasking/processes/threads.c, tasking/scheduler/scheduler.c and the policy
    of tasking/scheduler/scheduler.s).

    Processes, threads, mutexes, list nodes and the word arrays the lists point
    to are stores from addresses to their contents.  [kfree] of this kernel
    writes block headers only, so a node that was freed still reads as before
    until it is reused, and the stores keep it.  Queues are used through the
    interface [Queue].  A thread that is switched out leaves the call it is in:
    such calls end with [Switched], and what follows them in the source runs
    when the thread is chosen again.  The registers that the inline assembly
    saves are not modelled, apart from the stack pointer, [eip], [cs] and
    [ss]. *)

From S2P Require Import Prelude Errors Mem KHeap Alloc DataStructs.

Definition PROCESS_STATUS_INIT : Z := 0.
Definition PROCESS_STATUS_RUNNING : Z := 1.
Definition PROCESS_STATUS_ASLEEP_THREADS : Z := 2.
Definition PROCESS_STATUS_ASLEEP_SIGNAL : Z := 3.
Definition PROCESS_STATUS_ZOMBIE : Z := 10.
Definition THREAD_STATUS_INIT : Z := 0.
Definition THREAD_STATUS_RUNNING : Z := 1.
Definition THREAD_STATUS_ASLEEP_TIME : Z := 2.
Definition THREAD_STATUS_ASLEEP_IRQ : Z := 3.
Definition THREAD_STATUS_ASLEEP_MUTEX : Z := 7.
Definition SLEEP_WAIT_IRQ : Z := 1.
Definition SLEEP_TIME : Z := 3.
Definition PROCESS_KSTACK_SIZE_DEFAULT : Z := 8192.

(** How a call ends: it returned, or its thread was switched out in it. *)
Inductive flow : Type := Returned | Switched.

Record thread : Type := mk_thread {
  eip : Z; esp : Z; cs : Z; ss : Z; kesp : Z; base_stack : Z; base_kstack : Z; tstatus : Z }.
Record process (Q : Type) : Type := mk_process {
  active_thread : Z; running_threads : Q; waiting_threads : Z;
  pid : Z; pgroup : Z; psession : Z; pstatus : Z; signal_handlers : list Z }.
Arguments mk_process {Q}. Arguments active_thread {Q}. Arguments running_threads {Q}.
Arguments waiting_threads {Q}. Arguments pid {Q}. Arguments pgroup {Q}. Arguments psession {Q}.
Arguments pstatus {Q}. Arguments signal_handlers {Q}.
Record mutex : Type := mk_mutex { locked_by : Z; waiting : Z }.
Record dentry : Type := mk_dentry { d_element : Z; d_next : Z; d_prev : Z }.

Record sched (H Q : Type) : Type := mk_sched {
  procs : gmap Z (process Q); threads : gmap Z thread; mutexes : gmap Z mutex;
  nodes : gmap Z (Z * Z); dnodes : gmap Z dentry; words : gmap Z (list Z);
  sheap : H; p_ready_queue : Q; current_process : Z; idle_process : Z;
  irq_list : list Z; wait_list : Z; wait_mutex : Z; signal_list : Z; signal_mutex : Z }.
Arguments mk_sched {H Q}. Arguments procs {H Q}. Arguments threads {H Q}. Arguments mutexes {H Q}.
Arguments nodes {H Q}. Arguments dnodes {H Q}. Arguments words {H Q}. Arguments sheap {H Q}.
Arguments p_ready_queue {H Q}. Arguments current_process {H Q}. Arguments idle_process {H Q}.
Arguments irq_list {H Q}. Arguments wait_list {H Q}. Arguments wait_mutex {H Q}.
Arguments signal_list {H Q}. Arguments signal_mutex {H Q}.

(** Assignments to struct fields. *)
Definition set_tstatus (v : Z) (t : thread) : thread :=
  mk_thread (eip t) (esp t) (cs t) (ss t) (kesp t) (base_stack t) (base_kstack t) v.
Definition set_base_stack (v : Z) (t : thread) : thread :=
  mk_thread (eip t) (esp t) (cs t) (ss t) (kesp t) v (base_kstack t) (tstatus t).
(** The kernel context saved before a switch: [eip] is the label at the end of
    the function, [cs] and [ss] are the kernel's. *)
Definition save_context (label stack : Z) (t : thread) : thread :=
  mk_thread label stack 8 16 (kesp t) (base_stack t) (base_kstack t) (tstatus t).

Section Scheduler.
Context {H Q : Type} `{Allocator H} `{Queue Q}.

Definition set_active (v : Z) (p : process Q) : process Q :=
  mk_process v (running_threads p) (waiting_threads p) (pid p) (pgroup p) (psession p) (pstatus p) (signal_handlers p).
Definition set_running (v : Q) (p : process Q) : process Q :=
  mk_process (active_thread p) v (waiting_threads p) (pid p) (pgroup p) (psession p) (pstatus p) (signal_handlers p).
Definition set_waiting (v : Z) (p : process Q) : process Q :=
  mk_process (active_thread p) (running_threads p) v (pid p) (pgroup p) (psession p) (pstatus p) (signal_handlers p).
Definition set_pstatus (v : Z) (p : process Q) : process Q :=
  mk_process (active_thread p) (running_threads p) (waiting_threads p) (pid p) (pgroup p) (psession p) v (signal_handlers p).

Definition upd_procs (f : gmap Z (process Q) -> gmap Z (process Q)) (s : sched H Q) : sched H Q :=
  mk_sched (f (procs s)) (threads s) (mutexes s) (nodes s) (dnodes s) (words s) (sheap s) (p_ready_queue s)
    (current_process s) (idle_process s) (irq_list s) (wait_list s) (wait_mutex s) (signal_list s) (signal_mutex s).
Definition upd_threads (f : gmap Z thread -> gmap Z thread) (s : sched H Q) : sched H Q :=
  mk_sched (procs s) (f (threads s)) (mutexes s) (nodes s) (dnodes s) (words s) (sheap s) (p_ready_queue s)
    (current_process s) (idle_process s) (irq_list s) (wait_list s) (wait_mutex s) (signal_list s) (signal_mutex s).
Definition upd_mutexes (f : gmap Z mutex -> gmap Z mutex) (s : sched H Q) : sched H Q :=
  mk_sched (procs s) (threads s) (f (mutexes s)) (nodes s) (dnodes s) (words s) (sheap s) (p_ready_queue s)
    (current_process s) (idle_process s) (irq_list s) (wait_list s) (wait_mutex s) (signal_list s) (signal_mutex s).
Definition upd_nodes (f : gmap Z (Z * Z) -> gmap Z (Z * Z)) (s : sched H Q) : sched H Q :=
  mk_sched (procs s) (threads s) (mutexes s) (f (nodes s)) (dnodes s) (words s) (sheap s) (p_ready_queue s)
    (current_process s) (idle_process s) (irq_list s) (wait_list s) (wait_mutex s) (signal_list s) (signal_mutex s).
Definition upd_dnodes (f : gmap Z dentry -> gmap Z dentry) (s : sched H Q) : sched H Q :=
  mk_sched (procs s) (threads s) (mutexes s) (nodes s) (f (dnodes s)) (words s) (sheap s) (p_ready_queue s)
    (current_process s) (idle_process s) (irq_list s) (wait_list s) (wait_mutex s) (signal_list s) (signal_mutex s).
Definition upd_words (f : gmap Z (list Z) -> gmap Z (list Z)) (s : sched H Q) : sched H Q :=
  mk_sched (procs s) (threads s) (mutexes s) (nodes s) (dnodes s) (f (words s)) (sheap s) (p_ready_queue s)
    (current_process s) (idle_process s) (irq_list s) (wait_list s) (wait_mutex s) (signal_list s) (signal_mutex s).
Definition set_sheap (h : H) (s : sched H Q) : sched H Q :=
  mk_sched (procs s) (threads s) (mutexes s) (nodes s) (dnodes s) (words s) h (p_ready_queue s)
    (current_process s) (idle_process s) (irq_list s) (wait_list s) (wait_mutex s) (signal_list s) (signal_mutex s).
Definition set_ready (q : Q) (s : sched H Q) : sched H Q :=
  mk_sched (procs s) (threads s) (mutexes s) (nodes s) (dnodes s) (words s) (sheap s) q
    (current_process s) (idle_process s) (irq_list s) (wait_list s) (wait_mutex s) (signal_list s) (signal_mutex s).
Definition set_current (v : Z) (s : sched H Q) : sched H Q :=
  mk_sched (procs s) (threads s) (mutexes s) (nodes s) (dnodes s) (words s) (sheap s) (p_ready_queue s)
    v (idle_process s) (irq_list s) (wait_list s) (wait_mutex s) (signal_list s) (signal_mutex s).
Definition set_irq_list (l : list Z) (s : sched H Q) : sched H Q :=
  mk_sched (procs s) (threads s) (mutexes s) (nodes s) (dnodes s) (words s) (sheap s) (p_ready_queue s)
    (current_process s) (idle_process s) l (wait_list s) (wait_mutex s) (signal_list s) (signal_mutex s).
Definition set_wait_list (v : Z) (s : sched H Q) : sched H Q :=
  mk_sched (procs s) (threads s) (mutexes s) (nodes s) (dnodes s) (words s) (sheap s) (p_ready_queue s)
    (current_process s) (idle_process s) (irq_list s) v (wait_mutex s) (signal_list s) (signal_mutex s).
Definition set_wait_mutex (v : Z) (s : sched H Q) : sched H Q :=
  mk_sched (procs s) (threads s) (mutexes s) (nodes s) (dnodes s) (words s) (sheap s) (p_ready_queue s)
    (current_process s) (idle_process s) (irq_list s) (wait_list s) v (signal_list s) (signal_mutex s).
Definition set_signal_list (v : Z) (s : sched H Q) : sched H Q :=
  mk_sched (procs s) (threads s) (mutexes s) (nodes s) (dnodes s) (words s) (sheap s) (p_ready_queue s)
    (current_process s) (idle_process s) (irq_list s) (wait_list s) (wait_mutex s) v (signal_mutex s).
Definition set_signal_mutex (v : Z) (s : sched H Q) : sched H Q :=
  mk_sched (procs s) (threads s) (mutexes s) (nodes s) (dnodes s) (words s) (sheap s) (p_ready_queue s)
    (current_process s) (idle_process s) (irq_list s) (wait_list s) (wait_mutex s) (signal_list s) v.

(** Reading through a pointer of each type. *)
Definition deref {A} (store : sched H Q -> gmap Z A) (p : Z) : M (sched H Q) A :=
  fun s => match store s !! p with Some x => Ok x s | None => Fault end.
Definition on_proc (p : Z) (f : process Q -> process Q) : M (sched H Q) unit :=
  x <- deref procs p ;; modify (upd_procs (insert p (f x))).
Definition on_thread (t : Z) (f : thread -> thread) : M (sched H Q) unit :=
  x <- deref threads t ;; modify (upd_threads (insert t (f x))).
Definition on_mutex (m : Z) (f : mutex -> mutex) : M (sched H Q) unit :=
  x <- deref mutexes m ;; modify (upd_mutexes (insert m (f x))).
Definition on_dnode (d : Z) (f : dentry -> dentry) : M (sched H Q) unit :=
  x <- deref dnodes d ;; modify (upd_dnodes (insert d (f x))).
Definition word (p : Z) (i : nat) : M (sched H Q) Z :=
  w <- deref words p ;; match w !! i with Some x => ret x | None => fault end.

Definition kalloc (n : Z) : M (sched H Q) Z :=
  fun s => match malloc n (sheap s) with
           | Ok p h => Ok p (set_sheap h s)
           | Fatal e => Fatal e | Fault => Fault | NoFuel => NoFuel
           end.
Definition kfree_node (p : Z) : M (sched H Q) unit :=
  fun s => match free p (sheap s) with
           | Ok _ h => Ok tt (set_sheap h s)
           | Fatal e => Fatal e | Fault => Fault | NoFuel => NoFuel
           end.

(** The queue operations on the ready queue and on the threads of a process. *)
Definition ready_op {A} (op : M Q A) : M (sched H Q) A :=
  fun s => match op (p_ready_queue s) with
           | Ok a q => Ok a (set_ready q s)
           | Fatal e => Fatal e | Fault => Fault | NoFuel => NoFuel
           end.
Definition running_op {A} (p : Z) (op : M Q A) : M (sched H Q) A :=
  x <- deref procs p ;;
  fun s => match op (running_threads x) with
           | Ok a q => Ok a (upd_procs (insert p (set_running q x)) s)
           | Fatal e => Fatal e | Fault => Fault | NoFuel => NoFuel
           end.

(** [list_entry_t** ptr = &head; while( *ptr) ptr = &( *ptr)->next;
    ( *ptr) = kmalloc(..)]: the node appended at the end of the list from
    [head]; returns the new head. [fuel] bounds the length of the list. *)
Fixpoint last_node (fuel : nat) (a : Z) : M (sched H Q) Z :=
  match fuel with
  | O => nofuel
  | S n => e <- deref nodes a ;; if e.2 =? 0 then ret a else last_node n e.2
  end.
Definition append_node (fuel : nat) (head element : Z) : M (sched H Q) Z :=
  p <- kalloc 8 ;;
  (if head =? 0 then modify (upd_nodes (insert p (element, 0))) ;;; ret p
   else l <- last_node fuel head ;; e <- deref nodes l ;;
        modify (upd_nodes (fun m => <[p := (element, 0)]> (<[l := (e.1, p)]> m))) ;;; ret head).

(** ** The scheduler's queue of processes *)

Definition scheduler_add_process (p : Z) : M (sched H Q) unit :=
  x <- deref procs p ;;
  s <- get ;;
  if negb (p =? idle_process s) && (pstatus x =? PROCESS_STATUS_RUNNING) then ret tt else
  on_proc p (set_pstatus PROCESS_STATUS_RUNNING) ;;;
  ready_op (q_add p).

(** From the label [schedule_switch] on: [eax] the thread, [edx] the process. *)
Definition schedule_switch (eax edx : Z) : M (sched H Q) flow :=
  modify (set_current edx) ;;;
  on_proc edx (set_active eax) ;;;
  deref threads eax ;;;
  ret Switched.

(** [stack] is the stack pointer at the switch, [rmv] and [srt_end] the
    addresses of the labels execution resumes at. *)
Context (stack rmv srt_end : Z).

Definition scheduler_remove_process (p : Z) : M (sched H Q) flow :=
  s <- get ;;
  if current_process s =? p then
    tswitch <- ready_op q_take ;;
    let tswitch := if tswitch =? 0 then idle_process s else tswitch in
    c <- deref procs (current_process s) ;;
    (if active_thread c =? 0 then ret tt else on_thread (active_thread c) (save_context rmv stack)) ;;;
    t <- deref procs tswitch ;;
    schedule_switch (active_thread t) tswitch
  else ready_op (q_remove p) ;;; ret Returned.

(** ** Threads *)

Definition init_thread : M (sched H Q) Z :=
  t <- kalloc 76 ;;
  kstack <- kalloc PROCESS_KSTACK_SIZE_DEFAULT ;;
  modify (upd_threads (insert t
    (mk_thread 0 0 0 0 (u32 (kstack + PROCESS_KSTACK_SIZE_DEFAULT)) 0 kstack THREAD_STATUS_INIT))) ;;;
  ret t.

Definition scheduler_remove_thread (fuel : nat) (p t : Z) : M (sched H Q) flow :=
  x <- deref procs p ;;
  if negb (pstatus x =? PROCESS_STATUS_RUNNING) then ret Returned else
  w <- append_node fuel (waiting_threads x) t ;;
  on_proc p (set_waiting w) ;;;
  s <- get ;;
  x <- deref procs p ;;
  if (p =? current_process s) && (t =? active_thread x) then
    next <- running_op p q_take ;;
    on_thread t (save_context srt_end stack) ;;;
    on_proc p (set_active next) ;;;
    if next =? 0 then
      on_proc p (set_pstatus PROCESS_STATUS_ASLEEP_THREADS) ;;;
      scheduler_remove_process p
    else schedule_switch next p
  else running_op p (q_remove t) ;;; ret Returned.

(** The walk over [waiting_threads]; the node is freed before its [next] is
    read, and becomes [bef]. *)
Fixpoint remove_waiting (fuel : nat) (p t ptr bef : Z) : M (sched H Q) unit :=
  match fuel with
  | O => nofuel
  | S n =>
    if ptr =? 0 then ret tt else
    e <- deref nodes ptr ;;
    (if e.1 =? t then
       (if bef =? 0 then on_proc p (set_waiting 0)
        else b <- deref nodes bef ;; modify (upd_nodes (insert bef (b.1, e.2)))) ;;;
       kfree_node ptr
     else ret tt) ;;;
    e <- deref nodes ptr ;;
    remove_waiting n p t e.2 ptr
  end.

Definition scheduler_add_thread (fuel : nat) (p t : Z) : M (sched H Q) unit :=
  th <- deref threads t ;;
  if tstatus th =? THREAD_STATUS_RUNNING then ret tt else
  (if tstatus th =? THREAD_STATUS_INIT then ret tt
   else x <- deref procs p ;; remove_waiting fuel p t (waiting_threads x) 0) ;;;
  on_thread t (set_tstatus THREAD_STATUS_RUNNING) ;;;
  x <- deref procs p ;;
  if (active_thread x =? 0) && (pstatus x =? PROCESS_STATUS_ASLEEP_THREADS) then
    on_proc p (set_active t) ;;; scheduler_add_process p
  else if active_thread x =? 0 then on_proc p (set_active t)
  else running_op p (q_add t).

(** ** Mutexes *)

Definition mutex_lock (m : Z) : M (sched H Q) Z :=
  x <- deref mutexes m ;;
  s <- get ;;
  if locked_by x =? current_process s then ret ERROR_NONE
  else if negb (locked_by x =? 0) then ret ERROR_MUTEX_ALREADY_LOCKED
  else on_mutex m (fun x => mk_mutex (current_process s) (waiting x)) ;;; ret ERROR_NONE.

(** [stale p] is what the second word of the fresh array at [p] holds: the
    code writes the first word twice and the second never. *)
Context (stale : Z -> Z).

Definition mutex_wait (fuel : nat) (m : Z) : M (sched H Q) flow :=
  x <- deref mutexes m ;;
  s <- get ;;
  c <- deref procs (current_process s) ;;
  w <- append_node fuel (waiting x) 0 ;;
  on_mutex m (fun x => mk_mutex (locked_by x) w) ;;;
  el <- kalloc 8 ;;
  modify (upd_words (insert el [active_thread c; stale el])) ;;;
  l <- last_node (S fuel) w ;;
  modify (upd_nodes (insert l (el, 0))) ;;;
  on_thread (active_thread c) (set_tstatus THREAD_STATUS_ASLEEP_MUTEX) ;;;
  scheduler_remove_thread fuel (current_process s) (active_thread c).

Definition mutex_unlock_wakeup (fuel : nat) (m : Z) : M (sched H Q) unit :=
  x <- deref mutexes m ;;
  if waiting x =? 0 then ret tt else
  e <- deref nodes (waiting x) ;;
  on_mutex m (fun x => mk_mutex (locked_by x) e.2) ;;;
  kfree_node (waiting x) ;;;
  p <- word e.1 0 ;;
  t <- word e.1 1 ;;
  scheduler_add_thread fuel p t.

Definition mutex_unlock (fuel : nat) (m : Z) : M (sched H Q) Z :=
  x <- deref mutexes m ;;
  s <- get ;;
  if negb (locked_by x =? current_process s) then ret ERROR_MUTEX_OWNED_BY_OTHER else
  on_mutex m (fun x => mk_mutex 0 (waiting x)) ;;;
  mutex_unlock_wakeup fuel m ;;;
  ret ERROR_NONE.

(** [while(mutex_lock(m) != ERROR_NONE) mutex_wait(m);].  A thread that was
    switched out in [mutex_wait] tries again when it is chosen again. *)
Fixpoint acquire (n fuel : nat) (m : Z) : M (sched H Q) flow :=
  match n with
  | O => nofuel
  | S k =>
    e <- mutex_lock m ;;
    if e =? ERROR_NONE then ret Returned else
    f <- mutex_wait fuel m ;;
    match f with Switched => ret Switched | Returned => acquire k fuel m end
  end.

(** ** Sleeping *)

(** The walk to the place of a sleeper: [(ptr, last)]. *)
Fixpoint wait_place (fuel : nat) (ptr last cumulated_time : Z) : M (sched H Q) (Z * Z) :=
  match fuel with
  | O => nofuel
  | S n =>
    if (ptr =? 0) || (cumulated_time =? 0) then ret (ptr, last) else
    e <- deref dnodes ptr ;;
    element_time <- word (d_element e) 1 ;;
    if cumulated_time <? element_time then ret (ptr, last) else
    wait_place n (d_next e) ptr (cumulated_time - element_time)
  end.

Definition add_sleeper (fuel : nat) (p t wait_time : Z) : M (sched H Q) Z :=
  s <- get ;;
  pl <- wait_place fuel (wait_list s) 0 wait_time ;;
  let ptr := pl.1 in let last := pl.2 in
  wait_entry <- kalloc 12 ;;
  ptr <- (if last =? 0 then modify (set_wait_list wait_entry) ;;; ret 0
          else on_dnode last (fun d => mk_dentry (d_element d) wait_entry (d_prev d)) ;;; ret ptr) ;;
  el <- kalloc 12 ;;
  modify (upd_words (insert el [p; wait_time; t])) ;;;
  modify (upd_dnodes (insert wait_entry (mk_dentry el ptr last))) ;;;
  on_thread t (set_tstatus THREAD_STATUS_ASLEEP_TIME) ;;;
  ret wait_entry.

Definition add_irq_waiter (fuel : nat) (p t irq wait_entry : Z) : M (sched H Q) unit :=
  s <- get ;;
  match irq_list s !! Z.to_nat irq with
  | None => fault
  | Some head =>
    nd <- append_node fuel head 0 ;;
    modify (set_irq_list (<[Z.to_nat irq := nd]> (irq_list s))) ;;;
    el <- kalloc 12 ;;
    modify (upd_words (insert el [p; wait_entry; t])) ;;;
    l <- last_node (S fuel) nd ;;
    modify (upd_nodes (insert l (el, 0))) ;;;
    on_thread t (set_tstatus THREAD_STATUS_ASLEEP_IRQ)
  end.

Definition scheduler_wait_thread (fuel : nat) (p t sleep_reason sleep_data wait_time : Z) : M (sched H Q) flow :=
  s <- get ;;
  f <- acquire fuel fuel (wait_mutex s) ;;
  match f with
  | Switched => ret Switched
  | Returned =>
    wait_entry <- (if negb (wait_time =? 0) && ((sleep_reason =? SLEEP_WAIT_IRQ) || (sleep_reason =? SLEEP_TIME))
                   then add_sleeper fuel p t wait_time else ret 0) ;;
    (if (sleep_data <=? 20) && (sleep_reason =? SLEEP_WAIT_IRQ)
     then add_irq_waiter fuel p t sleep_data wait_entry else ret tt) ;;;
    mutex_unlock fuel (wait_mutex s) ;;;
    scheduler_remove_thread fuel p t
  end.

(** The loop that wakes the first sleeper and those with no time left after
    it. *)
Fixpoint wake_sleepers (n fuel : nat) (ptr element : Z) : M (sched H Q) unit :=
  match n with
  | O => nofuel
  | S k =>
    p <- word element 0 ;;
    t <- word element 2 ;;
    scheduler_add_thread fuel p t ;;;
    d <- deref dnodes ptr ;;
    modify (set_wait_list (d_next d)) ;;;
    kfree_node ptr ;;;
    if d_next d =? 0 then ret tt else
    d' <- deref dnodes (d_next d) ;;
    time <- word (d_element d') 1 ;;
    if time =? 0 then wake_sleepers k fuel (d_next d) (d_element d') else ret tt
  end.

Definition scheduler_sleep_update (fuel : nat) : M (sched H Q) unit :=
  s <- get ;;
  if wait_list s =? 0 then ret tt else
  e <- mutex_lock (wait_mutex s) ;;
  if negb (e =? ERROR_NONE) then ret tt else
  d <- deref dnodes (wait_list s) ;;
  w <- deref words (d_element d) ;;
  time <- word (d_element d) 1 ;;
  (if 55 <? time then modify (upd_words (insert (d_element d) (<[1%nat := time - 55]> w)))
   else modify (set_wait_list 0) ;;; wake_sleepers fuel fuel (wait_list s) (d_element d)) ;;;
  mutex_unlock fuel (wait_mutex s) ;;;
  ret tt.

(** Takes the entry of an interrupt waiter out of the wait list; the code
    tests [prev] on its own for the first waiter and as an [else] for the
    others. *)
Definition unlink_sleeper (first : bool) (wl : Z) : M (sched H Q) unit :=
  if wl =? 0 then ret tt else
  d <- deref dnodes wl ;;
  s <- get ;;
  (if wl =? wait_list s then modify (set_wait_list (d_next d)) else ret tt) ;;;
  (if (first || negb (wl =? wait_list s)) && negb (d_prev d =? 0)
   then on_dnode (d_prev d) (fun x => mk_dentry (d_element x) (d_next d) (d_prev x)) else ret tt) ;;;
  (if d_next d =? 0 then ret tt
   else on_dnode (d_next d) (fun x => mk_dentry (d_element x) (d_next x) (d_prev d))) ;;;
  kfree_node (d_element d) ;;;
  kfree_node wl.

Fixpoint wake_irq (n fuel : nat) (first : bool) (ptr : Z) : M (sched H Q) unit :=
  match n with
  | O => nofuel
  | S k =>
    if ptr =? 0 then ret tt else
    e <- deref nodes ptr ;;
    wl <- word e.1 1 ;;
    unlink_sleeper first wl ;;;
    p <- word e.1 0 ;;
    t <- word e.1 2 ;;
    scheduler_add_thread fuel p t ;;;
    kfree_node e.1 ;;;
    kfree_node ptr ;;;
    wake_irq k fuel false e.2
  end.

Definition scheduler_irq_wakeup (fuel : nat) (irq : Z) : M (sched H Q) flow :=
  s <- get ;;
  match irq_list s !! Z.to_nat irq with
  | None => fault
  | Some head =>
    if head =? 0 then ret Returned else
    f <- acquire fuel fuel (wait_mutex s) ;;
    match f with
    | Switched => ret Switched
    | Returned =>
      modify (set_irq_list (<[Z.to_nat irq := 0]> (irq_list s))) ;;;
      wake_irq fuel fuel true head ;;;
      mutex_unlock fuel (wait_mutex s) ;;;
      ret Returned
    end
  end.

(** ** Running the operations *)

Lemma deref_ok {A} (store : sched H Q -> gmap Z A) p x s : store s !! p = Some x -> deref store p s = Ok x s.
Proof. intros He. unfold deref. by rewrite He. Qed.
Lemma on_proc_ok p f x s : procs s !! p = Some x -> on_proc p f s = Ok tt (upd_procs (insert p (f x)) s).
Proof. intros He. unfold on_proc. by rewrite (bind_ok _ _ _ _ _ (deref_ok _ _ _ _ He)). Qed.
Lemma on_thread_ok p f x s : threads s !! p = Some x -> on_thread p f s = Ok tt (upd_threads (insert p (f x)) s).
Proof. intros He. unfold on_thread. by rewrite (bind_ok _ _ _ _ _ (deref_ok _ _ _ _ He)). Qed.
Lemma on_mutex_ok p f x s : mutexes s !! p = Some x -> on_mutex p f s = Ok tt (upd_mutexes (insert p (f x)) s).
Proof. intros He. unfold on_mutex. by rewrite (bind_ok _ _ _ _ _ (deref_ok _ _ _ _ He)). Qed.
Lemma word_ok p i w x s : words s !! p = Some w -> w !! i = Some x -> word p i s = Ok x s.
Proof. intros He Hi. unfold word. rewrite (bind_ok _ _ _ _ _ (deref_ok _ _ _ _ He)). by rewrite Hi. Qed.
Lemma get_ok (s : sched H Q) : get s = Ok s s.
Proof. done. Qed.
Lemma modify_ok f (s : sched H Q) : modify f s = Ok tt (f s).
Proof. done. Qed.
Lemma kalloc_ok n s : a_ok (sheap s) -> a_room (sheap s) n -> exists p h, kalloc n s = Ok p (set_sheap h s) /\
  a_ok h /\ p <> 0 /\ ~ a_live (sheap s) p /\ (forall q, a_live h q <-> q = p \/ a_live (sheap s) q).
Proof.
  intros Hok Hr. destruct (malloc_law (sheap s) n Hok Hr) as (p & h & Hrun & Hrest). exists p, h. unfold kalloc. by rewrite Hrun.
Qed.
Lemma kfree_node_ok p s : a_ok (sheap s) -> a_live (sheap s) p -> exists h, kfree_node p s = Ok tt (set_sheap h s) /\
  a_ok h /\ (forall q, a_live h q <-> a_live (sheap s) q /\ q <> p).
Proof.
  intros Hok Hl. destruct (free_law (sheap s) p Hok Hl) as (h & Hrun & Hrest). exists h. unfold kfree_node. by rewrite Hrun.
Qed.
Lemma ready_op_ok {A} (op : M Q A) s a q : op (p_ready_queue s) = Ok a q -> ready_op op s = Ok a (set_ready q s).
Proof. intros He. unfold ready_op. by rewrite He. Qed.
Lemma running_op_ok {A} p (op : M Q A) x s a q : procs s !! p = Some x -> op (running_threads x) = Ok a q ->
  running_op p op s = Ok a (upd_procs (insert p (set_running q x)) s).
Proof. intros He Ho. unfold running_op. rewrite (bind_ok _ _ _ _ _ (deref_ok _ _ _ _ He)). by rewrite Ho. Qed.

Lemma mutex_lock_free m x s : mutexes s !! m = Some x -> locked_by x = 0 -> exists x',
  mutex_lock m s = Ok ERROR_NONE (upd_mutexes (insert m x') s) /\ locked_by x' = current_process s /\ waiting x' = waiting x.
Proof.
  intros Hm Hl. unfold mutex_lock. rewrite (bind_ok _ _ _ _ _ (deref_ok _ _ _ _ Hm)), (bind_ok _ _ _ _ _ (get_ok s)), Hl.
  destruct (Z.eqb_spec 0 (current_process s)) as [Hc|Hc].
  - exists x. split; [|by rewrite Hl]. unfold ret. f_equal. destruct s; cbn in *. unfold upd_mutexes; cbn. by rewrite insert_id.
  - cbn [Z.eqb negb]. rewrite (bind_ok _ _ _ _ _ (on_mutex_ok _ _ _ _ Hm)). by eexists.
Qed.
Lemma mutex_unlock_ok fuel m x s : mutexes s !! m = Some x -> locked_by x = current_process s -> waiting x = 0 ->
  mutex_unlock fuel m s = Ok ERROR_NONE (upd_mutexes (insert m (mk_mutex 0 0)) s).
Proof.
  intros Hm Hl Hw. unfold mutex_unlock. rewrite (bind_ok _ _ _ _ _ (deref_ok _ _ _ _ Hm)), (bind_ok _ _ _ _ _ (get_ok s)), Hl, Z.eqb_refl.
  cbn [negb]. rewrite (bind_ok _ _ _ _ _ (on_mutex_ok _ _ _ _ Hm)), Hw.
  unfold mutex_unlock_wakeup. rewrite bind_assoc.
  erewrite bind_ok; [|apply deref_ok; cbn; apply lookup_insert_eq]. done.
Qed.

(** ** Mutual exclusion *)

(** One call of a process that runs at that moment. *)
Inductive mutex_call : Type := Lock | Unlock.
#[export] Instance mutex_call_eq_dec : EqDecision mutex_call.
Proof. solve_decision. Defined.
Definition run_mutex_call (fuel : nat) (m : Z) (c : mutex_call) : M (sched H Q) Z :=
  match c with Lock => mutex_lock m | Unlock => mutex_unlock fuel m end.

(** Calls on the mutex [m] by the processes of the system, in any order: each
    with the caller, the call and what it returned. *)
Inductive mutex_trace (fuel : nat) (m : Z) : sched H Q -> list (Z * mutex_call * Z) -> sched H Q -> Prop :=
| trace_nil s : mutex_trace fuel m s [] s
| trace_snoc s tr s1 p c e s2 : mutex_trace fuel m s tr s1 -> p <> 0 ->
    run_mutex_call fuel m c (set_current p s1) = Ok e s2 -> mutex_trace fuel m s (tr ++ [(p, c, e)]) s2.

(** Who holds the mutex after a trace: the last process that got it, unless it
    has given it back. *)
Fixpoint holder_after (h : Z) (tr : list (Z * mutex_call * Z)) : Z :=
  match tr with
  | [] => h
  | (p, Lock, e) :: r => holder_after (if e =? ERROR_NONE then p else h) r
  | (p, Unlock, e) :: r => holder_after (if e =? ERROR_NONE then 0 else h) r
  end.

Lemma holder_after_app h tr tr' : holder_after h (tr ++ tr') = holder_after (holder_after h tr) tr'.
Proof. revert h. induction tr as [|[[p []] e] r IH]; intros h; cbn; auto. Qed.

Lemma mutex_lock_held m x s : mutexes s !! m = Some x -> locked_by x <> current_process s -> locked_by x <> 0 ->
  mutex_lock m s = Ok ERROR_MUTEX_ALREADY_LOCKED s.
Proof.
  intros Hm Hc Hini. unfold mutex_lock. rewrite (bind_ok _ _ _ _ _ (deref_ok _ _ _ _ Hm)), (bind_ok _ _ _ _ _ (get_ok s)).
  dec_false (locked_by x =? current_process s). dec_false (locked_by x =? 0). done.
Qed.
Lemma mutex_lock_own m x s : mutexes s !! m = Some x -> locked_by x = current_process s -> mutex_lock m s = Ok ERROR_NONE s.
Proof.
  intros Hm Hc. unfold mutex_lock. rewrite (bind_ok _ _ _ _ _ (deref_ok _ _ _ _ Hm)), (bind_ok _ _ _ _ _ (get_ok s)), Hc.
  by rewrite Z.eqb_refl.
Qed.
Lemma mutex_unlock_other fuel m x s : mutexes s !! m = Some x -> locked_by x <> current_process s ->
  mutex_unlock fuel m s = Ok ERROR_MUTEX_OWNED_BY_OTHER s.
Proof.
  intros Hm Hc. unfold mutex_unlock. rewrite (bind_ok _ _ _ _ _ (deref_ok _ _ _ _ Hm)), (bind_ok _ _ _ _ _ (get_ok s)).
  by dec_false (locked_by x =? current_process s).
Qed.

(** The field [locked_by] is the holder, and a call succeeds exactly when the
    caller may make it. *)
Lemma mutex_trace_holder fuel m s tr s' : mutex_trace fuel m s tr s' -> mutexes s !! m = Some (mk_mutex 0 0) ->
  mutexes s' !! m = Some (mk_mutex (holder_after 0 tr) 0).
Proof.
  induction 1 as [s|s tr s1 p c e s2 Htr IH Hp Hrun]; intros Hini; [done|]. specialize (IH Hini).
  rewrite holder_after_app. cbn. set (h := holder_after 0 tr) in *.
  assert (mutexes (set_current p s1) !! m = Some (mk_mutex h 0)) as Hm by done.
  destruct c; cbn [run_mutex_call] in Hrun.
  - destruct (decide (h = p)) as [-> |Hhp].
    + rewrite (mutex_lock_own _ _ _ Hm eq_refl) in Hrun. injection Hrun as <- <-. done.
    + destruct (decide (h = 0)) as [Hh|Hh].
      * destruct (mutex_lock_free _ _ _ Hm Hh) as ([l w] & Hl & Hlb & Hw). rewrite Hl in Hrun. injection Hrun as <- <-.
        cbn in *. rewrite lookup_insert_eq. by subst.
      * rewrite (mutex_lock_held _ _ _ Hm Hhp Hh) in Hrun. injection Hrun as <- <-. done.
  - destruct (decide (h = p)) as [-> |Hhp].
    + rewrite (mutex_unlock_ok fuel _ _ _ Hm eq_refl eq_refl) in Hrun. injection Hrun as <- <-. cbn. by rewrite lookup_insert_eq.
    + rewrite (mutex_unlock_other fuel _ _ _ Hm Hhp) in Hrun. injection Hrun as <- <-. done.
Qed.

Lemma mutex_trace_snoc_inv fuel m s tr p c e s' : mutex_trace fuel m s (tr ++ [(p, c, e)]) s' ->
  exists s1, mutex_trace fuel m s tr s1 /\ p <> 0 /\ run_mutex_call fuel m c (set_current p s1) = Ok e s'.
Proof.
  intros Ht. remember (tr ++ [(p, c, e)]) as l eqn:El. destruct Ht as [s|s tr' s1 p' c' e' s2 Ht Hp Hrun].
  - by destruct tr.
  - apply app_inj_tail in El as [-> [= -> -> ->]]. eauto.
Qed.
Lemma mutex_trace_app_inv fuel m s tr tr' s' : mutex_trace fuel m s (tr ++ tr') s' ->
  exists s1, mutex_trace fuel m s tr s1 /\ mutex_trace fuel m s1 tr' s'.
Proof.
  revert s'. induction tr' as [|[[p c] e] r IH] using rev_ind; intros s' Ht.
  - rewrite app_nil_r in Ht. exists s'. split; [done|constructor].
  - rewrite app_assoc in Ht. apply mutex_trace_snoc_inv in Ht as (s1 & Ht & Hp & Hrun).
    destruct (IH _ Ht) as (s3 & ? & ?). exists s3. split; [done|]. by econstructor.
Qed.

(** Without a successful unlock of [p], a mutex that [p] got stays with it. *)
Lemma holder_stays p tr fuel m s s' : mutex_trace fuel m s tr s' -> p <> 0 ->
  mutexes s !! m = Some (mk_mutex p 0) -> (p, Unlock, ERROR_NONE) ∉ tr -> mutexes s' !! m = Some (mk_mutex p 0).
Proof.
  induction 1 as [s|s tr s1 q c e s2 Htr IH Hq Hrun]; intros Hp Hini Hn; [done|].
  apply not_elem_of_app in Hn as [Hn Hn1]. specialize (IH Hp Hini Hn).
  assert (mutexes (set_current q s1) !! m = Some (mk_mutex p 0)) as Hm by done.
  destruct (decide (p = q)) as [<- |Hpq].
  - destruct c; cbn [run_mutex_call] in Hrun.
    + rewrite (mutex_lock_own _ _ _ Hm eq_refl) in Hrun. injection Hrun as <- <-. done.
    + rewrite (mutex_unlock_ok fuel _ _ _ Hm eq_refl eq_refl) in Hrun. injection Hrun as <- <-.
      exfalso. apply Hn1. by left.
  - destruct c; cbn [run_mutex_call] in Hrun.
    + rewrite (mutex_lock_held _ _ _ Hm Hpq Hp) in Hrun. injection Hrun as <- <-. done.
    + rewrite (mutex_unlock_other fuel _ _ _ Hm Hpq) in Hrun. injection Hrun as <- <-. done.
Qed.

(** C22: mutual exclusion.  In every interleaving of [mutex_lock] and
    [mutex_unlock] calls on a free mutex, between two successful locks of
    different processes the first one has released the mutex; and a call
    answers 0 exactly when the mutex is free or the caller's (lock), or the
    caller's (unlock), else the error code, changing nothing. *)
Theorem mutex_exclusive fuel m s tr1 p tr2 q c e s' : mutexes s !! m = Some (mk_mutex 0 0) ->
  mutex_trace fuel m s (tr1 ++ [(p, Lock, ERROR_NONE)] ++ tr2 ++ [(q, c, e)]) s' ->
  (c = Lock -> e = ERROR_NONE -> p <> q -> (p, Unlock, ERROR_NONE) ∈ tr2) /\
  (let h := holder_after 0 (tr1 ++ [(p, Lock, ERROR_NONE)] ++ tr2) in
   e = match c with
       | Lock => if (h =? 0) || (h =? q) then ERROR_NONE else ERROR_MUTEX_ALREADY_LOCKED
       | Unlock => if h =? q then ERROR_NONE else ERROR_MUTEX_OWNED_BY_OTHER
       end).
Proof.
  intros Hini Htr. rewrite !app_assoc in Htr. apply mutex_trace_snoc_inv in Htr as (s1 & Htr & Hq & Hrun).
  pose proof (mutex_trace_holder _ _ _ _ _ Htr Hini) as Hm. rewrite <- !app_assoc in Hm.
  set (h := holder_after 0 (tr1 ++ [(p, Lock, ERROR_NONE)] ++ tr2)) in *.
  assert (mutexes (set_current q s1) !! m = Some (mk_mutex h 0)) as Hmq by done. split.
  - intros -> -> Hpq. destruct (decide ((p, Unlock, ERROR_NONE) ∈ tr2)) as [|Hn]; [done|exfalso].
    apply mutex_trace_app_inv in Htr as (sb & Htr & Ht2). pose proof (mutex_trace_holder _ _ _ _ _ Htr Hini) as Hb.
    rewrite holder_after_app in Hb. cbn in Hb. apply mutex_trace_snoc_inv in Htr as (_ & _ & Hp & _).
    pose proof (holder_stays p tr2 _ _ _ _ Ht2 Hp Hb Hn) as Hs. rewrite Hm in Hs. injection Hs as Hh.
    cbn [run_mutex_call] in Hrun. rewrite (mutex_lock_held m (mk_mutex h 0)) in Hrun; [discriminate|done|cbn; congruence|cbn; congruence].
  - cbv zeta. destruct c; cbn [run_mutex_call] in Hrun.
    + destruct (Z.eqb_spec h 0) as [Hh|Hh]; cbn [orb].
      * destruct (mutex_lock_free _ _ _ Hmq Hh) as (x' & Hl & _). rewrite Hl in Hrun. by injection Hrun as <- _.
      * destruct (Z.eqb_spec h q) as [Hhq|Hhq].
        -- rewrite (mutex_lock_own _ _ _ Hmq Hhq) in Hrun. by injection Hrun as <- _.
        -- rewrite (mutex_lock_held _ _ _ Hmq Hhq Hh) in Hrun. by injection Hrun as <- _.
    + destruct (Z.eqb_spec h q) as [Hhq|Hhq].
      * rewrite (mutex_unlock_ok fuel _ _ _ Hmq Hhq eq_refl) in Hrun. by injection Hrun as <- _.
      * rewrite (mutex_unlock_other fuel _ _ _ Hmq Hhq) in Hrun. by injection Hrun as <- _.
Qed.
End Scheduler.

(** Runs the first call of the goal with the given lemma. *)
Ltac run_with lem := rewrite (bind_ok _ _ _ _ _ lem).
Ltac run_get := rewrite (bind_ok _ _ _ _ _ (get_ok _)).
Ltac run_modify := rewrite (bind_ok _ _ _ _ _ (modify_ok _ _)).

Section Sleeping.
Context {H Q : Type} `{Allocator H} `{Queue Q}.

(** Room for allocations made one after the other. *)
Fixpoint has_rooms (h : H) (ns : list Z) : Prop :=
  match ns with
  | [] => True
  | n :: r => a_room h n /\ forall p h', malloc n h = Ok p h' -> has_rooms h' r
  end.

(** Thread [t], the only one of process [p], is the only sleeper, with [w]
    milliseconds to go; [d], [el] and [nd] are the nodes of the lists it is
    on, [xs] the ready processes. *)
Record asleep (s : sched H Q) (p t w d el nd : Z) (xs : list Z) : Prop := {
  as_list : wait_list s = d /\ d <> 0;
  as_dnode : dnodes s !! d = Some (mk_dentry el 0 0);
  as_words : words s !! el = Some [p; w; t];
  as_mutex : mutexes s !! wait_mutex s = Some (mk_mutex 0 0);
  as_thread : exists th, threads s !! t = Some th /\ tstatus th = THREAD_STATUS_ASLEEP_TIME;
  as_proc : exists x, procs s !! p = Some x /\ active_thread x = 0 /\ pstatus x = PROCESS_STATUS_ASLEEP_THREADS /\
    waiting_threads x = nd;
  as_node : nodes s !! nd = Some (t, 0) /\ nd <> 0 /\ nd <> d;
  as_ready : q_is (p_ready_queue s) xs /\ Z.of_nat (length xs) < q_cap (p_ready_queue s);
  as_pid : is_u32 p /\ p <> idle_process s;
  as_heap : a_ok (sheap s) /\ a_live (sheap s) d /\ a_live (sheap s) nd }.

(** The clock ticks that leave the sleeper asleep. *)
Lemma sleep_tick fuel s p t w d el nd xs : asleep s p t w d el nd xs -> 55 < w ->
  exists s', scheduler_sleep_update fuel s = Ok tt s' /\ asleep s' p t (w - 55) d el nd xs.
Proof.
  intros [[Hl Hd0] Hd Hw Hm Ht Hp Hn Hr Hi Hh] Hlt. unfold scheduler_sleep_update. run_get.
  rewrite Hl. dec_false (d =? 0).
  destruct (mutex_lock_free _ _ _ Hm eq_refl) as ([lb wt] & Hlock & Hlb & Hwt). cbn in Hlb, Hwt. subst lb wt.
  run_with Hlock. cbn [ERROR_NONE Z.eqb negb]. set (s1 := upd_mutexes _ s).
  run_with (deref_ok dnodes d (mk_dentry el 0 0) s1 Hd). cbn [d_element].
  run_with (deref_ok words el [p; w; t] s1 Hw). run_with (word_ok el 1 [p; w; t] w s1 Hw eq_refl).
  dec_true (55 <? w). run_modify. set (s2 := upd_words _ s1).
  assert (mutexes s2 !! wait_mutex s = Some (mk_mutex (current_process s) 0)) as Hm2 by apply lookup_insert_eq.
  run_with (mutex_unlock_ok fuel _ _ s2 Hm2 eq_refl eq_refl).
  eexists. split; [reflexivity|]. split; try done.
  - cbn. by rewrite lookup_insert_eq.
  - cbn. by rewrite lookup_insert_eq.
Qed.

(** The walk over the waiting threads of a process whose only thread waits. *)
Lemma remove_only_waiting n (s : sched H Q) p t x nd : procs s !! p = Some x -> nodes s !! nd = Some (t, 0) -> nd <> 0 ->
  a_ok (sheap s) -> a_live (sheap s) nd -> (2 <= n)%nat ->
  exists h, remove_waiting n p t nd 0 s = Ok tt (set_sheap h (upd_procs (insert p (set_waiting 0 x)) s)) /\
    a_ok h /\ (forall q, a_live h q <-> a_live (sheap s) q /\ q <> nd).
Proof.
  intros Hp Hn Hn0 Hok Hlv Hlen. destruct n as [|[|n]]; [lia|lia|]. cbn [remove_waiting].
  dec_false (nd =? 0). run_with (deref_ok nodes nd _ s Hn). cbn [fst snd]. rewrite Z.eqb_refl. cbn [Z.eqb].
  rewrite bind_assoc. run_with (on_proc_ok p (set_waiting 0) x s Hp). set (s1 := upd_procs _ s).
  destruct (kfree_node_ok nd s1 Hok Hlv) as (h & Hrun & Hok' & Hlv'). run_with Hrun.
  run_with (deref_ok nodes nd (t, 0) (set_sheap h s1) Hn). cbn. by exists h.
Qed.

(** Waking the only thread of a process that waits. *)
Lemma wake_only_thread fuel (s : sched H Q) p t th x nd xs : threads s !! t = Some th -> tstatus th = THREAD_STATUS_ASLEEP_TIME ->
  procs s !! p = Some x -> active_thread x = 0 -> pstatus x = PROCESS_STATUS_ASLEEP_THREADS -> waiting_threads x = nd ->
  nodes s !! nd = Some (t, 0) -> nd <> 0 -> q_is (p_ready_queue s) xs -> Z.of_nat (length xs) < q_cap (p_ready_queue s) ->
  is_u32 p -> p <> idle_process s -> a_ok (sheap s) -> a_live (sheap s) nd -> (2 <= fuel)%nat ->
  exists s3, scheduler_add_thread fuel p t s = Ok tt s3 /\
    (exists th, threads s3 !! t = Some th /\ tstatus th = THREAD_STATUS_RUNNING) /\
    (exists x, procs s3 !! p = Some x /\ active_thread x = t /\ pstatus x = PROCESS_STATUS_RUNNING /\ waiting_threads x = 0) /\
    q_is (p_ready_queue s3) (xs ++ [p]) /\ dnodes s3 = dnodes s /\ a_ok (sheap s3) /\
    (forall q, a_live (sheap s3) q <-> a_live (sheap s) q /\ q <> nd) /\
    mutexes s3 = mutexes s /\ current_process s3 = current_process s.
Proof.
  intros Ht Hts Hp Hxa Hxs Hxw Hn Hn0 Hr Hcap Hi Hid Hok Hln Hf.
  unfold scheduler_add_thread. run_with (deref_ok threads t th s Ht). rewrite Hts. cbn [THREAD_STATUS_ASLEEP_TIME THREAD_STATUS_RUNNING THREAD_STATUS_INIT Z.eqb Pos.eqb].
  rewrite bind_assoc. run_with (deref_ok procs p x s Hp). rewrite Hxw.
  destruct (remove_only_waiting fuel s p t x nd Hp Hn Hn0 Hok Hln Hf) as (h & Hrun & Hok' & Hlv). run_with Hrun.
  set (s3 := set_sheap h _). run_with (on_thread_ok t (set_tstatus 1) th s3 Ht). set (s4 := upd_threads _ s3).
  assert (procs s4 !! p = Some (set_waiting 0 x)) as Hp4 by apply lookup_insert_eq.
  run_with (deref_ok procs p _ s4 Hp4). cbn [active_thread set_waiting pstatus]. rewrite Hxa, Hxs.
  cbn [Z.eqb PROCESS_STATUS_ASLEEP_THREADS Pos.eqb andb].
  run_with (on_proc_ok p (set_active t) _ s4 Hp4). set (s5 := upd_procs _ s4).
  assert (procs s5 !! p = Some (set_active t (set_waiting 0 x))) as Hp5 by apply lookup_insert_eq.
  unfold scheduler_add_process. run_with (deref_ok procs p _ s5 Hp5). run_get.
  change (idle_process s5) with (idle_process s). dec_false (p =? idle_process s). cbn [pstatus set_active set_waiting negb andb]. rewrite Hxs.
  cbn [Z.eqb PROCESS_STATUS_ASLEEP_THREADS PROCESS_STATUS_RUNNING Pos.eqb]. run_with (on_proc_ok p (set_pstatus 1) _ s5 Hp5).
  set (s6 := upd_procs _ s5). destruct (q_add_law (p_ready_queue s) xs p Hr Hi Hcap) as (q' & Hadd & Hq' & _).
  rewrite (ready_op_ok (q_add p) s6 tt q' Hadd). eexists. split; [reflexivity|].
  split; [eexists; split; [apply lookup_insert_eq|done]|]. split; [eexists; split; [apply lookup_insert_eq|done]|].
  split; [done|]. split; [done|]. split; [done|]. split; [exact Hlv|]. done.
Qed.

(** The tick that wakes the sleeper. *)
Lemma sleep_last_tick fuel s p t w d el nd xs : asleep s p t w d el nd xs -> w <= 55 -> (2 <= fuel)%nat ->
  exists s', scheduler_sleep_update fuel s = Ok tt s' /\ wait_list s' = 0 /\
    (exists th, threads s' !! t = Some th /\ tstatus th = THREAD_STATUS_RUNNING) /\
    (exists x, procs s' !! p = Some x /\ active_thread x = t /\ pstatus x = PROCESS_STATUS_RUNNING /\ waiting_threads x = 0) /\
    q_is (p_ready_queue s') (xs ++ [p]).
Proof.
  intros [[Hl Hd0] Hd Hw Hm (th & Ht & Hts) (x & Hp & Hxa & Hxs & Hxw) (Hn & Hn0 & Hnd) [Hr Hcap] [Hi Hid] (Hok & Hld & Hln)] Hlt Hf.
  unfold scheduler_sleep_update. run_get. rewrite Hl. dec_false (d =? 0).
  destruct (mutex_lock_free _ _ _ Hm eq_refl) as ([lb wt] & Hlock & Hlb & Hwt). cbn in Hlb, Hwt. subst lb wt.
  run_with Hlock. cbn [ERROR_NONE Z.eqb negb]. set (s1 := upd_mutexes _ s).
  run_with (deref_ok dnodes d (mk_dentry el 0 0) s1 Hd). cbn [d_element].
  run_with (deref_ok words el [p; w; t] s1 Hw). run_with (word_ok el 1 [p; w; t] w s1 Hw eq_refl).
  dec_false (55 <? w). rewrite bind_assoc. run_modify. set (s2 := set_wait_list 0 s1).
  destruct fuel as [|fuel]; [lia|]. cbn [wake_sleepers].
  rewrite bind_assoc. run_with (word_ok el 0 [p; w; t] p s2 Hw eq_refl).
  rewrite bind_assoc. run_with (word_ok el 2 [p; w; t] t s2 Hw eq_refl).
  destruct (wake_only_thread (S fuel) s2 p t th x nd xs Ht Hts Hp Hxa Hxs Hxw Hn Hn0 Hr Hcap Hi Hid Hok Hln Hf)
    as (s3 & Hrun & H3t & H3p & H3q & H3d & H3o & H3l & H3m & H3c).
  assert (a_live (sheap s3) d) as H3d' by (apply H3l; done).
  rewrite bind_assoc. run_with Hrun. rewrite bind_assoc. change (dnodes s2) with (dnodes s) in H3d. rewrite <- H3d in Hd. run_with (deref_ok dnodes d _ s3 Hd).
  rewrite bind_assoc. run_modify. set (s4 := set_wait_list _ s3).
  destruct (kfree_node_ok d s4 H3o H3d') as (h & Hfr & Hok' & _). rewrite bind_assoc. run_with Hfr. cbn [d_next Z.eqb].
  rewrite (bind_ok (ret tt) _ _ tt _ eq_refl).
  assert (mutexes (set_sheap h s4) !! wait_mutex s = Some (mk_mutex (current_process s) 0)) as Hm4.
  { cbn. rewrite H3m. apply lookup_insert_eq. }
  run_with (mutex_unlock_ok (S fuel) _ _ (set_sheap h s4) Hm4 (eq_sym H3c) eq_refl).
  eexists. split; [reflexivity|]. split; [done|]. split; [exact H3t|]. split; [exact H3p|exact H3q].
Qed.

Context (stack rmv srt_end : Z) (stale : Z -> Z).

(** The only thread of the current process leaves the processor: the next
    ready process runs. *)
Lemma remove_only_thread fuel (s : sched H Q) p t x th n xn tn ns : current_process s = p -> procs s !! p = Some x ->
  active_thread x = t -> pstatus x = PROCESS_STATUS_RUNNING -> waiting_threads x = 0 -> q_is (running_threads x) [] ->
  threads s !! t = Some th -> q_is (p_ready_queue s) (n :: ns) -> Z.of_nat (length (n :: ns)) <= q_cap (p_ready_queue s) ->
  n <> 0 -> n <> p -> procs s !! n = Some xn -> active_thread xn = tn -> is_Some (threads s !! tn) ->
  a_ok (sheap s) -> a_room (sheap s) 8 ->
  exists s' nd, scheduler_remove_thread stack rmv srt_end fuel p t s = Ok Switched s' /\ current_process s' = n /\
    q_is (p_ready_queue s') ns /\ q_cap (p_ready_queue s') = q_cap (p_ready_queue s) /\
    (exists th', threads s' !! t = Some th' /\ tstatus th' = tstatus th) /\
    (exists x', procs s' !! p = Some x' /\ active_thread x' = 0 /\ pstatus x' = PROCESS_STATUS_ASLEEP_THREADS /\
       waiting_threads x' = nd) /\
    nodes s' !! nd = Some (t, 0) /\ nd <> 0 /\ a_ok (sheap s') /\ a_live (sheap s') nd /\ ~ a_live (sheap s) nd /\
    (forall q, a_live (sheap s) q -> a_live (sheap s') q) /\
    wait_list s' = wait_list s /\ dnodes s' = dnodes s /\ words s' = words s /\ mutexes s' = mutexes s /\
    wait_mutex s' = wait_mutex s /\ idle_process s' = idle_process s.
Proof.
  intros Hc Hp Hxa Hxs Hxw Hxr Ht Hr Hcap Hn0 Hnp Hn Hna [thn Htn] Hok Hroom.
  unfold scheduler_remove_thread. run_with (deref_ok procs p x s Hp). rewrite Hxs, Z.eqb_refl, Hxw. cbn [negb].
  unfold append_node. rewrite bind_assoc. destruct (kalloc_ok 8 s Hok Hroom) as (nd & h & Hal & Hok' & Hnd & Hfr & Hlv).
  run_with Hal. cbn [Z.eqb]. rewrite bind_assoc. run_modify. rewrite (bind_ok (ret nd) _ _ nd _ eq_refl).
  set (s1 := upd_nodes _ _). run_with (on_proc_ok p (set_waiting nd) x s1 Hp). set (s2 := upd_procs _ s1). run_get.
  assert (procs s2 !! p = Some (set_waiting nd x)) as Hp2 by apply lookup_insert_eq.
  run_with (deref_ok procs p _ s2 Hp2). change (current_process s2) with (current_process s).
  change (active_thread (set_waiting nd x)) with (active_thread x). rewrite Hc, Hxa, !Z.eqb_refl. cbn [andb].
  assert (running_threads (set_waiting nd x) = running_threads x) as Hrt by done.
  run_with (running_op_ok p q_take _ s2 0 (running_threads x) Hp2 (q_take_nil _ Hxr)).
  set (s3 := upd_procs _ s2). run_with (on_thread_ok t (save_context srt_end stack) th s3 Ht). set (s4 := upd_threads _ s3).
  assert (procs s4 !! p = Some (set_running (running_threads x) (set_waiting nd x))) as Hp4 by apply lookup_insert_eq.
  run_with (on_proc_ok p (set_active 0) _ s4 Hp4). set (s5 := upd_procs _ s4). cbn [Z.eqb].
  assert (procs s5 !! p = Some (set_active 0 (set_running (running_threads x) (set_waiting nd x)))) as Hp5 by apply lookup_insert_eq.
  run_with (on_proc_ok p (set_pstatus PROCESS_STATUS_ASLEEP_THREADS) _ s5 Hp5). set (s6 := upd_procs _ s5).
  unfold scheduler_remove_process. run_get. change (current_process s6) with (current_process s). rewrite Hc, Z.eqb_refl.
  destruct (q_take_law (p_ready_queue s) n ns Hr Hcap) as (q' & Htk & Hq' & Hcap').
  run_with (ready_op_ok q_take s6 n q' Htk). dec_false (n =? 0). set (s7 := set_ready q' s6).
  assert (procs s7 !! p = Some (set_pstatus PROCESS_STATUS_ASLEEP_THREADS (set_active 0 (set_running (running_threads x) (set_waiting nd x))))) as Hp7
    by apply lookup_insert_eq.
  change (current_process s6) with (current_process s). rewrite ?Hc.
  run_with (deref_ok procs p _ s7 Hp7). cbn [active_thread set_pstatus set_active Z.eqb].
  rewrite (bind_ok (ret tt) _ _ tt _ eq_refl).
  assert (procs s7 !! n = Some xn) as Hn7 by (cbn; by rewrite !lookup_insert_ne by congruence).
  run_with (deref_ok procs n xn s7 Hn7). unfold schedule_switch. run_modify. set (s8 := set_current n s7).
  run_with (on_proc_ok n (set_active (active_thread xn)) xn s8 Hn7). set (s9 := upd_procs _ s8).
  assert (exists th9, threads s9 !! tn = Some th9) as [th9 Ht9].
  { cbn. destruct (decide (tn = t)) as [-> |Hne]; [rewrite lookup_insert_eq; eauto|rewrite lookup_insert_ne by congruence; eauto]. }
  rewrite Hna. run_with (deref_ok threads tn th9 s9 Ht9).
  exists s9, nd. split; [reflexivity|]. split; [done|]. split; [done|]. split; [done|].
  split; [eexists; split; [apply lookup_insert_eq|done]|].
  split; [eexists; split; [cbn; rewrite lookup_insert_ne by done; apply lookup_insert_eq|done]|].
  split; [apply lookup_insert_eq|]. split; [done|]. split; [done|]. split; [by apply Hlv; left|]. split; [done|].
  split; [intros q Hq; apply Hlv; by right|done].
Qed.

(** The first sleeper's entry. *)
Lemma add_first_sleeper fuel (s : sched H Q) p t th w : wait_list s = 0 -> threads s !! t = Some th ->
  a_ok (sheap s) -> has_rooms (sheap s) [12; 12; 8] -> (1 <= fuel)%nat ->
  exists d el h, add_sleeper fuel p t w s = Ok d (upd_threads (insert t (set_tstatus THREAD_STATUS_ASLEEP_TIME th))
      (upd_dnodes (insert d (mk_dentry el 0 0)) (upd_words (insert el [p; w; t]) (set_sheap h (set_wait_list d s))))) /\
    d <> 0 /\ a_ok h /\ a_live h d /\ a_room h 8.
Proof.
  intros Hl Ht Hok (Hr1 & Hr2) Hf. unfold add_sleeper. run_get. rewrite Hl. destruct fuel as [|n]; [lia|].
  cbn [wait_place Z.eqb orb]. rewrite (bind_ok (ret (0, 0)) _ s (0, 0) s eq_refl). cbn [fst snd].
  destruct (malloc_law (sheap s) 12 Hok Hr1) as (d & h1 & Hm1 & Hok1 & Hd0 & _ & Hlv1). specialize (Hr2 d h1 Hm1) as [Hr2 Hr3].
  destruct (malloc_law h1 12 Hok1 Hr2) as (el & h2 & Hm2 & Hok2 & Hel0 & _ & Hlv2). specialize (Hr3 el h2 Hm2) as [Hr3 _].
  assert (kalloc 12 s = Ok d (set_sheap h1 s)) as Hk1 by (unfold kalloc; by rewrite Hm1). run_with Hk1.
  cbn [Z.eqb]. rewrite bind_assoc. run_modify. rewrite (bind_ok (ret 0) _ _ 0 _ eq_refl).
  assert (kalloc 12 (set_wait_list d (set_sheap h1 s)) = Ok el (set_sheap h2 (set_wait_list d s))) as Hk2 by (unfold kalloc; cbn; by rewrite Hm2).
  run_with Hk2. run_modify. run_modify. set (s1 := upd_dnodes _ _).
  run_with (on_thread_ok t (set_tstatus THREAD_STATUS_ASLEEP_TIME) th s1 Ht). exists d, el, h2.
  split; [done|]. split; [done|]. split; [done|]. split; [apply Hlv2; right; apply Hlv1; by left|done].
Qed.

(** [k] ticks of the clock. *)
Fixpoint ticks (fuel k : nat) : M (sched H Q) unit :=
  match k with
  | O => ret tt
  | S n => scheduler_sleep_update fuel ;;; ticks fuel n
  end.

Lemma ticks_asleep fuel k s p t w d el nd xs : asleep s p t w d el nd xs -> 55 * Z.of_nat k < w ->
  exists s', ticks fuel k s = Ok tt s' /\ asleep s' p t (w - 55 * Z.of_nat k) d el nd xs.
Proof.
  revert s w. induction k as [|k IH]; intros s w Ha Hk.
  - exists s. split; [done|]. by replace (w - 55 * Z.of_nat 0) with w by lia.
  - destruct (sleep_tick fuel s p t w d el nd xs Ha ltac:(lia)) as (s1 & Hrun & Ha1). cbn [ticks]. run_with Hrun.
    destruct (IH s1 (w - 55) Ha1 ltac:(lia)) as (s' & Hrun' & Ha'). exists s'. split; [done|].
    by replace (w - 55 * Z.of_nat (S k)) with (w - 55 - 55 * Z.of_nat k) by lia.
Qed.
Lemma ticks_app fuel j k s s' : ticks fuel j s = Ok tt s' -> ticks fuel (j + k) s = ticks fuel k s'.
Proof.
  revert s. induction j as [|j IH]; intros s Hj; cbn in *; [by injection Hj as ->|].
  apply bind_inv in Hj as ([] & s1 & Hs & Hj). rewrite (bind_ok _ _ _ _ _ Hs). by apply IH.
Qed.

(** C19: a thread that sleeps alone is woken on time.  The only thread of the
    running process calls [scheduler_wait_thread] for [w] milliseconds while
    no other thread sleeps: the next ready process runs, the thread stays
    asleep for every tick of 55 ms that comes before [w] is over, and the tick
    number [w / 55] rounded up makes the thread runnable and puts its process
    at the end of the ready queue. *)
Theorem sleeper_wakes_on_time fuel (s : sched H Q) p t x th n xn tn ns data w :
  current_process s = p -> procs s !! p = Some x -> active_thread x = t -> pstatus x = PROCESS_STATUS_RUNNING ->
  waiting_threads x = 0 -> q_is (running_threads x) [] -> threads s !! t = Some th ->
  q_is (p_ready_queue s) (n :: ns) -> Z.of_nat (length (n :: ns)) <= q_cap (p_ready_queue s) ->
  n <> 0 -> n <> p -> procs s !! n = Some xn -> active_thread xn = tn -> is_Some (threads s !! tn) ->
  wait_list s = 0 -> mutexes s !! wait_mutex s = Some (mk_mutex 0 0) -> p <> idle_process s -> is_u32 p ->
  0 < w < 65536 -> a_ok (sheap s) -> has_rooms (sheap s) [12; 12; 8] -> (2 <= fuel)%nat ->
  exists s', scheduler_wait_thread stack rmv srt_end stale fuel p t SLEEP_TIME data w s = Ok Switched s' /\
    current_process s' = n /\ q_is (p_ready_queue s') ns /\
    (forall k, 55 * Z.of_nat k < w -> exists s'' th', ticks fuel k s' = Ok tt s'' /\
       threads s'' !! t = Some th' /\ tstatus th' = THREAD_STATUS_ASLEEP_TIME) /\
    (exists s'', ticks fuel (Z.to_nat ((w + 54) / 55)) s' = Ok tt s'' /\ wait_list s'' = 0 /\
       (exists th', threads s'' !! t = Some th' /\ tstatus th' = THREAD_STATUS_RUNNING) /\
       (exists x', procs s'' !! p = Some x' /\ active_thread x' = t /\ pstatus x' = PROCESS_STATUS_RUNNING) /\
       q_is (p_ready_queue s'') (ns ++ [p])).
Proof.
  intros Hc Hp Hxa Hxs Hxw Hxr Ht Hr Hcap Hn0 Hnp Hn Hna [thn Htn] Hl Hm Hid Hip Hw Hok Hrooms Hf.
  unfold scheduler_wait_thread. run_get. destruct fuel as [|fuel]; [lia|]. cbn [acquire]. rewrite bind_assoc.
  destruct (mutex_lock_free _ _ _ Hm eq_refl) as ([lb wt] & Hlock & Hlb & Hwt). cbn in Hlb, Hwt. subst lb wt.
  run_with Hlock. cbn [ERROR_NONE Z.eqb]. rewrite (bind_ok (ret Returned) _ _ Returned _ eq_refl). set (s1 := upd_mutexes _ s).
  dec_false (w =? 0). cbn [negb andb SLEEP_TIME SLEEP_WAIT_IRQ Z.eqb Pos.eqb orb].
  destruct (add_first_sleeper (S fuel) s1 p t th w Hl Ht Hok Hrooms ltac:(lia)) as (d & el & h & Hadd & Hd0 & Hok1 & Hld & Hr8).
  run_with Hadd. set (s2 := upd_threads _ _). rewrite andb_false_r, (bind_ok (ret tt) _ _ tt _ eq_refl).
  assert (mutexes s2 !! wait_mutex s = Some (mk_mutex (current_process s) 0)) as Hm2 by apply lookup_insert_eq.
  run_with (mutex_unlock_ok (S fuel) _ _ s2 Hm2 eq_refl eq_refl). set (s3 := upd_mutexes _ s2).
  destruct (remove_only_thread (S fuel) s3 p t x (set_tstatus THREAD_STATUS_ASLEEP_TIME th) n xn tn ns)
    as (s' & nd & Hrun & Hcur & Hq' & Hcap' & Hth' & Hx' & Hnode & Hnd0 & Hok' & Hlnd & Hfr & Hkeep & Hwl & Hdn & Hwd & Hmx & Hwm & Hidl); try done.
  { apply lookup_insert_eq. }
  { cbn. destruct (decide (tn = t)) as [-> |Hne]; [rewrite lookup_insert_eq; eauto|rewrite lookup_insert_ne by congruence; eauto]. }
  exists s'. split; [done|]. split; [done|]. split; [done|].
  assert (asleep s' p t w d el nd ns) as Ha.
  { split.
    - by rewrite Hwl.
    - rewrite Hdn. apply lookup_insert_eq.
    - rewrite Hwd. apply lookup_insert_eq.
    - rewrite Hmx, Hwm. apply lookup_insert_eq.
    - exact Hth'.
    - exact Hx'.
    - split; [done|]. split; [done|]. intros ->. apply Hfr. exact Hld.
    - split; [done|]. rewrite Hcap'. cbn [length] in Hcap. cbn. lia.
    - by rewrite Hidl.
    - split; [done|]. split; [by apply Hkeep|done]. }
  split.
  - intros k Hk. destruct (ticks_asleep (S fuel) k s' p t w d el nd ns Ha Hk) as (s'' & Hrk & Ha''). destruct (as_thread _ _ _ _ _ _ _ _ Ha'') as (th' & ? & ?). by exists s'', th'.
  - set (k := Z.to_nat ((w - 1) / 55)). assert (Z.to_nat ((w + 54) / 55) = (k + 1)%nat) as -> by (subst k; dlia).
    destruct (ticks_asleep (S fuel) k s' p t w d el nd ns Ha) as (s'' & Hrk & Ha''); [subst k; dlia|].
    rewrite (ticks_app _ k 1 s' s'' Hrk).
    destruct (sleep_last_tick (S fuel) s'' p t _ d el nd ns Ha'') as (s3' & Hrl & Hwl3 & Hth3 & (x3 & ? & ? & ? & ?) & Hq3); [subst k; dlia|lia|].
    exists s3'. cbn [ticks]. run_with Hrl. split; [done|]. split; [done|]. split; [done|]. split; [|done]. by exists x3.
Qed.
End Sleeping.

(** ** Concrete runs

    Processes 100 and 200 with threads 110 and 210, and the idle process
    300. *)

Definition empty_queue : queue * kheap := (mk_queue 1000 984 12, mk_kheap (fun _ => 0) 0).
Definition queue_of (x : Z) : queue * kheap := (mk_queue 1000 1000 12, mk_kheap (store32 (fun _ => 0) 1000 x) 0).
Definition demo_thread (st : Z) : thread := mk_thread 0 0 8 16 0 0 0 st.
Definition demo_process (t p st : Z) : process (queue * kheap) :=
  mk_process t empty_queue 0 p 0 0 st (replicate 29 0).
Definition demo_sched : sched bump (queue * kheap) :=
  mk_sched (<[100 := demo_process 110 1 1]> (<[200 := demo_process 210 2 1]> {[ 300 := demo_process 310 3 1 ]}))
    (<[110 := demo_thread 1]> (<[210 := demo_thread 1]> {[ 310 := demo_thread 1 ]}))
    {[ 50 := mk_mutex 0 0; 60 := mk_mutex 0 0 ]} ∅ ∅ ∅ (mk_bump 5000 ∅) (queue_of 200) 100 300 (replicate 21 0) 0 50 0 60.

Lemma empty_queue_is : q_is empty_queue [].
Proof. unfold q_is, buffer_queue, empty_queue. cbn [fst snd]. queue_words. intros i x Hi. by destruct i. Qed.
Lemma queue_of_is x : is_u32 x -> q_is (queue_of x) [x].
Proof.
  intros Hx. unfold q_is, buffer_queue, queue_of. cbn [fst snd]. queue_words. intros [|i] y; [|by destruct i]. cbn [lookup list_lookup]. intros [= <-].
  split; [done|]. cbn [Z.of_nat]. rewrite Z.add_0_r. cbn [snd hmem]. rewrite load32_store32. by apply u32_id.
Qed.

Lemma sleeper_wakes_on_time_witness : exists s', scheduler_wait_thread 0 0 0 (fun _ => 0) 2 100 110 SLEEP_TIME 0 120 demo_sched = Ok Switched s' /\
  current_process s' = 200 /\
  (exists s'', ticks 2 3 s' = Ok tt s'' /\ wait_list s'' = 0 /\ q_is (p_ready_queue s'') [100]).
Proof.
  destruct (sleeper_wakes_on_time 0 0 0 (fun _ => 0) 2 demo_sched 100 110 (demo_process 110 1 1) (demo_thread 1)
    200 (demo_process 210 2 1) 210 [] 0 120) as (s' & Hrun & Hcur & _ & _ & (s'' & Hk & Hwl & _ & _ & Hq));
    [reflexivity|reflexivity|reflexivity|reflexivity|reflexivity|apply empty_queue_is|reflexivity
    |apply queue_of_is; unfold is_u32; lia|vm_compute; congruence|lia|lia|reflexivity|reflexivity
    |by eexists|reflexivity|reflexivity|cbn; lia|unfold is_u32; lia|lia| | |lia|].
  - split; [cbn; lia|]. intros q Hq. exfalso. by apply (not_elem_of_empty (C := gset Z) q).
  - cbn. split; [done|]. intros. split; [done|]. intros. by split.
  - exists s'. split; [exact Hrun|]. split; [exact Hcur|]. exists s''. split; [exact Hk|]. split; [exact Hwl|exact Hq].
Defined.

Definition demo_trace : list (Z * mutex_call * Z) :=
  [] ++ [(100, Lock, 0)] ++ [(200, Lock, 31); (200, Unlock, 32); (100, Unlock, 0)] ++ [(200, Lock, 0)].
Definition after_call (p : Z) (c : mutex_call) (s : sched bump (queue * kheap)) : sched bump (queue * kheap) :=
  match run_mutex_call 0 50 c (set_current p s) with Ok _ s' => s' | _ => s end.
Definition demo_end : sched bump (queue * kheap) :=
  after_call 200 Lock (after_call 100 Unlock (after_call 200 Unlock (after_call 200 Lock (after_call 100 Lock demo_sched)))).
Lemma after_call_trace s tr s1 p c e : mutex_trace 0 50 s tr s1 -> p <> 0 ->
  value_of (run_mutex_call 0 50 c (set_current p s1)) = Some e -> mutex_trace 0 50 s (tr ++ [(p, c, e)]) (after_call p c s1).
Proof.
  intros Ht Hp Hv. apply (trace_snoc _ _ _ _ _ _ _ _ _ Ht Hp). unfold after_call.
  destruct (run_mutex_call 0 50 c (set_current p s1)); cbn in *; congruence.
Qed.
Lemma demo_trace_ok : mutex_trace 0 50 demo_sched demo_trace demo_end.
Proof.
  unfold demo_end.
  change demo_trace with (((((([] : list (Z * mutex_call * Z)) ++ [(100, Lock, 0)]) ++ [(200, Lock, 31)]) ++ [(200, Unlock, 32)]) ++ [(100, Unlock, 0)]) ++ [(200, Lock, 0)]).
  repeat (apply after_call_trace; [|lia|vm_compute; reflexivity]). apply trace_nil.
Qed.
Lemma mutex_exclusive_witness : (100, Unlock, 0) ∈ [(200, Lock, 31); (200, Unlock, 32); (100, Unlock, 0)].
Proof.
  apply (mutex_exclusive 0 50 demo_sched [] 100 [(200, Lock, 31); (200, Unlock, 32); (100, Unlock, 0)] 200 Lock 0 demo_end);
    [vm_compute; reflexivity|exact demo_trace_ok|reflexivity|reflexivity|lia].
Defined.

(** A mutex with a waiting thread cannot be unlocked: the waiter's entry holds
    the thread where the process is expected, and an uninitialised word as
    the thread. *)
Definition demo_held : sched bump (queue * kheap) :=
  upd_mutexes (insert 50 (mk_mutex 200 0)) demo_sched.
Lemma unlock_with_waiter_faults : exists s', mutex_wait 0 0 0 (fun _ => 0) 2 50 demo_held = Ok Switched s' /\
  current_process s' = 200 /\ mutex_unlock 2 50 s' = Fault.
Proof. eexists. split; [vm_compute; reflexivity|]. split; vm_compute; reflexivity. Qed.

(** A sleeper with less time than the first one replaces the whole list: the
    earlier sleeper is never woken. *)
Definition demo_sleeping : sched bump (queue * kheap) :=
  mk_sched (procs demo_sched) (threads demo_sched) (mutexes demo_sched) ∅ {[ 70 := mk_dentry 80 0 0 ]} {[ 80 := [200; 1000; 210] ]}
    (mk_bump 5000 {[ 70; 80 ]}) empty_queue 100 300 (replicate 21 0) 70 50 0 60.
Lemma shorter_sleep_drops_sleepers : exists d s', add_sleeper 3 100 110 100 demo_sleeping = Ok d s' /\
  wait_list s' = d /\ option_map d_next (dnodes s' !! d) = Some 0 /\ d <> 70.
Proof. eexists _, _. split; [vm_compute; reflexivity|]. split; [reflexivity|]. split; [reflexivity|lia]. Qed.

(** A sleeper behind another one keeps its whole time: after 1000 ms it has
    1100 ms to go where 100 were left. *)
Lemma later_sleeper_keeps_time : exists d s', add_sleeper 3 100 110 1100 demo_sleeping = Ok d s' /\
  wait_list s' = 70 /\ option_map d_next (dnodes s' !! 70) = Some d /\
  (words s' !! default 0 (option_map d_element (dnodes s' !! d))) = Some [100; 1100; 110].
Proof. eexists _, _. split; [vm_compute; reflexivity|]. split; [reflexivity|]. split; reflexivity. Qed.

(** Waking the first of two waiting threads empties the list of waiting
    threads. *)
Definition demo_two_waiting : sched bump (queue * kheap) :=
  mk_sched {[ 100 := mk_process 115 empty_queue 90 1 0 0 1 [] ]}
    (<[110 := demo_thread 2]> {[ 120 := demo_thread 2 ]}) ∅ {[ 90 := (110, 95); 95 := (120, 0) ]} ∅ ∅ (mk_bump 5000 {[ 90; 95 ]})
    empty_queue 0 300 (replicate 21 0) 0 50 0 60.
Lemma wake_first_forgets_others : exists s', scheduler_add_thread 3 100 110 demo_two_waiting = Ok tt s' /\
  option_map waiting_threads (procs s' !! 100) = Some 0.
Proof. eexists. split; [vm_compute; reflexivity|]. reflexivity. Qed.
