(* ===== verification/Groups.v ===== *)
(** Process groups (tasking/processes/groups.c).

    The group table is an array of [groups_size] entries at [gbase], sorted by
    group id, of which the first [groups_number] are in use; the entries behind
    them hold what was in the memory before.  A group is known to others by the
    address of its entry, 12 bytes each. *)

From S2P Require Import Prelude Errors Mem KHeap Alloc DataStructs Sched.

Record pgroup_t : Type := mk_group { gid_of : Z; gprocesses : Z; gsession : Z }.
Record gsys (H Q : Type) : Type := mk_gsys {
  gsched : sched H Q; gbase : Z; garr : list pgroup_t; groups_number : Z; sessions : gmap Z Z }.
Arguments mk_gsys {H Q}. Arguments gsched {H Q}. Arguments gbase {H Q}. Arguments garr {H Q}.
Arguments groups_number {H Q}. Arguments sessions {H Q}.

Section Groups.
Context {H Q : Type} `{Allocator H} `{Queue Q}.

Definition groups_size (s : gsys H Q) : Z := Z.of_nat (length (garr s)).
Definition on_sched {A} (c : M (sched H Q) A) : M (gsys H Q) A :=
  fun s => match c (gsched s) with
           | Ok a sc => Ok a (mk_gsys sc (gbase s) (garr s) (groups_number s) (sessions s))
           | Fatal e => Fatal e | Fault => Fault | NoFuel => NoFuel
           end.

(** [groups[i]] and its assignment: outside the allocated entries there is no
    group. *)
Definition group_at (i : Z) : M (gsys H Q) pgroup_t :=
  fun s => if groups_size s <=? i then Fault else
           match garr s !! Z.to_nat i with Some g => Ok g s | None => Fault end.
Definition set_group (i : Z) (g : pgroup_t) : M (gsys H Q) unit :=
  modify (fun s => mk_gsys (gsched s) (gbase s) (<[Z.to_nat i := g]> (garr s)) (groups_number s) (sessions s)).

(** The index of an entry from its address. *)
Definition group_index (s : gsys H Q) (p : Z) : Z := (p - gbase s) / 12.

(** The binary search of [get_group] and of [process_setgroup]: whether the
    group was found, and the last [off]. *)
Fixpoint group_search (fuel : nat) (gid start stop off : Z) : M (gsys H Q) (bool * Z) :=
  match fuel with
  | O => nofuel
  | S n =>
    if stop <? start then ret (false, off) else
    let off := u32 (start + stop) / 2 in
    g <- group_at off ;;
    if gid_of g =? gid then ret (true, off)
    else if gid_of g <? gid then group_search n gid (u32 (off + 1)) stop off
    else group_search n gid start (u32 (off - 1)) off
  end.

Definition get_group (fuel : nat) (gid : Z) : M (gsys H Q) Z :=
  s <- get ;;
  r <- group_search fuel gid 0 (groups_number s) 0 ;;
  ret (if r.1 then gbase s + 12 * r.2 else 0).

(** [memcpy(&groups[off+1], &groups[off], n * sizeof(pgroup_t))]: the byte copy
    runs upwards and the areas overlap, so every entry it writes is a copy of
    the first one. *)
Fixpoint shift_groups (n : nat) (off : nat) (l : list pgroup_t) : list pgroup_t :=
  match n with
  | O => l
  | S k => shift_groups k (S off) (match l !! off with Some g => <[S off := g]> l | None => l end)
  end.

(** Takes the process out of the list of its old group. *)
Fixpoint leave_group (fuel : nat) (p ptr before oldg : Z) : M (gsys H Q) unit :=
  match fuel with
  | O => nofuel
  | S n =>
    if ptr =? 0 then ret tt else
    e <- on_sched (deref nodes ptr) ;;
    if e.1 =? p then
      (if before =? 0 then
         s <- get ;; g <- group_at (group_index s oldg) ;;
         set_group (group_index s oldg) (mk_group (gid_of g) 0 (gsession g))
       else b <- on_sched (deref nodes before) ;; on_sched (modify (upd_nodes (insert before (b.1, e.2))))) ;;;
      on_sched (kfree_node ptr)
    else leave_group n p e.2 ptr oldg
  end.

Definition set_process_group (g : Z) (x : process Q) : process Q :=
  mk_process (active_thread x) (running_threads x) (waiting_threads x) (pid x) g (psession x) (pstatus x) (signal_handlers x).

(** The groups in use have increasing ids. *)
Definition groups_sorted (l : list pgroup_t) : Prop :=
  forall i j g g', (i < j)%nat -> l !! i = Some g -> l !! j = Some g' -> gid_of g < gid_of g'.

Lemma group_search_finds fuel s gid start stop off k g :
  groups_sorted (take (Z.to_nat (groups_number s)) (garr s)) -> garr s !! k = Some g -> gid_of g = gid ->
  Z.of_nat k < groups_number s -> 0 <= groups_number s < 2147483648 -> groups_number s <= groups_size s ->
  0 <= start <= Z.of_nat k -> Z.of_nat k <= stop <= groups_number s -> (Z.to_nat (stop - start) < fuel)%nat ->
  group_search fuel gid start stop off s = Ok (true, Z.of_nat k) s.
Proof.
  intros Hsort Hg Hgid Hk Hn Hsz. unfold groups_size in Hsz. revert start stop off.
  induction fuel as [|fuel IH]; intros start stop off Hs He Hf; [lia|]. cbn [group_search].
  dec_false (stop <? start). rewrite (u32_id (start + stop)) by lia. cbv zeta. set (m := (start + stop) / 2).
  assert (start <= m <= stop /\ m < groups_number s) as [Hm Hmn] by (subst m; dlia).
  destruct (lookup_lt_is_Some_2 (garr s) (Z.to_nat m)) as [gm Hgm]; [lia|].
  assert (group_at m s = Ok gm s) as Hat by (unfold group_at, groups_size; dec_false (Z.of_nat (length (garr s)) <=? m); by rewrite Hgm). rewrite (bind_ok _ _ _ _ _ Hat).
  assert (take (Z.to_nat (groups_number s)) (garr s) !! Z.to_nat m = Some gm) as Htm by (rewrite lookup_take_lt by lia; done).
  assert (take (Z.to_nat (groups_number s)) (garr s) !! k = Some g) as Htk by (rewrite lookup_take_lt by lia; done).
  destruct (Z.lt_trichotomy m (Z.of_nat k)) as [Hlt|[Heq|Hgt]].
  - pose proof (Hsort (Z.to_nat m) k gm g ltac:(lia) Htm Htk). dec_false (gid_of gm =? gid). dec_true (gid_of gm <? gid).
    rewrite u32_id by lia. apply IH; subst m; dlia.
  - assert (gm = g) as -> by (rewrite Heq, Nat2Z.id in Hgm; congruence). rewrite Hgid, Z.eqb_refl. by rewrite Heq.
  - pose proof (Hsort k (Z.to_nat m) g gm ltac:(lia) Htk Htm). dec_false (gid_of gm =? gid). dec_false (gid_of gm <? gid).
    rewrite u32_id by lia. apply IH; subst m; dlia.
Qed.

(** In a sorted table [get_group] finds every group that is in it: the
    binary search stops after at most as many rounds as there are groups and
    returns the address of the entry, reading only entries in use. *)
Lemma get_group_finds s k g : groups_sorted (take (Z.to_nat (groups_number s)) (garr s)) ->
  garr s !! k = Some g -> Z.of_nat k < groups_number s -> groups_number s < 2147483648 -> groups_number s <= groups_size s ->
  get_group (S (Z.to_nat (groups_number s))) (gid_of g) s = Ok (gbase s + 12 * Z.of_nat k) s.
Proof.
  intros Hsort Hg Hk Hn Hsz. unfold get_group. rewrite (bind_ok get _ s s s eq_refl).
  rewrite (bind_ok _ _ _ _ _ (group_search_finds (S (Z.to_nat (groups_number s))) s (gid_of g) 0 (groups_number s) 0 k g Hsort Hg eq_refl Hk
    ltac:(lia) Hsz ltac:(lia) ltac:(lia) ltac:(lia))). done.
Qed.

(** [grow base n] is [krealloc] of the table to [n] entries: the new address
    and what the new entries hold. *)
Context (grow : Z -> Z -> Z * list pgroup_t).

Definition process_setgroup (fuel : nat) (gid p : Z) : M (gsys H Q) Z :=
  s <- get ;;
  x <- on_sched (deref procs p) ;;
  match sessions s !! psession x with
  | None => fault
  | Some head =>
    sg <- on_sched (deref nodes head) ;;
    leader <- group_at (group_index s sg.1) ;;
    le <- on_sched (deref nodes (gprocesses leader)) ;;
    if le.1 =? p then ret ERROR_IS_SESSION_LEADER else
    r <- group_search fuel gid 0 (groups_number s) 0 ;;
    let off := r.2 in
    ok <- (if r.1 then
             g <- group_at off ;;
             if negb (psession x =? gsession g) then ret false else
             l <- on_sched (append_node fuel (gprocesses g) p) ;;
             set_group off (mk_group (gid_of g) l (gsession g)) ;;; ret true
           else
             (if groups_number s =? groups_size s then
                modify (fun s => let b := grow (gbase s) (u32 (groups_size s * 2)) in
                  mk_gsys (gsched s) b.1 (garr s ++ b.2) (groups_number s) (sessions s))
              else ret tt) ;;;
             modify (fun s => mk_gsys (gsched s) (gbase s)
               (shift_groups (Z.to_nat (u32 (groups_number s - off))) (Z.to_nat off) (garr s))
               (u32 (groups_number s + 1)) (sessions s)) ;;;
             nd <- on_sched (append_node fuel 0 p) ;;
             group_at off ;;;
             set_group off (mk_group gid nd (psession x)) ;;; ret true) ;;
    if negb ok then ret ERROR_IS_ANOTHER_SESSION else
    s' <- get ;;
    oldg <- group_at (group_index s' (pgroup x)) ;;
    leave_group fuel p (gprocesses oldg) 0 (pgroup x) ;;;
    on_sched (on_proc p (set_process_group (gbase s' + 12 * off))) ;;;
    ret ERROR_NONE
  end.
End Groups.

(** ** Concrete runs *)

Definition demo_groups (l : list pgroup_t) (n : Z) : gsys bump (queue * kheap) :=
  mk_gsys (upd_nodes (fun _ => {[ 90 := (900, 0); 91 := (999, 0); 92 := (100, 0) ]}) demo_sched) 900 l n {[ 0 := 90 ]}.
Definition stale_group : pgroup_t := mk_group 0 0 0.

Lemma get_group_finds_witness :
  get_group 4 20 (demo_groups [mk_group 10 91 0; mk_group 20 92 0; mk_group 30 0 0] 3) =
    Ok 912 (demo_groups [mk_group 10 91 0; mk_group 20 92 0; mk_group 30 0 0] 3).
Proof.
  apply (get_group_finds (demo_groups [mk_group 10 91 0; mk_group 20 92 0; mk_group 30 0 0] 3) 1 (mk_group 20 92 0));
    [|reflexivity|vm_compute; reflexivity|vm_compute; reflexivity|vm_compute; discriminate].
  intros i j g g' Hij. cbn. destruct i as [|[|[|i]]], j as [|[|[|j]]]; cbn; intros Hi Hj; try lia; try discriminate;
    injection Hi as <-; injection Hj as <-; cbn; lia.
Defined.

(** Looking up an id below all groups leaves the table: [off - 1] wraps at
    0. *)
Lemma lookup_below_all_faults : get_group 10 5 (demo_groups [mk_group 10 91 0; stale_group] 1) = Fault.
Proof. vm_compute. reflexivity. Qed.

(** A new group between two others overwrites the one behind it. *)
Lemma insert_between_loses_group : exists s',
  process_setgroup (fun b _ => (b, [])) 10 15 100
    (demo_groups [mk_group 10 91 0; mk_group 20 92 0; stale_group; stale_group] 2) = Ok ERROR_NONE s' /\
  map gid_of (garr s') = [15; 10; 10; 0].
Proof. eexists. split; [vm_compute; reflexivity|]. reflexivity. Qed.
