(* ===== verification/Signals.v ===== *)
(** Signals (tasking/processes/signal.c) and the clock tick
    (tasking/scheduler/scheduler.s: [schedule]).

    A tick updates the sleepers, handles the pending signals and chooses the
    next process and thread.  The interrupt frame that [schedule] saves into
    the thread it leaves is a parameter. *)

From S2P Require Import Prelude Errors Mem KHeap Alloc DataStructs Sched Groups.

Definition NSIG : Z := 29.
Definition SIGCONT : Z := 5.
Definition EXIT_CONDITION_SIGNAL : Z := 512.
Definition default_action : list Z :=
  [2; 1; 1; 1; 2; 2; 1; 1; 1; 1; 1; 1; 1; 1; 4; 1; 4; 4; 4; 1; 1; 1; 1; 1; 1; 2; 1; 1; 1].

Section Signals.
Context {H Q : Type} `{Allocator H} `{Queue Q}.
Context (stack rmv srt_end : Z) (stale : Z -> Z).

(** The address of the function [exit_process]. *)
Context (exit_process : Z).

Definition signals_init : M (sched H Q) unit :=
  m <- kalloc 8 ;;
  modify (set_signal_mutex m) ;;;
  modify (upd_mutexes (insert m (mk_mutex 0 0))).

(** The thread that will run [exit_process(process, condition)]: the arguments
    are pushed on its kernel stack. *)
Definition exit_thread (p sig : Z) : M (sched H Q) Z :=
  t <- init_thread ;;
  th <- deref threads t ;;
  let kesp' := u32 (kesp th - 64) in
  modify (upd_words (insert kesp' [stale kesp'; p; Z.lor EXIT_CONDITION_SIGNAL (u8 sig)])) ;;;
  on_thread t (fun th => mk_thread exit_process kesp' 8 16 (kesp th) (base_stack th) (base_kstack th) (tstatus th)) ;;;
  ret t.

Definition handle_signal (fuel : nat) (p sig : Z) : M (sched H Q) unit :=
  x <- deref procs p ;;
  if pstatus x =? PROCESS_STATUS_ZOMBIE then ret tt else
  match signal_handlers x !! Z.to_nat sig, default_action !! Z.to_nat sig with
  | Some handler, Some action =>
    (if (sig =? SIGCONT) && (pstatus x =? PROCESS_STATUS_ASLEEP_SIGNAL) then scheduler_add_process p else ret tt) ;;;
    if handler =? 0 then
      if action =? 1 then
        if pid x =? 1 then ret tt else
        t <- exit_thread p sig ;; scheduler_add_thread fuel p t
      else if action =? 2 then ret tt
      else if action =? 4 then
        s <- get ;;
        x <- deref procs p ;;
        if negb (p =? current_process s) && (pstatus x =? PROCESS_STATUS_RUNNING) then
          on_proc p (set_pstatus PROCESS_STATUS_ASLEEP_SIGNAL) ;;;
          scheduler_remove_process stack rmv p ;;; ret tt
        else ret tt
      else ret tt
    else ret tt
  | _, _ => fault
  end.

Fixpoint handle_signals_loop (n fuel : nat) (ptr : Z) : M (sched H Q) flow :=
  match n with
  | O => nofuel
  | S k =>
    if ptr =? 0 then ret Returned else
    e <- deref nodes ptr ;;
    p <- word e.1 0 ;;
    sig <- word e.1 1 ;;
    handle_signal fuel p (s32 sig) ;;;
    s <- get ;;
    err <- mutex_lock (signal_mutex s) ;;
    f <- (if err =? ERROR_NONE then ret Returned else mutex_wait stack rmv srt_end stale fuel (signal_mutex s)) ;;
    match f with
    | Switched => ret Switched
    | Returned =>
      e <- deref nodes ptr ;;
      kfree_node e.1 ;;;
      kfree_node ptr ;;;
      modify (set_signal_list e.2) ;;;
      mutex_unlock fuel (signal_mutex s) ;;;
      handle_signals_loop k fuel e.2
    end
  end.
Definition handle_signals (fuel : nat) : M (sched H Q) flow :=
  s <- get ;;
  if signal_list s =? 0 then ret Returned else handle_signals_loop fuel fuel (signal_list s).

(** [processes] is the process table. *)
Definition send_signal (fuel : nat) (processes : list Z) (pid sig : Z) : M (sched H Q) flow :=
  match processes !! Z.to_nat pid with
  | None => fault
  | Some p =>
    x <- deref procs p ;;
    if pstatus x =? PROCESS_STATUS_ZOMBIE then ret Returned else
    if (sig <=? 0) || (NSIG <=? sig) then ret Returned else
    s <- get ;;
    f <- acquire stack rmv srt_end stale fuel fuel (signal_mutex s) ;;
    match f with
    | Switched => ret Switched
    | Returned =>
      s <- get ;;
      l <- append_node fuel (signal_list s) 0 ;;
      modify (set_signal_list l) ;;;
      el <- kalloc 8 ;;
      modify (upd_words (insert el [p; u32 sig])) ;;;
      nd <- last_node (S fuel) l ;;
      modify (upd_nodes (insert nd (el, 0))) ;;;
      mutex_unlock fuel (signal_mutex s) ;;;
      ret Returned
    end
  end.

Fixpoint send_to_processes (n fuel : nat) (processes : list Z) (ptr sig : Z) : M (gsys H Q) flow :=
  match n with
  | O => nofuel
  | S k =>
    if ptr =? 0 then ret Returned else
    e <- on_sched (deref nodes ptr) ;;
    x <- on_sched (deref procs e.1) ;;
    f <- on_sched (send_signal fuel processes (pid x) sig) ;;
    match f with
    | Switched => ret Switched
    | Returned => e <- on_sched (deref nodes ptr) ;; send_to_processes k fuel processes e.2 sig
    end
  end.
Definition send_signal_to_group (fuel : nat) (processes : list Z) (gid sig : Z) : M (gsys H Q) flow :=
  group <- get_group fuel gid ;;
  if (sig <=? 0) || (NSIG <=? sig) then ret Returned else
  if group =? 0 then fault else
  s <- get ;;
  g <- group_at (group_index s group) ;;
  send_to_processes fuel fuel processes (gprocesses g) sig.

(** ** The clock tick *)

(** The interrupted context. *)
Context (int_eip int_cs int_esp int_ss : Z).
Definition save_frame (t : thread) : thread :=
  mk_thread int_eip int_esp int_cs int_ss (kesp t) (base_stack t) (base_kstack t) (tstatus t).

(** [schedule_save]: [ebx] the process that ran, [eax] and [edx] what comes
    next. *)
Definition schedule_save (ebx eax edx : Z) : M (sched H Q) flow :=
  s <- get ;;
  (if (ebx =? 0) || (ebx =? idle_process s) then ret tt else
   x <- deref procs ebx ;;
   on_thread (active_thread x) save_frame ;;;
   if edx =? ebx then ret tt else ready_op (q_add ebx)) ;;;
  schedule_switch eax edx.

Definition schedule (fuel : nat) : M (sched H Q) flow :=
  scheduler_sleep_update fuel ;;;
  f <- handle_signals fuel ;;
  match f with
  | Switched => ret Switched
  | Returned =>
    edx <- ready_op q_take ;;
    s <- get ;;
    let ebx := current_process s in
    if edx =? 0 then
      eax <- running_op ebx q_take ;;
      if eax =? 0 then ret Returned else schedule_save ebx eax ebx
    else
      eax <- running_op edx q_take ;;
      eax <- (if eax =? 0 then x <- deref procs edx ;; ret (active_thread x) else ret eax) ;;
      schedule_save ebx eax edx
  end.

(** ** Round robin *)

(** The processes [l] share the processor, the first one runs, the others are
    ready in that order; each has one thread; nobody sleeps and no signal
    is pending. *)
Definition single_threaded (s : sched H Q) (p : Z) : Prop :=
  p <> 0 /\ p <> idle_process s /\ is_u32 p /\
  exists x, procs s !! p = Some x /\ q_is (running_threads x) [] /\ is_Some (threads s !! active_thread x).
Record sharing (s : sched H Q) (l : list Z) : Prop := {
  sh_current : head l = Some (current_process s);
  sh_ready : q_is (p_ready_queue s) (tail l);
  sh_cap : Z.of_nat (length (tail l)) <= q_cap (p_ready_queue s);
  sh_procs : Forall (single_threaded s) l;
  sh_nodup : NoDup l;
  sh_quiet : wait_list s = 0 /\ signal_list s = 0 }.

Definition rotate1 (l : list Z) : list Z := tail l ++ take 1 l.

Lemma quiet_tick fuel s : wait_list s = 0 -> signal_list s = 0 ->
  scheduler_sleep_update fuel s = Ok tt s /\ handle_signals fuel s = Ok Returned s.
Proof.
  intros Hw Hs. unfold scheduler_sleep_update, handle_signals. split; run_get; [by rewrite Hw|by rewrite Hs].
Qed.

Lemma single_threaded_ext s s' p : idle_process s' = idle_process s ->
  (forall x, procs s !! p = Some x -> exists x', procs s' !! p = Some x' /\ active_thread x' = active_thread x /\
     (q_is (running_threads x) [] -> q_is (running_threads x') [])) ->
  (forall t, is_Some (threads s !! t) -> is_Some (threads s' !! t)) ->
  single_threaded s p -> single_threaded s' p.
Proof.
  intros Hi Hp Ht (H0' & Hid & Hu & x & Hx & Hq & Hth). split; [done|]. split; [congruence|]. split; [done|].
  destruct (Hp x Hx) as (x' & Hx' & Ha & Hq'). exists x'. split; [done|]. split; [auto|]. rewrite Ha. auto.
Qed.

(** One tick passes the processor on. *)
Lemma schedule_rotates fuel s l : sharing s l -> l <> [] ->
  exists f s', schedule fuel s = Ok f s' /\ sharing s' (rotate1 l).
Proof.
  intros [Hc Hr Hcap Hps Hnd [Hw Hsl]] Hne. destruct (quiet_tick fuel s Hw Hsl) as [Hq1 Hq2].
  unfold schedule. run_with Hq1. run_with Hq2. destruct l as [|c [|x xs]]; [done| |]; cbn [head tail length] in *; injection Hc as Hc.
  - run_with (ready_op_ok q_take s 0 (p_ready_queue s) (q_take_nil _ Hr)). set (s1 := set_ready _ s). run_get.
    apply Forall_cons in Hps as [(H0c & Hidc & Hu & y & Hy & Hqy & Hty) _]. cbn [Z.eqb]. cbv zeta.
    change (current_process s1) with (current_process s). rewrite <- Hc.
    run_with (running_op_ok c q_take y s1 0 (running_threads y) Hy (q_take_nil _ Hqy)). cbn [Z.eqb].
    eexists _, _. split; [reflexivity|]. split; [cbn; by rewrite <- Hc|done|done| |done|done].
    constructor; [|constructor]. split; [done|]. split; [done|]. split; [done|].
    exists (set_running (running_threads y) y). split; [apply lookup_insert_eq|done].
  - destruct (q_take_law _ _ _ Hr Hcap) as (q1 & Htk & Hq & Hcap1). run_with (ready_op_ok q_take s x q1 Htk).
    set (s1 := set_ready q1 s). run_get. pose proof Hps as Hall. apply Forall_cons in Hps as [Hcs Hps]. apply Forall_cons in Hps as [Hxs Hps].
    destruct Hcs as (H0c & Hidc & Huc & y & Hy & Hqy & [ty Hty]), Hxs as (H0x & Hidx & Hux & z & Hz & Hqz & [tz Htz]).
    apply NoDup_cons in Hnd as [Hcx Hnd]. assert (x <> c) as Hxc by (intros ->; apply Hcx; by left).
    dec_false (x =? 0). cbv zeta.
    run_with (running_op_ok x q_take z s1 0 (running_threads z) Hz (q_take_nil _ Hqz)). cbn [Z.eqb].
    set (s2 := upd_procs _ s1). rewrite bind_assoc.
    assert (procs s2 !! x = Some (set_running (running_threads z) z)) as Hz2 by apply lookup_insert_eq.
    run_with (deref_ok procs x _ s2 Hz2). rewrite (bind_ok (ret _) _ _ _ _ eq_refl). cbn [active_thread set_running].
    change (current_process s1) with (current_process s). rewrite <- Hc. unfold schedule_save. run_get.
    change (idle_process s2) with (idle_process s). dec_false (c =? 0). dec_false (c =? idle_process s). cbn [orb].
    assert (procs s2 !! c = Some y) as Hy2 by (cbn; by rewrite lookup_insert_ne).
    rewrite bind_assoc. run_with (deref_ok procs c y s2 Hy2). rewrite bind_assoc.
    run_with (on_thread_ok (active_thread y) save_frame ty s2 Hty). set (s3 := upd_threads _ s2). dec_false (x =? c).
    destruct (q_add_law q1 xs c Hq Huc) as (q2 & Had & Hq2' & Hcap2); [cbn [length] in Hcap; lia|].
    run_with (ready_op_ok (q_add c) s3 tt q2 Had). unfold schedule_switch. run_modify. set (s4 := set_current x _).
    run_with (on_proc_ok x (set_active (active_thread z)) _ s4 Hz2). set (s5 := upd_procs _ s4).
    assert (forall t, is_Some (threads s !! t) -> is_Some (threads s5 !! t)) as Hthr.
    { intros t Ht. cbn. destruct (decide (active_thread y = t)) as [<- |]; [rewrite lookup_insert_eq; eauto|rewrite lookup_insert_ne; done]. }
    destruct (Hthr (active_thread z) (ex_intro _ _ Htz)) as [t5 Ht5]. run_with (deref_ok threads _ t5 s5 Ht5).
    exists Switched, s5. split; [reflexivity|]. unfold rotate1. cbn [tail take app]. split.
    + done.
    + exact Hq2'.
    + cbn. rewrite length_app. cbn [length] in *. rewrite Hcap2, Hcap1. lia.
    + assert (Forall (single_threaded s5) (c :: x :: xs)) as Hall5.
      { eapply Forall_impl; [exact Hall|]. intros p. apply single_threaded_ext; [done| |exact Hthr].
        intros w Hw'. cbn. destruct (decide (x = p)) as [<- |Hxp].
        - rewrite lookup_insert_eq. rewrite Hz in Hw'. injection Hw' as <-. eexists. split; [done|]. done.
        - rewrite !lookup_insert_ne by done. eauto. }
      apply Forall_cons in Hall5 as [H5c H5]. apply Forall_cons in H5 as [H5x H5]. constructor; [done|].
      apply Forall_app. split; [done|]. by constructor.
    + apply (NoDup_app (x :: xs) [c]). split; [done|]. split; [|apply NoDup_singleton].
      intros w Hw' ->%list_elem_of_singleton. done.
    + done.
Qed.

(** [n] ticks. *)
Fixpoint schedules (fuel n : nat) : M (sched H Q) unit :=
  match n with
  | O => ret tt
  | S k => schedule fuel ;;; schedules fuel k
  end.

Lemma rotate1_lookup l i : (i < length l)%nat -> rotate1 l !! i = l !! (S i mod length l)%nat.
Proof.
  intros Hi. destruct l as [|x r]; [cbn in Hi; lia|]. unfold rotate1. cbn [tail take length] in *.
  destruct (decide (i < length r)%nat) as [Hlt|Hge].
  - rewrite lookup_app_l by done. rewrite Nat.mod_small by lia. done.
  - replace i with (length r) by lia. rewrite lookup_app_r, Nat.sub_diag, Nat.Div0.mod_same by lia. by rewrite take_0.
Qed.
Lemma rotate1_length l : length (rotate1 l) = length l.
Proof. destruct l as [|x r]; [done|]. unfold rotate1. rewrite length_app. cbn. rewrite take_0. cbn. lia. Qed.

Lemma schedules_rotate fuel n s l : sharing s l -> l <> [] ->
  exists s', schedules fuel n s = Ok tt s' /\ sharing s' (Nat.iter n rotate1 l).
Proof.
  revert s l. induction n as [|n IH]; intros s l Hsh Hne; [by exists s|].
  destruct (schedule_rotates fuel s l Hsh Hne) as (f & s1 & Hrun & Hsh1). cbn [schedules]. run_with Hrun.
  destruct (IH s1 (rotate1 l) Hsh1) as (s' & Hrun' & Hsh').
  { intros Hn. apply (f_equal length) in Hn. rewrite rotate1_length in Hn. by destruct l. }
  exists s'. split; [done|]. by rewrite Nat.iter_succ_r.
Qed.
Lemma iter_rotate1 n l : l <> [] -> head (Nat.iter n rotate1 l) = l !! (n mod length l)%nat.
Proof.
  intros Hne. assert (length l <> 0)%nat as Hl by (destruct l; cbn; [done|lia]).
  assert (forall i, (i < length l)%nat -> Nat.iter n rotate1 l !! i = l !! ((i + n) mod length l)%nat /\
    length (Nat.iter n rotate1 l) = length l) as Hiter.
  { induction n as [|n IH]; intros i Hi.
    - cbn. rewrite Nat.add_0_r, Nat.mod_small by done. done.
    - rewrite Nat.iter_succ, rotate1_length. destruct (IH i Hi) as [_ Hlen]. split; [|done].
      rewrite rotate1_lookup, Hlen by lia. destruct (IH (S i mod length l)%nat) as [-> _]; [apply Nat.mod_upper_bound; lia|].
      rewrite Nat.Div0.add_mod_idemp_l. do 2 f_equal. lia. }
  destruct (Hiter 0%nat ltac:(lia)) as [Hh _]. cbn [Nat.add] in Hh. rewrite <- Hh. by destruct (Nat.iter n rotate1 l).
Qed.


(** ** Pending signals *)

Lemma last_node_chain fuel (s : sched H Q) a l nd e : chain (nodes s) a (l ++ [(nd, e)]) -> (length l < fuel)%nat ->
  last_node fuel a s = Ok nd s.
Proof.
  revert a l. induction fuel as [|n IH]; intros a l Hc Hl; [lia|]. cbn [last_node].
  destruct l as [|[p e'] r]; cbn in Hc; destruct Hc as (-> & Hp0 & next & Hnx & Hr).
  - cbn in Hr. subst next. by run_with (deref_ok nodes nd _ s Hnx).
  - run_with (deref_ok nodes p _ s Hnx). cbn [snd].
    assert (next <> 0) as Hn0 by (destruct r as [|[? ?] ?]; cbn in Hr; destruct Hr as (-> & ? & _); done).
    dec_false (next =? 0). apply (IH next r Hr). cbn in Hl. lia.
Qed.

(** The link of the last node set to a new one. *)
Lemma chain_snoc es a l ln le nd e : chain es a (l ++ [(ln, le)]) -> NoDup (l ++ [(ln, le)]).*1 -> nd ∉ (l ++ [(ln, le)]).*1 ->
  nd <> 0 -> chain (<[nd := (e, 0)]> (<[ln := (le, nd)]> es)) a (l ++ [(ln, le)] ++ [(nd, e)]).
Proof.
  revert a. induction l as [|[p e'] r IH]; intros a Hc Hnd Hin Hn0; cbn in Hc |- *; destruct Hc as (-> & Hp0 & next & Hnx & Hr).
  - cbn in Hin. apply not_elem_of_cons in Hin as [Hne _]. split; [done|]. split; [done|]. exists nd.
    rewrite lookup_insert_ne, lookup_insert_eq by congruence. split; [done|]. split; [done|]. split; [done|]. exists 0. by rewrite lookup_insert_eq.
  - cbn in Hnd, Hin. apply NoDup_cons in Hnd as [Hpn Hnd]. apply not_elem_of_cons in Hin as [Hne Hin].
    split; [done|]. split; [done|]. exists next. split; [|by apply IH].
    assert (p <> ln) by (intros ->; apply Hpn; rewrite fmap_app; apply elem_of_app; right; by left).
    by rewrite !lookup_insert_ne by congruence.
Qed.

(** The list that the append loops of the kernel build. *)
Lemma append_node_chain fuel (s : sched H Q) a l e : chain (nodes s) a l -> NoDup l.*1 -> Forall (a_live (sheap s)) l.*1 ->
  a_ok (sheap s) -> a_room (sheap s) 8 -> (length l <= fuel)%nat ->
  exists nd h f a', append_node fuel a e s = Ok a' (upd_nodes f (set_sheap h s)) /\ malloc 8 (sheap s) = Ok nd h /\
    nd <> 0 /\ a_ok h /\ ~ a_live (sheap s) nd /\ (forall q, a_live h q <-> q = nd \/ a_live (sheap s) q) /\
    chain (f (nodes s)) a' (l ++ [(nd, e)]) /\ (forall e', chain (<[nd := (e', 0)]> (f (nodes s))) a' (l ++ [(nd, e')])).
Proof.
  intros Hc Hnd Hlv Hok Hroom Hf. unfold append_node. destruct (malloc_law (sheap s) 8 Hok Hroom) as (nd & h & Hm & Hok' & Hn0 & Hfr & Hlv').
  assert (kalloc 8 s = Ok nd (set_sheap h s)) as Hk by (unfold kalloc; by rewrite Hm). run_with Hk.
  assert (nd ∉ l.*1) as Hin by (rewrite Forall_forall in Hlv; intros Hx; apply Hfr; by apply Hlv).
  destruct l as [|[ln le] l _] using rev_ind.
  - cbn in Hc. subst a. cbn [Z.eqb]. run_modify. exists nd, h, (insert nd (e, 0)), nd.
    split; [done|]. split; [done|]. split; [done|]. split; [done|]. split; [done|]. split; [done|]. split.
    + cbn. split; [done|]. split; [done|]. exists 0. by rewrite lookup_insert_eq.
    + intros e'. cbn. split; [done|]. split; [done|]. exists 0. by rewrite lookup_insert_eq.
  - assert (a <> 0) as Ha0 by (destruct l as [|[? ?] ?]; cbn in Hc; destruct Hc as (-> & ? & _); done).
    dec_false (a =? 0). rewrite length_app in Hf. cbn in Hf.
    run_with (last_node_chain fuel (set_sheap h s) a l ln le Hc ltac:(lia)).
    assert (exists nx, nodes s !! ln = Some (le, nx)) as [nx Hnx].
    { clear - Hc. revert a Hc. induction l as [|[p e'] r IH]; intros a Hc; cbn in Hc; destruct Hc as (-> & _ & next & Hx & Hr); eauto. }
    run_with (deref_ok nodes ln _ (set_sheap h s) Hnx). run_modify. cbn [fst].
    exists nd, h, (fun m => <[nd := (e, 0)]> (<[ln := (le, nd)]> m)), a.
    split; [done|]. split; [done|]. split; [done|]. split; [done|]. split; [done|]. split; [done|]. rewrite <- app_assoc. split.
    + by apply chain_snoc.
    + intros e'. rewrite <- app_assoc, insert_insert_eq. by apply chain_snoc.
Qed.

(** The signal list holds the pending signals [l], as (node, (element,
    process, signal)). *)
Definition pending_entry : Type := Z * (Z * Z * Z).
Definition entry_element (e : pending_entry) : Z := e.2.1.1.
Definition entry_signal (e : pending_entry) : Z * Z := (e.2.1.2, e.2.2).
Record pending (s : sched H Q) (l : list pending_entry) : Prop := {
  pe_chain : chain (nodes s) (signal_list s) (map (fun e => (e.1, entry_element e)) l);
  pe_words : Forall (fun e => words s !! entry_element e = Some [(entry_signal e).1; (entry_signal e).2]) l;
  pe_nodup : NoDup (map fst l ++ map entry_element l);
  pe_live : Forall (a_live (sheap s)) (map fst l ++ map entry_element l) }.

Lemma two_snoc (a b : list Z) x y : (a ++ [x]) ++ b ++ [y] ≡ₚ x :: y :: a ++ b.
Proof. rewrite (Permutation_app_comm a [x]), (Permutation_app_comm b [y]). cbn. by rewrite <- Permutation_middle. Qed.

(** [send_signal] queues the signal behind those already pending, once, and
    wakes nobody; signals to dead processes and numbers that are not those of a
    signal are dropped without any change. *)
Lemma send_signal_queues fuel processes s l p pno x sig : pending s l ->
  processes !! Z.to_nat pno = Some p -> procs s !! p = Some x -> mutexes s !! signal_mutex s = Some (mk_mutex 0 0) ->
  a_ok (sheap s) -> has_rooms (sheap s) [8; 8] -> (length l < fuel)%nat ->
  if (pstatus x =? PROCESS_STATUS_ZOMBIE) || (sig <=? 0) || (NSIG <=? sig)
  then send_signal fuel processes pno sig s = Ok Returned s
  else exists s' l', send_signal fuel processes pno sig s = Ok Returned s' /\ pending s' l' /\
    map entry_signal l' = map entry_signal l ++ [(p, sig)] /\ procs s' = procs s /\ threads s' = threads s /\
    p_ready_queue s' = p_ready_queue s /\ mutexes s' !! signal_mutex s' = Some (mk_mutex 0 0).
Proof.
  intros [Hc Hw Hnd Hlv] Hpt Hp Hm Hok (Hr1 & Hr2) Hf. unfold send_signal. rewrite Hpt.
  destruct (pstatus x =? PROCESS_STATUS_ZOMBIE) eqn:Hz; cbn [orb]; [run_with (deref_ok procs p x s Hp); by rewrite Hz|].
  destruct ((sig <=? 0) || (NSIG <=? sig)) eqn:Hs; [run_with (deref_ok procs p x s Hp); by rewrite Hz|].
  run_with (deref_ok procs p x s Hp). rewrite Hz. apply orb_false_iff in Hs as [Hs1 Hs2]. zify_bool. unfold NSIG in *. run_get. destruct fuel as [|fuel]; [lia|]. cbn [acquire]. rewrite bind_assoc.
  destruct (mutex_lock_free _ _ _ Hm eq_refl) as ([lb wt] & Hlock & Hlb & Hwt). cbn in Hlb, Hwt. subst lb wt.
  run_with Hlock. cbn [ERROR_NONE Z.eqb]. rewrite (bind_ok (ret Returned) _ _ Returned _ eq_refl). set (s1 := upd_mutexes _ s). run_get.
  set (ch := map (fun e => (e.1, entry_element e)) l) in *.
  assert (ch.*1 = map fst l) as Hch1 by (subst ch; clear; induction l; cbn; congruence).
  apply NoDup_app in Hnd as (Hnd1 & Hnd12 & Hnd2). apply Forall_app in Hlv as [Hlv1 Hlv2].
  destruct (append_node_chain (S fuel) s1 (signal_list s1) ch 0) as (nd & h & f & a' & Happ & Hmal & Hn0 & Hok1 & Hfr & Hlive & Hchain0 & Hchain);
    [exact Hc|by rewrite Hch1|by rewrite Hch1|exact Hok|exact Hr1|subst ch; rewrite length_map; unfold pending_entry in *; lia|].
  run_with Happ. run_modify. specialize (Hr2 nd h Hmal) as [Hr2 _].
  destruct (malloc_law h 8 Hok1 Hr2) as (el & h2 & Hm2 & Hok2 & Hel0 & Hfr2 & Hlive2).
  set (s2 := set_signal_list a' _).
  assert (kalloc 8 s2 = Ok el (set_sheap h2 s2)) as Hk by (unfold kalloc; cbn; by rewrite Hm2). run_with Hk. run_modify.
  set (s3 := upd_words _ _). assert (last_node (S (S fuel)) a' s3 = Ok nd s3) as Hlast.
  { apply (last_node_chain (S (S fuel)) s3 a' ch nd 0 Hchain0). subst ch. rewrite length_map. unfold pending_entry in *. lia. }
  run_with Hlast. run_modify. set (s4 := upd_nodes _ s3).
  assert (mutexes s4 !! signal_mutex s = Some (mk_mutex (current_process s) 0)) as Hm4 by apply lookup_insert_eq.
  run_with (mutex_unlock_ok (S fuel) _ _ s4 Hm4 eq_refl eq_refl).
  eexists _, (l ++ [(nd, (el, p, sig))]). split; [reflexivity|].
  assert (forall e, e ∈ l -> entry_element e <> el) as Hels.
  { intros e He <-. apply Hfr2, Hlive. right. rewrite Forall_forall in Hlv2. apply Hlv2. by apply (list_elem_of_fmap_2 entry_element). }
  assert (forall q, q ∈ map fst l ++ map entry_element l -> a_live (sheap s) q) as Hall.
  { intros q Hq. rewrite Forall_forall in Hlv1. rewrite Forall_forall in Hlv2. apply elem_of_app in Hq as [?|?]; [by apply Hlv1|by apply Hlv2]. }
  split; [split|].
  - rewrite map_app. exact (Hchain el).
  - apply Forall_app. split.
    + apply Forall_forall. intros e He. rewrite Forall_forall in Hw. cbn. rewrite lookup_insert_ne; [by apply Hw|]. specialize (Hels e He). done.
    + constructor; [|constructor]. cbn. rewrite lookup_insert_eq, u32_id by lia. done.
  - rewrite !map_app. cbn [map fst entry_element snd]. rewrite two_snoc. apply NoDup_cons. split.
    + apply not_elem_of_cons. split; [intros ->; apply Hfr2, Hlive; by left|]. intros Hin. apply Hfr. by apply Hall.
    + apply NoDup_cons. split; [|by apply NoDup_app]. intros Hin. apply Hfr2, Hlive. right. by apply Hall.
  - rewrite !map_app. cbn [map fst entry_element snd sheap set_sheap]. rewrite two_snoc. cbn.
    repeat (constructor; [apply Hlive2; rewrite Hlive; tauto|]). apply Forall_forall. intros q Hq. apply Hlive2. right. apply Hlive. right. by apply Hall.
  - rewrite map_app. split; [done|]. split; [done|]. split; [done|]. split; [done|]. cbn. by rewrite lookup_insert_eq.
Qed.
End Signals.

(** ** Concrete runs *)

Lemma demo_sharing : sharing demo_sched [100; 200].
Proof.
  split.
  - reflexivity.
  - apply queue_of_is. unfold is_u32. lia.
  - vm_compute. congruence.
  - constructor; [|constructor; [|constructor]]; (split; [lia|]; split; [cbn; lia|]; split; [unfold is_u32; lia|]).
    + exists (demo_process 110 1 1). split; [reflexivity|]. split; [apply empty_queue_is|by eexists].
    + exists (demo_process 210 2 1). split; [reflexivity|]. split; [apply empty_queue_is|by eexists].
  - apply NoDup_cons. split; [set_solver by lia|]. apply NoDup_singleton.
  - done.
Qed.

Lemma send_signal_queues_witness : exists s' l', send_signal 0 0 0 (fun _ => 0) 2 [0; 100; 200] 2 15 demo_sched = Ok Returned s' /\
  pending s' l' /\ map entry_signal l' = [(200, 15)].
Proof.
  destruct (send_signal_queues 0 0 0 (fun _ => 0) 2 [0; 100; 200] demo_sched [] 200 2 (demo_process 210 2 1) 15)
    as (s' & l' & Hrun & Hpe & Hsig & _); [|reflexivity|reflexivity|reflexivity| | |cbn; lia|].
  - split; [reflexivity|constructor|constructor|constructor].
  - split; [cbn; lia|]. intros q Hq. exfalso. by apply (not_elem_of_empty (C := gset Z) q).
  - cbn. split; [done|]. intros. by split.
  - exists s', l'. split; [exact Hrun|]. split; [exact Hpe|exact Hsig].
Defined.

(** A process with a runnable thread besides the active one loses the active
    one when it is chosen: nothing puts it back into the queue. *)
Definition demo_threads : sched bump (queue * kheap) :=
  upd_threads (insert 220 (demo_thread 1)) (upd_procs (insert 200 (set_running (queue_of 220) (demo_process 210 2 1))) demo_sched).
Lemma schedule_loses_thread : exists f s' x', schedule 0 0 0 (fun _ => 0) 0 7 8 9 16 2 demo_threads = Ok f s' /\
  procs s' !! 200 = Some x' /\ active_thread x' = 220 /\ waiting_threads x' = 0 /\ rear (running_threads x').1 = 984.
Proof.
  assert (is_Some (state_of (schedule 0 0 0 (fun _ => 0) 0 7 8 9 16 2 demo_threads))) as [s' Hs] by (vm_compute; eauto).
  destruct (schedule 0 0 0 (fun _ => 0) 0 7 8 9 16 2 demo_threads) as [f s1| | |] eqn:Hrun; try discriminate. injection Hs as ->.
  assert (procs s' = match schedule 0 0 0 (fun _ => 0) 0 7 8 9 16 2 demo_threads with Ok _ s => procs s | _ => ∅ end) as Hp by (by rewrite Hrun).
  exists f, s'. rewrite Hp. eexists. split; [reflexivity|]. split; [vm_compute; reflexivity|]. split; [reflexivity|]. split; reflexivity.
Qed.
