(* ===== verification/Vga.v ===== *)
(** The text screen and kernel messages (video/vga_text.c, vkprintf of
    util/lib.c).

    Video memory is part of byte memory: 25 lines of 80 cells of two bytes.
    The cursor position written to the CRT controller is the pair of bytes of
    [crtc].  [screen_mutex] serialises callers; the operations below are what a
    caller does while it holds it. *)

From S2P Require Import Prelude Mem Strings.

Definition VIDEO_MODE_VGA_TEXT : Z := 1.
Definition VIDEO_TYPE_NONE : Z := 0.
Definition VIDEO_TYPE_COLOR : Z := 32.
Definition VIDEO_TYPE_MONOCHROME : Z := 48.
Definition VGA_COLUMNS : Z := 80.
Definition VGA_LINES : Z := 25.

Record screen : Type := mk_screen {
  vram : mem;
  VIDEO_MODE : Z;
  VIDEO_TYPE : Z;
  VGA_MEM_START : Z;
  VGA_MEM_END : Z;
  TEXT_CURSOR_X : Z;
  TEXT_CURSOR_Y : Z;
  crtc : Z }.

Definition set_vram (s : screen) (m : mem) : screen :=
  mk_screen m (VIDEO_MODE s) (VIDEO_TYPE s) (VGA_MEM_START s) (VGA_MEM_END s) (TEXT_CURSOR_X s) (TEXT_CURSOR_Y s) (crtc s).
Definition set_xy (s : screen) (x y : Z) : screen :=
  mk_screen (vram s) (VIDEO_MODE s) (VIDEO_TYPE s) (VGA_MEM_START s) (VGA_MEM_END s) x y (crtc s).

(** [while(i < 0xFA0) { *vg = 0; *(vg+1) = 0xF; i += 2; }] for [n] cells. *)
Fixpoint cls_loop (n : nat) (m : mem) (a attr : Z) : mem :=
  match n with
  | O => m
  | S k => cls_loop k (store8 (store8 m a 0) (a + 1) attr) (a + 2) attr
  end.
Definition vga_text_cls (s : screen) : screen := set_vram s (cls_loop 2000 (vram s) (VGA_MEM_START s) 15).
Definition vga_text_reset (s : screen) : screen := set_xy (vga_text_cls s) 0 0.

(** [u16] BIOS data at 0xC0000410; the video mode is already text. *)
Definition vga_setup (s : screen) : bool * screen :=
  let type := Z.land (load16 (vram s) 3221226512) 48 in
  let s := mk_screen (vram s) (VIDEO_MODE s) type (VGA_MEM_START s) (VGA_MEM_END s) (TEXT_CURSOR_X s) (TEXT_CURSOR_Y s) (crtc s) in
  if type =? VIDEO_TYPE_NONE then (false, s) else
  let start := if type =? VIDEO_TYPE_MONOCHROME then 3221946368
               else if type =? VIDEO_TYPE_COLOR then 3221979136 else VGA_MEM_START s in
  let s := mk_screen (vram s) (VIDEO_MODE s) type start (start + 4000) (TEXT_CURSOR_X s) (TEXT_CURSOR_Y s) (crtc s) in
  (true, vga_text_cls s).

Definition screen_off (s : screen) : bool :=
  negb (VIDEO_MODE s =? VIDEO_MODE_VGA_TEXT) || (VIDEO_TYPE s =? VIDEO_TYPE_NONE).

Definition vga_text_scroll_up (s : screen) : screen :=
  if screen_off s then s else
  let m := memcpy (vram s) (VGA_MEM_START s) (VGA_MEM_START s + VGA_COLUMNS * 2)
             (VGA_MEM_END s - VGA_MEM_START s - VGA_COLUMNS * 2) in
  let m := cls_loop 80 m (VGA_MEM_END s - 2 * VGA_COLUMNS) 7 in
  let s := set_vram s m in
  if 0 <? TEXT_CURSOR_Y s then set_xy s (TEXT_CURSOR_X s) (u8 (TEXT_CURSOR_Y s - 1)) else s.

Definition vga_text_update_cursor (s : screen) : screen :=
  mk_screen (vram s) (VIDEO_MODE s) (VIDEO_TYPE s) (VGA_MEM_START s) (VGA_MEM_END s) (TEXT_CURSOR_X s) (TEXT_CURSOR_Y s)
    (u16 (TEXT_CURSOR_Y s * 80 + TEXT_CURSOR_X s)).
Definition vga_text_set_cursor (s : screen) (x y : Z) : screen := vga_text_update_cursor (set_xy s x y).

(** The cell under the cursor. *)
Definition CURRENT (s : screen) : Z := VGA_MEM_START s + 2 * TEXT_CURSOR_X s + 2 * VGA_COLUMNS * TEXT_CURSOR_Y s.

(** The character itself, before the cursor is brought back to the screen. *)
Definition put_char (s : screen) (c color : Z) : screen :=
  let X := TEXT_CURSOR_X s in
  let Y := TEXT_CURSOR_Y s in
  if c =? 10 then set_xy s 0 (u8 (Y + 1))
  else if c =? 9 then
    let next_cursor := u8 (X + 8 - X mod 8) in
    if VGA_COLUMNS - 1 <? next_cursor then set_xy s 0 (u8 (Y + 1)) else set_xy s next_cursor Y
  else if c =? 13 then set_xy s 0 Y
  else if c =? 8 then
    if 0 <? X then
      let s := set_xy s (u8 (X - 1)) Y in set_vram s (store8 (vram s) (CURRENT s) 0)
    else if 0 <? Y then set_xy s VGA_COLUMNS (u8 (Y - 1)) else s
  else
    let m := store8 (vram s) (CURRENT s) c in
    let m := if VIDEO_TYPE s =? VIDEO_TYPE_COLOR then store8 m (CURRENT s + 1) color else m in
    set_xy (set_vram s m) (u8 (X + 1)) Y.

Definition vga_text_putc (s : screen) (c color : Z) : screen :=
  if screen_off s then s else
  let s := put_char s c color in
  let s := if VGA_COLUMNS <=? TEXT_CURSOR_X s then set_xy s 0 (u8 (TEXT_CURSOR_Y s + 1)) else s in
  let s := if VGA_LINES <=? TEXT_CURSOR_Y s then vga_text_scroll_up s else s in
  vga_text_update_cursor s.

(** The bytes of the string up to its end. *)
Fixpoint vga_text_puts (s : screen) (str : list Z) (color : Z) : screen :=
  if screen_off s then s else
  match str with [] => s | c :: r => vga_text_puts (vga_text_putc s c color) r color end.

Definition msg_at_50 (s : screen) (msg : list Z) (color : Z) : screen :=
  vga_text_puts (set_xy s 50 (TEXT_CURSOR_Y s)) msg color.
Definition vga_text_okmsg (s : screen) : screen := msg_at_50 s [79; 75; 10] 10.
Definition vga_text_failmsg (s : screen) : screen := msg_at_50 s [70; 65; 73; 76; 69; 68; 10] 12.
Definition vga_text_skipmsg (s : screen) : screen := msg_at_50 s [83; 75; 73; 80; 80; 69; 68; 10] 15.
Definition vga_text_spemsg (s : screen) (msg : list Z) (color : Z) : screen := msg_at_50 s msg color.
Definition vga_text_nl (s : screen) : screen :=
  if negb (TEXT_CURSOR_X s =? 0) then set_xy s 0 (u8 (TEXT_CURSOR_Y s + 1)) else s.
Definition vga_text_tty_switch (s : screen) (buffer : list Z) : screen := vga_text_puts (vga_text_reset s) buffer 7.

(** ** kprintf *)

(** A variable argument: a number or a string. *)
Inductive va : Type := VNum (n : Z) | VStr (str : list Z).

(** The string a conversion left in its buffer. *)
Fixpoint buffer_string (fuel : nat) (m : mem) (a : Z) : list Z :=
  match fuel with
  | O => []
  | S n => if load8 m a =? 0 then [] else load8 m a :: buffer_string n m (a + 1)
  end.
Definition blank : mem := fun _ => 0.
Definition converted (m : option mem) : list Z := match m with Some m => buffer_string 32 m 0 | None => [] end.

Definition level_color (level : Z) : Z := if level =? 0 then 7 else if level =? 1 then 2 else if level =? 2 then 4 else 9.

(** The loop over the format; a missing argument or a format that ends in [%]
    reads memory that is not there. *)
Fixpoint vkprintf (s : screen) (args : list Z) (ap : list va) (color : Z) : option screen :=
  match args with
  | [] => Some s
  | 37 :: [] => None
  | 37 :: c :: r =>
    if c =? 117 then match ap with VNum n :: ap => vkprintf (vga_text_puts s (converted (utoa blank (u32 n) 0)) color) r ap color | _ => None end
    else if (c =? 105) || (c =? 100) then
      match ap with VNum n :: ap => vkprintf (vga_text_puts s (converted (itoa blank (s32 n) 0)) color) r ap color | _ => None end
    else if c =? 88 then
      match ap with VNum n :: ap => vkprintf (vga_text_puts s (converted (toupper 32 (i2hex blank (u32 n) 0) 0)) color) r ap color | _ => None end
    else if c =? 120 then
      match ap with VNum n :: ap => vkprintf (vga_text_puts s (converted (tolower 32 (i2hex blank (u32 n) 0) 0)) color) r ap color | _ => None end
    else if c =? 115 then match ap with VStr t :: ap => vkprintf (vga_text_puts s t color) r ap color | _ => None end
    else if c =? 99 then match ap with VNum n :: ap => vkprintf (vga_text_putc s (u8 n) color) r ap color | _ => None end
    else if c =? 118 then match ap with VNum n :: ap => vkprintf s r ap (u8 n) | _ => None end
    else if c =? 108 then match ap with VNum n :: ap => vkprintf s r ap (level_color (u8 n)) | _ => None end
    else vkprintf (vga_text_putc s c color) r ap color
  | c :: r => vkprintf (vga_text_putc s c color) r ap color
  end.
Definition kprintf (s : screen) (args : list Z) (ap : list va) : option screen := vkprintf s args ap 7.

(** * The screen stays a screen *)

Record screen_ok (s : screen) : Prop := {
  ok_mode : VIDEO_MODE s = VIDEO_MODE_VGA_TEXT;
  ok_type : VIDEO_TYPE s = VIDEO_TYPE_COLOR \/ VIDEO_TYPE s = VIDEO_TYPE_MONOCHROME;
  ok_end : VGA_MEM_END s = VGA_MEM_START s + 4000;
  ok_x : 0 <= TEXT_CURSOR_X s < 80;
  ok_y : 0 <= TEXT_CURSOR_Y s < 25 }.

Lemma screen_on s : screen_ok s -> screen_off s = false.
Proof. intros [Hm Ht _ _ _]. unfold screen_off. rewrite Hm. destruct Ht as [-> | ->]; done. Qed.

Lemma cls_loop_outside n m a attr x : ~ (a <= x < a + 2 * Z.of_nat n) -> cls_loop n m a attr x = m x.
Proof.
  revert m a. induction n as [|n IH]; intros m a Hx; [done|]. cbn [cls_loop]. rewrite IH by lia.
  rewrite !store8_other by lia. done.
Qed.
Lemma cls_loop_cell n m a attr k : 0 <= k < Z.of_nat n -> 0 <= attr < 256 ->
  load8 (cls_loop n m a attr) (a + 2 * k) = 0 /\ load8 (cls_loop n m a attr) (a + 2 * k + 1) = attr.
Proof.
  revert m a k. induction n as [|n IH]; intros m a k Hk Ha; [lia|]. cbn [cls_loop].
  destruct (decide (k = 0)) as [-> |].
  - rewrite Z.mul_0_r, Z.add_0_r.
    set (m1 := store8 (store8 m a 0) (a + 1) attr).
    assert (forall x, x < a + 2 -> load8 (cls_loop n m1 (a + 2) attr) x = load8 m1 x) as Hlow
      by (intros x Hx; apply load8_ext, cls_loop_outside; lia).
    rewrite !Hlow by lia. unfold m1. rewrite load8_store8, load8_store8_other, load8_store8 by lia. split; [done|]. by apply u8_id.
  - destruct (IH (store8 (store8 m a 0) (a + 1) attr) (a + 2) (k - 1)) as [H1 H2]; [lia|done|].
    replace (a + 2 + 2 * (k - 1)) with (a + 2 * k) in * by lia. done.
Qed.

#[global] Arguments cls_loop : simpl never.

(** Character and attribute of a cell. *)
Definition cell (s : screen) (x y : Z) : Z * Z :=
  let a := VGA_MEM_START s + 2 * x + 160 * y in (load8 (vram s) a, load8 (vram s) (a + 1)).

Lemma scroll_cells s x y : screen_off s = false -> VGA_MEM_END s = VGA_MEM_START s + 4000 -> 0 <= x < 80 -> 0 <= y < 25 ->
  cell (vga_text_scroll_up s) x y = if y <? 24 then cell s x (y + 1) else (0, 7).
Proof.
  intros Hon He Hx Hy. unfold vga_text_scroll_up, VGA_COLUMNS. rewrite Hon, He.
  set (m1 := memcpy _ _ _ _). set (m2 := cls_loop _ _ _ _).
  assert (cell (if 0 <? TEXT_CURSOR_Y (set_vram s m2) then set_xy (set_vram s m2) (TEXT_CURSOR_X (set_vram s m2)) (u8 (TEXT_CURSOR_Y (set_vram s m2) - 1)) else set_vram s m2) x y
    = (load8 m2 (VGA_MEM_START s + 2 * x + 160 * y), load8 m2 (VGA_MEM_START s + 2 * x + 160 * y + 1))) as -> by (by case_bool).
  unfold cell. destruct (y <? 24) eqn:E; zify_bool.
  - assert (forall x, x < VGA_MEM_START s + 4000 - 2 * 80 -> load8 m2 x = load8 m1 x) as Hlow
      by (intros z Hz; apply load8_ext, cls_loop_outside; lia).
    rewrite !Hlow by lia. unfold m1.
    replace (VGA_MEM_START s + 2 * x + 160 * y) with (VGA_MEM_START s + (2 * x + 160 * y)) by lia.
    rewrite memcpy_inside by lia. rewrite <- (Z.add_assoc _ (2 * x + 160 * y) 1), memcpy_inside by lia.
    f_equal; f_equal; lia.
  - destruct (cls_loop_cell 80 m1 (VGA_MEM_START s + 4000 - 2 * 80) 7 x) as [H1 H2]; [lia|lia|].
    replace (VGA_MEM_START s + 2 * x + 160 * y) with (VGA_MEM_START s + 4000 - 2 * 80 + 2 * x) by lia.
    unfold m2. by rewrite H1, H2.
Qed.

Lemma scroll_outside s x : screen_off s = false -> VGA_MEM_END s = VGA_MEM_START s + 4000 ->
  ~ (VGA_MEM_START s <= x < VGA_MEM_START s + 4000) -> vram (vga_text_scroll_up s) x = vram s x.
Proof.
  intros Hon He Hx. unfold vga_text_scroll_up, VGA_COLUMNS. rewrite Hon, He.
  set (m1 := memcpy _ _ _ _). set (m2 := cls_loop _ _ _ _).
  assert (m2 x = vram s x) as Hm by (unfold m2; rewrite cls_loop_outside by lia; apply memcpy_outside; lia).
  by case_bool.
Qed.

Lemma scroll_fields s : screen_off s = false -> 0 < TEXT_CURSOR_Y s < 256 ->
  let s' := vga_text_scroll_up s in
  VIDEO_MODE s' = VIDEO_MODE s /\ VIDEO_TYPE s' = VIDEO_TYPE s /\ VGA_MEM_START s' = VGA_MEM_START s /\
  VGA_MEM_END s' = VGA_MEM_END s /\ TEXT_CURSOR_X s' = TEXT_CURSOR_X s /\ TEXT_CURSOR_Y s' = TEXT_CURSOR_Y s - 1.
Proof.
  intros Hon Hy s'. unfold s', vga_text_scroll_up. rewrite Hon. cbn [set_vram TEXT_CURSOR_Y].
  dec_true (0 <? TEXT_CURSOR_Y s). cbn [set_xy set_vram VIDEO_MODE VIDEO_TYPE VGA_MEM_START VGA_MEM_END TEXT_CURSOR_X TEXT_CURSOR_Y].
  rewrite u8_id by lia. done.
Qed.

(** The state between the character and the cursor fix. *)
Record mid_ok (s s1 : screen) : Prop := {
  mid_mode : VIDEO_MODE s1 = VIDEO_MODE s;
  mid_type : VIDEO_TYPE s1 = VIDEO_TYPE s;
  mid_start : VGA_MEM_START s1 = VGA_MEM_START s;
  mid_end : VGA_MEM_END s1 = VGA_MEM_END s;
  mid_x : 0 <= TEXT_CURSOR_X s1 <= 80;
  mid_y : 0 <= TEXT_CURSOR_Y s1 <= 25;
  mid_xy : TEXT_CURSOR_X s1 = 80 -> TEXT_CURSOR_Y s1 < 25;
  mid_mem : same_outside (vram s) (vram s1) (VGA_MEM_START s) (VGA_MEM_START s + 4000) }.

Lemma put_char_mid s c color : screen_ok s -> mid_ok s (put_char s c color).
Proof.
  intros [Hm Ht He Hx Hy]. unfold put_char, VGA_COLUMNS, CURRENT.
  assert (forall y, 0 <= y < 26 -> u8 y = y) as Hu by (intros; apply u8_id; lia).
  repeat case_bool; split; cbn -[Z.mul Z.add store8]; try done; unfold VGA_COLUMNS in *;
    rewrite ?u8_id by dlia; try lia; try dlia;
    intros z Hz; rewrite ?store8_other by lia; done.
Qed.

(** Printing any character keeps the cursor on the screen, shows it to the
    controller, and writes nothing outside the 4000 bytes of the screen. *)
Lemma vga_text_putc_safe s c color : screen_ok s ->
  let s' := vga_text_putc s c color in
  screen_ok s' /\ VGA_MEM_START s' = VGA_MEM_START s /\
  same_outside (vram s) (vram s') (VGA_MEM_START s) (VGA_MEM_START s + 4000) /\
  crtc s' = TEXT_CURSOR_Y s' * 80 + TEXT_CURSOR_X s'.
Proof.
  intros Hok s'. unfold s', vga_text_putc. rewrite screen_on by done. cbv zeta.
  destruct (put_char_mid s c color Hok) as [M1 M2 M3 M4 M5 M6 M7 M8]. set (s1 := put_char s c color) in *.
  set (s2 := if VGA_COLUMNS <=? TEXT_CURSOR_X s1 then _ else s1). destruct Hok as [Hm Ht He Hx Hy].
  assert (VIDEO_MODE s2 = VIDEO_MODE s /\ VIDEO_TYPE s2 = VIDEO_TYPE s /\ VGA_MEM_START s2 = VGA_MEM_START s /\
    VGA_MEM_END s2 = VGA_MEM_END s /\ 0 <= TEXT_CURSOR_X s2 < 80 /\ 0 <= TEXT_CURSOR_Y s2 <= 25 /\ vram s2 = vram s1)
    as (N1 & N2 & N3 & N4 & N5 & N6 & N7).
  { unfold s2, VGA_COLUMNS. destruct (80 <=? TEXT_CURSOR_X s1) eqn:E; zify_bool; cbn; [|repeat split; try done; lia].
    rewrite u8_id by lia. specialize (M7 ltac:(lia)). repeat split; try done; lia. }
  clearbody s2. assert (screen_off s2 = false) as Hon.
  { unfold screen_off. rewrite N1, N2, Hm. destruct Ht as [-> | ->]; done. }
  unfold VGA_LINES. destruct (25 <=? TEXT_CURSOR_Y s2) eqn:E; zify_bool.
  - assert (TEXT_CURSOR_Y s2 = 25) as Y25 by lia.
    assert (forall x, ~ (VGA_MEM_START s <= x < VGA_MEM_START s + 4000) -> vram (vga_text_scroll_up s2) x = vram s x) as Hout.
    { intros x Hout. rewrite scroll_outside by (done || congruence || lia). rewrite N7. by apply M8. }
    destruct (scroll_fields s2 Hon ltac:(lia)) as (F1 & F2 & F3 & F4 & F5 & F6). set (s3 := vga_text_scroll_up s2) in *.
    clearbody s3. unfold vga_text_update_cursor. cbn [VGA_MEM_START vram crtc TEXT_CURSOR_X TEXT_CURSOR_Y].
    split; [|split; [congruence|split; [done|apply u16_id; lia]]].
    split; cbn [VIDEO_MODE VIDEO_TYPE VGA_MEM_START VGA_MEM_END TEXT_CURSOR_X TEXT_CURSOR_Y]; try congruence; lia.
  - cbn. split; [split; cbn; try done; try congruence; lia|]. split; [done|]. split; [|apply u16_id; lia].
    rewrite N7. done.
Qed.
Definition demo_screen (x y : Z) : screen := mk_screen (fun _ => 0) 1 32 3221979136 3221983136 x y 0.
Definition demo_scrolled : screen := vga_text_putc (demo_screen 79 24) 65 7.
Lemma vga_text_putc_safe_witness : screen_ok demo_scrolled /\ VGA_MEM_START demo_scrolled = 3221979136 /\
  same_outside (fun _ => 0) (vram demo_scrolled) 3221979136 (3221979136 + 4000) /\
  crtc demo_scrolled = TEXT_CURSOR_Y demo_scrolled * 80 + TEXT_CURSOR_X demo_scrolled.
Proof. apply (vga_text_putc_safe (demo_screen 79 24) 65 7). split; cbn; (done || lia || by left). Defined.

(** An ordinary character. *)
Definition printable (c : Z) : Prop := 0 <= c < 256 /\ c <> 8 /\ c <> 9 /\ c <> 10 /\ c <> 13.

(** An ordinary character appears in the cell of the cursor with its
    color, the other cells keep their contents, and the cursor moves on; behind
    the last cell of the screen all lines move up and an empty line appears. *)
Lemma vga_text_putc_prints s c color x y : screen_ok s -> VIDEO_TYPE s = VIDEO_TYPE_COLOR -> printable c -> is_u8 color ->
  0 <= x < 80 -> 0 <= y < 25 ->
  let printed x y := if (x =? TEXT_CURSOR_X s) && (y =? TEXT_CURSOR_Y s) then (c, color) else cell s x y in
  let s' := vga_text_putc s c color in
  if (TEXT_CURSOR_X s =? 79) && (TEXT_CURSOR_Y s =? 24)
  then cell s' x y = (if y <? 24 then printed x (y + 1) else (0, 7)) /\ TEXT_CURSOR_X s' = 0 /\ TEXT_CURSOR_Y s' = 24
  else cell s' x y = printed x y /\
    TEXT_CURSOR_Y s' * 80 + TEXT_CURSOR_X s' = TEXT_CURSOR_Y s * 80 + TEXT_CURSOR_X s + 1.
Proof.
  intros Hok Hcol (Hc & H8 & H9 & H10 & H13) Hcr Hx Hy printed s'. pose proof Hok as [Hm Ht He HX HY].
  unfold s', vga_text_putc. rewrite screen_on by done. cbv zeta.
  assert (put_char s c color = set_xy (set_vram s (store8 (store8 (vram s) (CURRENT s) c) (CURRENT s + 1) color))
    (TEXT_CURSOR_X s + 1) (TEXT_CURSOR_Y s)) as ->.
  { unfold put_char. dec_false (c =? 10). dec_false (c =? 9). dec_false (c =? 13). dec_false (c =? 8).
    rewrite Hcol. cbn [Z.eqb VIDEO_TYPE_COLOR Pos.eqb]. rewrite u8_id by lia. done. }
  set (s1 := set_xy (set_vram s _) (TEXT_CURSOR_X s + 1) (TEXT_CURSOR_Y s)).
  assert (forall x y X Y, 0 <= x < 80 -> 0 <= y < 25 -> cell (set_xy s1 X Y) x y = printed x y) as Hcell.
  { intros x' y' X Y Hx' Hy'. unfold printed, cell, s1, set_xy, set_vram, CURRENT, VGA_COLUMNS. cbn [vram VGA_MEM_START].
    destruct (Z.eqb_spec x' (TEXT_CURSOR_X s)) as [-> |], (Z.eqb_spec y' (TEXT_CURSOR_Y s)) as [-> |]; cbn [andb].
    - replace (2 * 80 * TEXT_CURSOR_Y s) with (160 * TEXT_CURSOR_Y s) by lia.
      rewrite load8_store8_other, !load8_store8 by lia. rewrite !u8_id by (unfold is_u8 in *; lia). done.
    - rewrite !load8_store8_other by lia. done.
    - rewrite !load8_store8_other by lia. done.
    - rewrite !load8_store8_other by lia. done. }
  cbn [TEXT_CURSOR_X TEXT_CURSOR_Y s1 set_xy set_vram]. unfold VGA_COLUMNS, VGA_LINES.
  destruct (80 <=? TEXT_CURSOR_X s + 1) eqn:E; zify_bool.
  - assert (TEXT_CURSOR_X s = 79) as HX79 by lia. rewrite HX79. change (TEXT_CURSOR_Y s1) with (TEXT_CURSOR_Y s). rewrite u8_id by lia.
    cbn [TEXT_CURSOR_Y set_xy]. destruct (25 <=? TEXT_CURSOR_Y s + 1) eqn:E2; zify_bool.
    + assert (TEXT_CURSOR_Y s = 24) as HY24 by lia. rewrite HY24. cbn [Z.eqb andb Pos.eqb].
      set (s2 := set_xy s1 0 (24 + 1)). assert (screen_off s2 = false) as Hon by exact (screen_on s Hok).
      assert (cell (vga_text_update_cursor (vga_text_scroll_up s2)) x y = cell (vga_text_scroll_up s2) x y) as -> by done.
      rewrite scroll_cells by (try done; lia). split.
      * destruct (y <? 24) eqn:E3; zify_bool; [|done]. unfold s2. rewrite Hcell by lia. unfold printed. by rewrite HX79, HY24.
      * destruct (scroll_fields s2 Hon) as (_ & _ & _ & _ & F5 & F6); [cbn; lia|].
        cbn [vga_text_update_cursor TEXT_CURSOR_X TEXT_CURSOR_Y]. rewrite F5, F6. done.
    + dec_false (TEXT_CURSOR_Y s =? 24). rewrite andb_false_r. split; [|cbn; lia]. by apply (Hcell x y).
  - dec_false (TEXT_CURSOR_X s =? 79). cbn [andb]. change (TEXT_CURSOR_Y s1) with (TEXT_CURSOR_Y s). dec_false (25 <=? TEXT_CURSOR_Y s).
    split; [|cbn; lia]. by apply (Hcell x y (TEXT_CURSOR_X s + 1) (TEXT_CURSOR_Y s)).
Qed.
Lemma vga_text_putc_prints_witness : cell (vga_text_putc (demo_screen 3 1) 65 7) 3 1 = (65, 7) /\
  cell (vga_text_putc (demo_screen 79 24) 65 7) 79 23 = (65, 7).
Proof.
  split.
  - refine (proj1 (vga_text_putc_prints (demo_screen 3 1) 65 7 3 1 _ _ _ _ _ _)); try (cbn; lia);
      [split; cbn; (done || lia || by left)|reflexivity|repeat split; lia|unfold is_u8; lia].
  - refine (proj1 (vga_text_putc_prints (demo_screen 79 24) 65 7 79 23 _ _ _ _ _ _)); try (cbn; lia);
      [split; cbn; (done || lia || by left)|reflexivity|repeat split; lia|unfold is_u8; lia].
Defined.

(** Backspace at the start of a line changes nothing: the cursor goes to column
    80 of the line above and from there back to where it was. *)
Lemma backspace_line_start s color : screen_ok s -> TEXT_CURSOR_X s = 0 -> 0 < TEXT_CURSOR_Y s ->
  let s' := vga_text_putc s 8 color in
  vram s' = vram s /\ TEXT_CURSOR_X s' = 0 /\ TEXT_CURSOR_Y s' = TEXT_CURSOR_Y s.
Proof.
  intros Hok Hx Hy s'. pose proof Hok as [_ _ _ _ HY]. unfold s', vga_text_putc. rewrite screen_on by done.
  unfold put_char. cbn [Z.eqb Pos.eqb]. rewrite Hx. cbn [Z.ltb Z.compare]. dec_true (0 <? TEXT_CURSOR_Y s).
  cbn [TEXT_CURSOR_X TEXT_CURSOR_Y set_xy]. unfold VGA_COLUMNS, VGA_LINES. cbn [Z.leb Z.compare Pos.compare Pos.compare_cont].
  rewrite (u8_id (TEXT_CURSOR_Y s - 1)), u8_id by lia. replace (TEXT_CURSOR_Y s - 1 + 1) with (TEXT_CURSOR_Y s) by lia.
  cbn [TEXT_CURSOR_Y set_xy]. dec_false (25 <=? TEXT_CURSOR_Y s). done.
Qed.

(** [vga_text_nl] on the last line moves the cursor below the screen. *)
Lemma nl_leaves_screen s : TEXT_CURSOR_Y s = 24 -> TEXT_CURSOR_X s <> 0 -> TEXT_CURSOR_Y (vga_text_nl s) = 25.
Proof. intros Hy Hx. unfold vga_text_nl. apply Z.eqb_neq in Hx. rewrite Hx. cbn. by rewrite Hy. Qed.
