(* ===== verification/Streams.v ===== *)
(** I/O streams (io/stream.c).

    A stream is a buffer with the bytes that were written and not yet read,
    and the threads that wait for more.  The bytes of the buffer up to [count]
    are [sbytes]; a write behind the end of the buffer is a [Fault].  A pointer
    to a stream is a way to read and to replace it in the state of the system.
    When the thread of a call sleeps or spins, the rest of the system runs:
    [others] is what it does until the thread runs again, and the bound of a
    call counts how often that happens. *)

From S2P Require Import Prelude Errors Mem Storage.

Definition IOSTREAM_DEFAULT_BUFFER_SIZE : Z := 100.
Definition IOSTREAM_ATTR_BLOCKING_READ : Z := 1.
Definition IOSTREAM_ATTR_BLOCKING_WRITE : Z := 2.
Definition IOSTREAM_ATTR_AUTOEXPAND : Z := 4.
Definition IOSTREAM_ATTR_ONE_BYTE : Z := 8.

(** The threads that wait are pairs of a process and a thread. *)
Record io_stream_t : Type := mk_stream {
  sbytes : list Z; sbuffer_size : Z; sattributes : Z; waiting_processes : list (Z * Z) }.
Definition scount (x : io_stream_t) : Z := Z.of_nat (length (sbytes x)).
Definition set_sbytes (b : list Z) (x : io_stream_t) : io_stream_t :=
  mk_stream b (sbuffer_size x) (sattributes x) (waiting_processes x).
Definition set_sbuffer_size (n : Z) (x : io_stream_t) : io_stream_t :=
  mk_stream (sbytes x) n (sattributes x) (waiting_processes x).
Definition set_swaiting (l : list (Z * Z)) (x : io_stream_t) : io_stream_t :=
  mk_stream (sbytes x) (sbuffer_size x) (sattributes x) l.

Definition flag (attributes bit : Z) : bool := negb (Z.land attributes bit =? 0).
(** [!a & bit] is [(!a) & bit]. *)
Definition not_then_and (a bit : Z) : bool := negb (Z.land (if a =? 0 then 1 else 0) bit =? 0).

Definition iostream_alloc : io_stream_t :=
  mk_stream [] IOSTREAM_DEFAULT_BUFFER_SIZE (Z.lor IOSTREAM_ATTR_BLOCKING_READ IOSTREAM_ATTR_AUTOEXPAND) [].

(** The calls of a stream into the rest of the system: the running process and
    thread; taking a thread from the scheduler, with its status set; giving it
    back; the kernel's memory. *)
Class Threads (S : Type) := {
  running : S -> Z * Z;
  thread_sleeps : Z * Z -> M S unit;
  scheduler_gets : Z * Z -> M S unit;
  io_mem : S -> mem;
  set_io_mem : mem -> S -> S }.

Record pointer (S : Type) : Type := mk_pointer { at_ : S -> io_stream_t; to_ : io_stream_t -> S -> S }.
Arguments mk_pointer {S}. Arguments at_ {S}. Arguments to_ {S}.

Section Streams.
Context {S : Type} `{Threads S}.

Definition on_stream (p : pointer S) (f : io_stream_t -> io_stream_t) : M S unit := modify (fun s => to_ p (f (at_ p s)) s).

Fixpoint wake_all (l : list (Z * Z)) : M S unit :=
  match l with
  | [] => ret tt
  | x :: r => scheduler_gets x ;;; wake_all r
  end.
Definition iostream_wake (p : pointer S) : M S unit :=
  s <- get ;;
  wake_all (waiting_processes (at_ p s)) ;;;
  on_stream p (set_swaiting []).

(** What the rest of the system does until the thread runs again. *)
Context (others : M S unit).

Definition iostream_wait (p : pointer S) : M S unit :=
  s <- get ;;
  on_stream p (fun x => set_swaiting (waiting_processes x ++ [running s]) x) ;;;
  thread_sleeps (running s) ;;;
  others.

Fixpoint iostream_getch (n : nat) (p : pointer S) : M S Z :=
  match n with
  | O => nofuel
  | Datatypes.S k =>
    s <- get ;;
    match sbytes (at_ p s) with
    | c :: r => on_stream p (set_sbytes r) ;;; ret c
    | [] =>
      if not_then_and (sattributes (at_ p s)) IOSTREAM_ATTR_BLOCKING_READ then ret 0 else
      iostream_wait p ;;;
      iostream_getch k p
    end
  end.

(** The copy into the buffer and the waking of the readers. *)
Definition append_bytes (p : pointer S) (bytes : list Z) : M S Z :=
  s <- get ;;
  if sbuffer_size (at_ p s) <? scount (at_ p s) + Z.of_nat (length bytes) then fault else
  on_stream p (fun x => set_sbytes (sbytes x ++ bytes) x) ;;;
  iostream_wake p ;;;
  ret ERROR_NONE.
Definition too_much (x : io_stream_t) (count : Z) : bool := sbuffer_size x <? u32 (scount x + count).

(** [while(iostream->count+count > iostream->buffer_size);] *)
Fixpoint spin (n : nat) (count : Z) (p : pointer S) : M S unit :=
  match n with
  | O => nofuel
  | Datatypes.S k => s <- get ;; if too_much (at_ p s) count then others ;;; spin k count p else ret tt
  end.
Definition iostream_write (n : nat) (bytes : list Z) (p : pointer S) : M S Z :=
  s <- get ;;
  let x := at_ p s in
  if too_much x (Z.of_nat (length bytes)) then
    if flag (sattributes x) IOSTREAM_ATTR_AUTOEXPAND then
      on_stream p (fun x => set_sbuffer_size (u32 (sbuffer_size x * 2)) x) ;;;
      append_bytes p bytes
    else if flag (sattributes x) IOSTREAM_ATTR_BLOCKING_WRITE then
      spin n (Z.of_nat (length bytes)) p ;;;
      append_bytes p bytes
    else ret ERROR_FILE_OUT
  else append_bytes p bytes.

Definition upd_io_mem (f : mem -> mem) : M S unit := modify (fun s => set_io_mem (f (io_mem s)) s).

Fixpoint iostream_read (n : nat) (buffer count : Z) (p : pointer S) : M S Z :=
  match n with
  | O => nofuel
  | Datatypes.S k =>
    s <- get ;;
    let x := at_ p s in
    if negb (Z.lor (sattributes x) IOSTREAM_ATTR_ONE_BYTE =? 0) && (1 <? count) then ret ERROR_FILE_FS_INTERNAL else
    match sbytes x with
    | _ :: _ =>
      let countmin := if scount x <? count then scount x else count in
      upd_io_mem (fun m => store_bytes m buffer (take (Z.to_nat countmin) (sbytes x))) ;;;
      (if scount x <? count then upd_io_mem (fun m => memset m (buffer + count) 0 (u32 (count - scount x))) else ret tt) ;;;
      on_stream p (fun x => set_sbytes (drop (Z.to_nat countmin) (sbytes x)) x) ;;;
      ret ERROR_NONE
    | [] =>
      if not_then_and (sattributes x) IOSTREAM_ATTR_BLOCKING_READ then ret ERROR_EOF else
      iostream_wait p ;;;
      iostream_read k buffer count p
    end
  end.
End Streams.

(** ** First in, first out *)

Section StreamTraces.
Context {S : Type} `{Threads S} (p : pointer S).

(** The stream is where the pointer says, and sleeping and waking do not touch
    it. *)
Class StreamApart : Prop := {
  at_to : forall x s, at_ p (to_ p x s) = x;
  sleeps_apart : forall x s, exists s', thread_sleeps x s = Ok tt s' /\ at_ p s' = at_ p s;
  gets_apart : forall x s, exists s', scheduler_gets x s = Ok tt s' /\ at_ p s' = at_ p s;
  mem_apart : forall m s, at_ p (set_io_mem m s) = at_ p s }.
Context `{StreamApart}.

Lemma wake_all_apart l s : exists s', wake_all l s = Ok tt s' /\ at_ p s' = at_ p s.
Proof.
  revert s. induction l as [|x l IH]; intros s; cbn [wake_all]; [by exists s|].
  destruct (gets_apart x s) as (s1 & Hrun & Heq). destruct (IH s1) as (s2 & Hrun2 & Heq2).
  exists s2. rewrite (bind_ok _ _ _ _ _ Hrun). split; [done|congruence].
Qed.
Lemma iostream_wake_ok s : exists s', iostream_wake p s = Ok tt s' /\ at_ p s' = set_swaiting [] (at_ p s).
Proof.
  unfold iostream_wake, get, bind at 1. destruct (wake_all_apart (waiting_processes (at_ p s)) s) as (s1 & Hrun & Heq).
  eexists. rewrite (bind_ok _ _ _ _ _ Hrun). unfold on_stream, modify. split; [reflexivity|]. by rewrite at_to, Heq.
Qed.
Lemma append_bytes_ok bytes s e s' : append_bytes p bytes s = Ok e s' ->
  scount (at_ p s) + Z.of_nat (length bytes) <= sbuffer_size (at_ p s) /\
  at_ p s' = set_swaiting [] (set_sbytes (sbytes (at_ p s) ++ bytes) (at_ p s)) /\ e = ERROR_NONE.
Proof.
  unfold append_bytes, get, bind at 1. destruct (Z.ltb_spec (sbuffer_size (at_ p s)) (scount (at_ p s) + Z.of_nat (length bytes))) as [|Hle]; [done|].
  unfold on_stream, modify, bind at 1. set (s1 := to_ p _ s). destruct (iostream_wake_ok s1) as (s2 & Hrun & Heq).
  rewrite (bind_ok _ _ _ _ _ Hrun). unfold ret. intros [= <- <-]. split; [done|]. split; [|done]. rewrite Heq. subst s1. by rewrite at_to.
Qed.

(** The calls on a stream one after the other.  A call that has to wait is taken
    up from its start when the thread runs again, so the waiting is a step of
    its own. *)
Inductive stream_event : Type := Wrote (bytes : list Z) | Refused | Got (bytes : list Z) | Waited.
Inductive stream_trace : S -> list stream_event -> S -> Prop :=
| st_nil s : stream_trace s [] s
| st_write s bytes e s1 tr s' : iostream_write nofuel 1 bytes p s = Ok e s1 -> stream_trace s1 tr s' ->
    stream_trace s ((if e =? ERROR_NONE then Wrote bytes else Refused) :: tr) s'
| st_getch s c s1 tr s' : sattributes (at_ p s) <> 0 -> iostream_getch nofuel 1 p s = Ok c s1 -> stream_trace s1 tr s' ->
    stream_trace s (Got [c] :: tr) s'
| st_read s buffer count s1 tr s' : sattributes (at_ p s) <> 0 -> 0 <= count -> iostream_read nofuel 1 buffer count p s = Ok ERROR_NONE s1 ->
    stream_trace s1 tr s' -> stream_trace s (Got (take (Z.to_nat count) (sbytes (at_ p s))) :: tr) s'
| st_wait s s1 tr s' : sbytes (at_ p s) = [] -> iostream_wait (ret tt) p s = Ok tt s1 -> stream_trace s1 tr s' ->
    stream_trace s (Waited :: tr) s'
| st_other s s1 tr s' : at_ p s1 = at_ p s -> stream_trace s1 tr s' -> stream_trace s tr s'.

Definition written (e : stream_event) : list Z := match e with Wrote bytes => bytes | _ => [] end.
Definition delivered (e : stream_event) : list Z := match e with Got bytes => bytes | _ => [] end.

(** The buffer holds the bytes, and no thread waits while there are some. *)
Record stream_ok (x : io_stream_t) : Prop := {
  so_fits : scount x <= sbuffer_size x;
  so_waiting : waiting_processes x <> [] -> sbytes x = [] }.

Lemma write_step s bytes e s1 : iostream_write nofuel 1 bytes p s = Ok e s1 -> stream_ok (at_ p s) ->
  stream_ok (at_ p s1) /\ sattributes (at_ p s1) = sattributes (at_ p s) /\
  sbytes (at_ p s1) = sbytes (at_ p s) ++ written (if e =? ERROR_NONE then Wrote bytes else Refused).
Proof.
  intros Hrun Hok. unfold iostream_write, get, bind at 1 in Hrun.
  assert (forall s0, sattributes (at_ p s0) = sattributes (at_ p s) -> sbytes (at_ p s0) = sbytes (at_ p s) -> append_bytes p bytes s0 = Ok e s1 ->
    stream_ok (at_ p s1) /\ sattributes (at_ p s1) = sattributes (at_ p s) /\
    sbytes (at_ p s1) = sbytes (at_ p s) ++ written (if e =? ERROR_NONE then Wrote bytes else Refused)) as Happ.
  { intros s0 Hat Hb (Hfit & -> & ->)%append_bytes_ok. cbn. rewrite Hb in *. split; [|done].
    split; [|done]. unfold scount in *. cbn. rewrite length_app. rewrite Hb in Hfit. lia. }
  destruct (too_much (at_ p s) (Z.of_nat (length bytes))) eqn:Htm; [|by apply (Happ s)].
  destruct (flag (sattributes (at_ p s)) IOSTREAM_ATTR_AUTOEXPAND).
  - unfold on_stream, modify, bind at 1 in Hrun. apply (Happ _) in Hrun; rewrite ?at_to; try done.
  - destruct (flag (sattributes (at_ p s)) IOSTREAM_ATTR_BLOCKING_WRITE).
    + cbn [spin] in Hrun. unfold bind, get in Hrun. by rewrite Htm in Hrun.
    + unfold ret in Hrun. injection Hrun as <- <-. cbn. by rewrite app_nil_r.
Qed.

Lemma blocking a : a <> 0 -> not_then_and a IOSTREAM_ATTR_BLOCKING_READ = false.
Proof. intros Ha. unfold not_then_and. by dec_false (a =? 0). Qed.
Lemma wait_blocks {A} (k : M S A) s : (iostream_wait nofuel p ;;; k) s = NoFuel.
Proof.
  unfold iostream_wait, get, on_stream, modify, bind. set (s2 := to_ p _ s). by destruct (sleeps_apart (running s) s2) as (s3 & -> & _).
Qed.

Lemma getch_step s c s1 : iostream_getch nofuel 1 p s = Ok c s1 -> sattributes (at_ p s) <> 0 -> stream_ok (at_ p s) ->
  stream_ok (at_ p s1) /\ sattributes (at_ p s1) = sattributes (at_ p s) /\ sbytes (at_ p s) = c :: sbytes (at_ p s1).
Proof.
  intros Hrun Hat [Hfit Hw]. cbn [iostream_getch] in Hrun. unfold get, bind at 1 in Hrun. destruct (sbytes (at_ p s)) as [|b r] eqn:Hb.
  - rewrite blocking in Hrun by done. by rewrite wait_blocks in Hrun.
  - unfold on_stream, modify, bind, ret in Hrun. injection Hrun as <- <-. rewrite at_to. cbn. split; [|done].
    split; cbn; [unfold scount in *; cbn in *; rewrite Hb in Hfit; cbn in Hfit; lia|intros Hne; by specialize (Hw Hne)].
Qed.

Lemma read_step s buffer count s1 : iostream_read nofuel 1 buffer count p s = Ok ERROR_NONE s1 -> sattributes (at_ p s) <> 0 -> 0 <= count ->
  stream_ok (at_ p s) ->
  stream_ok (at_ p s1) /\ sattributes (at_ p s1) = sattributes (at_ p s) /\
  sbytes (at_ p s) = take (Z.to_nat count) (sbytes (at_ p s)) ++ sbytes (at_ p s1).
Proof.
  intros Hrun Hat Hc [Hfit Hw]. cbn [iostream_read] in Hrun. unfold get, bind at 1 in Hrun.
  destruct (negb _ && (1 <? count)) eqn:Hone; [done|].
  assert (count <= 1) as Hc1.
  { apply andb_false_iff in Hone. destruct Hone as [Hone|Hone%Z.ltb_ge]; [|done]. apply negb_false_iff, Z.eqb_eq in Hone.
    apply Z.lor_eq_0_iff in Hone. destruct Hone as [_ Hone]. by unfold IOSTREAM_ATTR_ONE_BYTE in Hone. }
  destruct (sbytes (at_ p s)) as [|b r] eqn:Hb.
  - rewrite blocking in Hrun by done. by rewrite wait_blocks in Hrun.
  - assert ((scount (at_ p s) <? count) = false) as Hlt by (unfold scount; rewrite Hb; cbn; apply Z.ltb_ge; lia).
    rewrite Hlt in Hrun. unfold upd_io_mem, on_stream, modify, bind, ret in Hrun. injection Hrun as <-. rewrite at_to, mem_apart. cbn.
    rewrite Hb, take_drop. split; [|done]. split; cbn.
    + unfold scount in *. cbn. rewrite Hb in Hfit. rewrite length_drop. lia.
    + intros Hne. by specialize (Hw Hne).
Qed.

Lemma wait_step s s1 : iostream_wait (ret tt) p s = Ok tt s1 -> sbytes (at_ p s) = [] -> stream_ok (at_ p s) ->
  stream_ok (at_ p s1) /\ sattributes (at_ p s1) = sattributes (at_ p s) /\ sbytes (at_ p s1) = [].
Proof.
  intros Hrun Hb [Hfit Hw]. unfold iostream_wait, get, on_stream, modify, bind at 1 2 in Hrun. set (s2 := to_ p _ s) in Hrun.
  destruct (sleeps_apart (running s) s2) as (s3 & Hs & Heq). unfold bind in Hrun. rewrite Hs in Hrun. unfold ret in Hrun. injection Hrun as <-.
  rewrite Heq. subst s2. rewrite at_to. split; [|by rewrite <- Hb]. split; [done|]. intros _. done.
Qed.

End StreamTraces.

(** ** A system with one stream *)

Record pipe : Type := mk_pipe { pstream : io_stream_t; pmem : mem; ready : list (Z * Z) }.
#[export] Instance pipe_threads : Threads pipe := {|
  running _ := (1, 2); thread_sleeps _ := ret tt;
  scheduler_gets x := modify (fun s => mk_pipe (pstream s) (pmem s) (ready s ++ [x]));
  io_mem := pmem; set_io_mem m s := mk_pipe (pstream s) m (ready s) |}.
Definition the_pipe : pointer pipe := mk_pointer pstream (fun x s => mk_pipe x (pmem s) (ready s)).
#[export] Instance pipe_apart : StreamApart the_pipe.
Proof. split; intros; cbn; eauto. Qed.
Definition demo_pipe : pipe := mk_pipe iostream_alloc (fun _ => 0) [].

Definition demo_pipe_with (bytes : list Z) (waiting woken : list (Z * Z)) : pipe := mk_pipe (mk_stream bytes 100 5 waiting) (fun _ => 0) woken.
Definition demo_pipe_end : pipe := mk_pipe (mk_stream [9] 100 5 []) (store_bytes (fun _ => 0) 64 [8]) [(1, 2)].


(** The buffer is doubled once, however much is written. *)
Lemma large_write_overruns : iostream_write nofuel 1 (replicate 201 0) the_pipe demo_pipe = Fault.
Proof. reflexivity. Qed.
(** More than one byte is never delivered: the test of the attribute has [|]
    for [&]. *)
Lemma read_two_refused {S} `{Threads S} others n buffer count (p : pointer S) s : 1 < count ->
  iostream_read others (Datatypes.S n) buffer count p s = Ok ERROR_FILE_FS_INTERNAL s.
Proof.
  intros Hc. cbn [iostream_read]. unfold get, bind at 1. dec_true (1 <? count). rewrite andb_true_r.
  destruct (Z.eqb_spec (Z.lor (sattributes (at_ p s)) IOSTREAM_ATTR_ONE_BYTE) 0) as [Hz|]; [|done].
  apply Z.lor_eq_0_iff in Hz. by destruct Hz as [_ Hz].
Qed.
