(* ===== verification/Tty.v ===== *)
(** Terminals and the keyboard (io/ttys.c, devices/keyboard.c,
    [keyboard_interrupt] of cpu/isrs.c).

    A terminal keeps what was written to it, the line that is being read and
    the stream of the keys.  The bytes of its two buffers up to their counts are
    [tbytes] and [canon_buffer]; a write behind the end of a buffer is a
    [Fault].  The terminals are the members of [tty_list].  A string or buffer
    that is written is the list of the bytes from its address on, with zeros
    behind those given; [behind] is the byte behind the character that is
    echoed.  What terminals use of processes, groups and signals is the class
    [Tasks].  [arrivals] are the characters that the keyboard is going to
    deliver, in the portions in which they come while a reader sleeps. *)

From S2P Require Import Prelude Errors Mem Strings Storage Vga Streams.

Definition TTY_DEFAULT_BUFFER_SIZE : Z := 1024.
Definition VEOF : Z := 1.
Definition VEOL : Z := 2.
Definition VERASE : Z := 3.
Definition VINTR : Z := 4.
Definition VKILL : Z := 5.
Definition VMIN : Z := 6.
Definition VSTART : Z := 8.
Definition VSTOP : Z := 9.
Definition VSUSP : Z := 10.
Definition VTIME : Z := 11.
Definition BRKINT : Z := 1.
Definition ICRNL : Z := 2.
Definition IGNCR : Z := 8.
Definition INLCR : Z := 32.
Definition ISTRIP : Z := 128.
Definition OPOST : Z := 1.
Definition ONLCR : Z := 4.
Definition CREAD : Z := 128.
Definition ISIG : Z := 1.
Definition ICANON : Z := 2.
Definition ECHO : Z := 8.
Definition ECHOE : Z := 16.
Definition ECHOK : Z := 32.
Definition ECHONL : Z := 64.
Definition TOSTOP : Z := 256.
Definition IEXTEN : Z := 512.
Definition TTY_SIGCONT : Z := 5.
Definition SIGINT : Z := 9.
Definition SIGKILL : Z := 10.
Definition SIGSTOP : Z := 14.
Definition SIGTSTP : Z := 16.
Definition SIGTTIN : Z := 17.
Definition SIGTTOU : Z := 18.
Definition I_TTY_SETPGRP : Z := 1.
Definition I_TTY_GETPGRP : Z := 2.
Definition S32_MAX : Z := 2147483648.

Record termios : Type := mk_termios { c_iflag : Z; c_oflag : Z; c_cflag : Z; c_lflag : Z; c_cc : list Z }.
Definition cc (t : termios) (k : Z) : Z := nth (Z.to_nat k) (c_cc t) 0.
Record tty_t : Type := mk_tty {
  tbytes : list Z; tbuffer_size : Z; canon_buffer : list Z; canon_buffer_size : Z;
  char_width : Z; char_height : Z; cursor_pos : Z; keyboard_stream : io_stream_t; tty_node : Z;
  termio : termios; foreground_processes : Z; tsession : Z }.
Definition tcount (t : tty_t) : Z := Z.of_nat (length (tbytes t)).
Definition canon_buffer_count (t : tty_t) : Z := Z.of_nat (length (canon_buffer t)).

Definition set_output (b : list Z) (n : Z) (t : tty_t) : tty_t :=
  mk_tty b n (canon_buffer t) (canon_buffer_size t) (char_width t) (char_height t) (cursor_pos t) (keyboard_stream t) (tty_node t) (termio t) (foreground_processes t) (tsession t).
Definition set_canon (b : list Z) (n : Z) (t : tty_t) : tty_t :=
  mk_tty (tbytes t) (tbuffer_size t) b n (char_width t) (char_height t) (cursor_pos t) (keyboard_stream t) (tty_node t) (termio t) (foreground_processes t) (tsession t).
Definition set_cursor_pos (n : Z) (t : tty_t) : tty_t :=
  mk_tty (tbytes t) (tbuffer_size t) (canon_buffer t) (canon_buffer_size t) (char_width t) (char_height t) n (keyboard_stream t) (tty_node t) (termio t) (foreground_processes t) (tsession t).
Definition set_keyboard_stream (x : io_stream_t) (t : tty_t) : tty_t :=
  mk_tty (tbytes t) (tbuffer_size t) (canon_buffer t) (canon_buffer_size t) (char_width t) (char_height t) (cursor_pos t) x (tty_node t) (termio t) (foreground_processes t) (tsession t).
Definition set_foreground (g : Z) (t : tty_t) : tty_t :=
  mk_tty (tbytes t) (tbuffer_size t) (canon_buffer t) (canon_buffer_size t) (char_width t) (char_height t) (cursor_pos t) (keyboard_stream t) (tty_node t) (termio t) g (tsession t).
Definition set_node (n : Z) (t : tty_t) : tty_t :=
  mk_tty (tbytes t) (tbuffer_size t) (canon_buffer t) (canon_buffer_size t) (char_width t) (char_height t) (cursor_pos t) (keyboard_stream t) n (termio t) (foreground_processes t) (tsession t).

(** Processes, groups and sessions as the terminals use them: the process that
    runs, its group, session, terminal and signal handlers; sending signals;
    the address of a group by its number, and what is at that address. *)
Class Tasks (T : Type) := {
  t_running : T -> Z * Z;
  t_sleeps : Z * Z -> M T unit;
  t_gets : Z * Z -> M T unit;
  t_pid : T -> Z;
  t_group : T -> Z;
  t_session : T -> Z;
  t_tty : T -> option nat;
  t_handler : T -> Z -> Z;
  send_signal_to : Z -> Z -> M T unit;
  send_signal_to_pgroup : Z -> Z -> M T unit;
  find_group : Z -> M T Z;
  group_gid : T -> Z -> Z;
  group_session : T -> Z -> Z;
  group_in_use : T -> Z -> bool }.

Record ttys (T : Type) : Type := mk_ttys {
  tty_list : list tty_t; current_tty : option nat; tscreen : screen; tmem : mem;
  kbd_maj : bool; kbd_ctrl : bool; kbd_alt : bool; arrivals : list (list Z); tasks : T }.
Arguments mk_ttys {T}. Arguments tty_list {T}. Arguments current_tty {T}. Arguments tscreen {T}. Arguments tmem {T}.
Arguments kbd_maj {T}. Arguments kbd_ctrl {T}. Arguments kbd_alt {T}. Arguments arrivals {T}. Arguments tasks {T}.

Definition chars (s : string) : list Z := map (fun c => Z.of_N (Ascii.N_of_ascii c)) (String.list_ascii_of_string s).
Definition byte_of (src : list Z) (k : Z) : Z := nth (Z.to_nat k) src 0.
(** [count] bytes from the address on. *)
Definition bytes_of (src : list Z) (count : Z) : list Z := take (Z.to_nat count) (src ++ replicate (Z.to_nat count - length src) 0).

Section Tty.
Context {T : Type} `{Tasks T}.

Definition upd_list (f : list tty_t -> list tty_t) (s : ttys T) : ttys T :=
  mk_ttys (f (tty_list s)) (current_tty s) (tscreen s) (tmem s) (kbd_maj s) (kbd_ctrl s) (kbd_alt s) (arrivals s) (tasks s).
Definition set_current_tty (i : option nat) (s : ttys T) : ttys T :=
  mk_ttys (tty_list s) i (tscreen s) (tmem s) (kbd_maj s) (kbd_ctrl s) (kbd_alt s) (arrivals s) (tasks s).
Definition upd_screen (f : screen -> screen) (s : ttys T) : ttys T :=
  mk_ttys (tty_list s) (current_tty s) (f (tscreen s)) (tmem s) (kbd_maj s) (kbd_ctrl s) (kbd_alt s) (arrivals s) (tasks s).
Definition set_tmem (m : mem) (s : ttys T) : ttys T :=
  mk_ttys (tty_list s) (current_tty s) (tscreen s) m (kbd_maj s) (kbd_ctrl s) (kbd_alt s) (arrivals s) (tasks s).
Definition set_kbd (maj ctrl alt : bool) (s : ttys T) : ttys T :=
  mk_ttys (tty_list s) (current_tty s) (tscreen s) (tmem s) maj ctrl alt (arrivals s) (tasks s).
Definition set_arrivals (l : list (list Z)) (s : ttys T) : ttys T :=
  mk_ttys (tty_list s) (current_tty s) (tscreen s) (tmem s) (kbd_maj s) (kbd_ctrl s) (kbd_alt s) l (tasks s).
Definition set_tasks (t : T) (s : ttys T) : ttys T :=
  mk_ttys (tty_list s) (current_tty s) (tscreen s) (tmem s) (kbd_maj s) (kbd_ctrl s) (kbd_alt s) (arrivals s) t.

Definition get_tty (i : nat) : M (ttys T) tty_t := fun s => match tty_list s !! i with Some t => Ok t s | None => Fault end.
Definition on_tty (i : nat) (f : tty_t -> tty_t) : M (ttys T) unit := modify (upd_list (alter f i)).
Definition on_tasks {A} (c : M T A) : M (ttys T) A :=
  fun s => match c (tasks s) with Ok a t => Ok a (set_tasks t s) | Fatal e => Fatal e | Fault => Fault | NoFuel => NoFuel end.
Definition upd_tmem (f : mem -> mem) : M (ttys T) unit := modify (fun s => set_tmem (f (tmem s)) s).

#[export] Instance ttys_threads : Threads (ttys T) := {|
  running s := t_running (tasks s); thread_sleeps x := on_tasks (t_sleeps x); scheduler_gets x := on_tasks (t_gets x);
  io_mem := tmem; set_io_mem := set_tmem |}.
Definition kbd_stream (i : nat) : pointer (ttys T) :=
  mk_pointer (fun s => match tty_list s !! i with Some t => keyboard_stream t | None => iostream_alloc end)
             (fun x => upd_list (alter (set_keyboard_stream x) i)).

(** ** Writing *)

(** The numbers, the letter and the index of a control sequence. *)
Definition parse_csi (src : list Z) : option (Z * Z * Z * Z) :=
  match atoiindex (S (length src)) (mem_of 0 (drop 2 src)) 0 with
  | None => None
  | Some (v, i) =>
    let n := if u32 v =? 0 then 1 else u32 v in
    let control := byte_of src (2 + i) in
    if control =? 59 then
      match atoiindex (S (length src)) (mem_of 0 (drop (2 + Z.to_nat i) src)) 0 with
      | None => None
      | Some (v, i) => Some (n, if u32 v =? 0 then 1 else u32 v, byte_of src (2 + i), i)
      end
    else Some (n, 1, control, i)
  end.

Definition not_allowed (s : ttys T) (t : tty_t) : bool := negb (t_group (tasks s) =? foreground_processes t).

(** The copy to the buffer of the terminal and to the screen. *)
Definition put_text (src : list Z) (count : Z) (i : nat) : M (ttys T) Z :=
  t <- get_tty i ;;
  let size := if tbuffer_size t <? u32 (tcount t + count) then u32 (tbuffer_size t * 2) else tbuffer_size t in
  if size <? tcount t + count then fault else
  let bytes := bytes_of src count in
  on_tty i (fun t => set_output (tbytes t ++ bytes) size t) ;;;
  s <- get ;;
  (if bool_decide (current_tty s = Some i) then modify (upd_screen (fun sc => foldl (fun sc c => vga_text_putc sc c 7) sc bytes)) else ret tt) ;;;
  ret ERROR_NONE.

Fixpoint tty_write (k : nat) (src : list Z) (count : Z) (i : nat) : M (ttys T) Z :=
  match k with
  | O => nofuel
  | S k' =>
    t <- get_tty i ;;
    s <- get ;;
    if not_allowed s t && flag (c_lflag (termio t)) TOSTOP && negb (t_handler (tasks s) SIGTTOU =? 1) then
      on_tasks (send_signal_to (t_pid (tasks s)) SIGTTOU) ;;; ret ERROR_IO
    else if common_prefix [27; 91] src =? 2 then
      match parse_csi src with
      | None => nofuel
      | Some (n, m, control, j) =>
        (if control =? 72 then
           on_tty i (set_cursor_pos (u32 (char_width t * n + m))) ;;;
           modify (upd_screen (fun sc => vga_text_set_cursor sc (u8 (n - 1)) (u8 (m - 1))))
         else if control =? 74 then
           if n =? 2 then modify (upd_screen vga_text_cls) else ret tt
         else ret tt) ;;;
        let count := u32 (count - 3 - j) in
        if negb (count =? 0) then tty_write k' (drop (3 + Z.to_nat j) src) count i else ret ERROR_NONE
      end
    else put_text src count i
  end.

(** ** Reading *)

Section TtyRead.
(** What the rest of the system does while the reader sleeps; [w] bounds how
    often it sleeps for one character. *)
Context (others : M (ttys T) unit) (w : nat).

(** The loop of a canonical read; the result is what is left of [count]. *)
Fixpoint canon_loop (count : nat) (i : nat) : M (ttys T) Z :=
  match count with
  | O => ret 0
  | S k =>
    ch <- iostream_getch others w (kbd_stream i) ;;
    t <- get_tty i ;;
    let size := if canon_buffer_size t <=? canon_buffer_count t then u32 (canon_buffer_size t * 2) else canon_buffer_size t in
    if size <=? canon_buffer_count t then fault else
    on_tty i (fun t => set_canon (canon_buffer t ++ [ch]) size t) ;;;
    if ch =? 10 then ret (Z.of_nat k) else canon_loop k i
  end.
Fixpoint getch_loop (countmin : nat) (a : Z) (i : nat) : M (ttys T) unit :=
  match countmin with
  | O => ret tt
  | S k => ch <- iostream_getch others w (kbd_stream i) ;; upd_tmem (fun m => store8 m a ch) ;;; getch_loop k (a + 1) i
  end.

Definition tty_read (buffer count : Z) (i : nat) : M (ttys T) Z :=
  t <- get_tty i ;;
  s <- get ;;
  if not_allowed s t then on_tasks (send_signal_to (t_pid (tasks s)) SIGTTIN) ;;; ret ERROR_IO else
  if flag (c_lflag (termio t)) ICANON then
    count <- canon_loop (Z.to_nat count) i ;;
    t <- get_tty i ;;
    upd_tmem (fun m => memset (store_bytes m buffer (canon_buffer t)) (buffer + canon_buffer_count t) 0 (u32 (count - canon_buffer_count t))) ;;;
    on_tty i (fun t => set_canon [] (canon_buffer_size t) t) ;;;
    ret ERROR_NONE
  else
    let vmin := cc (termio t) VMIN in
    let vtime := cc (termio t) VTIME in
    if (vmin =? 0) && (vtime =? 0) then
      let x := keyboard_stream t in
      (if negb (scount x =? 0) then
         let countmin := if scount x <? count then scount x else count in
         let left := scount x - countmin in
         upd_tmem (fun m => store_bytes m buffer (take (Z.to_nat countmin) (sbytes x))) ;;;
         on_tty i (set_keyboard_stream (set_sbytes (bytes_at (memcpy (mem_of 0 (sbytes x)) countmin 0 left) 0 (Z.to_nat left)) x))
       else ret tt) ;;;
      ret ERROR_NONE
    else if (0 <? vmin) && (vtime =? 0) then
      getch_loop (Z.to_nat (if count <? vmin then count else vmin)) buffer i ;;; ret ERROR_NONE
    else ret UNKNOWN_ERROR.
End TtyRead.

(** ** Input *)

(** [stale] is what follows the text in the buffer of the terminal, which has no
    end of its own. *)
Context (behind : Z) (stale : list Z).

Definition until_end (l : list Z) : list Z := match index_of 0 l with Some k => take k l | None => l end.
Definition tty_switch (i : nat) : M (ttys T) unit :=
  s <- get ;;
  if bool_decide (current_tty s = Some i) then ret tt else
  t <- get_tty i ;;
  modify (set_current_tty (Some i)) ;;;
  modify (upd_screen (fun sc => vga_text_tty_switch sc (until_end (tbytes t ++ stale)))).

(** The character after the input modes; [None]: it is dropped. *)
Definition cooked (io : termios) (c : Z) : option Z :=
  let c := if flag (c_iflag io) ISTRIP then Z.land c 127 else c in
  let c := if flag (c_iflag io) INLCR && (c =? 10) then 13 else c in
  if flag (c_iflag io) IGNCR && (c =? 13) then None else
  Some (if flag (c_iflag io) ICRNL && (c =? 13) then 10 else c).

Definition erase (i : nat) (t : tty_t) : M (ttys T) unit :=
  if flag (c_lflag (termio t)) ICANON && flag (c_lflag (termio t)) ECHOE && negb (canon_buffer_count t =? 0) then
    let terase := default 0 (last (canon_buffer t)) in
    if negb (terase =? cc (termio t) VEOF) && negb (terase =? cc (termio t) VEOL) && negb (terase =? 10) then
      on_tty i (fun t => set_canon (removelast (canon_buffer t)) (canon_buffer_size t) t) ;;;
      (if tcount t =? 0 then fault else on_tty i (fun t => set_output (removelast (tbytes t)) (tbuffer_size t) t)) ;;;
      (if flag (c_lflag (termio t)) ECHO then modify (upd_screen (fun sc => vga_text_putc sc 8 0)) else ret tt)
    else ret tt
  else ret tt.

(** A signal of the keyboard, with the text that is echoed for it. *)
Definition key_signal (t : tty_t) (c : Z) : option (Z * list Z) :=
  let io := termio t in
  if flag (c_lflag io) ISIG && negb (foreground_processes t =? 0) then
    if c =? cc io VINTR then Some (SIGINT, [94; 67; 10])
    else if c =? cc io VKILL then Some (SIGKILL, [94; 85; 10])
    else if c =? cc io VSTART then Some (TTY_SIGCONT, [94; 81; 10])
    else if c =? cc io VSTOP then Some (SIGSTOP, [94; 83; 10])
    else if c =? cc io VSUSP then Some (SIGTSTP, [94; 90; 10])
    else None
  else None.

Definition tty_input (i : nat) (c : Z) : M (ttys T) unit :=
  t <- get_tty i ;;
  let io := termio t in
  match cooked io c with
  | None => ret tt
  | Some c =>
    if c =? cc io VERASE then erase i t else
    match key_signal t c with
    | Some (sig, text) =>
      s <- get ;;
      on_tasks (send_signal_to_pgroup (group_gid (tasks s) (foreground_processes t)) sig) ;;;
      (if flag (c_lflag io) ECHO then tty_write 2 text 3 i ;;; ret tt else ret tt)
    | None =>
      if c =? cc io VEOF then ret tt else
      (if flag (c_lflag io) ECHO then tty_write 2 [c; behind] 1 i ;;; ret tt
       else if (c =? 10) && negb (Z.land (Z.land (c_lflag io) ICANON) ECHONL =? 0) then tty_write 2 [c; behind] 1 i ;;; ret tt
       else ret tt) ;;;
      iostream_write nofuel 1 [c] (kbd_stream i) ;;;
      ret tt
    end
  end.

(** The next portion of the characters to come. *)
Fixpoint inputs (i : nat) (cs : list Z) : M (ttys T) unit :=
  match cs with
  | [] => ret tt
  | c :: r => tty_input i c ;;; inputs i r
  end.
Definition keyboard_delivers (i : nat) : M (ttys T) unit :=
  s <- get ;;
  match arrivals s with
  | [] => ret tt
  | cs :: r => put (set_arrivals r s) ;;; inputs i cs
  end.

(** ** Control *)

Definition tty_ioctl (i : nat) (func arg : Z) : M (ttys T) Z :=
  t <- get_tty i ;;
  s <- get ;;
  if func =? I_TTY_SETPGRP then
    if negb (bool_decide (t_tty (tasks s) = Some i)) then ret ERROR_NO_TTY else
    if negb (tsession t =? t_session (tasks s)) then ret ERROR_IS_ANOTHER_SESSION else
    group <- on_tasks (find_group (s32 arg)) ;;
    s <- get ;;
    if (group =? 0) || negb (group_session (tasks s) group =? t_session (tasks s)) || negb (group_in_use (tasks s) group) then ret ERROR_PERMISSION else
    on_tty i (set_foreground group) ;;;
    ret ERROR_NONE
  else if func =? I_TTY_GETPGRP then
    if negb (bool_decide (t_tty (tasks s) = Some i)) then ret ERROR_NO_TTY else
    upd_tmem (fun m => store32 m arg (if negb (foreground_processes t =? 0) then group_gid (tasks s) (foreground_processes t) else S32_MAX - 1)) ;;;
    ret ERROR_NONE
  else ret UNKNOWN_ERROR.

(** ** Initialisation *)

Definition default_termios (old : list Z) : termios :=
  mk_termios (Z.lor ICRNL BRKINT) (Z.lor ONLCR OPOST) CREAD (Z.lor (Z.lor (Z.lor (Z.lor (Z.lor ECHO ECHOE) ECHOK) ICANON) ISIG) IEXTEN)
    (<[11%nat := 0]> (<[10%nat := 26]> (<[9%nat := 19]> (<[8%nat := 17]> (<[7%nat := 28]> (<[6%nat := 1]> (<[5%nat := 21]> (<[4%nat := 3]>
      (<[3%nat := 8]> (<[2%nat := 0]> (<[1%nat := 4]> old))))))))))).

(** [fresh] is the terminal that [kmalloc] leaves; [register_device] enters it
    into the device directory. *)
Definition tty_init (fresh : tty_t) (register_device : list Z -> nat -> M (ttys T) Z) (name : list Z) : M (ttys T) (option nat) :=
  s <- get ;;
  let i := length (tty_list s) in
  let k := iostream_alloc in
  let k := mk_stream (sbytes k) (sbuffer_size k) (Z.lor (sattributes k) IOSTREAM_ATTR_ONE_BYTE) (waiting_processes k) in
  modify (upd_list (fun l => l ++ [mk_tty [] TTY_DEFAULT_BUFFER_SIZE [] 256 (char_width fresh) (char_height fresh) (cursor_pos fresh) k (tty_node fresh) (termio fresh) 0 (tsession fresh)])) ;;;
  tty_write 2 (chars "VK 0.0-indev (") 14 i ;;;
  tty_write (S (length name)) name (Z.of_nat (length name)) i ;;;
  tty_write 2 [41; 10] 2 i ;;;
  trf <- register_device name i ;;
  if trf =? 0 then modify (upd_list (fun l => removelast l)) ;;; ret None else
  on_tty i (fun t => mk_tty (tbytes t) (tbuffer_size t) (canon_buffer t) (canon_buffer_size t) 80 25 0 (keyboard_stream t) trf
                       (default_termios (c_cc (termio t))) (foreground_processes t) (tsession t)) ;;;
  ret (Some i).
Definition say (text : list Z) : M (ttys T) unit :=
  modify (upd_screen (fun sc => match kprintf sc text [] with Some sc => sc | None => sc end)).
Definition one_tty (fresh : tty_t) (register_device : list Z -> nat -> M (ttys T) Z) (name error : string) : M (ttys T) nat :=
  o <- tty_init fresh register_device (chars name) ;;
  match o with
  | Some i => ret i
  | None => modify (upd_screen vga_text_failmsg) ;;; fatal_kernel_error error
  end.
Definition ttys_init (fresh : tty_t) (register_device : list Z -> nat -> M (ttys T) Z) : M (ttys T) unit :=
  say (chars "Initializing ttys...") ;;;
  tty1 <- one_tty fresh register_device "tty1" "Failed to initialize TTY 1" ;;
  tty2 <- one_tty fresh register_device "tty2" "Failed to initialize TTY 2" ;;
  tty3 <- one_tty fresh register_device "tty3" "Failed to initialize TTY 3" ;;
  modify (set_current_tty (Some tty1)) ;;;
  modify (upd_screen vga_text_okmsg).
End Tty.
