(* ===== verification/TtyLine.v ===== *)
(** Line editing (io/ttys.c): what a canonical read of a terminal returns when
    the keys come while the reader sleeps.

    The reader takes each character out of the stream as it comes, the erase
    key removes the last one from the line that is being read, and the line
    ends with the return key. *)

From S2P Require Import Prelude Errors Mem Strings Storage Vga Streams Tty.

(** The modes and control characters that [tty_init] sets. *)
Record std_termios (io : termios) : Prop := {
  std_iflag : c_iflag io = 3;
  std_lflag : c_lflag io = 571;
  std_eof : cc io VEOF = 4;
  std_eol : cc io VEOL = 0;
  std_erase : cc io VERASE = 8;
  std_intr : cc io VINTR = 3;
  std_kill : cc io VKILL = 21;
  std_start : cc io VSTART = 17;
  std_stop : cc io VSTOP = 19;
  std_susp : cc io VSUSP = 26 }.

Lemma default_std old : length old = 32%nat -> std_termios (default_termios old).
Proof. intros Hl. do 32 (destruct old as [|? old]; [done|]). by split. Qed.

(** A character that is neither a control character of the terminal nor the
    start of a control sequence. *)
Definition plain (c : Z) : Prop := 0 < c < 256 /\ c ∉ [3; 4; 8; 10; 13; 17; 19; 21; 26; 27].
(** The line after the keys. *)
Definition edit (line keys : list Z) : list Z := foldl (fun l c => if c =? 8 then removelast l else l ++ [c]) line keys.
(** How many characters the reader takes. *)
Definition taken (keys : list Z) : nat := length (filter (fun c => c <> 8) keys).

Section Line.
Context {T : Type} `{Tasks T} (behind : Z) (i : nat).

Class TasksReturn : Prop := {
  sleeps_return : forall x t, exists t', t_sleeps x t = Ok tt t';
  gets_return : forall x t, exists t', t_gets x t = Ok tt t' }.
Context `{TasksReturn}.

(** The terminal [t] while a reader has [line], with [b] in the stream and
    [keys] to come one by one. *)
Record reading (s : ttys T) (t : tty_t) (line b keys : list Z) (rest : list (list Z)) (m : mem) : Prop := {
  r_tty : tty_list s !! i = Some t;
  r_io : std_termios (termio t);
  r_line : canon_buffer t = line;
  r_canon : canon_buffer_count t <= canon_buffer_size t /\ 0 < canon_buffer_size t < 4294967296;
  r_bytes : sbytes (keyboard_stream t) = b;
  r_attr : sattributes (keyboard_stream t) <> 0;
  r_size : 1 <= sbuffer_size (keyboard_stream t) < 4294967296;
  r_out : tcount t <= tbuffer_size t /\ 0 < tbuffer_size t < 4294967296;
  r_echoed : (length line + length b <= length (tbytes t))%nat;
  r_room : Z.of_nat (length (tbytes t)) + Z.of_nat (length keys) < 2147483648;
  r_arrivals : arrivals s = map (fun c => [c]) keys ++ rest;
  r_mem : tmem s = m }.

Lemma wake_all_returns l s : exists u, wake_all l s = Ok tt (set_tasks u s).
Proof.
  revert s. induction l as [|x l IH]; intros s; cbn [wake_all]; [exists (tasks s); by destruct s|].
  destruct (gets_return x (tasks s)) as [u Hu]. destruct (IH (set_tasks u s)) as [u' Hu']. exists u'.
  unfold bind, scheduler_gets at 1. cbn. unfold on_tasks. rewrite Hu. by rewrite Hu'.
Qed.

(** Changes of the terminal at [i], seen from outside. *)
Lemma alter_here (f : tty_t -> tty_t) (s : ttys T) t : tty_list s !! i = Some t -> tty_list (upd_list (alter f i) s) !! i = Some (f t).
Proof. intros Ht. cbn. by rewrite list_lookup_alter_eq, Ht. Qed.
Lemma get_tty_here (s : ttys T) t : tty_list s !! i = Some t -> get_tty i s = Ok t s.
Proof. intros Ht. unfold get_tty. by rewrite Ht. Qed.

Lemma wait_sleeps s t line keys rest m : reading s t line [] keys rest m ->
  exists s' t', iostream_wait (ret tt) (kbd_stream i) s = Ok tt s' /\ reading s' t' line [] keys rest m.
Proof.
  intros [Ht Hio Hline Hcanon Hb Hattr Hsize Hout Hecho Hroom Harr Hm]. unfold iostream_wait, get, on_stream, modify, bind at 1 2.
  cbn [at_ to_ kbd_stream]. rewrite Ht. set (x := set_swaiting _ _). set (s1 := upd_list _ s).
  destruct (sleeps_return (running s) (tasks s1)) as [u Hu].
  exists (set_tasks u s1), (set_keyboard_stream x t). split.
  - unfold bind, thread_sleeps. cbn [ttys_threads]. unfold on_tasks. change (t_running (tasks s)) with (running s) in Hu. by rewrite Hu.
  - split; try done. subst s1. cbn. by rewrite list_lookup_alter_eq, Ht.
Qed.

Lemma wait_then others s s1 : iostream_wait (ret tt) (kbd_stream i) s = Ok tt s1 -> iostream_wait others (kbd_stream i) s = others s1.
Proof.
  unfold iostream_wait, bind. destruct (get s) as [a s0| | |]; try done. destruct (on_stream _ _ s0) as [a' s0'| | |]; try done.
  destruct (thread_sleeps _ s0') as [a'' s0''| | |]; try done. unfold ret. by intros [= <-].
Qed.

(** The echo of one character. *)
Lemma echo_ok s t line keys rest m c : reading s t line [] keys rest m -> c <> 27 -> 0 <= c < 256 ->
  Z.of_nat (length (tbytes t)) + 1 + Z.of_nat (length keys) < 2147483648 ->
  exists s' t', tty_write 2 [c; behind] 1 i s = Ok ERROR_NONE s' /\ reading s' t' line [] keys rest m /\
    (length line + 1 <= length (tbytes t'))%nat /\ foreground_processes t' = foreground_processes t.
Proof.
  intros [Ht Hio Hline Hcanon Hb Hattr Hsize Hout Hecho Hroom Harr Hm] Hc Hr Hmore. cbn [tty_write]. unfold tcount in Hout.
  rewrite (bind_ok _ _ _ _ _ (get_tty_here s t Ht)). unfold get, bind at 1. rewrite (std_lflag _ Hio).
  change (flag 571 TOSTOP) with false. rewrite andb_false_r. cbn [andb].
  replace (common_prefix [27; 91] [c; behind] =? 2) with false by (cbn [common_prefix]; by dec_false (27 =? c)).
  unfold put_text. rewrite (bind_ok _ _ _ _ _ (get_tty_here s t Ht)). unfold tcount. cbv zeta. rewrite (u32_id (_ + 1)) by lia.
  set (size := if tbuffer_size t <? _ then _ else _).
  assert (Z.of_nat (length (tbytes t)) + 1 <= size < 4294967296) as Hsz.
  { subst size. destruct (Z.ltb_spec (tbuffer_size t) (Z.of_nat (length (tbytes t)) + 1)); [rewrite u32_id by lia|]; lia. }
  dec_false (size <? Z.of_nat (length (tbytes t)) + 1).
  change (bytes_of [c; behind] 1) with [c]. unfold on_tty, modify, bind at 1. set (s1 := upd_list _ s).
  assert (forall f, reading (upd_screen f s1) (set_output (tbytes t ++ [c]) size t) line [] keys rest m) as Hrd.
  { intros f. split; try done; cbn; unfold tcount; cbn; rewrite ?length_app; cbn; try lia. by rewrite list_lookup_alter_eq, Ht. }
  unfold get, bind at 1. exists (if bool_decide (current_tty s1 = Some i) then upd_screen (fun sc => foldl (fun sc c => vga_text_putc sc c 7) sc [c]) s1 else s1).
  exists (set_output (tbytes t ++ [c]) size t). split; [by destruct (bool_decide _)|]. split.
  - destruct (bool_decide _); [apply Hrd|]. specialize (Hrd (fun x => x)). by destruct Hrd.
  - cbn. rewrite length_app. cbn in *. split; [lia|done].
Qed.

(** The character goes into the stream and the sleepers are woken. *)
Lemma stream_takes s t line keys rest m c : reading s t line [] keys rest m -> (length line + 1 <= length (tbytes t))%nat ->
  exists s' t', iostream_write nofuel 1 [c] (kbd_stream i) s = Ok ERROR_NONE s' /\ reading s' t' line [c] keys rest m.
Proof.
  intros [Ht Hio Hline Hcanon Hb Hattr Hsize Hout Hecho Hroom Harr Hm] Hmore.
  assert (at_ (kbd_stream i) s = keyboard_stream t) as Hat by (cbn; by rewrite Ht).
  assert (scount (keyboard_stream t) = 0) as Hsc by (unfold scount; by rewrite Hb).
  assert (too_much (keyboard_stream t) 1 = false) as Htm.
  { unfold too_much. rewrite Hsc, u32_id by lia. by dec_false (sbuffer_size (keyboard_stream t) <? 0 + 1). }
  unfold iostream_write, get, bind at 1. rewrite Hat. change (Z.of_nat (length [c])) with 1. rewrite Htm. cbv match zeta.
  unfold append_bytes, get, bind at 1. rewrite Hat, Hsc. change (Z.of_nat (length [c])) with 1.
  dec_false (sbuffer_size (keyboard_stream t) <? 0 + 1). cbv match. unfold on_stream at 1, modify, bind at 1. rewrite Hat. cbn [to_ kbd_stream].
  set (x := set_sbytes _ _). set (s1 := upd_list _ s).
  assert (tty_list s1 !! i = Some (set_keyboard_stream x t)) as Ht1 by exact (alter_here (set_keyboard_stream x) s t Ht).
  unfold iostream_wake, get, bind at 1 2. cbn [at_ kbd_stream]. rewrite Ht1. destruct (wake_all_returns (waiting_processes (keyboard_stream (set_keyboard_stream x t))) s1) as [u Hu].
  rewrite (bind_ok _ _ _ _ _ Hu). unfold on_stream, modify. cbn [at_ to_ kbd_stream]. change (tty_list (set_tasks u s1)) with (tty_list s1). rewrite Ht1.
  eexists _, (set_keyboard_stream (set_swaiting [] x) t). split; [reflexivity|]. split; try done.
  - change (tty_list (upd_list (alter (set_keyboard_stream (set_swaiting [] x)) i) (set_tasks u s1)) !! i = Some (set_keyboard_stream (set_swaiting [] x) t)).
    by rewrite (alter_here _ (set_tasks u s1) _ Ht1).
  - cbn. by rewrite Hb.
Qed.

Lemma input_plain s t line keys rest m c : reading s t line [] keys rest m -> plain c \/ c = 10 ->
  Z.of_nat (length (tbytes t)) + 1 + Z.of_nat (length keys) < 2147483648 ->
  exists s' t', tty_input behind i c s = Ok tt s' /\ reading s' t' line [c] keys rest m.
Proof.
  intros Hrd Hc Hmore. assert (0 < c < 256 /\ c ∉ [3; 4; 8; 13; 17; 19; 21; 26; 27]) as [Hr Hn].
  { destruct Hc as [[Hr Hn] | ->]; [split; [done|]; set_solver|]. split; [lia|]. by apply (bool_decide_unpack _). }
  assert (c <> 3 /\ c <> 4 /\ c <> 8 /\ c <> 13 /\ c <> 17 /\ c <> 19 /\ c <> 21 /\ c <> 26 /\ c <> 27) as (H3 & H4 & H8 & H13 & H17 & H19 & H21 & H26 & H27) by set_solver.
  unfold tty_input. rewrite (bind_ok _ _ _ _ _ (get_tty_here s t (r_tty _ _ _ _ _ _ _ Hrd))).
  pose proof (r_io _ _ _ _ _ _ _ Hrd) as Hio. assert (cooked (termio t) c = Some c) as ->.
  { unfold cooked. rewrite (std_iflag _ Hio). change (flag 3 ISTRIP) with false. change (flag 3 INLCR) with false. change (flag 3 IGNCR) with false.
    cbv zeta. cbn [andb]. dec_false (c =? 13). by rewrite andb_false_r. }
  rewrite (std_erase _ Hio). dec_false (c =? 8). assert (key_signal t c = None) as ->.
  { unfold key_signal. rewrite (std_intr _ Hio), (std_kill _ Hio), (std_start _ Hio), (std_stop _ Hio), (std_susp _ Hio).
    dec_false (c =? 3). dec_false (c =? 21). dec_false (c =? 17). dec_false (c =? 19). dec_false (c =? 26). by destruct (_ && _). }
  rewrite (std_eof _ Hio). dec_false (c =? 4). rewrite (std_lflag _ Hio). change (flag 571 ECHO) with true. cbv match.
  destruct (echo_ok s t line keys rest m c) as (s1 & t1 & Hw & Hrd1 & Hlen & _); try done; try lia.
  assert ((tty_write 2 [c; behind] 1 i;;; ret tt) s = Ok tt s1) as Hw1 by (by rewrite (bind_ok _ _ _ _ _ Hw)).
  rewrite (bind_ok _ _ _ _ _ Hw1). destruct (stream_takes s1 t1 line keys rest m c Hrd1 Hlen) as (s2 & t2 & Hs & Hrd2).
  exists s2, t2. split; [by rewrite (bind_ok _ _ _ _ _ Hs)|done].
Qed.

Lemma length_removelast_le {A} (l : list A) : (length (removelast l) <= length l)%nat.
Proof. induction l as [|x [|y l] IH]; cbn in *; lia. Qed.
Lemma length_removelast_ne {A} (l : list A) : l <> [] -> length (removelast l) = (length l - 1)%nat.
Proof. intros Hne. destruct l as [|x l]; [done|]. clear Hne. revert x. induction l as [|y l IH]; intros x; [done|]. cbn in *. rewrite IH. lia. Qed.

Lemma input_erase s t line keys rest m : reading s t line [] keys rest m -> Forall plain line ->
  exists s' t', tty_input behind i 8 s = Ok tt s' /\ reading s' t' (removelast line) [] keys rest m.
Proof.
  intros Hrd Hplain. pose proof Hrd as [Ht Hio Hline Hcanon Hb Hattr Hsize Hout Hecho Hroom Harr Hm].
  unfold tty_input. rewrite (bind_ok _ _ _ _ _ (get_tty_here s t Ht)).
  assert (cooked (termio t) 8 = Some 8) as -> by (unfold cooked; by rewrite (std_iflag _ Hio)).
  rewrite (std_erase _ Hio), Z.eqb_refl. unfold erase. rewrite (std_lflag _ Hio), (std_eof _ Hio), (std_eol _ Hio).
  change (flag 571 ICANON) with true. change (flag 571 ECHOE) with true. change (flag 571 ECHO) with true. unfold canon_buffer_count. rewrite Hline.
  destruct (decide (line = [])) as [->|Hne]; [by exists s, t|].
  assert (0 < length line)%nat as Hlen by (destruct line; [done|cbn; lia]).
  dec_false (Z.of_nat (length line) =? 0). cbn [andb negb]. destruct (last line) as [c|] eqn:Hlast; [|by apply last_None in Hlast].
  assert (plain c) as [Hr Hc] by (rewrite Forall_forall in Hplain; by apply Hplain, last_Some_elem_of).
  assert (c <> 4 /\ c <> 10) as [H4 H10] by set_solver. cbn [default]. unfold id. dec_false (c =? 4). dec_false (c =? 0). dec_false (c =? 10). cbn [andb negb].
  unfold tcount. dec_false (Z.of_nat (length (tbytes t)) =? 0). unfold on_tty, modify, bind.
  eexists _, (set_output (removelast (tbytes t)) (tbuffer_size t) (set_canon (removelast line) (canon_buffer_size t) t)). split; [reflexivity|].
  assert (tbytes t <> []) as Hnb by (destruct (tbytes t); [cbn in *; lia|done]).
  split; cbn; rewrite ?list_lookup_alter_eq, ?Ht; cbn; rewrite ?Hline; try done; unfold canon_buffer_count, tcount in *; cbn; rewrite ?Hline in *;
    rewrite ?length_removelast_ne by done; cbn in *; try lia.
Qed.

(** One key comes while the reader sleeps. *)
Lemma deliver_one s t line c keys rest m : reading s t line [] (c :: keys) rest m -> Forall plain line -> plain c \/ c = 10 \/ c = 8 ->
  exists s' t', keyboard_delivers behind i s = Ok tt s' /\
    reading s' t' (if c =? 8 then removelast line else line) (if c =? 8 then [] else [c]) keys rest m.
Proof.
  intros Hrd Hplain Hc. pose proof Hrd as [Ht Hio Hline Hcanon Hb Hattr Hsize Hout Hecho Hroom Harr Hm].
  unfold keyboard_delivers, get, bind at 1. rewrite Harr. cbn [map app]. unfold put, bind at 1. set (s1 := set_arrivals _ s).
  cbn [length] in Hroom. assert (reading s1 t line [] keys rest m) as Hrd1 by (split; try done; lia).
  assert (exists s' t', tty_input behind i c s1 = Ok tt s' /\
    reading s' t' (if c =? 8 then removelast line else line) (if c =? 8 then [] else [c]) keys rest m) as (s' & t' & Hrun & Hrd').
  { destruct (Z.eqb_spec c 8) as [-> |Hne]; [by apply (input_erase s1 t)|]. apply (input_plain s1 t); try done; [|lia]. by destruct Hc as [?|[?|?]]; auto. }
  exists s', t'. split; [|done]. cbn [inputs]. by rewrite (bind_ok _ _ _ _ _ Hrun).
Qed.

Lemma removelast_plain line : Forall plain line -> Forall plain (removelast line).
Proof.
  intros Hp. destruct (decide (line = [])) as [->|Hne]; [done|]. rewrite (app_removelast_last 0 Hne), Forall_app in Hp. tauto.
Qed.

(** The reader gets the next key that is not the erase key. *)
Lemma getch_edit ks c keys rest m : Forall (fun k => k = 8) ks -> plain c \/ c = 10 -> forall w s t line,
  reading s t line [] (ks ++ c :: keys) rest m -> Forall plain line -> (length ks + 2 <= w)%nat ->
  exists s' t', iostream_getch (keyboard_delivers behind i) w (kbd_stream i) s = Ok c s' /\
    reading s' t' (edit line ks) [] keys rest m /\ (length (edit line ks) < length (tbytes t'))%nat.
Proof.
  intros Hks Hc. induction Hks as [|k ks -> Hks IH]; intros w s t line Hrd Hplain Hw; (destruct w as [|w]; [lia|]); cbn [iostream_getch];
    unfold get; unfold bind at 1; cbn [at_ kbd_stream]; rewrite (r_tty _ _ _ _ _ _ _ Hrd), (r_bytes _ _ _ _ _ _ _ Hrd), blocking by apply (r_attr _ _ _ _ _ _ _ Hrd);
    destruct (wait_sleeps s t line _ rest m Hrd) as (s1 & t1 & Hwait & Hrd1); cbn [app] in Hrd1.
  - destruct (deliver_one s1 t1 line c keys rest m Hrd1 Hplain ltac:(tauto)) as (s2 & t2 & Hd & Hrd2).
    assert (c <> 8) as Hne by (destruct Hc as [[_ Hc]| ->]; [set_solver|done]). revert Hrd2. dec_false (c =? 8). intros Hrd2.
    rewrite (bind_ok _ _ _ tt s2) by (by rewrite (wait_then _ _ _ Hwait)). destruct w as [|w]; [cbn in Hw; lia|]. cbn [iostream_getch].
    unfold get, bind at 1. cbn [at_ kbd_stream]. rewrite (r_tty _ _ _ _ _ _ _ Hrd2), (r_bytes _ _ _ _ _ _ _ Hrd2).
    unfold on_stream, modify, bind, ret. cbn [at_ to_ kbd_stream]. rewrite (r_tty _ _ _ _ _ _ _ Hrd2).
    eexists _, (set_keyboard_stream (set_sbytes [] (keyboard_stream t2)) t2). split; [reflexivity|].
    destruct Hrd2 as [Ht Hio Hline Hcanon Hb Hattr Hsize Hout Hecho Hroom Harr Hm]. split; [|cbn in *; lia].
    split; try done; [by apply alter_here|cbn in *; lia].
  - destruct (deliver_one s1 t1 line 8 (ks ++ c :: keys) rest m Hrd1 Hplain ltac:(tauto)) as (s2 & t2 & Hd & Hrd2). cbn [Z.eqb Pos.eqb] in Hrd2.
    rewrite (bind_ok _ _ _ tt s2) by (by rewrite (wait_then _ _ _ Hwait)).
    apply (IH w s2 t2 (removelast line) Hrd2); [by apply removelast_plain|cbn in Hw; lia].
Qed.

(** The keys up to the first that is not the erase key. *)
Lemma split_erases body : exists ks r, body = ks ++ r /\ Forall (fun k => k = 8) ks /\ (r = [] \/ exists c r', r = c :: r' /\ c <> 8).
Proof.
  induction body as [|c body (ks & r & -> & Hks & Hr)]; [by exists [], []; auto|].
  destruct (decide (c = 8)) as [->|Hne].
  - exists (8 :: ks), r. by rewrite Forall_cons.
  - exists [], (c :: ks ++ r). split; [done|]. split; [done|]. right. by exists c, (ks ++ r).
Qed.
Lemma edit_erases ks line : Forall (fun k => k = 8) ks -> Forall plain line -> Forall plain (edit line ks).
Proof. intros Hks. revert line. induction Hks as [|k ks -> Hks IH]; intros line Hl; [done|]. cbn. by apply IH, removelast_plain. Qed.
Lemma edit_plain body line : Forall (fun c => plain c \/ c = 8) body -> Forall plain line -> Forall plain (edit line body).
Proof.
  intros Hb. revert line. induction Hb as [|c body Hc Hb IH]; intros line Hl; [done|]. cbn. apply IH.
  destruct (Z.eqb_spec c 8); [by apply removelast_plain|]. apply Forall_app. split; [done|]. apply Forall_singleton. tauto.
Qed.
Lemma taken_erases ks r : Forall (fun k => k = 8) ks -> taken (ks ++ r) = taken r.
Proof. unfold taken. induction 1 as [|k ks -> Hks IH]; [done|]. rewrite <- app_comm_cons, filter_cons_False by lia. done. Qed.
Lemma edit_app line a b : edit line (a ++ b) = edit (edit line a) b.
Proof. apply foldl_app. Qed.

(** One turn of the loop of a canonical read, after its character came. *)
Lemma canon_step s t line keys rest m c : reading s t line [] keys rest m -> (length line < length (tbytes t))%nat ->
  exists size s' , (size <=? canon_buffer_count t) = false /\
    size = (if canon_buffer_size t <=? canon_buffer_count t then u32 (canon_buffer_size t * 2) else canon_buffer_size t) /\
    on_tty i (fun t => set_canon (canon_buffer t ++ [c]) size t) s = Ok tt s' /\
    reading s' (set_canon (line ++ [c]) size t) (line ++ [c]) [] keys rest m.
Proof.
  intros [Ht Hio Hline Hcanon Hb Hattr Hsize Hout Hecho Hroom Harr Hm] Hlt.
  set (size := if canon_buffer_size t <=? canon_buffer_count t then u32 (canon_buffer_size t * 2) else canon_buffer_size t).
  assert (canon_buffer_count t = Z.of_nat (length line)) as Hcc by (unfold canon_buffer_count; by rewrite Hline).
  assert (canon_buffer_count t < size < 4294967296) as Hsz.
  { subst size. destruct (Z.leb_spec (canon_buffer_size t) (canon_buffer_count t)); [rewrite u32_id by lia|]; lia. }
  eexists size, _. split; [apply Z.leb_gt; lia|]. split; [done|]. split; [reflexivity|].
  split; try done; cbn; unfold canon_buffer_count in *; cbn; rewrite ?length_app; cbn; try lia. by rewrite list_lookup_alter_eq, Ht, <- Hline.
Qed.

Lemma canon_loop_edit w keys rest m : forall n body line s t,
  reading s t line [] (body ++ 10 :: keys) rest m -> Forall plain line -> Forall (fun c => plain c \/ c = 8) body ->
  (taken body < n)%nat -> (length body + 2 <= w)%nat ->
  exists s' t', canon_loop (keyboard_delivers behind i) w n i s = Ok (Z.of_nat (n - taken body - 1)) s' /\
    reading s' t' (edit line body ++ [10]) [] keys rest m.
Proof.
  induction n as [|n IH]; intros body line s t Hrd Hplain Hbody Hn Hw; [lia|]. cbn [canon_loop].
  destruct (split_erases body) as (ks & r & -> & Hks & [-> |(c & r' & -> & Hc8)]); rewrite <- app_assoc in Hrd; cbn [app] in Hrd;
    rewrite length_app in Hw; rewrite taken_erases in Hn |- * by done.
  - destruct (getch_edit ks 10 keys rest m Hks ltac:(tauto) w s t line Hrd Hplain ltac:(lia)) as (s1 & t1 & Hg & Hrd1 & Hlt).
    destruct (canon_step s1 t1 _ _ _ _ 10 Hrd1 Hlt) as (size & s2 & Hsz & -> & Ho & Hrd2). rewrite app_nil_r.
    exists s2, (set_canon (edit line ks ++ [10]) (if canon_buffer_size t1 <=? canon_buffer_count t1 then u32 (canon_buffer_size t1 * 2) else canon_buffer_size t1) t1).
    rewrite (bind_ok _ _ _ _ _ Hg), (bind_ok _ _ _ _ _ (get_tty_here s1 t1 (r_tty _ _ _ _ _ _ _ Hrd1))). cbv zeta. rewrite Hsz.
    rewrite (bind_ok _ _ _ _ _ Ho). cbn [Z.eqb Pos.eqb]. split; [|done]. unfold ret. do 2 f_equal. unfold taken. cbn. lia.
  - apply Forall_app in Hbody. destruct Hbody as [_ Hbody]. apply Forall_cons in Hbody. destruct Hbody as [[Hc|Hc] Hbody]; [|done].
    destruct (getch_edit ks c (r' ++ 10 :: keys) rest m Hks ltac:(tauto) w s t line Hrd Hplain ltac:(lia)) as (s1 & t1 & Hg & Hrd1 & Hlt).
    destruct (canon_step s1 t1 _ _ _ _ c Hrd1 Hlt) as (size & s2 & Hsz & -> & Ho & Hrd2).
    assert (taken (c :: r') = S (taken r')) as Htk by (unfold taken; by rewrite filter_cons_True).
    destruct (IH r' (edit line ks ++ [c]) s2 _ Hrd2) as (s3 & t3 & Hrest & Hrd3); [|done|lia|cbn in Hw; lia|].
    { apply Forall_app. split; [by apply edit_erases|by apply Forall_singleton]. }
    exists s3, t3. rewrite (bind_ok _ _ _ _ _ Hg), (bind_ok _ _ _ _ _ (get_tty_here s1 t1 (r_tty _ _ _ _ _ _ _ Hrd1))). cbv zeta. rewrite Hsz.
    rewrite (bind_ok _ _ _ _ _ Ho). assert (c <> 10) as H10 by (destruct Hc as [_ Hc]; set_solver). dec_false (c =? 10).
    rewrite Hrest, Htk. split; [done|]. rewrite edit_app. cbn [edit foldl]. unfold edit in Hrd3 |- *. cbn [foldl]. by dec_false (c =? 8).
Qed.

(** What a canonical read stores. *)
Lemma read_line_at w s t body keys rest m buffer count :
  reading s t [] [] (body ++ 10 :: keys) rest m -> t_group (tasks s) = foreground_processes t ->
  Forall (fun c => plain c \/ c = 8) body -> (length body + 2 <= w)%nat ->
  let line := edit [] body ++ [10] in
  Z.of_nat (taken body) + 1 <= count ->
  exists s' t', tty_read (keyboard_delivers behind i) w buffer count i s = Ok ERROR_NONE s' /\
    reading s' t' [] [] keys rest (memset (store_bytes m buffer line) (buffer + Z.of_nat (length line)) 0
                                     (u32 (count - Z.of_nat (taken body) - 1 - Z.of_nat (length line)))).
Proof.
  intros Hrd Hg Hbody Hw line Hc. unfold tty_read. rewrite (bind_ok _ _ _ _ _ (get_tty_here s t (r_tty _ _ _ _ _ _ _ Hrd))).
  unfold get, bind at 1. unfold not_allowed. rewrite Hg, Z.eqb_refl, (std_lflag _ (r_io _ _ _ _ _ _ _ Hrd)). change (flag 571 ICANON) with true. cbn [negb].
  destruct (canon_loop_edit w keys rest m (Z.to_nat count) body [] s t Hrd (Forall_nil_2 _) Hbody ltac:(lia) Hw) as (s1 & t1 & Hloop & Hrd1).
  rewrite (bind_ok _ _ _ _ _ Hloop), (bind_ok _ _ _ _ _ (get_tty_here s1 t1 (r_tty _ _ _ _ _ _ _ Hrd1))). fold line in Hrd1.
  unfold upd_tmem, on_tty, modify, bind, ret. eexists _, (set_canon [] (canon_buffer_size t1) t1). split; [reflexivity|].
  destruct Hrd1 as [Ht Hio Hline Hcanon Hb Hattr Hsize Hout Hecho Hroom Harr Hm]. unfold canon_buffer_count in *. rewrite Hline in *.
  split; try done; cbn; unfold canon_buffer_count; cbn; try lia.
  - by rewrite list_lookup_alter_eq, Ht.
  - rewrite Hm. do 2 f_equal. lia.
Qed.

(** C16: a canonical read returns the line as it was edited: when the keys come
    while the reader sleeps, the characters that were not erased and the final
    newline are stored at the buffer, zeros behind them, and nothing else of
    the memory changes; the keys after the newline are left for the next read.
    The buffer has to have room for the keys that are not the erase key and for
    the line once more. *)
Theorem line_editing w s t body keys rest m buffer count :
  reading s t [] [] (body ++ 10 :: keys) rest m -> t_group (tasks s) = foreground_processes t ->
  Forall (fun c => plain c \/ c = 8) body -> (length body + 2 <= w)%nat ->
  let line := edit [] body ++ [10] in
  Z.of_nat (taken body) + 1 + Z.of_nat (length line) <= count < 4294967296 ->
  exists s', tty_read (keyboard_delivers behind i) w buffer count i s = Ok ERROR_NONE s' /\
    (exists t', reading s' t' [] [] keys rest (tmem s')) /\
    bytes_at (tmem s') buffer (length line) = line /\
    (forall a, buffer + Z.of_nat (length line) <= a < buffer + count - Z.of_nat (taken body) - 1 -> tmem s' a = 0) /\
    (forall a, ~ (buffer <= a < buffer + count - Z.of_nat (taken body) - 1) -> tmem s' a = m a).
Proof.
  intros Hrd Hg Hbody Hw line Hc. destruct (read_line_at w s t body keys rest m buffer count Hrd Hg Hbody Hw ltac:(lia)) as (s' & t' & Hrun & Hrd').
  fold line in Hrd'. rewrite u32_id in Hrd' by lia. exists s'. pose proof (r_mem _ _ _ _ _ _ _ Hrd') as Hm'. rewrite Hm'.
  split; [done|]. split; [by exists t'|]. split; [|split].
  - rewrite (bytes_at_ext (store_bytes m buffer line)) by (intros x Hx; apply memset_outside; lia). apply store_bytes_same.
    apply Forall_app. split; [|by apply Forall_singleton].
    apply (Forall_impl plain); [by apply edit_plain|]. intros c [Hr _]. unfold is_u8. lia.
  - intros a Ha. by rewrite memset_inside by lia.
  - intros a Ha. rewrite memset_outside by lia. apply store_bytes_outside. lia.
Qed.

(** A line for which the buffer has less room than that: the length of the zeros
    behind it is negative, and nearly all of the memory is cleared. *)
Lemma long_line_wipes_memory w s t body keys rest m buffer count :
  reading s t [] [] (body ++ 10 :: keys) rest m -> t_group (tasks s) = foreground_processes t ->
  Forall (fun c => plain c \/ c = 8) body -> (length body + 2 <= w)%nat ->
  let line := edit [] body ++ [10] in
  Z.of_nat (taken body) + 1 <= count < Z.of_nat (taken body) + 1 + Z.of_nat (length line) -> Z.of_nat (length line) < 2147483648 ->
  exists s', tty_read (keyboard_delivers behind i) w buffer count i s = Ok ERROR_NONE s' /\
    forall a, buffer + Z.of_nat (length line) <= a < buffer + 2147483648 -> tmem s' a = 0.
Proof.
  intros Hrd Hg Hbody Hw line Hc Hl. destruct (read_line_at w s t body keys rest m buffer count Hrd Hg Hbody Hw ltac:(lia)) as (s' & t' & Hrun & Hrd').
  fold line in Hrd'. exists s'. split; [done|]. intros a Ha. rewrite (r_mem _ _ _ _ _ _ _ Hrd').
  set (n := count - Z.of_nat (taken body) - 1 - Z.of_nat (length line)). assert (u32 n = n + 4294967296) as ->.
  { unfold u32. symmetry. apply (Z.mod_unique_pos _ _ (-1)); lia. }
  by rewrite memset_inside by lia.
Qed.
End Line.

(** ** A terminal with one process *)

(** The signals that were sent, the group of the process, and its number. *)
Record one_process : Type := mk_one { sent : list (Z * Z); own_group : Z }.
#[export] Instance one_tasks : Tasks one_process := {|
  t_running _ := (1, 2); t_sleeps _ := ret tt; t_gets _ := ret tt; t_pid _ := 1; t_group := own_group; t_session _ := 7; t_tty _ := Some 0%nat;
  t_handler _ _ := 0;
  send_signal_to pid sig := modify (fun t => mk_one (sent t ++ [(pid, sig)]) (own_group t));
  send_signal_to_pgroup gid sig := modify (fun t => mk_one (sent t ++ [(gid, sig)]) (own_group t));
  find_group _ := ret 500; group_gid _ g := g / 100; group_session _ _ := 7; group_in_use _ _ := true |}.
#[export] Instance one_returns : TasksReturn (T := one_process).
Proof. split; intros x t; by exists t. Qed.

Definition demo_tty (foreground : Z) : tty_t :=
  mk_tty [] 1024 [] 256 80 25 0 (mk_stream [] 100 13 []) 0 (default_termios (replicate 32 0)) foreground 7.
Definition demo_ttys (foreground : Z) (come : list (list Z)) : ttys one_process :=
  mk_ttys [demo_tty foreground] (Some 0%nat) (demo_screen 0 0) (fun _ => 1) false false false come (mk_one [] 300).
Definition after {A} (c : M (ttys one_process) A) (s : ttys one_process) : ttys one_process := match c s with Ok _ s' => s' | _ => s end.

(** [a b <erase> c <return>] is read as [ac]. *)
Definition demo_keys : list Z := [97; 98; 8; 99].
Lemma line_editing_witness : exists s',
  tty_read (keyboard_delivers 0 0) 6 4096 10 0 (demo_ttys 300 [[97]; [98]; [8]; [99]; [10]; [120]]) = Ok ERROR_NONE s' /\
  bytes_at (tmem s') 4096 3 = [97; 99; 10].
Proof.
  destruct (line_editing 0 0 6 (demo_ttys 300 [[97]; [98]; [8]; [99]; [10]; [120]]) (demo_tty 300) demo_keys [120] [] (fun _ => 1) 4096 10)
    as (s' & Hrun & _ & Hb & _).
  - split; try done; cbn; lia.
  - reflexivity.
  - repeat (apply Forall_cons; split); try (by right); [| | |done]; left; (split; [lia|by apply (bool_decide_unpack _)]).
  - cbn. lia.
  - split; [vm_compute; discriminate|reflexivity].
  - exists s'. split; [exact Hrun|exact Hb].
Defined.

(** ** Where the terminal does otherwise than meant *)

(** Keys that come before the reader waits are not edited: the erase key finds no
    line. *)
Lemma type_ahead_not_edited :
  match tty_read (keyboard_delivers 0 0) 3 4096 10 0 (demo_ttys 300 [[97; 8; 99; 10]]) with
  | Ok e s => e = ERROR_NONE /\ bytes_at (tmem s) 4096 3 = [97; 99; 10]
  | _ => False
  end.
Proof. vm_compute. by split. Qed.
(** The second number of a control sequence is never read: [ESC [ 5 ; 7 H] does
    not move the cursor, and its end is printed. *)
Lemma csi_with_two_numbers : parse_csi (chars "_[5;7H") = Some (5, 1, 53, 0).
Proof. reflexivity. Qed.
(** Without canonical mode, a read of part of the keys leaves the same keys to be
    read again. *)
Definition raw_termios : termios := mk_termios 0 0 0 0 (replicate 32 0).
Definition raw_ttys (keys : list Z) : ttys one_process :=
  upd_list (fun _ => [mk_tty [] 1024 [] 256 80 25 0 (mk_stream keys 100 13 []) 0 raw_termios 300 7]) (demo_ttys 300 []).
Lemma raw_read_repeats :
  match tty_read (keyboard_delivers 0 0) 1 4096 2 0 (raw_ttys [1; 2; 3; 4; 5]) with
  | Ok e s => bytes_at (tmem s) 4096 2 = [1; 2] /\ sbytes (at_ (kbd_stream 0) s) = [1; 2; 1]
  | _ => False
  end.
Proof. vm_compute. by split. Qed.
(** [ICANON & ECHONL] is 0: the newline is never echoed on its own. *)
Lemma echonl_never lflag : Z.land (Z.land lflag ICANON) ECHONL = 0.
Proof. rewrite <- Z.land_assoc. apply Z.land_0_r. Qed.
