(* ===== verification/Keyboard.v ===== *)
(** The keyboard (devices/keyboard.c, [keyboard_interrupt] of cpu/isrs.c).

    A key code is turned into a character of the French layout by one of three
    tables; the state of the shift, control and alt keys is kept with the
    terminals.  Reading behind the end of a table is a [Fault]. *)

From S2P Require Import Prelude Mem Strings Vga Streams Tty.

Definition azer_kbd_map : list Z :=
  [0; 0; 38; 130; 34; 39; 40; 45; 138; 95; 135; 133; 41; 61; 8; 9; 97; 122; 101; 114; 116; 121; 117; 105; 111; 112;
   94; 36; 10; 0; 113; 115; 100; 102; 103; 104; 106; 107; 108; 109; 151; 0; 0; 42; 119; 120; 99; 118; 98; 110; 44; 59;
   58; 33; 0; 0; 0; 32; 0; 0; 0; 0; 0; 0; 0; 0; 0; 0; 0; 0; 0; 0; 0; 0; 0; 0; 0; 0;
   0; 0; 0; 0; 0; 0; 0; 0; 60].
Definition azer_maj_kbd_map : list Z :=
  [0; 0; 49; 50; 51; 52; 53; 54; 55; 56; 57; 48; 167; 43; 8; 9; 65; 90; 69; 82; 84; 89; 85; 73; 79; 80;
   249; 156; 10; 0; 81; 83; 68; 70; 71; 72; 74; 75; 76; 77; 37; 0; 0; 230; 87; 88; 67; 86; 66; 78; 63; 46;
   47; 245; 0; 0; 0; 32; 0; 0; 0; 0; 0; 0; 0; 0; 0; 0; 0; 0; 0; 0; 0; 0; 0; 0; 0; 0;
   0; 0; 0; 0; 0; 0; 0; 0; 62].
Definition azer_ctrl_kbd_map : list Z :=
  [0; 0; 0; 0; 0; 0; 0; 0; 0; 0; 0; 0; 0; 0; 0; 0; 0; 26; 0; 0; 0; 0; 21; 0; 0; 0;
   0; 0; 0; 0; 17; 19; 4; 0; 0; 8; 0; 0; 0; 0; 0; 0; 0; 0; 0; 0; 3; 0; 0; 0; 0; 0;
   0; 0; 0; 0; 0; 0; 0; 0; 0; 0; 0; 0; 0; 0; 0; 0; 0; 0; 0; 0; 0; 0; 0; 0; 0; 0;
   0; 0; 0; 0; 0; 0; 0; 0; 0].

Section Keyboard.
Context {T : Type} `{Tasks T} (behind : Z) (stale : list Z).

Definition getchar (keycode : Z) : M (ttys T) Z :=
  s <- get ;;
  if Z.of_nat (length azer_kbd_map) <? keycode then ret 0 else
  match (if kbd_maj s then azer_maj_kbd_map else if kbd_ctrl s then azer_ctrl_kbd_map else azer_kbd_map) !! Z.to_nat keycode with
  | Some c => ret c
  | None => fault
  end.

(** [ready]: the three terminals are set up, as the first three of the list. *)
Definition keyboard_interrupt (ready : bool) (keycode : Z) : M (ttys T) unit :=
  if negb ready then ret tt else
  s <- get ;;
  let maj := if (keycode =? 42) || (keycode =? 170) || (keycode =? 58) then negb (kbd_maj s) else kbd_maj s in
  let ctrl := if keycode =? 29 then true else if keycode =? 157 then false else kbd_ctrl s in
  let alt := if keycode =? 56 then true else if keycode =? 184 then false else kbd_alt s in
  put (set_kbd maj ctrl alt s) ;;;
  if ctrl && alt && (keycode =? 59) then tty_switch stale 0 else
  if ctrl && alt && (keycode =? 60) then tty_switch stale 1 else
  if ctrl && alt && (keycode =? 61) then tty_switch stale 2 else
  ch <- getchar keycode ;;
  if ch =? 0 then ret tt else
  match current_tty s with
  | Some i => tty_input behind i ch
  | None => fault
  end.

(** The code behind the last one is not excluded. *)
Lemma getchar_overruns s : getchar (Z.of_nat (length azer_kbd_map)) s = Fault.
Proof. unfold getchar, get, bind. by destruct (kbd_maj s), (kbd_ctrl s). Qed.

(** The codes of releases give no character. *)
Lemma release_is_silent s keycode : 128 <= keycode -> getchar keycode s = Ok 0 s.
Proof. intros Hk. unfold getchar, get, bind. change (Z.of_nat (length azer_kbd_map)) with 87. by dec_true (87 <? keycode). Qed.
End Keyboard.

(** Shift gives the upper case of every letter. *)
Definition shift_pairs : list (Z * Z) := filter (fun p => isalpha p.1 = true) (zip azer_kbd_map azer_maj_kbd_map).
Lemma shift_is_upper : length shift_pairs = 26%nat /\ Forall (fun p => p.2 = toUpper p.1) shift_pairs.
Proof. split; [reflexivity|]. by apply (bool_decide_unpack _). Qed.
