(* ===== verification/SysFiles.v ===== *)
(** System calls on files (tasking/processes/syscalls.c).

    The calls work on the descriptor table of the current process, an array of
    pointers of which [files_size] are in use; its memory is [files], slot by
    slot, as long as the block that was allocated.  [kmalloc] and [krealloc] do
    not clear memory, so a slot may also hold what was there before.  Reading a
    slot outside of the block is a fault.  Memory is that of the virtual file
    system; it holds the strings and buffers of the process as well as the
    kernel's.  A call answers in the registers [eax] and [ecx]. *)

From S2P Require Import Prelude Errors Mem Strings Storage Vfs Paging Elf.

Definition VK_FINFO_DEVICE_TYPE : Z := 1.
Definition VK_FINFO_PATH : Z := 2.
Definition VK_NOT_A_DEVICE : Z := 1.
Definition VK_FSINFO_MOUNTED_FS_NUMBER : Z := 1.
Definition VK_FSINFO_MOUNTED_FS_ALL : Z := 2.
Definition sizeof_fd_t : Z := 20.
Definition sizeof_pointer : Z := 4.
Definition sizeof_statfs_t : Z := 160.

(** ** Checks of user addresses *)

Definition ptr_validate {H} (ptr page_directory : Z) : M (pgstate H) bool :=
  if 3221225472 <=? ptr then ret false else
  b <- is_mapped ptr page_directory ;;
  ret (if negb b then false else true).

(** ** The descriptor table *)

(** A slot of the table: empty, a descriptor, or another word that was left in
    the memory. *)
Inductive slot : Type := Null | Fd (fd : nat) | Stale (word : Z).
#[export] Instance slot_eq_dec : EqDecision slot.
Proof. solve_decision. Defined.

Record files_t : Type := mk_files { files : list slot; files_size : Z; files_count : Z }.
Record usys (W : Type) : Type := mk_usys { uvfs : vfs W; tab : files_t }.
Arguments mk_usys {W}. Arguments uvfs {W}. Arguments tab {W}.

(** The registers that a call sets; [None]: left as they are. *)
Record reply : Type := mk_reply { r_eax : option Z; r_ecx : option Z }.
Definition answer (eax ecx : Z) : reply := mk_reply (Some eax) (Some ecx).
Definition error_reply (e : Z) : reply := answer e e.
Definition no_reply : reply := mk_reply None None.

(** What the file systems keep about their nodes and volumes behind the virtual
    file system: link counts and times, the number of an ext2 inode or the first
    extent of an ISO file, the device behind a device node; flags, size and
    address of a file system. *)
Class NodeInfo (W : Type) := {
  hard_links : W -> nat -> Z;
  last_access_time : W -> nat -> Z;
  last_modification_time : W -> nat -> Z;
  node_number : W -> nat -> Z;
  node_device_type : W -> nat -> Z;
  node_device_struct : W -> nat -> Z;
  fs_flags : W -> nat -> Z;
  fs_blocks : W -> nat -> Z;
  fs_address : W -> nat -> Z }.

(** [memset] to 0 of [n] bytes from the slot [from] on: the whole slots are
    empty afterwards, the last one may lose its low bytes only. *)
Definition lose_low (k : Z) (x : slot) : slot :=
  if k =? 0 then x else
  match x with
  | Null => Null
  | Fd _ => Stale 0
  | Stale w => if w - w mod 256 ^ k =? 0 then Null else Stale (w - w mod 256 ^ k)
  end.
Definition clear_slots (from n : Z) (l : list slot) : list slot :=
  let a := Z.to_nat from in
  let k := Z.to_nat (n / sizeof_pointer) in
  alter (lose_low (n mod sizeof_pointer)) (a + k)%nat (take a l ++ replicate k Null ++ drop (a + k) l).

(** The characters of the string at [a]. *)
Fixpoint string_at (fuel : nat) (m : mem) (a : Z) : option (list Z) :=
  match fuel with
  | O => None
  | S n => let c := load8 m a in
           if c =? 0 then Some [] else match string_at n m (a + 1) with Some r => Some (c :: r) | None => None end
  end.

Section SysFiles.
Context {W : Type} `{NodeInfo W} (ops : Z -> fs_ops W).

(** The fuel of the loops over strings; the address of the current directory of
    the process; what [ptr_validate] says with the page directory of the
    process; the addresses of the buffer for a path and of the buffer of
    [open_file]; what fresh memory of a table holds; [tty_ioctl]. *)
Context (fuel : nat) (current_dir : Z) (valid : Z -> bool) (pbuf zbuf : Z) (stale : nat -> slot).
Context (tty_ioctl : Z -> Z -> Z -> M (vfs W) Z).

Definition in_vfs {A} (c : M (vfs W) A) : M (usys W) A :=
  fun s => match c (uvfs s) with
           | Ok a v => Ok a (mk_usys v (tab s))
           | Fatal e => Fatal e | Fault => Fault | NoFuel => NoFuel
           end.
Definition upd_tab (f : files_t -> files_t) : M (usys W) unit := modify (fun s => mk_usys (uvfs s) (f (tab s))).
Definition upd_mem (f : mem -> mem) : M (usys W) unit := in_vfs (upd_vmem f).
Definition or_nofuel {A} (o : option A) : M (usys W) A := match o with Some a => ret a | None => nofuel end.

(** [files[i]] and its assignment. *)
Definition file_at (i : Z) : M (usys W) slot :=
  fun s => match files (tab s) !! Z.to_nat i with Some x => Ok x s | None => Fault end.
Definition set_file (i : Z) (x : slot) : M (usys W) unit :=
  upd_tab (fun t => mk_files (<[Z.to_nat i := x]> (files t)) (files_size t) (files_count t)).
Definition set_count (f : Z -> Z) : M (usys W) unit :=
  upd_tab (fun t => mk_files (files t) (files_size t) (u32 (f (files_count t)))).
Definition fd_of (x : slot) : M (usys W) nat := match x with Fd fd => ret fd | _ => fault end.
Definition is_null (x : slot) : bool := match x with Null => true | _ => false end.

(** [(files_size < ebx) | (!files[ebx])]: both sides are evaluated.  With a
    descriptor the call goes on. *)
Definition with_file (ebx : Z) (missing : reply) (k : nat -> M (usys W) reply) : M (usys W) reply :=
  s <- get ;;
  x <- file_at ebx ;;
  if (files_size (tab s) <? ebx) || is_null x then ret missing else
  fd <- fd_of x ;; k fd.

(** [krealloc] of the table to twice its size in descriptors, not in pointers. *)
Definition realloc_files : M (usys W) unit :=
  s <- get ;;
  let size := u32 (files_size (tab s) * 2) in
  let bytes := u32 (size * sizeof_fd_t) in
  let old := length (files (tab s)) in
  if bytes <? sizeof_pointer * Z.of_nat old then fatal_kernel_error "Reallocating less space ?!" else
  upd_tab (fun t => mk_files (files t ++ map stale (seq old (Z.to_nat (bytes / sizeof_pointer) - old))) size (files_count t)).

(** The growth of [syscall_open]. *)
Definition grow_open : M (usys W) unit :=
  realloc_files ;;;
  upd_tab (fun t => let half := files_size t / 2 in
    mk_files (clear_slots (half * sizeof_fd_t / sizeof_pointer) (half * sizeof_fd_t) (files t)) (files_size t) (files_count t)).

(** The search for an empty slot from 3 on; without one the result is the size. *)
Fixpoint install_loop (n : nat) (i : Z) (fd : nat) : M (usys W) Z :=
  match n with
  | O => ret i
  | S k =>
    x <- file_at i ;;
    if is_null x then set_file i (Fd fd) ;;; ret i else install_loop k (i + 1) fd
  end.
Definition install (fd : nat) : M (usys W) Z :=
  s <- get ;; install_loop (Z.to_nat (files_size (tab s) - 3)) 3 fd.
(** A new descriptor, in a table that is made to [grow] when it is full. *)
Definition place (grow : M (usys W) unit) (fd : nat) : M (usys W) Z :=
  s <- get ;;
  (if files_count (tab s) =? files_size (tab s) then grow else ret tt) ;;;
  i <- install fd ;;
  set_count (fun c => c + 1) ;;;
  ret i.

(** ** Paths *)

(** A path that does not start with a slash is put behind the current directory
    in a new buffer.  [strncat] looks for the end of what is in the buffer and
    does not write one. *)
Definition make_absolute (path : Z) : M (usys W) Z :=
  s <- get ;;
  let m := vmem (uvfs s) in
  if load8 m path =? 47 then ret path else
  len <- or_nofuel (strlen fuel m path) ;;
  dirlen <- or_nofuel (strlen fuel m current_dir) ;;
  m <- or_nofuel (strncpy fuel m pbuf current_dir dirlen) ;;
  l <- or_nofuel (strlen fuel m pbuf) ;;
  let m := store8 m (pbuf + l) 47 in
  m <- or_nofuel (strncat fuel m pbuf path len) ;;
  upd_mem (fun _ => store8 m (pbuf + u32 (len + dirlen + 1)) 0) ;;;
  ret pbuf.
Definition path_of (a : Z) : M (usys W) (list Z) :=
  s <- get ;; or_nofuel (string_at fuel (vmem (uvfs s)) a).

(** ** The calls *)

Definition syscall_open (ebx ecx : Z) : M (usys W) reply :=
  if negb (valid ebx) then ret (answer 0 ERROR_INVALID_PTR) else
  a <- make_absolute ebx ;;
  path <- path_of a ;;
  o <- in_vfs (open_file ops zbuf path (u8 ecx)) ;;
  match o with
  | None => ret (answer 0 ERROR_FILE_NOT_FOUND)
  | Some file =>
    i <- place grow_open file ;;
    ret (answer i ERROR_NONE)
  end.

Definition syscall_close (ebx : Z) : M (usys W) reply :=
  s <- get ;;
  if (3 <=? ebx) && (ebx <=? files_size (tab s)) then
    x <- file_at ebx ;;
    if is_null x then ret no_reply else
    set_file ebx Null ;;;
    set_count (fun c => c - 1) ;;;
    file <- fd_of x ;;
    in_vfs (close_file file) ;;;
    ret no_reply
  else ret no_reply.

(** The difference of the offsets before and after is the number of bytes. *)
Definition transfer (io : nat -> Z -> Z -> M (vfs W) Z) (ebx ecx edx : Z) : M (usys W) reply :=
  with_file ebx (answer 0 ERROR_FILE_NOT_FOUND) (fun fd =>
    if negb (valid ecx) then ret (answer 0 ERROR_INVALID_PTR) else
    x <- in_vfs (get_fd fd) ;;
    let counttr := u32 (fd_offset x) in
    tr <- in_vfs (io fd ecx edx) ;;
    z <- file_at ebx ;;
    fd' <- fd_of z ;;
    y <- in_vfs (get_fd fd') ;;
    ret (answer (u32 (fd_offset y - counttr)) tr)).
Definition syscall_read (ebx ecx edx : Z) : M (usys W) reply := transfer (read_file ops) ebx ecx edx.
Definition syscall_write (ebx ecx edx : Z) : M (usys W) reply := transfer (write_file ops) ebx ecx edx.

(** [link] and [rename] get the paths as they are. *)
Definition two_paths (f : list Z -> list Z -> M (vfs W) Z) (ebx ecx : Z) : M (usys W) reply :=
  if negb (valid ebx) then ret (error_reply ERROR_INVALID_PTR) else
  if negb (valid ecx) then ret (error_reply ERROR_INVALID_PTR) else
  p <- path_of ebx ;;
  q <- path_of ecx ;;
  tr <- in_vfs (f p q) ;;
  ret (error_reply tr).
Definition syscall_link (ebx ecx : Z) : M (usys W) reply := two_paths (link ops) ebx ecx.
Definition syscall_rename (ebx ecx : Z) : M (usys W) reply := two_paths (rename ops) ebx ecx.

Definition syscall_unlink (ebx : Z) : M (usys W) reply :=
  if negb (valid ebx) then ret (error_reply ERROR_INVALID_PTR) else
  a <- make_absolute ebx ;;
  path <- path_of a ;;
  tr <- in_vfs (unlink ops path) ;;
  ret (error_reply tr).

Definition syscall_mkdir (ebx : Z) : M (usys W) reply :=
  if negb (valid ebx) then ret (error_reply ERROR_INVALID_PTR) else
  a <- make_absolute ebx ;;
  path <- path_of a ;;
  node <- in_vfs (create_file ops path VFS_ATTR_DIR) ;;
  ret (error_reply (match node with None => UNKNOWN_ERROR | Some _ => ERROR_NONE end)).

(** Offsets are 64-bit unsigned numbers, what is added to them is 32-bit. *)
Definition seek_to (whence offset here len : Z) : Z :=
  if whence =? 0 then offset
  else if whence =? 1 then u64 (here + offset)
  else if whence =? 2 then u64 (len + offset)
  else here.
Definition syscall_seek (ebx ecx edx : Z) : M (usys W) reply :=
  with_file ebx (answer 0 ERROR_FILE_NOT_FOUND) (fun fd =>
    x <- in_vfs (get_fd fd) ;;
    len <- in_vfs (if edx =? 2 then flength fd else ret 0) ;;
    let offset := seek_to edx ecx (fd_offset x) len in
    in_vfs (set_offset fd offset) ;;;
    ret (answer (u32 offset) ERROR_NONE)).

(** [stat_t] at [p]. *)
Definition put_stat (w : W) (node : nat) (v : vnode) (t p : Z) (m : mem) : mem :=
  let m := store16 m p 0 in
  let m := store16 m (p + 2) 32 in
  let m := store32 m (p + 4) (if is_dir v then 16384 else 32768) in
  let m := store32 m (p + 8) (hard_links w node) in
  let m := store32 m (p + 12) 0 in
  let m := store32 m (p + 16) 0 in
  let m := store32 m (p + 20) 0 in
  let m := store32 m (p + 24) (u32 (v_length v)) in
  let m := store32 m (p + 28) (last_access_time w node) in
  let m := store32 m (p + 32) (last_modification_time w node) in
  let m := store32 m (p + 36) (last_modification_time w node) in
  let m := store32 m (p + 40) 512 in
  let m := store32 m (p + 44) (u32 (v_length v / 512)) in
  if one_of t [FS_TYPE_EXT2; FS_TYPE_ISO9660] then store16 m (p + 2) (node_number w node) else m.
Definition syscall_stat (ebx edx : Z) : M (usys W) reply :=
  with_file ebx (error_reply ERROR_FILE_NOT_FOUND) (fun fd =>
    if negb (valid edx) then ret (error_reply ERROR_INVALID_PTR) else
    x <- in_vfs (get_fd fd) ;;
    v <- in_vfs (get_vnode (fd_file x)) ;;
    t <- in_vfs (type_of (fd_file x)) ;;
    s <- get ;;
    upd_mem (put_stat (world (uvfs s)) (fd_file x) v t edx) ;;;
    ret (error_reply ERROR_NONE)).

Definition syscall_finfo (ebx ecx edx : Z) : M (usys W) reply :=
  with_file ebx (error_reply ERROR_FILE_NOT_FOUND) (fun fd =>
    if negb (valid edx) then ret (error_reply ERROR_INVALID_PTR) else
    x <- in_vfs (get_fd fd) ;;
    if ecx =? VK_FINFO_DEVICE_TYPE then
      t <- in_vfs (type_of (fd_file x)) ;;
      s <- get ;;
      upd_mem (fun m => store32 m edx (if t =? FS_TYPE_DEVFS then node_device_type (world (uvfs s)) (fd_file x) else VK_NOT_A_DEVICE)) ;;;
      ret (error_reply ERROR_NONE)
    else if ecx =? VK_FINFO_PATH then
      match fd_path x with
      | None => fault
      | Some path => upd_mem (fun m => store_bytes m edx (path ++ [0])) ;;; ret (error_reply ERROR_NONE)
      end
    else ret (error_reply UNKNOWN_ERROR)).

(** The entry [ecx] of the directory as an inode number and a name of at most
    255 characters. *)
Definition syscall_readdir (ebx ecx edx : Z) : M (usys W) reply :=
  with_file ebx (error_reply ERROR_FILE_NOT_FOUND) (fun fd =>
    if negb (valid edx) then ret (error_reply ERROR_INVALID_PTR) else
    r <- in_vfs (read_directory ops fd) ;;
    if negb (r.1 =? ERROR_NONE) || (Z.of_nat (length r.2) <=? ecx) then
      ret (error_reply (if r.1 =? ERROR_NONE then ERROR_FILE_OUT else r.1)) else
    match r.2 !! Z.to_nat ecx with
    | None => fault
    | Some (inode, name) =>
      upd_mem (fun m => store_bytes (store32 m edx inode) (edx + 4) (take 255 name ++ [0])) ;;;
      ret (error_reply ERROR_NONE)
    end).

(** The node of the new stream is a device node of [devfs], the file system
    number [dev]; [instances] is what the memory of the descriptor held. *)
Definition syscall_openio (dev : nat) (instances : Z) : M (usys W) reply :=
  file <- in_vfs (v <- get ;;
    put (mk_vfs (world v) (vmem v) (vnodes v ++ [mk_vnode dev 0 0]) (vfds v) (vsystems v) (mounts v) (current_mount_points v)) ;;;
    new_fd (mk_fd (length (vnodes v)) 0 instances None)) ;;
  i <- place realloc_files file ;;
  ret (answer i ERROR_NONE).

(** The growth of [syscall_dup]: as many bytes are cleared as there are new
    pointers. *)
Definition grow_dup : M (usys W) unit :=
  realloc_files ;;;
  upd_tab (fun t => let half := files_size t / 2 in mk_files (clear_slots half half (files t)) (files_size t) (files_count t)).
Fixpoint grow_to (n : nat) (ecx : Z) : M (usys W) unit :=
  match n with
  | O => nofuel
  | S k => s <- get ;; if files_size (tab s) <? ecx then grow_dup ;;; grow_to k ecx else ret tt
  end.
Definition add_instance (fd : nat) : M (vfs W) unit :=
  x <- get_fd fd ;; set_fd fd (Some (mk_fd (fd_file x) (fd_offset x) (u32 (fd_instances x + 1)) (fd_path x))).
Definition syscall_dup (ebx ecx : Z) : M (usys W) reply :=
  with_file ebx (answer 0 ERROR_FILE_NOT_FOUND) (fun oldf =>
    if negb (ecx =? 0) then
      if ecx <? 3 then ret (answer 0 UNKNOWN_ERROR) else
      grow_to fuel ecx ;;;
      in_vfs (add_instance oldf) ;;;
      x <- file_at ecx ;;
      (if is_null x then ret tt else fd <- fd_of x ;; in_vfs (close_file fd)) ;;;
      set_file ecx (Fd oldf) ;;;
      ret (answer ecx ERROR_NONE)
    else
      i <- place grow_dup oldf ;;
      in_vfs (add_instance oldf) ;;;
      ret (answer i ERROR_NONE)).

(** [statfs_t] at [p] for every mount point. *)
Definition store64 (m : mem) (a v : Z) : mem := store32 (store32 m a v) (a + 4) (v / 4294967296).
Definition put_statfs (w : W) (mp : mount_point_t) (t p : Z) (m : mem) : mem :=
  let fs := mp_fs mp in
  let m := store32 m p t in
  let m := store64 m (p + 4) (fs_flags w fs) in
  let m := store32 m (p + 12) 512 in
  let m := store64 m (p + 16) (fs_blocks w fs) in
  let m := store64 m (p + 24) (fs_blocks w fs) in
  let m := store64 m (p + 32) (fs_blocks w fs) in
  let m := store64 m (p + 40) (U32_MAX - 1) in
  let m := store64 m (p + 48) (U32_MAX - 1) in
  let m := store32 m (p + 56) (fs_address w fs) in
  store_bytes m (p + 60) (take 99 (mp_path mp) ++ [0]).
Fixpoint put_mounts (l : list mount_point_t) (p : Z) : M (usys W) unit :=
  match l with
  | [] => ret tt
  | mp :: r =>
    f <- in_vfs (get_fs (mp_fs mp)) ;;
    s <- get ;;
    upd_mem (put_statfs (world (uvfs s)) mp (fs_type f) p) ;;;
    put_mounts r (p + sizeof_statfs_t)
  end.
Definition syscall_fsinfo (ebx ecx : Z) : M (usys W) reply :=
  if negb (valid ecx) then ret (error_reply ERROR_INVALID_PTR) else
  s <- get ;;
  let n := current_mount_points (uvfs s) in
  if ebx =? VK_FSINFO_MOUNTED_FS_NUMBER then
    upd_mem (fun m => store32 m ecx n) ;;; ret (answer n ERROR_NONE)
  else if ebx =? VK_FSINFO_MOUNTED_FS_ALL then
    put_mounts (mounts (uvfs s)) ecx ;;; ret (answer n ERROR_NONE)
  else ret (error_reply UNKNOWN_ERROR).

(** Here the sides of the test are evaluated one after the other. *)
Definition syscall_ioctl (ebx ecx edx : Z) : M (usys W) reply :=
  s <- get ;;
  if files_size (tab s) <? ebx then ret (error_reply ERROR_FILE_NOT_FOUND) else
  z <- file_at ebx ;;
  if is_null z then ret (error_reply ERROR_FILE_NOT_FOUND) else
  fd <- fd_of z ;;
  x <- in_vfs (get_fd fd) ;;
  t <- in_vfs (type_of (fd_file x)) ;;
  if negb (t =? FS_TYPE_DEVFS) then ret (error_reply ERROR_NO_DEVICE) else
  s <- get ;;
  if node_device_type (world (uvfs s)) (fd_file x) =? 4 then
    err <- in_vfs (tty_ioctl (node_device_struct (world (uvfs s)) (fd_file x)) ecx edx) ;;
    ret (error_reply err)
  else ret (error_reply UNKNOWN_ERROR).
End SysFiles.

(** ** Strings and paths *)

(** [ptr_validate] accepts exactly the addresses below the kernel that the
    processor translates. *)
Lemma ptr_validate_ok {H} (s : pgstate H) pd v : space_ok s pd -> is_u32 v ->
  ptr_validate v pd s =
    Ok (bool_decide (v < 3221225472) && match translate (pmem s) pd v with Some _ => true | None => false end) s.
Proof.
  intros Hok Hv. unfold ptr_validate. destruct (Z.leb_spec 3221225472 v); [by rewrite bool_decide_false by lia|].
  rewrite bool_decide_true by lia. rewrite (bind_ok _ _ _ _ _ (is_mapped_ok s pd v Hok Hv)). by destruct (translate _ _ _).
Qed.

Lemma string_at_ok fuel : forall m a cs, cstr m a cs -> (length cs < fuel)%nat -> string_at fuel m a = Some cs.
Proof.
  induction fuel as [|n IH]; intros m a cs Hc Hf; [lia|]. destruct cs as [|c cs]; cbn [cstr string_at length] in *.
  - by rewrite Hc.
  - destruct Hc as (-> & Hr & Hc). dec_false (c =? 0). by rewrite (IH m (a + 1) cs Hc) by lia.
Qed.

Section Paths.
Context {W : Type} (fuel : nat) (current_dir pbuf : Z).

(** What [make_absolute] needs: strings, a buffer apart from them, and a zero in
    the buffer behind the place of the slash. *)
Record path_room (m : mem) (path : Z) (cs ds : list Z) : Prop := {
  pr_path : cstr m path cs;
  pr_dir : cstr m current_dir ds;
  pr_fuel : (length ds + length cs + 1 < fuel)%nat;
  pr_small : zlen ds + zlen cs + 2 < 4294967296;
  pr_apart_path : pbuf + zlen ds + zlen cs + 1 < path \/ path + zlen cs < pbuf;
  pr_apart_dir : pbuf + zlen ds + zlen cs + 1 < current_dir \/ current_dir + zlen ds < pbuf;
  pr_zero : load8 m (pbuf + zlen ds + 1) = 0 }.

(** A path that does not start with a slash is completed with the current
    directory: when the byte of the new buffer behind the slash happens to be
    zero, the buffer holds the directory, a slash and the path, and nothing
    outside of the buffer is changed. *)
Lemma make_absolute_correct (s : usys W) path cs ds : path_room (vmem (uvfs s)) path cs ds -> head cs <> Some 47 ->
  exists s', make_absolute fuel current_dir pbuf path s = Ok pbuf s' /\ cstr (vmem (uvfs s')) pbuf (ds ++ 47 :: cs) /\ tab s' = tab s /\
    same_outside (vmem (uvfs s)) (vmem (uvfs s')) pbuf (pbuf + zlen ds + zlen cs + 2).
Proof.
  intros [Hp Hd Hf Hs Ha Had Hz] Hh. set (m := vmem (uvfs s)) in *.
  assert ((load8 m path =? 47) = false) as H47.
  { apply Z.eqb_neq. intros He. destruct cs as [|c cs]; cbn in Hp, Hh; [lia|]. destruct Hp as (Hc & _). congruence. }
  destruct (strncpy_ok fuel m pbuf current_dir 0 (zlen ds)) as (m1 & Hrun1 & Hc1 & Hout1); [lia|lia|lia|].
  rewrite Z.sub_0_r in Hc1, Hout1. rewrite Nat2Z.id, (cstr_bytes _ _ ds) in Hc1 by done.
  rewrite firstn_all, before_zero_id in Hc1 by (by eapply cstr_Forall).
  set (m2 := store8 m1 (pbuf + zlen ds) 47).
  assert (cstr m2 pbuf (ds ++ [47])) as Hc2.
  { apply cstr_app. split.
    - intros i c Hi. pose proof (lookup_lt_Some _ _ _ Hi). unfold m2. rewrite load8_store8_other by lia. by apply (cstr_chars _ _ ds).
    - cbn [cstr]. unfold m2. rewrite load8_store8. split; [done|]. split; [lia|]. rewrite load8_store8_other by lia.
      rewrite (load8_ext m) by (apply Hout1; lia). exact Hz. }
  assert (cstr m2 path cs) as Hp2.
  { eapply cstr_ext; [|exact Hp]. intros x Hx. unfold m2. rewrite load8_store8_other by lia. apply load8_ext, Hout1. lia. }
  destruct (strncat_loop_ok cs m2 (pbuf + (zlen ds + 1)) path Hp2) as [Hin3 Hout3]; [lia|].
  set (m3 := strncat_loop (length cs) m2 (pbuf + (zlen ds + 1)) path) in *.
  set (m4 := store8 m3 (pbuf + (zlen cs + zlen ds + 1)) 0).
  exists (mk_usys (mk_vfs (world (uvfs s)) m4 (vnodes (uvfs s)) (vfds (uvfs s)) (vsystems (uvfs s)) (mounts (uvfs s)) (current_mount_points (uvfs s))) (tab s)).
  split; [|split; [|split; [done|]]].
  - unfold make_absolute, get, bind at 1. fold m. rewrite H47. rewrite (strlen_ok fuel m path cs) by (done || lia).
    rewrite (strlen_ok fuel m current_dir ds) by (done || lia). unfold bind. cbn [or_nofuel ret]. unfold strncpy. rewrite Hrun1.
    cbn [or_nofuel ret]. rewrite (strlen_ok fuel m1 pbuf ds) by (done || lia). cbn [or_nofuel ret]. unfold strncat. fold m2.
    rewrite (strlen_ok fuel m2 pbuf (ds ++ [47])) by (first [done | rewrite length_app; cbn; lia]).
    rewrite length_app. cbn [or_nofuel ret length]. rewrite Nat2Z.id. replace (Z.of_nat (length ds + 1)) with (zlen ds + 1) by lia. fold m3.
    rewrite (u32_id (_ + _ + 1)) by lia. reflexivity.
  - cbn [vmem uvfs]. replace (ds ++ 47 :: cs) with ((ds ++ [47]) ++ cs) by (by rewrite <- app_assoc). apply cstr_intro.
    + intros i c Hi. apply lookup_app_Some in Hi as [Hi|[Hge Hi]].
      * pose proof (lookup_lt_Some _ _ _ Hi) as Hlt. rewrite length_app in Hlt. cbn in Hlt. unfold m4. rewrite load8_store8_other by lia.
        rewrite (load8_ext m2) by (apply Hout3; lia). by apply (cstr_chars _ _ (ds ++ [47])).
      * pose proof (lookup_lt_Some _ _ _ Hi) as Hlt. rewrite length_app in *. cbn in Hge, Hi, Hlt. unfold m4. rewrite load8_store8_other by lia.
        specialize (Hin3 _ _ Hi). rewrite <- Hin3 at 1. split; [f_equal; lia|]. by apply (cstr_chars _ _ cs _ _ Hp Hi).
    + unfold m4. rewrite !length_app. cbn. replace (pbuf + Z.of_nat (length ds + 1 + length cs)) with (pbuf + (zlen cs + zlen ds + 1)) by lia. by rewrite load8_store8.
  - intros x Hx. cbn. unfold m4. rewrite store8_other by lia. rewrite Hout3 by lia. unfold m2. rewrite store8_other by lia. apply Hout1. lia.
Qed.
End Paths.

(** ** Counting slots *)

(** How many slots satisfy [p]. *)
Fixpoint tally (p : slot -> bool) (l : list slot) : Z :=
  match l with [] => 0 | x :: r => (if p x then 1 else 0) + tally p r end.
Definition is_used (x : slot) : bool := negb (is_null x).
Definition used (l : list slot) : Z := tally is_used l.
Definition refers (fd : nat) (x : slot) : bool := bool_decide (x = Fd fd).
Definition refs (fd : nat) (l : list slot) : Z := tally (refers fd) l.

Lemma tally_range p l : 0 <= tally p l <= Z.of_nat (length l).
Proof. induction l as [|x r IH]; cbn [tally length]; [lia|]. destruct (p x); lia. Qed.
Lemma tally_app p l k : tally p (l ++ k) = tally p l + tally p k.
Proof. induction l as [|x r IH]; cbn [tally app]; lia. Qed.
Lemma tally_insert p l : forall i x y, l !! i = Some y ->
  tally p (<[i := x]> l) = tally p l + (if p x then 1 else 0) - (if p y then 1 else 0).
Proof.
  induction l as [|z r IH]; intros [|i] x y Hl; cbn in Hl; try done.
  - injection Hl as ->. cbn. lia.
  - change (<[S i := x]> (z :: r)) with (z :: <[i := x]> r). cbn [tally]. rewrite (IH i x y Hl). lia.
Qed.
Lemma tally_zero p l : (forall x, x ∈ l -> p x = false) -> tally p l = 0.
Proof.
  induction l as [|x r IH]; intros Hx; [done|]. cbn [tally]. rewrite (Hx x) by left. rewrite IH; [done|]. intros y Hy. apply Hx. by right.
Qed.
Lemma tally_pos p l x : x ∈ l -> p x = true -> 0 < tally p l.
Proof.
  induction 1 as [x r|x y r Hin IH]; intros Hp; cbn [tally].
  - rewrite Hp. pose proof (tally_range p r). lia.
  - specialize (IH Hp). destruct (p y); lia.
Qed.
(** The first [n] slots all satisfying [p]. *)
Lemma tally_first p l n : (n <= length l)%nat -> (forall i x, (i < n)%nat -> l !! i = Some x -> p x = true) -> Z.of_nat n <= tally p l.
Proof.
  revert n. induction l as [|x r IH]; intros [|n] Hn Hp; cbn [length tally] in *; try lia; [pose proof (tally_range p r); destruct (p x); lia|].
  rewrite (Hp 0%nat x) by (done || lia). specialize (IH n ltac:(lia)). enough (Z.of_nat n <= tally p r) by lia. apply IH. intros i y Hi Hy. apply (Hp (S i)); [lia|done].
Qed.

(** The first empty slot of [k] from [i] on, if there is one. *)
Lemma free_slot_dec (l : list slot) i k :
  (exists j, (i <= j < i + k)%nat /\ l !! j = Some Null /\ forall a, (i <= a < j)%nat -> l !! a <> Some Null) \/
  (forall a, (i <= a < i + k)%nat -> l !! a <> Some Null).
Proof.
  revert i. induction k as [|k IH]; intros i; [right; lia|]. destruct (decide (l !! i = Some Null)) as [He|Hne].
  { left. exists i. split; [lia|]. split; [done|]. lia. }
  destruct (IH (S i)) as [(j & Hj & Hl & Ha)|Ha].
  - left. exists j. split; [lia|]. split; [done|]. intros a Hai. destruct (decide (a = i)) as [-> |]; [done|]. apply Ha. lia.
  - right. intros a Hai. destruct (decide (a = i)) as [-> |]; [done|]. apply Ha. lia.
Qed.

(** ** Tables *)

(** A table whose memory is that of [files_size] descriptors, with empty slots or
    descriptors, empty behind its size. *)
Record table_ok (t : files_t) : Prop := {
  to_size : 3 <= files_size t;
  to_len : Z.of_nat (length (files t)) = 5 * files_size t;
  to_slots : forall i w, files t !! i <> Some (Stale w);
  to_behind : forall i x, files_size t <= Z.of_nat i -> files t !! i = Some x -> x = Null }.
(** Moreover the standard descriptors are there and the count is right. *)
Record table_counted (t : files_t) : Prop := {
  tc_std : forall i, (i < 3)%nat -> files t !! i <> Some Null;
  tc_count : files_count t = used (files t) }.

(** The meaning of a table: descriptor numbers to open files. *)
Definition descriptors (t : files_t) (i : nat) : option nat :=
  match files t !! i with Some (Fd fd) => Some fd | _ => None end.

Section Tables.
Context {W : Type} (stale : nat -> slot).
Implicit Type s : usys W.

Lemma install_loop_found fd : forall n i j s, 0 <= i -> (Z.to_nat i <= j < Z.to_nat i + n)%nat ->
  files (tab s) !! j = Some Null -> (forall a, (Z.to_nat i <= a < j)%nat -> files (tab s) !! a <> Some Null) ->
  (j < length (files (tab s)))%nat ->
  install_loop n i fd s = Ok (Z.of_nat j) (mk_usys (uvfs s) (mk_files (<[j := Fd fd]> (files (tab s))) (files_size (tab s)) (files_count (tab s)))).
Proof.
  induction n as [|n IH]; intros i j s Hi Hj Hn Ha Hlt; [lia|]. cbn [install_loop]. unfold file_at, bind at 1.
  destruct (decide (j = Z.to_nat i)) as [-> |Hne].
  - rewrite Hn. cbn [is_null]. unfold set_file, upd_tab, modify, bind, ret. by rewrite Z2Nat.id by lia.
  - destruct (lookup_lt_is_Some_2 (files (tab s)) (Z.to_nat i)) as [x Hx]; [lia|]. rewrite Hx.
    assert (is_null x = false) as -> by (destruct x; try done; exfalso; eapply Ha; [|exact Hx]; lia).
    apply IH; [lia|lia|done| |done]. intros a Hai. apply Ha. lia.
Qed.
Lemma install_loop_full fd : forall n i s, 0 <= i -> (Z.to_nat i + n <= length (files (tab s)))%nat ->
  (forall a, (Z.to_nat i <= a < Z.to_nat i + n)%nat -> files (tab s) !! a <> Some Null) ->
  install_loop n i fd s = Ok (i + Z.of_nat n) s.
Proof.
  induction n as [|n IH]; intros i s Hi Hlen Ha; cbn [install_loop]; [by rewrite Z.add_0_r|]. unfold file_at, bind at 1.
  destruct (lookup_lt_is_Some_2 (files (tab s)) (Z.to_nat i)) as [x Hx]; [lia|]. rewrite Hx.
  assert (is_null x = false) as -> by (destruct x; try done; exfalso; eapply Ha; [|exact Hx]; lia).
  rewrite IH; [f_equal; lia|lia|lia|]. intros a Hai. apply Ha. lia.
Qed.

(** Growing as [syscall_open] does. *)
Definition grown (t : files_t) : files_t :=
  mk_files (files t ++ replicate (Z.to_nat (5 * files_size t)) Null) (2 * files_size t) (files_count t).

Lemma grow_open_ok s : table_ok (tab s) -> 40 * files_size (tab s) < 4294967296 ->
  grow_open stale s = Ok tt (mk_usys (uvfs s) (grown (tab s))) /\ table_ok (grown (tab s)).
Proof.
  intros [Hsz Hlen Hsl Hbe] Hb. set (t := tab s) in *. split.
  - unfold grow_open, realloc_files, get, bind at 1 2. fold t. unfold sizeof_fd_t, sizeof_pointer.
    rewrite (u32_id (files_size t * 2)) by lia. rewrite u32_id by lia. dec_false (files_size t * 2 * 20 <? 4 * Z.of_nat (length (files t))).
    unfold upd_tab, modify, bind. cbn [files files_size files_count uvfs tab]. fold t. unfold grown. f_equal. f_equal. f_equal; [|lia].
    replace (files_size t * 2 / 2) with (files_size t) by dlia. replace (files_size t * 20 / 4) with (5 * files_size t) by dlia.
    replace (files_size t * 2 * 20 / 4) with (10 * files_size t) by dlia. unfold clear_slots, sizeof_pointer.
    replace ((files_size t * 20) mod 4) with 0 by dlia. replace (files_size t * 20 / 4) with (5 * files_size t) by dlia.
    assert (length (files t) = Z.to_nat (5 * files_size t)) as Hl by lia. rewrite <- !Hl, take_app_length.
    rewrite drop_ge by (rewrite length_app, length_map, length_seq; lia). rewrite app_nil_r. unfold lose_low. cbn [Z.eqb].
    apply list_eq. intros i. rewrite list_lookup_alter. destruct (decide _) as [<- |]; [by destruct (_ !! _)|done].
  - unfold grown. split; cbn [files files_size].
    + lia.
    + rewrite length_app, length_replicate. lia.
    + intros i w Hi. apply lookup_app_Some in Hi as [Hi|[_ Hi]]; [by apply (Hsl i w)|]. by apply lookup_replicate in Hi as [? _].
    + intros i x Hi Hx. apply lookup_app_Some in Hx as [Hx|[_ Hx]]; [apply (Hbe i x); [lia|done]|]. by apply lookup_replicate in Hx as [-> _].
Qed.

Lemma used_bound t : table_ok t -> used (files t) <= files_size t.
Proof.
  intros [Hsz Hlen Hsl Hbe]. unfold used. rewrite <- (take_drop (Z.to_nat (files_size t)) (files t)), tally_app.
  pose proof (tally_range is_used (take (Z.to_nat (files_size t)) (files t))) as Hr. rewrite length_take in Hr.
  rewrite (tally_zero _ (drop _ _)); [lia|]. intros x [i Hi]%list_elem_of_lookup_1. rewrite lookup_drop in Hi.
  assert (x = Null) as -> by (apply (Hbe _ x) in Hi; [done|lia]). done.
Qed.

(** A table with a free slot of its own. *)
Lemma install_ok fd s : table_ok (tab s) -> (forall i, (i < 3)%nat -> files (tab s) !! i <> Some Null) ->
  used (files (tab s)) < files_size (tab s) ->
  exists j, (3 <= j)%nat /\ Z.of_nat j < files_size (tab s) /\ files (tab s) !! j = Some Null /\
    (forall a, (3 <= a < j)%nat -> files (tab s) !! a <> Some Null) /\
    install fd s = Ok (Z.of_nat j) (mk_usys (uvfs s) (mk_files (<[j := Fd fd]> (files (tab s))) (files_size (tab s)) (files_count (tab s)))).
Proof.
  intros [Hsz Hlen Hsl Hbe] Hstd Hu. destruct (free_slot_dec (files (tab s)) 3 (Z.to_nat (files_size (tab s) - 3))) as [(j & Hj & Hn & Ha)|Hall].
  - exists j. split; [lia|]. split; [lia|]. split; [done|]. split; [intros a Hai; by apply Ha|].
    unfold install, get, bind at 1. apply install_loop_found; try done; try lia.
  - exfalso. enough (Z.of_nat (Z.to_nat (files_size (tab s))) <= used (files (tab s))) by lia.
    apply tally_first; [lia|]. intros i x Hi Hx. destruct x; try done. exfalso.
    destruct (decide (i < 3)%nat); [by apply (Hstd i)|]. apply (Hall i); [lia|done].
Qed.

(** The table afterwards: one more descriptor. *)
Lemma table_insert t j fd : table_ok t -> Z.of_nat j < files_size t -> files t !! j = Some Null -> table_ok (mk_files (<[j := Fd fd]> (files t)) (files_size t) (files_count t)).
Proof.
  intros [Hsz Hlen Hsl Hbe] Hj Hn. split; cbn [files files_size]; [done|by rewrite length_insert| |].
  - intros i w Hi. apply list_lookup_insert_Some in Hi as [(_ & ? & _)|[_ Hi]]; [done|by apply (Hsl i w)].
  - intros i x Hi Hx. apply list_lookup_insert_Some in Hx as [(? & _ & _)|[_ Hx]]; [lia|by apply (Hbe i x)].
Qed.

(** What [place] does with a table of which the meaning is known. *)
Record placed (t : files_t) (fd : nat) (i : Z) (t' : files_t) : Prop := {
  pl_ok : table_ok t';
  pl_counted : table_counted t';
  pl_number : 3 <= i < files_size t';
  pl_free : descriptors t (Z.to_nat i) = None;
  pl_lowest : forall j, (3 <= j < Z.to_nat i)%nat -> descriptors t j <> None;
  pl_rest : forall j, descriptors t' j = if decide (j = Z.to_nat i) then Some fd else descriptors t j;
  pl_used : used (files t') = used (files t) + 1 }.

Lemma place_ok fd s : table_ok (tab s) -> table_counted (tab s) -> 40 * files_size (tab s) < 4294967296 ->
  exists i t', place (grow_open stale) fd s = Ok i (mk_usys (uvfs s) t') /\ placed (tab s) fd i t'.
Proof.
  intros Hok [Hstd Hcount] Hb. set (t := tab s) in *. pose proof (used_bound t Hok) as Hub.
  set (t1 := if files_count t =? files_size t then grown t else t).
  assert (table_ok t1) as Hok1 by (unfold t1; case_bool; [by apply grow_open_ok|done]).
  assert (used (files t1) = used (files t)) as Hu1.
  { unfold t1. case_bool; [|done]. unfold grown, used. cbn [files]. rewrite tally_app, (tally_zero _ (replicate _ _)); [lia|].
    by intros x [-> _]%elem_of_replicate. }
  assert (forall j x, files t !! j = Some x -> files t1 !! j = Some x) as Hin.
  { intros j x Hx. unfold t1. case_bool; [|done]. cbn [grown files]. by apply lookup_app_l_Some. }
  assert (forall j, descriptors t1 j = descriptors t j) as Hd1.
  { intros j. unfold descriptors. destruct (files t !! j) as [x|] eqn:E; [by rewrite (Hin j x E)|]. unfold t1. case_bool; [|by rewrite E].
    cbn [grown files]. rewrite lookup_app_r by (by apply lookup_ge_None_1). by destruct (replicate _ _ !! _) as [x|] eqn:Er; [apply lookup_replicate in Er as [-> _]|]. }
  destruct (install_ok fd (mk_usys (uvfs s) t1)) as (j & Hj3 & Hj & Hn & Ha & Hrun); cbn [tab uvfs] in *.
  { exact Hok1. }
  { intros i Hi. destruct (lookup_lt_is_Some_2 (files t) i) as [x Hx]; [destruct Hok; lia|]. rewrite (Hin i x Hx). intros [= ->]. by apply (Hstd i). }
  { rewrite Hu1, <- Hcount. unfold t1. destruct (Z.eqb_spec (files_count t) (files_size t)); cbn; destruct Hok; lia. }
  assert (files_count t1 = files_count t) as Hc1 by (unfold t1; by case_bool).
  pose proof (table_insert t1 j fd Hok1 Hj Hn) as Hok2.
  assert (used (<[j := Fd fd]> (files t1)) = used (files t) + 1) as Hu2 by (unfold used; rewrite (tally_insert _ _ _ _ _ Hn); cbn; unfold used in Hu1; lia).
  exists (Z.of_nat j), (mk_files (<[j := Fd fd]> (files t1)) (files_size t1) (files_count t + 1)). split.
  - unfold place, get, bind at 1. fold t.
    assert ((if files_count t =? files_size t then grow_open stale else ret tt) s = Ok tt (mk_usys (uvfs s) t1)) as Hg.
    { unfold t1. destruct (_ =? _); [by apply grow_open_ok|]. unfold ret, t. by destruct s. }
    rewrite (bind_ok _ _ _ _ _ Hg), (bind_ok _ _ _ _ _ Hrun). unfold set_count, upd_tab, modify, bind, ret. cbn. rewrite Hc1.
    rewrite u32_id; [done|]. pose proof (tally_range is_used (files t)). unfold used in *. lia.
  - split; rewrite ?Nat2Z.id; cbn [files files_size files_count]; try done.
    + by destruct Hok2; split.
    + split; cbn [files files_count]; [|lia]. intros i Hi Hx. apply list_lookup_insert_Some in Hx as [(? & ? & _)|[_ Hx]]; [lia|].
      destruct (lookup_lt_is_Some_2 (files t) i) as [x Hxx]; [destruct Hok; lia|]. rewrite (Hin i x Hxx) in Hx. apply (Hstd i Hi). congruence.
    + lia.
    + rewrite <- Hd1. unfold descriptors. by rewrite Hn.
    + intros a Ha'. rewrite <- Hd1. unfold descriptors. destruct (lookup_lt_is_Some_2 (files t1) a) as [x Hx]; [destruct Hok1; lia|].
      specialize (Ha a Ha'). rewrite Hx in *. destruct x; try done. by destruct (to_slots _ Hok1 a word).
    + intros a. unfold descriptors at 1. cbn [files]. rewrite list_lookup_insert, <- Hd1. destruct (decide (j = a /\ _)) as [[-> _]|Hna].
      * by rewrite decide_True.
      * rewrite decide_False; [done|]. intros ->. apply Hna. split; [done|]. by eapply lookup_lt_Some.
Qed.
End Tables.
