(* ===== verification/SysTable.v ===== *)
(** What the system calls on files do to the descriptor table and to the open
    files (tasking/processes/syscalls.c).

    The virtual file system keeps the descriptors it does not work on: a small
    logic of triples says so for each of its operations, against the file
    systems' promise to leave the descriptors alone.  On it rest the theorems
    about opening and closing and the invariant of a process that makes any
    sequence of calls. *)

From S2P Require Import Prelude Errors Mem Strings Storage Vfs Elf SysFiles.

(** ** Descriptors that are kept *)

Section Keeps.
Context {W : Type}.
Implicit Types s : vfs W.

(** The descriptors below [k] are still open, with the same number of
    references and on the same node. *)
Definition kept (k : nat) (s s' : vfs W) : Prop :=
  (k <= length (vfds s'))%nat /\
  forall n x, (n < k)%nat -> vfds s !! n = Some (Some x) ->
    exists y, vfds s' !! n = Some (Some y) /\ fd_instances y = fd_instances x /\ fd_file y = fd_file x.

(** When it returns, [c] keeps the descriptors below [k] and its result
    satisfies [Q]. *)
Definition keeps (k : nat) {A} (c : M (vfs W) A) (Q : A -> Prop) : Prop :=
  forall s a s', (k <= length (vfds s))%nat -> c s = Ok a s' -> kept k s s' /\ Q a.

Lemma kept_refl k s : (k <= length (vfds s))%nat -> kept k s s.
Proof. intros Hk. split; [done|]. intros n x _ Hx. by exists x. Qed.
Lemma kept_trans k s1 s2 s3 : kept k s1 s2 -> kept k s2 s3 -> kept k s1 s3.
Proof.
  intros [H1 H2] [H3 H4]. split; [done|]. intros n x Hn Hx. destruct (H2 n x Hn Hx) as (y & Hy & Hi & Hf).
  destruct (H4 n y Hn Hy) as (z & Hz & Hi' & Hf'). exists z. split_and!; congruence.
Qed.
Lemma kept_mono k k' s s' : (k <= k')%nat -> kept k' s s' -> kept k s s'.
Proof. intros Hk [H1 H2]. split; [lia|]. intros n x Hn. apply H2. lia. Qed.
Lemma kept_same_fds k s s' : (k <= length (vfds s))%nat -> vfds s' = vfds s -> kept k s s'.
Proof. intros Hk Hs. split; [by rewrite Hs|]. intros n x _ Hx. rewrite Hs. by exists x. Qed.

Lemma keeps_bind k {A B} (c : M (vfs W) A) (f : A -> M (vfs W) B) P Q :
  keeps k c P -> (forall a, P a -> keeps k (f a) Q) -> keeps k (bind c f) Q.
Proof.
  intros Hc Hf s b s'' Hk Hrun. apply bind_inv in Hrun as (a & s' & H1 & H2).
  destruct (Hc s a s' Hk H1) as [Hk1 Ha]. destruct (Hf a Ha s' b s'' (proj1 Hk1) H2) as [Hk2 Hb]. split; [by eapply kept_trans|done].
Qed.
Lemma keeps_ret k {A} (a : A) (Q : A -> Prop) : Q a -> keeps k (ret a) Q.
Proof. intros Ha s b s' Hk [= <- <-]. split; [by apply kept_refl|done]. Qed.
Lemma keeps_weaken k {A} (c : M (vfs W) A) (P Q : A -> Prop) : (forall a, P a -> Q a) -> keeps k c P -> keeps k c Q.
Proof. intros Hpq Hc s a s' Hk Hrun. destruct (Hc s a s' Hk Hrun) as [? ?]. auto. Qed.
Lemma keeps_fault k {A} (Q : A -> Prop) : keeps k fault Q.
Proof. by intros s a s' _ [=]. Qed.
Lemma keeps_same k {A} (c : M (vfs W) A) : (forall s a s', c s = Ok a s' -> vfds s' = vfds s) -> keeps k c (fun _ => True).
Proof. intros Hc s a s' Hk Hrun. split; [apply kept_same_fds; [done|by eapply Hc]|done]. Qed.

Ltac same := apply keeps_same; intros s a s' Hrun; revert Hrun.
Lemma keeps_get k : keeps k (@get (vfs W)) (fun _ => True).
Proof. same. by intros [= _ <-]. Qed.
Lemma keeps_upd_vmem k f : keeps k (upd_vmem (W := W) f) (fun _ => True).
Proof. same. by intros [= _ <-]. Qed.
Lemma keeps_get_vnode k i : keeps k (get_vnode (W := W) i) (fun _ => True).
Proof. same. unfold get_vnode. destruct (_ !! _); [|done]. by intros [= _ <-]. Qed.
Lemma keeps_set_vnode k i x : keeps k (set_vnode (W := W) i x) (fun _ => True).
Proof. same. by intros [= _ <-]. Qed.
Lemma keeps_get_fd k i : keeps k (get_fd (W := W) i) (fun _ => True).
Proof. same. unfold get_fd. destruct (_ !! _) as [[x|]|]; try done. by intros [= _ <-]. Qed.
Lemma keeps_get_fs k i : keeps k (get_fs (W := W) i) (fun _ => True).
Proof. same. unfold get_fs. destruct (_ !! _); [|done]. by intros [= _ <-]. Qed.
Lemma keeps_set_fd k i x : (k <= i)%nat -> keeps k (set_fd (W := W) i x) (fun _ => True).
Proof.
  intros Hi s a s' Hk [= _ <-]. split; [|done]. split; cbn; [by rewrite length_insert|].
  intros n y Hn Hy. exists y. by rewrite list_lookup_insert_ne by lia.
Qed.
Lemma keeps_new_fd k x : keeps k (new_fd (W := W) x) (fun fd => (k <= fd)%nat).
Proof.
  intros s a s' Hk [= <- <-]. split; [|done]. split; cbn; [rewrite length_app; cbn; lia|].
  intros n y Hn Hy. exists y. split; [|done]. by apply lookup_app_l_Some.
Qed.
Lemma keeps_close k fd : (k <= fd)%nat -> keeps k (close_file (W := W) fd) (fun _ => True).
Proof. intros Hfd. unfold close_file. eapply keeps_bind; [apply keeps_get_fd|]. intros x _. by apply keeps_set_fd. Qed.

(** Changes of an offset keep every descriptor. *)
Lemma keeps_offset k fd (g : fd_t -> Z) : keeps k (x <- get_fd fd ;; set_fd (W := W) fd (Some (mk_fd (fd_file x) (g x) (fd_instances x) (fd_path x)))) (fun _ => True).
Proof.
  intros s a s' Hk Hrun. apply bind_inv in Hrun as (x & s1 & H1 & H2). unfold get_fd in H1.
  destruct (vfds s !! fd) as [[x'|]|] eqn:E; try done. injection H1 as <- <-. injection H2 as _ <-. split; [|done].
  split; cbn; [by rewrite length_insert|]. intros n y Hn Hy. destruct (decide (n = fd)) as [-> |Hne].
  - rewrite list_lookup_insert_eq by (by eapply lookup_lt_Some). eexists. split; [done|]. cbn. split; congruence.
  - exists y. by rewrite list_lookup_insert_ne by done.
Qed.
Lemma keeps_advance k fd n : keeps k (advance (W := W) fd n) (fun _ => True).
Proof. apply (keeps_offset k fd (fun x => u64 (fd_offset x + n))). Qed.
End Keeps.

(** Descends through a program; what is left are the results of opening and the
    operations of the file systems. *)
Create HintDb keeps.
#[export] Hint Resolve keeps_get keeps_upd_vmem keeps_get_vnode keeps_set_vnode keeps_get_fd keeps_get_fs keeps_set_fd keeps_close
  keeps_advance keeps_fault : keeps.
Ltac keep1 := match goal with
  | |- keeps _ (bind _ _) _ => apply (keeps_bind _ _ _ (fun _ => True)); [|intros ? _]
  | |- keeps _ (ret _) _ => apply keeps_ret
  | |- keeps _ (if ?b then _ else _) _ => destruct b
  | |- keeps _ (match ?x with _ => _ end) _ => destruct x
  | |- keeps _ _ _ => solve [eauto with keeps]
  end.
Ltac keep := repeat (cbv zeta; keep1); try done.

(** The promise of the file systems. *)
Class KeepsFds {W} (ops : Z -> fs_ops W) : Prop := {
  kf_open : forall t n p s a s', op_open (ops t) n p s = Ok a s' -> vfds s' = vfds s;
  kf_list : forall t n s a s', op_list (ops t) n s = Ok a s' -> vfds s' = vfds s;
  kf_read : forall t n o b c s a s', op_read (ops t) n o b c s = Ok a s' -> vfds s' = vfds s;
  kf_write : forall t n o b c s a s', op_write (ops t) n o b c s = Ok a s' -> vfds s' = vfds s;
  kf_create : forall t n p x s a s', op_create (ops t) n p x s = Ok a s' -> vfds s' = vfds s;
  kf_unlink : forall t p n s a s', op_unlink (ops t) p n s = Ok a s' -> vfds s' = vfds s;
  kf_link : forall t n p d s a s', op_link (ops t) n p d s = Ok a s' -> vfds s' = vfds s;
  kf_rename : forall t n p q d s a s', op_rename (ops t) n p q d s = Ok a s' -> vfds s' = vfds s }.

Section KeepsOps.
Context {W : Type} (ops : Z -> fs_ops W) `{KeepsFds W ops}.

Lemma keeps_op_open k t n p : keeps k (op_open (ops t) n p) (fun _ => True).
Proof. apply keeps_same, kf_open. Qed.
Lemma keeps_op_list k t n : keeps k (op_list (ops t) n) (fun _ => True).
Proof. apply keeps_same, kf_list. Qed.
Lemma keeps_op_read k t n o b c : keeps k (op_read (ops t) n o b c) (fun _ => True).
Proof. apply keeps_same, kf_read. Qed.
Lemma keeps_op_write k t n o b c : keeps k (op_write (ops t) n o b c) (fun _ => True).
Proof. apply keeps_same, kf_write. Qed.
Lemma keeps_op_create k t n p x : keeps k (op_create (ops t) n p x) (fun _ => True).
Proof. apply keeps_same, kf_create. Qed.
Lemma keeps_op_unlink k t p n : keeps k (op_unlink (ops t) p n) (fun _ => True).
Proof. apply keeps_same, kf_unlink. Qed.
Lemma keeps_op_link k t n p d : keeps k (op_link (ops t) n p d) (fun _ => True).
Proof. apply keeps_same, kf_link. Qed.
Lemma keeps_op_rename k t n p q d : keeps k (op_rename (ops t) n p q d) (fun _ => True).
Proof. apply keeps_same, kf_rename. Qed.
Hint Resolve keeps_op_open keeps_op_list keeps_op_read keeps_op_write keeps_op_create keeps_op_unlink keeps_op_link keeps_op_rename : keeps.

Definition opened (k : nat) (o : option nat) : Prop := match o with Some fd => (k <= fd)%nat | None => True end.

Lemma keeps_walk k : forall n t node pieces, keeps k (walk ops n t node pieces) (fun _ => True).
Proof.
  induction n as [|n IH]; intros t node pieces; cbn [walk]; [by keep|]. destruct pieces as [|p r]; [by keep|].
  eapply (keeps_bind k _ _ (fun _ => True)); [by keep|]. intros [nd|] _; [|by keep]. destruct n; [by keep|].
  eapply keeps_bind; [apply keeps_get_vnode|]. intros x _. destruct (is_dir x); [apply IH|by keep].
Qed.
Lemma keeps_find_path k path : keeps k (find_path ops path) (fun _ => True).
Proof.
  unfold find_path, do_open_fs. assert (forall n t node pieces, keeps k (walk ops n t node pieces) (fun _ => True)) by apply keeps_walk. keep.
Qed.
Lemma keeps_open_read k path : keeps k (open_read ops path) (opened k).
Proof.
  unfold open_read. eapply keeps_bind; [apply keeps_find_path|]. intros [n|[n|]] _; [| |by keep].
  all: eapply keeps_bind; [apply keeps_new_fd|]; intros fd Hfd; by keep.
Qed.
Lemma keeps_create_file k path a : keeps k (create_file ops path a) (fun _ => True).
Proof.
  unfold create_file. destruct (last_slash path) as [[dir name]|]; [|by keep].
  eapply keeps_bind; [apply keeps_open_read|]. intros [fd|] Hfd; [|by keep]. cbn in Hfd. unfold type_of. keep.
Qed.
Lemma keeps_read_file k fd b n : keeps k (read_file ops fd b n) (fun _ => True).
Proof. unfold read_file, type_of. keep. Qed.
Lemma keeps_write_file k fd b n : keeps k (write_file ops fd b n) (fun _ => True).
Proof. unfold write_file, type_of. keep. Qed.
Lemma keeps_read_directory k fd : keeps k (read_directory ops fd) (fun _ => True).
Proof. unfold read_directory, type_of. keep. Qed.
Lemma keeps_unlink k path : keeps k (unlink ops path) (fun _ => True).
Proof.
  unfold unlink. destruct (last_slash path) as [[dir name]|]; [|by keep].
  eapply keeps_bind; [apply keeps_open_read|]. intros [fd|] Hfd; [|by keep]. cbn in Hfd. unfold type_of. keep.
Qed.
Lemma keeps_with_two k dp fp f : (forall a b n, keeps k (f a b n) (fun _ => True)) -> keeps k (with_two ops dp fp f) (fun _ => True).
Proof.
  intros Hf. unfold with_two. destruct (last_slash dp) as [[dir name]|]; [|by keep].
  eapply keeps_bind; [apply keeps_open_read|]. intros [dfd|] Hd; [|by keep]. cbn in Hd.
  do 2 (eapply keeps_bind; [eauto with keeps|]; intros ? _). destruct (negb _); [by keep|].
  eapply keeps_bind; [apply keeps_open_read|]. intros [sfd|] Hs; [|by keep]. cbn in Hs. keep.
Qed.
Lemma keeps_link k p q : keeps k (link ops p q) (fun _ => True).
Proof. apply keeps_with_two. intros a b n. unfold type_of. keep. Qed.
Lemma keeps_rename k p q : keeps k (rename ops p q) (fun _ => True).
Proof. apply keeps_with_two. intros a b n. unfold type_of. keep. Qed.

(** A new descriptor that is worked on afterwards keeps its references. *)
Lemma new_fd_then {A} x (c : nat -> M (vfs W) A) (s : vfs W) a s' k : (k <= length (vfds s))%nat -> (forall fd, keeps (S fd) (c fd) (fun _ => True)) ->
  bind (new_fd x) c s = Ok a s' -> let fd := length (vfds s) in exists s1, c fd s1 = Ok a s' /\ kept k s s' /\
  exists y, vfds s' !! fd = Some (Some y) /\ fd_instances y = fd_instances x.
Proof.
  intros Hk Hc Hrun fd. apply bind_inv in Hrun as (fd' & s1 & H1 & H2). pose proof (keeps_new_fd k x s fd' s1 Hk H1) as [Hk1 _].
  injection H1 as <- <-. fold fd in H2. eexists. split; [exact H2|].
  edestruct (fun h => Hc fd _ a s' h H2) as [Hk2 _]; [cbn; rewrite length_app; cbn; lia|]. split.
  - eapply kept_trans; [exact Hk1|]. eapply kept_mono; [|exact Hk2]. lia.
  - destruct Hk2 as [_ Hk2]. destruct (Hk2 fd x) as (y & Hy & Hi & _); [lia|cbn; by rewrite lookup_app_r, Nat.sub_diag by lia|]. eauto.
Qed.

(** What opening does to the descriptors: those there are stay, and a new one
    with one reference is returned. *)
Definition opens (k : nat) (s s' : vfs W) (o : option nat) : Prop :=
  kept k s s' /\ match o with
  | None => True
  | Some fd => (k <= fd)%nat /\ exists x, vfds s' !! fd = Some (Some x) /\ fd_instances x = 1
  end.

Lemma open_then k node path (f : nat -> M (vfs W) unit) (s : vfs W) o s' : (k <= length (vfds s))%nat ->
  (forall fd, keeps (S fd) (f fd) (fun _ => True)) ->
  bind (new_fd (mk_fd node 0 1 path)) (fun fd => f fd ;;; ret (Some fd)) s = Ok o s' -> opens k s s' o.
Proof.
  intros Hk Hf Hrun. eapply (new_fd_then _ _ _ _ _ k Hk) in Hrun as (s1 & Hc & Hkept & y & Hy & Hi).
  2: { intros fd. eapply keeps_bind; [apply Hf|]. intros. by apply keeps_ret. }
  apply bind_inv in Hc as (u & s2 & _ & [= <- <-]). split; [done|]. split; [done|]. eauto.
Qed.

Lemma open_file_opens k zbuf path mode s o s' : (k <= length (vfds s))%nat -> open_file ops zbuf path mode s = Ok o s' -> opens k s s' o.
Proof.
  intros Hk Hrun. unfold open_file, open_read in Hrun. destruct (one_of mode [OPEN_MODE_R; OPEN_MODE_RP]).
  - apply bind_inv in Hrun as (r & s1 & H1 & H2). destruct (keeps_find_path k path s r s1 Hk H1) as [Hk1 _].
    assert (forall n p, bind (new_fd (mk_fd n 0 1 p)) (fun fd => ret (Some fd)) s1 = Ok o s' -> opens k s1 s' o) as Hnew.
    { intros n p Hr. apply (open_then k n p (fun _ => ret tt)); [apply Hk1|intros; by apply keeps_ret|exact Hr]. }
    destruct r as [n|[n|]].
    + apply Hnew in H2 as [? ?]. split; [by eapply kept_trans|done].
    + apply Hnew in H2 as [? ?]. split; [by eapply kept_trans|done].
    + injection H2 as <- <-. by split.
  - apply bind_inv in Hrun as (r & s1 & H1 & H2). destruct (keeps_find_path k path s r s1 Hk H1) as [Hk1 _].
    destruct r as [n|o1].
    { apply (open_then k n None (fun _ => ret tt)) in H2 as [? ?]; [|apply Hk1|intros; by apply keeps_ret].
      split; [by eapply kept_trans|done]. }
    apply bind_inv in H2 as (o2 & s2 & H2 & H3). assert (kept k s1 s2) as Hk2.
    { destruct o1; [injection H2 as <- <-; by apply kept_refl, Hk1|]. by apply (keeps_create_file k path 0 s1 o2 s2 (proj1 Hk1)). }
    destruct o2 as [n|]; [|injection H3 as <- <-; split; [by eapply kept_trans|done]].
    enough (opens k s2 s' o) as [? ?] by (split; [eapply kept_trans; [exact Hk1|]; by eapply kept_trans|done]).
    eapply (open_then k n (Some path) (fun fd =>
      (if one_of mode [OPEN_MODE_W; OPEN_MODE_WP] then
         l <- flength fd ;; upd_vmem (fun m => memset m zbuf 0 (u32 l)) ;;; write_file ops fd zbuf l ;;;
         x <- get_vnode n ;; set_vnode n (mk_vnode (v_fs x) 0 (v_attributes x))
       else ret tt) ;;;
      (if one_of mode [OPEN_MODE_A; OPEN_MODE_AP] then
         l <- flength fd ;; x <- get_fd fd ;; set_fd fd (Some (mk_fd (fd_file x) l (fd_instances x) (fd_path x)))
       else ret tt))); [apply Hk2| |].
    + intros fd. unfold flength. pose proof keeps_write_file as Hw. eapply (keeps_bind _ _ _ (fun _ => True)); [by keep|]. intros _ _.
      destruct (one_of mode [OPEN_MODE_A; OPEN_MODE_AP]); [|by keep]. eapply (keeps_bind _ _ _ (fun _ => True)); [by keep|]. intros l _. apply (keeps_offset _ fd (fun _ => l)).
    + apply bind_inv in H3 as (fd & s3 & Hn & H4). rewrite (bind_ok _ _ _ _ _ Hn), bind_assoc. exact H4.
Qed.
End KeepsOps.

(** ** Calls that leave the table alone *)

Section Calm.
Context {W : Type}.

Definition calm {A} (c : M (usys W) A) : Prop :=
  forall s a s', c s = Ok a s' -> tab s' = tab s /\ kept (length (vfds (uvfs s))) (uvfs s) (uvfs s').

Lemma calm_bind {A B} (c : M (usys W) A) (f : A -> M (usys W) B) : calm c -> (forall a, calm (f a)) -> calm (bind c f).
Proof.
  intros Hc Hf s b s'' Hrun. apply bind_inv in Hrun as (a & s' & H1 & H2). destruct (Hc _ _ _ H1) as [Ht1 Hk1].
  destruct (Hf _ _ _ _ H2) as [Ht2 Hk2]. split; [congruence|]. eapply kept_trans; [exact Hk1|].
  eapply kept_mono; [|exact Hk2]. apply Hk1.
Qed.
Lemma calm_ret {A} (a : A) : calm (ret a).
Proof. intros s b s' [= _ <-]. split; [done|]. by apply kept_refl. Qed.
Lemma calm_get : calm get.
Proof. intros s b s' [= _ <-]. split; [done|]. by apply kept_refl. Qed.
Lemma calm_fault {A} : calm (@fault (usys W) A).
Proof. by intros s b s' [=]. Qed.
Lemma calm_or_nofuel {A} (o : option A) : calm (or_nofuel (W := W) o).
Proof. destruct o; [apply calm_ret|by intros s b s' [=]]. Qed.
Lemma calm_in_vfs {A} (c : M (vfs W) A) Q : (forall k, keeps k c Q) -> calm (in_vfs c).
Proof.
  intros Hc s a s' Hrun. unfold in_vfs in Hrun. destruct (c (uvfs s)) as [b v| | |] eqn:E; try done. injection Hrun as <- <-.
  split; [done|]. cbn [uvfs]. eapply Hc; [|exact E]. done.
Qed.
Lemma calm_file_at i : calm (file_at (W := W) i).
Proof. intros s a s' Hrun. unfold file_at in Hrun. destruct (_ !! _); [|done]. injection Hrun as _ <-. split; [done|]. by apply kept_refl. Qed.
Lemma calm_fd_of x : calm (fd_of (W := W) x).
Proof. destruct x; [apply calm_fault|apply calm_ret|apply calm_fault]. Qed.
Lemma calm_upd_mem f : calm (upd_mem (W := W) f).
Proof. eapply calm_in_vfs. intros k. apply keeps_upd_vmem. Qed.
End Calm.

#[export] Hint Resolve calm_get calm_ret calm_fault calm_or_nofuel calm_file_at calm_fd_of calm_upd_mem : keeps.
Ltac calm1 := match goal with
  | |- calm (bind _ _) => apply calm_bind; [|intros ?]
  | |- calm (if ?b then _ else _) => destruct b
  | |- calm (match ?x with _ => _ end) => destruct x
  | |- calm (in_vfs _) => apply (calm_in_vfs _ (fun _ => True)); intros ?; first [solve [eauto with keeps] | solve [keep]]
  | |- calm _ => solve [eauto with keeps]
  end.
Ltac calms := repeat (cbv zeta; calm1); try done.

(** ** References *)

(** [o fd] references to the descriptor [fd] are accounted for: a descriptor that
    is referred to is open and counts at least its references. *)
Definition owned (o : nat -> Z) (fds : list (option fd_t)) : Prop :=
  forall fd, 0 < o fd -> exists x, fds !! fd = Some (Some x) /\ o fd <= fd_instances x <= U32_MAX.
Definition one_at (fd fd' : nat) : Z := if decide (fd' = fd) then 1 else 0.
Definition refs_in {W} (s : usys W) (fd : nat) : Z := refs fd (files (tab s)).

Lemma owned_le o o' fds : (forall fd, o' fd <= o fd) -> owned o fds -> owned o' fds.
Proof. intros Hle Ho fd Hfd. specialize (Hle fd). destruct (Ho fd) as (x & Hx & Hi); [lia|]. exists x. split; [done|lia]. Qed.

Section Owned.
Context {W : Type}.
Implicit Types (v : vfs W) (o : nat -> Z).

Lemma owned_kept o v v' : owned o (vfds v) -> kept (length (vfds v)) v v' -> owned o (vfds v').
Proof.
  intros Ho [_ Hk] fd Hfd. destruct (Ho fd Hfd) as (x & Hx & Hi). destruct (Hk fd x) as (y & Hy & Hiy & _); [by eapply lookup_lt_Some|done|].
  exists y. split; [done|lia].
Qed.
Lemma owned_opens o v v' fd : owned o (vfds v) -> opens (length (vfds v)) v v' (Some fd) -> owned (fun n => o n + one_at fd n) (vfds v').
Proof.
  intros Ho (Hk & Hge & x & Hx & Hi) n Hn. unfold one_at in *. destruct (decide (n = fd)) as [-> |Hne].
  - assert (~ 0 < o fd). { intros Hp. destruct (Ho fd Hp) as (y & Hy & _). apply lookup_lt_Some in Hy. lia. }
    exists x. split; [done|]. unfold U32_MAX. lia.
  - rewrite Z.add_0_r in *. destruct (owned_kept _ _ _ Ho Hk n Hn) as (y & Hy & ?). eauto.
Qed.
Lemma owned_add_instance o v fd u v' : owned o (vfds v) -> 0 < o fd ->
  (forall x, vfds v !! fd = Some (Some x) -> fd_instances x < U32_MAX) -> add_instance fd v = Ok u v' ->
  owned (fun n => o n + one_at fd n) (vfds v').
Proof.
  intros Ho Hfd Hmax Hrun. destruct (Ho fd Hfd) as (x & Hx & Hi). specialize (Hmax x Hx). unfold add_instance, get_fd, set_fd, modify, bind in Hrun.
  rewrite Hx in Hrun. injection Hrun as _ <-. intros n Hn. cbn [vfds]. unfold one_at in *. destruct (decide (n = fd)) as [-> |Hne].
  - rewrite list_lookup_insert_eq by (by eapply lookup_lt_Some). eexists. split; [done|]. cbn. unfold U32_MAX in *. rewrite u32_id by lia. lia.
  - rewrite list_lookup_insert_ne by done. rewrite Z.add_0_r in *. by apply Ho.
Qed.
Lemma owned_close o v fd u v' : owned o (vfds v) -> 0 < o fd -> close_file fd v = Ok u v' ->
  owned (fun n => o n - one_at fd n) (vfds v').
Proof.
  intros Ho Hfd Hrun. destruct (Ho fd Hfd) as (x & Hx & Hi). unfold close_file, get_fd, set_fd, modify, bind in Hrun.
  rewrite Hx in Hrun. injection Hrun as _ <-. intros n Hn. cbn [vfds]. unfold one_at, U32_MAX in *. rewrite u32_id by lia. destruct (decide (n = fd)) as [-> |Hne].
  - rewrite list_lookup_insert_eq by (by eapply lookup_lt_Some). dec_false (fd_instances x - 1 =? 0). eexists. split; [done|]. cbn. lia.
  - rewrite list_lookup_insert_ne by done. rewrite Z.sub_0_r in *. by apply Ho.
Qed.

Lemma refs_insert fd l i x y : l !! i = Some y ->
  refs fd (<[i := x]> l) = refs fd l + (if refers fd x then 1 else 0) - (if refers fd y then 1 else 0).
Proof. apply tally_insert. Qed.
Lemma refers_fd fd n : (if refers n (Fd fd) then 1 else 0) = one_at fd n.
Proof. unfold refers, one_at. destruct (decide (n = fd)) as [-> |]; [by rewrite bool_decide_true|]. rewrite bool_decide_false; [done|congruence]. Qed.
Lemma refs_pos fd l i : l !! i = Some (Fd fd) -> 0 < refs fd l.
Proof. intros Hi. apply (tally_pos _ _ (Fd fd)); [by eapply list_elem_of_lookup_2|]. unfold refers. by rewrite bool_decide_true. Qed.
End Owned.

(** ** A process that makes calls *)

(** The table is well formed and every descriptor in it is open. *)
Record safe {W} (s : usys W) : Prop := {
  sf_table : table_ok (tab s);
  sf_owned : owned (refs_in s) (vfds (uvfs s)) }.

Lemma safe_calm {W A} (c : M (usys W) A) s a s' : calm c -> safe s -> c s = Ok a s' -> safe s'.
Proof.
  intros Hc [Ht Ho] Hrun. destruct (Hc _ _ _ Hrun) as [Htab Hk]. split; [by rewrite Htab|]. unfold refs_in in *. rewrite Htab. by eapply owned_kept.
Qed.

Inductive file_call : Type :=
| COpen (ebx ecx : Z) | CClose (ebx : Z) | CRead (ebx ecx edx : Z) | CWrite (ebx ecx edx : Z) | CLink (ebx ecx : Z) | CUnlink (ebx : Z)
| CSeek (ebx ecx edx : Z) | CStat (ebx edx : Z) | CRename (ebx ecx : Z) | CFinfo (ebx ecx edx : Z) | CMkdir (ebx : Z)
| CReaddir (ebx ecx edx : Z) | CDup (ebx ecx : Z) | CFsinfo (ebx ecx : Z) | CIoctl (ebx ecx edx : Z).

Section Calls.
Context {W : Type} `{NodeInfo W} (ops : Z -> fs_ops W) `{!KeepsFds ops}.
Context (fuel : nat) (current_dir : Z) (valid : Z -> bool) (pbuf zbuf : Z) (stale : nat -> slot).
Context (tty_ioctl : Z -> Z -> Z -> M (vfs W) Z).

Definition run_call (c : file_call) : M (usys W) reply :=
  match c with
  | COpen ebx ecx => syscall_open ops fuel current_dir valid pbuf zbuf stale ebx ecx
  | CClose ebx => syscall_close ebx
  | CRead ebx ecx edx => syscall_read ops valid ebx ecx edx
  | CWrite ebx ecx edx => syscall_write ops valid ebx ecx edx
  | CLink ebx ecx => syscall_link ops fuel valid ebx ecx
  | CUnlink ebx => syscall_unlink ops fuel current_dir valid pbuf ebx
  | CSeek ebx ecx edx => syscall_seek ebx ecx edx
  | CStat ebx edx => syscall_stat valid ebx edx
  | CRename ebx ecx => syscall_rename ops fuel valid ebx ecx
  | CFinfo ebx ecx edx => syscall_finfo valid ebx ecx edx
  | CMkdir ebx => syscall_mkdir ops fuel current_dir valid pbuf ebx
  | CReaddir ebx ecx edx => syscall_readdir ops valid ebx ecx edx
  | CDup ebx ecx => syscall_dup fuel stale ebx ecx
  | CFsinfo ebx ecx => syscall_fsinfo valid ebx ecx
  | CIoctl ebx ecx edx => syscall_ioctl tty_ioctl ebx ecx edx
  end.

(** Opening as long as sizes fit in 32 bits; duplicating as long as the table does
    not have to grow and no reference count overflows. *)
Definition allowed (s : usys W) (c : file_call) : Prop :=
  match c with
  | COpen _ _ => 40 * files_size (tab s) < 4294967296
  | CDup ebx ecx =>
    (ecx = 0 /\ files_count (tab s) <> files_size (tab s) \/ ecx < files_size (tab s) /\ ecx <> 0) /\
    forall fd x, descriptors (tab s) (Z.to_nat ebx) = Some fd -> vfds (uvfs s) !! fd = Some (Some x) -> fd_instances x < U32_MAX
  | _ => True
  end.

Lemma calm_make_absolute path : calm (make_absolute (W := W) fuel current_dir pbuf path).
Proof. unfold make_absolute. calms. Qed.
Lemma calm_path_of a : calm (path_of (W := W) fuel a).
Proof. unfold path_of. calms. Qed.
Hint Resolve calm_make_absolute calm_path_of : keeps.
Hint Resolve keeps_read_file keeps_write_file keeps_unlink keeps_link keeps_rename keeps_create_file keeps_read_directory : keeps.
Lemma calm_with_file ebx r k : (forall fd, calm (k fd)) -> calm (with_file (W := W) ebx r k).
Proof. intros Hk. unfold with_file. calms. Qed.
Lemma calm_transfer io ebx ecx edx : (forall k fd a b, keeps k (io fd a b) (fun _ => True)) -> calm (transfer (W := W) valid io ebx ecx edx).
Proof. intros Hio. apply calm_with_file. intros fd. calms. Qed.
Lemma calm_two_paths f ebx ecx : (forall k p q, keeps k (f p q) (fun _ => True)) -> calm (two_paths (W := W) fuel valid f ebx ecx).
Proof. intros Hf. unfold two_paths. calms. Qed.
Lemma keeps_set_offset k fd off : keeps k (set_offset (W := W) fd off) (fun _ => True).
Proof. apply (keeps_offset k fd (fun _ => off)). Qed.
Hint Resolve keeps_set_offset : keeps.
Lemma calm_put_mounts l : forall p, calm (put_mounts l p).
Proof. induction l as [|mp r IH]; intros p; cbn [put_mounts]; calms. Qed.
Hint Resolve calm_put_mounts : keeps.

Definition touches_table (c : file_call) : bool := match c with COpen _ _ | CClose _ | CDup _ _ => true | _ => false end.

(** [tty_ioctl] works on terminals, not on descriptors. *)
Context (tty_keeps : forall k a b c, keeps k (tty_ioctl a b c) (fun _ => True)).

Lemma calm_call c : touches_table c = false -> calm (run_call c).
Proof.
  intros Hc. destruct c; try discriminate Hc; cbn [run_call].
  - apply calm_transfer. intros. by apply keeps_read_file.
  - apply calm_transfer. intros. by apply keeps_write_file.
  - apply calm_two_paths. intros. by apply keeps_link.
  - unfold syscall_unlink. calms.
  - apply calm_with_file. intros fd. unfold flength. calms.
  - apply calm_with_file. intros fd. unfold type_of. calms.
  - apply calm_two_paths. intros. by apply keeps_rename.
  - apply calm_with_file. intros fd. unfold type_of. calms.
  - unfold syscall_mkdir. calms.
  - apply calm_with_file. intros fd. calms.
  - unfold syscall_fsinfo. calms.
  - unfold syscall_ioctl, type_of. calms.
Qed.

(** Placing a descriptor in a well-formed table, whatever its count says. *)
Lemma install_safe fd (s : usys W) i s' : table_ok (tab s) -> install fd s = Ok i s' ->
  uvfs s' = uvfs s /\ table_ok (tab s') /\ forall n, refs n (files (tab s')) <= refs n (files (tab s)) + one_at fd n.
Proof.
  intros Hok Hrun. destruct (free_slot_dec (files (tab s)) 3 (Z.to_nat (files_size (tab s) - 3))) as [(j & Hj & Hn & Ha)|Hall].
  - unfold install, get, bind at 1 in Hrun. rewrite (install_loop_found fd _ 3 j) in Hrun; try done; try lia; [|by eapply lookup_lt_Some].
    injection Hrun as _ <-. cbn [tab uvfs files]. split; [done|]. split; [apply table_insert; [done|lia|done]|].
    intros n. rewrite (refs_insert _ _ _ _ _ Hn), refers_fd. replace (refers n Null) with false by done. lia.
  - unfold install, get, bind at 1 in Hrun. rewrite install_loop_full in Hrun; [|lia|destruct Hok; lia|exact Hall].
    injection Hrun as _ <-. split; [done|]. split; [done|]. intros n. unfold one_at. case_decide; lia.
Qed.
Lemma place_safe grow fd (s : usys W) i s' (u : usys W) :
  (if files_count (tab s) =? files_size (tab s) then grow else ret tt) s = Ok tt u -> uvfs u = uvfs s -> table_ok (tab u) ->
  (forall n, refs n (files (tab u)) = refs n (files (tab s))) -> place grow fd s = Ok i s' ->
  uvfs s' = uvfs s /\ table_ok (tab s') /\ forall n, refs n (files (tab s')) <= refs n (files (tab s)) + one_at fd n.
Proof.
  intros Hg Hv Hok Hr Hrun. unfold place, get, bind at 1 in Hrun. rewrite (bind_ok _ _ _ _ _ Hg) in Hrun.
  apply bind_inv in Hrun as (j & s1 & Hi & Hrest). destruct (install_safe _ _ _ _ Hok Hi) as (Hv1 & Hok1 & Hr1).
  injection Hrest as _ <-. cbn. split; [congruence|]. split; [by destruct Hok1; split|]. intros n. rewrite <- Hr. apply Hr1.
Qed.

Lemma safe_open ebx ecx s r s' : safe s -> allowed s (COpen ebx ecx) -> run_call (COpen ebx ecx) s = Ok r s' -> safe s'.
Proof.
  intros Hs Hal Hrun. cbn in Hal. cbn [run_call] in Hrun. unfold syscall_open in Hrun. destruct (negb _); [injection Hrun as _ <-; done|].
  apply bind_inv in Hrun as (a & s1 & H1 & Hrun). apply bind_inv in Hrun as (path & s2 & H2 & Hrun).
  assert (safe s2 /\ tab s2 = tab s) as [[Ht Ho] Htab].
  { split; [eapply safe_calm; [apply calm_path_of| |exact H2]; by eapply safe_calm; [apply calm_make_absolute| |exact H1]|].
    destruct (calm_path_of _ _ _ _ H2) as [-> _]. by destruct (calm_make_absolute _ _ _ _ H1) as [-> _]. }
  apply bind_inv in Hrun as (o & s3 & H3 & Hrun). unfold in_vfs in H3. destruct (open_file ops zbuf path (u8 ecx) (uvfs s2)) as [o' v| | |] eqn:E; try done.
  injection H3 as <- <-. pose proof (open_file_opens ops _ _ _ _ _ _ _ (Nat.le_refl _) E) as Hop.
  destruct o' as [fd|].
  2: { injection Hrun as _ <-. destruct Hop as [Hk _]. split; [done|]. by eapply owned_kept. }
  apply bind_inv in Hrun as (i & s4 & H4 & Hrun). injection Hrun as _ <-. pose proof (owned_opens _ _ _ _ Ho Hop) as Ho'.
  assert (40 * files_size (tab s2) < 4294967296) as Hal2 by (by rewrite Htab).
  set (u := mk_usys v (if files_count (tab s2) =? files_size (tab s2) then grown (tab s2) else tab s2)).
  destruct (grow_open_ok stale (mk_usys v (tab s2)) Ht Hal2) as [Hg Hgok].
  edestruct (place_safe (grow_open stale) fd (mk_usys v (tab s2)) i s4 u) as (Hv & Ht' & Hr); [| | | |exact H4|].
  - cbn [tab uvfs]. subst u. destruct (_ =? _); [exact Hg|done].
  - done.
  - subst u. cbn [tab]. destruct (_ =? _); done.
  - intros n. subst u. cbn [tab uvfs]. destruct (_ =? _); [|done]. unfold grown, refs. cbn [files]. rewrite tally_app, (tally_zero _ (replicate _ _)); [lia|].
    by intros x [-> _]%elem_of_replicate.
  - split; [done|]. rewrite Hv. cbn [uvfs]. eapply owned_le; [|exact Ho']. intros n. apply Hr.
Qed.

(** A slot that is changed: the references move with it. *)
Lemma set_file_refs i x y (s : usys W) : files (tab s) !! Z.to_nat i = Some y -> forall n,
  refs n (<[Z.to_nat i := x]> (files (tab s))) = refs_in s n + (if refers n x then 1 else 0) - (if refers n y then 1 else 0).
Proof. intros Hy n. by apply refs_insert. Qed.

Lemma safe_close ebx s r s' : safe s -> run_call (CClose ebx) s = Ok r s' -> safe s'.
Proof.
  intros [Hok Ho] Hrun. cbn [run_call] in Hrun. unfold syscall_close, get, bind at 1 in Hrun. destruct (_ && _) eqn:Eb; [|injection Hrun as _ <-; by split].
  apply andb_true_iff in Eb as [E1%Z.leb_le E2%Z.leb_le]. unfold file_at, bind at 1 in Hrun.
  destruct (files (tab s) !! Z.to_nat ebx) as [x|] eqn:Ex; [|done]. destruct x as [|fd|w]; cbn [is_null] in Hrun; [injection Hrun as _ <-; by split| |by destruct (to_slots _ Hok _ _ Ex)].
  unfold set_file, set_count, upd_tab, modify, bind, fd_of, ret, in_vfs in Hrun. cbn [tab uvfs files files_size files_count] in Hrun.
  destruct (close_file fd (uvfs s)) as [u v| | |] eqn:Ec; try done. injection Hrun as _ <-. split; cbn [tab uvfs].
  - destruct Hok as [Hsz Hlen Hsl Hbe]. split; cbn [files files_size]; [done|by rewrite length_insert| |].
    + intros i w Hi. apply list_lookup_insert_Some in Hi as [(_ & ? & _)|[_ Hi]]; [done|by apply (Hsl i w)].
    + intros i x Hi Hx. apply list_lookup_insert_Some in Hx as [(_ & <- & _)|[_ Hx]]; [done|by apply (Hbe i x)].
  - eapply owned_le; [|eapply owned_close; [exact Ho|by eapply refs_pos|exact Ec]]. intros n. unfold refs_in at 1. cbn [tab files].
    rewrite (set_file_refs _ _ _ _ Ex), refers_fd. replace (refers n Null) with false by done. lia.
Qed.

Lemma with_file_run ebx missing k (s : usys W) r s' : safe s -> with_file ebx missing k s = Ok r s' ->
  s' = s /\ r = missing \/
  exists fd, descriptors (tab s) (Z.to_nat ebx) = Some fd /\ ebx <= files_size (tab s) /\ 0 < refs_in s fd /\ k fd s = Ok r s'.
Proof.
  intros [Hok Ho] Hrun. unfold with_file, get, file_at, bind in Hrun. destruct (files (tab s) !! Z.to_nat ebx) as [x|] eqn:Ex; [|done].
  destruct (_ || _) eqn:Eb; [injection Hrun as <- <-; by left|]. apply orb_false_iff in Eb as [E1%Z.ltb_ge E2].
  destruct x as [|fd|w]; [done| |by destruct (to_slots _ Hok _ _ Ex)]. right. exists fd. unfold descriptors. rewrite Ex.
  split_and!; [done|done|by eapply refs_pos|exact Hrun].
Qed.

Lemma safe_dup ebx ecx s r s' : safe s -> allowed s (CDup ebx ecx) -> run_call (CDup ebx ecx) s = Ok r s' -> safe s'.
Proof.
  intros Hs [Hal Hmax] Hrun. cbn [run_call] in Hrun. apply with_file_run in Hrun as [[-> _]|(fd & Hd & Hle & Hpos & Hrun)]; [done| |done].
  destruct Hs as [Hok Ho]. pose proof (fun x => Hmax fd x Hd) as Hmax'. destruct (Z.eqb_spec ecx 0) as [-> |Hne]; cbn [negb] in Hrun.
  - destruct Hal as [[_ Hc]|[_ Hc]]; [|done]. apply bind_inv in Hrun as (i & s1 & H1 & Hrun).
    apply (place_safe _ _ _ _ _ s) in H1 as (Hv & Hok1 & Hr1); [|by dec_false (files_count (tab s) =? files_size (tab s))|done|done|done].
    unfold in_vfs, bind in Hrun. destruct (add_instance fd (uvfs s1)) as [u v| | |] eqn:Ea; try done. injection Hrun as _ <-.
    rewrite Hv in Ea. split; [done|]. cbn [uvfs]. eapply owned_le; [|eapply owned_add_instance; [exact Ho|done|done|exact Ea]]. exact Hr1.
  - destruct Hal as [[? _]|[Hc _]]; [done|]. destruct (Z.ltb_spec ecx 3); [injection Hrun as _ <-; by split|].
    apply bind_inv in Hrun as (u & s1 & H1 & Hrun). assert (s1 = s) as ->.
    { destruct fuel; [done|]. cbn [grow_to] in H1. unfold get, bind at 1 in H1. replace (files_size (tab s) <? ecx) with false in H1 by (symmetry; apply Z.ltb_ge; lia). by injection H1 as _ <-. }
    unfold in_vfs at 1 in Hrun. unfold bind at 1 in Hrun. destruct (add_instance fd (uvfs s)) as [u' v| | |] eqn:Ea; try done.
    pose proof (owned_add_instance _ _ _ _ _ Ho Hpos Hmax' Ea) as Ho1. unfold file_at, bind at 1 in Hrun. cbn [tab] in Hrun.
    destruct (files (tab s) !! Z.to_nat ecx) as [x|] eqn:Ex; [|done].
    assert (table_ok (mk_files (<[Z.to_nat ecx := Fd fd]> (files (tab s))) (files_size (tab s)) (files_count (tab s)))) as Hok'.
    { destruct Hok as [Hsz Hlen Hsl Hbe]. split; cbn [files files_size]; [done|by rewrite length_insert| |].
      - intros i w Hi. apply list_lookup_insert_Some in Hi as [(_ & ? & _)|[_ Hi]]; [done|by apply (Hsl i w)].
      - intros i y Hi Hy. apply list_lookup_insert_Some in Hy as [(? & _ & _)|[_ Hy]]; [lia|by apply (Hbe i y)]. }
    destruct x as [|fd'|w]; cbn [is_null] in Hrun; [| |by destruct (to_slots _ Hok _ _ Ex)].
    + injection Hrun as _ <-. split; [exact Hok'|]. cbn [uvfs]. eapply owned_le; [|exact Ho1]. intros n. unfold refs_in at 1. cbn [tab files].
      rewrite (set_file_refs _ _ _ _ Ex), refers_fd. replace (refers n Null) with false by done. lia.
    + unfold fd_of, in_vfs, ret, bind in Hrun. cbn [uvfs tab] in Hrun. destruct (close_file fd' v) as [u2 v2| | |] eqn:Ec; try done.
      injection Hrun as _ <-. split; [exact Hok'|]. cbn [uvfs].
      eapply owned_le; [|eapply owned_close; [exact Ho1| |exact Ec]]; cbv beta.
      * intros n. unfold refs_in at 1. cbn [tab files]. rewrite (set_file_refs _ _ _ _ Ex), !refers_fd. lia.
      * pose proof (refs_pos _ _ _ Ex). unfold refs_in, one_at. case_decide; lia.
Qed.

(** A sequence of calls of one process. *)
Inductive calls : usys W -> list (file_call * reply) -> usys W -> Prop :=
| calls_nil s : calls s [] s
| calls_cons s c r s1 l s' : allowed s c -> run_call c s = Ok r s1 -> calls s1 l s' -> calls s ((c, r) :: l) s'.

End Calls.

(** ** Opening, closing and reading *)

Section OpenClose.
Context {W : Type} (ops : Z -> fs_ops W).
Context (fuel : nat) (current_dir : Z) (valid : Z -> bool) (pbuf zbuf : Z) (stale : nat -> slot).
Notation sys_open := (syscall_open ops fuel current_dir valid pbuf zbuf stale).

(** An absolute path is taken as it is. *)
Lemma open_run (s : usys W) ebx ecx path : valid ebx = true -> cstr (vmem (uvfs s)) ebx (47 :: path) -> (S (length path) < fuel)%nat ->
  sys_open ebx ecx s =
    match open_file ops zbuf (47 :: path) (u8 ecx) (uvfs s) with
    | Ok None v => Ok (answer 0 ERROR_FILE_NOT_FOUND) (mk_usys v (tab s))
    | Ok (Some fd) v => (i <- place (grow_open stale) fd ;; ret (answer i ERROR_NONE)) (mk_usys v (tab s))
    | Fatal e => Fatal e | Fault => Fault | NoFuel => NoFuel
    end.
Proof.
  intros Hv Hc Hf. unfold syscall_open. rewrite Hv. cbn [negb]. assert (make_absolute fuel current_dir pbuf ebx s = Ok ebx s) as Habs.
  { unfold make_absolute, get, bind at 1. pose proof Hc as [-> _]. done. }
  rewrite (bind_ok _ _ _ _ _ Habs). assert (path_of fuel ebx s = Ok (47 :: path) s) as Hp.
  { unfold path_of, get, bind. by rewrite (string_at_ok _ _ _ (47 :: path)). }
  rewrite (bind_ok _ _ _ _ _ Hp). unfold in_vfs, bind at 1. by destruct (open_file _ _ _ _ _) as [[fd|] v| | |].
Qed.

(** C5: [syscall_open] implements a table of descriptor numbers: when the file
    can be opened it is given the lowest number from 3 on that is free, every
    other number means what it meant before, and the table stays well formed and
    counted; when there is no free number the table is doubled.  When the file
    cannot be opened the table is unchanged and the error is reported. *)
Theorem open_lowest_free (s : usys W) ebx ecx path : valid ebx = true -> cstr (vmem (uvfs s)) ebx (47 :: path) -> (S (length path) < fuel)%nat ->
  table_ok (tab s) -> table_counted (tab s) -> 40 * files_size (tab s) < 4294967296 ->
  match open_file ops zbuf (47 :: path) (u8 ecx) (uvfs s) with
  | Ok None v => sys_open ebx ecx s = Ok (answer 0 ERROR_FILE_NOT_FOUND) (mk_usys v (tab s))
  | Ok (Some fd) v => exists i t', sys_open ebx ecx s = Ok (answer i ERROR_NONE) (mk_usys v t') /\ placed (tab s) fd i t'
  | Fatal e => sys_open ebx ecx s = Fatal e
  | Fault => sys_open ebx ecx s = Fault
  | NoFuel => sys_open ebx ecx s = NoFuel
  end.
Proof.
  intros Hv Hc Hf Hok Hcnt Hb. rewrite (open_run s ebx ecx path Hv Hc Hf). destruct (open_file _ _ _ _ _) as [[fd|] v| | |]; try done.
  destruct (place_ok stale fd (mk_usys v (tab s)) Hok Hcnt Hb) as (i & t' & Hrun & Hp). exists i, t'. split; [|exact Hp].
  by rewrite (bind_ok _ _ _ _ _ Hrun).
Qed.

Lemma close_run (s : usys W) ebx fd x : 3 <= ebx <= files_size (tab s) -> files (tab s) !! Z.to_nat ebx = Some (Fd fd) ->
  vfds (uvfs s) !! fd = Some (Some x) -> fd_instances x = 1 ->
  exists v', close_file fd (uvfs s) = Ok tt v' /\ vfds v' = <[fd := None]> (vfds (uvfs s)) /\
  syscall_close ebx s = Ok no_reply (mk_usys v' (mk_files (<[Z.to_nat ebx := Null]> (files (tab s))) (files_size (tab s)) (u32 (files_count (tab s) - 1)))).
Proof.
  intros Hb Hs Hx Hi. assert (exists v', close_file fd (uvfs s) = Ok tt v' /\ vfds v' = <[fd := None]> (vfds (uvfs s))) as (v' & Hc & Hv).
  { eexists. unfold close_file, get_fd, set_fd, modify, bind. rewrite Hx, Hi. split; reflexivity. }
  exists v'. split; [done|]. split; [done|]. unfold syscall_close, get, bind at 1. dec_true (3 <=? ebx). dec_true (ebx <=? files_size (tab s)). cbn [andb].
  unfold file_at, bind at 1. rewrite Hs. cbn [is_null]. unfold set_file, set_count, upd_tab, modify, fd_of, ret, in_vfs, bind. cbn [uvfs tab files files_size files_count].
  by rewrite Hc.
Qed.

(** C6: closing what was just opened undoes it: the descriptor table means what
    it meant before, the count is what it was, and the descriptor is freed. *)
Theorem open_close_roundtrip `{!KeepsFds ops} (s : usys W) ebx ecx path fd v :
  valid ebx = true -> cstr (vmem (uvfs s)) ebx (47 :: path) -> (S (length path) < fuel)%nat ->
  table_ok (tab s) -> table_counted (tab s) -> 40 * files_size (tab s) < 4294967296 ->
  open_file ops zbuf (47 :: path) (u8 ecx) (uvfs s) = Ok (Some fd) v ->
  exists i s1 s2, sys_open ebx ecx s = Ok (answer i ERROR_NONE) s1 /\ syscall_close i s1 = Ok no_reply s2 /\
    (forall j, descriptors (tab s2) j = descriptors (tab s) j) /\ files_count (tab s2) = files_count (tab s) /\
    vfds (uvfs s2) = <[fd := None]> (vfds v).
Proof.
  intros Hv Hc Hf Hok Hcnt Hb Hopen.
  destruct (place_ok stale fd (mk_usys v (tab s)) Hok Hcnt Hb) as (i & t' & Hrun & [Hok' Hcnt' Hn Hfree Hlow Hrest Hu]). cbn [tab uvfs] in *.
  destruct (open_file_opens ops (length (vfds (uvfs s))) _ _ _ _ _ _ (Nat.le_refl _) Hopen) as (_ & _ & x & Hx & Hi).
  assert (files t' !! Z.to_nat i = Some (Fd fd)) as Hs.
  { pose proof (Hrest (Z.to_nat i)) as Hd. rewrite decide_True in Hd by done. unfold descriptors in Hd. destruct (files t' !! Z.to_nat i) as [[]|]; congruence. }
  destruct (close_run (mk_usys v t') i fd x) as (v' & _ & Hv' & Hcl); cbn [tab uvfs]; try done; [lia|].
  eexists i, _, _. split; [rewrite (open_run s ebx ecx path Hv Hc Hf), Hopen, (bind_ok _ _ _ _ _ Hrun); reflexivity|].
  split; [exact Hcl|]. cbn [tab uvfs files_count]. split_and!; [|destruct Hcnt as [_ ->], Hcnt' as [_ ->]|exact Hv'].
  - intros j. unfold descriptors at 1. cbn [files]. rewrite list_lookup_insert. destruct (decide _) as [[<- _]|Hne].
    + by rewrite Hfree.
    + change (match files t' !! j with Some (Fd fd0) => Some fd0 | _ => None end) with (descriptors t' j). rewrite Hrest.
      rewrite decide_False; [done|]. intros ->. apply Hne. split; [done|]. by eapply lookup_lt_Some.
  - rewrite Hu. pose proof (used_bound _ Hok). pose proof (tally_range is_used (files (tab s))). unfold used in *. rewrite u32_id by lia. lia.
Qed.

End OpenClose.

(** ** Directories *)

Section Readdir.
Context {W : Type} (ops : Z -> fs_ops W) (valid : Z -> bool).

(** C8: [syscall_readdir] fills the entry of the process and nothing behind it:
    for an index inside the directory it writes the inode number, at most 255
    characters of the name and a zero, all inside the 260 bytes at the address
    given; for an index outside it reports the end and writes nothing, and an
    error of the file system is passed on. *)
Theorem syscall_readdir_bounds (s : usys W) ebx ecx edx fd e l v : ebx <= files_size (tab s) -> descriptors (tab s) (Z.to_nat ebx) = Some fd ->
  valid edx = true -> 0 <= ecx -> read_directory ops fd (uvfs s) = Ok (e, l) v ->
  (forall i ino name, l !! i = Some (ino, name) -> Forall is_u8 name) ->
  if negb (e =? ERROR_NONE) then syscall_readdir ops valid ebx ecx edx s = Ok (error_reply e) (mk_usys v (tab s)) else
  match l !! Z.to_nat ecx with
  | None => syscall_readdir ops valid ebx ecx edx s = Ok (error_reply ERROR_FILE_OUT) (mk_usys v (tab s))
  | Some (ino, name) => exists s', syscall_readdir ops valid ebx ecx edx s = Ok (error_reply ERROR_NONE) s' /\ tab s' = tab s /\
      same_outside (vmem v) (vmem (uvfs s')) edx (edx + 260) /\ load32 (vmem (uvfs s')) edx = u32 ino /\
      bytes_at (vmem (uvfs s')) (edx + 4) (length (take 255 name) + 1) = take 255 name ++ [0]
  end.
Proof.
  intros Hle Hd Hv Hc Hr Hu8. unfold descriptors in Hd. destruct (files (tab s) !! Z.to_nat ebx) as [[|fd'|]|] eqn:Es; try done. injection Hd as ->.
  assert (forall k, with_file ebx (error_reply ERROR_FILE_NOT_FOUND) k s = k fd s) as Hw.
  { intros k. unfold with_file, get, file_at, bind. rewrite Es. dec_false (files_size (tab s) <? ebx). done. }
  unfold syscall_readdir. rewrite Hw, Hv. cbn [negb]. assert (in_vfs (read_directory ops fd) s = Ok (e, l) (mk_usys v (tab s))) as Hin.
  { unfold in_vfs. by rewrite Hr. }
  rewrite (bind_ok _ _ _ _ _ Hin). cbn [fst snd]. destruct (e =? ERROR_NONE) eqn:Ee; cbn [negb orb]; [|done].
  destruct (l !! Z.to_nat ecx) as [[ino name]|] eqn:El.
  - pose proof (lookup_lt_Some _ _ _ El). dec_false (Z.of_nat (length l) <=? ecx). pose proof (Hu8 _ _ _ El) as Hn.
    assert (Forall is_u8 (take 255 name ++ [0])) as Hall by (apply Forall_app; split; [by apply Forall_take|apply Forall_singleton; unfold is_u8; lia]).
    assert (length (take 255 name) <= 255)%nat by (rewrite length_take; lia).
    eexists. split; [reflexivity|]. cbn [tab uvfs vmem]. split; [done|]. split_and!.
    + intros x Hx. rewrite store_bytes_outside by (rewrite length_app; cbn; lia). apply store32_other. lia.
    + rewrite <- load32_store32 with (m := vmem v) (a := edx). apply load32_ext. intros x Hx. apply store_bytes_outside. lia.
    + rewrite <- (store_bytes_same (store32 (vmem v) edx ino) (edx + 4) _ Hall) at 2. by rewrite length_app.
  - apply lookup_ge_None_1 in El. dec_true (Z.of_nat (length l) <=? ecx). done.
Qed.
End Readdir.

(** ** Concrete tables *)

(** A table as [fork] makes it: memory for [n] descriptors, cleared, of which the
    first slots are taken. *)
Definition fresh_table (fds : list nat) (n : nat) : files_t :=
  mk_files (map Fd fds ++ replicate (5 * n - length fds) Null) (Z.of_nat n) (Z.of_nat (length fds)).

Lemma fresh_table_ok fds n : (3 <= length fds <= n)%nat -> table_ok (fresh_table fds n) /\ table_counted (fresh_table fds n).
Proof.
  intros Hn. unfold fresh_table. split; split; cbn [files files_size files_count].
  - lia.
  - rewrite length_app, length_map, length_replicate. lia.
  - intros i w Hi. apply lookup_app_Some in Hi as [Hi|[_ Hi]]; [|by apply lookup_replicate in Hi as [? _]].
    apply list_lookup_fmap_Some in Hi as (? & ? & ?). congruence.
  - intros i x Hi Hx. apply lookup_app_Some in Hx as [Hx|[_ Hx]]; [|by apply lookup_replicate in Hx as [-> _]].
    apply lookup_lt_Some in Hx. rewrite length_map in Hx. lia.
  - intros i Hi Hx. apply lookup_app_Some in Hx as [Hx|[Hge _]]; [|rewrite length_map in Hge; lia].
    apply list_lookup_fmap_Some in Hx as (? & ? & ?). congruence.
  - unfold used. rewrite tally_app, (tally_zero _ (replicate _ _)) by (by intros x [-> _]%elem_of_replicate).
    induction fds as [|fd fds IH]; [done|]. cbn [map tally length]. cbn in *. clear Hn.
    assert (forall l, tally is_used (map Fd l) = Z.of_nat (length l)) as -> by (induction l as [|a l IHl]; cbn [map tally length]; [done|rewrite IHl; cbn; lia]). lia.
Qed.

#[export] Instance unit_info : NodeInfo unit := {
  hard_links _ _ := 1; last_access_time _ _ := 0; last_modification_time _ _ := 0; node_number _ n := Z.of_nat n;
  node_device_type _ _ := 0; node_device_struct _ _ := 0; fs_flags _ _ := 0; fs_blocks _ _ := 100; fs_address _ _ := 4096 }.
#[export] Instance ram_keeps content : KeepsFds (ram_ops content).
Proof. split; intros *; cbn; by intros [= _ <-]. Qed.

Definition demo_path : list Z := [117; 115; 114; 47; 102].
(** The path [/usr/f] is at 4096, the current directory [/usr] at 5120, the file
    name [f] at 5200, [/] at 5300; the descriptor 0 stands for the three standard
    files. *)
Definition demo_mem : mem :=
  store_bytes (store_bytes (store_bytes (mem_of 4096 ((47 :: demo_path) ++ [0])) 5120 ([47] ++ demo_usr ++ [0])) 5200 [102; 0]) 5300 [47; 0].
Definition demo_usys (t : files_t) : usys unit :=
  mk_usys (mk_vfs tt demo_mem (vnodes demo_vfs) [Some (mk_fd 2 1 3 (Some []))] (vsystems demo_vfs) [demo_root] 1) t.
Definition demo_table : files_t := fresh_table [0; 0; 0]%nat 5.
Definition user_page (a : Z) : bool := (4096 <=? a) && (a <? 8192).
Definition no_tty (a b c : Z) : M (vfs unit) Z := ret ERROR_NONE.
Definition run_demo (stale : nat -> slot) : file_call -> M (usys unit) reply :=
  run_call demo_ops 20 5120 user_page 6000 7000 stale no_tty.

Lemma demo_safe : safe (demo_usys demo_table).
Proof.
  split; [by apply (fresh_table_ok [0; 0; 0]%nat 5); cbn; lia|]. intros fd Hfd. destruct fd as [|fd].
  - exists (mk_fd 2 1 3 (Some [])). split; [done|]. vm_compute. split; discriminate.
  - exfalso. revert Hfd. unfold refs_in. cbn [demo_usys tab demo_table fresh_table files]. unfold refs. rewrite tally_zero; [lia|].
    intros x Hx. unfold refers. apply bool_decide_false. intros ->. apply elem_of_app in Hx as [Hx|Hx]; [|by apply elem_of_replicate in Hx as [? _]].
    cbn in Hx. apply elem_of_cons in Hx as [?|[?|[?|[]%not_elem_of_nil]%elem_of_cons]%elem_of_cons]; congruence.
Qed.

Definition after (c : file_call) (s : usys unit) : usys unit := default s (state_of (run_demo (fun _ => Null) c s)).
Lemma run_after c s r : value_of (run_demo (fun _ => Null) c s) = Some r -> run_demo (fun _ => Null) c s = Ok r (after c s).
Proof. unfold after. destruct (run_demo _ c s); cbn; congruence. Qed.
Definition demo_opened : usys unit := after (COpen 4096 0) (demo_usys demo_table).
Definition demo_dupped : usys unit := after (CDup 3 0) demo_opened.
Definition demo_closed : usys unit := after (CClose 3) demo_dupped.
Definition demo_read : usys unit := after (CRead 4 7100 2) demo_closed.
Definition demo_calls : list (file_call * reply) :=
  [(COpen 4096 0, answer 3 0); (CDup 3 0, answer 4 0); (CClose 3, no_reply); (CRead 4 7100 2, answer 2 0)].
Definition demo_trace : usys unit -> list (file_call * reply) -> usys unit -> Prop :=
  calls demo_ops 20 5120 user_page 6000 7000 (fun _ => Null) no_tty.

Lemma demo_cons c s r l s' : allowed s c -> value_of (run_demo (fun _ => Null) c s) = Some r -> demo_trace (after c s) l s' -> demo_trace s ((c, r) :: l) s'.
Proof. intros Hal Hr Hl. by apply (calls_cons _ _ _ _ _ _ _ _ _ _ _ _ _ _ Hal (run_after c s r Hr)). Qed.
Lemma demo_runs : demo_trace (demo_usys demo_table) demo_calls demo_read.
Proof.
  apply demo_cons; [cbn; lia|vm_compute; reflexivity|]. apply demo_cons; [|vm_compute; reflexivity|].
  - split; [left; split; [done|vm_compute; discriminate]|].
    assert (match descriptors (tab demo_opened) 3 with Some fd => fd_instances <$> mjoin (vfds (uvfs demo_opened) !! fd) | None => None end = Some 1) as Hi by (vm_compute; reflexivity).
    intros fd x Hd Hx. change (Z.to_nat 3) with 3%nat in Hd. fold demo_opened in Hd, Hx. rewrite Hd, Hx in Hi. injection Hi as ->. done.
  - apply demo_cons; [done|vm_compute; reflexivity|]. apply demo_cons; [done|vm_compute; reflexivity|]. apply calls_nil.
Qed.

Lemma demo_strings : cstr demo_mem 4096 (47 :: demo_path) /\ cstr demo_mem 5120 ([47] ++ demo_usr) /\ cstr demo_mem 5200 demo_f.
Proof. by vm_compute. Qed.

Lemma make_absolute_correct_witness : exists s', make_absolute 20 5120 6000 5200 (demo_usys demo_table) = Ok 6000 s' /\
  cstr (vmem (uvfs s')) 6000 (([47] ++ demo_usr) ++ 47 :: demo_f).
Proof.
  destruct (make_absolute_correct 20 5120 6000 (demo_usys demo_table) 5200 demo_f ([47] ++ demo_usr)) as (s' & Hrun & Hc & _).
  - split; [apply demo_strings|apply demo_strings|cbn; lia|reflexivity|right; reflexivity|right; reflexivity|vm_compute; reflexivity].
  - discriminate.
  - by exists s'.
Defined.

Lemma demo_table_ok : table_ok demo_table /\ table_counted demo_table.
Proof. apply fresh_table_ok. cbn. lia. Qed.
Definition demo_after_open : vfs unit := default (uvfs (demo_usys demo_table)) (state_of (open_file demo_ops 7000 (47 :: demo_path) 0 (uvfs (demo_usys demo_table)))).
Lemma demo_open_file : open_file demo_ops 7000 (47 :: demo_path) (u8 0) (uvfs (demo_usys demo_table)) = Ok (Some 1%nat) demo_after_open.
Proof. reflexivity. Qed.

Lemma open_lowest_free_witness : exists i t',
  syscall_open demo_ops 20 5120 user_page 6000 7000 (fun _ => Null) 4096 0 (demo_usys demo_table) = Ok (answer i ERROR_NONE) (mk_usys demo_after_open t') /\
  placed demo_table 1 i t'.
Proof.
  pose proof (open_lowest_free demo_ops 20 5120 user_page 6000 7000 (fun _ => Null) (demo_usys demo_table) 4096 0 demo_path
    eq_refl (proj1 demo_strings) ltac:(cbn; lia) (proj1 demo_table_ok) (proj2 demo_table_ok) ltac:(cbn; lia)) as Ho.
  rewrite demo_open_file in Ho. exact Ho.
Defined.

Lemma open_close_roundtrip_witness : exists i s1 s2,
  syscall_open demo_ops 20 5120 user_page 6000 7000 (fun _ => Null) 4096 0 (demo_usys demo_table) = Ok (answer i ERROR_NONE) s1 /\
  syscall_close i s1 = Ok no_reply s2 /\ (forall j, descriptors (tab s2) j = descriptors demo_table j) /\
  files_count (tab s2) = files_count demo_table /\ vfds (uvfs s2) = <[1%nat := None]> (vfds demo_after_open).
Proof.
  exact (open_close_roundtrip demo_ops 20 5120 user_page 6000 7000 (fun _ => Null) (demo_usys demo_table) 4096 0 demo_path 1 demo_after_open
    eq_refl (proj1 demo_strings) ltac:(cbn; lia) (proj1 demo_table_ok) (proj2 demo_table_ok) ltac:(cbn; lia) demo_open_file).
Defined.


(** A file system whose directories have two entries, and the root opened. *)
Definition dir_ops (t : Z) : fs_ops unit :=
  mk_ops unit demo_open (fun _ => ret (ERROR_NONE, [(7, demo_usr); (9, demo_f)])) (op_read (demo_ops t)) (op_write (demo_ops t))
    (op_create (demo_ops t)) (op_unlink (demo_ops t)) (op_link (demo_ops t)) (op_rename (demo_ops t)).
Definition demo_dir : usys unit :=
  mk_usys (mk_vfs tt demo_mem (vnodes demo_vfs) [Some (mk_fd 0 0 3 None)] (vsystems demo_vfs) [demo_root] 1) demo_table.
Lemma syscall_readdir_bounds_witness : exists s', syscall_readdir dir_ops user_page 0 1 7100 demo_dir = Ok (error_reply ERROR_NONE) s' /\
  bytes_at (vmem (uvfs s')) 7104 2 = demo_f ++ [0].
Proof.
  destruct (syscall_readdir_bounds dir_ops user_page demo_dir 0 1 7100 0 ERROR_NONE [(7, demo_usr); (9, demo_f)] (uvfs demo_dir))
    as (s' & Hrun & _ & _ & _ & Hb); try reflexivity; try discriminate; [|by exists s'].
  intros [|[|i]] ino name Hl; cbn in Hl; try discriminate; injection Hl as _ <-; repeat constructor; unfold is_u8; lia.
Defined.

(** ** Calls that do otherwise than meant *)

(** The byte behind the slash of the buffer is not written before [strncat] looks
    for the end: with another byte there, the file [f] of [/usr] becomes [/usr/X]. *)
Definition dirty_path : usys unit :=
  mk_usys (mk_vfs tt (store8 demo_mem 6005 88) (vnodes demo_vfs) (vfds (uvfs (demo_usys demo_table))) (vsystems demo_vfs) [demo_root] 1) demo_table.
Lemma relative_path_keeps_old_bytes :
  match make_absolute 20 5120 6000 5200 dirty_path with
  | Ok a s => string_at 20 (vmem (uvfs s)) a = Some ([47] ++ demo_usr ++ [47; 88])
  | _ => False
  end.
Proof. by vm_compute. Qed.

(** The first process has room for 5 pointers.  When its table is full and grows,
    the slots 5 to 9 hold what was in the memory: the new file gets no slot, and
    the number that is returned is that of a slot that is no descriptor. *)
Definition init_table : files_t := mk_files [Fd 0; Fd 0; Fd 0; Fd 0; Fd 0]%nat 5 5.
Lemma first_growth_keeps_old_words :
  match run_demo (fun _ => Stale 999) (COpen 4096 0) (demo_usys init_table) with
  | Ok r s => r = answer 10 0 /\ ~ In (Fd 1) (files (tab s)) /\ run_demo (fun _ => Stale 999) (CRead 10 7100 1) s = Fault
  | _ => False
  end.
Proof. vm_compute. split; [reflexivity|]. split; [|reflexivity]. intros Hin. repeat (destruct Hin as [Hin|Hin]; [discriminate|]). exact Hin. Qed.

(** [syscall_dup] to a number of one's choice does not count the new descriptor:
    with 3, 4 taken that way the table is full and counted as if it were not, so
    the next file gets no slot and the number 5, behind the table. *)
Lemma chosen_dup_not_counted :
  let s := after (CDup 0 4) (after (CDup 0 3) (demo_usys demo_table)) in
  files_count (tab s) = 3 /\ used (files (tab s)) = 5 /\
  match run_demo (fun _ => Null) (COpen 4096 0) s with
  | Ok r s' => r = answer 5 0 /\ used (files (tab s')) = 5
  | _ => False
  end.
Proof. by vm_compute. Qed.

(** Both sides of the test of a descriptor number are evaluated: a number far
    outside of the table is read there.  [syscall_ioctl] has the other operator
    and reports the error. *)
Lemma wild_descriptor_is_read :
  run_demo (fun _ => Null) (CRead 1000 7100 1) (demo_usys demo_table) = Fault /\
  run_demo (fun _ => Null) (CIoctl 1000 0 0) (demo_usys demo_table) = Ok (error_reply ERROR_FILE_NOT_FOUND) (demo_usys demo_table).
Proof. by split. Qed.

(** Only the address of a buffer is checked, not its end: reading into the last
    byte of the page of the process writes the bytes behind it. *)
Lemma buffer_end_not_checked :
  match run_demo (fun _ => Null) (CRead 0 8191 3) (demo_usys demo_table) with
  | Ok r s => r = answer 3 0 /\ user_page 8192 = false /\ load8 (vmem (uvfs s)) 8192 = 30
  | _ => False
  end.
Proof. by vm_compute. Qed.

(** Seeking backwards from the current place moves 4 GiB forward: the distance is
    a 32-bit number added to a 64-bit offset.  The low half that is returned
    looks right. *)
Lemma seek_backwards :
  match run_demo (fun _ => Null) (CSeek 0 4294967295 1) (demo_usys demo_table) with
  | Ok r s => r = answer 0 0 /\ option_map fd_offset (mjoin (vfds (uvfs s) !! 0%nat)) = Some 4294967296
  | _ => False
  end.
Proof. by vm_compute. Qed.

(** A descriptor of the root directory has no path: asking for it follows the
    pointer that was in the memory. *)
Lemma finfo_of_root : run_demo (fun _ => Null) (CFinfo 0 2 7100) demo_dir = Fault.
Proof. by vm_compute. Qed.

(** [syscall_rename] of a name in the current directory: the path has no slash. *)
Lemma rename_of_relative_path : run_demo (fun _ => Null) (CRename 5200 5200) (demo_usys demo_table) = Fault.
Proof. by vm_compute. Qed.

(** The descriptor of a new stream has whatever reference count its memory had;
    with 0 there, closing it leaves it open with 4294967295 references. *)
Lemma openio_references :
  match syscall_openio (fun _ => Null) 0 0 (demo_usys demo_table) with
  | Ok r s => r = answer 3 0 /\ option_map fd_instances (mjoin (vfds (uvfs (after (CClose 3) s)) !! 1%nat)) = Some U32_MAX
  | _ => False
  end.
Proof. by vm_compute. Qed.
