(* ===== verification/Process.v ===== *)
(** Processes (tasking/processes/process.c, [free_thread_memory] of
    tasking/processes/threads.c).

    The process table, the fields of processes that the scheduler does not use,
    and the life of a process: creation, [fork], loading, [sbrk], exit.  The
    state joins the parts that process.c works on: scheduler and groups, page
    tables, the virtual file system.  The user memory of each page directory is
    a memory of its own, as in Elf.v, and [copy_adress_space] copies it with the
    page tables, as AddrSpace.v shows; the calls of [map_memory] that loading
    makes are carried out on the page tables afterwards.  The private lists of a
    process, its children and its segments, are lists. *)

From S2P Require Import Prelude Errors Mem KHeap Alloc Dll Blocks PhysMem Paging AddrSpace Strings DataStructs Storage Vfs Elf Sched Groups Signals SysFiles SysTable.

Definition PROCESSES_ARRAY_SIZE : Z := 20.
Definition PROCESS_INVALID_PID : Z := -1.
Definition PROCESS_KERNEL_PID : Z := -2.
Definition PROCESS_IDLE_PID : Z := -3.
Definition THREAD_STATUS_ASLEEP_CHILD : Z := 6.
Definition THREAD_STATUS_ZOMBIE : Z := 10.
Definition EXIT_CONDITION_USER : Z := 256.
Definition SIGCHLD : Z := 4.
Definition sizeof_process_t : Z := 292.

(** The segments of a process: none, known, or a list that was freed. *)
Inductive segments : Type := NoSegments | Segments (l : list (Z * Z)) | Freed.

(** The rest of [process_t]. *)
Record pext : Type := mk_pext {
  p_flags : Z; page_directory : Z; data_loc : segments; heap_addr : Z; heap_size : Z; p_tty : Z;
  p_files : files_t; children : list Z; parent : Z; p_current_dir : list Z }.
(** The general registers of a thread. *)
Record g_regs_t : Type := mk_gregs { g_eax : Z; g_ebx : Z; g_ecx : Z; g_edx : Z; g_edi : Z; g_esi : Z; g_ebp : Z }.
Definition zero_regs : g_regs_t := mk_gregs 0 0 0 0 0 0 0.

Definition set_directory (v : Z) (x : pext) : pext :=
  mk_pext (p_flags x) v (data_loc x) (heap_addr x) (heap_size x) (p_tty x) (p_files x) (children x) (parent x) (p_current_dir x).
Definition set_data_loc (v : segments) (x : pext) : pext :=
  mk_pext (p_flags x) (page_directory x) v (heap_addr x) (heap_size x) (p_tty x) (p_files x) (children x) (parent x) (p_current_dir x).
Definition set_heap (a n : Z) (x : pext) : pext :=
  mk_pext (p_flags x) (page_directory x) (data_loc x) a n (p_tty x) (p_files x) (children x) (parent x) (p_current_dir x).
Definition set_files (v : files_t) (x : pext) : pext :=
  mk_pext (p_flags x) (page_directory x) (data_loc x) (heap_addr x) (heap_size x) (p_tty x) v (children x) (parent x) (p_current_dir x).
Definition set_children (v : list Z) (x : pext) : pext :=
  mk_pext (p_flags x) (page_directory x) (data_loc x) (heap_addr x) (heap_size x) (p_tty x) (p_files x) v (parent x) (p_current_dir x).
Definition set_parent (v : Z) (x : pext) : pext :=
  mk_pext (p_flags x) (page_directory x) (data_loc x) (heap_addr x) (heap_size x) (p_tty x) (p_files x) (children x) v (p_current_dir x).
Definition set_current_dir (v : list Z) (x : pext) : pext :=
  mk_pext (p_flags x) (page_directory x) (data_loc x) (heap_addr x) (heap_size x) (p_tty x) (p_files x) (children x) (parent x) v.
Definition set_tty (f t : Z) (x : pext) : pext :=
  mk_pext f (page_directory x) (data_loc x) (heap_addr x) (heap_size x) t (p_files x) (children x) (parent x) (p_current_dir x).

(** Groups that are not in the table are in [loose]; [spaces] has the user memory
    of the page directories. *)
Record psys (H Q W : Type) : Type := mk_psys {
  gs : gsys H Q; pg : pgstate H; pvfs : vfs W; exts : gmap Z pext; gregs : gmap Z g_regs_t;
  processes : list Z; kernel_process : Z; loose : gmap Z pgroup_t; spaces : gmap Z mem; tty_session : Z; tty_foreground : Z }.
Arguments mk_psys {H Q W}. Arguments gs {H Q W}. Arguments pg {H Q W}. Arguments pvfs {H Q W}. Arguments exts {H Q W}.
Arguments gregs {H Q W}. Arguments processes {H Q W}. Arguments kernel_process {H Q W}. Arguments loose {H Q W}.
Arguments spaces {H Q W}. Arguments tty_session {H Q W}. Arguments tty_foreground {H Q W}.

Section Process.
Context {H Q W : Type} `{Allocator H} `{Queue Q} (ops : Z -> fs_ops W).
Let P (A : Type) : Type := M (psys H Q W) A.

Definition processes_size (s : psys H Q W) : Z := Z.of_nat (length (processes s)).
Definition on_gs {A} (c : M (gsys H Q) A) : P A :=
  fun s => match c (gs s) with
           | Ok a g => Ok a (mk_psys g (pg s) (pvfs s) (exts s) (gregs s) (processes s) (kernel_process s) (loose s) (spaces s) (tty_session s) (tty_foreground s))
           | Fatal e => Fatal e | Fault => Fault | NoFuel => NoFuel
           end.
Definition on_sc {A} (c : M (sched H Q) A) : P A := on_gs (on_sched c).
Definition on_pg {A} (c : M (pgstate H) A) : P A :=
  fun s => match c (pg s) with
           | Ok a p => Ok a (mk_psys (gs s) p (pvfs s) (exts s) (gregs s) (processes s) (kernel_process s) (loose s) (spaces s) (tty_session s) (tty_foreground s))
           | Fatal e => Fatal e | Fault => Fault | NoFuel => NoFuel
           end.
Definition on_pvfs {A} (c : M (vfs W) A) : P A :=
  fun s => match c (pvfs s) with
           | Ok a v => Ok a (mk_psys (gs s) (pg s) v (exts s) (gregs s) (processes s) (kernel_process s) (loose s) (spaces s) (tty_session s) (tty_foreground s))
           | Fatal e => Fatal e | Fault => Fault | NoFuel => NoFuel
           end.
Definition upd_exts (f : gmap Z pext -> gmap Z pext) : P unit :=
  modify (fun s => mk_psys (gs s) (pg s) (pvfs s) (f (exts s)) (gregs s) (processes s) (kernel_process s) (loose s) (spaces s) (tty_session s) (tty_foreground s)).
Definition upd_gregs (f : gmap Z g_regs_t -> gmap Z g_regs_t) : P unit :=
  modify (fun s => mk_psys (gs s) (pg s) (pvfs s) (exts s) (f (gregs s)) (processes s) (kernel_process s) (loose s) (spaces s) (tty_session s) (tty_foreground s)).
Definition upd_processes (f : list Z -> list Z) : P unit :=
  modify (fun s => mk_psys (gs s) (pg s) (pvfs s) (exts s) (gregs s) (f (processes s)) (kernel_process s) (loose s) (spaces s) (tty_session s) (tty_foreground s)).
Definition upd_loose (f : gmap Z pgroup_t -> gmap Z pgroup_t) : P unit :=
  modify (fun s => mk_psys (gs s) (pg s) (pvfs s) (exts s) (gregs s) (processes s) (kernel_process s) (f (loose s)) (spaces s) (tty_session s) (tty_foreground s)).
Definition upd_spaces (f : gmap Z mem -> gmap Z mem) : P unit :=
  modify (fun s => mk_psys (gs s) (pg s) (pvfs s) (exts s) (gregs s) (processes s) (kernel_process s) (loose s) (f (spaces s)) (tty_session s) (tty_foreground s)).

Definition current : P Z := gets (fun s => current_process (gsched (gs s))).
Definition proc (p : Z) : P (process Q) := on_sc (deref procs p).
Definition ext_of (p : Z) : P pext := fun s => match exts s !! p with Some x => Ok x s | None => Fault end.
Definition on_ext (p : Z) (f : pext -> pext) : P unit := x <- ext_of p ;; upd_exts (insert p (f x)).
Definition regs_of (t : Z) : P g_regs_t := fun s => match gregs s !! t with Some x => Ok x s | None => Fault end.

(** A group by its address: in the table or allocated on its own. *)
Definition in_groups (s : gsys H Q) (g : Z) : bool := (gbase s <=? g) && (g <? gbase s + 12 * groups_size s).
Definition group_of (g : Z) : P pgroup_t :=
  s <- get ;;
  if in_groups (gs s) g then on_gs (group_at (group_index (gs s) g))
  else match loose s !! g with Some x => ret x | None => fault end.
Definition put_group (g : Z) (x : pgroup_t) : P unit :=
  s <- get ;;
  if in_groups (gs s) g then on_gs (set_group (group_index (gs s) g) x) else upd_loose (insert g x).

(** ** Creation *)

(** What the memory of a new process held; a new queue; what new memory of the
    process table holds. *)
Context (fresh : pext) (fresh_handlers : list Z) (fresh_group fresh_session : Z) (queue_init : Z -> Q) (stale_entry : nat -> Z).

(** The first free entry of the table from [j] on. *)
Fixpoint free_pid (l : list Z) (j : Z) : option Z :=
  match l with
  | [] => None
  | p :: r => if p =? 0 then Some j else free_pid r (j + 1)
  end.
(** Registers [p] and returns its pid; without a free entry the table is doubled
    and the entry behind the first new one is taken. *)
Definition register_process (p : Z) : P Z :=
  s <- get ;;
  match free_pid (drop 1 (processes s)) 1 with
  | Some j => upd_processes (insert (Z.to_nat j) p) ;;; ret j
  | None =>
    let n := length (processes s) in
    let j := Z.max 1 (Z.of_nat n) in
    let l := processes s ++ map stale_entry (seq n n) in
    if Z.of_nat (length l) <=? j + 1 then fault else
    upd_processes (fun _ => <[Z.to_nat (j + 1) := p]> l) ;;; ret (j + 1)
  end.
Definition set_pid (v : Z) (x : process Q) : process Q :=
  mk_process (active_thread x) (running_threads x) (waiting_threads x) v (pgroup x) (psession x) (pstatus x) (signal_handlers x).
Definition set_group_session (g se : Z) (x : process Q) : process Q :=
  mk_process (active_thread x) (running_threads x) (waiting_threads x) (pid x) g se (pstatus x) (signal_handlers x).
Definition set_handlers (l : list Z) (x : process Q) : process Q :=
  mk_process (active_thread x) (running_threads x) (waiting_threads x) (pid x) (pgroup x) (psession x) (pstatus x) l.

Definition init_process (fuel : nat) : P Z :=
  tr <- on_sc (kalloc sizeof_process_t) ;;
  on_sc (modify (upd_procs (insert tr (mk_process 0 (queue_init 3) 0 PROCESS_INVALID_PID fresh_group fresh_session PROCESS_STATUS_INIT fresh_handlers)))) ;;;
  upd_exts (insert tr fresh) ;;;
  t <- on_sc init_thread ;;
  upd_gregs (insert t zero_regs) ;;;
  on_sc (scheduler_add_thread fuel tr t) ;;;
  j <- register_process tr ;;
  on_sc (on_proc tr (set_pid j)) ;;;
  c <- current ;;
  s <- get ;;
  if negb (c =? 0) && negb (c =? kernel_process s) then
    x <- proc c ;;
    g <- group_of (pgroup x) ;;
    l <- on_sc (append_node fuel (gprocesses g) tr) ;;
    put_group (pgroup x) (mk_group (gid_of g) l (gsession g)) ;;;
    on_sc (on_proc tr (set_group_session (pgroup x) (psession x))) ;;;
    on_ext c (fun e => set_children (children e ++ [tr]) e) ;;;
    on_ext tr (fun e => set_parent c (set_children [] e)) ;;;
    ret tr
  else
    on_ext tr (fun e => set_parent 0 (set_children [] e)) ;;;
    ret tr.

(** ** Memory *)

Context (kernel_page_directory : Z).

Definition free_thread_memory (p t : Z) : P unit :=
  th <- on_sc (deref threads t) ;;
  e <- ext_of p ;;
  (if base_stack th =? 0 then ret tt else
     stack_phys <- on_pg (get_physical (base_stack th) (page_directory e)) ;;
     on_pg (unmap_flexible PROCESS_STACK_SIZE_DEFAULT (base_stack th) (page_directory e)) ;;;
     on_pg (lift_phys (free_block stack_phys)) ;;;
     on_sc (on_thread t (set_base_stack 0))) ;;;
  c <- current ;;
  x <- proc p ;;
  if negb (p =? c) || negb (t =? active_thread x) then on_sc (kfree_node (base_kstack th)) else ret tt.

Fixpoint free_running (n : nat) (p t : Z) : P unit :=
  match n with
  | O => nofuel
  | S k =>
    if t =? 0 then ret tt else
    free_thread_memory p t ;;;
    t' <- on_sc (running_op p q_take) ;;
    free_running k p t'
  end.
Fixpoint free_waiting (n : nat) (p waiting : Z) : P unit :=
  match n with
  | O => nofuel
  | S k =>
    if waiting =? 0 then ret tt else
    e <- on_sc (deref nodes waiting) ;;
    free_thread_memory p e.1 ;;;
    e <- on_sc (deref nodes waiting) ;;
    on_sc (kfree_node waiting) ;;;
    free_waiting k p e.2
  end.
Fixpoint free_segments (l : list (Z * Z)) (pd : Z) : P unit :=
  match l with
  | [] => ret tt
  | (addr, size) :: r =>
    phys <- on_pg (get_physical addr pd) ;;
    on_pg (unmap_flexible size addr pd) ;;;
    on_pg (lift_phys (free_block (aligndown phys 4096))) ;;;
    free_segments r pd
  end.
Definition free_process_memory (fuel : nat) (p : Z) : P unit :=
  x <- proc p ;;
  free_running fuel p (active_thread x) ;;;
  x <- proc p ;;
  free_waiting fuel p (waiting_threads x) ;;;
  e <- ext_of p ;;
  (match data_loc e with
   | NoSegments => ret tt
   | Freed => fault
   | Segments l => free_segments l (page_directory e) ;;; on_ext p (set_data_loc NoSegments)
   end) ;;;
  if heap_size e =? 0 then ret tt else on_pg (unmap_memory_if_mapped (heap_size e) (heap_addr e) (page_directory e)).

Definition sbrk (p incr : Z) : P Z :=
  e <- ext_of p ;;
  let old_last_addr := u32 (heap_addr e + heap_size e) in
  let new_last_addr := u32 (old_last_addr + incr) in
  b <- on_pg (is_mapped new_last_addr (page_directory e)) ;;
  (if negb b then on_pg (map_memory_if_not_mapped kernel_page_directory incr old_last_addr (page_directory e)) else ret tt) ;;;
  on_ext p (fun e => set_heap (heap_addr e) (u32 (heap_size e + incr)) e) ;;;
  ret old_last_addr.

(** ** Loading *)

Definition on_regs (t : Z) (f : g_regs_t -> g_regs_t) : P unit := x <- regs_of t ;; upd_gregs (insert t (f x)).

(** The calls of [map_memory] that loading made. *)
Fixpoint map_all (l : list (Z * Z)) (pd : Z) : P unit :=
  match l with
  | [] => ret tt
  | (addr, size) :: r => on_pg (map_memory kernel_page_directory size addr pd) ;;; map_all r pd
  end.
Definition set_context (e_ip e_sp cseg sseg : Z) (t : thread) : thread :=
  mk_thread e_ip e_sp cseg sseg (kesp t) (base_stack t) (base_kstack t) (tstatus t).
(** [load_executable] on the process [p]: [eh] and [buffer] are its buffers. *)
Definition load_into (eh buffer p : Z) (fd : nat) (argv env : list (list Z)) : P Z :=
  e <- ext_of p ;;
  x <- proc p ;;
  s <- get ;;
  match spaces s !! page_directory e with
  | None => fault
  | Some m =>
    match load_executable ops eh buffer fd argv env (mk_loader (pvfs s) m []) with
    | Ok (err, o) l =>
      on_pvfs (put (lvfs l)) ;;;
      upd_spaces (insert (page_directory e) (umem l)) ;;;
      map_all (Elf.mapped l) (page_directory e) ;;;
      match o with
      | None => (if err =? UNKNOWN_ERROR then on_ext p (set_data_loc Freed) else ret tt) ;;; ret err
      | Some im =>
        on_ext p (fun e => set_heap (im_heap_addr im) (im_heap_size im) (set_data_loc (Segments (im_data im)) e)) ;;;
        on_sc (on_thread (active_thread x) (fun t => set_base_stack (im_base_stack im) (set_context (im_eip im) (im_esp im) 27 35 t))) ;;;
        upd_gregs (insert (active_thread x) zero_regs) ;;;
        ret err
      end
    | Fatal e => fatal_kernel_error e | Fault => fault | NoFuel => nofuel
    end
  end.

(** ** Fork *)

(** The address of [fork_ret]. *)
Context (fork_ret : Z).

(** Every descriptor in use is copied, slot by slot. *)
Fixpoint copy_files (n : nat) (i : Z) (old : files_t) (new : list slot) : P (list slot) :=
  match n with
  | O => ret new
  | S k =>
    match files old !! Z.to_nat i with
    | None => fault
    | Some Null => copy_files k (i + 1) old new
    | Some (Stale _) => fault
    | Some (Fd fd) =>
      x <- on_pvfs (get_fd fd) ;;
      toadd <- on_pvfs (new_fd x) ;;
      copy_files k (i + 1) old (<[Z.to_nat i := Fd toadd]> new)
    end
  end.

Definition fork (fuel : nat) (old old_esp : Z) : P Z :=
  tr <- init_process fuel ;;
  x <- proc tr ;;
  th <- on_sc (deref threads (active_thread x)) ;;
  ox <- proc old ;;
  oth <- on_sc (deref threads (active_thread ox)) ;;
  oregs <- regs_of (active_thread ox) ;;
  upd_gregs (insert (active_thread x) oregs) ;;;
  oe <- ext_of old ;;
  data <- (match data_loc oe with Segments l => ret (Segments l) | _ => fault end) ;;
  on_sc (on_proc tr (set_handlers (signal_handlers ox))) ;;;
  pd <- on_pg (copy_tables kernel_page_directory (page_directory oe)) ;;
  s <- get ;;
  (match spaces s !! page_directory oe with Some m => upd_spaces (insert pd m) | None => fault end) ;;;
  on_pvfs (upd_vmem (fun m => memcpy m (base_kstack th) (base_kstack oth) PROCESS_KSTACK_SIZE_DEFAULT)) ;;;
  on_sc (modify (upd_threads (insert (active_thread x)
    (mk_thread fork_ret (u32 (old_esp - base_kstack oth + base_kstack th)) 8 16
       (u32 (base_kstack th + PROCESS_KSTACK_SIZE_DEFAULT)) (base_stack oth) (base_kstack th) (tstatus oth))))) ;;;
  let n := files_size (p_files oe) in
  l <- copy_files (Z.to_nat n) 0 (p_files oe) (replicate (Z.to_nat (n * sizeof_fd_t / sizeof_pointer)) Null) ;;
  e <- ext_of tr ;;
  upd_exts (insert tr (mk_pext (p_flags oe) pd data (heap_addr oe) (heap_size oe) (p_tty oe)
    (mk_files l n (files_count (p_files oe))) (children e) (parent e) (p_current_dir oe))) ;;;
  on_sc (scheduler_add_process tr) ;;;
  ret tr.

(** ** Exit *)

Context (stack rmv srt_end : Z) (stale : Z -> Z).

Fixpoint close_all (n : nat) (i : Z) (t : files_t) : P unit :=
  match n with
  | O => ret tt
  | S k =>
    match files t !! Z.to_nat i with
    | None => fault
    | Some Null => close_all k (i + 1) t
    | Some (Stale _) => fault
    | Some (Fd fd) => on_pvfs (close_file fd) ;;; close_all k (i + 1) t
    end
  end.
Fixpoint orphan (l : list Z) (init : Z) : P unit :=
  match l with
  | [] => ret tt
  | c :: r => on_ext c (set_parent init) ;;; orphan r init
  end.
(** The walk over the processes of the group behind its first one. *)
Fixpoint leave_list (n : nat) (p gptr gbef : Z) : P unit :=
  match n with
  | O => nofuel
  | S k =>
    if gptr =? 0 then ret tt else
    e <- on_sc (deref nodes gptr) ;;
    (if e.1 =? p then
       b <- on_sc (deref nodes gbef) ;;
       on_sc (modify (upd_nodes (insert gbef (b.1, e.2)))) ;;;
       on_sc (kfree_node gptr)
     else ret tt) ;;;
    e <- on_sc (deref nodes gptr) ;;
    leave_list k p e.2 gptr
  end.
(** [while(wptr)] never advances: it ends with the first waiting thread or not at
    all. *)
Definition wake_waiter (fuel : nat) (p wptr : Z) : P unit :=
  if wptr =? 0 then ret tt else
  e <- on_sc (deref nodes wptr) ;;
  th <- on_sc (deref threads e.1) ;;
  if tstatus th =? THREAD_STATUS_ASLEEP_CHILD then on_sc (scheduler_add_thread fuel p e.1) else nofuel.

Definition exit_process (fuel : nat) (p exitcode : Z) : P flow :=
  x <- proc p ;;
  if pid x =? 1 then fatal_kernel_error "Init exited." else
  free_process_memory fuel p ;;;
  e <- ext_of p ;;
  close_all (Z.to_nat (files_size (p_files e))) 0 (p_files e) ;;;
  on_pg (pt_free (page_directory e)) ;;;
  s <- get ;;
  match processes s !! 1%nat with
  | None => fault
  | Some init =>
    orphan (children e) init ;;;
    g <- group_of (pgroup x) ;;
    ge <- on_sc (deref nodes (gprocesses g)) ;;
    (if ge.1 =? p then
       put_group (pgroup x) (mk_group (gid_of g) ge.2 (gsession g)) ;;;
       on_sc (kfree_node (gprocesses g))
     else leave_list fuel p (gprocesses g) 0) ;;;
    x <- proc p ;;
    on_sc (on_proc p (set_pstatus PROCESS_STATUS_ZOMBIE)) ;;;
    on_sc (on_thread (active_thread x) (set_tstatus THREAD_STATUS_ZOMBIE)) ;;;
    on_regs (active_thread x) (fun r => mk_gregs exitcode (g_ebx r) (g_ecx r) (g_edx r) (g_edi r) (g_esi r) (g_ebp r)) ;;;
    e <- ext_of p ;;
    f <- (if parent e =? 0 then ret Returned else
            px <- proc (parent e) ;;
            s <- get ;;
            f <- on_sc (send_signal stack rmv srt_end stale fuel (processes s) (pid px) SIGCHLD) ;;
            match f with
            | Switched => ret Switched
            | Returned =>
              px <- proc (parent e) ;;
              wake_waiter fuel (parent e) (waiting_threads px) ;;;
              ret Returned
            end) ;;
    match f with
    | Switched => ret Switched
    | Returned =>
      th <- on_sc (deref threads (active_thread x)) ;;
      on_sc (kfree_node (base_kstack th)) ;;;
      on_sc (scheduler_remove_process stack rmv p)
    end
  end.

(** ** The first processes *)

Definition set_kernel_process (p : Z) : P unit :=
  modify (fun s => mk_psys (gs s) (pg s) (pvfs s) (exts s) (gregs s) (processes s) p (loose s) (spaces s) (tty_session s) (tty_foreground s)).
Definition set_tty_owner (se g : Z) : P unit :=
  modify (fun s => mk_psys (gs s) (pg s) (pvfs s) (exts s) (gregs s) (processes s) (kernel_process s) (loose s) (spaces s) se g).
Definition set_idle (p : Z) (s : sched H Q) : sched H Q :=
  mk_sched (procs s) (threads s) (mutexes s) (nodes s) (dnodes s) (words s) (sheap s) (p_ready_queue s)
    (current_process s) p (irq_list s) (wait_list s) (wait_mutex s) (signal_list s) (signal_mutex s).

(** [idle_loop] is the address of the loop; what is not assigned keeps what was in
    the memory. *)
Definition init_idle_process (idle_loop flags : Z) : P Z :=
  p <- on_sc (kalloc sizeof_process_t) ;;
  on_sc (modify (set_idle p)) ;;;
  t <- on_sc (kalloc 76) ;;
  k <- on_sc (kalloc 1024) ;;
  let kesp := u32 (k + 1024) in
  on_sc (modify (upd_threads (insert t (mk_thread idle_loop kesp 8 16 kesp (u32 (kesp - 1024)) (u32 (kesp - 1024)) 0)))) ;;;
  upd_gregs (insert t zero_regs) ;;;
  on_sc (modify (upd_procs (insert p (mk_process t (queue_init 1) 0 PROCESS_IDLE_PID fresh_group fresh_session PROCESS_STATUS_INIT fresh_handlers)))) ;;;
  upd_exts (insert p (set_tty flags (p_tty fresh) (set_directory kernel_page_directory fresh))) ;;;
  ret p.
Definition init_kernel_process (fresh_thread : thread) : P Z :=
  p <- on_sc (kalloc sizeof_process_t) ;;
  set_kernel_process p ;;;
  t <- on_sc (kalloc 76) ;;
  on_sc (modify (upd_threads (insert t fresh_thread))) ;;;
  on_sc (modify (upd_procs (insert p (mk_process t (queue_init 1) 0 PROCESS_KERNEL_PID fresh_group fresh_session PROCESS_STATUS_RUNNING fresh_handlers)))) ;;;
  upd_exts (insert p (set_directory kernel_page_directory fresh)) ;;;
  on_sc (modify (set_current p)) ;;;
  ret p.

Definition init_path : list Z := [47; 115; 121; 115; 47; 105; 110; 105; 116].
Definition home_dir : list Z := [47; 104; 111; 109; 101].

(** The rest of [spawn_init_process] once init is loaded; [tty1] is the terminal
    and [tty1_node] its node. *)
Definition setup_init (tty1 : Z) (tty1_node : nat) (tr : Z) : P unit :=
  session <- on_sc (kalloc 8) ;;
  sgroups <- on_sc (kalloc 8) ;;
  group <- on_sc (kalloc 12) ;;
  nd <- on_sc (kalloc 8) ;;
  on_sc (modify (upd_nodes (insert nd (tr, 0)))) ;;;
  upd_loose (insert group (mk_group 1 nd session)) ;;;
  on_gs (set_group 0 (mk_group 1 nd session)) ;;;
  on_gs (modify (fun g => mk_gsys (gsched g) (gbase g) (garr g) (u32 (groups_number g + 1)) (<[session := sgroups]> (sessions g)))) ;;;
  on_sc (modify (upd_nodes (insert sgroups (group, 0)))) ;;;
  on_sc (on_proc tr (set_group_session group session)) ;;;
  x <- proc tr ;;
  upd_gregs (insert (active_thread x) zero_regs) ;;;
  on_sc (on_thread (active_thread x) (fun t => set_context (eip t) (esp t) 27 35 t)) ;;;
  std <- on_pvfs (new_fd (mk_fd tty1_node 0 3 None)) ;;
  on_ext tr (fun e => set_tty 514 tty1 (set_files (mk_files [Fd std; Fd std; Fd std; Null; Null] 5 3) (set_current_dir home_dir e))) ;;;
  set_tty_owner session group ;;;
  on_sc (on_proc tr (set_handlers (replicate (Z.to_nat NSIG) 0))) ;;;
  on_sc (scheduler_add_process tr).
Definition spawn_init_process (fuel : nat) (zbuf eh buffer tty1 : Z) (tty1_node : nat) : P Z :=
  o <- on_pvfs (open_file ops zbuf init_path OPEN_MODE_R) ;;
  match o with
  | None => ret ERROR_FILE_NOT_FOUND
  | Some init_file =>
    tr <- init_process fuel ;;
    pd <- on_pg (get_kernel_pd_clone kernel_page_directory) ;;
    on_ext tr (set_directory pd) ;;;
    upd_spaces (insert pd (fun _ => 0)) ;;;
    elf <- load_into eh buffer tr init_file [] [] ;;
    on_pvfs (close_file init_file) ;;;
    if negb (elf =? ERROR_NONE) then ret elf else
    setup_init tty1 tty1_node tr ;;;
    ret ERROR_NONE
  end.
End Process.

(** ** Running the operations *)

Section Running.
Context {H Q W : Type} `{Allocator H} `{Queue Q}.
Implicit Types s : psys H Q W.

Definition with_gs s (g : gsys H Q) : psys H Q W :=
  mk_psys g (pg s) (pvfs s) (exts s) (gregs s) (processes s) (kernel_process s) (loose s) (spaces s) (tty_session s) (tty_foreground s).
Definition with_sc s (sc : sched H Q) : psys H Q W :=
  with_gs s (mk_gsys sc (gbase (gs s)) (garr (gs s)) (groups_number (gs s)) (sessions (gs s))).
Notation sc s := (gsched (gs s)).

Lemma on_sc_ok {A} (c : M (sched H Q) A) s a sc' : c (sc s) = Ok a sc' -> on_sc c s = Ok a (with_sc s sc').
Proof. intros Hc. unfold on_sc, on_gs, on_sched. by rewrite Hc. Qed.
Lemma proc_ok p x s : procs (sc s) !! p = Some x -> proc p s = Ok x s.
Proof. intros Hp. unfold proc. rewrite (on_sc_ok _ _ _ _ (deref_ok procs p x (sc s) Hp)). by destruct s as [[] ? ? ? ? ? ? ? ? ? ?]. Qed.
Lemma thread_ok t x s : threads (sc s) !! t = Some x -> on_sc (deref threads t) s = Ok x s.
Proof. intros Hp. rewrite (on_sc_ok _ _ _ _ (deref_ok threads t x (sc s) Hp)). by destruct s as [[] ? ? ? ? ? ? ? ? ? ?]. Qed.
Lemma ext_of_ok p x s : exts s !! p = Some x -> ext_of p s = Ok x s.
Proof. intros Hp. unfold ext_of. by rewrite Hp. Qed.
Definition with_exts s f : psys H Q W :=
  mk_psys (gs s) (pg s) (pvfs s) (f (exts s)) (gregs s) (processes s) (kernel_process s) (loose s) (spaces s) (tty_session s) (tty_foreground s).
Lemma upd_exts_ok f s : upd_exts f s = Ok tt (with_exts s f).
Proof. done. Qed.
Lemma on_ext_ok p f x s : exts s !! p = Some x -> on_ext p f s = Ok tt (with_exts s (insert p (f x))).
Proof. intros Hp. unfold on_ext. by rewrite (bind_ok _ _ _ _ _ (ext_of_ok p x s Hp)). Qed.
Lemma regs_of_ok t x s : gregs s !! t = Some x -> regs_of t s = Ok x s.
Proof. intros Hp. unfold regs_of. by rewrite Hp. Qed.

(** The group at an address, as a value. *)
Definition group_view s (g : Z) : option pgroup_t :=
  if in_groups (gs s) g then garr (gs s) !! Z.to_nat (group_index (gs s) g) else loose s !! g.
Lemma in_groups_index (g : gsys H Q) p : in_groups g p = true -> 0 <= group_index g p < groups_size g.
Proof. unfold in_groups, group_index. intros [Ha%Z.leb_le Hb%Z.ltb_lt]%andb_true_iff. split; [apply Z.div_pos; lia|apply Z.div_lt_upper_bound; lia]. Qed.
Lemma group_of_ok g x s : group_view s g = Some x -> group_of g s = Ok x s.
Proof.
  unfold group_view, group_of. unfold get, bind. destruct (in_groups (gs s) g) eqn:Ei; intros Hx; [|by rewrite Hx].
  pose proof (in_groups_index _ _ Ei). unfold on_gs, group_at. dec_false (groups_size (gs s) <=? group_index (gs s) g). rewrite Hx. by destruct s.
Qed.
(** The state after the assignment of a group. *)
Definition with_group s (g : Z) (x : pgroup_t) : psys H Q W :=
  if in_groups (gs s) g then with_gs s (mk_gsys (sc s) (gbase (gs s)) (<[Z.to_nat (group_index (gs s) g) := x]> (garr (gs s))) (groups_number (gs s)) (sessions (gs s)))
  else mk_psys (gs s) (pg s) (pvfs s) (exts s) (gregs s) (processes s) (kernel_process s) (<[g := x]> (loose s)) (spaces s) (tty_session s) (tty_foreground s).
Lemma put_group_ok g x s : put_group g x s = Ok tt (with_group s g x).
Proof. unfold put_group, with_group, get, bind. by destruct (in_groups (gs s) g). Qed.
Lemma with_group_view s g x y : group_view s g = Some y -> group_view (with_group s g x) g = Some x.
Proof.
  unfold group_view, with_group. destruct (in_groups (gs s) g) eqn:Ei; cbn [gs with_gs loose]; intros Hy.
  - assert (in_groups (mk_gsys (sc s) (gbase (gs s)) (<[Z.to_nat (group_index (gs s) g) := x]> (garr (gs s))) (groups_number (gs s)) (sessions (gs s))) g = true) as ->.
    { unfold in_groups, groups_size in *. cbn [gbase garr]. by rewrite length_insert. }
    cbn [garr]. apply list_lookup_insert_eq. by eapply lookup_lt_Some.
  - rewrite Ei. apply lookup_insert_eq.
Qed.
Lemma with_group_rest s g x : exts (with_group s g x) = exts s /\ sc (with_group s g x) = sc s /\ processes (with_group s g x) = processes s /\
  kernel_process (with_group s g x) = kernel_process s /\ pvfs (with_group s g x) = pvfs s /\ pg (with_group s g x) = pg s /\
  gregs (with_group s g x) = gregs s /\ spaces (with_group s g x) = spaces s.
Proof. unfold with_group. by destruct (in_groups (gs s) g). Qed.

(** ** The process table *)

(** Every entry is a process with that number. *)
Definition pids_ok s : Prop :=
  forall i p, processes s !! i = Some p -> p <> 0 -> exists x, procs (sc s) !! p = Some x /\ pid x = Z.of_nat i.

Lemma pids_unique s i j p : pids_ok s -> processes s !! i = Some p -> processes s !! j = Some p -> p <> 0 -> i = j.
Proof. intros Hok Hi Hj Hp. destruct (Hok i p Hi Hp) as (x & Hx & Hpi), (Hok j p Hj Hp) as (y & Hy & Hpj). simplify_eq. lia. Qed.

Lemma free_pid_spec l : forall j k, free_pid l j = Some k ->
  exists i, k = j + Z.of_nat i /\ l !! i = Some 0 /\ forall a p, (a < i)%nat -> l !! a = Some p -> p <> 0.
Proof.
  induction l as [|p r IH]; intros j k Hk; [done|]. cbn [free_pid] in Hk. destruct (Z.eqb_spec p 0) as [-> |Hne].
  - injection Hk as <-. exists 0%nat. split; [lia|]. split; [done|]. lia.
  - destruct (IH _ _ Hk) as (i & -> & Hi & Ha). exists (S i). split; [lia|]. split; [done|].
    intros [|a] q Hlt Hq; cbn in Hq; [congruence|]. apply (Ha a); [lia|done].
Qed.
End Running.

(** ** A new process *)

Section Create.
Context {H Q W : Type} `{Allocator H} `{Queue Q}.
Context (fresh : pext) (fresh_handlers : list Z) (fresh_group fresh_session : Z) (queue_init : Z -> Q) (stale_entry : nat -> Z).
Implicit Types s : psys H Q W.
Notation sc s := (gsched (gs s)).

(** The process [c] runs, with [x] and [e] its fields and [g] its group with the
    members [l]; [j] is a free entry of the process table; memory is left. *)
Record can_create (fuel : nat) s (c : Z) (x : process Q) (e : pext) (g : pgroup_t) (l : list (Z * Z)) (j : Z) : Prop := {
  cc_current : current_process (sc s) = c /\ c <> 0 /\ c <> kernel_process s;
  cc_proc : procs (sc s) !! c = Some x;
  cc_ext : exts s !! c = Some e;
  cc_free : free_pid (drop 1 (processes s)) 1 = Some j;
  cc_group : group_view s (pgroup x) = Some g;
  cc_chain : chain (nodes (sc s)) (gprocesses g) l;
  cc_nodes : NoDup l.*1 /\ Forall (a_live (sheap (sc s))) l.*1 /\ (length l <= fuel)%nat;
  cc_heap : a_ok (sheap (sc s)) /\ has_rooms (sheap (sc s)) [292; 76; 8192; 8];
  cc_live : forall p, is_Some (procs (sc s) !! p) -> a_live (sheap (sc s)) p;
  cc_tlive : forall t, is_Some (threads (sc s) !! t) -> a_live (sheap (sc s)) t }.

(** What is new afterwards: the process [tr] with the thread [t] and kernel stack
    [k]. *)
Record created s s' (c : Z) (x : process Q) (e : pext) (g : pgroup_t) (l : list (Z * Z)) (j tr t k : Z) : Prop := {
  cr_new : tr <> 0 /\ procs (sc s) !! tr = None /\ threads (sc s) !! t = None;
  cr_malloc : exists h, malloc sizeof_process_t (sheap (sc s)) = Ok tr h;
  cr_procs : procs (sc s') = <[tr := mk_process t (queue_init 3) 0 j (pgroup x) (psession x) PROCESS_STATUS_INIT fresh_handlers]> (procs (sc s));
  cr_threads : threads (sc s') = <[t := mk_thread 0 0 0 0 (u32 (k + PROCESS_KSTACK_SIZE_DEFAULT)) 0 k THREAD_STATUS_RUNNING]> (threads (sc s));
  cr_table : processes s' = <[Z.to_nat j := tr]> (processes s);
  cr_exts : exts s' = <[tr := set_parent c (set_children [] fresh)]> (<[c := set_children (children e ++ [tr]) e]> (exts s));
  cr_group : exists g' nd, group_view s' (pgroup x) = Some g' /\ gid_of g' = gid_of g /\ chain (nodes (sc s')) (gprocesses g') (l ++ [(nd, tr)]);
  cr_regs : gregs s' = <[t := zero_regs]> (gregs s);
  cr_same : pvfs s' = pvfs s /\ pg s' = pg s /\ spaces s' = spaces s /\ p_ready_queue (sc s') = p_ready_queue (sc s) /\
    current_process (sc s') = c /\ idle_process (sc s') = idle_process (sc s) }.

Lemma new_thread_active fuel (m : sched H Q) tr t k x : threads m !! t = Some (mk_thread 0 0 0 0 (u32 (k + PROCESS_KSTACK_SIZE_DEFAULT)) 0 k THREAD_STATUS_INIT) ->
  procs m !! tr = Some x -> active_thread x = 0 -> pstatus x = PROCESS_STATUS_INIT ->
  scheduler_add_thread fuel tr t m = Ok tt (upd_procs (insert tr (set_active t x))
    (upd_threads (insert t (mk_thread 0 0 0 0 (u32 (k + PROCESS_KSTACK_SIZE_DEFAULT)) 0 k THREAD_STATUS_RUNNING)) m)).
Proof.
  intros Ht Hp Ha Hst. unfold scheduler_add_thread. rewrite (bind_ok _ _ _ _ _ (deref_ok threads t _ m Ht)). cbn [tstatus].
  change (THREAD_STATUS_INIT =? THREAD_STATUS_RUNNING) with false. rewrite Z.eqb_refl. rewrite (bind_ok (ret tt) _ m tt m eq_refl).
  rewrite (bind_ok _ _ _ _ _ (on_thread_ok t (set_tstatus THREAD_STATUS_RUNNING) _ m Ht)). set (m1 := upd_threads _ m).
  assert (procs m1 !! tr = Some x) as Hp1 by done. rewrite (bind_ok _ _ _ _ _ (deref_ok procs tr x m1 Hp1)). rewrite Ha, Hst. cbn [Z.eqb andb PROCESS_STATUS_INIT PROCESS_STATUS_ASLEEP_THREADS].
  by rewrite (on_proc_ok tr (set_active t) x m1 Hp1).
Qed.

Ltac ok_step lem := rewrite (bind_ok _ _ _ _ _ lem).
Ltac sc_step lem := rewrite (bind_ok _ _ _ _ _ (on_sc_ok _ _ _ _ lem)).

Lemma init_process_ok fuel s c x e g l j : can_create fuel s c x e g l j ->
  exists tr t k s', init_process fresh fresh_handlers fresh_group fresh_session queue_init stale_entry fuel s = Ok tr s' /\
    created s s' c x e g l j tr t k.
Proof.
  intros [[Hcur [Hc0 Hck]] Hx He Hj Hg Hch [Hnd [Hlv Hlen]] [Hok [Hr1 Hrooms]] Hlive Htlive].
  destruct (malloc_law (sheap (sc s)) sizeof_process_t Hok Hr1) as (tr & h1 & Hm1 & Hok1 & Htr0 & Hfr1 & Hlv1).
  destruct (Hrooms tr h1 Hm1) as [Hr2 Hrooms2].
  destruct (malloc_law h1 76 Hok1 Hr2) as (t & h2 & Hm2 & Hok2 & Ht0 & Hfr2 & Hlv2). destruct (Hrooms2 t h2 Hm2) as [Hr3 Hrooms3].
  destruct (malloc_law h2 8192 Hok2 Hr3) as (k & h3 & Hm3 & Hok3 & Hk0 & Hfr3 & Hlv3). destruct (Hrooms3 k h3 Hm3) as [Hr4 _].
  assert (procs (sc s) !! tr = None) as Htr.
  { destruct (procs (sc s) !! tr) eqn:E; [|done]. exfalso. apply Hfr1, Hlive. by rewrite E. }
  assert (tr <> c) as Htc by congruence.
  assert (threads (sc s) !! t = None) as Htn.
  { destruct (threads (sc s) !! t) eqn:E; [|done]. exfalso. apply Hfr2, Hlv1. right. apply Htlive. by rewrite E. }
  unfold init_process.
  assert (kalloc sizeof_process_t (sc s) = Ok tr (set_sheap h1 (sc s))) as Hk1 by (unfold kalloc; by rewrite Hm1). sc_step Hk1.
  set (x0 := mk_process 0 (queue_init 3) 0 PROCESS_INVALID_PID fresh_group fresh_session PROCESS_STATUS_INIT fresh_handlers).
  sc_step (modify_ok (upd_procs (insert tr x0)) (sc (with_sc s (set_sheap h1 (sc s))))). ok_step (upd_exts_ok (insert tr fresh) (with_sc (with_sc s (set_sheap h1 (sc s))) (upd_procs (insert tr x0) (set_sheap h1 (sc s))))).
  set (m1 := upd_procs (insert tr x0) (set_sheap h1 (sc s))). set (s1 := with_exts _ _).
  assert (sc s1 = m1) as Hs1 by done.
  set (th0 := mk_thread 0 0 0 0 (u32 (k + PROCESS_KSTACK_SIZE_DEFAULT)) 0 k THREAD_STATUS_INIT).
  assert (init_thread (sc s1) = Ok t (upd_threads (insert t th0) (set_sheap h3 m1))) as Hit.
  { unfold init_thread. assert (kalloc 76 (sc s1) = Ok t (set_sheap h2 m1)) as Hka by (unfold kalloc; rewrite Hs1; cbn [sheap m1 upd_procs set_sheap]; by rewrite Hm2).
    ok_step Hka. assert (kalloc PROCESS_KSTACK_SIZE_DEFAULT (set_sheap h2 m1) = Ok k (set_sheap h3 m1)) as Hkb by (unfold kalloc; cbn [sheap set_sheap]; change PROCESS_KSTACK_SIZE_DEFAULT with 8192; by rewrite Hm3).
    ok_step Hkb. done. }
  sc_step Hit. set (m2 := upd_threads (insert t th0) (set_sheap h3 m1)).
  unfold upd_gregs at 1. rewrite (bind_ok (modify _) _ _ tt _ eq_refl). set (s2 := mk_psys _ _ _ _ _ _ _ _ _ _ _).
  assert (sc s2 = m2) as Hs2 by done.
  assert (scheduler_add_thread fuel tr t (sc s2) = Ok tt (upd_procs (insert tr (set_active t x0)) (upd_threads (insert t (set_tstatus THREAD_STATUS_RUNNING th0)) m2))) as Hadd.
  { rewrite Hs2. apply (new_thread_active fuel m2 tr t k x0); [cbn; apply lookup_insert_eq|cbn; apply lookup_insert_eq|done|done]. }
  sc_step Hadd. set (m3 := upd_procs (insert tr (set_active t x0)) _).
  assert (forall s0, processes s0 = processes s -> register_process stale_entry tr s0 =
    Ok j (mk_psys (gs s0) (pg s0) (pvfs s0) (exts s0) (gregs s0) (<[Z.to_nat j := tr]> (processes s0)) (kernel_process s0) (loose s0) (spaces s0) (tty_session s0) (tty_foreground s0))) as Hreg.
  { intros s0 Hp0. unfold register_process, get, bind at 1. rewrite Hp0, Hj. unfold upd_processes, modify, bind, ret. by rewrite Hp0. }
  rewrite (bind_ok _ _ _ _ _ (Hreg (with_sc s2 m3) eq_refl)). set (s4 := mk_psys _ _ _ _ _ _ _ _ _ _ _).
  assert (procs (sc s4) !! tr = Some (set_active t x0)) as Hp4 by (cbn; apply lookup_insert_eq).
  sc_step (on_proc_ok tr (set_pid j) _ (sc s4) Hp4). set (m4 := upd_procs (insert tr (set_pid j (set_active t x0))) (sc s4)). set (s5 := with_sc s4 m4).
  rewrite (bind_ok current _ s5 c s5) by (unfold current, gets; by rewrite <- Hcur). rewrite (bind_ok get _ s5 s5 s5 eq_refl).
  dec_false (c =? 0). change (kernel_process s5) with (kernel_process s). dec_false (c =? kernel_process s). cbn [negb andb].
  assert (procs (sc s5) !! c = Some x) as Hx5 by (cbn; by rewrite !lookup_insert_ne by congruence). ok_step (proc_ok c x s5 Hx5).
  assert (group_view s5 (pgroup x) = Some g) as Hg5 by exact Hg. ok_step (group_of_ok (pgroup x) g s5 Hg5).
  assert (sheap (sc s5) = h3 /\ nodes (sc s5) = nodes (sc s)) as [Hh5 Hn5] by done.
  destruct (append_node_chain fuel (sc s5) (gprocesses g) l tr) as (nd & h4 & f & a' & Happ & _ & _ & _ & _ & _ & Hchain & _).
  { rewrite Hn5. exact Hch. }
  { exact Hnd. }
  { rewrite Hh5. eapply Forall_impl; [exact Hlv|]. intros q Hq. apply Hlv3. right. apply Hlv2. right. apply Hlv1. by right. }
  { rewrite Hh5. exact Hok3. }
  { rewrite Hh5. exact Hr4. }
  { exact Hlen. }
  sc_step Happ. set (m5 := upd_nodes f (set_sheap h4 (sc s5))). set (s6 := with_sc s5 m5).
  set (g' := mk_group (gid_of g) a' (gsession g)). ok_step (put_group_ok (pgroup x) g' s6). set (s7 := with_group s6 (pgroup x) g').
  assert (group_view s6 (pgroup x) = Some g) as Hg6 by exact Hg.
  destruct (with_group_rest s6 (pgroup x) g') as (E1 & E2 & E3 & E4 & E5 & E6 & E7 & E8). fold s7 in E1, E2, E3, E4, E5, E6, E7, E8.
  assert (procs (sc s7) !! tr = Some (set_pid j (set_active t x0))) as Hp7 by (rewrite E2; cbn; apply lookup_insert_eq).
  sc_step (on_proc_ok tr (set_group_session (pgroup x) (psession x)) _ (sc s7) Hp7). set (m7 := upd_procs _ (sc s7)). set (s8 := with_sc s7 m7).
  assert (exts s8 = <[tr := fresh]> (exts s)) as Hex8 by (cbn; exact E1).
  assert (exts s8 !! c = Some e) as He8 by (rewrite Hex8; by rewrite lookup_insert_ne).
  ok_step (on_ext_ok c (fun e => set_children (children e ++ [tr]) e) e s8 He8). set (s9 := with_exts s8 _).
  assert (exts s9 !! tr = Some fresh) as He9 by (cbn [exts with_exts s9]; rewrite Hex8, lookup_insert_ne, lookup_insert_eq by congruence; done).
  ok_step (on_ext_ok tr (fun e => set_parent c (set_children [] e)) fresh s9 He9).
  eexists tr, t, k, _. split; [reflexivity|]. split.
  - done.
  - by exists h1.
  - cbn [gs with_exts s9 s8 with_sc with_gs gsched m7 procs upd_procs]. rewrite E2. cbn. by rewrite !insert_insert_eq.
  - cbn [gs with_exts s9 s8 with_sc with_gs gsched m7 threads upd_procs]. rewrite E2. cbn. by rewrite !insert_insert_eq.
  - cbn [processes with_exts s9 s8 with_sc with_gs]. by rewrite E3.
  - cbn [exts with_exts s9]. rewrite Hex8. cbn [exts]. rewrite (insert_insert_ne _ c tr), insert_insert_eq by congruence. done.
  - exists g', nd. split; [exact (with_group_view s6 (pgroup x) g' g Hg6)|]. split; [done|].
    cbn [gs with_exts s9 s8 with_sc with_gs gsched m7 nodes upd_procs]. rewrite E2. exact Hchain.
  - cbn [gregs with_exts s9 s8 with_sc with_gs]. by rewrite E7.
  - cbn [pvfs pg spaces gs with_exts s9 s8 with_sc with_gs gsched m7 upd_procs p_ready_queue current_process idle_process]. rewrite E2, E5, E6, E8. done.
Qed.

(** C11: a new process gets the lowest free number, becomes the last child of the
    process that creates it and the last member of its group, and has a thread
    of its own; in the table every number stands for the process that carries
    it, before and after. *)
Theorem init_process_correct fuel s c x e g l j : can_create fuel s c x e g l j -> pids_ok s ->
  exists tr t k s', init_process fresh fresh_handlers fresh_group fresh_session queue_init stale_entry fuel s = Ok tr s' /\
    created s s' c x e g l j tr t k /\ pids_ok s' /\
    1 <= j /\ processes s !! Z.to_nat j = Some 0 /\ (forall i p, 1 <= Z.of_nat i < j -> processes s !! i = Some p -> p <> 0).
Proof.
  intros Hcan Hp. destruct (init_process_ok fuel s c x e g l j Hcan) as (tr & t & k & s' & Hrun & Hcr). exists tr, t, k, s'.
  split; [exact Hrun|]. split; [exact Hcr|].
  destruct (free_pid_spec _ _ _ (cc_free _ _ _ _ _ _ _ _ Hcan)) as (i & -> & Hi & Ha). rewrite lookup_drop in Hi.
  split; [|split; [lia|split; [replace (Z.to_nat (1 + Z.of_nat i)) with (1 + i)%nat by lia; exact Hi|]]].
  - intros n p Hn Hp0. rewrite (cr_table _ _ _ _ _ _ _ _ _ _ _ Hcr) in Hn. rewrite (cr_procs _ _ _ _ _ _ _ _ _ _ _ Hcr).
    apply list_lookup_insert_Some in Hn as [(<- & <- & _)|[Hne Hn]].
    + rewrite lookup_insert_eq. eexists. split; [done|]. cbn. lia.
    + destruct (Hp n p Hn Hp0) as (y & Hy & Hpid). exists y. split; [|done]. rewrite lookup_insert_ne; [done|].
      intros <-. destruct (cr_new _ _ _ _ _ _ _ _ _ _ _ Hcr) as (_ & Hnone & _). congruence.
  - intros n p Hn Hl. apply (Ha (n - 1)%nat p); [lia|]. rewrite lookup_drop. by replace (1 + (n - 1))%nat with n by lia.
Qed.
End Create.

(** ** Fork *)

(** The slots of the child: the descriptors are numbered anew from [next] on, in
    the order of the slots. *)
Fixpoint renumber (l : list slot) (next : nat) : list slot :=
  match l with
  | [] => []
  | Fd _ :: r => Fd next :: renumber r (S next)
  | _ :: r => Null :: renumber r next
  end.
(** The descriptors of the slots, in that order. *)
Definition slot_fds (fds : list (option fd_t)) (l : list slot) : list (option fd_t) :=
  omap (fun x => match x with Fd fd => fds !! fd | _ => None end) l.
(** Every descriptor in the slots is open. *)
Definition slots_open (fds : list (option fd_t)) (l : list slot) : Prop :=
  forall i x, l !! i = Some x -> match x with Null => True | Stale _ => False | Fd fd => exists y, fds !! fd = Some (Some y) end.

Lemma renumber_length l : forall n, length (renumber l n) = length l.
Proof. induction l as [|[] r IH]; intros n; cbn; auto. Qed.
(** The new number of a slot stands for a copy of its descriptor. *)
Lemma renumber_lookup fds l : slots_open fds l -> forall n i fd, l !! i = Some (Fd fd) ->
  exists k, renumber l n !! i = Some (Fd (n + k)) /\ slot_fds fds l !! k = fds !! fd.
Proof.
  induction l as [|x r IH]; intros Hok n i fd Hi; [done|].
  assert (slots_open fds r) as Hok' by (intros a y Ha; by apply (Hok (S a))).
  destruct i as [|i]; cbn in Hi.
  - injection Hi as ->. exists 0%nat. cbn. rewrite Nat.add_0_r. split; [done|]. destruct (Hok 0%nat _ eq_refl) as (y & Hy). by rewrite Hy.
  - destruct x as [|fd0|w].
    + destruct (IH Hok' n i fd Hi) as (k & Hk & Hs). exists k. by split.
    + destruct (IH Hok' (S n) i fd Hi) as (k & Hk & Hs). exists (S k). replace (n + S k)%nat with (S n + k)%nat by lia. split; [done|].
      cbn. destruct (Hok 0%nat _ eq_refl) as (y & Hy). rewrite Hy. exact Hs.
    + by destruct (Hok 0%nat (Stale w) eq_refl).
Qed.
Lemma renumber_null l : forall n i, l !! i = Some Null -> renumber l n !! i = Some Null.
Proof. induction l as [|[] r IH]; intros n [|i] Hi; cbn in *; try done; by apply IH. Qed.

Lemma slot_fds_app fds k l : slots_open fds l -> slot_fds (fds ++ k) l = slot_fds fds l.
Proof.
  unfold slot_fds. induction l as [|x r IH]; intros Hok; [done|]. cbn. rewrite IH by (intros a y Ha; by apply (Hok (S a))).
  pose proof (Hok 0%nat x eq_refl) as Hx. destruct x as [|fd|w]; try done. destruct Hx as (y & Hy). rewrite Hy. by rewrite (lookup_app_l_Some _ _ _ _ Hy).
Qed.

Section Fork.
Context {H Q W : Type} `{Allocator H} `{Queue Q}.
Implicit Types s : psys H Q W.
Notation sc s := (gsched (gs s)).

Definition with_pvfs s (v : vfs W) : psys H Q W :=
  mk_psys (gs s) (pg s) v (exts s) (gregs s) (processes s) (kernel_process s) (loose s) (spaces s) (tty_session s) (tty_foreground s).
Definition more_fds (v : vfs W) (l : list (option fd_t)) : vfs W :=
  mk_vfs (world v) (vmem v) (vnodes v) (vfds v ++ l) (vsystems v) (mounts v) (current_mount_points v).

Lemma copy_files_ok l : forall s i old pre post npre npost, files old = pre ++ l ++ post -> length pre = i -> length npre = i ->
  slots_open (vfds (pvfs s)) l ->
  copy_files (length l) (Z.of_nat i) old (npre ++ replicate (length l) Null ++ npost) s =
    Ok (npre ++ renumber l (length (vfds (pvfs s))) ++ npost) (with_pvfs s (more_fds (pvfs s) (slot_fds (vfds (pvfs s)) l))).
Proof.
  induction l as [|x r IH]; intros s i old pre post npre npost Hold Hp Hn Hok.
  { cbn. unfold ret, with_pvfs, more_fds. rewrite app_nil_r. by destruct s as [? ? [] ? ? ? ? ? ? ? ?]. }
  cbn [length copy_files]. assert (files old !! Z.to_nat (Z.of_nat i) = Some x) as ->.
  { rewrite Hold, Nat2Z.id. cbn. by apply list_lookup_middle. }
  assert (slots_open (vfds (pvfs s)) r) as Hok' by (intros a y Ha; by apply (Hok (S a))).
  pose proof (Hok 0%nat x eq_refl) as Hx. assert (forall a, a :: r ++ post = [a] ++ r ++ post) as Hc by done.
  cbn [replicate app]. destruct x as [|fd|w]; [| |done].
  - replace (Z.of_nat i + 1) with (Z.of_nat (S i)) by lia.
    pose proof (IH s (S i) old (pre ++ [Null]) post (npre ++ [Null]) npost) as Hrec. rewrite <- !app_assoc in Hrec. apply Hrec; [done| | |done]; rewrite length_app; cbn; lia.
  - destruct Hx as (y & Hy). assert (on_pvfs (get_fd fd) s = Ok y s) as Hget.
    { unfold on_pvfs, get_fd. rewrite Hy. by destruct s. }
    rewrite (bind_ok _ _ _ _ _ Hget). assert (on_pvfs (new_fd y) s = Ok (length (vfds (pvfs s))) (with_pvfs s (more_fds (pvfs s) [Some y]))) as Hnew by done.
    rewrite (bind_ok _ _ _ _ _ Hnew). set (s1 := with_pvfs s _). rewrite Nat2Z.id.
    assert (<[i := Fd (length (vfds (pvfs s)))]> (npre ++ Null :: replicate (length r) Null ++ npost) = (npre ++ [Fd (length (vfds (pvfs s)))]) ++ replicate (length r) Null ++ npost) as ->.
    { rewrite insert_app_r_alt by lia. rewrite Hn, Nat.sub_diag. cbn. by rewrite <- app_assoc. }
    replace (Z.of_nat i + 1) with (Z.of_nat (S i)) by lia.
    assert (slots_open (vfds (pvfs s1)) r) as Hok1.
    { intros a z Ha. specialize (Hok' a z Ha). destruct z; try done. destruct Hok' as (u & Hu). exists u. cbn. by apply lookup_app_l_Some. }
    rewrite (IH s1 (S i) old (pre ++ [Fd fd]) post); [|by rewrite <- app_assoc|rewrite length_app; cbn; lia|rewrite length_app; cbn; lia|exact Hok1].
    cbn [renumber pvfs with_pvfs s1 more_fds vfds]. rewrite length_app, Nat.add_1_r, <- app_assoc. cbn [app].
    assert (slot_fds (vfds (pvfs s) ++ [Some y]) r = slot_fds (vfds (pvfs s)) r) as ->.
    { by apply slot_fds_app. }
    f_equal. unfold with_pvfs, more_fds. cbn [world vmem vnodes vfds vsystems mounts current_mount_points gs pg exts gregs processes kernel_process loose spaces tty_session tty_foreground].
    rewrite <- app_assoc. cbn [slot_fds omap list_omap]. rewrite Hy. done.
Qed.

Context (fresh : pext) (fresh_handlers : list Z) (fresh_group fresh_session : Z) (queue_init : Z -> Q) (stale_entry : nat -> Z).
Context (kernel_page_directory fork_ret : Z).

(** The process can be created, the address space copied to [pd], and what is
    copied is there; [xs] are the processes that are ready. *)
Record can_fork (fuel : nat) s (c : Z) (x : process Q) (e : pext) (g : pgroup_t) (l : list (Z * Z)) (j : Z)
  (oth : thread) (r : g_regs_t) (segs : list (Z * Z)) (pd : Z) (pg' : pgstate H) (m : mem) (xs : list Z) : Prop := {
  cf_create : can_create fuel s c x e g l j;
  cf_thread : threads (sc s) !! active_thread x = Some oth;
  cf_regs : gregs s !! active_thread x = Some r;
  cf_data : data_loc e = Segments segs;
  cf_space : copy_tables kernel_page_directory (page_directory e) (pg s) = Ok pd pg';
  cf_mem : spaces s !! page_directory e = Some m;
  cf_files : table_ok (p_files e) /\ slots_open (vfds (pvfs s)) (files (p_files e));
  cf_ready : q_is (p_ready_queue (sc s)) xs /\ Z.of_nat (length xs) < q_cap (p_ready_queue (sc s));
  cf_addr : forall tr h, malloc sizeof_process_t (sheap (sc s)) = Ok tr h -> is_u32 tr }.

(** The child's table. *)
Definition child_table (t : files_t) (next : nat) : files_t :=
  mk_files (renumber (take (Z.to_nat (files_size t)) (files t)) next ++ replicate (Z.to_nat (4 * files_size t)) Null) (files_size t) (files_count t).
Definition child_ext (e : pext) (pd : Z) (segs : list (Z * Z)) (t : files_t) (c : Z) : pext :=
  mk_pext (p_flags e) pd (Segments segs) (heap_addr e) (heap_size e) (p_tty e) t [] c (p_current_dir e).

Lemma copy_table_ok s t : table_ok t -> slots_open (vfds (pvfs s)) (files t) ->
  copy_files (Z.to_nat (files_size t)) 0 t (replicate (Z.to_nat (files_size t * sizeof_fd_t / sizeof_pointer)) Null) s =
    Ok (files (child_table t (length (vfds (pvfs s)))))
       (with_pvfs s (more_fds (pvfs s) (slot_fds (vfds (pvfs s)) (take (Z.to_nat (files_size t)) (files t))))).
Proof.
  intros [Hsz Hlen Hsl Hbe] Hopen. set (n := Z.to_nat (files_size t)). set (l := take n (files t)).
  assert (length l = n) as Hl by (subst l; rewrite length_take; lia).
  pose proof (copy_files_ok l s 0 t [] (drop n (files t)) [] (replicate (Z.to_nat (4 * files_size t)) Null)) as Hc. cbn [app] in Hc.
  rewrite Hl in Hc. change (Z.of_nat 0) with 0 in Hc.
  replace (replicate (Z.to_nat (files_size t * sizeof_fd_t / sizeof_pointer)) Null) with (replicate n Null ++ replicate (Z.to_nat (4 * files_size t)) Null).
  - apply Hc; [symmetry; apply take_drop|done|done|]. intros i x Hi. apply (Hopen i). unfold l in Hi. by apply lookup_take_Some in Hi as [? _].
  - rewrite <- replicate_add. f_equal. unfold sizeof_fd_t, sizeof_pointer. replace (files_size t * 20 / 4) with (5 * files_size t) by dlia. lia.
Qed.

Ltac ok_step lem := rewrite (bind_ok _ _ _ _ _ lem).
Ltac sc_step lem := rewrite (bind_ok _ _ _ _ _ (on_sc_ok _ _ _ _ lem)).

Lemma fork_ok fuel s c x e g l j oth r segs pd pg' m xs old_esp : can_fork fuel s c x e g l j oth r segs pd pg' m xs ->
  exists tr t k s1 s', init_process fresh fresh_handlers fresh_group fresh_session queue_init stale_entry fuel s = Ok tr s1 /\
    created fresh fresh_handlers queue_init s s1 c x e g l j tr t k /\
    fork fresh fresh_handlers fresh_group fresh_session queue_init stale_entry kernel_page_directory fork_ret fuel c old_esp s = Ok tr s' /\
    procs (sc s') !! tr = Some (mk_process t (queue_init 3) 0 j (pgroup x) (psession x) PROCESS_STATUS_RUNNING (signal_handlers x)) /\
    threads (sc s') !! t = Some (mk_thread fork_ret (u32 (old_esp - base_kstack oth + k)) 8 16 (u32 (k + PROCESS_KSTACK_SIZE_DEFAULT)) (base_stack oth) k (tstatus oth)) /\
    gregs s' !! t = Some r /\
    exts s' = <[tr := child_ext e pd segs (child_table (p_files e) (length (vfds (pvfs s)))) c]> (exts s1) /\
    spaces s' = <[pd := m]> (spaces s) /\ pg s' = pg' /\
    vfds (pvfs s') = vfds (pvfs s) ++ slot_fds (vfds (pvfs s)) (take (Z.to_nat (files_size (p_files e))) (files (p_files e))) /\
    vmem (pvfs s') = memcpy (vmem (pvfs s)) k (base_kstack oth) PROCESS_KSTACK_SIZE_DEFAULT /\
    q_is (p_ready_queue (sc s')) (xs ++ [tr]) /\ processes s' = processes s1.
Proof.
  intros [Hcan Hth Hr Hdata Hspace Hm [Htok Hopen] [Hq Hcap] Haddr].
  destruct (init_process_ok fresh fresh_handlers fresh_group fresh_session queue_init stale_entry fuel s c x e g l j Hcan) as (tr & t & k & s1 & Hrun & Hcr).
  pose proof Hcr as [(Htr0 & Htr & Ht) [h Hmal] Hprocs Hthreads Htable Hexts Hgroup Hregs (Hv & Hpg & Hsp & Hrq & Hcu & Hid)].
  assert (tr <> c) as Htc by (intros ->; destruct Hcan; congruence).
  assert (t <> active_thread x) as Htx by congruence.
  exists tr, t, k, s1. unfold fork. ok_step Hrun.
  set (x1 := mk_process t (queue_init 3) 0 j (pgroup x) (psession x) PROCESS_STATUS_INIT fresh_handlers) in *.
  assert (procs (sc s1) !! tr = Some x1) as Hp1 by (rewrite Hprocs; apply lookup_insert_eq). ok_step (proc_ok tr x1 s1 Hp1). cbn [active_thread x1].
  set (th1 := mk_thread 0 0 0 0 (u32 (k + PROCESS_KSTACK_SIZE_DEFAULT)) 0 k THREAD_STATUS_RUNNING) in *.
  assert (threads (sc s1) !! t = Some th1) as Ht1 by (rewrite Hthreads; apply lookup_insert_eq). ok_step (thread_ok t th1 s1 Ht1).
  assert (procs (sc s1) !! c = Some x) as Hx1 by (rewrite Hprocs, lookup_insert_ne by done; apply Hcan). ok_step (proc_ok c x s1 Hx1).
  assert (threads (sc s1) !! active_thread x = Some oth) as Hth1 by (by rewrite Hthreads, lookup_insert_ne). ok_step (thread_ok _ oth s1 Hth1).
  assert (gregs s1 !! active_thread x = Some r) as Hr1 by (by rewrite Hregs, lookup_insert_ne). ok_step (regs_of_ok _ r s1 Hr1).
  unfold upd_gregs at 1. rewrite (bind_ok (modify _) _ _ tt _ eq_refl). set (s2 := mk_psys _ _ _ _ _ _ _ _ _ _ _).
  set (e1 := set_children (children e ++ [tr]) e) in *.
  assert (exts s2 !! c = Some e1) as He2 by (cbn [exts s2]; rewrite Hexts, lookup_insert_ne, lookup_insert_eq by congruence; done).
  ok_step (ext_of_ok c e1 s2 He2). change (data_loc e1) with (data_loc e). rewrite Hdata. rewrite (bind_ok (ret (Segments segs)) _ s2 _ s2 eq_refl).
  assert (procs (sc s2) !! tr = Some x1) as Hp2 by exact Hp1.
  sc_step (on_proc_ok tr (set_handlers (signal_handlers x)) x1 (sc s2) Hp2). set (s3 := with_sc s2 _).
  assert (on_pg (copy_tables kernel_page_directory (page_directory e1)) s3 = Ok pd (mk_psys (gs s3) pg' (pvfs s3) (exts s3) (gregs s3) (processes s3) (kernel_process s3) (loose s3) (spaces s3) (tty_session s3) (tty_foreground s3))) as Hcp.
  { unfold on_pg. change (pg s3) with (pg s1). rewrite Hpg. change (page_directory e1) with (page_directory e). by rewrite Hspace. }
  ok_step Hcp. set (s4 := mk_psys (gs s3) pg' _ _ _ _ _ _ _ _ _). rewrite (bind_ok get _ s4 s4 s4 eq_refl).
  assert (spaces s4 !! page_directory e1 = Some m) as Hm4 by (change (spaces s4) with (spaces s1); by rewrite Hsp). rewrite Hm4.
  unfold upd_spaces. rewrite (bind_ok (modify _) _ _ tt _ eq_refl). set (s5 := mk_psys (gs s4) _ _ _ _ _ _ _ _ _ _).
  assert (forall f, on_pvfs (upd_vmem f) s5 = Ok tt (with_pvfs s5 (mk_vfs (world (pvfs s5)) (f (vmem (pvfs s5))) (vnodes (pvfs s5)) (vfds (pvfs s5)) (vsystems (pvfs s5)) (mounts (pvfs s5)) (current_mount_points (pvfs s5))))) as Hvm by done.
  ok_step (Hvm (fun m => memcpy m (base_kstack th1) (base_kstack oth) PROCESS_KSTACK_SIZE_DEFAULT)). set (s6 := with_pvfs s5 _).
  set (nt := mk_thread fork_ret _ 8 16 _ _ _ _). sc_step (modify_ok (upd_threads (insert t nt)) (sc s6)). set (s7 := with_sc s6 _).
  change (p_files e1) with (p_files e). assert (vfds (pvfs s7) = vfds (pvfs s)) as Hf7 by (cbn; by rewrite Hv).
  assert (slots_open (vfds (pvfs s7)) (files (p_files e))) as Hop7 by (by rewrite Hf7).
  ok_step (copy_table_ok s7 (p_files e) Htok Hop7). rewrite Hf7. set (s8 := with_pvfs s7 _).
  assert (exts s8 !! tr = Some (set_parent c (set_children [] fresh))) as He8 by (cbn [exts s8 with_pvfs]; change (exts s7) with (exts s1); rewrite Hexts; apply lookup_insert_eq).
  ok_step (ext_of_ok tr _ s8 He8). cbn [children parent set_parent set_children]. ok_step (upd_exts_ok (insert tr (child_ext e pd segs (child_table (p_files e) (length (vfds (pvfs s)))) c)) s8).
  set (s9 := with_exts s8 _). set (x9 := set_handlers (signal_handlers x) x1).
  assert (procs (sc s9) !! tr = Some x9) as Hp9 by (cbn; apply lookup_insert_eq).
  destruct (q_add_law (p_ready_queue (sc s9)) xs tr) as (q' & Hadd & Hqi & _).
  { change (p_ready_queue (sc s9)) with (p_ready_queue (sc s1)). by rewrite Hrq. }
  { by apply (Haddr tr h). }
  { change (p_ready_queue (sc s9)) with (p_ready_queue (sc s1)). by rewrite Hrq. }
  assert (scheduler_add_process tr (sc s9) = Ok tt (set_ready q' (upd_procs (insert tr (set_pstatus PROCESS_STATUS_RUNNING x9)) (sc s9)))) as Hsa.
  { unfold scheduler_add_process. ok_step (deref_ok procs tr x9 (sc s9) Hp9). rewrite (bind_ok get _ (sc s9) (sc s9) (sc s9) eq_refl).
    replace (negb (tr =? idle_process (sc s9)) && (pstatus x9 =? PROCESS_STATUS_RUNNING)) with false by (by rewrite andb_false_r).
    ok_step (on_proc_ok tr (set_pstatus PROCESS_STATUS_RUNNING) x9 (sc s9) Hp9). by apply ready_op_ok. }
  sc_step Hsa. eexists. split; [done|]. split; [done|]. split; [reflexivity|]. split_and!.
  - cbn. by rewrite lookup_insert_eq.
  - cbn [gs with_sc with_gs gsched threads set_ready upd_procs]. change (threads (sc s9)) with (<[t := nt]> (threads (sc s1))). rewrite lookup_insert_eq. done.
  - cbn. by rewrite lookup_insert_eq.
  - done.
  - cbn. by rewrite Hsp.
  - done.
  - cbn. by rewrite Hv.
  - cbn. by rewrite Hv.
  - exact Hqi.
  - done.
Qed.

Lemma child_table_ok t n : table_ok t -> table_ok (child_table t n).
Proof.
  intros [Hsz Hlen Hsl Hbe]. set (l := take (Z.to_nat (files_size t)) (files t)).
  assert (length (renumber l n) = Z.to_nat (files_size t)) as Hl by (rewrite renumber_length; subst l; rewrite length_take; lia).
  unfold child_table. fold l. split; cbn [files files_size].
  - done.
  - rewrite length_app, length_replicate, Hl. lia.
  - intros i w Hi. apply lookup_app_Some in Hi as [Hi|[_ Hi]]; [|by apply lookup_replicate in Hi as [? _]].
    clear -Hi. revert n i Hi. induction l as [|[] r IH]; intros n [|i] Hi; cbn in Hi; try done; by eapply IH.
  - intros i x Hi Hx. apply lookup_app_Some in Hx as [Hx|[_ Hx]]; [|by apply lookup_replicate in Hx as [-> _]].
    apply lookup_lt_Some in Hx. lia.
Qed.

(** The descriptors of the child are copies of its parent's. *)
Lemma child_descriptors t fds : table_ok t -> slots_open fds (files t) -> forall i,
  match descriptors t i with
  | None => descriptors (child_table t (length fds)) i = None
  | Some fd => exists fd', descriptors (child_table t (length fds)) i = Some fd' /\ (length fds <= fd')%nat /\
      (fds ++ slot_fds fds (take (Z.to_nat (files_size t)) (files t))) !! fd' = fds !! fd
  end.
Proof.
  intros [Hsz Hlen Hsl Hbe] Hopen i. set (n := Z.to_nat (files_size t)). set (l := take n (files t)).
  assert (length (renumber l (length fds)) = n) as Hl by (rewrite renumber_length; subst l; rewrite length_take; lia).
  assert (slots_open fds l) as Hol by (intros a x Ha; apply (Hopen a); unfold l in Ha; by apply lookup_take_Some in Ha as [? _]).
  unfold descriptors, child_table. fold n l. cbn [files]. destruct (decide (i < n)%nat) as [Hlt|Hge].
  - rewrite lookup_app_l by lia. destruct (files t !! i) as [x|] eqn:Ei; [|apply lookup_ge_None_1 in Ei; lia].
    assert (l !! i = Some x) as Hli by (unfold l; by rewrite lookup_take_lt). destruct x as [|fd|w].
    + by rewrite (renumber_null l _ i Hli).
    + destruct (renumber_lookup fds l Hol (length fds) i fd Hli) as (k & -> & Hk). exists (length fds + k)%nat. split; [done|]. split; [lia|].
      rewrite lookup_app_r by lia. by replace (length fds + k - length fds)%nat with k by lia.
    + by destruct (Hsl i w).
  - rewrite lookup_app_r by lia. destruct (files t !! i) as [x|] eqn:Ei.
    + rewrite (Hbe i x ltac:(lia) Ei). destruct (replicate _ _ !! _) as [y|] eqn:Ey; [|done]. by apply lookup_replicate in Ey as [-> _].
    + destruct (replicate _ _ !! _) as [y|] eqn:Ey; [|done]. by apply lookup_replicate in Ey as [-> _].
Qed.

End Fork.

(** ** Concrete runs

    The processes 100 (pid 1, running) and 200 (pid 2, ready) and the idle process
    300; the group at 4000 has the members 100 and 200. *)

Definition demo_proc (t p st : Z) : process (queue * kheap) := mk_process t empty_queue 0 p 4000 4900 st (replicate 29 0).
Definition demo_sc : sched bump (queue * kheap) :=
  mk_sched (<[100 := demo_proc 110 1 1]> (<[200 := demo_proc 210 2 1]> {[ 300 := demo_proc 310 (-3) 0 ]}))
    (<[110 := mk_thread 7 8 27 35 9000 3221217280 808 1]> (<[210 := demo_thread 1]> {[ 310 := demo_thread 1 ]}))
    {[ 60 := mk_mutex 0 0 ]} (<[600 := (100, 608)]> {[ 608 := (200, 0) ]}) ∅ ∅
    (mk_bump 5000 {[ 100; 200; 300; 110; 210; 310; 600; 608 ]}) (queue_of 200) 100 300 [] 0 50 0 60.
Definition demo_ext (pd par : Z) (cs : list Z) : pext :=
  mk_pext 514 pd (Segments [(4096, 8)]) 8192 0 0 (mk_files ([Fd 0; Fd 0; Fd 0; Null; Null] ++ replicate 20 Null)%nat 5 3) cs par home_dir.
Definition demo_psys : psys bump (queue * kheap) unit :=
  mk_psys (mk_gsys demo_sc 4000 [mk_group 1 600 4900; mk_group 0 0 0] 1 {[ 4900 := 0 ]}) (demo_pg true) demo_vfs
    (<[100 := demo_ext demo_pd 0 [200]]> {[ 200 := demo_ext 3225423872 100 [] ]}) (<[110 := mk_gregs 1 2 3 4 5 6 7]> {[ 210 := zero_regs ]})
    [0; 100; 200; 0; 0] 900 ∅ (<[demo_pd := fun _ => 42]> ∅) 0 0.
Definition demo_fresh : pext := mk_pext 0 0 NoSegments 0 0 0 (mk_files [] 0 0) [] 0 [].

Lemma bump_rooms ns : forall h : bump, has_rooms h ns.
Proof. induction ns as [|n r IH]; intros h; cbn; [done|]. split; [done|]. intros. apply IH. Qed.
Lemma demo_bump_ok (l : list Z) n : 0 < n -> Forall (fun q => q < n) l -> a_ok (mk_bump n (list_to_set l)).
Proof. intros Hn Hl. split; [done|]. cbn. intros q Hq%elem_of_list_to_set. rewrite Forall_forall in Hl. by apply Hl. Qed.

Lemma demo_live p : p ∈ [100; 200; 300; 110; 210; 310; 600; 608] -> p ∈ bump_live (sheap demo_sc).
Proof. cbn. set_solver. Qed.
Lemma demo_can_create : can_create 5 demo_psys 100 (demo_proc 110 1 1) (demo_ext demo_pd 0 [200]) (mk_group 1 600 4900) [(600, 100); (608, 200)] 3.
Proof.
  split.
  - done.
  - reflexivity.
  - reflexivity.
  - reflexivity.
  - reflexivity.
  - cbn. split; [done|]. split; [done|]. exists 608. split; [done|]. split; [done|]. split; [done|]. by exists 0.
  - split; [|split; [|cbn; lia]].
    + cbn. apply NoDup_cons. split; [set_solver by lia|apply NoDup_singleton].
    + cbn. repeat constructor; set_solver.
  - split; [|apply bump_rooms]. split; [cbn; lia|]. cbn. intros q Hq. set_unfold. lia.
  - intros p Hp. apply demo_live. cbn in Hp. rewrite !lookup_insert_is_Some, lookup_singleton_is_Some in Hp. set_unfold. lia.
  - intros p Hp. apply demo_live. cbn in Hp. rewrite !lookup_insert_is_Some, lookup_singleton_is_Some in Hp. set_unfold. lia.
Qed.
Lemma demo_pids : pids_ok demo_psys.
Proof.
  intros [|[|[|[|[|i]]]]] p Hp Hp0; cbn in Hp; try done; injection Hp as <-; try done.
  - by exists (demo_proc 110 1 1).
  - by exists (demo_proc 210 2 1).
Qed.

Lemma init_process_correct_witness : exists tr t k s',
  init_process demo_fresh [] 0 0 (fun _ => empty_queue) (fun _ => 0) 5 demo_psys = Ok tr s' /\ pids_ok s' /\ processes s' = [0; 100; 200; tr; 0] /\
  created demo_fresh [] (fun _ => empty_queue) demo_psys s' 100 (demo_proc 110 1 1) (demo_ext demo_pd 0 [200]) (mk_group 1 600 4900) [(600, 100); (608, 200)] 3 tr t k.
Proof.
  destruct (init_process_correct demo_fresh [] 0 0 (fun _ => empty_queue) (fun _ => 0) 5 demo_psys _ _ _ _ _ _ demo_can_create demo_pids)
    as (tr & t & k & s' & Hrun & Hcr & Hp & _). exists tr, t, k, s'. split; [exact Hrun|]. split; [exact Hp|]. split; [|exact Hcr].
  exact (cr_table _ _ _ _ _ _ _ _ _ _ _ _ _ _ Hcr).
Defined.

Definition demo_tables : pgstate bump := default (demo_pg true) (state_of (copy_tables demo_kernel_pd demo_pd (demo_pg true))).
Lemma demo_tables_ok : copy_tables demo_kernel_pd demo_pd (demo_pg true) = Ok 3225423872 demo_tables.
Proof.
  assert (value_of (copy_tables demo_kernel_pd demo_pd (demo_pg true)) = Some 3225423872) as Hv by (vm_compute; reflexivity).
  unfold demo_tables. destruct (copy_tables demo_kernel_pd demo_pd (demo_pg true)); [|discriminate Hv..]. injection Hv as ->. reflexivity.
Qed.
