(* ===== verification/ProcMem.v ===== *)
(** The memory of processes: the program break, and what the operations of
    Process.v leave behind. *)

From S2P Require Import Prelude Errors Mem KHeap Alloc Dll Blocks PhysMem Paging AddrSpace Strings DataStructs Storage Vfs Elf Sched Groups Signals SysFiles SysTable Process.

(** ** The break *)

Section Break.
Context {H Q W : Type} `{Allocator H} `{Queue Q} (kernel_page_directory : Z).
Implicit Types s : psys H Q W.

Definition with_pg s (p : pgstate H) : psys H Q W :=
  mk_psys (gs s) p (pvfs s) (exts s) (gregs s) (processes s) (kernel_process s) (loose s) (spaces s) (tty_session s) (tty_foreground s).
Lemma on_pg_ok {A} (c : M (pgstate H) A) s a p : c (pg s) = Ok a p -> on_pg c s = Ok a (with_pg s p).
Proof. unfold on_pg. by intros ->. Qed.

(** The break can grow by [incr]: the address space has room, and when the new
    break is not mapped yet there is physical memory and there are page tables for
    the pages; when it is mapped, what is below it is mapped too. *)
Record can_grow s (e : pext) (incr : Z) (l l1 : list (Z * p_block)) (c : Z) (b : p_block) (l2 : list (Z * p_block)) : Prop := {
  cg_range : 0 <= heap_addr e /\ 0 <= heap_size e /\ 0 < incr /\ heap_addr e + heap_size e + incr <= KERNEL_VIRTUAL_BASE;
  cg_space : space_ok (pg s) (page_directory e);
  cg_no_hole : translate (pmem (pg s)) (page_directory e) (heap_addr e + heap_size e + incr) <> None ->
    forall v, heap_addr e + heap_size e <= v < heap_addr e + heap_size e + incr -> translate (pmem (pg s)) (page_directory e) v <> None;
  cg_small : small_range (page_start (heap_addr e + heap_size e)) (page_bytes incr (heap_addr e + heap_size e));
  cg_blocks : lrep (phys (pg s)) l /\ tiled l /\ a_room (heap (phys (pg s))) sizeof_p_block;
  cg_memory : find_block (reservable (page_bytes incr (heap_addr e + heap_size e))) l = Some (l1, (c, b), l2) /\ base_addr b mod 4096 = 0;
  cg_tables : let v := page_start (heap_addr e + heap_size e) in let n := page_bytes incr (heap_addr e + heap_size e) in
    tables_needed (pmem (pg s)) (page_directory e) v ((v + n - 1) / 4194304) <= free_count (kpheap_blocks (pg s)) }.

End Break.

(** ** What is left behind *)

Section Left.
Context {H Q W : Type} `{Allocator H} `{Queue Q}.

(** A computation on the page tables that leaves physical memory alone. *)
Definition phys_kept {A} (c : M (pgstate H) A) : Prop := forall s a s', c s = Ok a s' -> phys s' = phys s.
Lemma phys_kept_bind {A B} (c : M (pgstate H) A) (k : A -> M (pgstate H) B) : phys_kept c -> (forall a, phys_kept (k a)) -> phys_kept (bind c k).
Proof.
  intros Hc Hk s b s' Hr. unfold bind in Hr. destruct (c s) as [a s1| | |] eqn:E; try done. rewrite (Hk a s1 b s' Hr). by apply (Hc s a).
Qed.
Lemma phys_kept_ret {A} (a : A) : phys_kept (ret a).
Proof. by intros s b s' [= _ <-]. Qed.
Lemma phys_kept_fatal {A} e : phys_kept (fatal_kernel_error e : M (pgstate H) A).
Proof. done. Qed.
Lemma phys_kept_rd a : phys_kept (rd32 a).
Proof. by intros s b s' [= _ <-]. Qed.
Lemma phys_kept_wr a v : phys_kept (wr32 a v).
Proof. by intros s b s' [= _ <-]. Qed.
Lemma phys_kept_gets {A} (f : pgstate H -> A) : phys_kept (gets f).
Proof. by intros s b s' [= _ <-]. Qed.
Lemma phys_kept_set i v : phys_kept (set_block i v).
Proof. intros s b s'. unfold set_block. case_bool; [|done]. by intros [= _ <-]. Qed.
Lemma phys_kept_loops (big small : Z -> M (pgstate H) unit) size v : (forall a, phys_kept (big a)) -> (forall a, phys_kept (small a)) ->
  phys_kept (for_range size v big small).
Proof.
  intros Hb Hs. unfold for_range. apply phys_kept_bind.
  - case_bool; [|apply phys_kept_ret]. generalize (S (Z.to_nat (size / 4194304))). intros n. generalize size 0.
    induction n as [|n IH]; intros z a; [done|]. cbn [big_loop]. case_bool; [|apply phys_kept_ret]. apply phys_kept_bind; [apply Hb|]. intros _. apply IH.
  - intros [z a]. cbn [fst snd]. generalize (S (Z.to_nat (z / 4096))). intros n. revert z a.
    induction n as [|n IH]; intros z a; [done|]. cbn [page_loop]. case_bool; [|apply phys_kept_ret]. apply phys_kept_bind; [apply Hs|]. intros _. apply IH.
Qed.

Create HintDb kept.
#[local] Hint Resolve phys_kept_ret phys_kept_fatal phys_kept_rd phys_kept_wr phys_kept_gets phys_kept_set : kept.
Ltac kept := repeat match goal with
  | |- forall _, phys_kept _ => intro
  | |- phys_kept (bind _ _) => apply phys_kept_bind
  | |- phys_kept (for_range _ _ _ _) => apply phys_kept_loops
  | |- phys_kept (if ?b then _ else _) => destruct b
  end; auto with kept.

(** The heap of a process that ends is unmapped and its physical memory stays
    reserved. *)
Lemma heap_memory_stays_reserved size v pd (s s' : pgstate H) : unmap_memory_if_mapped size v pd s = Ok tt s' -> phys s' = phys s.
Proof.
  intros Hr. enough (phys_kept (unmap_memory_if_mapped size v pd)) as Hk by (by apply (Hk s tt)). clear Hr. unfold unmap_memory_if_mapped, is_mapped, unmap_page_table, unmap_page, pt_free. cbv zeta. kept.
Qed.

(** A parent whose first waiting thread does not wait for a child: the loop goes
    round on that thread for ever. *)
Lemma wake_waiter_never_ends fuel p w x th (s : psys H Q W) : w <> 0 -> nodes (gsched (gs s)) !! w = Some x ->
  threads (gsched (gs s)) !! x.1 = Some th -> tstatus th <> THREAD_STATUS_ASLEEP_CHILD -> wake_waiter fuel p w s = NoFuel.
Proof.
  intros Hw Hx Ht Hst. unfold wake_waiter. dec_false (w =? 0).
  assert (on_sc (deref nodes w) s = Ok x s) as Hn.
  { rewrite (on_sc_ok _ _ _ _ (deref_ok nodes w x (gsched (gs s)) Hx)). by destruct s as [[] ? ? ? ? ? ? ? ? ? ?]. }
  rewrite (bind_ok _ _ _ _ _ Hn), (bind_ok _ _ _ _ _ (thread_ok _ th s Ht)). by dec_false (tstatus th =? THREAD_STATUS_ASLEEP_CHILD).
Qed.

(** The children of a process that ends get init as their parent, and no list of
    children changes: init can not wait for them. *)
Lemma orphans_not_children init : forall l (s s' : psys H Q W), orphan l init s = Ok tt s' ->
  forall p, children <$> exts s' !! p = children <$> exts s !! p.
Proof.
  induction l as [|c r IH]; intros s s' Hr p; cbn [orphan] in Hr; [by injection Hr as <-|].
  destruct (exts s !! c) as [e|] eqn:E; [|unfold on_ext, ext_of, bind in Hr; by rewrite E in Hr].
  rewrite (bind_ok _ _ _ _ _ (on_ext_ok c _ e s E)) in Hr. rewrite (IH _ _ Hr p). cbn [exts with_exts].
  destruct (decide (c = p)) as [-> |]; [by rewrite lookup_insert_eq, E|by rewrite lookup_insert_ne].
Qed.
End Left.

(** ** Concrete runs *)

Lemma demo_can_grow : can_grow demo_psys (demo_ext demo_pd 0 [200]) 5000 demo_blocks [(16, mk_p_block 1048576 4096 20)] 40 (mk_p_block 1052672 8192 1)
  [(64, mk_p_block 1060864 4096 20); (88, mk_p_block 1064960 4096 2)].
Proof.
  assert (page_start 8192 = 8192 /\ page_bytes 5000 8192 = 8192) as [E1 E2] by (split; vm_compute; reflexivity).
  destruct demo_phys_ok as [Hr Ht]. split; cbn [demo_ext heap_addr heap_size page_directory]; rewrite ?Z.add_0_r, ?E1, ?E2.
  - unfold KERNEL_VIRTUAL_BASE. lia.
  - apply demo_pg_ok.
  - done.
  - right. lia.
  - split; [exact Hr|]. split; [exact Ht|exact I].
  - split; vm_compute; reflexivity.
  - cbv zeta. assert (free_count (kpheap_blocks (pg demo_psys)) = 1023) as -> by (vm_compute; reflexivity). unfold tables_needed.
    change (pde (pmem (pg demo_psys)) demo_pd (8192 / 4194304) =? 0) with true. dlia.
Qed.

(** Only the new break is looked at: when it is mapped already, by the stack or
    by another segment, the pages below it are not mapped, and the call succeeds. *)
Definition hole_psys : psys bump (queue * kheap) unit :=
  with_exts (with_pg demo_psys demo_one) (insert 100 (set_heap 134504448 0 (demo_ext demo_pd 0 [200]))).
Lemma sbrk_leaves_hole :
  match sbrk demo_kernel_pd 100 8200 hole_psys with
  | Ok r s => r = 134504448 /\ translate (pmem (pg s)) demo_pd 134504448 = None
  | _ => False
  end.
Proof. by vm_compute. Qed.

(** A full process table: the new process gets the entry behind the first new one,
    and the entry that is left out holds what was in the memory. *)
Lemma full_table_skips_entry :
  match register_process (fun _ => 7777) 500 (mk_psys (gs demo_psys) (pg demo_psys) (pvfs demo_psys) ∅ ∅ [0; 100; 200] 900 ∅ ∅ 0 0) with
  | Ok j s => j = 4 /\ processes s = [0; 100; 200; 7777; 500; 7777]
  | _ => False
  end.
Proof. by vm_compute. Qed.
