(* ===== verification/ProcInit.v ===== *)
(** The initialisation of processes ([process_init] of
    tasking/processes/process.c, [scheduler_init] of
    tasking/scheduler/scheduler.c, [groups_init] of
    tasking/processes/groups.c). *)

From S2P Require Import Prelude Errors Mem KHeap Alloc Dll Blocks PhysMem Paging AddrSpace Strings DataStructs Storage Vfs Elf Sched Groups Signals SysFiles SysTable Process.

Definition DEFAULT_GROUP_SIZE : Z := 10.

Section Init.
Context {H Q W : Type} `{Allocator H} `{Queue Q} (ops : Z -> fs_ops W) (kernel_page_directory : Z).
(** What new memory holds: a process, the group table, the thread of the kernel
    process; a new queue. *)
Context (fresh : pext) (fresh_handlers : list Z) (fresh_group fresh_session : Z) (queue_init : Z -> Q) (stale_group : nat -> pgroup_t) (fresh_thread : thread).
Let P (A : Type) : Type := M (psys H Q W) A.

Definition scheduler_init : M (sched H Q) unit :=
  modify (set_ready (queue_init 10)) ;;;
  m <- kalloc 8 ;;
  modify (set_wait_mutex m) ;;;
  modify (upd_mutexes (insert m (mk_mutex 0 0))).
Definition groups_init : M (gsys H Q) unit :=
  b <- on_sched (kalloc (12 * DEFAULT_GROUP_SIZE)) ;;
  modify (fun s => mk_gsys (gsched s) b (map stale_group (seq 0 (Z.to_nat DEFAULT_GROUP_SIZE))) (groups_number s) (sessions s)).
(** [idle_loop] is the address of the loop and [flags] the flags register. *)
Definition process_init (idle_loop flags : Z) : P unit :=
  on_sc (kalloc (PROCESSES_ARRAY_SIZE * 4)) ;;;
  upd_processes (fun _ => replicate (Z.to_nat PROCESSES_ARRAY_SIZE) 0) ;;;
  on_sc signals_init ;;;
  on_gs groups_init ;;;
  on_sc scheduler_init ;;;
  init_kernel_process fresh fresh_handlers fresh_group fresh_session queue_init kernel_page_directory fresh_thread ;;;
  init_idle_process fresh fresh_handlers fresh_group fresh_session queue_init kernel_page_directory idle_loop flags ;;;
  ret tt.

(** ** The state it leaves *)

Definition heap_of (s : psys H Q W) : H := sheap (gsched (gs s)).
(** The next allocation. *)
Lemma next_alloc h n ns : a_ok h /\ has_rooms h (n :: ns) -> exists p h', malloc n h = Ok p h' /\ (a_ok h' /\ has_rooms h' ns) /\ p <> 0 /\
  ~ a_live h p /\ forall q, a_live h' q <-> q = p \/ a_live h q.
Proof. intros [Hok [Hr Hrs]]. destruct (malloc_law h n Hok Hr) as (p & h' & Hm & Hok' & Hp & Hn & Hl). exists p, h'. naive_solver. Qed.

(** The sizes that are allocated, in order. *)
Definition init_sizes : list Z := [80; 8; 120; 8; 292; 76; 292; 76; 1024].
Record initialised (s s' : psys H Q W) (idle_loop : Z) (p t i u : Z) : Prop := {
  in_table : processes s' = replicate 20 0;
  in_kernel : current_process (gsched (gs s')) = p /\ kernel_process s' = p /\
    procs (gsched (gs s')) !! p = Some (mk_process t (queue_init 1) 0 PROCESS_KERNEL_PID fresh_group fresh_session PROCESS_STATUS_RUNNING fresh_handlers);
  in_idle : idle_process (gsched (gs s')) = i /\ p <> i /\
    procs (gsched (gs s')) !! i = Some (mk_process u (queue_init 1) 0 PROCESS_IDLE_PID fresh_group fresh_session PROCESS_STATUS_INIT fresh_handlers);
  in_thread : exists th, threads (gsched (gs s')) !! u = Some th /\ eip th = idle_loop /\ esp th = kesp th /\ cs th = 8;
  in_queue : p_ready_queue (gsched (gs s')) = queue_init 10;
  in_mutexes : mutexes (gsched (gs s')) !! wait_mutex (gsched (gs s')) = Some (mk_mutex 0 0) /\
    mutexes (gsched (gs s')) !! signal_mutex (gsched (gs s')) = Some (mk_mutex 0 0) /\ wait_mutex (gsched (gs s')) <> signal_mutex (gsched (gs s'));
  in_directories : (page_directory <$> exts s' !! p) = Some kernel_page_directory /\ (page_directory <$> exts s' !! i) = Some kernel_page_directory;
  in_memory : pg s' = pg s /\ pvfs s' = pvfs s }.

(** With room for nine structures, [process_init] ends: the kernel runs as the
    current process, the idle process waits with a thread of its own, both in the
    kernel's address space, no process has a number yet and none is ready; the locks
    of the wait and signal lists are open. *)
Lemma process_init_ok idle_loop flags s : a_ok (heap_of s) -> has_rooms (heap_of s) init_sizes ->
  exists s' p t i u, process_init idle_loop flags s = Ok tt s' /\ initialised s s' idle_loop p t i u /\ pids_ok s'.
Proof.
  intros Hok Hr. destruct s as [[[pr th mu no dn wo h0 rq cp ip il wl wm sl sm] gb ga gn se] pgs vf ex gr ps kp lo sp ts tf]. unfold heap_of, init_sizes in *. cbn [gs gsched sheap] in Hok, Hr.
  destruct (next_alloc _ _ _ (conj Hok Hr)) as (p1 & h1 & M1 & R1 & N1 & F1 & L1).
  destruct (next_alloc _ _ _ R1) as (p2 & h2 & M2 & R2 & N2 & F2 & L2).
  destruct (next_alloc _ _ _ R2) as (p3 & h3 & M3 & R3 & N3 & F3 & L3).
  destruct (next_alloc _ _ _ R3) as (p4 & h4 & M4 & R4 & N4 & F4 & L4).
  destruct (next_alloc _ _ _ R4) as (p5 & h5 & M5 & R5 & N5 & F5 & L5).
  destruct (next_alloc _ _ _ R5) as (p6 & h6 & M6 & R6 & N6 & F6 & L6).
  destruct (next_alloc _ _ _ R6) as (p7 & h7 & M7 & R7 & N7 & F7 & L7).
  destruct (next_alloc _ _ _ R7) as (p8 & h8 & M8 & R8 & N8 & F8 & L8).
  destruct (next_alloc _ _ _ R8) as (p9 & h9 & M9 & R9 & N9 & F9 & L9).
  assert (p5 <> p7) as D57 by (intros <-; apply F7; rewrite L6, L5; auto).
  assert (p4 <> p2) as D42 by (intros ->; apply F4; rewrite L3, L2; auto).
  eexists _, p5, p6, p7, p8. split.
  { unfold process_init, init_kernel_process, init_idle_process, signals_init, groups_init, scheduler_init, on_sc, on_gs, Groups.on_sched, kalloc, bind.
    change (PROCESSES_ARRAY_SIZE * 4) with 80. change (12 * DEFAULT_GROUP_SIZE) with 120. change sizeof_process_t with 292.
    cbn [gs gsched sheap]. rewrite M1. cbn. rewrite M2. cbn. rewrite M3. cbn. rewrite M4. cbn. rewrite M5. cbn. rewrite M6. cbn. rewrite M7. cbn. rewrite M8. cbn. rewrite M9. cbn.
    reflexivity. }
  split.
  - split; cbn.
    + done.
    + split_and!; [done|done|]. by rewrite lookup_insert_ne, lookup_insert_eq by congruence.
    + split_and!; [done|done|]. by rewrite lookup_insert_eq.
    + eexists. rewrite lookup_insert_eq. done.
    + done.
    + rewrite lookup_insert_eq, lookup_insert_ne, lookup_insert_eq by congruence. done.
    + rewrite lookup_insert_ne, !lookup_insert_eq by congruence. done.
    + done.
  - intros k q Hk Hq. cbn in Hk. apply (lookup_replicate_1 20) in Hk as [-> _]. done.
Qed.
End Init.
