(* ===== verification/SysProc.v ===== *)
(** System calls on processes (tasking/processes/syscalls.c) and the table of
    system calls.

    The answer of a call is in registers, as in SysFiles.v, unless the call does
    not come back to the process. *)

From S2P Require Import Prelude Errors Mem KHeap Alloc Dll Blocks PhysMem Paging Strings DataStructs Storage Vfs Elf Sched Groups Signals Tty SysFiles Process.

Definition VK_PINFO_PID : Z := 1.
Definition VK_PINFO_PPID : Z := 2.
Definition VK_PINFO_WORKING_DIRECTORY : Z := 3.
Definition VK_PINFO_GID : Z := 4.

(** ** The table *)

(** The functions of [system_calls], by their number. *)
Inductive syscall : Type :=
| Open | Close | Read | Write | Link | Unlink | Seek | Stat | Rename | Finfo | Mount | Umount | Mkdir | Readdir | Openio | Dup | Fsinfo
| Fork | Exit | Exec | Wait | Getpinfo | Setpinfo | Sig | Sigaction | Sigret | Sbrk | Ioctl.
Definition system_calls : list (option syscall) :=
  [None; Some Open; Some Close; Some Read; Some Write; Some Link; Some Unlink; Some Seek; Some Stat; Some Rename; Some Finfo;
   Some Mount; Some Umount; Some Mkdir; Some Readdir; Some Openio; Some Dup; Some Fsinfo] ++
  replicate 13 None ++
  [Some Fork; Some Exit; Some Exec; Some Wait; Some Getpinfo; Some Setpinfo; Some Sig; Some Sigaction; Some Sigret; Some Sbrk] ++
  replicate 10 None ++ [Some Ioctl].

(** The numbers of syscalls.h, in the order of the file. *)
Definition syscall_numbers : list (Z * syscall) :=
  [(1, Open); (2, Close); (3, Read); (4, Write); (5, Link); (6, Unlink); (7, Seek); (8, Stat); (9, Rename); (10, Finfo); (11, Mount);
   (12, Umount); (13, Mkdir); (14, Readdir); (15, Openio); (16, Dup); (31, Fork); (32, Exit); (33, Exec); (34, Wait); (35, Getpinfo);
   (36, Setpinfo); (37, Sig); (38, Sigaction); (39, Sigret); (40, Sbrk)].

(** What the interrupt handler calls for the number in [eax]: it does not look at
    the size of the table, and a number that is not used calls address 0. *)
Inductive dispatch : Type := Calls (c : syscall) | CallsNull | CallsOutside.
Definition SYSCALL_H (eax : Z) : dispatch :=
  match system_calls !! Z.to_nat eax with
  | Some (Some c) => Calls c
  | Some None => CallsNull
  | None => CallsOutside
  end.

(** How a call ends. *)
Inductive outcome : Type := Answers (r : reply) | Leaves.

Section SysProc.
Context {H Q W : Type} `{Allocator H} `{Queue Q} (ops : Z -> fs_ops W).
Let P (A : Type) : Type := M (psys H Q W) A.
Context (fresh : pext) (fresh_handlers : list Z) (fresh_group fresh_session : Z) (queue_init : Z -> Q) (stale_entry : nat -> Z).
Context (kernel_page_directory fork_ret : Z).
Context (stack rmv srt_end : Z) (stale : Z -> Z).
(** The page test of the current process, and [krealloc] of the group table. *)
Context (valid : Z -> bool) (grow_groups : Z -> Z -> Z * list pgroup_t).

Definition or_empty {A} (o : option A) : P A := match o with Some a => ret a | None => nofuel end.
Definition read_word (a : Z) : P Z := gets (fun s => load32 (vmem (pvfs s)) a).
Definition write_word (a v : Z) : P unit := on_pvfs (upd_vmem (fun m => store32 m a v)).
Definition read_string (fuel : nat) (a : Z) : P (list Z) := s <- get ;; or_empty (string_at fuel (vmem (pvfs s)) a).

(** ** Fork, exit, exec *)

Definition syscall_fork (fuel : nat) (esp : Z) : P Z :=
  c <- current ;;
  p <- fork fresh fresh_handlers fresh_group fresh_session queue_init stale_entry kernel_page_directory fork_ret fuel c esp ;;
  x <- proc p ;;
  ret (pid x).

Definition syscall_exit (fuel : nat) (ebx : Z) : P flow :=
  c <- current ;;
  exit_process stack rmv srt_end stale fuel c (Z.lor EXIT_CONDITION_USER (u8 ebx)).

(** The strings of an array of pointers that ends with 0. *)
Fixpoint read_vector (n fuel : nat) (a : Z) : P (list (list Z)) :=
  match n with
  | O => nofuel
  | S k =>
    old <- read_word a ;;
    if old =? 0 then ret [] else
    str <- read_string fuel old ;;
    r <- read_vector k fuel (a + 4) ;;
    ret (str :: r)
  end.
Definition syscall_exec (fuel : nat) (eh buffer ebx ecx edx : Z) : P outcome :=
  c <- current ;;
  e <- ext_of c ;;
  match files (p_files e) !! Z.to_nat ebx with
  | None => fault
  | Some z =>
    if (files_size (p_files e) <? ebx) || is_null z then ret (Answers (error_reply ERROR_FILE_NOT_FOUND)) else
    match z with
    | Fd fd =>
      is_elf <- on_pvfs (elf_check ops eh fd) ;;
      if negb (is_elf =? ERROR_NONE) then ret (Answers (error_reply is_elf)) else
      argv <- read_vector fuel fuel edx ;;
      env <- read_vector fuel fuel ecx ;;
      free_process_memory fuel c ;;;
      load <- load_into ops kernel_page_directory eh buffer c fd argv env ;;
      f <- (if load =? ERROR_NONE then ret Returned else exit_process stack rmv srt_end stale fuel c 768) ;;
      match f with
      | Switched => ret Leaves
      | Returned =>
        c <- current ;;
        x <- proc c ;;
        on_sc (schedule_switch (active_thread x) c) ;;;
        ret Leaves
      end
    | _ => fault
    end
  end.

(** ** Wait *)

(** Whether a child is what [syscall_wait] waits for: [Some false] a child with
    that pid that is not dead. *)
Definition wanted (pid_ own_gid : Z) (x : process Q) (gid : Z) : option bool :=
  let zombie := pstatus x =? PROCESS_STATUS_ZOMBIE in
  if pid_ <? -1 then if zombie && (gid =? - pid_) then Some true else None
  else if pid_ =? -1 then if zombie then Some true else None
  else if pid_ =? 0 then if zombie && (gid =? own_gid) then Some true else None
  else if pid x =? pid_ then Some zombie else None.

(** The walk over the children behind [prev]: the dead child that is found, with
    what is in front of it and behind it. *)
Fixpoint find_child (pid_ own_gid : Z) (prev l : list Z) (found : bool) : P (option (list Z * Z * list Z) * bool) :=
  match l with
  | [] => ret (None, found)
  | c :: r =>
    x <- proc c ;;
    g <- (if (pid_ <? -1) || (pid_ =? 0) then if pstatus x =? PROCESS_STATUS_ZOMBIE then group_of (pgroup x) else ret (mk_group 0 0 0) else ret (mk_group 0 0 0)) ;;
    match wanted pid_ own_gid x (gid_of g) with
    | Some true => ret (Some (prev, c, r), true)
    | Some false => find_child pid_ own_gid (prev ++ [c]) r true
    | None => find_child pid_ own_gid (prev ++ [c]) r found
    end
  end.

(** Removing the dead child: without a child in front of it the whole list is
    dropped. *)
Definition reap (me wstatus : Z) (prev : list Z) (c : Z) (rest : list Z) : P reply :=
  x <- proc c ;;
  r <- regs_of (active_thread x) ;;
  s <- get ;;
  (if processes_size s <=? pid x then fault else upd_processes (insert (Z.to_nat (pid x)) 0)) ;;;
  on_sc (kfree_node (active_thread x)) ;;;
  on_sc (kfree_node c) ;;;
  on_ext me (set_children (match prev with [] => [] | _ => prev ++ rest end)) ;;;
  (if wstatus =? 0 then ret tt else write_word wstatus (g_eax r)) ;;;
  ret (answer (u32 (pid x)) ERROR_NONE).

(** One pass from the label [wait_start] on; [None]: nothing was found. *)
Definition wait_pass (pid_ wstatus : Z) : P (option reply) :=
  me <- current ;;
  x <- proc me ;;
  g <- (if pid_ =? 0 then group_of (pgroup x) else ret (mk_group 0 0 0)) ;;
  e <- ext_of me ;;
  o <- find_child pid_ (gid_of g) [] (children e) false ;;
  match o.1 with
  | Some (prev, c, rest) => r <- reap me wstatus prev c rest ;; ret (Some r)
  | None => ret None
  end.

(** The thread sleeps until a child ends and starts again then; a thread that is
    not taken from the scheduler goes round at once. *)
Fixpoint wait_loop (n fuel : nat) (pid_ wstatus : Z) : P outcome :=
  match n with
  | O => nofuel
  | S k =>
    o <- wait_pass pid_ wstatus ;;
    match o with
    | Some r => ret (Answers r)
    | None =>
      me <- current ;;
      x <- proc me ;;
      on_sc (on_thread (active_thread x) (set_tstatus THREAD_STATUS_ASLEEP_CHILD)) ;;;
      f <- on_sc (scheduler_remove_thread stack rmv srt_end fuel me (active_thread x)) ;;
      match f with
      | Switched => ret Leaves
      | Returned => wait_loop k fuel pid_ wstatus
      end
    end
  end.
Definition syscall_wait (n fuel : nat) (ebx ecx : Z) : P outcome :=
  if negb (ecx =? 0) && negb (valid ecx) then ret (Answers (error_reply ERROR_INVALID_PTR)) else
  me <- current ;;
  e <- ext_of me ;;
  match children e with
  | [] => ret (Answers (error_reply ERROR_HAS_NO_CHILD))
  | _ => wait_loop n fuel (s32 ebx) ecx
  end.

(** ** Information *)

(** The process with the pid [ebx], the current one for 0, if the caller may look
    at it: [inr] the error. *)
Definition target (ebx : Z) : P (Z + Z) :=
  s <- get ;;
  let pid_ := s32 ebx in
  if (pid_ <? 0) || (processes_size s <? pid_) then ret (inr ERROR_INVALID_PID) else
  me <- current ;;
  p <- (if ebx =? 0 then ret me else match processes s !! Z.to_nat ebx with Some p => ret p | None => fault end) ;;
  if p =? 0 then ret (inr ERROR_PERMISSION) else
  if p =? me then ret (inl p) else
  e <- ext_of p ;;
  ret (if parent e =? me then inl p else inr ERROR_PERMISSION).

Definition syscall_getpinfo (ebx ecx edx : Z) : P reply :=
  if negb (valid edx) then ret (error_reply ERROR_INVALID_PTR) else
  t <- target ebx ;;
  match t with
  | inr err => ret (error_reply err)
  | inl p =>
    x <- proc p ;;
    e <- ext_of p ;;
    if ecx =? VK_PINFO_PID then write_word edx (u32 (pid x)) ;;; ret (error_reply ERROR_NONE)
    else if ecx =? VK_PINFO_PPID then
      v <- (if parent e =? 0 then ret (-1) else px <- proc (parent e) ;; ret (pid px)) ;;
      write_word edx (u32 v) ;;; ret (error_reply ERROR_NONE)
    else if ecx =? VK_PINFO_WORKING_DIRECTORY then
      on_pvfs (upd_vmem (fun m => store_bytes m edx (p_current_dir e ++ [0]))) ;;; ret (error_reply ERROR_NONE)
    else if ecx =? VK_PINFO_GID then
      g <- group_of (pgroup x) ;; write_word edx (u32 (gid_of g)) ;;; ret (error_reply ERROR_NONE)
    else ret (error_reply UNKNOWN_ERROR)
  end.

Definition syscall_setpinfo (fuel : nat) (zbuf ebx ecx edx : Z) : P reply :=
  t <- target ebx ;;
  match t with
  | inr err => ret (error_reply err)
  | inl p =>
    if ecx =? VK_PINFO_WORKING_DIRECTORY then
      if negb (valid edx) then ret (error_reply ERROR_INVALID_PTR) else
      newdir <- read_string fuel edx ;;
      if 99 <=? Z.of_nat (length newdir) then ret (error_reply ERROR_FILE_OUT) else
      o <- on_pvfs (open_file ops zbuf newdir 0) ;;
      match o with
      | None => ret (error_reply ERROR_FILE_NOT_FOUND)
      | Some fd =>
        on_pvfs (close_file fd) ;;;
        on_ext p (set_current_dir newdir) ;;;
        ret (error_reply ERROR_NONE)
      end
    else if ecx =? VK_PINFO_GID then
      tr <- on_gs (process_setgroup grow_groups fuel (s32 edx) p) ;; ret (error_reply tr)
    else ret (error_reply UNKNOWN_ERROR)
  end.

(** ** Signals and memory *)

Definition syscall_sig (fuel : nat) (ebx ecx : Z) : P outcome :=
  s <- get ;;
  let pid_ := s32 ebx in
  let sig := s32 ecx in
  if (pid_ =? 0) || (processes_size s <? pid_) then ret (Answers (error_reply ERROR_INVALID_PID)) else
  bad <- (if 0 <? pid_ then match processes s !! Z.to_nat pid_ with Some p => ret (p =? 0) | None => fault end else ret false) ;;
  if (bad : bool) then ret (Answers (error_reply ERROR_INVALID_PID)) else
  if (sig <=? 0) || (NSIG <=? sig) then ret (Answers (error_reply ERROR_INVALID_SIGNAL)) else
  f <- (if pid_ <? 0 then on_gs (send_signal_to_group stack rmv srt_end stale fuel (processes s) (- pid_) sig)
        else on_sc (send_signal stack rmv srt_end stale fuel (processes s) pid_ sig)) ;;
  match f with
  | Switched => ret Leaves
  | Returned => ret (Answers (error_reply ERROR_NONE))
  end.

(** An error leaves [eax] alone. *)
Definition syscall_sigaction (ebx ecx : Z) : P reply :=
  let sig := s32 ebx in
  if (NSIG <=? sig) || (sig <=? 0) then ret (mk_reply None (Some ERROR_INVALID_SIGNAL)) else
  if (sig =? SIGKILL) || (sig =? SIGSTOP) then ret (mk_reply None (Some ERROR_INVALID_SIGNAL)) else
  c <- current ;;
  x <- proc c ;;
  match signal_handlers x !! Z.to_nat sig with
  | None => fault
  | Some old_handler =>
    on_sc (on_proc c (set_handlers (<[Z.to_nat sig := ecx]> (signal_handlers x)))) ;;;
    ret (answer old_handler ERROR_NONE)
  end.

Definition syscall_sbrk (ebx : Z) : P reply :=
  c <- current ;;
  tr <- sbrk kernel_page_directory c ebx ;;
  ret (answer tr ERROR_NONE).
End SysProc.

(** ** Waiting for a child *)

Section Wait.
Context {H Q W : Type} `{Allocator H} `{Queue Q}.
Context (stack rmv srt_end : Z) (valid : Z -> bool).
Implicit Types s : psys H Q W.
Notation sc s := (gsched (gs s)).

(** Any child, or the one with a pid. *)
Definition plain (pid_ : Z) : Prop := pid_ = -1 \/ 0 < pid_.

Lemma find_child_ok pid_ og s c x rest : plain pid_ -> procs (sc s) !! c = Some x -> wanted pid_ og x 0 = Some true ->
  forall pre prev found, Forall (fun d => exists y, procs (sc s) !! d = Some y /\ wanted pid_ og y 0 <> Some true) pre ->
  find_child pid_ og prev (pre ++ c :: rest) found s = Ok (Some (prev ++ pre, c, rest), true) s.
Proof.
  intros Hpl Hx Hw. assert ((pid_ <? -1) || (pid_ =? 0) = false) as Hg.
  { apply orb_false_iff. split; [apply Z.ltb_ge|apply Z.eqb_neq]; destruct Hpl; lia. }
  induction pre as [|d pre IH]; intros prev found Hall; cbn [app find_child].
  - rewrite (bind_ok _ _ _ _ _ (proc_ok c x s Hx)), Hg, (bind_ok (ret _) _ s _ s eq_refl). cbn [gid_of]. rewrite Hw. by rewrite app_nil_r.
  - apply Forall_cons in Hall as [(y & Hy & Hny) Hall].
    rewrite (bind_ok _ _ _ _ _ (proc_ok d y s Hy)), Hg, (bind_ok (ret _) _ s _ s eq_refl). cbn [gid_of].
    replace (prev ++ d :: pre) with ((prev ++ [d]) ++ pre) by (by rewrite <- app_assoc).
    destruct (wanted pid_ og y 0) as [[]|]; [done|by apply IH|by apply IH].
Qed.

(** C9: [syscall_wait] for any child, or for the child with a pid, returns the
    first child of the list that is meant and is dead: its pid and, at the
    address given, the code with which it ended; its entry in the process table
    is free again.  It is taken from the list of the children, which is right as
    long as another child is in front of it. *)
Theorem wait_reaps n fuel s ebx ecx me mx e pre c x rest r : plain (s32 ebx) -> ecx = 0 \/ valid ecx = true ->
  current_process (sc s) = me -> procs (sc s) !! me = Some mx -> exts s !! me = Some e -> children e = pre ++ c :: rest ->
  Forall (fun d => exists y, procs (sc s) !! d = Some y /\ wanted (s32 ebx) 0 y 0 <> Some true) pre ->
  procs (sc s) !! c = Some x -> wanted (s32 ebx) 0 x 0 = Some true -> gregs s !! active_thread x = Some r ->
  0 <= pid x < processes_size s -> a_ok (sheap (sc s)) -> a_live (sheap (sc s)) (active_thread x) -> a_live (sheap (sc s)) c -> active_thread x <> c ->
  exists s', syscall_wait stack rmv srt_end valid (S n) fuel ebx ecx s = Ok (Answers (answer (u32 (pid x)) ERROR_NONE)) s' /\
    processes s' = <[Z.to_nat (pid x) := 0]> (processes s) /\
    exts s' = <[me := set_children (match pre with [] => [] | _ => pre ++ rest end) e]> (exts s) /\
    vmem (pvfs s') = (if ecx =? 0 then vmem (pvfs s) else store32 (vmem (pvfs s)) ecx (g_eax r)) /\
    procs (sc s') = procs (sc s) /\ ~ a_live (sheap (sc s')) c.
Proof.
  intros Hpl Hv Hcur Hmx He Hch Hall Hx Hw Hr Hpid Hok Hl1 Hl2 Hne. unfold syscall_wait.
  assert (negb (ecx =? 0) && negb (valid ecx) = false) as -> by (destruct Hv as [-> | ->]; [done|by rewrite andb_false_r]).
  assert (forall s0, current_process (sc s0) = me -> current s0 = Ok me s0) as Hc by (intros s0 <-; done).
  rewrite (bind_ok _ _ _ _ _ (Hc s Hcur)), (bind_ok _ _ _ _ _ (ext_of_ok me e s He)).
  assert (children e <> []) as Hne2 by (rewrite Hch; by destruct pre). destruct (children e) as [|c0 cs] eqn:Ech; [done|]. clear Hne2.
  destruct (kfree_node_ok (active_thread x) (sc s) Hok Hl1) as (h1 & Hf1 & Hok1 & Hlv1).
  destruct (kfree_node_ok c (set_sheap h1 (sc s)) Hok1) as (h2 & Hf2 & Hok2 & Hlv2); [cbn; rewrite Hlv1; by split|].
  cbn [wait_loop]. unfold wait_pass. rewrite bind_assoc, (bind_ok _ _ _ _ _ (Hc s Hcur)), bind_assoc, (bind_ok _ _ _ _ _ (proc_ok me mx s Hmx)).
  assert ((s32 ebx =? 0) = false) as -> by (apply Z.eqb_neq; destruct Hpl; lia).
  rewrite bind_assoc, (bind_ok (ret _) _ s _ s eq_refl), bind_assoc, (bind_ok _ _ _ _ _ (ext_of_ok me e s He)). rewrite Ech, Hch. cbn [gid_of].
  rewrite bind_assoc, (bind_ok _ _ _ _ _ (find_child_ok (s32 ebx) 0 s c x rest Hpl Hx Hw pre [] false Hall)). cbn [fst app].
  set (pr := <[Z.to_nat (pid x) := 0]> (processes s)).
  set (s1 := mk_psys (gs s) (pg s) (pvfs s) (exts s) (gregs s) pr (kernel_process s) (loose s) (spaces s) (tty_session s) (tty_foreground s)).
  set (s2 := with_sc (with_sc s1 (set_sheap h1 (sc s))) (set_sheap h2 (set_sheap h1 (sc s)))).
  set (s3 := with_exts s2 (insert me (set_children (match pre with [] => [] | _ => pre ++ rest end) e))).
  assert (exists s', reap me ecx pre c rest s = Ok (answer (u32 (pid x)) ERROR_NONE) s' /\ processes s' = pr /\ exts s' = exts s3 /\
    vmem (pvfs s') = (if ecx =? 0 then vmem (pvfs s) else store32 (vmem (pvfs s)) ecx (g_eax r)) /\ sc s' = sc s3) as (s' & Hrun & R1 & R2 & R3 & R4).
  { unfold reap. rewrite (bind_ok _ _ _ _ _ (proc_ok c x s Hx)), (bind_ok _ _ _ _ _ (regs_of_ok _ r s Hr)), (bind_ok get _ s s s eq_refl).
    dec_false (processes_size s <=? pid x). rewrite (bind_ok (upd_processes _) _ s tt s1 eq_refl).
    rewrite (bind_ok _ _ _ _ _ (on_sc_ok _ s1 _ _ Hf1)), (bind_ok _ _ _ _ _ (on_sc_ok _ (with_sc s1 (set_sheap h1 (sc s))) _ _ Hf2)).
    fold s2. rewrite (bind_ok _ _ _ _ _ (on_ext_ok me _ e s2 He)). fold s3.
    destruct (ecx =? 0).
    - rewrite (bind_ok (ret tt) _ s3 tt s3 eq_refl). by exists s3.
    - unfold write_word. eexists. split; [reflexivity|]. done. }
  exists s'. rewrite bind_assoc, (bind_ok _ _ _ _ _ Hrun). split; [reflexivity|]. split; [exact R1|]. split; [exact R2|]. split; [exact R3|].
  rewrite R4. split; [done|]. cbn. intros Hlive. apply Hlv2 in Hlive as [_ Hcc]. done.
Qed.
End Wait.

(** ** Concrete runs *)

(** Process 100 with the children [cs]; 200 is dead and ended with the code 263. *)
Definition dead_200 (cs : list Z) : psys bump (queue * kheap) unit :=
  mk_psys (mk_gsys (upd_procs (insert 200 (demo_proc 210 2 PROCESS_STATUS_ZOMBIE)) demo_sc) 4000 [mk_group 1 600 4900; mk_group 0 0 0] 1 {[ 4900 := 0 ]})
    (demo_pg true) demo_vfs (<[100 := demo_ext demo_pd 0 cs]> {[ 200 := demo_ext 3225423872 100 [] ]})
    (<[110 := mk_gregs 1 2 3 4 5 6 7]> {[ 210 := mk_gregs 263 0 0 0 0 0 0 ]}) [0; 100; 200; 0; 0] 900 ∅ ∅ 0 0.
Definition wait_demo (ebx ecx : Z) : M (psys bump (queue * kheap) unit) outcome := syscall_wait 0 0 0 (fun _ => true) 1 5 ebx ecx.

Lemma wait_reaps_witness : exists s', wait_demo 4294967295 4096 (dead_200 [300; 200]) = Ok (Answers (answer 2 ERROR_NONE)) s' /\
  processes s' = [0; 100; 0; 0; 0] /\ exts s' !! 100 = Some (demo_ext demo_pd 0 [300]) /\ vmem (pvfs s') = store32 (fun _ => 0) 4096 263.
Proof.
  destruct (wait_reaps 0 0 0 (fun _ => true) 0 5 (dead_200 [300; 200]) 4294967295 4096 100 (demo_proc 110 1 1) (demo_ext demo_pd 0 [300; 200])
    [300] 200 (demo_proc 210 2 PROCESS_STATUS_ZOMBIE) [] (mk_gregs 263 0 0 0 0 0 0)) as (s' & Hrun & Hp & He & Hm & _); try reflexivity.
  - left. reflexivity.
  - by right.
  - constructor; [|constructor]. exists (demo_proc 310 (-3) 0). split; [reflexivity|discriminate].
  - unfold processes_size. cbn. lia.
  - split; [cbn; lia|]. cbn. intros q Hq. set_unfold. lia.
  - discriminate.
  - exists s'. split; [exact Hrun|]. split; [exact Hp|]. split; [rewrite He; apply lookup_insert_eq|exact Hm].
Defined.

(** ** Calls that do otherwise than meant *)

(** The first child of the list takes all the others with it. *)
Lemma wait_drops_siblings :
  match wait_demo 4294967295 0 (dead_200 [200; 300]) with
  | Ok r s => r = Answers (answer 2 0) /\ option_map children (exts s !! 100) = Some []
  | _ => False
  end.
Proof. by vm_compute. Qed.

(** Waiting for a pid that is no child: the error is put in the registers, and the
    thread goes to sleep all the same. *)
Lemma wait_for_stranger :
  match wait_demo 4 0 (dead_200 [200]) with
  | Ok r s => r = Leaves /\ option_map tstatus (threads (gsched (gs s)) !! 110) = Some THREAD_STATUS_ASLEEP_CHILD
  | _ => False
  end.
Proof. by vm_compute. Qed.

(** The number of entries is accepted as a pid, and the entry behind the process
    table is read. *)
Lemma getpinfo_behind_table : syscall_getpinfo (fun _ => true) 5 VK_PINFO_PID 4096 (dead_200 [200]) = Fault.
Proof. by vm_compute. Qed.

(** A number of a system call is not compared with the size of the table. *)
Lemma dispatch_unchecked : SYSCALL_H 0 = CallsNull /\ SYSCALL_H 20 = CallsNull /\ SYSCALL_H 52 = CallsOutside.
Proof. done. Qed.
(** The numbers of the header are those of the table. *)
Lemma syscall_numbers_match : Forall (fun p => SYSCALL_H p.1 = Calls p.2) syscall_numbers.
Proof. repeat constructor. Qed.
