(* ===== verification/Ports.v ===== *)
(** Input and output ports (system.h) and the interrupt controller
    (internal/pic.c).

    The hardware is whatever answers reads from the history of port accesses: the
    function [dev] gives the value that a read of a port returns after a history.
    The drivers are programs over the history; their theorems say what was written,
    under hypotheses on [dev] only where a driver decides on what it reads. *)

From S2P Require Import Prelude.

Inductive width : Type := W8 | W16 | W32.
Definition wrap (w : width) (z : Z) : Z := match w with W8 => u8 z | W16 => u16 z | W32 => u32 z end.
Inductive event : Type := Out (w : width) (port value : Z) | In (w : width) (port : Z).
(** The newest event first. *)
Notation history := (list event).

(** A state with the history in it. *)
Record port_state (S : Type) : Type := mk_port_state { events : S -> history; record_event : event -> S -> S }.
Arguments mk_port_state {S}. Arguments events {S}. Arguments record_event {S}.
Definition bare_history : port_state history := mk_port_state (fun h => h) cons.

Section Ports.
Context {S : Type} (io : port_state S) (dev : history -> width -> Z -> Z).
Definition out (w : width) (port value : Z) : M S unit := modify (record_event io (Out w (u16 port) (wrap w value))).
Definition inp (w : width) (port : Z) : M S Z :=
  fun s => Ok (wrap w (dev (events io s) w (u16 port))) (record_event io (In w (u16 port)) s).
Definition outb := out W8.
Definition outw := out W16.
Definition outl := out W32.
Definition inb := inp W8.
Definition inw := inp W16.
Definition inl := inp W32.

(** ** The interrupt controllers *)

Definition pic_install : M S unit :=
  outb 32 17 ;;; outb 160 17 ;;;
  outb 33 32 ;;; outb 161 40 ;;;
  outb 33 4 ;;; outb 161 2 ;;;
  outb 33 1 ;;; outb 161 1.
End Ports.

(** What was written to a port, the newest first. *)
Fixpoint writes (port : Z) (h : history) : list Z :=
  match h with
  | [] => []
  | Out _ p v :: r => if p =? port then v :: writes port r else writes port r
  | In _ _ :: r => writes port r
  end.
Definition last_write (port : Z) (h : history) : option Z := head (writes port h).

Lemma writes_app port h k : writes port (h ++ k) = writes port h ++ writes port k.
Proof. induction h as [|[w p v|w p] r IH]; cbn; [done| |done]. destruct (p =? port); cbn; by rewrite IH. Qed.

(** The initialisation of each 8259: the four command words, in order, give the
    vector of line 0, the line that joins the two, and the mode. *)
Record pic_setup : Type := mk_setup { icw_vector : Z; icw_cascade : Z; icw_mode : Z }.
Definition setup_of (command data : Z) (h : history) : option pic_setup :=
  match writes command h, writes data h with
  | [17], [m; c; v] => Some (mk_setup v c m)
  | _, _ => None
  end.
(** The sixteen lines are moved behind the exceptions: vectors 32 to 39 and 40 to
    47; the second controller is on line 2 of the first. *)
Lemma pic_install_ok : exists h, pic_install bare_history [] = Ok tt h /\
  setup_of 32 33 h = Some (mk_setup 32 (Z.shiftl 1 2) 1) /\ setup_of 160 161 h = Some (mk_setup 40 2 1).
Proof. by eexists. Qed.
