(* ===== verification/Pci.v ===== *)
(** The PCI bus (internal/pci.c).

    Devices are found by reading the configuration space through the ports 0xCF8
    (address) and 0xCFC (data). The list from [pci_first] is kept as the list of
    the descriptions that are finished, in order, and the structure at [pci_last]
    behind them, which is filled by the next probe; the contents of a structure that
    [kmalloc] returns are a parameter. The recursion into bridges is bounded by the
    depth of the bus tree. *)

From S2P Require Import Prelude Ports.

Definition PCI_DATA_PORT : Z := 3324.
Definition PCI_COMMAND_PORT : Z := 3320.

Record pci_device_t : Type := mk_pci {
  base_port : Z; interrupt : Z; vendor_id : Z; device_id : Z; bus : Z; device : Z; function : Z;
  class_id : Z; subclass_id : Z; interface_id : Z; revision : Z }.

(** [pci_found]: the structures before [pci_last]. *)
Record pci : Type := mk_pci_state { ports : history; pci_found : list pci_device_t; pci_last : option pci_device_t; pci_devices_count : Z }.
Definition pci_io : port_state pci :=
  mk_port_state ports (fun e s => mk_pci_state (e :: ports s) (pci_found s) (pci_last s) (pci_devices_count s)).
Definition set_last (d : pci_device_t) (s : pci) : pci := mk_pci_state (ports s) (pci_found s) (Some d) (pci_devices_count s).

(** [(0x1 << 31) | ((bus & 0xFF) << 16) | ...] *)
Definition pci_address (b d f reg : Z) : Z :=
  u32 (Z.lor (Z.lor (Z.lor (Z.lor (Z.shiftl 1 31) (Z.shiftl (Z.land b 255) 16)) (Z.shiftl (Z.land d 31) 11))
    (Z.shiftl (Z.land f 7) 8)) (u8 (Z.land reg 252))).

(** [for(i = 0; i < n; i++)] *)
Fixpoint for_each {S} (l : list Z) (body : Z -> M S unit) : M S unit :=
  match l with [] => ret tt | i :: r => body i ;;; for_each r body end.

Section Pci.
(** The hardware, and the contents of the structure allocated when [n] were
    finished. *)
Context (dev : history -> width -> Z -> Z) (fresh : nat -> pci_device_t).

Definition select_pci (b d f reg : Z) : M pci unit :=
  if (32 <? d) || (8 <? f) then fatal_kernel_error "Trying to select invalid PCI address" else
  outl pci_io PCI_COMMAND_PORT (pci_address b d f reg).
Definition pci_read (b d f reg : Z) : M pci Z :=
  select_pci b d f reg ;;;
  result <- inl pci_io dev PCI_DATA_PORT ;;
  ret (Z.shiftr result (8 * (reg mod 4))).
Definition pci_write (b d f reg value : Z) : M pci unit :=
  select_pci b d f reg ;;;
  outl pci_io PCI_DATA_PORT value.
Definition pci_read_device (x : pci_device_t) (reg : Z) : M pci Z := pci_read (bus x) (device x) (function x) reg.
Definition pci_write_device (x : pci_device_t) (reg value : Z) : M pci unit := pci_write (bus x) (device x) (function x) reg value.
Definition pci_has_functions (b d : Z) : M pci bool :=
  v <- pci_read b d 0 14 ;; ret (negb (Z.land v 128 =? 0)).

(** The structure at [pci_last] after the reads. *)
Definition get_device_desc (b d f : Z) (tr : pci_device_t) : M pci pci_device_t :=
  v <- pci_read b d f 0 ;;
  let ven := u16 v in
  if ven =? 65535 then
    ret (mk_pci (base_port tr) (interrupt tr) ven (device_id tr) b d f (class_id tr) (subclass_id tr) (interface_id tr) (revision tr))
  else
  di <- pci_read b d f 2 ;;
  cl <- pci_read b d f 11 ;;
  sc <- pci_read b d f 10 ;;
  it <- pci_read b d f 9 ;;
  rv <- pci_read b d f 8 ;;
  irq <- pci_read b d f 60 ;;
  ret (mk_pci (base_port tr) irq ven (u16 di) b d f (u8 cl) (u8 sc) (u8 it) (u8 rv)).

Definition is_bridge (x : pci_device_t) : bool := (class_id x =? 6) && (subclass_id x =? 4).

(** [pci_devices_count++; pci_last->next = kmalloc(...); pci_last = pci_last->next] *)
Definition pci_advance (s : pci) : pci :=
  match pci_last s with
  | None => s
  | Some x => mk_pci_state (ports s) (pci_found s ++ [x]) (Some (fresh (S (length (pci_found s))))) (u8 (pci_devices_count s + 1))
  end.
(** The body of the inner loop; [recurse] is [pci_check_bus]. *)
Definition check_function (recurse : Z -> M pci unit) (b d f : Z) : M pci unit :=
  modify (fun s => match pci_last s with None => set_last (fresh 0) s | Some _ => s end) ;;;
  s <- get ;;
  match pci_last s with
  | None => fault
  | Some tr =>
    x <- get_device_desc b d f tr ;;
    modify (set_last x) ;;;
    if vendor_id x =? 65535 then ret tt else
    (if is_bridge x then v <- pci_read b d f 25 ;; recurse (u8 v) else ret tt) ;;;
    modify pci_advance
  end.

Fixpoint pci_check_bus (depth : nat) (b : Z) : M pci unit :=
  match depth with
  | O => nofuel
  | S k =>
    for_each (seqZ 0 32) (fun d =>
      fs <- pci_has_functions b d ;;
      for_each (seqZ 0 (if fs : bool then 8 else 1)) (fun f => check_function (pci_check_bus k) b d f))
  end.

(** [kfree(pci_last)] leaves the pointer. *)
Definition pci_install (depth : nat) : M pci unit := pci_check_bus depth 0.

(** ** The configuration space *)

(** The dwords of the configuration space, by bus, device, function and number. *)
Context (cfg : Z -> Z -> Z -> Z -> Z).
Definition cfg_at (a : Z) : Z := cfg (a / 65536 mod 256) (a / 2048 mod 32) (a / 256 mod 8) (a / 4 mod 64).
(** While nothing is written through it, the data port shows the dword that the
    address port selects, when bit 31 of the address is set. *)
Definition shows_config : Prop := forall h a, writes PCI_DATA_PORT h = [] -> last_write PCI_COMMAND_PORT h = Some a ->
  2147483648 <= a -> dev h W32 PCI_DATA_PORT = cfg_at a.

(** A register, shifted so that it starts at bit 0. *)
Definition field (b d f reg : Z) : Z := Z.shiftr (u32 (cfg b d f (reg / 4))) (8 * (reg mod 4)).
Definition present (b d f : Z) : bool := negb (u16 (field b d f 0) =? 65535).
Definition multifunction (b d : Z) : bool := Z.testbit (field b d 0 14) 7.
Definition bridge (b d f : Z) : bool := (u8 (field b d f 11) =? 6) && (u8 (field b d f 10) =? 4).
Definition secondary (b d f : Z) : Z := u8 (field b d f 25).
(** The description of a function; the base port is not set. *)
Definition describe (b d f : Z) (tr : pci_device_t) : pci_device_t :=
  mk_pci (base_port tr) (field b d f 60) (u16 (field b d f 0)) (u16 (field b d f 2)) b d f (u8 (field b d f 11)) (u8 (field b d f 10))
    (u8 (field b d f 9)) (u8 (field b d f 8)).

(** ** What the scan is to find *)

Inductive entry : Type := Function (b d f : Z) | Bridge (b d f : Z).
Fixpoint collect (l : list Z) (g : Z -> option (list entry)) : option (list entry) :=
  match l with
  | [] => Some []
  | i :: r => match g i, collect r g with Some x, Some y => Some (x ++ y) | _, _ => None end
  end.
Definition functions (b d : Z) : list Z := seqZ 0 (if multifunction b d then 8 else 1).
Definition probe (sub : Z -> option (list entry)) (b d f : Z) : option (list entry) :=
  if present b d f then
    if bridge b d f then match sub (secondary b d f) with Some l => Some (l ++ [Bridge b d f]) | None => None end
    else Some [Function b d f]
  else Some [].
(** Depth first, the functions behind a bridge before the bridge; [None] when the
    tree is deeper than [depth]. *)
Fixpoint scan (depth : nat) (b : Z) : option (list entry) :=
  match depth with
  | O => None
  | S k => collect (seqZ 0 32) (fun d => collect (functions b d) (fun f => probe (scan k) b d f))
  end.

(** A function of the hardware that a scan must look at, on a bus that bridges lead
    to. *)
Definition on_bus (b d f : Z) : Prop := 0 <= d < 32 /\ f ∈ functions b d /\ present b d f = true.
Inductive reachable (root : Z) : Z -> Prop :=
| reach_root : reachable root root
| reach_bridge b d f : reachable root b -> on_bus b d f -> bridge b d f = true -> reachable root (secondary b d f).

Lemma reachable_step root b d f b' : on_bus root d f -> bridge root d f = true -> b = secondary root d f -> reachable b b' -> reachable root b'.
Proof. intros Ho Hb -> Hr. induction Hr; [eapply reach_bridge; eauto; constructor|by eapply reach_bridge]. Qed.
Lemma reachable_inv root b' : reachable root b' -> b' = root \/
  exists d f, on_bus root d f /\ bridge root d f = true /\ reachable (secondary root d f) b'.
Proof.
  induction 1 as [|b d f Hr IH Ho Hb]; [by left|right]. destruct IH as [->|(d' & f' & Ho' & Hb' & Hr')].
  - exists d, f. split_and!; [done|done|constructor].
  - exists d', f'. split_and!; [done|done|by eapply reach_bridge].
Qed.

Lemma collect_elem l g r x : collect l g = Some r -> x ∈ r <-> exists i y, i ∈ l /\ g i = Some y /\ x ∈ y.
Proof.
  revert r. induction l as [|i l IH]; intros r; cbn.
  - intros [= <-]. set_solver.
  - destruct (g i) as [y|] eqn:Ey, (collect l g) as [z|] eqn:Ez; try discriminate. intros [= <-]. rewrite elem_of_app, (IH z eq_refl).
    setoid_rewrite elem_of_cons. split.
    + intros [Hx|(j & w & Hj & Hw & Hx)]; [by exists i, y; auto|by exists j, w; auto].
    + intros (j & w & [->|Hj] & Hw & Hx); [left; congruence|right; by exists j, w].
Qed.
Lemma collect_some l g : (forall i, i ∈ l -> is_Some (g i)) <-> is_Some (collect l g).
Proof.
  induction l as [|i l IH]; cbn; [split; [done|set_solver]|]. setoid_rewrite elem_of_cons. destruct IH as [IH1 IH2]. split.
  - intros Hs. destruct (Hs i) as [x Hx]; [by left|]. destruct IH1 as [y Hy]; [auto|]. rewrite Hx, Hy. done.
  - intros Hs j Hj. destruct (g i) eqn:Ei, (collect l g) eqn:Ec; try (destruct Hs; discriminate). destruct Hj as [->|Hj]; [by rewrite Ei|by apply IH2].
Qed.

Lemma seqZ_32 d : d ∈ seqZ 0 32 <-> 0 <= d < 32.
Proof. rewrite elem_of_seqZ. lia. Qed.

(** The list holds the functions of the reachable buses that are not bridges, and
    no others. *)
Lemma scan_elem k b l b' d f : scan k b = Some l ->
  Function b' d f ∈ l <-> reachable b b' /\ on_bus b' d f /\ bridge b' d f = false.
Proof.
  revert b l. induction k as [|k IH]; intros b l; cbn [scan]; [discriminate|]. intros Hl.
  rewrite (collect_elem _ _ _ _ Hl). split.
  - intros (d0 & y & Hd0 & Hy & Hin). apply (collect_elem _ _ _ _ Hy) in Hin as (f0 & z & Hf0 & Hz & Hin).
    apply seqZ_32 in Hd0. unfold probe in Hz. destruct (present b d0 f0) eqn:Ep; [|injection Hz as <-; by apply not_elem_of_nil in Hin].
    destruct (bridge b d0 f0) eqn:Eb.
    + destruct (scan k (secondary b d0 f0)) as [w|] eqn:Ew; [|discriminate]. injection Hz as <-.
      apply elem_of_app in Hin as [Hin|Hin]; [|by apply list_elem_of_singleton in Hin]. apply (IH _ _ Ew) in Hin as (Hr & Ho & Hn). split; [|done].
      eapply (reachable_step b); [|exact Eb|done|exact Hr]. done.
    + injection Hz as <-. apply list_elem_of_singleton in Hin. injection Hin as -> -> ->. split; [constructor|done].
  - intros (Hr & Ho & Hn). apply reachable_inv in Hr as [->|(d0 & f0 & Ho0 & Hb0 & Hr)].
    + destruct Ho as (Hd & Hf & Hp). destruct (proj2 (collect_some _ _) (mk_is_Some _ _ Hl) d) as [y Hy]; [by apply seqZ_32|].
      exists d, y. split; [by apply seqZ_32|]. split; [done|]. apply (collect_elem _ _ _ _ Hy). exists f, [Function b d f].
      unfold probe. rewrite Hp, Hn. split; [done|]. split; [done|]. by apply list_elem_of_singleton.
    + destruct Ho0 as (Hd & Hf & Hp). destruct (proj2 (collect_some _ _) (mk_is_Some _ _ Hl) d0) as [y Hy]; [by apply seqZ_32|].
      exists d0, y. split; [by apply seqZ_32|]. split; [done|]. apply (collect_elem _ _ _ _ Hy).
      destruct (proj2 (collect_some _ _) (mk_is_Some _ _ Hy) f0 Hf) as [z Hz]. exists f0, z. split; [done|]. split; [done|].
      unfold probe in Hz. rewrite Hp, Hb0 in Hz. destruct (scan k (secondary b d0 f0)) as [w|] eqn:Ew; [|discriminate]. injection Hz as <-.
      apply elem_of_app. left. by apply (IH _ _ Ew).
Qed.

(** Bridges lead to buses with larger numbers, as firmware numbers them. *)
Definition ordered : Prop := forall b d f, on_bus b d f -> bridge b d f = true -> b < secondary b d f.
Lemma scan_total k b : ordered -> is_u8 b -> 256 - b <= Z.of_nat k -> is_Some (scan k b).
Proof.
  intros Hord. revert b. induction k as [|k IH]; intros b Hb Hk; [unfold is_u8 in Hb; lia|]. cbn [scan].
  apply collect_some. intros d Hd. apply collect_some. intros f Hf. unfold probe.
  destruct (present b d f) eqn:Ep; [|done]. destruct (bridge b d f) eqn:Eb; [|done].
  destruct (IH (secondary b d f)) as [w ->]; [apply u8_range| |done].
  assert (b < secondary b d f) by (apply Hord; [split; [by apply seqZ_32|done]|done]). lia.
Qed.

(** ** The code finds what the scan lists *)

Lemma pci_address_eq b d f reg : is_u8 b -> 0 <= d < 32 -> 0 <= f < 8 -> is_u8 reg ->
  pci_address b d f reg = 2147483648 + b * 65536 + d * 2048 + f * 256 + 4 * (reg / 4).
Proof.
  intros Hb Hd Hf Hr. unfold is_u8 in *. unfold pci_address.
  assert (Z.land reg 252 = 4 * (reg / 4)) as ->.
  { replace (Z.land reg 252) with (Z.ldiff (Z.land reg 255) 3).
    - change 255 with (Z.ones 8). change 3 with (Z.ones 2). rewrite Z.ldiff_ones_r, Z.land_ones, Z.shiftl_mul_pow2, Z.shiftr_div_pow2 by lia. dlia.
    - change 252 with (Z.ldiff 255 3). apply Z.bits_inj'. intros i Hi. rewrite Z.ldiff_spec, !Z.land_spec, Z.ldiff_spec.
      by destruct (Z.testbit reg i), (Z.testbit 255 i), (Z.testbit 3 i). }
  change (Z.land b 255) with (Z.land b (Z.ones 8)). change (Z.land d 31) with (Z.land d (Z.ones 5)). change (Z.land f 7) with (Z.land f (Z.ones 3)).
  rewrite !Z.land_ones, !Z.shiftl_mul_pow2 by lia.
  change (2 ^ 8) with 256. change (2 ^ 5) with 32. change (2 ^ 3) with 8. rewrite !Z.mod_small by lia. rewrite u8_id by dlia.
  change (2 ^ 31) with 2147483648. change (2 ^ 16) with 65536. change (2 ^ 11) with 2048.
  rewrite (lor_low (1 * 2147483648) (b * 65536) 31) by (first [lia | reflexivity]).
  rewrite (lor_low _ (d * 2048) 16) by (first [lia | change (2 ^ 16) with 65536; dlia]).
  rewrite (lor_low _ (f * 256) 11) by (first [lia | change (2 ^ 11) with 2048; dlia]).
  rewrite (lor_low _ (4 * (reg / 4)) 8) by (first [lia | change (2 ^ 8) with 256; dlia]).
  rewrite u32_id by dlia. lia.
Qed.
Lemma cfg_at_address b d f reg : is_u8 b -> 0 <= d < 32 -> 0 <= f < 8 -> is_u8 reg ->
  cfg_at (pci_address b d f reg) = cfg b d f (reg / 4) /\ 2147483648 <= pci_address b d f reg < 4294967296.
Proof. intros Hb Hd Hf Hr. rewrite pci_address_eq by done. unfold is_u8 in *. split; [|dlia]. unfold cfg_at. f_equal; dlia. Qed.

Context (law : shows_config).
(** Nothing was written to the configuration space. *)
Definition quiet (s : pci) : Prop := writes PCI_DATA_PORT (ports s) = [].
(** Only ports were accessed. *)
Definition probed (s s' : pci) : Prop :=
  pci_found s' = pci_found s /\ pci_last s' = pci_last s /\ pci_devices_count s' = pci_devices_count s /\ quiet s'.
Definition pci_place (b d f : Z) : Prop := is_u8 b /\ 0 <= d < 32 /\ 0 <= f < 8.

Lemma pci_read_ok b d f reg s : quiet s -> pci_place b d f -> is_u8 reg -> exists s', pci_read b d f reg s = Ok (field b d f reg) s' /\ probed s s'.
Proof.
  intros Hq (Hb & Hd & Hf) Hr. destruct (cfg_at_address b d f reg Hb Hd Hf Hr) as [Hc Ha].
  unfold pci_read, select_pci. dec_false (32 <? d). dec_false (8 <? f). cbn [orb]. unfold bind, outl, out, modify, inl, inp, ret.
  unfold wrap. rewrite (u32_id (pci_address b d f reg)) by lia. change (u16 PCI_COMMAND_PORT) with PCI_COMMAND_PORT.
  change (u16 PCI_DATA_PORT) with PCI_DATA_PORT. cbn [events record_event pci_io ports].
  rewrite (law _ (pci_address b d f reg)) by (try lia; cbn; done). rewrite Hc. by eexists.
Qed.

Lemma probed_trans s1 s2 s3 : probed s1 s2 -> probed s2 s3 -> probed s1 s3.
Proof. unfold probed. intuition congruence. Qed.
Lemma bind_read {B} b d f reg (k : Z -> M pci B) s r : quiet s -> pci_place b d f -> is_u8 reg ->
  (forall s', probed s s' -> exists s'', k (field b d f reg) s' = Ok r s'' /\ probed s' s'') ->
  exists s'', bind (pci_read b d f reg) k s = Ok r s'' /\ probed s s''.
Proof.
  intros Hq Hp Hr Hk. destruct (pci_read_ok b d f reg s Hq Hp Hr) as (s' & Hrun & Hs). rewrite (bind_ok _ _ _ _ _ Hrun).
  destruct (Hk s' Hs) as (s'' & Hrun' & Hs'). exists s''. split; [done|by eapply probed_trans].
Qed.
Definition seen (b d f : Z) (tr : pci_device_t) : pci_device_t :=
  if present b d f then describe b d f tr
  else mk_pci (base_port tr) (interrupt tr) 65535 (device_id tr) b d f (class_id tr) (subclass_id tr) (interface_id tr) (revision tr).
Lemma get_device_desc_ok b d f tr s : quiet s -> pci_place b d f -> exists s', get_device_desc b d f tr s = Ok (seen b d f tr) s' /\ probed s s'.
Proof.
  intros Hq Hp. unfold get_device_desc, seen, present. apply bind_read; [done|done|unfold is_u8; lia|]. intros s1 Hs1.
  destruct (Z.eqb_spec (u16 (field b d f 0)) 65535) as [E|E]; cbn [negb].
  { rewrite E. exists s1. split; [done|]. unfold probed in *. naive_solver. }
  do 6 (apply bind_read; [by apply Hs1 || match goal with H : probed _ ?s |- quiet ?s => apply H end|done|unfold is_u8; lia|]; intros ? ?).
  eexists. split; [reflexivity|]. match goal with H : probed _ ?s |- probed ?s _ => destruct H as (_ & _ & _ & H) end. done.
Qed.
Lemma pci_has_functions_ok b d s : quiet s -> is_u8 b -> 0 <= d < 32 ->
  exists s', pci_has_functions b d s = Ok (multifunction b d) s' /\ probed s s'.
Proof.
  intros Hq Hb Hd. unfold pci_has_functions, multifunction. apply bind_read; [done|split; [done|lia]|unfold is_u8; lia|]. intros s' Hs'. exists s'.
  split; [|unfold probed in *; naive_solver]. unfold ret. f_equal. by rewrite (land_mask_bit _ _ 7), negb_involutive.
Qed.

(** What is stored for an entry: the description of the function; for a bridge, what
    the scan behind it left in the structure. *)
Definition stored (e : entry) (x : pci_device_t) : Prop :=
  match e with Function b d f => describe b d f x = x | Bridge _ _ _ => True end.
Definition ready (s : pci) : Prop := quiet s /\ is_u8 (pci_devices_count s).
(** A computation appends the structures of [l]; out of depth when there is none. *)
Definition finds (c : M pci unit) (o : option (list entry)) : Prop := forall s, ready s ->
  match o with
  | None => c s = NoFuel
  | Some l => exists s' ys, c s = Ok tt s' /\ ready s' /\ pci_found s' = pci_found s ++ ys /\ Forall2 stored l ys /\
      pci_devices_count s' = u8 (pci_devices_count s + Z.of_nat (length l))
  end.

Lemma finds_ret : finds (ret tt) (Some []).
Proof.
  intros s Hr. exists s, []. split; [done|]. split; [done|]. rewrite app_nil_r. split; [done|]. split; [done|].
  cbn [length]. rewrite Z.add_0_r. symmetry. apply u8_id, Hr.
Qed.
Lemma finds_bind c k x y : finds c (Some x) -> finds k y -> finds (c ;;; k) (match y with Some l => Some (x ++ l) | None => None end).
Proof.
  intros Hc Hk s Hr. destruct (Hc s Hr) as (s1 & ys & Hrun & Hr1 & Hf1 & Hm1 & Hn1). rewrite (bind_ok _ _ _ _ _ Hrun).
  specialize (Hk s1 Hr1). destruct y as [l|]; [|done]. destruct Hk as (s2 & zs & Hrun2 & Hr2 & Hf2 & Hm2 & Hn2).
  exists s2, (ys ++ zs). split; [done|]. split; [done|]. split; [by rewrite Hf2, Hf1, app_assoc|]. split; [by apply Forall2_app|].
  rewrite Hn2, Hn1, length_app, Nat2Z.inj_add. unfold u8. rewrite Zplus_mod_idemp_l. f_equal. lia.
Qed.
Lemma finds_nofuel c (k : unit -> M pci unit) : finds c None -> finds (bind c k) None.
Proof. intros Hc s Hr. unfold bind. by rewrite (Hc s Hr). Qed.
Lemma for_each_finds l body g : (forall i, i ∈ l -> finds (body i) (g i)) -> finds (for_each l body) (collect l g).
Proof.
  induction l as [|i l IH]; intros Hb; cbn; [apply finds_ret|]. pose proof (Hb i (list_elem_of_here _ _)) as Hi.
  destruct (g i) as [x|]; [|by apply finds_nofuel]. apply finds_bind; [done|]. apply IH. intros j Hj. apply Hb. by constructor.
Qed.

(** A step that only reads, in front of a computation. *)
Lemma finds_read {A} (c : M pci A) (k : A -> M pci unit) a o :
  (forall s, quiet s -> exists s', c s = Ok a s' /\ probed s s') -> finds (k a) o -> finds (bind c k) o.
Proof.
  intros Hc Hk s [Hq Hn]. destruct (Hc s Hq) as (s1 & Hrun & Hf & _ & Hn1 & Hq1). rewrite (bind_ok _ _ _ _ _ Hrun).
  assert (ready s1) as Hr1 by (split; [done|by rewrite Hn1]). specialize (Hk s1 Hr1). destruct o; [|done]. by rewrite Hf, Hn1 in Hk.
Qed.

Lemma pci_advance_ok e x s : ready s -> pci_last s = Some x -> stored e x ->
  ready (pci_advance s) /\ pci_found (pci_advance s) = pci_found s ++ [x] /\ pci_devices_count (pci_advance s) = u8 (pci_devices_count s + 1) /\ Forall2 stored [e] [x].
Proof. intros [Hq Hn] Hl Hs. unfold pci_advance. rewrite Hl. split; [split; [done|apply u8_range]|]. split_and!; [done|done|by repeat constructor]. Qed.
Lemma describe_idem b d f tr : describe b d f (describe b d f tr) = describe b d f tr.
Proof. done. Qed.

(** A scan keeps a structure at [pci_last]. *)
Definition keeps_last (c : M pci unit) : Prop := forall s s', is_Some (pci_last s) -> c s = Ok tt s' -> is_Some (pci_last s').
Lemma for_each_keeps l body : (forall i, keeps_last (body i)) -> keeps_last (for_each l body).
Proof.
  intros Hb. induction l as [|i l IH]; intros s s' Hl Hrun; cbn in Hrun; [by injection Hrun as <-|].
  apply bind_inv in Hrun as ([] & s1 & H1 & H2). eapply IH; [|exact H2]. by eapply Hb.
Qed.

Lemma pci_read_keeps b d f reg s v s' : pci_read b d f reg s = Ok v s' -> pci_last s' = pci_last s.
Proof.
  unfold pci_read, select_pci. destruct ((32 <? d) || (8 <? f)); [discriminate|]. unfold bind, outl, out, modify, inl, inp, ret.
  intros [= <- <-]. done.
Qed.
Lemma check_function_keeps recurse b d f : (forall b, keeps_last (recurse b)) -> keeps_last (check_function recurse b d f).
Proof.
  intros Hrec s s' [x0 Hl] Hrun. unfold check_function in Hrun.
  apply bind_inv in Hrun as ([] & s1 & H1 & Hrun). injection H1 as <-. apply bind_inv in Hrun as (s2 & s3 & H2 & Hrun). injection H2 as <- <-.
  rewrite Hl, Hl in Hrun. apply bind_inv in Hrun as (x & s4 & H4 & Hrun). apply bind_inv in Hrun as ([] & s5 & H5 & Hrun). injection H5 as <-.
  destruct (vendor_id x =? 65535); [by injection Hrun as <-|]. apply bind_inv in Hrun as ([] & s6 & H6 & Hrun). injection Hrun as <-.
  assert (is_Some (pci_last s6)) as [y Hy]; [|unfold pci_advance; by rewrite Hy].
  destruct (is_bridge x); [|by injection H6 as <-]. apply bind_inv in H6 as (v & s7 & H7 & H6). eapply Hrec; [|exact H6].
  by rewrite (pci_read_keeps _ _ _ _ _ _ _ H7).
Qed.
Lemma check_bus_keeps k b : keeps_last (pci_check_bus k b).
Proof.
  revert b. induction k as [|k IH]; intros b; [by intros s s' _|]. cbn [pci_check_bus]. apply for_each_keeps. intros d s s' Hl Hrun.
  apply bind_inv in Hrun as (fs & s1 & H1 & Hrun). unfold pci_has_functions in H1. apply bind_inv in H1 as (v & s2 & H2 & H1). injection H1 as _ <-.
  eapply (for_each_keeps _ _ (fun f => check_function_keeps _ b d f IH)); [|exact Hrun]. by rewrite (pci_read_keeps _ _ _ _ _ _ _ H2).
Qed.

Lemma check_function_finds recurse sub b d f : (forall b, is_u8 b -> finds (recurse b) (sub b)) -> (forall b, keeps_last (recurse b)) -> pci_place b d f ->
  finds (check_function recurse b d f) (probe sub b d f).
Proof.
  intros Hrec Hkeep Hp s [Hq Hn]. unfold check_function.
  set (s1 := match pci_last s with None => set_last (fresh 0) s | Some _ => s end).
  assert (quiet s1 /\ pci_found s1 = pci_found s /\ pci_devices_count s1 = pci_devices_count s /\ is_Some (pci_last s1)) as (Hq1 & Hf1 & Hn1 & [tr Hl1]).
  { unfold s1. destruct (pci_last s) eqn:E; [by rewrite E|done]. }
  rewrite (bind_ok _ _ _ tt s1) by done. rewrite (bind_ok _ _ _ s1 s1) by done. rewrite Hl1.
  destruct (get_device_desc_ok b d f tr s1 Hq1 Hp) as (s2 & Hrun & Hf2 & _ & Hn2 & Hq2). rewrite (bind_ok _ _ _ _ _ Hrun).
  set (s3 := set_last (seen b d f tr) s2). rewrite (bind_ok _ _ _ tt s3) by done.
  assert (ready s3) as Hr3 by (split; [exact Hq2|change (is_u8 (pci_devices_count s2)); by rewrite Hn2, Hn1]).
  assert (pci_found s3 = pci_found s /\ pci_devices_count s3 = pci_devices_count s) as [Hf3 Hn3] by (split; cbn; congruence).
  unfold probe. unfold seen in *. destruct (present b d f) eqn:Ep; cbn [vendor_id describe].
  2:{ rewrite Z.eqb_refl. destruct (finds_ret s3 Hr3) as (s4 & ys & Hrest). exists s4, ys. by rewrite Hf3, Hn3 in Hrest. }
  replace (u16 (field b d f 0) =? 65535) with false by (unfold present in Ep; symmetry; by apply Bool.negb_true_iff).
  change (is_bridge (describe b d f tr)) with (bridge b d f). destruct (bridge b d f).
  - assert (finds (v <- pci_read b d f 25 ;; recurse (u8 v)) (sub (secondary b d f))) as Hsub.
    { eapply finds_read; [|apply Hrec, u8_range]. intros t Ht. apply pci_read_ok; [done|done|unfold is_u8; lia]. }
    specialize (Hsub s3 Hr3). destruct (sub (secondary b d f)) as [l|]; [|unfold bind at 1; by rewrite Hsub].
    destruct Hsub as (s4 & ys & Hrun4 & Hr4 & Hf4 & Hm4 & Hn4). rewrite (bind_ok _ _ _ _ _ Hrun4).
    assert (is_Some (pci_last s4)) as [y Hy].
    { apply bind_inv in Hrun4 as (v & s5 & H5 & H4). eapply Hkeep; [|exact H4]. by rewrite (pci_read_keeps _ _ _ _ _ _ _ H5). }
    destruct (pci_advance_ok (Bridge b d f) y s4 Hr4 Hy I) as (Hr5 & Hf5 & Hn5 & Hm5).
    exists (pci_advance s4), (ys ++ [y]). split; [done|]. split; [done|]. split; [by rewrite Hf5, Hf4, Hf3, app_assoc|]. split; [by apply Forall2_app|].
    rewrite Hn5, Hn4, Hn3, length_app, Nat2Z.inj_add. unfold u8. rewrite Zplus_mod_idemp_l. f_equal. cbn [length]. lia.
  - rewrite (bind_ok _ _ _ tt s3) by done. destruct (pci_advance_ok (Function b d f) (describe b d f tr) s3 Hr3 eq_refl (describe_idem _ _ _ _)) as (Hr5 & Hf5 & Hn5 & Hm5).
    exists (pci_advance s3), [describe b d f tr]. split; [done|]. split; [done|]. split; [by rewrite Hf5, Hf3|]. split; [done|]. by rewrite Hn5, Hn3.
Qed.

Lemma functions_range b d f : f ∈ functions b d -> 0 <= f < 8.
Proof. unfold functions. rewrite elem_of_seqZ. destruct (multifunction b d); lia. Qed.
Lemma pci_check_bus_finds k b : is_u8 b -> finds (pci_check_bus k b) (scan k b).
Proof.
  revert b. induction k as [|k IH]; intros b Hb; [by intros s Hs|]. cbn [pci_check_bus scan].
  apply for_each_finds. intros d Hd. apply seqZ_32 in Hd.
  apply (finds_read _ _ (multifunction b d)); [intros s Hs; by apply pci_has_functions_ok|].
  apply for_each_finds. intros f Hf. apply functions_range in Hf.
  apply check_function_finds; [exact IH|apply check_bus_keeps|done].
Qed.


(** A bridge that leads to its own bus makes the scan recurse without end. *)
Lemma bridge_loop d f : on_bus 0 d f -> bridge 0 d f = true -> secondary 0 d f = 0 ->
  forall depth, pci_install depth (mk_pci_state [] [] None 0) = NoFuel.
Proof.
  intros (Hd & Hf & Hp) Hb Hsec depth.
  pose proof (pci_check_bus_finds depth 0 ltac:(unfold is_u8; lia) (mk_pci_state [] [] None 0) ltac:(split; [done|unfold is_u8; cbn; lia])) as Hrun.
  destruct (scan depth 0) as [l|] eqn:El; [exfalso; clear Hrun|exact Hrun].
  revert l El. induction depth as [|k IH]; intros l El; [discriminate|]. cbn [scan] in El.
  destruct (proj2 (collect_some _ _) (mk_is_Some _ _ El) d) as [y Hy]; [by apply seqZ_32|].
  destruct (proj2 (collect_some _ _) (mk_is_Some _ _ Hy) f Hf) as [z Hz]. unfold probe in Hz. rewrite Hp, Hb, Hsec in Hz.
  destruct (scan k 0) eqn:Ek; [by eapply IH|discriminate].
Qed.
End Pci.

(** ** Two machines *)

(** The hardware that a configuration space alone makes up. *)
Definition config_ports (cfg : Z -> Z -> Z -> Z -> Z) (h : history) (w : width) (port : Z) : Z :=
  match last_write PCI_COMMAND_PORT h with Some a => cfg_at cfg a | None => 0 end.
Lemma config_ports_law cfg : shows_config (config_ports cfg) cfg.
Proof. intros h a _ Hl _. unfold config_ports. by rewrite Hl. Qed.
Definition blank_device : pci_device_t := mk_pci 0 0 0 0 0 0 0 0 0 0 0.

(** An IDE controller at 0/1/0 and nothing else. *)
Definition ide_cfg (b d f r : Z) : Z :=
  if (b =? 0) && (d =? 1) && (f =? 0) then (if r =? 0 then 1880195206 else if r =? 2 then 16875520 else 0) else 4294967295.

(** A bridge at 0/1/0 with a disk controller behind it at 1/0/0. *)
Definition bridge_cfg (b d f r : Z) : Z :=
  if (b =? 0) && (d =? 1) && (f =? 0) then (if r =? 0 then 1880195206 else if r =? 2 then 100925440 else if r =? 6 then 65792 else 0)
  else if (b =? 1) && (d =? 0) && (f =? 0) then (if r =? 0 then 1880195206 else if r =? 2 then 16875520 else 0)
  else 4294967295.
(** The description of the bridge is overwritten by the scan behind it: its place in
    the list holds the last probe of the other bus. *)
Lemma bridge_description_lost :
  (state_of (pci_install (config_ports bridge_cfg) (fun _ => blank_device) 3 (mk_pci_state [] [] None 0)) ≫= fun s =>
    Some (map (fun x => (vendor_id x, bus x, device x, class_id x)) (pci_found s), pci_devices_count s)) =
  Some ([(32902, 1, 0, 1); (65535, 1, 31, 0)], 2).
Proof. vm_compute. reflexivity. Qed.
