(* ===== verification/Ata.v ===== *)
(** The ports of ATA drives (storage/ata/ata_common.c, ata_pio.c, atapi.c): the
    commands, the wait for a drive, and the detection of drives.

    A command is what a drive finds in its registers when the command register is
    written: the last value of each register, and for 48-bit commands the value
    before it too.  Theorems decode the history of port writes that way. *)

From S2P Require Import Prelude Errors Mem Storage Ports Pci.

Definition ATA_FLAG_MASTER : Z := 1.
Record prd_t : Type := mk_prd { data_pointer : Z; byte_count : Z; reserved : Z }.
(** [prd] is the first entry of the table at [prdt_virt]. *)
Record ata_device_t : Type := mk_ata {
  controller : pci_device_t; prdt_phys : Z; prdt_virt : Z; prd : prd_t; base_port : Z; control_port : Z; bar4 : Z; sectors_per_block : Z; irq : Z; flags : Z }.

Definition DATA_PORT (d : ata_device_t) : Z := base_port d.
Definition ERROR_PORT (d : ata_device_t) : Z := base_port d + 1.
Definition SECTOR_COUNT_PORT (d : ata_device_t) : Z := base_port d + 2.
Definition LBA_LOW_PORT (d : ata_device_t) : Z := base_port d + 3.
Definition LBA_MID_PORT (d : ata_device_t) : Z := base_port d + 4.
Definition LBA_HI_PORT (d : ata_device_t) : Z := base_port d + 5.
Definition DEVICE_PORT (d : ata_device_t) : Z := base_port d + 6.
Definition COMMAND_PORT (d : ata_device_t) : Z := base_port d + 7.
Definition CONTROL_PORT (d : ata_device_t) : Z := control_port d.
Definition has_flag (f : Z) (d : ata_device_t) : bool := negb (Z.land (flags d) f =? 0).

(** Lists two elements at a time. *)
Lemma list_pairs_ind {A} (P : list A -> Prop) : P [] -> (forall a, P [a]) -> (forall a b r, P r -> P (a :: b :: r)) -> forall l, P l.
Proof. intros H0 H1 H2. fix IH 1. intros [|a [|b r]]; [exact H0|apply H1|apply H2, IH]. Qed.

Section Ata.
Context {S : Type} (io : port_state S) (dev : history -> width -> Z -> Z).
Notation outb := (outb io). Notation outw := (outw io). Notation inb := (inb io dev).

Definition ata_io_wait (drive : ata_device_t) : M S unit :=
  inb (CONTROL_PORT drive) ;;; inb (CONTROL_PORT drive) ;;; inb (CONTROL_PORT drive) ;;; inb (CONTROL_PORT drive) ;;; ret tt.

Definition ata_cmd_28 (sector scount cmd : Z) (drive : ata_device_t) : M S unit :=
  outb (DEVICE_PORT drive) (Z.lor (if has_flag ATA_FLAG_MASTER drive then 224 else 240) (Z.shiftr (Z.land sector 251658240) 24)) ;;;
  ata_io_wait drive ;;;
  outb (ERROR_PORT drive) 0 ;;;
  outb (SECTOR_COUNT_PORT drive) scount ;;;
  outb (LBA_LOW_PORT drive) (Z.land sector 255) ;;;
  outb (LBA_MID_PORT drive) (Z.shiftr (Z.land sector 65280) 8) ;;;
  outb (LBA_HI_PORT drive) (Z.shiftr (Z.land sector 16711680) 16) ;;;
  outb (COMMAND_PORT drive) cmd.

(** [addr[i]] *)
Definition addr (sector i : Z) : Z := sector / 256 ^ i mod 256.
Definition ata_cmd_48 (sector scount cmd : Z) (drive : ata_device_t) : M S unit :=
  outb (DEVICE_PORT drive) (if has_flag ATA_FLAG_MASTER drive then 64 else 80) ;;;
  ata_io_wait drive ;;;
  outb (SECTOR_COUNT_PORT drive) 0 ;;;
  outb (LBA_LOW_PORT drive) (addr sector 3) ;;;
  outb (LBA_MID_PORT drive) (addr sector 4) ;;;
  outb (LBA_HI_PORT drive) (addr sector 5) ;;;
  outb (SECTOR_COUNT_PORT drive) scount ;;;
  outb (LBA_LOW_PORT drive) (addr sector 0) ;;;
  outb (LBA_MID_PORT drive) (addr sector 1) ;;;
  outb (LBA_HI_PORT drive) (addr sector 2) ;;;
  outb (COMMAND_PORT drive) cmd.

(** The condition of the loop of [ata_pio_poll_status]: busy, no data, no error, no
    fault. *)
Definition still_busy (status : Z) : bool :=
  (Z.land status 128 =? 128) && negb (Z.land status 8 =? 8) && negb (Z.land status 1 =? 1) && negb (Z.land status 32 =? 32).
(** The last status and the number of reads; [left] counts [0xFFFFF - times]. *)
Fixpoint poll_loop (left : nat) (drive : ata_device_t) (status : Z) : M S (Z * bool) :=
  if still_busy status then
    match left with
    | O => ret (status, true)
    | Datatypes.S k => st <- inb (COMMAND_PORT drive) ;; poll_loop k drive st
    end
  else ret (status, bool_decide (left = O)).
Definition poll_result (status : Z) (timed_out : bool) : Z :=
  if negb (Z.land status 32 =? 0) then ERROR_DISK_UNREACHABLE else
  if timed_out then ERROR_DISK_BUSY else
  if negb (Z.land status 1 =? 0) then ERROR_DISK_UNREACHABLE else ERROR_NONE.
Definition ata_poll (times : nat) (drive : ata_device_t) : M S Z :=
  status <- inb (COMMAND_PORT drive) ;;
  r <- poll_loop times drive status ;;
  ret (poll_result r.1 r.2).
Definition ata_pio_poll_status (drive : ata_device_t) : M S Z := ata_poll (Z.to_nat 1048575) drive.

(** ATAPI_READ_SECTORS *)
Definition atapi_read_sectors (sector scount : Z) : list Z :=
  [168; 0; Z.land (Z.shiftr sector 24) 15; Z.land (Z.shiftr sector 16) 255; Z.land (Z.shiftr sector 8) 255; Z.land sector 255;
   0; 0; 0; u8 scount; 0; 0].
(** The packet as six words. *)
Fixpoint send_words (drive : ata_device_t) (l : list Z) : M S unit :=
  match l with
  | a :: b :: r => outw (DATA_PORT drive) (a + 256 * b) ;;; send_words drive r
  | _ => ret tt
  end.
Definition atapi_cmd_dma_read_28 (sector scount : Z) (drive : ata_device_t) : M S Z :=
  outb (DEVICE_PORT drive) (if has_flag ATA_FLAG_MASTER drive then 160 else 176) ;;;
  ata_io_wait drive ;;;
  outb (ERROR_PORT drive) 1 ;;;
  outb (LBA_MID_PORT drive) 0 ;;;
  outb (LBA_HI_PORT drive) 0 ;;;
  outb (COMMAND_PORT drive) 160 ;;;
  status <- ata_pio_poll_status drive ;;
  if negb (status =? ERROR_NONE) then ret status else
  send_words drive (atapi_read_sectors sector scount) ;;;
  ret ERROR_NONE.

(** ** What a drive sees *)

Context (io_law : forall e s, events io (record_event io e s) = e :: events io s).
(** A command as the registers give it: for 28 bits the last value of each, for 48
    bits the last two. *)
Record command : Type := mk_command { c_code : Z; c_lba : Z; c_count : Z; c_slave : bool; c_lba_mode : bool }.
Definition reg (port : Z) (k : nat) (h : history) : Z := nth k (writes port h) 0.
Definition decode28 (b : Z) (h : history) : command :=
  let d := reg (b + 6) 0 h in
  mk_command (reg (b + 7) 0 h) (reg (b + 3) 0 h + 256 * reg (b + 4) 0 h + 65536 * reg (b + 5) 0 h + 16777216 * (d mod 16))
    (reg (b + 2) 0 h) (Z.testbit d 4) (Z.testbit d 6).
Definition decode48 (b : Z) (h : history) : command :=
  let d := reg (b + 6) 0 h in
  mk_command (reg (b + 7) 0 h)
    (reg (b + 3) 0 h + 256 * reg (b + 4) 0 h + 65536 * reg (b + 5) 0 h +
     16777216 * (reg (b + 3) 1 h + 256 * reg (b + 4) 1 h + 65536 * reg (b + 5) 1 h))
    (reg (b + 2) 0 h + 256 * reg (b + 2) 1 h) (Z.testbit d 4) (Z.testbit d 6).

(** Writing a register puts a value in front. *)
Lemma outb_ok port v s : 0 <= port < 65536 -> exists s', outb port v s = Ok tt s' /\
  forall q, writes q (events io s') = if port =? q then u8 v :: writes q (events io s) else writes q (events io s).
Proof. intros Hp. eexists. split; [reflexivity|]. intros q. rewrite io_law. cbn. by rewrite u16_id by lia. Qed.
Lemma ata_io_wait_ok d s : exists s', ata_io_wait d s = Ok tt s' /\ forall q, writes q (events io s') = writes q (events io s).
Proof. eexists. split; [reflexivity|]. intros q. by rewrite !io_law. Qed.
Lemma bind_outb port v (k : M S unit) s (P : S -> Prop) : 0 <= port < 65536 ->
  (forall s', (forall q, writes q (events io s') = if port =? q then u8 v :: writes q (events io s) else writes q (events io s)) ->
     exists s'', k s' = Ok tt s'' /\ P s'') ->
  exists s'', (outb port v ;;; k) s = Ok tt s'' /\ P s''.
Proof. intros Hp Hk. destruct (outb_ok port v s Hp) as (s' & Hrun & Hw). rewrite (bind_ok _ _ _ _ _ Hrun). by apply Hk. Qed.
Lemma bind_wait d (k : M S unit) s (P : S -> Prop) :
  (forall s', (forall q, writes q (events io s') = writes q (events io s)) -> exists s'', k s' = Ok tt s'' /\ P s'') ->
  exists s'', (ata_io_wait d ;;; k) s = Ok tt s'' /\ P s''.
Proof. intros Hk. destruct (ata_io_wait_ok d s) as (s' & Hrun & Hw). rewrite (bind_ok _ _ _ _ _ Hrun). by apply Hk. Qed.

Lemma last_outb port v s (P : S -> Prop) : 0 <= port < 65536 ->
  (forall s', (forall q, writes q (events io s') = if port =? q then u8 v :: writes q (events io s) else writes q (events io s)) -> P s') ->
  exists s'', outb port v s = Ok tt s'' /\ P s''.
Proof. intros Hp Hk. destruct (outb_ok port v s Hp) as (s' & Hrun & Hw). exists s'. split; [exact Hrun|by apply Hk]. Qed.

Ltac in_ports := unfold DEVICE_PORT, ERROR_PORT, SECTOR_COUNT_PORT, LBA_LOW_PORT, LBA_MID_PORT, LBA_HI_PORT, COMMAND_PORT, DATA_PORT; lia.
Ltac ports_step := lazymatch goal with
  | |- exists _, bind (ata_io_wait _) _ _ = _ /\ _ => apply bind_wait
  | |- exists _, bind _ _ _ = _ /\ _ => apply bind_outb; [in_ports|]
  | |- exists _, Ports.outb _ _ _ _ = _ /\ _ => apply last_outb; [in_ports|]
  end; intros ? ?.
Ltac read_regs := unfold reg; repeat match goal with H : forall q, writes q (events io ?s) = _ |- context [writes ?p (events io ?s)] =>
    rewrite (H p); unfold DEVICE_PORT, ERROR_PORT, SECTOR_COUNT_PORT, LBA_LOW_PORT, LBA_MID_PORT, LBA_HI_PORT, COMMAND_PORT;
    repeat match goal with |- context [?a =? ?b] => first [rewrite (proj2 (Z.eqb_eq a b)) by lia | rewrite (proj2 (Z.eqb_neq a b)) by lia] end
  end; cbn [nth].

(** The device register: the drive's half and the top of the address. *)
Lemma device_reg (c : bool) x : 0 <= x < 16 ->
  let d := u8 (Z.lor (if c then 224 else 240) x) in d mod 16 = x /\ Z.testbit d 4 = negb c /\ Z.testbit d 6 = true.
Proof.
  intros Hx d. subst d. rewrite (lor_low _ _ 4) by (first [lia | by destruct c]). rewrite u8_id by (destruct c; lia).
  rewrite !Z.testbit_eqb by lia. change (2 ^ 4) with 16. change (2 ^ 6) with 64.
  destruct c; split_and!; [dlia| | |dlia| |]; cbn [negb]; first [apply Z.eqb_eq; dlia | apply Z.eqb_neq; dlia].
Qed.

Lemma ata_cmd_28_ok sector scount cmd d s : 0 <= base_port d < 65528 -> 0 <= sector ->
  exists s', ata_cmd_28 sector scount cmd d s = Ok tt s' /\
    decode28 (base_port d) (events io s') = mk_command (u8 cmd) (sector mod 268435456) (u8 scount) (negb (has_flag ATA_FLAG_MASTER d)) true.
Proof.
  intros Hb Hs. unfold ata_cmd_28. repeat ports_step. unfold decode28. read_regs.
  pose proof (land_field sector 24 4 ltac:(lia) ltac:(lia)) as E4. change (Z.shiftl (Z.ones 4) 24) with 251658240 in E4. rewrite E4.
  pose proof (land_field sector 16 8 ltac:(lia) ltac:(lia)) as E3. change (Z.shiftl (Z.ones 8) 16) with 16711680 in E3. rewrite E3.
  pose proof (land_field sector 8 8 ltac:(lia) ltac:(lia)) as E2. change (Z.shiftl (Z.ones 8) 8) with 65280 in E2. rewrite E2.
  change 255 with (Z.ones 8). rewrite Z.land_ones by lia. change (2 ^ 24) with 16777216. change (2 ^ 16) with 65536. change (2 ^ 8) with 256. change (2 ^ 4) with 16.
  destruct (device_reg (has_flag ATA_FLAG_MASTER d) (sector / 16777216 mod 16) ltac:(dlia)) as (D1 & D2 & D3).
  rewrite D1, D2, D3. unfold u8. rewrite !Zmod_mod. f_equal. dlia.
Qed.

Lemma addr_range sector i : u8 (addr sector i) = addr sector i.
Proof. apply Zmod_mod. Qed.
Lemma ata_cmd_48_ok sector scount cmd d s : 0 <= base_port d < 65528 -> 0 <= sector ->
  exists s', ata_cmd_48 sector scount cmd d s = Ok tt s' /\
    decode48 (base_port d) (events io s') = mk_command (u8 cmd) (sector mod 281474976710656) (u8 scount) (negb (has_flag ATA_FLAG_MASTER d)) true.
Proof.
  intros Hb Hs. unfold ata_cmd_48. repeat ports_step. unfold decode48. read_regs. rewrite !addr_range. unfold addr.
  change (256 ^ 0) with 1. change (256 ^ 1) with 256. change (256 ^ 2) with 65536. change (256 ^ 3) with 16777216. change (256 ^ 4) with 4294967296.
  change (256 ^ 5) with 1099511627776. f_equal; [dlia|change (u8 0) with 0; lia|by destruct (has_flag _ _)..].
Qed.

(** ** Waiting *)

Definition BSY (status : Z) : bool := Z.testbit status 7.
Definition DRQ (status : Z) : bool := Z.testbit status 3.
Definition DF (status : Z) : bool := Z.testbit status 5.
Definition ERR (status : Z) : bool := Z.testbit status 0.

Lemma land_bit_eq x m k : 0 <= k -> m = 2 ^ k -> (Z.land x m =? m) = Z.testbit x k.
Proof.
  intros Hk ->. pose proof (land_mask_bit x _ k Hk eq_refl) as Hz. destruct (Z.testbit x k) eqn:E; cbn [negb] in Hz.
  - apply Z.eqb_eq, Z.bits_inj'. intros i Hi. rewrite Z.land_spec. destruct (Z.eq_dec i k) as [->|Hn]; [by rewrite E|].
    by rewrite Z.pow2_bits_false, andb_false_r by lia.
  - apply Z.eqb_eq in Hz. rewrite Hz. apply Z.eqb_neq. lia.
Qed.
Lemma still_busy_eq st : still_busy st = BSY st && negb (DRQ st) && negb (ERR st) && negb (DF st).
Proof.
  unfold still_busy, BSY, DRQ, ERR, DF.
  by rewrite (land_bit_eq _ 128 7), (land_bit_eq _ 8 3), (land_bit_eq _ 1 0), (land_bit_eq _ 32 5) by done.
Qed.
Lemma poll_result_none st late : poll_result st late = ERROR_NONE <-> DF st = false /\ late = false /\ ERR st = false.
Proof.
  unfold poll_result, DF, ERR. rewrite (land_mask_bit _ 32 5), (land_mask_bit _ 1 0), !negb_involutive by done.
  destruct (Z.testbit st 5), late, (Z.testbit st 0); split; (done || intros (? & ? & ?); discriminate).
Qed.

(** Only reads. *)
Definition waited (n : nat) (s s' : S) : Prop :=
  (forall q, writes q (events io s') = writes q (events io s)) /\ (length (events io s') <= length (events io s) + n)%nat.
Lemma poll_loop_ok n d st s : exists st' late s', poll_loop n d st s = Ok (st', late) s' /\ waited n s s' /\ (late = false -> still_busy st' = false).
Proof.
  revert st s. induction n as [|n IH]; intros st s; cbn [poll_loop]; destruct (still_busy st) eqn:E.
  1,2: eexists _, _, s; split; [reflexivity|]; split; [split; [done|lia]|done].
  - unfold bind, Ports.inb, inp. edestruct IH as (st' & late & s' & Hrun & (Hw & Hl) & Hb). rewrite Hrun. eexists _, _, _. split; [reflexivity|].
    split; [|exact Hb]. rewrite io_law in Hl. cbn in Hl. split; [|lia]. intros q. by rewrite Hw, io_law.
  - eexists _, _, s. split; [reflexivity|]. split; [split; [done|lia]|done].
Qed.
Lemma ata_poll_ok n d s : exists v s', ata_poll n d s = Ok v s' /\ waited (Datatypes.S n) s s' /\
  (v = ERROR_NONE -> exists st, (BSY st = false \/ DRQ st = true) /\ DF st = false /\ ERR st = false).
Proof.
  unfold ata_poll, bind, Ports.inb, inp. edestruct poll_loop_ok as (st' & late & s' & Hrun & (Hw & Hl) & Hb). rewrite Hrun.
  eexists _, _. split; [reflexivity|]. rewrite io_law in Hl. cbn in Hl. split; [split; [intros q; by rewrite Hw, io_law|lia]|].
  cbn [fst snd]. intros Hv. apply poll_result_none in Hv as (Hd & -> & He). specialize (Hb eq_refl). rewrite still_busy_eq in Hb. exists st'.
  rewrite Hd, He in Hb. cbn [negb] in Hb. rewrite !andb_true_r in Hb. split; [|done].
  destruct (BSY st'); [right; by apply Bool.negb_false_iff in Hb|by left].
Qed.

(** ** The packet of a CD drive *)

Fixpoint packet_words (l : list Z) : list Z := match l with a :: b :: r => (a + 256 * b) :: packet_words r | _ => [] end.
Lemma send_words_ok d l s : 0 <= base_port d < 65528 -> Forall (fun w => 0 <= w < 65536) (packet_words l) ->
  exists s', send_words d l s = Ok tt s' /\ writes (base_port d) (events io s') = reverse (packet_words l) ++ writes (base_port d) (events io s).
Proof.
  intros Hb. revert s. induction l as [| | a b r IH] using list_pairs_ind; intros s Hw; [by exists s..|].
  cbn [send_words packet_words] in *. apply Forall_cons in Hw as [Ha Hw]. unfold bind, Ports.outw, out, modify.
  edestruct IH as (s' & Hrun & Hs); [exact Hw|]. rewrite Hrun. eexists. split; [reflexivity|].
  rewrite Hs, io_law. cbn [writes]. unfold DATA_PORT, wrap. rewrite !u16_id, Z.eqb_refl by lia. by rewrite reverse_cons, <- app_assoc.
Qed.
Lemma bytes_of_sector sector : 0 <= sector ->
  let p := atapi_read_sectors sector 0 in
  Forall is_u8 p /\ 16777216 * nth 2 p 0 + 65536 * nth 3 p 0 + 256 * nth 4 p 0 + nth 5 p 0 = sector mod 268435456.
Proof.
  intros Hs. unfold atapi_read_sectors. cbn [nth]. change 15 with (Z.ones 4). change 255 with (Z.ones 8).
  rewrite !Z.land_ones, !Z.shiftr_div_pow2 by lia. change (2 ^ 24) with 16777216. change (2 ^ 16) with 65536. change (2 ^ 8) with 256. change (2 ^ 4) with 16.
  split; [repeat apply Forall_cons_2; try apply Forall_nil_2; unfold is_u8, u8; dlia|dlia].
Qed.
Lemma words_u16 l : Forall is_u8 l -> Forall (fun w => 0 <= w < 65536) (packet_words l).
Proof.
  induction l as [| | a b r IH] using list_pairs_ind; intros Hl; [constructor..|]. apply Forall_cons in Hl as [Ha Hl]. apply Forall_cons in Hl as [Hb Hl].
  constructor; [unfold is_u8 in *; lia|by apply IH].
Qed.
(** When the drive accepts the packet command it gets twelve bytes through the data
    register: the code of a read, the sector modulo 2^28 with the high byte first,
    and the number of sectors. *)
Lemma atapi_cmd_ok sector scount d s : 0 <= base_port d < 65528 -> 0 <= sector ->
  exists v s', atapi_cmd_dma_read_28 sector scount d s = Ok v s' /\
    (v = ERROR_NONE -> exists p, writes (base_port d) (events io s') = reverse (packet_words p) ++ writes (base_port d) (events io s) /\
       nth 0 p 0 = 168 /\ nth 9 p 0 = u8 scount /\
       16777216 * nth 2 p 0 + 65536 * nth 3 p 0 + 256 * nth 4 p 0 + nth 5 p 0 = sector mod 268435456).
Proof.
  intros Hb Hs. unfold atapi_cmd_dma_read_28.
  assert (exists s1, (outb (DEVICE_PORT d) (if has_flag ATA_FLAG_MASTER d then 160 else 176) ;;; ata_io_wait d ;;; outb (ERROR_PORT d) 1 ;;;
    outb (LBA_MID_PORT d) 0 ;;; outb (LBA_HI_PORT d) 0 ;;; outb (COMMAND_PORT d) 160) s = Ok tt s1 /\
    writes (base_port d) (events io s1) = writes (base_port d) (events io s)) as (s1 & Hrun & Hw1) by (repeat ports_step; read_regs; done).
  destruct (ata_poll_ok (Z.to_nat 1048575) d s1) as (v & s2 & Hpoll & (Hw2 & _) & _).
  assert (forall (k : M S Z), (outb (DEVICE_PORT d) (if has_flag ATA_FLAG_MASTER d then 160 else 176) ;;; ata_io_wait d ;;; outb (ERROR_PORT d) 1 ;;;
    outb (LBA_MID_PORT d) 0 ;;; outb (LBA_HI_PORT d) 0 ;;; outb (COMMAND_PORT d) 160 ;;; k) s = k s1) as Hseq.
  { intros k. injection Hrun as <-. reflexivity. }
  rewrite Hseq. unfold ata_pio_poll_status. rewrite (bind_ok _ _ _ _ _ Hpoll).
  destruct (Z.eqb_spec v ERROR_NONE) as [->|Hv]; cbn [negb]; [|by exists v, s2].
  destruct (bytes_of_sector sector Hs) as [Hu Hlba].
  destruct (send_words_ok d (atapi_read_sectors sector scount) s2 Hb) as (s3 & Hsend & Hw3).
  { apply words_u16. unfold atapi_read_sectors in *. rewrite !Forall_cons in *. pose proof (u8_range scount). tauto. }
  rewrite (bind_ok _ _ _ _ _ Hsend). exists ERROR_NONE, s3. split; [done|]. intros _. exists (atapi_read_sectors sector scount).
  by rewrite Hw3, Hw2, Hw1.
Qed.
End Ata.

(** ** Detection *)

(** The answer of a drive to IDENTIFY, as 256 words; fields by their offset in
    [ata_identify_data_t], with the padding that alignment puts in. *)
Definition id_u8 (id : list Z) (off : nat) : Z := nth (off / 2) id 0 / (if Nat.even off then 1 else 256) mod 256.
Definition id_u32 (id : list Z) (off : nat) : Z := nth (off / 2) id 0 + 65536 * nth (off / 2 + 1) id 0.
Definition id_u64 (id : list Z) (off : nat) : Z := id_u32 id off + 4294967296 * id_u32 id (off + 4).
Definition maximum_block_transfer (id : list Z) : Z := id_u8 id 94.
Definition capabilities (id : list Z) : Z := id_u32 id 96.
Definition user_adressable_sectors (id : list Z) : Z := id_u32 id 120.
Definition multiword_dma_support (id : list Z) : Z := id_u8 id 126.
Definition multiword_dma_active (id : list Z) : Z := id_u8 id 127.
Definition ultra_dma_support (id : list Z) : Z := id_u8 id 178.
Definition ultra_dma_active (id : list Z) : Z := id_u8 id 179.
Definition user_adressable_sectors_ext (id : list Z) : Z := id_u64 id 460.

Definition HARD_DISK_DRIVE : Z := 1.
Definition CD_DRIVE : Z := 2.

Section Detect.
Context {Part : Type} (dev : history -> width -> Z -> Z).
Record block_device_t : Type := mk_block_device {
  device_struct : ata_device_t; device_size : Z; partitions : list Part; device_type : Z; device_class : Z }.
Record detect : Type := mk_detect { d_pci : pci; block_devices : list block_device_t }.
Definition detect_io : port_state detect :=
  mk_port_state (fun s => ports (d_pci s)) (fun e s => mk_detect (record_event pci_io e (d_pci s)) (block_devices s)).
Definition lift_pci {A} (c : M pci A) : M detect A := fun s =>
  match c (d_pci s) with Ok a p => Ok a (mk_detect p (block_devices s)) | Fatal e => Fatal e | Fault => Fault | NoFuel => NoFuel end.

(** The flags in the structure that [kmalloc] returned; [ata_read_partitions], which
    reads the first sector; the table for transfers: a physical block, the address it
    is mapped at. *)
Context (junk : Z) (ata_read_partitions : ata_device_t -> M detect (list Part)) (map_prdt : M detect (Z * Z)).
Notation outb := (outb detect_io). Notation inb := (inb detect_io dev).
Notation wait := (ata_io_wait detect_io dev). Notation poll := (ata_pio_poll_status detect_io dev).

Fixpoint read_words (n : nat) (d : ata_device_t) : M detect (list Z) :=
  match n with
  | O => ret []
  | Datatypes.S k => w <- inw detect_io dev (DATA_PORT d) ;; r <- read_words k d ;; ret (w :: r)
  end.

Definition with_flags (f : Z) (d : ata_device_t) : ata_device_t :=
  mk_ata (controller d) (prdt_phys d) (prdt_virt d) (prd d) (base_port d) (control_port d) (bar4 d) (sectors_per_block d) (irq d) f.

(** IDENTIFY, or IDENTIFY PACKET when the registers show a packet device; the flags
    of the drive, [None] when there is none. *)
Definition send_identify (current : ata_device_t) (master : bool) : M detect (option ata_device_t) :=
  outb (DEVICE_PORT current) 160 ;;;
  status <- inb (COMMAND_PORT current) ;;
  if status =? 255 then ret None else
  outb (DEVICE_PORT current) (if master then 160 else 176) ;;;
  wait current ;;;
  outb (CONTROL_PORT current) 0 ;;;
  outb (SECTOR_COUNT_PORT current) 0 ;;;
  outb (LBA_LOW_PORT current) 0 ;;;
  outb (LBA_MID_PORT current) 0 ;;;
  outb (LBA_HI_PORT current) 0 ;;;
  outb (COMMAND_PORT current) 236 ;;;
  status <- inb (COMMAND_PORT current) ;;
  if status =? 0 then ret None else
  status <- poll current ;;
  if status =? ERROR_NONE then ret (Some current) else
  wait current ;;;
  t0 <- inb (LBA_MID_PORT current) ;;
  t1 <- inb (LBA_HI_PORT current) ;;
  wait current ;;;
  if (t0 =? 20) && (t1 =? 235) then
    wait current ;;;
    outb (COMMAND_PORT current) 161 ;;;
    poll current ;;;
    ret (Some (with_flags (Z.lor (flags current) ATA_FLAG_ATAPI) current))
  else ret None.

(** SET FEATURES, subcommand 3: a transfer mode. *)
Definition set_mode (current : ata_device_t) (master : bool) (mode : Z) : M detect unit :=
  outb (DEVICE_PORT current) (if master then 160 else 176) ;;;
  wait current ;;;
  outb (LBA_LOW_PORT current) 0 ;;;
  outb (LBA_MID_PORT current) 0 ;;;
  outb (LBA_HI_PORT current) 0 ;;;
  outb (SECTOR_COUNT_PORT current) mode ;;;
  outb (ERROR_PORT current) 3 ;;;
  outb (COMMAND_PORT current) 239 ;;;
  poll current ;;;
  ret tt.

Definition identified (current : ata_device_t) (id : list Z) : ata_device_t :=
  let f := u8 (Z.lor (flags current) (if u32 (Z.shiftl (Z.shiftr (capabilities id) 9) 15) =? 0 then 0 else ATA_FLAG_LBA48)) in
  mk_ata (controller current) (prdt_phys current) (prdt_virt current) (prd current) (base_port current) (control_port current) (bar4 current)
    (maximum_block_transfer id) (irq current) f.
Definition size_of (current : ata_device_t) (id : list Z) : Z :=
  if (0 <? user_adressable_sectors_ext id) && has_flag ATA_FLAG_LBA48 current then u32 (user_adressable_sectors_ext id)
  else user_adressable_sectors id.

Definition ata_identify_drive (base control bar4 : Z) (master : bool) (irq : Z) (ctl : pci_device_t) : M detect (option block_device_t) :=
  c <- send_identify (mk_ata ctl 0 0 (mk_prd 0 0 0) base control bar4 0 irq (u8 (Z.lor junk (if master then ATA_FLAG_MASTER else 0)))) master ;;
  match c with
  | None => ret None
  | Some c =>
    id <- read_words 256 c ;;
    let current := identified c id in
    let atapi := has_flag ATA_FLAG_ATAPI current in
    parts <- (if atapi then ret [] else ata_read_partitions current) ;;
    (if multiword_dma_active id <? multiword_dma_support id then set_mode current master (Z.lor (Z.shiftl 4 3) (multiword_dma_support id)) else ret tt) ;;;
    (if (ultra_dma_active id <? ultra_dma_support id) && (2 <=? ultra_dma_support id) && (ultra_dma_active id <? 2)
     then set_mode current master (Z.lor (Z.shiftl 8 3) 2) else ret tt) ;;;
    v <- lift_pci (pci_read_device dev (controller current) 4) ;;
    lift_pci (pci_write_device (controller current) 4 (Z.lor v 7)) ;;;
    lift_pci (pci_write_device (controller current) 72 15) ;;;
    t <- map_prdt ;;
    outl detect_io (bar4 + 4) t.1 ;;;
    ret (Some (mk_block_device
      (mk_ata (controller current) t.1 t.2 (mk_prd (u32 (t.1 + 8)) 65527 32768) base control bar4 (sectors_per_block current) irq (flags current))
      (size_of current id) parts ATA_DEVICE (if atapi then CD_DRIVE else HARD_DISK_DRIVE)))
  end.

(** [block_devices] has room for ten pointers. *)
Definition add_device (d : option block_device_t) : M detect unit := fun s =>
  match d with
  | None => Ok tt s
  | Some x => if (length (block_devices s) <? 10)%nat then Ok tt (mk_detect (d_pci s) (block_devices s ++ [x])) else Fault
  end.
Definition bar_port (v legacy : Z) : Z := let p := Z.land v 65532 in if (p =? 0) || (p =? 1) then legacy else p.
Definition bar_control (v legacy : Z) : Z := let p := u16 (Z.land v 65532 + 2) in if (p =? 2) || (p =? 3) then legacy else p.
Definition install_controller (x : pci_device_t) : M detect unit :=
  if class_id x =? 1 then
    b0 <- lift_pci (pci_read_device dev x 16) ;;
    b1 <- lift_pci (pci_read_device dev x 20) ;;
    b2 <- lift_pci (pci_read_device dev x 24) ;;
    b3 <- lift_pci (pci_read_device dev x 28) ;;
    b4 <- lift_pci (pci_read_device dev x 32) ;;
    let port := bar_port b0 496 in let control := bar_control b1 1014 in
    let port_s := bar_port b2 368 in let control_s := bar_control b3 886 in
    let bar4 := Z.land b4 65532 in
    if subclass_id x =? 1 then
      d <- ata_identify_drive port control bar4 true 14 x ;; add_device d ;;;
      d <- ata_identify_drive port control bar4 false 14 x ;; add_device d ;;;
      d <- ata_identify_drive port_s control_s (u16 (bar4 + 8)) true 15 x ;; add_device d ;;;
      d <- ata_identify_drive port_s control_s (u16 (bar4 + 8)) false 15 x ;; add_device d
    else ret tt
  else ret tt.
Fixpoint install_all (l : list pci_device_t) : M detect unit :=
  match l with [] => ret tt | x :: r => install_controller x ;;; install_all r end.
(** From [pci_first] to [pci_last], which is not looked at. *)
Definition ata_install : M detect unit := s <- get ;; install_all (pci_found (d_pci s)).

(** ** What is detected *)

(** Where a device was found. *)
Definition drive_placed (base control : Z) (master : bool) (line : Z) (x : pci_device_t) (d : ata_device_t) : Prop :=
  base_port d = base /\ control_port d = control /\ irq d = line /\ controller d = x /\ (master = true -> has_flag ATA_FLAG_MASTER d = true).
(** The array changes through [add_device] alone. *)
Definition keeps_devices {A} (c : M detect A) : Prop := forall s a s', c s = Ok a s' -> block_devices s' = block_devices s.
Lemma keeps_devices_ret {A} (a : A) : keeps_devices (ret a).
Proof. intros s b s' [= _ <-]. done. Qed.
Lemma keeps_devices_bind {A B} (c : M detect A) (k : A -> M detect B) : keeps_devices c -> (forall a, keeps_devices (k a)) -> keeps_devices (bind c k).
Proof. intros Hc Hk s b s' Hrun. apply bind_inv in Hrun as (a & s1 & H1 & H2). by rewrite (Hk _ _ _ _ H2), (Hc _ _ _ H1). Qed.
Lemma keeps_out w p v : keeps_devices (out detect_io w p v).
Proof. intros s a s' [= _ <-]. done. Qed.
Lemma keeps_in w p : keeps_devices (inp detect_io dev w p).
Proof. intros s a s' [= _ <-]. done. Qed.
Lemma keeps_lift {A} (c : M pci A) : keeps_devices (lift_pci c).
Proof. intros s a s' Hrun. unfold lift_pci in Hrun. destruct (c (d_pci s)); try discriminate Hrun. by injection Hrun as _ <-. Qed.
Lemma keeps_if {A} (b : bool) (c k : M detect A) : keeps_devices c -> keeps_devices k -> keeps_devices (if b then c else k).
Proof. by destruct b. Qed.
Lemma keeps_poll_loop n d st : keeps_devices (poll_loop detect_io dev n d st).
Proof. revert st. induction n as [|n IH]; intros st; cbn [poll_loop]; apply keeps_if; first [apply keeps_devices_ret | apply keeps_devices_bind; [apply keeps_in|exact IH]]. Qed.
Lemma keeps_words n d : keeps_devices (read_words n d).
Proof. induction n as [|n IH]; cbn [read_words]; [apply keeps_devices_ret|]. apply keeps_devices_bind; [apply keeps_in|]. intros w. apply keeps_devices_bind; [exact IH|]. intros r. apply keeps_devices_ret. Qed.
Context (parts_keep : forall d, keeps_devices (ata_read_partitions d)) (prdt_keep : keeps_devices map_prdt).
Lemma keeps_wait d : keeps_devices (wait d).
Proof. unfold ata_io_wait. repeat (apply keeps_devices_bind; [apply keeps_in|intros _]). apply keeps_devices_ret. Qed.
Lemma keeps_poll d : keeps_devices (poll d).
Proof. apply keeps_devices_bind; [apply keeps_in|intros st]. apply keeps_devices_bind; [apply keeps_poll_loop|intros r; apply keeps_devices_ret]. Qed.
Ltac keeps := repeat lazymatch goal with
  | |- keeps_devices (bind _ _) => apply keeps_devices_bind; [|intros ?]
  | |- keeps_devices (if _ then _ else _) => apply keeps_if
  | |- keeps_devices (ret _) => apply keeps_devices_ret
  | |- keeps_devices (wait _) => apply keeps_wait
  | |- keeps_devices (poll _) => apply keeps_poll
  | |- keeps_devices (lift_pci _) => apply keeps_lift
  | |- keeps_devices (read_words _ _) => apply keeps_words
  | |- keeps_devices (ata_read_partitions _) => apply parts_keep
  | |- keeps_devices map_prdt => exact prdt_keep
  | |- keeps_devices (Ports.inb _ _ _) => apply keeps_in
  | |- keeps_devices (Ports.outb _ _ _) => apply keeps_out
  | |- keeps_devices (outl _ _ _) => apply keeps_out
  end.
Lemma keeps_send c m : keeps_devices (send_identify c m).
Proof. unfold send_identify. keeps. Qed.
Lemma keeps_mode c m v : keeps_devices (set_mode c m v).
Proof. unfold set_mode. keeps. Qed.
Lemma keeps_identify b c b4 m i x : keeps_devices (ata_identify_drive b c b4 m i x).
Proof.
  unfold ata_identify_drive. apply keeps_devices_bind; [apply keeps_send|]. intros [d|]; [|apply keeps_devices_ret]. keeps; apply keeps_mode.
Qed.

Lemma lor_keeps_bit0 a b : Z.testbit a 0 = true -> Z.testbit (u8 (Z.lor a b)) 0 = true.
Proof. intros Ha. unfold u8. change 256 with (2 ^ 8). rewrite Z.mod_pow2_bits_low, Z.lor_spec, Ha by lia. done. Qed.
Lemma has_flag_bit d : has_flag ATA_FLAG_MASTER d = Z.testbit (flags d) 0.
Proof. unfold has_flag, ATA_FLAG_MASTER. by rewrite (land_mask_bit _ 1 0), negb_involutive. Qed.

Lemma send_identify_placed c m s d s' : send_identify c m s = Ok (Some d) s' ->
  base_port d = base_port c /\ control_port d = control_port c /\ irq d = irq c /\ controller d = controller c /\ (Z.testbit (flags c) 0 = true -> Z.testbit (flags d) 0 = true).
Proof.
  unfold send_identify. intros Hrun. repeat first
    [ discriminate Hrun
    | match type of Hrun with (if ?b then _ else _) _ = _ => destruct b end
    | apply bind_inv in Hrun as (? & ? & _ & Hrun) ].
  - injection Hrun as <- _. done.
  - injection Hrun as <- _. do 4 (split; [done|]). intros Hf. cbn [flags with_flags]. by rewrite Z.lor_spec, Hf.
Qed.
(** A drive that is found sits where it was looked for; a packet device is a CD
    drive, any other a hard disk. *)
Lemma identify_placed base control b4 m line x s bd s' : ata_identify_drive base control b4 m line x s = Ok (Some bd) s' ->
  drive_placed base control m line x (device_struct bd) /\ device_type bd = ATA_DEVICE /\
  device_class bd = (if has_flag ATA_FLAG_ATAPI (device_struct bd) then CD_DRIVE else HARD_DISK_DRIVE).
Proof.
  unfold ata_identify_drive. intros Hrun. apply bind_inv in Hrun as ([c|] & s1 & Hsend & Hrun); [|discriminate Hrun].
  apply send_identify_placed in Hsend as (_ & _ & _ & Hc & Hm). cbn [controller flags] in Hc, Hm.
  repeat (apply bind_inv in Hrun as (? & ? & _ & Hrun)). injection Hrun as <- _. split; [|done].
  do 3 (split; [done|]). split; [exact Hc|]. intros ->. rewrite has_flag_bit. cbn [flags]. apply lor_keeps_bit0, Hm. rewrite Z.lor_comm.
  by apply (lor_keeps_bit0 1).
Qed.
(** A drive of an IDE controller, on one of the two lines. *)
Definition drive_of (l : list pci_device_t) (bd : block_device_t) : Prop :=
  controller (device_struct bd) ∈ l /\ class_id (controller (device_struct bd)) = 1 /\ subclass_id (controller (device_struct bd)) = 1 /\
  (irq (device_struct bd) = 14 \/ irq (device_struct bd) = 15) /\
  device_class bd = (if has_flag ATA_FLAG_ATAPI (device_struct bd) then CD_DRIVE else HARD_DISK_DRIVE).
Definition devices_ok (l : list pci_device_t) (s : detect) : Prop := (length (block_devices s) <= 10)%nat /\ Forall (drive_of l) (block_devices s).

Lemma devices_ok_keeps {A} (c : M detect A) l s a s' : keeps_devices c -> devices_ok l s -> c s = Ok a s' -> devices_ok l s'.
Proof. intros Hk Hd Hrun. unfold devices_ok. by rewrite (Hk _ _ _ Hrun). Qed.
(** One of the four probes of a controller. *)
Lemma probe_ok l base control b4 m line x s s' : x ∈ l -> class_id x = 1 -> subclass_id x = 1 -> line = 14 \/ line = 15 -> devices_ok l s ->
  (d <- ata_identify_drive base control b4 m line x ;; add_device d) s = Ok tt s' -> devices_ok l s'.
Proof.
  intros Hx Hc Hsc Hl Hok Hrun. apply bind_inv in Hrun as (d & s1 & H1 & Hrun).
  pose proof (devices_ok_keeps _ _ _ _ _ (keeps_identify base control b4 m line x) Hok H1) as [Hn Hf].
  unfold add_device in Hrun. destruct d as [bd|]; [|by injection Hrun as <-]. destruct (Nat.ltb_spec (length (block_devices s1)) 10); [|discriminate Hrun].
  injection Hrun as <-. apply identify_placed in H1 as ((_ & _ & Hi & Hct & _) & _ & Hcl).
  split; cbn [block_devices]; [rewrite length_app; cbn; lia|]. apply Forall_app_2; [done|]. apply Forall_singleton. unfold drive_of. rewrite Hct, Hi. done.
Qed.
Lemma bind_probe l base control b4 m line x (k : M detect unit) s s' :
  x ∈ l -> class_id x = 1 -> subclass_id x = 1 -> line = 14 \/ line = 15 -> devices_ok l s ->
  (forall s1, devices_ok l s1 -> k s1 = Ok tt s' -> devices_ok l s') ->
  (d <- ata_identify_drive base control b4 m line x ;; add_device d ;;; k) s = Ok tt s' -> devices_ok l s'.
Proof.
  intros Hx Hc Hsc Hl Hok Hk Hrun. apply bind_inv in Hrun as (d & s1 & H1 & Hrun). apply bind_inv in Hrun as ([] & s2 & H2 & Hrun).
  eapply Hk; [|exact Hrun]. eapply (probe_ok l base control b4 m line x s); try done. by rewrite (bind_ok _ _ _ _ _ H1).
Qed.
Lemma install_controller_ok l x s s' : x ∈ l -> devices_ok l s -> install_controller x s = Ok tt s' -> devices_ok l s'.
Proof.
  intros Hx Hok Hrun. unfold install_controller in Hrun. destruct (Z.eqb_spec (class_id x) 1) as [Hc|]; [|by injection Hrun as <-].
  do 5 (apply bind_inv in Hrun as (? & ? & H1 & Hrun); eapply devices_ok_keeps in Hok; [|apply keeps_lift|exact H1]; clear H1).
  destruct (Z.eqb_spec (subclass_id x) 1) as [Hsc|]; [|by injection Hrun as <-].
  eapply bind_probe; [exact Hx|exact Hc|exact Hsc|by left|exact Hok| |exact Hrun]. clear Hrun Hok. intros ? Hok Hrun.
  eapply bind_probe; [exact Hx|exact Hc|exact Hsc|by left|exact Hok| |exact Hrun]. clear Hrun Hok. intros ? Hok Hrun.
  eapply bind_probe; [exact Hx|exact Hc|exact Hsc|by right|exact Hok| |exact Hrun]. clear Hrun Hok. intros ? Hok Hrun.
  eapply probe_ok; [exact Hx|exact Hc|exact Hsc|by right|exact Hok|exact Hrun].
Qed.
(** [ata_install] fills the array with drives of IDE controllers of the PCI list, at
    most ten. *)
Lemma ata_install_ok s s' : block_devices s = [] -> ata_install s = Ok tt s' -> devices_ok (pci_found (d_pci s)) s'.
Proof.
  intros Hb Hrun. unfold ata_install in Hrun. apply bind_inv in Hrun as (s0 & s1 & H0 & Hrun). injection H0 as <- <-.
  assert (devices_ok (pci_found (d_pci s)) s) as Hok by (split; rewrite Hb; [cbn; lia|constructor]).
  assert (forall l s1 s2, l ⊆ pci_found (d_pci s) -> devices_ok (pci_found (d_pci s)) s1 -> install_all l s1 = Ok tt s2 -> devices_ok (pci_found (d_pci s)) s2) as Hall.
  { induction l as [|x r IH]; intros s1 s2 Hl Hok1 H1; cbn in H1; [by injection H1 as <-|].
    apply bind_inv in H1 as ([] & s3 & H3 & H1). eapply IH; [|eapply install_controller_ok; [|exact Hok1|exact H3]|exact H1]; set_solver. }
  by eapply Hall.
Qed.
(** The eleventh drive is written behind the array. *)
Lemma eleventh_drive s bd : length (block_devices s) = 10%nat -> add_device (Some bd) s = Fault.
Proof. intros Hl. unfold add_device. by rewrite Hl. Qed.
End Detect.

(** ** Witnesses *)

Definition demo_drive (f : Z) : ata_device_t := mk_ata blank_device 0 0 (mk_prd 0 0 0) 496 1014 0 0 14 f.

(** ** What detection shows *)

(** The flag for 48-bit addresses is taken from the bits that say LBA and DMA: a
    drive with 28-bit addresses (word 49 bit 9 set, word 83 zero) gets it. *)
Definition lba28_words : list Z := replicate 49 0 ++ [512] ++ replicate 206 0.
Lemma lba48_flag_wrong : has_flag ATA_FLAG_LBA48 (identified (demo_drive 1) lba28_words) = true.
Proof. reflexivity. Qed.
(** The modes of Ultra DMA are word 88; the structure has them at word 89, because
    the compiler aligns [command_set_active0]. *)
Lemma udma_field_shifted id : ultra_dma_support id = nth 89 id 0 mod 256 /\ ultra_dma_active id = nth 89 id 0 / 256 mod 256.
Proof. unfold ultra_dma_support, ultra_dma_active, id_u8. cbn [Nat.even]. rewrite Z.div_1_r. done. Qed.
(** The flags of a fresh structure are not cleared: what [kmalloc] left there can
    make a hard disk a CD drive. *)
Lemma stale_flags_atapi : has_flag ATA_FLAG_ATAPI (demo_drive (u8 (Z.lor 4 ATA_FLAG_MASTER))) = true.
Proof. reflexivity. Qed.
