(* ===== verification/Boot.v ===== *)
(** The start of the kernel (args.c, the context in ckernel.c): the words of the
    command line, whether this is a live or an installed system, and the drive that
    holds the root directory. *)

From S2P Require Import Prelude Errors Mem Strings Ports Pci Ata.

Definition KERNEL_MODE_LIVE : Z := 1.
Definition KERNEL_MODE_INSTALLED : Z := 2.
Record args : Type := mk_args { alive : bool; aboot_hint_present : Z; asilent : bool }.
Definition no_args : args := mk_args false 0 false.

(** [live] and [silent] are the addresses of the two literals; 45 is the dash. *)
Fixpoint args_loop (n fuel : nat) (m : mem) (live silent ndash : Z) (a : args) : option args :=
  match n with
  | O => None
  | S k =>
    if ndash =? 0 then Some a else
    match strcfirst fuel m live ndash, strcfirst fuel m silent ndash with
    | Some x, Some y =>
      let a := if x =? 5 then mk_args true KERNEL_MODE_LIVE (asilent a) else a in
      let a := if y =? 7 then mk_args (alive a) (aboot_hint_present a) true else a in
      match strchr fuel m (ndash + 1) 45 with Some nd => args_loop k fuel m live silent nd a | None => None end
    | _, _ => None
    end
  end.
Definition args_parse (fuel : nat) (m : mem) (live silent cmdline : Z) (a : args) : option args :=
  if load8 m cmdline =? 0 then Some a else
  match strchr fuel m cmdline 45 with Some nd => args_loop fuel fuel m live silent nd a | None => None end.

(** [mode] in [kmain]: the hint of the command line, or a guess from the number of
    the BIOS drive; [flags] and [boot_device] are fields of the multiboot structure. *)
Definition kernel_mode {S} (hint flags boot_device : Z) : M S Z :=
  if negb (hint =? 0) then ret hint else
  let d := Z.shiftr boot_device 24 in
  let mode :=
    if Z.land flags 2 =? 0 then 0 else
    if (d =? 0) || (d =? 1) then 0 else
    if (d =? 128) || (d =? 129) then KERNEL_MODE_INSTALLED else
    if d =? 224 then KERNEL_MODE_LIVE else
    if d =? 160 then KERNEL_MODE_LIVE else 0 in
  if mode =? 0 then fatal_kernel_error "Could not guess kernel context..." else ret mode.

(** The loop over [block_devices], whose classes are [classes]; [drive] is an
    [int8_t]. *)
Fixpoint find_drive {S} (n : nat) (msg : string) (class : Z) (classes : list Z) (drive : Z) : M S Z :=
  match n with
  | O => nofuel
  | Datatypes.S k =>
    match classes !! Z.to_nat (u8 drive) with
    | None => fault
    | Some c =>
      if c =? class then ret drive else
      let drive := s8 (drive + 1) in
      if drive =? Z.of_nat (length classes) then fatal_kernel_error msg else find_drive k msg class classes drive
    end
  end.
(** The drive and the partition of the root directory; -1 for both without a
    mode. *)
Definition kernel_root {S} (mode : Z) (classes : list Z) : M S (Z * Z) :=
  if mode =? KERNEL_MODE_LIVE then
    d <- find_drive 128 "Could not find any CD Drive..." CD_DRIVE classes 0 ;; ret (d, 0)
  else if mode =? KERNEL_MODE_INSTALLED then
    d <- find_drive 128 "Could not find any Hard Disk..." HARD_DISK_DRIVE classes 0 ;; ret (d, 1)
  else ret (-1, -1).

(** What [kmain] does up to the mount of the root directory: the command line when
    the boot loader gives one, the mode, the drive. *)
Definition kernel_context {S} (fuel : nat) (m : mem) (live silent cmdline flags boot_device : Z) (classes : list Z) : M S (Z * Z) :=
  match (if Z.land flags 4 =? 0 then Some no_args else args_parse fuel m live silent cmdline no_args) with
  | None => nofuel
  | Some a => mode <- kernel_mode (aboot_hint_present a) flags boot_device ;; kernel_root mode classes
  end.

(** What [kmain] calls of the other components, by the names of the source; the
    state is that of the whole kernel. [p_classes]: the classes of the entries of
    [block_devices]; [p_mount_volume] says whether the root directory was mounted. *)
Record parts (S : Type) : Type := mk_parts {
  p_vga_setup : M S unit; p_gdt_install : Z -> M S unit; p_idt_install : M S unit; p_cpu_detect : M S unit;
  p_kheap_install : M S unit; p_physmem_get : Z -> M S unit; p_install_page_heap : M S unit; p_finish_paging : M S unit; p_kvmheap_install : M S unit;
  p_pic_install : M S unit; p_pci_install : M S unit; p_install_block_devices : M S unit;
  p_process_init : M S unit; p_scheduler_start : M S unit;
  p_classes : S -> list Z; p_mount_volume : Z -> Z -> M S bool;
  p_devfs_init : M S unit; p_ttys_init : M S unit; p_vga_text_tty_switch : M S unit;
  p_spawn_init_process : M S Z; p_remove_kernel_process : M S unit }.
Arguments p_vga_setup {S}. Arguments p_gdt_install {S}. Arguments p_idt_install {S}. Arguments p_cpu_detect {S}. Arguments p_kheap_install {S}.
Arguments p_physmem_get {S}. Arguments p_install_page_heap {S}. Arguments p_finish_paging {S}. Arguments p_kvmheap_install {S}. Arguments p_pic_install {S}.
Arguments p_pci_install {S}. Arguments p_install_block_devices {S}. Arguments p_process_init {S}. Arguments p_scheduler_start {S}. Arguments p_classes {S}.
Arguments p_mount_volume {S}. Arguments p_devfs_init {S}. Arguments p_ttys_init {S}. Arguments p_vga_text_tty_switch {S}. Arguments p_spawn_init_process {S}.
Arguments p_remove_kernel_process {S}.

Section Kmain.
Context {S : Type} (p : parts S).
Definition init_parts (mbt stack_pointer : Z) : M S unit :=
  p_vga_setup p ;;;
  p_gdt_install p stack_pointer ;;; p_idt_install p ;;; p_cpu_detect p ;;;
  p_kheap_install p ;;; p_physmem_get p mbt ;;; p_install_page_heap p ;;; p_finish_paging p ;;; p_kvmheap_install p ;;;
  p_pic_install p ;;;
  p_pci_install p ;;; p_install_block_devices p ;;;
  p_process_init p ;;; p_scheduler_start p.
(** The entries of [block_devices] that are counted are not null. *)
Definition run_root (root : Z * Z) : M S unit :=
  classes <- gets (p_classes p) ;;
  (match classes !! Z.to_nat (u8 root.1) with Some _ => ret tt | None => fault end) ;;;
  mounted <- p_mount_volume p (u8 root.1) (u8 root.2) ;;
  (if mounted : bool then ret tt else fatal_kernel_error "Could not mount root directory.") ;;;
  p_devfs_init p ;;; p_ttys_init p ;;; p_vga_text_tty_switch p ;;;
  init <- p_spawn_init_process p ;;
  (if init =? ERROR_NONE then ret tt else fatal_kernel_error "Could not run init") ;;;
  p_remove_kernel_process p.
(** [flags], [cmdline] (with the base added) and [boot_device] are read from the
    multiboot structure at [mbt]; behind the end is the loop of [hlt]. *)
Definition kmain (fuel : nat) (m : mem) (live silent mbt stack_pointer cmdline flags boot_device : Z) : M S unit :=
  match (if Z.land flags 4 =? 0 then Some no_args else args_parse fuel m live silent cmdline no_args) with
  | None => nofuel
  | Some a =>
    init_parts mbt stack_pointer ;;;
    mode <- kernel_mode (aboot_hint_present a) flags boot_device ;;
    classes <- gets (p_classes p) ;;
    root <- kernel_root mode classes ;;
    run_root root
  end.

(** The context is looked for when the drives are known, and the root directory is
    mounted from there before the first process is started. *)
Lemma kmain_context fuel m live silent mbt sp cmdline flags boot_device s s1 root s2 :
  init_parts mbt sp s = Ok tt s1 ->
  kernel_context fuel m live silent cmdline flags boot_device (p_classes p s1) s1 = Ok root s2 ->
  kmain fuel m live silent mbt sp cmdline flags boot_device s = run_root root s2.
Proof.
  unfold kernel_context, kmain. intros Hi. destruct (if Z.land flags 4 =? 0 then _ else _) as [a|]; [|discriminate].
  rewrite (bind_ok _ _ _ _ _ Hi). unfold bind at 1 2. destruct (kernel_mode _ _ _ s1) as [mode s1'| | |] eqn:Em; try discriminate.
  assert (s1' = s1) as ->.
  { revert Em. unfold kernel_mode, ret, fatal_kernel_error. repeat case_match; congruence. }
  unfold gets, bind at 1 2. by intros ->.
Qed.
End Kmain.
(** The order of the calls: the heap before the maps of memory that are made of its
    blocks, these before the drives, the drives before the root directory, and
    processes only after that. *)
Definition traced (classes : list Z) : parts (list string) :=
  let call n : M (list string) unit := modify (fun l => l ++ [n]) in
  mk_parts _ (call "vga_setup") (fun _ => call "gdt_install") (call "idt_install") (call "cpu_detect") (call "kheap_install") (fun _ => call "physmem_get")
    (call "install_page_heap") (call "finish_paging") (call "kvmheap_install") (call "pic_install") (call "pci_install") (call "install_block_devices")
    (call "process_init") (call "scheduler_start") (fun _ => classes) (fun _ _ => call "mount_volume" ;;; ret true)
    (call "devfs_init") (call "ttys_init") (call "vga_text_tty_switch") (call "spawn_init_process" ;;; ret ERROR_NONE) (call "scheduler_remove_process").
Lemma kmain_order :
  kmain (traced [HARD_DISK_DRIVE]) 20 (fun _ => 0) 0 0 0 0 0 2 2147483648 [] =
  Ok tt ["vga_setup"; "gdt_install"; "idt_install"; "cpu_detect"; "kheap_install"; "physmem_get"; "install_page_heap"; "finish_paging"; "kvmheap_install";
    "pic_install"; "pci_install"; "install_block_devices"; "process_init"; "scheduler_start"; "mount_volume"; "devfs_init"; "ttys_init"; "vga_text_tty_switch";
    "spawn_init_process"; "scheduler_remove_process"]%string.
Proof. reflexivity. Qed.

(** ** The command line *)

Definition is_prefix (w cs : list Z) : bool := common_prefix w cs =? zlen w.
(** The word occurs somewhere. *)
Fixpoint has_word (w cs : list Z) : bool := is_prefix w cs || match cs with [] => false | _ :: r => has_word w r end.
Definition live_word : list Z := [45; 108; 105; 118; 101].
Definition silent_word : list Z := [45; 115; 105; 108; 101; 110; 116].

Lemma has_word_infix w cs : has_word w cs = true <-> exists pre post, cs = pre ++ w ++ post.
Proof.
  assert (forall cs, is_prefix w cs = true <-> exists post, cs = w ++ post) as Hp.
  { unfold is_prefix. clear cs. induction w as [|x w IH]; intros cs; [split; [by exists cs|done]|].
    destruct cs as [|c cs]; cbn [common_prefix].
    - split; [intros E; apply Z.eqb_eq in E; cbn [length] in E; lia|intros [post [=]]].
    - destruct (Z.eqb_spec x c) as [->|Hn].
      + replace (1 + common_prefix w cs =? zlen (c :: w)) with (common_prefix w cs =? zlen w); [|cbn [length]; destruct (Z.eqb_spec (common_prefix w cs) (zlen w)), (Z.eqb_spec (1 + common_prefix w cs) (Z.of_nat (S (length w)))); (done || lia)].
        rewrite IH. split; intros [post Hq]; exists post; [by rewrite Hq|by injection Hq].
      + split; [intros E; apply Z.eqb_eq in E; cbn [length] in E; lia|intros [post [= ? _]]; congruence]. }
  induction cs as [|c cs IH]; cbn [has_word].
  - rewrite orb_false_r, Hp. split; [intros [post Hq]; by exists [], post|]. intros (pre & post & Hq). destruct pre; [by exists post|discriminate Hq].
  - rewrite orb_true_iff, Hp, IH. split.
    + intros [[post Hq]|(pre & post & ->)]; [by exists [], post|by exists (c :: pre), post].
    + intros ([|x pre] & post & Hq); [left; by exists post|right; injection Hq as _ ->; by exists pre, post].
Qed.

Lemma has_word_dash w cs : has_word (45 :: w) cs =
  match index_of 45 cs with Some i => is_prefix (45 :: w) (drop i cs) || has_word (45 :: w) (drop (S i) cs) | None => false end.
Proof.
  induction cs as [|c cs IH]; [cbn [has_word index_of]; rewrite orb_false_r; apply Z.eqb_neq; cbn [common_prefix length]; lia|].
  cbn [index_of has_word]. destruct (Z.eqb_spec c 45) as [->|Hn]; [done|].
  assert (is_prefix (45 :: w) (c :: cs) = false) as ->.
  { unfold is_prefix. cbn [common_prefix]. rewrite (proj2 (Z.eqb_neq 45 c)) by congruence. apply Z.eqb_neq. cbn [length]. lia. }
  rewrite IH. by destruct (index_of 45 cs).
Qed.

Section Args.
Context (m : mem) (live silent : Z) (live_ok : cstr m live live_word) (silent_ok : cstr m silent silent_word).

Definition parsed (cs : list Z) (a : args) : args :=
  mk_args (alive a || has_word live_word cs) (if has_word live_word cs then KERNEL_MODE_LIVE else aboot_hint_present a) (asilent a || has_word silent_word cs).
Lemma word_at fuel w a ds p : cstr m p w -> cstr m a ds -> zlen w < 65536 -> (length w < fuel)%nat ->
  exists x, strcfirst fuel m p a = Some x /\ (x =? zlen w) = is_prefix w ds.
Proof.
  intros Hw Ha Hl Hf. exists (u16 (common_prefix w ds)). split; [by apply strcfirst_ok|].
  pose proof (common_prefix_range w ds). by rewrite u16_id by lia.
Qed.
Lemma args_loop_ok n fuel cs a st : cstr m a cs -> 0 < a -> (length cs < n)%nat -> (length cs < fuel)%nat -> (7 < fuel)%nat ->
  args_loop n fuel m live silent (match index_of 45 cs with Some i => a + Z.of_nat i | None => 0 end) st = Some (parsed cs st).
Proof.
  revert cs a st. induction n as [|n IH]; intros cs a st Hc Ha Hn Hf H7; [lia|]. cbn [args_loop]. unfold parsed.
  unfold live_word, silent_word. rewrite !has_word_dash. fold live_word silent_word. destruct (index_of 45 cs) as [i|] eqn:Ei.
  2:{ cbn [Z.eqb]. rewrite !orb_false_r. by destruct st. }
  destruct (index_of_split _ _ _ Ei) as [_ Hi]. rewrite (proj2 (Z.eqb_neq (a + Z.of_nat i) 0)) by lia.
  pose proof (cstr_drop m a cs i Hc ltac:(lia)) as Hd.
  destruct (word_at fuel live_word _ _ live live_ok Hd) as (x & -> & Hx); [done|cbn; lia|].
  destruct (word_at fuel silent_word _ _ silent silent_ok Hd) as (y & -> & Hy); [done|cbn; lia|].
  change (zlen live_word) with 5 in Hx. change (zlen silent_word) with 7 in Hy. rewrite Hx, Hy.
  pose proof (cstr_drop m a cs (S i) Hc ltac:(lia)) as Hd1. replace (a + Z.of_nat (S i)) with (a + Z.of_nat i + 1) in Hd1 by lia.
  pose proof (length_drop cs (S i)) as Hlen.
  rewrite (strchr_ok fuel m (a + Z.of_nat i + 1) 45 (drop (S i) cs)) by (try done; lia).
  rewrite (IH (drop (S i) cs)) by (try done; lia). unfold parsed.
  destruct (is_prefix live_word (drop i cs)), (is_prefix silent_word (drop i cs)), (has_word live_word (drop (S i) cs)), (has_word silent_word (drop (S i) cs)), st as [[] h []]; done.
Qed.
Lemma args_parse_ok fuel cs a : cstr m a cs -> 0 < a -> (length cs < fuel)%nat -> (7 < fuel)%nat ->
  args_parse fuel m live silent a no_args = Some (parsed cs no_args).
Proof.
  intros Hc Ha Hf H7. unfold args_parse. destruct cs as [|c cs]; [cbn in Hc; by rewrite Hc|].
  pose proof Hc as Hc'. cbn in Hc'. destruct Hc' as (-> & Hr & _). rewrite (proj2 (Z.eqb_neq c 0)) by lia.
  rewrite (strchr_ok fuel m a 45 (c :: cs)) by (try done; lia). by apply args_loop_ok.
Qed.
End Args.

(** ** The root drive *)

Lemma find_drive_ok {S} n msg class classes i (s : S) : (i < length classes <= 127)%nat -> (length classes - i <= n)%nat ->
  find_drive n msg class classes (Z.of_nat i) s =
    match index_of class (drop i classes) with Some k => Ok (Z.of_nat (i + k)) s | None => Fatal msg end.
Proof.
  revert i. induction n as [|n IH]; intros i Hi Hn; [lia|]. cbn [find_drive]. rewrite u8_id, Nat2Z.id by lia.
  destruct (lookup_lt_is_Some_2 classes i ltac:(lia)) as [c Hc]. rewrite Hc, (drop_S _ _ _ Hc). cbn [index_of].
  destruct (Z.eqb_spec c class) as [->|Hne]; [by rewrite Nat.add_0_r|].
  assert (s8 (Z.of_nat i + 1) = Z.of_nat (Datatypes.S i)) as ->.
  { unfold s8. rewrite u8_id by lia. destruct (Z.ltb_spec (Z.of_nat i + 1) 128); lia. }
  destruct (Z.eqb_spec (Z.of_nat (Datatypes.S i)) (Z.of_nat (length classes))) as [E|E].
  - by rewrite drop_ge by lia.
  - rewrite IH by lia. destruct (index_of class (drop (Datatypes.S i) classes)); [|done]. do 2 f_equal. lia.
Qed.

(** The mode, and where the root directory is in it. *)
Definition expected_mode (live : bool) (flags boot_device : Z) : option Z :=
  if live then Some KERNEL_MODE_LIVE else
  if Z.testbit flags 1 then
    if bool_decide (boot_device / 16777216 = 128 \/ boot_device / 16777216 = 129) then Some KERNEL_MODE_INSTALLED else
    if bool_decide (boot_device / 16777216 = 224 \/ boot_device / 16777216 = 160) then Some KERNEL_MODE_LIVE else None
  else None.
Definition root_class (mode : Z) : Z := if mode =? KERNEL_MODE_LIVE then CD_DRIVE else HARD_DISK_DRIVE.
Definition root_partition (mode : Z) : Z := if mode =? KERNEL_MODE_LIVE then 0 else 1.

Lemma kernel_mode_ok {S} (live : bool) flags boot_device (s : S) :
  kernel_mode (if live then KERNEL_MODE_LIVE else 0) flags boot_device s =
    match expected_mode live flags boot_device with Some mode => Ok mode s | None => Fatal "Could not guess kernel context..." end.
Proof.
  unfold kernel_mode, expected_mode, KERNEL_MODE_LIVE, KERNEL_MODE_INSTALLED. destruct live; [done|]. cbn [Z.eqb negb]. rewrite (land_mask_bit _ 2 1) by done. destruct (Z.testbit flags 1); [|done].
  cbn [negb]. rewrite Z.shiftr_div_pow2 by lia. change (2 ^ 24) with 16777216. generalize (boot_device / 16777216) as d. intros d.
  repeat case_bool_decide; destruct (Z.eqb_spec d 0), (Z.eqb_spec d 1), (Z.eqb_spec d 128), (Z.eqb_spec d 129), (Z.eqb_spec d 224), (Z.eqb_spec d 160); (done || lia).
Qed.

(** C40: the root directory is on the first CD drive, unpartitioned, for a live
    system and on the first partition of the first hard disk for an installed one;
    live is what [-live] anywhere on the command line says, and otherwise the BIOS
    drive that was booted from decides. Without such a drive, or a mode, the kernel
    stops. *)
Theorem kernel_context_correct {S} fuel m live silent cmdline cs flags boot_device classes (s : S) :
  cstr m live live_word -> cstr m silent silent_word -> cstr m cmdline cs -> 0 < cmdline ->
  (length cs < fuel)%nat -> (7 < fuel)%nat -> (0 < length classes <= 127)%nat ->
  kernel_context fuel m live silent cmdline flags boot_device classes s =
    match expected_mode (Z.testbit flags 2 && has_word live_word cs) flags boot_device with
    | None => Fatal "Could not guess kernel context..."
    | Some mode =>
      match index_of (root_class mode) classes with
      | Some i => Ok (Z.of_nat i, root_partition mode) s
      | None => Fatal (if mode =? KERNEL_MODE_LIVE then "Could not find any CD Drive..." else "Could not find any Hard Disk...")
      end
    end.
Proof.
  intros Hl Hsi Hc Hp Hf H7 Hn. unfold kernel_context. rewrite (args_parse_ok m live silent Hl Hsi fuel cs cmdline) by done.
  rewrite (land_mask_bit _ 4 2) by done.
  assert (exists a, (if negb (Z.testbit flags 2) then Some no_args else Some (parsed cs no_args)) = Some a /\
    aboot_hint_present a = if Z.testbit flags 2 && has_word live_word cs then KERNEL_MODE_LIVE else 0) as (a & -> & ->).
  { destruct (Z.testbit flags 2); eexists; split; reflexivity. }
  unfold bind. rewrite kernel_mode_ok.
  destruct (expected_mode _ flags boot_device) as [mode|] eqn:Em; [|done].
  assert (mode = KERNEL_MODE_LIVE \/ mode = KERNEL_MODE_INSTALLED) as Hm.
  { revert Em. unfold expected_mode. destruct (Z.testbit flags 2 && _), (Z.testbit flags 1); repeat case_bool_decide; intros [= <-]; auto. }
  unfold kernel_root, bind, root_class, root_partition.
  pose proof (fun msg class => find_drive_ok 128 msg class classes 0 s ltac:(lia) ltac:(lia)) as Hfind. rewrite drop_0 in Hfind.
  change (Z.of_nat 0) with 0 in Hfind.
  destruct Hm as [-> | ->]; cbn [Z.eqb Pos.eqb KERNEL_MODE_LIVE KERNEL_MODE_INSTALLED]; rewrite Hfind; by destruct (index_of _ classes).
Qed.

Definition demo_line : mem := fun x =>
  if x <? 200 then mem_of 100 live_word x else if x <? 300 then mem_of 200 silent_word x else mem_of 300 [118; 107; 32; 45; 108; 105; 118; 101] x.
Lemma kernel_context_correct_witness :
  kernel_context 20 demo_line 100 200 300 6 2147483648 [HARD_DISK_DRIVE; CD_DRIVE] tt = Ok (1, 0) tt.
Proof.
  rewrite (kernel_context_correct 20 demo_line 100 200 300 [118; 107; 32; 45; 108; 105; 118; 101]).
  - reflexivity.
  - vm_compute. intuition discriminate.
  - vm_compute. intuition discriminate.
  - vm_compute. intuition discriminate.
  - lia.
  - cbn. lia.
  - lia.
  - cbn. lia.
Defined.

(** Without any drive the first pointer of the array is used before the count is
    looked at. *)
Lemma no_drive_faults {S} (s : S) : kernel_root KERNEL_MODE_LIVE [] s = Fault.
Proof. done. Qed.
