(* ===== verification/VideoMode.v ===== *)
(** Video modes (video/video.c, the register table and the cursor switches of
    video/vga_text.c): the registers of the VGA controllers, written through ports.

    A controller has an index port and a data port: a write to the data port sets
    the register that the index port was last set to. The attribute controller takes
    both through one port, in turns. *)

From S2P Require Import Prelude Ports Vga.

Definition VGA_AC_INDEX : Z := 960.
Definition VGA_AC_WRITE : Z := 960.
Definition VGA_MISC_WRITE : Z := 962.
Definition VGA_SEQ_INDEX : Z := 964.
Definition VGA_SEQ_DATA : Z := 965.
Definition VGA_GC_INDEX : Z := 974.
Definition VGA_GC_DATA : Z := 975.
Definition VGA_CRTC_INDEX : Z := 980.
Definition VGA_CRTC_DATA : Z := 981.
Definition VGA_INSTAT_READ : Z := 986.
Definition VGA_NUM_SEQ_REGS : nat := 5.
Definition VGA_NUM_CRTC_REGS : nat := 25.
Definition VGA_NUM_GC_REGS : nat := 9.
Definition VGA_NUM_AC_REGS : nat := 21.

Definition g_80x25_text : list Z :=
  [103;
   3; 0; 3; 0; 2;
   95; 79; 80; 130; 85; 129; 191; 31; 0; 79; 13; 14; 0; 0; 0; 80; 156; 14; 143; 40; 31; 150; 185; 163; 255;
   0; 0; 0; 0; 0; 16; 14; 0; 255;
   0; 1; 2; 3; 4; 5; 20; 7; 56; 57; 58; 59; 60; 61; 62; 63; 12; 0; 15; 8; 0].

Section Video.
Context {S : Type} (io : port_state S) (dev : history -> width -> Z -> Z).
Notation outb := (outb io). Notation inb := (inb io dev).

(** [for(i = 0; i < n; i++)]: register [i] gets the next byte of the table; the
    bytes that are left. *)
Fixpoint write_indexed (n : nat) (i : Z) (index data : Z) (regs : list Z) : M S (list Z) :=
  match n with
  | O => ret regs
  | Datatypes.S k =>
    match regs with
    | [] => fault
    | r :: regs => outb index i ;;; outb data r ;;; write_indexed k (i + 1) index data regs
    end
  end.
Fixpoint write_attributes (n : nat) (i : Z) (regs : list Z) : M S (list Z) :=
  match n with
  | O => ret regs
  | Datatypes.S k =>
    match regs with
    | [] => fault
    | r :: regs => inb VGA_INSTAT_READ ;;; outb VGA_AC_INDEX i ;;; outb VGA_AC_WRITE r ;;; write_attributes k (i + 1) regs
    end
  end.
Definition vga_write_regs (regs : list Z) : M S unit :=
  match regs with
  | [] => fault
  | misc :: regs =>
    outb VGA_MISC_WRITE misc ;;;
    regs <- write_indexed VGA_NUM_SEQ_REGS 0 VGA_SEQ_INDEX VGA_SEQ_DATA regs ;;
    outb VGA_CRTC_INDEX 3 ;;;
    v <- inb VGA_CRTC_DATA ;;
    outb VGA_CRTC_DATA (Z.lor v 128) ;;;
    outb VGA_CRTC_INDEX 17 ;;;
    v <- inb VGA_CRTC_DATA ;;
    outb VGA_CRTC_DATA (Z.ldiff v 128) ;;;
    let regs := alter (fun r => u8 (Z.lor r 128)) 3%nat regs in
    let regs := alter (fun r => Z.ldiff r 128) 17%nat regs in
    regs <- write_indexed VGA_NUM_CRTC_REGS 0 VGA_CRTC_INDEX VGA_CRTC_DATA regs ;;
    regs <- write_indexed VGA_NUM_GC_REGS 0 VGA_GC_INDEX VGA_GC_DATA regs ;;
    regs <- write_attributes VGA_NUM_AC_REGS 0 regs ;;
    inb VGA_INSTAT_READ ;;;
    outb VGA_AC_INDEX 32
  end.
(** The mode before and after. *)
Definition set_video_mode (current video_mode : Z) : M S Z :=
  if current =? video_mode then ret current else
  if video_mode =? VIDEO_MODE_VGA_TEXT then vga_write_regs g_80x25_text ;;; ret video_mode else ret current.

Definition vga_text_disable_cursor : M S unit := outb 980 10 ;;; outb 981 63.
Definition vga_text_enable_cursor : M S unit := outb 980 10 ;;; outb 981 12.
End Video.

(** ** What the controllers hold *)

(** The last value of register [i] of a controller: [index] is what was last written
    to its index port, looking from the oldest event on. *)
Fixpoint register (ip dp i : Z) (h : history) (index value : option Z) : option Z :=
  match h with
  | [] => value
  | Out _ p v :: r =>
      if p =? ip then register ip dp i r (Some v) value
      else if p =? dp then register ip dp i r index (if decide (index = Some i) then Some v else value)
      else register ip dp i r index value
  | In _ _ :: r => register ip dp i r index value
  end.
Definition reg_holds (ip dp : Z) (h : history) (i : Z) : option Z := register ip dp i (rev h) None None.
Definition controller_regs (ip dp : Z) (n : nat) (h : history) : list (option Z) := map (fun i => reg_holds ip dp h (Z.of_nat i)) (seq 0 n).
(** The bytes that went to the attribute controller, in order. *)
Definition attributes (h : history) : list Z := rev (writes VGA_AC_INDEX h).

(** Setting the text mode leaves each register with its entry of the table,
    whatever the controller answered: the bits that lock the CRT controller are
    clear and the entries have them already; the attribute registers are written in
    order and the screen is switched on. *)
Lemma set_text_mode_ok dev current : current <> VIDEO_MODE_VGA_TEXT ->
  exists h, set_video_mode bare_history dev current VIDEO_MODE_VGA_TEXT [] = Ok VIDEO_MODE_VGA_TEXT h /\
    writes VGA_MISC_WRITE h = [103] /\
    controller_regs VGA_SEQ_INDEX VGA_SEQ_DATA 5 h = map Some (take 5 (drop 1 g_80x25_text)) /\
    controller_regs VGA_CRTC_INDEX VGA_CRTC_DATA 25 h = map Some (take 25 (drop 6 g_80x25_text)) /\
    controller_regs VGA_GC_INDEX VGA_GC_DATA 9 h = map Some (take 9 (drop 31 g_80x25_text)) /\
    attributes h = concat (imap (fun i v => [Z.of_nat i; v]) (drop 40 g_80x25_text)) ++ [32].
Proof.
  intros Hc. unfold set_video_mode. rewrite (proj2 (Z.eqb_neq _ _) Hc). rewrite Z.eqb_refl.
  eexists. split; [reflexivity|]. split; [reflexivity|]. split; [reflexivity|]. split; [reflexivity|]. split; reflexivity.
Qed.
(** The cursor is off when bit 5 of register 10 is set. *)
Lemma cursor_switch : exists h1 h2, @vga_text_enable_cursor _ bare_history [] = Ok tt h1 /\ @vga_text_disable_cursor _ bare_history h1 = Ok tt h2 /\
  ((fun v => Z.testbit v 5) <$> reg_holds 980 981 h1 10) = Some false /\ ((fun v => Z.testbit v 5) <$> reg_holds 980 981 h2 10) = Some true.
Proof. eexists _, _. split; [reflexivity|]. split; [reflexivity|]. split; reflexivity. Qed.
