(* ===== verification/CpuTables.v ===== *)
(** The tables of the processor (cpu/gdt.c, cpu/idt.c, [cpu_features] of
    cpu/cpu.c).

    Segment descriptors and gates are records of the fields that the code fills
    in; how the processor reads them back is written down as it is documented.
    The addresses of the handlers are parameters. *)

From S2P Require Import Prelude.

(** ** Data *)

Record gdt_desc_t : Type := mk_gdt {
  lim0_15 : Z; base0_15 : Z; base16_23 : Z; acces : Z; lim16_19 : Z; other : Z; base24_31 : Z }.
Record idt_desc_t : Type := mk_idt { offset0_15 : Z; select : Z; gate_type : Z; offset16_31 : Z }.
(** The fields of [tss_entry_t] that are assigned; the others are 0. *)
Record tss_entry_t : Type := mk_tss { esp0 : Z; ss0 : Z; t_es : Z; t_cs : Z; t_ss : Z; t_ds : Z; t_fs : Z; t_gs : Z }.
Record tables : Type := mk_tables {
  GDT_ENTRIES : list gdt_desc_t; gdt_limit : Z; TSS : tss_entry_t; IDT_ENTRIES : list idt_desc_t; idt_limit : Z }.

Definition GDT_SIZE : Z := 6.
Definition IDT_SIZE : Z := 255.
Definition sizeof_tss : Z := 104.
Definition null_gdt : gdt_desc_t := mk_gdt 0 0 0 0 0 0 0.
Definition null_idt : idt_desc_t := mk_idt 0 0 0 0.
(** The static arrays before anything is installed. *)
Definition boot_tables : tables :=
  mk_tables (replicate (Z.to_nat GDT_SIZE) null_gdt) 0 (mk_tss 0 0 0 0 0 0 0 0) (replicate (Z.to_nat IDT_SIZE) null_idt) 0.

(** ** Segments *)

(** The masks and shifts of [init_gdt_desc]. *)
Definition gdt_desc (base limite acc oth : Z) : gdt_desc_t :=
  mk_gdt (Z.land limite 65535) (Z.land base 65535) (Z.shiftr (Z.land base 16711680) 16) acc
    (Z.shiftr (Z.land limite 983040) 16) (Z.land oth 15) (Z.shiftr (Z.land base 4278190080) 24).
Definition init_gdt_desc (index base limite acc oth : Z) : M tables unit := fun s =>
  if index <? Z.of_nat (length (GDT_ENTRIES s))
  then Ok tt (mk_tables (<[Z.to_nat index := gdt_desc base limite acc oth]> (GDT_ENTRIES s)) (gdt_limit s) (TSS s) (IDT_ENTRIES s) (idt_limit s))
  else Fault.
Definition tss_write (tss_addr index ss esp : Z) : M tables unit :=
  init_gdt_desc index tss_addr sizeof_tss 233 0 ;;;
  modify (fun s => mk_tables (GDT_ENTRIES s) (gdt_limit s) (mk_tss esp ss 16 8 16 16 16 16) (IDT_ENTRIES s) (idt_limit s)).
Definition gdt_install (tss_addr stack_pointer : Z) : M tables unit :=
  modify (fun s => mk_tables (GDT_ENTRIES s) (GDT_SIZE * 8) (TSS s) (IDT_ENTRIES s) (idt_limit s)) ;;;
  init_gdt_desc 0 0 0 0 0 ;;;
  init_gdt_desc 1 0 4294967295 154 207 ;;;
  init_gdt_desc 2 0 4294967295 146 207 ;;;
  init_gdt_desc 3 0 4294967295 250 207 ;;;
  init_gdt_desc 4 0 4294967295 242 207 ;;;
  tss_write tss_addr 5 16 stack_pointer.

(** What the processor reads: base, limit in the unit of the granularity bit, and
    privilege level. *)
Definition seg_base (d : gdt_desc_t) : Z := base0_15 d + 65536 * base16_23 d + 16777216 * base24_31 d.
Definition seg_limit (d : gdt_desc_t) : Z := lim0_15 d + 65536 * lim16_19 d.
Definition seg_last (d : gdt_desc_t) : Z := if Z.testbit (other d) 3 then seg_limit d * 4096 + 4095 else seg_limit d.
Definition seg_dpl (d : gdt_desc_t) : Z := Z.land (Z.shiftr (acces d) 5) 3.
Definition seg_code (d : gdt_desc_t) : bool := Z.testbit (acces d) 3.

(** ** Interrupts *)

Definition idt_desc (sel offset type : Z) : idt_desc_t :=
  mk_idt (Z.land offset 65535) sel type (Z.shiftr (Z.land offset 4294901760) 16).
Definition init_idt_desc (index sel offset type : Z) : M tables unit := fun s =>
  if index <? Z.of_nat (length (IDT_ENTRIES s))
  then Ok tt (mk_tables (GDT_ENTRIES s) (gdt_limit s) (TSS s) (<[Z.to_nat index := idt_desc sel offset type]> (IDT_ENTRIES s)) (idt_limit s))
  else Fault.
(** A sequence of calls: index, handler, type. *)
Fixpoint init_gates (l : list (Z * Z * Z)) : M tables unit :=
  match l with
  | [] => ret tt
  | (i, off, ty) :: r => init_idt_desc i 8 off ty ;;; init_gates r
  end.

Section Idt.
(** The addresses of [_isr0] and so on, of [_irq1] and so on, of [schedule],
    [SYSCALL_H] and [unhandled_interrupt]. *)
Context (isr irq : Z -> Z) (schedule syscall_h unhandled_interrupt : Z).
Definition unhandled_gates : list (Z * Z * Z) := (fun i => (Z.of_nat i, unhandled_interrupt, 36352)) <$> seq 0 (Z.to_nat IDT_SIZE).
Definition exception_gates : list (Z * Z * Z) := (fun i => (Z.of_nat i, isr (Z.of_nat i), 36352)) <$> seq 0 32.
Definition irq_gates : list (Z * Z * Z) :=
  (32, schedule, 36352) :: ((fun i => (32 + Z.of_nat i, irq (Z.of_nat i), 36352)) <$> seq 1 20).
Definition idt_install : M tables unit :=
  init_gates unhandled_gates ;;;
  init_gates exception_gates ;;;
  init_gates irq_gates ;;;
  init_idt_desc 128 8 syscall_h 61184 ;;;
  modify (fun s => mk_tables (GDT_ENTRIES s) (gdt_limit s) (TSS s) (IDT_ENTRIES s) (IDT_SIZE * 8)).
End Idt.

(** What the processor reads of a gate: handler, present, privilege level from
    which an [int] instruction may use it, and whether it leaves interrupts on. *)
Definition gate_offset (d : idt_desc_t) : Z := offset0_15 d + 65536 * offset16_31 d.
Definition gate_present (d : idt_desc_t) : bool := Z.testbit (gate_type d) 15.
Definition gate_dpl (d : idt_desc_t) : Z := Z.land (Z.shiftr (gate_type d) 13) 3.
Definition gate_trap (d : idt_desc_t) : bool := Z.testbit (gate_type d) 8.

(** ** Features of the processor *)

Record cpu_info : Type := mk_cpu {
  CPU_VENDOR : list Z; CPU_MAX_CPUID : Z; cpu_f_edx : Z; cpu_f_ecx : Z; cpu_ef_ebx : Z; cpu_ef_ecx : Z;
  cpu_e_support : bool; cpu_max_ecpuid : Z; cpu_pse : bool }.
Record cpuid_regs : Type := mk_regs { r_eax : Z; r_ebx : Z; r_ecx : Z; r_edx : Z }.
(** The bytes of a register, lowest first, as it is stored. *)
Definition bytes4 (w : Z) : list Z := [w mod 256; w / 256 mod 256; w / 65536 mod 256; w / 16777216 mod 256].

Section Cpu.
(** The instruction [cpuid]: from [eax] and [ecx] to the four registers. *)
Context (cpuid : Z -> Z -> cpuid_regs).
(** The registers [ecx] that the code leaves as they are. *)
Context (ecx0 : Z).
Definition cpu_vendor_id (c : cpu_info) : cpu_info :=
  let r := cpuid 0 ecx0 in
  mk_cpu (bytes4 (r_ebx r) ++ bytes4 (r_edx r) ++ bytes4 (r_ecx r) ++ [0]) (r_eax r) (cpu_f_edx c) (cpu_f_ecx c) (cpu_ef_ebx c) (cpu_ef_ecx c)
    (cpu_e_support c) (cpu_max_ecpuid c) (cpu_pse c).
Definition cpu_features (c : cpu_info) : cpu_info :=
  if CPU_MAX_CPUID c =? 0 then c else
  let r := cpuid 1 ecx0 in
  let pse := negb (Z.shiftr (u32 (Z.shiftl (r_edx r) 28)) 31 =? 0) in
  let e7 := cpuid 7 0 in
  let '(ebx, ecx) := if 7 <=? CPU_MAX_CPUID c then (r_ebx e7, r_ecx e7) else (cpu_ef_ebx c, cpu_ef_ecx c) in
  let m := r_eax (cpuid 2147483648 ecx0) in
  mk_cpu (CPU_VENDOR c) (CPU_MAX_CPUID c) (r_edx r) (r_ecx r) ebx ecx (if 2147483648 <? m then true else cpu_e_support c) m pse.
Definition cpu_detect (c : cpu_info) : cpu_info := cpu_features (cpu_vendor_id c).

(** The page size extension is bit 3 of the features: [finish_paging] relies on
    it. *)
Lemma cpu_detect_pse c : r_eax (cpuid 0 ecx0) <> 0 -> cpu_pse (cpu_detect c) = Z.testbit (r_edx (cpuid 1 ecx0)) 3.
Proof.
  intros Hm. unfold cpu_detect, cpu_features. cbn [CPU_MAX_CPUID cpu_vendor_id]. rewrite (proj2 (Z.eqb_neq _ _) Hm).
  destruct (7 <=? _); cbn [cpu_pse]; generalize (r_edx (cpuid 1 ecx0)) as x; intros x;
    (rewrite Z.shiftr_div_pow2 by lia; rewrite Z.shiftl_mul_pow2 by lia; rewrite Z.testbit_eqb by lia; unfold u32; change (2 ^ 31) with 2147483648; change (2 ^ 28) with 268435456; change (2 ^ 3) with 8;
     apply Bool.eq_iff_eq_true; rewrite Bool.negb_true_iff, Z.eqb_neq, Z.eqb_eq; dlia).
Qed.
End Cpu.

(** ** Round trips *)

Lemma gdt_desc_fields base limite acc oth : is_u32 base ->
  seg_base (gdt_desc base limite acc oth) = base /\ seg_limit (gdt_desc base limite acc oth) = limite mod 1048576 /\
  acces (gdt_desc base limite acc oth) = acc /\ other (gdt_desc base limite acc oth) = oth mod 16.
Proof.
  intros Hb. unfold seg_base, seg_limit, gdt_desc. cbn [base0_15 base16_23 base24_31 lim0_15 lim16_19 acces other].
  change 65535 with (Z.ones 16). change 15 with (Z.ones 4). rewrite !Z.land_ones by lia.
  pose proof (land_field base 16 8 ltac:(lia) ltac:(lia)) as H1. pose proof (land_field base 24 8 ltac:(lia) ltac:(lia)) as H2.
  pose proof (land_field limite 16 4 ltac:(lia) ltac:(lia)) as H3.
  change (Z.shiftl (Z.ones 8) 16) with 16711680 in H1. change (Z.shiftl (Z.ones 8) 24) with 4278190080 in H2. change (Z.shiftl (Z.ones 4) 16) with 983040 in H3.
  rewrite H1, H2, H3. clear H1 H2 H3. unfold is_u32 in Hb. change (2 ^ 16) with 65536. change (2 ^ 24) with 16777216. change (2 ^ 8) with 256. change (2 ^ 4) with 16.
  split; [dlia|]. split; [dlia|]. done.
Qed.
Lemma idt_desc_fields sel offset type : is_u32 offset -> gate_offset (idt_desc sel offset type) = offset.
Proof.
  intros Ho. unfold gate_offset, idt_desc. cbn [offset0_15 offset16_31]. change 65535 with (Z.ones 16). rewrite Z.land_ones by lia.
  pose proof (land_field offset 16 16 ltac:(lia) ltac:(lia)) as H1. change (Z.shiftl (Z.ones 16) 16) with 4294901760 in H1. rewrite H1.
  unfold is_u32 in Ho. change (2 ^ 16) with 65536. dlia.
Qed.

(** ** The segments of the kernel *)

Lemma init_gdt_desc_ok i base limite acc oth s :
  0 <= i < Z.of_nat (length (GDT_ENTRIES s)) ->
  init_gdt_desc i base limite acc oth s =
    Ok tt (mk_tables (<[Z.to_nat i := gdt_desc base limite acc oth]> (GDT_ENTRIES s)) (gdt_limit s) (TSS s) (IDT_ENTRIES s) (idt_limit s)).
Proof. intros Hi. unfold init_gdt_desc. destruct (Z.ltb_spec i (Z.of_nat (length (GDT_ENTRIES s)))); [done|lia]. Qed.

(** A flat segment: it starts at 0 and ends with the last byte of the address
    space. *)
Definition flat (d : gdt_desc_t) : Prop := seg_base d = 0 /\ seg_last d = 4294967295.
Lemma flat_desc acc : flat (gdt_desc 0 4294967295 acc 207).
Proof. done. Qed.

(** [gdt_install] leaves the null descriptor, four flat segments (code and data,
    of the kernel and of users) and the descriptor of the task state segment,
    whose stack is the one it was given. *)
Lemma gdt_install_ok tss_addr stack_pointer s :
  length (GDT_ENTRIES s) = 6%nat -> is_u32 tss_addr ->
  exists t kc kd uc ud ts, gdt_install tss_addr stack_pointer s = Ok tt t /\
    GDT_ENTRIES t = [null_gdt; kc; kd; uc; ud; ts] /\
    (flat kc /\ seg_code kc = true /\ seg_dpl kc = 0) /\ (flat kd /\ seg_code kd = false /\ seg_dpl kd = 0) /\
    (flat uc /\ seg_code uc = true /\ seg_dpl uc = 3) /\ (flat ud /\ seg_code ud = false /\ seg_dpl ud = 3) /\
    seg_base ts = tss_addr /\ esp0 (TSS t) = stack_pointer /\ ss0 (TSS t) = 16 /\
    IDT_ENTRIES t = IDT_ENTRIES s /\ idt_limit t = idt_limit s.
Proof.
  intros Hl Ht. destruct s as [g gl ts id il]. cbn in Hl. destruct g as [|e0 [|e1 [|e2 [|e3 [|e4 [|e5 [|]]]]]]]; try discriminate Hl.
  pose proof (gdt_desc_fields tss_addr sizeof_tss 233 0 Ht) as (Hb & _).
  exists (mk_tables [gdt_desc 0 0 0 0; gdt_desc 0 4294967295 154 207; gdt_desc 0 4294967295 146 207; gdt_desc 0 4294967295 250 207;
    gdt_desc 0 4294967295 242 207; gdt_desc tss_addr sizeof_tss 233 0] 48 (mk_tss stack_pointer 16 16 8 16 16 16 16) id il).
  do 5 eexists. split; [cbv -[gdt_desc]; reflexivity|]. cbn [GDT_ENTRIES TSS IDT_ENTRIES idt_limit esp0 ss0]. split; [reflexivity|].
  split_and!; first [exact Hb | apply flat_desc | reflexivity].
Qed.

(** ** The interrupt table *)

(** The gate that a sequence of calls leaves for a vector: the last one. *)
Fixpoint last_gate (v : Z) (l : list (Z * Z * Z)) : option idt_desc_t :=
  match l with
  | [] => None
  | (i, off, ty) :: r =>
      match last_gate v r with Some d => Some d | None => if i =? v then Some (idt_desc 8 off ty) else None end
  end.
Definition gates_in (n : nat) (l : list (Z * Z * Z)) : Prop := Forall (fun g => 0 <= g.1.1 < Z.of_nat n) l.
Definition same_but_idt (s t : tables) : Prop :=
  GDT_ENTRIES t = GDT_ENTRIES s /\ gdt_limit t = gdt_limit s /\ TSS t = TSS s /\ length (IDT_ENTRIES t) = length (IDT_ENTRIES s).

Lemma init_gates_ok l s : gates_in (length (IDT_ENTRIES s)) l ->
  exists t, init_gates l s = Ok tt t /\ same_but_idt s t /\
    forall v, 0 <= v -> IDT_ENTRIES t !! Z.to_nat v =
      match last_gate v l with Some d => Some d | None => IDT_ENTRIES s !! Z.to_nat v end.
Proof.
  revert s. induction l as [|[[i off] ty] r IH]; intros s Hg; [by exists s|].
  apply Forall_cons in Hg as [Hi Hr]. cbn [fst] in Hi.
  cbn [init_gates]. unfold bind, init_idt_desc. destruct (Z.ltb_spec i (Z.of_nat (length (IDT_ENTRIES s)))); [|lia].
  edestruct (IH (mk_tables (GDT_ENTRIES s) (gdt_limit s) (TSS s) (<[Z.to_nat i:=idt_desc 8 off ty]> (IDT_ENTRIES s)) (idt_limit s)))
    as (t & Ht & (H1 & H2 & H3 & H4) & Hv); [cbn; by rewrite length_insert|].
  cbn in H1, H2, H3, H4, Hv. rewrite length_insert in H4. exists t. split; [exact Ht|]. split; [done|].
  intros v Hv0. rewrite (Hv v Hv0). cbn [last_gate]. destruct (last_gate v r); [done|].
  destruct (Z.eqb_spec i v) as [->|]; [apply list_lookup_insert_eq; lia|apply list_lookup_insert_ne; lia].
Qed.

Lemma last_gate_app v l k : last_gate v (l ++ k) = match last_gate v k with Some d => Some d | None => last_gate v l end.
Proof.
  induction l as [|[[i off] ty] r IH]; cbn; [by destruct (last_gate v k)|]. rewrite IH. by destruct (last_gate v k).
Qed.
(** A run of calls with consecutive indices. *)
Lemma last_gate_run f b ty v a n :
  last_gate v ((fun i => (b + Z.of_nat i, f (Z.of_nat i), ty)) <$> seq a n) =
    if decide (b + Z.of_nat a <= v < b + Z.of_nat a + Z.of_nat n) then Some (idt_desc 8 (f (v - b)) ty) else None.
Proof.
  revert a. induction n as [|n IH]; intros a; [cbn; case_decide; [lia|done]|].
  cbn [seq]. rewrite fmap_cons. cbn [last_gate]. rewrite IH.
  repeat case_decide; try lia; try done; destruct (Z.eqb_spec (b + Z.of_nat a) v); try lia; try done.
  subst v. do 2 f_equal. f_equal. lia.
Qed.

Section IdtOk.
Context (isr irq : Z -> Z) (schedule syscall_h unhandled_interrupt : Z).
(** The handler of each vector. *)
Definition vector_handler (v : Z) : Z :=
  if v <? 32 then isr v else if v =? 32 then schedule else if v <=? 52 then irq (v - 32)
  else if v =? 128 then syscall_h else unhandled_interrupt.
Definition all_gates : list (Z * Z * Z) :=
  unhandled_gates unhandled_interrupt ++ exception_gates isr ++ irq_gates irq schedule ++ [(128, syscall_h, 61184)].

Lemma all_gates_in : gates_in 255 all_gates.
Proof.
  unfold all_gates, unhandled_gates, exception_gates, irq_gates, gates_in.
  repeat first [apply Forall_app_2 | apply Forall_cons_2 | apply Forall_nil_2]; cbn [fst]; try lia;
    apply Forall_fmap, Forall_forall; intros i Hi; apply elem_of_seq in Hi; cbn; lia.
Qed.

Lemma init_gates_app l k s : init_gates (l ++ k) s = (init_gates l ;;; init_gates k) s.
Proof.
  revert s. induction l as [|[[i off] ty] r IH]; intros s; [done|].
  cbn [app init_gates]. unfold bind in *. destruct (init_idt_desc i 8 off ty s); [apply IH|done..].
Qed.
Lemma idt_install_gates s :
  idt_install isr irq schedule syscall_h unhandled_interrupt s =
    (init_gates all_gates ;;; modify (fun s => mk_tables (GDT_ENTRIES s) (gdt_limit s) (TSS s) (IDT_ENTRIES s) (IDT_SIZE * 8))) s.
Proof.
  unfold idt_install, all_gates. unfold bind at 5. rewrite init_gates_app. unfold bind.
  destruct (init_gates (unhandled_gates _) s) as [[] s1| | |]; [|done..]. rewrite init_gates_app. unfold bind.
  destruct (init_gates (exception_gates _) s1) as [[] s2| | |]; [|done..]. rewrite init_gates_app. unfold bind.
  destruct (init_gates (irq_gates _ _) s2) as [[] s3| | |]; [|done..]. cbn [init_gates]. unfold bind, ret.
  by destruct (init_idt_desc 128 8 syscall_h 61184 s3) as [[]| | |].
Qed.

Lemma last_gate_all v : 0 <= v < 255 ->
  last_gate v all_gates = Some (idt_desc 8 (vector_handler v) (if v =? 128 then 61184 else 36352)).
Proof.
  intros Hv. unfold all_gates, irq_gates. rewrite !last_gate_app.
  cbn [last_gate]. rewrite last_gate_run.
  pose proof (last_gate_run isr 0 36352 v 0 32) as He. pose proof (last_gate_run (fun _ => unhandled_interrupt) 0 36352 v 0 (Z.to_nat IDT_SIZE)) as Hu.
  change (last_gate v (exception_gates isr) = if decide (0 + Z.of_nat 0 <= v < 0 + Z.of_nat 0 + Z.of_nat 32) then Some (idt_desc 8 (isr (v - 0)) 36352) else None) in He.
  change (last_gate v (unhandled_gates unhandled_interrupt) = if decide (0 + Z.of_nat 0 <= v < 0 + Z.of_nat 0 + Z.of_nat (Z.to_nat IDT_SIZE)) then Some (idt_desc 8 unhandled_interrupt 36352) else None) in Hu.
  rewrite He, Hu. unfold vector_handler, IDT_SIZE. rewrite Z.sub_0_r.
  destruct (Z.eqb_spec 128 v) as [<-|]; [done|]. destruct (Z.eqb_spec v 128); [lia|].
  destruct (Z.ltb_spec v 32), (Z.eqb_spec v 32), (Z.eqb_spec 32 v), (Z.leb_spec v 52); repeat case_decide; (done || lia).
Qed.

(** C35: after [idt_install] every vector below 255 has a present gate in the
    kernel's code segment that leads to its handler: the stub of the exception, the
    clock's [schedule], the stub of the interrupt line, [SYSCALL_H] at 0x80,
    [unhandled_interrupt] for the rest. Only 0x80 may be raised by a user and only
    it leaves interrupts on; segments are not touched. *)
Theorem idt_install_correct s :
  length (IDT_ENTRIES s) = 255%nat -> (forall v, is_u32 (vector_handler v)) ->
  exists t, idt_install isr irq schedule syscall_h unhandled_interrupt s = Ok tt t /\
    GDT_ENTRIES t = GDT_ENTRIES s /\ TSS t = TSS s /\
    forall v, 0 <= v < 255 -> exists d, IDT_ENTRIES t !! Z.to_nat v = Some d /\
    gate_present d = true /\ select d = 8 /\ gate_offset d = vector_handler v /\
    gate_dpl d = (if v =? 128 then 3 else 0) /\ gate_trap d = (v =? 128).
Proof.
  intros Hl Hh. rewrite idt_install_gates. destruct (init_gates_ok all_gates s) as (t & Ht & (H1 & _ & H3 & H4) & Hv).
  { rewrite Hl. apply all_gates_in. }
  rewrite (bind_ok _ _ _ _ _ Ht). eexists. split; [reflexivity|]. split; [done|]. split; [done|].
  intros v Hb. cbn. rewrite Hv, last_gate_all by lia. eexists. split; [done|].
  rewrite idt_desc_fields by done. by destruct (v =? 128).
Qed.
End IdtOk.

Definition demo_isr (v : Z) : Z := 3222274048 + 16 * (v mod 32).
Definition demo_irq (v : Z) : Z := 3222278144 + 16 * (v mod 32).
Lemma idt_install_correct_witness :
  exists t d, idt_install demo_isr demo_irq 3222282240 3222286336 3222290432 boot_tables = Ok tt t /\
    IDT_ENTRIES t !! 14%nat = Some d /\ gate_offset d = demo_isr 14 /\ gate_dpl d = 0.
Proof.
  destruct (idt_install_correct demo_isr demo_irq 3222282240 3222286336 3222290432 boot_tables) as (t & Ht & _ & _ & Hv).
  - reflexivity.
  - intros v. unfold vector_handler, demo_isr, demo_irq, is_u32.
    destruct (v <? 32), (v =? 32), (v <=? 52), (v =? 128); first [lia | dlia].
  - destruct (Hv 14) as (d & Hd & _ & _ & Ho & Hp & _); [lia|]. exists t, d. split; [exact Ht|]. split; [exact Hd|]. split; [exact Ho|exact Hp].
Defined.

(** ** What the tables show *)

(** [init_gdt_desc] keeps the low half of the flags byte: 0xCF becomes 0xF, where
    the flags are in the high half, 0xC. *)
Lemma flags_low_half : other (gdt_desc 0 4294967295 154 207) = 15 /\ Z.shiftr 207 4 = 12.
Proof. done. Qed.

(** The limit that is loaded is the size of the table, one more than the offset of
    its last byte: the processor would accept one byte of a seventh descriptor. *)
Lemma gdt_limit_one_more a p : exists t, gdt_install a p boot_tables = Ok tt t /\ gdt_limit t = 8 * Z.of_nat (length (GDT_ENTRIES t)).
Proof. eexists. split; [cbv -[gdt_desc]; reflexivity|done]. Qed.

(** The table has 255 gates: vector 255 has none. *)
Lemma no_gate_255 isr irq sc sy un s t : length (IDT_ENTRIES s) = 255%nat ->
  idt_install isr irq sc sy un s = Ok tt t -> IDT_ENTRIES t !! 255%nat = None.
Proof.
  intros Hl Ht. rewrite idt_install_gates in Ht.
  destruct (init_gates_ok (all_gates isr irq sc sy un) s) as (t1 & H1 & (_ & _ & _ & H4) & _); [rewrite Hl; apply all_gates_in|].
  rewrite (bind_ok _ _ _ _ _ H1) in Ht. injection Ht as <-. cbn. apply lookup_ge_None_2. lia.
Qed.
