(* ===== verification/Faults.v ===== *)
(** Faults and interrupts (cpu/isrs.c).

    [fault_handler] ends in the fatal error of the kernel for every exception but
    one: a write to a page of user space that is not present, which it answers by
    mapping fresh memory there.  The messages that it prints on the way are not
    modelled.  [irq_handler] sends the keyboard's line to [keyboard_interrupt] and
    wakes the threads that wait for a line. *)

From S2P Require Import Prelude Errors Mem KHeap Alloc DataStructs Sched Strings Vga Streams Tty Keyboard Dll Blocks PhysMem Paging.

(** The frame that the entry stubs push: [err_code] and [cs] decide, the other
    registers are only printed. *)
Record regs_int : Type := mk_regs_int { int_no : Z; err_code : Z; r_eip : Z; r_cs : Z }.

Definition exceptionMessages : list string :=
  ["Division By Zero"; "Debug"; "Non Maskable Interrupt"; "Breakpoint";
   "Into Detected Overflow"; "Out of Bounds"; "Invalid Opcode"; "No Coprocessor";
   "Double Fault"; "Coprocessor Segment Overrun"; "Bad TSS"; "Segment Not Present";
   "Stack Fault"; "General Protection Fault"; "Page Fault"; "Unknown Interrupt";
   "Coprocessor Fault"; "Alignment Check"; "Machine Check"; "SIMD Exception";
   "Reserved"; "Reserved"; "Reserved"; "Reserved"; "Reserved"; "Reserved"; "Reserved"; "Reserved";
   "Reserved"; "Reserved"; "Reserved"; "Reserved"]%string.

Section Fault.
Context {H : Type} `{Allocator H} (kernel_page_directory : Z).
Notation P := (pgstate H).

(** The message that is printed first is looked up in the table. *)
Definition handle_user_fault (r : regs_int) : M P unit :=
  match exceptionMessages !! Z.to_nat (int_no r) with
  | None => fault
  | Some _ => fatal_kernel_error "Kernel exception"
  end.

(** [cr2]: the address that was accessed; [page_directory]: that of the current
    process. *)
Definition handle_page_fault (cr2 page_directory : Z) (r : regs_int) : M P unit :=
  if cr2 <? 3221225471 then
    if negb (Z.land (err_code r) 1 =? 0) then fatal_kernel_error "Page fault" else
    if negb (Z.land (err_code r) 2 =? 0) then map_memory kernel_page_directory 8192 cr2 page_directory
    else fatal_kernel_error "Page fault"
  else fatal_kernel_error "Page fault".

Definition fault_handler (cr2 page_directory : Z) (r : regs_int) : M P unit :=
  let n := int_no r in
  if n =? 8 then fatal_kernel_error "DOUBLE FAULT" else
  if n =? 0 then handle_user_fault r else
  if n =? 1 then fatal_kernel_error "Debug" else
  if (n =? 5) || (n =? 6) || (n =? 11) || (n =? 12) || (n =? 13) then handle_user_fault r else
  if n =? 14 then handle_page_fault cr2 page_directory r else
  if n =? 16 then handle_user_fault r else
  match exceptionMessages !! Z.to_nat n with
  | None => fault
  | Some _ => fatal_kernel_error "Unhandled exception"
  end.

(** A fault that is answered: a write to an absent page of user space. *)
Definition demand (cr2 : Z) (r : regs_int) : bool :=
  (int_no r =? 14) && (cr2 <? 3221225471) && negb (Z.testbit (err_code r) 0) && Z.testbit (err_code r) 1.

Lemma fault_handler_demand cr2 pd r s : demand cr2 r = true -> fault_handler cr2 pd r s = map_memory kernel_page_directory 8192 cr2 pd s.
Proof.
  unfold demand. intros Hd. apply andb_prop in Hd as [Hd Hb1]. apply andb_prop in Hd as [Hd Hb0]. apply andb_prop in Hd as [Hn Hc].
  apply Z.eqb_eq in Hn. unfold fault_handler, handle_page_fault. rewrite Hn, Hc. rewrite (land_mask_bit _ 1 0), (land_mask_bit _ 2 1), Hb1 by done.
  destruct (Z.testbit (err_code r) 0); [discriminate Hb0|done].
Qed.

(** Everything else stops the kernel, whatever the state. *)
Lemma fault_handler_stops cr2 pd r s : 0 <= int_no r < 32 -> demand cr2 r = false -> exists msg, fault_handler cr2 pd r s = Fatal msg.
Proof.
  intros Hn Hd. unfold demand in Hd.
  destruct (exceptionMessages !! Z.to_nat (int_no r)) as [e|] eqn:E;
    [|apply lookup_ge_None_1 in E; cbn in E; lia].
  unfold fault_handler, handle_user_fault, handle_page_fault. rewrite E. rewrite (land_mask_bit _ 1 0), (land_mask_bit _ 2 1) by done.
  repeat match goal with
  | |- context [if int_no r =? ?k then _ else _] => destruct (Z.eqb_spec (int_no r) k); [try by eexists|]
  | |- context [if _ || _ then _ else _] => destruct (_ || _); [by eexists|]
  end; [|by eexists..].
  cbn [andb] in Hd.
  destruct (cr2 <? 3221225471); [|by eexists]. cbn [andb] in Hd. destruct (Z.testbit (err_code r) 0); [by eexists|]. cbn [andb negb] in Hd. rewrite Hd. by eexists.
Qed.

Lemma page_bytes_fault v : 0 <= v -> 8192 <= page_bytes 8192 v <= 12288 /\ page_start v <= v < page_start v + page_bytes 8192 v.
Proof. intros Hv. unfold page_bytes, page_start. pose proof (round_up_spec (8192 + v mod 4096) 4096 ltac:(lia)). dlia. Qed.

End Fault.

Section Irq.
Context {H Q T : Type} `{Allocator H} `{Queue Q} `{Tasks T} (behind : Z) (stale_screen : list Z) (stack rmv srt_end : Z) (stale : Z -> Z).

(** The terminals and the scheduler. *)
Definition on_ttys {A} (c : M (ttys T) A) : M (ttys T * sched H Q) A := fun s =>
  match c s.1 with Ok a t => Ok a (t, s.2) | Fatal e => Fatal e | Fault => Fault | NoFuel => NoFuel end.
Definition on_scheduler {A} (c : M (sched H Q) A) : M (ttys T * sched H Q) A := fun s =>
  match c s.2 with Ok a t => Ok a (s.1, t) | Fatal e => Fatal e | Fault => Fault | NoFuel => NoFuel end.

(** [keycode]: what port 0x60 holds. *)
Definition irq_handler (fuel : nat) (ready : bool) (keycode irq_number : Z) : M (ttys T * sched H Q) flow :=
  (if irq_number =? 1 then on_ttys (keyboard_interrupt behind stale_screen ready keycode) else ret tt) ;;;
  if irq_number =? 0 then ret Returned else on_scheduler (scheduler_irq_wakeup stack rmv srt_end stale fuel irq_number).

(** A line that no thread waits for and that is not the keyboard's changes
    nothing. *)
Lemma irq_handler_idle fuel ready k n (t : ttys T) (s : sched H Q) :
  n <> 1 -> irq_list s !! Z.to_nat n = Some 0 -> irq_handler fuel ready k n (t, s) = Ok Returned (t, s).
Proof.
  intros Hn Hl. unfold irq_handler, bind. rewrite (proj2 (Z.eqb_neq _ _) Hn). cbn.
  destruct (n =? 0); [done|]. unfold on_scheduler, scheduler_irq_wakeup, bind, get. cbn. by rewrite Hl.
Qed.
(** The keyboard is served before its waiters wake: a thread that waits for the
    line runs with the key already in the terminal. *)
Lemma irq_handler_keyboard fuel ready k (t t' : ttys T) (s : sched H Q) :
  keyboard_interrupt behind stale_screen ready k t = Ok tt t' ->
  irq_handler fuel ready k 1 (t, s) = on_scheduler (scheduler_irq_wakeup stack rmv srt_end stale fuel 1) (t', s).
Proof. intros Hk. unfold irq_handler, bind, on_ttys. cbn. by rewrite Hk. Qed.
End Irq.

(** ** A concrete fault *)

Definition demo_write_fault : regs_int := mk_regs_int 14 6 134513000 27.

(** Two pages are mapped for one address: when the page behind the faulting one is
    there already, a user's write stops the kernel. *)
Lemma neighbour_stops_kernel :
  is_mapped 134512640 demo_pd demo_one = Ok true demo_one /\
  fault_handler demo_kernel_pd 134508544 demo_pd demo_write_fault demo_one =
    Fatal "Trying to map physical to an already mapped virtual address".
Proof. split; vm_compute; reflexivity. Qed.

(** A division by zero, an invalid instruction, a protection fault or a bad read of
    a user program stops the kernel, where the comment speaks of ending the task. *)
Lemma user_fault_stops_kernel {H} `{Allocator H} kpd cr2 pd s :
  fault_handler kpd cr2 pd (mk_regs_int 0 0 134513000 27) s = Fatal "Kernel exception" /\
  fault_handler kpd 4096 pd (mk_regs_int 14 4 134513000 27) s = Fatal "Page fault".
Proof. done. Qed.

(** The last byte of user space counts as the kernel's. *)
Lemma last_user_byte {H} `{Allocator H} kpd pd s :
  fault_handler kpd (KERNEL_VIRTUAL_BASE - 1) pd demo_write_fault s = Fatal "Page fault".
Proof. done. Qed.
