(* ===== verification/Loader.v ===== *)
(** The entry of the kernel (loader.s) and [finish_paging] of memory/paging.c: the
    first page tables, the switch to addresses above 3 GiB, the first stack.

    Memory is physical memory. Until paging is on an address is used as it is; after
    that it goes through [page_walk], what the processor does with the tables. *)

From S2P Require Import Prelude Mem KHeap Paging CpuTables.

(** [loaded]: the registers that the code sets. *)
Record loaded : Type := mk_loaded { l_mem : mem; l_cr0 : Z; l_cr3 : Z; l_ebx : Z; l_esp : Z }.

(** The translation of an address without page size extension. *)
Definition entry_present (e : Z) : bool := Z.testbit e 0.
Definition page_walk (m : mem) (cr3 v : Z) : option Z :=
  let e := load32 m (cr3 + 4 * (v / 4194304)) in
  if negb (entry_present e) then None else
  let p := load32 m (e - e mod 4096 + 4 * ((v / 4096) mod 1024)) in
  if negb (entry_present p) then None else Some (p - p mod 4096 + v mod 4096).
Definition store_virtual (s : loaded) (v x : Z) : option loaded :=
  match page_walk (l_mem s) (l_cr3 s) v with
  | Some p => Some (mk_loaded (store32 (l_mem s) p x) (l_cr0 s) (l_cr3 s) (l_ebx s) (l_esp s))
  | None => None
  end.

(** The two loops [.l] and [.l1]; [table] is the physical address. *)
Fixpoint fill_loop (n : nat) (table eax : Z) (m : mem) : option mem :=
  match n with
  | O => None
  | S k =>
    let m := store32 m (table + eax) (Z.lor (u32 (Z.shiftl eax 10)) 3) in
    let eax := eax + 4 in
    if eax =? 4096 then Some m else fill_loop k table eax m
  end.

Section Start.
(** The addresses that the linker gives. *)
Context (temp_page_table kernel_page_table kernel_page_directory stack : Z).

Definition KERNEL_PAGE_NUMBER : Z := Z.shiftr KERNEL_VIRTUAL_BASE 22.
Definition phys (x : Z) : Z := x - KERNEL_VIRTUAL_BASE.
(** [start], up to the jump. *)
Definition start (s : loaded) : option loaded :=
  match fill_loop 1024 (phys temp_page_table) 0 (l_mem s) with
  | None => None
  | Some m =>
    match fill_loop 1024 (phys kernel_page_table) 0 m with
    | None => None
    | Some m =>
      let m := store32 m (phys kernel_page_directory) (Z.lor (phys temp_page_table) 3) in
      let m := store32 m (phys (kernel_page_directory + KERNEL_PAGE_NUMBER * 4)) (Z.lor (phys kernel_page_table) 3) in
      Some (mk_loaded m (Z.lor (l_cr0 s) 2147483649) (phys kernel_page_directory) (l_ebx s) (l_esp s))
    end
  end.
Definition push_virtual (s : loaded) (x : Z) : option loaded :=
  store_virtual (mk_loaded (l_mem s) (l_cr0 s) (l_cr3 s) (l_ebx s) (l_esp s - 4)) (l_esp s - 4) x.
(** [_high], up to the call of [kmain]. *)
Definition high (s : loaded) : option loaded :=
  match store_virtual s kernel_page_directory 0 with
  | None => None
  | Some s =>
    let s := mk_loaded (l_mem s) (l_cr0 s) (l_cr3 s) (u32 (l_ebx s + KERNEL_VIRTUAL_BASE)) (stack + 8192) in
    match push_virtual s (stack + 8192) with
    | None => None
    | Some s => push_virtual s (l_ebx s)
    end
  end.
End Start.

(** [finish_paging]: the page size extension, when the processor has it. *)
Definition finish_paging (i : cpu_info) (cr4 : Z) : Z := if cpu_pse i then Z.lor cr4 16 else cr4.

(** ** The loops *)

Lemma lor3 x : x mod 4096 = 0 -> Z.lor x 3 = x + 3.
Proof. intros. by apply lor_flags. Qed.
Lemma entry3 x : x mod 4096 = 0 -> entry_present (x + 3) = true /\ x + 3 - (x + 3) mod 4096 = x.
Proof. intros Hx. split; [|dlia]. rewrite <- lor3 by done. unfold entry_present. rewrite Z.lor_spec. apply orb_true_r. Qed.

Lemma fill_loop_ok n t k m : k = 1024 - Z.of_nat n -> 0 < Z.of_nat n <= 1024 ->
  exists m', fill_loop n t (4 * k) m = Some m' /\
    (forall i, k <= i < 1024 -> load32 m' (t + 4 * i) = 4096 * i + 3) /\
    (forall x, ~ (t + 4 * k <= x < t + 4096) -> m' x = m x).
Proof.
  revert k m. induction n as [|n IH]; intros k m Hk Hn; [lia|]. cbn [fill_loop].
  rewrite Z.shiftl_mul_pow2 by lia. change (2 ^ 10) with 1024. rewrite u32_id by lia. rewrite lor3 by (replace (4 * k * 1024) with (k * 4096) by lia; apply Z_mod_mult).
  set (m1 := store32 m _ _).
  assert (load32 m1 (t + 4 * k) = 4096 * k + 3) as H1 by (unfold m1; rewrite load32_store32, u32_id by lia; lia).
  assert (forall x, ~ (t + 4 * k <= x < t + 4 * k + 4) -> m1 x = m x) as H2 by (intros x Hx; by apply store32_other).
  destruct (Z.eqb_spec (4 * k + 4) 4096) as [E|E].
  - exists m1. split; [done|]. split; [intros i Hi; by replace i with k by lia|]. intros x Hx. apply H2. lia.
  - destruct (IH (k + 1) m1 ltac:(lia) ltac:(lia)) as (m' & Hm & Hin & Hout). replace (4 * k + 4) with (4 * (k + 1)) by lia.
    exists m'. split; [done|]. split.
    + intros i Hi. destruct (decide (i = k)) as [->|]; [|apply Hin; lia]. rewrite <- H1. apply load32_ext. intros x Hx. apply Hout. lia.
    + intros x Hx. rewrite Hout, H2 by lia. done.
Qed.
Lemma fill_table_ok t m : exists m', fill_loop 1024 t 0 m = Some m' /\ (forall i, 0 <= i < 1024 -> load32 m' (t + 4 * i) = 4096 * i + 3) /\
  (forall x, ~ (t <= x < t + 4096) -> m' x = m x).
Proof. destruct (fill_loop_ok 1024 t 0 m) as (m' & Hf & Hi & Ho); [done|lia|]. exists m'. split; [exact Hf|]. split; [exact Hi|]. intros x Hx. apply Ho. lia. Qed.

(** ** The translation *)

(** A table of the first 4 MiB. *)
Definition first_4mib (m : mem) (t : Z) : Prop := forall i, 0 <= i < 1024 -> load32 m (t + 4 * i) = 4096 * i + 3.
Lemma walk_first m cr3 v t : load32 m (cr3 + 4 * (v / 4194304)) = t + 3 -> t mod 4096 = 0 -> first_4mib m t -> page_walk m cr3 v = Some (v mod 4194304).
Proof.
  intros He Ht Hf. unfold page_walk. cbv zeta. rewrite He. destruct (entry3 t Ht) as [-> ->]. cbn [negb].
  rewrite !Hf by (apply Z.mod_pos_bound; lia). destruct (entry3 (4096 * ((v / 4096) mod 1024))) as [-> ->]; [rewrite Z.mul_comm; apply Z_mod_mult|].
  cbn [negb]. f_equal. dlia.
Qed.
Lemma walk_absent m cr3 v : load32 m (cr3 + 4 * (v / 4194304)) = 0 -> page_walk m cr3 v = None.
Proof. intros He. unfold page_walk. by rewrite He. Qed.

(** The first table has to be on a page boundary, which [.lcomm] does not ask for:
    32 bytes further and the code that switches paging on is not where it was. *)
Lemma unaligned_table_shifts m cr3 t : t mod 4096 = 0 -> load32 m cr3 = Z.lor (t + 32) 3 -> first_4mib m (t + 32) -> page_walk m cr3 1048576 = Some 1015808.
Proof.
  intros Ht He Hf.
  assert (Z.lor (t + 32) 3 = t + 35) as Hl.
  { rewrite (lor_low (t + 32) 3 2) by (change (2 ^ 2) with 4; dlia). lia. }
  unfold page_walk. cbv zeta. change (cr3 + 4 * (1048576 / 4194304)) with (cr3 + 0). rewrite Z.add_0_r, He, Hl.
  replace (entry_present (t + 35)) with true by (rewrite <- Hl; unfold entry_present; rewrite Z.lor_spec; by rewrite orb_true_r).
  cbn [negb]. change (4 * ((1048576 / 4096) mod 1024)) with 1024. replace (t + 35 - (t + 35) mod 4096 + 1024) with (t + 32 + 4 * 248) by dlia.
  by rewrite !Hf by lia.
Qed.

(** Where the linker may put the tables and the stack: whole pages of the first
    4 MiB, apart from each other. *)
Record layout (temp kpt kpd stack : Z) : Prop := {
  ly_temp : temp mod 4096 = 0 /\ 0 <= temp < 4194304;
  ly_table : kpt mod 4096 = 0 /\ 0 <= kpt < 4194304;
  ly_directory : kpd mod 4096 = 0 /\ 0 <= kpd < 4194304;
  ly_stack : stack mod 4 = 0 /\ 0 <= stack /\ stack + 8192 <= 4194304;
  ly_apart : temp <> kpt /\ temp <> kpd /\ kpt <> kpd;
  ly_stack_apart : forall t, t = kpt \/ t = kpd -> stack + 8192 <= t \/ t + 4096 <= stack }.

Section Loaded.
Context (temp kpt kpd stack : Z) (ly : layout temp kpt kpd stack).
Notation V x := (x + KERNEL_VIRTUAL_BASE).

(** The directory has [low] for the first 4 MiB and the kernel's table for those
    from 3 GiB on. *)
Record directory (m : mem) (low : Z) : Prop := {
  dir_low : load32 m kpd = low;
  dir_kernel : load32 m (kpd + 4 * 768) = kpt + 3;
  dir_rest : forall i, 0 < i < 1024 -> i <> 768 -> load32 m (kpd + 4 * i) = 0;
  dir_table : first_4mib m kpt }.
Lemma walk_kernel m low v : directory m low -> KERNEL_VIRTUAL_BASE <= v < KERNEL_VIRTUAL_BASE + 4194304 -> page_walk m kpd v = Some (v - KERNEL_VIRTUAL_BASE).
Proof.
  intros [Hl Hk Hr Ht] Hv. unfold KERNEL_VIRTUAL_BASE in *. rewrite (walk_first _ _ _ kpt); [f_equal; dlia| |apply ly|done].
  replace (v / 4194304) with 768 by dlia. done.
Qed.
Lemma walk_other m v : directory m 0 -> is_u32 v -> ~ (KERNEL_VIRTUAL_BASE <= v < KERNEL_VIRTUAL_BASE + 4194304) -> page_walk m kpd v = None.
Proof.
  intros [Hl Hk Hr Ht] Hv Hn. unfold KERNEL_VIRTUAL_BASE, is_u32 in *. apply walk_absent.
  destruct (decide (v / 4194304 = 0)) as [->|]; [by rewrite Z.add_0_r|]. apply Hr; dlia.
Qed.
(** A store to a word outside of the directory and the table. *)
Lemma directory_store m low a x : directory m low -> a mod 4 = 0 -> (a + 4 <= kpt \/ kpt + 4096 <= a) -> (a + 4 <= kpd \/ kpd + 4096 <= a) -> directory (store32 m a x) low.
Proof.
  intros [Hl Hk Hr Ht] Ha Hat Had. split.
  - rewrite load32_store32_far by lia. done.
  - rewrite load32_store32_far by lia. done.
  - intros i Hi Hn. rewrite load32_store32_far by lia. by apply Hr.
  - intros i Hi. rewrite load32_store32_far by lia. by apply Ht.
Qed.
Lemma two_pages a b : a mod 4096 = 0 -> b mod 4096 = 0 -> a <> b -> a + 4096 <= b \/ b + 4096 <= a.
Proof. intros. dlia. Qed.

Lemma start_ok s : (forall i, 0 <= i < 1024 -> load32 (l_mem s) (kpd + 4 * i) = 0) ->
  exists m, start (V temp) (V kpt) (V kpd) s = Some (mk_loaded m (Z.lor (l_cr0 s) 2147483649) kpd (l_ebx s) (l_esp s)) /\
    directory m (temp + 3) /\ first_4mib m temp.
Proof.
  intros Hz. destruct ly as [[T1 T2] [K1 K2] [D1 D2] S1 (A1 & A2 & A3) _].
  pose proof (two_pages temp kpt T1 K1 A1). pose proof (two_pages temp kpd T1 D1 A2). pose proof (two_pages kpt kpd K1 D1 A3).
  unfold start, phys. change (KERNEL_PAGE_NUMBER * 4) with 3072. rewrite !Z.add_simpl_r. replace (kpd + KERNEL_VIRTUAL_BASE + 3072 - KERNEL_VIRTUAL_BASE) with (kpd + 3072) by lia.
  destruct (fill_table_ok temp (l_mem s)) as (m1 & -> & F1 & O1). destruct (fill_table_ok kpt m1) as (m2 & -> & F2 & O2).
  rewrite !lor3 by done. set (m3 := store32 m2 _ _). set (m4 := store32 m3 _ _). exists m4. split; [done|].
  assert (forall a, a + 4 <= kpd \/ kpd + 4096 <= a -> load32 m4 a = load32 m2 a) as Hout.
  { intros a Ha. unfold m4, m3. rewrite !load32_store32_far by lia. done. }
  split; [split|].
  - unfold m4, m3. rewrite load32_store32_far, load32_store32, u32_id by lia. done.
  - unfold m4. rewrite load32_store32, u32_id by lia. done.
  - intros i Hi Hn. unfold m4, m3. rewrite !load32_store32_far by lia. rewrite <- (Hz i) by lia. apply load32_ext. intros x Hx. rewrite O2, O1 by lia. done.
  - intros i Hi. rewrite Hout by lia. by apply F2.
  - intros i Hi. rewrite Hout by lia. rewrite <- (F1 i) by done. apply load32_ext. intros x Hx. apply O2. lia.
Qed.
Lemma push_ok m cr0 ebx esp x : directory m 0 -> V stack + 4 <= esp <= V stack + 8192 -> esp mod 4 = 0 ->
  push_virtual (mk_loaded m cr0 kpd ebx esp) x = Some (mk_loaded (store32 m (esp - 4 - KERNEL_VIRTUAL_BASE) x) cr0 kpd ebx (esp - 4)) /\
  directory (store32 m (esp - 4 - KERNEL_VIRTUAL_BASE) x) 0.
Proof.
  intros Hd He Hm. destruct ly as [_ _ _ (S1 & S2 & S3) _ SA]. pose proof (SA kpt ltac:(auto)). pose proof (SA kpd ltac:(auto)). split.
  - unfold push_virtual, store_virtual. cbn [l_mem l_cr0 l_cr3 l_ebx l_esp]. by rewrite (walk_kernel _ 0) by (try done; unfold KERNEL_VIRTUAL_BASE in *; lia).
  - apply directory_store; [done|unfold KERNEL_VIRTUAL_BASE; dlia|unfold KERNEL_VIRTUAL_BASE in *; lia..].
Qed.

(** The state that [kmain] is called in: the first 4 MiB are mapped at 3 GiB and
    nothing else is; the multiboot structure, by its new address, and the top of the
    stack are its arguments. *)
Lemma high_ok s : directory (l_mem s) (temp + 3) -> l_cr3 s = kpd ->
  exists m, high (V kpd) (V stack) s = Some (mk_loaded m (l_cr0 s) kpd (u32 (V (l_ebx s))) (V stack + 8184)) /\ directory m 0 /\
    load32 m (stack + 8184) = u32 (V (l_ebx s)) /\ load32 m (stack + 8188) = V stack + 8192.
Proof.
  destruct s as [m cr0 cr3 ebx esp]. cbn [l_mem l_cr0 l_cr3 l_ebx]. intros Hd ->. pose proof ly as [_ [K1 K2] [D1 D2] (S1 & S2 & S3) (_ & _ & A3) _].
  pose proof (two_pages kpt kpd K1 D1 A3). unfold high, store_virtual. cbn [l_mem l_cr0 l_cr3 l_ebx l_esp].
  rewrite (walk_kernel m (temp + 3)) by (try done; unfold KERNEL_VIRTUAL_BASE; lia). rewrite Z.add_simpl_r. cbn [l_mem l_cr0 l_cr3 l_ebx l_esp].
  assert (directory (store32 m kpd 0) 0) as Hd0.
  { destruct Hd as [Hl Hk Hr Ht]. split; [by rewrite load32_store32|rewrite load32_store32_far by lia; done| |].
    - intros i Hi Hn. rewrite load32_store32_far by lia. by apply Hr.
    - intros i Hi. rewrite load32_store32_far by lia. by apply Ht. }
  assert (V stack + 8192 < 4294967296) by (unfold KERNEL_VIRTUAL_BASE; lia).
  destruct (push_ok (store32 m kpd 0) cr0 (u32 (V ebx)) (V stack + 8192) (V stack + 8192)) as [-> Hd1]; [done|lia|unfold KERNEL_VIRTUAL_BASE; dlia|].
  cbn [l_ebx]. replace (V stack + 8192 - 4 - KERNEL_VIRTUAL_BASE) with (stack + 8188) in * by lia.
  destruct (push_ok (store32 (store32 m kpd 0) (stack + 8188) (V stack + 8192)) cr0 (u32 (V ebx)) (V stack + 8192 - 4) (u32 (V ebx))) as [-> Hd2]; [done|lia|unfold KERNEL_VIRTUAL_BASE; dlia|].
  replace (V stack + 8192 - 4 - 4 - KERNEL_VIRTUAL_BASE) with (stack + 8184) in * by lia. replace (V stack + 8192 - 4 - 4) with (V stack + 8184) by lia.
  eexists. split; [reflexivity|]. split; [done|]. split.
  - rewrite load32_store32. unfold u32. apply Z.mod_mod. lia.
  - rewrite load32_store32_far, load32_store32 by lia. apply u32_id. unfold KERNEL_VIRTUAL_BASE in *. lia.
Qed.
End Loaded.

(** The loader ends in the state that the C code expects: when paging is switched
    on, the first 4 MiB are where they were and at 3 GiB, so the code that runs goes
    on; at the call of [kmain] they are at 3 GiB only, every other address is
    unmapped, and the arguments are the multiboot structure and the top of the
    stack. *)
Lemma loader_maps_kernel temp kpt kpd stack s : layout temp kpt kpd stack ->
  (forall i, 0 <= i < 1024 -> load32 (l_mem s) (kpd + 4 * i) = 0) ->
  let V x := x + KERNEL_VIRTUAL_BASE in
  exists s1 s2, start (V temp) (V kpt) (V kpd) s = Some s1 /\ Z.testbit (l_cr0 s1) 31 = true /\
    (forall v, 0 <= v < 4194304 -> page_walk (l_mem s1) (l_cr3 s1) v = Some v /\ page_walk (l_mem s1) (l_cr3 s1) (V v) = Some v) /\
    high (V kpd) (V stack) s1 = Some s2 /\
    (forall v, is_u32 v -> page_walk (l_mem s2) (l_cr3 s2) v =
       if decide (KERNEL_VIRTUAL_BASE <= v < KERNEL_VIRTUAL_BASE + 4194304) then Some (v - KERNEL_VIRTUAL_BASE) else None) /\
    l_esp s2 = V stack + 8184 /\ load32 (l_mem s2) (stack + 8184) = u32 (V (l_ebx s)) /\ load32 (l_mem s2) (stack + 8188) = V stack + 8192.
Proof.
  intros Hly Hz V. destruct (start_ok _ _ _ _ Hly s Hz) as (m1 & Hs1 & Hd1 & Hf1).
  destruct (high_ok _ _ _ _ Hly (mk_loaded m1 (Z.lor (l_cr0 s) 2147483649) kpd (l_ebx s) (l_esp s)) Hd1 eq_refl) as (m2 & Hs2 & Hd2 & Ha & Hb).
  eexists _, _. split; [exact Hs1|]. cbn [l_mem l_cr0 l_cr3 l_ebx l_esp] in *. split; [rewrite Z.lor_spec; apply orb_true_r|]. split; [|split; [exact Hs2|]].
  - intros v Hv. split.
    + rewrite (walk_first _ _ _ temp); [f_equal; dlia| |apply Hly|done]. replace (v / 4194304) with 0 by dlia. rewrite Z.add_0_r. apply Hd1.
    + rewrite (walk_kernel _ _ _ _ Hly _ _ _ Hd1); unfold V; [f_equal; lia|lia].
  - cbn [l_mem l_cr3 l_esp]. split; [|by split_and!]. intros v Hv. case_decide; [by eapply walk_kernel|by eapply walk_other].
Qed.

(** The state at the end for concrete addresses. *)
Definition demo_start : loaded := mk_loaded (fun _ => 0) 17 0 65536 0.
Lemma loader_maps_kernel_witness : layout 1114112 1118208 1122304 1126400 /\
  exists s1 s2, start 3222339584 3222343680 3222347776 demo_start = Some s1 /\ high 3222347776 3222351872 s1 = Some s2 /\
    page_walk (l_mem s2) (l_cr3 s2) 3222274048 = Some 1048576 /\ page_walk (l_mem s2) (l_cr3 s2) 1048576 = None.
Proof.
  assert (layout 1114112 1118208 1122304 1126400) as Hly by (split; [done..|intros t [->| ->]; lia]). split; [exact Hly|].
  destruct (loader_maps_kernel _ _ _ _ demo_start Hly) as (s1 & s2 & Hs1 & _ & _ & Hs2 & Hw & _); [done|].
  exists s1, s2. split; [exact Hs1|]. split; [exact Hs2|]. clear Hs1 Hs2. unfold KERNEL_VIRTUAL_BASE in Hw.
  split; (rewrite Hw; [|by unfold is_u32]); [by rewrite decide_True by lia|by rewrite decide_False by lia].
Defined.
