(* ===== verification/Context.v ===== *)
(** The entry and exit of the kernel (cpu/isr.s, tasking/scheduler/scheduler.s):
    what becomes of the registers of a program that is interrupted.

    The machine has the registers, the memory that its stacks are in, the stack that
    the task state segment gives for entries from user mode, and the history of port
    writes. [interrupt] and [iret] are the processor's; the stubs are translated
    instruction by instruction, a call of a C function being any change that the
    calling convention allows ([c_call]). *)

From S2P Require Import Prelude Mem Ports.

Inductive register : Type := EAX | ECX | EDX | EBX | ESP | EBP | ESI | EDI | EIP | CS | EFLAGS | SS | DS | ES | FS | GS.
#[export] Instance reg_eq_dec : EqDecision register.
Proof. solve_decision. Defined.

Record machine : Type := mk_machine {
  regs : register -> Z; memory : mem; tss_esp0 : Z; cr3 : Z; current_page_directory : Z; port_events : history }.
Definition set (r : register) (v : Z) (m : machine) : machine :=
  mk_machine (fun r' => if decide (r' = r) then v else regs m r') (memory m) (tss_esp0 m) (cr3 m) (current_page_directory m) (port_events m).
Definition set_memory (f : mem -> mem) (m : machine) : machine :=
  mk_machine (regs m) (f (memory m)) (tss_esp0 m) (cr3 m) (current_page_directory m) (port_events m).
Definition machine_io : port_state machine :=
  mk_port_state port_events (fun e m => mk_machine (regs m) (memory m) (tss_esp0 m) (cr3 m) (current_page_directory m) (e :: port_events m)).

Definition mov (r : register) (v : Z) : M machine unit := modify (set r v).
Definition reg_of (r : register) : M machine Z := gets (fun m => regs m r).
Definition pushl (v : Z) : M machine unit := modify (fun m =>
  let a := u32 (regs m ESP - 4) in set_memory (fun x => store32 x a v) (set ESP a m)).
Definition pop : M machine Z := fun m => Ok (load32 (memory m) (regs m ESP)) (set ESP (u32 (regs m ESP + 4)) m).
Definition push_reg (r : register) : M machine unit := v <- reg_of r ;; pushl v.
Definition pop_reg (r : register) : M machine unit := v <- pop ;; mov r v.
Definition add_esp (n : Z) : M machine unit := modify (fun m => set ESP (u32 (regs m ESP + n)) m).

(** ** The processor *)

Definition KERNEL_CS : Z := 8.
Definition IF : Z := 512.
(** An interrupt or exception through an interrupt gate; [err]: the error code that
    some exceptions push. *)
Definition interrupt (handler : Z) (err : option Z) : M machine unit :=
  m <- get ;;
  (if regs m CS =? KERNEL_CS then ret tt
   else mov ESP (tss_esp0 m) ;;; mov SS 16 ;;; pushl (regs m SS) ;;; pushl (regs m ESP)) ;;;
  pushl (regs m EFLAGS) ;;; pushl (regs m CS) ;;; pushl (regs m EIP) ;;;
  (match err with Some e => pushl e | None => ret tt end) ;;;
  mov CS KERNEL_CS ;;; mov EFLAGS (Z.ldiff (regs m EFLAGS) IF) ;;; mov EIP handler.
Definition iret : M machine unit :=
  pop_reg EIP ;;; pop_reg CS ;;; pop_reg EFLAGS ;;;
  cs <- reg_of CS ;;
  if cs =? KERNEL_CS then ret tt else
  sp <- pop ;; seg <- pop ;; mov ESP sp ;;; mov SS seg.

Definition pushal : M machine unit :=
  m <- get ;;
  pushl (regs m EAX) ;;; pushl (regs m ECX) ;;; pushl (regs m EDX) ;;; pushl (regs m EBX) ;;; pushl (regs m ESP) ;;;
  pushl (regs m EBP) ;;; pushl (regs m ESI) ;;; pushl (regs m EDI).
(** The stack pointer that was pushed is skipped. *)
Definition popal : M machine unit :=
  pop_reg EDI ;;; pop_reg ESI ;;; pop_reg EBP ;;; add_esp 4 ;;; pop_reg EBX ;;; pop_reg EDX ;;; pop_reg ECX ;;; pop_reg EAX.

(** Registers [rs] and the [n] bytes above the stack pointer stay as they are. A call
    of a C function may change [eax], [ecx], [edx], the flags and the other memory. *)
Record kept (rs : list register) (n : Z) (m m' : machine) : Prop := {
  kp_saved : forall r, r ∈ rs -> regs m' r = regs m r;
  kp_stack : forall a, regs m ESP <= a < regs m ESP + n -> memory m' a = memory m a }.
Definition c_call : Z -> machine -> machine -> Prop := kept [EBX; ESP; EBP; ESI; EDI; CS; SS; DS; ES; FS; GS].
(** What [schedule] does between [pushal] and [schedule_save]: it calls functions and
    keeps what they give it in [eax], [edx], [ebx] and [ecx]. *)
Definition chooses : Z -> machine -> machine -> Prop := kept [ESP; CS; SS; DS; ES; FS; GS].

(** ** The stubs of cpu/isr.s *)

(** Before the call of [irq_handler], and after it. The two writes to the interrupt
    controllers save and restore [ax] on the stack. *)
Definition irq_entry (index : Z) : M machine unit := pushl index.
Definition irq_exit : M machine unit :=
  add_esp 4 ;;;
  m <- get ;;
  modify (set_memory (fun x => store16 x (u32 (regs m ESP - 2)) (u16 (regs m EAX)))) ;;;
  outb machine_io 160 32 ;;; outb machine_io 32 32 ;;;
  iret.
(** [ISR_NOERR] pushes a zero where the processor pushes no code. *)
Definition isr_stub (noerr : bool) (index : Z) : M machine unit := (if noerr then pushl 0 else ret tt) ;;; pushl index.
Definition isr_entry (noerr : bool) (index : Z) : M machine unit :=
  isr_stub noerr index ;;;
  pushal ;;;
  push_reg DS ;;; push_reg ES ;;; push_reg FS ;;; push_reg GS ;;;
  a <- reg_of EAX ;; mov EAX (Z.lor (Z.land a 4294901760) 16) ;;;
  mov DS 16 ;;; mov ES 16 ;;; mov FS 16 ;;; mov GS 16 ;;;
  push_reg ESP.
Definition isr_exit : M machine unit :=
  add_esp 4 ;;;
  pop_reg GS ;;; pop_reg FS ;;; pop_reg ES ;;; pop_reg DS ;;;
  popal ;;;
  add_esp 8 ;;;
  iret.

(** ** The switch of tasking/scheduler/scheduler.s *)

(** The registers in [thread_t], which has no place for the flags, and its kernel
    stack. *)
Record context : Type := mk_context { saved : register -> Z; ctx_kesp : Z }.

(** From [schedule_save] on, for a process that is not the idle one: the registers
    that go to the active thread, and the flags, which go to the process. *)
Definition save_registers : M machine ((register -> Z) * Z) :=
  edi <- pop ;; esi <- pop ;; ebp <- pop ;; sp <- pop ;; ebx <- pop ;; edx <- pop ;; ecx <- pop ;; eax <- pop ;;
  eip <- pop ;; cs <- pop ;; flags <- pop ;;
  m <- get ;;
  p <- (if cs =? KERNEL_CS then ret (sp, regs m SS) else a <- pop ;; b <- pop ;; ret (a, b)) ;;
  ret ((fun r => match r with
    | EAX => eax | ECX => ecx | EDX => edx | EBX => ebx | ESP => p.1 | EBP => ebp | ESI => esi | EDI => edi
    | EIP => eip | CS => cs | EFLAGS => 0 | SS => p.2 | DS => regs m DS | ES => regs m ES | FS => regs m FS | GS => regs m GS
    end), flags).

(** [orl $0x200], [andl $0xffffbeff] *)
Definition resumed_flags (f : Z) : Z := Z.land (Z.lor f 512) 4294950655.
Definition schedule_end : M machine unit :=
  m <- get ;;
  modify (set_memory (fun x => store16 x (u32 (regs m ESP - 2)) (u16 (regs m EAX)))) ;;;
  outb machine_io 32 32 ;;;
  iret.
Definition switch_context (t : context) (flags page_directory : Z) : M machine unit :=
  mov DS (saved t DS) ;;; mov ES (saved t ES) ;;; mov FS (saved t FS) ;;; mov GS (saved t GS) ;;;
  modify (fun m => mk_machine (regs m) (memory m) (ctx_kesp t) (u32 (page_directory + 1073741824)) page_directory (port_events m)) ;;;
  (if saved t CS =? KERNEL_CS then mov ESP (saved t ESP) else pushl (saved t SS) ;;; pushl (saved t ESP)) ;;;
  pushl (resumed_flags flags) ;;; pushl (saved t CS) ;;; pushl (saved t EIP) ;;;
  mov EDI (saved t EDI) ;;; mov ESI (saved t ESI) ;;; mov EBP (saved t EBP) ;;; mov EBX (saved t EBX) ;;;
  mov EDX (saved t EDX) ;;; mov ECX (saved t ECX) ;;; mov EAX (saved t EAX) ;;;
  schedule_end.
(** [schedule_pop]: nothing else to run. *)
Definition schedule_pop : M machine unit := popal ;;; schedule_end.

(** The context of a thread that leaves the processor by itself
    ([scheduler_remove_process]): the registers that the calling convention keeps, and
    the label at the end of the function; [old] is what the thread holds of the
    others. *)
Definition remove_save (rmv : Z) (old : register -> Z) : M machine (register -> Z) :=
  flags <- reg_of EFLAGS ;; mov EFLAGS (Z.ldiff flags IF) ;;;
  m <- get ;;
  ret (fun r => match r with
    | EBX | EDI | ESI | EBP | DS | ES | FS | GS | ESP => regs m r
    | SS => 16 | CS => KERNEL_CS | EIP => rmv
    | EAX | ECX | EDX | EFLAGS => old r
    end).
(** [scheduler_start]: the variable [scheduler_started] and [sti]. *)
Definition scheduler_start : M (bool * machine) unit := modify (fun s => (true, set EFLAGS (Z.lor (regs s.2 EFLAGS) IF) s.2)).

(** ** Running the stubs *)

Definition upd (r : register) (v : Z) (f : register -> Z) : register -> Z := fun r' => if decide (r' = r) then v else f r'.
(** The registers are [f], the words from the stack pointer on are [l]; the fields
    that only a switch changes. *)
Record holds (f : register -> Z) (l : list Z) (e c p : Z) (m : machine) : Prop := {
  st_regs : forall r, regs m r = f r;
  st_stack : forall i v, l !! i = Some v -> load32 (memory m) (f ESP + 4 * Z.of_nat i) = v;
  st_tss : tss_esp0 m = e;
  st_cr3 : cr3 m = c;
  st_pd : current_page_directory m = p }.
Definition runs {A} (c : M machine A) (m : machine) (Q : A -> machine -> Prop) : Prop := exists a m', c m = Ok a m' /\ Q a m'.

Lemma runs_bind {A B} (c : M machine A) (k : A -> M machine B) m Q : runs c m (fun a m' => runs (k a) m' Q) -> runs (bind c k) m Q.
Proof. intros (a & m1 & Hc & b & m2 & Hk & HQ). exists b, m2. split; [|exact HQ]. by rewrite (bind_ok _ _ _ _ _ Hc). Qed.
Lemma runs_ret {A} (a : A) m Q : Q a m -> runs (ret a) m Q.
Proof. intros HQ. by exists a, m. Qed.
Lemma runs_get m Q : Q m m -> runs get m Q.
Proof. intros HQ. by exists m, m. Qed.

Lemma upd_esp_other r v f : r <> ESP -> upd r v f ESP = f ESP.
Proof. intros Hr. unfold upd. by rewrite decide_False by congruence. Qed.
Lemma upd_same r v f : upd r v f r = v.
Proof. unfold upd. by rewrite decide_True. Qed.

Section Rules.
Context (e c p : Z).
Implicit Types (f : register -> Z) (l : list Z) (m : machine).

Lemma runs_push v f l m (Q : unit -> machine -> Prop) : holds f l e c p m -> 4 <= f ESP < 4294967296 -> is_u32 v ->
  (forall m', holds (upd ESP (f ESP - 4) f) (v :: l) e c p m' -> Q tt m') -> runs (pushl v) m Q.
Proof.
  intros [Hr Hs He Hc Hp] Hb Hv HQ. eexists tt, _. split; [reflexivity|]. apply HQ. rewrite Hr, u32_id by lia. split; [|..]; cbn; try done.
  - intros r. unfold upd. by rewrite Hr.
  - rewrite upd_same. intros [|i] w Hi; cbn in Hi.
    + injection Hi as <-. rewrite Z.add_0_r, load32_store32. by apply u32_id.
    + rewrite load32_store32_far by lia. rewrite <- (Hs i w Hi). f_equal. lia.
Qed.
Lemma runs_pop v f l m (Q : Z -> machine -> Prop) : holds f (v :: l) e c p m -> 0 <= f ESP -> f ESP + 4 < 4294967296 ->
  (forall m', holds (upd ESP (f ESP + 4) f) l e c p m' -> Q v m') -> runs pop m Q.
Proof.
  intros [Hr Hs He Hc Hp] Hb Hb' HQ. eexists _, _. split; [reflexivity|]. rewrite Hr, u32_id by lia.
  replace (load32 (memory m) (f ESP)) with v by (rewrite <- (Hs 0%nat v eq_refl); f_equal; lia). apply HQ. split; cbn; try done.
  - intros r. unfold upd. by rewrite Hr.
  - rewrite upd_same. intros i w Hi. rewrite <- (Hs (S i) w Hi). f_equal. lia.
Qed.
Lemma runs_mov r v f l m (Q : unit -> machine -> Prop) : r <> ESP -> holds f l e c p m ->
  (forall m', holds (upd r v f) l e c p m' -> Q tt m') -> runs (mov r v) m Q.
Proof.
  intros Hn [Hr Hs He Hc Hp] HQ. eexists tt, _. split; [reflexivity|]. apply HQ. split; cbn; try done; [|by rewrite upd_esp_other].
  intros r'. unfold upd. by rewrite Hr.
Qed.
(** Nothing is known of another stack. *)
Lemma runs_mov_esp v f l m (Q : unit -> machine -> Prop) : holds f l e c p m -> (forall m', holds (upd ESP v f) [] e c p m' -> Q tt m') -> runs (mov ESP v) m Q.
Proof. intros [Hr Hs He Hc Hp] HQ. eexists tt, _. split; [reflexivity|]. apply HQ. split; cbn; try done. intros r'. unfold upd. by rewrite Hr. Qed.
Lemma runs_add_esp k f l m (Q : unit -> machine -> Prop) : holds f l e c p m -> 0 <= f ESP -> f ESP + 4 * Z.of_nat k < 4294967296 ->
  (forall m', holds (upd ESP (f ESP + 4 * Z.of_nat k) f) (drop k l) e c p m' -> Q tt m') -> runs (add_esp (4 * Z.of_nat k)) m Q.
Proof.
  intros [Hr Hs He Hc Hp] Hb Hb' HQ. eexists tt, _. split; [reflexivity|]. rewrite Hr, u32_id by lia. apply HQ. split; cbn; try done.
  - intros r. unfold upd. by rewrite Hr.
  - rewrite upd_same. intros i w Hi. rewrite lookup_drop in Hi. rewrite <- (Hs (k + i)%nat w Hi). f_equal. lia.
Qed.
Lemma runs_reg_of r f l m (Q : Z -> machine -> Prop) : holds f l e c p m -> Q (f r) m -> runs (reg_of r) m Q.
Proof. intros [Hr _ _ _ _] HQ. exists (f r), m. split; [|done]. unfold reg_of, gets. by rewrite Hr. Qed.
Lemma runs_pop_reg r v f l m (Q : unit -> machine -> Prop) : r <> ESP -> holds f (v :: l) e c p m -> 0 <= f ESP -> f ESP + 4 < 4294967296 ->
  (forall m', holds (upd r v (upd ESP (f ESP + 4) f)) l e c p m' -> Q tt m') -> runs (pop_reg r) m Q.
Proof.
  intros Hn Hst Hb Hb' HQ. apply runs_bind. eapply runs_pop; [exact Hst|done..|]. intros m1 H1. by eapply runs_mov.
Qed.
(** A write of two bytes below the stack pointer and to a port. *)
Lemma runs_below v f l m (Q : unit -> machine -> Prop) : holds f l e c p m -> 2 <= f ESP < 4294967296 ->
  (forall m', holds f l e c p m' -> Q tt m') -> runs (modify (set_memory (fun x => store16 x (u32 (regs m ESP - 2)) v))) m Q.
Proof.
  intros [Hr Hs He Hc Hp] Hb HQ. eexists tt, _. split; [reflexivity|]. apply HQ. split; cbn; try done.
  intros i w Hi. rewrite Hr, u32_id by lia. rewrite load32_store16_far by lia. by apply Hs.
Qed.
Lemma runs_outb port v f l m (Q : unit -> machine -> Prop) : holds f l e c p m ->
  (forall m', holds f l e c p m' -> Q tt m') -> runs (outb machine_io port v) m Q.
Proof. intros [Hr Hs He Hc Hp] HQ. eexists tt, _. split; [reflexivity|]. by apply HQ. Qed.

(** What a C function leaves alone. *)
Definition called (rs : list register) (g f : register -> Z) : register -> Z := fun r => if decide (r ∈ rs) then f r else g r.
Lemma kept_st rs n f l m m' : ESP ∈ rs -> holds f l e c p m -> 4 * Z.of_nat (length l) <= n -> kept rs n m m' ->
  holds (called rs (regs m') f) l (tss_esp0 m') (cr3 m') (current_page_directory m') m'.
Proof.
  intros Hin [Hr Hs He Hc Hp] Hn [Hsv Hst]. split; [|..]; try done.
  - intros r. unfold called. case_decide; [|done]. rewrite <- Hr. by apply Hsv.
  - intros i v Hi. unfold called. rewrite decide_True by done. rewrite <- (Hs i v Hi). apply load32_ext. intros x Hx. apply Hst.
    apply lookup_lt_Some in Hi. rewrite Hr. lia.
Qed.
End Rules.

(** Goals about the stack pointer. *)
Ltac eval_upd := unfold upd; repeat first [rewrite decide_True by done | rewrite decide_False by done].
Ltac esp_arith := eval_upd; lia.
Lemma st_ext f g l e c p m : holds f l e c p m -> (forall r, f r = g r) -> holds g l e c p m.
Proof. intros [Hr Hs He Hc Hp] Hfg. split; try done; [intros r; by rewrite Hr|]. rewrite <- Hfg. done. Qed.
(** Whether a register is in a list of registers. *)
Ltac listed := unfold called; first [rewrite decide_True by (apply (bool_decide_unpack _); vm_compute; exact I) | rewrite decide_False by (apply (bool_decide_unpack _); vm_compute; exact I)].
Lemma st_cast f g l l' e c p m : holds f l e c p m -> (forall r, f r = g r) -> l = l' -> holds g l' e c p m.
Proof. intros Hst Hfg <-. by eapply st_ext. Qed.
Ltac reg_cases := let r := fresh "r" in intros r; destruct r; eval_upd; first [done | lia].
(** One instruction. *)
Ltac step := lazymatch goal with
  | |- runs (bind _ _) _ _ => apply runs_bind
  | |- runs (pushl _) _ _ => eapply runs_push; [eassumption|esp_arith|try done|intros ? ?]
  | |- runs pop _ _ => eapply runs_pop; [eassumption|esp_arith|esp_arith|intros ? ?]
  | |- runs (pop_reg _) _ _ => eapply runs_pop_reg; [done|eassumption|esp_arith|esp_arith|intros ? ?]
  | |- runs (mov ESP _) _ _ => eapply runs_mov_esp; [eassumption|intros ? ?]
  | |- runs (mov _ _) _ _ => eapply runs_mov; [done|eassumption|intros ? ?]
  | |- runs (reg_of _) _ _ => eapply runs_reg_of; [eassumption|]
  | |- runs (ret _) _ _ => apply runs_ret
  | |- runs get _ _ => apply runs_get
  | |- runs (outb _ _ _) _ _ => eapply runs_outb; [eassumption|intros ? ?]
  | |- runs (modify (set_memory _)) _ _ => eapply runs_below; [eassumption|esp_arith|intros ? ?]
  end.
Ltac steps := repeat (cbn beta iota; step).

Lemma pushal_ok f l e c p m (Q : unit -> machine -> Prop) : holds f l e c p m -> (forall r, is_u32 (f r)) -> 32 <= f ESP ->
  (forall m', holds (upd ESP (f ESP - 32) f) (f EDI :: f ESI :: f EBP :: f ESP :: f EBX :: f EDX :: f ECX :: f EAX :: l) e c p m' -> Q tt m') -> runs pushal m Q.
Proof.
  intros Hst Hw Hb HQ. pose proof (Hw ESP) as He. unfold is_u32 in He. unfold pushal. step. step.
  rewrite !(st_regs _ _ _ _ _ _ Hst). steps; try (apply Hw). apply HQ. eapply st_ext; [eassumption|]. reg_cases.
Qed.
Lemma popal_ok f l e c p m edi esi ebp sp ebx edx ecx eax (Q : unit -> machine -> Prop) :
  holds f (edi :: esi :: ebp :: sp :: ebx :: edx :: ecx :: eax :: l) e c p m -> 0 <= f ESP -> f ESP + 32 < 4294967296 ->
  (forall m', holds (upd EAX eax (upd ECX ecx (upd EDX edx (upd EBX ebx (upd EBP ebp (upd ESI esi (upd EDI edi (upd ESP (f ESP + 32) f)))))))) l e c p m' -> Q tt m') ->
  runs popal m Q.
Proof.
  intros Hst Hb Hb' HQ. unfold popal. do 6 step. step. eapply (runs_add_esp _ _ _ 1); [eassumption|esp_arith|esp_arith|intros ? ?]. cbn [drop] in *.
  steps. apply HQ. eapply st_ext; [eassumption|]. reg_cases.
Qed.
(** The frame that the processor pushes: the flags, the code segment and the address,
    and above them the stack when it comes from user mode. *)
Definition outer (m : machine) : list Z := if regs m CS =? KERNEL_CS then [] else [regs m ESP; regs m SS].
Definition int_frame (m : machine) : list Z := regs m EIP :: regs m CS :: regs m EFLAGS :: outer m.
(** The stack pointer that the frame is pushed on. *)
Definition entry_esp (m : machine) : Z := if regs m CS =? KERNEL_CS then regs m ESP else tss_esp0 m.
Definition entered (handler : Z) (err : list Z) (m : machine) : register -> Z := fun r =>
  match r with
  | ESP => entry_esp m - 4 * Z.of_nat (length (int_frame m)) - 4 * Z.of_nat (length err)
  | SS => if regs m CS =? KERNEL_CS then regs m SS else 16
  | CS => KERNEL_CS | EFLAGS => Z.ldiff (regs m EFLAGS) IF | EIP => handler
  | _ => regs m r
  end.
(** Bits above the 32nd are clear. *)
Lemma u32_bits x : is_u32 x <-> Z.land x (Z.ones 32) = x.
Proof. rewrite Z.land_ones by lia. change (2 ^ 32) with 4294967296. unfold is_u32. split; intros; [by apply Z.mod_small|]. pose proof (Z.mod_pos_bound x 4294967296). lia. Qed.
Lemma ldiff_u32 x y : is_u32 x -> is_u32 (Z.ldiff x y).
Proof.
  rewrite !u32_bits. intros Hx. rewrite <- Hx at 2. apply Z.bits_inj'. intros i Hi. rewrite Z.land_spec, !Z.ldiff_spec, Z.land_spec.
  by destruct (Z.testbit x i), (Z.testbit y i), (Z.testbit (Z.ones 32) i).
Qed.
Lemma resumed_flags_u32 x : is_u32 x -> is_u32 (resumed_flags x).
Proof.
  intros Hx. apply u32_bits. unfold resumed_flags. rewrite <- Z.land_assoc. by replace (Z.land 4294950655 (Z.ones 32)) with 4294950655 by reflexivity.
Qed.
(** Interrupts are on, single steps and the nested task off, the rest as it was. *)
Lemma resumed_flags_bits x i : 0 <= i < 32 ->
  Z.testbit (resumed_flags x) i = if decide (i = 9) then true else if decide (i = 8 \/ i = 14) then false else Z.testbit x i.
Proof.
  intros Hi. unfold resumed_flags. rewrite Z.land_spec, Z.lor_spec.
  assert (Z.testbit 512 i = bool_decide (i = 9) /\ Z.testbit 4294950655 i = negb (bool_decide (i = 8 \/ i = 14))) as [-> ->].
  { assert (forallb (fun i => Bool.eqb (Z.testbit 512 i) (bool_decide (i = 9)) && Bool.eqb (Z.testbit 4294950655 i) (negb (bool_decide (i = 8 \/ i = 14)))) (seqZ 0 32) = true) as Hall by (vm_compute; reflexivity).
    rewrite forallb_forall in Hall. specialize (Hall i). rewrite <- list_elem_of_In, elem_of_seqZ in Hall. specialize (Hall ltac:(lia)).
    apply andb_prop in Hall as [H1 H2]. apply Bool.eqb_prop in H1, H2. done. }
  repeat case_decide; repeat case_bool_decide; try lia; cbn [negb]; rewrite ?orb_true_r, ?orb_false_r, ?andb_true_r, ?andb_false_r; done.
Qed.

Section Transparent.
Context (m0 : machine) (words : forall r, is_u32 (regs m0 r)).
Notation e := (tss_esp0 m0). Notation c := (cr3 m0). Notation p := (current_page_directory m0).

Lemma st_self : holds (regs m0) [] e c p m0.
Proof. by split. Qed.
(** Room for the frames on the stack that is entered. *)
Context (room : 128 <= entry_esp m0 < 4294967296).

Lemma interrupt_ok handler err (Q : unit -> machine -> Prop) : match err with Some x => is_u32 x | None => True end ->
  (forall m, holds (entered handler (option_list err) m0) (option_list err ++ int_frame m0) e c p m -> Q tt m) -> runs (interrupt handler err) m0 Q.
Proof.
  intros Herr HQ. pose proof st_self as H0. pose proof (words ESP) as He. unfold is_u32 in He. unfold interrupt, entered, entry_esp, int_frame, outer in *. step. step. cbn beta.
  destruct (Z.eqb_spec (regs m0 CS) KERNEL_CS) as [Hk|Hk].
  - destruct err as [x|]; cbn [option_list option_rect app length] in *; steps; apply HQ; rewrite Hk in *; (eapply st_ext; [eassumption|]; reg_cases).
  - destruct err as [x|]; cbn [option_list option_rect app length] in *; steps; apply HQ; (eapply st_ext; [eassumption|]; reg_cases).
Qed.

(** Leaving through a frame of [m0], with the registers [f] otherwise. *)
Definition left_with (f : register -> Z) : register -> Z := fun r =>
  match r with
  | EIP | CS | EFLAGS => regs m0 r
  | ESP => if regs m0 CS =? KERNEL_CS then f ESP + 12 else regs m0 ESP
  | SS => if regs m0 CS =? KERNEL_CS then f SS else regs m0 SS
  | _ => f r
  end.
Lemma iret_ok f l e' c' p' m (Q : unit -> machine -> Prop) : holds f (int_frame m0 ++ l) e' c' p' m -> 0 <= f ESP -> f ESP + 4 * Z.of_nat (length (int_frame m0)) < 4294967296 ->
  (forall m', holds (left_with f) (if regs m0 CS =? KERNEL_CS then l else []) e' c' p' m' -> Q tt m') -> runs iret m Q.
Proof.
  intros Hst Hb Hb' HQ. unfold iret, left_with, int_frame, outer in *. destruct (Z.eqb_spec (regs m0 CS) KERNEL_CS) as [Hk|Hk]; cbn [app length] in Hst, Hb'.
  - do 6 step. step. step. eval_upd. rewrite (proj2 (Z.eqb_eq _ _) Hk). step. apply HQ.
    eapply st_ext; [eassumption|]. reg_cases.
  - do 6 step. step. step. eval_upd. rewrite (proj2 (Z.eqb_neq _ _) Hk). steps. apply HQ.
    eapply st_ext; [eassumption|]. reg_cases.
Qed.

(** What [pushal] leaves in front of the int_frame; [sp] is the stack pointer in it. *)
Definition pushed (sp : Z) : list Z := [regs m0 EDI; regs m0 ESI; regs m0 EBP; sp; regs m0 EBX; regs m0 EDX; regs m0 ECX; regs m0 EAX].
Definition context_of (f : register -> Z) (sp : Z) : register -> Z := fun r =>
  match r with
  | ESP => if regs m0 CS =? KERNEL_CS then sp else regs m0 ESP
  | SS => if regs m0 CS =? KERNEL_CS then f SS else regs m0 SS
  | DS | ES | FS | GS => f r
  | EFLAGS => 0
  | _ => regs m0 r
  end.
Lemma save_registers_ok f sp e' c' p' m (Q : (register -> Z) * Z -> machine -> Prop) : holds f (pushed sp ++ int_frame m0) e' c' p' m -> 0 <= f ESP -> f ESP + 32 + 4 * Z.of_nat (length (int_frame m0)) < 4294967296 ->
  (forall g m', (forall r, g r = context_of f sp r) -> Q (g, regs m0 EFLAGS) m') -> runs save_registers m Q.
Proof.
  intros Hst Hb Hb' HQ. unfold save_registers, context_of, pushed, int_frame, outer in *. destruct (Z.eqb_spec (regs m0 CS) KERNEL_CS) as [Hk|Hk]; cbn [app length] in Hst, Hb'.
  - do 22 step. step. step. rewrite (proj2 (Z.eqb_eq _ _) Hk). steps. apply HQ. intros r. destruct r; try done; cbn [fst snd];
      match goal with H : holds _ _ _ _ _ ?m |- regs ?m _ = _ => rewrite (st_regs _ _ _ _ _ _ H); eval_upd; done end.
  - do 22 step. step. step. rewrite (proj2 (Z.eqb_neq _ _) Hk). steps. apply HQ. intros r. destruct r; try done; cbn [fst snd];
      match goal with H : holds _ _ _ _ _ ?m |- regs ?m _ = _ => rewrite (st_regs _ _ _ _ _ _ H); eval_upd; done end.
Qed.
End Transparent.

(** The registers of a thread with the flags it resumes with. *)
Definition resumed (g : register -> Z) (flags : Z) : register -> Z := fun r => match r with EFLAGS => resumed_flags flags | _ => g r end.
Lemma runs_tables f l e c p kesp d pd m (Q : unit -> machine -> Prop) : holds f l e c p m -> (forall m', holds f l kesp d pd m' -> Q tt m') ->
  runs (modify (fun m => mk_machine (regs m) (memory m) kesp d pd (port_events m))) m Q.
Proof. intros [Hr Hs He Hc Hp] HQ. eexists tt, _. split; [reflexivity|]. by apply HQ. Qed.
Lemma schedule_end_ok m0 f l e c p m (Q : unit -> machine -> Prop) : holds f (int_frame m0 ++ l) e c p m -> 2 <= f ESP -> f ESP + 4 * Z.of_nat (length (int_frame m0)) < 4294967296 ->
  (forall m', holds (left_with m0 f) (if regs m0 CS =? KERNEL_CS then l else []) e c p m' -> Q tt m') -> runs schedule_end m Q.
Proof.
  intros Hst Hb Hb' HQ. assert (3 <= length (int_frame m0))%nat by (unfold int_frame; cbn; lia). unfold schedule_end. do 6 step.
  eapply iret_ok; [eassumption|lia|lia|exact HQ].
Qed.

Lemma switch_context_ok g flags kesp pd f l e c p m (Q : unit -> machine -> Prop) : holds f l e c p m -> (forall r, is_u32 (g r)) -> is_u32 flags ->
  (if g CS =? KERNEL_CS then 20 <= g ESP < 4294967288 else 22 <= f ESP < 4294967296) ->
  (forall m', holds (fun r => match r with SS => if g CS =? KERNEL_CS then f SS else g SS | _ => resumed g flags r end)
     [] kesp (u32 (pd + 1073741824)) pd m' -> Q tt m') -> runs (switch_context (mk_context g kesp) flags pd) m Q.
Proof.
  intros Hst Hw Hfl0 Hroom HQ. pose proof (resumed_flags_u32 _ Hfl0) as Hfl. unfold switch_context. cbn [saved ctx_kesp]. do 8 step. step.
  eapply runs_tables; [eassumption|intros ? ?].
  pose (pm := mk_machine (resumed g flags) (fun _ => 0) 0 0 0 []). unfold resumed in HQ.
  destruct (Z.eqb_spec (g CS) KERNEL_CS) as [Hk|Hk].
  - assert (int_frame pm = [g EIP; g CS; resumed_flags flags]) as Hf
      by (unfold int_frame, outer, pm; cbn [regs resumed]; by rewrite (proj2 (Z.eqb_eq _ _) Hk)).
    do 22 step. eapply (schedule_end_ok pm _ []); rewrite ?Hf; [eassumption|esp_arith|cbn [length]; esp_arith|].
    intros mz Hz. apply HQ. cbn [regs pm resumed] in Hz. rewrite (proj2 (Z.eqb_eq _ _) Hk) in Hz. eapply st_ext; [exact Hz|].
    unfold left_with, pm. cbn [regs resumed]. rewrite (proj2 (Z.eqb_eq _ _) Hk). reg_cases.
  - assert (int_frame pm = [g EIP; g CS; resumed_flags flags; g ESP; g SS]) as Hf
      by (unfold int_frame, outer, pm; cbn [regs resumed]; by rewrite (proj2 (Z.eqb_neq _ _) Hk)).
    do 24 step. eapply (schedule_end_ok pm _ l); rewrite ?Hf; [eassumption|esp_arith|cbn [length]; esp_arith|].
    intros mz Hz. apply HQ. cbn [regs pm resumed] in Hz. rewrite (proj2 (Z.eqb_neq _ _) Hk) in Hz. eapply st_ext; [exact Hz|].
    unfold left_with, pm. cbn [regs resumed]. rewrite (proj2 (Z.eqb_neq _ _) Hk). reg_cases.
Qed.

(** ** Interrupted programs *)

Section Interrupted.
Context (m0 : machine) (words : forall r, is_u32 (regs m0 r)) (room : 128 <= entry_esp m0 < 4294967296).
Notation e := (tss_esp0 m0). Notation c := (cr3 m0). Notation p := (current_page_directory m0).

Lemma frame_length : (3 <= length (int_frame m0) <= 5)%nat.
Proof. unfold int_frame, outer. destruct (_ =? _); cbn; lia. Qed.
Lemma entered_words handler err : is_u32 handler -> (length err <= 1)%nat -> forall r, is_u32 (entered handler err m0 r).
Proof.
  intros Hh He r. pose proof frame_length. destruct r; cbn [entered]; try apply words.
  - unfold is_u32. lia.
  - exact Hh.
  - done.
  - apply ldiff_u32, words.
  - by destruct (_ =? _).
Qed.
Lemma schedule_entry_ok handler (Q : unit -> machine -> Prop) : is_u32 handler ->
  (forall m, holds (upd ESP (entered handler [] m0 ESP - 32) (entered handler [] m0)) (pushed m0 (entered handler [] m0 ESP) ++ int_frame m0) e c p m -> Q tt m) ->
  runs (interrupt handler None ;;; pushal) m0 Q.
Proof.
  intros Hh HQ. pose proof frame_length. step. eapply interrupt_ok; [done|done|done|]. intros m Hm. cbn [option_list option_rect app] in Hm.
  eapply pushal_ok; [exact Hm|by apply entered_words; [done|cbn; lia]|unfold entered; cbn [length]; lia|exact HQ].
Qed.
(** What is saved, whatever is done in between. *)
Lemma schedule_saves handler (Q : (register -> Z) * Z -> machine -> Prop) : is_u32 handler ->
  (forall g m, (forall r, g r = match r with ESP => if regs m0 CS =? KERNEL_CS then regs m0 ESP - 12 else regs m0 ESP | EFLAGS => 0 | _ => regs m0 r end) -> Q (g, regs m0 EFLAGS) m) ->
  runs (interrupt handler None ;;; pushal) m0 (fun _ m1 => forall m1', chooses 52 m1 m1' -> runs save_registers m1' Q).
Proof.
  intros Hh HQ. pose proof frame_length. apply schedule_entry_ok; [done|]. intros m1 H1 m1' Hcall.
  eapply kept_st in Hcall; [|set_solver|exact H1|rewrite length_app; cbn [pushed length]; lia].
  assert (forall r, r ∈ [ESP; CS; SS; DS; ES; FS; GS] -> called [ESP; CS; SS; DS; ES; FS; GS] (regs m1') (upd ESP (entered handler [] m0 ESP - 32) (entered handler [] m0)) r
    = upd ESP (entered handler [] m0 ESP - 32) (entered handler [] m0) r) as Hin by (intros r Hr; unfold called; by rewrite decide_True).
  eapply save_registers_ok; [exact Hcall|rewrite Hin by set_solver; rewrite upd_same; cbn [entered length]; lia..|].
  intros g m Hg. apply HQ. intros r. rewrite Hg. unfold context_of. destruct r; try done; rewrite ?Hin by set_solver; eval_upd; cbn [entered]; try done.
  - destruct (Z.eqb_spec (regs m0 CS) KERNEL_CS) as [Hk|Hk]; [|done]. unfold entry_esp, int_frame, outer. rewrite (proj2 (Z.eqb_eq _ _) Hk). cbn [length]. lia.
  - by destruct (regs m0 CS =? KERNEL_CS).
Qed.
End Interrupted.

(** C17: a program that the clock interrupts in user mode does not notice: whatever
    [schedule] and the functions it calls do to choose the next thread, the registers
    that are saved in the thread and the flags that are saved in the process give
    back, whenever and on whatever stack the thread is switched to again, every
    register, the instruction and stack pointers and the segments as they were, and
    the flags with interrupts on and without single step and nested task; the next
    entry uses the kernel stack of the thread, and the page directory is that of its
    process. *)
Theorem switch_transparent handler kesp pd m0 :
  (forall r, is_u32 (regs m0 r)) -> is_u32 handler -> regs m0 CS <> KERNEL_CS -> 128 <= tss_esp0 m0 < 4294967296 ->
  runs (interrupt handler None ;;; pushal) m0 (fun _ m1 => forall m1', chooses 52 m1 m1' ->
    runs save_registers m1' (fun s _ => forall m2, 22 <= regs m2 ESP < 4294967296 ->
      runs (switch_context (mk_context s.1 kesp) s.2 pd) m2 (fun _ m3 =>
        (forall r, regs m3 r = if decide (r = EFLAGS) then resumed_flags (regs m0 EFLAGS) else regs m0 r) /\
        tss_esp0 m3 = kesp /\ cr3 m3 = u32 (pd + 1073741824) /\ current_page_directory m3 = pd))).
Proof.
  intros Hw Hh Hcs Hroom. apply schedule_saves; [done|unfold entry_esp; by rewrite (proj2 (Z.eqb_neq _ _) Hcs)|done|].
  rewrite (proj2 (Z.eqb_neq _ _) Hcs). intros g m Hg m2 H2. cbn [fst snd].
  assert (forall r, r <> EFLAGS -> g r = regs m0 r) as Hg' by (intros r; rewrite Hg; by destruct r).
  eapply switch_context_ok; [apply st_self|intros r; rewrite Hg; by destruct r|done| |].
  - rewrite (Hg' CS), (proj2 (Z.eqb_neq _ _) Hcs) by done. done.
  - intros m3 H3. split; [|by destruct H3]. intros r. rewrite (st_regs _ _ _ _ _ _ H3). unfold resumed. rewrite (Hg' CS), (proj2 (Z.eqb_neq _ _) Hcs) by done.
    destruct r; first [rewrite decide_True by done | rewrite decide_False by done]; rewrite ?Hg' by done; done.
Qed.

(** A machine in user mode, interrupted. *)
Definition demo_machine : machine :=
  mk_machine (fun r => match r with EAX => 1 | ECX => 2 | EDX => 3 | EBX => 4 | ESP => 3221225440 | EBP => 6 | ESI => 7 | EDI => 8 | EIP => 134512640
    | CS => 27 | EFLAGS => 514 | _ => 35 end) (fun _ => 0) 3222282240 0 0 [].
Lemma switch_transparent_witness :
  regs demo_machine CS = 27 /\ tss_esp0 demo_machine = 3222282240 /\
  runs (interrupt 3222274048 None ;;; pushal) demo_machine (fun _ m1 => forall m1', chooses 52 m1 m1' ->
    runs save_registers m1' (fun s _ => forall m2, 22 <= regs m2 ESP < 4294967296 ->
      runs (switch_context (mk_context s.1 3222282240) s.2 3222290432) m2 (fun _ m3 =>
        (forall r, regs m3 r = if decide (r = EFLAGS) then resumed_flags 514 else regs demo_machine r) /\
        tss_esp0 m3 = 3222282240 /\ cr3 m3 = u32 (3222290432 + 1073741824) /\ current_page_directory m3 = 3222290432))).
Proof.
  split; [reflexivity|]. split; [reflexivity|].
  apply (switch_transparent 3222274048 3222282240 3222290432 demo_machine); [intros r; destruct r; unfold is_u32; cbn; lia|unfold is_u32; lia|cbn; unfold KERNEL_CS; lia|cbn; lia].
Defined.

(** The flags are those that the last thread of the process left: a thread that is
    switched to within its process resumes with the flags of the other one. *)
Lemma flags_of_other_thread handler (t : context) pd m0 :
  (forall r, is_u32 (regs m0 r)) -> is_u32 handler -> regs m0 CS <> KERNEL_CS -> 128 <= tss_esp0 m0 < 4294967296 ->
  (forall r, is_u32 (saved t r)) -> saved t CS <> KERNEL_CS ->
  runs (interrupt handler None ;;; pushal) m0 (fun _ m1 => forall m1', chooses 52 m1 m1' ->
    runs save_registers m1' (fun s _ => forall m2, 22 <= regs m2 ESP < 4294967296 ->
      runs (switch_context t s.2 pd) m2 (fun _ m3 => regs m3 EIP = saved t EIP /\ regs m3 EFLAGS = resumed_flags (regs m0 EFLAGS)))).
Proof.
  destruct t as [h kesp]. cbn [saved]. intros Hw Hh Hcs Hroom Ht Htc. apply schedule_saves; [done|unfold entry_esp; by rewrite (proj2 (Z.eqb_neq _ _) Hcs)|done|].
  intros g m Hg m2 H2. cbn [fst snd]. eapply switch_context_ok; [apply st_self|done|done|by rewrite (proj2 (Z.eqb_neq _ _) Htc)|].
  intros m3 H3. by rewrite !(st_regs _ _ _ _ _ _ H3).
Qed.

(** A thread that is interrupted in the kernel comes back with its stack pointer 12
    bytes lower: the one that is saved is below the frame of the interrupt, and the
    frame is pushed again below it. *)
Lemma kernel_switch_moves_stack handler kesp pd m0 :
  (forall r, is_u32 (regs m0 r)) -> is_u32 handler -> regs m0 CS = KERNEL_CS -> 128 <= regs m0 ESP < 4294967296 ->
  runs (interrupt handler None ;;; pushal) m0 (fun _ m1 => forall m1', chooses 52 m1 m1' ->
    runs save_registers m1' (fun s _ => forall m2,
      runs (switch_context (mk_context s.1 kesp) s.2 pd) m2 (fun _ m3 => regs m3 ESP = regs m0 ESP - 12 /\ regs m3 EIP = regs m0 EIP))).
Proof.
  intros Hw Hh Hcs Hroom. apply schedule_saves; [done|unfold entry_esp; by rewrite (proj2 (Z.eqb_eq _ _) Hcs)|done|].
  rewrite (proj2 (Z.eqb_eq _ _) Hcs). intros g m Hg m2. cbn [fst snd].
  eapply switch_context_ok; [apply st_self|intros r; rewrite Hg; destruct r; try apply Hw; unfold is_u32; lia|done| |].
  - rewrite !Hg, (proj2 (Z.eqb_eq _ _) Hcs). lia.
  - intros m3 H3. rewrite !(st_regs _ _ _ _ _ _ H3). cbn [resumed]. rewrite !Hg. done.
Qed.

(** A thread that paused itself goes on behind the pause with the registers that a
    function has to keep, its stack pointer among them. *)
Lemma pause_transparent rmv old flags kesp pd m0 :
  (forall r, is_u32 (regs m0 r)) -> (forall r, is_u32 (old r)) -> is_u32 rmv -> is_u32 flags -> 20 <= regs m0 ESP < 4294967288 ->
  runs (remove_save rmv old) m0 (fun g _ => forall m2,
    runs (switch_context (mk_context g kesp) flags pd) m2 (fun _ m3 =>
      regs m3 EIP = rmv /\ regs m3 CS = KERNEL_CS /\ forall r, r ∈ [EBX; EBP; ESI; EDI; ESP; DS; ES; FS; GS] -> regs m3 r = regs m0 r)).
Proof.
  intros Hw Ho Hr Hf Hroom. pose proof (st_self m0) as H0. unfold remove_save. steps.
  match goal with H : holds _ _ _ _ _ ?m |- context [regs ?m] => pose proof (st_regs _ _ _ _ _ _ H) as Hregs end.
  intros m2. eapply switch_context_ok; [apply st_self| |done| |].
  - intros r. destruct r; try done; rewrite ?Hregs; eval_upd; auto.
  - cbn [Z.eqb KERNEL_CS Pos.eqb]. rewrite Hregs. eval_upd. done.
  - intros m3 H3. rewrite !(st_regs _ _ _ _ _ _ H3). cbn [resumed]. split; [done|]. split; [done|]. intros r Hin.
    rewrite (st_regs _ _ _ _ _ _ H3). repeat (apply elem_of_cons in Hin as [->|Hin]; [cbn [resumed]; rewrite Hregs; eval_upd; done|]). by apply elem_of_nil in Hin.
Qed.

(** ** Exceptions and lines of the interrupt controllers *)

Lemma isr_exit_ok m0 f l arg gs fs es ds edi esi ebp sp ebx edx ecx eax i x e c p m (Q : unit -> machine -> Prop) :
  holds f (arg :: gs :: fs :: es :: ds :: edi :: esi :: ebp :: sp :: ebx :: edx :: ecx :: eax :: i :: x :: int_frame m0 ++ l) e c p m ->
  0 <= f ESP -> f ESP + 60 + 4 * Z.of_nat (length (int_frame m0)) < 4294967296 ->
  (forall m', holds (left_with m0 (fun r => match r with
      | GS => gs | FS => fs | ES => es | DS => ds | EDI => edi | ESI => esi | EBP => ebp | EBX => ebx | EDX => edx | ECX => ecx | EAX => eax
      | ESP => f ESP + 60 | _ => f r end)) (if regs m0 CS =? KERNEL_CS then l else []) e c p m' -> Q tt m') ->
  runs isr_exit m Q.
Proof.
  intros Hst Hb Hb' HQ. unfold isr_exit. step. eapply (runs_add_esp _ _ _ 1); [exact Hst|lia|lia|intros m1 H1]. cbn [drop] in H1.
  do 8 (cbn beta; step). cbn beta. step.
  eapply popal_ok; [eassumption|esp_arith|esp_arith|intros ma Ha]. cbn beta. step.
  eapply (runs_add_esp _ _ _ 2); [eassumption|esp_arith|esp_arith|intros mb Hmb]. cbn [drop] in Hmb.
  eapply iret_ok; [exact Hmb|esp_arith|esp_arith|].
  intros md Hd. apply HQ. eapply st_ext; [exact Hd|]. intros r. unfold left_with. destruct r; eval_upd; try done. destruct (_ =? _); lia.
Qed.
(** The words that the stub pushes in front of the frame, below the address [b]. *)
Definition isr_frame (g : register -> Z) (b i x : Z) : list Z :=
  [b - 56; g GS; g FS; g ES; g DS; g EDI; g ESI; g EBP; b - 8; g EBX; g EDX; g ECX; g EAX; i; x].
Lemma isr_entry_ok (noerr : bool) i x g b l f e c p m (Q : unit -> machine -> Prop) : holds f (if noerr then l else x :: l) e c p m ->
  f ESP = (if noerr then b else b - 4) -> (noerr = true -> x = 0) -> 60 <= b < 4294967296 -> is_u32 i -> (forall r, is_u32 (g r)) -> (forall r, r <> ESP -> f r = g r) ->
  (forall m', holds (fun r => match r with DS | ES | FS | GS => 16 | ESP => b - 60 | EAX => Z.lor (Z.land (g EAX) 4294901760) 16 | _ => f r end)
     (isr_frame g b i x ++ l) e c p m' -> Q tt m') ->
  runs (isr_entry noerr i) m Q.
Proof.
  intros Hst Hesp Hx Hb Hi Hg Hf HQ. unfold isr_entry, isr_stub. step. step.
  assert (forall P : unit -> machine -> Prop, (forall m', holds (upd ESP (b - 4) f) (x :: l) e c p m' -> P tt m') -> runs (if noerr then pushl 0 else ret tt) m P) as Hpush.
  { intros P HP. destruct noerr; cbn beta iota in Hesp, Hst.
    - rewrite Hx in HP by done. eapply runs_push; [exact Hst|lia|done|]. intros m1 H1. apply HP. by rewrite Hesp in H1.
    - step. apply HP. eapply st_ext; [exact Hst|]. intros r. unfold upd. by destruct (decide (r = ESP)) as [->|]. }
  apply Hpush. intros m1 H1. cbn beta. step. cbn beta. step. eapply pushal_ok; [eassumption| |esp_arith|].
  { intros r. unfold upd. destruct (decide (r = ESP)) as [->|]; [rewrite decide_True by done; unfold is_u32; lia|by rewrite Hf]. }
  intros m2 H2.
  assert (holds (upd ESP (b - 40) f) (g EDI :: g ESI :: g EBP :: b - 8 :: g EBX :: g EDX :: g ECX :: g EAX :: i :: x :: l) e c p m2) as H3.
  { rewrite <- !Hf by done. replace (b - 8) with (b - 4 - 4) by lia. eapply st_ext; [exact H2|reg_cases]. }
  clear H1 H2. unfold push_reg. steps; try (eval_upd; first [rewrite Hf by done; apply Hg | unfold is_u32; lia]).
  match goal with H : holds _ (?w :: _) _ _ _ _ |- Q _ _ => revert H; replace w with (b - 56) by esp_arith end. intros Hend.
  apply HQ. unfold isr_frame. cbn [app]. rewrite <- !Hf by done.
  eapply st_cast; [exact Hend|reg_cases|]. eval_upd. by rewrite <- ?Hf.
Qed.

(** An exception whose handler returns (a page fault that was answered) leaves every
    register as it was, with and without an error code of the processor. *)
Lemma fault_transparent handler err index m0 :
  (forall r, is_u32 (regs m0 r)) -> is_u32 handler -> is_u32 index -> match err with Some x => is_u32 x | None => True end ->
  128 <= entry_esp m0 < 4294967296 ->
  runs (interrupt handler err ;;; isr_entry (match err with None => true | _ => false end) index) m0 (fun _ m1 => forall m1', c_call 80 m1 m1' ->
    runs isr_exit m1' (fun _ m2 => forall r, regs m2 r = regs m0 r)).
Proof.
  intros Hw Hh Hi He Hroom. pose proof (frame_length m0) as Hl. step. eapply interrupt_ok; [done|done|done|]. intros m Hm. cbn beta.
  set (b := entry_esp m0 - 4 * Z.of_nat (length (int_frame m0))).
  eapply (isr_entry_ok _ index (default 0 err) (entered handler [] m0) b (int_frame m0)); [by destruct err; exact Hm| | |lia|done| | |].
  { unfold entered, b. destruct err; cbn [option_list option_rect length]; lia. }
  { by destruct err. }
  { apply entered_words; [done..|cbn; lia]. }
  { intros r Hr. by destruct r. }
  intros m1 H1 m1' Hcall. eapply kept_st in Hcall; [|set_solver|exact H1|rewrite length_app; cbn [isr_frame length]; lia].
  rewrite <- (app_nil_r (int_frame m0)) in Hcall. unfold isr_frame in Hcall. cbn [app] in Hcall.
  eapply isr_exit_ok; [exact Hcall|listed; unfold b; lia..|].
  intros m2 H2 r. rewrite (st_regs _ _ _ _ _ _ H2). unfold left_with. destruct r; try done; listed; cbn [entered].
  - destruct (Z.eqb_spec (regs m0 CS) KERNEL_CS) as [Hk|Hk]; [|done]. unfold b, entry_esp, int_frame, outer. rewrite (proj2 (Z.eqb_eq _ _) Hk). cbn [length]. lia.
  - by destruct (_ =? _).
Qed.

(** The program goes on with the [eax], [ecx] and [edx] that the driver of the line
    left: the stubs of the lines save no register before the call. The others are as
    they were. *)
Lemma irq_loses_scratch handler index m0 :
  (forall r, is_u32 (regs m0 r)) -> is_u32 handler -> is_u32 index -> 128 <= entry_esp m0 < 4294967296 ->
  runs (interrupt handler None ;;; irq_entry index) m0 (fun _ m1 => forall m1', c_call 24 m1 m1' ->
    runs irq_exit m1' (fun _ m2 => forall r, regs m2 r = if decide (r ∈ [EAX; ECX; EDX]) then regs m1' r else regs m0 r)).
Proof.
  intros Hw Hh Hi Hroom. pose proof (frame_length m0) as Hl. step. eapply interrupt_ok; [done|done|done|]. intros m Hm. cbn [option_list option_rect app] in Hm.
  eapply runs_push; [exact Hm|cbn [entered length]; lia|done|]. intros m1 H1 m1' Hcall.
  eapply kept_st in Hcall; [|set_solver|exact H1|cbn [length]; lia].
  assert (forall f : register -> Z, called [EBX; ESP; EBP; ESI; EDI; CS; SS; DS; ES; FS; GS] (regs m1') f ESP = f ESP) as Hesp
    by (intros f; by listed).
  unfold irq_exit. step. eapply (runs_add_esp _ _ _ 1); [exact Hcall|rewrite Hesp, upd_same; cbn [entered length]; lia..|intros m2 H2].
  rewrite Hesp, upd_same in H2. cbn [drop] in H2. rewrite <- (app_nil_r (int_frame m0)) in H2.
  step. step. step. eapply runs_below; [exact H2|rewrite upd_same; cbn [entered length]; lia|intros m3 H3]. steps.
  eapply iret_ok; [eassumption|rewrite upd_same; cbn [entered length]; lia..|]. intros m4 H4 r. rewrite (st_regs _ _ _ _ _ _ H4). unfold left_with.
  destruct r; listed; eval_upd; try done; try listed; eval_upd; cbn [entered]; try done.
  - destruct (Z.eqb_spec (regs m0 CS) KERNEL_CS) as [Hk|Hk]; [|done]. unfold entry_esp, int_frame, outer. rewrite (proj2 (Z.eqb_eq _ _) Hk). cbn [length]. lia.
  - by destruct (_ =? _).
Qed.
(** A tick with nothing else to run: every register is as it was. *)
Lemma tick_transparent handler m0 :
  (forall r, is_u32 (regs m0 r)) -> is_u32 handler -> 128 <= entry_esp m0 < 4294967296 ->
  runs (interrupt handler None ;;; pushal) m0 (fun _ m1 => forall m1', chooses 52 m1 m1' ->
    runs schedule_pop m1' (fun _ m2 => forall r, regs m2 r = regs m0 r)).
Proof.
  intros Hw Hh Hroom. pose proof (frame_length m0). apply schedule_entry_ok; [done..|]. intros m1 H1 m1' Hcall.
  eapply kept_st in Hcall; [|set_solver|exact H1|rewrite length_app; cbn [pushed length]; lia].
  assert (forall f : register -> Z, called [ESP; CS; SS; DS; ES; FS; GS] (regs m1') f ESP = f ESP) as Hesp
    by (intros f; by listed).
  unfold pushed in Hcall. rewrite <- (app_nil_r (int_frame m0)) in Hcall. cbn [app] in Hcall. unfold schedule_pop. step.
  eapply popal_ok; [exact Hcall|rewrite Hesp, upd_same; cbn [entered length]; lia..|]. intros m2 H2. rewrite Hesp, upd_same in H2.
  eapply schedule_end_ok; [exact H2|eval_upd; cbn [entered length]; lia..|].
  intros m3 H3 r. rewrite (st_regs _ _ _ _ _ _ H3). unfold left_with. destruct r; eval_upd; try done; cbn [entered];
    try listed; eval_upd; cbn [entered]; try done.
  - destruct (Z.eqb_spec (regs m0 CS) KERNEL_CS) as [Hk|Hk]; [|done]. unfold entry_esp, int_frame, outer. rewrite (proj2 (Z.eqb_eq _ _) Hk). cbn [length]. lia.
  - by destruct (_ =? _).
Qed.
