(* ===== verification/Prdt.v ===== *)
(** The table for transfers of a drive (the end of [ata_identify_drive],
    storage/ata/ata_common.c): a block of physical memory, a range of kernel virtual
    memory, and the mapping of one to the other. The three components share the
    kernel's heap, which the nodes of both lists are from. *)

From S2P Require Import Prelude Mem KHeap Alloc Dll Blocks PhysMem KvmHeap Paging.

Section Prdt.
Context {H : Type} `{Allocator H} (kernel_page_directory : Z).

(** Page tables and physical memory, and the list of virtual memory. *)
Record vmspace : Type := mk_vmspace { v_pg : pgstate H; v_first : Z; v_nodes : gmap Z (dnode vm_block) }.
Definition kvm_of (s : vmspace) : lstate vm_block H := mk_lstate (v_first s) (v_nodes s) (heap (phys (v_pg s))).
Definition with_heap (h : H) (g : pgstate H) : pgstate H :=
  mk_pg (pmem g) (kpheap_blocks g) (cpu_pse g) (current_page_directory g) (mk_lstate (first (phys g)) (nodes (phys g)) h).
Definition in_pg {T} (c : M (pgstate H) T) : M vmspace T := fun s =>
  match c (v_pg s) with Ok a g => Ok a (mk_vmspace g (v_first s) (v_nodes s)) | Fatal e => Fatal e | Fault => Fault | NoFuel => NoFuel end.
Definition in_kvm {T} (c : M (lstate vm_block H) T) : M vmspace T := fun s =>
  match c (kvm_of s) with
  | Ok a k => Ok a (mk_vmspace (with_heap (heap k) (v_pg s)) (first k) (nodes k))
  | Fatal e => Fatal e | Fault => Fault | NoFuel => NoFuel
  end.

(** The addresses of the table: physical, and virtual. *)
Definition map_prdt : M vmspace (Z * Z) :=
  prdt_phys <- in_pg (lift_phys (reserve_block 65535 PHYS_KERNEL_BLOCK_TYPE)) ;;
  prdt_virt <- in_kvm (kvm_reserve_block 65535) ;;
  in_pg (map_flexible kernel_page_directory 65535 prdt_phys prdt_virt kernel_page_directory) ;;;
  ret (prdt_phys, prdt_virt).

(** ** The heap *)

(** What a list needs of the heap stays when others allocate. *)
Definition grown (h h' : H) : Prop := a_ok h' /\ forall q, a_live h q -> a_live h' q.
Lemma lrep_grown {A} `{Block A} (s : lstate A H) l h : lrep s l -> grown (heap s) h -> lrep (mk_lstate (first s) (nodes s) h) l.
Proof.
  intros (Hf & Hd & Hn & Hz & _ & Hl) [Hok Hg]. split; [done|]. split; [done|]. split; [done|]. split; [done|]. split; [done|].
  eapply Forall_impl; [exact Hl|]. exact Hg.
Qed.
Lemma malloc_grown h n p h' : a_ok h -> a_room h n -> malloc n h = Ok p h' -> grown h h'.
Proof. intros Hok Hr Hm. destruct (malloc_law h n Hok Hr) as (p' & h'' & Hm' & Hok' & _ & _ & Hl). rewrite Hm in Hm'. injection Hm' as <- <-. split; [done|]. intros q Hq. apply Hl. by right. Qed.
Lemma split_block_heap {A} `{Block A} bytes c (v1 v2 : A) (s s' : lstate A H) : split_block bytes c v1 v2 s = Ok tt s' ->
  exists p, malloc bytes (heap s) = Ok p (heap s').
Proof.
  unfold split_block, ld, new_node, st, bind, ret. destruct (nodes s !! c) as [n|]; [|discriminate].
  destruct (malloc bytes (heap s)) as [p h| | |]; try discriminate. intros Hrun. exists p. f_equal.
  repeat (case_match; simplify_eq; cbn [heap first nodes] in *); done.
Qed.
Lemma reserve_block_heap (s s' : lstate p_block H) l size type a : lrep s l -> reserve_block size type s = Ok a s' ->
  exists p, malloc sizeof_p_block (heap s) = Ok p (heap s').
Proof.
  intros Hr. unfold reserve_block. rewrite (bind_ok get _ s s s eq_refl). rewrite (bind_ok _ _ _ _ _ (find_node_ok _ _ _ Hr)).
  case_match; [discriminate|]. unfold bind, ld, ret at 1. destruct (nodes s !! _) as [n|]; [|discriminate].
  destruct (split_block _ _ _ _ s) as [[] s1| | |] eqn:Hsp; try discriminate.
  destruct (nodes s1 !! _) as [n1|]; [|discriminate]. intros [= _ <-]. by eapply split_block_heap.
Qed.
Lemma kvm_reserve_block_heap (s s' : lstate vm_block H) l size a : lrep s l -> kvm_reserve_block size s = Ok a s' ->
  exists p, malloc sizeof_vm_block (heap s) = Ok p (heap s').
Proof.
  intros Hr. unfold kvm_reserve_block. rewrite (bind_ok get _ s s s eq_refl). rewrite (bind_ok _ _ _ _ _ (find_node_ok _ _ _ Hr)).
  case_match; [discriminate|]. unfold bind, ld, ret at 1. destruct (nodes s !! _) as [n|]; [|discriminate].
  destruct (split_block _ _ _ _ s) as [[] s1| | |] eqn:Hsp; try discriminate.
  destruct (nodes s1 !! _) as [n1|]; [|discriminate]. intros [= _ <-]. by eapply split_block_heap.
Qed.

(** ** The table *)

(** The lists that the state holds, and room for one more node in each. *)
Record vmspace_ok (s : vmspace) (l : list (Z * p_block)) (k : list (Z * vm_block)) : Prop := {
  vo_phys : lrep (phys (v_pg s)) l /\ tiled l;
  vo_virt : lrep (kvm_of s) k /\ tiled k }.
Definition room_for_two (h : H) : Prop :=
  a_room h sizeof_p_block /\ forall p h', malloc sizeof_p_block h = Ok p h' -> a_room h' sizeof_vm_block.

(** The table is mapped where it says: the first free block of physical memory that
    is large enough, at the first free range of kernel virtual memory; both are taken
    off their lists, and no other address changes its translation. *)
Lemma map_prdt_ok s l k l1 c b l2 k1 ck vb k2 : vmspace_ok s l k -> room_for_two (heap (phys (v_pg s))) ->
  find_block (reservable 65536) l = Some (l1, (c, b), l2) -> find_block (kvm_reservable 65536) k = Some (k1, (ck, vb), k2) ->
  can_map (v_pg s) kernel_page_directory (vaddr vb) 65536 (base_addr b) ->
  exists s' p pk, map_prdt s = Ok (base_addr b, vaddr vb) s' /\
    (forall v, is_u32 v -> translate (pmem (v_pg s')) kernel_page_directory v =
       if (vaddr vb <=? v) && (v <? vaddr vb + 65536) then Some (base_addr b + (v - vaddr vb)) else translate (pmem (v_pg s)) kernel_page_directory v) /\
    vmspace_ok s' (l1 ++ (c, mk_p_block (base_addr b) 65536 PHYS_KERNEL_BLOCK_TYPE) :: (p, mk_p_block (base_addr b + 65536) (p_size b - 65536) 1) :: l2)
      (k1 ++ (ck, mk_vm_block (vaddr vb) 65536 1) :: (pk, mk_vm_block (vaddr vb + 65536) (v_size vb - 65536) 0) :: k2).
Proof.
  intros [[Hl Htl] [Hk Htk]] [Hroom Hroom2] Hfl Hfk Hcm. assert (alignup 65535 4096 = 65536) as Hal by reflexivity.
  destruct (reserve_block_ok (phys (v_pg s)) l 65535 PHYS_KERNEL_BLOCK_TYPE l1 c b l2 Hl Htl ltac:(lia) Hroom) as (p & s1 & n & Hrun & -> & _ & _ & _ & _ & Hl' & Htl');
    [by rewrite Hal|]. rewrite Hal in Hl', Htl'.
  destruct (reserve_block_heap _ _ _ _ _ _ Hl Hrun) as (q & Hm).
  assert (grown (heap (phys (v_pg s))) (heap s1)) as Hg1 by (eapply malloc_grown; [apply Hl|exact Hroom|exact Hm]).
  pose proof (lrep_grown _ _ _ Hk Hg1) as Hk1. cbn [kvm_of first nodes] in Hk1.
  destruct (kvm_reserve_block_ok _ k 65535 k1 ck vb k2 Hk1 Htk ltac:(lia) (Hroom2 _ _ Hm)) as (pk & s2 & n & Hrun2 & -> & _ & _ & _ & Hk' & Htk');
    [by rewrite Hal|]. rewrite Hal in Hk', Htk'.
  destruct (kvm_reserve_block_heap _ _ _ _ _ Hk1 Hrun2) as (q2 & Hm2). cbn [heap] in Hm2.
  assert (grown (heap s1) (heap s2)) as Hg2 by (eapply malloc_grown; [apply Hl'|exact (Hroom2 _ _ Hm)|exact Hm2]).
  pose proof (lrep_grown _ _ _ Hl' Hg2) as Hl2.
  set (g := with_heap (heap s2) (mk_pg (pmem (v_pg s)) (kpheap_blocks (v_pg s)) (cpu_pse (v_pg s)) (current_page_directory (v_pg s)) s1)).
  assert (can_map g kernel_page_directory (vaddr vb) 65536 (base_addr b)) as Hcg by (destruct Hcm; split; done).
  pose proof (cm_virt _ _ _ _ _ Hcg) as (V1 & V2 & V3).
  assert (page_start (vaddr vb) = vaddr vb /\ page_bytes 65535 (vaddr vb) = 65536) as [Hps Hpb].
  { unfold page_start, page_bytes. rewrite V2. split; [lia|reflexivity]. }
  destruct (map_flexible_correct kernel_page_directory g 65535 (base_addr b) (vaddr vb) kernel_page_directory) as (g' & Hmap & Hmp);
    [lia|unfold is_u32; lia|rewrite Hpb; lia|by rewrite Hps, Hpb|]. rewrite Hps, Hpb in Hmp.
  exists (mk_vmspace g' (first s2) (nodes s2)), p, pk. split.
  { unfold map_prdt. assert (in_pg (lift_phys (reserve_block 65535 PHYS_KERNEL_BLOCK_TYPE)) s = Ok (base_addr b)
      (mk_vmspace (mk_pg (pmem (v_pg s)) (kpheap_blocks (v_pg s)) (cpu_pse (v_pg s)) (current_page_directory (v_pg s)) s1) (v_first s) (v_nodes s))) as E1
      by (unfold in_pg, lift_phys; by rewrite Hrun).
    rewrite (bind_ok _ _ _ _ _ E1). set (sa := mk_vmspace _ _ _).
    assert (in_kvm (kvm_reserve_block 65535) sa = Ok (vaddr vb) (mk_vmspace g (first s2) (nodes s2))) as E2
      by (unfold in_kvm, kvm_of, sa; cbn [v_pg v_first v_nodes phys]; by rewrite Hrun2).
    rewrite (bind_ok _ _ _ _ _ E2). unfold bind, in_pg at 1. cbn [v_pg v_first v_nodes]. by rewrite Hmap. }
  split; [exact (mp_translate _ _ _ _ _ _ Hmp)|].
  assert (phys g' = mk_lstate (first s1) (nodes s1) (heap s2)) as Hph by apply Hmp.
  split; cbn [v_pg]; [rewrite Hph; done|]. unfold kvm_of. cbn [v_pg v_first v_nodes]. rewrite Hph. cbn [heap]. destruct s2. done.
Qed.
End Prdt.

(** The block is at the start of a page only: the table can cross a 64 KiB boundary,
    which the controller does not allow. *)
Definition demo_free : lstate p_block bump :=
  mk_lstate 16 {[ 16 := mk_node (mk_p_block 1052672 131072 1) 0 0 ]} (mk_bump 40 {[ 16 ]}).
Lemma prdt_crosses_64k : exists s', reserve_block 65535 PHYS_KERNEL_BLOCK_TYPE demo_free = Ok 1052672 s' /\ 1052672 / 65536 < (1052672 + 65534) / 65536.
Proof. eexists. split; [vm_compute; reflexivity|done]. Qed.

(** A table in memory that is free, mapped with an empty directory. *)
Definition demo_vmspace : vmspace (H := bump) :=
  mk_vmspace (mk_pg (fun _ => 0) demo_blocks_used true demo_kernel_pd (mk_lstate 16 {[ 16 := mk_node (mk_p_block 1052672 131072 1) 0 0 ]} (mk_bump 64 {[ 16; 40 ]})))
    40 {[ 40 := mk_node (mk_vm_block 3766484992 131072 0) 0 0 ]}.
Lemma map_prdt_demo : exists s', map_prdt demo_kernel_pd demo_vmspace = Ok (1052672, 3766484992) s' /\
  translate (pmem (v_pg s')) demo_kernel_pd 3766485000 = Some 1052680.
Proof.
  destruct (map_prdt_ok demo_kernel_pd demo_vmspace [(16, mk_p_block 1052672 131072 1)] [(40, mk_vm_block 3766484992 131072 0)]
    [] 16 (mk_p_block 1052672 131072 1) [] [] 40 (mk_vm_block 3766484992 131072 0) []) as (s' & p & pk & Hrun & Htr & _).
  - split; (split; [|cbn; unfold range_ok, adj, b_end, is_u32; cbn; repeat split; try lia; auto]); unfold lrep, kvm_of, demo_vmspace; cbn [v_pg phys first nodes heap v_first v_nodes];
      (split; [done|]; split; [cbn [dll]; split; [eexists; split; [reflexivity|done]|done]|]; cbn; split; [apply NoDup_singleton|]; split; [repeat constructor; done|];
       split; [split; [lia|set_solver by lia]|]; repeat constructor; set_solver).
  - done.
  - reflexivity.
  - reflexivity.
  - cbn [vaddr base_addr v_pg demo_vmspace]. split.
    + split; [done|reflexivity| |intros i _ [Hn _]; done|intros i j _ _ _ [Hn _]; done].
      intros k Hk Heq. unfold demo_kernel_pd, heap_page, KPHEAP_VIRT_BASE in Heq. lia.
    + done.
    + done.
    + done.
    + done.
    + rewrite decide_True by (right; lia). vm_compute. discriminate.
    + intros Hs. exfalso. apply Hs. right. lia.
  - exists s'. split; [exact Hrun|]. clear Hrun. rewrite (Htr 3766485000) by (unfold is_u32; lia). reflexivity.
Qed.
